(* ===== verification/_CoqProject ===== *)
-Q . S2P
Prelude.v
Machine.v
JsString.v
Json.v
Stringify.v
WebAuthn.v
Http.v
QueryClient.v
Time.v
Hooks.v
TenantHooks.v
PlatformHooks.v
HookFamily.v
HookRefresh.v
Storage.v
Session.v
Access.v
Login.v
Requests.v
Console.v
Confirm.v
GroupsPage.v
SecondFactor.v
Seeded.v
I18n.v
Catalog.v
CatalogTrees.v
Picker.v
Templates.v
Actions.v
FirmwareActions.v
ProfileApply.v
ApplyTemplate.v
TemplateEditor.v
ChangeRows.v
ChangeTable.v
AdminPages.v
LibraryPages.v
Fleet.v
PluginsTab.v
Charts.v
Paging.v
Dict.v
Render.v
DictEn.v
DictIt.v
DictEs.v
DictFr.v
DictDe.v
DictPt.v
DictNl.v
DictRu.v
DictAr.v
DictZh.v
DictZhTW.v
DictJa.v
Messages.v
Formats.v
ReportSettings.v
Schedules.v
Views.v
CatalogTab.v
LogsPage.v
Timeline.v
Screens.v
Panels.v
Composites.v
Drawn.v
