(* ===== verification/Prelude.v ===== *)
(** * OPNGMS console: verification of the TypeScript front end

    OPNGMS manages fleets of OPNsense firewalls for several tenants.  This
    library models its console, the React application under
    [src/frontend/src], and proves what makes its parts correct.  It reads
    beside the code: a definition has the name of the function, hook, component
    or constant it translates, and the header of each file names its sources.

    ** Parts of the program and their models

    - Requests ([api/client.ts], [api/csrf.ts]): file [Http].  A request is
      data (method, path template, parameters, body, channel); the cookie
      parser, [decodeURIComponent] and the CSRF middleware are functions.
    - Passkeys ([security/webauthnClient.ts]): file [WebAuthn]; [Base64] is the
      codec over bytes, [Client] decodes the server's options, calls the
      authenticator (an argument) and serialises its answer.
    - Data hooks (all [*Hooks.ts] files and the queries inside pages): files
      [Hooks] (records [query], [mutation], effects, and the idioms with which
      a hook reads an answer), [TenantHooks] and [PlatformHooks] (one
      definition per hook), [HookFamily] (all hooks as one type, keys and
      isolation), [HookRefresh] (what writes and failures do), [Requests] (every
      request there is, with those of the login page and the log-out).
    - The whole console over time ([main.tsx], [components/AppShell.tsx]): file
      [Console], all hooks on one cache, with requests and answers in any order,
      tenant switches, signing in and out.
    - The cache of react-query, which the console only calls: the classes
      [Cache] and [CacheLaws] of [QueryClient], with an instance.
    - The session ([auth/*], [tenant/TenantProvider.tsx],
      [components/AppShell.tsx], [App.tsx]): file [Session], with the backend's
      access matrix [backend/app/core/rbac.py] as the reference, and [Access],
      the backend's side of it from the tables on ([core/access.py],
      [core/deps.py], the endpoints of the user and of the tenants) and what
      follows for the routes; [Storage] is [localStorage] with its failures.
    - The login page ([pages/LoginPage.tsx]): file [Login], a machine of clicks
      and answers with the requests under way.
    - Languages ([i18n/*]): [I18n] (detection, and the provider,
      whose imports of a dictionary land or fail), [Dict] and [DictEn] to
      [DictJa] (the twelve dictionaries), [Render] ([replace], [replaceAll] and
      texts with parameters), [Messages] (properties over all locales).
    - The configuration catalog ([catalog/*], [config/ConfigTree.tsx]):
      [Catalog] (inputs, form with grids, the proposed change), [CatalogTab] (the
      tab: selection, panes, queries that answer again, sessions of the form),
      [CatalogTrees] (links, menu search, configuration trees).
    - Templates and profiles ([templates/*], [profiles/*]): [Templates] (the
      parts of the editor), [TemplateEditor] (the editor with the forms it
      mounts and their requests, and the atomic editor it implements),
      [LibraryPages] (the lists, the form of a profile), [ApplyTemplate] and
      [ProfileApply] (their application to a device).
    - Actions on a device ([firmware/FirmwareActions.tsx],
      [config/ChangesPanel.tsx]): [FirmwareActions] and [Actions]; [ChangeRows]
      adds the popover of a change, the panel, and the forms that propose an
      alias and add a device; [ChangeTable] is the whole changes panel as one
      machine (its list, the rows that mount and unmount with it, their checks
      for drift, the alias form) with what it draws; [PluginsTab] the plugins.
    - Confirmation dialogs ([components/ConfirmModal.tsx] and the eight
      components that open one): [Confirm], one machine for all.
    - Administration: [GroupsPage] (groups and their grants), [AdminPages]
      (SMTP, runtime settings, live push), [SecondFactor] (enrolment, recovery
      codes, passkeys, policy, trusted devices, sessions).
    - Forms seeded from a query: [Seeded], the shape three pages share, with the
      guard of the seeding effect as an argument; [ReportSettings] instantiates
      it for the report settings and the retention card.  [Schedules] is the
      page of report schedules, with the endpoint that stores them, and the
      list of reports.
    - Monitoring and logs: [Charts] (series of a chart, colours of the world
      map), [Fleet] (log fleet page, log forwarding card), [Views] (the pages and
      cards that only show queries, the direction of the layout).
    - Lists in pages ([pages/AuditPage.tsx], and the server that pages by
      cursors, class [Keyset]): [Paging]; the device timelines
      ([reliability/ReliabilityTab.tsx], [configaudit/ConfigAuditTab.tsx]),
      machines beside a server that grows: [Timeline]; the log search
      ([pages/LogsPage.tsx]), a machine against the same server: [LogsPage].
    - What is drawn: [ApplyTemplate], [FirmwareActions], [LogsPage] and [Timeline]
      draw their own states; [Screens] and [Panels] draw the pages and cards whose state is
      modelled in the files above, [Stringify] prints a raw document;
      [Composites] puts components that share a state together (the profiles
      panel with its form and dialog, the actions of a device) and draws them;
      [Drawn] draws the remaining ones (the forms of a template, charts, the log
      forwarding card, recovery codes, plugins, the mail page, audit filters).
    - Dates ([monitoring/range.ts], the pickers of three pages): [Time] (civil
      calendar, [toISOString], presets, and the times the metrics endpoint
      takes) and [Picker] (local wall-clock texts).
    - Small formats: [Formats].
    - [JsString] and [Json] hold the strings and values of JavaScript the code
      uses; [Machine] what components with state share (runs, induction over
      histories); this file holds notations, tactics and general lemmas.

    ** State and effects

    Pure functions are functions; a hook is a record whose [q_fn] or [m_fn]
    maps the server's answer to a value or a thrown message ([outcome]) and
    whose [m_success] lists the effects on the cache.  A component with state
    is a record of its state variables, an inductive type of the events that
    reach it (clicks, typed texts, answers in any order) and a function [exec]
    that runs the handler and yields the requests it sends; an event the
    component does not offer in a state is [None].  Theorems about components
    speak about every history of events.  Server, browser storage,
    authenticator and time zone are arguments, universally quantified.

    ** What the theorems show

    - Session and login: C1, C6 to C8, C26, C27 (no way around the second
      factor; over every content of the API's tables its gates and the
      console's agree, and a page shows when the API serves it; the tenant
      selection survives reloads, a passkey flow ends and releases its button,
      consent to trust a device).
    - Hooks and requests: C2 to C5, C12, C13 (what is on screen is an answer to
      the active tenant's own request, in every history; no write disturbs
      another tenant's entries, CSRF header on every state-changing request, no
      two queries share a key by accident, reads after a write are fresh but for
      listed exceptions, failures surface but for empty error bodies).
    - Destructive actions: C9, C10, C30 (confirmed one by one, for what was shown).
    - Forms: C15 to C19, C24, C25 (grants are well typed, recovery codes are
      shown until the host takes them away, which tenant a form saves for,
      schedules survive the editor and the backend, exactly the differences are
      sent, and of the secrets the typed ones of the selected method).  C16 and C17 also prove where the code falls short.
    - Second factor and passkeys: C16, C20 to C23.
    - Catalog, trees and templates: C11, C14, C29, C32, C33 (a refinement), C36.
      Changes: C31.
    - Lists, charts and dates: C34, C35, C37, C38.  Languages: C28, C39, C40.

    The other theorems of the files are the smaller contracts these rest on or
    that stand beside them: codecs, formats, links, pickers, locale detection,
    colours, views.

    ** Bounds, fuel and limits

    [decodeURIComponent] runs with the length of its text as fuel, each turn
    consuming a character; [Bytes.scale] with 6, one more than the number of
    units it can pass; [AuditPage.walk] with one more than the number of rows.
    Texts are byte strings in UTF-8, so lengths count bytes;
    lower-casing is that of ASCII where the code compares tags, and an
    argument in the searches, like the order of [localeCompare].  Numbers of
    JSON are integers; the values of a chart are an argument, the shares of the map
    integers whose ratios are exact, not doubles.  A time zone is
    a pair of functions; the exact statements take a constant offset.  Keys of
    objects that look like integers, which JavaScript enumerates first, do not
    occur as grid paths.  A page of the audit log is read at one moment: the
    theorem speaks about a list of rows that does not change while walking.
    Of react-query [Console] takes that one request per key is under way, that
    its answer is stored under that key, and that [clear] drops requests under
    way; which ones an invalidation cancels is an argument, and C12 assumes what
    the library documents, that those of queries with data on screen are.
    Of the client, C13 assumes what it documents: data only of an answer
    within 2xx, an error only of one outside.
    The catalog tab is one mount for one device, and the backend is taken to
    give a model the same grids and access mode in every answer.
    A machine takes a button as enabled unless the code disables it, so it has
    at least the histories of the page.

    ** Not modelled

    The look of components and the drawing of charts, maps and QR codes by
    their libraries; the generated types [api/schema.d.ts]; theme and build;
    the backend but for its access rules, that is, how a session row and the
    tables decide what a request may do, the endpoint of report schedules, the
    times of the metrics endpoint, the options of a passkey login, and which
    rows the other endpoints write and list ([HookRefresh.resources_written],
    [HookRefresh.resources_read]). *)
From stdpp Require Export base gmap strings option list.
From stdpp Require Export options.

(** ** Notations that read like the source

    [x orelse d] is JavaScript's nullish coalescing [x ?? d] on a value that may be
    [null]/[undefined] (an [option]); [x === y] is strict equality. *)
Declare Scope js_scope.
Delimit Scope js_scope with js.
Notation "x 'orelse' d" := (default d x) (at level 60, right associativity) : js_scope.
Notation "x === y" := (bool_decide (x = y)) (at level 70, no associativity) : js_scope.
Open Scope js_scope.

(** ** Outcome of an asynchronous function: it returns or it throws. *)
Inductive outcome (E A : Type) : Type :=
| Returned (a : A)
| Threw (e : E).
Arguments Returned {E A} a.
Arguments Threw {E A} e.

Definition outcome_bind {E A B} (m : outcome E A) (k : A -> outcome E B) : outcome E B :=
  match m with Returned a => k a | Threw e => Threw e end.
Notation "'let!' x := m 'in' k" := (outcome_bind m (fun x => k))
  (at level 200, x name, m at level 100, k at level 200) : js_scope.

(** [try { m } catch { h }]: the handler does not look at the error. *)
Definition try_catch {E A} (m : outcome E A) (h : A) : A :=
  match m with Returned a => a | Threw _ => h end.

(** ** Hint databases and tactics of the development *)
Create HintDb js.

Ltac destruct_match_goal :=
  match goal with
  | |- context [match ?x with _ => _ end] =>
      lazymatch x with context [match _ with _ => _ end] => fail | _ => destruct x eqn:? end
  end.

Ltac destruct_match_hyp :=
  match goal with
  | H : context [match ?x with _ => _ end] |- _ =>
      lazymatch x with context [match _ with _ => _ end] => fail | _ => destruct x eqn:? end
  end.

(** Splits every conditional of goal and hypotheses, then cleans up. *)
Ltac js_cases :=
  repeat (first [progress simplify_eq/= | destruct_match_hyp | destruct_match_goal]).

(** ** Lists *)
Section list_lemmas.
Context {A B : Type}.
Implicit Types (l : list A).

Lemma filter_all (P : A -> Prop) `{!forall x, Decision (P x)} l :
  Forall P l -> filter P l = l.
Proof.
  induction 1 as [|x l Hx Hl IH]; [done|].
  by rewrite filter_cons_True, IH.
Qed.

Lemma filter_none (P : A -> Prop) `{!forall x, Decision (P x)} l :
  Forall (fun x => ~ P x) l -> filter P l = [].
Proof.
  induction 1 as [|x l Hx Hl IH]; [done|].
  by rewrite filter_cons_False, IH.
Qed.

Lemma fmap_fixed (f : A -> A) l : Forall (fun x => f x = x) l -> f <$> l = l.
Proof. induction 1 as [|x l Hx Hl IH]; [done|]. rewrite fmap_cons. by rewrite Hx, IH. Qed.
End list_lemmas.

(** ** Booleans *)
Lemma bool_decide_refl {A} `{EqDecision A} (x : A) : bool_decide (x = x) = true.
Proof. by apply bool_decide_eq_true. Qed.
#[export] Hint Rewrite @bool_decide_refl : js.

(** ** Reflexive transitive closure of a step relation *)
Section reachability.
Context {S : Type} (step : S -> S -> Prop).

Inductive steps : S -> S -> Prop :=
| steps_refl s : steps s s
| steps_cons s1 s2 s3 : step s1 s2 -> steps s2 s3 -> steps s1 s3.

Lemma steps_invariant (I : S -> Prop) :
  (forall s s', I s -> step s s' -> I s') ->
  forall s s', steps s s' -> I s -> I s'.
Proof. intros Hstep s s' H. induction H; eauto. Qed.

Lemma steps_trans s1 s2 s3 : steps s1 s2 -> steps s2 s3 -> steps s1 s3.
Proof. induction 1; eauto using steps. Qed.
End reachability.
#[export] Hint Constructors steps : js.
