(* ===== verification/Machine.v ===== *)
(** * Components as machines

    A component of the console with state is a function [exec]: the event it
    receives and its state give its next state and the requests it sends, or
    [None] when the component does not offer the event in that state (a
    disabled or absent control, an answer to no request).  This file holds
    what every such component shares: runs, their composition, and the
    induction principle for claims about histories. *)
From S2P Require Import Prelude.

Section machine.
Context {St Ev Rq : Type} (exec : Ev -> St -> option (St * list Rq)).

Fixpoint run (es : list Ev) (s : St) : option (St * list Rq) :=
  match es with
  | [] => Some (s, [])
  | e :: es => '(s1, rs) ← exec e s; '(s2, rs') ← run es s1; Some (s2, rs ++ rs')
  end.

Lemma run_cons e es s s' rs :
  run (e :: es) s = Some (s', rs) <->
  exists s1 rs1 rs2, exec e s = Some (s1, rs1) /\ run es s1 = Some (s', rs2) /\ rs = rs1 ++ rs2.
Proof using Type.
  simpl. split.
  - destruct (exec e s) as [[s1 rs1]|]; [|done]. simpl.
    destruct (run es s1) as [[s2 rs2]|] eqn:E; simpl; [|done]. intros [= <- <-]. eauto 10.
  - intros (s1 & rs1 & rs2 & -> & H & ->). simpl. by rewrite H.
Qed.

Lemma run_app es1 es2 s s' rs :
  run (es1 ++ es2) s = Some (s', rs) <->
  exists s1 rs1 rs2, run es1 s = Some (s1, rs1) /\ run es2 s1 = Some (s', rs2) /\ rs = rs1 ++ rs2.
Proof using Type.
  revert s rs. induction es1 as [|e es1 IH]; intros s rs.
  - cbn [app]. split.
    + intros H. exists s, [], rs. done.
    + intros (s1 & rs1 & rs2 & H & Hr & ->). simpl in H. by simplify_eq/=.
  - cbn [app]. rewrite run_cons. setoid_rewrite run_cons. setoid_rewrite IH. split.
    + intros (s1 & r1 & r2 & He & (s2 & r3 & r4 & H3 & H4 & ->) & ->). exists s2, (r1 ++ r3), r4.
      rewrite app_assoc. eauto 10.
    + intros (s2 & r3 & r4 & (s1 & r1 & r2 & He & H3 & ->) & H4 & ->). exists s1, r1, (r2 ++ r4).
      rewrite app_assoc. eauto 10.
Qed.

Lemma run_snoc es e s s' rs :
  run (es ++ [e]) s = Some (s', rs) <->
  exists s1 rs1 rs2, run es s = Some (s1, rs1) /\ exec e s1 = Some (s', rs2) /\ rs = rs1 ++ rs2.
Proof using Type.
  rewrite run_app. split; intros (s1 & r1 & r2 & H1 & H2 & ->); exists s1, r1, r2; split_and!; try done.
  - apply run_cons in H2 as (s2 & r3 & r4 & He & Hr & ->). simpl in Hr. simplify_eq. by rewrite app_nil_r.
  - apply run_cons. exists s', r2, []. by rewrite app_nil_r.
Qed.

(** A claim about histories holds at the start and is kept by every step. *)
Lemma run_history (I : list Ev -> St -> list Rq -> Prop) s0 :
  I [] s0 [] ->
  (forall es s rs e s' rs', run es s0 = Some (s, rs) -> I es s rs -> exec e s = Some (s', rs') ->
     I (es ++ [e]) s' (rs ++ rs')) ->
  forall es s rs, run es s0 = Some (s, rs) -> I es s rs.
Proof using Type.
  intros H0 Hstep es. induction es as [|e es IH] using rev_ind; intros s rs H.
  - simpl in H. by simplify_eq.
  - apply run_snoc in H as (s1 & r1 & r2 & H1 & H2 & ->). eauto.
Qed.

(** An invariant of the states. *)
Lemma run_state (I : St -> Prop) :
  (forall e s s' rs, I s -> exec e s = Some (s', rs) -> I s') ->
  forall es s s' rs, I s -> run es s = Some (s', rs) -> I s'.
Proof using Type.
  intros Hstep es. induction es as [|e es IH]; intros s s' rs Hs H.
  - simpl in H. by simplify_eq.
  - apply run_cons in H as (s1 & r1 & r2 & H1 & H2 & ->). eauto.
Qed.

(** Every request of a run is sent by one of its events. *)
Lemma run_request es s s' rs r :
  run es s = Some (s', rs) -> r ∈ rs ->
  exists es1 e es2 s1 rs1 s2 rs2,
    es = es1 ++ e :: es2 /\ run es1 s = Some (s1, rs1) /\ exec e s1 = Some (s2, rs2) /\ r ∈ rs2.
Proof using Type.
  revert s' rs. induction es as [|e es IH] using rev_ind; intros s' rs H Hr.
  - simpl in H. simplify_eq. set_solver.
  - apply run_snoc in H as (s1 & r1 & r2 & H1 & H2 & ->). apply elem_of_app in Hr as [Hr|Hr].
    + destruct (IH _ _ H1 Hr) as (a & e' & b & x & rx & y & ry & -> & ? & ? & ?).
      exists a, e', (b ++ [e]), x, rx, y, ry. by rewrite <- app_assoc.
    + exists es, e, [], s1, r1, s', r2. done.
Qed.

(** If every request sent in a good state is fine, all requests of a run are. *)
Lemma run_requests (I : St -> Prop) (P : Rq -> Prop) :
  (forall e s s' rs, I s -> exec e s = Some (s', rs) -> I s' /\ Forall P rs) ->
  forall es s s' rs, I s -> run es s = Some (s', rs) -> Forall P rs.
Proof using Type.
  intros Hstep es. induction es as [|e es IH]; intros s s' rs Hs H.
  - simpl in H. by simplify_eq.
  - apply run_cons in H as (s1 & r1 & r2 & H1 & H2 & ->).
    destruct (Hstep e s s1 r1 Hs H1). apply Forall_app. eauto.
Qed.
End machine.
