(* ===== verification/JsString.v ===== *)
(** * JavaScript string operations used by the console

    A JavaScript string is represented by the bytes of its UTF-8 encoding
    ([string]).  Every separator, pattern and literal the source splits or
    matches on is ASCII, and an ASCII byte never occurs inside a multi-byte
    sequence, so [split], [join], [includes], [startsWith] and [replace] act
    on bytes as they act on code units. *)
From S2P Require Import Prelude.
From Stdlib Require Import Ascii.

Abbreviation chars := String.list_ascii_of_string.
Abbreviation of_chars := String.string_of_list_ascii.

(** ** [String.prototype.split] with a one-character separator, [Array.prototype.join] *)
Fixpoint split (sep : ascii) (s : string) : list string :=
  match s with
  | EmptyString => [""]
  | String c s' =>
      if decide (c = sep) then "" :: split sep s'
      else match split sep s' with
           | [] => [String c ""]
           | w :: ws => String c w :: ws
           end
  end.

Fixpoint join (sep : string) (l : list string) : string :=
  match l with
  | [] => ""
  | [w] => w
  | w :: ws => w +:+ sep +:+ join sep ws
  end.

(** ** [trim]: ECMAScript WhiteSpace and LineTerminator code points, in UTF-8 *)
Definition ws1 (a : ascii) : bool :=
  let n := nat_of_ascii a in
  ((9 <=? n) && (n <=? 13)) || (n =? 32).

Definition ws2 (a b : ascii) : bool :=          (* U+00A0 *)
  (nat_of_ascii a =? 194) && (nat_of_ascii b =? 160).

Definition ws3 (a b c : ascii) : bool :=
  let a := nat_of_ascii a in let b := nat_of_ascii b in let c := nat_of_ascii c in
  ((a =? 225) && (b =? 154) && (c =? 128))                          (* U+1680 *)
  || ((a =? 226) && (b =? 128) &&
      (((128 <=? c) && (c <=? 138)) || (c =? 168) || (c =? 169) || (c =? 175)))
                                        (* U+2000-200A, 2028, 2029, 202F *)
  || ((a =? 226) && (b =? 129) && (c =? 159))                       (* U+205F *)
  || ((a =? 227) && (b =? 128) && (c =? 128))                       (* U+3000 *)
  || ((a =? 239) && (b =? 187) && (c =? 191)).                      (* U+FEFF *)

Section strip.
Variables (w1 : ascii -> bool) (w2 : ascii -> ascii -> bool)
          (w3 : ascii -> ascii -> ascii -> bool).

Fixpoint strip (l : list ascii) : list ascii :=
  match l with
  | [] => []
  | a :: l1 =>
      if w1 a then strip l1 else
      match l1 with
      | [] => l
      | b :: l2 =>
          if w2 a b then strip l2 else
          match l2 with
          | [] => l
          | c :: l3 => if w3 a b c then strip l3 else l
          end
      end
  end.

(** Does a white-space sequence open the list? *)
Definition starts_ws (l : list ascii) : bool :=
  match l with
  | [] => false
  | a :: l1 =>
      w1 a || match l1 with
              | [] => false
              | b :: l2 => w2 a b || match l2 with [] => false | c :: _ => w3 a b c end
              end
  end.

(** One iteration: nothing to strip, or one white-space sequence goes. *)
Lemma strip_step l :
  (starts_ws l = false /\ strip l = l) \/
  (exists p l', l = p ++ l' /\ length l' < length l /\ strip l = strip l').
Proof.
  destruct l as [|a l1]; [by left|].
  cbn [strip starts_ws]. destruct (w1 a) eqn:E1.
  { right. exists [a], l1. simpl. auto with lia. }
  destruct l1 as [|b l2]; [by left|].
  destruct (w2 a b) eqn:E2.
  { right. exists [a; b], l2. simpl. auto with lia. }
  destruct l2 as [|c l3]; [by left|].
  destruct (w3 a b c) eqn:E3; [|by left].
  right. exists [a; b; c], l3. simpl. auto with lia.
Qed.

Lemma strip_starts l : starts_ws (strip l) = false.
Proof.
  induction l as [l IH] using (induction_ltof1 _ (@length _)); unfold ltof in IH.
  destruct (strip_step l) as [[? ->]|(p & l' & _ & ? & ->)]; auto.
Qed.

Lemma strip_id l : starts_ws l = false -> strip l = l.
Proof.
  destruct l as [|a [|b [|c l]]]; simpl; intros H; try done;
    repeat match goal with
           | H : _ || _ = false |- _ => apply orb_false_iff in H as [? ?]
           | H : ?x = false |- context [?x] => rewrite H
           end; done.
Qed.

Lemma starts_ws_prefix l k : starts_ws (l ++ k) = false -> starts_ws l = false.
Proof.
  destruct l as [|a [|b [|c l]]]; simpl; intros H; try done;
    repeat match goal with
           | H : _ || _ = false |- _ => apply orb_false_iff in H as [? ?]
           | H : ?x = false |- context [?x] => rewrite H
           end; done.
Qed.

Lemma strip_suffix l : exists k, l = k ++ strip l.
Proof.
  induction l as [l IH] using (induction_ltof1 _ (@length _)); unfold ltof in IH.
  destruct (strip_step l) as [[_ ->]|(p & l' & Hl & Hlen & ->)]; [by exists []|].
  destruct (IH l' Hlen) as [k Hk]. exists (p ++ k).
  by rewrite <- app_assoc, <- Hk.
Qed.
End strip.

Definition strip_start : list ascii -> list ascii := strip ws1 ws2 ws3.
Definition strip_end (l : list ascii) : list ascii :=
  rev (strip ws1 (fun b a => ws2 a b) (fun c b a => ws3 a b c) (rev l)).

Definition trim (s : string) : string :=
  of_chars (strip_end (strip_start (chars s))).

Definition trimmed (s : string) : Prop := trim s = s.
#[export] Instance trimmed_dec s : Decision (trimmed s) := decide (trim s = s).

(** ** [split] and [join] are inverse to each other *)
Definition mem_char (c : ascii) (s : string) : bool := bool_decide (c ∈ chars s).

Lemma split_nonempty sep s : split sep s <> [].
Proof. destruct s as [|c s]; simpl; [done|]. case_decide; [done|]. by destruct (split sep s). Qed.

Lemma join_cons sep w ws :
  ws <> [] -> join sep (w :: ws) = w +:+ sep +:+ join sep ws.
Proof. by destruct ws. Qed.

Lemma join_split sep s : join (String sep "") (split sep s) = s.
Proof.
  induction s as [|c s IH]; [done|]. simpl.
  pose proof (split_nonempty sep s) as Hne.
  case_decide as Hc.
  - subst c. rewrite join_cons by done. by rewrite IH.
  - destruct (split sep s) as [|w [|w' ws]]; [done|..].
    + by rewrite <- IH.
    + rewrite <- IH. reflexivity.
Qed.

Lemma chars_app s1 s2 : chars (s1 +:+ s2) = chars s1 ++ chars s2.
Proof. induction s1 as [|c s1 IH]; [done|]. simpl. by rewrite <- IH. Qed.
#[export] Hint Rewrite chars_app : js.

Lemma mem_char_app c s1 s2 : mem_char c (s1 +:+ s2) = mem_char c s1 || mem_char c s2.
Proof.
  unfold mem_char. rewrite chars_app.
  apply Bool.eq_iff_eq_true. rewrite orb_true_iff, !bool_decide_eq_true. set_solver.
Qed.

Lemma split_app_sep sep w s :
  mem_char sep w = false -> split sep (w +:+ String sep s) = w :: split sep s.
Proof.
  induction w as [|c w IH]; intros Hw.
  - simpl. by rewrite decide_True.
  - change (String c w +:+ String sep s) with (String c (w +:+ String sep s)).
    unfold mem_char in *. simpl in *.
    apply bool_decide_eq_false in Hw. rewrite not_elem_of_cons in Hw. destruct Hw as [Hc Hw].
    rewrite decide_False by congruence. by rewrite IH by by apply bool_decide_eq_false.
Qed.

Lemma split_atom sep w : mem_char sep w = false -> split sep w = [w].
Proof.
  induction w as [|c w IH]; intros Hw; [done|].
  unfold mem_char in *. simpl in *.
  apply bool_decide_eq_false in Hw. rewrite not_elem_of_cons in Hw. destruct Hw as [Hc Hw].
  rewrite decide_False by congruence. by rewrite IH by by apply bool_decide_eq_false.
Qed.

Lemma split_join sep l :
  l <> [] -> Forall (fun w => mem_char sep w = false) l ->
  split sep (join (String sep "") l) = l.
Proof.
  intros Hne Hl. induction Hl as [|w l Hw Hl IH]; [done|].
  destruct l as [|w' l]; [by apply split_atom|].
  rewrite join_cons by done.
  change (String sep "" +:+ join (String sep "") (w' :: l))
    with (String sep (join (String sep "") (w' :: l))).
  rewrite split_app_sep by done. by rewrite IH.
Qed.

Lemma split_atoms sep s : Forall (fun w => mem_char sep w = false) (split sep s).
Proof.
  induction s as [|c s IH]; simpl; [by repeat constructor|].
  case_decide as Hc; [by constructor|].
  destruct (split sep s) as [|w ws]; [repeat constructor|].
  - unfold mem_char. simpl. apply bool_decide_eq_false.
    rewrite elem_of_cons, elem_of_nil. intros [?|[]]; congruence.
  - inversion IH; subst. constructor; [|done].
    unfold mem_char in *. simpl. rewrite bool_decide_eq_false in *.
    rewrite elem_of_cons. intros [?|?]; congruence.
Qed.

(** ** [trim] is idempotent and only removes characters *)
Lemma chars_of_chars l : chars (of_chars l) = l.
Proof. apply String.list_ascii_of_string_of_list_ascii. Qed.
Lemma of_chars_chars s : of_chars (chars s) = s.
Proof. apply String.string_of_list_ascii_of_string. Qed.
#[export] Hint Rewrite chars_of_chars of_chars_chars : js.

Lemma strip_end_prefix l : exists k, l = strip_end l ++ k.
Proof.
  unfold strip_end.
  destruct (strip_suffix ws1 (fun b a => ws2 a b) (fun c b a => ws3 a b c) (rev l)) as [k Hk].
  exists (rev k). rewrite <- rev_app_distr, <- Hk. by rewrite rev_involutive.
Qed.

Lemma strip_end_idemp l : strip_end (strip_end l) = strip_end l.
Proof.
  unfold strip_end. rewrite rev_involutive. f_equal. apply strip_id, strip_starts.
Qed.

Lemma strip_start_end l :
  starts_ws ws1 ws2 ws3 l = false -> strip_start (strip_end l) = strip_end l.
Proof.
  intros H. apply strip_id. destruct (strip_end_prefix l) as [k Hk].
  rewrite Hk in H. by eapply starts_ws_prefix.
Qed.

Lemma trim_idemp s : trim (trim s) = trim s.
Proof.
  unfold trim. rewrite chars_of_chars, strip_start_end.
  - by rewrite strip_end_idemp.
  - apply strip_starts.
Qed.

Lemma trim_mem c s : mem_char c s = false -> mem_char c (trim s) = false.
Proof.
  unfold mem_char, trim. rewrite !bool_decide_eq_false, chars_of_chars. intros Hs Hc. apply Hs.
  destruct (strip_suffix ws1 ws2 ws3 (chars s)) as [k1 Hk1].
  destruct (strip_end_prefix (strip_start (chars s))) as [k2 Hk2].
  rewrite Hk1, elem_of_app. right. change (c ∈ strip_start (chars s)).
  rewrite Hk2, elem_of_app. by left.
Qed.
#[export] Hint Resolve trim_idemp trim_mem split_atoms split_nonempty : js.

(** ** Text areas: one entry per line, or comma-separated entries

    The source repeats [s.split(sep).map((x) => x.trim()).filter(Boolean)];
    [filter(Boolean)] keeps the non-empty strings. *)
Definition entries (sep : ascii) (s : string) : list string :=
  filter (fun w => w <> "") (trim <$> split sep s).

Definition entry (sep : ascii) (w : string) : Prop :=
  w <> "" /\ trimmed w /\ mem_char sep w = false.

Lemma entries_ok sep s : Forall (entry sep) (entries sep s).
Proof.
  apply list.Forall_forall. intros w [Hne Hw]%list_elem_of_filter.
  apply list_elem_of_fmap in Hw as (v & -> & Hv).
  pose proof (split_atoms sep s) as Hs. rewrite list.Forall_forall in Hs.
  split; [done|]. split; [apply trim_idemp|]. apply trim_mem. by apply Hs.
Qed.

Lemma entries_join sep l :
  Forall (entry sep) l -> entries sep (join (String sep "") l) = l.
Proof.
  intros Hl. destruct l as [|w l]; [reflexivity|].
  unfold entries. rewrite split_join; [|done|].
  - rewrite fmap_fixed, filter_all; [done|..];
      (eapply Forall_impl; [exact Hl|]); by intros ? (?&?&?).
  - eapply Forall_impl; [exact Hl|]. by intros ? (?&?&?).
Qed.

Lemma entries_normal sep s :
  entries sep (join (String sep "") (entries sep s)) = entries sep s.
Proof. apply entries_join, entries_ok. Qed.

(** ** Case, on ASCII letters *)
Definition ascii_lower_char (c : ascii) : ascii :=
  let n := nat_of_ascii c in if (65 <=? n) && (n <=? 90) then ascii_of_nat (n + 32) else c.
Definition ascii_lower (s : string) : string := of_chars (ascii_lower_char <$> chars s).
