(* ===== verification/Json.v ===== *)
(** * JSON values as the console reads them

    The values [response.json()] yields, with the JavaScript tests the source
    applies to them: truthiness, [typeof x === "string"], property access.
    Object properties are listed in insertion order with distinct keys.
    Numbers are integers: the console only forwards identifiers, limits,
    timeouts and counts. *)
From S2P Require Import Prelude.
From Stdlib Require Import ZArith.

Inductive json : Type :=
| JNull
| JBool (b : bool)
| JNum (n : Z)
| JStr (s : string)
| JArr (l : list json)
| JObj (fields : list (string * json)).

(** [undefined] is [None]. *)
Definition truthy (v : option json) : bool :=
  match v with
  | None | Some JNull | Some (JBool false) => false
  | Some (JNum n) => negb (n =? 0)%Z
  | Some (JStr s) => negb (bool_decide (s = ""))
  | _ => true
  end.

(** [x ?? d] keeps every value but [null] and [undefined]. *)
Definition nullish (v : option json) : bool :=
  match v with None | Some JNull => true | _ => false end.
Definition json_or (v : option json) (d : json) : json :=
  match v with None | Some JNull => d | Some x => x end.

Fixpoint assoc {A} (k : string) (l : list (string * A)) : option A :=
  match l with
  | [] => None
  | (k', v) :: l' => if decide (k = k') then Some v else assoc k l'
  end.

(** [o.k] on a value already known to be an object. *)
Definition field (k : string) (v : json) : option json :=
  match v with JObj l => assoc k l | _ => None end.

Lemma assoc_elem {A} k (v : A) l : assoc k l = Some v -> (k, v) ∈ l.
Proof.
  induction l as [|[k' v'] l IH]; simpl; [done|].
  case_decide; intros; simplify_eq; [by left|]. right. auto.
Qed.

Lemma truthy_not_nullish v : truthy v = true -> nullish v = false.
Proof. by destruct v as [[]|]. Qed.
#[export] Hint Resolve truthy_not_nullish : js.

#[export] Instance json_eq_dec : EqDecision json.
Proof.
  refine (
    fix go (x y : json) : Decision (x = y) :=
    let _ : EqDecision json := go in
    match x, y with
    | JNull, JNull => left eq_refl
    | JBool a, JBool b => cast_if (decide (a = b))
    | JNum a, JNum b => cast_if (decide (a = b))
    | JStr a, JStr b => cast_if (decide (a = b))
    | JArr a, JArr b => cast_if (decide (a = b))
    | JObj a, JObj b => cast_if (decide (a = b))
    | _, _ => right _
    end); abstract congruence.
Defined.
