(* ===== verification/Stringify.v ===== *)
(** * [JSON.stringify(v, null, 2)], with which three pages show a raw document *)
From stdpp Require Import pretty.
From S2P Require Import Prelude JsString Json.
From Stdlib Require Import ZArith Ascii.

Definition char (n : nat) : string := String (ascii_of_nat n) "".
Definition hex (n : nat) : ascii := ascii_of_nat (if n <? 10 then 48 + n else 87 + n).
Definition escape (c : ascii) : string :=
  let n := nat_of_ascii c in
  if n =? 34 then char 92 +:+ char 34 else
  if n =? 92 then char 92 +:+ char 92 else
  if n =? 8 then char 92 +:+ "b" else if n =? 9 then char 92 +:+ "t" else
  if n =? 10 then char 92 +:+ "n" else if n =? 12 then char 92 +:+ "f" else
  if n =? 13 then char 92 +:+ "r" else
  if n <? 32 then char 92 +:+ "u00" +:+ String (hex (n / 16)) (String (hex (n mod 16)) "") else String c "".
Fixpoint escaped (s : string) : string :=
  match s with String c s => escape c +:+ escaped s | EmptyString => "" end.
Definition quote (s : string) : string := char 34 +:+ escaped s +:+ char 34.

(** Members between brackets, one per line, two further to the right. *)
Definition members (open_ close ind : string) (l : list string) : string :=
  match l with
  | [] => open_ +:+ close
  | _ => open_ +:+ char 10 +:+ ind +:+ "  " +:+ JsString.join ("," +:+ char 10 +:+ ind +:+ "  ") l
           +:+ char 10 +:+ ind +:+ close
  end.
Fixpoint stringify (ind : string) (j : json) : string :=
  match j with
  | JNull => "null"
  | JBool b => if b then "true" else "false"
  | JNum n => pretty n
  | JStr s => quote s
  | JArr l => members "[" "]" ind (List.map (stringify (ind +:+ "  ")) l)
  | JObj l => members "{" "}" ind (List.map (fun kv => quote kv.1 +:+ ": " +:+ stringify (ind +:+ "  ") kv.2) l)
  end.

Example stringify_nested :
  stringify "" (JObj [("a", JNum (-1)); ("b", JArr []); ("c", JArr [JBool true; JNull])]) =
  JsString.join (char 10)
    ["{"; "  " +:+ quote "a" +:+ ": -1,"; "  " +:+ quote "b" +:+ ": [],"; "  " +:+ quote "c" +:+ ": [";
     "    true,"; "    null"; "  ]"; "}"].
Proof. vm_compute. reflexivity. Qed.

(** A quoted text stays on its line. *)
Fixpoint one_line (s : string) : Prop :=
  match s with String c s => 32 <= nat_of_ascii c /\ one_line s | EmptyString => True end.
Lemma one_line_app a b : one_line a -> one_line b -> one_line (a +:+ b).
Proof. intros Ha Hb. induction a as [|c a IH]; simpl in *; [done|]. naive_solver. Qed.
Lemma escape_one_line c : one_line (escape c).
Proof. destruct c as [[] [] [] [] [] [] [] []]; vm_compute; repeat split; lia. Qed.
Lemma quote_one_line s : one_line (quote s).
Proof.
  assert (Hq : one_line (char 34)) by (vm_compute; split; [lia|done]).
  unfold quote. apply one_line_app; [done|]. apply one_line_app; [|done].
  induction s as [|c s IH]; simpl; [done|]. apply one_line_app; [apply escape_one_line|done].
Qed.
