(* ===== verification/WebAuthn.v ===== *)
(** * WebAuthn plumbing of [security/webauthnClient.ts]

    base64url conversion (with the [btoa]/[atob] algorithms of the WHATWG
    Infra standard), the decoding of the server's options and the
    serialisation of the authenticator's answer.  The authenticator itself
    ([navigator.credentials]) is a parameter. *)
From S2P Require Import Prelude JsString Json.
From Stdlib Require Import ZArith Ascii.
From Stdlib.Strings Require Import Byte.

Module Base64.

(** An [ArrayBuffer] is its list of bytes. *)
Definition bval (b : byte) : Z := Z.of_N (to_N b).
Definition byte_of (z : Z) : byte :=
  match of_N (Z.to_N (z mod 256)) with Some b => b | None => x00 end.

Definition alphabet : list ascii :=
  chars "ABCDEFGHIJKLMNOPQRSTUVWXYZabcdefghijklmnopqrstuvwxyz0123456789+/".

Definition b64_char (v : Z) : ascii := nth (Z.to_nat v) alphabet "A"%char.
Definition b64_value (c : ascii) : option Z :=
  (fun p => Z.of_nat p.1) <$> list_find (c =.) alphabet.

(** ** [btoa] on a binary string *)
Fixpoint btoa (bin : list byte) : list ascii :=
  match bin with
  | [] => []
  | [a] =>
      let n := (bval a * 65536)%Z in
      [b64_char (n / 262144 mod 64); b64_char (n / 4096 mod 64); "="; "="]%char
  | [a; b] =>
      let n := (bval a * 65536 + bval b * 256)%Z in
      [b64_char (n / 262144 mod 64); b64_char (n / 4096 mod 64);
       b64_char (n / 64 mod 64); "="%char]
  | a :: b :: c :: bin' =>
      let n := (bval a * 65536 + bval b * 256 + bval c)%Z in
      b64_char (n / 262144 mod 64) :: b64_char (n / 4096 mod 64) ::
      b64_char (n / 64 mod 64) :: b64_char (n mod 64) :: btoa bin'
  end.

(** ** [atob]: the forgiving-base64 decode; [None] is the thrown error *)
Definition ascii_ws (c : ascii) : bool :=
  let n := nat_of_ascii c in (n =? 9) || (n =? 10) || (n =? 12) || (n =? 13) || (n =? 32).

Definition drop_last_eq (l : list ascii) : list ascii :=
  match rev l with
  | c :: r => if decide (c = "="%char) then rev r else l
  | [] => l
  end.

Fixpoint decode_sextets (l : list Z) : list byte :=
  match l with
  | a :: b :: c :: d :: l' =>
      let n := (a * 262144 + b * 4096 + c * 64 + d)%Z in
      byte_of (n / 65536) :: byte_of (n / 256) :: byte_of n :: decode_sextets l'
  | [a; b; c] =>
      let n := (a * 4096 + b * 64 + c)%Z in
      [byte_of (n / 1024); byte_of (n / 4)]
  | [a; b] => let n := (a * 64 + b)%Z in [byte_of (n / 16)]
  | _ => []
  end.

Definition atob (s : list ascii) : option (list byte) :=
  let s := filter (fun c => ascii_ws c = false) s in
  let s := if length s mod 4 =? 0 then drop_last_eq (drop_last_eq s) else s in
  if length s mod 4 =? 1 then None else decode_sextets <$> mapM b64_value s.

(** ** The two conversions of the source *)
Definition to_std (c : ascii) : ascii :=
  if decide (c = "-"%char) then "+"%char else if decide (c = "_"%char) then "/"%char else c.
Definition to_url (c : ascii) : ascii :=
  if decide (c = "+"%char) then "-"%char else if decide (c = "/"%char) then "_"%char else c.

(** [.replace(/=+$/, "")] *)
Fixpoint strip_pad (l : list ascii) : list ascii :=
  match l with
  | [] => []
  | c :: r => match strip_pad r with
              | [] => if decide (c = "="%char) then [] else [c]
              | r' => c :: r'
              end
  end.

Inductive js_error := InvalidCharacterError | TypeError | PlainError (msg : string).

Definition base64urlToBytes (value : string) : outcome js_error (list byte) :=
  let padded := to_std <$> chars value in
  let pad := if length padded mod 4 =? 0 then []
             else replicate (4 - length padded mod 4) "="%char in
  match atob (padded ++ pad) with
  | Some bytes => Returned bytes
  | None => Threw InvalidCharacterError
  end.

Definition bytesToBase64url (bytes : list byte) : string :=
  of_chars (strip_pad (to_url <$> btoa bytes)).

Example enc1 : bytesToBase64url [xfb; xff] = "-_8".
Proof. reflexivity. Qed.
Example dec1 : base64urlToBytes "-_8" = Returned [xfb; xff].
Proof. reflexivity. Qed.
Example dec2 : base64urlToBytes "A" = Threw InvalidCharacterError.
Proof. reflexivity. Qed.

(** ** Facts on the alphabet, checked by evaluation on its 64 values *)
Definition sextet (v : Z) : Prop := (0 <= v < 64)%Z.

Lemma sextet_mod n : sextet (n mod 64).
Proof. unfold sextet. pose proof (Z.mod_pos_bound n 64). lia. Qed.

Lemma sextet_cases (P : Z -> Prop) :
  Forall P (Z.of_nat <$> seq 0 64) -> forall v, sextet v -> P v.
Proof.
  intros HP v Hv. rewrite list.Forall_forall in HP. apply HP.
  apply list_elem_of_fmap. exists (Z.to_nat v). unfold sextet in Hv.
  split; [lia|]. apply elem_of_seq. lia.
Qed.

Lemma b64_value_char v : sextet v -> b64_value (b64_char v) = Some v.
Proof. revert v. apply sextet_cases. apply (bool_decide_unpack _). vm_compute. exact I. Qed.

Definition plain (c : ascii) : Prop :=
  ascii_ws c = false /\ c <> "="%char /\ to_std (to_url c) = c /\ to_url c <> "="%char.
#[local] Instance plain_dec c : Decision (plain c).
Proof. unfold plain. apply _. Defined.

Lemma b64_char_plain v : sextet v -> plain (b64_char v).
Proof.
  revert v. apply sextet_cases.
  apply (bool_decide_unpack _). vm_compute. exact I.
Qed.

(** ** Bytes *)
Lemma bval_bound b : (0 <= bval b < 256)%Z.
Proof. unfold bval. pose proof (to_N_bounded b). lia. Qed.

Lemma byte_of_bval b z : (z mod 256 = bval b)%Z -> byte_of z = b.
Proof.
  intros H. unfold byte_of, bval in *. rewrite H, N2Z.id. by rewrite of_to_N.
Qed.

(** ** The unpadded encoding *)
Fixpoint core (bin : list byte) : list Z :=
  match bin with
  | [] => []
  | [a] => let n := (bval a * 65536)%Z in [n / 262144 mod 64; n / 4096 mod 64]%Z
  | [a; b] =>
      let n := (bval a * 65536 + bval b * 256)%Z in
      [n / 262144 mod 64; n / 4096 mod 64; n / 64 mod 64]%Z
  | a :: b :: c :: bin' =>
      let n := (bval a * 65536 + bval b * 256 + bval c)%Z in
      (n / 262144 mod 64 :: n / 4096 mod 64 :: n / 64 mod 64 :: n mod 64 :: core bin')%Z
  end.

Lemma bin_ind (P : list byte -> Prop) :
  P [] -> (forall a, P [a]) -> (forall a b, P [a; b]) ->
  (forall a b c l, P l -> P (a :: b :: c :: l)) -> forall l, P l.
Proof.
  intros H0 H1 H2 H3 l.
  induction l as [l IH] using (induction_ltof1 _ (@length _)); unfold ltof in IH.
  destruct l as [|a [|b [|c l]]]; auto. apply H3, IH. simpl. lia.
Qed.

Lemma core_sextets l : Forall sextet (core l).
Proof.
  induction l using bin_ind; cbn [core]; repeat apply Forall_cons_2;
    auto using sextet_mod, Forall_nil_2.
Qed.

Lemma mod4_step n : S (S (S (S n))) mod 4 = n mod 4.
Proof. rewrite <- (Nat.Div0.mod_add n 1 4). f_equal. lia. Qed.

Lemma core_length l : length (core l) mod 4 <> 1.
Proof.
  induction l as [| | |a b c l IH] using bin_ind; cbn [core length]; [done..|].
  by rewrite mod4_step.
Qed.

Lemma btoa_core l :
  exists k, btoa l = (b64_char <$> core l) ++ replicate k "="%char /\
            k = (if length (core l) mod 4 =? 0 then 0 else 4 - length (core l) mod 4).
Proof.
  induction l as [|a|a b|a b c l (k & Hk & Hn)] using bin_ind; cbn [btoa core].
  - by exists 0.
  - by exists 2.
  - by exists 1.
  - exists k. rewrite !fmap_cons, Hk. split; [done|].
    rewrite Hn. cbn [length].
    by rewrite mod4_step.
Qed.

(** Digits in base 64 and base 256 of a 24-bit group. *)
Lemma recombine n :
  (0 <= n < 16777216)%Z ->
  (n / 262144 mod 64 * 262144 + n / 4096 mod 64 * 4096 + n / 64 mod 64 * 64 + n mod 64 = n)%Z.
Proof.
  intros Hn.
  rewrite (Z.mod_small (n / 262144)) by (split; [apply Z.div_pos; lia|apply Z.div_lt_upper_bound; lia]).
  replace (n / 262144)%Z with (n / 64 / 64 / 64)%Z by by rewrite !Z.div_div.
  replace (n / 4096)%Z with (n / 64 / 64)%Z by by rewrite !Z.div_div.
  pose proof (Z.div_mod n 64). pose proof (Z.div_mod (n / 64) 64).
  pose proof (Z.div_mod (n / 64 / 64) 64). lia.
Qed.

Lemma split_bytes a b c :
  (0 <= b < 256)%Z -> (0 <= c < 256)%Z ->
  let n := (a * 65536 + b * 256 + c)%Z in
  (n / 65536 = a)%Z /\ (n / 256 mod 256 = b)%Z /\ (n mod 256 = c)%Z.
Proof.
  intros Hb Hc n. unfold n. split; [|split].
  - symmetry. apply (Z.div_unique_pos _ _ _ (b * 256 + c)); lia.
  - replace ((a * 65536 + b * 256 + c) / 256)%Z with (a * 256 + b)%Z
      by (apply (Z.div_unique_pos _ _ _ c); lia).
    symmetry. apply (Z.mod_unique_pos _ _ a); lia.
  - symmetry. apply (Z.mod_unique_pos _ _ (a * 256 + b)); lia.
Qed.

Lemma decode_core l : decode_sextets (core l) = l.
Proof.
  induction l as [|a|a b|a b c l IH] using bin_ind; cbn [core decode_sextets]; [done|..];
    rewrite ?IH.
  - pose proof (bval_bound a).
    pose proof (recombine (bval a * 65536) ltac:(lia)) as Hr.
    f_equal. apply byte_of_bval.
    replace (bval a * 65536)%Z with (bval a * 65536 + 0 * 256 + 0)%Z in * by lia.
    Z.to_euclidean_division_equations; lia.
  - pose proof (bval_bound a). pose proof (bval_bound b).
    set (n := (bval a * 65536 + bval b * 256)%Z) in *.
    pose proof (recombine n ltac:(lia)) as Hr.
    destruct (split_bytes (bval a) (bval b) 0) as (E1 & E2 & E3); [lia..|].
    rewrite Z.add_0_r in *. fold n in E1, E2, E3.
    assert (Hn : (n / 262144 mod 64 * 4096 + n / 4096 mod 64 * 64 + n / 64 mod 64 = n / 64)%Z).
    { assert (n mod 64 = 0)%Z by (unfold n; Z.to_euclidean_division_equations; lia).
      apply Z.div_unique_pos with 0%Z; lia. }
    rewrite Hn. f_equal; [|f_equal]; apply byte_of_bval.
    + rewrite Z.div_div by lia. change (64 * 1024)%Z with 65536%Z. rewrite E1.
      apply Z.mod_small. lia.
    + rewrite Z.div_div by lia. by change (64 * 4)%Z with 256%Z.
  - pose proof (bval_bound a). pose proof (bval_bound b). pose proof (bval_bound c).
    set (n := (bval a * 65536 + bval b * 256 + bval c)%Z) in *.
    rewrite (recombine n ltac:(lia)).
    destruct (split_bytes (bval a) (bval b) (bval c)) as (E1 & E2 & E3); [lia..|].
    fold n in E1, E2, E3.
    f_equal; [|f_equal; [|f_equal]]; apply byte_of_bval; [|done..].
    rewrite E1. apply Z.mod_small. lia.
Qed.

Lemma mapM_values l : Forall sextet l -> mapM b64_value (b64_char <$> l) = Some l.
Proof.
  induction 1 as [|v l Hv Hl IH]; [done|]. rewrite fmap_cons. cbn [mapM].
  by rewrite b64_value_char, IH.
Qed.

Lemma core_plain l : Forall plain (b64_char <$> core l).
Proof.
  apply Forall_fmap. eapply Forall_impl; [apply core_sextets|]. intros v. apply b64_char_plain.
Qed.

Lemma strip_pad_app l k : Forall (fun c => c <> "="%char) l -> strip_pad (l ++ replicate k "="%char) = l.
Proof.
  assert (Hr : strip_pad (replicate k "="%char) = []).
  { induction k as [|k IH]; [done|]. simpl. by rewrite IH. }
  induction 1 as [|c l Hc Hl IH]; [done|]. simpl. rewrite IH.
  destruct l; [by rewrite decide_False|done].
Qed.

(** [atob] on unpadded alphabet text followed by the padding the source adds. *)
Definition padding (n : nat) : list ascii :=
  if n mod 4 =? 0 then [] else replicate (4 - n mod 4) "="%char.

Lemma drop_last_eq_no l : Forall (fun c => c <> "="%char) l -> drop_last_eq l = l.
Proof.
  intros Hl. unfold drop_last_eq. destruct (rev l) as [|c r] eqn:E; [done|].
  rewrite decide_False; [done|]. rewrite list.Forall_forall in Hl. apply Hl.
  apply list_elem_of_In, in_rev. rewrite E. by left.
Qed.

Lemma drop_last_eq_snoc l : drop_last_eq (l ++ ["="%char]) = l.
Proof. unfold drop_last_eq. rewrite rev_app_distr. simpl. by rewrite rev_involutive. Qed.

Lemma pad_mod n : n mod 4 <> 0 -> (n + (4 - n mod 4)) mod 4 = 0.
Proof.
  intros Hn. pose proof (Nat.mod_upper_bound n 4 ltac:(lia)). pose proof (Nat.div_mod_eq n 4).
  replace (n + (4 - n mod 4)) with ((n / 4 + 1) * 4) by lia. apply Nat.Div0.mod_mul.
Qed.

Lemma filter_pad k :
  filter (fun c => ascii_ws c = false) (replicate k "="%char) = replicate k "="%char.
Proof. apply filter_all, Forall_replicate. done. Qed.

Lemma values_snoc_eq l : mapM b64_value (l ++ ["="%char]) = None.
Proof.
  induction l as [|c l IH]; [done|]. simpl. destruct (b64_value c); [|done]. simpl. by rewrite IH.
Qed.

Lemma drop_pad l k :
  Forall (fun c => c <> "="%char) l -> 0 < k <= 3 ->
  drop_last_eq (drop_last_eq (l ++ replicate k "="%char)) = l ++ replicate (k - 2) "="%char.
Proof.
  intros Hl Hk.
  assert (k = 1 \/ k = 2 \/ k = 3) as [->|[->| ->]] by lia; cbn [replicate Nat.sub].
  - by rewrite drop_last_eq_snoc, app_nil_r, drop_last_eq_no.
  - replace (l ++ _) with ((l ++ ["="%char]) ++ ["="%char]) by by rewrite <- !app_assoc.
    by rewrite !drop_last_eq_snoc, app_nil_r.
  - replace (l ++ _) with (((l ++ ["="%char]) ++ ["="%char]) ++ ["="%char])
      by by rewrite <- !app_assoc.
    by rewrite !drop_last_eq_snoc.
Qed.

Lemma atob_padded l :
  Forall (fun c => ascii_ws c = false /\ c <> "="%char) l ->
  atob (l ++ padding (length l)) =
    if length l mod 4 =? 1 then None else decode_sextets <$> mapM b64_value l.
Proof.
  intros Hl. unfold atob, padding.
  assert (Hne : Forall (fun c => c <> "="%char) l)
    by (eapply Forall_impl; [exact Hl|]; by intros ? [? ?]).
  assert (Hws : filter (fun c => ascii_ws c = false) l = l)
    by (apply filter_all; eapply Forall_impl; [exact Hl|]; by intros ? [? ?]).
  destruct (Nat.eqb_spec (length l mod 4) 0) as [E|E].
  { rewrite app_nil_r, Hws, E. cbn [Nat.eqb].
    rewrite (drop_last_eq_no l), (drop_last_eq_no l) by done. by rewrite E. }
  rewrite filter_app, Hws, filter_pad, length_app, length_replicate, pad_mod by done.
  cbn [Nat.eqb]. pose proof (Nat.mod_upper_bound (length l) 4 ltac:(lia)).
  rewrite drop_pad by (done || lia). rewrite length_app, length_replicate.
  destruct (Nat.eqb_spec (length l mod 4) 1) as [E1|E1].
  - rewrite E1. cbn [Nat.sub replicate]. rewrite values_snoc_eq. by destruct (_ =? 1).
  - replace (4 - length l mod 4 - 2) with 0 by lia. cbn [replicate].
    rewrite app_nil_r, Nat.add_0_r. by destruct (Nat.eqb_spec (length l mod 4) 1).
Qed.

(** The characters of an encoding. *)
Definition url_char (c : ascii) : Prop :=
  c ∈ chars "ABCDEFGHIJKLMNOPQRSTUVWXYZabcdefghijklmnopqrstuvwxyz0123456789-_".
#[export] Instance url_char_dec c : Decision (url_char c).
Proof. unfold url_char. apply _. Defined.

Lemma url_char_value c :
  url_char c ->
  (ascii_ws (to_std c) = false /\ to_std c <> "="%char) /\ is_Some (b64_value (to_std c)).
Proof.
  revert c. apply list.Forall_forall.
  apply (bool_decide_unpack _). vm_compute. exact I.
Qed.

Lemma encode_core bytes :
  chars (bytesToBase64url bytes) = to_url <$> (b64_char <$> core bytes).
Proof.
  unfold bytesToBase64url. rewrite chars_of_chars.
  destruct (btoa_core bytes) as (k & -> & _).
  rewrite fmap_app, fmap_replicate. change (to_url "="%char) with "="%char.
  apply strip_pad_app, Forall_fmap. eapply Forall_impl; [apply core_plain|].
  by intros c (_ & _ & _ & ?).
Qed.

Lemma decode_shape value :
  base64urlToBytes value =
    match atob ((to_std <$> chars value) ++ padding (length (to_std <$> chars value))) with
    | Some bytes => Returned bytes
    | None => Threw InvalidCharacterError
    end.
Proof. reflexivity. Qed.

Lemma decode_sextets_length l : length l mod 4 <> 1 -> length (decode_sextets l) = 3 * length l / 4.
Proof.
  induction l as [l IH] using (induction_ltof1 _ (@length _)); unfold ltof in IH.
  destruct l as [|a [|b [|c [|d l]]]]; cbn [decode_sextets length]; try done.
  rewrite mod4_step. intros Hl. rewrite IH by (simpl; lia || done).
  replace (3 * S (S (S (S (length l))))) with (3 * length l + 3 * 4) by lia.
  rewrite Nat.div_add by lia. lia.
Qed.

Lemma base64url_roundtrip_aux bytes :
  base64urlToBytes (bytesToBase64url bytes) = Returned bytes.
Proof.
  rewrite decode_shape, encode_core.
  assert (Hstd : to_std <$> (to_url <$> (b64_char <$> core bytes)) = b64_char <$> core bytes).
  { rewrite <- list_fmap_compose. apply fmap_fixed.
    eapply Forall_impl; [apply core_plain|]. by intros c (_ & _ & ? & _). }
  rewrite Hstd, atob_padded, length_fmap.
  - destruct (Nat.eqb_spec (length (core bytes) mod 4) 1) as [E|_]; [by destruct (core_length bytes)|].
    rewrite mapM_values by apply core_sextets. simpl. by rewrite decode_core.
  - eapply Forall_impl; [apply core_plain|]. by intros c (? & ? & _ & _).
Qed.

Lemma encode_url_char v : sextet v -> url_char (to_url (b64_char v)).
Proof. revert v. apply sextet_cases. apply (bool_decide_unpack _). vm_compute. exact I. Qed.

(** C20.  What the browser sends the server uses only the URL-safe alphabet,
    without padding, and decodes, with the decoder the same client applies to
    the server's options, to exactly the authenticator's bytes: base64url
    encoding loses nothing, for byte strings of any length. *)
Theorem base64url_roundtrip bytes :
  Forall url_char (chars (bytesToBase64url bytes)) /\
  base64urlToBytes (bytesToBase64url bytes) = Returned bytes.
Proof.
  split; [|apply base64url_roundtrip_aux].
  rewrite encode_core, <- list_fmap_compose. apply Forall_fmap.
  eapply Forall_impl; [apply core_sextets|]. intros v. apply encode_url_char.
Qed.

(** Decoding text over the base64url alphabet fails exactly when its
    length is 1 modulo 4, with the error [atob] raises; otherwise it yields
    three quarters of the length, rounded down, in bytes. *)
Theorem base64urlToBytes_total value :
  Forall url_char (chars value) ->
  match base64urlToBytes value with
  | Returned bytes =>
      length (chars value) mod 4 <> 1 /\ length bytes = 3 * length (chars value) / 4
  | Threw e => e = InvalidCharacterError /\ length (chars value) mod 4 = 1
  end.
Proof.
  intros Hv. rewrite decode_shape, atob_padded, length_fmap.
  - destruct (Nat.eqb_spec (length (chars value) mod 4) 1) as [E|E]; [done|].
    destruct (mapM b64_value (to_std <$> chars value)) as [vs|] eqn:Em; simpl.
    + apply length_mapM in Em. rewrite length_fmap in Em. split; [done|].
      rewrite decode_sextets_length by by rewrite <- Em. by rewrite <- Em.
    + apply mapM_None in Em. apply Exists_fmap in Em.
      apply Exists_exists in Em as (c & Hc & Hn). rewrite list.Forall_forall in Hv.
      destruct (url_char_value c (Hv _ Hc)) as [_ [v Hs]]. congruence.
  - apply Forall_fmap. eapply Forall_impl; [exact Hv|]. intros c Hc. apply (url_char_value c Hc).
Qed.
End Base64.

Module Client.
Import Base64.

(** ** Reading the loosely typed server JSON

    Property access throws on [null]/[undefined] and yields [undefined] on
    other non-objects; [base64urlToBytes] throws a [TypeError] on a value
    that has no [replace] method. *)
Definition prop (k : string) (v : option json) : outcome js_error (option json) :=
  match v with
  | None | Some JNull => Threw TypeError
  | Some v => Returned (field k v)
  end.

Definition bytes_prop (k : string) (v : option json) : outcome js_error (list byte) :=
  let! x := prop k v in
  match x with Some (JStr s) => base64urlToBytes s | _ => Threw TypeError end.

Record descriptor := Descriptor {
  d_id : list byte;
  d_type : option json;
  d_transports : option json;
}.

Definition when_truthy (v : option json) : option json := if truthy v then v else None.
Definition when_not_null (v : option json) : option json := if nullish v then None else v.

Definition to_descriptor (d : json) : outcome js_error descriptor :=
  let! id := bytes_prop "id" (Some d) in
  let! type := prop "type" (Some d) in
  let! transports := prop "transports" (Some d) in
  Returned (Descriptor id type (when_truthy transports)).

Fixpoint map_outcome {A B} (f : A -> outcome js_error B) (l : list A) : outcome js_error (list B) :=
  match l with
  | [] => Returned []
  | x :: l => let! y := f x in let! ys := map_outcome f l in Returned (y :: ys)
  end.

Definition toDescriptors (v : option json) : outcome js_error (option (list descriptor)) :=
  match v with
  | Some (JArr l) => let! ds := map_outcome to_descriptor l in Returned (Some ds)
  | _ => Returned None
  end.

(** ** Registration *)
Record creation_options := CreationOptions {
  co_challenge : list byte;
  co_rp : option json;
  co_user_id : list byte;
  co_user_name : option json;
  co_user_displayName : option json;
  co_pubKeyCredParams : option json;
  co_timeout : option json;
  co_attestation : option json;
  co_authenticatorSelection : option json;
  co_excludeCredentials : option (list descriptor);
}.

Record new_credential := NewCredential {
  nc_id : string;
  nc_rawId : list byte;
  nc_type : string;
  nc_attachment : option string;
  nc_attestationObject : list byte;
  nc_clientDataJSON : list byte;
  nc_getTransports : option (list string);
  nc_extensions : json;
}.

Definition creation_request (o : json) : outcome js_error creation_options :=
  let o := Some o in
  let! user := prop "user" o in
  let! challenge := bytes_prop "challenge" o in
  let! rp := prop "rp" o in
  let! user_id := bytes_prop "id" user in
  let! name := prop "name" user in
  let! displayName := prop "displayName" user in
  let! params := prop "pubKeyCredParams" o in
  let! timeout := prop "timeout" o in
  let! attestation := prop "attestation" o in
  let! selection := prop "authenticatorSelection" o in
  let! excl := prop "excludeCredentials" o in
  let! exclude := toDescriptors excl in
  Returned (CreationOptions challenge rp user_id name displayName params
              (when_not_null timeout) (when_truthy attestation)
              (when_truthy selection) exclude).

(** A property whose value is [undefined] is absent, as in the JSON body. *)
Definition opt_prop (k : string) (v : option string) : list (string * json) :=
  match v with Some s => [(k, JStr s)] | None => [] end.

Definition serialize_new (c : new_credential) : json :=
  JObj ([("id", JStr (nc_id c)); ("rawId", JStr (bytesToBase64url (nc_rawId c)));
         ("type", JStr (nc_type c))] ++
        opt_prop "authenticatorAttachment" (nc_attachment c) ++
        [("response", JObj [
            ("attestationObject", JStr (bytesToBase64url (nc_attestationObject c)));
            ("clientDataJSON", JStr (bytesToBase64url (nc_clientDataJSON c)));
            ("transports", JArr (JStr <$> (nc_getTransports c orelse [])))]);
         ("clientExtensionResults", nc_extensions c)]).

Definition createCredential
    (create : creation_options -> outcome js_error (option new_credential))
    (optionsJson : json) : outcome js_error json :=
  let! publicKey := creation_request optionsJson in
  let! credential := create publicKey in
  match credential with
  | None => Threw (PlainError "WebAuthn registration was cancelled")
  | Some c => Returned (serialize_new c)
  end.

(** ** Authentication *)
Record request_options := RequestOptions {
  ro_challenge : list byte;
  ro_timeout : option json;
  ro_rpId : option json;
  ro_userVerification : option json;
  ro_allowCredentials : option (list descriptor);
}.

Record assertion := Assertion {
  as_id : string;
  as_rawId : list byte;
  as_type : string;
  as_attachment : option string;
  as_authenticatorData : list byte;
  as_clientDataJSON : list byte;
  as_signature : list byte;
  as_userHandle : option (list byte);
  as_extensions : json;
}.

Definition assertion_request (o : json) : outcome js_error request_options :=
  let o := Some o in
  let! challenge := bytes_prop "challenge" o in
  let! timeout := prop "timeout" o in
  let! rpId := prop "rpId" o in
  let! verification := prop "userVerification" o in
  let! allow := prop "allowCredentials" o in
  let! creds := toDescriptors allow in
  Returned (RequestOptions challenge (when_not_null timeout) (when_truthy rpId)
              (when_truthy verification) creds).

Definition serialize_assertion (c : assertion) : json :=
  JObj ([("id", JStr (as_id c)); ("rawId", JStr (bytesToBase64url (as_rawId c)));
         ("type", JStr (as_type c))] ++
        opt_prop "authenticatorAttachment" (as_attachment c) ++
        [("response", JObj [
            ("authenticatorData", JStr (bytesToBase64url (as_authenticatorData c)));
            ("clientDataJSON", JStr (bytesToBase64url (as_clientDataJSON c)));
            ("signature", JStr (bytesToBase64url (as_signature c)));
            ("userHandle", match as_userHandle c with
                           | Some h => JStr (bytesToBase64url h)
                           | None => JNull
                           end)]);
         ("clientExtensionResults", as_extensions c)]).

Definition getAssertion
    (get : request_options -> outcome js_error (option assertion))
    (optionsJson : json) : outcome js_error json :=
  let! publicKey := assertion_request optionsJson in
  let! credential := get publicKey in
  match credential with
  | None => Threw (PlainError "WebAuthn authentication was cancelled")
  | Some c => Returned (serialize_assertion c)
  end.

(** ** The server's side of the wire

    [backend/app/services/webauthn.py] lets [py_webauthn] write the options:
    every binary field as base64url, perhaps a timeout, the id of the relying party,
    the credentials that may answer, without transports, and the wish for user
    verification.  The member order is that of the library. *)
Definition descriptor_json (id : list byte) : json :=
  JObj [("id", JStr (bytesToBase64url id)); ("type", JStr "public-key")].

Definition server_request (challenge : list byte) (timeout : option Z) (rpId : string) (ids : list (list byte))
    (userVerification : string) : json :=
  JObj ([("challenge", JStr (bytesToBase64url challenge))] ++
        match timeout with Some t => [("timeout", JNum t)] | None => [] end ++
        [("rpId", JStr rpId); ("allowCredentials", JArr (descriptor_json <$> ids));
         ("userVerification", JStr userVerification)]).

(** The server's reading of one binary field of the answer's [response]. *)
Definition response_bytes (k : string) (answer : json) : outcome js_error (list byte) :=
  bytes_prop k (field "response" answer).

Lemma descriptors_of ids :
  map_outcome to_descriptor (descriptor_json <$> ids) =
    Returned ((fun id => Descriptor id (Some (JStr "public-key")) None) <$> ids).
Proof.
  induction ids as [|id ids IH]; [done|]. rewrite !fmap_cons. cbn [map_outcome].
  unfold to_descriptor at 1, bytes_prop. simpl.
  rewrite base64url_roundtrip_aux. simpl. by rewrite IH.
Qed.

(** C21.  The options the server writes (challenge, timeout, relying party,
    allowed credentials, user verification, [server_request]) reach the
    authenticator as they are, the challenge and the credential ids as the very
    bytes the server holds; and when it answers, the server recovers from the
    posted JSON the very signature, client data, authenticator data, raw id and
    user handle, and the id and type; a prompt that is cancelled or fails
    throws. *)
Theorem getAssertion_end_to_end get challenge timeout rpId ids uv :
  rpId <> "" -> uv <> "" ->
  let asked := RequestOptions challenge (JNum <$> timeout) (Some (JStr rpId)) (Some (JStr uv))
                 (Some ((fun id => Descriptor id (Some (JStr "public-key")) None) <$> ids)) in
  let out := getAssertion get (server_request challenge timeout rpId ids uv) in
  match get asked with
  | Threw e => out = Threw e
  | Returned None => out = Threw (PlainError "WebAuthn authentication was cancelled")
  | Returned (Some c) =>
      exists answer,
        out = Returned answer /\
        field "id" answer = Some (JStr (as_id c)) /\ field "type" answer = Some (JStr (as_type c)) /\
        bytes_prop "rawId" (Some answer) = Returned (as_rawId c) /\
        response_bytes "signature" answer = Returned (as_signature c) /\
        response_bytes "clientDataJSON" answer = Returned (as_clientDataJSON c) /\
        response_bytes "authenticatorData" answer = Returned (as_authenticatorData c) /\
        match as_userHandle c with
        | Some h => response_bytes "userHandle" answer = Returned h
        | None => (field "response" answer ≫= field "userHandle") = Some JNull
        end
  end.
Proof.
  intros Hrp Huv asked.
  assert (Hreq : assertion_request (server_request challenge timeout rpId ids uv) = Returned asked).
  { unfold assertion_request, bytes_prop. destruct timeout; simpl; rewrite base64url_roundtrip_aux; simpl;
      rewrite descriptors_of; simpl; unfold when_truthy, when_not_null; simpl;
      by rewrite (bool_decide_false (rpId = "")), (bool_decide_false (uv = "")) by done. }
  cbn zeta. unfold getAssertion. rewrite Hreq. simpl.
  destruct (get asked) as [[c|]|e]; [|done..]. simpl.
  eexists. split; [reflexivity|].
  unfold response_bytes, bytes_prop, serialize_assertion.
  destruct (as_attachment c), (as_userHandle c); simpl; rewrite !base64url_roundtrip_aux; by split_and!.
Qed.

(** The options of a server that asks for one credential. *)
Lemma getAssertion_end_to_end_witness :
  let get := fun o => Returned (Some (Assertion "AQI" [x01; x02] "public-key" (Some "platform") [x03] (ro_challenge o) [x05] None (JObj []))) in
  exists answer,
    getAssertion get (server_request [xfb; xff] (Some 60000%Z) "opngms.example" [[x01; x02]] "preferred") = Returned answer /\
    response_bytes "clientDataJSON" answer = Returned [xfb; xff].
Proof.
  intros get.
  destruct (getAssertion_end_to_end get [xfb; xff] (Some 60000%Z) "opngms.example" [[x01; x02]] "preferred"
    ltac:(discriminate) ltac:(discriminate)) as (answer & H1 & _ & _ & _ & _ & H2 & _).
  exists answer. split; [exact H1|exact H2].
Defined.
End Client.
