(* ===== verification/Http.v ===== *)
(** * Requests of the console: [api/client.ts] and [api/csrf.ts]

    A request is what the hooks hand to the [openapi-fetch] client or to
    [fetch]; the answer is what they read of its result.  The CSRF middleware
    and the cookie parsing are translated in full. *)
From S2P Require Import Prelude JsString Json.
From Stdlib Require Import ZArith Ascii.

(** ** Requests and results *)
Inductive http_method := GET | POST | PUT | PATCH | DELETE.
#[export] Instance http_method_eq_dec : EqDecision http_method.
Proof. solve_decision. Defined.

Definition method_name (m : http_method) : string :=
  match m with
  | GET => "GET" | POST => "POST" | PUT => "PUT" | PATCH => "PATCH" | DELETE => "DELETE"
  end.

Inductive body :=
| NoBody
| JsonBody (b : json)
| FormBody (file : string).       (* multipart: the uploaded file *)

(** Who sends the request: the shared [api] client, with its middleware, or a
    direct [fetch] with the headers the call site lists. *)
Inductive channel :=
| ViaClient
| ViaFetch (headers : list (string * string)).

(** [null]/[undefined] path parameters and query values are [None]; the path
    is the template the source writes, or the text of the URL for [fetch]. *)
Record request := Request {
  rq_method : http_method;
  rq_path : string;
  rq_params : list (string * option string);
  rq_query : list (string * option json);
  rq_body : body;
  rq_channel : channel;
}.

Definition get_ (path : string) (params : list (string * option string))
    (query : list (string * option json)) : request :=
  Request GET path params query NoBody ViaClient.
Definition send_ (m : http_method) (path : string) (params : list (string * option string))
    (b : body) : request :=
  Request m path params [] b ViaClient.

Record fetch_result := FetchResult {
  data : option json;
  error : option json;
  status : Z;
}.
Definition response_ok (r : fetch_result) : bool := (200 <=? status r)%Z && (status r <=? 299)%Z.

(** ** [decodeURIComponent] on UTF-8 bytes; [None] is the thrown [URIError] *)
Definition hex_value (c : ascii) : option nat :=
  let n := nat_of_ascii c in
  if (48 <=? n) && (n <=? 57) then Some (n - 48)
  else if (65 <=? n) && (n <=? 70) then Some (n - 55)
  else if (97 <=? n) && (n <=? 102) then Some (n - 87)
  else None.

Definition hex_byte (a b : ascii) : option nat :=
  match hex_value a, hex_value b with
  | Some x, Some y => Some (16 * x + y)
  | _, _ => None
  end.

(** One [%XX] escape at the head of the text. *)
Definition escape_at (l : list ascii) : option (nat * list ascii) :=
  match l with
  | p :: a :: b :: r =>
      if decide (p = "%"%char) then (fun n => (n, r)) <$> hex_byte a b else None
  | _ => None
  end.

Definition continuation (n : nat) : bool := (128 <=? n) && (n <=? 191).

(** The lead byte [b0] announces [n] continuation escapes that, with it, must
    form one valid code point (no overlong form, no surrogate, at most
    U+10FFFF). *)
Definition utf8_two (b0 b1 : nat) : bool := (194 <=? b0) && (b0 <=? 223) && continuation b1.
Definition utf8_three (b0 b1 b2 : nat) : bool :=
  (224 <=? b0) && (b0 <=? 239) && continuation b1 && continuation b2
  && negb ((b0 =? 224) && (b1 <? 160)) && negb ((b0 =? 237) && (159 <? b1)).
Definition utf8_four (b0 b1 b2 b3 : nat) : bool :=
  (240 <=? b0) && (b0 <=? 244) && continuation b1 && continuation b2 && continuation b3
  && negb ((b0 =? 240) && (b1 <? 144)) && negb ((b0 =? 244) && (143 <? b1)).

Definition decode_escape (l : list ascii) : option (list nat * list ascii) :=
  '(b0, r0) ← escape_at l;
  if b0 <? 128 then Some ([b0], r0) else
  '(b1, r1) ← escape_at r0;
  if utf8_two b0 b1 then Some ([b0; b1], r1) else
  '(b2, r2) ← escape_at r1;
  if utf8_three b0 b1 b2 then Some ([b0; b1; b2], r2) else
  '(b3, r3) ← escape_at r2;
  if utf8_four b0 b1 b2 b3 then Some ([b0; b1; b2; b3], r3) else None.

Fixpoint decode_uri (fuel : nat) (l : list ascii) : option (list ascii) :=
  match fuel with
  | O => Some []
  | S fuel =>
      match l with
      | [] => Some []
      | c :: r =>
          if decide (c = "%"%char) then
            '(bs, rest) ← decode_escape l;
            k ← decode_uri fuel rest;
            Some ((ascii_of_nat <$> bs) ++ k)
          else k ← decode_uri fuel r; Some (c :: k)
      end
  end.

Inductive uri_error := URIError.

(** Every step consumes a character, so the length of the text is enough fuel. *)
Definition decodeURIComponent (s : string) : outcome uri_error string :=
  match decode_uri (S (length (chars s))) (chars s) with
  | Some l => Returned (of_chars l)
  | None => Threw URIError
  end.

(** ** [csrfToken]: the leftmost match, in [document.cookie], of a pattern that
    wants [opngms_csrf=] at the start of the text or after a semicolon and
    white space, and captures up to the next semicolon *)
Definition cookie_name : list ascii := chars "opngms_csrf=".

Fixpoint strip_prefix (p l : list ascii) : option (list ascii) :=
  match p, l with
  | [], _ => Some l
  | a :: p, b :: l => if decide (a = b) then strip_prefix p l else None
  | _, [] => None
  end.

Fixpoint until_semicolon (l : list ascii) : list ascii :=
  match l with
  | [] => []
  | c :: r => if decide (c = ";"%char) then [] else c :: until_semicolon r
  end.

Fixpoint scan_cookies (l : list ascii) : option (list ascii) :=
  match l with
  | [] => None
  | c :: r =>
      if decide (c = ";"%char) then
        match strip_prefix cookie_name (strip_start r) with
        | Some v => Some (until_semicolon v)
        | None => scan_cookies r
        end
      else scan_cookies r
  end.

Definition csrf_match (cookie : string) : option string :=
  of_chars <$> match strip_prefix cookie_name (chars cookie) with
               | Some v => Some (until_semicolon v)
               | None => scan_cookies (chars cookie)
               end.

Definition csrfToken (cookie : string) : outcome uri_error string :=
  match csrf_match cookie with
  | Some v => decodeURIComponent v
  | None => Returned ""
  end.

(** ** The middleware of the client *)
Definition MUTATING : list string := ["POST"; "PUT"; "PATCH"; "DELETE"].
Definition csrf_header : string := "X-OPNGMS-CSRF".

Definition mutating (r : request) : bool := bool_decide (method_name (rq_method r) ∈ MUTATING).

(** The headers the request leaves with. *)
Definition csrfMiddleware (cookie : string) (r : request) : outcome uri_error (list (string * string)) :=
  if mutating r then
    let! token := csrfToken cookie in Returned [(csrf_header, token)]
  else Returned [].

Definition sent_headers (cookie : string) (r : request) : outcome uri_error (list (string * string)) :=
  match rq_channel r with
  | ViaClient => csrfMiddleware cookie r
  | ViaFetch hs => Returned hs
  end.

Example csrf1 : csrfToken "a=1; opngms_csrf=tok%2Dx; b=2" = Returned "tok-x".
Proof. reflexivity. Qed.
Example csrf2 : csrfToken "xopngms_csrf=evil" = Returned "".
Proof. reflexivity. Qed.
Example csrf3 : csrfToken "opngms_csrf=%E2%82%AC" = Returned "€".
Proof. reflexivity. Qed.
Example csrf4 : csrfToken "opngms_csrf=%zz" = Threw URIError.
Proof. reflexivity. Qed.

(** ** Reference definition: the jar as a list of cookie pairs *)

(** Cookie pairs are printable ASCII without white space or semicolons. *)
Definition cookie_char (c : ascii) : bool :=
  (33 <=? nat_of_ascii c) && (nat_of_ascii c <=? 126) && negb (bool_decide (c = ";"%char)).
Definition cookie_ok (w : string) : Prop := Forall (fun c => cookie_char c = true) (chars w).
#[export] Instance cookie_ok_dec w : Decision (cookie_ok w).
Proof. unfold cookie_ok. apply _. Defined.

Fixpoint cookie_value (jar : list string) : option string :=
  match jar with
  | [] => None
  | w :: jar => match strip_prefix cookie_name (chars w) with
                | Some v => Some (of_chars v)
                | None => cookie_value jar
                end
  end.

Lemma cookie_char_facts c :
  cookie_char c = true -> c <> ";"%char /\ nat_of_ascii c <= 126 /\ 33 <= nat_of_ascii c.
Proof.
  unfold cookie_char. rewrite !andb_true_iff, negb_true_iff, bool_decide_eq_false.
  rewrite !Nat.leb_le. tauto.
Qed.

(** A printable ASCII character opens no white-space sequence. *)
Lemma starts_ws_printable c l :
  33 <= nat_of_ascii c -> nat_of_ascii c <= 126 -> starts_ws ws1 ws2 ws3 (c :: l) = false.
Proof.
  intros H1 H2. assert (Hc : forall n, n < 33 \/ 126 < n -> (nat_of_ascii c =? n) = false)
    by (intros; apply Nat.eqb_neq; lia).
  unfold starts_ws, ws1, ws2, ws3.
  rewrite !Hc by lia. rewrite (proj2 (Nat.leb_gt (nat_of_ascii c) 13)) by lia.
  rewrite andb_false_r. simpl. destruct l as [|b [|d l]]; reflexivity.
Qed.

Lemma scan_skip w r :
  Forall (fun c => c <> ";"%char) w -> scan_cookies (w ++ r) = scan_cookies r.
Proof. induction 1 as [|c w Hc Hw IH]; [done|]. simpl. by rewrite decide_False. Qed.

Lemma until_semicolon_app w r :
  Forall (fun c => c <> ";"%char) w ->
  until_semicolon (w ++ ";"%char :: r) = w /\ until_semicolon w = w.
Proof.
  induction 1 as [|c w Hc Hw [IH1 IH2]]; [done|]. simpl.
  by rewrite !decide_False, IH1, IH2.
Qed.

Lemma strip_prefix_semicolon p w r :
  Forall (fun c => c <> ";"%char) p ->
  strip_prefix p (w ++ ";"%char :: r) = (fun v => v ++ ";"%char :: r) <$> strip_prefix p w.
Proof.
  intros Hp. revert w. induction Hp as [|a p Ha Hp IH]; intros w; [done|].
  destruct w as [|b w]; simpl; [by rewrite decide_False|].
  case_decide; [apply IH|done].
Qed.

Lemma strip_prefix_suffix p w v : strip_prefix p w = Some v -> w = p ++ v.
Proof.
  revert w. induction p as [|a p IH]; intros w; simpl; [by intros [= ->]|].
  destruct w as [|b w]; [done|]. case_decide; [|done]. subst. intros H. by rewrite (IH _ H).
Qed.

Lemma cookie_name_ok : Forall (fun c => c <> ";"%char) cookie_name.
Proof. apply (bool_decide_unpack _). vm_compute. exact I. Qed.

Lemma cookie_ok_plain w : cookie_ok w -> Forall (fun c => c <> ";"%char) (chars w).
Proof. intros H. eapply Forall_impl; [exact H|]. intros c Hc. by apply cookie_char_facts in Hc as []. Qed.

(** The value captured at a pair, with or without another pair behind it. *)
Lemma capture_pair w r v :
  cookie_ok w -> strip_prefix cookie_name (chars w) = Some v ->
  until_semicolon (v ++ ";"%char :: r) = v /\ until_semicolon v = v.
Proof.
  intros Hw Hv. apply until_semicolon_app.
  pose proof (cookie_ok_plain _ Hw) as Hp. rewrite (strip_prefix_suffix _ _ _ Hv) in Hp.
  by apply Forall_app in Hp as [_ ?].
Qed.

Lemma strip_space w r :
  cookie_ok w -> strip_start (" "%char :: chars w ++ ";"%char :: r) = chars w ++ ";"%char :: r
              /\ strip_start (" "%char :: chars w) = chars w.
Proof.
  intros Hw. unfold strip_start.
  change (strip ws1 ws2 ws3 (" "%char :: ?l)) with (strip ws1 ws2 ws3 l).
  destruct Hw as [|c l Hc Hl]; simpl app.
  - split; [|done]. apply strip_id. by apply starts_ws_printable; vm_compute; lia.
  - apply cookie_char_facts in Hc as (_ & ? & ?).
    split; apply strip_id; by apply starts_ws_printable.
Qed.

Lemma chars_join_cons w w' jar :
  chars (join "; " (w :: w' :: jar)) =
    chars w ++ ";"%char :: " "%char :: chars (join "; " (w' :: jar)).
Proof. rewrite join_cons by done. by rewrite chars_app, chars_app. Qed.

Lemma scan_jar jar :
  jar <> [] -> Forall cookie_ok jar ->
  of_chars <$> scan_cookies (";"%char :: " "%char :: chars (join "; " jar)) = cookie_value jar.
Proof.
  intros Hne Hjar. induction Hjar as [|w jar Hw Hjar IH]; [done|].
  destruct jar as [|w' jar].
  - cbn [join scan_cookies]. rewrite decide_True by done.
    rewrite (proj2 (strip_space w [] Hw)). cbn [cookie_value].
    destruct (strip_prefix cookie_name (chars w)) as [v|] eqn:Ev.
    + by rewrite (proj2 (capture_pair w [] v Hw Ev)).
    + change (scan_cookies (" "%char :: chars w)) with (scan_cookies (chars w)).
      rewrite <- (app_nil_r (chars w)), scan_skip by by apply cookie_ok_plain. done.
  - rewrite chars_join_cons. cbn [scan_cookies]. rewrite decide_True by done.
    rewrite (proj1 (strip_space w _ Hw)), strip_prefix_semicolon by apply cookie_name_ok.
    cbn [cookie_value].
    destruct (strip_prefix cookie_name (chars w)) as [v|] eqn:Ev.
    + simpl. by rewrite (proj1 (capture_pair w _ v Hw Ev)).
    + simpl fmap. change (scan_cookies (" "%char :: ?l)) with (scan_cookies l).
      rewrite scan_skip by by apply cookie_ok_plain. by apply IH.
Qed.

Lemma csrf_match_jar jar :
  Forall cookie_ok jar -> csrf_match (join "; " jar) = cookie_value jar.
Proof.
  intros Hjar. unfold csrf_match. destruct Hjar as [|w jar Hw Hjar]; [done|].
  destruct jar as [|w' jar]; cbn [cookie_value].
  - cbn [join]. destruct (strip_prefix cookie_name (chars w)) as [v|] eqn:Ev.
    + by rewrite (proj2 (capture_pair w [] v Hw Ev)).
    + rewrite <- (app_nil_r (chars w)), scan_skip by by apply cookie_ok_plain. done.
  - rewrite chars_join_cons, strip_prefix_semicolon by apply cookie_name_ok.
    destruct (strip_prefix cookie_name (chars w)) as [v|] eqn:Ev.
    + simpl. by rewrite (proj1 (capture_pair w _ v Hw Ev)).
    + simpl fmap. rewrite scan_skip by by apply cookie_ok_plain. by apply (scan_jar (w' :: jar)).
Qed.

(** The escape-free token the server mints is read verbatim. *)
Lemma decode_uri_plain n l :
  length l < n -> "%"%char ∉ l -> decode_uri n l = Some l.
Proof.
  revert l. induction n as [|n IH]; intros [|c l] Hl Hc; try done; [simpl in Hl; lia|].
  rewrite not_elem_of_cons in Hc. destruct Hc as [Hc Hc'].
  cbn [decode_uri]. rewrite decide_False by congruence.
  rewrite IH by (simpl in Hl; lia || done). done.
Qed.

Lemma decodeURIComponent_plain s : mem_char "%"%char s = false -> decodeURIComponent s = Returned s.
Proof.
  unfold mem_char. rewrite bool_decide_eq_false. intros H. unfold decodeURIComponent.
  rewrite decode_uri_plain by (lia || done). by rewrite of_chars_chars.
Qed.

(** The cookie parser equals the reference reading of the jar: on any jar
    of well-formed pairs it yields the value of the first pair named exactly
    [opngms_csrf] (a cookie whose name merely ends so is never taken for it),
    so an escape-free token is echoed unchanged; without one it is empty. *)
Theorem csrfToken_reads_jar jar :
  Forall cookie_ok jar ->
  csrfToken (join "; " jar) =
    match cookie_value jar with
    | Some v => if mem_char "%"%char v then decodeURIComponent v else Returned v
    | None => Returned ""
    end.
Proof.
  intros Hjar. unfold csrfToken. rewrite csrf_match_jar by done.
  destruct (cookie_value jar) as [v|]; [|done].
  destruct (mem_char "%"%char v) eqn:E; [done|]. by apply decodeURIComponent_plain.
Qed.
