(* ===== verification/QueryClient.v ===== *)
(** * What the console relies on of [@tanstack/react-query]

    The query cache is library code: it is an interface here, a class of
    operations with the documented laws the hooks depend on.  [key_cache] is a
    concrete cache that satisfies them. *)
From S2P Require Import Prelude Json Http.

(** ** Query keys

    A key is an array of JSON values, [undefined] being [None].  Entries are
    stored under the serialised key, in which an [undefined] element reads as
    [null]; [invalidateQueries] matches the keys that extend the given one. *)
Abbreviation key := (list (option json)).

Definition key_hash (k : key) : list json := (fun p => p orelse JNull) <$> k.

Fixpoint key_matches (filter k : key) : bool :=
  match filter, k with
  | [], _ => true
  | a :: filter, b :: k => bool_decide (a = b) && key_matches filter k
  | _ :: _, [] => false
  end.

Record entry := Entry { e_data : option json; e_stale : bool }.
Definition mark_stale (e : entry) : entry := Entry (e_data e) true.

Class Cache (C : Type) := {
  cache_get : C -> key -> option entry;
  invalidateQueries : key -> C -> C;
  setQueryData : key -> option json -> C -> C;
  clear : C -> C;
}.

Class CacheLaws (C : Type) `{Cache C} := {
  get_hash c k k' : key_hash k = key_hash k' -> cache_get c k = cache_get c k';
  (** every cached entry was stored under some key; invalidation looks at it *)
  invalidate_match c k k' :
    key_matches k k' = true ->
    cache_get (invalidateQueries k c) k' = mark_stale <$> cache_get c k';
  invalidate_other c k k' :
    key_matches (Some <$> key_hash k) (Some <$> key_hash k') = false ->
    cache_get (invalidateQueries k c) k' = cache_get c k';
  (** invalidation never drops or rewrites data *)
  invalidate_either c k k' :
    cache_get (invalidateQueries k c) k' = cache_get c k' \/
    cache_get (invalidateQueries k c) k' = mark_stale <$> cache_get c k';
  set_get c k v k' :
    cache_get (setQueryData k v c) k' =
      if decide (key_hash k = key_hash k') then Some (Entry v false) else cache_get c k';
  clear_get c k : cache_get (clear c) k = None;
}.

(** ** A reference cache: a function from serialised keys to entries *)
Definition key_cache : Type := list json -> option entry.

Fixpoint hash_matches (filter k : list json) : bool :=
  match filter, k with
  | [], _ => true
  | a :: filter, b :: k => bool_decide (a = b) && hash_matches filter k
  | _ :: _, [] => false
  end.

#[export] Instance key_cache_ops : Cache key_cache := {
  cache_get c k := c (key_hash k);
  invalidateQueries k c := fun h =>
    if hash_matches (key_hash k) h then mark_stale <$> c h else c h;
  setQueryData k v c := fun h =>
    if decide (key_hash k = h) then Some (Entry v false) else c h;
  clear c := fun _ => None;
}.

Lemma key_matches_hash k k' : key_matches k k' = true -> hash_matches (key_hash k) (key_hash k') = true.
Proof.
  revert k'. induction k as [|a k IH]; intros [|b k']; simpl; try done.
  rewrite !andb_true_iff, !bool_decide_eq_true. intros [-> H]. by split; [|apply IH].
Qed.

Lemma hash_matches_some h h' : key_matches (Some <$> h) (Some <$> h') = hash_matches h h'.
Proof.
  revert h'. induction h as [|a h IH]; intros [|b h']; try done. rewrite !fmap_cons. simpl.
  rewrite IH. f_equal. apply bool_decide_ext. split; congruence.
Qed.

#[export] Instance key_cache_laws : CacheLaws key_cache.
Proof.
  split; simpl; intros.
  - congruence.
  - by rewrite key_matches_hash.
  - by rewrite <- hash_matches_some, H.
  - destruct (hash_matches _ _); auto.
  - done.
  - done.
Qed.
