(* ===== verification/Time.v ===== *)
(** * Dates: [Date.prototype.toISOString] and [monitoring/range.ts]

    A [Date] is its time value, milliseconds since the epoch.  [toISOString]
    prints the proleptic Gregorian date in UTC; [parse_iso] reads the same
    format back, as the server does. *)
From S2P Require Import Prelude JsString.
From Stdlib Require Import ZArith Ascii.
Local Open Scope Z_scope.

Module Civil.

(** ** Days since the epoch to year, month, day *)
Record ymd := YMD { year : Z; month : Z; day : Z }.

Definition civil_from_days (days : Z) : ymd :=
  let z := days + 719468 in
  let era := z / 146097 in
  let doe := z mod 146097 in
  let yoe := (doe - doe / 1460 + doe / 36524 - doe / 146096) / 365 in
  let doy := doe - (365 * yoe + yoe / 4 - yoe / 100) in
  let mp := (5 * doy + 2) / 153 in
  let d := doy - (153 * mp + 2) / 5 + 1 in
  let m := if mp <? 10 then mp + 3 else mp - 9 in
  let y := yoe + era * 400 in
  YMD (if m <=? 2 then y + 1 else y) m d.

Definition days_from_civil (c : ymd) : Z :=
  let y := if month c <=? 2 then year c - 1 else year c in
  let era := y / 400 in
  let yoe := y mod 400 in
  let mp := if month c <=? 2 then month c + 9 else month c - 3 in
  let doy := (153 * mp + 2) / 5 + day c - 1 in
  let doe := yoe * 365 + yoe / 4 - yoe / 100 + doy in
  era * 146097 + doe - 719468.

Example epoch : civil_from_days 0 = YMD 1970 1 1.
Proof. reflexivity. Qed.
Example leap : civil_from_days 19782 = YMD 2024 2 29.
Proof. reflexivity. Qed.

Lemma yoe_bounds doe :
  0 <= doe < 146097 ->
  let yoe := (doe - doe / 1460 + doe / 36524 - doe / 146096) / 365 in
  0 <= yoe < 400 /\ 0 <= doe - (365 * yoe + yoe / 4 - yoe / 100) < 366.
Proof.
  intros H. cbv zeta.
  assert (Hc : 0 <= doe / 36524 <= 4) by (Z.to_euclidean_division_equations; lia).
  set (yoe := (doe - doe / 1460 + doe / 36524 - doe / 146096) / 365).
  assert (0 <= yoe < 400) by (unfold yoe; Z.to_euclidean_division_equations; lia).
  split; [done|]. unfold yoe.
  Z.to_euclidean_division_equations; lia.
Qed.

Lemma month_bounds doy :
  0 <= doy < 366 ->
  let mp := (5 * doy + 2) / 153 in
  0 <= mp <= 11 /\ 1 <= doy - (153 * mp + 2) / 5 + 1 <= 31.
Proof. intros H. cbv zeta. Z.to_euclidean_division_equations; lia. Qed.

Lemma civil_range days :
  1 <= month (civil_from_days days) <= 12 /\ 1 <= day (civil_from_days days) <= 31.
Proof.
  unfold civil_from_days. cbv zeta.
  pose proof (Z.mod_pos_bound (days + 719468) 146097 ltac:(lia)) as Hd.
  destruct (yoe_bounds _ Hd) as [Hy Hdoy]. destruct (month_bounds _ Hdoy) as [Hm Hday].
  cbn [month day]. split; [|done].
  match goal with |- context [?a <? 10] => destruct (Z.ltb_spec a 10) end; lia.
Qed.

Lemma days_civil_days days : days_from_civil (civil_from_days days) = days.
Proof.
  unfold civil_from_days. cbv zeta.
  pose proof (Z.mod_pos_bound (days + 719468) 146097 ltac:(lia)) as Hd.
  pose proof (Z.div_mod (days + 719468) 146097 ltac:(lia)) as Hz.
  set (era := (days + 719468) / 146097) in *.
  set (doe := (days + 719468) mod 146097) in *.
  destruct (yoe_bounds _ Hd) as [Hy Hdoy]. destruct (month_bounds _ Hdoy) as [Hm _].
  set (yoe := (doe - doe / 1460 + doe / 36524 - doe / 146096) / 365) in *.
  set (doy := doe - (365 * yoe + yoe / 4 - yoe / 100)) in *.
  set (mp := (5 * doy + 2) / 153) in *.
  assert (Hq : (yoe + era * 400) / 400 = era)
    by (rewrite Z.div_add by lia; rewrite Z.div_small by lia; lia).
  assert (Hr : (yoe + era * 400) mod 400 = yoe)
    by (rewrite Z.mod_add by lia; by apply Z.mod_small).
  unfold days_from_civil. cbn [year month day].
  destruct (Z.ltb_spec mp 10).
  - rewrite (proj2 (Z.leb_gt (mp + 3) 2)) by lia. rewrite Hq, Hr.
    replace (mp + 3 - 3) with mp by lia. lia.
  - rewrite (proj2 (Z.leb_le (mp - 9) 2)) by lia.
    replace (yoe + era * 400 + 1 - 1) with (yoe + era * 400) by lia.
    rewrite Hq, Hr. replace (mp - 9 + 9) with mp by lia. lia.
Qed.
End Civil.

Module Iso.
Import Civil.

(** ** Zero-padded decimals *)
Definition digit (n : Z) : ascii := ascii_of_nat (Z.to_nat (48 + n)).
Definition digit_value (c : ascii) : option Z :=
  let n := Z.of_nat (nat_of_ascii c) in
  if (48 <=? n) && (n <=? 57) then Some (n - 48) else None.

Fixpoint pad (k : nat) (n : Z) : list ascii :=
  match k with
  | O => []
  | S k => pad k (n / 10) ++ [digit (n mod 10)]
  end.

Fixpoint read_digits (k : nat) (acc : Z) (l : list ascii) : option (Z * list ascii) :=
  match k with
  | O => Some (acc, l)
  | S k => match l with
           | [] => None
           | c :: l => v ← digit_value c; read_digits k (acc * 10 + v) l
           end
  end.

(** ** [toISOString]; [None] is the [RangeError] outside +-8.64e15 ms *)
Definition max_time : Z := 8640000000000000.

Definition iso_year (y : Z) : list ascii :=
  if (0 <=? y) && (y <=? 9999) then pad 4 y
  else if y <? 0 then "-"%char :: pad 6 (- y) else "+"%char :: pad 6 y.

Definition toISOString (t : Z) : option string :=
  if Z.abs t <=? max_time then
    let c := civil_from_days (t / 86400000) in
    let ms := t mod 86400000 in
    Some (of_chars (iso_year (year c) ++ "-"%char :: pad 2 (month c) ++ "-"%char :: pad 2 (day c)
                    ++ "T"%char :: pad 2 (ms / 3600000) ++ ":"%char :: pad 2 (ms / 60000 mod 60)
                    ++ ":"%char :: pad 2 (ms / 1000 mod 60) ++ "."%char :: pad 3 (ms mod 1000)
                    ++ ["Z"%char]))
  else None.

(** ** Reading the format back *)
Definition expect (c : ascii) (l : list ascii) : option (list ascii) :=
  match l with c' :: l => if decide (c = c') then Some l else None | [] => None end.

Definition read_year (l : list ascii) : option (Z * list ascii) :=
  match l with
  | c :: r =>
      if decide (c = "-"%char) then '(y, r) ← read_digits 6 0 r; Some (- y, r)
      else if decide (c = "+"%char) then read_digits 6 0 r
      else read_digits 4 0 l
  | [] => None
  end.

Definition parse_iso (s : string) : option Z :=
  '(y, l) ← read_year (chars s);
  l ← expect "-" l; '(mo, l) ← read_digits 2 0 l;
  l ← expect "-" l; '(d, l) ← read_digits 2 0 l;
  l ← expect "T" l; '(h, l) ← read_digits 2 0 l;
  l ← expect ":" l; '(mi, l) ← read_digits 2 0 l;
  l ← expect ":" l; '(sec, l) ← read_digits 2 0 l;
  l ← expect "." l; '(ms, l) ← read_digits 3 0 l;
  l ← expect "Z" l;
  match l with
  | [] => Some (days_from_civil (YMD y mo d) * 86400000
                + h * 3600000 + mi * 60000 + sec * 1000 + ms)
  | _ => None
  end.

Example iso1 : toISOString 1718000000123 = Some "2024-06-10T06:13:20.123Z".
Proof. reflexivity. Qed.
Example iso2 : toISOString (-1) = Some "1969-12-31T23:59:59.999Z".
Proof. reflexivity. Qed.
Example iso3 : parse_iso "2024-06-10T06:13:20.123Z" = Some 1718000000123.
Proof. reflexivity. Qed.

Lemma digit_value_digit n : 0 <= n < 10 -> digit_value (digit n) = Some n.
Proof.
  intros H.
  assert (n ∈ Z.of_nat <$> seq 0 10) as Hn.
  { apply list_elem_of_fmap. exists (Z.to_nat n). split; [lia|]. apply elem_of_seq. lia. }
  clear H. revert n Hn. apply list.Forall_forall. apply (bool_decide_unpack _). vm_compute. exact I.
Qed.

Lemma read_digits_split k1 k2 acc l :
  read_digits (k1 + k2) acc l = '(v, r) ← read_digits k1 acc l; read_digits k2 v r.
Proof.
  revert acc l. induction k1 as [|k1 IH]; intros acc l; [done|]. simpl.
  destruct l as [|c l]; [done|]. destruct (digit_value c); [|done]. simpl. apply IH.
Qed.

Lemma read_pad k acc n l :
  0 <= n < 10 ^ Z.of_nat k ->
  read_digits k acc (pad k n ++ l) = Some (acc * 10 ^ Z.of_nat k + n, l).
Proof.
  revert acc n l. induction k as [|k IH]; intros acc n l Hn.
  - change (10 ^ Z.of_nat 0) with 1 in *. simpl. do 2 f_equal. lia.
  - assert (Hp : 10 ^ Z.of_nat (S k) = 10 * 10 ^ Z.of_nat k)
      by (rewrite Nat2Z.inj_succ, Z.pow_succ_r by lia; done).
    rewrite Hp in *.
    rewrite <- Nat.add_1_r at 1. rewrite read_digits_split.
    cbn [pad]. rewrite <- app_assoc.
    rewrite IH by (split; [apply Z.div_pos; lia|apply Z.div_lt_upper_bound; lia]).
    simpl. rewrite digit_value_digit by (apply Z.mod_pos_bound; lia). simpl.
    do 2 f_equal. pose proof (Z.div_mod n 10). lia.
Qed.

Lemma read_pad_2 n l : 0 <= n < 100 -> read_digits 2 0 (pad 2 n ++ l) = Some (n, l).
Proof. intros H. by rewrite read_pad. Qed.
Lemma read_pad_3 n l : 0 <= n < 1000 -> read_digits 3 0 (pad 3 n ++ l) = Some (n, l).
Proof. intros H. by rewrite read_pad. Qed.

(** A printed number starts with a digit, not with a sign. *)
Lemma pad_head k n : 0 <= n -> exists c r, pad (S k) n = c :: r /\ c <> "-"%char /\ c <> "+"%char.
Proof.
  revert n. induction k as [|k IH]; intros n Hn.
  - cbn [pad app]. exists (digit (n mod 10)), []. split; [done|].
    pose proof (digit_value_digit (n mod 10) ltac:(apply Z.mod_pos_bound; lia)).
    split; intros E; rewrite E in H; discriminate H.
  - destruct (IH (n / 10)) as (c & r & E & Hc); [by apply Z.div_pos|].
    change (pad (S (S k)) n) with (pad (S k) (n / 10) ++ [digit (n mod 10)]).
    rewrite E. by exists c, (r ++ [digit (n mod 10)]).
Qed.

Lemma read_iso_year y l : Z.abs y < 1000000 -> read_year (iso_year y ++ l) = Some (y, l).
Proof.
  intros Hy. unfold iso_year.
  destruct (Z.leb_spec 0 y), (Z.leb_spec y 9999); cbn [andb].
  - destruct (pad_head 3 y) as (c & r & E & H1 & H2); [done|].
    rewrite E. cbn [app read_year]. rewrite !decide_False by done.
    change (c :: r ++ l) with ((c :: r) ++ l). rewrite <- E. rewrite read_pad; [done|].
    change (10 ^ Z.of_nat 4) with 10000. lia.
  - rewrite (proj2 (Z.ltb_ge y 0)) by lia. cbn [app read_year].
    rewrite decide_False, decide_True by done. rewrite read_pad; [done|].
    change (10 ^ Z.of_nat 6) with 1000000. lia.
  - rewrite (proj2 (Z.ltb_lt y 0)) by lia. cbn [app read_year].
    rewrite decide_True by done. rewrite read_pad; [simpl; do 2 f_equal; lia|].
    change (10 ^ Z.of_nat 6) with 1000000. lia.
  - lia.
Qed.

Lemma expect_head c l : expect c (c :: l) = Some l.
Proof. simpl. by rewrite decide_True. Qed.

Lemma year_bound t : Z.abs t <= max_time -> Z.abs (year (civil_from_days (t / 86400000))) < 1000000.
Proof.
  unfold max_time. intros Ht.
  assert (Hd : -100000000 <= t / 86400000 <= 100000000)
    by (Z.to_euclidean_division_equations; lia).
  revert Hd. generalize (t / 86400000). intros days Hd. unfold civil_from_days. cbv zeta.
  pose proof (Z.mod_pos_bound (days + 719468) 146097 ltac:(lia)) as Hm.
  destruct (yoe_bounds _ Hm) as [Hy _].
  assert (-2000 <= (days + 719468) / 146097 <= 2000) by (Z.to_euclidean_division_equations; lia).
  cbn [year]. match goal with |- context [if ?b then _ else _] => destruct b end; lia.
Qed.

Lemma ymd_eta c : YMD (year c) (month c) (day c) = c.
Proof. by destruct c. Qed.

Lemma some_bind {A B} (x : A) (f : A -> option B) : Some x ≫= f = f x.
Proof. done. Qed.

Lemma parse_toISOString t :
  Z.abs t <= max_time -> (s ← toISOString t; parse_iso s) = Some t.
Proof.
  intros Ht. unfold toISOString. rewrite (proj2 (Z.leb_le _ _)) by done. cbv zeta.
  rewrite some_bind. unfold parse_iso. rewrite chars_of_chars.
  pose proof (civil_range (t / 86400000)) as [Hm Hd].
  pose proof (Z.mod_pos_bound t 86400000 ltac:(lia)) as Hms.
  rewrite read_iso_year by by apply year_bound.
  set (ms := t mod 86400000) in *.
  assert (0 <= ms / 3600000 < 24) by (Z.to_euclidean_division_equations; lia).
  pose proof (Z.mod_pos_bound (ms / 60000) 60 ltac:(lia)).
  pose proof (Z.mod_pos_bound (ms / 1000) 60 ltac:(lia)).
  pose proof (Z.mod_pos_bound ms 1000 ltac:(lia)).
  repeat (rewrite some_bind; cbv beta iota;
          first [rewrite expect_head | rewrite read_pad_2 by lia | rewrite read_pad_3 by lia]).
  rewrite some_bind, ymd_eta, days_civil_days. f_equal. unfold ms.
  Z.to_euclidean_division_equations; lia.
Qed.
End Iso.

(** ** [monitoring/range.ts] *)
Module Range.
Import Civil Iso.

Inductive range := R1h | R24h | R7d.

Definition SPAN_SECONDS (r : range) : Z :=
  match r with R1h => 3600 | R24h => 86400 | R7d => 604800 end.
Definition BUCKET_SECONDS (r : range) : Z :=
  match r with R1h => 60 | R24h => 300 | R7d => 3600 end.

Record RangeParams := MkRangeParams { from : string; to : string; bucket : Z }.

(** [None]: [toISOString] threw on an out-of-range date. *)
Definition rangeToParams (r : range) (now : Z) : option RangeParams :=
  from ← toISOString (now - SPAN_SECONDS r * 1000);
  to ← toISOString now;
  Some (MkRangeParams from to (BUCKET_SECONDS r)).

(** *** The metrics endpoint ([backend/app/api/monitoring.py]) *)

(** Its [datetime] parameters: years from 1 to 9999, in four digits; a signed
    year, as [toISOString] prints it beyond, is refused. *)
Definition api_datetime (s : string) : option Z :=
  match chars s with
  | c :: _ => if bool_decide (c = "+"%char \/ c = "-"%char) then None
              else t ← parse_iso s;
                   if (days_from_civil (YMD 1 1 1) * 86400000 <=? t) then Some t else None
  | [] => None
  end.

(** [MAX_POINTS] bounds [interval / bucket]. *)
Definition MAX_POINTS : Z := 5000.

(** The guards of the endpoint on the three parameters. *)
Definition accepted (p : RangeParams) : bool :=
  match api_datetime (from p), api_datetime (to p) with
  | Some f, Some t => (1 <=? bucket p) && (f <? t) && (t - f <=? MAX_POINTS * (bucket p * 1000))
  | _, _ => false
  end.

(** What a preset's name says, in milliseconds: a number of hours or days. *)
Definition named (r : range) : string := match r with R1h => "1h" | R24h => "24h" | R7d => "7d" end.
Definition duration (name : string) : option Z :=
  match rev (chars name) with
  | u :: ds =>
      '(n, rest) ← read_digits (length ds) 0 (rev ds);
      if bool_decide (rest = []) then
        if bool_decide (u = "h"%char) then Some (n * 3600000)
        else if bool_decide (u = "d"%char) then Some (n * 86400000) else None
      else None
  | [] => None
  end.

Lemma span_named r : duration (named r) = Some (SPAN_SECONDS r * 1000).
Proof. by destruct r. Qed.

(** The last millisecond of the year 9999. *)
Definition last_api : Z := 253402300799999.

Lemma year_9999 t :
  -604800000 <= t -> year (civil_from_days (t / 86400000)) <= 9999 <-> t <= last_api.
Proof.
  intros Ht. assert (Hd : t <= last_api <-> t / 86400000 < 2932897)
    by (unfold last_api; Z.to_euclidean_division_equations; lia).
  rewrite Hd. clear Hd. assert (H0 : -7 <= t / 86400000) by (Z.to_euclidean_division_equations; lia).
  revert H0. generalize (t / 86400000). intros days H0. unfold civil_from_days. cbv zeta. cbn [year].
  pose proof (Z.mod_pos_bound (days + 719468) 146097 ltac:(lia)) as Hm.
  pose proof (Z.div_mod (days + 719468) 146097 ltac:(lia)) as Hz.
  set (era := (days + 719468) / 146097) in *. set (doe := (days + 719468) mod 146097) in *.
  destruct (yoe_bounds _ Hm) as [Hy Hdoy]. cbv zeta in Hdoy.
  set (yoe := (doe - doe / 1460 + doe / 36524 - doe / 146096) / 365) in *.
  set (doy := doe - (365 * yoe + yoe / 4 - yoe / 100)) in *.
  set (mp := (5 * doy + 2) / 153).
  assert (Hlast : era = 24 -> 146037 <= doe <-> yoe = 399 /\ 10 <= mp).
  { intros _. subst mp. split.
    - intros Hdoe. assert (yoe = 399) as Hyoe by (subst yoe; Z.to_euclidean_division_equations; lia).
      split; [done|]. subst doy. rewrite Hyoe in *. Z.to_euclidean_division_equations; lia.
    - intros [Hyoe Hmp]. subst doy. rewrite Hyoe in *. Z.to_euclidean_division_equations; lia. }
  destruct (Z.ltb_spec mp 10) as [Hmp|Hmp].
  - rewrite (proj2 (Z.leb_gt (mp + 3) 2)) by (subst mp; Z.to_euclidean_division_equations; lia). lia.
  - assert (mp <= 11) by (subst mp; Z.to_euclidean_division_equations; lia).
    rewrite (proj2 (Z.leb_le (mp - 9) 2)) by lia. lia.
Qed.

(** A year of four digits is printed without a sign, a later one with it. *)
Lemma iso_head t s :
  -604800000 <= t -> toISOString t = Some s ->
  exists c r, chars s = c :: r /\ (c = "+"%char \/ c = "-"%char <-> last_api < t).
Proof.
  intros Ht. unfold toISOString. destruct (Z.abs t <=? max_time); [|done]. cbv zeta.
  intros Hs. apply (inj Some) in Hs as <-.
  rewrite chars_of_chars. pose proof (year_9999 t Ht) as Hy.
  assert (H0 : 0 <= year (civil_from_days (t / 86400000))).
  { unfold civil_from_days. cbv zeta. cbn [year].
    pose proof (Z.mod_pos_bound (t / 86400000 + 719468) 146097 ltac:(lia)) as Hm.
    destruct (yoe_bounds _ Hm) as [[Hyoe _] _].
    assert (0 <= (t / 86400000 + 719468) / 146097) by (Z.to_euclidean_division_equations; lia).
    destruct (_ <=? 2); lia. }
  revert Hy H0. generalize (civil_from_days (t / 86400000)). intros cd Hy H0.
  unfold iso_year. rewrite (proj2 (Z.leb_le 0 (year cd))) by done. cbn [andb].
  destruct (Z.leb_spec (year cd) 9999) as [Hle|Hgt].
  - destruct (pad_head 3 _ H0) as (c & r & E & Hm & Hp). rewrite E. eexists c, _. split; [reflexivity|].
    split; [by intros [?|?]|]. intros. apply Hy in Hle. lia.
  - rewrite (proj2 (Z.ltb_ge (year cd) 0)) by lia. eexists _, _. split; [reflexivity|]. split; [|by left].
    intros _. apply Z.lt_nge. intros Hl. apply Hy in Hl. lia.
Qed.

Lemma api_datetime_iso t s :
  -604800000 <= t <= max_time -> toISOString t = Some s -> api_datetime s = if t <=? last_api then Some t else None.
Proof.
  intros Ht Hs. destruct (iso_head t s (proj1 Ht) Hs) as (c & r & E & Hc). unfold api_datetime. rewrite E.
  pose proof (parse_toISOString t ltac:(unfold max_time in *; lia)) as Hp. rewrite Hs in Hp. simpl in Hp. rewrite Hp.
  destruct (Z.leb_spec t last_api) as [Hle|Hgt].
  - rewrite bool_decide_false by (rewrite Hc; lia). simpl.
    rewrite (proj2 (Z.leb_le _ t)); [done|]. apply Z.le_trans with (-604800000); [vm_compute; discriminate|lia].
  - by rewrite bool_decide_true by by rewrite Hc.
Qed.

(** C38.  At any instant from the epoch on, up to the end of JavaScript's
    calendar, a range preset yields parameters that end now and begin as much
    earlier as the preset's name says (an hour, 24 hours, 7 days), in between
    60 and 288 buckets; the metrics endpoint accepts them exactly up to the
    end of the year 9999, where its dates end. *)
Theorem rangeToParams_ok r now :
  0 <= now <= max_time ->
  exists p span, rangeToParams r now = Some p /\ duration (named r) = Some span /\
    parse_iso (to p) = Some now /\ parse_iso (from p) = Some (now - span) /\
    60 * (bucket p * 1000) <= span <= 288 * (bucket p * 1000) /\
    (accepted p = true <-> now <= last_api).
Proof.
  intros Hn. pose proof (span_named r) as Hd.
  assert (Hf : Z.abs (now - SPAN_SECONDS r * 1000) <= max_time)
    by (unfold max_time in *; destruct r; simpl; lia).
  pose proof (parse_toISOString now ltac:(lia)) as Et. pose proof (parse_toISOString _ Hf) as Ef.
  unfold rangeToParams.
  destruct (toISOString (now - SPAN_SECONDS r * 1000)) as [f|] eqn:Hsf; [|done].
  destruct (toISOString now) as [t|] eqn:Hst; [|done]. simpl in *.
  eexists _, _. split; [done|]. split; [exact Hd|]. cbn [from to bucket]. split; [done|]. split; [done|].
  split; [destruct r; simpl; lia|]. unfold accepted. cbn [from to bucket].
  assert (Hfrom : -604800000 <= now - SPAN_SECONDS r * 1000 <= max_time) by (clear - Hn; destruct r; simpl; lia).
  rewrite (api_datetime_iso now t ltac:(lia) Hst), (api_datetime_iso _ f Hfrom Hsf).
  destruct (Z.leb_spec now last_api) as [Hle|Hgt];
    [|destruct (now - SPAN_SECONDS r * 1000 <=? last_api); (split; [done|lia])].
  rewrite (proj2 (Z.leb_le _ last_api)) by (destruct r; simpl; lia). split; [done|]. intros _.
  replace (now - (now - SPAN_SECONDS r * 1000)) with (SPAN_SECONDS r * 1000) by lia.
  rewrite (proj2 (Z.ltb_lt _ now)) by (destruct r; simpl; lia). by destruct r.
Qed.

Lemma rangeToParams_ok_witness :
  (0 <= 1718000000123 <= max_time) /\
  exists p span, rangeToParams R7d 1718000000123 = Some p /\ duration "7d" = Some span /\
    parse_iso (from p) = Some (1718000000123 - span) /\ accepted p = true.
Proof.
  assert (H : 0 <= 1718000000123 <= max_time) by (vm_compute; split; discriminate).
  split; [exact H|].
  destruct (rangeToParams_ok R7d 1718000000123 H) as (p & span & H1 & H2 & _ & H3 & _ & H4).
  exists p, span. split; [exact H1|]. split; [exact H2|]. split; [exact H3|].
  apply H4. vm_compute. discriminate.
Defined.
End Range.
