(* ===== verification/Hooks.v ===== *)
(** * Shape of the data hooks

    A query hook is its key, its guard, the request of its [queryFn] and what
    the [queryFn] makes of the answer.  A mutation hook is the request of its
    [mutationFn], its reading of the answer and what [onSuccess] does.  Time
    and identifiers are arguments. *)
From S2P Require Import Prelude Json Http QueryClient.
From Stdlib Require Import ZArith.

(** Texts of errors: entries of the English dictionary, of the active
    dictionary, or literals; the last carries the class of the error. *)
Inductive msg :=
| En (path : list string)
| Tr (path : list string)
| Lit (s : string)
| Class_ (name : string) (m : msg).

Inductive effect :=
| Invalidate (k : key)
| SetData (k : key) (v : option json)
| ClearCache
| RefreshMe
| Navigate (to : string)
| SaveFile (name : string).

Record query := Query {
  q_key : key;
  q_enabled : bool;
  q_request : request;
  q_fn : fetch_result -> outcome msg (option json);
}.

Record mutation := Mutation {
  m_request : request;
  m_fn : fetch_result -> outcome msg (option json);
  m_success : option json -> list effect;
}.

(** ** Idioms of the source *)

(** Key elements: a literal, a [string | null], a [string | undefined]. *)
Definition ks (s : string) : option json := Some (JStr s).
Definition kn (s : option string) : option json := Some (match s with Some x => JStr x | None => JNull end).
Definition ku (s : option string) : option json := JStr <$> s.

(** [!!s] on a [string | null | undefined]. *)
Definition present (s : option string) : bool :=
  match s with Some x => negb (bool_decide (x = "")) | None => false end.

(** [if (error || !data) throw new Error(m); return data;] *)
Definition data_or_throw (m : msg) (r : fetch_result) : outcome msg (option json) :=
  if truthy (error r) || negb (truthy (data r)) then Threw m else Returned (data r).

(** [if (error) throw new Error(m); return data;] *)
Definition unless_error (m : msg) (r : fetch_result) : outcome msg (option json) :=
  if truthy (error r) then Threw m else Returned (data r).

(** [if (error) throw new Error(m); return data ?? d;] *)
Definition unless_error_or (m : msg) (d : json) (r : fetch_result) : outcome msg (option json) :=
  if truthy (error r) then Threw m else Returned (Some (json_or (data r) d)).

(** [if (error) throw new Error(m);] *)
Definition void_unless_error (m : msg) (r : fetch_result) : outcome msg (option json) :=
  if truthy (error r) then Threw m else Returned None.

Definition jempty : json := JArr [].

(** ** Running the effects of a successful mutation on the cache *)
Section effects.
Context {C : Type} `{Cache C}.

(** [refresh] of the auth context invalidates the [["me"]] query. *)
Definition apply_effect (e : effect) (c : C) : C :=
  match e with
  | Invalidate k => invalidateQueries k c
  | SetData k v => setQueryData k v c
  | ClearCache => clear c
  | RefreshMe => invalidateQueries [ks "me"] c
  | Navigate _ | SaveFile _ => c
  end.

Definition apply_effects (es : list effect) (c : C) : C :=
  fold_left (fun c e => apply_effect e c) es c.

(** A mutation answered by [r]: effects only on success. *)
Definition settle (m : mutation) (r : fetch_result) (c : C) : outcome msg (option json) * C :=
  match m_fn m r with
  | Returned v => (Returned v, apply_effects (m_success m v) c)
  | Threw e => (Threw e, c)
  end.
End effects.
