(* ===== verification/TenantHooks.v ===== *)
(** * Tenant-scoped data hooks

    One definition per hook of the source files that read [activeId] from the
    tenant context ([activeId : option string], [null] being [None]). *)
From S2P Require Import Prelude JsString Json Http QueryClient Hooks Time.
From Stdlib Require Import ZArith.

Definition tenant (activeId : option string) : string * option string := ("tenant_id", activeId).
Definition device (deviceId : option string) : string * option string := ("device_id", deviceId).

(** ** [monitoring/hooks.ts] *)
Module Monitoring.
Definition useTenantHealth (activeId : option string) : query := {|
  q_key := [ks "health"; kn activeId];
  q_enabled := present activeId;
  q_request := get_ "/api/tenants/{tenant_id}/health" [tenant activeId] [];
  q_fn := unless_error (En ["errors"; "fleetHealthLoad"]) |}.

Definition useAlerts (activeId : option string) (active : bool) : query := {|
  q_key := [ks "alerts"; kn activeId; Some (JBool active)];
  q_enabled := present activeId;
  q_request := get_ "/api/tenants/{tenant_id}/alerts" [tenant activeId]
                 [("active", Some (JBool active))];
  q_fn := unless_error_or (En ["errors"; "alertsLoad"]) jempty |}.

Definition range_name (r : Range.range) : string :=
  match r with Range.R1h => "1h" | Range.R24h => "24h" | Range.R7d => "7d" end.

(** The request is computed when the query runs, at time [now]; the dates of
    an instant out of the calendar would throw before any request. *)
Definition useDeviceMetrics (activeId deviceId : option string) (metric : string)
    (r : Range.range) (now : Z) : query :=
  let p := Range.rangeToParams r now in
  {| q_key := [ks "metrics"; kn activeId; ku deviceId; ks metric; ks (range_name r)];
     q_enabled := present activeId && present deviceId;
     q_request := get_ "/api/tenants/{tenant_id}/devices/{device_id}/metrics"
                    [tenant activeId; device deviceId]
                    [("metric", ks metric);
                     ("from", JStr <$> (Range.from <$> p));
                     ("to", JStr <$> (Range.to <$> p));
                     ("bucket", JNum <$> (Range.bucket <$> p))];
     q_fn := unless_error (En ["errors"; "metricsLoad"]) |}.

Definition useMetricLabels (activeId deviceId : option string) : query := {|
  q_key := [ks "metric-labels"; kn activeId; ku deviceId];
  q_enabled := present activeId && present deviceId;
  q_request := get_ "/api/tenants/{tenant_id}/devices/{device_id}/metric-labels"
                 [tenant activeId; device deviceId] [];
  q_fn r := if truthy (error r) then Returned (Some (JObj []))
            else Returned (Some (json_or (data r) (JObj []))) |}.
End Monitoring.

(** ** [config/hooks.ts] *)
Module Config.
Definition useConfigModel (activeId deviceId : option string) : query := {|
  q_key := [ks "config-model"; kn activeId; ku deviceId];
  q_enabled := present activeId && present deviceId;
  q_request := get_ "/api/tenants/{tenant_id}/devices/{device_id}/config/model"
                 [tenant activeId; device deviceId] [];
  q_fn r := if (status r =? 404)%Z then Returned (Some JNull)
            else unless_error (En ["errors"; "configModelLoad"]) r |}.

Definition useConfigCapabilities (activeId deviceId : option string) : query := {|
  q_key := [ks "config-capabilities"; kn activeId; ku deviceId];
  q_enabled := present activeId && present deviceId;
  q_request := get_ "/api/tenants/{tenant_id}/devices/{device_id}/config/capabilities"
                 [tenant activeId; device deviceId] [];
  q_fn r := if (status r =? 404)%Z then Returned (Some JNull)
            else unless_error_or (En ["errors"; "configCapabilitiesLoad"]) JNull r |}.
End Config.

(** ** [config/changeHooks.ts] *)
Module Changes.
Definition listKey (t : option string) (d : option string) : key :=
  [ks "config-changes"; kn t; ku d].

Definition changes_path : string := "/api/tenants/{tenant_id}/devices/{device_id}/config/changes".
Definition change_error : msg := En ["errors"; "configChangeAction"].

Definition useConfigChanges (activeId deviceId : option string) : query := {|
  q_key := listKey activeId deviceId;
  q_enabled := present activeId && present deviceId;
  q_request := get_ changes_path [tenant activeId; device deviceId] [];
  q_fn := unless_error_or (En ["errors"; "configChangesLoad"]) jempty |}.

Definition useCreateChange (activeId : option string) (deviceId : string) (b : json) : mutation := {|
  m_request := send_ POST changes_path [tenant activeId; device (Some deviceId)] (JsonBody b);
  m_fn := data_or_throw change_error;
  m_success _ := [Invalidate (listKey activeId (Some deviceId))] |}.

Definition useScheduleChange (activeId : option string) (deviceId : string)
    (id : string) (scheduled_at : option string) : mutation := {|
  m_request := send_ POST (changes_path +:+ "/{change_id}/schedule")
                 [tenant activeId; device (Some deviceId); ("change_id", Some id)]
                 (JsonBody (JObj [("scheduled_at",
                    match scheduled_at with Some s => JStr s | None => JNull end)]));
  m_fn := data_or_throw change_error;
  m_success _ := [Invalidate (listKey activeId (Some deviceId))] |}.

Definition useCancelChange (activeId : option string) (deviceId id : string) : mutation := {|
  m_request := send_ POST (changes_path +:+ "/{change_id}/cancel")
                 [tenant activeId; device (Some deviceId); ("change_id", Some id)] NoBody;
  m_fn := data_or_throw change_error;
  m_success _ := [Invalidate (listKey activeId (Some deviceId))] |}.

Definition useRevertChange (activeId : option string) (deviceId changeId : string) : mutation := {|
  m_request := send_ POST (changes_path +:+ "/{change_id}/revert")
                 [tenant activeId; device (Some deviceId); ("change_id", Some changeId)]
                 (JsonBody (JObj []));
  m_fn := data_or_throw change_error;
  m_success _ := [Invalidate (listKey activeId (Some deviceId))] |}.

(** Lazy: only [refetch] runs it. *)
Definition useDriftCheck (activeId : option string) (deviceId : string) : query := {|
  q_key := [ks "config-drift"; kn activeId; ks deviceId];
  q_enabled := false;
  q_request := get_ "/api/tenants/{tenant_id}/devices/{device_id}/config/drift-check"
                 [tenant activeId; device (Some deviceId)] [];
  q_fn := data_or_throw change_error |}.

Definition usePreviewChange (activeId : option string) (deviceId : string)
    (changeId : option string) : query := {|
  q_key := [ks "config-change-preview"; kn activeId; ks deviceId; kn changeId];
  q_enabled := present activeId && present changeId;
  q_request := get_ (changes_path +:+ "/{change_id}/preview")
                 [tenant activeId; device (Some deviceId); ("change_id", changeId)] [];
  q_fn := unless_error change_error |}.
End Changes.

(** ** [catalog/catalogHooks.ts] *)
Module CatalogApi.
Definition catalog_error : msg := Tr ["catalog"; "loadFailed"].

Definition useDeviceCatalog (activeId : option string) (deviceId : string) : query := {|
  q_key := [ks "device-catalog"; kn activeId; ks deviceId];
  q_enabled := present activeId && present (Some deviceId);
  q_request := get_ "/api/tenants/{tenant_id}/devices/{device_id}/catalog"
                 [tenant activeId; device (Some deviceId)] [];
  q_fn := data_or_throw catalog_error |}.

Definition useCatalogModel (activeId : option string) (deviceId : string)
    (modelId : option string) : query := {|
  q_key := [ks "catalog-model"; kn activeId; ks deviceId; kn modelId];
  q_enabled := present activeId && present (Some deviceId) && present modelId;
  q_request := get_ "/api/tenants/{tenant_id}/devices/{device_id}/catalog/models/{model_id}"
                 [tenant activeId; device (Some deviceId); ("model_id", modelId)] [];
  q_fn := data_or_throw catalog_error |}.

(** [query: from ? { from } : {}]: an empty baseline is no baseline. *)
Definition useCatalogDiff (activeId : option string) (deviceId : string)
    (from : option string) : query := {|
  q_key := [ks "catalog-diff"; kn activeId; ks deviceId; kn from];
  q_enabled := present activeId && present (Some deviceId);
  q_request := get_ "/api/tenants/{tenant_id}/devices/{device_id}/catalog/diff"
                 [tenant activeId; device (Some deviceId)]
                 (if present from then [("from", ku from)] else []);
  q_fn := data_or_throw catalog_error |}.

Definition useConfigMap (activeId : option string) (deviceId : string) : query := {|
  q_key := [ks "config-map"; kn activeId; ks deviceId];
  q_enabled := present activeId && present (Some deviceId);
  q_request := get_ "/api/tenants/{tenant_id}/devices/{device_id}/config/map"
                 [tenant activeId; device (Some deviceId)] [];
  q_fn := data_or_throw catalog_error |}.

Definition useProposeCatalogChange (activeId : option string) (deviceId : string) (b : json) : mutation := {|
  m_request := send_ POST "/api/tenants/{tenant_id}/devices/{device_id}/catalog/changes"
                 [tenant activeId; device (Some deviceId)] (JsonBody b);
  m_fn := data_or_throw (Tr ["catalog"; "proposeFailed"]);
  m_success _ := [] |}.
End CatalogApi.

(** ** [firmware/hooks.ts] *)
Module Firmware.
Definition TERMINAL : list string := ["done"; "failed"].

(** Rows with a status outside [TERMINAL] keep the list polling. *)
Definition row_status (row : json) : option string :=
  match field "status" row with Some (JStr s) => Some s | _ => None end.

Definition pending_row (row : json) : bool :=
  match row_status row with Some s => negb (bool_decide (s ∈ TERMINAL)) | None => true end.

(** Milliseconds to the next poll, [None] for [false]. *)
Definition refetchInterval (state_data : option json) : option Z :=
  let rows := match state_data with Some (JArr l) => l | _ => [] end in
  if existsb pending_row rows then Some 3000%Z else None.

Definition actionsKey (activeId : option string) (deviceId : string) : key :=
  [ks "firmware-actions"; kn activeId; ks deviceId].

Definition useFirmwareActions (activeId : option string) (deviceId : string) : query := {|
  q_key := actionsKey activeId deviceId;
  q_enabled := present activeId && present (Some deviceId);
  q_request := get_ "/api/tenants/{tenant_id}/devices/{device_id}/firmware/actions"
                 [tenant activeId; device (Some deviceId)] [];
  q_fn := data_or_throw (Lit "firmware actions load failed") |}.

Definition useFirmwareCheck (activeId : option string) (deviceId : string) : mutation := {|
  m_request := send_ POST "/api/tenants/{tenant_id}/devices/{device_id}/firmware/check"
                 [tenant activeId; device (Some deviceId)] NoBody;
  m_fn := data_or_throw (Tr ["firmware"; "checkFailed"]);
  m_success _ := [] |}.

Definition useCreateFirmwareAction (activeId : option string) (deviceId : string) (b : json) : mutation := {|
  m_request := send_ POST "/api/tenants/{tenant_id}/devices/{device_id}/firmware/action"
                 [tenant activeId; device (Some deviceId)] (JsonBody b);
  m_fn := data_or_throw (Tr ["firmware"; "actionFailed"]);
  m_success _ := [Invalidate (actionsKey activeId deviceId)] |}.
End Firmware.

(** ** [plugins/pluginsHooks.ts] *)
Module Plugins.
Definition useDevicePlugins (activeId : option string) (deviceId : string) : query := {|
  q_key := [ks "device-plugins"; kn activeId; ks deviceId];
  q_enabled := present activeId && present (Some deviceId);
  q_request := get_ "/api/tenants/{tenant_id}/devices/{device_id}/plugins"
                 [tenant activeId; device (Some deviceId)] [];
  q_fn := data_or_throw (Tr ["plugins"; "loadFailed"]) |}.

Definition usePluginModels (activeId : option string) (deviceId : string) : query := {|
  q_key := [ks "plugin-models"; kn activeId; ks deviceId];
  q_enabled := present activeId && present (Some deviceId);
  q_request := get_ "/api/tenants/{tenant_id}/devices/{device_id}/plugin-models"
                 [tenant activeId; device (Some deviceId)] [];
  q_fn r := if truthy (error r) || negb (truthy (data r)) then Returned (Some jempty)
            else Returned (data r) |}.
End Plugins.

(** ** [reports/reportHooks.ts], [reports/scheduleHooks.ts], [reports/settingsHooks.ts] *)
Module Reports.
Definition generatedReportsKey (tenantId : option string) : key := [ks "generated-reports"; kn tenantId].

Definition useGeneratedReports (activeId : option string) : query := {|
  q_key := generatedReportsKey activeId;
  q_enabled := present activeId;
  q_request := get_ "/api/tenants/{tenant_id}/reports" [tenant activeId] [];
  q_fn := unless_error_or (En ["errors"; "reportsLoad"]) jempty |}.

(** A template literal prints [null] as such. *)
Definition in_template (s : option string) : string := s orelse "null".

(** [fetch] outside the client: [base] is [VITE_API_BASE ?? ""], [token] the
    value of [csrfToken()]. *)
Definition useGenerateReport (base : string) (activeId : option string) (token from to : string) : mutation := {|
  m_request := Request POST (base +:+ "/api/tenants/" +:+ in_template activeId +:+ "/reports") [] []
                 (JsonBody (JObj [("from", JStr from); ("to", JStr to)]))
                 (ViaFetch [("X-OPNGMS-CSRF", token); ("Content-Type", "application/json")]);
  m_fn r := if negb (response_ok r) then Threw (En ["errors"; "reportGenerate"]) else Returned None;
  m_success _ := [SaveFile "report.pdf"; Invalidate (generatedReportsKey activeId)] |}.

Definition useDownloadReport (base : string) (activeId : option string) (reportId : string) : mutation := {|
  m_request := Request GET
                 (base +:+ "/api/tenants/" +:+ in_template activeId +:+ "/reports/" +:+ reportId +:+ "/download")
                 [] [] NoBody (ViaFetch []);
  m_fn r := if negb (response_ok r) then Threw (En ["errors"; "reportsLoad"]) else Returned None;
  m_success _ := [SaveFile ("report-" +:+ reportId +:+ ".pdf")] |}.

Definition schedulesKey (tid : option string) : key := [ks "report-schedules"; kn tid].

Definition useReportSchedules (activeId : option string) : query := {|
  q_key := schedulesKey activeId;
  q_enabled := present activeId;
  q_request := get_ "/api/tenants/{tenant_id}/report-schedules" [tenant activeId] [];
  q_fn := data_or_throw (Lit "Failed to load schedules") |}.

Definition useUpsertReportSchedule (activeId : option string) (b : json) : mutation := {|
  m_request := send_ PUT "/api/tenants/{tenant_id}/report-schedules" [tenant activeId] (JsonBody b);
  m_fn := data_or_throw (Lit "Failed to save schedule");
  m_success _ := [Invalidate (schedulesKey activeId)] |}.

Definition useDeleteReportSchedule (activeId : option string) (id : string) : mutation := {|
  m_request := send_ DELETE "/api/tenants/{tenant_id}/report-schedules/{schedule_id}"
                 [tenant activeId; ("schedule_id", Some id)] NoBody;
  m_fn := void_unless_error (Lit "Failed to delete schedule");
  m_success _ := [Invalidate (schedulesKey activeId)] |}.

Definition useSendScheduleNow (activeId : option string) (id : string) : mutation := {|
  m_request := send_ POST "/api/tenants/{tenant_id}/report-schedules/{schedule_id}/send-now"
                 [tenant activeId; ("schedule_id", Some id)] NoBody;
  m_fn := void_unless_error (Lit "Failed to send now");
  m_success _ := [] |}.

Definition settingsKey (tenantId : option string) : key := [ks "report-settings"; kn tenantId].
Definition languagesKey (tenantId : option string) : key := [ks "report-languages"; kn tenantId].

Definition useReportSettings (activeId : option string) : query := {|
  q_key := settingsKey activeId;
  q_enabled := present activeId;
  q_request := get_ "/api/tenants/{tenant_id}/reports/settings" [tenant activeId] [];
  q_fn := unless_error (En ["errors"; "reportSettingsLoad"]) |}.

Definition useReportLanguages (activeId : option string) : query := {|
  q_key := languagesKey activeId;
  q_enabled := present activeId;
  q_request := get_ "/api/tenants/{tenant_id}/reports/languages" [tenant activeId] [];
  q_fn := unless_error (En ["errors"; "reportSettingsLoad"]) |}.

Definition useUpdateReportSettings (activeId : option string) (b : json) : mutation := {|
  m_request := send_ PUT "/api/tenants/{tenant_id}/reports/settings" [tenant activeId] (JsonBody b);
  m_fn := data_or_throw (En ["errors"; "reportSettingsAction"]);
  m_success _ := [Invalidate (settingsKey activeId)] |}.

Definition useUploadLogo (base : string) (activeId : option string) (token file : string) : mutation := {|
  m_request := Request PUT (base +:+ "/api/tenants/" +:+ in_template activeId +:+ "/reports/settings/logo")
                 [] [] (FormBody file) (ViaFetch [("X-OPNGMS-CSRF", token)]);
  m_fn r := if negb (response_ok r) then Threw (En ["errors"; "reportSettingsAction"]) else Returned None;
  m_success _ := [Invalidate (settingsKey activeId)] |}.

Definition useDeleteLogo (activeId : option string) : mutation := {|
  m_request := send_ DELETE "/api/tenants/{tenant_id}/reports/settings/logo" [tenant activeId] NoBody;
  m_fn := void_unless_error (En ["errors"; "reportSettingsAction"]);
  m_success _ := [Invalidate (settingsKey activeId)] |}.
End Reports.

(** ** [templates/applyHooks.ts], [templates/settingHooks.ts], [profiles/hooks.ts] (apply side) *)
Module Apply.
Definition apply_failed : msg := Tr ["templates"; "apply"; "failed"].
Definition profile_failed : msg := Tr ["templates"; "profiles"; "apply"; "failed"].

Definition nullable (s : option string) : json := match s with Some x => JStr x | None => JNull end.

Definition useUpsertOverride (activeId : option string) (templateId : string) (body_patch : json) : mutation := {|
  m_request := send_ PUT "/api/tenants/{tenant_id}/templates/{template_id}/override"
                 [tenant activeId; ("template_id", Some templateId)]
                 (JsonBody (JObj [("body_patch", body_patch)]));
  m_fn := data_or_throw apply_failed;
  m_success _ := [] |}.

Definition usePreviewTemplate (activeId : option string) (deviceId templateId : string) (bindings : json) : mutation := {|
  m_request := send_ POST "/api/tenants/{tenant_id}/devices/{device_id}/templates/{template_id}/preview"
                 [tenant activeId; device (Some deviceId); ("template_id", Some templateId)]
                 (JsonBody (JObj [("bindings", bindings)]));
  m_fn := data_or_throw apply_failed;
  m_success _ := [] |}.

Definition useApplyTemplate (activeId : option string) (deviceId templateId : string)
    (scheduled_at : option string) (bindings : json) : mutation := {|
  m_request := send_ POST "/api/tenants/{tenant_id}/devices/{device_id}/templates/{template_id}/apply"
                 [tenant activeId; device (Some deviceId); ("template_id", Some templateId)]
                 (JsonBody (JObj [("scheduled_at", nullable scheduled_at); ("bindings", bindings)]));
  m_fn := data_or_throw apply_failed;
  m_success _ := [Invalidate [ks "config-changes"; kn activeId; ks deviceId]] |}.

Definition usePreviewProfile (activeId : option string) (deviceId profileId : string) (bindings : json) : mutation := {|
  m_request := send_ POST "/api/tenants/{tenant_id}/devices/{device_id}/profiles/{profile_id}/preview"
                 [tenant activeId; device (Some deviceId); ("profile_id", Some profileId)]
                 (JsonBody (JObj [("bindings", bindings)]));
  m_fn := data_or_throw profile_failed;
  m_success _ := [] |}.

Definition useApplyProfile (activeId : option string) (deviceId profileId : string)
    (scheduled_at : option string) (bindings : json) : mutation := {|
  m_request := send_ POST "/api/tenants/{tenant_id}/devices/{device_id}/profiles/{profile_id}/apply"
                 [tenant activeId; device (Some deviceId); ("profile_id", Some profileId)]
                 (JsonBody (JObj [("scheduled_at", nullable scheduled_at); ("bindings", bindings)]));
  m_fn := data_or_throw profile_failed;
  m_success _ := [Invalidate [ks "config-changes"; kn activeId; ks deviceId]] |}.

Definition useTenantDevices (activeId : option string) : query := {|
  q_key := [ks "devices"; kn activeId];
  q_enabled := present activeId;
  q_request := get_ "/api/tenants/{tenant_id}/devices" [tenant activeId] [];
  q_fn := data_or_throw (Lit "devices load failed") |}.

Definition opnsense : string := "/api/tenants/{tenant_id}/devices/{device_id}/opnsense".

Definition useIdsRulesets (activeId : option string) (deviceId : string) : mutation := {|
  m_request := get_ (opnsense +:+ "/ids/rulesets") [tenant activeId; device (Some deviceId)] [];
  m_fn := data_or_throw (Tr ["templates"; "ids"; "loadFailed"]);
  m_success _ := [] |}.

Definition useFirewallRuleModel (activeId : option string) (deviceId : string) : mutation := {|
  m_request := get_ (opnsense +:+ "/firewall/rule-model") [tenant activeId; device (Some deviceId)] [];
  m_fn := data_or_throw (Tr ["templates"; "fw"; "loadFailed"]);
  m_success _ := [] |}.

Definition useMonitTestModel (activeId : option string) (deviceId : string) : mutation := {|
  m_request := get_ (opnsense +:+ "/monit/test-model") [tenant activeId; device (Some deviceId)] [];
  m_fn := data_or_throw (Tr ["templates"; "monit"; "loadFailed"]);
  m_success _ := [] |}.

Definition useIntrospectSetting (activeId : option string) (deviceId endpointKey : string) : mutation := {|
  m_request := get_ (opnsense +:+ "/settings/{endpoint_key}")
                 [tenant activeId; device (Some deviceId); ("endpoint_key", Some endpointKey)] [];
  m_fn := data_or_throw (Tr ["templates"; "setting"; "loadFailed"]);
  m_success _ := [] |}.
End Apply.

(** ** [retention/retentionHooks.ts] *)
Module Retention.
Definition retentionKey (tenantId : option string) : key := [ks "retention"; kn tenantId].

Definition useRetention (activeId : option string) : query := {|
  q_key := retentionKey activeId;
  q_enabled := present activeId;
  q_request := get_ "/api/tenants/{tenant_id}/retention" [tenant activeId] [];
  q_fn := unless_error (En ["errors"; "retentionLoad"]) |}.

Definition useUpdateRetention (activeId : option string) (values : json) : mutation := {|
  m_request := send_ PUT "/api/tenants/{tenant_id}/retention" [tenant activeId]
                 (JsonBody (JObj [("values", values)]));
  m_fn := data_or_throw (En ["errors"; "retentionSave"]);
  m_success _ := [Invalidate (retentionKey activeId)] |}.
End Retention.

(** ** Time windows: [perimeter/perimeterHooks.ts], [overview/attackerCountriesHooks.ts],
    [reliability/reliabilityHooks.ts], [configaudit/configAuditHooks.ts]

    [mounted] is the instant the memoised range was computed at. *)
Module Windows.
Import Iso.
Definition DAY_MS : Z := (24 * 60 * 60 * 1000)%Z.
Definition PAGE_SIZE : Z := 50.

Definition rangeFrom (windowDays now : Z) : option string * option string :=
  (toISOString (now - windowDays * DAY_MS)%Z, toISOString now).

Inductive PerimeterKind := login_failed | firewall_block.
Definition kind_name (k : PerimeterKind) : string :=
  match k with login_failed => "login_failed" | firewall_block => "firewall_block" end.

Definition usePerimeterAttackers (activeId : option string) (kind : PerimeterKind)
    (windowDays_opt limit_opt : option Z) (mounted : Z) : query :=
  let windowDays := windowDays_opt orelse 7%Z in
  let limit := limit_opt orelse 5%Z in
  let '(frm, to) := rangeFrom windowDays mounted in
  {| q_key := [ks "perimeter-attackers"; kn activeId; ks (kind_name kind); ku frm; ku to; Some (JNum limit)];
     q_enabled := present activeId;
     q_request := get_ "/api/tenants/{tenant_id}/perimeter/attackers" [tenant activeId]
                    [("kind", ks (kind_name kind)); ("frm", ku frm); ("to", ku to); ("limit", Some (JNum limit))];
     q_fn := unless_error_or (En ["errors"; "perimeterLoad"]) jempty |}.

Definition defaultRange (now : Z) : option string * option string := rangeFrom 7 now.

Definition useAttackerCountries (activeId : option string) (frm_opt to_opt : option string) (mounted : Z) : query :=
  let frm := match frm_opt with Some f => Some f | None => (defaultRange mounted).1 end in
  let to := match to_opt with Some t => Some t | None => (defaultRange mounted).2 end in
  {| q_key := [ks "attacker-countries"; kn activeId; ku frm; ku to];
     q_enabled := present activeId;
     q_request := get_ "/api/tenants/{tenant_id}/attacker-countries" [tenant activeId]
                    [("frm", ku frm); ("to", ku to)];
     q_fn := unless_error_or (En ["errors"; "attackerCountriesLoad"]) jempty |}.

(** Keyset pagination of the events API: [useInfiniteQuery] with an opaque cursor. *)
Definition event_page (m : msg) (r : fetch_result) : outcome msg (option json) :=
  if truthy (error r) then Threw m
  else Returned (Some (JObj [("items", json_or (data r ≫= field "items") jempty);
                             ("next_cursor", json_or (data r ≫= field "next_cursor") JNull)])).

Definition getNextPageParam (last : json) : option json :=
  let c := field "next_cursor" last in if nullish c then None else c.

Definition useReliabilityEvents (activeId : option string) (deviceId : string) (pageParam : option string) : query := {|
  q_key := [ks "reliability-events"; kn activeId; ks deviceId];
  q_enabled := present activeId && present (Some deviceId);
  q_request := get_ "/api/tenants/{tenant_id}/events" [tenant activeId]
                 [("source", ks "service"); ("device_id", ks deviceId);
                  ("limit", Some (JNum PAGE_SIZE)); ("after", ku pageParam)];
  q_fn := event_page (En ["reliability"; "loadError"]) |}.

Definition useReliabilitySummary (activeId : option string) (mounted : Z) : query :=
  let frm := toISOString (mounted - DAY_MS)%Z in
  {| q_key := [ks "reliability-summary"; kn activeId; ku frm];
     q_enabled := present activeId;
     q_request := get_ "/api/tenants/{tenant_id}/events/top" [tenant activeId]
                    [("source", ks "service"); ("field", ks "name"); ("from", ku frm); ("limit", Some (JNum 10))];
     q_fn := unless_error_or (En ["reliability"; "loadError"]) jempty |}.

Definition useConfigAuditEvents (activeId : option string) (deviceId : string) (pageParam : option string) : query := {|
  q_key := [ks "config-audit-events"; kn activeId; ks deviceId];
  q_enabled := present activeId && present (Some deviceId);
  q_request := get_ "/api/tenants/{tenant_id}/events" [tenant activeId]
                 [("source", ks "config_audit"); ("device_id", ks deviceId);
                  ("limit", Some (JNum PAGE_SIZE)); ("after", ku pageParam)];
  q_fn := event_page (En ["configAudit"; "loadError"]) |}.

Definition useConfigAuditSummary (activeId : option string) (mounted : Z) : query :=
  let frm := toISOString (mounted - DAY_MS)%Z in
  {| q_key := [ks "config-audit-summary"; kn activeId; ku frm];
     q_enabled := present activeId;
     q_request := get_ "/api/tenants/{tenant_id}/events/top" [tenant activeId]
                    [("source", ks "config_audit"); ("field", ks "action"); ("from", ku frm); ("limit", Some (JNum 10))];
     q_fn := unless_error_or (En ["configAudit"; "loadError"]) jempty |}.

(** A change made outside OPNGMS. *)
Definition isDirectChannel (action : string) : bool :=
  (action === "gui") || (action === "system") || (action === "api_external").

Definition channelLabel (action : string) (channels : list (string * string)) : string :=
  assoc action channels orelse action.
End Windows.

(** ** [logs/logForwardingHooks.ts], [logs/logHooks.ts] *)
Module Logs.
Definition forwardingKey (activeId : option string) (deviceId : string) : key :=
  [ks "log-forwarding"; kn activeId; ks deviceId].
Definition forwarding : string := "/api/tenants/{tenant_id}/devices/{device_id}/log-forwarding".

Definition useLogForwardingStatus (activeId : option string) (deviceId : string) : query := {|
  q_key := forwardingKey activeId deviceId;
  q_enabled := present activeId && present (Some deviceId);
  q_request := get_ forwarding [tenant activeId; device (Some deviceId)] [];
  q_fn := data_or_throw (Lit "status failed") |}.

Definition useEnableLogForwarding (activeId : option string) (deviceId : string) : mutation := {|
  m_request := send_ POST (forwarding +:+ "/enable") [tenant activeId; device (Some deviceId)] NoBody;
  m_fn := data_or_throw (Lit "enable failed");
  m_success _ := [Invalidate (forwardingKey activeId deviceId)] |}.

Definition useDisableLogForwarding (activeId : option string) (deviceId : string) : mutation := {|
  m_request := send_ POST (forwarding +:+ "/disable") [tenant activeId; device (Some deviceId)] NoBody;
  m_fn := data_or_throw (Lit "disable failed");
  m_success _ := [Invalidate (forwardingKey activeId deviceId)] |}.

Definition useRotateLogForwarding (activeId : option string) (deviceId : string) : mutation := {|
  m_request := send_ POST (forwarding +:+ "/rotate") [tenant activeId; device (Some deviceId)] NoBody;
  m_fn := data_or_throw (Lit "rotate failed");
  m_success _ := [Invalidate (forwardingKey activeId deviceId)] |}.

Definition useRevokeLogForwarding (activeId : option string) (deviceId : string) (reason : option string) : mutation := {|
  m_request := send_ POST (forwarding +:+ "/revoke") [tenant activeId; device (Some deviceId)]
                 (JsonBody (JObj [("reason", Apply.nullable reason)]));
  m_fn := data_or_throw (Lit "revoke failed");
  m_success _ := [Invalidate (forwardingKey activeId deviceId)] |}.

Definition useLogSearch (activeId : option string) (b : json) : mutation := {|
  m_request := send_ POST "/api/tenants/{tenant_id}/logs/search" [tenant activeId] (JsonBody b);
  m_fn := data_or_throw (Lit "Log search failed");
  m_success _ := [] |}.
End Logs.

(** ** Queries and mutations written inside components: [pages/DevicesPage.tsx],
    [pages/DeviceDetailPage.tsx], [components/DeviceActions.tsx] *)
Module Devices.
Definition DevicesPage_query (activeId : option string) : query := {|
  q_key := [ks "devices"; kn activeId];
  q_enabled := present activeId;
  q_request := get_ "/api/tenants/{tenant_id}/devices" [tenant activeId] [];
  q_fn r := Returned (Some (json_or (data r) jempty)) |}.

Definition DeviceDetailPage_query (activeId deviceId : option string) : query := {|
  q_key := [ks "device"; kn activeId; ku deviceId];
  q_enabled := present activeId && present deviceId;
  q_request := get_ "/api/tenants/{tenant_id}/devices/{device_id}" [tenant activeId; device deviceId] [];
  q_fn r := Returned (data r) |}.

Definition DeviceActions_test (tenantId deviceId : string) : mutation := {|
  m_request := send_ POST "/api/tenants/{tenant_id}/devices/{device_id}/test-connection"
                 [tenant (Some tenantId); device (Some deviceId)] NoBody;
  m_fn := data_or_throw (Lit "test failed");
  m_success _ := [Invalidate [ks "device"; ks tenantId; ks deviceId]; Invalidate [ks "devices"; ks tenantId]] |}.

Definition DeviceActions_remove (tenantId deviceId : string) : mutation := {|
  m_request := send_ DELETE "/api/tenants/{tenant_id}/devices/{device_id}"
                 [tenant (Some tenantId); device (Some deviceId)] NoBody;
  m_fn := void_unless_error (Lit "delete failed");
  m_success _ := [Invalidate [ks "devices"; ks tenantId]; Navigate "/devices"] |}.

(** [components/DeviceCreateModal.tsx] *)
Record device_form := DeviceForm {
  f_name : string;
  f_base_url : string;
  f_api_key : string;
  f_api_secret : string;
  f_verify_tls : bool;
  f_tls_fingerprint : string;
}.

Definition create_body (v : device_form) : json :=
  let rest := [("name", JStr (f_name v)); ("base_url", JStr (f_base_url v));
               ("api_key", JStr (f_api_key v)); ("api_secret", JStr (f_api_secret v));
               ("verify_tls", JBool (f_verify_tls v))] in
  let fingerprint := if f_verify_tls v then "" else trim (f_tls_fingerprint v) in
  if fingerprint === "" then JObj rest
  else JObj (rest ++ [("tls_fingerprint", JStr fingerprint)]).

Definition DeviceCreateModal_mutation (tenantId : string) (v : device_form) : mutation := {|
  m_request := send_ POST "/api/tenants/{tenant_id}/devices" [tenant (Some tenantId)]
                 (JsonBody (create_body v));
  m_fn := unless_error (Lit "create failed");
  m_success _ := [Invalidate [ks "devices"; ks tenantId]] |}.

(** The stored pin is never dormant: the body creating a device carries a
    TLS fingerprint exactly when verification is off and the trimmed text is
    not empty, and then it is that trimmed text. *)
Lemma create_body_fingerprint v :
  field "tls_fingerprint" (create_body v) =
    if f_verify_tls v then None
    else if trim (f_tls_fingerprint v) === "" then None
    else Some (JStr (trim (f_tls_fingerprint v))).
Proof.
  unfold create_body. destruct (f_verify_tls v); [done|].
  by destruct (bool_decide (trim (f_tls_fingerprint v) = "")).
Qed.
End Devices.
