(* ===== verification/PlatformHooks.v ===== *)
(** * Data hooks that are not scoped to a tenant

    Groups, template and profile libraries, administration, audit, log fleet,
    multi-factor authentication, sessions, and the two context providers. *)
From S2P Require Import Prelude JsString Json Http QueryClient Hooks WebAuthn.
From Stdlib Require Import ZArith.

(** ** [groups/groupHooks.ts] *)
Module Groups.
Definition groupsKey : key := [ks "groups"].
Definition group (id : string) : string * option string := ("group_id", Some id).

Definition useGroups : query := {|
  q_key := groupsKey; q_enabled := true;
  q_request := get_ "/api/groups" [] [];
  q_fn := data_or_throw (Lit "Failed to load groups") |}.

Definition useCreateGroup (b : json) : mutation := {|
  m_request := send_ POST "/api/groups" [] (JsonBody b);
  m_fn := data_or_throw (Lit "Failed to create group");
  m_success _ := [Invalidate groupsKey] |}.

Definition useUpdateGroup (id : string) (b : json) : mutation := {|
  m_request := send_ PATCH "/api/groups/{group_id}" [group id] (JsonBody b);
  m_fn := data_or_throw (Lit "Failed to update group");
  m_success _ := [Invalidate groupsKey] |}.

Definition useDeleteGroup (id : string) : mutation := {|
  m_request := send_ DELETE "/api/groups/{group_id}" [group id] NoBody;
  m_fn := void_unless_error (Lit "Failed to delete group");
  m_success _ := [Invalidate groupsKey] |}.

Definition useSetGroupMembers (id : string) (userIds : list string) : mutation := {|
  m_request := send_ PUT "/api/groups/{group_id}/members" [group id]
                 (JsonBody (JObj [("user_ids", JArr (JStr <$> userIds))]));
  m_fn := data_or_throw (Lit "Failed to set members");
  m_success _ := [Invalidate groupsKey] |}.

Definition useAddGroupGrant (id : string) (b : json) : mutation := {|
  m_request := send_ POST "/api/groups/{group_id}/grants" [group id] (JsonBody b);
  m_fn := data_or_throw (Lit "Failed to add grant");
  m_success _ := [Invalidate groupsKey] |}.

Definition useDeleteGroupGrant (id grantId : string) : mutation := {|
  m_request := send_ DELETE "/api/groups/{group_id}/grants/{grant_id}"
                 [group id; ("grant_id", Some grantId)] NoBody;
  m_fn := void_unless_error (Lit "Failed to delete grant");
  m_success _ := [Invalidate groupsKey] |}.

Definition useAllTenants : query := {|
  q_key := [ks "my-tenants"]; q_enabled := true;
  q_request := get_ "/api/me/tenants" [] [];
  q_fn := data_or_throw (Lit "Failed to load tenants") |}.
End Groups.

(** ** The queries of [auth/AuthProvider.tsx] and [tenant/TenantProvider.tsx] *)
Module Providers.
Definition AuthProvider_query : query := {|
  q_key := [ks "me"]; q_enabled := true;
  q_request := get_ "/api/me" [] [];
  q_fn r := if (status r =? 401)%Z then Returned (Some JNull)
            else Returned (Some (json_or (data r) JNull)) |}.

Definition TenantProvider_query : query := {|
  q_key := [ks "my-tenants"]; q_enabled := true;
  q_request := get_ "/api/me/tenants" [] [];
  q_fn r := Returned (Some (json_or (data r) jempty)) |}.
End Providers.

(** ** [templates/hooks.ts], [templates/settingHooks.ts] (endpoints), [profiles/hooks.ts] *)
Module Library.
Definition save_failed : msg := Tr ["templates"; "saveFailed"].
Definition profile_save_failed : msg := Tr ["templates"; "profiles"; "saveFailed"].

Definition useTemplates : query := {|
  q_key := [ks "templates"]; q_enabled := true;
  q_request := get_ "/api/templates" [] [];
  q_fn := data_or_throw (Lit "templates load failed") |}.

Definition useCreateTemplate (b : json) : mutation := {|
  m_request := send_ POST "/api/templates" [] (JsonBody b);
  m_fn := data_or_throw save_failed;
  m_success _ := [Invalidate [ks "templates"]] |}.

Definition useUpdateTemplate (id : string) (b : json) : mutation := {|
  m_request := send_ PUT "/api/templates/{template_id}" [("template_id", Some id)] (JsonBody b);
  m_fn := data_or_throw save_failed;
  m_success _ := [Invalidate [ks "templates"]] |}.

Definition useDeleteTemplate (id : string) : mutation := {|
  m_request := send_ DELETE "/api/templates/{template_id}" [("template_id", Some id)] NoBody;
  m_fn := void_unless_error save_failed;
  m_success _ := [Invalidate [ks "templates"]] |}.

Definition useSettingEndpoints : query := {|
  q_key := [ks "setting-endpoints"]; q_enabled := true;
  q_request := get_ "/api/opnsense/setting-endpoints" [] [];
  q_fn := data_or_throw (Lit "setting endpoints load failed") |}.

Definition useProfiles : query := {|
  q_key := [ks "profiles"]; q_enabled := true;
  q_request := get_ "/api/profiles" [] [];
  q_fn := data_or_throw (Lit "profiles load failed") |}.

Definition useCreateProfile (b : json) : mutation := {|
  m_request := send_ POST "/api/profiles" [] (JsonBody b);
  m_fn := data_or_throw profile_save_failed;
  m_success _ := [Invalidate [ks "profiles"]] |}.

Definition useUpdateProfile (id : string) (b : json) : mutation := {|
  m_request := send_ PUT "/api/profiles/{profile_id}" [("profile_id", Some id)] (JsonBody b);
  m_fn := data_or_throw profile_save_failed;
  m_success _ := [Invalidate [ks "profiles"]] |}.

Definition useDeleteProfile (id : string) : mutation := {|
  m_request := send_ DELETE "/api/profiles/{profile_id}" [("profile_id", Some id)] NoBody;
  m_fn := void_unless_error profile_save_failed;
  m_success _ := [Invalidate [ks "profiles"]] |}.
End Library.

(** ** [admin/smtpHooks.ts], [admin/systemHooks.ts] *)
Module Admin.
Definition smtpKey : key := [ks "smtp-settings"].
Definition livePushKey : key := [ks "live-push"].
Definition runtimeSettingsKey : key := [ks "runtime-settings"].

Definition useSmtpSettings : query := {|
  q_key := smtpKey; q_enabled := true;
  q_request := get_ "/api/admin/smtp" [] [];
  q_fn := data_or_throw (Lit "Failed to load SMTP settings") |}.

Definition useUpdateSmtpSettings (b : json) : mutation := {|
  m_request := send_ PUT "/api/admin/smtp" [] (JsonBody b);
  m_fn := data_or_throw (Lit "Failed to save SMTP settings");
  m_success d := [SetData smtpKey d] |}.

Definition useTestSmtp (b : json) : mutation := {|
  m_request := send_ POST "/api/admin/smtp/test" [] (JsonBody b);
  m_fn := data_or_throw (Lit "Test send failed");
  m_success _ := [] |}.

Inductive provider := google | microsoft.
Definition provider_name (p : provider) : string :=
  match p with google => "google" | microsoft => "microsoft" end.

(** The URL is checked at run time before anything navigates to it. *)
Definition useSmtpOAuthConnect (p : provider) : mutation := {|
  m_request := get_ "/api/admin/smtp/oauth/{provider}/authorize"
                 [("provider", Some (provider_name p))] [];
  m_fn r := let! d := data_or_throw (Lit "Failed to start OAuth") r in
            match d ≫= field "authorize_url" with
            | Some (JStr url) =>
                if bool_decide (url = "") then Threw (Lit "Failed to start OAuth")
                else Returned (Some (JStr url))
            | _ => Threw (Lit "Failed to start OAuth")
            end;
  m_success _ := [] |}.

Definition useLivePush : query := {|
  q_key := livePushKey; q_enabled := true;
  q_request := get_ "/api/admin/live-push" [] [];
  q_fn := data_or_throw (Lit "Failed to load live-push setting") |}.

Definition useSetLivePush (enabled : bool) : mutation := {|
  m_request := send_ PUT "/api/admin/live-push" [] (JsonBody (JObj [("enabled", JBool enabled)]));
  m_fn := data_or_throw (Lit "Failed to update live-push setting");
  m_success d := [SetData livePushKey d] |}.

Definition useRuntimeSettings : query := {|
  q_key := runtimeSettingsKey; q_enabled := true;
  q_request := get_ "/api/admin/settings" [] [];
  q_fn := data_or_throw (Lit "Failed to load runtime settings") |}.

Definition useUpdateRuntimeSettings (values : json) : mutation := {|
  m_request := send_ PUT "/api/admin/settings" [] (JsonBody (JObj [("values", values)]));
  m_fn := data_or_throw (Lit "Failed to update runtime settings");
  m_success d := [SetData runtimeSettingsKey d] |}.
End Admin.

(** ** [audit/auditHooks.ts] *)
Module Audit.
Record AuditFilters := MkFilters {
  actor_email : option string;
  tenant_id : option string;
  action : option string;
  frm : option string;
  to : option string;
  limit : option Z;
  offset : option Z;
}.

(** [undefined] is skipped, and so is a string that trims to nothing. *)
Definition clean_str (v : option string) : option string :=
  match v with Some s => if trim s === "" then None else Some s | None => None end.

Definition clean (f : AuditFilters) : AuditFilters :=
  MkFilters (clean_str (actor_email f)) (clean_str (tenant_id f)) (clean_str (action f))
            (clean_str (frm f)) (clean_str (to f)) (limit f) (offset f).

Definition keep {A} (k : string) (inj : A -> json) (v : option A) : list (string * json) :=
  match v with Some x => [(k, inj x)] | None => [] end.

(** The properties the object has: the active filters. *)
Definition filter_props (f : AuditFilters) : list (string * json) :=
  keep "actor_email" JStr (actor_email f) ++ keep "tenant_id" JStr (tenant_id f) ++
  keep "action" JStr (action f) ++ keep "frm" JStr (frm f) ++ keep "to" JStr (to f) ++
  keep "limit" JNum (limit f) ++ keep "offset" JNum (offset f).

Definition useAuditQuery (filters : AuditFilters) : query :=
  let query := clean filters in
  {| q_key := [ks "audit"; Some (JObj (filter_props query))]; q_enabled := true;
     q_request := get_ "/api/admin/audit" [] ((fun p => (p.1, Some p.2)) <$> filter_props query);
     q_fn := data_or_throw (Lit "audit query failed") |}.

(** The export takes the filters and drops the pagination. *)
Definition downloadAuditCsv (filters : AuditFilters) : mutation :=
  let c := clean filters in
  {| m_request := get_ "/api/admin/audit/export.csv" []
       [("actor_email", ku (actor_email c)); ("tenant_id", ku (tenant_id c));
        ("action", ku (action c)); ("frm", ku (frm c)); ("to", ku (to c))];
     m_fn := data_or_throw (Lit "export failed");
     m_success _ := [SaveFile "audit.csv"] |}.
End Audit.

(** ** [logs/logFleetHooks.ts] *)
Module LogFleet.
Definition silent_refetchInterval : Z := (5 * 60 * 1000)%Z.

Definition useSilentTenantAlerts : query := {|
  q_key := [ks "silent-tenant-alerts"]; q_enabled := true;
  q_request := get_ "/api/admin/silent-tenant-alerts" [] [];
  q_fn := data_or_throw (Lit "silent alerts failed") |}.

Definition useLogFleet (window : string) : query := {|
  q_key := [ks "log-fleet"; ks window]; q_enabled := true;
  q_request := get_ "/api/admin/log-fleet" [] [("window", ks window)];
  q_fn := data_or_throw (Lit "log fleet failed") |}.

Inductive export_format := csv | pdf.
Definition format_name (f : export_format) : string := match f with csv => "csv" | pdf => "pdf" end.

Definition downloadLogFleet (window : string) (format : export_format) : mutation := {|
  m_request := get_ "/api/admin/log-fleet/export" []
                 [("window", ks window); ("format", ks (format_name format))];
  m_fn := data_or_throw (Lit "export failed");
  m_success _ := [SaveFile ("log-fleet-" +:+ window +:+ "." +:+ format_name format)] |}.

Definition useLogFleetDevices (tenantId : option string) (window : string) : query := {|
  q_key := [ks "log-fleet-devices"; kn tenantId; ks window];
  q_enabled := present tenantId;
  q_request := get_ "/api/admin/log-fleet/tenants/{tenant_id}/devices"
                 [("tenant_id", tenantId)] [("window", ks window)];
  q_fn := data_or_throw (Lit "log fleet devices failed") |}.
End LogFleet.

(** ** [security/mfaHooks.ts], [security/sessionHooks.ts], [security/trustedDeviceHooks.ts] *)
Module Mfa.
Import Base64 Client.

Definition mfaStatusKey : key := [ks "mfa"; ks "status"].
Definition mfaPolicyKey : key := [ks "mfa"; ks "policy"].
Definition passkeysKey : key := [ks "mfa"; ks "passkeys"].
Definition usersKey : key := [ks "users"].
Definition toggleKey : key := [ks "trusted-device-toggle"].

Definition password_body (password : string) : body := JsonBody (JObj [("password", JStr password)]).

Definition useMfaStatus : query := {|
  q_key := mfaStatusKey; q_enabled := true;
  q_request := get_ "/api/me/mfa" [] [];
  q_fn := data_or_throw (En ["mfa"; "statusError"]) |}.

Definition useMfaSetup (password : string) : mutation := {|
  m_request := send_ POST "/api/me/mfa/setup" [] (password_body password);
  m_fn := data_or_throw (En ["mfa"; "setupError"]);
  m_success _ := [] |}.

Definition useMfaConfirm (code : string) : mutation := {|
  m_request := send_ POST "/api/me/mfa/confirm" []
                 (JsonBody (JObj [("code", JStr code); ("remember_device", JBool false)]));
  m_fn := data_or_throw (En ["mfa"; "confirmError"]);
  m_success _ := [Invalidate mfaStatusKey] |}.

Definition useMfaDisable (password : string) : mutation := {|
  m_request := send_ POST "/api/me/mfa/disable" [] (password_body password);
  m_fn := void_unless_error (En ["mfa"; "disableError"]);
  m_success _ := [Invalidate mfaStatusKey] |}.

Definition useMfaRegenerate (password : string) : mutation := {|
  m_request := send_ POST "/api/me/mfa/recovery/regenerate" [] (password_body password);
  m_fn := data_or_throw (En ["mfa"; "regenerateError"]);
  m_success _ := [Invalidate mfaStatusKey] |}.

Definition useWebAuthnCredentials (enabled : bool) : query := {|
  q_key := passkeysKey; q_enabled := enabled;
  q_request := get_ "/api/me/mfa/webauthn/credentials" [] [];
  q_fn := unless_error_or (En ["mfa"; "passkeys"; "listError"]) jempty |}.

(** [useAddPasskey] is two requests with the browser prompt in between; its
    errors are texts of the hook or errors of the WebAuthn plumbing.  [server]
    answers a request, [create] is [navigator.credentials.create].  The trace
    lists the requests sent. *)
Inductive passkey_error := HookError (m : msg) | PromptError (e : js_error).

Definition addError : msg := En ["mfa"; "passkeys"; "addError"].

Definition begin_request (password : string) : request :=
  send_ POST "/api/me/mfa/webauthn/register/begin" [] (password_body password).
Definition complete_request (credential : json) (name : string) (transports : json) : request :=
  send_ POST "/api/me/mfa/webauthn/register/complete" []
    (JsonBody (JObj [("credential", credential); ("name", JStr name); ("transports", transports)])).

Section add_passkey.
Context (server : request -> fetch_result)
        (create : creation_options -> outcome js_error (option new_credential)).

Definition useAddPasskey (password name : string) :
    list request * outcome passkey_error (option json) :=
  let begin_ := server (begin_request password) in
  if truthy (error begin_) || negb (truthy (data begin_)) then
    ([begin_request password],
     if (status begin_ =? 409)%Z
     then Threw (HookError (Class_ "PasskeyConfigError" (En ["mfa"; "passkeys"; "notConfigured"])))
     else Threw (HookError addError))
  else
    match createCredential create (data begin_ orelse JNull) with
    | Threw e => ([begin_request password], Threw (PromptError e))
    | Returned credential =>
        let transports := json_or (field "response" credential ≫= field "transports") JNull in
        let rq := complete_request credential name transports in
        let complete := server rq in
        ([begin_request password; rq],
         if truthy (error complete) || negb (truthy (data complete))
         then Threw (HookError addError) else Returned (data complete))
    end.

Definition useAddPasskey_success : list effect := [Invalidate passkeysKey; Invalidate mfaStatusKey].
End add_passkey.

Definition useRemovePasskey (credId : string) : mutation := {|
  m_request := send_ DELETE "/api/me/mfa/webauthn/credentials/{cred_id}" [("cred_id", Some credId)] NoBody;
  m_fn r := if truthy (error r) then
              if (status r =? 409)%Z
              then Threw (Class_ "LastFactorError" (En ["mfa"; "passkeys"; "lastFactorError"]))
              else Threw (En ["mfa"; "passkeys"; "removeError"])
            else Returned None;
  m_success _ := [Invalidate passkeysKey; Invalidate mfaStatusKey] |}.

Definition useMfaPolicy : query := {|
  q_key := mfaPolicyKey; q_enabled := true;
  q_request := get_ "/api/admin/mfa-policy" [] [];
  q_fn := data_or_throw (En ["mfa"; "policyLoadError"]) |}.

Definition useSetMfaPolicy (mode : string) : mutation := {|
  m_request := send_ PUT "/api/admin/mfa-policy" [] (JsonBody (JObj [("mode", JStr mode)]));
  m_fn := data_or_throw (En ["mfa"; "policySaveError"]);
  m_success d := [SetData mfaPolicyKey d] |}.

Definition useUsers : query := {|
  q_key := usersKey; q_enabled := true;
  q_request := get_ "/api/users" [] [];
  q_fn := unless_error_or (En ["mfa"; "usersLoadError"]) jempty |}.

Definition enabled_of (r : option json) : option json := r ≫= field "enabled".

Definition useTrustedDeviceToggle : query := {|
  q_key := toggleKey; q_enabled := true;
  q_request := get_ "/api/admin/trusted-device-enabled" [] [];
  q_fn r := let! d := data_or_throw (Lit "Failed to load setting") r in Returned (enabled_of d) |}.

Definition useSetTrustedDeviceToggle (enabled : bool) : mutation := {|
  m_request := send_ PUT "/api/admin/trusted-device-enabled" [] (JsonBody (JObj [("enabled", JBool enabled)]));
  m_fn r := let! d := data_or_throw (Lit "Failed to update setting") r in Returned (enabled_of d);
  m_success _ := [Invalidate toggleKey] |}.

Definition useResetUserMfa (userId : string) : mutation := {|
  m_request := send_ POST "/api/users/{user_id}/mfa/reset" [("user_id", Some userId)] NoBody;
  m_fn := void_unless_error (En ["mfa"; "resetError"]);
  m_success _ := [Invalidate usersKey] |}.

Definition useSessions : query := {|
  q_key := [ks "sessions"]; q_enabled := true;
  q_request := get_ "/api/sessions" [] [];
  q_fn := unless_error_or (En ["sessions"; "loadError"]) jempty |}.

Definition useLogoutAll : mutation := {|
  m_request := send_ POST "/api/logout-all" [] NoBody;
  m_fn := void_unless_error (En ["sessions"; "logoutAllError"]);
  m_success _ := [ClearCache; RefreshMe; Navigate "/login"] |}.

Definition useTrustedDevices (enabled : bool) : query := {|
  q_key := [ks "trusted-devices"]; q_enabled := enabled;
  q_request := get_ "/api/me/trusted-devices" [] [];
  q_fn := data_or_throw (Lit "Failed to load trusted devices") |}.

Definition useRevokeTrustedDevice (id : string) : mutation := {|
  m_request := send_ DELETE "/api/me/trusted-devices/{device_id}" [("device_id", Some id)] NoBody;
  m_fn := void_unless_error (Lit "Could not revoke the device");
  m_success _ := [Invalidate [ks "trusted-devices"]] |}.

Definition useRevokeAllTrustedDevices : mutation := {|
  m_request := send_ DELETE "/api/me/trusted-devices" [] NoBody;
  m_fn := void_unless_error (Lit "Could not revoke trusted devices");
  m_success _ := [Invalidate [ks "trusted-devices"]] |}.
End Mfa.
