(* ===== verification/HookFamily.v ===== *)
(** * Properties of all data hooks at once

    [query_hook] and [mutation_hook] enumerate the hooks of the console with
    their arguments; the theorems quantify over them and over any cache that
    satisfies the interface of [QueryClient]. *)
From S2P Require Import Prelude JsString Json Http QueryClient Hooks Time.
From S2P Require Import TenantHooks PlatformHooks.
From Stdlib Require Import ZArith.
Import Monitoring Config Changes CatalogApi Firmware Plugins Reports Apply Retention Windows Logs Devices.
Import Groups Providers Library Admin Audit LogFleet Mfa.

(** ** Query hooks *)
Inductive query_hook :=
(* tenant-scoped: the first argument is [activeId] *)
| QTenantHealth (t : option string)
| QAlerts (t : option string) (active : bool)
| QDeviceMetrics (t d : option string) (metric : string) (r : Range.range)
| QMetricLabels (t d : option string)
| QConfigModel (t d : option string)
| QConfigCapabilities (t d : option string)
| QConfigChanges (t d : option string)
| QDriftCheck (t : option string) (d : string)
| QPreviewChange (t : option string) (d : string) (change : option string)
| QDeviceCatalog (t : option string) (d : string)
| QCatalogModel (t : option string) (d : string) (model : option string)
| QCatalogDiff (t : option string) (d : string) (from : option string)
| QConfigMap (t : option string) (d : string)
| QFirmwareActions (t : option string) (d : string)
| QDevicePlugins (t : option string) (d : string)
| QPluginModels (t : option string) (d : string)
| QGeneratedReports (t : option string)
| QReportSchedules (t : option string)
| QReportSettings (t : option string)
| QReportLanguages (t : option string)
| QTenantDevices (t : option string)
| QRetention (t : option string)
| QPerimeterAttackers (t : option string) (kind : PerimeterKind) (days limit : option Z) (mounted : Z)
| QAttackerCountries (t frm to : option string) (mounted : Z)
| QReliabilityEvents (t : option string) (d : string)
| QReliabilitySummary (t : option string) (mounted : Z)
| QConfigAuditEvents (t : option string) (d : string)
| QConfigAuditSummary (t : option string) (mounted : Z)
| QLogForwardingStatus (t : option string) (d : string)
| QDevicesPage (t : option string)
| QDeviceDetailPage (t d : option string)
(* platform-wide *)
| QGroups | QAllTenants | QAuthProvider | QTenantProvider
| QTemplates | QSettingEndpoints | QProfiles
| QSmtpSettings | QLivePush | QRuntimeSettings
| QAudit (f : AuditFilters)
| QSilentTenantAlerts
| QLogFleet (window : string)
| QLogFleetDevices (tenant : option string) (window : string)
| QMfaStatus | QWebAuthnCredentials (enabled : bool) | QMfaPolicy | QUsers | QTrustedDeviceToggle
| QSessions | QTrustedDevices (enabled : bool).

(** The query a hook mounts; [now] is the time the query runs.  The two
    paginated timelines are taken at their first page. *)
Definition query_of (now : Z) (h : query_hook) : query :=
  match h with
  | QTenantHealth t => useTenantHealth t
  | QAlerts t a => useAlerts t a
  | QDeviceMetrics t d m r => useDeviceMetrics t d m r now
  | QMetricLabels t d => useMetricLabels t d
  | QConfigModel t d => useConfigModel t d
  | QConfigCapabilities t d => useConfigCapabilities t d
  | QConfigChanges t d => useConfigChanges t d
  | QDriftCheck t d => useDriftCheck t d
  | QPreviewChange t d c => usePreviewChange t d c
  | QDeviceCatalog t d => useDeviceCatalog t d
  | QCatalogModel t d m => useCatalogModel t d m
  | QCatalogDiff t d f => useCatalogDiff t d f
  | QConfigMap t d => useConfigMap t d
  | QFirmwareActions t d => useFirmwareActions t d
  | QDevicePlugins t d => useDevicePlugins t d
  | QPluginModels t d => usePluginModels t d
  | QGeneratedReports t => useGeneratedReports t
  | QReportSchedules t => useReportSchedules t
  | QReportSettings t => useReportSettings t
  | QReportLanguages t => useReportLanguages t
  | QTenantDevices t => useTenantDevices t
  | QRetention t => useRetention t
  | QPerimeterAttackers t k d l m => usePerimeterAttackers t k d l m
  | QAttackerCountries t f to m => useAttackerCountries t f to m
  | QReliabilityEvents t d => useReliabilityEvents t d None
  | QReliabilitySummary t m => useReliabilitySummary t m
  | QConfigAuditEvents t d => useConfigAuditEvents t d None
  | QConfigAuditSummary t m => useConfigAuditSummary t m
  | QLogForwardingStatus t d => useLogForwardingStatus t d
  | QDevicesPage t => DevicesPage_query t
  | QDeviceDetailPage t d => DeviceDetailPage_query t d
  | QGroups => useGroups
  | QAllTenants => useAllTenants
  | QAuthProvider => AuthProvider_query
  | QTenantProvider => TenantProvider_query
  | QTemplates => useTemplates
  | QSettingEndpoints => useSettingEndpoints
  | QProfiles => useProfiles
  | QSmtpSettings => useSmtpSettings
  | QLivePush => useLivePush
  | QRuntimeSettings => useRuntimeSettings
  | QAudit f => useAuditQuery f
  | QSilentTenantAlerts => useSilentTenantAlerts
  | QLogFleet w => useLogFleet w
  | QLogFleetDevices t w => useLogFleetDevices t w
  | QMfaStatus => useMfaStatus
  | QWebAuthnCredentials e => useWebAuthnCredentials e
  | QMfaPolicy => useMfaPolicy
  | QUsers => useUsers
  | QTrustedDeviceToggle => useTrustedDeviceToggle
  | QSessions => useSessions
  | QTrustedDevices e => useTrustedDevices e
  end.

(** The tenant a hook is scoped to: [Some activeId] for the first group. *)
Definition scope (h : query_hook) : option (option string) :=
  match h with
  | QTenantHealth t | QAlerts t _ | QDeviceMetrics t _ _ _ | QMetricLabels t _
  | QConfigModel t _ | QConfigCapabilities t _ | QConfigChanges t _ | QDriftCheck t _
  | QPreviewChange t _ _ | QDeviceCatalog t _ | QCatalogModel t _ _ | QCatalogDiff t _ _
  | QConfigMap t _ | QFirmwareActions t _ | QDevicePlugins t _ | QPluginModels t _
  | QGeneratedReports t | QReportSchedules t | QReportSettings t | QReportLanguages t
  | QTenantDevices t | QRetention t | QPerimeterAttackers t _ _ _ _ | QAttackerCountries t _ _ _
  | QReliabilityEvents t _ | QReliabilitySummary t _ | QConfigAuditEvents t _
  | QConfigAuditSummary t _ | QLogForwardingStatus t _ | QDevicesPage t
  | QDeviceDetailPage t _ => Some t
  | _ => None
  end.

(** ** Reading keys back *)
Lemma kn_hash a b :
  match a with Some x => JStr x | None => JNull end =
  match b with Some x => JStr x | None => JNull end -> a = b.
Proof. destruct a, b; simpl; congruence. Qed.
Lemma ku_hash a b : ku a orelse JNull = ku b orelse JNull -> a = b.
Proof. destruct a, b; simpl; congruence. Qed.
Lemma range_name_inj r r' : range_name r = range_name r' -> r = r'.
Proof. by destruct r, r'. Qed.
Lemma kind_name_inj k k' : kind_name k = kind_name k' -> k = k'.
Proof. by destruct k, k'. Qed.

Ltac key_inv :=
  repeat match goal with
         | H : match _ with Some _ => _ | None => JNull end = _ |- _ => apply kn_hash in H
         | H : ku _ orelse JNull = ku _ orelse JNull |- _ => apply ku_hash in H
         | H : range_name _ = range_name _ |- _ => apply range_name_inj in H
         | H : kind_name _ = kind_name _ |- _ => apply kind_name_inj in H
         | H : _ :: _ = _ :: _ |- _ => injection H; clear H; intros
         | H : JStr _ = JStr _ |- _ => injection H; clear H; intros
         | H : JBool _ = JBool _ |- _ => injection H; clear H; intros
         | H : JNum _ = JNum _ |- _ => injection H; clear H; intros
         | H : JObj _ = JObj _ |- _ => injection H; clear H; intros
         end.

(** An answer that carries data and no error. *)
Definition answered (r : fetch_result) : bool := truthy (data r) && negb (truthy (error r)).

Lemma answered_data r : answered r = true -> json_or (data r) jempty = json_or (data r) JNull
  /\ exists v, data r = Some v /\ json_or (data r) jempty = v /\ truthy (error r) = false /\ truthy (data r) = true.
Proof.
  unfold answered. rewrite andb_true_iff, negb_true_iff. intros [Hd He].
  destruct (data r) as [[]|]; try discriminate Hd; simpl; eauto 10.
Qed.

#[local] Arguments kn : simpl never.
#[local] Arguments ku : simpl never.
#[local] Arguments range_name : simpl never.
#[local] Arguments kind_name : simpl never.
#[local] Arguments Range.rangeToParams : simpl never.
#[local] Arguments Iso.toISOString : simpl never.
#[local] Arguments filter_props : simpl never.
#[local] Arguments DAY_MS : simpl never.
#[local] Arguments answered : simpl never.
#[local] Arguments truthy : simpl never.
#[local] Arguments json_or : simpl never.

Lemma key_hash_cons a k : key_hash (a :: k) = (a orelse JNull) :: key_hash k.
Proof. done. Qed.
Lemma ks_hash s : ks s orelse JNull = JStr s.
Proof. done. Qed.
Lemma some_hash v : Some v orelse JNull = v.
Proof. done. Qed.

Ltac open_key H :=
  cbn [query_of q_key] in H;
  repeat (rewrite ?key_hash_cons, ?ks_hash, ?some_hash in H; simpl in H);
  key_inv; subst.

Lemma devices_readers r t t' :
  answered r = true -> q_fn (useTenantDevices t) r = q_fn (DevicesPage_query t') r.
Proof.
  intros Hr. destruct (answered_data r Hr) as (_ & v & Hd & Hv & He & Ht).
  simpl. unfold data_or_throw. rewrite He, Ht. simpl. by rewrite Hv, Hd.
Qed.

Lemma tenants_readers r :
  answered r = true -> q_fn useAllTenants r = q_fn TenantProvider_query r.
Proof.
  intros Hr. destruct (answered_data r Hr) as (_ & v & Hd & Hv & He & Ht).
  simpl. unfold data_or_throw. rewrite He, Ht. simpl. by rewrite Hv, Hd.
Qed.

Lemma coherent_hooks now h1 h2 :
  key_hash (q_key (query_of now h1)) = key_hash (q_key (query_of now h2)) ->
  q_request (query_of now h1) = q_request (query_of now h2) /\
  forall r, answered r = true -> q_fn (query_of now h1) r = q_fn (query_of now h2) r.
Proof.
  intros Hk. destruct h1; destruct h2; try discriminate Hk; open_key Hk; try done;
    (split; [try reflexivity; simpl; congruence|]); intros r Hr; try reflexivity;
    eauto using devices_readers, tenants_readers, eq_sym.
Qed.

(** C5.  The cache never answers a query with another query's data: whenever
    two hooks of the console, with any arguments, serialise to the same key,
    they send the same request, and they read every answer that carries data
    and no error in the same way. *)
Theorem query_keys_coherent now h1 h2 :
  key_hash (q_key (query_of now h1)) = key_hash (q_key (query_of now h2)) ->
  q_request (query_of now h1) = q_request (query_of now h2) /\
  forall r, answered r = true -> q_fn (query_of now h1) r = q_fn (query_of now h2) r.
Proof. apply coherent_hooks. Qed.

Lemma query_keys_coherent_witness :
  key_hash (q_key (query_of 0 (QTenantDevices (Some "t1")))) =
  key_hash (q_key (query_of 0 (QDevicesPage (Some "t1")))) /\
  q_request (query_of 0 (QTenantDevices (Some "t1"))) = q_request (query_of 0 (QDevicesPage (Some "t1"))).
Proof.
  split; [reflexivity|].
  exact (proj1 (query_keys_coherent 0 (QTenantDevices (Some "t1")) (QDevicesPage (Some "t1")) eq_refl)).
Defined.

(** ** Tenant scoping *)

(** A tenant-scoped key is a name followed by the tenant. *)
Lemma scoped_key now h t :
  scope h = Some t ->
  exists name rest, q_key (query_of now h) = ks name :: kn t :: rest.
Proof.
  destruct h; intros [= <-]; simpl;
    unfold usePerimeterAttackers, useAttackerCountries; simpl; eexists _, _; reflexivity.
Qed.

Lemma scoped_request now h t :
  scope h = Some t -> ("tenant_id", t) ∈ rq_params (q_request (query_of now h)).
Proof. destruct h; intros [= <-]; simpl; left. Qed.

Lemma scoped_enabled now h t :
  scope h = Some t -> q_enabled (query_of now h) = true -> present t = true.
Proof. destruct h; intros [= <-]; simpl; by destruct (present t0). Qed.

(** Tenant isolation of the reads.  A query of a tenant-scoped hook that
    runs does so for a definite, non-empty tenant id, which is the tenant its
    request addresses; and hooks mounted for two different tenants never
    share a cache entry, whatever hooks they are. *)
Theorem tenant_queries_isolated now h t :
  scope h = Some t -> q_enabled (query_of now h) = true ->
  exists id, t = Some id /\ id <> "" /\
    ("tenant_id", Some id) ∈ rq_params (q_request (query_of now h)) /\
    forall h' id', scope h' = Some (Some id') -> id <> id' ->
      key_hash (q_key (query_of now h)) <> key_hash (q_key (query_of now h')).
Proof.
  intros Hs He. pose proof (scoped_enabled _ _ _ Hs He) as Hp.
  destruct t as [id|]; [|done]. exists id. split; [done|]. split.
  { intros ->. done. }
  split; [by apply scoped_request|].
  intros h' id' Hs' Hne. destruct (scoped_key now h _ Hs) as (n & r & ->).
  destruct (scoped_key now h' _ Hs') as (n' & r' & ->).
  rewrite !key_hash_cons. intros [= _ E _]. congruence.
Qed.

(** ** Mutation hooks

    All but [useAddPasskey] of [security/mfaHooks.ts], which is two requests and
    has its own theorem in [HookRefresh]; the requests of the login page and
    the log-out are no hooks. *)
Inductive mutation_hook :=
(* tenant-scoped: the first argument is [activeId] *)
| MCreateChange (t : option string) (d : string) (b : json)
| MScheduleChange (t : option string) (d id : string) (at_ : option string)
| MCancelChange (t : option string) (d id : string)
| MRevertChange (t : option string) (d id : string)
| MProposeCatalogChange (t : option string) (d : string) (b : json)
| MFirmwareCheck (t : option string) (d : string)
| MCreateFirmwareAction (t : option string) (d : string) (b : json)
| MGenerateReport (t : option string) (base from to : string)
| MDownloadReport (t : option string) (base id : string)
| MUpsertReportSchedule (t : option string) (b : json)
| MDeleteReportSchedule (t : option string) (id : string)
| MSendScheduleNow (t : option string) (id : string)
| MUpdateReportSettings (t : option string) (b : json)
| MUploadLogo (t : option string) (base file : string)
| MDeleteLogo (t : option string)
| MUpsertOverride (t : option string) (tpl : string) (b : json)
| MPreviewTemplate (t : option string) (d tpl : string) (b : json)
| MApplyTemplate (t : option string) (d tpl : string) (at_ : option string) (b : json)
| MPreviewProfile (t : option string) (d prof : string) (b : json)
| MApplyProfile (t : option string) (d prof : string) (at_ : option string) (b : json)
| MIdsRulesets (t : option string) (d : string)
| MFirewallRuleModel (t : option string) (d : string)
| MMonitTestModel (t : option string) (d : string)
| MIntrospectSetting (t : option string) (d key : string)
| MUpdateRetention (t : option string) (b : json)
| MEnableLogForwarding (t : option string) (d : string)
| MDisableLogForwarding (t : option string) (d : string)
| MRotateLogForwarding (t : option string) (d : string)
| MRevokeLogForwarding (t : option string) (d : string) (reason : option string)
| MLogSearch (t : option string) (b : json)
| MTestDevice (t d : string)
| MRemoveDevice (t d : string)
| MCreateDevice (t : string) (v : device_form)
(* platform-wide *)
| MCreateGroup (b : json) | MUpdateGroup (id : string) (b : json) | MDeleteGroup (id : string)
| MSetGroupMembers (id : string) (users : list string)
| MAddGroupGrant (id : string) (b : json) | MDeleteGroupGrant (id grant : string)
| MCreateTemplate (b : json) | MUpdateTemplate (id : string) (b : json) | MDeleteTemplate (id : string)
| MCreateProfile (b : json) | MUpdateProfile (id : string) (b : json) | MDeleteProfile (id : string)
| MUpdateSmtpSettings (b : json) | MTestSmtp (b : json) | MSmtpOAuthConnect (p : provider)
| MSetLivePush (enabled : bool) | MUpdateRuntimeSettings (b : json)
| MDownloadAuditCsv (f : AuditFilters)
| MDownloadLogFleet (window : string) (f : export_format)
| MMfaSetup (pw : string) | MMfaConfirm (code : string) | MMfaDisable (pw : string)
| MMfaRegenerate (pw : string) | MRemovePasskey (id : string)
| MSetMfaPolicy (mode : string) | MSetTrustedDeviceToggle (enabled : bool) | MResetUserMfa (id : string)
| MLogoutAll | MRevokeTrustedDevice (id : string) | MRevokeAllTrustedDevices.

(** [token] is what [csrfToken()] returns when the call site reads it. *)
Definition mutation_of (token : string) (h : mutation_hook) : mutation :=
  match h with
  | MCreateChange t d b => useCreateChange t d b
  | MScheduleChange t d id a => useScheduleChange t d id a
  | MCancelChange t d id => useCancelChange t d id
  | MRevertChange t d id => useRevertChange t d id
  | MProposeCatalogChange t d b => useProposeCatalogChange t d b
  | MFirmwareCheck t d => useFirmwareCheck t d
  | MCreateFirmwareAction t d b => useCreateFirmwareAction t d b
  | MGenerateReport t base from to => useGenerateReport base t token from to
  | MDownloadReport t base id => useDownloadReport base t id
  | MUpsertReportSchedule t b => useUpsertReportSchedule t b
  | MDeleteReportSchedule t id => useDeleteReportSchedule t id
  | MSendScheduleNow t id => useSendScheduleNow t id
  | MUpdateReportSettings t b => useUpdateReportSettings t b
  | MUploadLogo t base file => useUploadLogo base t token file
  | MDeleteLogo t => useDeleteLogo t
  | MUpsertOverride t tpl b => useUpsertOverride t tpl b
  | MPreviewTemplate t d tpl b => usePreviewTemplate t d tpl b
  | MApplyTemplate t d tpl a b => useApplyTemplate t d tpl a b
  | MPreviewProfile t d p b => usePreviewProfile t d p b
  | MApplyProfile t d p a b => useApplyProfile t d p a b
  | MIdsRulesets t d => useIdsRulesets t d
  | MFirewallRuleModel t d => useFirewallRuleModel t d
  | MMonitTestModel t d => useMonitTestModel t d
  | MIntrospectSetting t d k => useIntrospectSetting t d k
  | MUpdateRetention t b => useUpdateRetention t b
  | MEnableLogForwarding t d => useEnableLogForwarding t d
  | MDisableLogForwarding t d => useDisableLogForwarding t d
  | MRotateLogForwarding t d => useRotateLogForwarding t d
  | MRevokeLogForwarding t d r => useRevokeLogForwarding t d r
  | MLogSearch t b => useLogSearch t b
  | MTestDevice t d => DeviceActions_test t d
  | MRemoveDevice t d => DeviceActions_remove t d
  | MCreateDevice t v => DeviceCreateModal_mutation t v
  | MCreateGroup b => useCreateGroup b
  | MUpdateGroup id b => useUpdateGroup id b
  | MDeleteGroup id => useDeleteGroup id
  | MSetGroupMembers id us => useSetGroupMembers id us
  | MAddGroupGrant id b => useAddGroupGrant id b
  | MDeleteGroupGrant id g => useDeleteGroupGrant id g
  | MCreateTemplate b => useCreateTemplate b
  | MUpdateTemplate id b => useUpdateTemplate id b
  | MDeleteTemplate id => useDeleteTemplate id
  | MCreateProfile b => useCreateProfile b
  | MUpdateProfile id b => useUpdateProfile id b
  | MDeleteProfile id => useDeleteProfile id
  | MUpdateSmtpSettings b => useUpdateSmtpSettings b
  | MTestSmtp b => useTestSmtp b
  | MSmtpOAuthConnect p => useSmtpOAuthConnect p
  | MSetLivePush e => useSetLivePush e
  | MUpdateRuntimeSettings b => useUpdateRuntimeSettings b
  | MDownloadAuditCsv f => downloadAuditCsv f
  | MDownloadLogFleet w f => downloadLogFleet w f
  | MMfaSetup p => useMfaSetup p
  | MMfaConfirm c => useMfaConfirm c
  | MMfaDisable p => useMfaDisable p
  | MMfaRegenerate p => useMfaRegenerate p
  | MRemovePasskey id => useRemovePasskey id
  | MSetMfaPolicy m => useSetMfaPolicy m
  | MSetTrustedDeviceToggle e => useSetTrustedDeviceToggle e
  | MResetUserMfa id => useResetUserMfa id
  | MLogoutAll => useLogoutAll
  | MRevokeTrustedDevice id => useRevokeTrustedDevice id
  | MRevokeAllTrustedDevices => useRevokeAllTrustedDevices
  end.

Definition mutation_scope (h : mutation_hook) : option (option string) :=
  match h with
  | MCreateChange t _ _ | MScheduleChange t _ _ _ | MCancelChange t _ _ | MRevertChange t _ _
  | MProposeCatalogChange t _ _ | MFirmwareCheck t _ | MCreateFirmwareAction t _ _
  | MGenerateReport t _ _ _ | MDownloadReport t _ _ | MUpsertReportSchedule t _
  | MDeleteReportSchedule t _ | MSendScheduleNow t _ | MUpdateReportSettings t _
  | MUploadLogo t _ _ | MDeleteLogo t | MUpsertOverride t _ _ | MPreviewTemplate t _ _ _
  | MApplyTemplate t _ _ _ _ | MPreviewProfile t _ _ _ | MApplyProfile t _ _ _ _
  | MIdsRulesets t _ | MFirewallRuleModel t _ | MMonitTestModel t _ | MIntrospectSetting t _ _
  | MUpdateRetention t _ | MEnableLogForwarding t _ | MDisableLogForwarding t _
  | MRotateLogForwarding t _ | MRevokeLogForwarding t _ _ | MLogSearch t _ => Some t
  | MTestDevice t _ | MRemoveDevice t _ | MCreateDevice t _ => Some (Some t)
  | _ => None
  end.

(** ** Effects on the cache *)
Section cache.
Context {C : Type} `{CacheLaws C}.
Implicit Types (c : C).

(** Effects that touch only entries of one tenant. *)
Definition within_tenant (t : option string) (e : effect) : Prop :=
  match e with
  | Invalidate k => exists name rest, k = ks name :: kn t :: rest
  | Navigate _ | SaveFile _ => True
  | _ => False
  end.

Lemma scoped_effects token h t v :
  mutation_scope h = Some t -> Forall (within_tenant t) (m_success (mutation_of token h) v).
Proof using Type.
  destruct h; intros [= <-]; simpl;
    repeat apply Forall_cons_2; try apply Forall_nil_2; try exact I;
    eexists _, _; reflexivity.
Qed.

Lemma invalidate_foreign c name t rest k' name' t' rest' :
  t <> t' -> k' = ks name' :: kn t' :: rest' ->
  cache_get (invalidateQueries (ks name :: kn t :: rest) c) k' = cache_get c k'.
Proof using All.
  intros Hne ->. apply invalidate_other. rewrite !key_hash_cons, !fmap_cons. cbn [key_matches].
  destruct (decide (name = name')) as [->|Hn].
  - rewrite (bool_decide_false (Some (kn t orelse JNull) = _)); [by rewrite andb_false_r|].
    intros E. apply Hne. destruct t, t'; simpl in E; congruence.
  - rewrite bool_decide_false; [done|]. simpl. congruence.
Qed.

Lemma effects_foreign es c t k' name' t' rest' :
  Forall (within_tenant t) es -> t <> t' -> k' = ks name' :: kn t' :: rest' ->
  cache_get (apply_effects es c) k' = cache_get c k'.
Proof using All.
  intros Hes Hne Hk. revert c. induction Hes as [|e es He Hes IH]; intros c; [done|].
  change (apply_effects (e :: es) c) with (apply_effects es (apply_effect e c)).
  rewrite IH. destruct e; simpl in *; try done.
  destruct He as (name & rest & ->). by eapply invalidate_foreign.
Qed.
End cache.

(** C3.  Tenant isolation of the writes: settling any tenant-scoped mutation,
    whatever the server answers, leaves every cached entry of every other
    tenant exactly as it was, on any cache that satisfies the interface. *)
Theorem tenant_mutations_isolated {C : Type} `{CacheLaws C} (c : C) token now m t r h' t' :
  mutation_scope m = Some t -> scope h' = Some t' -> t <> t' ->
  cache_get (settle (mutation_of token m) r c).2 (q_key (query_of now h')) =
  cache_get c (q_key (query_of now h')).
Proof.
  intros Hm Hh Hne. destruct (scoped_key now h' t' Hh) as (name & rest & Hk).
  unfold settle. destruct (m_fn (mutation_of token m) r) as [v|]; [|done]. simpl.
  eapply effects_foreign; [by apply scoped_effects|done|exact Hk].
Qed.

Lemma tenant_mutations_isolated_witness :
  let c : key_cache := fun _ => Some (Entry None false) in
  cache_get (settle (mutation_of "" (MCancelChange (Some "t1") "d" "c1"))
               (FetchResult (Some (JBool true)) None 200) c).2
            (q_key (query_of 0 (QConfigChanges (Some "t2") (Some "d"))))
  = Some (Entry None false).
Proof.
  intros c.
  rewrite (tenant_mutations_isolated c "" 0 (MCancelChange (Some "t1") "d" "c1") (Some "t1") _
             (QConfigChanges (Some "t2") (Some "d")) (Some "t2") eq_refl eq_refl ltac:(discriminate)).
  reflexivity.
Defined.
