(* ===== verification/HookRefresh.v ===== *)
(** * What mutations and failures do to the cache and to the user

    After a write the queries that show the rows it wrote are refetched, but for
    the exceptions of [missed]; failures of the server surface as errors, but
    for empty error bodies where a hook asks for an error only; the passkey
    registration is a two-step protocol. *)
From S2P Require Import Prelude JsString Json Http QueryClient Hooks Time WebAuthn.
From S2P Require Import TenantHooks PlatformHooks HookFamily.
From Stdlib Require Import ZArith.
Import Monitoring Config Changes CatalogApi Firmware Plugins Reports Apply Retention Windows Logs Devices.
Import Groups Providers Library Admin Audit LogFleet Mfa.

(** ** Reads a write makes obsolete *)

(** What the backend keeps, by the rows its handlers write and list. *)
Inductive resource :=
| RChanges (t : option string) (d : string)
| RFirmware (t : option string) (d : string)
| RReports (t : option string)
| RSchedules (t : option string)
| RReportSettings (t : option string)
| RRetention (t : option string)
| RForwarding (t : option string) (d : string)
| RDevice (t d : string)
| RDeviceList (t : string)
| RGroups | RTemplates | RProfiles
| RSmtp | RLivePush | RRuntime | RMfaPolicy | RTrustedFlag
| RMfa                                  (* the user's second factor and recovery codes *)
| RPasskeys | RTrustedDevices | RSessions
| RSessionKind.                         (* [full] or [mfa_setup], of the session *)
#[export] Instance resource_eq_dec : EqDecision resource.
Proof. solve_decision. Defined.

(** The rows the handler of a mutation writes ([backend/app/api]); [self] is
    the id of the signed-in user.  Audit rows, and rows of a device that go
    with it, are left out. *)
Definition resources_written (self : string) (m : mutation_hook) : list resource :=
  match m with
  | MCreateChange t d _ | MScheduleChange t d _ _ | MCancelChange t d _ | MRevertChange t d _
  | MProposeCatalogChange t d _ | MApplyTemplate t d _ _ _ | MApplyProfile t d _ _ _ => [RChanges t d]
  | MCreateFirmwareAction t d _ => [RFirmware t d]
  | MGenerateReport t _ _ _ => [RReports t]
  | MUpsertReportSchedule t _ | MDeleteReportSchedule t _ => [RSchedules t]
  | MUpdateReportSettings t _ | MUploadLogo t _ _ | MDeleteLogo t => [RReportSettings t]
  | MUpdateRetention t _ => [RRetention t]
  | MEnableLogForwarding t d | MDisableLogForwarding t d | MRotateLogForwarding t d
  | MRevokeLogForwarding t d _ => [RForwarding t d]
  | MTestDevice t d | MRemoveDevice t d => [RDevice t d; RDeviceList t]
  | MCreateDevice t _ => [RDeviceList t]
  | MCreateGroup _ | MUpdateGroup _ _ | MDeleteGroup _ | MSetGroupMembers _ _
  | MAddGroupGrant _ _ | MDeleteGroupGrant _ _ => [RGroups]
  | MCreateTemplate _ | MUpdateTemplate _ _ => [RTemplates]
  | MDeleteTemplate _ => [RTemplates; RProfiles]      (* and its membership in profiles *)
  | MCreateProfile _ | MUpdateProfile _ _ | MDeleteProfile _ => [RProfiles]
  | MUpdateSmtpSettings _ => [RSmtp]
  | MSetLivePush _ => [RLivePush]
  | MUpdateRuntimeSettings _ => [RRuntime]
  | MSetMfaPolicy _ => [RMfaPolicy]
  | MSetTrustedDeviceToggle _ => [RTrustedFlag]
  | MMfaSetup _ | MMfaRegenerate _ => [RMfa]
  | MMfaConfirm _ => [RMfa; RSessionKind]
  | MMfaDisable _ => [RMfa; RTrustedDevices]
  | MResetUserMfa id => if id === self then [RMfa; RTrustedDevices] else []
  | MRemovePasskey _ => [RPasskeys]
  | MLogoutAll => [RSessions; RSessionKind; RTrustedDevices]
  | MRevokeTrustedDevice _ | MRevokeAllTrustedDevices => [RTrustedDevices]
  | MFirmwareCheck _ _ | MDownloadReport _ _ _ | MSendScheduleNow _ _ | MUpsertOverride _ _ _
  | MPreviewTemplate _ _ _ _ | MPreviewProfile _ _ _ _ | MIdsRulesets _ _ | MFirewallRuleModel _ _
  | MMonitTestModel _ _ | MIntrospectSetting _ _ _ | MLogSearch _ _ | MTestSmtp _ | MSmtpOAuthConnect _
  | MDownloadAuditCsv _ | MDownloadLogFleet _ _ => []
  end.

(** The rows a query answers with; figures derived from others (health,
    alerts, summaries, fleets, the tenants and roles that groups give) and what
    is read from the devices are left out. *)
Definition resources_read (q : query_hook) : list resource :=
  match q with
  | QConfigChanges t (Some d) => [RChanges t d]
  | QFirmwareActions t d => [RFirmware t d]
  | QGeneratedReports t => [RReports t]
  | QReportSchedules t => [RSchedules t]
  | QReportSettings t => [RReportSettings t]
  | QRetention t => [RRetention t]
  | QLogForwardingStatus t d => [RForwarding t d]
  | QDevicesPage (Some t) | QTenantDevices (Some t) => [RDeviceList t]
  | QDeviceDetailPage (Some t) (Some d) => [RDevice t d]
  | QGroups => [RGroups]
  | QTemplates => [RTemplates]
  | QProfiles => [RProfiles]                            (* with the ids of their templates *)
  | QSmtpSettings => [RSmtp]
  | QLivePush => [RLivePush]
  | QRuntimeSettings => [RRuntime]
  | QMfaPolicy => [RMfaPolicy]
  | QTrustedDeviceToggle => [RTrustedFlag]
  | QMfaStatus => [RMfa; RPasskeys; RTrustedFlag]       (* [MfaStatusOut] *)
  | QWebAuthnCredentials _ => [RPasskeys]
  | QTrustedDevices _ => [RTrustedDevices]
  | QSessions => [RSessions]
  | QAuthProvider => [RSessionKind]                     (* [mfa_setup_required] *)
  | _ => []
  end.

(** The query shows what the mutation writes. *)
Definition shows (self : string) (m : mutation_hook) (q : query_hook) : Prop :=
  exists r, r ∈ resources_written self m /\ r ∈ resources_read q.

(** The exceptions: what [onSuccess] leaves as it is though it was written. *)
Definition missed (m : mutation_hook) (q : query_hook) : bool :=
  match m, q with
  | MProposeCatalogChange _ _ _, QConfigChanges _ _
  | MRemoveDevice _ _, QDeviceDetailPage _ _
  | MDeleteTemplate _, QProfiles
  | MMfaSetup _, QMfaStatus
  | MMfaConfirm _, QAuthProvider
  | MMfaDisable _, QTrustedDevices _
  | MResetUserMfa _, QMfaStatus
  | MResetUserMfa _, QTrustedDevices _
  | MSetTrustedDeviceToggle _, QMfaStatus => true
  | _, _ => false
  end.

(** Four hooks store the answer of their mutation as the new data; for the
    others the queries that show what they wrote become obsolete. *)
Definition stores_answer (m : mutation_hook) : bool :=
  match m with
  | MUpdateSmtpSettings _ | MSetLivePush _ | MUpdateRuntimeSettings _ | MSetMfaPolicy _ => true
  | _ => false
  end.

(** An entry that will not be served as the current value of its query after
    a write that returned [v]: absent, marked for refetch, or already [v]. *)
Definition up_to_date (v : option json) (e : option entry) : Prop :=
  match e with Some e => e_stale e = true \/ e_data e = v | None => True end.

Section effects.
Context {C : Type} `{CacheLaws C}.
Implicit Types (c : C).

(** The effect brings the entry of [k] up to date with [v]. *)
Definition renews (v : option json) (k : key) (e : effect) : bool :=
  match e with
  | Invalidate k0 => key_matches k0 k
  | SetData k0 v' => bool_decide (k0 = k) && bool_decide (v' = v)
  | ClearCache => true
  | _ => false
  end.

(** No effect of the console stores anything but the mutation's own result. *)
Definition sets_only (v : option json) (e : effect) : bool :=
  match e with SetData _ v' => bool_decide (v' = v) | _ => true end.

Lemma up_to_date_mark v o : up_to_date v (mark_stale <$> o).
Proof using Type. destruct o; simpl; auto. Qed.

Lemma invalidate_keeps v k0 c k :
  up_to_date v (cache_get c k) -> up_to_date v (cache_get (invalidateQueries k0 c) k).
Proof using All.
  intros Hu. destruct (invalidate_either c k0 k) as [-> | ->]; auto using up_to_date_mark.
Qed.

Lemma effect_keeps v e c k :
  sets_only v e = true -> up_to_date v (cache_get c k) ->
  up_to_date v (cache_get (apply_effect e c) k).
Proof using All.
  destruct e; cbn [apply_effect sets_only]; intros Hs Hu; auto using invalidate_keeps.
  - apply bool_decide_eq_true in Hs as ->. rewrite set_get. case_decide; simpl; auto.
  - by rewrite clear_get.
Qed.

Lemma effect_renews v e c k :
  renews v k e = true -> up_to_date v (cache_get (apply_effect e c) k).
Proof using All.
  destruct e; cbn [apply_effect renews]; intros Hr; try discriminate Hr.
  - rewrite invalidate_match; auto using up_to_date_mark.
  - apply andb_true_iff in Hr as [Hk Hv]. apply bool_decide_eq_true in Hk as ->.
    apply bool_decide_eq_true in Hv as ->. rewrite set_get, decide_True; simpl; auto.
  - by rewrite clear_get.
Qed.

Lemma effects_keep v es k c :
  forallb (sets_only v) es = true -> up_to_date v (cache_get c k) ->
  up_to_date v (cache_get (apply_effects es c) k).
Proof using All.
  revert c. induction es as [|e es IH]; intros c; [done|].
  intros [He Hes]%andb_true_iff Hu. apply (IH (apply_effect e c)); auto using effect_keeps.
Qed.

Lemma effects_renew v es k c :
  forallb (sets_only v) es = true -> existsb (renews v k) es = true ->
  up_to_date v (cache_get (apply_effects es c) k).
Proof using All.
  revert c. induction es as [|e es IH]; intros c; [done|].
  intros [He Hes]%andb_true_iff [Hr|Hr]%orb_true_iff.
  - apply (effects_keep v es k (apply_effect e c)); auto using effect_renews.
  - by apply (IH (apply_effect e c)).
Qed.
End effects.

Lemma key_matches_refl k : key_matches k k = true.
Proof.
  induction k as [|a k IH]; [done|]. cbn [key_matches]. by rewrite bool_decide_refl, IH.
Qed.

#[local] Arguments key_matches : simpl never.

(** Reduces [shows] to a mutation and a query with the same arguments. *)
Ltac shown_cases H :=
  let r := fresh "r" in let Hw := fresh "Hw" in let Hl := fresh "Hl" in
  destruct H as (r & Hw & Hl);
  match type of Hw with r ∈ resources_written ?self ?m => destruct m; cbn [resources_written] in Hw end;
  try case_bool_decide;
  repeat (apply elem_of_cons in Hw as [-> | Hw]); try (by apply not_elem_of_nil in Hw);
  match type of Hl with _ ∈ resources_read ?q => destruct q end;
  cbn [resources_read] in Hl;
  repeat match type of Hl with _ ∈ match ?o with Some _ => _ | None => _ end => destruct o end;
  repeat (apply elem_of_cons in Hl as [[=]|Hl]); try (by apply not_elem_of_nil in Hl); subst.

Lemma renewed self token now m v q :
  shows self m q -> missed m q = false ->
  existsb (renews v (q_key (query_of now q))) (m_success (mutation_of token m) v) = true.
Proof.
  intros H. shown_cases H; intros Hm; try discriminate Hm; cbn -[bool_decide key_matches];
    rewrite ?key_matches_refl, ?bool_decide_refl, ?orb_true_r; reflexivity.
Qed.

(** The exceptions are exceptions. *)
Lemma missed_untouched self token now m v q :
  shows self m q -> missed m q = true ->
  existsb (renews v (q_key (query_of now q))) (m_success (mutation_of token m) v) = false.
Proof.
  intros H. shown_cases H; intros Hm; try discriminate Hm; cbn; try reflexivity.
Qed.

Lemma only_results token m v : forallb (sets_only v) (m_success (mutation_of token m) v) = true.
Proof. destruct m; cbn -[bool_decide]; rewrite ?bool_decide_refl; reflexivity. Qed.

(** No stale reads after a write: whenever a mutation succeeds, every
    query that shows what it wrote, but the exceptions, is afterwards absent
    from the cache, marked for refetch, or holds the very value the server
    returned; and a failed mutation leaves the cache untouched. *)
Theorem mutations_refresh_reads {C : Type} `{CacheLaws C} (c : C) self token now m r :
  match m_fn (mutation_of token m) r with
  | Returned v => forall q, shows self m q -> missed m q = false ->
      up_to_date v (cache_get (settle (mutation_of token m) r c).2 (q_key (query_of now q)))
  | Threw _ => (settle (mutation_of token m) r c).2 = c
  end.
Proof.
  unfold settle. destruct (m_fn (mutation_of token m) r) as [v|]; [|done]. intros q Hq Hm.
  apply effects_renew; [apply only_results|by eapply renewed].
Qed.

(** Proposing a catalog change creates a change of the device without
    refreshing its list. *)
Lemma propose_leaves_changes_stale {C : Type} `{CacheLaws C} (c : C) token t d b r k :
  cache_get (settle (mutation_of token (MProposeCatalogChange t d b)) r c).2 k = cache_get c k.
Proof. unfold settle. by destruct (m_fn _ _). Qed.

(** ** Failures *)

(** A request failed: the answer is outside 2xx. *)
Definition failed (r : fetch_result) : bool := negb (response_ok r).

(** What [openapi-fetch] documents of its result: data only of an answer within
    2xx, an error only of one outside; the error is the body, and so may be
    empty.  A bare [fetch] has neither. *)
Definition client_answer (r : fetch_result) : Prop :=
  (response_ok r = true -> error r = None) /\ (failed r = true -> data r = None).

(** Hooks that replace a failure by an empty or anonymous value. *)
Definition tolerant (q : query_hook) : bool :=
  match q with
  | QMetricLabels _ _ | QPluginModels _ _ | QDevicesPage _ | QAuthProvider | QTenantProvider => true
  | _ => false
  end.

(** Hooks for which a missing resource is an answer. *)
Definition missing_is_answer (q : query_hook) (r : fetch_result) : bool :=
  match q with
  | QConfigModel _ _ | QConfigCapabilities _ _ => (status r =? 404)%Z
  | _ => false
  end.

(** Hooks that ask whether there is an error, and not whether there are data:
    they fill absent data in, or expect none. *)
Definition error_only (q : query_hook) : bool :=
  match q with
  | QAlerts _ _ | QConfigCapabilities _ _ | QConfigChanges _ _ | QGeneratedReports _
  | QPerimeterAttackers _ _ _ _ _ | QAttackerCountries _ _ _ _
  | QReliabilityEvents _ _ | QReliabilitySummary _ _ | QConfigAuditEvents _ _ | QConfigAuditSummary _ _
  | QWebAuthnCredentials _ | QUsers | QSessions => true
  | _ => false
  end.
Definition error_only_write (m : mutation_hook) : bool :=
  match m with
  | MDeleteReportSchedule _ _ | MSendScheduleNow _ _ | MDeleteLogo _ | MRemoveDevice _ _ | MCreateDevice _ _
  | MDeleteGroup _ | MDeleteGroupGrant _ _ | MDeleteTemplate _ | MDeleteProfile _
  | MMfaDisable _ | MRemovePasskey _ | MResetUserMfa _ | MLogoutAll
  | MRevokeTrustedDevice _ | MRevokeAllTrustedDevices => true
  | _ => false
  end.
(** Hooks that call [fetch] themselves. *)
Definition bare (m : mutation_hook) : bool :=
  match m with MGenerateReport _ _ _ _ | MDownloadReport _ _ _ | MUploadLogo _ _ _ => true | _ => false end.

Definition reports {E A} (o : outcome E A) : bool :=
  match o with Threw _ => true | Returned _ => false end.
(** React Query fails a query whose function throws or yields [undefined]. *)
Definition surfaces {E} (o : outcome E (option json)) : bool :=
  match o with Returned (Some _) => false | _ => true end.

(** What a success must carry for the hook that reads it: some data, for two
    hooks a field of theirs, for the others nothing. *)
Definition carried (q : query_hook) (r : fetch_result) : bool :=
  truthy (data r) && match q with QTrustedDeviceToggle => bool_decide (is_Some (data r ≫= field "enabled")) | _ => true end.
Definition carried_write (m : mutation_hook) (r : fetch_result) : bool :=
  error_only_write m || bare m ||
  truthy (data r) && match m with
                     | MSmtpOAuthConnect _ => match data r ≫= field "authorize_url" with Some (JStr u) => negb (u === "") | _ => false end
                     | _ => true
                     end.

Lemma query_surfaces now q r :
  client_answer r -> failed r = true -> tolerant q = false -> missing_is_answer q r = false ->
  surfaces (q_fn (query_of now q) r) = negb (error_only q) || truthy (error r).
Proof.
  intros [_ Hd] Hf Ht Hm. specialize (Hd Hf). destruct q; try discriminate Ht; cbn -[truthy] in *;
    unfold usePerimeterAttackers, useAttackerCountries; cbn -[truthy];
    unfold event_page, data_or_throw, unless_error, unless_error_or in *;
    rewrite ?Hm, ?Hd; by destruct (truthy (error r)).
Qed.

Lemma mutation_reports token m r :
  client_answer r -> failed r = true ->
  reports (m_fn (mutation_of token m) r) = negb (error_only_write m) || truthy (error r).
Proof.
  intros [_ Hd] Hf. specialize (Hd Hf). unfold failed in Hf. destruct m; cbn -[truthy response_ok] in *;
    unfold data_or_throw, unless_error, void_unless_error; rewrite ?Hd, ?Hf;
    destruct (truthy (error r)); try reflexivity; by destruct (status r =? 409)%Z.
Qed.

Lemma ok_status r : response_ok r = true -> (status r =? 404)%Z = false /\ (status r =? 401)%Z = false.
Proof. unfold response_ok. rewrite andb_true_iff, !Z.leb_le, !Z.eqb_neq. lia. Qed.

Lemma query_answers now q r :
  client_answer r -> response_ok r = true -> carried q r = true -> surfaces (q_fn (query_of now q) r) = false.
Proof.
  intros [He _] Hok [Hd Hq]%andb_true_iff. specialize (He Hok). destruct (ok_status r Hok) as [H4 H1].
  destruct (data r) as [d|] eqn:Ed; [|done].
  destruct q; cbn -[truthy json_or];
    unfold usePerimeterAttackers, useAttackerCountries; cbn -[truthy json_or];
    unfold event_page, data_or_throw, unless_error, unless_error_or, enabled_of in *;
    rewrite ?H4, ?H1, ?He, ?Ed, ?Hd; try reflexivity.
  apply bool_decide_eq_true in Hq as [v Hv]. change (surfaces (Returned (E:=msg) (Some d ≫= field "enabled")) = false). by rewrite Hv.
Qed.

Lemma mutation_answers token m r :
  client_answer r -> response_ok r = true -> carried_write m r = true ->
  reports (m_fn (mutation_of token m) r) = false.
Proof.
  intros [He _] Hok. specialize (He Hok). unfold carried_write.
  destruct m; cbn -[truthy response_ok]; intros Hc; unfold data_or_throw, unless_error, void_unless_error;
    rewrite ?He, ?Hok; cbn -[truthy]; try reflexivity;
    apply andb_true_iff in Hc as [Hd Hu]; rewrite Hd; try reflexivity.
  change (reports (match data r ≫= field "authorize_url" with
                   | Some (JStr url) => if url === "" then Threw (Lit "Failed to start OAuth") else Returned (Some (JStr url))
                   | _ => Threw (Lit "Failed to start OAuth")
                   end) = false).
  destruct (data r ≫= field "authorize_url") as [[]|]; try discriminate Hu.
  apply negb_true_iff in Hu. by rewrite Hu.
Qed.

Import Base64 Client.

(** The registration of a passkey fails with either of its requests. *)
Lemma passkey_reports server create password name :
  (forall rq, client_answer (server rq)) ->
  let '(sent, res) := useAddPasskey server create password name in
  (exists rq, rq ∈ sent /\ failed (server rq) = true) -> reports res = true.
Proof.
  intros Hs. assert (Hb : forall rq, failed (server rq) = true ->
    truthy (error (server rq)) || negb (truthy (data (server rq))) = true).
  { intros rq Hf. rewrite (proj2 (Hs rq) Hf). apply orb_true_r. }
  unfold useAddPasskey. destruct (truthy (error (server (begin_request password))) || _) eqn:Eb.
  - intros _. by destruct (status _ =? 409)%Z.
  - destruct (createCredential create _) as [cred|e]; [|done]. cbn [json_or].
    intros (rq & Hin & Hf). apply Hb in Hf. apply elem_of_cons in Hin as [-> | Hin]; [congruence|].
    apply list_elem_of_singleton in Hin as ->. by rewrite Hf.
Qed.

(** C13.  Failures surface and successes do not turn into failures.  For
    results as the client documents them: when a request is answered outside
    2xx, the query fails, unless its hook tolerates failures by design (five
    hooks) or reads a 404 as "none" (two), and the mutation throws; with one
    exception, decided exactly: a hook that asks only for an error takes an
    empty error body for a success.  A passkey registration throws when either
    of its requests is answered outside 2xx.  And an answer within 2xx, with
    the data its hook reads, fails no query and no mutation. *)
Theorem failures_surface now token :
  (forall q r, client_answer r -> failed r = true -> tolerant q = false -> missing_is_answer q r = false ->
     surfaces (q_fn (query_of now q) r) = negb (error_only q) || truthy (error r)) /\
  (forall m r, client_answer r -> failed r = true ->
     reports (m_fn (mutation_of token m) r) = negb (error_only_write m) || truthy (error r)) /\
  (forall server create password name, (forall rq, client_answer (server rq)) ->
     let '(sent, res) := useAddPasskey server create password name in
     (exists rq, rq ∈ sent /\ failed (server rq) = true) -> reports res = true) /\
  (forall q r, client_answer r -> response_ok r = true -> carried q r = true ->
     surfaces (q_fn (query_of now q) r) = false) /\
  (forall m r, client_answer r -> response_ok r = true -> carried_write m r = true ->
     reports (m_fn (mutation_of token m) r) = false).
Proof.
  split_and!; auto using query_surfaces, mutation_reports, query_answers, mutation_answers.
  intros. by apply passkey_reports.
Qed.

(** Among them, a refused deletion with an empty body that is announced as done. *)
Lemma failures_surface_witness :
  surfaces (q_fn (query_of 0 (QAlerts (Some "t") true)) (FetchResult None (Some (JStr "boom")) 500)) = true /\
  reports (m_fn (mutation_of "" (MUploadLogo (Some "t") "" "f")) (FetchResult None None 413)) = true /\
  reports (m_fn (mutation_of "" (MDeleteGroup "g")) (FetchResult None (Some (JStr "")) 502)) = false.
Proof.
  destruct (failures_surface 0 "") as (Hq & Hm & _).
  assert (Hc : forall e s, response_ok (FetchResult None e s) = false -> client_answer (FetchResult None e s)).
  { intros e s H. split; [|done]. rewrite H. discriminate. }
  split; [exact (Hq (QAlerts (Some "t") true) (FetchResult None (Some (JStr "boom")) 500) (Hc (Some (JStr "boom")) 500%Z eq_refl) eq_refl eq_refl eq_refl)|].
  split; [exact (Hm (MUploadLogo (Some "t") "" "f") (FetchResult None None 413) (Hc None 413%Z eq_refl) eq_refl)|].
  exact (Hm (MDeleteGroup "g") (FetchResult None (Some (JStr "")) 502) (Hc (Some (JStr "")) 502%Z eq_refl) eq_refl).
Defined.

(** The device list of [DevicesPage] never enters its error branch: a failed
    request reads as an empty fleet, while the same key read by
    [useTenantDevices] reports it. *)
Lemma DevicesPage_hides_failures t r :
  truthy (error r) = true ->
  reports (q_fn (DevicesPage_query t) r) = false /\ reports (q_fn (useTenantDevices t) r) = true.
Proof. intros He. split; [done|]. simpl. unfold data_or_throw. by rewrite He. Qed.

(** ** Registration of a passkey *)

Definition passkey_ok (r : fetch_result) : bool := negb (truthy (error r) || negb (truthy (data r))).

(** C22.  Registering a passkey is a strict two-step protocol: the first
    request is always the password-protected begin; the complete request is
    sent at most once, only after begin was answered with data and the
    authenticator produced a credential, and carries exactly that credential;
    the call returns only with what the server answered to it, and a server
    without passkey support (409) is told apart. *)
Theorem useAddPasskey_protocol server create password name :
  let '(sent, res) := useAddPasskey server create password name in
  let begin_ := server (begin_request password) in
  (sent = [begin_request password] /\
     (passkey_ok begin_ = false /\
        res = Threw (HookError (if (status begin_ =? 409)%Z
                                then Class_ "PasskeyConfigError" (En ["mfa"; "passkeys"; "notConfigured"])
                                else addError)) \/
      passkey_ok begin_ = true /\
        exists e, createCredential create (data begin_ orelse JNull) = Threw e /\ res = Threw (PromptError e))) \/
  (exists credential rq,
     passkey_ok begin_ = true /\
     createCredential create (data begin_ orelse JNull) = Returned credential /\
     sent = [begin_request password; rq] /\
     rq = complete_request credential name
            (json_or (field "response" credential ≫= field "transports") JNull) /\
     res = if passkey_ok (server rq) then Returned (data (server rq)) else Threw (HookError addError)).
Proof.
  unfold useAddPasskey, passkey_ok. set (b := server (begin_request password)).
  destruct (truthy (error b) || negb (truthy (data b))); simpl.
  - left. split; [done|]. left. split; [done|]. by destruct (status b =? 409)%Z.
  - destruct (createCredential create (data b orelse JNull)) as [cred|e] eqn:E.
    + right. eexists _, _. do 4 (split; [done|]). by destruct (truthy _ || _).
    + left. split; [done|]. right. eauto.
Qed.
