(* ===== verification/Storage.v ===== *)
(** * The browser's [localStorage]

    A string map that may refuse reads (private browsing) or writes (quota);
    a refusal is an exception the callers catch. *)
From S2P Require Import Prelude.

Record storage := Storage {
  items : gmap string string;
  readable : bool;
  writable : bool;
}.

Inductive storage_error := SecurityError | QuotaExceededError.

Definition getItem (k : string) (s : storage) : outcome storage_error (option string) :=
  if readable s then Returned (items s !! k) else Threw SecurityError.

Definition setItem (k v : string) (s : storage) : outcome storage_error storage :=
  if writable s then Returned (Storage (<[k := v]> (items s)) (readable s) (writable s))
  else Threw QuotaExceededError.

(** [try { return localStorage.getItem(k); } catch { return null; }] *)
Definition read_or_null (k : string) (s : storage) : option string := try_catch (getItem k s) None.

(** [try { localStorage.setItem(k, v); } catch { }] *)
Definition write_quietly (k v : string) (s : storage) : storage := try_catch (setItem k v s) s.

Definition usable (s : storage) : bool := readable s && writable s.

Lemma read_write k v s : usable s = true -> read_or_null k (write_quietly k v s) = Some v.
Proof.
  unfold usable, read_or_null, write_quietly, getItem, setItem. intros [-> ->]%andb_true_iff. simpl.
  by rewrite lookup_insert_eq.
Qed.

Lemma read_write_ne k k' v s : k <> k' -> read_or_null k' (write_quietly k v s) = read_or_null k' s.
Proof.
  intros Hne. unfold read_or_null, write_quietly, getItem, setItem.
  destruct (writable s); simpl; [|done]. destruct (readable s); simpl; [|done].
  by rewrite lookup_insert_ne.
Qed.

Lemma usable_write k v s : usable (write_quietly k v s) = usable s.
Proof. unfold usable, write_quietly, setItem. by destruct (writable s) eqn:E; simpl; rewrite ?E. Qed.

#[export] Hint Rewrite usable_write : js.
