(* ===== verification/Session.v ===== *)
(** * Session: signed-in user, active tenant, permissions, navigation

    [Rbac] is the backend's permission matrix ([backend/app/core/rbac.py]),
    the specification the console mirrors (the roles it is applied to: file
    [Access]); [Auth], [Tenant], [Permissions] and
    [Shell] are the console's modules of the same names. *)
From S2P Require Import Prelude JsString Json Http QueryClient Hooks PlatformHooks Storage.
From Stdlib Require Import ZArith.

(** ** [backend/app/core/rbac.py] *)
Module Rbac.
Definition TENANT_ADMIN : string := "tenant_admin".
Definition OPERATOR : string := "operator".
Definition READ_ONLY : string := "read_only".

Inductive Action :=
| TENANT_MANAGE | USER_MANAGE | TEMPLATE_MANAGE | GROUP_MANAGE | LOG_FLEET_VIEW | SYSTEM_MANAGE | AUDIT_VIEW
| MEMBERSHIP_MANAGE | DEVICE_VIEW | DEVICE_WRITE | CONFIG_PUSH | REPORT_GENERATE | REPORT_CONFIG
| RETENTION_CONFIG | LOG_VIEW.
#[export] Instance Action_eq_dec : EqDecision Action.
Proof. solve_decision. Defined.

Definition ORG_ACTIONS : list Action :=
  [TENANT_MANAGE; USER_MANAGE; TEMPLATE_MANAGE; GROUP_MANAGE; LOG_FLEET_VIEW; SYSTEM_MANAGE; AUDIT_VIEW].

Definition TENANT_MATRIX (a : Action) : list string :=
  match a with
  | MEMBERSHIP_MANAGE => [TENANT_ADMIN]
  | DEVICE_VIEW => [TENANT_ADMIN; OPERATOR; READ_ONLY]
  | DEVICE_WRITE => [TENANT_ADMIN; OPERATOR]
  | CONFIG_PUSH => [TENANT_ADMIN; OPERATOR]
  | REPORT_GENERATE => [TENANT_ADMIN; OPERATOR]
  | REPORT_CONFIG => [TENANT_ADMIN]
  | RETENTION_CONFIG => [TENANT_ADMIN]
  | LOG_VIEW => [TENANT_ADMIN; OPERATOR]
  | _ => []
  end.

Definition can (is_superadmin : bool) (role : option string) (action : Action) : bool :=
  if is_superadmin then true
  else if bool_decide (action ∈ ORG_ACTIONS) then false
  else match role with Some r => bool_decide (r ∈ TENANT_MATRIX action) | None => false end.

Lemma can_org su role a : a ∈ ORG_ACTIONS -> can su role a = su.
Proof. intros Ha. unfold can. destruct su; [done|]. by rewrite bool_decide_true. Qed.
End Rbac.

(** ** [auth/AuthProvider.tsx], [auth/ProtectedRoute.tsx], [auth/useIsSuperadmin.ts] *)
Module Auth.
Record Me := MkMe {
  id : string;
  email : string;
  name : string;
  is_superadmin : bool;
  mfa_setup_required : option bool;
}.

(** [useQuery] of the [["me"]] query: nothing yet, or the data of the query.
    [Me] stands for the object the server sends, typed by a cast. *)
Inductive observed (A : Type) := Loading | Loaded (d : option A).
Arguments Loading {A}. Arguments Loaded {A} d.

Record AuthState := MkAuth { me : option Me; loading : bool }.

Definition AuthProvider (q : observed Me) : AuthState :=
  match q with Loading => MkAuth None true | Loaded d => MkAuth d false end.

(** [refresh] and [setMe] act on the cache entry [["me"]]. *)
Definition refresh : effect := Invalidate [ks "me"].
Definition setMe (m : json) : effect := SetData [ks "me"] (Some m).

Inductive view := Blank | NavigateTo (path : string) | SetupGate | Children.

Definition ProtectedRoute (a : AuthState) : view :=
  if loading a then Blank
  else match me a with
       | None => NavigateTo "/login"
       | Some m => if mfa_setup_required m orelse false then SetupGate else Children
       end.

Definition useIsSuperadmin (a : AuthState) : bool := (is_superadmin <$> me a) orelse false.
End Auth.

(** ** [tenant/TenantProvider.tsx] *)
Module Tenant.
Record MyTenant := MkTenant { t_id : string; t_name : string; slug : string; role : option string }.

Definition LS_KEY : string := "opngms.activeTenantId".
Definition readPersistedId (s : storage) : option string := read_or_null LS_KEY s.
Definition persistId (id : string) (s : storage) : storage := write_quietly LS_KEY id s.

(** Component state and the storage beside it. *)
Record provider := Provider { storedId : option string; disk : storage }.

Definition mount (s : storage) : provider := Provider (readPersistedId s) s.

Definition setActiveId (id : string) (p : provider) : provider :=
  Provider (Some id) (persistId id (disk p)).

Definition known (tenants : list MyTenant) (id : string) : bool :=
  existsb (fun t => t_id t === id) tenants.

(** The memo: the active id, with the storage write of its fallback. *)
Definition effectiveActive (isLoading : bool) (tenants : list MyTenant) (p : provider) :
    option string * provider :=
  if isLoading || (length tenants === 0) then (storedId p, p)
  else if present (storedId p) && known tenants (storedId p orelse "") then (storedId p, p)
  else let fallback := t_id <$> head tenants in
       (fallback, if present fallback then Provider (storedId p) (persistId (fallback orelse "") (disk p)) else p).

(** ** [components/TenantSwitcher.tsx]: the picker offers the listed tenants. *)
Definition TenantSwitcher_onChange (v : option string) (p : provider) : provider :=
  if present v then setActiveId (v orelse "") p else p.

(** What happens to the provider of a page whose user has the tenants
    [tenants]: renders before and after the list arrives, picks of a listed
    tenant, page reloads. *)
Inductive step (tenants : list MyTenant) : provider -> provider -> Prop :=
| step_render l p : step tenants p (effectiveActive l tenants p).2
| step_pick id p : known tenants id = true -> step tenants p (TenantSwitcher_onChange (Some id) p)
| step_reload p : step tenants p (mount (disk p)).

Section selection.
Context (tenants : list MyTenant).
Hypothesis named : Forall (fun t => t_id t <> "") tenants.

Definition fallback : option string := t_id <$> head tenants.

(** The active id of a loaded page. *)
Definition active (p : provider) : option string := (effectiveActive false tenants p).1.

Definition valid (o : option string) : bool := present o && known tenants (o orelse "").

Lemma active_nonempty p :
  tenants <> [] -> active p = if valid (storedId p) then storedId p else fallback.
Proof using Type.
  intros Ht. unfold active, effectiveActive, valid. rewrite orb_false_l, bool_decide_false.
  - by destruct (present (storedId p) && _).
  - intros E. by apply Ht, nil_length_inv.
Qed.

Lemma fallback_known : tenants <> [] -> exists id, fallback = Some id /\ known tenants id = true.
Proof using Type.
  unfold fallback, known. clear named. destruct tenants as [|t l]; [done|]. intros _. exists (t_id t).
  split; [done|]. simpl. by rewrite bool_decide_refl.
Qed.

Lemma active_known p :
  tenants <> [] -> exists id, active p = Some id /\ known tenants id = true.
Proof using Type.
  intros Ht. rewrite active_nonempty by done. destruct (valid (storedId p)) eqn:Ev.
  - destruct (storedId p) as [i|]; [|done]. apply andb_true_iff in Ev as [_ Ev]. eauto.
  - by apply fallback_known.
Qed.

(** The storage agrees with the state, or holds the fallback of an id that
    is no longer listed. *)
Definition consistent (p : provider) : Prop :=
  usable (disk p) = true /\
  (readPersistedId (disk p) = storedId p \/
   valid (storedId p) = false /\ readPersistedId (disk p) = fallback).

Lemma fallback_valid id : fallback = Some id -> valid (Some id) = true.
Proof using named.
  unfold fallback, valid, known. destruct named as [|t l Ht Hl]; [done|].
  intros [= <-]. simpl. by rewrite bool_decide_refl, bool_decide_false.
Qed.

Lemma consistent_render l p : consistent p -> consistent (effectiveActive l tenants p).2.
Proof using named.
  intros H. unfold effectiveActive.
  destruct (l || (length tenants === 0)) eqn:El; [exact H|].
  fold (valid (storedId p)). destruct (valid (storedId p)) eqn:Ev; [exact H|].
  fold fallback. destruct fallback as [id|] eqn:Ef; [|exact H]. destruct H as [Hu _].
  pose proof (fallback_valid id Ef) as Hv. apply andb_true_iff in Hv as [Hp _].
  cbn [snd]. rewrite Hp. split; cbn [disk storedId].
  - unfold persistId. by rewrite usable_write.
  - right. split; [done|]. rewrite Ef. by apply read_write.
Qed.

Lemma consistent_step p p' : consistent p -> step tenants p p' -> consistent p'.
Proof using named.
  intros Hc Hs. destruct Hs as [l p|id p Hk|p]; [by apply consistent_render| |].
  - unfold TenantSwitcher_onChange. destruct (present (Some id)); [|done].
    destruct Hc as [Hu _]. split; cbn [disk storedId setActiveId].
    + unfold persistId. by rewrite usable_write.
    + left. by apply read_write.
  - destruct Hc as [Hu _]. split; [done|]. by left.
Qed.

Lemma consistent_reload p :
  tenants <> [] -> consistent p -> active (mount (disk p)) = active p.
Proof using named.
  intros Ht [_ [Hc|[Hv Hc]]]; rewrite !active_nonempty by done; unfold mount; cbn [storedId];
    rewrite Hc; [done|]. rewrite Hv. destruct fallback as [id|] eqn:Ef; [|done].
  by rewrite fallback_valid.
Qed.
End selection.

(** C8.  The tenant selection is sound and survives reloads.  For a user with
    at least one tenant and a working storage, after any sequence of renders,
    picks and reloads: the active tenant is one of the user's tenants; picking
    a listed tenant makes it the active one; and reloading the page keeps the
    active tenant. *)
Theorem tenant_selection_stable tenants s p :
  tenants <> [] -> Forall (fun t => t_id t <> "") tenants -> usable s = true ->
  steps (step tenants) (mount s) p ->
  (exists id, active tenants p = Some id /\ known tenants id = true) /\
  (forall id, known tenants id = true ->
     active tenants (TenantSwitcher_onChange (Some id) p) = Some id) /\
  active tenants (mount (disk p)) = active tenants p.
Proof.
  intros Ht Hn Hu Hs.
  assert (Hc : consistent tenants p).
  { eapply (steps_invariant _ (consistent tenants)); [by apply consistent_step|exact Hs|].
    split; [done|]. by left. }
  split; [by apply active_known|]. split; [|by apply consistent_reload].
  intros id Hk. assert (Hid : id <> "").
  { intros ->. unfold known in Hk. apply existsb_exists in Hk as (t & Hin & Ht').
    apply bool_decide_eq_true in Ht'. rewrite list.Forall_forall in Hn.
    apply list_elem_of_In in Hin. by apply (Hn t). }
  unfold TenantSwitcher_onChange. replace (present (Some id)) with true
    by (symmetry; unfold present; by rewrite bool_decide_false).
  rewrite active_nonempty by done. change (storedId _) with (Some id).
  replace (valid tenants (Some id)) with true; [done|].
  symmetry. apply andb_true_iff. split; [|exact Hk]. unfold present. by rewrite bool_decide_false.
Qed.

Lemma tenant_selection_stable_witness :
  let ts := [MkTenant "a" "A" "a" None; MkTenant "b" "B" "b" (Some "operator")] in
  let s := Storage (<["opngms.activeTenantId" := "gone"]> ∅) true true in
  active ts (mount (disk (TenantSwitcher_onChange (Some "b") (mount s)))) = Some "b".
Proof.
  intros ts s.
  rewrite (proj2 (proj2 (tenant_selection_stable ts s (TenantSwitcher_onChange (Some "b") (mount s))
    ltac:(discriminate) ltac:(repeat constructor; discriminate) eq_refl
    (steps_cons _ _ _ _ (step_pick ts "b" (mount s) eq_refl) (steps_refl _ _))))).
  reflexivity.
Defined.
End Tenant.

(** ** [auth/usePermissions.ts] *)
Module Permissions.
Import Rbac Auth Tenant.
Record Permissions := MkPermissions {
  p_role : option string;
  isTenantAdmin : bool;
  isOperator : bool;
}.

(** [tenants.find((t) => t.id === activeId)] *)
Definition find_tenant (tenants : list MyTenant) (activeId : option string) : option MyTenant :=
  List.find (fun t => Some (t_id t) === activeId) tenants.

Definition usePermissions (a : AuthState) (activeId : option string) (tenants : list MyTenant) : Permissions :=
  let isSuperadmin := (is_superadmin <$> me a) orelse false in
  let role := find_tenant tenants activeId ≫= role in
  let isTenantAdmin := isSuperadmin || (role === Some "tenant_admin") in
  let isOperator := isTenantAdmin || (role === Some "operator") in
  MkPermissions role isTenantAdmin isOperator.

Definition operator_actions : list Action := [DEVICE_WRITE; CONFIG_PUSH; REPORT_GENERATE; LOG_VIEW].
Definition tenant_admin_actions : list Action := [MEMBERSHIP_MANAGE; REPORT_CONFIG; RETENTION_CONFIG].

Lemma role_in (r : option string) (l : list string) :
  (match r with Some x => bool_decide (x ∈ l) | None => false end) = bool_decide (r ∈ Some <$> l).
Proof.
  destruct r as [x|].
  - apply bool_decide_ext. rewrite list_elem_of_fmap. split; [eauto|]. by intros (y & [= ->] & ?).
  - symmetry. apply bool_decide_eq_false. rewrite list_elem_of_fmap. by intros (y & ? & _).
Qed.

Lemma permissions_can a activeId tenants :
  let p := usePermissions a activeId tenants in
  (forall x, x ∈ operator_actions -> isOperator p = can (useIsSuperadmin a) (p_role p) x) /\
  (forall x, x ∈ tenant_admin_actions -> isTenantAdmin p = can (useIsSuperadmin a) (p_role p) x).
Proof.
  cbn. unfold useIsSuperadmin. generalize ((is_superadmin <$> me a) orelse false) as su.
  generalize (find_tenant tenants activeId ≫= role) as r. intros r su.
  split; intros x Hx; unfold can; destruct su; try done; rewrite role_in;
    repeat (apply elem_of_cons in Hx as [-> | Hx]); try (by apply not_elem_of_nil in Hx); simpl;
    repeat case_bool_decide; set_solver.
Qed.

(** The console's gates, given the role listed for the active tenant, are the
    backend's decision [can] on each of the operator-level, tenant-admin-level
    and organisation-level actions, for superadmins without a role too.  Where
    the role comes from is the matter of [Access]. *)
Theorem usePermissions_mirrors_can a activeId tenants x :
  let p := usePermissions a activeId tenants in
  let allowed := can (useIsSuperadmin a) (p_role p) x in
  (x ∈ operator_actions -> isOperator p = allowed) /\
  (x ∈ tenant_admin_actions -> isTenantAdmin p = allowed) /\
  (x ∈ ORG_ACTIONS -> useIsSuperadmin a = allowed) /\
  (isTenantAdmin p = true -> isOperator p = true).
Proof.
  destruct (permissions_can a activeId tenants) as [Ho Ha]. cbn zeta.
  split; [by apply Ho|]. split; [by apply Ha|]. split.
  - intros Hx. by rewrite can_org.
  - simpl. by intros ->.
Qed.
End Permissions.

(** ** Routes and navigation: [App.tsx], [components/AppShell.tsx] and the
    guards at the top of the pages *)
Module Shell.
Import Rbac Auth Tenant Permissions.
Inductive page :=
| OverviewPage | DevicesPage | DeviceDetailPage (deviceId : string) | AlertsPage | PerimeterPage
| ReportsPage | ReportSettingsPage | ReportSchedulePage | LogsPage | SessionsPage | MfaPage
| GroupsPage | TemplateLibraryPage | SmtpSettingsPage | LogFleetPage | SystemSettingsPage | AuditPage.

(** The routes, on the segments of the path; the flag is [RequireSuperadmin]. *)
Definition static_routes : list (list string * (bool * page)) := [
  ([], (false, OverviewPage));
  (["devices"], (false, DevicesPage));
  (["alerts"], (false, AlertsPage));
  (["perimeter"], (false, PerimeterPage));
  (["reports"], (false, ReportsPage));
  (["reports"; "settings"], (false, ReportSettingsPage));
  (["reports"; "schedule"], (false, ReportSchedulePage));
  (["logs"], (false, LogsPage));
  (["security"; "sessions"], (false, SessionsPage));
  (["security"; "mfa"], (false, MfaPage));
  (["admin"; "groups"], (true, GroupsPage));
  (["admin"; "templates"], (true, TemplateLibraryPage));
  (["admin"; "smtp"], (true, SmtpSettingsPage));
  (["admin"; "log-fleet"], (true, LogFleetPage));
  (["admin"; "system"], (true, SystemSettingsPage));
  (["admin"; "audit"], (true, AuditPage))].

(** React Router compares paths without regard to the case of ASCII letters. *)
Definition folded (path : list string) : list string := ascii_lower <$> path.

Definition routes (path : list string) : option (bool * page) :=
  match List.find (fun r => r.1 === folded path) static_routes, path with
  | Some r, _ => Some r.2
  | None, [d; deviceId] => if ascii_lower d === "devices" then Some (false, DeviceDetailPage deviceId) else None
  | None, _ => None
  end.

Inductive screen :=
| Nothing                    (* still loading, or no route *)
| Redirect (path : string)
| Login
| Setup                      (* the enrolment gate *)
| Forbidden (p : page)       (* the page's own alert *)
| Content (p : page).

Definition RequireSuperadmin (a : AuthState) (child : screen) : screen :=
  if useIsSuperadmin a then child else Redirect "/".

(** The guard with which a page begins. *)
Definition page_guard (a : AuthState) (perms : Permissions) (p : page) : bool :=
  match p with
  | LogsPage => isOperator perms
  | ReportSettingsPage | ReportSchedulePage => isTenantAdmin perms
  | TemplateLibraryPage | SmtpSettingsPage | GroupsPage => useIsSuperadmin a
  | _ => true
  end.

Definition render_page (a : AuthState) (perms : Permissions) (p : page) : screen :=
  if page_guard a perms p then Content p else Forbidden p.

Definition AppShell (a : AuthState) (perms : Permissions) (path : list string) : screen :=
  match routes path with
  | None => Nothing
  | Some (true, p) => RequireSuperadmin a (render_page a perms p)
  | Some (false, p) => render_page a perms p
  end.

Definition App (a : AuthState) (perms : Permissions) (path : list string) : screen :=
  if folded path === ["login"] then Login
  else match ProtectedRoute a with
       | Blank => Nothing
       | NavigateTo to => Redirect to
       | SetupGate => Setup
       | Children => AppShell a perms path
       end.

(** Links of the side bar, in order. *)
Definition AppShellNav (a : AuthState) (perms : Permissions) : list (list string) :=
  [[]; ["devices"]; ["alerts"]; ["perimeter"]; ["reports"]] ++
  (if isOperator perms then [["logs"]] else []) ++
  (if isTenantAdmin perms then [["reports"; "settings"]] else []) ++
  (if isTenantAdmin perms then [["reports"; "schedule"]] else []) ++
  [["security"; "sessions"]; ["security"; "mfa"]] ++
  (if useIsSuperadmin a then [["admin"; "groups"]] else []) ++
  (if useIsSuperadmin a then [["admin"; "templates"]] else []) ++
  (if useIsSuperadmin a then [["admin"; "smtp"]] else []) ++
  (if useIsSuperadmin a then [["admin"; "log-fleet"]] else []) ++
  (if useIsSuperadmin a then [["admin"; "system"]] else []) ++
  (if useIsSuperadmin a then [["admin"; "audit"]] else []).

(** The action the API requires for what the page is for; the pages on one's
    own sessions and second factor need none. *)
Definition needs (p : page) : option Action :=
  match p with
  | OverviewPage | DevicesPage | DeviceDetailPage _ | AlertsPage | PerimeterPage | ReportsPage => Some DEVICE_VIEW
  | LogsPage => Some LOG_VIEW
  | ReportSettingsPage | ReportSchedulePage => Some REPORT_CONFIG
  | GroupsPage => Some GROUP_MANAGE
  | TemplateLibraryPage => Some TEMPLATE_MANAGE
  | SmtpSettingsPage => Some USER_MANAGE
  | LogFleetPage => Some LOG_FLEET_VIEW
  | SystemSettingsPage => Some SYSTEM_MANAGE
  | AuditPage => Some AUDIT_VIEW
  | SessionsPage | MfaPage => None
  end.

(** The pages without a guard: their content shows to everyone signed in. *)
Definition open_to_all (p : page) : bool :=
  match needs p with None | Some DEVICE_VIEW => true | _ => false end.

Definition authorised (a : AuthState) (perms : Permissions) (p : page) : bool :=
  match needs p with
  | Some x => can (useIsSuperadmin a) (p_role perms) x
  | None => true
  end.

(** Whether a page's content may show: route guard and page guard together. *)
Definition reachable (a : AuthState) (perms : Permissions) (su : bool) (p : page) : bool :=
  implb su (useIsSuperadmin a) && page_guard a perms p.

Lemma routes_cases path su p :
  routes path = Some (su, p) ->
  (su, p) ∈ static_routes.*2 \/ exists d, su = false /\ p = DeviceDetailPage d.
Proof.
  unfold routes. destruct (List.find _ static_routes) as [r|] eqn:Ef.
  - intros [= <-]. left. apply List.find_some in Ef as [Hin _]. apply list_elem_of_fmap.
    exists r. split; [by destruct r|]. by apply list_elem_of_In.
  - intros Hr. destruct path as [|d [|i [|]]]; try discriminate Hr.
    destruct (ascii_lower d === "devices"); simplify_eq. eauto.
Qed.

Section gates.
Context (a : AuthState) (activeId : option string) (tenants : list MyTenant).
Let perms : Permissions := usePermissions a activeId tenants.

Lemma reachable_authorised path su p :
  routes path = Some (su, p) -> reachable a perms su p = open_to_all p || authorised a perms p.
Proof using Type.
  destruct (permissions_can a activeId tenants) as [Ho Ha]. fold perms in Ho, Ha.
  intros [Hin|(d & -> & ->)]%routes_cases; [|done]. unfold reachable, authorised, open_to_all.
  pose proof (Ho LOG_VIEW ltac:(set_solver)) as Hl.
  pose proof (Ha REPORT_CONFIG ltac:(set_solver)) as Hrc.
  repeat (apply elem_of_cons in Hin as [[= -> ->] | Hin]); try (by apply not_elem_of_nil in Hin);
    cbn [implb andb orb page_guard needs];
    first [exact Hl | exact Hrc | reflexivity | destruct (useIsSuperadmin a); reflexivity].
Qed.

Lemma AppShell_content path p :
  AppShell a perms path = Content p <->
  exists su, routes path = Some (su, p) /\ reachable a perms su p = true.
Proof using Type.
  unfold AppShell, reachable, RequireSuperadmin, render_page.
  destruct (routes path) as [[[] q]|]; split; try (intros (su & E & H); simplify_eq);
    intros; js_cases; eauto; naive_solver.
Qed.

Lemma App_children path :
  folded path <> ["login"] -> ProtectedRoute a = Children -> App a perms path = AppShell a perms path.
Proof using Type. intros Hp Hc. unfold App. by rewrite bool_decide_false, Hc. Qed.
End gates.

Lemma ProtectedRoute_children a :
  ProtectedRoute a = Children <->
  loading a = false /\ exists m, me a = Some m /\ mfa_setup_required m orelse false = false.
Proof.
  unfold ProtectedRoute. destruct (loading a); [naive_solver|].
  destruct (me a) as [m|]; [|naive_solver]. destruct (mfa_setup_required m orelse false) eqn:E.
  - split; [done|]. intros (_ & m' & [= <-] & E'). congruence.
  - split; eauto.
Qed.

Lemma elem_of_if {A} (b : bool) (x y : A) : x ∈ (if b then [y] else []) -> b = true /\ x = y.
Proof. destruct b; set_solver. Qed.

Lemma nav_routes a perms path :
  path ∈ AppShellNav a perms ->
  exists su q, folded path <> ["login"] /\ routes path = Some (su, q) /\ reachable a perms su q = true.
Proof.
  unfold AppShellNav. rewrite !elem_of_app. intros Hin.
  repeat match type of Hin with
         | _ \/ _ => destruct Hin as [Hin|Hin]
         | _ ∈ _ :: _ => apply elem_of_cons in Hin as [Hin|Hin]
         | _ ∈ (if _ then _ else _) => apply elem_of_if in Hin as [Hg Hin]
         | _ ∈ [] => by apply not_elem_of_nil in Hin
         end; subst path; eexists _, _; (split; [discriminate|]); (split; [reflexivity|]);
    unfold reachable; cbn; rewrite ?Hg; reflexivity.
Qed.

(** What shows, by the console's own gates. *)
Lemma App_content a activeId tenants path p :
  let perms := usePermissions a activeId tenants in
  App a perms path = Content p <->
  folded path <> ["login"] /\ (exists su, routes path = Some (su, p)) /\ ProtectedRoute a = Children /\
  (open_to_all p = true \/ authorised a perms p = true).
Proof.
  cbn zeta. rewrite <- orb_true_iff. split.
  - unfold App. case_bool_decide as Hl; [done|]. destruct (ProtectedRoute a); try done.
    intros (su & Hr & Hre)%AppShell_content. split; [done|]. split; [eauto|]. split; [done|].
    by rewrite <- (reachable_authorised _ _ _ _ _ _ Hr).
  - intros (Hl & (su & Hr) & Hc & Ha). rewrite App_children by done. apply AppShell_content.
    exists su. split; [done|]. by rewrite (reachable_authorised _ _ _ _ _ _ Hr).
Qed.

(** The side bar links only to pages that show. *)
Lemma nav_content a activeId tenants path :
  let perms := usePermissions a activeId tenants in
  ProtectedRoute a = Children -> path ∈ AppShellNav a perms -> exists q, App a perms path = Content q.
Proof.
  cbn zeta. intros Hc Hin. apply nav_routes in Hin as (su & q & Hl & Hr & Hre).
  exists q. rewrite App_children by done. apply AppShell_content. eauto.
Qed.

(** *** Signing out *)

(** [logout] does not look at the answer of the request. *)
Definition logout_request : request := send_ POST "/api/logout" [] NoBody.
Definition logout (_ : fetch_result) : list effect := [ClearCache; refresh; Navigate "/login"].

(** Signing out leaves nothing behind: after the single-session logout,
    whatever the server answers, and after a successful "log out everywhere",
    no query of the previous session is in the cache any more. *)
Lemma logout_clears_cache {C : Type} `{CacheLaws C} (c : C) r k :
  cache_get (apply_effects (logout r) c) k = None /\
  (truthy (error r) = false -> cache_get (settle Mfa.useLogoutAll r c).2 k = None).
Proof.
  assert (Hi : forall c' : C, cache_get c' k = None -> cache_get (invalidateQueries [ks "me"] c') k = None).
  { intros c' Hc. destruct (invalidate_either c' [ks "me"] k) as [-> | ->]; by rewrite Hc. }
  split; [apply Hi, clear_get|].
  intros He. unfold settle, Mfa.useLogoutAll. cbn [m_fn]. unfold void_unless_error. rewrite He.
  apply Hi, clear_get.
Qed.
End Shell.
