(* ===== verification/Access.v ===== *)
(** * Access: who may enter a tenant, and that the console shows it so

    The backend's side of the console's gates: the highest of several roles
    ([backend/app/core/rbac.py]), the roles of a user from memberships and group
    grants ([backend/app/core/access.py]), the checks every endpoint runs
    ([backend/app/core/deps.py]) and the two endpoints the console reads its
    user and its tenants from ([backend/app/api/auth.py], [me],
    [backend/app/api/me_tenants.py]).  The tables of the database are an
    argument, rows in any order; the order of slugs, which is the collation of
    the database, is another. *)
From S2P Require Import Prelude Json Http QueryClient Hooks Storage Session.
From stdpp Require Import sorting list_numbers.
From Stdlib Require Import ZArith.
Import Session.Rbac.

(** ** The highest role *)
Module Roles.
(** [ROLE_RANK.get(role or "", 0)] *)
Definition ROLE_RANK (role : option string) : nat :=
  match role with
  | Some r => if r === READ_ONLY then 1 else if r === OPERATOR then 2 else if r === TENANT_ADMIN then 3 else 0
  | None => 0
  end.

(** One turn of the loop: [best] and [best_rank]. *)
Definition better (best : option string * nat) (role : option string) : option string * nat :=
  let rank := ROLE_RANK role in
  if best.2 <? rank then (role, rank) else best.

Definition highest_role (roles : list (option string)) : option string :=
  (foldl better (None, 0) roles).1.

(** The role of a rank, by which roles are compared. *)
Definition role_of (n : nat) : option string :=
  match n with 0 => None | 1 => Some READ_ONLY | 2 => Some OPERATOR | _ => Some TENANT_ADMIN end.

Lemma rank_role_of o : ROLE_RANK (role_of (ROLE_RANK o)) = ROLE_RANK o.
Proof. destruct o as [r|]; [|done]. simpl. by repeat case_bool_decide. Qed.

Lemma role_of_rank o : 0 < ROLE_RANK o -> role_of (ROLE_RANK o) = o.
Proof. destruct o as [r|]; simpl; [|lia]. repeat case_bool_decide; simpl; subst; try done; lia. Qed.

Lemma role_of_max n k : role_of (ROLE_RANK (role_of n) `max` k) = role_of (n `max` k).
Proof. by destruct n as [|[|[|n]]], k as [|[|[|k]]]. Qed.

Lemma fold_better o roles :
  foldl better (role_of (ROLE_RANK o), ROLE_RANK o) roles =
  let n := ROLE_RANK o `max` max_list (ROLE_RANK <$> roles) in (role_of n, n).
Proof.
  revert o. induction roles as [|r roles IH]; intros o; [cbn; by rewrite Nat.max_0_r|].
  rewrite fmap_cons. change (foldl better ?a (r :: roles)) with (foldl better (better a r) roles). change (max_list (?n :: ?l)) with (n `max` max_list l). cbn zeta.
  rewrite Nat.max_assoc. unfold better at 2. cbn [fst snd].
  destruct (Nat.ltb_spec (ROLE_RANK o) (ROLE_RANK r)).
  - rewrite <- (role_of_rank r) at 1 by lia. rewrite IH. by rewrite (Nat.max_r (ROLE_RANK o) (ROLE_RANK r)) by lia.
  - rewrite IH. by rewrite (Nat.max_l (ROLE_RANK o) (ROLE_RANK r)) by lia.
Qed.

(** The highest role is the one of the greatest rank, whatever the order. *)
Lemma highest_role_max roles : highest_role roles = role_of (max_list (ROLE_RANK <$> roles)).
Proof. unfold highest_role. by rewrite (fold_better None). Qed.

Lemma max_list_incl (k l : list nat) : k ⊆ l -> max_list k <= max_list l.
Proof.
  intros H. destruct k as [|x k]; [simpl; lia|].
  apply max_list_elem_of_le, H, max_list_elem_of. done.
Qed.

(** The order of the rows and their repetition do not matter. *)
Lemma highest_role_ext roles roles' :
  (forall r, r ∈ roles <-> r ∈ roles') -> highest_role roles = highest_role roles'.
Proof.
  intros H. rewrite !highest_role_max. f_equal.
  apply Nat.le_antisymm; apply max_list_incl; intros n; rewrite !list_elem_of_fmap;
    intros (r & -> & Hr); exists r; split; try done; by apply H.
Qed.

(** A role of higher rank may do all a lower one may. *)
Lemma can_rank o o' a : ROLE_RANK o <= ROLE_RANK o' -> can false o a = true -> can false o' a = true.
Proof.
  unfold can. destruct (bool_decide (a ∈ ORG_ACTIONS)) eqn:Ea; [done|].
  destruct o as [r|]; [|done]. intros Hr Hc. apply bool_decide_eq_true in Hc. revert Hr.
  assert (Hk : r = READ_ONLY \/ r = OPERATOR \/ r = TENANT_ADMIN) by (destruct a; set_solver).
  destruct o' as [r'|]; [|destruct Hk as [->|[->| ->]]; simpl; lia]. simpl.
  repeat case_bool_decide; subst; try (intros; lia); destruct a; set_solver.
Qed.

Lemma can_known o a : can false o a = true -> 0 < ROLE_RANK o.
Proof.
  unfold can. destruct (bool_decide (a ∈ ORG_ACTIONS)); [done|]. destruct o as [r|]; [|done].
  intros Hc. apply bool_decide_eq_true in Hc.
  assert (Hk : r = READ_ONLY \/ r = OPERATOR \/ r = TENANT_ADMIN) by (destruct a; set_solver).
  destruct Hk as [->|[->| ->]]; simpl; lia.
Qed.

(** The highest role may do exactly what one of the roles may: paths to a
    tenant add up. *)
Theorem highest_role_union roles a :
  can false (highest_role roles) a = true <-> exists r, r ∈ roles /\ can false r a = true.
Proof.
  rewrite highest_role_max. split.
  - intros Hc. pose proof (can_known _ _ Hc) as Hp.
    destruct (ROLE_RANK <$> roles) as [|n l] eqn:El; [simpl in Hp; lia|].
    assert (Hn : max_list (n :: l) ∈ ROLE_RANK <$> roles) by (rewrite El; by apply max_list_elem_of).
    apply list_elem_of_fmap in Hn as (r & Hm & Hr). rewrite Hm in Hc, Hp. exists r. split; [done|].
    rewrite rank_role_of in Hp. by rewrite role_of_rank in Hc.
  - intros (r & Hr & Hc). apply (can_rank r); [|done].
    assert (Hle : ROLE_RANK r <= max_list (ROLE_RANK <$> roles)).
    { apply max_list_elem_of_le, list_elem_of_fmap. eauto. }
    destruct (decide (max_list (ROLE_RANK <$> roles) = 0)) as [E|Hne]; [lia|].
    destruct (ROLE_RANK <$> roles) as [|n l] eqn:El; [done|].
    assert (Hn : max_list (n :: l) ∈ ROLE_RANK <$> roles) by (rewrite El; by apply max_list_elem_of).
    apply list_elem_of_fmap in Hn as (r' & Hm & _). rewrite Hm in *. by rewrite rank_role_of.
Qed.
End Roles.

(** ** The tables, and [backend/app/core/access.py] *)
Module Grants.
Import Roles.
(** [backend/app/models]: the columns that decide who enters a tenant. *)
Record Membership := MkMembership { m_user : string; m_tenant : string; m_role : string }.
Record GroupMember := MkGroupMember { gm_group : string; gm_user : string }.
Record GroupGrant := MkGrant { gg_group : string; all_tenants : bool; gg_tenant : option string; gg_role : string }.
Record TenantRow := MkTenantRow { tn_id : string; tn_name : string; tn_slug : string }.
Record User := MkUser { u_id : string; u_email : string; u_name : string; u_superadmin : bool }.
Record database := MkDatabase {
  memberships : list Membership;
  members : list GroupMember;
  grants : list GroupGrant;
  tenants : list TenantRow;
  users : list User;
}.

(** [GroupGrant JOIN GroupMember] for one user. *)
Definition grants_of (db : database) (user : string) : list GroupGrant :=
  g ← grants db; m ← members db;
  if (gm_group m === gg_group g) && (gm_user m === user) then [g] else [].

Definition covers (tenant_id : string) (g : GroupGrant) : bool :=
  all_tenants g || (gg_tenant g === Some tenant_id).

Definition resolve_effective_role (db : database) (user tenant_id : string) : option string :=
  highest_role (Some <$>
    (m_role <$> filter (fun m => m_user m = user /\ m_tenant m = tenant_id) (memberships db)) ++
    (gg_role <$> filter (fun g => covers tenant_id g = true) (grants_of db user))).

(** [_bump], on the dictionary it closes over. *)
Definition bump (result : gmap string string) (p : string * string) : gmap string string :=
  match highest_role [result !! p.1; Some p.2] with
  | Some merged => <[p.1 := merged]> result
  | None => result
  end.

Definition direct (db : database) (user : string) : list (string * string) :=
  (fun m => (m_tenant m, m_role m)) <$> filter (fun m => m_user m = user) (memberships db).
Definition wildcard (db : database) (user : string) : list (string * string) :=
  g ← filter (fun g => all_tenants g = true) (grants_of db user);
  (fun t => (tn_id t, gg_role g)) <$> tenants db.
Definition specific (db : database) (user : string) : list (string * string) :=
  g ← grants_of db user;
  if all_tenants g then [] else match gg_tenant g with Some t => [(t, gg_role g)] | None => [] end.

Definition tenants_for_user (db : database) (user : string) : gmap string string :=
  foldl bump (foldl bump (foldl bump ∅ (direct db user)) (wildcard db user)) (specific db user).

(** The entries are known roles. *)
Definition ranked (m : gmap string string) : Prop := forall t, m !! t = role_of (ROLE_RANK (m !! t)).

(** The roles that pairs give for one tenant. *)
Definition given (t : string) (ps : list (string * string)) : list (option string) :=
  (fun p => Some p.2) <$> filter (fun p => p.1 = t) ps.

Lemma lookup_bump m p t :
  ranked m ->
  bump m p !! t = role_of (ROLE_RANK (m !! t) `max` max_list (ROLE_RANK <$> given t [p])).
Proof.
  intros Hm. destruct p as [t' r]. unfold bump, given. rewrite highest_role_max. cbn [fst snd].
  rewrite !fmap_cons, fmap_nil. change (max_list [?x; ?y]) with (x `max` (y `max` 0)).
  rewrite Nat.max_0_r, filter_cons, filter_nil. cbn [fst].
  destruct (decide (t' = t)) as [->|Hne].
  - change (max_list _) with (ROLE_RANK (Some r) `max` 0). rewrite Nat.max_0_r.
    set (n := _ `max` _). destruct (role_of n) eqn:En; [by rewrite lookup_insert_eq|].
    assert (Hn : n = 0) by (destruct n as [|[|[|n]]]; done).
    rewrite (Hm t). by replace (ROLE_RANK (m !! t)) with 0 by lia.
  - cbn. rewrite Nat.max_0_r. destruct (role_of _); [by rewrite lookup_insert_ne|]; apply Hm.
Qed.

Lemma ranked_role_of m : (forall t, exists n, m !! t = role_of n) -> ranked m.
Proof. intros H t. destruct (H t) as [n ->]. by destruct n as [|[|[|n]]]. Qed.

Lemma max_list_app (k l : list nat) : max_list (k ++ l) = max_list k `max` max_list l.
Proof. induction k as [|x k IH]; [done|]. cbn. rewrite <- Nat.max_assoc. by f_equal. Qed.

Lemma given_app t ps ps' : given t (ps ++ ps') = given t ps ++ given t ps'.
Proof. unfold given. by rewrite filter_app, fmap_app. Qed.

(** What the dictionary holds after a run of [_bump]: the highest of what it
    held and of all that was merged in. *)
Lemma lookup_bumps m ps :
  ranked m ->
  ranked (foldl bump m ps) /\
  forall t, foldl bump m ps !! t = role_of (ROLE_RANK (m !! t) `max` max_list (ROLE_RANK <$> given t ps)).
Proof.
  revert m. induction ps as [|p ps IH]; intros m Hm.
  - split; [done|]. intros t. cbn. rewrite Nat.max_0_r. apply Hm.
  - assert (Hb : ranked (bump m p)).
    { apply ranked_role_of. intros t. eexists. by apply lookup_bump. }
    destruct (IH _ Hb) as [Hr Hl]. split; [exact Hr|]. intros t. cbn [foldl]. rewrite Hl.
    rewrite (lookup_bump m p t Hm), role_of_max, <- Nat.max_assoc.
    by rewrite <- max_list_app, <- fmap_app, <- given_app.
Qed.

Lemma given_elem t ps r : r ∈ given t ps <-> exists x, r = Some x /\ (t, x) ∈ ps.
Proof.
  unfold given. rewrite list_elem_of_fmap. split.
  - intros ([t' x] & -> & Hp). apply list_elem_of_filter in Hp as [E Hp]. cbn in E. subst t'. eauto.
  - intros (x & -> & Hp). exists (t, x). split; [done|]. by apply list_elem_of_filter.
Qed.

Lemma tenants_for_user_highest db user t :
  tenants_for_user db user !! t =
  highest_role (given t (direct db user ++ wildcard db user ++ specific db user)).
Proof.
  rewrite highest_role_max. unfold tenants_for_user. rewrite <- !foldl_app.
  assert (H0 : ranked ∅) by (intros t'; by rewrite lookup_empty).
  rewrite (proj2 (lookup_bumps _ _ H0) t). by rewrite lookup_empty.
Qed.

Lemma direct_elem db user t x :
  (t, x) ∈ direct db user <->
  x ∈ m_role <$> filter (fun m => m_user m = user /\ m_tenant m = t) (memberships db).
Proof.
  unfold direct. rewrite !list_elem_of_fmap. split.
  - intros (m & [= -> ->] & Hm). apply list_elem_of_filter in Hm as [Hu Hm].
    exists m. split; [done|]. by apply list_elem_of_filter.
  - intros (m & -> & Hm). apply list_elem_of_filter in Hm as [[Hu Ht] Hm]. exists m. subst t.
    split; [done|]. by apply list_elem_of_filter.
Qed.

Lemma wildcard_elem db user t x :
  (t, x) ∈ wildcard db user <->
  t ∈ tn_id <$> tenants db /\ exists g, g ∈ grants_of db user /\ all_tenants g = true /\ gg_role g = x.
Proof.
  unfold wildcard. rewrite list_elem_of_bind. setoid_rewrite list_elem_of_filter.
  setoid_rewrite list_elem_of_fmap. naive_solver.
Qed.

Lemma specific_elem db user t x :
  (t, x) ∈ specific db user <->
  exists g, g ∈ grants_of db user /\ all_tenants g = false /\ gg_tenant g = Some t /\ gg_role g = x.
Proof.
  unfold specific. rewrite list_elem_of_bind. split.
  - intros (g & Hp & Hg). exists g. destruct (all_tenants g); [set_solver|].
    destruct (gg_tenant g); set_solver.
  - intros (g & Hg & Ha & Ht & <-). exists g. rewrite Ha, Ht. set_solver.
Qed.

(** The dictionary of a user's tenants and the check of one tenant are two
    implementations of one function, on every tenant there is. *)
Theorem tenants_for_user_resolves db user t :
  t ∈ tn_id <$> tenants db -> tenants_for_user db user !! t = resolve_effective_role db user t.
Proof.
  intros Ht. rewrite tenants_for_user_highest. unfold resolve_effective_role.
  apply highest_role_ext. intros r. rewrite given_elem, list_elem_of_fmap.
  apply exist_proper. intros x. apply and_iff_compat_l.
  rewrite !elem_of_app, direct_elem, wildcard_elem, specific_elem. apply or_iff_compat_l.
  rewrite (list_elem_of_fmap gg_role). setoid_rewrite list_elem_of_filter. unfold covers.
  split.
  - intros [[_ (g & Hg & Ha & <-)]|(g & Hg & Ha & Htg & <-)]; exists g; (split; [done|]; split; [|done]).
    + by rewrite Ha.
    + by rewrite Ha, Htg, bool_decide_true.
  - intros (g & -> & Hc & Hg). destruct (all_tenants g) eqn:Ea; [left; eauto|]. right.
    apply bool_decide_eq_true in Hc. eauto.
Qed.

(** Paths add up: in a tenant a user may do exactly what a membership or a
    covering grant of one of the user's groups allows. *)
Lemma resolve_union db user t a :
  can false (resolve_effective_role db user t) a = true <->
  (exists m, m ∈ memberships db /\ m_user m = user /\ m_tenant m = t /\ can false (Some (m_role m)) a = true) \/
  (exists g, g ∈ grants_of db user /\ covers t g = true /\ can false (Some (gg_role g)) a = true).
Proof.
  unfold resolve_effective_role. rewrite highest_role_union. split.
  - intros (r & Hr & Hc). apply list_elem_of_fmap in Hr as (x & -> & Hx).
    apply elem_of_app in Hx as [Hx|Hx]; apply list_elem_of_fmap in Hx as (y & -> & Hy);
      apply list_elem_of_filter in Hy as [Hp Hy]; [left|right]; exists y; tauto.
  - intros [(m & Hm & Hu & Ht & Hc)|(g & Hg & Hv & Hc)]; eexists; (split; [|exact Hc]);
      apply list_elem_of_fmap_2, elem_of_app; [left|right];
      apply list_elem_of_fmap_2, list_elem_of_filter; auto.
Qed.
End Grants.

(** ** Sessions, [backend/app/core/deps.py] and the two endpoints *)
Module Deps.
Import Roles Grants Session.Auth Session.Tenant.
Local Open Scope Z_scope.

Record SessionRow := MkSession { s_user : string; s_kind : string; s_csrf : string }.
(** [HTTPException]: status and detail. *)
Definition http_error : Type := Z * string.

Definition find_user (db : database) (id : string) : option User :=
  List.find (fun u => u_id u === id) (users db).
Definition find_row (db : database) (id : string) : option TenantRow :=
  List.find (fun t => tn_id t === id) (Grants.tenants db).

(** [header]: the value of [X-OPNGMS-CSRF], if any, in ASCII as the tokens are
    ([compare_digest] raises on other texts). *)
Definition enforce_csrf (method : string) (header : option string) (s : SessionRow) : outcome http_error () :=
  if bool_decide (method ∈ ["POST"; "PUT"; "PATCH"; "DELETE"]) then
    if negb (present header) || negb (header === Some (s_csrf s)) then Threw (403, "CSRF check failed")
    else Returned ()
  else Returned ().

Definition get_current_user (db : database) (s : SessionRow) : outcome http_error User :=
  if negb (s_kind s === "full") then
    Threw (403, if s_kind s === "mfa_setup" then "mfa_setup_required" else "mfa_required")
  else match find_user db (s_user s) with
       | None => Threw (401, "Session expired")
       | Some u => Returned u
       end.

Definition get_enrollment_ctx (db : database) (s : SessionRow) : outcome http_error (User * SessionRow) :=
  if negb (bool_decide (s_kind s ∈ ["full"; "mfa_setup"])) then Threw (401, "Not authenticated")
  else match find_user db (s_user s) with
       | None => Threw (401, "Session expired")
       | Some u => Returned (u, s)
       end.

Record TenantContext := MkContext { c_tenant : TenantRow; c_user : User; c_role : option string }.

(** The context of a request for one tenant, and the tenant the transaction is
    bound to afterwards ([set_tenant_context]), if any. *)
Definition tenant_context (db : database) (tenant_id : string) (u : User) :
    outcome http_error TenantContext * option string :=
  match find_row db tenant_id with
  | None => (Threw (404, "Tenant not found"), None)
  | Some t =>
      if u_superadmin u then (Returned (MkContext t u None), Some tenant_id)
      else match resolve_effective_role db (u_id u) tenant_id with
           | None => (Threw (403, "Tenant access denied"), None)
           | Some role => (Returned (MkContext t u (Some role)), Some tenant_id)
           end
  end.

(** An endpoint that depends on [require_tenant(action)], for a session. *)
Definition require_tenant (db : database) (s : SessionRow) (tenant_id : string) (a : Action) :
    outcome http_error TenantContext :=
  let! u := get_current_user db s in
  let! ctx := (tenant_context db tenant_id u).1 in
  if negb (can (u_superadmin (c_user ctx)) (c_role ctx) a) then Threw (403, "Permission denied")
  else Returned ctx.

Definition require_org (db : database) (s : SessionRow) (a : Action) : outcome http_error User :=
  let! u := get_current_user db s in
  if negb (can (u_superadmin u) None a) then Threw (403, "Permission denied") else Returned u.

Definition me_endpoint (db : database) (s : SessionRow) : outcome http_error Me :=
  let! ctx := get_enrollment_ctx db s in
  let '(u, sess) := ctx in
  Returned (MkMe (u_id u) (u_email u) (u_name u) (u_superadmin u) (Some (s_kind sess === "mfa_setup"))).

Section endpoints.
(** The order of [ORDER BY slug]. *)
Context (slug_le : relation string) `{!RelDecision slug_le}.

Definition by_slug : relation TenantRow := fun t t' => slug_le (tn_slug t) (tn_slug t').
#[export] Instance by_slug_dec : RelDecision by_slug.
Proof using RelDecision0. intros t t'. unfold by_slug. exact _. Defined.

Definition my_tenants (db : database) (s : SessionRow) : outcome http_error (list MyTenant) :=
  let! u := get_current_user db s in
  if u_superadmin u then
    Returned ((fun t => MkTenant (tn_id t) (tn_name t) (tn_slug t) None) <$> merge_sort by_slug (Grants.tenants db))
  else
    let by_id := tenants_for_user db (u_id u) in
    if by_id === ∅ then Returned []
    else Returned ((fun t => MkTenant (tn_id t) (tn_name t) (tn_slug t) (by_id !! tn_id t)) <$>
                   merge_sort by_slug (filter (fun t => is_Some (by_id !! tn_id t)) (Grants.tenants db))).

(** What the console's two providers hold once both queries have answered:
    an error of [/api/me] reads as nobody, one of [/api/me/tenants] as no tenants. *)
Definition console_user (db : database) (s : SessionRow) : AuthState :=
  AuthProvider (Loaded (match me_endpoint db s with Returned m => Some m | Threw _ => None end)).
Definition console_tenants (db : database) (s : SessionRow) : list MyTenant :=
  match my_tenants db s with Returned l => l | Threw _ => [] end.
End endpoints.
End Deps.

(** ** The console's gates and the API's *)
Module Agreement.
Import Roles Grants Deps Session.Auth Session.Tenant Session.Permissions Session.Shell.

Definition served {A} (o : outcome http_error A) : bool :=
  match o with Returned _ => true | Threw _ => false end.

Lemma known_elem ts t : known ts t = true <-> t ∈ t_id <$> ts.
Proof.
  unfold known. rewrite existsb_exists, list_elem_of_fmap.
  setoid_rewrite list_elem_of_In. setoid_rewrite bool_decide_eq_true. naive_solver.
Qed.

Lemma find_row_served db t : is_Some (find_row db t) <-> t ∈ tn_id <$> Grants.tenants db.
Proof.
  unfold find_row. rewrite list_elem_of_fmap. split.
  - intros [r Hr]. apply find_some in Hr as [Hin Hr]. apply bool_decide_eq_true in Hr.
    exists r. by rewrite list_elem_of_In.
  - intros (r & -> & Hr). destruct (List.find _ _) as [r'|] eqn:E; [by eexists|].
    apply list_elem_of_In in Hr. pose proof (find_none _ _ E _ Hr) as H. cbn in H.
    by rewrite bool_decide_true in H.
Qed.

Lemma tenant_context_served db t u :
  served (tenant_context db t u).1 = true <->
  t ∈ tn_id <$> Grants.tenants db /\
  (u_superadmin u = true \/ is_Some (resolve_effective_role db (u_id u) t)).
Proof.
  rewrite <- find_row_served. unfold tenant_context.
  destruct (find_row db t); [|split; [done|by intros [[? ?] _]]].
  destruct (u_superadmin u); [split; [|done]; intros _; split; [by eexists|by left]|].
  destruct (resolve_effective_role _ _ _); (split; [|done || by intros [_ [?|[? ?]]]]); [|done].
  intros _. split; [by eexists|right; by eexists].
Qed.

(** The page opens exactly for the sessions the API serves. *)
Lemma page_opens db s :
  ProtectedRoute (console_user db s) = Children <-> served (get_current_user db s) = true.
Proof.
  unfold ProtectedRoute, console_user, me_endpoint, get_enrollment_ctx, get_current_user.
  destruct (decide (s_kind s = "full")) as [E|E].
  - rewrite (bool_decide_true (s_kind s = "full")), (bool_decide_true (s_kind s ∈ _)) by set_solver.
    destruct (find_user db (s_user s)); [|done]. cbn. by rewrite E.
  - rewrite (bool_decide_false (s_kind s = "full")) by done.
    destruct (bool_decide (s_kind s ∈ _)) eqn:Ek; [|done]. apply bool_decide_eq_true in Ek.
    destruct (find_user db (s_user s)); [|done]. cbn. by rewrite bool_decide_true by set_solver.
Qed.

Section agreement.
Context (slug_le : relation string) `{!RelDecision slug_le}.
Notation console_tenants := (console_tenants slug_le).

(** The list a user of the pages is sent, without the shortcut for none. *)
Lemma console_tenants_rows db s u :
  get_current_user db s = Returned u ->
  let by_id := tenants_for_user db (u_id u) in
  console_tenants db s =
  if u_superadmin u then
    (fun t => MkTenant (tn_id t) (tn_name t) (tn_slug t) None) <$> merge_sort (by_slug slug_le) (Grants.tenants db)
  else (fun t => MkTenant (tn_id t) (tn_name t) (tn_slug t) (by_id !! tn_id t)) <$>
       merge_sort (by_slug slug_le) (filter (fun t => is_Some (by_id !! tn_id t)) (Grants.tenants db)).
Proof using Type.
  intros Hu. cbn zeta. unfold Deps.console_tenants, my_tenants. rewrite Hu. cbn [outcome_bind].
  destruct (u_superadmin u); [done|]. case_bool_decide as E; [|done]. rewrite E.
  assert (Hn : filter (fun t => is_Some ((∅ : gmap string string) !! tn_id t)) (Grants.tenants db) = []).
  { induction (Grants.tenants db) as [|r l IH]; [done|]. rewrite filter_cons_False; [done|].
    rewrite lookup_empty. by intros []. }
  by rewrite Hn.
Qed.

(** The list holds the tenants the API lets the user enter. *)
Lemma console_tenants_known db s u t :
  get_current_user db s = Returned u ->
  known (console_tenants db s) t = true <-> served (tenant_context db t u).1 = true.
Proof using Type.
  intros Hu. rewrite known_elem, tenant_context_served, (console_tenants_rows db s u Hu).
  destruct (u_superadmin u).
  - rewrite <- list_fmap_compose. cbn. rewrite merge_sort_Permutation. split; [eauto|]. by intros [? _].
  - rewrite <- list_fmap_compose, merge_sort_Permutation, list_elem_of_fmap. split.
    + intros (r & -> & Hr). apply list_elem_of_filter in Hr as [Hs Hr].
      assert (Hin : tn_id r ∈ tn_id <$> Grants.tenants db) by by apply list_elem_of_fmap_2.
      split; [exact Hin|]. right. by rewrite <- tenants_for_user_resolves.
    + intros [Hin [?|Hs]]; [done|]. rewrite <- tenants_for_user_resolves in Hs by done.
      apply list_elem_of_fmap in Hin as (r & -> & Hr). exists r. split; [done|].
      by apply list_elem_of_filter.
Qed.

Lemma console_superadmin db s u :
  get_current_user db s = Returned u -> useIsSuperadmin (console_user db s) = u_superadmin u.
Proof using Type.
  unfold console_user, me_endpoint, get_enrollment_ctx, get_current_user.
  case_bool_decide as E; [|done]. rewrite (bool_decide_true (s_kind s ∈ _)) by set_solver. cbn [negb].
  destruct (find_user db (s_user s)) as [u'|]; [|discriminate]. intros H. by injection H as ->.
Qed.

(** The decision of an endpoint on a tenant the user may enter. *)
Lemma require_tenant_can db s u t x :
  get_current_user db s = Returned u -> served (tenant_context db t u).1 = true ->
  served (require_tenant db s t x) =
  can (u_superadmin u) (if u_superadmin u then None else resolve_effective_role db (u_id u) t) x.
Proof using Type.
  intros Hu. unfold require_tenant, tenant_context. rewrite Hu. cbn [outcome_bind].
  destruct (find_row db t); [|done]. destruct (u_superadmin u) eqn:Es.
  - intros _. cbn. by rewrite Es.
  - destruct (resolve_effective_role _ _ _); [|done]. intros _. cbn [fst outcome_bind c_user c_role].
    rewrite Es. by destruct (can _ _ _).
Qed.

(** The role shown beside a listed tenant is the one the API computes. *)
Lemma console_tenants_role db s u t :
  get_current_user db s = Returned u -> known (console_tenants db s) t = true ->
  find_tenant (console_tenants db s) (Some t) ≫= role =
  if u_superadmin u then None else resolve_effective_role db (u_id u) t.
Proof using Type.
  intros Hu Hk. unfold find_tenant. destruct (List.find _ _) as [mt|] eqn:E.
  - apply find_some in E as [Hin Ht]. apply bool_decide_eq_true in Ht. injection Ht as Ht.
    apply list_elem_of_In in Hin. rewrite (console_tenants_rows db s u Hu) in Hin. cbn.
    destruct (u_superadmin u); apply list_elem_of_fmap in Hin as (r & -> & Hr); [done|].
    cbn in *. subst t. rewrite merge_sort_Permutation in Hr. apply list_elem_of_filter in Hr as [_ Hr].
    by apply tenants_for_user_resolves, list_elem_of_fmap_2.
  - exfalso. apply known_elem, list_elem_of_fmap in Hk as (mt & -> & Hin).
    apply list_elem_of_In in Hin. pose proof (find_none _ _ E _ Hin) as H. cbn in H.
    by rewrite bool_decide_true in H.
Qed.

(** C7.  The console's gates agree with the API, from the tables to the
    screen.  For every content of the database and every session, once the
    console has read [/api/me] and [/api/me/tenants]:

    - its pages open exactly when the API serves the session;
    - then the list of tenants holds exactly those whose requests the API
      admits, and for a user with some tenant the active one is among them,
      whatever the browser had stored;
    - [isOperator] and [isTenantAdmin] for the active tenant are exactly the
      API's decision on each operator-level and tenant-admin-level action
      there (over the direct membership and all grants of the user's groups),
      and [useIsSuperadmin] on each organisation-level action. *)
Theorem gates_match_api db s p x :
  let a := console_user db s in
  let ts := console_tenants db s in
  (ProtectedRoute a = Children <-> served (get_current_user db s) = true) /\
  (forall u, get_current_user db s = Returned u ->
     (forall t, known ts t = true <-> served (tenant_context db t u).1 = true) /\
     (ts <> [] -> exists t, active ts p = Some t /\ served (tenant_context db t u).1 = true) /\
     (forall t, active ts p = Some t -> ts <> [] ->
        let perms := usePermissions a (Some t) ts in
        (x ∈ operator_actions -> isOperator perms = served (require_tenant db s t x)) /\
        (x ∈ tenant_admin_actions -> isTenantAdmin perms = served (require_tenant db s t x))) /\
     (x ∈ ORG_ACTIONS -> useIsSuperadmin a = served (require_org db s x))).
Proof using Type.
  cbn zeta. split; [apply page_opens|]. intros u Hu.
  pose proof (console_tenants_known db s u) as Hk. specialize (fun t => Hk t Hu) as Hkt.
  split; [exact Hkt|]. split.
  { intros Hne. destruct (active_known _ p Hne) as (t & Ht & Hkn). exists t. split; [done|]. by apply Hkt. }
  split.
  - intros t Ht Hne. destruct (active_known _ p Hne) as (t' & Ht' & Hkn).
    assert (t' = t) by congruence. subst t'.
    destruct (permissions_can (console_user db s) (Some t) (console_tenants db s)) as [Ho Ha].
    rewrite (require_tenant_can db s u t x Hu) by by apply Hkt.
    rewrite <- (console_tenants_role db s u t Hu Hkn), <- (console_superadmin db s u Hu).
    split; [apply Ho|apply Ha].
  - intros Hx. unfold require_org. rewrite Hu. cbn [outcome_bind].
    rewrite can_org by done. rewrite (console_superadmin db s u Hu). by destruct (u_superadmin u).
Qed.

(** Every role the API gives may view. *)
Lemma role_views roles r : highest_role roles = Some r -> can false (Some r) DEVICE_VIEW = true.
Proof using Type.
  rewrite highest_role_max. destruct (max_list _) as [|[|[|n]]]; [done|intros H; by injection H as <-..].
Qed.

Lemma tenant_viewed db s u t :
  get_current_user db s = Returned u -> served (tenant_context db t u).1 = true ->
  served (require_tenant db s t DEVICE_VIEW) = true.
Proof using Type.
  intros Hu Hs. rewrite (require_tenant_can db s u t _ Hu Hs). apply tenant_context_served in Hs as [_ Hs].
  destruct (u_superadmin u); [done|]. destruct Hs as [|[r Hr]]; [done|]. rewrite Hr. exact (role_views _ _ Hr).
Qed.

(** The API's decision on what a page is for, in the tenant [t]. *)
Definition page_served (db : database) (s : SessionRow) (t : string) (p : page) : bool :=
  match needs p with
  | None => served (get_current_user db s)
  | Some x => if bool_decide (x ∈ ORG_ACTIONS) then served (require_org db s x) else served (require_tenant db s t x)
  end.

Lemma authorised_served db s u t p :
  get_current_user db s = Returned u -> known (console_tenants db s) t = true ->
  open_to_all p || authorised (console_user db s) (usePermissions (console_user db s) (Some t) (console_tenants db s)) p =
  page_served db s t p.
Proof using Type.
  intros Hu Hk. pose proof (proj1 (console_tenants_known db s u t Hu) Hk) as Hs.
  unfold open_to_all, authorised, page_served. cbn [usePermissions p_role].
  rewrite (console_tenants_role db s u t Hu Hk), (console_superadmin db s u Hu).
  destruct (needs p) as [x|]; [|by rewrite Hu]. case_bool_decide as Hx.
  - unfold require_org. rewrite Hu. cbn [outcome_bind]. rewrite !can_org by done.
    replace (match x with DEVICE_VIEW => true | _ => false end) with false; [by destruct (u_superadmin u)|].
    destruct x; try done. exfalso. revert Hx. apply (bool_decide_unpack _). vm_compute. exact I.
  - rewrite <- (require_tenant_can db s u t x Hu Hs). destruct x; try done. by rewrite (tenant_viewed db s u t Hu Hs).
Qed.

(** C6.  Route protection, from the tables to the screen.  Once the console has
    read [/api/me] and [/api/me/tenants], whatever path is opened:

    - for a session the API does not serve no page shows;
    - for a user with some tenant, the content of a page shows exactly when the
      path routes to it, in any case of its letters, and the API serves the
      action the page is for, in the active tenant or in the organisation;
    - for a user without tenants, it shows exactly when the path routes to it
      and the page has no guard or the user is a superadmin (the pages that
      only need to view devices have none, and show without a tenant, for
      which nothing is asked of the API);
    - the side bar links only to pages whose content shows. *)
Theorem App_authorised db s p path pg :
  let a := console_user db s in
  let ts := console_tenants db s in
  let routed := folded path <> ["login"] /\ exists su, routes path = Some (su, pg) in
  (served (get_current_user db s) = false ->
     forall activeId, App a (usePermissions a activeId ts) path <> Content pg) /\
  (served (get_current_user db s) = true -> ts <> [] ->
     exists t, active ts p = Some t /\
       (App a (usePermissions a (Some t) ts) path = Content pg <-> routed /\ page_served db s t pg = true)) /\
  (forall u activeId, get_current_user db s = Returned u -> ts = [] ->
     (App a (usePermissions a activeId ts) path = Content pg <->
      routed /\ (open_to_all pg = true \/ u_superadmin u = true))) /\
  (served (get_current_user db s) = true -> forall activeId,
     path ∈ AppShellNav a (usePermissions a activeId ts) ->
     exists q, App a (usePermissions a activeId ts) path = Content q).
Proof using Type.
  cbn zeta. split; [|split; [|split]].
  - intros Hs activeId (_ & _ & Hc & _)%App_content. apply page_opens in Hc. congruence.
  - intros Hs Hne. destruct (active_known _ p Hne) as (t & Ht & Hk). exists t. split; [done|].
    rewrite App_content, page_opens. destruct (get_current_user db s) as [u|] eqn:Hu; [|done].
    rewrite <- (authorised_served db s u t pg Hu Hk), orb_true_iff. tauto.
  - intros u activeId Hu Hts. rewrite App_content, page_opens, Hu, Hts. unfold authorised. cbn [usePermissions p_role find_tenant List.find mbind option_bind].
    rewrite (console_superadmin db s u Hu). unfold open_to_all.
    destruct (needs pg) as [x|]; [|naive_solver]. unfold can. destruct (u_superadmin u); [naive_solver|].
    destruct (bool_decide _); naive_solver.
  - intros Hs activeId. apply nav_content. by apply page_opens.
Qed.
End agreement.

(** Ann reads tenant [a] by her membership and operates everywhere through a
    group: she is offered both tenants, as an operator of [a]. *)
Definition sample : database :=
  MkDatabase [MkMembership "ann" "a" "read_only"] [MkGroupMember "ops" "ann"; MkGroupMember "it" "bob"]
    [MkGrant "ops" true None "operator"; MkGrant "it" false (Some "a") "tenant_admin"]
    [MkTenantRow "b" "Beta" "beta"; MkTenantRow "a" "Alpha" "alpha"]
    [MkUser "ann" "ann@x" "Ann" false; MkUser "bob" "bob@x" "Bob" false].
Definition leb_order : relation string := fun x y => String.leb x y = true.
#[export] Instance leb_order_dec : RelDecision leb_order.
Proof. intros x y. unfold leb_order. exact _. Defined.

Example sample_listed :
  console_tenants leb_order sample (MkSession "ann" "full" "k") =
  [MkTenant "a" "Alpha" "alpha" (Some "operator"); MkTenant "b" "Beta" "beta" (Some "operator")].
Proof. vm_compute. reflexivity. Qed.
Example sample_setup :
  ProtectedRoute (console_user sample (MkSession "ann" "mfa_setup" "k")) = SetupGate /\
  require_tenant sample (MkSession "ann" "mfa_setup" "k") "a" DEVICE_VIEW = Threw (403%Z, "mfa_setup_required").
Proof. by vm_compute. Qed.
Example sample_bob :
  require_tenant sample (MkSession "bob" "full" "k") "b" DEVICE_VIEW = Threw (403%Z, "Tenant access denied") /\
  served (require_tenant sample (MkSession "bob" "full" "k") "a" MEMBERSHIP_MANAGE) = true.
Proof. by vm_compute. Qed.

Lemma gates_match_api_witness :
  let s := MkSession "ann" "full" "k" in
  let ts := console_tenants leb_order sample s in
  let p := Provider (Some "gone") (Storage ∅ true true) in
  active ts p = Some "a" /\
  isOperator (usePermissions (console_user sample s) (Some "a") ts) =
    served (require_tenant sample s "a" CONFIG_PUSH).
Proof.
  intros s ts p.
  assert (Ha : active ts p = Some "a") by (vm_compute; reflexivity).
  split; [exact Ha|].
  assert (Hne : ts <> []) by (vm_compute; discriminate).
  assert (Hx : CONFIG_PUSH ∈ operator_actions) by (apply (bool_decide_unpack _); vm_compute; exact I).
  exact (proj1 (proj1 (proj2 (proj2 (proj2 (gates_match_api leb_order sample s p CONFIG_PUSH)
    (MkUser "ann" "ann@x" "Ann" false) eq_refl))) "a" Ha Hne) Hx).
Defined.

(** Ann, an operator of [a], opens the logs there; a reader does not. *)
Lemma App_authorised_witness :
  let s := MkSession "ann" "full" "k" in
  let a := console_user sample s in
  let ts := console_tenants leb_order sample s in
  let p := Provider (Some "a") (Storage ∅ true true) in
  exists t, active ts p = Some t /\ App a (usePermissions a (Some t) ts) ["Logs"] = Content LogsPage.
Proof.
  intros s a ts p.
  assert (Hne : ts <> []) by (vm_compute; discriminate).
  destruct (proj1 (proj2 (App_authorised leb_order sample s p ["Logs"] LogsPage)) eq_refl Hne) as (t & Ht & Hc).
  exists t. split; [exact Ht|]. apply (proj2 Hc). split.
  - split; [vm_compute; discriminate|]. exists false. vm_compute. reflexivity.
  - assert (E : active ts p = Some "a") by (vm_compute; reflexivity).
    pose proof (eq_trans (eq_sym E) Ht) as [= <-]. vm_compute. reflexivity.
Defined.

(** The transaction is bound to a tenant only when the request may enter it. *)
Lemma tenant_context_binds db t u :
  (tenant_context db t u).2 = if served (tenant_context db t u).1 then Some t else None.
Proof.
  unfold tenant_context. destruct (find_row db t); [|done]. destruct (u_superadmin u); [done|].
  by destruct (resolve_effective_role _ _ _).
Qed.

(** A request through the client passes the CSRF check of the session whose
    token its cookie carries. *)
Lemma client_passes_csrf cookie r headers s :
  rq_channel r = ViaClient -> csrfToken cookie = Returned (s_csrf s) -> s_csrf s <> "" ->
  sent_headers cookie r = Returned headers ->
  enforce_csrf (method_name (rq_method r)) (Json.assoc csrf_header headers) s = Returned ().
Proof.
  intros Hc Ht Hne. unfold sent_headers. rewrite Hc. unfold csrfMiddleware, enforce_csrf.
  destruct (mutating r) eqn:Em; unfold mutating in Em.
  - rewrite Ht. intros H. cbn in H. injection H as <-. apply bool_decide_eq_true in Em.
    rewrite bool_decide_true by exact Em. change (Json.assoc csrf_header _) with (Some (s_csrf s)).
    rewrite bool_decide_refl. unfold present. by rewrite bool_decide_false.
  - intros _. apply bool_decide_eq_false in Em. by rewrite bool_decide_false by exact Em.
Qed.
End Agreement.
