(* ===== verification/Login.v ===== *)
(** * The login page ([pages/LoginPage.tsx])

    A password step and a second-factor step (code or passkey).  The page is a
    state machine on events: what the user does with the controls the page
    shows, and the answers to the requests in flight, in any order.  [exec]
    runs one event; an event whose control is not on the page, or that answers
    no pending request, is impossible ([None]). *)
From S2P Require Import Prelude Machine Json Http Hooks WebAuthn.
From Stdlib Require Import ZArith.
Import Base64 Client.

Inductive step := password_ | mfa.
#[export] Instance step_eq_dec : EqDecision step.
Proof. solve_decision. Defined.

Record remember_info := Remember { enabled : bool; days : Z }.

Record page := Page {
  error : option msg;
  step_ : step;
  useRecovery : bool;
  methods : list string;
  passkeyBusy : bool;
  rememberDevice : bool;
  remember : option remember_info;
  email_ : string;
  secret : string;
  code : string;
}.

(** Requests waiting for an answer, with what their continuation captured:
    [keep] is the value sent as [remember_device] of the passkey flow. *)
Inductive flight :=
| PSubmit
| PMfa
| PBegin (keep : bool)
| PPrompt (options : json) (keep : bool)
| PComplete.
#[export] Instance flight_eq_dec : EqDecision flight.
Proof. solve_decision. Defined.

Record machine := Machine { ui : page; flights : list flight; me : option json }.

Definition initial : machine :=
  Machine (Page None password_ false [] false false None "" "" "") [] None.

(** A request that never got an answer ([fetch] rejected) is [None]. *)
Inductive event :=
| EType (email_ secret : string)
| ESubmit
| ESubmitAnswer (r : option fetch_result)
| ETypeCode (c : string)
| EMfa
| EMfaAnswer (r : option fetch_result)
| EToggleRecovery
| ERememberDevice (checked : bool)
| EPasskey (supported : bool)
| EBeginAnswer (keep : bool) (r : option fetch_result)
| EPromptAnswer (options : json) (keep : bool) (get : request_options -> outcome js_error (option assertion))
| ECompleteAnswer (r : option fetch_result).

(** ** What the page shows *)
Definition hasTotp (p : page) : bool := (methods p === []) || bool_decide ("totp" ∈ methods p).
Definition hasWebauthn (p : page) : bool := bool_decide ("webauthn" ∈ methods p).

Definition offers_code (p : page) : bool := (step_ p === mfa) && hasTotp p.
Definition offers_passkey (p : page) : bool := (step_ p === mfa) && hasWebauthn p && negb (passkeyBusy p).
Definition remember_enabled (p : page) : bool := (enabled <$> remember p) orelse false.
Definition offers_remember (p : page) : bool := (step_ p === mfa) && remember_enabled p.

(** [remember?.enabled ? rememberDevice : false] *)
Definition remember_flag (p : page) : bool := if remember_enabled p then rememberDevice p else false.

(** ** Setters *)
Definition setError (e : option msg) (p : page) : page :=
  Page e (step_ p) (useRecovery p) (methods p) (passkeyBusy p) (rememberDevice p) (remember p) (email_ p) (secret p) (code p).
Definition setPasskeyBusy (b : bool) (p : page) : page :=
  Page (error p) (step_ p) (useRecovery p) (methods p) b (rememberDevice p) (remember p) (email_ p) (secret p) (code p).
Definition setRememberDevice (b : bool) (p : page) : page :=
  Page (error p) (step_ p) (useRecovery p) (methods p) (passkeyBusy p) b (remember p) (email_ p) (secret p) (code p).
Definition setCode (c : string) (p : page) : page :=
  Page (error p) (step_ p) (useRecovery p) (methods p) (passkeyBusy p) (rememberDevice p) (remember p) (email_ p) (secret p) c.
Definition setForm (e s : string) (p : page) : page :=
  Page (error p) (step_ p) (useRecovery p) (methods p) (passkeyBusy p) (rememberDevice p) (remember p) e s (code p).
Definition to_mfa (ms : list string) (r : option remember_info) (p : page) : page :=
  Page (error p) mfa (useRecovery p) ms (passkeyBusy p) (rememberDevice p) r (email_ p) (secret p) (code p).
Definition toggleRecovery (p : page) : page :=
  Page None (step_ p) (negb (useRecovery p)) (methods p) (passkeyBusy p) (rememberDevice p) (remember p) (email_ p) (secret p) "".

(** ** Reading [LoginOut] *)
Definition out_status (d : json) : option string :=
  match field "status" d with Some (JStr s) => Some s | _ => None end.
Definition out_methods (d : json) : list string :=
  match field "methods" d with
  | Some (JArr l) => omap (fun v => match v with JStr s => Some s | _ => None end) l
  | _ => []
  end.
Definition out_remember (d : json) : option remember_info :=
  match field "remember_device" d with
  | Some (JObj l) => Some (Remember (truthy (assoc "enabled" l))
                             (match assoc "days" l with Some (JNum n) => n | _ => 0%Z end))
  | _ => None
  end.
(** [out.user] when truthy. *)
Definition out_user (d : json) : option json :=
  if truthy (field "user" d) then field "user" d else None.

Definition invalidCredentials : msg := Tr ["login"; "invalidCredentials"].
Definition invalidCode : msg := Tr ["login"; "mfa"; "invalidCode"].
Definition passkeyError : msg := Tr ["login"; "mfa"; "passkeyError"].
Definition passkeyNotSupported : msg := Tr ["login"; "mfa"; "passkeyNotSupported"].

(** ** Requests *)
Definition login_request (p : page) : request :=
  send_ POST "/api/login" [] (JsonBody (JObj [("email", JStr (email_ p)); ("password", JStr (secret p))])).
Definition mfa_request (p : page) : request :=
  send_ POST "/api/login/mfa" []
    (JsonBody (JObj [("code", JStr (code p)); ("remember_device", JBool (remember_flag p))])).
Definition begin_request : request := send_ POST "/api/login/webauthn/begin" [] NoBody.
Definition complete_request (credential : json) (keep : bool) : request :=
  send_ POST "/api/login/webauthn/complete" []
    (JsonBody (JObj [("credential", credential); ("remember_device", JBool keep)])).

(** ** Continuations of the handlers *)

(** [!response.ok || !data] *)
Definition refused (r : fetch_result) : bool := negb (response_ok r) || negb (truthy (data r)).

Definition after_submit (r : fetch_result) (p : page) : page * option json :=
  if refused r then (setError (Some invalidCredentials) p, None)
  else let out := data r orelse JNull in
       if out_status out === Some "mfa_required" then (to_mfa (out_methods out) (out_remember out) p, None)
       else (p, out_user out).

Definition ok_user (d : json) : option json :=
  if out_status d === Some "ok" then out_user d else None.

Definition after_mfa (r : fetch_result) (p : page) : page * option json :=
  if refused r then (setError (Some invalidCode) p, None)
  else match ok_user (data r orelse JNull) with
       | Some u => (p, Some u)
       | None => (setError (Some invalidCode) p, None)
       end.

Definition after_complete (r : fetch_result) (p : page) : page * option json :=
  match (if response_ok r then data r ≫= ok_user else None) with
  | Some u => (p, Some u)
  | None => (setError (Some passkeyError) p, None)
  end.

(** The [catch] and [finally] of the passkey flow. *)
Definition passkey_failed (p : page) : page := setPasskeyBusy false (setError (Some passkeyError) p).

(** ** One event *)

(** Takes one pending request out of the list. *)
Fixpoint land (f : flight) (l : list flight) : option (list flight) :=
  match l with
  | [] => None
  | g :: l => if f === g then Some l else cons g <$> land f l
  end.

Definition signed (m : machine) (u : option json) : option json :=
  match u with Some x => Some x | None => me m end.

Definition exec (e : event) (m : machine) : option (machine * list request) :=
  let p := ui m in
  match e with
  | EType a b => if step_ p === password_ then Some (Machine (setForm a b p) (flights m) (me m), []) else None
  | ESubmit =>
      if step_ p === password_
      then Some (Machine (setError None p) (PSubmit :: flights m) (me m), [login_request p]) else None
  | ESubmitAnswer r =>
      l ← land PSubmit (flights m);
      Some (match r with
            | Some r => let '(p, u) := after_submit r p in (Machine p l (signed m u), [])
            | None => (Machine p l (me m), [])
            end)
  | ETypeCode c => if offers_code p then Some (Machine (setCode c p) (flights m) (me m), []) else None
  | EMfa =>
      if offers_code p
      then Some (Machine (setError None p) (PMfa :: flights m) (me m), [mfa_request p]) else None
  | EMfaAnswer r =>
      l ← land PMfa (flights m);
      Some (match r with
            | Some r => let '(p, u) := after_mfa r p in (Machine p l (signed m u), [])
            | None => (Machine p l (me m), [])
            end)
  | EToggleRecovery => if offers_code p then Some (Machine (toggleRecovery p) (flights m) (me m), []) else None
  | ERememberDevice b =>
      if offers_remember p then Some (Machine (setRememberDevice b p) (flights m) (me m), []) else None
  | EPasskey supported =>
      if offers_passkey p then
        Some (if supported
              then (Machine (setPasskeyBusy true (setError None p)) (PBegin (remember_flag p) :: flights m) (me m),
                    [begin_request])
              else (Machine (setError (Some passkeyNotSupported) p) (flights m) (me m), []))
      else None
  | EBeginAnswer keep r =>
      l ← land (PBegin keep) (flights m);
      Some (match r with
            | Some r => if truthy (Http.error r) || negb (truthy (data r))
                        then (Machine (passkey_failed p) l (me m), [])
                        else (Machine p (PPrompt (data r orelse JNull) keep :: l) (me m), [])
            | None => (Machine (passkey_failed p) l (me m), [])
            end)
  | EPromptAnswer options keep get =>
      l ← land (PPrompt options keep) (flights m);
      Some (match getAssertion get options with
            | Returned credential => (Machine p (PComplete :: l) (me m), [complete_request credential keep])
            | Threw _ => (Machine (passkey_failed p) l (me m), [])
            end)
  | ECompleteAnswer r =>
      l ← land PComplete (flights m);
      Some (match r with
            | Some r => let '(p, u) := after_complete r p in (Machine (setPasskeyBusy false p) l (signed m u), [])
            | None => (Machine (passkey_failed p) l (me m), [])
            end)
  end.

(** A history: the machine after it and the requests it sent. *)
Definition run : list event -> machine -> option (machine * list request) := Machine.run exec.

(** ** Histories *)

(** An invariant of histories, by induction on the last event. *)
Lemma run_invariant (I : list event -> machine -> list request -> Prop) :
  I [] initial [] ->
  (forall es e m m' rs rs', I es m rs -> exec e m = Some (m', rs') -> I (es ++ [e]) m' (rs ++ rs')) ->
  forall es m rs, run es initial = Some (m, rs) -> I es m rs.
Proof. intros H0 Hstep. apply (Machine.run_history exec); [done|eauto]. Qed.

Lemma land_existsb f l l' g : land f l = Some l' -> existsb g l = g f || existsb g l'.
Proof.
  revert l'. induction l as [|h l IH]; intros l'; simpl; [done|]. case_bool_decide; simplify_eq/=.
  - by intros [= <-].
  - destruct (land f l) as [l1|]; simpl; [|done]. intros [= <-]. simpl. rewrite (IH l1) by done.
    by rewrite !orb_assoc, (orb_comm (g h)).
Qed.

Definition count (g : flight -> nat) (l : list flight) : nat := foldr (fun f n => g f + n) 0 l.

Lemma land_count f l l' g : land f l = Some l' -> count g l = g f + count g l'.
Proof.
  revert l'. induction l as [|h l IH]; intros l'; simpl; [done|]. case_bool_decide; simplify_eq/=.
  - by intros [= <-].
  - destruct (land f l) as [l1|]; simpl; [|done]. intros [= <-]. simpl. rewrite (IH l1) by done. lia.
Qed.

(** *** The second factor *)

(** The server demanded a second factor. *)
Definition demands (e : event) : bool :=
  match e with
  | ESubmitAnswer (Some r) => negb (refused r) && (out_status (data r orelse JNull) === Some "mfa_required")
  | _ => false
  end.

Definition is_second (f : flight) : bool := match f with PSubmit => false | _ => true end.

(** The page is past the password, or a second-factor request is under way. *)
Definition second_stage (m : machine) : bool := (step_ (ui m) === mfa) || existsb is_second (flights m).

(** The user a successful answer carries: the server's word for it. *)
Definition password_grant (e : event) (u : json) : Prop :=
  exists r, e = ESubmitAnswer (Some r) /\ response_ok r = true /\
    out_status (data r orelse JNull) <> Some "mfa_required" /\ field "user" (data r orelse JNull) = Some u.
Definition second_grant (e : event) (u : json) : Prop :=
  exists r, (e = EMfaAnswer (Some r) \/ e = ECompleteAnswer (Some r)) /\ response_ok r = true /\
    out_status (data r orelse JNull) = Some "ok" /\ field "user" (data r orelse JNull) = Some u.

Definition is_second_request (rq : request) : bool := negb (rq_path rq === "/api/login").

Ltac exec_cases :=
  repeat match goal with
         | H : (match land ?f ?l with Some _ => _ | None => _ end) = Some _ |- _ =>
             destruct (land f l) eqn:?; [|discriminate H]
         | H : mbind _ (land ?f ?l) = Some _ |- _ => destruct (land f l) eqn:?; [|discriminate H]
         | H : (if ?b then _ else None) = Some _ |- _ => destruct b eqn:?; [|discriminate H]
         | H : Some _ = Some _ |- _ => injection H; clear H; intros
         end.

(** Before the second stage only the password form is there. *)
Lemma first_stage_exec e m m' rs :
  second_stage m = false -> exec e m = Some (m', rs) ->
  (exists a b, e = EType a b) \/ e = ESubmit \/ exists r, e = ESubmitAnswer r.
Proof.
  unfold second_stage. intros [E1 E2]%orb_false_iff H.
  destruct e; eauto 6; exfalso; cbn [exec] in H; exec_cases; simplify_eq/=;
    try (match goal with Hl : land _ _ = Some _ |- _ =>
           apply (land_existsb _ _ _ is_second) in Hl; simpl in Hl; congruence end);
    unfold offers_code, offers_remember, offers_passkey in *; by rewrite E1 in *.
Qed.

Lemma exec_second e m m' rs :
  exec e m = Some (m', rs) ->
  (second_stage m' = true \/ existsb is_second_request rs = true) ->
  second_stage m = true \/ demands e = true.
Proof.
  intros H Hs. destruct (second_stage m) eqn:E; [auto|]. right.
  destruct (first_stage_exec _ _ _ _ E H) as [(a & b & ->)|[-> |(r & ->)]];
    unfold second_stage in *; cbn [exec] in H; exec_cases; simplify_eq/=;
    try (destruct Hs; congruence).
  apply (land_existsb _ _ _ is_second) in Heqo. simpl in Heqo.
  destruct r as [r|]; simplify_eq/=; [|destruct Hs; congruence].
  unfold after_submit in H. destruct (refused r); simplify_eq/=; [destruct Hs; congruence|].
  destruct (out_status _ === _); simplify_eq/=; [done|]. destruct Hs; congruence.
Qed.

Lemma out_user_field d u : out_user d = Some u -> field "user" d = Some u.
Proof. unfold out_user. by destruct (truthy _). Qed.

Lemma ok_user_spec d u : ok_user d = Some u -> out_status d = Some "ok" /\ field "user" d = Some u.
Proof.
  unfold ok_user. case_bool_decide; [|done]. auto using out_user_field.
Qed.

Lemma refused_ok r : refused r = false -> response_ok r = true.
Proof. unfold refused. by destruct (response_ok r). Qed.

Lemma submit_grant r p u :
  (after_submit r p).2 = Some u -> password_grant (ESubmitAnswer (Some r)) u.
Proof.
  unfold after_submit. destruct (refused r) eqn:Er; [done|]. case_bool_decide; [done|].
  intros Hu. exists r. auto using out_user_field, refused_ok.
Qed.

Lemma mfa_grant r p u : (after_mfa r p).2 = Some u -> second_grant (EMfaAnswer (Some r)) u.
Proof.
  unfold after_mfa. destruct (refused r) eqn:Er; [done|].
  destruct (ok_user _) as [v|] eqn:Eo; [|done]. intros [= <-]. apply ok_user_spec in Eo as [??].
  exists r. auto using refused_ok.
Qed.

Lemma complete_grant r p u : (after_complete r p).2 = Some u -> second_grant (ECompleteAnswer (Some r)) u.
Proof.
  unfold after_complete. destruct (response_ok r) eqn:Er; [|done].
  destruct (data r) as [d|] eqn:Ed; [|done]. simpl.
  destruct (ok_user d) as [v|] eqn:Eo; [|done]. intros [= <-]. apply ok_user_spec in Eo as [??].
  exists r. rewrite Ed. auto.
Qed.

(** One event changes the signed-in user only by a granting answer, and a
    second-factor answer arrives only in the second stage. *)
Lemma exec_grant e m m' rs u :
  exec e m = Some (m', rs) -> me m' = Some u ->
  me m = Some u \/ password_grant e u \/ (second_stage m = true /\ second_grant e u).
Proof.
  intros H Hu. destruct e; cbn [exec] in H; exec_cases; simplify_eq/=; auto;
    try (destruct supported; simplify_eq/=; auto; fail).
  - destruct r as [r|]; simplify_eq/=; auto. destruct (after_submit r (ui m)) as [p v] eqn:Ea; simplify_eq/=.
    destruct v; simplify_eq/=; auto. right. left. eapply submit_grant. by rewrite Ea.
  - destruct r as [r|]; simplify_eq/=; auto. destruct (after_mfa r (ui m)) as [p v] eqn:Ea; simplify_eq/=.
    destruct v; simplify_eq/=; auto. do 2 right. split; [|eapply mfa_grant; by rewrite Ea].
    unfold second_stage. rewrite (land_existsb _ _ _ is_second Heqo). apply orb_true_r.
  - destruct r as [r|]; simplify_eq/=; auto. destruct (_ || _); simplify_eq/=; auto.
  - destruct (getAssertion get options); simplify_eq/=; auto.
  - destruct r as [r|]; simplify_eq/=; auto. destruct (after_complete r (ui m)) as [p v] eqn:Ea; simplify_eq/=.
    destruct v; simplify_eq/=; auto. do 2 right. split; [|eapply complete_grant; by rewrite Ea].
    unfold second_stage. rewrite (land_existsb _ _ _ is_second Heqo). apply orb_true_r.
Qed.

Definition demanded (es : list event) : Prop := exists e, e ∈ es /\ demands e = true.

(** The invariant behind remembering a device. *)
Definition sound (es : list event) (m : machine) (rs : list request) : Prop :=
  (second_stage m = true \/ existsb is_second_request rs = true -> demanded es) /\
  (forall u, me m = Some u -> exists e es1 es2, es = es1 ++ e :: es2 /\
     (password_grant e u \/ (second_grant e u /\ demanded es1))).

Lemma demanded_snoc es e : demanded es -> demanded (es ++ [e]).
Proof. intros (e' & Hin & He). exists e'. set_solver. Qed.

Lemma sound_step es e m m' rs rs' :
  sound es m rs -> exec e m = Some (m', rs') -> sound (es ++ [e]) m' (rs ++ rs').
Proof.
  intros [Hd Hm] He. split.
  - rewrite existsb_app, orb_true_iff. intros Hs.
    destruct (decide (second_stage m = true \/ existsb is_second_request rs = true)) as [Hy|Hn].
    { by apply demanded_snoc, Hd. }
    destruct (exec_second _ _ _ _ He ltac:(tauto)) as [Hs'|Hde]; [tauto|]. exists e. set_solver.
  - intros u Hu. destruct (exec_grant _ _ _ _ _ He Hu) as [Ho|[Hp|[Hs Hg]]].
    + destruct (Hm u Ho) as (e' & es1 & es2 & -> & Hg). exists e', es1, (es2 ++ [e]).
      by rewrite <- app_assoc.
    + exists e, es, []. auto.
    + exists e, es, []. split; [done|]. right. split; [done|]. by apply Hd; left.
Qed.

(** C1.  No way around the second factor.  In every history of the page, in
    any order of clicks and answers: if a user got signed in, then some answer
    of the server with a 2xx status carries exactly that user, either a
    password answer that did not demand a second factor, or an "ok" answer to
    a second-factor request that came after the server demanded one; and
    second-factor requests are sent only after that demand. *)
Theorem login_no_bypass es m rs :
  run es initial = Some (m, rs) ->
  (forall u, me m = Some u -> exists e es1 es2, es = es1 ++ e :: es2 /\
     (password_grant e u \/ (second_grant e u /\ demanded es1))) /\
  (forall rq, rq ∈ rs -> is_second_request rq = true -> demanded es).
Proof.
  intros Hr. assert (Hs : sound es m rs).
  { revert Hr. apply run_invariant; [|apply sound_step].
    split; [intros [H|H]; discriminate H|]. intros u Hu. discriminate Hu. }
  destruct Hs as [Hd Hm]. split; [exact Hm|]. intros rq Hin Hrq. apply Hd. right.
  apply existsb_exists. exists rq. split; [by apply list_elem_of_In|done].
Qed.

(** A sign-in with a code. *)
Definition user_json : json := JObj [("id", JStr "u1")].
Definition demo : list event :=
  [EType "a@b" "pw"; ESubmit;
   ESubmitAnswer (Some (FetchResult (Some (JObj [("status", JStr "mfa_required");
      ("methods", JArr [JStr "totp"; JStr "webauthn"]);
      ("remember_device", JObj [("enabled", JBool true); ("days", JNum 30)])])) None 200));
   ERememberDevice true; ETypeCode "123456"; EMfa;
   EMfaAnswer (Some (FetchResult (Some (JObj [("status", JStr "ok"); ("user", user_json)])) None 200))].

Lemma login_no_bypass_witness :
  exists m rs, run demo initial = Some (m, rs) /\ me m = Some user_json /\
    exists e es1 es2, demo = es1 ++ e :: es2 /\
      (password_grant e user_json \/ (second_grant e user_json /\ demanded es1)).
Proof.
  eexists _, _. split; [vm_compute; reflexivity|]. split; [reflexivity|].
  eapply (proj1 (login_no_bypass demo _ _ ltac:(vm_compute; reflexivity)) user_json). reflexivity.
Defined.

(** *** Trusting the device *)
Definition remembers (rq : request) : bool :=
  match rq_body rq with
  | JsonBody b => match field "remember_device" b with Some (JBool b) => b | _ => false end
  | _ => false
  end.
Definition keeps (f : flight) : bool :=
  match f with PBegin k | PPrompt _ k => k | _ => false end.

(** The server's answer offered it; the user ticked the box. *)
Definition offered_by (e : event) : bool :=
  match e with
  | ESubmitAnswer (Some r) => demands e && ((enabled <$> out_remember (data r orelse JNull)) orelse false)
  | _ => false
  end.
Definition ticked_by (e : event) : bool := match e with ERememberDevice b => b | _ => false end.

(** How one event moves the flags of the page. *)
Lemma exec_remember e m m' rs :
  exec e m = Some (m', rs) ->
  (remember_enabled (ui m') = true -> remember_enabled (ui m) = true \/ offered_by e = true) /\
  (rememberDevice (ui m') = true -> rememberDevice (ui m) = true \/ ticked_by e = true).
Proof.
  intros H. destruct e; cbn [exec] in H; exec_cases; simplify_eq/=; auto;
    try (destruct supported; simplify_eq/=; auto; fail).
  - destruct r as [r|]; simplify_eq/=; auto. unfold after_submit in H.
    destruct (refused r); simplify_eq/=; auto. destruct (out_status _ === _); simplify_eq/=; auto.
  - destruct r as [r|]; simplify_eq/=; auto. unfold after_mfa in H.
    destruct (refused r); [|destruct (ok_user _)]; simplify_eq/=; auto.
  - destruct r as [r|]; simplify_eq/=; auto. destruct (_ || _); simplify_eq/=; auto.
  - destruct (getAssertion get options); simplify_eq/=; auto.
  - destruct r as [r|]; simplify_eq/=; auto. unfold after_complete in H.
    destruct (if response_ok r then _ else _); simplify_eq/=; auto.
Qed.

Lemma exec_keeps e m m' rs :
  exec e m = Some (m', rs) ->
  existsb keeps (flights m') = true \/ existsb remembers rs = true ->
  existsb keeps (flights m) = true \/ remember_flag (ui m) = true.
Proof.
  intros H Hk. destruct e; cbn [exec] in H; exec_cases; simplify_eq/=;
    try (match goal with Hl : land _ _ = Some _ |- _ =>
           apply (land_existsb _ _ _ keeps) in Hl; simpl in Hl; rewrite Hl end);
    try (destruct supported); try (destruct r as [r|]); simplify_eq/=;
    try (destruct (after_submit _ _)); try (destruct (after_mfa _ _)); try (destruct (after_complete _ _));
    try (destruct (_ || negb (truthy (data r)))); try (destruct (getAssertion _ _)); simplify_eq/=;
    rewrite ?orb_true_iff, ?orb_false_r in *; naive_solver.
Qed.

Definition consent (es : list event) (m : machine) (rs : list request) : Prop :=
  (remember_enabled (ui m) = true -> existsb offered_by es = true) /\
  (rememberDevice (ui m) = true -> existsb ticked_by es = true) /\
  (existsb keeps (flights m) = true \/ existsb remembers rs = true ->
     existsb offered_by es = true /\ existsb ticked_by es = true).

Lemma consent_step es e m m' rs rs' :
  consent es m rs -> exec e m = Some (m', rs') -> consent (es ++ [e]) m' (rs ++ rs').
Proof.
  intros (Ho & Ht & Hk) He. destruct (exec_remember _ _ _ _ He) as [He1 He2].
  pose proof (exec_keeps _ _ _ _ He) as He3.
  assert (Hf : remember_flag (ui m) = true -> existsb offered_by es = true /\ existsb ticked_by es = true).
  { unfold remember_flag. destruct (remember_enabled (ui m)); [|done]. auto. }
  unfold consent. rewrite !existsb_app. simpl. rewrite !orb_false_r, !orb_true_iff.
  split; [intros H; destruct (He1 H); auto|]. split; [intros H; destruct (He2 H); auto|].
  intros H. assert (Hb : existsb offered_by es = true /\ existsb ticked_by es = true);
    [|destruct Hb; auto].
  destruct H as [H|[H|H]]; [destruct (He3 (or_introl H)); auto|auto|destruct (He3 (or_intror H)); auto].
Qed.

(** C27.  A device is remembered only with the consent of both sides: in every
    history of the page, a request that asks the server to trust the device is
    sent only if the server's demand for a second factor offered it and the
    user ticked the box. *)
Theorem login_remember_consent es m rs rq :
  run es initial = Some (m, rs) -> rq ∈ rs -> remembers rq = true ->
  existsb offered_by es = true /\ existsb ticked_by es = true.
Proof.
  intros Hr Hin Hrq. assert (Hc : consent es m rs).
  { revert Hr. apply run_invariant; [|apply consent_step].
    split; [done|]. split; [done|]. by intros [H|H]. }
  apply Hc. right. apply existsb_exists. exists rq. by rewrite <- list_elem_of_In.
Qed.

Lemma login_remember_consent_witness :
  existsb offered_by demo = true /\ existsb ticked_by demo = true.
Proof.
  eapply (login_remember_consent demo _ _
    (send_ POST "/api/login/mfa" []
       (JsonBody (JObj [("code", JStr "123456"); ("remember_device", JBool true)])))).
  - vm_compute. reflexivity.
  - right. left.
  - reflexivity.
Defined.

(** *** The passkey button *)

(** Stages left to a passkey flow. *)
Definition stages (f : flight) : nat :=
  match f with PBegin _ => 3 | PPrompt _ _ => 2 | PComplete => 1 | _ => 0 end.
Definition passkey (f : flight) : nat :=
  match f with PBegin _ | PPrompt _ _ | PComplete => 1 | _ => 0 end.
Definition answers_passkey (e : event) : bool :=
  match e with EBeginAnswer _ _ | EPromptAnswer _ _ _ | ECompleteAnswer _ => true | _ => false end.

Definition one_flow (m : machine) : Prop :=
  count passkey (flights m) = if passkeyBusy (ui m) then 1 else 0.

Lemma exec_busy e m m' rs :
  exec e m = Some (m', rs) -> one_flow m ->
  one_flow m' /\ (answers_passkey e = true -> count stages (flights m') < count stages (flights m)).
Proof.
  unfold one_flow. intros H Hf. destruct e; cbn [exec] in H; exec_cases; simplify_eq/=;
    try (match goal with Hl : land _ _ = Some _ |- _ =>
           pose proof (land_count _ _ _ stages Hl) as Hst;
           apply (land_count _ _ _ passkey) in Hl; simpl in Hl, Hst; rewrite Hl in Hf end);
    try done.
  - destruct r as [r|]; simplify_eq/=; [|done]. unfold after_submit in H.
    destruct (refused r); simplify_eq/=; [done|]. by destruct (out_status _ === _); simplify_eq/=.
  - destruct r as [r|]; simplify_eq/=; [|done]. unfold after_mfa in H.
    by destruct (refused r); [|destruct (ok_user _)]; simplify_eq/=.
  - unfold offers_passkey in *. destruct (passkeyBusy (ui m)) eqn:Eb; [by rewrite andb_false_r in *|].
    destruct supported; simplify_eq/=; rewrite ?Eb; split; congruence || lia.
  - destruct r as [r|]; [destruct (_ || _)|]; simplify_eq/=; destruct (passkeyBusy (ui m)); split; lia.
  - destruct (getAssertion get options); simplify_eq/=; destruct (passkeyBusy (ui m)); split; lia.
  - destruct r as [r|]; [unfold after_complete in H; destruct (if response_ok r then _ else _)|];
      simplify_eq/=; destruct (passkeyBusy (ui m)); split; lia.
Qed.

(** C26.  The passkey button cannot hang or double-fire: in every history the
    button is busy exactly while one (and only one) passkey flow is under way,
    and each answer to that flow, good or bad (a rejected request, a cancelled
    prompt), takes it strictly closer to its end, three answers at most,
    after which the button is free again. *)
Theorem login_passkey_released es m rs :
  run es initial = Some (m, rs) ->
  count passkey (flights m) = (if passkeyBusy (ui m) then 1 else 0) /\
  count stages (flights m) <= 3 /\
  (count stages (flights m) = 0 <-> passkeyBusy (ui m) = false) /\
  (forall e m' rs', exec e m = Some (m', rs') -> answers_passkey e = true ->
     count stages (flights m') < count stages (flights m)).
Proof.
  intros Hr. assert (Hf : one_flow m).
  { revert Hr. apply (run_invariant (fun _ m _ => one_flow m)); [done|].
    intros. by eapply exec_busy. }
  split; [exact Hf|].
  assert (Hb : count passkey (flights m) <= count stages (flights m) <= 3 * count passkey (flights m)).
  { clear. induction (flights m) as [|f l IH]; simpl; [lia|]. destruct f; simpl in *; lia. }
  unfold one_flow in Hf. split; [destruct (passkeyBusy (ui m)); lia|].
  split; [destruct (passkeyBusy (ui m)); split; intros; [lia|done|done|lia]|].
  intros e m' rs' He. by apply (exec_busy _ _ _ _ He).
Qed.

Lemma login_passkey_released_witness :
  exists m rs, run (take 4 demo ++ [EPasskey true]) initial = Some (m, rs) /\
    count passkey (flights m) = 1 /\ passkeyBusy (ui m) = true.
Proof.
  eexists _, _. split; [vm_compute; reflexivity|]. split; [|reflexivity].
  refine (proj1 (login_passkey_released (take 4 demo ++ [EPasskey true]) _ _ _)).
  vm_compute. reflexivity.
Defined.
