(* ===== verification/Requests.v ===== *)
(** * Every request of the console, and its CSRF header

    The requests come from the hooks ([HookFamily]), from the paginated
    timelines, from the registration of a passkey ([security/mfaHooks.ts],
    [useAddPasskey]), from the login page ([Login]) and from the log-out of the
    shell ([Session.Shell]); they are checked against the backend's
    [enforce_csrf] ([Access.Deps]). *)
From S2P Require Import Prelude Json Http WebAuthn Hooks TenantHooks PlatformHooks HookFamily Session Access Login.
From Stdlib Require Import ZArith.
Import Access.Deps.

(** The requests that call sites of the console send; [token] is what
    [csrfToken()] returns where a call site reads it itself. *)
Inductive sent_by (token : string) : request -> Prop :=
| by_query now q : sent_by token (q_request (query_of now q))
| by_reliability_page t d cursor : sent_by token (q_request (Windows.useReliabilityEvents t d cursor))
| by_config_audit_page t d cursor : sent_by token (q_request (Windows.useConfigAuditEvents t d cursor))
| by_mutation m : sent_by token (m_request (mutation_of token m))
| by_passkey server create password name rq :
    rq ∈ (Mfa.useAddPasskey server create password name).1 -> sent_by token rq
| by_login m e m' rs rq : Login.exec e m = Some (m', rs) -> rq ∈ rs -> sent_by token rq
| by_logout : sent_by token Session.Shell.logout_request.

(** What must hold of a request: it goes through the shared client, or changes
    nothing, or carries the header itself. *)
Definition carries (token : string) (rq : request) : Prop :=
  match rq_channel rq with
  | ViaClient => True
  | ViaFetch headers => mutating rq = true -> assoc csrf_header headers = Some token
  end.

Lemma query_carries now q : rq_channel (q_request (query_of now q)) = ViaClient.
Proof. by destruct q. Qed.

Lemma mutation_carries token m : carries token (m_request (mutation_of token m)).
Proof. destruct m; try exact I; done. Qed.

Lemma passkey_carries server create password name rq :
  rq ∈ (Mfa.useAddPasskey server create password name).1 -> rq_channel rq = ViaClient.
Proof.
  unfold Mfa.useAddPasskey. destruct (_ || _); [intros H; by apply list_elem_of_singleton in H as ->|].
  destruct (Client.createCredential _ _); simpl; intros H;
    repeat (apply elem_of_cons in H as [-> | H]; [done|]); by apply not_elem_of_nil in H.
Qed.

Lemma login_carries m e m' rs rq : Login.exec e m = Some (m', rs) -> rq ∈ rs -> rq_channel rq = ViaClient.
Proof.
  intros H Hin. destruct e; cbn [Login.exec] in H; Login.exec_cases; subst; try (by apply not_elem_of_nil in Hin);
    try (by apply list_elem_of_singleton in Hin as ->); simplify_eq/=;
    repeat (case_match; simplify_eq/=; try (by apply not_elem_of_nil in Hin); try (by apply list_elem_of_singleton in Hin as ->)).
Qed.

Lemma sent_carries token rq : sent_by token rq -> carries token rq.
Proof.
  intros []; unfold carries.
  - by rewrite query_carries.
  - exact I.
  - exact I.
  - apply mutation_carries.
  - by erewrite passkey_carries.
  - by erewrite login_carries.
  - exact I.
Qed.

Lemma header_sent cookie token rq headers :
  csrfToken cookie = Returned token -> carries token rq -> mutating rq = true ->
  sent_headers cookie rq = Returned headers -> assoc csrf_header headers = Some token.
Proof.
  intros Ht. unfold carries, sent_headers. destruct (rq_channel rq).
  - intros _ Hm. unfold csrfMiddleware. rewrite Hm, Ht. intros H. cbn in H. by injection H as <-.
  - intros Hc Hm [= <-]. by apply Hc.
Qed.

Lemma headers_known cookie token rq :
  csrfToken cookie = Returned token -> exists headers, sent_headers cookie rq = Returned headers.
Proof.
  intros Ht. unfold sent_headers, csrfMiddleware. destruct (rq_channel rq); [|by eexists].
  destruct (mutating rq); [rewrite Ht; by eexists|by eexists].
Qed.

(** C4.  CSRF protection is complete.  With a readable token, every request a
    call site of the console sends (every query, every page of a timeline,
    every mutation with its direct uploads, report generations and downloads,
    both requests of a passkey registration, those of the login page and the
    log-out) leaves; if its method changes state it carries the token in the
    CSRF header; and the backend's check of it against a session with that
    token, when not empty, passes.  No query changes state. *)
Theorem csrf_header_always_sent cookie token :
  csrfToken cookie = Returned token ->
  (forall rq, sent_by token rq ->
     exists headers, sent_headers cookie rq = Returned headers /\
       (mutating rq = true -> assoc csrf_header headers = Some token) /\
       (forall s, s_csrf s = token -> token <> "" ->
          enforce_csrf (method_name (rq_method rq)) (assoc csrf_header headers) s = Returned ())) /\
  (forall now q, mutating (q_request (query_of now q)) = false).
Proof.
  intros Ht. split; [|intros now q; by destruct q]. intros rq Hrq. apply sent_carries in Hrq.
  destruct (headers_known cookie token rq Ht) as [hs Hhs]. exists hs. split; [done|].
  assert (Hh : mutating rq = true -> assoc csrf_header hs = Some token) by (intros; by eapply header_sent).
  split; [exact Hh|]. intros s Hs Hne. unfold enforce_csrf. unfold mutating in Hh. case_bool_decide as Hm.
  - rewrite Hh by done. rewrite Hs, bool_decide_refl. unfold present.
    rewrite (bool_decide_false (token = "")) by exact Hne. by case_bool_decide.
  - case_bool_decide; [contradiction|done].
Qed.

Lemma csrf_header_always_sent_witness :
  csrfToken "s=1; opngms_csrf=abc" = Returned "abc" /\
  exists hs, sent_headers "s=1; opngms_csrf=abc"
               (m_request (mutation_of "abc" (MUploadLogo (Some "t") "" "logo.png"))) = Returned hs /\
             assoc csrf_header hs = Some "abc".
Proof.
  assert (H : csrfToken "s=1; opngms_csrf=abc" = Returned "abc") by (vm_compute; reflexivity).
  split; [exact H|].
  destruct (proj1 (csrf_header_always_sent _ _ H) _ (by_mutation "abc" (MUploadLogo (Some "t") "" "logo.png")))
    as (hs & Hs & Hc & _).
  exists hs. split; [exact Hs|exact (Hc eq_refl)].
Defined.
