(* ===== verification/Console.v ===== *)
(** * The console as a whole: hooks, cache, tenants and sessions over time

    The other files speak about one hook or one page.  Here all hooks run
    together on one query cache, as [main.tsx] mounts them: queries are
    requested, again and again, by the components on screen; answers land in
    any order; mutations are sent and settled in between; the user switches
    the tenant ([tenant/TenantProvider.tsx]), signs in ([auth/AuthProvider.tsx])
    and logs out ([components/AppShell.tsx]).  The theorems relate what a
    component reads from the cache to the events that put it there. *)
From S2P Require Import Prelude Json Http QueryClient Hooks TenantHooks PlatformHooks HookFamily HookRefresh Session Machine.
From Stdlib Require Import ZArith.

(** ** Keys *)

(** The key of a hook does not depend on the time its query runs. *)
Definition hook_key (h : query_hook) : key := q_key (query_of 0 h).
Definition hook_hash (h : query_hook) : list json := key_hash (hook_key h).

Lemma key_timeless now h : q_key (query_of now h) = hook_key h.
Proof. by destruct h. Qed.

Lemma same_hash_same_request now h h' :
  hook_hash h = hook_hash h' -> q_request (query_of now h) = q_request (query_of now h').
Proof. unfold hook_hash. rewrite <- (key_timeless now h), <- (key_timeless now h'). intros E. by apply coherent_hooks. Qed.

#[local] Arguments kn : simpl never.
#[local] Arguments ku : simpl never.
Lemma same_hash_same_key h h' : hook_hash h = hook_hash h' -> hook_key h = hook_key h'.
Proof.
  unfold hook_hash, hook_key. intros Hk.
  destruct h; destruct h'; try discriminate Hk; open_key Hk; try done; simpl; congruence.
Qed.

(** The effect writes data itself. *)
Definition stores (e : effect) : bool := match e with SetData _ _ => true | _ => false end.

(** The keys whose entries something other than a query writes. *)
Definition stored_keys : list key :=
  [Admin.smtpKey; Admin.livePushKey; Admin.runtimeSettingsKey; Mfa.mfaPolicyKey; [ks "me"]].

Lemma stored_keys_only token m w k v : SetData k v ∈ m_success (mutation_of token m) w -> k ∈ stored_keys.
Proof.
  destruct m; simpl; intros Hin;
    repeat (apply elem_of_cons in Hin as [E|Hin]; [simplify_eq; unfold stored_keys; set_solver|]);
    by apply not_elem_of_nil in Hin.
Qed.

Lemma stored_keys_unscoped k h t : k ∈ stored_keys -> scope h = Some t -> key_hash k <> hook_hash h.
Proof.
  intros Hk Hs. repeat (apply elem_of_cons in Hk as [-> | Hk]; [by destruct h|]). by apply not_elem_of_nil in Hk.
Qed.

(** The effect makes what is cached under [k] obsolete. *)
Definition obsoletes (k : key) (e : effect) : bool :=
  match e with
  | Invalidate k0 => key_matches k0 k
  | RefreshMe => key_matches [ks "me"] k
  | ClearCache => true
  | _ => false
  end.

Lemma obsolete_reads self token m v h :
  stores_answer m = false -> shows self m h -> missed m h = false ->
  existsb (obsoletes (hook_key h)) (m_success (mutation_of token m) v) = true.
Proof.
  intros Hs Hh Hm. pose proof (renewed self token 0 m v h Hh Hm) as Hr.
  apply existsb_exists in Hr as (e & Hin & He). apply existsb_exists. exists e. split; [done|].
  destruct e as [k|k w| | | |]; try done. exfalso. apply list_elem_of_In in Hin.
  destruct m; try discriminate Hs; simpl in Hin;
    repeat (apply elem_of_cons in Hin as [E|Hin]; [discriminate E|]); by apply not_elem_of_nil in Hin.
Qed.

(** A hook that stores the answer stores it for the query that shows it. *)
Lemma stores_for self token m v h :
  stores_answer m = true -> shows self m h -> m_success (mutation_of token m) v = [SetData (hook_key h) v].
Proof.
  intros Hs (r & Hw & Hl). destruct m; try discriminate Hs; cbn [resources_written] in Hw;
    apply list_elem_of_singleton in Hw as ->; destruct h; cbn [resources_read] in Hl;
    repeat match type of Hl with _ ∈ match ?o with Some _ => _ | None => _ end => destruct o end;
    repeat (apply elem_of_cons in Hl as [[=]|Hl]); try (by apply not_elem_of_nil in Hl); reflexivity.
Qed.

Lemma stores_nothing token m v :
  stores_answer m = false -> Forall (fun e => stores e = false) (m_success (mutation_of token m) v).
Proof. intros Hs. destruct m; try discriminate Hs; simpl; repeat constructor. Qed.

(** ** The machine *)
#[export] Instance AuditFilters_eq_dec : EqDecision Audit.AuditFilters.
Proof. solve_decision. Defined.
#[export] Instance range_eq_dec : EqDecision Time.Range.range.
Proof. solve_decision. Defined.
#[export] Instance PerimeterKind_eq_dec : EqDecision Windows.PerimeterKind.
Proof. solve_decision. Defined.
#[export] Instance query_hook_eq_dec : EqDecision query_hook.
Proof. solve_decision. Defined.

(** A query under way, and a mutation under way; they are named by the
    position of their event in the history. *)
Record flight := Flight { fl_id : nat; fl_hook : query_hook; fl_now : Z }.
Record write := Write { wr_id : nat; wr_hook : mutation_hook; wr_token : string }.
Definition fl_hash (fl : flight) : list json := hook_hash (fl_hook fl).

Record console (C : Type) := Console {
  cache : C;
  activeId : option string;
  mounted : list query_hook;           (* the hooks of the components on screen *)
  flights : list flight;
  writes : list write;
  leaving : nat;                       (* logouts under way *)
  clock : nat;
}.
Arguments Console {C}.
Arguments cache {C}. Arguments activeId {C}. Arguments mounted {C}. Arguments flights {C}.
Arguments writes {C}. Arguments leaving {C}. Arguments clock {C}.

Inductive event :=
| Switch (t : option string)
| Mount (h : query_hook)
| Unmount (h : query_hook)
| Fetch (h : query_hook) (now : Z)
| Landed (id : nat) (r : fetch_result)
| Send (m : mutation_hook) (token : string)
| Settled (id : nat) (r : fetch_result)
| SignIn (me : json)
| Logout
| LoggedOut.

Definition in_scope (o t : option (option string)) : bool :=
  match o with Some _ => bool_decide (o = t) | None => true end.

(** The drift check is never enabled; a button of the changes panel calls its
    [refetch]. *)
Definition on_demand (h : query_hook) : bool := match h with QDriftCheck _ _ => true | _ => false end.

Section machine.
Context {C : Type} `{Cache C}.

(** [cancels k c k']: invalidating the filter [k] cancels the request under way
    for the key [k'], which a component on screen observes
    ([cancelRefetch] of [invalidateQueries]). *)
Context (cancels : key -> C -> key -> bool).

Definition observed (s : console C) (h : query_hook) : bool :=
  existsb (fun g => bool_decide (hook_hash g = hook_hash h)) (mounted s).
Definition cancelled (k : key) (s : console C) (fl : flight) : bool :=
  observed s (fl_hook fl) && cancels k (cache s) (hook_key (fl_hook fl)).

(** An effect acts on the cache and on the queries under way; [clear] drops
    them all. *)
Definition surviving (e : effect) (s : console C) : list flight :=
  match e with
  | Invalidate k => filter (fun fl => cancelled k s fl = false) (flights s)
  | RefreshMe => filter (fun fl => cancelled [ks "me"] s fl = false) (flights s)
  | ClearCache => []
  | SetData _ _ | Navigate _ | SaveFile _ => flights s
  end.
Definition effect_step (s : console C) (e : effect) : console C :=
  Console (apply_effect e (cache s)) (activeId s) (mounted s) (surviving e s) (writes s) (leaving s) (clock s).
Definition run_effects (es : list effect) (s : console C) : console C := fold_left effect_step es s.

Definition with_mounted (l : list query_hook) (s : console C) : console C :=
  Console (cache s) (activeId s) l (flights s) (writes s) (leaving s) (clock s).
Definition with_flights (l : list flight) (s : console C) : console C :=
  Console (cache s) (activeId s) (mounted s) l (writes s) (leaving s) (clock s).
Definition with_writes (l : list write) (s : console C) : console C :=
  Console (cache s) (activeId s) (mounted s) (flights s) l (leaving s) (clock s).
Definition with_cache (c : C) (s : console C) : console C :=
  Console c (activeId s) (mounted s) (flights s) (writes s) (leaving s) (clock s).
Definition tick (s : console C) : console C :=
  Console (cache s) (activeId s) (mounted s) (flights s) (writes s) (leaving s) (S (clock s)).

Definition flight_of (id : nat) (s : console C) : option flight :=
  List.find (fun fl => fl_id fl =? id) (flights s).
Definition write_of (id : nat) (s : console C) : option write :=
  List.find (fun w => wr_id w =? id) (writes s).
Definition land (id : nat) (s : console C) : console C :=
  with_flights (filter (fun fl => fl_id fl <> id) (flights s)) s.

(** [logout] of the shell: whatever is answered, the session ends here. *)
Definition logout_request : request := send_ POST "/api/logout" [] NoBody.
Definition logout_effects : list effect := [ClearCache; RefreshMe; Navigate "/login"].

Definition handle (e : event) (s : console C) : option (console C * list request) :=
  match e with
  | Switch t =>
      (** hooks read the active tenant: those of the other one are gone *)
      Some (Console (cache s) t (filter (fun h => in_scope (scope h) (Some t) = true) (mounted s))
              (flights s) (writes s) (leaving s) (clock s), [])
  | Mount h =>
      if in_scope (scope h) (Some (activeId s)) then Some (with_mounted (h :: mounted s) s, []) else None
  | Unmount h => Some (with_mounted (filter (fun g => hook_hash g <> hook_hash h) (mounted s)) s, [])
  | Fetch h now =>
      if bool_decide (h ∈ mounted s) && (q_enabled (query_of now h) || on_demand h)
         && forallb (fun fl => negb (bool_decide (fl_hash fl = hook_hash h))) (flights s)
      then Some (with_flights (flights s ++ [Flight (clock s) h now]) s, [q_request (query_of now h)]) else None
  | Landed id r =>
      fl ← flight_of id s;
      Some (match q_fn (query_of (fl_now fl) (fl_hook fl)) r with
            | Returned (Some v) => with_cache (setQueryData (hook_key (fl_hook fl)) (Some v) (cache s)) (land id s)
            | _ => land id s                 (* [undefined] is a failure to React Query *)
            end, [])
  | Send m token =>
      if in_scope (mutation_scope m) (Some (activeId s))
      then Some (with_writes (writes s ++ [Write (clock s) m token]) s, [m_request (mutation_of token m)]) else None
  | Settled id r =>
      w ← write_of id s;
      let s := with_writes (filter (fun w => wr_id w <> id) (writes s)) s in
      Some (match m_fn (mutation_of (wr_token w) (wr_hook w)) r with
            | Returned v => run_effects (m_success (mutation_of (wr_token w) (wr_hook w)) v) s
            | Threw _ => s
            end, [])
  | SignIn me => Some (effect_step s (Auth.setMe me), [])
  | Logout =>
      Some (Console (cache s) (activeId s) (mounted s) (flights s) (writes s) (S (leaving s)) (clock s), [logout_request])
  | LoggedOut =>
      match leaving s with
      | 0 => None
      | S n => Some (run_effects logout_effects
                 (Console (cache s) (activeId s) (mounted s) (flights s) (writes s) n (clock s)), [])
      end
  end.
Definition exec (e : event) (s : console C) : option (console C * list request) :=
  '(s1, rs) ← handle e s; Some (tick s1, rs).
Definition run := Machine.run exec.
Definition initial (c : C) : console C := Console (clear c) None [] [] [] 0 0.

(** What a component reads. *)
Definition on_screen (s : console C) (h : query_hook) (d : json) : Prop :=
  h ∈ mounted s /\ exists e, cache_get (cache s) (hook_key h) = Some e /\ e_data e = Some d.
End machine.

(** ** Where data come from *)

(** The data [v] under the serialised key [k]: what a query made of its answer,
    requested at [lo] or later; or what a mutation stored, or the user who
    signed in, at [lo] or later.  Positions are those of the events in [es]. *)
Inductive origin (es : list event) (lo : nat) (k : list json) : option json -> Prop :=
| by_answer q p r h now v :
    lo <= q -> q < p -> es !! q = Some (Fetch h now) -> es !! p = Some (Landed q r) ->
    hook_hash h = k -> q_fn (query_of now h) r = Returned v -> origin es lo k v
| by_write q p r m token w key v :
    lo <= p -> q < p -> es !! q = Some (Send m token) -> es !! p = Some (Settled q r) ->
    m_fn (mutation_of token m) r = Returned w -> SetData key v ∈ m_success (mutation_of token m) w ->
    key_hash key = k -> origin es lo k v
| by_signing_in p me :
    lo <= p -> es !! p = Some (SignIn me) -> key_hash [ks "me"] = k -> origin es lo k (Some me).

Lemma origin_snoc es e lo k v : origin es lo k v -> origin (es ++ [e]) lo k v.
Proof. destruct 1; [eapply by_answer|eapply by_write|eapply by_signing_in]; eauto using lookup_app_l_Some. Qed.

Section claims.
Context {C : Type} `{CacheLaws C} (cancels : key -> C -> key -> bool).
Local Notation exec := (exec cancels).
Local Notation run := (run cancels).

(** Requests under way are named after the events that sent them. *)
Definition grounded (es : list event) (s : console C) : Prop :=
  clock s = length es /\
  Forall (fun fl => es !! fl_id fl = Some (Fetch (fl_hook fl) (fl_now fl))) (flights s) /\
  Forall (fun w => es !! wr_id w = Some (Send (wr_hook w) (wr_token w))) (writes s) /\
  Forall (fun h => in_scope (scope h) (Some (activeId s)) = true) (mounted s).

(** What is cached or under way for the keys in [K] was requested at [lo] or
    later; with [stale], up to entries marked for refetch. *)
Definition traced (stale : bool) (lo : nat) (K : list json -> Prop) (es : list event) (s : console C) : Prop :=
  (forall fl, fl ∈ flights s -> K (fl_hash fl) -> lo <= fl_id fl) /\
  (forall k e, K (key_hash k) -> cache_get (cache s) k = Some e ->
     (stale = true /\ e_stale e = true) \/ origin es lo (key_hash k) (e_data e)).

Lemma traced_snoc stale lo K es e s : traced stale lo K es s -> traced stale lo K (es ++ [e]) s.
Proof using Type. intros [Hf Hc]. split; [done|]. intros k x Hk Hx. destruct (Hc k x Hk Hx); eauto using origin_snoc. Qed.

Lemma surviving_subset e (s : console C) fl : fl ∈ surviving cancels e s -> fl ∈ flights s.
Proof using Type.
  destruct e; cbn [surviving]; rewrite ?list_elem_of_filter; try tauto. by intros ?%not_elem_of_nil.
Qed.

Lemma traced_marked stale lo K es s k0 k e :
  traced stale lo K es s -> K (key_hash k) -> cache_get (invalidateQueries k0 (cache s)) k = Some e ->
  (stale = true /\ e_stale e = true) \/ origin es lo (key_hash k) (e_data e).
Proof using All.
  intros [_ Hc] Hk. destruct (invalidate_either (cache s) k0 k) as [-> | ->]; [by apply Hc|].
  destruct (cache_get (cache s) k) as [x|] eqn:E; [|done]. intros [= <-]. cbn [e_stale e_data mark_stale].
  destruct (Hc k x Hk E) as [[-> _]|]; auto.
Qed.

Lemma traced_set lo stale K es s k v :
  traced stale lo K es s -> (K (key_hash k) -> origin es lo (key_hash k) v) ->
  forall k' e, K (key_hash k') -> cache_get (setQueryData k v (cache s)) k' = Some e ->
    (stale = true /\ e_stale e = true) \/ origin es lo (key_hash k') (e_data e).
Proof using All.
  intros [_ Hc] Ho k' e Hk. rewrite set_get. case_decide as E; [|by apply Hc].
  intros [= <-]. right. rewrite <- E in *. by apply Ho.
Qed.

Lemma effect_traced stale lo K es e s :
  traced stale lo K es s -> (forall k v, e = SetData k v -> K (key_hash k) -> origin es lo (key_hash k) v) ->
  traced stale lo K es (effect_step cancels s e).
Proof using All.
  intros Ht Ho. split.
  - intros fl Hfl. apply (proj1 Ht). exact (surviving_subset e s fl Hfl).
  - intros k x Hk. cbn [effect_step cache]. destruct e; cbn [apply_effect].
    + by eapply traced_marked.
    + eapply traced_set; eauto.
    + by rewrite clear_get.
    + by eapply traced_marked.
    + by apply (proj2 Ht).
    + by apply (proj2 Ht).
Qed.

Lemma effects_traced stale lo K es effs s :
  traced stale lo K es s -> (forall k v, SetData k v ∈ effs -> K (key_hash k) -> origin es lo (key_hash k) v) ->
  traced stale lo K es (run_effects cancels effs s).
Proof using All.
  revert s. induction effs as [|e effs IH]; intros s Ht Ho; [done|]. apply (IH (effect_step cancels s e)).
  - apply effect_traced; [done|]. intros k v ->. apply Ho. left.
  - intros k v Hin. apply Ho. by right.
Qed.

Lemma find_elem {A} (f : A -> bool) l x : List.find f l = Some x -> x ∈ l /\ f x = true.
Proof using Type. intros E. apply find_some in E as [Hin E]. by apply list_elem_of_In in Hin. Qed.

Lemma run_effects_fields effs (s : console C) :
  clock (run_effects cancels effs s) = clock s /\ writes (run_effects cancels effs s) = writes s /\
  mounted (run_effects cancels effs s) = mounted s /\ activeId (run_effects cancels effs s) = activeId s /\
  leaving (run_effects cancels effs s) = leaving s /\
  (forall fl, fl ∈ flights (run_effects cancels effs s) -> fl ∈ flights s).
Proof using Type.
  revert s. induction effs as [|e effs IH]; intros s; [by split_and!|].
  change (run_effects cancels (e :: effs) s) with (run_effects cancels effs (effect_step cancels s e)).
  destruct (IH (effect_step cancels s e)) as (-> & -> & -> & -> & -> & Hf). split_and!; try done.
  intros fl Hfl. apply (surviving_subset e). exact (Hf fl Hfl).
Qed.

(** A step keeps requests grounded when the new ones carry its position. *)
Lemma grounded_step es e s s1 :
  grounded es s -> clock s1 = clock s ->
  (forall fl, fl ∈ flights s1 -> fl ∈ flights s \/ fl_id fl = clock s /\ e = Fetch (fl_hook fl) (fl_now fl)) ->
  (forall w, w ∈ writes s1 -> w ∈ writes s \/ wr_id w = clock s /\ e = Send (wr_hook w) (wr_token w)) ->
  (forall h, h ∈ mounted s1 -> in_scope (scope h) (Some (activeId s1)) = true) ->
  grounded (es ++ [e]) (tick s1).
Proof using Type.
  intros (Hc & Hf & Hw & Hm) Hc1 Hf1 Hw1 Hm1.
  assert (Hn : forall x, e = x -> (es ++ [e]) !! clock s = Some x) by (intros x <-; rewrite Hc; by apply list_lookup_middle).
  split_and!; cbn [tick clock flights writes mounted activeId].
  - rewrite Hc1, Hc, length_app. simpl. lia.
  - apply list.Forall_forall. intros fl Hfl. destruct (Hf1 fl Hfl) as [Hfl'|[-> He]]; [|by apply Hn].
    apply lookup_app_l_Some. by apply (proj1 (list.Forall_forall _ _) Hf).
  - apply list.Forall_forall. intros w Hwl. destruct (Hw1 w Hwl) as [Hw'|[-> He]]; [|by apply Hn].
    apply lookup_app_l_Some. by apply (proj1 (list.Forall_forall _ _) Hw).
  - by apply list.Forall_forall.
Qed.

Ltac handle_cases Hh s e :=
  destruct e as [t|h|h|h now|id r|m tok|id r|me| |]; cbn [handle] in Hh;
  try (destruct (in_scope _ _) eqn:Hsc in Hh; [|done]);
  try (destruct (_ && _) eqn:Hok in Hh; [|done]);
  try (destruct (flight_of id s) as [fl0|] eqn:Hfl0; [|done]; simpl in Hh; destruct (q_fn _ r) as [[v|]|] eqn:Hq in Hh);
  try (destruct (write_of id s) as [w0|] eqn:Hw0; [|done]; simpl in Hh; destruct (m_fn _ r) as [v|] eqn:Hmf in Hh);
  try (destruct (leaving s) as [|n] eqn:Hlv; [done|]);
  injection Hh as <- <-.

Ltac effects_fields :=
  try match goal with
      | |- context [run_effects cancels ?f ?st] =>
          destruct (run_effects_fields f st) as (-> & -> & -> & -> & _ & ?)
      end.

Lemma handle_fields e s s1 rs :
  handle cancels e s = Some (s1, rs) -> (forall h, h ∈ mounted s -> in_scope (scope h) (Some (activeId s)) = true) ->
  clock s1 = clock s /\
  (forall w, w ∈ writes s1 -> w ∈ writes s \/ wr_id w = clock s /\ e = Send (wr_hook w) (wr_token w)) /\
  (forall h, h ∈ mounted s1 -> in_scope (scope h) (Some (activeId s1)) = true) /\
  (forall fl, fl ∈ flights s1 -> fl ∈ flights s \/ fl_id fl = clock s /\ e = Fetch (fl_hook fl) (fl_now fl)).
Proof using Type.
  intros Hh Hm. handle_cases Hh s e; effects_fields; split_and!; try done;
    cbn [mounted writes flights activeId with_mounted with_flights with_writes with_cache land effect_step surviving Auth.setMe];
    intros x; rewrite ?list_elem_of_filter, ?elem_of_app, ?elem_of_cons, ?elem_of_nil; naive_solver.
Qed.

Lemma exec_grounded es e s s' rs :
  grounded es s -> exec e s = Some (s', rs) -> grounded (es ++ [e]) s'.
Proof using Type.
  intros Hg Hx. unfold Console.exec in Hx.
  destruct (handle cancels e s) as [[s1 rs1]|] eqn:Hh; [|done]. simpl in Hx. simplify_eq.
  pose proof Hg as (_ & _ & _ & Hm).
  destruct (handle_fields e s s1 rs Hh (proj1 (list.Forall_forall _ _) Hm)) as (? & ? & ? & ?).
  by apply grounded_step with s.
Qed.

Lemma traced_sub stale lo K es s s1 :
  traced stale lo K es s -> cache s1 = cache s -> (forall fl, fl ∈ flights s1 -> fl ∈ flights s) -> traced stale lo K es s1.
Proof using Type. intros [Hf Hc] E Hs. split; [by eauto|]. by rewrite E. Qed.

Lemma flight_grounded es s id fl :
  grounded es s -> flight_of id s = Some fl ->
  fl ∈ flights s /\ fl_id fl = id /\ es !! id = Some (Fetch (fl_hook fl) (fl_now fl)).
Proof using Type.
  intros (_ & Hf & _) Hfl. destruct (find_elem _ _ _ Hfl) as [Hin Hid]. apply Nat.eqb_eq in Hid as <-.
  split_and!; [done..|]. by apply (proj1 (list.Forall_forall _ _) Hf).
Qed.

Lemma write_grounded es s id w :
  grounded es s -> write_of id s = Some w -> es !! id = Some (Send (wr_hook w) (wr_token w)).
Proof using Type.
  intros (_ & _ & Hw & _) Hwr. destruct (find_elem _ _ _ Hwr) as [Hin Hid]. apply Nat.eqb_eq in Hid as <-.
  by apply (proj1 (list.Forall_forall _ _) Hw).
Qed.

Lemma answer_traced stale lo K es s id r fl v :
  grounded es s -> traced stale lo K es s -> flight_of id s = Some fl ->
  q_fn (query_of (fl_now fl) (fl_hook fl)) r = Returned v ->
  traced stale lo K (es ++ [Landed id r]) (with_cache (setQueryData (hook_key (fl_hook fl)) v (cache s)) (land id s)).
Proof using All.
  intros Hg Ht Hfl Hq. destruct (flight_grounded es s id fl Hg Hfl) as (Hin & <- & Hes).
  pose proof (traced_snoc _ _ _ _ (Landed (fl_id fl) r) _ Ht) as Ht'. split.
  - intros x [_ Hx]%list_elem_of_filter. by apply Ht.
  - cbn [with_cache cache]. eapply traced_set; [done|]. intros Hk.
    apply by_answer with (fl_id fl) (length es) r (fl_hook fl) (fl_now fl); [| | | |done|done].
    + by apply (proj1 Ht).
    + by eapply lookup_lt_Some.
    + by apply lookup_app_l_Some.
    + by apply list_lookup_middle.
Qed.

Lemma write_traced stale lo K es s id r w v s1 :
  grounded es s -> lo <= length es -> write_of id s = Some w ->
  m_fn (mutation_of (wr_token w) (wr_hook w)) r = Returned v ->
  traced stale lo K (es ++ [Settled id r]) s1 ->
  traced stale lo K (es ++ [Settled id r]) (run_effects cancels (m_success (mutation_of (wr_token w) (wr_hook w)) v) s1).
Proof using All.
  intros Hg Hlo Hw Hm Ht. pose proof (write_grounded es s id w Hg Hw) as Hes.
  apply effects_traced; [done|]. intros k x Hin _.
  apply by_write with id (length es) r (wr_hook w) (wr_token w) v k; try done.
  - by eapply lookup_lt_Some.
  - by apply lookup_app_l_Some.
  - by apply list_lookup_middle.
Qed.

Lemma exec_traced stale lo K es e s s' rs :
  grounded es s -> lo <= length es -> exec e s = Some (s', rs) ->
  traced stale lo K es s -> traced stale lo K (es ++ [e]) s'.
Proof using All.
  intros Hg Hlo Hx Ht. unfold Console.exec in Hx.
  destruct (handle cancels e s) as [[s1 rs1]|] eqn:Hh; [|done]. simpl in Hx. simplify_eq.
  pose proof (traced_snoc _ _ _ _ e _ Ht) as Ht'. apply traced_sub with s1; [|done|done].
  handle_cases Hh s e; try (by apply traced_sub with s).
  - split; [|apply Ht']. intros fl [Hfl|Hfl]%elem_of_app Hk; [by apply Ht|].
    apply list_elem_of_singleton in Hfl as ->. simpl. destruct Hg as (-> & _). done.
  - by apply answer_traced.
  - apply traced_sub with s; [done..|]. by intros fl [_ ?]%list_elem_of_filter.
  - apply traced_sub with s; [done..|]. by intros fl [_ ?]%list_elem_of_filter.
  - apply write_traced with s; [done..|]. by apply traced_sub with s.
  - apply effect_traced; [done|]. intros k v [= <- <-] Hk.
    apply by_signing_in with (length es); [done| |done]. by apply list_lookup_middle.
  - apply (effects_traced _ _ _ _ logout_effects (Console _ _ _ _ _ n _)); [by apply traced_sub with s|].
    intros k v Hin. unfold logout_effects in Hin. set_solver.
Qed.

Lemma run_traced stale lo K es0 es s s' rs :
  run es s = Some (s', rs) -> grounded es0 s -> lo <= length es0 -> traced stale lo K es0 s ->
  grounded (es0 ++ es) s' /\ traced stale lo K (es0 ++ es) s'.
Proof using All.
  revert es0 s rs. induction es as [|e es IH]; intros es0 s rs Hr Hg Hlo Ht.
  - simpl in Hr. simplify_eq. by rewrite app_nil_r.
  - apply Machine.run_cons in Hr as (s1 & r1 & r2 & Hx & Hr & ->).
    rewrite (cons_middle e es0 es), (app_assoc es0 [e] es). eapply IH; [done| | |].
    + by eapply exec_grounded.
    + rewrite length_app. lia.
    + by eapply exec_traced.
Qed.

Lemma initial_traced lo K c : grounded [] (initial c) /\ traced false lo K [] (initial c).
Proof using All.
  split; [by split_and!|]. split; [by intros fl Hfl%not_elem_of_nil|].
  intros k e _. cbn [initial cache]. by rewrite clear_get.
Qed.

(** *** After a logout *)
Lemma logout_traced lo K es s s' rs :
  exec LoggedOut s = Some (s', rs) -> traced false lo K es s'.
Proof using All.
  intros Hx. unfold Console.exec in Hx. cbn [handle] in Hx. destruct (leaving s) as [|n]; [done|].
  simpl in Hx. simplify_eq. split.
  - intros fl Hfl. exfalso. cbn [tick flights effect_step surviving] in Hfl.
    apply list_elem_of_filter in Hfl as [_ Hfl]. by apply not_elem_of_nil in Hfl.
  - intros k e _. cbn [tick cache effect_step apply_effect].
    destruct (invalidate_either (clear (cache s)) [ks "me"] k) as [-> | ->]; by rewrite clear_get.
Qed.

(** A run, cut at one of its events. *)
Lemma run_at es s s' rs n e :
  run es s = Some (s', rs) -> es !! n = Some e ->
  exists s1 r1 s2 r2 r3, run (take n es) s = Some (s1, r1) /\ exec e s1 = Some (s2, r2) /\
    run (drop (S n) es) s2 = Some (s', r3).
Proof using Type.
  intros Hr He. rewrite <- (take_drop_middle es n e He) in Hr.
  apply Machine.run_app in Hr as (s1 & r1 & r23 & H1 & Hr & ->).
  apply Machine.run_cons in Hr as (s2 & r2 & r3 & H2 & H3 & ->). by exists s1, r1, s2, r2, r3.
Qed.

Lemma take_snoc {A} (es : list A) n e : es !! n = Some e -> take n es ++ [e] = take (S n) es.
Proof using Type. intros He. by rewrite (take_S_r _ _ _ He). Qed.

(** What is traced after one event stays traced. *)
Lemma traced_from stale lo K c es n e s s1 r1 s2 r2 r3 :
  es !! n = Some e -> run (take n es) (initial c) = Some (s1, r1) -> exec e s1 = Some (s2, r2) ->
  run (drop (S n) es) s2 = Some (s, r3) -> lo <= S n -> traced stale lo K (take (S n) es) s2 ->
  traced stale lo K es s.
Proof using All.
  intros He H1 H2 H3 Hlo Ht. destruct (initial_traced 0 K c) as [Hg0 Ht0].
  destruct (run_traced _ _ _ _ _ _ _ _ H1 Hg0 (Nat.le_0_l _) Ht0) as [Hg1 _]. simpl in Hg1.
  pose proof (exec_grounded _ _ _ _ _ Hg1 H2) as Hg2. rewrite (take_snoc es n e He) in Hg2.
  assert (Hlen : lo <= length (take (S n) es)).
  { apply lookup_lt_Some in He. rewrite length_take. lia. }
  destruct (run_traced _ _ _ _ _ _ _ _ H3 Hg2 Hlen Ht) as [_ Hx]. by rewrite take_drop in Hx.
Qed.

Lemma origin_since_logout c es s rs h d lo :
  run es (initial c) = Some (s, rs) -> on_screen s h d -> lo = 0 \/ es !! lo = Some LoggedOut ->
  origin es lo (hook_hash h) (Some d).
Proof using All.
  intros Hr (_ & e & He & Hd) Hlo.
  assert (Ht : traced false lo (fun _ => True) es s).
  { destruct Hlo as [-> |Hlo].
    - destruct (initial_traced 0 (fun _ => True) c) as [Hg0 Ht0].
      by destruct (run_traced _ _ _ _ _ _ _ _ Hr Hg0 (Nat.le_0_l _) Ht0) as [_ Hx].
    - destruct (run_at _ _ _ _ _ _ Hr Hlo) as (s1 & r1 & s2 & r2 & r3 & H1 & H2 & H3).
      eapply traced_from; try done; [lia|]. by eapply logout_traced. }
  destruct Ht as [_ Hc]. destruct (Hc _ _ I He) as [[? _]|Ho]; [done|]. by rewrite Hd in Ho.
Qed.

(** The query that fetched a datum asked for what the reader asks for. *)
Lemma same_query now h h' r :
  hook_hash h' = hook_hash h ->
  q_request (query_of now h') = q_request (query_of now h) /\
  (answered r = true -> q_fn (query_of now h') r = q_fn (query_of now h) r).
Proof using Type.
  intros E. destruct (coherent_hooks now h' h) as [Hq Hf]; [by rewrite !key_timeless|]. auto.
Qed.
End claims.

(** C2.  What is on screen is what the server said, of this tenant, in this
    session.  In every history of the console, with any interleaving of
    requests, answers, writes and tenant switches: a datum a component reads
    was fetched by a request sent since the last logout, or stored since then
    by a write or the signing in; and a component that shows a tenant's data
    shows the active tenant's: what its own query makes of an answer, landed
    however late, to the very request it would send, addressed to that tenant. *)
Theorem screen_shows_answers {C : Type} `{CacheLaws C} (cancels : key -> C -> key -> bool) c es s rs h d :
  run cancels es (initial c) = Some (s, rs) -> on_screen s h d ->
  (forall n, n = 0 \/ es !! n = Some LoggedOut -> origin es n (hook_hash h) (Some d)) /\
  (forall t, scope h = Some t ->
     t = activeId s /\
     forall n, n = 0 \/ es !! n = Some LoggedOut ->
     exists q p r h' now, n <= q /\ q < p /\ es !! q = Some (Fetch h' now) /\ es !! p = Some (Landed q r) /\
       q_fn (query_of now h') r = Returned (Some d) /\
       q_request (query_of now h') = q_request (query_of now h) /\
       ("tenant_id", t) ∈ rq_params (q_request (query_of now h')) /\
       (answered r = true -> q_fn (query_of now h) r = Returned (Some d))).
Proof.
  intros Hr Hs. split; [intros n; by eapply origin_since_logout|]. intros t Ht. split.
  - destruct (initial_traced cancels 0 (fun _ => True) c) as [Hg0 Ht0].
    destruct (run_traced cancels _ _ _ _ _ _ _ _ Hr Hg0 (Nat.le_0_l _) Ht0) as [(_ & _ & _ & Hm) _].
    pose proof (proj1 (list.Forall_forall _ _) Hm h (proj1 Hs)) as Hin. cbn beta in Hin.
    rewrite Ht in Hin. by apply bool_decide_eq_true in Hin as [= ->].
  - intros n Hn.
    assert (Hno : forall k, k ∈ stored_keys -> key_hash k = hook_hash h -> False)
      by (intros k Hk; by eapply stored_keys_unscoped).
    destruct (origin_since_logout cancels c es s rs h d n Hr Hs Hn)
      as [q p r h' now v Hlo Hqp Hq Hp Hh Hfn|q p r m tok w k v _ _ _ _ _ Hin Hk|p me _ _ Hk].
    + exists q, p, r, h', now. destruct (same_query now h h' r Hh) as [Hreq Hfn'].
      split_and!; try done.
      * rewrite Hreq. by apply scoped_request.
      * intros Ha. by rewrite <- Hfn'.
    + exfalso. apply (Hno k); [by eapply stored_keys_only|done].
    + exfalso. apply (Hno [ks "me"]); [unfold stored_keys; set_solver|done].
Qed.

(** ** Writes are followed by fresh reads *)
Section writes.
Context {C : Type} `{CacheLaws C} (cancels : key -> C -> key -> bool).

(** What react-query documents of [invalidateQueries]: a query with data that
    is being fetched for a component on screen is cancelled before it is
    fetched again. *)
Definition cancels_refetch : Prop :=
  forall k c k' e d, key_matches k k' = true -> cache_get c k' = Some e -> e_data e = Some d -> cancels k c k' = true.
Hypothesis documented : cancels_refetch.
Context (h : query_hook).

Definition idle (s : console C) : Prop := forall fl, fl ∈ flights s -> fl_hash fl <> hook_hash h.
Definition obsolete (s : console C) : Prop :=
  idle s /\ forall e, cache_get (cache s) (hook_key h) = Some e -> e_stale e = true.
(** The hook is on screen with data, or nothing is cached or under way for it. *)
Definition readable (s : console C) : Prop :=
  h ∈ mounted s /\
  ((exists e d, cache_get (cache s) (hook_key h) = Some e /\ e_data e = Some d) \/
   (idle s /\ cache_get (cache s) (hook_key h) = None)).

Lemma effect_readable s e :
  readable s -> stores e = false -> readable (effect_step cancels s e).
Proof using All.
  intros [Hm Hs] He. split; [done|].
  assert (Hmark : forall k, (exists e d, cache_get (invalidateQueries k (cache s)) (hook_key h) = Some e /\ e_data e = Some d) \/
                   (idle s /\ cache_get (invalidateQueries k (cache s)) (hook_key h) = None)).
  { intros k. destruct (invalidate_either (cache s) k (hook_key h)) as [-> | ->]; [done|].
    destruct Hs as [(x & d & -> & Hd)|[Hi ->]]; [left|by right]. by exists (mark_stale x), d. }
  assert (Hi : idle s -> idle (effect_step cancels s e)).
  { intros Hi fl Hfl. apply Hi. exact (surviving_subset cancels e s fl Hfl). }
  destruct e as [k|k v| | | |]; cbn [effect_step cache apply_effect]; try done.
  - destruct (Hmark k) as [?|[? ?]]; auto.
  - right. split; [by intros fl ?%not_elem_of_nil|by rewrite clear_get].
  - destruct (Hmark [ks "me"]) as [?|[? ?]]; auto.
Qed.

Lemma effect_obsolete s e : obsolete s -> stores e = false -> obsolete (effect_step cancels s e).
Proof using All.
  intros [Hi Hs] He. split.
  { intros fl Hfl. apply Hi. exact (surviving_subset cancels e s fl Hfl). }
  intros x. destruct e as [k|k v| | | |]; cbn [effect_step cache apply_effect]; try done; try (by apply Hs).
  - destruct (invalidate_either (cache s) k (hook_key h)) as [-> | ->]; [by apply Hs|].
    destruct (cache_get _ _); [|done]. by intros [= <-].
  - by rewrite clear_get.
  - destruct (invalidate_either (cache s) [ks "me"] (hook_key h)) as [-> | ->]; [by apply Hs|].
    destruct (cache_get _ _); [|done]. by intros [= <-].
Qed.

(** Invalidating the hook's key leaves neither a fresh entry nor a request. *)
Lemma invalidated s k l :
  readable s -> key_matches k (hook_key h) = true ->
  l = filter (fun fl => cancelled cancels k s fl = false) (flights s) ->
  (forall fl, fl ∈ l -> fl_hash fl <> hook_hash h) /\
  (forall e, cache_get (invalidateQueries k (cache s)) (hook_key h) = Some e -> e_stale e = true).
Proof using All.
  intros [Hm Hs] Hk ->. split.
  - intros fl [Hc Hfl]%list_elem_of_filter Hh. destruct Hs as [(e & d & He & Hd)|[Hi _]]; [|by apply (Hi fl)].
    unfold cancelled in Hc. apply andb_false_iff in Hc as [Hc|Hc].
    + rewrite <- not_true_iff_false in Hc. apply Hc, existsb_exists. exists h. rewrite <- list_elem_of_In.
      split; [done|]. by apply bool_decide_eq_true.
    + apply same_hash_same_key in Hh. rewrite Hh, (documented k _ _ e d Hk He Hd) in Hc. done.
  - intros e. rewrite invalidate_match by done. destruct (cache_get _ _); [|done]. by intros [= <-].
Qed.

Lemma effect_obsoletes s e :
  readable s -> obsoletes (hook_key h) e = true -> obsolete (effect_step cancels s e).
Proof using All.
  intros Hs He. destruct e as [k|k v| | | |]; cbn [obsoletes] in He; try done.
  - by apply (invalidated s k).
  - split; [by intros fl ?%not_elem_of_nil|]. intros x. cbn [effect_step cache apply_effect]. by rewrite clear_get.
  - by apply (invalidated s [ks "me"]).
Qed.

(** An obsolete query is traced from any time on. *)
Lemma obsolete_traced lo es s : obsolete s -> traced true lo (fun k => k = hook_hash h) es (tick s).
Proof using All.
  intros [Hi Hst]. split.
  - intros fl Hfl Hk. by apply Hi in Hfl.
  - intros k x Hk Hx. left. split; [done|]. apply Hst. by rewrite (get_hash _ (hook_key h) k (eq_sym Hk)).
Qed.

Lemma effects_obsolete effs s :
  obsolete s -> Forall (fun e => stores e = false) effs -> obsolete (run_effects cancels effs s).
Proof using All.
  intros Hs He. revert s Hs. induction He as [|e effs He Heffs IH]; intros s Hs; [done|].
  apply (IH (effect_step cancels s e)). by apply effect_obsolete.
Qed.

Lemma effects_obsoletes effs s :
  readable s -> Forall (fun e => stores e = false) effs -> existsb (obsoletes (hook_key h)) effs = true ->
  obsolete (run_effects cancels effs s).
Proof using All.
  intros Hs He. revert s Hs. induction He as [|e effs He Heffs IH]; intros s Hs; [done|].
  cbn [existsb]. intros [Ho|Ho]%orb_prop.
  - apply (effects_obsolete effs (effect_step cancels s e)); [by apply effect_obsoletes|done].
  - apply (IH (effect_step cancels s e)); [by apply effect_readable|done].
Qed.
End writes.


(** ** On the reference cache *)
Definition matching (k : key) (_ : key_cache) (k' : key) : bool := key_matches k k'.
Lemma matching_documented : cancels_refetch matching.
Proof. by intros k c k' e d. Qed.

Definition empty_cache : key_cache := fun _ => None.
Definition outcome_of (es : list event) : option (console key_cache * list request) :=
  run matching es (initial empty_cache).
Definition state_after (es : list event) : console key_cache :=
  match outcome_of es with Some (s, _) => s | None => initial empty_cache end.
Definition requests_of (es : list event) : list request :=
  match outcome_of es with Some (_, rs) => rs | None => [] end.
Definition read (es : list event) (h : query_hook) : option entry := cache_get (cache (state_after es)) (hook_key h).
Definition ok (d : json) : fetch_result := FetchResult (Some d) None 200.
Definition denied : fetch_result := FetchResult None (Some (JStr "denied")) 401.

(** Switching the tenant while the alerts of the first load. *)
Definition switching : list event :=
  [Switch (Some "a"); Mount (QAlerts (Some "a") true); Fetch (QAlerts (Some "a") true) 0;
   Switch (Some "b"); Mount (QAlerts (Some "b") true); Fetch (QAlerts (Some "b") true) 0;
   Landed 5 (ok (JArr [JStr "of b"])); Landed 2 (ok (JArr [JStr "of a"]))].
Lemma switching_runs : run matching switching (initial empty_cache) = Some (state_after switching, requests_of switching).
Proof. vm_compute. reflexivity. Qed.
Lemma switching_shows : on_screen (state_after switching) (QAlerts (Some "b") true) (JArr [JStr "of b"]).
Proof. split; [left|]. eexists. split; reflexivity. Qed.

Lemma screen_shows_answers_witness :
  Some "b" = activeId (state_after switching) /\
  exists q p r h' now, q < p /\ switching !! q = Some (Fetch h' now) /\ switching !! p = Some (Landed q r) /\
    q_fn (query_of now h') r = Returned (Some (JArr [JStr "of b"])) /\
    ("tenant_id", Some "b") ∈ rq_params (q_request (query_of now h')).
Proof.
  destruct (proj2 (screen_shows_answers matching empty_cache switching (state_after switching) (requests_of switching)
              (QAlerts (Some "b") true) (JArr [JStr "of b"]) switching_runs switching_shows) (Some "b") eq_refl) as [Ht Ho].
  destruct (Ho 0 (or_introl eq_refl)) as (q & p & r & h' & now & _ & Hqp & Hq & Hp & Hf & _ & Hin & _).
  split; [exact Ht|]. exists q, p, r, h', now. exact (conj Hqp (conj Hq (conj Hp (conj Hf Hin)))).
Defined.

(** A group is deleted while the list is being fetched again: the answer from
    before the deletion never lands. *)
Definition deleting : list event :=
  [Mount QGroups; Fetch QGroups 0; Landed 1 (ok (JArr [JStr "g"])); Send (MDeleteGroup "g") ""; Fetch QGroups 0;
   Settled 3 (FetchResult None None 204); Fetch QGroups 0; Landed 6 (ok (JArr []))].
Definition before_answer : list event := take 5 deleting.
Lemma deleting_runs : run matching deleting (initial empty_cache) = Some (state_after deleting, requests_of deleting).
Proof. vm_compute. reflexivity. Qed.
Lemma before_answer_runs :
  run matching before_answer (initial empty_cache) = Some (state_after before_answer, requests_of before_answer).
Proof. vm_compute. reflexivity. Qed.
Lemma before_answer_shows : on_screen (state_after before_answer) QGroups (JArr [JStr "g"]).
Proof. split; [left|]. eexists. split; reflexivity. Qed.
Lemma deleting_reads : cache_get (cache (state_after deleting)) (hook_key QGroups) = Some (Entry (Some (JArr [])) false).
Proof. reflexivity. Qed.


(** The four hooks that store the mutation's answer do not cancel the fetch
    under way ([admin/smtpHooks.ts], [admin/systemHooks.ts],
    [security/mfaHooks.ts]): its answer, from before the write, then replaces
    the new settings, and counts as fresh. *)
Lemma late_read_replaces_write b :
  read [Mount QSmtpSettings; Fetch QSmtpSettings 0; Landed 1 (ok (JStr "old")); Fetch QSmtpSettings 0;
        Send (MUpdateSmtpSettings b) ""; Settled 4 (ok (JStr "new")); Landed 3 (ok (JStr "old"))] QSmtpSettings
  = Some (Entry (Some (JStr "old")) false).
Proof. reflexivity. Qed.

(** A session that ends without a logout, by expiry, leaves the cache as it is,
    and signing in does not clear it: the next user of the page is shown what
    the last one fetched, until it is fetched again. *)
Lemma signing_in_keeps_data a b :
  let es := [SignIn a; Mount QGroups; Fetch QGroups 0; Landed 2 (ok (JArr [JStr "of a"])); Mount QAuthProvider;
             Unmount QGroups; Fetch QAuthProvider 0; Landed 6 denied; SignIn b; Mount QGroups] in
  read es QGroups = Some (Entry (Some (JArr [JStr "of a"])) false) /\
  read es QAuthProvider = Some (Entry (Some b) false).
Proof. split; reflexivity. Qed.
