(* ===== verification/Confirm.v ===== *)
(** * Confirmation dialogs: [components/ConfirmModal.tsx] and the pages that
    open one before a destructive request

    [pages/GroupsPage.tsx], [pages/TemplateLibraryPage.tsx],
    [profiles/ProfilesPanel.tsx], [security/MfaPanel.tsx],
    [security/TrustedDevicesSection.tsx], [components/LogForwardingCard.tsx],
    [components/DeviceActions.tsx], [plugins/PluginsTab.tsx].  All of them keep
    a target in the state, show the dialog while there is one, and send on its
    confirm button; they differ in when the target is cleared. *)
From S2P Require Import Prelude JsString Json Http QueryClient Hooks TenantHooks PlatformHooks Machine.
From Stdlib Require Import ZArith.

(** ** [ConfirmModal]: the texts a caller may leave out *)
Module Modal.
Record props := Props { title : option string; confirmLabel : option string; cancelLabel : option string; loading : bool }.
Definition shown_title (t : string) (p : props) : string := title p orelse t.
Definition shown_confirm (t : string) (p : props) : string := confirmLabel p orelse t.
Definition shown_cancel (t : string) (p : props) : string := cancelLabel p orelse t.
End Modal.

(** ** The dialog of a page *)

(** [CloseFirst]: the handler clears the target and sends; [CloseLast]: it
    sends and clears the target when the request settles. *)
Inductive style := CloseFirst | CloseLast.

Section dialog.
Context {T : Type}.

Record dialog := Dialog { target : option T; pending : bool }.
Definition closed : dialog := Dialog None false.

Inductive event :=
| Pick (x : T)        (* the button of a row, taken as enabled also while its request is under way *)
| Dismiss             (* cancel, escape, outside *)
| Ok_                 (* the confirm button *)
| Settle.             (* the answer, good or bad *)

Context (st : style) (guards_loading : bool) (request_of : T -> request).

(** A loading button is disabled; a dialog that is given no [loading] keeps its
    button enabled while a request is under way. *)
Definition exec (e : event) (d : dialog) : option (dialog * list request) :=
  match e with
  | Pick x => Some (Dialog (Some x) (pending d), [])
  | Dismiss => match target d with Some _ => Some (Dialog None (pending d), []) | None => None end
  | Ok_ =>
      match target d with
      | None => None
      | Some x =>
          if guards_loading && pending d then None
          else Some (Dialog (match st with CloseFirst => None | CloseLast => Some x end) true, [request_of x])
      end
  | Settle =>
      if pending d
      then Some (Dialog (match st with CloseFirst => target d | CloseLast => None end) false, [])
      else None
  end.

(** *** What a history of the dialog says, without its state *)

(** The target the user saw last: the last row picked, unless the dialog was
    dismissed, or confirmed, since. *)
Fixpoint seen (rev_es : list event) : option T :=
  match rev_es with
  | [] => None
  | Pick x :: _ => Some x
  | (Dismiss | Ok_) :: _ => None
  | Settle :: es => match st with CloseFirst => seen es | CloseLast => None end
  end.

Definition is_ok (e : event) : bool := match e with Ok_ => true | _ => false end.
Definition is_pick (e : event) : bool := match e with Pick _ => true | _ => false end.
Definition count (p : event -> bool) (es : list event) : nat := length (filter (fun e => p e = true) es).

(** The requests a history asks for: one for each confirmation of what was seen. *)
Fixpoint asked (rev_es : list event) : list request :=
  match rev_es with
  | [] => []
  | Ok_ :: es => asked es ++ option_list (request_of <$> seen es)
  | _ :: es => asked es
  end.

(** *** The state says what the history says *)

Lemma count_snoc p es e : count p (es ++ [e]) = count p es + Nat.b2n (p e).
Proof using Type.
  unfold count. rewrite filter_app, length_app. f_equal.
  destruct (p e) eqn:E; [by rewrite filter_cons_True|rewrite filter_cons_False]; [done|by rewrite E].
Qed.

Definition tracks (es : list event) (d : dialog) (rs : list request) : Prop :=
  (st = CloseFirst \/ pending d = false -> target d = seen (rev es)) /\
  rs = asked (rev es) /\ length rs = count is_ok es.

Lemma tracks_step es d rs e d' rs' :
  (st = CloseLast -> guards_loading = true) ->
  tracks es d rs -> exec e d = Some (d', rs') -> tracks (es ++ [e]) d' (rs ++ rs').
Proof using Type.
  intros Hg (Ht & -> & Hn) He. unfold tracks. rewrite rev_app_distr, length_app, Hn, count_snoc.
  destruct e as [x| | |]; cbn [exec] in He; cbn [rev app seen asked is_ok Nat.b2n].
  - simplify_eq/=. rewrite app_nil_r. done.
  - destruct (target d); simplify_eq/=. rewrite app_nil_r. done.
  - destruct (target d) as [x|]; [|done]. destruct (guards_loading && pending d) eqn:Eg; [done|].
    simplify_eq/=. destruct st.
    + rewrite <- (Ht (or_introl eq_refl)). split_and!; [done|done|simpl; lia].
    + rewrite (Hg eq_refl) in Eg. simpl in Eg. rewrite <- (Ht (or_intror Eg)).
      split_and!; [by intros [?|?]|done|simpl; lia].
  - destruct (pending d); simplify_eq/=. rewrite app_nil_r. split_and!; [|done|lia].
    intros _. destruct st; auto.
Qed.

Lemma run_tracks es d rs :
  (st = CloseLast -> guards_loading = true) -> run exec es closed = Some (d, rs) -> tracks es d rs.
Proof using Type.
  intros Hg. revert es d rs. apply (run_history exec tracks).
  - split_and!; done.
  - intros. eapply tracks_step; eauto.
Qed.

(** A confirmation spends the pick it confirms. *)
Lemma asked_le_picks l : length (asked l) + length (option_list (seen l)) <= count is_pick l.
Proof using Type.
  induction l as [|e l IH]; [done|].
  assert (Hc : count is_pick (e :: l) = Nat.b2n (is_pick e) + count is_pick l).
  { unfold count. destruct (is_pick e) eqn:E; [by rewrite filter_cons_True|].
    rewrite filter_cons_False; [done|by rewrite E]. }
  rewrite Hc. destruct e as [x| | |]; cbn [asked seen is_pick Nat.b2n].
  - change (length (option_list (Some x))) with 1. lia.
  - change (length (option_list (@None T))) with 0. lia.
  - change (length (option_list (@None T))) with 0. rewrite length_app.
    destruct (seen l) as [y|]; [change (length (option_list (request_of <$> Some y))) with 1|
      change (length (option_list (request_of <$> @None T))) with 0]; unfold option_list in *; cbn in IH; lia.
  - destruct st; [lia|]. change (length (option_list (@None T))) with 0. lia.
Qed.

Lemma count_rev p es : count p (rev es) = count p es.
Proof using Type.
  induction es as [|e es IH] using rev_ind; [done|].
  rewrite rev_app_distr, count_snoc, <- IH. unfold count. cbn [rev app].
  destruct (p e) eqn:E; [rewrite filter_cons_True|rewrite filter_cons_False]; rewrite ?E; simpl; try done; lia.
Qed.
End dialog.
Arguments dialog : clear implicits.
Arguments event : clear implicits.

(** ** The dialogs of the console *)
Module Dialogs.
Inductive toggle := enable | disable.
Inductive lifecycle := rotate | revoke.

(** What each dialog asks about.  The eleventh dialog of the console, which
    turns the second factor off ([security/MfaPanel.tsx]), asks for the password
    itself and is a part of [SecondFactor.Manage]. *)
Inductive action :=
| DeleteGroup (id : string)
| DeleteTemplate (id : string)
| DeleteProfile (id : string)
| ResetUserMfa (userId : string)
| RemovePasskey (credId : string)
| RevokeTrustedDevice (id : string)
| RevokeAllTrustedDevices
| Forwarding (a : toggle)
| Lifecycle (a : lifecycle)
| DeleteDevice.

(** The pages, by the component that keeps the dialog. *)
Inductive page :=
| GroupsPage | TemplateLibraryPage | ProfilesPanel | MfaUsersTable | PasskeysSection
| TrustedDevices_one | TrustedDevices_all | LogForwarding_toggle | LogForwarding_lifecycle | DeviceActions.

Definition page_of (a : action) : page :=
  match a with
  | DeleteGroup _ => GroupsPage | DeleteTemplate _ => TemplateLibraryPage | DeleteProfile _ => ProfilesPanel
  | ResetUserMfa _ => MfaUsersTable | RemovePasskey _ => PasskeysSection
  | RevokeTrustedDevice _ => TrustedDevices_one | RevokeAllTrustedDevices => TrustedDevices_all
  | Forwarding _ => LogForwarding_toggle | Lifecycle _ => LogForwarding_lifecycle
  | DeleteDevice => DeviceActions
  end.

Definition page_style (p : page) : style :=
  match p with
  | MfaUsersTable | PasskeysSection | TrustedDevices_one | TrustedDevices_all => CloseLast
  | _ => CloseFirst
  end.

(** [loading={...isPending}] *)
Definition page_loading (p : page) : bool :=
  match p with LogForwarding_toggle | LogForwarding_lifecycle => false | _ => true end.

#[export] Instance page_eq_dec : EqDecision page.
Proof. solve_decision. Defined.

Section requests.
Context (tenantId : option string) (deviceId : string).

Definition mutation_of (a : action) : mutation :=
  match a with
  | DeleteGroup id => Groups.useDeleteGroup id
  | DeleteTemplate id => Library.useDeleteTemplate id
  | DeleteProfile id => Library.useDeleteProfile id
  | ResetUserMfa id => Mfa.useResetUserMfa id
  | RemovePasskey id => Mfa.useRemovePasskey id
  | RevokeTrustedDevice id => Mfa.useRevokeTrustedDevice id
  | RevokeAllTrustedDevices => Mfa.useRevokeAllTrustedDevices
  | Forwarding enable => Logs.useEnableLogForwarding tenantId deviceId
  | Forwarding disable => Logs.useDisableLogForwarding tenantId deviceId
  | Lifecycle rotate => Logs.useRotateLogForwarding tenantId deviceId
  | Lifecycle revoke => Logs.useRevokeLogForwarding tenantId deviceId None
  | DeleteDevice => Devices.DeviceActions_remove (tenantId orelse "") deviceId
  end.

(** A page's dialog is only ever opened on its own actions. *)
Definition page_exec (p : page) (e : event action) (d : dialog action) : option (dialog action * list request) :=
  match e with
  | Pick a => if decide (page_of a = p) then exec (page_style p) (page_loading p) (fun a => m_request (mutation_of a)) e d else None
  | _ => exec (page_style p) (page_loading p) (fun a => m_request (mutation_of a)) e d
  end.

Lemma page_exec_exec p e d d' rs :
  page_exec p e d = Some (d', rs) ->
  exec (page_style p) (page_loading p) (fun a => m_request (mutation_of a)) e d = Some (d', rs) /\
  (forall a, e = Pick a -> page_of a = p).
Proof using Type.
  destruct e as [a| | |]; cbn [page_exec]; try (split; [done|congruence]).
  case_decide; [|done]. split; [done|]. by intros ? [= <-].
Qed.

Lemma page_run p es d d' rs :
  run (page_exec p) es d = Some (d', rs) ->
  run (exec (page_style p) (page_loading p) (fun a => m_request (mutation_of a))) es d = Some (d', rs) /\
  (forall a, Pick a ∈ es -> page_of a = p).
Proof using Type.
  revert d rs. induction es as [|e es IH]; intros d rs H.
  - split; [exact H|]. intros a Ha. by apply not_elem_of_nil in Ha.
  - apply run_cons in H as (d1 & r1 & r2 & He & Hr & ->).
    apply page_exec_exec in He as [He Hp]. apply IH in Hr as [Hr Hq]. split.
    + apply run_cons. eauto 10.
    + intros a [Ha|Ha]%elem_of_cons; auto.
Qed.

(** What the user saw was picked before. *)
Lemma seen_picked st (l : list (event action)) a : seen st l = Some a -> Pick a ∈ l.
Proof using Type.
  induction l as [|e l IH]; [done|]. destruct e as [x| | |]; simpl; intros H; simplify_eq; try done.
  - left.
  - destruct st; [right; auto|done].
Qed.
End requests.

Lemma page_guards p : page_style p = CloseLast -> page_loading p = true.
Proof. by destruct p. Qed.

(** A destructive request of a page was confirmed: right before, the user saw
    the dialog of that very action, opened on that page. *)
Definition confirmed (t : option string) (d : string) (p : page) (es : list (event action)) (rq : request) : Prop :=
  exists es1 es2 a,
    es = es1 ++ Ok_ :: es2 /\ seen (page_style p) (rev es1) = Some a /\
    Pick a ∈ es1 /\ page_of a = p /\ rq = m_request (mutation_of t d a).

Lemma asked_confirmed t d p es :
  (forall a, Pick a ∈ es -> page_of a = p) ->
  Forall (confirmed t d p es) (asked (page_style p) (fun a => m_request (mutation_of t d a)) (rev es)).
Proof.
  induction es as [|e es IH] using rev_ind; intros Hp; [constructor|].
  assert (Hw : Forall (confirmed t d p (es ++ [e]))
                 (asked (page_style p) (fun a => m_request (mutation_of t d a)) (rev es))).
  { eapply Forall_impl; [apply IH; intros; apply Hp, elem_of_app; auto|].
    intros rq (es1 & es2 & a & -> & H). exists es1, (es2 ++ [e]), a. by rewrite <- app_assoc. }
  rewrite rev_app_distr. destruct e as [x| | |]; cbn [rev app asked]; try exact Hw.
  apply Forall_app. split; [exact Hw|]. destruct (seen (page_style p) (rev es)) as [a|] eqn:E; [|constructor].
  constructor; [|constructor].
  assert (Ha : Pick a ∈ es) by (apply seen_picked, list_elem_of_In, in_rev, list_elem_of_In in E; exact E).
  exists es, [], a. split_and!; auto. apply Hp, elem_of_app. auto.
Qed.

(** C10.  Nothing is destroyed without its own confirmation.  On the ten
    dialogs of the console (deleting a group, a template, a profile or a device,
    resetting a user's second factor, removing a passkey, revoking one or all
    trusted devices, switching log forwarding, rotating or revoking its
    certificate), in every history of picks, dismissals, confirmations and
    answers: each request sent is the one of the action whose dialog the user
    saw when confirming, an action picked on that page; a confirmation sends
    exactly one request; and no pick is confirmed twice, so there are never
    more requests than picks. *)
Theorem destructive_actions_confirmed t dev p es d rs :
  run (page_exec t dev p) es closed = Some (d, rs) ->
  Forall (confirmed t dev p es) rs /\ length rs = count is_ok es /\ length rs <= count is_pick es.
Proof.
  intros [H Hp]%page_run. apply (run_tracks _ _ _ es d rs (page_guards p)) in H as (_ & -> & Hn).
  split_and!; [by apply asked_confirmed|done|].
  rewrite <- count_rev. pose proof (asked_le_picks (page_style p) (fun a => m_request (mutation_of t dev a)) (rev es)).
  lia.
Qed.

Lemma destructive_actions_confirmed_witness :
  let es := [Pick (RemovePasskey "k1"); Dismiss; Pick (RemovePasskey "k2"); Ok_; Pick (RemovePasskey "k3"); Settle] in
  exists rs, run (page_exec None "" PasskeysSection) es closed = Some (Dialog None false, rs) /\
    rs = [m_request (Mfa.useRemovePasskey "k2")] /\
    Forall (confirmed None "" PasskeysSection es) rs /\ length rs = count is_ok es /\ length rs <= count is_pick es.
Proof.
  intros es. eexists. split; [vm_compute; reflexivity|]. split; [reflexivity|].
  apply (destructive_actions_confirmed None "" PasskeysSection es (Dialog None false)). vm_compute. reflexivity.
Defined.
End Dialogs.
