(* ===== verification/GroupsPage.v ===== *)
(** * Groups: [pages/GroupsPage.tsx]

    The form that creates a group, and the card of a group: its details, its
    members and its grants.  A grant gives the members a role on one tenant or
    on all of them.  Deleting a group goes through [Confirm.Dialogs]. *)
From S2P Require Import Prelude JsString Json Http QueryClient Hooks PlatformHooks Machine.
From Stdlib Require Import ZArith.

Definition ROLES : list string := ["tenant_admin"; "operator"; "read_only"].

(** ** The form that creates a group *)
Module Create.
Record form := Form { newName : string; newDescription : string; isPending : bool }.
Definition initial : form := Form "" "" false.

Inductive event :=
| TypeName (s : string)
| TypeDescription (s : string)
| Click                       (* the create button *)
| Settled (ok : bool).

Definition body (f : form) : json :=
  JObj [("name", JStr (trim (newName f))); ("description", JStr (trim (newDescription f)))].

(** [handleCreate]; the button is disabled without a name and while a request
    is under way. *)
Definition exec (isSuper : bool) (e : event) (f : form) : option (form * list request) :=
  if negb isSuper then None else
  match e with
  | TypeName s => Some (Form s (newDescription f) (isPending f), [])
  | TypeDescription s => Some (Form (newName f) s (isPending f), [])
  | Click =>
      if (trim (newName f) === "") || isPending f then None
      else Some (Form (newName f) (newDescription f) true, [m_request (Groups.useCreateGroup (body f))])
  | Settled ok =>
      if isPending f
      then Some (if ok then initial else Form (newName f) (newDescription f) false, [])
      else None
  end.

(** A creation names the group, without surrounding blanks. *)
Lemma create_named isSuper es f rs :
  run (exec isSuper) es initial = Some (f, rs) ->
  Forall (fun rq => exists n d, n <> "" /\ trimmed n /\ trimmed d /\
    rq = m_request (Groups.useCreateGroup (JObj [("name", JStr n); ("description", JStr d)]))) rs.
Proof.
  apply (run_requests _ (fun _ => True)); [|done].
  intros e s s' rs' _ He. split; [done|]. unfold exec in He. destruct isSuper; [|done]. cbn [negb] in He.
  destruct e; js_cases; constructor; [|constructor].
  apply orb_false_iff in Heqb as [Hn%bool_decide_eq_false _].
  exists (trim (newName s)), (trim (newDescription s)). split_and!; [done|apply trim_idemp|apply trim_idemp|done].
Qed.
End Create.

(** ** The card of a group *)
Module Card.
Record GroupGrantOut := Grant { g_id : string; all_tenants : bool; tenant_id : option string; g_role : string }.
Record GroupOut := Group_ {
  id : string;
  group_name : string;
  group_description : string;
  member_ids : list string;
  grants : list GroupGrantOut;
}.

Record card := MkCard {
  name : string;
  description : string;
  allTenants : bool;
  tenantId : option string;
  role : string;
  updatePending : bool;
  addPending : bool;
}.
Definition initial (g : GroupOut) : card := MkCard (group_name g) (group_description g) false None "read_only" false false.

Inductive event :=
| TypeName (s : string)
| TypeDescription (s : string)
| ToggleAll (b : bool)
| PickTenant (v : option string)
| PickRole (v : option string)
| SaveDetails
| DetailsSettled (ok : bool)
| SetMembers (userIds : list string)
| AddGrant
| GrantSettled (ok : bool)
| RemoveGrant (grantId : string).

(** The grant the form describes. *)
Definition grant_body (c : card) : json :=
  if allTenants c
  then JObj [("all_tenants", JBool true); ("role", JStr (role c))]
  else JObj [("all_tenants", JBool false);
             ("tenant_id", match tenantId c with Some t => JStr t | None => JNull end);
             ("role", JStr (role c))].

Definition details_body (c : card) : json :=
  JObj [("name", JStr (trim (name c))); ("description", JStr (description c))].

(** [setAllTenants(false); setTenantId(null); setRole("read_only")] *)
Definition reset_form (c : card) : card :=
  MkCard (name c) (description c) false None "read_only" (updatePending c) false.

Section card.
Context (g : GroupOut) (tenants : list string).

Definition exec (e : event) (c : card) : option (card * list request) :=
  match e with
  | TypeName s => Some (MkCard s (description c) (allTenants c) (tenantId c) (role c) (updatePending c) (addPending c), [])
  | TypeDescription s => Some (MkCard (name c) s (allTenants c) (tenantId c) (role c) (updatePending c) (addPending c), [])
  | ToggleAll b => Some (MkCard (name c) (description c) b (tenantId c) (role c) (updatePending c) (addPending c), [])
  | PickTenant v =>
      (* the selector is there only while the switch is off, and lists the tenants *)
      if allTenants c then None
      else if match v with Some t => bool_decide (t ∈ tenants) | None => true end
      then Some (MkCard (name c) (description c) (allTenants c) v (role c) (updatePending c) (addPending c), [])
      else None
  | PickRole v =>
      match v with
      | None => Some (c, [])
      | Some r =>
          if bool_decide (r ∈ ROLES)
          then Some (MkCard (name c) (description c) (allTenants c) (tenantId c)
                       (if present v then r else role c) (updatePending c) (addPending c), [])
          else None
      end
  | SaveDetails =>
      if (trim (name c) === "") || updatePending c then None
      else Some (MkCard (name c) (description c) (allTenants c) (tenantId c) (role c) true (addPending c),
                 [m_request (Groups.useUpdateGroup (id g) (details_body c))])
  | DetailsSettled _ =>
      if updatePending c
      then Some (MkCard (name c) (description c) (allTenants c) (tenantId c) (role c) false (addPending c), [])
      else None
  | SetMembers us => Some (c, [m_request (Groups.useSetGroupMembers (id g) us)])
  | AddGrant =>
      if (negb (allTenants c) && negb (present (tenantId c))) || addPending c then None
      else Some (MkCard (name c) (description c) (allTenants c) (tenantId c) (role c) (updatePending c) true,
                 [m_request (Groups.useAddGroupGrant (id g) (grant_body c))])
  | GrantSettled ok =>
      if addPending c
      then Some (if ok then reset_form c
                 else MkCard (name c) (description c) (allTenants c) (tenantId c) (role c) (updatePending c) false, [])
      else None
  | RemoveGrant i =>
      if bool_decide (i ∈ g_id <$> grants g)
      then Some (c, [m_request (Groups.useDeleteGroupGrant (id g) i)])
      else None
  end.
End card.

(** *** What a badge shows *)
Definition roleLabels (r : string) : option msg :=
  assoc r [("tenant_admin", Tr ["groups"; "roleTenantAdmin"]); ("operator", Tr ["groups"; "roleOperator"]);
           ("read_only", Tr ["groups"; "roleReadOnly"])].
Definition grantScope (tenantNames : list (string * string)) (gr : GroupGrantOut) : msg :=
  if all_tenants gr then Tr ["groups"; "allTenantsScope"]
  else match tenant_id gr with
       | Some t => if present (Some t) then Lit (assoc t tenantNames orelse t) else Lit ""
       | None => Lit ""
       end.
Definition grantRole (gr : GroupGrantOut) : msg := roleLabels (g_role gr) orelse Lit (g_role gr).

(** *** Grants as the backend means them: a scope and a role *)
Inductive scope := AllTenants | OneTenant (t : string).
Definition grant_json (s : scope) (r : string) : json :=
  match s with
  | AllTenants => JObj [("all_tenants", JBool true); ("role", JStr r)]
  | OneTenant t => JObj [("all_tenants", JBool false); ("tenant_id", JStr t); ("role", JStr r)]
  end.

(** The scope and role the controls of the form show. *)
Inductive shows (c : card) : scope -> string -> Prop :=
| shows_all : allTenants c = true -> shows c AllTenants (role c)
| shows_one t : allTenants c = false -> tenantId c = Some t -> t <> "" -> shows c (OneTenant t) (role c).

Lemma shows_unique c s r s' r' : shows c s r -> shows c s' r' -> s = s' /\ r = r'.
Proof. intros [] []; try congruence; split; congruence. Qed.

(** The form is well formed: a listed role, a known tenant. *)
Definition well_formed (tenants : list string) (c : card) : Prop :=
  role c ∈ ROLES /\ (forall t, tenantId c = Some t -> t ∈ tenants).

Definition is_grant_request (g : GroupOut) (rq : request) : Prop :=
  exists b, rq = m_request (Groups.useAddGroupGrant (id g) b).

Section soundness.
Context (g : GroupOut) (tenants : list string).

Lemma initial_well_formed : well_formed tenants (initial g).
Proof using Type. split; [simpl; set_solver|done]. Qed.

Lemma exec_well_formed e c c' rs :
  well_formed tenants c -> exec g tenants e c = Some (c', rs) -> well_formed tenants c'.
Proof using Type.
  intros [Hr Ht] He. unfold well_formed. destruct e; cbn [exec] in He; js_cases; try done.
  - split; [done|]. intros t [= <-]. by apply bool_decide_eq_true in Heqb0.
  - split; [|done]. by apply bool_decide_eq_true in Heqb.
  - split; [set_solver|done].
Qed.

Lemma run_well_formed es c rs :
  run (exec g tenants) es (initial g) = Some (c, rs) -> well_formed tenants c.
Proof using Type.
  apply (run_state _ (well_formed tenants)); [exact exec_well_formed|exact initial_well_formed].
Qed.

(** What the add button sends. *)
Lemma add_grant_sends c c' rs :
  exec g tenants AddGrant c = Some (c', rs) ->
  exists s r, shows c s r /\ rs = [m_request (Groups.useAddGroupGrant (id g) (grant_json s r))].
Proof using Type.
  cbn [exec]. intros H. js_cases. apply orb_false_iff in Heqb as [Hb _].
  unfold grant_body. destruct (allTenants c) eqn:Ea.
  - exists AllTenants, (role c). split; [by constructor|done].
  - destruct (tenantId c) as [t|] eqn:Et; simpl in Hb; [|done].
    case_bool_decide; [done|]. exists (OneTenant t), (role c). split; [by constructor|done].
Qed.

Lemma post_only e c c' rs rq :
  exec g tenants e c = Some (c', rs) -> rq ∈ rs -> is_grant_request g rq -> e = AddGrant.
Proof using Type.
  intros He Hr [b ->]. destruct e; cbn [exec] in He; js_cases; try (by apply not_elem_of_nil in Hr);
    apply list_elem_of_singleton in Hr; try done;
    pose proof (f_equal rq_method Hr) as Hm; simpl in Hm; try discriminate.
Qed.
End soundness.

(** C15.  Grants are well typed and exactly those shown.  In every history of a
    group's card, each request that adds a grant was sent by the add button and
    carries one scope, all tenants or one tenant of the list, and one of the
    three roles: the ones the controls showed at that moment.  A selection
    hidden behind the switch for all tenants is never sent, and once a grant is
    added the form is back to one tenant, none picked, with the least role, so
    no second grant repeats a broad one by accident. *)
Theorem grants_well_typed g tenants es c rs rq :
  run (exec g tenants) es (initial g) = Some (c, rs) -> rq ∈ rs -> is_grant_request g rq ->
  (exists es1 es2 c1 rs1 s r,
    es = es1 ++ AddGrant :: es2 /\ run (exec g tenants) es1 (initial g) = Some (c1, rs1) /\ shows c1 s r /\
    rq = m_request (Groups.useAddGroupGrant (id g) (grant_json s r)) /\
    r ∈ ROLES /\ (forall t, s = OneTenant t -> t ∈ tenants)) /\
  (forall c2 rs2, exec g tenants (GrantSettled true) c = Some (c2, rs2) ->
    allTenants c2 = false /\ tenantId c2 = None /\ role c2 = "read_only" /\ rs2 = [] /\
    exec g tenants AddGrant c2 = None).
Proof.
  intros H Hin Hg. split.
  - destruct (run_request _ _ _ _ _ _ H Hin) as (es1 & e & es2 & c1 & rs1 & c2 & rs2 & -> & H1 & He & Hr).
    pose proof (post_only _ _ _ _ _ _ _ He Hr Hg) as ->.
    destruct (run_well_formed _ _ _ _ _ H1) as [Hrole Ht].
    apply add_grant_sends in He as (s & r & Hs & ->). apply list_elem_of_singleton in Hr.
    exists es1, es2, c1, rs1, s, r. split_and!; try done; [by destruct Hs|].
    intros t ->. inversion Hs; subst. by apply Ht.
  - intros c2 rs2 Hs. cbn [exec] in Hs. js_cases. done.
Qed.

Lemma grants_well_typed_witness :
  let g := Group_ "g1" "NOC" "" [] [] in
  let es := [PickTenant (Some "t1"); PickRole (Some "operator"); AddGrant] in
  exists c rq, run (exec g ["t1"; "t2"]) es (initial g) = Some (c, [rq]) /\
    rq = m_request (Groups.useAddGroupGrant "g1"
           (JObj [("all_tenants", JBool false); ("tenant_id", JStr "t1"); ("role", JStr "operator")])) /\
    exists es1 es2 c1 rs1 s r,
      es = es1 ++ AddGrant :: es2 /\ run (exec g ["t1"; "t2"]) es1 (initial g) = Some (c1, rs1) /\ shows c1 s r /\
      rq = m_request (Groups.useAddGroupGrant "g1" (grant_json s r)) /\
      r ∈ ROLES /\ (forall t, s = OneTenant t -> t ∈ ["t1"; "t2"]).
Proof.
  intros g es. eexists _, _. split; [vm_compute; reflexivity|]. split; [reflexivity|].
  refine (proj1 (grants_well_typed g ["t1"; "t2"] es _ [_] _ _ _ _)); [vm_compute; reflexivity|left|by eexists].
Defined.

(** Untouched details go back as they came, but for blanks around the name. *)
Lemma details_roundtrip g tenants c rs :
  exec g tenants SaveDetails (initial g) = Some (c, rs) ->
  rs = [m_request (Groups.useUpdateGroup (id g)
         (JObj [("name", JStr (trim (group_name g))); ("description", JStr (group_description g))]))].
Proof. cbn [exec]. intros H. js_cases. done. Qed.

(** Two quick picks in the members' selector: the control shows what the server
    last answered, so a second pick made before the refresh is computed from
    the same members and its request takes the first one back. *)
Definition pick_member (shown : list string) (u : string) : list string := shown ++ [u].
Lemma quick_picks_collide g tenants u v :
  exists c, run (exec g tenants) [SetMembers (pick_member (member_ids g) u); SetMembers (pick_member (member_ids g) v)]
              (initial g)
    = Some (c, [m_request (Groups.useSetGroupMembers (id g) (member_ids g ++ [u]));
                m_request (Groups.useSetGroupMembers (id g) (member_ids g ++ [v]))]).
Proof. eexists. reflexivity. Qed.
End Card.
