(* ===== verification/SecondFactor.v ===== *)
(** * Second factor and sessions: [security/*.tsx]

    [Enrol] is the wizard of [security/MfaEnrollFlow.tsx]; [Host] its two hosts,
    [security/MfaPanel.tsx] and [security/MfaSetupGate.tsx]; [Codes] is
    [security/RecoveryCodes.tsx]; [Manage], [Passkeys], [Org] and [Panel] are
    the other parts of [MfaPanel]; [Sessions] and [Devices] the pages of
    sessions and trusted devices; [Qr] is [security/QrCode.tsx].  The
    confirmation dialogs of these pages are in [Confirm.Dialogs]. *)
From S2P Require Import Prelude JsString Json Http QueryClient Hooks WebAuthn PlatformHooks HookRefresh Session Machine.
From Stdlib Require Import ZArith Ascii.
Import Base64 Client.

(** ** [MfaEnrollFlow]: password, setup, code, recovery codes *)
Module Enrol.
Record SetupOut := MkSetup { otpauth_uri : string; secret : string }.

Record flow := Flow {
  password : string;
  code : string;
  pending : option SetupOut;
  codes : option (list string);
  flow_error : option msg;
  setupPending : bool;
  confirmPending : bool;
}.
Definition initial : flow := Flow "" "" None None None false false.

(** Which step is rendered; an empty list of codes is truthy. *)
Inductive step := CodesStep (l : list string) | ConfirmStep (o : SetupOut) | PasswordStep.
Definition view (f : flow) : step :=
  match codes f with
  | Some l => CodesStep l
  | None => match pending f with Some o => ConfirmStep o | None => PasswordStep end
  end.

Inductive event :=
| TypePassword (s : string)
| StartSetup
| SetupSettled (out : option SetupOut)        (* [None]: it threw *)
| TypeCode (s : string)
| DoConfirm
| ConfirmSettled (out : option (list string))
| Done.                                      (* the button under the codes *)

Definition exec (e : event) (f : flow) : option (flow * list request) :=
  match e, view f with
  | TypePassword s, PasswordStep =>
      Some (Flow s (code f) (pending f) (codes f) (flow_error f) (setupPending f) (confirmPending f), [])
  | StartSetup, PasswordStep =>
      if setupPending f then None
      else Some (Flow (password f) (code f) (pending f) (codes f) None true (confirmPending f),
                 [m_request (Mfa.useMfaSetup (password f))])
  | SetupSettled out, _ =>
      if setupPending f
      then Some (match out with
                 | Some o => Flow (password f) (code f) (Some o) (codes f) (flow_error f) false (confirmPending f)
                 | None => Flow (password f) (code f) (pending f) (codes f) (Some (Tr ["mfa"; "setupError"])) false (confirmPending f)
                 end, [])
      else None
  | TypeCode s, ConfirmStep _ =>
      Some (Flow (password f) s (pending f) (codes f) (flow_error f) (setupPending f) (confirmPending f), [])
  | DoConfirm, ConfirmStep _ =>
      if confirmPending f then None
      else Some (Flow (password f) (code f) (pending f) (codes f) None (setupPending f) true,
                 [m_request (Mfa.useMfaConfirm (code f))])
  | ConfirmSettled out, _ =>
      if confirmPending f
      then Some (match out with
                 | Some l => Flow (password f) (code f) (pending f) (Some l) (flow_error f) (setupPending f) false
                 | None => Flow (password f) (code f) (pending f) (codes f) (Some (Tr ["mfa"; "confirmError"])) (setupPending f) false
                 end, [])
      else None
  | Done, CodesStep _ => Some (f, [])         (* [onDone]: the host acts *)
  | _, _ => None
  end.

(** Codes on screen, no confirmation under way. *)
Definition shows_codes (l : list string) (f : flow) : Prop := codes f = Some l /\ confirmPending f = false.

Lemma exec_keeps_codes l e f f' rs : shows_codes l f -> exec e f = Some (f', rs) -> shows_codes l f'.
Proof.
  intros [Hc Hp]. unfold exec, view, shows_codes. rewrite Hc.
  destruct e as [| |[]| | |[]|]; intros He; js_cases; split; simpl; congruence.
Qed.

Lemma confirm_shows_codes l f f' rs : exec (ConfirmSettled (Some l)) f = Some (f', rs) -> shows_codes l f'.
Proof. unfold exec, shows_codes. destruct (confirmPending f); intros; simplify_eq/=. done. Qed.

(** The steps come in order: a code is asked for only after the setup was
    answered, and codes appear only after a confirmation. *)
Definition ordered (f : flow) : Prop :=
  (confirmPending f = true -> is_Some (pending f)) /\ (is_Some (codes f) -> is_Some (pending f)).
Lemma exec_ordered e f f' rs : ordered f -> exec e f = Some (f', rs) -> ordered f'.
Proof.
  intros [H1 H2]. unfold exec, view, ordered.
  destruct e as [| |[]| | |[]|], (codes f) eqn:Ec, (pending f) eqn:Ep;
    intros He; js_cases; rewrite ?Ec, ?Ep in *; naive_solver.
Qed.
End Enrol.

(** ** [RecoveryCodes]: what is copied and what is downloaded *)
Module Codes.
Abbreviation newline := (ascii_of_nat 10).
Definition copyAll (codes : list string) : string := join (String newline "") codes.
Definition download (codes : list string) : string * string :=
  ("opngms-recovery-codes.txt", join (String newline "") codes +:+ String newline "").

(** The clipboard holds the codes, one a line. *)
Lemma copyAll_lossless codes :
  codes <> [] -> Forall (fun c => mem_char newline c = false) codes -> split newline (copyAll codes) = codes.
Proof. intros. by apply split_join. Qed.
End Codes.

(** ** The hosts of the wizard: the panel and the forced gate

    A host shows the wizard as long as the answer of its own query says so, and
    loses the wizard's state when it stops. *)
Module Host.
(** What [useQuery] of the status holds: nothing yet, an error, or data. *)
Inductive status_query := StatusLoading | StatusError | StatusData (enabled : bool).

Inductive card := LoaderCard | ErrorCard | EnabledCard | EnrolCard.
Definition status_card (q : status_query) : card :=
  match q with
  | StatusLoading => LoaderCard
  | StatusError => ErrorCard
  | StatusData true => EnabledCard
  | StatusData false => EnrolCard
  end.

Definition panel_shows (q : status_query) : bool := match status_card q with EnrolCard => true | _ => false end.
Definition gate_shows (q : Auth.observed Auth.Me) : bool :=
  match Auth.ProtectedRoute (Auth.AuthProvider q) with Auth.SetupGate => true | _ => false end.

(** [onComplete]: the panel refetches the status, the gate refreshes [["me"]]. *)
Definition panel_onComplete : request := q_request Mfa.useMfaStatus.
Definition gate_onComplete : effect := Auth.refresh.

Section host.
Context {A : Type} (shows : A -> bool) (onComplete : list request).

(** The wizard, while it is mounted. *)
Definition host : Type := option Enrol.flow.

Inductive event :=
| Wizard (e : Enrol.event)
| Answered (a : A).               (* the host's query has a new answer *)

Definition exec (e : event) (h : host) : option (host * list request) :=
  match e with
  | Wizard e =>
      f ← h; '(f', rs) ← Enrol.exec e f;
      Some (Some f', rs ++ match e with Enrol.Done => onComplete | _ => [] end)
  | Answered a => Some (if shows a then Some (h orelse Enrol.initial) else None, [])
  end.

Definition screen (h : host) : option (list string) := h ≫= Enrol.codes.

Definition showing (l : list string) (h : host) : Prop := exists f, h = Some f /\ Enrol.shows_codes l f.

Lemma showing_screen l h : showing l h -> screen h = Some l.
Proof using Type. intros (f & -> & Hc & _). done. Qed.

Lemma exec_showing l e h h' rs :
  (forall a, e = Answered a -> shows a = true) -> showing l h -> exec e h = Some (h', rs) -> showing l h'.
Proof using Type.
  intros Ha (f & -> & Hf) He. destruct e as [e|a]; simpl in He.
  - destruct (Enrol.exec e f) as [[f' rs']|] eqn:E; simpl in He; simplify_eq.
    exists f'. split; [done|]. by eapply Enrol.exec_keeps_codes.
  - rewrite (Ha a eq_refl) in He. simplify_eq/=. by exists f.
Qed.

Lemma run_showing l es h h' rs :
  (forall a, Answered a ∈ es -> shows a = true) -> showing l h -> run exec es h = Some (h', rs) -> showing l h'.
Proof using Type.
  revert h rs. induction es as [|e es IH]; intros h rs Ha Hs Hr; [simpl in Hr; by simplify_eq|].
  apply run_cons in Hr as (h1 & r1 & r2 & He & Hr & ->).
  apply (IH h1 r2); [intros; apply Ha; by right| |done].
  apply (exec_showing l e h h1 r1); [intros a ->; apply Ha; by left|done|done].
Qed.

Lemma confirmed_showing l h h' rs :
  exec (Wizard (Enrol.ConfirmSettled (Some l))) h = Some (h', rs) -> showing l h'.
Proof using Type.
  intros H. cbn [exec] in H. destruct h as [f|]; [|done].
  destruct (Enrol.exec (Enrol.ConfirmSettled (Some l)) f) as [[f' rs']|] eqn:E; cbn [mbind option_bind] in H;
    rewrite E in H; [|done].
  simpl in H. simplify_eq. exists f'. split; [done|]. by eapply Enrol.confirm_shows_codes.
Qed.
End host.
Arguments event : clear implicits.

(** The keys a mutation invalidates when it succeeds. *)
Definition refreshed (m : mutation) (v : option json) : list key :=
  omap (fun e => match e with Invalidate k => Some k | _ => None end) (m_success m v).

(** C16.  The recovery codes are shown once: until the host learns that the
    second factor is on.  Whatever host shows the wizard, the codes of a
    confirmation are on its screen as soon as it returns and stay there through
    every further event but an answer that takes the wizard away; such an
    answer removes them for good.  A confirmation refreshes the status and not
    the session.  So the forced gate, which follows the session, keeps the
    codes until they are dismissed or the session is read again, while the
    panel follows the status the confirmation itself refreshes: the answer that
    the factor is on, or a failure to get one, takes the codes off its screen
    before anybody dismissed them. *)
Theorem recovery_codes_shown {A} (shows : A -> bool) onComplete h l h1 rs1 :
  exec shows onComplete (Wizard (Enrol.ConfirmSettled (Some l))) h = Some (h1, rs1) ->
  screen h1 = Some l /\
  (forall es2 h2 rs2, (forall a, Answered a ∈ es2 -> shows a = true) ->
    run (exec shows onComplete) es2 h1 = Some (h2, rs2) -> screen h2 = Some l) /\
  (forall a, shows a = false -> exec shows onComplete (Answered a) h1 = Some (None, [])) /\
  (forall code v, refreshed (Mfa.useMfaConfirm code) v = [q_key Mfa.useMfaStatus] /\
                  q_key Providers.AuthProvider_query ∉ refreshed (Mfa.useMfaConfirm code) v) /\
  panel_shows (StatusData true) = false /\ panel_shows StatusError = false.
Proof.
  intros Hc. apply confirmed_showing in Hc. split_and!; try done.
  - by apply showing_screen.
  - intros es2 h2 rs2 Ha Hr. by eapply showing_screen, run_showing.
  - intros a Ha. simpl. by rewrite Ha.
  - intros code v. split; [done|]. unfold refreshed. simpl. by intros H%list_elem_of_singleton.
Qed.

Lemma recovery_codes_shown_witness :
  let enrolment := [Answered (StatusData false); Wizard (Enrol.TypePassword "pw"); Wizard Enrol.StartSetup;
                    Wizard (Enrol.SetupSettled (Some (Enrol.MkSetup "otpauth://totp/x" "JBSW")));
                    Wizard (Enrol.TypeCode "123456"); Wizard Enrol.DoConfirm] in
  let panel := exec panel_shows [panel_onComplete] in
  let h := Some (Enrol.Flow "pw" "123456" (Some (Enrol.MkSetup "otpauth://totp/x" "JBSW")) None None false true) in
  let h1 := Some (Enrol.Flow "pw" "123456" (Some (Enrol.MkSetup "otpauth://totp/x" "JBSW"))
                    (Some ["AAAAA-11111"]) None false false) in
  run panel enrolment None = Some (h, [m_request (Mfa.useMfaSetup "pw"); m_request (Mfa.useMfaConfirm "123456")]) /\
  panel (Wizard (Enrol.ConfirmSettled (Some ["AAAAA-11111"]))) h = Some (h1, []) /\
  screen h1 = Some ["AAAAA-11111"] /\ panel (Answered (StatusData true)) h1 = Some (None, []).
Proof.
  intros enrolment panel h h1. split; [reflexivity|]. split; [reflexivity|].
  pose proof (recovery_codes_shown panel_shows [panel_onComplete] h ["AAAAA-11111"] h1 [] eq_refl) as (Hs & _ & Hl & _).
  split; [exact Hs|]. by apply Hl.
Defined.

(** In the panel the two orders in which the confirmation returns and the
    refreshed status arrives end the same: no codes. *)
Lemma panel_loses_codes l h h1 rs1 :
  let panel := exec panel_shows [panel_onComplete] in
  panel (Wizard (Enrol.ConfirmSettled (Some l))) h = Some (h1, rs1) ->
  panel (Answered (StatusData true)) h1 = Some (None, []) /\
  panel (Answered (StatusData true)) h = Some (None, []) /\
  panel (Wizard (Enrol.ConfirmSettled (Some l))) None = None.
Proof. done. Qed.
End Host.

(** ** [MfaManage]: new recovery codes, and switching the factor off *)
Module Manage.
Record manage := MkManage {
  regenPassword : string;
  disablePassword : string;
  newCodes : option (list string);
  regenError : option msg;
  disableError : option msg;
  confirmOpen : bool;
  regenPending : bool;
  disablePending : bool;
}.
Definition initial : manage := MkManage "" "" None None None false false false.

Inductive event :=
| TypeRegen (s : string)
| DoRegen
| RegenSettled (out : option (list string))
| CodesDone
| TypeDisable (s : string)
| OpenConfirm
| CloseConfirm
| DoDisable                              (* the confirm button of the dialog *)
| DisableSettled (ok : bool).

Definition exec (e : event) (s : manage) : option (manage * list request) :=
  let '(MkManage rp dp nc re de co rw dw) := s in
  match e with
  | TypeRegen x => match nc with None => Some (MkManage x dp nc re de co rw dw, []) | Some _ => None end
  | DoRegen =>
      match nc with
      | None => if rw then None else Some (MkManage rp dp nc None de co true dw, [m_request (Mfa.useMfaRegenerate rp)])
      | Some _ => None
      end
  | RegenSettled out =>
      if rw then
        Some (match out with
              | Some l => MkManage "" dp (Some l) re de co false dw
              | None => MkManage rp dp nc (Some (Tr ["mfa"; "regenerateError"])) de co false dw
              end, [])
      else None
  | CodesDone => match nc with Some _ => Some (MkManage rp dp None re de co rw dw, []) | None => None end
  | TypeDisable x => Some (MkManage rp x nc re de co rw dw, [])
  | OpenConfirm => Some (MkManage rp dp nc re de true rw dw, [])
  | CloseConfirm => if co then Some (MkManage rp dp nc re de false rw dw, []) else None
  | DoDisable =>
      if co && negb dw
      then Some (MkManage rp dp nc re None co rw true, [m_request (Mfa.useMfaDisable dp)])
      else None
  | DisableSettled ok =>
      if dw then
        Some (if ok then MkManage rp "" nc re de false rw false
              else MkManage rp dp nc re (Some (Tr ["mfa"; "disableError"])) false rw false, [])
      else None
  end.

(** Whether the dialog is open, from the history alone. *)
Definition open_step (b : bool) (e : event) : bool :=
  match e with OpenConfirm => true | CloseConfirm | DisableSettled _ => false | _ => b end.
Definition open_after (es : list event) : bool := fold_left open_step es false.

Lemma run_open es s rs : run exec es initial = Some (s, rs) -> confirmOpen s = open_after es.
Proof.
  intros H. pattern es, s, rs. revert es s rs H. apply run_history; [done|].
  intros es s rs e s' rs' _ IH He. unfold open_after. rewrite fold_left_app. fold (open_after es). rewrite <- IH.
  destruct s as [rp dp nc re de co rw dw], e as [| |[]| | | | | |[]]; simpl in *; js_cases; done.
Qed.

(** The factor is switched off only from the open dialog, with the password
    typed; a password that did its work is wiped, and codes that were shown are
    left only by their button. *)
Lemma disable_confirmed es s rs p :
  run exec es initial = Some (s, rs) -> m_request (Mfa.useMfaDisable p) ∈ rs ->
  exists es1 es2, es = es1 ++ DoDisable :: es2 /\ open_after es1 = true.
Proof.
  intros H Hin. destruct (run_request _ _ _ _ _ _ H Hin) as (es1 & e & es2 & s1 & r1 & s2 & r2 & -> & H1 & He & Hr).
  exists es1, es2. rewrite <- (run_open _ _ _ H1).
  destruct s1 as [rp dp nc re de co rw dw], e as [| |[]| | | | | |[]]; simpl in *; js_cases;
    try (by apply not_elem_of_nil in Hr); apply list_elem_of_singleton in Hr; try discriminate.
  apply andb_true_iff in Heqb as [-> _]. done.
Qed.

Lemma passwords_wiped s s' rs :
  (forall l, exec (RegenSettled (Some l)) s = Some (s', rs) -> regenPassword s' = "" /\ newCodes s' = Some l) /\
  (exec (DisableSettled true) s = Some (s', rs) -> disablePassword s' = "" /\ confirmOpen s' = false).
Proof. destruct s as [rp dp nc re de co rw dw]; simpl; split; intros; js_cases; done. Qed.
End Manage.

(** ** [PasskeysSection] *)
Module Passkeys.
Record section_ := MkSection {
  password : string;
  pk_name : string;
  shown_addError : option msg;
  removeError : option msg;
  addPending : bool;
}.
Definition initial : section_ := MkSection "" "" None None false.

(** [err instanceof PasskeyConfigError], [err instanceof LastFactorError] *)
Definition instance_of (class : string) (m : msg) : bool :=
  match m with Class_ c _ => bool_decide (c = class) | _ => false end.
Definition doAdd_error (e : Mfa.passkey_error) : msg :=
  match e with
  | Mfa.HookError m => if instance_of "PasskeyConfigError" m then Tr ["mfa"; "passkeys"; "notConfigured"]
                       else Tr ["mfa"; "passkeys"; "addError"]
  | Mfa.PromptError _ => Tr ["mfa"; "passkeys"; "addError"]
  end.
Definition doRemove_error (m : msg) : msg :=
  if instance_of "LastFactorError" m then Tr ["mfa"; "passkeys"; "lastFactorError"]
  else Tr ["mfa"; "passkeys"; "removeError"].

Section passkeys.
Context (supported : bool).

(** [doAdd]: the click, and what the page does with the outcome. *)
Definition add_click (s : section_) : option section_ :=
  if negb supported || addPending s then None
  else Some (MkSection (password s) (pk_name s) None (removeError s) true).
Definition add_settled (out : outcome Mfa.passkey_error (option json)) (s : section_) : section_ :=
  match out with
  | Returned _ => MkSection "" "" (shown_addError s) (removeError s) false
  | Threw e => MkSection (password s) (pk_name s) (Some (doAdd_error e)) (removeError s) false
  end.
(** [doRemove], after the dialog. *)
Definition remove_settled (out : outcome msg (option json)) (s : section_) : section_ :=
  match out with
  | Returned _ => MkSection (password s) (pk_name s) (shown_addError s) None (addPending s)
  | Threw m => MkSection (password s) (pk_name s) (shown_addError s) (Some (doRemove_error m)) (addPending s)
  end.

(** The list is fetched only where the browser has passkeys. *)
Definition creds_query : query := Mfa.useWebAuthnCredentials supported.
Definition row_name (name : string) (unnamed : string) : string := if name === "" then unnamed else name.
End passkeys.

(** C23.  A failed passkey registration says why and loses nothing.  Whatever
    the server answers and the authenticator does: a registration clears the
    form and shows no error exactly when it returned; otherwise password and
    name stay as typed and the page shows one of two texts, "not configured"
    exactly when the server refused to begin with status 409.  Removing shows
    "last factor" exactly for an error with status 409. *)
Theorem passkey_failures_told server create s s1 :
  add_click true s = Some s1 ->
  let out := (Mfa.useAddPasskey server create (password s) (pk_name s)).2 in
  let s2 := add_settled out s1 in
  let begin_ := server (Mfa.begin_request (password s)) in
  let refused := truthy (error begin_) || negb (truthy (data begin_)) in
  match out with
  | Returned _ => password s2 = "" /\ pk_name s2 = "" /\ shown_addError s2 = None
  | Threw _ =>
      password s2 = password s /\ pk_name s2 = pk_name s /\
      shown_addError s2 = Some (if refused && (status begin_ =? 409)%Z
                                then Tr ["mfa"; "passkeys"; "notConfigured"] else Tr ["mfa"; "passkeys"; "addError"])
  end /\
  (forall credId r, removeError (remove_settled (m_fn (Mfa.useRemovePasskey credId) r) s) =
     if truthy (error r)
     then Some (if (status r =? 409)%Z then Tr ["mfa"; "passkeys"; "lastFactorError"]
                else Tr ["mfa"; "passkeys"; "removeError"])
     else None).
Proof.
  intros Hc. unfold add_click in Hc. destruct (addPending s) eqn:Ep; [done|]. simpl in Hc. injection Hc as <-.
  intros out s2 begin_ refused. split.
  - subst s2 out. unfold Mfa.useAddPasskey. fold begin_. fold refused.
    destruct refused eqn:Er; simpl.
    + destruct (status begin_ =? 409)%Z; done.
    + destruct (createCredential create (data begin_ orelse JNull)) as [c|e]; simpl; [|done].
      match goal with |- context [if ?b then Threw _ else _] => destruct b end; done.
  - intros credId r. simpl. destruct (truthy (error r)); [|done]. by destruct (status r =? 409)%Z.
Qed.

Lemma passkey_failures_told_witness :
  let s := MkSection "pw" "laptop" None None false in
  let s1 := MkSection "pw" "laptop" None None true in
  let server (_ : request) := FetchResult None (Some (JStr "no")) 409 in
  add_click true s = Some s1 /\
  shown_addError (add_settled (Mfa.useAddPasskey server (fun _ => Threw TypeError) "pw" "laptop").2 s1)
  = Some (Tr ["mfa"; "passkeys"; "notConfigured"]).
Proof.
  intros s s1 server. split; [reflexivity|].
  exact (proj2 (proj2 (proj1 (passkey_failures_told server (fun _ => Threw TypeError) s s1 eq_refl)))).
Defined.
End Passkeys.

(** ** [MfaPolicyControl], [TrustedDeviceToggleControl] *)
Module Org.
Definition policies : list string := ["off"; "all"; "privileged"].

(** What the control shows: nothing while loading, a text on error, or a mode. *)
Inductive policy_view := PolicyLoader | PolicyError | PolicyMode (mode : string).
Definition policy_control (isLoading is_error : bool) (mode : option string) : policy_view :=
  if isLoading then PolicyLoader else if is_error then PolicyError else PolicyMode (mode orelse "off").

Definition change (mode : string) : option mutation :=
  if bool_decide (mode ∈ policies) then Some (Mfa.useSetMfaPolicy mode) else None.
Definition change_note (out : outcome msg (option json)) : msg :=
  match out with Returned _ => Tr ["mfa"; "policySaved"] | Threw _ => Tr ["mfa"; "policySaveError"] end.

(** [MfaUsersTable]: a loader, an error, or a row and a reset button per user. *)
Record UserOut := MkUser { u_id : string; u_name : string; u_email : string; is_superadmin : bool }.
Inductive users_view := UsersLoader | UsersError | UsersRows (l : list (UserOut * msg)).
Definition user_badge (u : UserOut) : msg := if is_superadmin u then Tr ["mfa"; "superadmin"] else Tr ["mfa"; "member"].
Definition MfaUsersTable (isLoading is_error : bool) (d : option (list UserOut)) : users_view :=
  if isLoading then UsersLoader else if is_error then UsersError
  else UsersRows ((fun u => (u, user_badge u)) <$> (d orelse [])).
Definition reset_note (out : outcome msg (option json)) : msg :=
  match out with Returned _ => Tr ["mfa"; "resetDone"] | Threw _ => Tr ["mfa"; "resetError"] end.

(** The switch of the trusted-device feature. *)
Definition toggle_checked (d : option bool) : bool := d orelse false.
Definition toggle_click (isLoading isPending : bool) (checked : bool) : option mutation :=
  if isLoading || isPending then None else Some (Mfa.useSetTrustedDeviceToggle checked).
End Org.

(** ** [MfaPanel]: which cards are rendered *)
Module Panel.
Record MfaStatus := MkStatus { enabled : bool; remaining : Z; configured : option bool; trusted : option bool }.
Inductive card := Factor | PasskeysCard | DevicesCard | OrgCard.
Definition cards (status : option MfaStatus) (superadmin : bool) : list card :=
  [Factor] ++
  (if (status ≫= configured) orelse false then [PasskeysCard] else []) ++
  (if (status ≫= trusted) orelse false then [DevicesCard] else []) ++
  (if superadmin then [OrgCard] else []).
Definition MfaPanel (a : Auth.AuthState) (status : option MfaStatus) : list card :=
  cards status (Auth.useIsSuperadmin a).

(** Organisation settings are shown to superadmins only. *)
Lemma org_card_superadmin a status : OrgCard ∈ MfaPanel a status <-> Auth.useIsSuperadmin a = true.
Proof.
  unfold MfaPanel, cards. rewrite !elem_of_app.
  destruct (Auth.useIsSuperadmin a), ((status ≫= configured) orelse false), ((status ≫= trusted) orelse false);
    set_solver.
Qed.
End Panel.

(** ** [SessionsPage] *)
Module Sessions.
Inductive view := PageLoader | LoadError | Table (sessions : list json).
Definition SessionsPage (isLoading is_error : bool) (d : option (list json)) : view :=
  if isLoading then PageLoader else if is_error then LoadError else Table (d orelse []).
Definition current (row : json) : bool := truthy (field "current" row).
Definition handleLogoutAll (isPending : bool) : option mutation := if isPending then None else Some Mfa.useLogoutAll.
Definition logout_note (out : outcome msg (option json)) : option msg :=
  match out with Returned _ => None | Threw _ => Some (Tr ["sessions"; "logoutAllError"]) end.
End Sessions.

(** ** [TrustedDevicesSection] *)
Module Devices.
Definition revokeError (out : outcome msg (option json)) : option msg :=
  match out with Returned _ => None | Threw _ => Some (Tr ["mfa"; "trustedDevices"; "revokeError"]) end.
Definition shows_empty (devices : list json) (load_error : bool) : bool :=
  (length devices =? 0) && negb load_error.
Definition offers_revokeAll (devices : list json) : bool := 0 <? length devices.
End Devices.

(** ** [QrCode]: an encoding that arrives late is dropped *)
Module Qr.
Section qr.
(** The library's encoder: [None] is a rejected promise. *)
Context (encode : string -> option string).

(** [started] lists the values of the runs of the effect, the latest first; a
    run is cancelled when the next one starts. *)
Record qr := MkQr { src : option string; started : list string }.
Definition mount (v : string) : qr := MkQr None [v].

Inductive event :=
| NewValue (v : string)          (* cleanup, then a new run *)
| Encoded (run_ : nat).          (* the encoding of run [run_], from 0, settles *)

Definition live (q : qr) : nat := length (started q) - 1.
Definition step (q : qr) (e : event) : qr :=
  match e with
  | NewValue v => MkQr (src q) (v :: started q)
  | Encoded n => if n =? live q then MkQr (rev (started q) !! n ≫= encode) (started q) else q
  end.
Definition steps (es : list event) (q : qr) : qr := fold_left step es q.

(** The image shown once the current run has settled is that of the current
    value, whatever order the encodings arrive in. *)
Definition good (es : list event) (q0 q : qr) : Prop :=
  started q <> [] /\
  (forall n, Encoded n ∈ es -> n = live q -> src q = rev (started q) !! n ≫= encode).

Lemma qr_current (v : string) es :
  (forall es1 n es2, es = es1 ++ Encoded n :: es2 -> n < length (started (steps es1 (mount v)))) ->
  good es (mount v) (steps es (mount v)).
Proof using Type.
  induction es as [|e es IH] using rev_ind; intros Hn.
  - split; [done|]. intros n H. by apply not_elem_of_nil in H.
  - destruct IH as [Hs Hg].
    { intros es1 n es2 ->. apply (Hn es1 n (es2 ++ [e])). by rewrite <- app_assoc. }
    unfold steps in *. rewrite fold_left_app. simpl. fold (steps es (mount v)) in *.
    set (q := steps es (mount v)) in *. destruct e as [w|n]; split; simpl.
    + done.
    + intros n [Hin|Hin%list_elem_of_singleton]%elem_of_app Hl; [|done]. exfalso.
      apply list_elem_of_split in Hin as (l1 & l2 & ->).
      pose proof (Hn l1 n (l2 ++ [NewValue w])) as Hlt.
      rewrite <- app_assoc in Hlt. specialize (Hlt eq_refl).
      assert (length (started (steps l1 (mount v))) <= length (started q)).
      { subst q. unfold steps. rewrite fold_left_app. generalize (fold_left step l1 (mount v)).
        generalize (Encoded n :: l2). intros l. induction l as [|e l IHl]; intros q; simpl; [lia|].
        etransitivity; [|apply IHl]. destruct e as [x|k]; simpl; [lia|]. by destruct (k =? live q). }
      unfold live in Hl. simpl in Hl. fold (steps l1 (mount v)) in Hlt. lia.
    + by destruct (n =? live q).
    + intros m Hin Hm. destruct (n =? live q) eqn:E.
      * apply Nat.eqb_eq in E as ->. simpl in Hm |- *. unfold live in Hm. simpl in Hm. by rewrite Hm.
      * apply Hg; [|done]. apply elem_of_app in Hin as [Hin|Hin%list_elem_of_singleton]; [done|].
        injection Hin as ->. apply Nat.eqb_neq in E. congruence.
Qed.
End qr.
End Qr.
