(* ===== verification/Seeded.v ===== *)
(** * Forms seeded from a query

    [pages/ReportSettingsPage.tsx], [retention/RetentionCard.tsx] and
    [pages/SmtpSettingsPage.tsx] share a shape: an effect copies the loaded
    settings into the form, guarded by a ref that says what the form was
    seeded for, and the save button sends the form to the tenant active then.
    The ref's type, its test and what it is set to are arguments: that is where
    the pages differ. *)
From S2P Require Import Prelude Json Http QueryClient Hooks Machine.
From Stdlib Require Import ZArith.

(** What a render sees: the active tenant and its query. *)
Record props (D : Type) := Props { activeId : option string; isLoading : bool; failed : bool; data_ : option D }.
Arguments Props {D}. Arguments activeId {D}. Arguments isLoading {D}. Arguments failed {D}. Arguments data_ {D}.

(** The form is rendered unless the page shows a loader or an error. *)
Definition rendered {D} (p : props D) : bool := negb (isLoading p) && negb (failed p).

(** What react-query's contract makes of the page's query: enabled by a tenant,
    settled without error means data, and no tenant means no data. *)
Definition coherent {D} (p : props D) : Prop :=
  (rendered p = true -> present (activeId p) = true -> is_Some (data_ p)) /\
  (present (activeId p) = false -> data_ p = None).

Section seeded.
Context {D V E R : Type}.
Context (blank : V) (seed : D -> V) (edit : E -> V -> V) (saved : V -> V).
Context (r0 : R) (stale : R -> option string -> bool) (mark : option string -> R).
Context (request_of : option string -> V -> request).

Record form := Form { shown : props D; values : V; ref : R; pending : bool }.

Inductive event :=
| Render (p : props D)
| Edit (e : E)
| Save
| Settled (ok : bool).

(** The effect after a render. *)
Definition effect_ (p : props D) (f : form) : form :=
  match data_ p with
  | Some d => if stale (ref f) (activeId p) then Form p (seed d) (mark (activeId p)) (pending f)
              else Form p (values f) (ref f) (pending f)
  | None => Form p (values f) (ref f) (pending f)
  end.

Definition initial (p : props D) : form := effect_ p (Form p blank r0 false).

Definition exec (e : event) (f : form) : option (form * list request) :=
  match e with
  | Render p => Some (effect_ p f, [])
  | Edit x => if rendered (shown f) then Some (Form (shown f) (edit x (values f)) (ref f) (pending f), []) else None
  | Save =>
      if rendered (shown f) && negb (pending f)
      then Some (Form (shown f) (values f) (ref f) true, [request_of (activeId (shown f)) (values f)])
      else None
  | Settled ok =>
      if pending f
      then Some (Form (shown f) (if ok then saved (values f) else values f) (ref f) false, [])
      else None
  end.

(** The edits of a history, applied to what the form held. *)
Definition replay1 (v : V) (e : event) : V :=
  match e with Edit x => edit x v | Settled true => saved v | _ => v end.
Definition replay (es : list event) (v : V) : V := fold_left replay1 es v.

Lemma replay_snoc es e v : replay (es ++ [e]) v = replay1 (replay es v) e.
Proof using Type. unfold replay. by rewrite fold_left_app. Qed.

(** A form opened by [Render p0 :: es]: what it holds was copied from the data
    of one render, or was never seeded. *)
Definition origin (es : list event) (f : form) : Prop :=
  (exists a p d b, es = a ++ Render p :: b /\ data_ p = Some d /\
     ref f = mark (activeId p) /\ values f = replay b (seed d)) \/
  (ref f = r0 /\ values f = replay es blank).

Definition fresh (f : form) : Prop :=
  is_Some (data_ (shown f)) -> stale (ref f) (activeId (shown f)) = false.

(** The ref, once marked for a tenant, is not stale for it. *)
Hypothesis mark_fresh : forall t, stale (mark t) t = false.

Lemma effect_fresh p f : fresh (effect_ p f).
Proof using mark_fresh.
  unfold fresh, effect_. destruct (data_ p) as [d|] eqn:Ed; [|simpl; rewrite Ed; by intros []].
  destruct (stale (ref f) (activeId p)) eqn:Es; simpl; auto.
Qed.

Lemma origin_keep es e f f' :
  origin es f -> ref f' = ref f -> values f' = replay1 (values f) e -> origin (es ++ [e]) f'.
Proof using Type.
  intros [(a & p & d & b & -> & Hd & Hr & Hv)|[Hr Hv]] Hr' Hv'; [left|right].
  - exists a, p, d, (b ++ [e]). rewrite <- app_assoc. split; [done|]. split; [done|].
    split; [congruence|]. by rewrite replay_snoc, Hv', Hv.
  - split; [congruence|]. by rewrite replay_snoc, Hv', Hv.
Qed.

Lemma effect_origin es p f : origin es f -> origin (es ++ [Render p]) (effect_ p f).
Proof using Type.
  intros Ho. unfold effect_. destruct (data_ p) as [d|] eqn:Ed; [|by eapply origin_keep].
  destruct (stale (ref f) (activeId p)); [|by eapply origin_keep].
  left. exists es, p, d, []. done.
Qed.

Lemma run_origin p0 es f rs :
  run exec es (initial p0) = Some (f, rs) -> origin (Render p0 :: es) f /\ fresh f.
Proof using mark_fresh.
  intros H. pattern es, f, rs. revert es f rs H. apply run_history.
  - split; [|apply effect_fresh]. apply (effect_origin [] p0). right. done.
  - intros es f rs e f' rs' _ [Ho Hf] He. change (Render p0 :: es ++ [e]) with ((Render p0 :: es) ++ [e]).
    destruct e as [p|x| |ok]; simpl in He.
    + simplify_eq. split; [by apply effect_origin|apply effect_fresh].
    + destruct (rendered (shown f)); simplify_eq/=. split; [by apply (origin_keep (Render p0 :: es) (Edit x) f)|exact Hf].
    + destruct (rendered (shown f) && negb (pending f)); simplify_eq/=.
      split; [by apply (origin_keep (Render p0 :: es) Save f)|exact Hf].
    + destruct (pending f); simplify_eq/=. split; [|exact Hf].
      apply (origin_keep (Render p0 :: es) (Settled ok) f); [done|done|]. by destruct ok.
Qed.

(** What the page was last rendered with. *)
Fixpoint last_render (p : props D) (es : list event) : props D :=
  match es with [] => p | Render q :: es => last_render q es | _ :: es => last_render p es end.

Lemma run_shown p0 es f rs : run exec es (initial p0) = Some (f, rs) -> shown f = last_render p0 es.
Proof using Type.
  assert (Hs : forall p f, shown (effect_ p f) = p).
  { intros p f'. unfold effect_. destruct (data_ p); [|done]. by destruct (stale _ _). }
  intros H. assert (shown (initial p0) = p0) as Hi by apply Hs. revert H Hi.
  generalize (initial p0). revert p0 rs. induction es as [|e es IH]; intros p0 rs g H Hi.
  - simpl in H. by simplify_eq/=.
  - apply run_cons in H as (g1 & r1 & r2 & He & Hr & ->).
    destruct e as [p|x| |ok]; simpl in He; js_cases; eapply IH; eauto.
Qed.

(** Every save sends, to the tenant active at that moment, the data of one
    render, for which the form was seeded and is not stale, with the edits
    made since. *)
Lemma saves_sound p0 es f rs rq :
  Forall coherent (p0 :: omap (fun e => match e with Render p => Some p | _ => None end) es) ->
  run exec es (initial p0) = Some (f, rs) -> rq ∈ rs -> (forall t, stale r0 (Some t) = true) ->
  exists es1 es2 f1 rs1, es = es1 ++ Save :: es2 /\ run exec es1 (initial p0) = Some (f1, rs1) /\
    rq = request_of (activeId (last_render p0 es1)) (values f1) /\
    (present (activeId (last_render p0 es1)) = true ->
     exists a p d b, Render p0 :: es1 = a ++ Render p :: b /\ data_ p = Some d /\
       stale (mark (activeId p)) (activeId (last_render p0 es1)) = false /\ values f1 = replay b (seed d)).
Proof using mark_fresh.
  intros Hco H Hin Hr0.
  destruct (run_request _ _ _ _ _ _ H Hin) as (es1 & e & es2 & f1 & r1 & f2 & r2 & -> & H1 & He & Hr).
  assert (e = Save) as ->.
  { destruct e; simpl in He; js_cases; try done; by apply not_elem_of_nil in Hr. }
  cbn [exec] in He. destruct (rendered (shown f1)) eqn:Ed; [|done]. destruct (negb (pending f1)); [|done].
  simplify_eq/=. apply list_elem_of_singleton in Hr as ->.
  pose proof (run_shown _ _ _ _ H1) as Hsh. rewrite Hsh in *.
  exists es1, es2, f1, r1. do 3 (split; [done|]). intros Hp.
  destruct (run_origin _ _ _ _ H1) as [Ho Hf]. unfold fresh in Hf. rewrite Hsh in Hf.
  assert (Hc : coherent (last_render p0 es1)).
  { rewrite omap_app in Hco. revert Hco. clear. revert p0.
    induction es1 as [|e es1 IH]; intros p0 Hc; simpl in *; [by inversion Hc|].
    destruct e; simpl in *; [apply IH; by inversion Hc| | |]; apply IH; done. }
  destruct Hc as [Hd _]. specialize (Hf (Hd Ed Hp)).
  destruct Ho as [(a & p & d & b & Ha & Hdp & Hm & Hv)|[Hm _]].
  - exists a, p, d, b. split_and!; try done. by rewrite <- Hm.
  - rewrite Hm in Hf. destruct (activeId (last_render p0 es1)) as [t|]; [|done]. by rewrite Hr0 in Hf.
Qed.
End seeded.
Arguments form : clear implicits.
Arguments event : clear implicits.

(** ** The two guards of the pages *)

(** [initializedRef]: a boolean, set once. *)
Definition once_stale (r : bool) (_ : option string) : bool := negb r.
Definition once_mark (_ : option string) : bool := true.

(** [seededFor]: the tenant. *)
Definition per_tenant_stale (r : option string) (t : option string) : bool := negb (bool_decide (r = t)).
Definition per_tenant_mark (t : option string) : option string := t.

Lemma once_fresh t : once_stale (once_mark t) t = false.
Proof. done. Qed.
Lemma per_tenant_fresh t : per_tenant_stale (per_tenant_mark t) t = false.
Proof. unfold per_tenant_stale, per_tenant_mark. by rewrite bool_decide_refl. Qed.
Lemma per_tenant_same t u : per_tenant_stale (per_tenant_mark t) u = false -> t = u.
Proof. unfold per_tenant_stale, per_tenant_mark. rewrite negb_false_iff. apply bool_decide_eq_true. Qed.
