(* ===== verification/I18n.v ===== *)
(** * Interface language ([i18n/locale.ts], [i18n/index.ts])

    Detection and persistence of the locale, and the provider with its
    session-wide cache of lazily loaded dictionaries as a state machine. *)
From S2P Require Import Prelude Machine JsString Storage.
From Stdlib Require Import Ascii.

(** ** [i18n/locale.ts] *)
Module Locale.
Definition SUPPORTED_LOCALES : list string :=
  ["en"; "it"; "es"; "fr"; "de"; "pt"; "nl"; "ru"; "ar"; "zh"; "zh-TW"; "ja"].

Definition LOCALE_LABELS : list (string * string) :=
  [("en", "English"); ("it", "Italiano"); ("es", "Español"); ("fr", "Français"); ("de", "Deutsch");
   ("pt", "Português"); ("nl", "Nederlands"); ("ru", "Русский"); ("ar", "العربية");
   ("zh", "简体中文"); ("zh-TW", "繁體中文"); ("ja", "日本語")].

Definition RTL_LOCALES : list string := ["ar"].
Definition isRtl (locale : string) : bool := bool_decide (locale ∈ RTL_LOCALES).

Definition DEFAULT_LOCALE : string := "en".
Definition LS_KEY : string := "opngms.locale".

Definition isLocale (value : option string) : bool :=
  match value with
  | Some v => negb (v === "") && bool_decide (v ∈ SUPPORTED_LOCALES)
  | None => false
  end.

(** [toLowerCase] on ASCII, the alphabet of language tags. *)
Definition lower_char (c : ascii) : ascii :=
  let n := nat_of_ascii c in if (65 <=? n) && (n <=? 90) then ascii_of_nat (n + 32) else c.
Definition toLowerCase (s : string) : string := of_chars (lower_char <$> chars s).

(** [indexOf] then indexing: the element of [SUPPORTED_LOCALES] whose lower
    case is the given text. *)
Definition supported_by_lower (s : string) : option string :=
  List.find (fun l => toLowerCase l === s) SUPPORTED_LOCALES.

(** [/hant|tw|hk|mo/.test(lang)] *)
Definition contains (needle s : string) : bool :=
  match String.index 0 needle s with Some _ => true | None => false end.
Definition traditional (lang : string) : bool :=
  contains "hant" lang || contains "tw" lang || contains "hk" lang || contains "mo" lang.

Definition primary (lang : string) : string := head (split "-"%char lang) orelse "".

(** One turn of the loop over the preferred languages. *)
Definition match_lang (raw : option string) : option string :=
  match raw with
  | None => None
  | Some raw =>
      if raw === "" then None
      else let lang := toLowerCase raw in
           match supported_by_lower lang with
           | Some l => Some l
           | None => if String.prefix "zh" lang
                     then Some (if traditional lang then "zh-TW" else "zh")
                     else supported_by_lower (primary lang)
           end
  end.

Fixpoint first_match (langs : list (option string)) : option string :=
  match langs with
  | [] => None
  | raw :: langs => match match_lang raw with Some l => Some l | None => first_match langs end
  end.

(** [navigator]: absent, or its [languages] and [language]. *)
Record navigator := Navigator { languages : option (list (option string)); language : option string }.

Definition preferred (n : navigator) : list (option string) :=
  match languages n with
  | Some (l :: ls) => l :: ls
  | _ => [language n]
  end.

Definition detectInitialLocale (disk : storage) (nav : option navigator) : string :=
  let stored := read_or_null LS_KEY disk in
  if isLocale stored then stored orelse DEFAULT_LOCALE
  else match nav with
       | Some n => first_match (preferred n) orelse DEFAULT_LOCALE
       | None => DEFAULT_LOCALE
       end.

Definition persistLocale (locale : string) (disk : storage) : storage := write_quietly LS_KEY locale disk.

Lemma supported_by_lower_ok s l : supported_by_lower s = Some l -> l ∈ SUPPORTED_LOCALES /\ toLowerCase l = s.
Proof.
  unfold supported_by_lower. intros [Hin H]%List.find_some.
  apply bool_decide_eq_true in H. by rewrite list_elem_of_In.
Qed.

Lemma match_lang_ok raw l : match_lang raw = Some l -> l ∈ SUPPORTED_LOCALES.
Proof.
  unfold match_lang. destruct raw as [raw|]; [|done]. case_bool_decide; [done|].
  destruct (supported_by_lower (toLowerCase raw)) as [l'|] eqn:E.
  - intros [= <-]. by apply supported_by_lower_ok in E as [? _].
  - destruct (String.prefix "zh" _); [|by intros [? _]%supported_by_lower_ok].
    intros [= <-]. destruct (traditional _); set_solver.
Qed.

Lemma first_match_ok langs l : first_match langs = Some l -> l ∈ SUPPORTED_LOCALES.
Proof.
  induction langs as [|raw langs IH]; simpl; [done|].
  destruct (match_lang raw) eqn:E; [|done]. intros [= <-]. by eapply match_lang_ok.
Qed.

Lemma isLocale_supported v : isLocale (Some v) = true <-> v ∈ SUPPORTED_LOCALES.
Proof.
  unfold isLocale. rewrite andb_true_iff, negb_true_iff, bool_decide_eq_true, bool_decide_eq_false.
  split; [tauto|]. intros Hv. split; [|done]. intros ->. revert Hv. apply (bool_decide_unpack _). vm_compute. exact I.
Qed.

Lemma isLocale_some o : isLocale o = true -> exists v, o = Some v /\ v ∈ SUPPORTED_LOCALES.
Proof. destruct o as [v|]; [|done]. rewrite isLocale_supported. eauto. Qed.

(** Tags in lower case: the lower-case letters, the hyphen, digits. *)
Lemma toLowerCase_app a b : toLowerCase (a +:+ b) = toLowerCase a +:+ toLowerCase b.
Proof.
  unfold toLowerCase. rewrite chars_app, fmap_app. generalize (lower_char <$> chars a) as l1.
  generalize (lower_char <$> chars b) as l2. intros l2 l1.
  rewrite <- (of_chars_chars (of_chars l1 +:+ of_chars l2)). by rewrite chars_app, !chars_of_chars.
Qed.

(** The languages with a plain two-letter tag other than Chinese. *)
Definition plain_locales : list string := ["en"; "it"; "es"; "fr"; "de"; "pt"; "nl"; "ru"; "ar"; "ja"].

Lemma plain_match l rest : l ∈ plain_locales -> match_lang (Some (l +:+ "-" +:+ rest)) = Some l.
Proof.
  intros Hl. unfold match_lang. rewrite bool_decide_false
    by (revert Hl; unfold plain_locales; intros Hl E; set_unfold; naive_solver).
  rewrite toLowerCase_app.
  change ("-" +:+ rest) with (String "-" rest).
  replace (toLowerCase (String "-" rest)) with (String "-" (toLowerCase rest)) by done.
  generalize (toLowerCase rest) as r. intros r.
  repeat (apply elem_of_cons in Hl as [-> | Hl]; [|]); try (by apply not_elem_of_nil in Hl);
    (match goal with |- context [toLowerCase ?x +:+ _] => change (toLowerCase x) with x end);
    reflexivity.
Qed.

Lemma detect_supported disk nav : detectInitialLocale disk nav ∈ SUPPORTED_LOCALES.
Proof.
  unfold detectInitialLocale. destruct (isLocale _) eqn:E.
  - apply isLocale_some in E as (v & -> & Hv). done.
  - assert (Hd : DEFAULT_LOCALE ∈ SUPPORTED_LOCALES) by set_solver.
    destruct nav as [n|]; [|done]. destruct (first_match _) eqn:Ef; [|done]. by apply first_match_ok in Ef.
Qed.

(** The detected locale is always supported; a persisted choice survives
    a reload whatever the browser prefers; without one, the browser's
    preferred language is honoured by its primary subtag, whatever the region
    ([it-IT] is [it]), also when it follows languages the console lacks; and
    an unusable storage or browser falls back to English. *)
Theorem detectInitialLocale_spec disk nav :
  detectInitialLocale disk nav ∈ SUPPORTED_LOCALES /\
  (forall l, usable disk = true -> l ∈ SUPPORTED_LOCALES ->
     detectInitialLocale (persistLocale l disk) nav = l) /\
  (forall l region before after,
     read_or_null LS_KEY disk = None -> l ∈ plain_locales ->
     Forall (fun raw => match_lang raw = None) before ->
     detectInitialLocale disk
       (Some (Navigator (Some (before ++ Some (l +:+ "-" +:+ region) :: after)) None)) = l) /\
  (readable disk = false -> detectInitialLocale disk None = "en").
Proof.
  split_and!.
  - apply detect_supported.
  - intros l Hu Hl. unfold detectInitialLocale, persistLocale. rewrite read_write by done.
    by rewrite (proj2 (isLocale_supported l) Hl).
  - intros l region before after Hs Hl Hb. unfold detectInitialLocale. rewrite Hs. cbn [isLocale].
    assert (Hp : preferred (Navigator (Some (before ++ Some (l +:+ "-" +:+ region) :: after)) None)
                 = before ++ Some (l +:+ "-" +:+ region) :: after) by (by destruct before).
    rewrite Hp. clear Hp. induction Hb as [|raw before Hraw Hb IH]; cbn [app first_match].
    + by rewrite plain_match.
    + by rewrite Hraw.
  - intros Hr. unfold detectInitialLocale, read_or_null, getItem. by rewrite Hr.
Qed.

(** Simplified Chinese in Hong Kong is taken for Traditional. *)
Lemma zh_Hans_HK_is_traditional : match_lang (Some "zh-Hans-HK") = Some "zh-TW".
Proof. reflexivity. Qed.
End Locale.

Lemma elem_of_delete_ne {A} (l : list A) i x y :
  l !! i = Some y -> x <> y -> x ∈ l -> x ∈ delete i l.
Proof.
  intros Hi Hne Hx. apply list_elem_of_lookup in Hx as [j Hj].
  destruct (decide (i = j)) as [->|Hij]; [congruence|].
  apply list_elem_of_lookup. destruct (decide (j < i)) as [Hl|Hg].
  - exists j. by rewrite list_lookup_delete_lt.
  - exists (j - 1). rewrite list_lookup_delete_ge by lia. by replace (S (j - 1)) with j by lia.
Qed.

(** ** [i18n/index.ts] *)
Module Provider.
Import Locale.
Section provider.
(** A dictionary per locale: what the module of that name exports. *)
Context {Dict : Type} (dictionary : string -> Dict).
Definition en : Dict := dictionary "en".

(** A dynamic import under way, with the [cancelled] flag of its effect. *)
Record load := Load { target : string; cancelled : bool }.

Record state := State {
  locale : string;
  cache : gmap string Dict;    (* module level, outlives the component *)
  loads : list load;
  shown : Dict;                (* [t] of the last render *)
  lang : string;               (* [document.documentElement.lang] *)
  disk : storage;
}.

(** [cache[effective] ?? en] *)
Definition dict_of (c : gmap string Dict) (l : string) : Dict := (c !! l) orelse en.

(** Cleanup of the previous effect, then the effect for the new locale. *)
Definition cancel (l : load) : load := Load (target l) true.
Definition loader_effect (c : gmap string Dict) (l : string) (ls : list load) : list load :=
  match c !! l with
  | Some _ => cancel <$> ls
  | None => (cancel <$> ls) ++ [Load l false]
  end.

Definition mount (d : storage) (nav : option navigator) : state :=
  let l := detectInitialLocale d nav in
  let c := {[ "en" := en ]} in
  State l c (loader_effect c l []) (dict_of c l) l d.

(** A [setState] to the current value does not render. *)
Definition setLocale (next : string) (s : state) : state :=
  if negb (isLocale (Some next)) then s
  else let d := persistLocale next (disk s) in
       if next === locale s then State (locale s) (cache s) (loads s) (shown s) (lang s) d
       else State next (cache s) (loader_effect (cache s) next (loads s))
                  (dict_of (cache s) next) next d.

(** The [i]-th import resolves: into the cache always, re-rendering unless
    its effect was cleaned up. *)
Definition resolve (i : nat) (s : state) : option state :=
  l ← loads s !! i;
  let c := <[target l := dictionary (target l)]> (cache s) in
  Some (State (locale s) c (delete i (loads s))
          (if cancelled l then shown s else dict_of c (locale s)) (lang s) (disk s)).

(** It fails: the promise is dropped ([void]), nothing is told and nothing
    rendered. *)
Definition reject (i : nat) (s : state) : option state :=
  l ← loads s !! i;
  Some (State (locale s) (cache s) (delete i (loads s)) (shown s) (lang s) (disk s)).

Inductive event := SetTo (next : string) | Landed (i : nat) | Failed (i : nat).
(** The modules imported on the way are what the component asks for. *)
Definition exec (e : event) (s : state) : option (state * list string) :=
  match e with
  | SetTo next =>
      Some (setLocale next s,
            if negb (isLocale (Some next)) || (next === locale s) then []
            else match cache s !! next with Some _ => [] | None => [next] end)
  | Landed i => s' ← resolve i s; Some (s', [])
  | Failed i => s' ← reject i s; Some (s', [])
  end.

(** The cache holds only true dictionaries, English among them; live imports
    are for the active locale. *)
Definition ready (s : state) : Prop :=
  cache s !! "en" = Some en /\
  (forall l d, cache s !! l = Some d -> d = dictionary l) /\
  locale s ∈ SUPPORTED_LOCALES /\ lang s = locale s /\
  Forall (fun l => cancelled l = false -> target l = locale s) (loads s).

Lemma dict_of_cached c l :
  (forall l d, c !! l = Some d -> d = dictionary l) ->
  (exists d, c !! l = Some d) -> dict_of c l = dictionary l.
Proof using Type. intros Hc [d Hd]. unfold dict_of. rewrite Hd. simpl. by apply Hc. Qed.

Lemma loader_live c l ls :
  Forall (fun x => cancelled x = false -> target x = l) (loader_effect c l ls).
Proof using Type.
  assert (Hx : Forall (fun x => cancelled x = false -> target x = l) (cancel <$> ls)).
  { rewrite Forall_fmap. apply Forall_true. intros x Hx. discriminate Hx. }
  unfold loader_effect. destruct (c !! l); [exact Hx|].
  apply Forall_app. split; [exact Hx|]. by repeat constructor.
Qed.

Lemma loader_shows c l ls :
  (forall l d, c !! l = Some d -> d = dictionary l) ->
  dict_of c l = dictionary l \/ dict_of c l = en /\ Load l false ∈ loader_effect c l ls.
Proof using Type.
  intros Hc. destruct (c !! l) as [d|] eqn:E; [left; eauto using dict_of_cached|].
  right. unfold dict_of, loader_effect. rewrite E. set_solver.
Qed.

Lemma ready_mount d nav : ready (mount d nav).
Proof using Type.
  pose proof (detect_supported d nav) as Hl.
  assert (Hc : forall l (x : Dict), ({[ "en" := en ]} : gmap string Dict) !! l = Some x -> x = dictionary l).
  { intros l x [<- <-]%lookup_singleton_Some. done. }
  unfold mount, ready; cbn [cache locale lang loads shown].
  split_and!; auto using loader_live.
Qed.

Lemma ready_set next s : ready s -> ready (setLocale next s).
Proof using Type.
  intros (He & Hc & Hs & Hl & Hf). unfold setLocale.
  destruct (negb (isLocale (Some next))) eqn:E; [done|].
  apply negb_false_iff, isLocale_supported in E.
  case_bool_decide; unfold ready; cbn [cache locale lang loads shown]; split_and!; auto using loader_live.
Qed.

Lemma ready_resolve i s s' : ready s -> resolve i s = Some s' -> ready s'.
Proof using Type.
  intros (He & Hc & Hs & Hl & Hf). unfold resolve.
  destruct (loads s !! i) as [[tg cn]|] eqn:E; simpl; [|done]. intros [= <-].
  unfold ready; cbn [cache locale lang loads shown]. split_and!; auto.
  - destruct (decide (tg = "en")) as [->|Hn]; [by rewrite lookup_insert_eq|by rewrite lookup_insert_ne].
  - intros l d. rewrite lookup_insert_Some. naive_solver.
  - by apply Forall_delete.
Qed.

Lemma ready_reject i s s' : ready s -> reject i s = Some s' -> ready s'.
Proof using Type.
  intros (He & Hc & Hs & Hl & Hf). unfold reject. destruct (loads s !! i); [|done]. intros [= <-].
  unfold ready; cbn [cache locale lang loads]. split_and!; auto. by apply Forall_delete.
Qed.

(** *** What the history says of the active locale *)
Context (s0 : state).
(** Its import failed since it was picked. *)
Definition missed (es : list event) (l : string) : Prop :=
  exists es1 i es2 s1 rs1, es = es1 ++ Failed i :: es2 /\ run exec es1 s0 = Some (s1, rs1) /\
    loads s1 !! i = Some (Load l false) /\
    forall next, SetTo next ∈ es2 -> isLocale (Some next) = true -> next = l.
(** The page shows the active dictionary, or English and why. *)
Definition good (es : list event) (s : state) : Prop :=
  ready s /\
  (shown s = dictionary (locale s) \/
   shown s = en /\ (Load (locale s) false ∈ loads s \/ missed es (locale s))).

Lemma missed_snoc es e l :
  missed es l -> (forall next, e = SetTo next -> isLocale (Some next) = true -> next = l) -> missed (es ++ [e]) l.
Proof using Type.
  intros (es1 & i & es2 & s1 & rs1 & -> & Hr & Hl & Hn) He. exists es1, i, (es2 ++ [e]), s1, rs1.
  rewrite <- app_assoc. split_and!; try done.
  intros next [H|H]%elem_of_app; [by apply Hn|]. apply list_elem_of_singleton in H. by apply He.
Qed.

Lemma good_set es s next : good es s -> good (es ++ [SetTo next]) (setLocale next s).
Proof using Type.
  intros [Hr Hd]. split; [by apply ready_set|]. unfold setLocale.
  destruct (isLocale (Some next)) eqn:E; cbn [negb].
  - case_bool_decide as Hn; cbn [locale shown loads].
    + destruct Hd as [Hd|[Hd [Hl|Hm]]]; [by left|right; auto|]. right. split; [done|]. right.
      apply missed_snoc; [done|]. by intros ? [= <-].
    + destruct Hr as (_ & Hc & _). destruct (loader_shows (cache s) next (loads s) Hc) as [H|[H1 H2]]; [by left|].
      right. split; [done|by left].
  - destruct Hd as [Hd|[Hd [Hl|Hm]]]; [by left|right; auto|]. right. split; [done|]. right.
    apply missed_snoc; [done|]. intros ? [= <-]. by rewrite E.
Qed.

Lemma good_landed es s i s' : good es s -> resolve i s = Some s' -> good (es ++ [Landed i]) s'.
Proof using Type.
  intros [Hr Hd] He. split; [by eapply ready_resolve|]. destruct Hr as (_ & Hc & _ & _ & Hf).
  unfold resolve in He. destruct (loads s !! i) as [[tg cn]|] eqn:E; [|done]. cbn in He. injection He as <-.
  cbn [locale shown loads]. destruct cn.
  - destruct Hd as [Hd|[Hd [Hl|Hm]]]; [by left| |].
    + right. split; [done|]. left. by eapply (elem_of_delete_ne _ _ _ _ E).
    + right. split; [done|]. right. by apply missed_snoc.
  - left. pose proof (Forall_lookup_1 _ _ _ _ Hf E eq_refl) as Ht. cbn in Ht. subst tg.
    apply dict_of_cached; [intros l d; rewrite lookup_insert_Some; naive_solver|].
    exists (dictionary (locale s)). by rewrite lookup_insert_eq.
Qed.

Lemma good_failed es s rs i s' :
  run exec es s0 = Some (s, rs) -> good es s -> reject i s = Some s' -> good (es ++ [Failed i]) s'.
Proof using Type.
  intros Hrun [Hr Hd] He. split; [by eapply ready_reject|]. destruct Hr as (_ & _ & _ & _ & Hf).
  unfold reject in He. destruct (loads s !! i) as [[tg cn]|] eqn:E; [|done]. cbn in He. injection He as <-.
  cbn [locale shown loads]. destruct Hd as [Hd|[Hd [Hl|Hm]]]; [by left| |].
  - right. split; [done|]. destruct cn; [left; by eapply (elem_of_delete_ne _ _ _ _ E)|]. right.
    pose proof (Forall_lookup_1 _ _ _ _ Hf E eq_refl) as Ht. cbn in Ht. subst tg.
    exists es, i, [], s, rs. split_and!; try done. by intros next ?%not_elem_of_nil.
  - right. split; [done|]. right. by apply missed_snoc.
Qed.

Lemma run_provider es s rs : good [] s0 -> run exec es s0 = Some (s, rs) -> good es s.
Proof using Type.
  intros H0. apply (run_history exec (fun es s _ => good es s)); [done|].
  intros es1 s1 rs1 e s' rs' Hrun Hg He. destruct e as [next|i|i]; cbn [exec] in He.
  - injection He as <- _. by apply good_set.
  - destruct (resolve i s1) as [s2|] eqn:E; [|done]. injection He as <- _. by eapply good_landed.
  - destruct (reject i s1) as [s2|] eqn:E; [|done]. injection He as <- _. by eapply good_failed.
Qed.

Lemma good_mount d nav : s0 = mount d nav -> good [] s0.
Proof using Type.
  intros ->. split; [apply ready_mount|]. pose proof (ready_mount d nav) as (_ & Hc & _).
  destruct (loader_shows _ (detectInitialLocale d nav) [] Hc) as [Hx|[Hx1 Hx2]]; [by left|].
  right. split; [done|by left].
Qed.
End provider.
Arguments State {Dict} locale cache loads shown lang disk.

(** C28.  The provider never shows a wrong language.  After any history of
    language switches and of imports landing or failing in any order: the page
    shows the dictionary of the active locale, or English while a live import
    of that very locale is pending, or after that import failed since the
    locale was picked; without failures, nothing pending means the active
    dictionary; [<html lang>] names the active, supported locale; every cached
    dictionary belongs to its locale; and a dictionary is imported only when
    its locale is picked and it is not cached. *)
Theorem provider_consistent {Dict : Type} (dictionary : string -> Dict) d nav es s rs :
  run (exec dictionary) es (mount dictionary d nav) = Some (s, rs) ->
  locale s ∈ SUPPORTED_LOCALES /\ lang s = locale s /\
  (shown s = dictionary (locale s) \/
   shown s = dictionary "en" /\
     (Load (locale s) false ∈ loads s \/ missed dictionary (mount dictionary d nav) es (locale s))) /\
  ((forall i, Failed i ∉ es) -> loads s = [] -> shown s = dictionary (locale s)) /\
  (forall l x, cache s !! l = Some x -> x = dictionary l) /\
  (forall e s' rs' l, exec dictionary e s = Some (s', rs') -> l ∈ rs' ->
     e = SetTo l /\ locale s' = l /\ cache s !! l = None).
Proof.
  intros Hr. destruct (run_provider dictionary _ es s rs (good_mount dictionary _ d nav eq_refl) Hr)
    as [(_ & Hc & Hl & Hg & _) Hd].
  split_and!; auto.
  - intros Hnf Hn. destruct Hd as [Hd|[_ [Hin|(es1 & i & es2 & s1 & rs1 & -> & _)]]]; [done| |].
    + rewrite Hn in Hin. by apply not_elem_of_nil in Hin.
    + destruct (Hnf i). apply elem_of_app. right. left.
  - intros e s' rs' l He Hin. destruct e as [next|i|i]; cbn [exec] in He.
    + unfold setLocale in He. destruct (isLocale (Some next)); [|injection He as <- <-; by apply not_elem_of_nil in Hin].
      cbn [negb orb] in He. destruct (next === locale s); [injection He as <- <-; by apply not_elem_of_nil in Hin|].
      destruct (cache s !! next) eqn:E; injection He as <- <-; [by apply not_elem_of_nil in Hin|].
      by apply list_elem_of_singleton in Hin as ->.
    + destruct (resolve dictionary i s); [|done]. injection He as _ <-. by apply not_elem_of_nil in Hin.
    + destruct (reject i s); [|done]. injection He as _ <-. by apply not_elem_of_nil in Hin.
Qed.

(** Italian then French, the Italian import landing last. *)
Definition names : string -> string := fun l => l.
Definition start_ : state := mount names (Storage ∅ true true) None.
Definition after (es : list event) : state * list string :=
  match run (exec names) es start_ with Some r => r | None => (start_, []) end.
Definition two_switches : list event := [SetTo "it"; SetTo "fr"; Landed 1; Landed 0].

Lemma provider_consistent_witness : (after two_switches).2 = ["it"; "fr"] /\ shown (after two_switches).1 = "fr".
Proof.
  split; [reflexivity|].
  refine (proj1 (proj2 (proj2 (proj2 (provider_consistent names (Storage ∅ true true) None
            two_switches (after two_switches).1 (after two_switches).2 eq_refl)))) _ eq_refl).
  intros i Hi. repeat (apply elem_of_cons in Hi as [Hi|Hi]; [discriminate Hi|]). by apply not_elem_of_nil in Hi.
Defined.

(** A language whose import failed stays in English: nothing retries it, not
    picking it again either, while the document is marked as written in it;
    picking another one and coming back does. *)
Lemma failed_import_stays_english :
  let failed := [SetTo "ar"; Failed 0] in
  shown (after failed).1 = "en" /\ lang (after failed).1 = "ar" /\ loads (after failed).1 = [] /\
  after (failed ++ [SetTo "ar"]) = after failed /\
  (after (failed ++ [SetTo "en"; SetTo "ar"; Landed 0])).2 = ["ar"; "ar"] /\
  shown (after (failed ++ [SetTo "en"; SetTo "ar"; Landed 0])).1 = "ar".
Proof. vm_compute. done. Qed.
End Provider.
