(* ===== verification/Catalog.v ===== *)
(** * The catalog editor ([catalog/*.tsx], [config/ConfigTree.tsx])

    [Field] is one input; [Form] the model form with its grids and the change
    it proposes; [Editor] the tab around it; [Menu] the searchable menu;
    [Trees] the two read-only configuration trees. *)
From S2P Require Import Prelude JsString Json Http Hooks TenantHooks I18n.
From Stdlib Require Import ZArith Ascii.

(** ** [catalog/catalogTypes.ts] *)
Inductive field_type := bool_ | int_ | string_ | enum | multienum | network | ref | raw.
#[export] Instance field_type_eq_dec : EqDecision field_type.
Proof. solve_decision. Defined.

Record CatalogField := MkField {
  path : string;
  type : field_type;
  options : option (list string);
  label : option string;
  required : option bool;
}.

Record CatalogGrid := MkGrid { g_path : string; g_fields : list CatalogField }.

Record CatalogModel := MkModel {
  id : string;
  title : string;
  fields : list CatalogField;
  grids : list CatalogGrid;
  pages : list (string * list string);
}.

(** [string | string[]] *)
Inductive cell := One (s : string) | Many (l : list string).

Record GridRow := MkRow { uuid : string; cells : gmap string cell }.

Record option_ := MkOption { value : string; o_label : string }.

#[export] Instance picker_option_eq_dec : EqDecision option_.
Proof. solve_decision. Defined.
#[export] Instance cell_eq_dec : EqDecision cell.
Proof. solve_decision. Defined.

Record CatalogModelLive := MkLive {
  model : CatalogModel;
  values : gmap string cell;
  rows : gmap string (list GridRow);
  field_options : gmap string (list option_);
  reachable : bool;
  read_only : bool;
}.

Inductive CatalogGridOp :=
| OpAdd (grid : string) (item : gmap string string)
| OpSet (grid uuid : string) (item : gmap string string)
| OpDel (grid uuid : string).

Record CatalogChangeBody := MkBody {
  model_id : string;
  scalars : gmap string string;
  grid_ops : list CatalogGridOp;
}.

(** [Array.isArray(v) ? v.join(",") : (v ?? "")] *)
Definition toStr (v : option cell) : string :=
  match v with Some (Many l) => join "," l | Some (One s) => s | None => "" end.

(** ** [catalog/CatalogFieldInput.tsx] *)
Module Field.
(** The control shown, with the value it displays. *)
Inductive control :=
| Switch (checked : bool)
| NumberInput (text : string)
| Select (data : list option_) (v : string)
| MultiSelect (data : list option_) (selected : list string)
| TextInput (text : string).

(** [liveOptions && liveOptions.length > 0 ? liveOptions : null] *)
Definition live_options (o : option (list option_)) : option (list option_) :=
  match o with Some (x :: l) => Some (x :: l) | _ => None end.

Definition offered (f : CatalogField) (liveOptions : option (list option_)) : list option_ :=
  live_options liveOptions orelse ((fun o => MkOption o o) <$> (options f orelse [])).

Definition CatalogFieldInput (f : CatalogField) (v : string) (liveOptions : option (list option_)) : control :=
  let live := live_options liveOptions in
  let data := offered f liveOptions in
  if type f === bool_ then Switch (v === "1")
  else if type f === int_ then NumberInput v
  else if (type f === enum) || ((type f === ref) && bool_decide (is_Some live)) then Select data v
  else if type f === multienum then MultiSelect data (filter (fun w => w <> "") (split ","%char v))
  else TextInput v.

(** What the user can do with a control, and the string [onChange] reports. *)
Inductive gesture :=
| Toggle (checked : bool)
| TypeNumber (text : option string)      (* [None]: cleared *)
| Choose (v : option string)
| ChooseAll (keys : list string)
| Type_ (text : string).

Definition onChange (g : gesture) : string :=
  match g with
  | Toggle b => if b then "1" else "0"
  | TypeNumber t => t orelse ""
  | Choose v => v orelse ""
  | ChooseAll keys => join "," keys
  | Type_ s => s
  end.

(** A gesture a control admits; the keys of a multi-select are option values. *)
Definition admits (c : control) (g : gesture) : Prop :=
  match c, g with
  | Switch _, Toggle _ | NumberInput _, TypeNumber _ | TextInput _, Type_ _ => True
  | Select data _, Choose v => match v with Some x => x ∈ value <$> data | None => True end
  | MultiSelect data _, ChooseAll keys => Forall (fun k => k ∈ value <$> data) keys
  | _, _ => False
  end.

(** What the control then shows. *)
Definition shows (c : control) (g : gesture) : Prop :=
  match c, g with
  | Switch b, Toggle b' => b = b'
  | NumberInput t, TypeNumber t' => t = t' orelse ""
  | Select _ v, Choose v' => v = v' orelse ""
  | MultiSelect _ l, ChooseAll keys => l = keys
  | TextInput t, Type_ t' => t = t'
  | _, _ => False
  end.

(** Option values a multi-select can carry in a comma-joined string. *)
Definition joinable (data : list option_) : Prop :=
  Forall (fun o => value o <> "" /\ mem_char ","%char (value o) = false) data.

Lemma split_filter_join l :
  Forall (fun w => w <> "" /\ mem_char ","%char w = false) l ->
  filter (fun w => w <> "") (split ","%char (join "," l)) = l.
Proof.
  intros Hl. destruct l as [|w l]; [done|].
  rewrite split_join; [|done|eapply Forall_impl; [exact Hl|naive_solver]].
  apply filter_all. eapply Forall_impl; [exact Hl|naive_solver].
Qed.

Lemma multi_keys data keys :
  joinable data -> Forall (fun k => k ∈ value <$> data) keys ->
  Forall (fun w => w <> "" /\ mem_char ","%char w = false) keys.
Proof.
  intros Hj Hk. eapply Forall_impl; [exact Hk|]. intros k Hin. simpl in Hin.
  apply list_elem_of_fmap in Hin as (o & -> & Ho).
  by apply (list.Forall_forall _ _) with (x := o) in Hj.
Qed.

(** An input displays what was entered: for every field and every gesture
    its control admits, the control rendered from the reported string shows
    exactly the user's choice, for a multi-selection too, whose keys are
    stored comma-joined. *)
Theorem field_input_roundtrip f v live g :
  joinable (offered f live) -> admits (CatalogFieldInput f v live) g ->
  shows (CatalogFieldInput f (onChange g) live) g.
Proof.
  intros Hj. unfold CatalogFieldInput.
  destruct (type f === bool_); [|destruct (type f === int_); [|destruct (_ || _);
    [|destruct (type f === multienum)]]]; destruct g; simpl; try done.
  - by destruct checked.
  - intros Hk. apply split_filter_join. by eapply multi_keys.
Qed.
End Field.

(** ** [catalog/CatalogModelForm.tsx] and [catalog/CatalogGridTable.tsx] *)
Module Form.
(** [for (const f of model.fields) s[f.path] = toStr(values[f.path])] *)
Definition seeded (live : CatalogModelLive) : gmap string string :=
  fold_left (fun s f => <[path f := toStr (values live !! path f)]> s) (fields (model live)) ∅.

Definition editable (live : CatalogModelLive) : bool := reachable live && negb (read_only live).

(** The modal of one grid table: the row it edits, if any, and the item. *)
Record editing_state := Editing { e_uuid : option string; item : gmap string string }.

(** One grid table: its accumulated operations and its modal. *)
Record table := Table { ops : list CatalogGridOp; editing : option editing_state }.
Definition empty_table : table := Table [] None.

Record form := MkForm {
  work : gmap string string;
  tables : gmap string table;
  gridOps : list (string * list CatalogGridOp);   (* in insertion order *)
}.

Definition open_ (live : CatalogModelLive) : form := MkForm (seeded live) ∅ [].

(** [{ ...m, [k]: v }] *)
Fixpoint set_prop {A} (k : string) (v : A) (m : list (string * A)) : list (string * A) :=
  match m with
  | [] => [(k, v)]
  | (k', v') :: m => if k === k' then (k, v) :: m else (k', v') :: set_prop k v m
  end.

Definition table_of (f : form) (g : string) : table := (tables f !! g) orelse empty_table.
Definition with_table (g : string) (t : table) (f : form) : form :=
  MkForm (work f) (<[g := t]> (tables f)) (gridOps f).

(** [push]: the table's operations and the form's copy of them. *)
Definition push (g : string) (next : list CatalogGridOp) (e : option editing_state) (f : form) : form :=
  let all := ops (table_of f g) ++ next in
  MkForm (work f) (<[g := Table all e]> (tables f)) (set_prop g all (gridOps f)).

Definition item_of (g : CatalogGrid) (value : CatalogField -> string) : gmap string string :=
  fold_left (fun m f => <[path f := value f]> m) (g_fields g) ∅.

Inductive event :=
| EditField (p v : string)
| OpenAdd (g : CatalogGrid)
| OpenEdit (g : CatalogGrid) (row : GridRow)
| EditCell (g : CatalogGrid) (p v : string)
| Save (g : CatalogGrid)
| Close (g : CatalogGrid)
| Delete (g : CatalogGrid) (row : GridRow).

(** The operation a click on Save reports: a row without id is new
    ([editing.uuid ? set : add]). *)
Definition saved_op (g : CatalogGrid) (e : editing_state) : CatalogGridOp :=
  if present (e_uuid e) then OpSet (g_path g) (e_uuid e orelse "") (item e)
  else OpAdd (g_path g) (item e).

Definition exec (ev : event) (f : form) : form :=
  match ev with
  | EditField p v => MkForm (<[p := v]> (work f)) (tables f) (gridOps f)
  | OpenAdd g =>
      with_table (g_path g) (Table (ops (table_of f (g_path g))) (Some (Editing None (item_of g (fun _ => ""))))) f
  | OpenEdit g row =>
      with_table (g_path g)
        (Table (ops (table_of f (g_path g)))
           (Some (Editing (Some (uuid row)) (item_of g (fun x => toStr (cells row !! path x)))))) f
  | EditCell g p v =>
      match editing (table_of f (g_path g)) with
      | Some e => with_table (g_path g)
                    (Table (ops (table_of f (g_path g))) (Some (Editing (e_uuid e) (<[p := v]> (item e))))) f
      | None => f
      end
  | Save g =>
      match editing (table_of f (g_path g)) with
      | Some e => push (g_path g) [saved_op g e] None f
      | None => f
      end
  | Close g => with_table (g_path g) (Table (ops (table_of f (g_path g))) None) f
  | Delete g row =>
      push (g_path g) [OpDel (g_path g) (uuid row)] (editing (table_of f (g_path g))) f
  end.

Definition run (live : CatalogModelLive) (evs : list event) : form := fold_left (fun f e => exec e f) evs (open_ live).

Definition build (live : CatalogModelLive) (f : form) : CatalogChangeBody :=
  MkBody (id (model live))
         (filter (fun '(p, v) => Some v <> seeded live !! p) (work f))
         (concat ((gridOps f).*2)).

(** *** What the user did, read off the events alone *)

(** The last value typed into a field. *)
Definition last_edit (p : string) (evs : list event) : option string :=
  fold_left (fun o e => match e with
                        | EditField p' v => if p === p' then Some v else o
                        | _ => o
                        end) evs None.

(** The operations reported, in order, over all grids. *)
Definition emits (f : form) (e : event) : list CatalogGridOp :=
  match e with
  | Save g => match editing (table_of f (g_path g)) with Some e => [saved_op g e] | None => [] end
  | Delete g row => [OpDel (g_path g) (uuid row)]
  | _ => []
  end.

Fixpoint emitted_from (f : form) (evs : list event) : list CatalogGridOp :=
  match evs with [] => [] | e :: evs => emits f e ++ emitted_from (exec e f) evs end.
Definition emitted (live : CatalogModelLive) (evs : list event) : list CatalogGridOp := emitted_from (open_ live) evs.

Definition op_grid (o : CatalogGridOp) : string :=
  match o with OpAdd g _ | OpSet g _ _ | OpDel g _ => g end.
Definition of_grid (g : string) (l : list CatalogGridOp) : list CatalogGridOp := filter (fun o => op_grid o = g) l.

(** *** The operations reach the body *)

(** The form's copy of the operations is what the tables hold, each list under
    its own grid. *)
Definition synced (f : form) : Prop :=
  NoDup (gridOps f).*1 /\
  (forall g l, (g, l) ∈ gridOps f -> l = ops (table_of f g) /\ Forall (fun o => op_grid o = g) l) /\
  (forall g, ops (table_of f g) <> [] -> g ∈ (gridOps f).*1).

Lemma set_prop_keys {A} k (v : A) m : (set_prop k v m).*1 = if decide (k ∈ m.*1) then m.*1 else m.*1 ++ [k].
Proof.
  induction m as [|[k' v'] m IH]; [done|]. cbn [set_prop]. case_bool_decide as Hk.
  - subst k'. rewrite decide_True; [done|]. left.
  - rewrite !fmap_cons, IH. simpl. case_decide; case_decide; set_solver.
Qed.

Lemma set_prop_elem {A} k (v : A) m g l :
  (g, l) ∈ set_prop k v m -> NoDup m.*1 -> (g = k /\ l = v) \/ (g <> k /\ (g, l) ∈ m).
Proof.
  induction m as [|[k' v'] m IH]; cbn [set_prop].
  - intros [[= -> ->]|H]%elem_of_cons _; [auto|]. by apply not_elem_of_nil in H.
  - rewrite fmap_cons. intros Hin [Hk Hnd]%NoDup_cons. simpl in Hk. case_bool_decide as Hkk.
    + subst k'. apply elem_of_cons in Hin as [[= -> ->]|Hin]; [auto|]. right.
      split; [|by right]. intros ->. apply Hk, list_elem_of_fmap. by exists (k, l).
    + apply elem_of_cons in Hin as [[= -> ->]|Hin]; [right; split; [congruence|left]|].
      destruct (IH Hin Hnd) as [?|[? ?]]; [auto|]. right. split; [done|by right].
Qed.

Lemma table_of_with g t f g' : table_of (with_table g t f) g' = if decide (g = g') then t else table_of f g'.
Proof.
  unfold table_of, with_table. simpl. case_decide as Hg; [subst; by rewrite lookup_insert_eq|by rewrite lookup_insert_ne].
Qed.

(** Opening, editing and closing a modal leave the operations alone. *)
Lemma ops_with_modal g e f g' :
  ops (table_of (with_table g (Table (ops (table_of f g)) e) f) g') = ops (table_of f g').
Proof. rewrite table_of_with. by case_decide; subst. Qed.

Lemma ops_push g next e f g' :
  ops (table_of (push g next e f) g') = ops (table_of f g') ++ if decide (g = g') then next else [].
Proof.
  change (table_of (push g next e f) g') with (table_of (with_table g (Table (ops (table_of f g) ++ next) e) f) g').
  rewrite table_of_with. case_decide; subst; [done|by rewrite app_nil_r].
Qed.

Lemma of_grid_saved g e g' : of_grid g' [saved_op g e] = if decide (g_path g = g') then [saved_op g e] else [].
Proof.
  unfold of_grid, saved_op. destruct (present (e_uuid e)); rewrite filter_cons; simpl; by case_decide.
Qed.

Lemma exec_ops f e g : ops (table_of (exec e f) g) = ops (table_of f g) ++ of_grid g (emits f e).
Proof.
  destruct e as [p v|g0|g0 row|g0 p v|g0|g0|g0 row]; cbn [exec emits];
    rewrite ?ops_with_modal; try (by rewrite app_nil_r).
  - destruct (editing (table_of f (g_path g0))); rewrite ?ops_with_modal; by rewrite app_nil_r.
  - destruct (editing (table_of f (g_path g0))); [|by rewrite app_nil_r].
    by rewrite ops_push, of_grid_saved.
  - by rewrite ops_push.
Qed.

Lemma synced_modal g e f : synced f -> synced (with_table g (Table (ops (table_of f g)) e) f).
Proof.
  intros (Hn & Hl & Hk). split; [done|]. split.
  - intros g' l Hin. rewrite ops_with_modal. by apply Hl.
  - intros g'. rewrite ops_with_modal. by apply Hk.
Qed.

Lemma synced_push g next e f :
  Forall (fun o => op_grid o = g) next -> synced f -> synced (push g next e f).
Proof.
  intros Hnext (Hn & Hl & Hk).
  assert (Hall : Forall (fun o => op_grid o = g) (ops (table_of f g))).
  { destruct (decide (g ∈ (gridOps f).*1)) as [Hin|Hin].
    - apply list_elem_of_fmap in Hin as ([g' l] & -> & Hin). by destruct (Hl g' l Hin) as [-> ?].
    - destruct (ops (table_of f g)) eqn:E; [done|]. exfalso. apply Hin, Hk. by rewrite E. }
  split; [|split].
  - simpl. rewrite set_prop_keys. case_decide; [done|]. apply NoDup_app. split; [done|].
    split; [set_solver|apply NoDup_singleton].
  - intros g' l Hin. rewrite ops_push. apply set_prop_elem in Hin; [|done].
    destruct Hin as [[-> ->]|[Hne Hin]].
    + rewrite decide_True by done. split; [done|]. by apply Forall_app.
    + rewrite decide_False by done. rewrite app_nil_r. by apply Hl.
  - intros g'. rewrite ops_push. simpl. rewrite set_prop_keys. intros Ho.
    destruct (decide (g = g')) as [->|Hne].
    + case_decide; set_solver.
    + rewrite app_nil_r in Ho. apply Hk in Ho. case_decide; set_solver.
Qed.

Lemma synced_exec e f : synced f -> synced (exec e f).
Proof.
  intros Hs. destruct e as [p v|g0|g0 row|g0 p v|g0|g0|g0 row]; cbn [exec]; try (by apply synced_modal).
  - exact Hs.
  - destruct (editing _); [by apply synced_modal|done].
  - destruct (editing _) as [e|]; [|done]. apply synced_push; [|done].
    constructor; [|constructor]. unfold saved_op. by destruct (present (e_uuid e)).
  - apply synced_push; [|done]. by repeat constructor.
Qed.

Lemma concat_other g (m : list (string * list CatalogGridOp)) :
  (forall k l, (k, l) ∈ m -> Forall (fun o => op_grid o = k) l) -> g ∉ m.*1 ->
  of_grid g (concat m.*2) = [].
Proof.
  induction m as [|[k l] m IH]; intros Hm Hg; [done|]. rewrite fmap_cons. cbn [concat].
  unfold of_grid. rewrite filter_app. fold (of_grid g (concat m.*2)). rewrite IH; [|set_solver|set_solver].
  rewrite app_nil_r. apply filter_none. eapply Forall_impl; [apply (Hm k l); left|].
  simpl. intros o Ho Ho'. apply Hg. simpl. rewrite <- Ho, <- Ho'. left.
Qed.

Lemma concat_own g l (m : list (string * list CatalogGridOp)) :
  NoDup m.*1 -> (forall k l, (k, l) ∈ m -> Forall (fun o => op_grid o = k) l) -> (g, l) ∈ m ->
  of_grid g (concat m.*2) = l.
Proof.
  induction m as [|[k l'] m IH]; [by intros _ _ ?%not_elem_of_nil|].
  rewrite !fmap_cons. intros [Hk Hn]%NoDup_cons Hm Hin. cbn [concat].
  unfold of_grid. rewrite filter_app. fold (of_grid g (concat m.*2)).
  apply elem_of_cons in Hin as [[= -> ->]|Hin].
  - rewrite concat_other; [|set_solver|done]. rewrite app_nil_r. apply filter_all. apply (Hm k). left.
  - rewrite IH by set_solver. rewrite filter_none; [done|].
    eapply Forall_impl; [apply (Hm k l'); left|]. simpl. intros o Ho Ho'.
    apply Hk, list_elem_of_fmap. exists (g, l). split; [simpl; congruence|done].
Qed.

Lemma build_ops live f g : synced f -> of_grid g (grid_ops (build live f)) = ops (table_of f g).
Proof.
  intros (Hn & Hl & Hk). simpl. destruct (decide (g ∈ (gridOps f).*1)) as [Hin|Hin].
  - apply list_elem_of_fmap in Hin as ([g' l] & -> & Hin). destruct (Hl g' l Hin) as [Heq _].
    cbn [fst]. rewrite <- Heq. apply concat_own; [done| |done]. intros k l' Hkl. by apply Hl.
  - rewrite concat_other; [|intros k l' Hkl; by apply Hl|done].
    destruct (ops (table_of f g)) eqn:E; [done|]. exfalso. apply Hin, Hk. by rewrite E.
Qed.

(** *** Induction over a session of edits *)
Lemma run_synced live evs : synced (run live evs).
Proof.
  unfold run. assert (H0 : synced (open_ live)).
  { split; [constructor|]. split; [by intros g l ?%not_elem_of_nil|].
    intros g. unfold table_of. simpl. by rewrite lookup_empty. }
  revert H0. generalize (open_ live) as f. induction evs as [|e evs IH]; intros f Hf; [done|].
  apply IH. by apply synced_exec.
Qed.

Lemma ops_emitted evs f g :
  ops (table_of (fold_left (fun f e => exec e f) evs f) g) = ops (table_of f g) ++ of_grid g (emitted_from f evs).
Proof.
  revert f. induction evs as [|e evs IH]; intros f; cbn [fold_left emitted_from].
  - by rewrite app_nil_r.
  - rewrite IH, exec_ops, <- app_assoc. f_equal. unfold of_grid. by rewrite filter_app.
Qed.

Lemma exec_work e f p :
  work (exec e f) !! p = match e with
                         | EditField p' v => if p === p' then Some v else work f !! p
                         | _ => work f !! p
                         end.
Proof.
  destruct e; cbn [exec]; try (destruct (editing _)); try done. simpl.
  case_bool_decide as Hp; [subst; by rewrite lookup_insert_eq|by rewrite lookup_insert_ne].
Qed.

Lemma run_work evs f p o :
  work f !! p = o ->
  work (fold_left (fun f e => exec e f) evs f) !! p =
  match fold_left (fun o e => match e with
                              | EditField p' v => if p === p' then Some v else o
                              | _ => o
                              end) evs None with
  | Some v => Some v
  | None => o
  end.
Proof.
  intros <-. induction evs as [|e evs IH] using rev_ind; [done|].
  rewrite !fold_left_app. simpl. rewrite exec_work, IH.
  destruct e; try done. by case_bool_decide.
Qed.

Lemma build_scalars live evs p v :
  scalars (build live (run live evs)) !! p = Some v <->
  last_edit p evs = Some v /\ seeded live !! p <> Some v.
Proof.
  simpl. rewrite map_lookup_filter_Some. unfold run.
  rewrite (run_work evs (open_ live) p _ eq_refl). fold (last_edit p evs). simpl.
  destruct (last_edit p evs) as [w|]; naive_solver.
Qed.

Lemma build_of_grid live evs g :
  of_grid g (grid_ops (build live (run live evs))) = of_grid g (emitted live evs).
Proof.
  rewrite build_ops by apply run_synced. unfold run. rewrite ops_emitted.
  unfold table_of at 1. simpl. by rewrite lookup_empty.
Qed.

Lemma build_elem live evs o :
  o ∈ grid_ops (build live (run live evs)) <-> o ∈ emitted live evs.
Proof.
  assert (Ho : forall l, o ∈ l <-> o ∈ of_grid (op_grid o) l).
  { intros l. unfold of_grid. rewrite list_elem_of_filter. naive_solver. }
  by rewrite Ho, build_of_grid, <- Ho.
Qed.

(** A proposal from a form opened on [opened] and compared with [live]. *)
Lemma session_scalars opened live evs p v :
  scalars (build live (run opened evs)) !! p = Some v <->
  match last_edit p evs with Some w => Some w | None => seeded opened !! p end = Some v /\
  seeded live !! p <> Some v.
Proof.
  simpl. rewrite map_lookup_filter_Some. unfold run. rewrite (run_work evs (open_ opened) p _ eq_refl).
  fold (last_edit p evs). simpl. destruct (last_edit p evs); naive_solver.
Qed.

(** C11.  What the form proposes.  A form is opened on one answer of the device
    and compared with the latest one.  After any session of edits a scalar is
    proposed if and only if what the form holds of it (the last value typed, or
    the value it was opened on) differs from the latest answer, and with what
    the form holds; so as long as the answer has kept its values, exactly the
    typed values that differ are proposed.  Overlaying the proposal on the
    device's values gives what the form shows; and for each grid the proposed
    operations are those reported there, in order. *)
Theorem build_exact opened live evs :
  let form := run opened evs in
  let body := build live form in
  model_id body = id (model live) /\
  (forall p v, scalars body !! p = Some v <->
     match last_edit p evs with Some w => Some w | None => seeded opened !! p end = Some v /\
     seeded live !! p <> Some v) /\
  (seeded live = seeded opened -> forall p v, scalars body !! p = Some v <->
     last_edit p evs = Some v /\ seeded live !! p <> Some v) /\
  scalars body ∪ seeded live = work form ∪ seeded live /\
  (forall g, of_grid g (grid_ops body) = of_grid g (emitted opened evs)).
Proof.
  cbn zeta. split; [done|]. split; [apply session_scalars|]. split; [|split].
  - intros E p v. rewrite session_scalars, E. destruct (last_edit p evs); naive_solver.
  - apply map_eq. intros p. simpl. rewrite !lookup_union, map_lookup_filter.
    destruct (work (run opened evs) !! p) as [v|]; simpl; [|done].
    case_guard as Hg; [done|]. destruct (seeded live !! p) as [w|]; simpl; naive_solver.
  - apply (build_of_grid opened).
Qed.

(** A field is typed into, and set back to the device's value: the first is
    proposed, the second is not. *)
Lemma build_exact_witness :
  let m := MkModel "m" "M" [MkField "mtu" string_ None None None; MkField "name" string_ None None None] [] [] in
  let live := MkLive m {[ "mtu" := One "1500"; "name" := One "wan" ]} ∅ ∅ true false in
  let body := build live (run live [EditField "mtu" "9000"; EditField "name" "x"; EditField "name" "wan"]) in
  scalars body !! "mtu" = Some "9000" /\ scalars body !! "name" <> Some "wan".
Proof.
  intros m live body.
  destruct (build_exact live live [EditField "mtu" "9000"; EditField "name" "x"; EditField "name" "wan"])
    as (_ & _ & Hs & _).
  split.
  - apply (proj2 (Hs eq_refl "mtu" "9000")). split; [reflexivity|]. vm_compute. discriminate.
  - intros H. apply (proj1 (Hs eq_refl "name" "wan")) in H as [_ H]. apply H. vm_compute. reflexivity.
Defined.

(** The working copy is seeded once, but compared with the latest answer of
    the device: after a background refetch of the model ([seeded] of the new
    answer against the old [work]), a field the user never touched is proposed
    with its old value. *)
Lemma refetch_proposes_untouched :
  let m := MkModel "m" "M" [MkField "mtu" string_ None None None] [] [] in
  let live1 := MkLive m {[ "mtu" := One "1500" ]} ∅ ∅ true false in
  let live2 := MkLive m {[ "mtu" := One "9000" ]} ∅ ∅ true false in
  scalars (build live2 (run live1 [])) !! "mtu" = Some "1500".
Proof. reflexivity. Qed.
End Form.

(** ** [catalog/CatalogEditorTab.tsx] *)
Module Editor.
Record CatalogModelDiff := MkModelDiff {
  added_fields : list string;
  removed_fields : list string;
  changed_fields : list string;
}.
Record CatalogDiffData := MkDiffData {
  added_models : list string;
  removed_models : list string;
  models : gmap string CatalogModelDiff;
}.
Record CatalogDiff := MkDiff {
  from : option string;
  to : string;
  available_baselines : list string;
  diff : CatalogDiffData;
}.

(** [baseline ?? diff?.from ?? null] *)
Definition activeFrom (baseline : option string) (d : option CatalogDiff) : option string :=
  match baseline with Some b => Some b | None => d ≫= from end.

(** The badge of a field: the texts of the catalog with [{v}] replaced. *)
Inductive badge := NewSince (v : string) | ChangedSince (v : string).

Definition fieldBadge (d : option CatalogDiff) (diffFrom : option string) (modelId p : string) : option badge :=
  match d, diffFrom with
  | Some d, Some v =>
      if v === "" then None
      else match models (diff d) !! modelId with
           | None => None
           | Some m => if bool_decide (p ∈ added_fields m) then Some (NewSince v)
                       else if bool_decide (p ∈ changed_fields m) then Some (ChangedSince v) else None
           end
  | _, _ => None
  end.

Inductive note := NoChanges | Proposed | ProposeFailed.

(** The change as the request carries it. *)
Definition record_json (m : gmap string string) : json := JObj ((fun kv => (kv.1, JStr kv.2)) <$> map_to_list m).
Definition op_json (o : CatalogGridOp) : json :=
  match o with
  | OpAdd g it => JObj [("op", JStr "add"); ("grid", JStr g); ("item", record_json it)]
  | OpSet g u it => JObj [("op", JStr "set"); ("grid", JStr g); ("uuid", JStr u); ("item", record_json it)]
  | OpDel g u => JObj [("op", JStr "del"); ("grid", JStr g); ("uuid", JStr u)]
  end.
Definition body_json (b : CatalogChangeBody) : json :=
  JObj [("model_id", JStr (model_id b)); ("scalars", record_json (scalars b));
        ("grids", JArr (op_json <$> grid_ops b))].

(** [onPropose]: an empty change is not sent. *)
Definition onPropose (activeId : option string) (deviceId : string) (b : CatalogChangeBody)
    (answer : fetch_result) : option request * note :=
  if (size (scalars b) === 0) && (length (grid_ops b) === 0) then (None, NoChanges)
  else let propose := CatalogApi.useProposeCatalogChange activeId deviceId (body_json b) in
       (Some (m_request propose),
        match m_fn propose answer with Returned _ => Proposed | Threw _ => ProposeFailed end).

(** With a baseline chosen by the server, clearing the picker changes nothing:
    there is no way to "no comparison". *)
Lemma cleared_baseline_falls_back d v : from d = Some v -> activeFrom None (Some d) = Some v.
Proof. intros H. exact H. Qed.

Lemma unchanged_scalars live evs :
  size (scalars (Form.build live (Form.run live evs))) = 0 <->
  ~ exists p v, Form.last_edit p evs = Some v /\ Form.seeded live !! p <> Some v.
Proof.
  rewrite map_size_empty_iff, map_empty. split.
  - intros He (p & v & Hpv). apply Form.build_scalars in Hpv. congruence.
  - intros Hn p. destruct (_ !! p) as [v|] eqn:E; [|done]. exfalso. apply Hn.
    exists p, v. by apply Form.build_scalars.
Qed.

(** Only real edits are sent: for a session on the form, the tab sends
    nothing exactly when no field's last typed value differs from the device's
    and no grid operation was reported; otherwise it sends the form's change
    to the device. *)
Theorem onPropose_sends live evs activeId deviceId answer :
  let b := Form.build live (Form.run live evs) in
  let edited := (exists p v, Form.last_edit p evs = Some v /\ Form.seeded live !! p <> Some v) \/
                (exists o, o ∈ Form.emitted live evs) in
  ((onPropose activeId deviceId b answer).1 = None <-> ~ edited) /\
  (edited -> (onPropose activeId deviceId b answer).1 =
     Some (m_request (CatalogApi.useProposeCatalogChange activeId deviceId (body_json b)))).
Proof.
  cbn zeta. set (b := Form.build live (Form.run live evs)).
  pose proof (unchanged_scalars live evs) as Hs. fold b in Hs.
  assert (Hg : grid_ops b = [] <-> ~ exists o, o ∈ Form.emitted live evs).
  { setoid_rewrite <- Form.build_elem. fold b. destruct (grid_ops b) as [|o l].
    - split; [|done]. intros _ [o Ho]. by apply not_elem_of_nil in Ho.
    - split; [done|]. intros Hn. exfalso. apply Hn. exists o. left. }
  unfold onPropose. destruct (decide (size (scalars b) = 0)) as [Hz|Hz];
    destruct (decide (grid_ops b = [])) as [Ho|Ho].
  - rewrite Hz, Ho. simpl. tauto.
  - rewrite Hz, (bool_decide_false (length _ = 0)) by (by intros ?%nil_length_inv).
    split; [split; [done|tauto]|done].
  - rewrite (bool_decide_false (size _ = 0)) by done. split; [split; [done|tauto]|done].
  - rewrite (bool_decide_false (size _ = 0)) by done. split; [split; [done|tauto]|done].
Qed.
End Editor.
