(* ===== verification/CatalogTrees.v ===== *)
(** * Trees of the catalog: the searchable menu ([catalog/CatalogMenuTree.tsx])
    and the read-only configuration trees ([catalog/ConfigMapTree.tsx],
    [config/ConfigTree.tsx]) *)
From S2P Require Import Prelude JsString I18n Catalog.
From Stdlib Require Import Ascii.
Import Locale.

(** ** Links *)
Module Link.
(** Case-insensitive test of an ASCII prefix: [/^p/i]. *)
Fixpoint prefix_ci (p s : string) : bool :=
  match p, s with
  | EmptyString, _ => true
  | String a p, String b s => (lower_char a === lower_char b) && prefix_ci p s
  | String _ _, EmptyString => false
  end.

(** [/^https?:\/\//i.test(s)] *)
Definition is_http (s : string) : bool := prefix_ci "http://" s || prefix_ci "https://" s.

(** [s.replace(/\/$/, "")] *)
Fixpoint strip_slash (s : string) : string :=
  match s with
  | EmptyString => EmptyString
  | String c s' => if (c === "/"%char) && (s' === "") then "" else String c (strip_slash s')
  end.

Definition deepLink (baseUrl url : string) : option string :=
  if negb (is_http baseUrl) then None
  else let path := if String.prefix "/" url then url else "/" +:+ url in
       Some (strip_slash baseUrl +:+ path).

(** [safeWebGui] of [components/DeviceActions.tsx] *)
Definition safeWebGui (baseUrl : option string) : option string :=
  match baseUrl with
  | Some b => if negb (b === "") && is_http b then Some b else None
  | None => None
  end.

Lemma prefix_ci_app p s r : prefix_ci p s = true -> prefix_ci p (s +:+ r) = true.
Proof.
  revert s. induction p as [|a p IH]; intros [|b s]; simpl; try done.
  rewrite !andb_true_iff. naive_solver.
Qed.

Lemma is_http_app s r : is_http s = true -> is_http (s +:+ r) = true.
Proof.
  unfold is_http. rewrite !orb_true_iff. intros [?|?]; [left|right]; by apply prefix_ci_app.
Qed.

Lemma strip_slash_cases s : s = strip_slash s \/ s = strip_slash s +:+ "/".
Proof.
  induction s as [|c s IH]; [by left|]. cbn [strip_slash].
  destruct ((c === "/"%char) && (s === "")) eqn:E.
  - apply andb_true_iff in E as [->%bool_decide_eq_true ->%bool_decide_eq_true]. by right.
  - destruct IH as [IH|IH]; [left|right]; exact (f_equal (String c) IH).
Qed.

Lemma append_assoc (a b c : string) : (a +:+ b) +:+ c = a +:+ b +:+ c.
Proof. induction a as [|x a IH]; [done|]. change ((String x a +:+ b) +:+ c) with (String x ((a +:+ b) +:+ c)). by rewrite IH. Qed.

Lemma leading_slash url :
  exists rest, (if String.prefix "/" url then url else "/" +:+ url) = "/" +:+ rest.
Proof.
  destruct url as [|c url]; [by exists ""|]. destruct (decide (c = "/"%char)) as [-> |Hc].
  - exists url. by destruct url.
  - exists (String c url). replace (String.prefix "/" (String c url)) with false; [done|].
    cbn [String.prefix]. by destruct (ascii_dec _ _).
Qed.

(** Links to a device's own interface stay web links of that device: a
    deep link exists only for an [http(s)] base, is itself an [http(s)] URL
    (never a [javascript:] or [data:] one), and consists of the base, without
    a trailing slash, followed by a path that begins with a slash, so the host
    part is the device's; the same scheme test guards the device page's link. *)
Theorem deepLink_safe baseUrl url :
  match deepLink baseUrl url with
  | Some h => is_http baseUrl = true /\ is_http h = true /\
              exists rest, h = strip_slash baseUrl +:+ "/" +:+ rest
  | None => is_http baseUrl = false
  end /\
  (forall h, safeWebGui (Some baseUrl) = Some h -> h = baseUrl /\ is_http h = true).
Proof.
  split.
  - unfold deepLink. destruct (is_http baseUrl) eqn:Eh; [|done]. cbn [negb].
    destruct (leading_slash url) as [rest ->]. split; [done|]. split; [|by exists rest].
    destruct (strip_slash_cases baseUrl) as [E|E]; [rewrite <- E; by apply is_http_app|].
    rewrite <- append_assoc, <- E. by apply is_http_app.
  - unfold safeWebGui. intros h. destruct (negb _); simpl; [|done].
    destruct (is_http baseUrl) eqn:Eh; [|done]. by intros [= <-].
Qed.
End Link.

(** ** The menu *)
Module Menu.
Import Link.
Inductive MenuNode :=
| Node (id label : string) (url model_id : option string) (children : list MenuNode).

(** [undefined] and an empty list of children read the same everywhere. *)
Definition children (n : MenuNode) : list MenuNode := let 'Node _ _ _ _ c := n in c.

(** [hasDiff] *)
Definition hasDiff (diff : option Editor.CatalogDiffData) (modelId : string) : bool :=
  match diff with
  | None => false
  | Some d =>
      if bool_decide (modelId ∈ Editor.added_models d) then true
      else match Editor.models d !! modelId with
           | Some m => 0 <? length (Editor.added_fields m) + length (Editor.removed_fields m)
                            + length (Editor.changed_fields m)
           | None => false
           end
  end.

Section menu.
(** The engine's [toLowerCase]. *)
Context (lower : string -> string).

(** The node's own texts contain the search text. *)
Definition hit (q : string) (n : MenuNode) : bool :=
  let 'Node _ label url _ _ := n in
  contains q (lower label) || contains q (lower (url orelse "")).

Fixpoint matches (q : string) (n : MenuNode) : bool :=
  let 'Node id label url mid cs := n in
  if q === "" then true
  else if contains q (lower label) || contains q (lower (url orelse "")) then true
  else existsb (matches q) cs.

Inductive item :=
| Branch (id label : string) (opened : bool) (items : list item)
| ModelLink (id label model : string) (active flagged : bool)
| WebLink (id label : string) (href : option string).

Context (baseUrl : string) (selected : option string) (diff : option Editor.CatalogDiffData).
(** The expanded branches, by their position in the tree. *)
Context (expanded : list string -> bool).

(** An entry without children. *)
Definition leaf_item (n : MenuNode) : item :=
  let 'Node id label url mid _ := n in
  match mid with
  | Some m => if m === "" then WebLink id label (match url with Some u => if u === "" then None else deepLink baseUrl u | None => None end)
              else ModelLink id label m (selected === Some m) (hasDiff diff m)
  | None => WebLink id label (match url with Some u => if u === "" then None else deepLink baseUrl u | None => None end)
  end.

Fixpoint render (q : string) (at_ : list string) (n : MenuNode) : item :=
  let 'Node id label url mid cs := n in
  match cs with
  | [] => leaf_item n
  | _ => Branch id label (negb (q === "") || expanded (at_ ++ [id]))
           ((fix go l := match l with
                         | [] => []
                         | c :: l => if matches q c then render q (at_ ++ [id]) c :: go l else go l
                         end) cs)
  end.

Definition CatalogMenuTree (search : string) (nodes : list MenuNode) : list item :=
  let q := lower (trim search) in
  render q [] <$> filter (fun n => matches q n = true) nodes.

(** Entries without children of the tree, and of what is visible on screen. *)
Fixpoint leaves (n : MenuNode) : list MenuNode :=
  let 'Node _ _ _ _ cs := n in
  match cs with [] => [n] | _ => concat (leaves <$> cs) end.

Fixpoint visible (i : item) : list item :=
  match i with
  | Branch _ _ opened items => if opened then concat (visible <$> items) else []
  | _ => [i]
  end.

(** Induction on the tree. *)
Lemma MenuNode_rect' (P : MenuNode -> Prop) :
  (forall id label url mid cs, Forall P cs -> P (Node id label url mid cs)) -> forall n, P n.
Proof using Type.
  intros H. fix IH 1. intros [id label url mid cs]. apply H.
  induction cs as [|c cs IHcs]; constructor; [apply IH|exact IHcs].
Qed.

Definition hits (q : string) (l : list MenuNode) : list MenuNode := filter (fun n => hit q n = true) l.

Lemma hits_app q l k : hits q (l ++ k) = hits q l ++ hits q k.
Proof using Type. apply filter_app. Qed.

Section searching.
Context (q : string) (Hq : q <> "").

Lemma matches_node id label url mid cs :
  matches q (Node id label url mid cs) = hit q (Node id label url mid cs) || existsb (matches q) cs.
Proof using Hq. cbn [matches hit]. rewrite bool_decide_false by done. by destruct (contains _ _ || _). Qed.

Lemma unmatched_leaves n : matches q n = false -> hits q (leaves n) = [].
Proof using Hq.
  induction n as [id label url mid cs IH] using MenuNode_rect'. rewrite matches_node.
  intros [Hh Hc]%orb_false_iff. destruct cs as [|c cs]; cbn [leaves].
  - unfold hits. rewrite filter_cons_False; [done|]. by rewrite Hh.
  - revert Hc IH. generalize (c :: cs) as l. clear. induction l as [|x l IHl]; [done|].
    cbn [existsb]. intros [Hx Hl]%orb_false_iff [Hi Hi']%Forall_cons.
    rewrite fmap_cons. cbn [concat]. by rewrite hits_app, Hi, IHl.
Qed.

Definition shown_leaves (at_ : list string) (l : list MenuNode) : list item :=
  concat (visible <$> (render q at_ <$> filter (fun n => matches q n = true) l)).

Lemma shown_cons at_ n l :
  shown_leaves at_ (n :: l) =
  (if matches q n then visible (render q at_ n) else []) ++ shown_leaves at_ l.
Proof using Type.
  unfold shown_leaves. rewrite filter_cons. case_decide as Hm; [by rewrite Hm|].
  by destruct (matches q n).
Qed.

(** The inner loop of [render] is a filter and a map. *)
Lemma render_loop at_ l :
  (fix go l := match l with
               | [] => []
               | c :: l => if matches q c then render q at_ c :: go l else go l
               end) l = render q at_ <$> filter (fun n => matches q n = true) l.
Proof using Type.
  induction l as [|x l IH]; [done|]. rewrite filter_cons.
  case_decide as Hm; [rewrite Hm|destruct (matches q x); [done|]]; simpl; by rewrite ?IH.
Qed.

Lemma render_branch at_ id label url mid cs :
  cs <> [] ->
  visible (render q at_ (Node id label url mid cs)) = shown_leaves (at_ ++ [id]) cs.
Proof using Hq.
  intros Hne. unfold shown_leaves. rewrite <- render_loop. destruct cs as [|c cs]; [done|].
  cbn [render visible]. by rewrite bool_decide_false by done.
Qed.

Lemma visible_leaves n at_ :
  matches q n = true -> visible (render q at_ n) = leaf_item <$> hits q (leaves n).
Proof using Hq.
  revert at_. induction n as [id label url mid cs IH] using MenuNode_rect'. intros at_ Hm.
  destruct cs as [|c cs].
  - rewrite matches_node, orb_false_r in Hm. cbn [render leaves]. unfold hits.
    rewrite filter_cons_True by done. simpl. destruct mid as [m|]; [destruct (m === "")|]; done.
  - rewrite render_branch by done. cbn [leaves]. clear Hm. revert IH. generalize (c :: cs) as l.
    induction l as [|x l IHl]; [done|]. intros [Hx Hl]%Forall_cons. rewrite shown_cons.
    rewrite fmap_cons. cbn [concat]. rewrite hits_app, fmap_app, IHl by done. f_equal.
    destruct (matches q x) eqn:E; [by apply Hx|]. by rewrite unmatched_leaves.
Qed.
End searching.
End menu.

(** C36.  The search of the menu is complete and exact: with a search text, the
    entries visible on screen, through every branch on the way down, are
    precisely the entries of the whole menu whose label or address contains
    the text, in menu order, whatever is expanded. *)
Theorem menu_search_exact lower baseUrl selected diff expanded search nodes :
  let q := lower (trim search) in
  q <> "" ->
  concat (visible <$> CatalogMenuTree lower baseUrl selected diff expanded search nodes) =
  leaf_item baseUrl selected diff <$> filter (fun n => hit lower q n = true) (concat (leaves <$> nodes)).
Proof.
  intros q Hq. unfold CatalogMenuTree. fold q.
  induction nodes as [|n nodes IH]; [done|].
  change (shown_leaves lower baseUrl selected diff expanded q [] (n :: nodes) =
          leaf_item baseUrl selected diff <$> hits lower q (concat (leaves <$> (n :: nodes)))).
  rewrite shown_cons, fmap_cons. cbn [concat]. rewrite hits_app, fmap_app. f_equal; [|exact IH].
  destruct (matches lower q n) eqn:E; [by apply visible_leaves|]. by rewrite unmatched_leaves.
Qed.

Lemma menu_search_exact_witness :
  let tree := [Node "fw" "Firewall" None None
                 [Node "r" "Rules" (Some "/ui/rules") None []; Node "a" "Aliases" None (Some "alias") []]] in
  concat (visible <$> CatalogMenuTree toLowerCase "https://fw" None None (fun _ => false) " ALIAS " tree)
  = [ModelLink "a" "Aliases" "alias" false false].
Proof.
  intros tree.
  rewrite (menu_search_exact toLowerCase "https://fw" None None (fun _ => false) " ALIAS " tree ltac:(discriminate)).
  reflexivity.
Defined.
End Menu.

(** ** The configuration trees *)
Module Trees.
(** [MapNode] and [ConfigNode]: the latter has no catalog annotations. *)
Inductive ConfigNode :=
| CNode (tag path : string) (value : option string) (sensitive editable : bool)
        (catalog_model_id : option string) (children : list ConfigNode).

(** What is on screen for a node. *)
Inductive shown_value := Masked | Dash | Plain (v : string).
Inductive affordance := EditInCatalog (modelId : string) | ReadOnly.
Inductive view :=
| Leaf (tag : string) (depth : nat) (v : shown_value) (a : option affordance)
| Fold (tag : string) (depth : nat) (opened locked : bool) (count : nat) (a : option affordance) (children : list view).

(** [node.sensitive ? mask : (node.value || "—")] *)
Definition leaf_value (value : option string) (sensitive : bool) : shown_value :=
  if sensitive then Masked
  else match value with Some v => if v === "" then Dash else Plain v | None => Dash end.

Definition node_affordance (editable : bool) (mid : option string) : affordance :=
  match mid with
  | Some m => if editable && negb (m === "") then EditInCatalog m else ReadOnly
  | None => ReadOnly
  end.

(** [toggled] tells the branches whose state differs from the initial one
    (open at the two top levels). *)
Section views.
Context (toggled : string -> bool).

Definition is_open (depth : nat) (path : string) : bool := xorb (depth <? 2) (toggled path).

(** [catalog/ConfigMapTree.tsx] *)
Fixpoint MapNodeView (depth : nat) (n : ConfigNode) : view :=
  let 'CNode tag path value sensitive editable mid cs := n in
  match cs with
  | [] => Leaf tag depth (leaf_value value sensitive) (Some (node_affordance editable mid))
  | _ => Fold tag depth (is_open depth path) false (length cs) (Some (node_affordance editable mid))
           (MapNodeView (S depth) <$> cs)
  end.

(** [config/ConfigTree.tsx] *)
Fixpoint NodeView (depth : nat) (n : ConfigNode) : view :=
  let 'CNode tag path value sensitive editable mid cs := n in
  match cs with
  | [] => Leaf tag depth (leaf_value value sensitive) None
  | _ => Fold tag depth (is_open depth path) sensitive (length cs) None (NodeView (S depth) <$> cs)
  end.

Definition ConfigMapTree (root : ConfigNode) : view := MapNodeView 0 root.
Definition ConfigTree (root : ConfigNode) : view := NodeView 0 root.
End views.

(** The same configuration up to secrets: the values of sensitive nodes may
    differ (and those of inner nodes, which are never displayed). *)
Inductive same_public : ConfigNode -> ConfigNode -> Prop :=
| same_leaf tag path v v' s e m :
    (s = false -> v = v') -> same_public (CNode tag path v s e m []) (CNode tag path v' s e m [])
| same_node tag path v v' s e m cs cs' :
    cs <> [] -> Forall2 same_public cs cs' ->
    same_public (CNode tag path v s e m cs) (CNode tag path v' s e m cs').

(** Models offered for editing in a view. *)
Fixpoint edits (v : view) : list string :=
  match v with
  | Leaf _ _ _ a => match a with Some (EditInCatalog m) => [m] | _ => [] end
  | Fold _ _ _ _ _ a cs => (match a with Some (EditInCatalog m) => [m] | _ => [] end) ++ concat (edits <$> cs)
  end.
Fixpoint editable_models (n : ConfigNode) : list string :=
  let 'CNode _ _ _ _ e mid cs := n in
  (match mid with Some m => if e && negb (m === "") then [m] else [] | None => [] end)
  ++ concat (editable_models <$> cs).

Lemma same_public_ind' (P : ConfigNode -> ConfigNode -> Prop) :
  (forall tag path v v' s e m, (s = false -> v = v') -> P (CNode tag path v s e m []) (CNode tag path v' s e m [])) ->
  (forall tag path v v' s e m cs cs', cs <> [] -> Forall2 P cs cs' ->
     P (CNode tag path v s e m cs) (CNode tag path v' s e m cs')) ->
  forall n n', same_public n n' -> P n n'.
Proof.
  intros Hl Hn. fix IH 3. intros n n' H. destruct H as [tag path v v' s e m Hs|tag path v v' s e m cs cs' Hne Hf].
  - by apply Hl.
  - apply Hn; [done|]. clear Hne. induction Hf as [|x y l k Hxy Hf IHf]; constructor; [by apply IH|exact IHf].
Qed.

Lemma leaf_value_masks v v' (s : bool) : (s = false -> v = v') -> leaf_value v s = leaf_value v' s.
Proof. destruct s; [done|]. by intros ->. Qed.

Lemma same_views toggled n n' :
  same_public n n' -> forall d, MapNodeView toggled d n = MapNodeView toggled d n' /\
                                NodeView toggled d n = NodeView toggled d n'.
Proof.
  intros H. induction H as [tag path v v' s e m Hs|tag path v v' s e m cs cs' Hne Hf] using same_public_ind'; intros d.
  - cbn. by rewrite (leaf_value_masks v v' s Hs).
  - assert (Hlen : length cs = length cs') by (by eapply Forall2_length).
    assert (Hv : MapNodeView toggled (S d) <$> cs = MapNodeView toggled (S d) <$> cs' /\
                 NodeView toggled (S d) <$> cs = NodeView toggled (S d) <$> cs').
    { clear Hne Hlen. induction Hf as [|x y l k Hxy Hf IHf]; [done|]. rewrite !fmap_cons.
      destruct (Hxy (S d)) as [-> ->], IHf as [-> ->]. done. }
    destruct Hv as [Hm Hn]. destruct cs as [|c cs], cs' as [|c' cs']; try done.
    cbn [MapNodeView NodeView]. by rewrite Hm, Hn, Hlen.
Qed.

Lemma ConfigNode_ind' (P : ConfigNode -> Prop) :
  (forall tag path v s e m cs, Forall P cs -> P (CNode tag path v s e m cs)) -> forall n, P n.
Proof.
  intros H. fix IH 1. intros [tag path v s e m cs]. apply H.
  induction cs as [|c cs IHcs]; constructor; [apply IH|exact IHcs].
Qed.

Lemma map_edits toggled n d : edits (MapNodeView toggled d n) = editable_models n.
Proof.
  revert d. induction n as [tag path v s e m cs IH] using ConfigNode_ind'. intros d.
  assert (Ha : (match Some (node_affordance e m) with Some (EditInCatalog x) => [x] | _ => [] end) =
               match m with Some x => if e && negb (x === "") then [x] else [] | None => [] end).
  { unfold node_affordance. destruct m as [x|]; [|done]. by destruct (e && negb (x === "")). }
  destruct cs as [|c cs]; cbn [MapNodeView edits editable_models].
  - rewrite Ha. by rewrite app_nil_r.
  - rewrite Ha. do 2 f_equal. rewrite <- list_fmap_compose. apply list_fmap_ext.
    intros i x Hx. simpl. by apply (Forall_lookup_1 _ _ _ _ IH Hx).
Qed.

(** C14.  Secrets do not reach the screen: two configurations that differ only
    in the values of sensitive nodes are displayed identically by both trees,
    whatever is folded or unfolded; and the annotated tree offers for editing
    exactly the editable nodes that have a catalog model, and the plain tree
    nothing. *)
Theorem config_trees_hide_secrets toggled n n' :
  same_public n n' ->
  ConfigMapTree toggled n = ConfigMapTree toggled n' /\ ConfigTree toggled n = ConfigTree toggled n' /\
  edits (ConfigMapTree toggled n) = editable_models n /\ edits (ConfigTree toggled n) = [].
Proof.
  intros H. destruct (same_views toggled n n' H 0) as [Hm Hn].
  split; [exact Hm|]. split; [exact Hn|]. split; [apply map_edits|].
  clear. unfold ConfigTree. generalize 0 as d. induction n as [tag path v s e m cs IH] using ConfigNode_ind'.
  intros d. destruct cs as [|c cs]; [done|]. cbn [NodeView edits]. rewrite <- list_fmap_compose.
  change (concat ((edits ∘ NodeView toggled (S d)) <$> (c :: cs)) = []).
  revert IH. generalize (c :: cs) as l. induction l as [|x l IHl]; [done|].
  intros [Hx Hl]%Forall_cons. rewrite fmap_cons. cbn [concat]. unfold compose at 1. by rewrite Hx, IHl.
Qed.

Lemma config_trees_hide_secrets_witness :
  let n p := CNode "system" "/system" None false false None
               [CNode "password" "/system/password" (Some p) true true (Some "auth") []] in
  ConfigTree (fun _ => false) (n "hunter2") = ConfigTree (fun _ => false) (n "other").
Proof.
  intros n.
  refine (proj1 (proj2 (config_trees_hide_secrets (fun _ => false) (n "hunter2") (n "other") _))).
  apply same_node; [discriminate|]. repeat constructor; discriminate.
Defined.
End Trees.
