(* ===== verification/Picker.v ===== *)
(** * Local date-times of the pickers

    A [DateTimePicker] holds a wall-clock text "YYYY-MM-DD HH:mm:ss".  The
    time zone is the browser's: [offset w] is how far local time is ahead of
    UTC, in milliseconds, when the local clock reads [w] (a clock reading being
    counted as if it were UTC), and [clock t] is the local reading at instant [t]. *)
From S2P Require Import Prelude JsString Time.
From Stdlib Require Import ZArith Ascii.
Local Open Scope Z_scope.
Import Civil Iso.

(** Prints a clock reading: [dayjs(...).format("YYYY-MM-DD HH:mm:ss")]. *)
Definition format_picker (w : Z) : string :=
  let c := civil_from_days (w / 86400000) in
  let ms := w mod 86400000 in
  of_chars (pad 4 (year c) ++ "-"%char :: pad 2 (month c) ++ "-"%char :: pad 2 (day c)
            ++ " "%char :: pad 2 (ms / 3600000) ++ ":"%char :: pad 2 (ms / 60000 mod 60)
            ++ ":"%char :: pad 2 (ms / 1000 mod 60)).

(** Reads one; [None] is an invalid date. *)
Definition parse_picker (s : string) : option Z :=
  '(y, l) ← read_digits 4 0 (chars s);
  l ← expect "-" l; '(mo, l) ← read_digits 2 0 l;
  l ← expect "-" l; '(d, l) ← read_digits 2 0 l;
  l ← expect " " l; '(h, l) ← read_digits 2 0 l;
  l ← expect ":" l; '(mi, l) ← read_digits 2 0 l;
  l ← expect ":" l; '(sec, l) ← read_digits 2 0 l;
  match l with
  | [] => if (1 <=? mo) && (mo <=? 12) && (1 <=? d) && (d <=? 31) && (h <? 24) && (mi <? 60) && (sec <? 60)
          then Some (days_from_civil (YMD y mo d) * 86400000 + h * 3600000 + mi * 60000 + sec * 1000)
          else None
  | _ => None
  end.

(** [toISOString().replace("T", " ").slice(0, 19)] *)
Definition iso_slice (t : Z) : option string :=
  (fun s => of_chars (take 19 ((fun c => if c === "T"%char then " "%char else c) <$> chars s))) <$> toISOString t.

Section zone.
Context (offset clock : Z -> Z).

(** [new Date(s.replace(" ", "T")).toISOString()]; [None] throws. *)
Definition picker_instant (s : string) : option Z := w ← parse_picker s; Some (w - offset w).
Definition picker_iso (s : string) : option string := t ← picker_instant s; toISOString t.

(** [pages/LogsPage.tsx]: [dayjs().subtract(days, "day").format(...)] *)
Definition mantineDaysAgo (days now : Z) : string := format_picker (clock now - days * 86400000).
(** [pages/LogsPage.tsx]: [toIso] *)
Definition logs_toIso (s : string) : option string := picker_iso s.

(** [pages/ReportsPage.tsx] *)
Definition defaultFrom (now : Z) : option string :=
  let w := clock now - 30 * 86400000 in iso_slice (w - offset w).
Definition defaultTo (now : Z) : option string := iso_slice now.

(** [pages/AuditPage.tsx] *)
Definition audit_toIso (s : option string) : option string :=
  match s with
  | Some x => if x === "" then None else picker_iso x
  | None => None
  end.
End zone.

Definition floor_second (t : Z) : Z := t - t mod 1000.

(** Clock readings the four-digit format covers. *)
Definition four_digit (w : Z) : Prop := 0 <= year (civil_from_days (w / 86400000)) <= 9999.

Lemma parse_format w : four_digit w -> parse_picker (format_picker w) = Some (floor_second w).
Proof.
  intros Hy. unfold parse_picker, format_picker. cbv zeta. rewrite chars_of_chars.
  pose proof (civil_range (w / 86400000)) as [Hm Hd].
  pose proof (Z.mod_pos_bound w 86400000 ltac:(lia)) as Hms.
  unfold four_digit in Hy. rewrite read_pad by (change (10 ^ Z.of_nat 4) with 10000; lia).
  set (ms := w mod 86400000) in *.
  assert (0 <= ms / 3600000 < 24) by (Z.to_euclidean_division_equations; lia).
  pose proof (Z.mod_pos_bound (ms / 60000) 60 ltac:(lia)).
  pose proof (Z.mod_pos_bound (ms / 1000) 60 ltac:(lia)).
  repeat (rewrite some_bind; cbv beta iota;
          first [rewrite expect_head | rewrite read_pad_2 by lia]).
  rewrite <- (app_nil_r (pad 2 (ms / 1000 mod 60))).
  repeat (rewrite some_bind; cbv beta iota; rewrite read_pad_2 by lia).
  rewrite some_bind. cbv beta iota. rewrite Z.mul_0_l, Z.add_0_l, ymd_eta, days_civil_days.
  replace (_ && _) with true; [|symmetry; rewrite !andb_true_iff, !Z.leb_le, !Z.ltb_lt; lia].
  f_equal. unfold floor_second, ms. Z.to_euclidean_division_equations; lia.
Qed.

(** *** The sliced ISO text is the UTC clock reading *)
Lemma length_pad k n : length (pad k n) = k.
Proof. revert n. induction k as [|k IH]; intros n; [done|]. cbn [pad]. rewrite length_app, IH. simpl. lia. Qed.

Lemma pad_no_T k n : 0 <= n -> (fun c => if c === "T"%char then " "%char else c) <$> pad k n = pad k n.
Proof.
  intros Hn. apply fmap_fixed. revert n Hn. induction k as [|k IH]; intros n Hn; cbn [pad]; [constructor|].
  apply Forall_app. split; [apply IH, Z.div_pos; lia|]. constructor; [|constructor].
  pose proof (digit_value_digit (n mod 10) ltac:(apply Z.mod_pos_bound; lia)) as Hd.
  rewrite bool_decide_false; [done|]. intros E. rewrite E in Hd. discriminate Hd.
Qed.

Lemma take_pad k n r l : take (k + r) (pad k n ++ l) = pad k n ++ take r l.
Proof. rewrite <- (length_pad k n) at 1. apply take_app_add. Qed.

Lemma iso_slice_format t :
  Z.abs t <= max_time -> four_digit t -> iso_slice t = Some (format_picker t).
Proof.
  intros Ht Hy. unfold iso_slice, toISOString. rewrite (proj2 (Z.leb_le _ _)) by done. cbv zeta.
  unfold four_digit in Hy. unfold iso_year.
  rewrite (proj2 (Z.leb_le 0 _)), (proj2 (Z.leb_le _ 9999)) by lia. cbn [andb fmap option_fmap option_map].
  rewrite chars_of_chars. f_equal. unfold format_picker. cbv zeta. f_equal.
  pose proof (civil_range (t / 86400000)) as [Hm Hd].
  pose proof (Z.mod_pos_bound t 86400000 ltac:(lia)) as Hms. set (ms := t mod 86400000) in *.
  assert (0 <= ms / 3600000) by (apply Z.div_pos; lia).
  pose proof (Z.mod_pos_bound (ms / 60000) 60 ltac:(lia)).
  pose proof (Z.mod_pos_bound (ms / 1000) 60 ltac:(lia)).
  pose proof (Z.mod_pos_bound ms 1000 ltac:(lia)).
  rewrite ?fmap_app, ?fmap_cons, ?pad_no_T by lia.
  repeat (rewrite ?fmap_app, ?fmap_cons; rewrite ?pad_no_T by lia).
  change 19%nat with (4 + (1 + (2 + (1 + (2 + (1 + (2 + (1 + (2 + (1 + (2 + 0)))))))))))%nat.
  repeat (rewrite take_pad || (cbn [Nat.add take]; f_equal)).
Qed.

(** ** A zone with a constant offset of whole seconds *)
Section fixed_zone.
Context (off : Z) (Hoff : off mod 1000 = 0).
Let offset (_ : Z) : Z := off.
Let clock (t : Z) : Z := t + off.

Lemma floor_clock t : floor_second (clock t) - off = floor_second t.
Proof using Hoff.
  unfold floor_second, clock.
  rewrite (Z.add_mod t off 1000), Hoff, Z.add_0_r, Z.mod_mod by lia. lia.
Qed.

Lemma picker_instant_format w :
  four_digit w -> picker_instant offset (format_picker w) = Some (floor_second w - off).
Proof using Type. intros Hw. unfold picker_instant. by rewrite parse_format. Qed.
End fixed_zone.

(** The log search covers the window it shows: with the local clock any
    whole number of seconds away from UTC, the default bounds of the log page,
    printed and read back as local times, are exactly the current instant and
    the instant [days] days before it, to the second. *)
Theorem logs_window_exact off now days :
  off mod 1000 = 0 -> four_digit (now + off) -> four_digit (now + off - days * 86400000) ->
  let offset (_ : Z) := off in let clock (t : Z) := t + off in
  logs_toIso offset (mantineDaysAgo clock 0 now) = toISOString (floor_second now) /\
  logs_toIso offset (mantineDaysAgo clock days now) = toISOString (floor_second now - days * 86400000).
Proof.
  intros Hoff H0 Hd offset clock. unfold logs_toIso, picker_iso, mantineDaysAgo, offset, clock.
  rewrite Z.mul_0_l, Z.sub_0_r, !picker_instant_format by done. simpl. split.
  - by rewrite (floor_clock off Hoff now).
  - f_equal. rewrite <- (floor_clock off Hoff now). unfold floor_second.
    replace (now + off - days * 86400000) with (now + off + (- days * 86400) * 1000) by lia.
    rewrite Z.mod_add by lia. lia.
Qed.

(** The default end of the report range is the UTC reading of now, but it is
    sent as a local time: the instant requested is off by the zone's offset. *)
Lemma report_default_shifted off now :
  Z.abs now <= max_time -> four_digit now ->
  exists s, defaultTo now = Some s /\ picker_instant (fun _ => off) s = Some (floor_second now - off).
Proof.
  intros Ht Hy. exists (format_picker now). split; [by apply iso_slice_format|]. by apply picker_instant_format.
Qed.
