(* ===== verification/Templates.v ===== *)
(** * The template library ([templates/*.tsx])

    [Modal] is the create/edit form of a template with its six kinds;
    [Payload] the introspected field forms; [Policy] the IDS policy form. *)
From S2P Require Import Prelude JsString Json Http Hooks TenantHooks Time Picker Catalog.
From Stdlib Require Import ZArith Ascii.

Abbreviation newline := (ascii_of_nat 10).

(** ** [templates/TemplateFormModal.tsx] *)
Module Modal.
Record PolicyBody := MkPolicy {
  p_description : string;
  enabled : string;
  prio : string;
  action : list string;
  rulesets : list string;
  content : gmap string (list string);
  new_action : string;
}.

(** Bodies by kind: what the casts of the source assume of [editing.body]. *)
Inductive body :=
| AliasB (name type : string) (content : list string) (description : string)
| SettingB (endpoint_key : string) (payload : gmap string string)
| IdsB (rulesets : list string)
| RuleB (payload : gmap string string)
| MonitB (payload : gmap string string)
| PolicyB (p : PolicyBody).

Record Template := MkTemplate {
  id : string;
  kind : string;
  name : string;
  description : option string;
  t_body : option body;
}.

Definition EMPTY_SETTING : string * gmap string string := ("", ∅).
Definition EMPTY_POLICY : PolicyBody := MkPolicy "" "1" "0" [] [] ∅ "alert".

Record values := MkValues { v_name : string; v_type : string; v_content : string; v_description : string }.

Record modal := MkModal {
  m_kind : string;
  settingBody : string * gmap string string;
  idsBody : list string;
  ruleBody : gmap string string;
  monitBody : gmap string string;
  policyBody : PolicyBody;
  v : values;
}.

(** The casts, each under the test of the kind. *)
Definition as_setting (b : option body) : string * gmap string string :=
  match b with Some (SettingB k p) => (k, p) | _ => EMPTY_SETTING end.
Definition as_ids (b : option body) : list string := match b with Some (IdsB l) => l | _ => [] end.
Definition as_rule (b : option body) : gmap string string := match b with Some (RuleB p) => p | _ => ∅ end.
Definition as_monit (b : option body) : gmap string string := match b with Some (MonitB p) => p | _ => ∅ end.
Definition as_policy (b : option body) : PolicyBody := match b with Some (PolicyB p) => p | _ => EMPTY_POLICY end.

(** [String(editing.body?.type ?? "host")] *)
Definition body_type (b : option body) : string :=
  match b with
  | Some (AliasB _ t _ _) => t
  | Some (RuleB p) | Some (MonitB p) => (p !! "type") orelse "host"
  | _ => "host"
  end.
(** [(Array.isArray(editing.body?.content) ? editing.body.content : []).join("\n")] *)
Definition body_content (b : option body) : string :=
  match b with Some (AliasB _ _ c _) => join (String newline "") c | _ => "" end.

(** The effect that runs when the modal opens. *)
Definition open_ (editing : option Template) : modal :=
  let has k := (kind <$> editing) === Some k in
  let b := editing ≫= t_body in
  MkModal ((kind <$> editing) orelse "firewall_alias")
    (if has "opnsense_setting" then as_setting b else EMPTY_SETTING)
    (if has "suricata_ruleset" then as_ids b else [])
    (if has "firewall_rule" then as_rule b else ∅)
    (if has "monit_test" then as_monit b else ∅)
    (if has "ids_policy" then as_policy b else EMPTY_POLICY)
    (match editing with
     | Some e =>
         if negb (kind e === "opnsense_setting")
         then MkValues (name e) (body_type b) (body_content b) (description e orelse "")
         else MkValues (name e) "host" "" (description e orelse "")
     | None => MkValues "" "host" "" ""
     end).

(** What [submit] sends, or the complaint it shows instead. *)
Inductive submission :=
| Rejected (m : msg)
| Create (kind name description : string) (b : body)
| Update (id name description : string) (b : body).

Definition send (editing : option Template) (k : string) (w : values) (b : body) : submission :=
  match editing with
  | Some e => Update (id e) (v_name w) (v_description w) b
  | None => Create k (v_name w) (v_description w) b
  end.

Definition blank (s : string) : bool := trim s === "".

Definition submit (editing : option Template) (m : modal) : submission :=
  let w := v m in
  if m_kind m === "opnsense_setting" then
    send editing "opnsense_setting" w (SettingB (settingBody m).1 (settingBody m).2)
  else if m_kind m === "suricata_ruleset" then
    send editing "suricata_ruleset" w (IdsB (idsBody m))
  else if m_kind m === "firewall_rule" then
    if blank ((ruleBody m !! "description") orelse "")
    then Rejected (Tr ["templates"; "fw"; "descriptionRequired"])
    else send editing "firewall_rule" w (RuleB (ruleBody m))
  else if m_kind m === "monit_test" then
    if blank ((monitBody m !! "name") orelse "")
    then Rejected (Tr ["templates"; "monit"; "nameRequired"])
    else send editing "monit_test" w (MonitB (monitBody m))
  else if m_kind m === "ids_policy" then
    if blank (p_description (policyBody m))
    then Rejected (Tr ["templates"; "idsPolicy"; "descriptionRequired"])
    else send editing "ids_policy" w (PolicyB (policyBody m))
  else
    let content := entries newline (v_content w) in
    send editing "firewall_alias" w (AliasB (v_name w) (v_type w) content (v_description w)).

(** Reopening a template of each validated kind. *)
Section reopened.
Context (i n d : string).
Let tpl (k : string) (b : body) : Template := MkTemplate i k n (Some d) (Some b).

Lemma edit_rule p :
  blank ((p !! "description") orelse "") = false ->
  submit (Some (tpl "firewall_rule" (RuleB p))) (open_ (Some (tpl "firewall_rule" (RuleB p)))) =
  Update i n d (RuleB p).
Proof using Type.
  intros E. change (submit _ _) with
    (if blank ((p !! "description") orelse "") then Rejected (Tr ["templates"; "fw"; "descriptionRequired"])
     else Update i n d (RuleB p)). by rewrite E.
Qed.

Lemma edit_monit p :
  blank ((p !! "name") orelse "") = false ->
  submit (Some (tpl "monit_test" (MonitB p))) (open_ (Some (tpl "monit_test" (MonitB p)))) =
  Update i n d (MonitB p).
Proof using Type.
  intros E. change (submit _ _) with
    (if blank ((p !! "name") orelse "") then Rejected (Tr ["templates"; "monit"; "nameRequired"])
     else Update i n d (MonitB p)). by rewrite E.
Qed.

Lemma edit_policy p :
  blank (p_description p) = false ->
  submit (Some (tpl "ids_policy" (PolicyB p))) (open_ (Some (tpl "ids_policy" (PolicyB p)))) =
  Update i n d (PolicyB p).
Proof using Type.
  intros E. change (submit _ _) with
    (if blank (p_description p) then Rejected (Tr ["templates"; "idsPolicy"; "descriptionRequired"])
     else Update i n d (PolicyB p)). by rewrite E.
Qed.
End reopened.

(** C32.  Editing is lossless: for every template the form creates, of any
    kind and from any state of the form, opening the stored template for
    editing and saving it without touching anything sends an update of that
    template with the same name, description and body. *)
Theorem template_edit_lossless m new_id k n d b :
  submit None m = Create k n d b ->
  submit (Some (MkTemplate new_id k n (Some d) (Some b))) (open_ (Some (MkTemplate new_id k n (Some d) (Some b)))) =
  Update new_id n d b.
Proof.
  unfold submit at 1.
  destruct (m_kind m === "opnsense_setting"); [by intros [= <- <- <- <-]|].
  destruct (m_kind m === "suricata_ruleset"); [by intros [= <- <- <- <-]|].
  destruct (m_kind m === "firewall_rule").
  { destruct (blank _) eqn:E; [done|]. intros [= <- <- <- <-]. by apply edit_rule. }
  destruct (m_kind m === "monit_test").
  { destruct (blank _) eqn:E; [done|]. intros [= <- <- <- <-]. by apply edit_monit. }
  destruct (m_kind m === "ids_policy").
  { destruct (blank _) eqn:E; [done|]. intros [= <- <- <- <-]. by apply edit_policy. }
  intros [= <- <- <- <-].
  match goal with |- submit (Some ?t) (open_ _) = Update ?i ?n ?d (AliasB _ ?ty (entries _ ?x) _) =>
    change (Update i n d (AliasB n ty (entries newline (join (String newline "") (entries newline x))) d) =
            Update i n d (AliasB n ty (entries newline x) d)) end.
  by rewrite entries_normal.
Qed.

Lemma template_edit_lossless_witness :
  let m := MkModal "firewall_alias" ("", ∅) [] ∅ ∅ EMPTY_POLICY
             (MkValues "blocked" "host" (" 10.0.0.1 " +:+ String newline (String newline "10.0.0.2")) "bad hosts") in
  let t := MkTemplate "t1" "firewall_alias" "blocked" (Some "bad hosts")
             (Some (AliasB "blocked" "host" ["10.0.0.1"; "10.0.0.2"] "bad hosts")) in
  submit (Some t) (open_ (Some t)) =
  Update "t1" "blocked" "bad hosts" (AliasB "blocked" "host" ["10.0.0.1"; "10.0.0.2"] "bad hosts").
Proof. intros m t. apply (template_edit_lossless m). vm_compute. reflexivity. Defined.

(** The kind picker stays active while editing: switching it and saving sends
    a body of another kind to the same template. *)
Lemma edit_can_change_body_kind :
  let t := MkTemplate "t1" "firewall_alias" "a" None (Some (AliasB "a" "host" ["1.1.1.1"] "")) in
  let m := open_ (Some t) in
  submit (Some t) (MkModal "suricata_ruleset" (settingBody m) (idsBody m) (ruleBody m) (monitBody m) (policyBody m) (v m))
  = Update "t1" "a" "" (IdsB []).
Proof. reflexivity. Qed.
End Modal.

(** ** Introspected fields: [templates/AutoFormFields.tsx],
    [templates/OpnsenseSettingForm.tsx], [templates/FirewallRuleForm.tsx],
    [templates/MonitTestForm.tsx] *)
Module Payload.
Inductive control_kind := select | multiselect | switch | text.
Record SettingField := MkSettingField {
  path : string;
  control : control_kind;
  options : list option_;
  value : cell;
}.

(** [Array.isArray(f.value) ? f.value.join(",") : String(f.value)] *)
Definition default_of (f : SettingField) : string := toStr (Some (value f)).

Definition initialPayload (fs : list SettingField) : gmap string string :=
  fold_left (fun m f => <[path f := default_of f]> m) fs ∅.

(** [{ ...defaults, ...value.payload }] *)
Definition merged (fs : list SettingField) (payload : gmap string string) : gmap string string :=
  payload ∪ initialPayload fs.

(** A form: the payload it edits and the fields it shows. *)
Record form := MkForm { payload : gmap string string; fields : list SettingField; loaded : bool }.

(** [loadFields]: the device's model, or a failure. *)
Definition loadFields (answer : option (list SettingField)) (f : form) : form :=
  match answer with
  | Some fs => MkForm (merged fs (payload f)) fs true
  | None => MkForm (payload f) [] false
  end.
Definition setField (p v : string) (f : form) : form := MkForm (<[p := v]> (payload f)) (fields f) (loaded f).
(** Picking another endpoint starts over. *)
Definition pickEndpoint (_ : form) : form := MkForm ∅ [] false.
(** The checkbox of the monit form. *)
Definition attachSystem (checked : bool) (f : form) : form :=
  setField "attach_to_system" (if checked then "1" else "0") f.

(** What [AutoFormFields] displays for a field. *)
Definition AutoFormField (p : gmap string string) (f : SettingField) : Field.control :=
  let current := p !! path f in
  match control f with
  | switch => Field.Switch ((current orelse default_of f) === "1")
  | select => Field.Select (options f) (current orelse default_of f)
  | multiselect =>
      let fallback := match value f with Many l => join "," l | One _ => "" end in
      Field.MultiSelect (options f) (filter (fun w => w <> "") (split ","%char (current orelse fallback)))
  | text => Field.TextInput (current orelse default_of f)
  end.

Lemma initialPayload_lookup fs p :
  initialPayload fs !! p = default_of <$> last (filter (fun f => path f = p) fs).
Proof.
  unfold initialPayload. induction fs as [|f fs IH] using rev_ind; [done|].
  rewrite fold_left_app, filter_app. simpl. rewrite filter_cons. case_decide as Hp.
  - subst p. rewrite lookup_insert_eq. by rewrite filter_nil, last_snoc.
  - rewrite lookup_insert_ne by done. by rewrite filter_nil, app_nil_r.
Qed.

Lemma merged_lookup fs p k :
  merged fs p !! k = match p !! k with Some v => Some v | None => initialPayload fs !! k end.
Proof. unfold merged. rewrite lookup_union. by destruct (p !! k), (initialPayload fs !! k). Qed.

Lemma merged_covers fs p x : x ∈ fs -> exists v, merged fs p !! path x = Some v.
Proof.
  intros Hx. rewrite merged_lookup. destruct (p !! path x) as [v|]; [eauto|].
  rewrite initialPayload_lookup. destruct (last _) eqn:E; [simpl; eauto|].
  apply last_None in E. exfalso. apply (not_elem_of_nil x). rewrite <- E. by apply list_elem_of_filter.
Qed.

(** The control of the field's kind, showing [v]. *)
Definition control_showing (f : SettingField) (v : string) : Field.control :=
  match control f with
  | switch => Field.Switch (v === "1")
  | select => Field.Select (options f) v
  | multiselect => Field.MultiSelect (options f) (filter (fun w => w <> "") (split ","%char v))
  | text => Field.TextInput v
  end.

Lemma AutoFormField_shows p f v : p !! path f = Some v -> AutoFormField p f = control_showing f v.
Proof. unfold AutoFormField, control_showing. intros ->. by destruct (control f). Qed.

(** Loading a device's fields never overwrites a saved value: after any
    load, successful or not, every value of the payload is still there; a
    field the payload lacked gets the device's current value; loading twice is
    loading once; and after a successful load every control of the form shows
    the value the payload will send, never a fallback of its own. *)
Theorem loadFields_preserves answer f :
  let f' := loadFields answer f in
  (forall p v, payload f !! p = Some v -> payload f' !! p = Some v) /\
  (forall fs p, answer = Some fs -> payload f !! p = None ->
     payload f' !! p = default_of <$> last (filter (fun x => path x = p) fs)) /\
  loadFields answer f' = f' /\
  (forall fs x, answer = Some fs -> x ∈ fs ->
     exists v, payload f' !! path x = Some v /\ AutoFormField (payload f') x = control_showing x v).
Proof.
  cbn zeta. destruct answer as [fs|]; cbn [loadFields payload].
  - split_and!.
    + intros p v Hv. by rewrite merged_lookup, Hv.
    + intros fs' p [= <-] Hn. by rewrite merged_lookup, Hn, initialPayload_lookup.
    + f_equal. apply map_eq. intros p. rewrite !merged_lookup. by destruct (payload f !! p), (initialPayload fs !! p).
    + intros fs' x [= <-] Hx. destruct (merged_covers fs (payload f) x Hx) as [v Hv].
      exists v. auto using AutoFormField_shows.
  - by split_and!.
Qed.
End Payload.

(** ** [templates/IdsPolicyForm.tsx] *)
Module Policy.
Import Modal.
Record RulesetRow := MkRuleset { filename : string; r_description : string; r_enabled : string }.

(** The options: enabled rulesets, then the selected ones that are missing. *)
Definition label_of (r : RulesetRow) : string := if r_description r === "" then filename r else r_description r.
Definition rulesetData (rows : list RulesetRow) (selected : list string) : list option_ :=
  let opts := (fun r => MkOption (filename r) (label_of r)) <$> filter (fun r => r_enabled r = "1") rows in
  opts ++ ((fun n => MkOption n n) <$> filter (fun n => n ∉ Catalog.value <$> opts) selected).

(** [templates/IdsRulesetForm.tsx] offers the rows only. *)
Definition ids_rulesetData (rows : list RulesetRow) : list option_ :=
  (fun r => MkOption (filename r) (label_of r)) <$> rows.

(** [/^[A-Za-z0-9._-]+$/] *)
Definition key_char (c : ascii) : bool :=
  let n := nat_of_ascii c in
  ((65 <=? n) && (n <=? 90)) || ((97 <=? n) && (n <=? 122)) || ((48 <=? n) && (n <=? 57))
  || (c === "."%char) || (c === "_"%char) || (c === "-"%char).
Definition CONTENT_KEY_RE (s : string) : bool := negb (s === "") && forallb key_char (chars s).

Record editor := MkEditor { pol : PolicyBody; contentKey : string; contentValues : string }.
Inductive outcome_ := Unchanged | KeyInvalid | Added.

Definition set_content (c : gmap string (list string)) (p : PolicyBody) : PolicyBody :=
  MkPolicy (p_description p) (Modal.enabled p) (prio p) (action p) (rulesets p) c (new_action p).

Definition addContent (e : editor) : editor * outcome_ :=
  let key := trim (contentKey e) in
  if key === "" then (e, Unchanged)
  else if negb (CONTENT_KEY_RE key) then (e, KeyInvalid)
  else (MkEditor (set_content (<[key := entries ","%char (contentValues e)]> (content (pol e))) (pol e)) "" "", Added).

Definition removeContent (key : string) (e : editor) : editor :=
  MkEditor (set_content (delete key (content (pol e))) (pol e)) (contentKey e) (contentValues e).

Inductive event := Add | Remove (key : string) | Draft (key values : string).
Definition exec (ev : event) (e : editor) : editor :=
  match ev with
  | Add => (addContent e).1
  | Remove k => removeContent k e
  | Draft k v => MkEditor (pol e) k v
  end.

Definition content_ok (p : PolicyBody) : Prop :=
  map_Forall (fun k l => CONTENT_KEY_RE k = true /\ Forall (entry ","%char) l) (content p).

Lemma exec_content ev e : content_ok (pol e) -> content_ok (pol (exec ev e)).
Proof.
  intros He. destruct ev as [|k|k v]; cbn [exec]; [|by apply map_Forall_delete|done].
  unfold addContent. destruct (trim _ === ""); [done|]. destruct (CONTENT_KEY_RE _) eqn:E; [|done].
  apply map_Forall_insert_2; [|done]. split; [done|]. apply entries_ok.
Qed.

Lemma rulesetData_values rows sel n :
  n ∈ Catalog.value <$> rulesetData rows sel <->
  n ∈ sel \/ exists r, r ∈ rows /\ r_enabled r = "1" /\ filename r = n.
Proof.
  unfold rulesetData. rewrite fmap_app, elem_of_app, <- !list_fmap_compose.
  change (Catalog.value ∘ (fun m : string => MkOption m m)) with (fun m : string => m). rewrite list_fmap_id.
  assert (Hopt : forall x, x ∈ (Catalog.value ∘ (fun r => MkOption (filename r) (label_of r)))
                             <$> filter (fun r => r_enabled r = "1") rows
                 <-> exists r, r ∈ rows /\ r_enabled r = "1" /\ filename r = x).
  { intros x. rewrite list_elem_of_fmap. setoid_rewrite list_elem_of_filter. naive_solver. }
  rewrite Hopt, list_elem_of_filter, Hopt.
  destruct (decide (n ∈ Catalog.value <$> ((fun r => MkOption (filename r) (label_of r))
                          <$> filter (fun r => r_enabled r = "1") rows))) as [Hd|Hd];
    rewrite <- list_fmap_compose, Hopt in Hd; tauto.
Qed.

(** Editing an IDS policy never drops a selected ruleset: the picker
    offers exactly the enabled rulesets of the reference device and whatever
    is already selected, for any device; and every content filter an editing
    session leaves behind has a valid key and clean values. *)
Theorem policy_editing_sound rows sel evs e :
  (forall n, n ∈ Catalog.value <$> rulesetData rows sel <->
     n ∈ sel \/ exists r, r ∈ rows /\ r_enabled r = "1" /\ filename r = n) /\
  (content_ok (pol e) -> content_ok (pol (fold_left (fun e ev => exec ev e) evs e))).
Proof.
  split; [intros n; apply rulesetData_values|].
  revert e. induction evs as [|ev evs IH]; intros e He; [done|]. simpl. by apply IH, exec_content.
Qed.

(** The ruleset form, unlike the policy form, does not offer a selected
    ruleset the reference device lacks. *)
Lemma ids_form_omits_selected :
  "custom.rules" ∉ Catalog.value <$> ids_rulesetData [MkRuleset "emerging.rules" "ET" "1"] /\
  "custom.rules" ∈ Catalog.value <$> rulesetData [MkRuleset "emerging.rules" "ET" "1"] ["custom.rules"].
Proof. split; apply (bool_decide_unpack _); vm_compute; exact I. Qed.
End Policy.
