(* ===== verification/Actions.v ===== *)
(** * Changes of a device's configuration ([config/ChangesPanel.tsx],
    [config/ProposeAliasModal.tsx]), and the time an action is scheduled at

    [offset] is the browser's time zone, as in [Picker]. *)
From S2P Require Import Prelude Machine JsString Json Http QueryClient Hooks TenantHooks HookFamily HookRefresh.
From S2P Require Import Time Picker I18n Templates.
From Stdlib Require Import ZArith Ascii.

(** [scheduled && when ? new Date(when.replace(" ", "T")).toISOString() : null]:
    an invalid date throws before anything is sent. *)
Definition scheduled_at (offset : Z -> Z) (scheduled : bool) (when : option string) : outcome unit (option string) :=
  if scheduled && present when then
    match picker_iso offset (when orelse "") with Some iso => Returned (Some iso) | None => Threw tt end
  else Returned None.

(** ** [config/ChangesPanel.tsx], [config/ProposeAliasModal.tsx] *)
Module ChangesPanel.
Record ConfigChange := MkChange {
  c_id : string;
  c_status : string;
  revertible : bool;
}.

Definition ACTIONABLE : list string := ["draft"; "scheduled"].

(** The buttons of a row. *)
Inductive button := Preview | ApplyNow | Schedule | Cancel | Revert.

Definition row_buttons (canEdit : bool) (c : ConfigChange) : list button :=
  if canEdit
  then (if bool_decide (c_status c ∈ ACTIONABLE) then [Preview; ApplyNow; Schedule; Cancel] else []) ++
       (if revertible c then [Revert] else [])
  else [].

(** What a button does: [when] is the picked time; [Preview] only reads. *)
Definition press (offset : Z -> Z) (t : option string) (d : string) (c : ConfigChange) (when : option string)
    (b : button) : option mutation :=
  match b with
  | Preview => None
  | ApplyNow => Some (Changes.useScheduleChange t d (c_id c) None)
  | Schedule =>
      (* disabled without a time *)
      if negb (present when) then None
      else match picker_iso offset (when orelse "") with
           | Some iso => Some (Changes.useScheduleChange t d (c_id c) (Some iso))
           | None => None
           end
  | Cancel => Some (Changes.useCancelChange t d (c_id c))
  | Revert => Some (Changes.useRevertChange t d (c_id c))
  end.

(** Badges. *)
Definition STATUS_COLOR (status : string) : string :=
  assoc status [("draft", "gray"); ("scheduled", "blue"); ("applying", "yellow"); ("applied", "green");
                ("conflict", "orange"); ("failed", "red"); ("cancelled", "gray")] orelse "gray".
Definition DRIFT_COLOR (status : string) : string :=
  assoc status [("in_sync", "green"); ("drifted", "red"); ("missing", "orange"); ("unsupported", "gray")] orelse "gray".
Definition drift_label (status : string) : msg :=
  if status === "drifted" then Tr ["config"; "changes"; "driftDrifted"]
  else if status === "missing" then Tr ["config"; "changes"; "driftMissing"]
  else if status === "in_sync" then Tr ["config"; "changes"; "driftInSync"]
  else Tr ["config"; "changes"; "driftUnsupported"].

(** [ProposeAliasModal]: the body of the proposed change. *)
Definition alias_change (operation name type_ content : string) : json :=
  JObj [("kind", JStr "alias"); ("operation", JStr operation); ("target", JStr name);
        ("payload", JObj [("name", JStr name); ("type", JStr type_);
                          ("content", JArr (JStr <$> entries newline content))])].

(** When a button may be offered. *)
Definition drivable (c : ConfigChange) (b : button) : Prop :=
  match b with Revert => revertible c = true | _ => c_status c ∈ ACTIONABLE end.

Lemma row_buttons_spec canEdit c b : b ∈ row_buttons canEdit c <-> canEdit = true /\ drivable c b.
Proof.
  unfold row_buttons, drivable. destruct canEdit; [|split; [by intros ?%not_elem_of_nil|by intros [? _]]].
  rewrite elem_of_app. case_bool_decide; destruct (revertible c); destruct b; set_solver.
Qed.

(** The time a button puts on the change. *)
Definition time_of (offset : Z -> Z) (when : option string) (b : button) : option string :=
  match b with Schedule => when ≫= picker_iso offset | _ => None end.

(** The request of each button; each success invalidates the list. *)
Lemma press_spec offset t d c when b m :
  press offset t d c when b = Some m ->
  let ids := [("tenant_id", t); ("device_id", Some d); ("change_id", Some (c_id c))] in
  m_request m = send_ POST (Changes.changes_path +:+ match b with
                                                      | Cancel => "/{change_id}/cancel"
                                                      | Revert => "/{change_id}/revert"
                                                      | _ => "/{change_id}/schedule"
                                                      end) ids
                  (match b with
                   | Cancel => NoBody
                   | Revert => JsonBody (JObj [])
                   | _ => JsonBody (JObj [("scheduled_at", Apply.nullable (time_of offset when b))])
                   end) /\
  (b = Schedule -> is_Some (time_of offset when b)) /\
  (forall v, m_success m v = [Invalidate (Changes.listKey t (Some d))]).
Proof.
  destruct b; simpl; intros Hp; try (by simplify_eq; split_and!).
  destruct when as [w|]; [|done]. simpl in *. destruct (w === ""); [done|]. simpl in *.
  destruct (picker_iso offset w) as [iso|]; simplify_eq. by split_and!.
Qed.

(** Only live changes can be driven, and every move refreshes the list:
    a row offers preview, scheduling and cancelling exactly to operators on
    changes in the states draft and scheduled, and reverting exactly to
    operators on revertible changes; pressing a button posts to that very
    change of that device in that tenant, with no time for "apply now" and the
    picked instant for "schedule"; and once answered, the device's change list
    is marked for refetch. *)
Theorem change_rows_sound {C : Type} `{CacheLaws C} (cache : C) offset canEdit t d c when b m r v :
  (b ∈ row_buttons canEdit c <-> canEdit = true /\ drivable c b) /\
  (press offset t d c when b = Some m ->
   rq_params (m_request m) = [("tenant_id", t); ("device_id", Some d); ("change_id", Some (c_id c))] /\
   (b = ApplyNow \/ b = Schedule ->
      rq_body (m_request m) = JsonBody (JObj [("scheduled_at", Apply.nullable (time_of offset when b))])) /\
   (b = Schedule -> is_Some (time_of offset when b)) /\
   (m_fn m r = Returned v -> forall e,
      cache_get (settle m r cache).2 (Changes.listKey t (Some d)) = Some e -> e_stale e = true)).
Proof.
  split; [apply row_buttons_spec|]. intros Hp. apply press_spec in Hp as (Hr & Ht & Hs).
  rewrite Hr. split; [done|]. split; [by intros [-> | ->]|]. split; [done|].
  intros Hv e. unfold settle. rewrite Hv. cbn [snd]. rewrite Hs. cbn.
  rewrite invalidate_match by apply key_matches_refl. destruct (cache_get _ _); [|done]. by intros [= <-].
Qed.

Lemma change_rows_sound_witness :
  let cache : key_cache := fun _ => Some (Entry None false) in
  let c := MkChange "c1" "draft" false in
  let m := Changes.useCancelChange (Some "t") "d" "c1" in
  let r := FetchResult (Some (JObj [("id", JStr "c1")])) None 200 in
  press (fun _ => 0%Z) (Some "t") "d" c None Cancel = Some m /\
  forall e, cache_get (settle m r cache).2 (Changes.listKey (Some "t") (Some "d")) = Some e -> e_stale e = true.
Proof.
  intros cache c m r. split; [reflexivity|].
  exact (proj2 (proj2 (proj2 (proj2 (change_rows_sound cache (fun _ => 0%Z) true (Some "t") "d" c None Cancel m r
            (Some (JObj [("id", JStr "c1")]))) eq_refl))) eq_refl).
Defined.
End ChangesPanel.
