(* ===== verification/FirmwareActions.v ===== *)
(** * Firmware and plugin actions on a device: [firmware/FirmwareActions.tsx]

    The panel as a machine: checking for updates, the four buttons that open the
    confirmation dialog, the dialog, the list of recent actions, and what the
    panel shows in each state.  [offset] is the browser's time zone. *)
From S2P Require Import Prelude Machine JsString Json Http QueryClient Hooks TenantHooks I18n Picker Actions.
From Stdlib Require Import ZArith.

Definition path := list string.

(** ** State *)
Inductive Kind := firmware_update | firmware_upgrade | plugin_install | plugin_remove.
Definition kind_name (k : Kind) : string :=
  match k with
  | firmware_update => "firmware_update" | firmware_upgrade => "firmware_upgrade"
  | plugin_install => "plugin_install" | plugin_remove => "plugin_remove"
  end.
(** The text with which each button opens the dialog. *)
Definition confirm_text (k : Kind) : path :=
  match k with
  | firmware_update => ["firmware"; "updateConfirm"] | firmware_upgrade => ["firmware"; "upgradeConfirm"]
  | plugin_install => ["firmware"; "installConfirm"] | plugin_remove => ["firmware"; "removeConfirm"]
  end.

Record Pending := MkPending { p_kind : Kind; target : string; confirm : path }.
Record FirmwareCheck := MkCheck {
  c_status : string; updates : Z; download_size : string; needs_reboot : bool; new_major : bool }.
Record FirmwareAction := MkAction {
  a_kind : string; a_target : string; a_status : string; a_scheduled_at : option string; a_created_at : string;
  a_version : option string; a_error : option string }.

Record panel := Panel {
  check : option FirmwareCheck;          (* [check.data] *)
  checking : bool;                       (* [check.isPending] *)
  actions : option (list FirmwareAction);
  pluginName : string;
  pending : option Pending;
  when : option string;
  creating : bool;                       (* [create.isPending] *)
}.
Definition initial : panel := Panel None false None "" None None false.

Definition hasUpdates (r : FirmwareCheck) : bool :=
  (Locale.toLowerCase (c_status r) === "ok") || (0 <? updates r)%Z.

(** The target with which an enabled button opens the dialog. *)
Definition offered (k : Kind) (c : option FirmwareCheck) (typed : string) : option string :=
  match k with
  | firmware_update => r ← c; if hasUpdates r then Some "" else None
  | firmware_upgrade => r ← c; if new_major r then Some "" else None
  | plugin_install | plugin_remove => if trim typed === "" then None else Some (trim typed)
  end.

(** ** View *)
Inductive piece :=
| CheckButton (busy : bool)
| Result (text : path) (count : option Z) (size : option string) (reboot : string)   (* no size: [common.none] *)
| UpdateButton (disabled : bool)
| UpgradeButton
| NewMajor
| Plugins (value : string) (disabled : bool)
| Recent (rows : list (list string))
| NoActions
| Dialog (text : path) (time : option string) (busy schedule_disabled : bool).

Definition result_pieces (r : FirmwareCheck) : list piece :=
  [Result (if hasUpdates r then ["firmware"; "updatesAvailable"] else ["firmware"; "upToDate"])
     (if (0 <? updates r)%Z then Some (updates r) else None)
     (if download_size r === "" then None else Some (download_size r))
     (if needs_reboot r then "yes" else "no");
   UpdateButton (negb (hasUpdates r))] ++
  (if new_major r then [UpgradeButton; NewMajor] else []).

Definition action_row (a : FirmwareAction) : list string :=
  [if a_target a === "" then a_kind a else a_kind a +:+ ": " +:+ a_target a;
   a_status a; a_scheduled_at a orelse a_created_at a; a_version a orelse (a_error a orelse "")].

Definition FirmwareActions (p : panel) : list piece :=
  [CheckButton (checking p)] ++
  match check p with Some r => result_pieces r | None => [] end ++
  [Plugins (pluginName p) (trim (pluginName p) === "")] ++
  [match actions p with Some (a :: l) => Recent (action_row <$> a :: l) | _ => NoActions end] ++
  match pending p with
  | Some q => [Dialog (confirm q) (when p) (creating p) (negb (present (when p)))]
  | None => []
  end.

(** ** Events *)
Inductive event :=
| Check_
| Checked (answer : option FirmwareCheck)           (* [None]: the check failed *)
| ActionsLoaded (l : list FirmwareAction)
| TypePlugin (s : string)
| Open (k : Kind)
| PickWhen (w : option string)
| Cancel
| Fire (scheduled : bool)
| Settled (ok : bool).

Section panel.
Context (offset : Z -> Z) (activeId : option string) (deviceId : string).

Definition action_request (k : Kind) (t : string) (at_ : option string) : request :=
  m_request (Firmware.useCreateFirmwareAction activeId deviceId
    (JObj [("kind", JStr (kind_name k)); ("target", JStr t); ("scheduled_at", Apply.nullable at_)])).

Definition exec (e : event) (p : panel) : option (panel * list request) :=
  let '(Panel ck cg ac pn pd wh cr) := p in
  match e with
  | Check_ =>
      (* a mutation that starts forgets the data of the one before *)
      if cg then None
      else Some (Panel None true ac pn pd wh cr, [m_request (Firmware.useFirmwareCheck activeId deviceId)])
  | Checked answer => if cg then Some (Panel answer false ac pn pd wh cr, []) else None
  | ActionsLoaded l => Some (Panel ck cg (Some l) pn pd wh cr, [])
  | TypePlugin s => Some (Panel ck cg ac s pd wh cr, [])
  | Open k =>
      t ← offered k ck pn;
      Some (Panel ck cg ac pn (Some (MkPending k t (confirm_text k))) None cr, [])
  | PickWhen w => match pd with Some _ => Some (Panel ck cg ac pn pd w cr, []) | None => None end
  | Cancel => match pd with Some _ => Some (Panel ck cg ac pn None wh cr, []) | None => None end
  | Fire scheduled =>
      (* the second button is disabled without a time, both while creating *)
      match pd with
      | Some q =>
          if negb cr && (negb scheduled || present wh) then
            match scheduled_at offset scheduled wh with
            | Returned at_ => Some (Panel ck cg ac pn pd wh true, [action_request (p_kind q) (target q) at_])
            | Threw _ => Some (p, [])
            end
          else None
      | None => None
      end
  | Settled _ => if cr then Some (Panel ck cg ac pn None wh false, []) else None
  end.

(** What is announced: colour and text. *)
Definition notice (e : event) : option (option string * path) :=
  match e with
  | Checked None => Some (Some "red", ["firmware"; "checkFailed"])
  | Settled true => Some (None, ["firmware"; "actionQueued"])
  | Settled false => Some (Some "red", ["firmware"; "actionFailed"])
  | _ => None
  end.
End panel.

(** ** What the history says *)
Definition checked (es : list event) : option FirmwareCheck :=
  fold_left (fun o e => match e with Check_ => None | Checked a => a | _ => o end) es None.
Definition typed (es : list event) : string :=
  fold_left (fun o e => match e with TypePlugin s => s | _ => o end) es "".
Definition time (es : list event) : option string :=
  fold_left (fun o e => match e with PickWhen w => w | _ => o end) es None.
Definition opens (es : list event) : nat :=
  fold_left (fun n e => match e with Open _ => S n | _ => n end) es 0.
Definition stays (e : event) : bool := match e with Open _ | Cancel | Settled _ => false | _ => true end.

Definition is_action (rq : request) : bool :=
  bool_decide (rq_path rq = "/api/tenants/{tenant_id}/devices/{device_id}/firmware/action").
Definition count_actions (rs : list request) : nat := length (filter (fun rq => is_action rq = true) rs).
Definition armed (p : panel) : nat := match pending p with Some _ => if creating p then 0 else 1 | None => 0 end.

Section claims.
Context (offset : Z -> Z) (activeId : option string) (deviceId : string).
Local Notation exec := (exec offset activeId deviceId).
Local Notation run := (run exec).

(** The dialog for [k] and [t] was opened at the end of [es1] and is open since. *)
Definition opened (es es1 : list event) (k : Kind) (t : string) (es2 : list event) : Prop :=
  es = es1 ++ Open k :: es2 /\ Forall (fun e => stays e = true) es2 /\
  offered k (checked es1) (typed es1) = Some t.

Lemma opened_snoc es es1 k t es2 e : opened es es1 k t es2 -> stays e = true -> opened (es ++ [e]) es1 k t (es2 ++ [e]).
Proof using Type.
  intros (-> & Hs & Ho) He. split; [by rewrite <- app_assoc|]. split; [|done]. apply Forall_app. auto.
Qed.

(** A request of the history: from a dialog open at that moment, at its time. *)
Definition confirmed (es : list event) (rq : request) : Prop :=
  exists es1 k t es2 scheduled es3 at_,
    es = es1 ++ Open k :: es2 ++ Fire scheduled :: es3 /\ Forall (fun e => stays e = true) es2 /\
    offered k (checked es1) (typed es1) = Some t /\
    rq = action_request activeId deviceId k t at_ /\
    (if scheduled : bool
     then exists w iso, time es2 = Some w /\ picker_iso offset w = Some iso /\ at_ = Some iso
     else at_ = None).

Lemma confirmed_snoc es e rq : confirmed es rq -> confirmed (es ++ [e]) rq.
Proof using Type.
  intros (es1 & k & t & es2 & b & es3 & at_ & -> & H). exists es1, k, t, es2, b, (es3 ++ [e]), at_.
  split; [|done]. by rewrite <- !app_assoc, !app_comm_cons, <- app_assoc.
Qed.

Definition sound (es : list event) (p : panel) (rs : list request) : Prop :=
  check p = checked es /\ pluginName p = typed es /\
  (forall q, pending p = Some q -> exists es1 es2, opened es es1 (p_kind q) (target q) es2 /\
     when p = time es2 /\ confirm q = confirm_text (p_kind q)) /\
  count_actions rs + armed p <= opens es /\
  Forall (fun rq => is_action rq = true -> confirmed es rq) rs.

Lemma count_app rs rs' : count_actions (rs ++ rs') = count_actions rs + count_actions rs'.
Proof using Type. unfold count_actions. by rewrite filter_app, length_app. Qed.

Ltac tally :=
  repeat match goal with
         | |- context [count_actions (?r :: ?l)] =>
             let x := eval vm_compute in (count_actions (r :: l)) in change (count_actions (r :: l)) with x
         end; change (count_actions []) with 0.

(** What one event does to the check, the typed name and the dialogs. *)
Lemma exec_tracks e p p' rs' :
  exec e p = Some (p', rs') ->
  check p' = match e with Check_ => None | Checked a => a | _ => check p end /\
  pluginName p' = match e with TypePlugin s => s | _ => pluginName p end /\
  count_actions rs' + armed p' <= armed p + match e with Open _ => 1 | _ => 0 end.
Proof using Type.
  destruct p as [ck [] ac pn [q|] wh []]; destruct e as [| | | |k| | | |]; cbn [exec]; intros He;
    try (destruct (offered k ck pn); [|done]); js_cases; unfold armed; simpl; split_and!; try done; tally; lia.
Qed.

Lemma exec_pending e p p' rs' q :
  exec e p = Some (p', rs') -> pending p' = Some q ->
  (exists k t, e = Open k /\ offered k (check p) (pluginName p) = Some t /\
     q = MkPending k t (confirm_text k) /\ when p' = None) \/
  (stays e = true /\ pending p = Some q /\ when p' = match e with PickWhen w => w | _ => when p end).
Proof using Type.
  destruct p as [ck cg ac pn pd wh cr]. destruct e as [| | | |k| | | |]; cbn [exec]; intros He Hq;
    try (right; js_cases; done).
  left. destruct (offered k ck pn) as [t|] eqn:Eo; [|done]. simplify_eq/=. by exists k, t.
Qed.

Lemma exec_action e p p' rs' rq :
  exec e p = Some (p', rs') -> rq ∈ rs' -> is_action rq = true ->
  exists scheduled q at_, e = Fire scheduled /\ pending p = Some q /\ (scheduled = true -> present (when p) = true) /\
    scheduled_at offset scheduled (when p) = Returned at_ /\ rq = action_request activeId deviceId (p_kind q) (target q) at_.
Proof using Type.
  destruct p as [ck cg ac pn pd wh cr]. destruct e as [| | | | | | |scheduled|]; cbn [exec]; intros He Hin Ha;
    try (js_cases; by apply not_elem_of_nil in Hin).
  - destruct cg; simplify_eq. apply list_elem_of_singleton in Hin. subst rq. vm_compute in Ha. discriminate Ha.
  - destruct (offered _ ck pn); [|done]. simplify_eq/=. by apply not_elem_of_nil in Hin.
  - destruct pd as [q|]; [|done]. destruct (negb cr && _) eqn:E; [|done]. apply andb_prop in E as [_ E].
    destruct (scheduled_at offset scheduled wh) as [at_|] eqn:Es; simplify_eq; [|by apply not_elem_of_nil in Hin].
    apply list_elem_of_singleton in Hin as ->. exists scheduled, q, at_. split_and!; try done. by intros ->.
Qed.

Lemma picked_time scheduled w at_ :
  scheduled_at offset scheduled w = Returned at_ -> (scheduled = true -> present w = true) ->
  if scheduled then exists t iso, w = Some t /\ picker_iso offset t = Some iso /\ at_ = Some iso else at_ = None.
Proof using Type.
  unfold scheduled_at. destruct scheduled; simpl; [|congruence]. intros Hs Hp. rewrite (Hp eq_refl) in Hs.
  destruct w as [t|]; [|by specialize (Hp eq_refl)]. simpl in Hs.
  destruct (picker_iso offset t) as [iso|] eqn:Ei; [|done]. injection Hs as <-. by exists t, iso.
Qed.

Lemma panel_sound es p rs : run es initial = Some (p, rs) -> sound es p rs.
Proof using Type.
  apply (run_history _ sound); [by split_and!; try done; cbv; lia|].
  clear es p rs. intros es p rs e p' rs' _ (Hc & Ht & Hq & Hn & Hr) He.
  destruct (exec_tracks _ _ _ _ He) as (Hc' & Ht' & Hn').
  split_and!.
  - rewrite Hc', Hc. unfold checked. by rewrite fold_left_app.
  - rewrite Ht', Ht. unfold typed. by rewrite fold_left_app.
  - intros q Hp. destruct (exec_pending _ _ _ _ _ He Hp) as [(k & t & -> & Ho & -> & ->)|(Hs & Hp0 & ->)].
    + exists es, []. rewrite Hc, Ht in Ho. by split_and!.
    + destruct (Hq q Hp0) as (es1 & es2 & Hop & Hw & Hcf). exists es1, (es2 ++ [e]).
      split; [by apply opened_snoc|]. split; [|done]. unfold time in *. rewrite fold_left_app, <- Hw. by destruct e.
  - rewrite count_app. unfold opens in *. rewrite fold_left_app. simpl. destruct e; lia.
  - apply Forall_app. split.
    + eapply Forall_impl; [exact Hr|]. intros rq H Ha. by apply confirmed_snoc, H.
    + apply list.Forall_forall. intros rq Hin Ha.
      destruct (exec_action _ _ _ _ _ He Hin Ha) as (b & q & at_ & -> & Hp & Hb & Hs & ->).
      destruct (Hq q Hp) as (es1 & es2 & (-> & Hst & Ho) & Hw & _). rewrite Hw in Hs, Hb.
      exists es1, (p_kind q), (target q), es2, b, [], at_. split_and!; try done.
      * by rewrite <- app_assoc.
      * by apply picked_time.
Qed.
End claims.

(** Each control is enabled exactly when it opens the dialog. *)
Lemma offered_buttons p k :
  (exists t, offered k (check p) (pluginName p) = Some t) <->
  match k with
  | firmware_update => UpdateButton false ∈ FirmwareActions p
  | firmware_upgrade => UpgradeButton ∈ FirmwareActions p
  | _ => Plugins (pluginName p) false ∈ FirmwareActions p
  end.
Proof.
  unfold FirmwareActions, result_pieces.
  destruct p as [[r|] cg [[|a l]|] pn [q|] wh cr]; cbn [check checking actions pluginName pending app];
    destruct k; cbn [offered mbind option_bind]; try destruct (hasUpdates r); try destruct (new_major r);
    try destruct (trim pn === ""); rewrite ?list_elem_of_In; simpl; split;
    intros H; try (destruct H as [t H]); repeat (destruct H as [H|H]); simplify_eq; eauto 12; tauto.
Qed.

(** C9.  Nothing is done to a firewall's firmware without a confirmed, current
    request.  In every history of the panel, each request for an action comes
    from confirming a dialog that is open at that moment, at most one per
    opening.  The dialog was opened when the answer to the last check offered
    the action (an update when it found some, an upgrade when it found a new
    major version), or for the trimmed name then typed, not blank, of a plugin;
    the request names exactly that; "run now" carries no time, a scheduled
    request the instant picked in that very dialog.  A dialog on screen asks for
    the action it will send. *)
Theorem firmware_actions_confirmed offset activeId deviceId es p rs :
  run (exec offset activeId deviceId) es initial = Some (p, rs) ->
  Forall (fun rq => is_action rq = true -> confirmed offset activeId deviceId es rq) rs /\
  count_actions rs <= opens es /\
  (forall scheduled p' rq rs', exec offset activeId deviceId (Fire scheduled) p = Some (p', rq :: rs') ->
     exists k t at_, rq = action_request activeId deviceId k t at_ /\ rs' = [] /\
       Dialog (confirm_text k) (when p) false (negb (present (when p))) ∈ FirmwareActions p) /\
  (forall k, (exists t, offered k (check p) (pluginName p) = Some t) <->
     match k with
     | firmware_update => UpdateButton false ∈ FirmwareActions p
     | firmware_upgrade => UpgradeButton ∈ FirmwareActions p
     | _ => Plugins (pluginName p) false ∈ FirmwareActions p
     end).
Proof.
  intros Hr. destruct (panel_sound _ _ _ _ _ _ Hr) as (_ & _ & Hq & Hn & Hf). split_and!; [done|lia|..].
  - intros scheduled p' rq rs' He. destruct p as [ck cg ac pn [q|] wh []]; cbn [exec negb andb] in He; try done.
    destruct (negb scheduled || present wh); [|done].
    destruct (scheduled_at offset scheduled wh) as [at_|]; [|done]. injection He as <- <- <-.
    exists (p_kind q), (target q), at_. split_and!; try done.
    destruct (Hq q eq_refl) as (_ & _ & _ & _ & <-). unfold FirmwareActions. rewrite !elem_of_app. right. right. right. right. by left.
  - intros k. apply offered_buttons.
Qed.


Definition check_answer : FirmwareCheck := MkCheck "none" 3 "12M" false false.
Definition session : list event :=
  [Check_; Checked (Some check_answer); Open firmware_update; PickWhen (Some "2024-06-10 06:13:20"); Fire true].
Definition outcome_of (es : list event) : panel * list request :=
  match run (exec (fun _ => 0%Z) (Some "t") "d") es initial with Some r => r | None => (initial, []) end.
Definition sent_at : request := action_request (Some "t") "d" firmware_update "" (Some "2024-06-10T06:13:20.000Z").

Lemma firmware_actions_confirmed_witness :
  (outcome_of session).2 = [m_request (Firmware.useFirmwareCheck (Some "t") "d"); sent_at] /\
  confirmed (fun _ => 0%Z) (Some "t") "d" session sent_at /\ count_actions (outcome_of session).2 <= opens session.
Proof.
  destruct (firmware_actions_confirmed (fun _ => 0%Z) (Some "t") "d" session (outcome_of session).1 (outcome_of session).2 eq_refl)
    as (Hf & Hn & _).
  split; [vm_compute; reflexivity|]. split; [|exact Hn].
  exact (proj1 (list.Forall_forall _ _) Hf sent_at (list_elem_of_further _ _ _ (list_elem_of_here _ _)) eq_refl).
Defined.

(** Checking again takes the result and its buttons off the screen, and a failed
    check leaves nothing of the former one. *)
Lemma failed_check_shows_nothing :
  FirmwareActions (outcome_of [Check_; Checked (Some check_answer); Check_; Checked None]).1 =
  [CheckButton false; Plugins "" true; NoActions].
Proof. vm_compute. reflexivity. Qed.

(** An action that is created closes the dialog opened meanwhile for another. *)
Lemma created_closes_dialog ok :
  let es := [TypePlugin "os-ddclient"; Open plugin_install; Fire false; Cancel; TypePlugin "os-vnstat"; Open plugin_remove] in
  pending (outcome_of es).1 = Some (MkPending plugin_remove "os-vnstat" (confirm_text plugin_remove)) /\
  pending (outcome_of (es ++ [Settled ok])).1 = None.
Proof. split; vm_compute; reflexivity. Qed.
