(* ===== verification/ProfileApply.v ===== *)
(** * Applying a profile to a device: [profiles/ApplyProfileSection.tsx]

    A machine of the section's state, with the previews, applications and
    interface lists under way.  [offset] is the browser's time zone, as in
    [Picker]; the dialog keeps its own time, which every opening clears. *)
From S2P Require Import Prelude JsString Json Http QueryClient Hooks TenantHooks Actions Machine.
From Stdlib Require Import ZArith.

Module ApplyProfile.
Record TemplatePreview := MkPreview { p_kind : string; p_new : json }.

(** [(n.name ?? "") + ": " + (n.content ?? []).join(", ")] *)
Definition texts_of (j : json) : list string :=
  match j with JArr l => omap (fun x => match x with JStr s => Some s | _ => None end) l | _ => [] end.
Definition preview_line (p : TemplatePreview) : string :=
  (match field "name" (p_new p) with Some (JStr n) => n | _ => "" end) +:+ ": " +:+
  JsString.join ", " (match field "content" (p_new p) with Some c => texts_of c | None => [] end).

Record section := Section_ {
  profileId : option string;
  confirming : bool;
  when : option string;
  iface : string;
  interfaces : list (string * string);       (* value and label *)
  preview : option (list TemplatePreview);   (* [preview.data] *)
  previewing : bool;                         (* [preview.isPending] *)
  loads : nat;                               (* interface lists under way *)
  applying : bool;                           (* [apply.isPending] *)
}.
Definition initial : section := Section_ None false None "" [] None false 0 false.

Definition hasFwRule (s : section) : bool :=
  match preview s with Some ps => existsb (fun p => p_kind p === "firewall_rule") ps | None => false end.
Definition bindings (s : section) : json :=
  if hasFwRule s then JObj [("interface", JStr (iface s))] else JObj [].
Definition interfaceData (floating : string) (s : section) : list (string * string) :=
  ("", floating) :: interfaces s.
Definition previewLines (s : section) : option (list string) := (fun ps : list TemplatePreview => preview_line <$> ps) <$> preview s.

Inductive event :=
| PickProfile (i : option string)
| RunPreview
| PreviewSettled (answer : option (list TemplatePreview))   (* [None]: it failed *)
| InterfacesSettled (answer : option (list (string * string)))
| ChooseInterface (v : option string)
| OpenConfirm
| PickWhen (w : option string)
| Cancel
| Fire (scheduled : bool)
| Settled.                                                  (* answered or failed: [finally] *)

Section section_.
Context (offset : Z -> Z) (activeId : option string) (deviceId : string) (profiles : list string).

Definition exec (e : event) (s : section) : option (section * list request) :=
  let '(Section_ pid co wh ifc ifs pv pg ld ap) := s in
  match e with
  | PickProfile i =>
      if negb (bool_decide (i ∈ None :: (Some <$> profiles))) then None
      else Some (Section_ i co wh "" [] pv pg ld ap, [])
  | RunPreview =>
      if present pid && negb pg then
        (* a mutation that starts forgets the data of the one before *)
        Some (Section_ pid co wh ifc ifs None true ld ap,
              [m_request (Apply.usePreviewProfile activeId deviceId (pid orelse "") (bindings s))])
      else None
  | PreviewSettled answer =>
      if pg then
        let s' := Section_ pid co wh ifc ifs answer false ld ap in
        (* the effect: [hasFwRule] was false while the preview was under way *)
        if hasFwRule s' && bool_decide (ifs = []) then
          Some (Section_ pid co wh ifc ifs answer false (S ld) ap,
                [m_request (Apply.useFirewallRuleModel activeId deviceId)])
        else Some (s', [])
      else None
  | InterfacesSettled answer =>
      match ld with
      | S ld => Some (Section_ pid co wh ifc (answer orelse ifs) pv pg ld ap, [])
      | O => None
      end
  | ChooseInterface v =>
      if hasFwRule s && bool_decide (v ∈ None :: (Some <$> "" :: ifs.*1))
      then Some (Section_ pid co wh (v orelse "") ifs pv pg ld ap, []) else None
  | OpenConfirm => if present pid then Some (Section_ pid true None ifc ifs pv pg ld ap, []) else None
  | PickWhen w => if co then Some (Section_ pid co w ifc ifs pv pg ld ap, []) else None
  | Cancel => Some (Section_ pid false wh ifc ifs pv pg ld ap, [])
  | Fire scheduled =>
      (* the second button is disabled without a time, both while applying *)
      if co && negb ap && (negb scheduled || present wh) then
        if present pid then
          match scheduled_at offset scheduled wh with
          | Returned at_ =>
              Some (Section_ pid co wh ifc ifs pv pg ld true,
                    [m_request (Apply.useApplyProfile activeId deviceId (pid orelse "") at_ (bindings s))])
          | Threw _ => Some (s, [])
          end
        else Some (s, [])
      else None
  | Settled => if ap then Some (Section_ pid false wh ifc ifs pv pg ld false, []) else None
  end.

(** From the history: the profile picked last, the interface chosen since, the
    members of the preview in hand, and the time picked since the dialog opened. *)
Definition picked (es : list event) : option string :=
  fold_left (fun o e => match e with PickProfile i => i | _ => o end) es None.
Definition chosen (es : list event) : string :=
  fold_left (fun o e => match e with PickProfile _ => "" | ChooseInterface v => v orelse "" | _ => o end) es "".
Definition in_hand (es : list event) : option (list TemplatePreview) :=
  fold_left (fun o e => match e with RunPreview => None | PreviewSettled a => a | _ => o end) es None.
Definition dialog_time (es : list event) : option string :=
  fold_left (fun o e => match e with OpenConfirm => None | PickWhen w => w | _ => o end) es None.

Lemma section_tracks es s rs :
  run exec es initial = Some (s, rs) ->
  profileId s = picked es /\ iface s = chosen es /\ preview s = in_hand es /\ when s = dialog_time es.
Proof using Type.
  apply (run_history _ (fun es s _ => profileId s = picked es /\ iface s = chosen es /\
                                      preview s = in_hand es /\ when s = dialog_time es)); [done|].
  clear es s rs. intros es s rs e s' rs' _ (H1 & H2 & H3 & H4) He.
  unfold picked, chosen, in_hand, dialog_time in *. rewrite !fold_left_app. simpl.
  rewrite <- H1, <- H2, <- H3, <- H4. clear -He. destruct s as [pid co wh ifc ifs pv pg ld ap].
  destruct e; cbn [exec] in He; js_cases; done.
Qed.

(** What an application sends, from the history: the profile picked last, at the
    time picked since the dialog opened when the scheduling button was pressed
    (the queue decides otherwise), bound to the interface chosen since that
    profile was picked exactly when the preview in hand shows a firewall rule. *)
Definition application (es : list event) (scheduled : bool) (rq : request) : Prop :=
  exists i at_, picked es = Some i /\ i <> "" /\
    scheduled_at offset scheduled (dialog_time es) = Returned at_ /\
    (scheduled = true -> present (dialog_time es) = true) /\
    rq = m_request (Apply.useApplyProfile activeId deviceId i at_
           (if match in_hand es with
               | Some ps => existsb (fun p => p_kind p === "firewall_rule") ps
               | None => false
               end then JObj [("interface", JStr (chosen es))] else JObj [])).

Lemma applications_as_shown es s rs scheduled s' rs' :
  run exec es initial = Some (s, rs) -> exec (Fire scheduled) s = Some (s', rs') ->
  Forall (application es scheduled) rs' /\ length rs' <= 1 /\ confirming s = true /\ applying s = false.
Proof using Type.
  intros Hr He. destruct (section_tracks _ _ _ Hr) as (H1 & H2 & H3 & H4).
  unfold application. rewrite <- H1, <- H2, <- H3, <- H4. clear -He.
  destruct s as [pid co wh ifc ifs pv pg ld ap]. cbn [exec profileId iface preview when confirming applying] in *.
  destruct (co && negb ap && (negb scheduled || present wh)) eqn:E; [|done].
  apply andb_true_iff in E as [[-> Hap]%andb_true_iff Hw]. apply negb_true_iff in Hap.
  assert (Hw' : scheduled = true -> present wh = true) by (by intros ->).
  destruct (present pid) eqn:Ep; [|by simplify_eq; split_and!; [constructor|simpl; lia|..]].
  destruct (scheduled_at offset scheduled wh) as [at_|] eqn:Es; simplify_eq;
    (split; [|split; [simpl; lia|done]]); [|constructor].
  constructor; [|constructor]. destruct pid as [i|]; [|done]. exists i, at_. split_and!; try done.
  intros ->. done.
Qed.
End section_.

(** The members known when a profile is applied are those of the last preview,
    which may be of another profile: after previewing a profile without
    firewall rules and picking one that has them, the application is sent
    without an interface, and the picker for it is not shown. *)
Lemma stale_preview_drops_binding :
  let es := [PickProfile (Some "plain"); RunPreview; PreviewSettled (Some [MkPreview "firewall_alias" (JObj [])]);
             PickProfile (Some "with-rules"); OpenConfirm] in
  exists s rs, run (exec (fun _ => 0%Z) (Some "t") "d" ["plain"; "with-rules"]) es initial = Some (s, rs) /\
    hasFwRule s = false /\
    snd <$> exec (fun _ => 0%Z) (Some "t") "d" ["plain"; "with-rules"] (Fire false) s =
      Some [m_request (Apply.useApplyProfile (Some "t") "d" "with-rules" None (JObj []))].
Proof. do 2 eexists. split; [reflexivity|]. split; reflexivity. Qed.

(** And the other way round: the picker of a stale preview offers only the
    floating rule, since picking a profile empties the list and nothing loads
    it again. *)
Lemma stale_picker_is_empty :
  let es := [PickProfile (Some "rules"); RunPreview; PreviewSettled (Some [MkPreview "firewall_rule" (JObj [])]);
             InterfacesSettled (Some [("lan", "LAN")]); PickProfile (Some "other")] in
  exists s rs, run (exec (fun _ => 0%Z) (Some "t") "d" ["rules"; "other"]) es initial = Some (s, rs) /\
    hasFwRule s = true /\ interfaceData "Floating" s = [("", "Floating")] /\ loads s = 0.
Proof. do 2 eexists. split; [reflexivity|]. split_and!; reflexivity. Qed.

(** A preview prints one line per member. *)
Lemma preview_lines_per_member s ps :
  preview s = Some ps -> length <$> previewLines s = Some (length ps).
Proof. unfold previewLines. intros ->. simpl. by rewrite length_fmap. Qed.
End ApplyProfile.
