(* ===== verification/ApplyTemplate.v ===== *)
(** * Applying a template to a device: [templates/ApplyTemplateTab.tsx]

    The tab as a machine: the list of templates as it is loaded and loaded
    again, selection, interface, override, preview, the confirmation dialog, and
    the five kinds of requests under way, with what the tab shows in each state.
    [offset] is the browser's time zone, as in [Picker]. *)
From S2P Require Import Prelude Machine JsString Json Http QueryClient Hooks TenantHooks Picker Templates Actions ProfileApply.
From Stdlib Require Import ZArith.
Import Modal.

(** ** State and view *)
Definition parseContent (s : string) : list string := entries newline s.
Definition templateContent (t : option Template) : string := body_content (t ≫= t_body).

Record tab := Tab {
  templates : option (list Template);
  templateId : option string;
  override : string;
  confirming : bool;
  when : option string;
  iface : string;
  interfaces : list (string * string);     (* value and label *)
  preview : option json;                   (* [preview.data] *)
  previewing : bool;                       (* [preview.isPending] *)
  saving : bool;                           (* [upsert.isPending] *)
  applying : bool;                         (* [apply.isPending] *)
  loads : nat;                             (* interface lists under way *)
}.
Definition initial : tab := Tab None None "" false None "" [] None false false false 0.

(** [!templates || templates.length === 0]: only a text is shown. *)
Definition listed (s : tab) : bool := match templates s with Some (_ :: _) => true | _ => false end.
Definition find_template (i : option string) (s : tab) : option Template :=
  ts ← templates s; List.find (fun t => Some (id t) === i) ts.
Definition selected (s : tab) : option Template := find_template (templateId s) s.
Definition isFirewallRule (s : tab) : bool := (kind <$> selected s) === Some "firewall_rule".
Definition bindings (s : tab) : json :=
  if isFirewallRule s then JObj [("interface", JStr (iface s))] else JObj [].
Definition interfaceData (floating : string) (s : tab) : list (string * string) := ("", floating) :: interfaces s.
Definition previewOut (s : tab) : option json :=
  match preview s ≫= field "new" with Some j => if truthy (Some j) then Some j else None | None => None end.

Inductive piece :=
| NoTemplates
| Picker (options : list (string * string)) (value : option string)
| InterfacePicker (options : list (string * string)) (value : string)
| OverrideArea (value : string)
| Buttons (saving previewing : bool)
| PreviewCard (name : option string) (content : string)
| Dialog (time : option string) (busy schedule_disabled : bool).

Definition preview_card (j : json) : piece :=
  PreviewCard (match field "name" j with Some (JStr n) => if n === "" then None else Some n | _ => None end)
    (JsString.join (String newline "") (match field "content" j with Some c => ApplyProfile.texts_of c | None => [] end)).

Definition ApplyTemplateTab (floating : string) (s : tab) : list piece :=
  if negb (listed s) then [NoTemplates] else
  [Picker ((fun t => (id t, name t)) <$> templates s orelse []) (templateId s)] ++
  (if present (templateId s) then
     (if isFirewallRule s then [InterfacePicker (interfaceData floating s) (iface s)] else []) ++
     [OverrideArea (override s); Buttons (saving s) (previewing s)]
   else []) ++
  match previewOut s with Some j => [preview_card j] | None => [] end ++
  (if confirming s then [Dialog (when s) (applying s) (negb (present (when s)))] else []).

(** ** Events *)
Inductive event :=
| TemplatesLoaded (l : list Template)
| PickTemplate (i : option string)
| InterfacesSettled (answer : option (list (string * string)))   (* [None]: it failed, silently *)
| ChooseInterface (v : option string)
| TypeOverride (text : string)
| SaveOverride
| OverrideSettled (r : fetch_result)
| RunPreview
| PreviewSettled (r : fetch_result)
| OpenConfirm
| PickWhen (w : option string)
| Cancel
| Fire (scheduled : bool)
| Settled (r : fetch_result).

Section tab.
Context (offset : Z -> Z) (activeId : option string) (deviceId : string).

(** The controls of a selected template are on screen. *)
Definition controls (s : tab) : bool := listed s && present (templateId s).

Definition exec (e : event) (s : tab) : option (tab * list request) :=
  let '(Tab ts i ov co wh ifc ifs pv pg sv ap ld) := s in
  match e with
  | TemplatesLoaded l => Some (Tab (Some l) i ov co wh ifc ifs pv pg sv ap ld, [])
  | PickTemplate j =>
      if listed s && bool_decide (j ∈ None :: ((fun t => Some (id t)) <$> ts orelse [])) then
        let t := find_template j s in
        let s' := Tab ts j (templateContent t) co wh "" [] pv pg sv ap in
        if (kind <$> t) === Some "firewall_rule"
        then Some (s' (S ld), [m_request (Apply.useFirewallRuleModel activeId deviceId)])
        else Some (s' ld, [])
      else None
  | InterfacesSettled answer =>
      match ld with
      | S ld => Some (Tab ts i ov co wh ifc (answer orelse ifs) pv pg sv ap ld, [])
      | O => None
      end
  | ChooseInterface v =>
      if controls s && isFirewallRule s && bool_decide (v ∈ None :: (Some <$> "" :: ifs.*1))
      then Some (Tab ts i ov co wh (v orelse "") ifs pv pg sv ap ld, []) else None
  | TypeOverride text => if controls s then Some (Tab ts i text co wh ifc ifs pv pg sv ap ld, []) else None
  | SaveOverride =>
      if controls s && negb sv then
        Some (Tab ts i ov co wh ifc ifs pv pg true ap ld,
              [m_request (Apply.useUpsertOverride activeId (i orelse "")
                 (JObj [("content", JArr (JStr <$> parseContent ov))]))])
      else None
  | OverrideSettled _ => if sv then Some (Tab ts i ov co wh ifc ifs pv pg false ap ld, []) else None
  | RunPreview =>
      if controls s && negb pg then
        (* a mutation that starts forgets the data of the one before *)
        Some (Tab ts i ov co wh ifc ifs None true sv ap ld,
              [m_request (Apply.usePreviewTemplate activeId deviceId (i orelse "") (bindings s))])
      else None
  | PreviewSettled r =>
      if pg then
        Some (Tab ts i ov co wh ifc ifs
                (match m_fn (Apply.usePreviewTemplate activeId deviceId (i orelse "") (bindings s)) r with
                 | Returned d => d | Threw _ => None end) false sv ap ld, [])
      else None
  | OpenConfirm => if controls s then Some (Tab ts i ov true None ifc ifs pv pg sv ap ld, []) else None
  | PickWhen w => if listed s && co then Some (Tab ts i ov co w ifc ifs pv pg sv ap ld, []) else None
  | Cancel => if listed s && co then Some (Tab ts i ov false wh ifc ifs pv pg sv ap ld, []) else None
  | Fire scheduled =>
      (* the second button is disabled without a time, both while applying *)
      if listed s && co && negb ap && (negb scheduled || present wh) then
        if present i then
          match scheduled_at offset scheduled wh with
          | Returned at_ =>
              Some (Tab ts i ov co wh ifc ifs pv pg sv true ld,
                    [m_request (Apply.useApplyTemplate activeId deviceId (i orelse "") at_ (bindings s))])
          | Threw _ => Some (s, [])       (* thrown outside the [try] *)
          end
        else Some (s, [])
      else None
  | Settled _ => if ap then Some (Tab ts i ov false wh ifc ifs pv pg sv false ld, []) else None
  end.

(** What is announced: colour and text. *)
Definition notice (e : event) : option (option string * msg) :=
  let told (good : string) (r : fetch_result) :=
    match data_or_throw Apply.apply_failed r with
    | Returned _ => (None, Tr ["templates"; "apply"; good])
    | Threw m => (Some "red", m)
    end in
  match e with
  | OverrideSettled r => Some (told "overrideSaved" r)
  | PreviewSettled r =>
      match data_or_throw Apply.apply_failed r with Returned _ => None | Threw m => Some (Some "red", m) end
  | Settled r => Some (told "queued" r)
  | _ => None
  end.
End tab.

(** ** What the history says *)
Definition picked (es : list event) : option string :=
  fold_left (fun o e => match e with PickTemplate i => i | _ => o end) es None.
Definition chosen (es : list event) : string :=
  fold_left (fun o e => match e with PickTemplate _ => "" | ChooseInterface v => v orelse "" | _ => o end) es "".
Definition dialog_time (es : list event) : option string :=
  fold_left (fun o e => match e with OpenConfirm => None | PickWhen w => w | _ => o end) es None.
Definition opens (es : list event) : nat :=
  fold_left (fun n e => match e with OpenConfirm => S n | _ => n end) es 0.
Definition is_application (rq : request) : bool :=
  bool_decide (rq_path rq = "/api/tenants/{tenant_id}/devices/{device_id}/templates/{template_id}/apply").
Definition applications (rs : list request) : nat := length (filter (fun rq => is_application rq = true) rs).

(** The dialog on screen stands for at most one more application. *)
Definition armed (s : tab) : nat := if confirming s && negb (applying s) then 1 else 0.

Section claims.
Context (offset : Z -> Z) (activeId : option string) (deviceId : string).
Local Notation exec := (exec offset activeId deviceId).
Local Notation run := (run exec).

Definition tracks (es : list event) (s : tab) (rs : list request) : Prop :=
  templateId s = picked es /\ iface s = chosen es /\ when s = dialog_time es /\
  applications rs + armed s <= opens es.

Lemma applications_app rs rs' : applications (rs ++ rs') = applications rs + applications rs'.
Proof using Type. unfold applications. by rewrite filter_app, length_app. Qed.

Ltac tally :=
  repeat match goal with
         | |- context [applications (?r :: ?l)] =>
             let x := eval vm_compute in (applications (r :: l)) in change (applications (r :: l)) with x
         end; change (applications []) with 0.

Lemma tab_tracks es s rs : run es initial = Some (s, rs) -> tracks es s rs.
Proof using Type.
  apply (run_history _ tracks); [by split_and!; try done; cbv; lia|].
  clear es s rs. intros es s rs e s' rs' _ (H1 & H2 & H3 & H4) He.
  unfold tracks, picked, chosen, dialog_time, opens in *. rewrite !fold_left_app, applications_app. simpl.
  rewrite <- H1, <- H2, <- H3. clear H1 H2 H3.
  destruct s as [ts i ov [] wh ifc ifs pv pg sv [] ld]; destruct e; cbn [exec] in He; js_cases;
    (split_and!; try done; unfold armed in *; simpl in *; rewrite ?andb_false_r in *; try done; tally; lia).
Qed.

Definition is_preview (e : event) : bool := match e with RunPreview => true | _ => false end.

(** The last preview was asked for before [es2], for the template [i] with the
    interface then on screen. *)
Definition asked (es es2 : list event) : Prop :=
  exists es1 s1 rs1 i, es = es1 ++ RunPreview :: es2 /\ Forall (fun e => is_preview e = false) es2 /\
    run es1 initial = Some (s1, rs1) /\ picked es1 = Some i /\
    snd <$> exec RunPreview s1 = Some [m_request (Apply.usePreviewTemplate activeId deviceId i (bindings s1))].

Lemma asked_snoc es es2 e : asked es es2 -> is_preview e = false -> asked (es ++ [e]) (es2 ++ [e]).
Proof using Type.
  intros (es1 & s1 & rs1 & i & -> & Hn & H) He. exists es1, s1, rs1, i.
  split; [by rewrite <- app_assoc|]. split; [|done]. apply Forall_app. auto.
Qed.

Lemma preview_sends s s' rs :
  exec RunPreview s = Some (s', rs) ->
  exists i, templateId s = Some i /\ preview s' = None /\
    rs = [m_request (Apply.usePreviewTemplate activeId deviceId i (bindings s))].
Proof using Type.
  destruct s as [ts [i|] ov co wh ifc ifs pv pg sv ap ld]; unfold exec, controls; cbn [templateId present];
    rewrite ?andb_false_r; [|done]. case_match; [|done]. intros [= <- <-]. by exists i.
Qed.

Lemma preview_answers es s rs :
  run es initial = Some (s, rs) ->
  (previewing s = true -> exists es2, asked es es2) /\
  (forall d, preview s = Some d -> exists es2 r, asked es es2 /\ PreviewSettled r ∈ es2 /\
     m_fn (Apply.usePreviewTemplate activeId deviceId "" (JObj [])) r = Returned (Some d)).
Proof using Type.
  apply (run_history _ (fun es s _ => (previewing s = true -> exists es2, asked es es2) /\
    (forall d, preview s = Some d -> exists es2 r, asked es es2 /\ PreviewSettled r ∈ es2 /\
       m_fn (Apply.usePreviewTemplate activeId deviceId "" (JObj [])) r = Returned (Some d)))); [done|].
  clear es s rs. intros es s rs e s' rs' Hr [Hp Hd] He. destruct (is_preview e) eqn:Ee.
  - destruct e; try done. apply preview_sends in He as Hx. destruct Hx as (i & Hi & Hn & Hx).
    split; [|intros d; by rewrite Hn]. intros _. exists [], es, s, rs, i. rewrite He. simpl. subst rs'.
    destruct (tab_tracks _ _ _ Hr) as (Hi' & _). split_and!; try done. congruence.
  - assert (Hk : (previewing s' = true -> previewing s = true) /\
                 (forall d, preview s' = Some d -> preview s = Some d \/
                    previewing s = true /\ exists r, e = PreviewSettled r /\
                      m_fn (Apply.usePreviewTemplate activeId deviceId "" (JObj [])) r = Returned (Some d))).
    { destruct s as [ts i ov co wh ifc ifs pv pg sv ap ld]. clear Hr Hp Hd.
      destruct e; cbn [exec] in He; split; try done; revert He;
        repeat case_match; try done; intros [= <- <-]; cbn [previewing preview]; eauto.
      all: intros d Hd; (done || (subst; eauto 10)). }
    destruct Hk as [Hk1 Hk2]. split.
    + intros [es2 H]%Hk1%Hp. exists (es2 ++ [e]). by apply asked_snoc.
    + intros d [H|[H (r & -> & Hm)]]%Hk2.
      * destruct (Hd d H) as (es2 & r & Ha & Hin & Hm). exists (es2 ++ [e]), r.
        split; [by apply asked_snoc|]. split; [apply elem_of_app; auto|done].
      * destruct (Hp H) as [es2 Ha]. exists (es2 ++ [PreviewSettled r]), r.
        split; [by apply asked_snoc|]. split; [apply elem_of_app; right; by left|done].
Qed.

Lemma application_shown floating es s rs scheduled s' rs' rq :
  run es initial = Some (s, rs) -> exec (Fire scheduled) s = Some (s', rs') -> rq ∈ rs' ->
  let view := ApplyTemplateTab floating s in
  exists i at_ b opts,
    Picker opts (Some i) ∈ view /\ picked es = Some i /\
    Dialog (dialog_time es) false (negb (present (dialog_time es))) ∈ view /\
    scheduled_at offset scheduled (dialog_time es) = Returned at_ /\
    rq = m_request (Apply.useApplyTemplate activeId deviceId i at_ b) /\
    ((exists ifs, InterfacePicker ifs (chosen es) ∈ view /\ b = JObj [("interface", JStr (chosen es))]) \/
     ((forall ifs v, InterfacePicker ifs v ∉ view) /\ b = JObj [])).
Proof using Type.
  intros Hr He Hin view. destruct (tab_tracks _ _ _ Hr) as (Hi & Hc & Hw & _).
  rewrite <- Hi, <- Hc, <- Hw. clear Hi Hc Hw Hr es rs. subst view.
  destruct s as [ts i ov co wh ifc ifs pv pg sv ap ld]. cbn [exec] in He. revert He.
  case_match eqn:E; [intros He|done]. repeat rewrite andb_true_iff in E.
  destruct E as [[[Hl ->] ->%negb_true_iff] _].
  destruct (present i) eqn:Hp; [|simplify_eq; by apply not_elem_of_nil in Hin].
  destruct (scheduled_at offset scheduled wh) as [at_|] eqn:Es; simplify_eq; [|by apply not_elem_of_nil in Hin].
  apply list_elem_of_singleton in Hin as ->. destruct i as [i|]; [|done].
  unfold ApplyTemplateTab, bindings. rewrite Hl. cbn [negb templates templateId when confirming applying iface]. rewrite Hp.
  eexists i, at_, _, _. split_and!; try done.
  - by left.
  - rewrite !elem_of_app. right. right. right. by left.
  - case_match eqn:Ef.
    + left. eexists. split; [|done]. rewrite !elem_of_app. right. left. left. by left.
    + right. split; [|done]. intros l v. rewrite !elem_of_app. unfold preview_card.
      repeat case_match; repeat setoid_rewrite elem_of_cons; repeat setoid_rewrite elem_of_nil; naive_solver.
Qed.

Lemma preview_card_shown floating s n c :
  PreviewCard n c ∈ ApplyTemplateTab floating s ->
  exists d j, preview s = Some d /\ field "new" d = Some j /\ PreviewCard n c = preview_card j.
Proof using Type.
  unfold ApplyTemplateTab, previewOut. destruct (negb _); [intros Hx; apply list_elem_of_singleton in Hx; done|].
  rewrite !elem_of_app. intros [Hx|[Hx|[Hx|Hx]]].
  - apply list_elem_of_singleton in Hx. done.
  - exfalso. revert Hx. repeat case_match; rewrite ?elem_of_app; repeat setoid_rewrite elem_of_cons;
      repeat setoid_rewrite elem_of_nil; naive_solver.
  - destruct (preview s) as [d|]; [|by apply not_elem_of_nil in Hx]. cbn [mbind option_bind] in Hx.
    destruct (field "new" d) as [j|] eqn:Ej; [|by apply not_elem_of_nil in Hx].
    destruct (truthy _); [|by apply not_elem_of_nil in Hx]. apply list_elem_of_singleton in Hx. eauto.
  - exfalso. destruct (confirming s); [apply list_elem_of_singleton in Hx|apply not_elem_of_nil in Hx]; done.
Qed.
End claims.


(** Two templates: a rule and an alias. *)
Definition rule_ : Template := MkTemplate "t1" "firewall_rule" "r" None (Some (RuleB ∅)).
Definition alias_ : Template := MkTemplate "t2" "firewall_alias" "a" None (Some (AliasB "a" "host" ["10.0.0.1"] "")).
Definition answered (content : string) : fetch_result :=
  FetchResult (Some (JObj [("new", JObj [("name", JStr "r"); ("content", JArr [JStr content])])])) None 200.
Definition session : list event :=
  [TemplatesLoaded [rule_; alias_]; PickTemplate (Some "t1"); InterfacesSettled (Some [("lan", "LAN")]);
   ChooseInterface (Some "lan"); RunPreview; PreviewSettled (answered "pass"); OpenConfirm].
Definition outcome_of (es : list event) : tab * list request :=
  match run (exec (fun _ => 0%Z) (Some "x") "d") es initial with Some r => r | None => (initial, []) end.
Definition after (es : list event) : tab := (outcome_of es).1.


(** Picking another template leaves the preview of the former one on screen,
    under the new selection. *)
Lemma preview_outlives_pick :
  ApplyTemplateTab "Floating" (after (session ++ [Cancel; PickTemplate (Some "t2")])) =
  [Picker [("t1", "r"); ("t2", "a")] (Some "t2"); OverrideArea "10.0.0.1"; Buttons false false;
   PreviewCard (Some "r") "pass"].
Proof. vm_compute. reflexivity. Qed.

(** An application that ends closes the dialog, also one that was opened
    meanwhile for another template. *)
Lemma late_end_closes_dialog r :
  confirming (after (session ++ [Fire false; Cancel; PickTemplate (Some "t2"); OpenConfirm])) = true /\
  confirming (after (session ++ [Fire false; Cancel; PickTemplate (Some "t2"); OpenConfirm; Settled r])) = false.
Proof. split; reflexivity. Qed.

(** Saving what a template without content lines shows sends an empty content. *)
Lemma override_of_rule_is_empty :
  last (outcome_of (session ++ [SaveOverride])).2 =
  Some (m_request (Apply.useUpsertOverride (Some "x") "t1" (JObj [("content", JArr [])]))).
Proof. vm_compute. reflexivity. Qed.
