(* ===== verification/TemplateEditor.v ===== *)
(** * The template editor as a page sees it: [templates/TemplateFormModal.tsx]
    with the five forms it mounts

    [Templates] has the pure parts: opening a template, the body a submission
    sends, merging the fields of a device.  This file puts them together with
    what is asynchronous.  A form asks a reference device for its fields or
    rulesets; the answer lands later, in a handler that still holds the payload
    of the click.  The forms are mounted by the modal, which itself stays
    mounted in [pages/TemplateLibraryPage.tsx], so an answer may land in another
    form, or after another template was opened. *)
From S2P Require Import Prelude JsString Json Http QueryClient Hooks TenantHooks PlatformHooks Catalog Templates Machine.
From Stdlib Require Import ZArith Ascii.
Import Modal.

(** ** The forms by kind *)
Inductive pform := FSetting | FIds | FRule | FMonit | FPolicy.
#[export] Instance pform_eq_dec : EqDecision pform.
Proof. solve_decision. Defined.

(** Which form the modal mounts; the alias fields are its own. *)
Definition form_of (kind : string) : option pform :=
  if kind === "opnsense_setting" then Some FSetting
  else if kind === "suricata_ruleset" then Some FIds
  else if kind === "firewall_rule" then Some FRule
  else if kind === "monit_test" then Some FMonit
  else if kind === "ids_policy" then Some FPolicy
  else None.
Definition KINDS : list string :=
  ["firewall_alias"; "opnsense_setting"; "suricata_ruleset"; "firewall_rule"; "monit_test"; "ids_policy"].
Definition ALIAS_TYPES : list string :=
  ["host"; "network"; "port"; "url"; "urltable"; "geoip"; "networkgroup"; "mac"; "dynipv6host"].

(** The payload a form edits, and the body with another payload. *)
Definition payload_of (f : pform) (m : modal) : gmap string string :=
  match f with FSetting => (settingBody m).2 | FRule => ruleBody m | FMonit => monitBody m | _ => ∅ end.
Definition endpoint_of (m : modal) : string := (settingBody m).1.

(** [onChange] of the three forms: the body is replaced as a whole. *)
Definition set_body (f : pform) (endpoint : string) (p : gmap string string) (m : modal) : modal :=
  let '(MkModal k sb ib rb mb pb w) := m in
  match f with
  | FSetting => MkModal k (endpoint, p) ib rb mb pb w
  | FRule => MkModal k sb ib p mb pb w
  | FMonit => MkModal k sb ib rb p pb w
  | _ => m
  end.
Definition set_rulesets (f : pform) (l : list string) (m : modal) : modal :=
  let '(MkModal k sb ib rb mb pb w) := m in
  match f with
  | FIds => MkModal k sb l rb mb pb w
  | FPolicy => MkModal k sb ib rb mb
      (MkPolicy (p_description pb) (enabled pb) (prio pb) (action pb) l (content pb) (new_action pb)) w
  | _ => m
  end.
Definition set_policy (pb : PolicyBody) (m : modal) : modal :=
  let '(MkModal k sb ib rb mb _ w) := m in MkModal k sb ib rb mb pb w.
Definition set_kind (k : string) (m : modal) : modal :=
  let '(MkModal _ sb ib rb mb pb w) := m in MkModal k sb ib rb mb pb w.
Definition set_values (w : values) (m : modal) : modal :=
  let '(MkModal k sb ib rb mb pb _) := m in MkModal k sb ib rb mb pb w.

(** ** The plain inputs of the policy form *)
Definition ACTIONS : list string := ["disable"; "alert"; "drop"].
Definition NEW_ACTIONS : list string := ["default"; "alert"; "drop"; "disable"].
Inductive policy_edit :=
| PDescription (s : string)
| PEnabled (b : bool)
| PPrio (v : string)                  (* [String(v ?? 0)] *)
| PAction (l : list string)
| PNewAction (v : option string).
Definition policy_offers (e : policy_edit) : bool :=
  match e with
  | PAction l => forallb (fun a => bool_decide (a ∈ ACTIONS)) l
  | PNewAction (Some a) => bool_decide (a ∈ NEW_ACTIONS)
  | _ => true
  end.
Definition apply_policy (e : policy_edit) (pb : PolicyBody) : PolicyBody :=
  let '(MkPolicy d en pr ac ru co na) := pb in
  match e with
  | PDescription s => MkPolicy s en pr ac ru co na
  | PEnabled b => MkPolicy d (if b then "1" else "0") pr ac ru co na
  | PPrio v => MkPolicy d en v ac ru co na
  | PAction l => MkPolicy d en pr l ru co na
  | PNewAction v => MkPolicy d en pr ac ru co (v orelse "alert")
  end.

(** ** The machine *)

(** The state of the mounted form; all five have these variables or fewer. *)
Record child := Child {
  deviceId : string;
  fields : list Payload.SettingField;
  rows : list Policy.RulesetRow;
  loaded : bool;
  loading : bool;                       (* [isPending] of its mutation *)
  contentKey : string;
  contentValues : string;
}.
Definition fresh_child : child := Child "" [] [] false false "" "".

(** A request for the fields of a device, with what its handler holds. *)
Record flight := Flight {
  f_form : pform;
  f_mount : nat;                        (* which mount of a form asked *)
  f_endpoint : string;
  f_payload : gmap string string;
}.

Record editor := MkEditor {
  opened : bool;
  editing : option Template;
  form : modal;
  the_child : child;
  mount : nat;                          (* counts the mounts of forms *)
  flights : list flight;
  saving : bool;
}.
Definition initial : editor := MkEditor false None (open_ None) fresh_child 0 [] false.

Inductive answer := AFields (fs : list Payload.SettingField) | ARows (l : list Policy.RulesetRow) | AFailed.

#[export] Instance control_kind_eq_dec : EqDecision Payload.control_kind.
Proof. solve_decision. Defined.
#[export] Instance SettingField_eq_dec : EqDecision Payload.SettingField.
Proof. solve_decision. Defined.

(** What the control of an introspected field hands to its handler
    ([templates/AutoFormFields.tsx]), and the text [onField] gets. *)
Inductive choice := Toggled (b : bool) | Picked (k : option string) | PickedMany (ks : list string) | Typed (s : string).
Definition emitted (x : Payload.SettingField) (c : choice) : option string :=
  match Payload.control x, c with
  | Payload.switch, Toggled b => Some (if b then "1" else "0")
  | Payload.select, Picked k => Some (k orelse "")
  | Payload.multiselect, PickedMany ks => Some (join "," ks)
  | Payload.text, Typed s => Some s
  | _, _ => None
  end.

Inductive event :=
| Open (e : option Template)            (* the page opens the modal *)
| Close
| SetValues (w : values)                (* name, description, type and content of the form *)
| PickKind (k : option string)
| PickDevice (i : option string)
| PickEndpoint (k : option string)
| Load
| Landed (f : pform) (i : nat) (a : answer)
| SetField (f : pform) (x : Payload.SettingField) (c : choice)
| AttachSystem (b : bool)
| PickRulesets (l : list string)
| EditPolicy (e : policy_edit)
| EditContent (e : Policy.event)
| Submit
| Saved (ok : bool).

Inductive sent := Sent (s : submission) | Asked (r : request).

(** The body of a submission as JSON, and its request. *)
Definition strings (l : list string) : json := JArr (JStr <$> l).
Definition body_json (b : body) : json :=
  match b with
  | AliasB n t c d => JObj [("name", JStr n); ("type", JStr t); ("content", strings c); ("description", JStr d)]
  | SettingB k p => JObj [("endpoint_key", JStr k); ("payload", Editor.record_json p)]
  | IdsB l => JObj [("rulesets", strings l)]
  | RuleB p | MonitB p => Editor.record_json p
  | PolicyB p => JObj [("description", JStr (p_description p)); ("enabled", JStr (enabled p)); ("prio", JStr (prio p));
      ("action", strings (action p)); ("rulesets", strings (rulesets p));
      ("content", JObj ((fun kv => (kv.1, strings kv.2)) <$> map_to_list (content p)));
      ("new_action", JStr (new_action p))]
  end.
Definition submission_request (s : submission) : option request :=
  match s with
  | Rejected _ => None
  | Create k n d b => Some (m_request (Library.useCreateTemplate
      (JObj [("kind", JStr k); ("name", JStr n); ("description", JStr d); ("body", body_json b)])))
  | Update i n d b => Some (m_request (Library.useUpdateTemplate i
      (JObj [("name", JStr n); ("description", JStr d); ("body", body_json b)])))
  end.

Definition remount (s : editor) (m : modal) (o : bool) (e : option Template) : editor :=
  MkEditor o e m fresh_child (S (mount s)) (flights s) (saving s).
Definition with_form (m : modal) (s : editor) : editor :=
  MkEditor (opened s) (editing s) m (the_child s) (mount s) (flights s) (saving s).
Definition with_child (c : child) (s : editor) : editor :=
  MkEditor (opened s) (editing s) (form s) c (mount s) (flights s) (saving s).
Definition current (s : editor) : option pform := if opened s then form_of (m_kind (form s)) else None.

Definition reset_fields (c : child) : child :=
  Child (deviceId c) [] [] false (loading c) (contentKey c) (contentValues c).

(** What the handler of a landed answer does to the form that asked, if it is
    still mounted; a failure empties it. *)
Definition land_child (a : answer) (c : child) : child :=
  match a with
  | AFields fs => Child (deviceId c) fs (rows c) true false (contentKey c) (contentValues c)
  | ARows l => Child (deviceId c) (fields c) l true false (contentKey c) (contentValues c)
  | AFailed => Child (deviceId c) [] [] false false (contentKey c) (contentValues c)
  end.
(** And to the body: the payload of the click over the device's values. *)
Definition land_body (fl : flight) (a : answer) (m : modal) : modal :=
  match a with
  | AFields fs => set_body (f_form fl) (f_endpoint fl) (Payload.merged fs (f_payload fl)) m
  | _ => m
  end.
(** Field schemas answer three of the forms, rulesets the other two. *)
Definition fits (f : pform) (a : answer) : bool :=
  match f, a with
  | _, AFailed => true
  | (FSetting | FRule | FMonit), AFields _ => true
  | (FIds | FPolicy), ARows _ => true
  | _, _ => false
  end.

(** What the controls offer. *)
Definition holds_payload (f : pform) : bool := match f with FSetting | FRule | FMonit => true | _ => false end.
Definition subset_of (l m : list string) : bool := forallb (fun x => bool_decide (x ∈ m)) l.
Definition values_offered (w : values) (m : modal) : bool :=
  if form_of (m_kind m) is None then subset_of [v_type w] (v_type (v m) :: ALIAS_TYPES)
  else (v_type w === v_type (v m)) && (v_content w === v_content (v m)).
Definition rulesets_offered (f : pform) (l : list string) (c : child) (m : modal) : bool :=
  match f with
  | FIds => loaded c && negb (bool_decide (rows c = []))
            && subset_of l ((Catalog.value <$> Policy.ids_rulesetData (rows c)) ++ idsBody m)
  | FPolicy => let data := Policy.rulesetData (rows c) (rulesets (policyBody m)) in
               loaded c && negb (bool_decide (data = [])) && subset_of l (Catalog.value <$> data)
  | _ => false
  end.
Definition content_offered (e : Policy.event) (c : child) (m : modal) : bool :=
  match e with
  | Policy.Add => negb (trim (contentKey c) === "")
  | Policy.Remove k => bool_decide (is_Some (content (policyBody m) !! k))
  | Policy.Draft _ _ => true
  end.
(** The inputs marked [required]: the browser submits only when they are not empty. *)
Definition filled (m : modal) : bool :=
  negb (v_name (v m) === "")
  && match form_of (m_kind m) with
     | None => negb (v_content (v m) === "")
     | Some FPolicy => negb (p_description (policyBody m) === "")
     | _ => true
     end.
Definition can_load (f : pform) (c : child) (m : modal) : bool :=
  negb (loading c) && negb (deviceId c === "")
  && match f with FSetting => negb (endpoint_of m === "") | _ => true end.

Definition set_device (i : string) (c : child) : child :=
  Child i (fields c) (rows c) (loaded c) (loading c) (contentKey c) (contentValues c).
Definition set_loading (c : child) : child :=
  Child (deviceId c) (fields c) (rows c) (loaded c) true (contentKey c) (contentValues c).
Definition set_draft (k w : string) (c : child) : child :=
  Child (deviceId c) (fields c) (rows c) (loaded c) (loading c) k w.
Definition with_flights (l : list flight) (s : editor) : editor :=
  MkEditor (opened s) (editing s) (form s) (the_child s) (mount s) l (saving s).
Definition with_saving (b : bool) (s : editor) : editor :=
  MkEditor (opened s) (editing s) (form s) (the_child s) (mount s) (flights s) b.
Definition close (s : editor) : editor := if opened s then remount s (form s) false (editing s) else s.
Definition land (i : nat) (fl : flight) (a : answer) (s : editor) : editor :=
  let s1 := with_flights (delete i (flights s)) (with_form (land_body fl a (form s)) s) in
  if bool_decide (f_mount fl = mount s) then with_child (land_child a (the_child s)) s1 else s1.
Definition take_off (f : pform) (s : editor) : flight := Flight f (mount s) (endpoint_of (form s)) (payload_of f (form s)).

Section editor.
Context (activeId : option string).

Definition load_request (f : pform) (c : child) (m : modal) : request :=
  m_request match f with
            | FSetting => Apply.useIntrospectSetting activeId (deviceId c) (endpoint_of m)
            | FRule => Apply.useFirewallRuleModel activeId (deviceId c)
            | FMonit => Apply.useMonitTestModel activeId (deviceId c)
            | FIds | FPolicy => Apply.useIdsRulesets activeId (deviceId c)
            end.

Definition exec (e : event) (s : editor) : option (editor * list sent) :=
  match e with
  | Open ed => if opened s then None else Some (remount s (open_ ed) true ed, [])
  | Close => if opened s then Some (close s, []) else None
  | SetValues w =>
      if opened s && values_offered w (form s) then Some (with_form (set_values w (form s)) s, []) else None
  | PickKind k =>
      let m := set_kind (k orelse "firewall_alias") (form s) in
      if opened s && from_option (fun k => bool_decide (k ∈ KINDS)) false k then
        if bool_decide (form_of (m_kind m) = form_of (m_kind (form s))) then Some (with_form m s, [])
        else Some (remount s m true (editing s), [])
      else None
  | PickDevice i =>
      if current s is Some _ then Some (with_child (set_device (i orelse "") (the_child s)) s, []) else None
  | PickEndpoint k =>
      if bool_decide (current s = Some FSetting)
      then Some (with_child (reset_fields (the_child s)) (with_form (set_body FSetting (k orelse "") ∅ (form s)) s), [])
      else None
  | Load =>
      f ← current s;
      if can_load f (the_child s) (form s)
      then Some (with_flights (flights s ++ [take_off f s]) (with_child (set_loading (the_child s)) s),
                 [Asked (load_request f (the_child s) (form s))])
      else None
  | Landed f i a =>
      fl ← flights s !! i;
      if bool_decide (f_form fl = f) && fits f a then Some (land i fl a s, []) else None
  | SetField f x c =>
      if bool_decide (current s = Some f) && holds_payload f && loaded (the_child s)
         && bool_decide (x ∈ fields (the_child s)) then
        w ← emitted x c;
        Some (with_form (set_body f (endpoint_of (form s)) (<[Payload.path x := w]> (payload_of f (form s))) (form s)) s, [])
      else None
  | AttachSystem b =>
      if bool_decide (current s = Some FMonit)
      then Some (with_form (set_body FMonit "" (<["attach_to_system" := if b then "1" else "0"]> (monitBody (form s))) (form s)) s, [])
      else None
  | PickRulesets l =>
      f ← current s;
      if rulesets_offered f l (the_child s) (form s) then Some (with_form (set_rulesets f l (form s)) s, []) else None
  | EditPolicy e =>
      if bool_decide (current s = Some FPolicy) && policy_offers e
      then Some (with_form (set_policy (apply_policy e (policyBody (form s))) (form s)) s, []) else None
  | EditContent e =>
      if bool_decide (current s = Some FPolicy) && content_offered e (the_child s) (form s) then
        let d := Policy.exec e (Policy.MkEditor (policyBody (form s)) (contentKey (the_child s)) (contentValues (the_child s))) in
        Some (with_child (set_draft (Policy.contentKey d) (Policy.contentValues d) (the_child s))
                (with_form (set_policy (Policy.pol d) (form s)) s), [])
      else None
  | Submit =>
      if opened s && negb (saving s) && filled (form s) then
        match submit (editing s) (form s) with
        | Rejected _ => Some (s, [])
        | sub => Some (with_saving true s, [Sent sub])
        end
      else None
  | Saved ok => if saving s then Some (with_saving false (if ok then close s else s), []) else None
  end.
Definition run := Machine.run exec.
End editor.

(** ** The atomic editor, the specification

    One payload edited by one user, on which a device's fields are merged at
    once.  Nothing is captured, so nothing can be out of date. *)
Definition draft := (string * gmap string string)%type.
Definition draft_of (f : pform) (m : modal) : draft :=
  (match f with FSetting => endpoint_of m | _ => "" end, payload_of f m).
Definition atomic (f : pform) (d : draft) (e : event) : draft :=
  match e with
  | Open ed => draft_of f (open_ ed)
  | PickEndpoint k => if bool_decide (f = FSetting) then (k orelse "", ∅) else d
  | SetField g x c =>
      match emitted x c with
      | Some w => if bool_decide (g = f) then (d.1, <[Payload.path x := w]> d.2) else d
      | None => d
      end
  | AttachSystem b => if bool_decide (f = FMonit) then (d.1, <["attach_to_system" := if b then "1" else "0"]> d.2) else d
  | Landed g _ (AFields fs) => if bool_decide (g = f) then (d.1, Payload.merged fs d.2) else d
  | _ => d
  end.

(** A history is calm when no payload is edited while the fields for it are
    under way: what the editor does with its captured payloads is then the
    atomic merge. *)
Definition edits (e : event) (f : pform) : bool :=
  match e with
  | Open _ => true
  | PickEndpoint _ => bool_decide (f = FSetting)
  | SetField g _ _ => bool_decide (g = f)
  | AttachSystem _ => bool_decide (f = FMonit)
  | Landed g _ (AFields _) => bool_decide (g = f)
  | _ => false
  end.
Definition under_way (e : event) (s : editor) : list flight :=
  match e with Landed _ i _ => delete i (flights s) | _ => flights s end.
Definition calm_step (e : event) (s : editor) : bool :=
  forallb (fun fl => negb (holds_payload (f_form fl) && edits e (f_form fl))) (under_way e s).
Fixpoint calm (activeId : option string) (es : list event) (s : editor) : bool :=
  match es with
  | [] => true
  | e :: es => calm_step e s && match exec activeId e s with Some (s1, _) => calm activeId es s1 | None => true end
  end.

(** What a submission of a payload kind carries. *)
Definition draft_sent (s : submission) : option draft :=
  match s with
  | Create _ _ _ (SettingB k p) | Update _ _ _ (SettingB k p) => Some (k, p)
  | Create _ _ _ (RuleB p) | Update _ _ _ (RuleB p)
  | Create _ _ _ (MonitB p) | Update _ _ _ (MonitB p) => Some ("", p)
  | _ => None
  end.

(** *** The simulation *)
Definition captured (fl : flight) : draft :=
  (match f_form fl with FSetting => f_endpoint fl | _ => "" end, f_payload fl).
Definition synced (s : editor) : Prop :=
  Forall (fun fl => holds_payload (f_form fl) = true -> captured fl = draft_of (f_form fl) (form s)) (flights s).

Lemma draft_set_body f g k p m :
  holds_payload f = true ->
  draft_of g (set_body f k p m) =
  if bool_decide (f = g) then (match f with FSetting => k | _ => "" end, p) else draft_of g m.
Proof. by destruct m as [? [? ?]], f, g. Qed.

Lemma draft_other m m' g :
  settingBody m' = settingBody m -> ruleBody m' = ruleBody m -> monitBody m' = monitBody m ->
  draft_of g m' = draft_of g m.
Proof. unfold draft_of, payload_of, endpoint_of. by intros -> -> ->. Qed.

Lemma draft_set_rulesets f l m g : draft_of g (set_rulesets f l m) = draft_of g m.
Proof. by destruct m, f, g. Qed.
Lemma draft_set_policy p m g : draft_of g (set_policy p m) = draft_of g m.
Proof. by destruct m, g. Qed.
Lemma draft_set_values w m g : draft_of g (set_values w m) = draft_of g m.
Proof. by destruct m, g. Qed.
Lemma draft_set_kind k m g : draft_of g (set_kind k m) = draft_of g m.
Proof. by destruct m, g. Qed.

Lemma atomic_unedited f d e : edits e f = false -> atomic f d e = d.
Proof.
  destruct e as [| | | | |k| |g i a|g x c|b| | | | |]; cbn [edits atomic]; try done.
  - by intros ->.
  - destruct a; [|done..]. by intros ->.
  - destruct (emitted x c); [|done]. by intros ->.
  - by intros ->.
Qed.

Section simulation.
Context (activeId : option string).

Ltac step_cases H :=
  unfold exec in H; repeat first [progress simplify_option_eq | case_match]; try done.

(** Flights come from the load button and go when they land. *)
Lemma flights_step e s s' rs :
  exec activeId e s = Some (s', rs) ->
  flights s' = under_way e s \/
  (exists f, form s' = form s /\ flights s' = flights s ++ [take_off f s] /\ under_way e s = flights s).
Proof using Type.
  intros H. destruct e; step_cases H; try (by eauto).
  all: try (unfold close; case_match; by auto); unfold land; case_match; by auto.
Qed.

(** One step of the editor is one step of the specification, as long as
    every captured payload is the present one. *)
Lemma landed_atomic g f i a s fl :
  flights s !! i = Some fl -> f_form fl = f -> fits f a = true -> synced s ->
  draft_of g (form (land i fl a s)) = atomic g (draft_of g (form s)) (Landed f i a).
Proof using Type.
  intros Hi Hf Hfit Hs. unfold land.
  assert (E : draft_of g (land_body fl a (form s)) = atomic g (draft_of g (form s)) (Landed f i a)).
  { destruct a as [fs|l|]; [|done..]. cbn [land_body atomic]. rewrite Hf.
    assert (Hh : holds_payload f = true) by (by destruct f).
    rewrite draft_set_body by done. case_bool_decide as Hg; [subst g|done].
    pose proof (proj1 (list.Forall_forall _ _) Hs fl (list_elem_of_lookup_2 _ _ _ Hi)) as Hc.
    cbn beta in Hc. rewrite Hf in Hc. rewrite <- (Hc Hh). unfold captured. rewrite Hf. by destruct f. }
  case_match; exact E.
Qed.

Lemma draft_step g e s s' rs :
  exec activeId e s = Some (s', rs) -> synced s -> draft_of g (form s') = atomic g (draft_of g (form s)) e.
Proof using Type.
  intros H Hs. destruct e as [| | | | |k| |f i a|f x c|b| | | | |]; cbn [atomic].
  6: { cbn [exec] in H. case_bool_decide; [|done]. simplify_eq/=. rewrite draft_set_body by done.
       by repeat case_bool_decide. }
  7: { cbn [exec] in H. apply (proj1 (bind_Some _ _ _)) in H as (fl & Hi & H).
       destruct (bool_decide (f_form fl = f)) eqn:Hf; [|done]. destruct (fits f a) eqn:Hfit; [|done].
       apply bool_decide_eq_true in Hf. simplify_eq/=. by eapply landed_atomic. }
  7: { cbn [exec] in H. destruct (_ && _) eqn:Hc in H; [|done]. apply andb_prop in Hc as [[[_ Hh]%andb_prop _]%andb_prop _].
       apply (proj1 (bind_Some _ _ _)) in H as (w & -> & H). simplify_eq/=. rewrite draft_set_body by done.
       repeat case_bool_decide; subst; by destruct g. }
  7: { cbn [exec] in H. case_bool_decide; [|done]. simplify_eq/=. rewrite draft_set_body by done.
       repeat case_bool_decide; subst; congruence || done. }
  all: step_cases H; unfold close; cbn [form with_form with_child with_flights with_saving remount];
    rewrite ?draft_set_values, ?draft_set_kind, ?draft_set_rulesets, ?draft_set_policy; try done; by case_match.
Qed.

Lemma synced_step e s s' rs :
  exec activeId e s = Some (s', rs) -> calm_step e s = true -> synced s -> synced s'.
Proof using Type.
  intros H Hc Hs.
  assert (Hw : Forall (fun fl => holds_payload (f_form fl) = true -> captured fl = draft_of (f_form fl) (form s'))
                 (under_way e s)).
  { apply list.Forall_forall. intros fl Hfl Hh. rewrite (draft_step _ _ _ _ _ H Hs), atomic_unedited.
    - assert (Hin : fl ∈ flights s).
      { destruct e; try exact Hfl. cbn [under_way] in Hfl. by apply list_elem_of_delete_inv in Hfl. }
      exact (proj1 (list.Forall_forall _ _) Hs fl Hin Hh).
    - pose proof (proj1 (forallb_forall _ _) Hc fl (proj1 (list_elem_of_In _ _) Hfl)) as Hn. cbn beta in Hn.
      rewrite Hh in Hn. by destruct (edits e _). }
  unfold synced. destruct (flights_step _ _ _ _ H) as [->|(f & Hf & -> & Hu)]; [done|].
  rewrite Hu in Hw. apply Forall_app. split; [done|]. apply Forall_singleton. intros _. rewrite Hf.
  unfold captured, draft_of. simpl. by destruct f.
Qed.

Lemma calm_run es s s' rs :
  run activeId es s = Some (s', rs) -> calm activeId es s = true -> synced s ->
  synced s' /\ forall g, draft_of g (form s') = fold_left (atomic g) es (draft_of g (form s)).
Proof using Type.
  revert s rs. induction es as [|e es IH]; intros s rs H Hc Hs.
  - simpl in H. by simplify_eq.
  - apply Machine.run_cons in H as (s1 & r1 & r2 & He & Hr & ->). cbn [calm] in Hc. rewrite He in Hc.
    apply andb_prop in Hc as [Hc1 Hc2]. pose proof (synced_step _ _ _ _ He Hc1 Hs) as Hs1.
    destruct (IH _ _ Hr Hc2 Hs1) as [Hs' Hg]. split; [done|]. intros g.
    by rewrite Hg, (draft_step _ _ _ _ _ He Hs).
Qed.
End simulation.

(** ** Nothing typed is lost *)

(** The event leaves the value at [p] alone. *)
Definition leaves (f : pform) (p : string) (e : event) : bool :=
  match e with
  | Open _ => false
  | PickEndpoint _ => negb (bool_decide (f = FSetting))
  | SetField g x _ => negb (bool_decide (g = f) && bool_decide (Payload.path x = p))
  | AttachSystem _ => negb (bool_decide (f = FMonit) && bool_decide (p = "attach_to_system"))
  | _ => true
  end.

Lemma atomic_leaves f p e d w :
  leaves f p e = true -> d.2 !! p = Some w -> (atomic f d e).2 !! p = Some w.
Proof.
  intros Hl Hd. destruct e as [| | | | |k| |g i a|g x c|b| | | | |]; cbn [leaves atomic] in *; try done.
  - by case_bool_decide.
  - destruct a; [|done..]. case_bool_decide; [|done]. cbn [snd]. by rewrite Payload.merged_lookup, Hd.
  - destruct (emitted x c); [|done]. repeat case_bool_decide; try done. cbn [snd]. by rewrite lookup_insert_ne.
  - repeat case_bool_decide; try done; cbn [snd]; by rewrite lookup_insert_ne.
Qed.

Lemma atomic_keeps f p es d w :
  forallb (leaves f p) es = true -> d.2 !! p = Some w -> (fold_left (atomic f) es d).2 !! p = Some w.
Proof.
  revert d. induction es as [|e es IH]; intros d; [done|]. cbn [forallb fold_left].
  intros [He Hes]%andb_prop Hd. by apply IH, atomic_leaves.
Qed.

Lemma submit_draft ed m f :
  form_of (m_kind m) = Some f -> holds_payload f = true ->
  match submit ed m with Rejected _ => True | sub => draft_sent sub = Some (draft_of f m) end.
Proof.
  unfold form_of, submit, send. destruct (m_kind m === "opnsense_setting").
  { intros [= <-] _. destruct ed, m as [? [? ?]]; done. }
  destruct (m_kind m === "suricata_ruleset"); [by intros [= <-]|].
  destruct (m_kind m === "firewall_rule").
  { intros [= <-] _. destruct (blank _); [done|]. by destruct ed. }
  destruct (m_kind m === "monit_test").
  { intros [= <-] _. destruct (blank _); [done|]. by destruct ed. }
  by destruct (m_kind m === "ids_policy"); intros [= <-].
Qed.

Lemma calm_prefix activeId es1 es2 s s1 r1 :
  run activeId es1 s = Some (s1, r1) -> calm activeId (es1 ++ es2) s = true -> calm activeId es1 s = true.
Proof.
  revert s r1. induction es1 as [|e es1 IH]; intros s r1 H Hc; [done|].
  apply Machine.run_cons in H as (s2 & r2 & r3 & He & Hr & ->). cbn [calm app] in *. rewrite He in *.
  apply andb_prop in Hc as [-> Hc]. cbn [andb]. by eapply IH.
Qed.

Lemma calm_initial activeId es s rs f :
  run activeId es initial = Some (s, rs) -> calm activeId es initial = true ->
  draft_of f (form s) = fold_left (atomic f) es ("", ∅).
Proof.
  intros H Hc. destruct (calm_run activeId es initial s rs H Hc (Forall_nil_2 _)) as [_ ->]. by destruct f.
Qed.

(** C33.  The template editor implements the atomic editor: in every history
    that edits no payload while its fields are under way, the payload of each
    form is what the user's actions and one merge per answer give, a save
    sends exactly that payload, and whatever was saved or typed is still there
    until it is typed over, its endpoint is picked anew or another template is
    opened, however many devices' fields are loaded in between. *)
Theorem editor_refines_atomic activeId es s sents :
  run activeId es initial = Some (s, sents) -> calm activeId es initial = true ->
  (forall f, draft_of f (form s) = fold_left (atomic f) es ("", ∅)) /\
  (forall f s' sub, exec activeId Submit s = Some (s', [Sent sub]) ->
     form_of (m_kind (form s)) = Some f -> holds_payload f = true ->
     draft_sent sub = Some (fold_left (atomic f) es ("", ∅))) /\
  (forall f p w es1 es2 s1 r1, es = es1 ++ es2 -> run activeId es1 initial = Some (s1, r1) ->
     payload_of f (form s1) !! p = Some w -> forallb (leaves f p) es2 = true ->
     payload_of f (form s) !! p = Some w).
Proof.
  intros H Hc. split_and!.
  - intros f. by apply (calm_initial activeId _ _ sents).
  - intros f s' sub Hx Hf Hh. rewrite <- (calm_initial activeId es s sents f H Hc).
    pose proof (submit_draft (editing s) (form s) f Hf Hh) as Hd. cbn [exec] in Hx.
    destruct (_ && _) in Hx; [|done]. destruct (submit _ _) in *; by simplify_eq.
  - intros f p w es1 es2 s1 r1 -> H1 Hw Hl.
    pose proof (calm_initial activeId es1 s1 r1 f H1 (calm_prefix _ _ _ _ _ _ H1 Hc)) as E1.
    pose proof (calm_initial activeId _ s sents f H Hc) as E. rewrite fold_left_app, <- E1 in E.
    change (payload_of f (form s)) with (draft_of f (form s)).2. rewrite E. by apply atomic_keeps.
Qed.

Definition text_field (p v : string) : Payload.SettingField := Payload.MkSettingField p Payload.text [] (One v).
Definition monit_template (i : string) (p : gmap string string) : Template :=
  MkTemplate i "monit_test" i (Some "") (Some (MonitB p)).

Definition demo : list event :=
  [Open (Some (monit_template "a" {["name" := "x"]})); PickDevice (Some "d"); Load;
   Landed FMonit 0 (AFields [text_field "t" "1"]); SetField FMonit (text_field "t" "1") (Typed "2")].
Definition demo_end : editor :=
  MkEditor true (Some (monit_template "a" {["name" := "x"]}))
    (MkModal "monit_test" ("", ∅) [] ∅ {["name" := "x"; "t" := "2"]} EMPTY_POLICY (MkValues "a" "host" "" ""))
    (Child "d" [text_field "t" "1"] [] true false "" "") 1 [] false.
Definition demo_load : sent := Asked (m_request (Apply.useMonitTestModel None "d")).
Definition demo_sub : submission := Update "a" "a" "" (MonitB {["name" := "x"; "t" := "2"]}).

Lemma editor_refines_atomic_witness :
  run None demo initial = Some (demo_end, [demo_load]) /\
  exec None Submit demo_end = Some (with_saving true demo_end, [Sent demo_sub]) /\
  draft_sent demo_sub = Some (fold_left (atomic FMonit) demo ("", ∅)).
Proof.
  assert (R : run None demo initial = Some (demo_end, [demo_load])) by reflexivity.
  assert (X : exec None Submit demo_end = Some (with_saving true demo_end, [Sent demo_sub])) by reflexivity.
  split; [exact R|]. split; [exact X|].
  exact (proj1 (proj2 (editor_refines_atomic None demo demo_end _ R ltac:(reflexivity))) FMonit _ _ X
           eq_refl eq_refl).
Defined.

(** Without calm the captured payload shows.  An answer that lands after
    another template was opened puts the first one's payload into the second,
    and saving sends it as the second's. *)
Lemma late_fields_cross_templates :
  exists s sents,
    run None [Open (Some (monit_template "a" {["name" := "x"]})); PickDevice (Some "d"); Load; Close;
              Open (Some (monit_template "b" {["name" := "y"; "t" := "2"]}));
              Landed FMonit 0 (AFields [text_field "name" ""]); Submit] initial = Some (s, sents) /\
    last sents = Some (Sent (Update "b" "b" "" (MonitB {["name" := "x"]}))).
Proof. eexists _, _. split; reflexivity. Qed.

(** An endpoint picked while the fields of another load is taken back, and so
    is the tick of the monit form. *)
Lemma late_fields_take_back :
  (endpoint_of ∘ form ∘ fst) <$>
    run None [Open None; PickKind (Some "opnsense_setting"); PickEndpoint (Some "n"); PickDevice (Some "d"); Load;
              PickEndpoint (Some "m"); Landed FSetting 0 (AFields [])] initial = Some "n" /\
  (monitBody ∘ form ∘ fst) <$>
    run None [Open None; PickKind (Some "monit_test"); PickDevice (Some "d"); Load; AttachSystem true;
              Landed FMonit 0 (AFields [])] initial = Some ∅.
Proof. split; reflexivity. Qed.

(** Saving closes whatever is open then: a template opened after the first was
    closed with its save under way is closed in its turn. *)
Lemma late_save_closes_next :
  exists s sents,
    run None [Open None; SetValues (MkValues "n" "host" "10.0.0.1" ""); Submit; Close; Open None; Saved true] initial
      = Some (s, sents) /\ opened s = false.
Proof. eexists _, _. split; reflexivity. Qed.
