(* ===== verification/ChangeRows.v ===== *)
(** * Forms and rows around configuration changes and devices

    [config/ChangesPanel.tsx] (module [Row]: the buttons and the popover of one
    change; [Panel]: the panel around them), [config/ProposeAliasModal.tsx]
    ([Alias]) and [components/DeviceCreateModal.tsx] ([DeviceCreate]).  Which
    buttons a row has and the request of each are in [Actions.ChangesPanel]. *)
From S2P Require Import Prelude JsString Json Http QueryClient Hooks TenantHooks Picker Actions Machine.
From Stdlib Require Import ZArith.

(** ** One row: [ChangeRowActions], [RevertButton] *)
#[export] Instance button_eq_dec : EqDecision ChangesPanel.button.
Proof. solve_decision. Defined.

Module Row.
Inductive waiting := ForNow | ForDate.       (* which handler awaits [schedule] *)
Record row := MkRow {
  scheduleDate : option string;
  scheduleOpen : bool;
  schedulePending : option waiting;
  cancelPending : bool;
  revertPending : bool;
}.
Definition initial : row := MkRow None false None false false.

Inductive event :=
| Toggle                       (* the schedule button of the row *)
| PopoverChange (b : bool)
| PickDate (v : option string)
| Press (b : ChangesPanel.button)
| ScheduleSettled (ok : bool)
| CancelSettled
| RevertSettled.

Section row.
Context (offset : Z -> Z) (t : option string) (d : string) (canEdit : bool) (c : ChangesPanel.ConfigChange).

(** Is the button rendered, and neither disabled nor loading? *)
Definition enabled (b : ChangesPanel.button) (s : row) : bool :=
  bool_decide (b ∈ ChangesPanel.row_buttons canEdit c) &&
  match b with
  | ChangesPanel.Preview => true
  | ChangesPanel.ApplyNow => scheduleOpen s && match schedulePending s with None => true | Some _ => false end
  | ChangesPanel.Schedule => scheduleOpen s && present (scheduleDate s) && match schedulePending s with None => true | Some _ => false end
  | ChangesPanel.Cancel => negb (cancelPending s)
  | ChangesPanel.Revert => negb (revertPending s)
  end.

(** [press] is [None] for the preview, which sends nothing, and for a time that
    does not convert: the handler throws before it sends. *)
Definition exec (e : event) (s : row) : option (row * list request) :=
  let '(MkRow sd so sp cp rp) := s in
  match e with
  | Toggle => if bool_decide (ChangesPanel.Preview ∈ ChangesPanel.row_buttons canEdit c)
              then Some (MkRow sd (negb so) sp cp rp, []) else None
  | PopoverChange b => Some (MkRow sd b sp cp rp, [])
  | PickDate v => if so then Some (MkRow v so sp cp rp, []) else None
  | Press b =>
      if enabled b s then
        match ChangesPanel.press offset t d c sd b with
        | None => Some (s, [])
        | Some m =>
            Some (match b with
                  | ChangesPanel.ApplyNow => MkRow sd so (Some ForNow) cp rp
                  | ChangesPanel.Schedule => MkRow sd so (Some ForDate) cp rp
                  | ChangesPanel.Cancel => MkRow sd so sp true rp
                  | ChangesPanel.Revert => MkRow sd so sp cp true
                  | ChangesPanel.Preview => s
                  end, [m_request m])
        end
      else None
  | ScheduleSettled ok =>
      match sp with
      | Some ForDate => Some (if ok then MkRow None false None cp rp else MkRow sd so None cp rp, [])
      | Some ForNow => Some (MkRow sd so None cp rp, [])
      | None => None
      end
  | CancelSettled => if cp then Some (MkRow sd so sp false rp, []) else None
  | RevertSettled => if rp then Some (MkRow sd so sp cp false, []) else None
  end.

(** Each request of a row is the one of a button it offers at that moment, for
    the time picked in its own popover. *)
Lemma row_requests es s rs rq :
  run exec es initial = Some (s, rs) -> rq ∈ rs ->
  exists es1 es2 s1 rs1 b m, es = es1 ++ Press b :: es2 /\ run exec es1 initial = Some (s1, rs1) /\
    enabled b s1 = true /\ canEdit = true /\ ChangesPanel.drivable c b /\
    ChangesPanel.press offset t d c (scheduleDate s1) b = Some m /\ rq = m_request m.
Proof using Type.
  intros H Hin. destruct (run_request _ _ _ _ _ _ H Hin) as (es1 & e & es2 & s1 & r1 & s2 & r2 & -> & H1 & He & Hr).
  destruct s1 as [sd so sp cp rp].
  destruct e as [|b|v|b|ok| |]; cbn [exec] in He; try (js_cases; by apply not_elem_of_nil in Hr).
  destruct (enabled b _) eqn:Ee; [|done].
  destruct (ChangesPanel.press offset t d c sd b) as [m|] eqn:Ep; simplify_eq; [|by apply not_elem_of_nil in Hr].
  apply list_elem_of_singleton in Hr as ->.
  exists es1, es2, (MkRow sd so sp cp rp), r1, b, m. split_and!; try done;
    unfold enabled in Ee; apply andb_true_iff in Ee as [Hb _]; apply bool_decide_eq_true in Hb;
    by apply ChangesPanel.row_buttons_spec in Hb as [? ?].
Qed.

(** After a change was scheduled for a time, the next one is picked afresh. *)
Lemma scheduled_resets s s' rs :
  schedulePending s = Some ForDate -> exec (ScheduleSettled true) s = Some (s', rs) ->
  scheduleDate s' = None /\ scheduleOpen s' = false /\ enabled ChangesPanel.Schedule s' = false.
Proof using Type.
  destruct s as [sd so sp cp rp]. simpl. intros -> H. simplify_eq. split_and!; try done.
  unfold enabled. simpl. by rewrite andb_false_r.
Qed.
End row.
End Row.

(** ** The panel *)
Module Panel.
Record panel := MkPanel { proposeOpen : bool; previewId : option string }.
Inductive event := Propose | CloseProposal | ShowPreview (id : string) | ClosePreview.
Definition step (canEdit : bool) (e : event) (p : panel) : option panel :=
  match e with
  | Propose => if canEdit then Some (MkPanel true (previewId p)) else None
  | CloseProposal => Some (MkPanel false (previewId p))
  | ShowPreview i => if canEdit then Some (MkPanel (proposeOpen p) (Some i)) else None
  | ClosePreview => Some (MkPanel (proposeOpen p) None)
  end.

(** [new Map(results.map((r) => [r.change_id, r]))]: the last result of a change wins. *)
Record DriftResultItem := MkDrift { change_id : string; d_status : string; drifted_fields : list string }.
Definition driftByChange (results : option (list DriftResultItem)) (id : string) : option DriftResultItem :=
  assoc id (rev ((fun r => (change_id r, r)) <$> (results orelse []))).
(** The tooltip of the badge. *)
Definition tooltip (prefix_ : string) (r : DriftResultItem) : option string :=
  if (d_status r === "drifted") && (0 <? length (drifted_fields r))
  then Some (prefix_ +:+ JsString.join ", " (drifted_fields r)) else None.

Inductive block := UnreachableAlert | LoaderBlock | ErrorAlert | NoChanges | ChangesTable.
Definition blocks (drift_reachable : option bool) (isLoading isError : bool) (changes : option nat) : list block :=
  (match drift_reachable with Some false => [UnreachableAlert] | _ => [] end) ++
  (if isLoading then [LoaderBlock] else []) ++ (if isError then [ErrorAlert] else []) ++
  match changes with Some O => [NoChanges] | Some (S _) => [ChangesTable] | None => [] end.

(** The badge of a change is that of its own drift result. *)
Lemma drift_of_change results i r : driftByChange results i = Some r -> change_id r = i /\ r ∈ results orelse [].
Proof.
  unfold driftByChange. intros H%assoc_elem. apply list_elem_of_In, in_rev, list_elem_of_In in H.
  apply list_elem_of_fmap in H as (r' & [= -> ->] & Hr). done.
Qed.
End Panel.

(** ** [ProposeAliasModal] *)
Module Alias.
Record form := Form { operation : string; name : string; type_ : string; content : string; isPending : bool }.
Definition initial : form := Form "set" "" "host" "" false.
Definition OPERATIONS : list string := ["add"; "set"; "delete"].
Definition TYPES : list string := ["host"; "network"; "port"; "url"].

Inductive event :=
| SetOperation (s : string) | SetName (s : string) | SetType (s : string) | SetContent (s : string)
| Submit | Settled (ok : bool).

(** The browser does not submit without a name. *)
Definition exec (t : option string) (d : string) (e : event) (f : form) : option (form * list request) :=
  let '(Form op na ty co pe) := f in
  match e with
  | SetOperation s => if bool_decide (s ∈ OPERATIONS) then Some (Form s na ty co pe, []) else None
  | SetName s => Some (Form op s ty co pe, [])
  | SetType s => if bool_decide (s ∈ TYPES) then Some (Form op na s co pe, []) else None
  | SetContent s => Some (Form op na ty s pe, [])
  | Submit =>
      if (na === "") || pe then None
      else Some (Form op na ty co true, [m_request (Changes.useCreateChange t d (ChangesPanel.alias_change op na ty co))])
  | Settled ok => if pe then Some (if ok then initial else Form op na ty co false, []) else None
  end.

(** A proposal has a known operation and type and a name; the form is blank
    again once it is accepted, and as it was when it is refused. *)
Lemma proposals_typed t d es f rs :
  run (exec t d) es initial = Some (f, rs) ->
  Forall (fun rq => exists op na ty co, op ∈ OPERATIONS /\ ty ∈ TYPES /\ na <> "" /\
    rq = m_request (Changes.useCreateChange t d (ChangesPanel.alias_change op na ty co))) rs.
Proof.
  apply (run_requests _ (fun f => operation f ∈ OPERATIONS /\ type_ f ∈ TYPES)).
  - intros e s s' rs' [Ho Ht] He. destruct s as [op na ty co pe], e as [x|x|x|x| |ok]; cbn [exec] in He.
    + case_bool_decide; simplify_eq. repeat split; auto.
    + simplify_eq. repeat split; auto.
    + case_bool_decide; simplify_eq. repeat split; auto.
    + simplify_eq. repeat split; auto.
    + destruct ((na === "") || pe) eqn:E; simplify_eq. apply orb_false_iff in E as [E%bool_decide_eq_false _].
      split; [done|]. constructor; [|constructor]. exists op, na, ty, co. done.
    + destruct pe; simplify_eq. split; [|constructor]. destruct ok; split; simpl; try done; by (left || (right; left)).
  - split; [right; left|left].
Qed.
End Alias.

(** ** [DeviceCreateModal] *)
Module DeviceCreate.
Import Devices.
Definition blank : device_form := DeviceForm "" "" "" "" true "".
Record modal := MkModal { form : device_form; isPending : bool }.
Definition initial : modal := MkModal blank false.

Inductive event :=
| SetName (s : string) | SetUrl (s : string) | SetKey (s : string) | SetSecret (s : string)
| SetVerify (b : bool) | SetFingerprint (s : string)
| Submit | Settled (ok : bool).

Definition apply_edit (e : event) (v : device_form) : device_form :=
  let '(DeviceForm na ur ke se ve fi) := v in
  match e with
  | SetName s => DeviceForm s ur ke se ve fi
  | SetUrl s => DeviceForm na s ke se ve fi
  | SetKey s => DeviceForm na ur s se ve fi
  | SetSecret s => DeviceForm na ur ke s ve fi
  | SetVerify b => DeviceForm na ur ke se b fi
  | SetFingerprint s => DeviceForm na ur ke se ve s
  | _ => v
  end.

(** Four fields are [required]; the fingerprint's is there with verification off. *)
Definition complete (v : device_form) : bool :=
  negb (f_name v === "") && negb (f_base_url v === "") && negb (f_api_key v === "") && negb (f_api_secret v === "").
Definition exec (tenantId : string) (e : event) (m : modal) : option (modal * list request) :=
  match e with
  | Submit =>
      if complete (form m) && negb (isPending m)
      then Some (MkModal (form m) true, [m_request (DeviceCreateModal_mutation tenantId (form m))]) else None
  | Settled ok => if isPending m then Some (if ok then initial else MkModal (form m) false, []) else None
  | SetFingerprint _ =>
      if f_verify_tls (form m) then None else Some (MkModal (apply_edit e (form m)) (isPending m), [])
  | _ => Some (MkModal (apply_edit e (form m)) (isPending m), [])
  end.

(** Every device is created with all its credentials; none stay in the form
    once it was, and a pin is sent only with verification off. *)
Lemma creations_complete tenantId es m rs :
  run (exec tenantId) es initial = Some (m, rs) ->
  Forall (fun rq => exists v, complete v = true /\ rq = m_request (DeviceCreateModal_mutation tenantId v) /\
    (f_verify_tls v = true -> field "tls_fingerprint" (create_body v) = None)) rs /\
  (forall m' rs', exec tenantId (Settled true) m = Some (m', rs') -> form m' = blank).
Proof.
  intros H. split.
  - revert H. apply (run_requests _ (fun _ => True)); [|done].
    intros e s s' rs' _ He. split; [done|]. destruct e; cbn [exec] in He; js_cases; constructor; [|constructor].
    apply andb_true_iff in Heqb as [Hc _]. exists (form s). split_and!; try done.
    intros Hv. rewrite create_body_fingerprint. by rewrite Hv.
  - intros m' rs' He. cbn [exec] in He. js_cases. done.
Qed.
End DeviceCreate.
