(* ===== verification/ChangeTable.v ===== *)
(** * The panel of configuration changes: [config/ChangesPanel.tsx]

    The panel as one machine: the list the server last gave, the rows with
    their popovers ([ChangeRows.Row]; React keeps a row's state as long as its
    component stays mounted under the change's id), the drift check, the form
    that proposes an alias ([ChangeRows.Alias]) and the preview; and what the
    panel shows in each state. *)
From S2P Require Import Prelude Machine JsString Json Http QueryClient Hooks TenantHooks Picker Actions ChangeRows.
From Stdlib Require Import ZArith.
Import ChangesPanel.

(** ** State *)
Record Change := MkFull {
  core : ConfigChange;
  kind : string; operation : string; target : string;
  scheduled_at : option string;
  reverts_change_id : option string;
}.
Record DriftReport := Report { reachable : bool; results : list Panel.DriftResultItem }.

Record panel := MkPanel {
  changes : option (list Change);          (* [q.data] *)
  list_failed : bool;                      (* [q.isError] *)
  rows : gmap string Row.row;
  open_ : Panel.panel;
  alias : Alias.form;
  drift : option DriftReport;
  drifting : bool;
}.
Definition initial : panel := MkPanel None false ∅ (Panel.MkPanel false None) Alias.initial None false.

Definition id_of (c : Change) : string := c_id (core c).
Definition find_change (cs : option (list Change)) (i : string) : option Change :=
  head (filter (fun c => id_of c = i) (cs orelse [])).
Definition row_of (s : panel) (i : string) : Row.row := rows s !! i orelse Row.initial.

Definition actionable (c : Change) : bool := bool_decide (c_status (core c) ∈ ACTIONABLE).

(** A row after a new list: [ChangeRowActions] and [RevertButton] keep their
    state when they were and are rendered. *)
Definition remount (old : option Change) (new : Change) (r : Row.row) : Row.row :=
  let stays f := match old with Some c => f c && f new | None => false end in
  let a := if stays actionable then r else Row.initial in
  Row.MkRow (Row.scheduleDate a) (Row.scheduleOpen a) (Row.schedulePending a) (Row.cancelPending a)
    (stays (fun c => revertible (core c)) && Row.revertPending r).
Definition remount_all (s : panel) (l : list Change) : gmap string Row.row :=
  list_to_map ((fun c => (id_of c, remount (find_change (changes s) (id_of c)) c (row_of s (id_of c)))) <$> l).

Inductive event :=
| Listed (l : list Change)
| ListFailed
| Refetch                                  (* the list is asked for again *)
| InRow (i : string) (e : Row.event)
| Propose
| CloseProposal
| ClosePreview
| InForm (e : Alias.event)
| CheckDrift
| Drifted (r : option DriftReport).        (* [None]: the check failed *)

Section panel.
Context (offset : Z -> Z) (t : option string) (d : string) (canEdit : bool).

Definition with_open (p : Panel.panel) (s : panel) : panel :=
  MkPanel (changes s) (list_failed s) (rows s) p (alias s) (drift s) (drifting s).
Definition with_alias (f : Alias.form) (s : panel) : panel :=
  MkPanel (changes s) (list_failed s) (rows s) (open_ s) f (drift s) (drifting s).
Definition with_row (i : string) (r : Row.row) (s : panel) : panel :=
  MkPanel (changes s) (list_failed s) (<[i := r]> (rows s)) (open_ s) (alias s) (drift s) (drifting s).

(** The row has the component the event is for. *)
Definition mounted (c : Change) (e : Row.event) : bool :=
  match e with
  | Row.RevertSettled | Row.Press Revert => canEdit && revertible (core c)
  | _ => canEdit && actionable c
  end.
(** The form is there while its dialog is open; an answer may find it closed. *)
Definition form_there (s : panel) (e : Alias.event) : bool :=
  match e with Alias.Settled _ => true | _ => Panel.proposeOpen (open_ s) end.

Definition exec (e : event) (s : panel) : option (panel * list request) :=
  match e with
  | Listed l => Some (MkPanel (Some l) false (remount_all s l) (open_ s) (alias s) (drift s) (drifting s), [])
  | ListFailed => Some (MkPanel (changes s) true (rows s) (open_ s) (alias s) (drift s) (drifting s), [])
  | Refetch => Some (MkPanel (changes s) (list_failed s && bool_decide (is_Some (changes s))) (rows s) (open_ s) (alias s)
                       (drift s) (drifting s), [q_request (Changes.useConfigChanges t (Some d))])
  | InRow i e =>
      c ← find_change (changes s) i;
      if mounted c e then
        '(r, rs) ← Row.exec offset t d canEdit (core c) e (row_of s i);
        let s := with_row i r s in
        Some (match e with
              | Row.Press Preview => with_open (Panel.MkPanel (Panel.proposeOpen (open_ s)) (Some i)) s
              | _ => s
              end, rs)
      else None
  | Propose => p ← Panel.step canEdit Panel.Propose (open_ s); Some (with_open p s, [])
  | CloseProposal => p ← Panel.step canEdit Panel.CloseProposal (open_ s); Some (with_open p s, [])
  | ClosePreview => p ← Panel.step canEdit Panel.ClosePreview (open_ s); Some (with_open p s, [])
  | InForm e =>
      if form_there s e then
        '(f, rs) ← Alias.exec t d e (alias s);
        let s := with_alias f s in
        Some (match e with
              | Alias.Settled true => with_open (Panel.MkPanel false (Panel.previewId (open_ s))) s
              | _ => s
              end, rs)
      else None
  | CheckDrift =>
      if drifting s then None
      else Some (MkPanel (changes s) (list_failed s) (rows s) (open_ s) (alias s) (drift s) true,
                 [q_request (Changes.useDriftCheck t d)])
  | Drifted r =>
      if drifting s
      then Some (MkPanel (changes s) (list_failed s) (rows s) (open_ s) (alias s)
                   (match r with Some _ => r | None => drift s end) false, [])
      else None
  end.

(** ** View *)
Inductive control :=
| PreviewButton
| Toggle                                        (* opens and closes the popover *)
| NowButton (busy : bool)
| DatePicker (value : option string)
| ScheduleButton (busy disabled : bool)
| CancelButton (busy : bool)
| RevertButton (busy : bool).
Record line := Line {
  cells : list string;
  badge : string * string;                      (* colour, status *)
  drift_badge : option (string * msg * option string);
  reverts : option string;
  when_ : string;
  controls : list control;
}.
Inductive piece :=
| DriftButton (busy : bool)
| ProposeButton
| Block (b : Panel.block)
| Table (lines : list line)
| AliasModal (f : Alias.form)
| PreviewOf (i : string).

Definition scheduling (r : Row.row) : bool := match Row.schedulePending r with Some _ => true | None => false end.
Definition ChangeRowActions (r : Row.row) : list control :=
  [PreviewButton; Toggle] ++
  (if Row.scheduleOpen r
   then [NowButton (scheduling r); DatePicker (Row.scheduleDate r);
         ScheduleButton (scheduling r) (negb (present (Row.scheduleDate r)))] else []) ++
  [CancelButton (Row.cancelPending r)].
Definition controls_of (s : panel) (c : Change) : list control :=
  let r := row_of s (id_of c) in
  if canEdit
  then (if actionable c then ChangeRowActions r else []) ++
       (if revertible (core c) then [RevertButton (Row.revertPending r)] else [])
  else [].

Definition DriftBadge (prefix_ : string) (r : Panel.DriftResultItem) : string * msg * option string :=
  (DRIFT_COLOR (Panel.d_status r), drift_label (Panel.d_status r), Panel.tooltip prefix_ r).
Definition line_of (prefix_ reverts_ : string) (s : panel) (c : Change) : line := {|
  cells := [kind c; operation c; target c];
  badge := (STATUS_COLOR (c_status (core c)), c_status (core c));
  drift_badge := DriftBadge prefix_ <$> Panel.driftByChange (results <$> drift s) (id_of c);
  reverts := match reverts_change_id c with
             | Some i => if i === "" then None else Some (reverts_ +:+ String.substring 0 7 i)
             | None => None
             end;
  when_ := scheduled_at c orelse "—";
  controls := controls_of s c |}.

Definition ChangesPanel (prefix_ reverts_ : string) (s : panel) : list piece :=
  [DriftButton (drifting s)] ++ (if canEdit then [ProposeButton] else []) ++
  (Block <$> Panel.blocks (reachable <$> drift s)
               (match changes s with None => negb (list_failed s) | Some _ => false end) (list_failed s)
               (length <$> changes s)) ++
  match changes s with Some ((_ :: _) as l) => [Table (line_of prefix_ reverts_ s <$> l)] | _ => [] end ++
  (if Panel.proposeOpen (open_ s) then [AliasModal (alias s)] else []) ++
  match Panel.previewId (open_ s) with Some i => if i === "" then [] else [PreviewOf i] | None => [] end.

(** ** What a history says *)
Definition listed (es : list event) : option (list Change) :=
  fold_left (fun o e => match e with Listed l => Some l | _ => o end) es None.
Definition last_drift (es : list event) : option DriftReport :=
  fold_left (fun o e => match e with Drifted (Some r) => Some r | _ => o end) es None.
(** The time was picked in this row, which has been offering its popover since. *)
Definition picked (es : list event) (i w : string) : Prop :=
  exists es1 es2, es = es1 ++ InRow i (Row.PickDate (Some w)) :: es2 /\
    forall l, Listed l ∈ es2 -> exists c, find_change (Some l) i = Some c /\ actionable c = true.

Definition good (es : list event) (s : panel) : Prop :=
  changes s = listed es /\ drift s = last_drift es /\
  (forall i w, Row.scheduleDate (row_of s i) = Some w -> picked es i w) /\
  (Panel.proposeOpen (open_ s) = true -> canEdit = true) /\
  Alias.operation (alias s) ∈ Alias.OPERATIONS /\ Alias.type_ (alias s) ∈ Alias.TYPES.

Lemma picked_snoc es e i w :
  picked es i w -> (forall l, e = Listed l -> exists c, find_change (Some l) i = Some c /\ actionable c = true) ->
  picked (es ++ [e]) i w.
Proof using Type.
  intros (es1 & es2 & -> & H) He. exists es1, (es2 ++ [e]). split; [by rewrite <- app_assoc|].
  intros l [Hl|Hl]%elem_of_app; [by apply H|]. apply list_elem_of_singleton in Hl. by apply He.
Qed.

Lemma row_remounted s l i :
  remount_all s l !! i = (fun c => remount (find_change (changes s) i) c (row_of s i)) <$> find_change (Some l) i.
Proof using Type.
  unfold remount_all. change (find_change (Some l) i) with (head (filter (fun c => id_of c = i) l)). induction l as [|c l IH]; [done|].
  cbn [fmap list_fmap list_to_map foldr fst snd]. destruct (decide (id_of c = i)) as [<-|Hne].
  - rewrite lookup_insert_eq, filter_cons_True by done. reflexivity.
  - rewrite lookup_insert_ne, filter_cons_False by done. exact IH.
Qed.

(** A new list drops the time of a row that is not offered any more. *)
Lemma remounted_date s l i w :
  Row.scheduleDate (row_of (MkPanel (Some l) false (remount_all s l) (open_ s) (alias s) (drift s) (drifting s)) i) = Some w ->
  Row.scheduleDate (row_of s i) = Some w /\ exists c, find_change (Some l) i = Some c /\ actionable c = true.
Proof using Type.
  unfold row_of at 1. cbn [rows]. rewrite row_remounted.
  destruct (find_change (Some l) i) as [c|]; [|done]. cbn [fmap option_fmap option_map default]. unfold id.
  unfold remount. cbn [Row.scheduleDate]. destruct (find_change (changes s) i) as [c0|]; [|done].
  destruct (actionable c0 && actionable c) eqn:E; [|done]. apply andb_prop in E as [_ E]. eauto.
Qed.

(** A row's time is what was picked, or gone. *)
Lemma row_date c e r r' rs w :
  Row.exec offset t d canEdit c e r = Some (r', rs) -> Row.scheduleDate r' = Some w ->
  Row.scheduleDate r = Some w \/ e = Row.PickDate (Some w).
Proof using Type.
  destruct r as [sd so sp cp rp]. cbn [Row.exec Row.scheduleDate].
  destruct e as [|b|v|b|ok| |]; intros He Hw; repeat (case_match; try done); simplify_eq/=; auto.
Qed.

Lemma alias_typed e f f' rs :
  Alias.exec t d e f = Some (f', rs) -> Alias.operation f ∈ Alias.OPERATIONS -> Alias.type_ f ∈ Alias.TYPES ->
  Alias.operation f' ∈ Alias.OPERATIONS /\ Alias.type_ f' ∈ Alias.TYPES.
Proof using Type.
  destruct f as [op na ty co pe]. cbn [Alias.operation Alias.type_]. intros He Ho Ht.
  destruct e as [x|x|x|x| |ok]; cbn [Alias.exec] in He; repeat (case_match; try done); simplify_eq/=;
    repeat match goal with H : bool_decide _ = true |- _ => apply bool_decide_eq_true in H end; auto.
  split; [right; left|left].
Qed.

Lemma table_keeps es s e s' rs : good es s -> exec e s = Some (s', rs) -> good (es ++ [e]) s'.
Proof using Type.
  intros (H1 & H2 & H3 & H4 & H5 & H6) He. unfold good, listed, last_drift. rewrite !fold_left_app.
  fold (listed es) (last_drift es). cbn [fold_left].
  assert (Hk : forall s1, rows s1 = rows s -> (forall l, e <> Listed l) ->
             forall i w, Row.scheduleDate (row_of s1 i) = Some w -> picked (es ++ [e]) i w).
  { intros s1 Hr Hl i w Hw. apply picked_snoc; [|by intros l ->; destruct (Hl l)]. apply H3. unfold row_of in *. by rewrite <- Hr. }
  destruct e as [l| | |i e| | | |e| |r]; cbn [exec] in He.
  - injection He as <- _. split_and!; try done. intros i w [Hw Hc]%remounted_date.
    apply picked_snoc; [by apply H3|]. by intros l0 [= <-].
  - injection He as <- _. split_and!; try done. by apply Hk.
  - injection He as <- _. split_and!; try done. by apply Hk.
  - destruct (find_change (changes s) i) as [c|]; [|done]. cbn [mbind option_bind] in He.
    destruct (mounted c e); [|done]. destruct (Row.exec _ _ _ _ _ e (row_of s i)) as [[r' rs']|] eqn:Er; [|done].
    cbn [mbind option_bind] in He. injection He as <- _.
    assert (Hrow : forall j w, Row.scheduleDate (row_of (with_row i r' s) j) = Some w -> picked (es ++ [InRow i e]) j w).
    { intros j w Hw. unfold row_of, with_row in Hw. cbn [rows] in Hw. destruct (decide (i = j)) as [<-|Hne].
      - rewrite lookup_insert_eq in Hw. destruct (row_date _ _ _ _ _ _ Er Hw) as [Hd| ->].
        + apply picked_snoc; [by apply H3|done].
        + exists es, []. split; [done|]. by intros l ?%not_elem_of_nil.
      - rewrite lookup_insert_ne in Hw by done. apply picked_snoc; [by apply H3|done]. }
    destruct e as [| | |[]| | |]; split_and!; try done.
  - destruct canEdit eqn:Ec; [|done]. cbn in He. injection He as <- _. split_and!; try done. by apply Hk.
  - cbn in He. injection He as <- _. split_and!; try done. by apply Hk.
  - cbn in He. injection He as <- _. split_and!; try done. by apply Hk.
  - destruct (form_there s e); [|done]. destruct (Alias.exec t d e (alias s)) as [[f rs']|] eqn:Ef; [|done].
    cbn [mbind option_bind] in He. injection He as <- _. destruct (alias_typed _ _ _ _ Ef H5 H6) as [A1 A2].
    destruct e as [| | | | |[]]; split_and!; try done; by apply Hk.
  - destruct (drifting s); [done|]. injection He as <- _. split_and!; try done. by apply Hk.
  - destruct (drifting s); [|done]. injection He as <- _. split_and!; try done; [by destruct r|by apply Hk].
Qed.

Lemma table_good es s rs : run exec es initial = Some (s, rs) -> good es s.
Proof using Type.
  apply (run_history exec (fun es s _ => good es s)); [|intros; by eapply table_keeps].
  split_and!; try done; [right; left|left].
Qed.

(** *** What is pressed is on screen *)
Definition offers (b : button) : control :=
  match b with
  | Preview => PreviewButton | ApplyNow => NowButton false | Schedule => ScheduleButton false false
  | Cancel => CancelButton false | Revert => RevertButton false
  end.

Lemma offered s c b :
  mounted c (Row.Press b) = true -> Row.enabled canEdit (core c) b (row_of s (id_of c)) = true ->
  offers b ∈ controls_of s c.
Proof using Type.
  unfold controls_of, ChangeRowActions, Row.enabled, scheduling, mounted. set (r := row_of s (id_of c)).
  destruct r as [sd so sp cp rp]; cbn [Row.scheduleOpen Row.scheduleDate Row.schedulePending Row.cancelPending Row.revertPending].
  intros Hm [_ He]%andb_prop.
  destruct b; apply andb_prop in Hm as [-> Hm]; rewrite Hm; cbn [offers];
    [set_solver| | | |]; destruct so, sp, cp, rp, (present sd); cbn in He; try done; set_solver.
Qed.

(** Where a request of the panel comes from. *)
Definition from_button (es : list event) (rq : request) : Prop :=
  exists es1 es2 s1 rs1 i b c l m,
    es = es1 ++ InRow i (Row.Press b) :: es2 /\ run exec es1 initial = Some (s1, rs1) /\
    listed es1 = Some l /\ c ∈ l /\ id_of c = i /\ canEdit = true /\ drivable (core c) b /\
    offers b ∈ controls_of s1 c /\
    press offset t d (core c) (Row.scheduleDate (row_of s1 i)) b = Some m /\ rq = m_request m /\
    (b = Schedule -> exists w, Row.scheduleDate (row_of s1 i) = Some w /\ picked es1 i w).
Definition from_form (es : list event) (rq : request) : Prop :=
  exists es1 es2 s1 rs1, es = es1 ++ InForm Alias.Submit :: es2 /\ run exec es1 initial = Some (s1, rs1) /\
    canEdit = true /\ Panel.proposeOpen (open_ s1) = true /\
    let f := alias s1 in Alias.name f <> "" /\ Alias.operation f ∈ Alias.OPERATIONS /\ Alias.type_ f ∈ Alias.TYPES /\
    rq = m_request (Changes.useCreateChange t d (alias_change (Alias.operation f) (Alias.name f) (Alias.type_ f) (Alias.content f))).

Lemma find_change_listed cs i c : find_change cs i = Some c -> exists l, cs = Some l /\ c ∈ l /\ id_of c = i.
Proof using Type.
  unfold find_change. destruct cs as [l|]; [|done]. cbn [default]. unfold id. intros H. exists l. split; [done|].
  assert (c ∈ filter (fun c => id_of c = i) l) as [Hi Hc]%list_elem_of_filter; [|done].
  destruct (filter _ l); simplify_eq/=. left.
Qed.

Lemma row_sends es s rs i e s' rs' rq :
  run exec es initial = Some (s, rs) -> exec (InRow i e) s = Some (s', rs') -> rq ∈ rs' ->
  from_button (es ++ [InRow i e]) rq.
Proof using Type.
  intros Hr He Hin. destruct (table_good es s rs Hr) as (H1 & _ & H3 & _). cbn [exec] in He.
  destruct (find_change (changes s) i) as [c|] eqn:Ef; [|done]. cbn [mbind option_bind] in He.
  destruct (mounted c e) eqn:Em; [|done]. destruct (Row.exec _ _ _ _ _ e (row_of s i)) as [[r' q]|] eqn:Er; [|done].
  cbn [mbind option_bind] in He. injection He as _ <-. destruct (find_change_listed _ _ _ Ef) as (l & Hl & Hc & Hi).
  destruct (row_of s i) as [sd so sp cp rp] eqn:Erow.
  destruct e as [|b|v|b|ok| |]; cbn [Row.exec] in Er; try (repeat (case_match; try done); simplify_eq; by apply not_elem_of_nil in Hin).
  destruct (Row.enabled canEdit (core c) b _) eqn:Ee; [|done].
  destruct (press offset t d (core c) sd b) as [m|] eqn:Ep; [|simplify_eq; by apply not_elem_of_nil in Hin].
  assert (Hq : q = [m_request m]) by (by destruct b; simplify_eq). subst q. apply list_elem_of_singleton in Hin as ->.
  assert (Hd : canEdit = true /\ drivable (core c) b).
  { apply andb_prop in Ee as [Hb%bool_decide_eq_true _]. by apply row_buttons_spec in Hb. }
  exists es, [], s, rs, i, b, c, l, m. rewrite Erow. cbn [Row.scheduleDate].
  split_and!; try done; try (by destruct Hd); [by rewrite <- H1| |].
  - apply offered; [done|]. by rewrite Hi, Erow.
  - intros ->. cbn [press] in Ep. destruct sd as [w|]; [|done]. exists w. split; [done|]. apply H3. by rewrite Erow.
Qed.

Lemma form_sends es s rs e s' rs' rq :
  run exec es initial = Some (s, rs) -> exec (InForm e) s = Some (s', rs') -> rq ∈ rs' ->
  from_form (es ++ [InForm e]) rq.
Proof using Type.
  intros Hr He Hin. destruct (table_good es s rs Hr) as (_ & _ & _ & H4 & H5 & H6). cbn [exec] in He.
  destruct (form_there s e) eqn:Et; [|done]. destruct (Alias.exec t d e (alias s)) as [[f q]|] eqn:Ef; [|done].
  cbn [mbind option_bind] in He. injection He as _ <-.
  destruct (alias s) as [op na ty co pe] eqn:Ea.
  destruct e as [x|x|x|x| |ok]; cbn [Alias.exec] in Ef; try (repeat (case_match; try done); simplify_eq; by apply not_elem_of_nil in Hin).
  destruct ((na === "") || pe) eqn:En; [done|]. injection Ef as _ <-. apply list_elem_of_singleton in Hin as ->.
  apply orb_false_iff in En as [Hn%bool_decide_eq_false _].
  exists es, [], s, rs. rewrite Ea. cbn. split_and!; try done. by apply H4.
Qed.

Lemma from_button_snoc es e rq : from_button es rq -> from_button (es ++ [e]) rq.
Proof using Type.
  intros (es1 & es2 & s1 & rs1 & i & b & c & l & m & -> & H). exists es1, (es2 ++ [e]), s1, rs1, i, b, c, l, m.
  by rewrite <- app_assoc.
Qed.
Lemma from_form_snoc es e rq : from_form es rq -> from_form (es ++ [e]) rq.
Proof using Type.
  intros (es1 & es2 & s1 & rs1 & -> & H). exists es1, (es2 ++ [e]), s1, rs1. by rewrite <- app_assoc.
Qed.

Lemma table_requests es s rs :
  run exec es initial = Some (s, rs) ->
  Forall (fun rq => from_button es rq \/ from_form es rq \/ rq = q_request (Changes.useConfigChanges t (Some d)) \/
                    rq = q_request (Changes.useDriftCheck t d)) rs.
Proof using Type.
  apply (run_history exec (fun es s rs => Forall (fun rq => from_button es rq \/ from_form es rq \/
    rq = q_request (Changes.useConfigChanges t (Some d)) \/ rq = q_request (Changes.useDriftCheck t d)) rs)); [constructor|].
  intros es0 s0 rs0 e s' rs' Hr IH He. apply Forall_app. split.
  - eapply Forall_impl; [exact IH|]. cbn. intros rq [H|[H|H]];
      [left; by apply from_button_snoc|right; left; by apply from_form_snoc|auto].
  - apply list.Forall_forall. intros rq Hin. destruct e as [l| | |i e| | | |e| |r].
    1,2: injection He as _ <-; by apply not_elem_of_nil in Hin.
    + injection He as _ <-. apply list_elem_of_singleton in Hin as ->. auto.
    + left. by eapply row_sends.
    + cbn [exec] in He. destruct canEdit; [|done]. cbn in He. injection He as _ <-. by apply not_elem_of_nil in Hin.
    + injection He as _ <-. by apply not_elem_of_nil in Hin.
    + injection He as _ <-. by apply not_elem_of_nil in Hin.
    + right; left. by eapply form_sends.
    + cbn [exec] in He. destruct (drifting s0); [done|]. injection He as _ <-. apply list_elem_of_singleton in Hin as ->. auto.
    + cbn [exec] in He. destruct (drifting s0); [|done]. injection He as _ <-. by apply not_elem_of_nil in Hin.
Qed.
End panel.

(** C31.  Only live changes are driven, from the screen.  In every history of
    the panel: each request that moves a change is that of a button on screen
    and enabled when it was pressed, in the row of a change of the list the
    server last gave, for an operator, and only in the states that allow it;
    it names that very change, device and tenant; "schedule" carries the time
    picked in that very row, which has offered it ever since, and "apply now"
    none; a proposal comes from the open form, typed; the table shows the last
    list, and the badges of the last drift check that succeeded; and a success
    marks the list for refetch. *)
Theorem changes_driven_from_screen {C : Type} `{CacheLaws C} (cache : C) offset t d canEdit prefix_ reverts_ es s rs :
  run (exec offset t d canEdit) es initial = Some (s, rs) ->
  Forall (fun rq => from_button offset t d canEdit es rq \/ from_form offset t d canEdit es rq \/
                    rq = q_request (Changes.useConfigChanges t (Some d)) \/
                    rq = q_request (Changes.useDriftCheck t d)) rs /\
  (forall lines, Table lines ∈ ChangesPanel canEdit prefix_ reverts_ s ->
     exists l, listed es = Some l /\ lines = line_of canEdit prefix_ reverts_ s <$> l) /\
  (forall c, drift_badge (line_of canEdit prefix_ reverts_ s c) =
             DriftBadge prefix_ <$> Panel.driftByChange (results <$> last_drift es) (id_of c)) /\
  (forall c w b m r v, press offset t d (core c) w b = Some m ->
     rq_params (m_request m) = [("tenant_id", t); ("device_id", Some d); ("change_id", Some (id_of c))] /\
     (b = ApplyNow \/ b = Schedule ->
        rq_body (m_request m) = JsonBody (JObj [("scheduled_at", Apply.nullable (time_of offset w b))])) /\
     (b = Schedule -> is_Some (time_of offset w b)) /\
     (m_fn m r = Returned v -> forall e,
        cache_get (settle m r cache).2 (Changes.listKey t (Some d)) = Some e -> e_stale e = true)).
Proof.
  intros Hr. destruct (table_good offset t d canEdit es s rs Hr) as (H1 & H2 & _). split_and!.
  - by apply (table_requests offset t d canEdit es s rs).
  - intros lines Hl. unfold ChangesPanel in Hl. rewrite H1 in Hl.
    assert (Hb : exists l, listed es = Some l /\ Table lines ∈ [Table (line_of canEdit prefix_ reverts_ s <$> l)]).
    { repeat (apply elem_of_app in Hl as [Hl|Hl]).
      - set_solver.
      - destruct canEdit; set_solver.
      - apply list_elem_of_fmap in Hl as (? & ? & _). done.
      - destruct (listed es) as [[|c l]|]; [by apply not_elem_of_nil in Hl|eauto|by apply not_elem_of_nil in Hl].
      - destruct (Panel.proposeOpen _); set_solver.
      - destruct (Panel.previewId _) as [i|]; [destruct (i === "")|]; set_solver. }
    destruct Hb as (l & Hl' & Hx%list_elem_of_singleton). exists l. split; [done|]. by injection Hx.
  - intros c. cbn [line_of drift_badge]. by rewrite H2.
  - intros c w b m r v Hp. exact (proj2 (change_rows_sound cache offset canEdit t d (core c) w b m r v) Hp).
Qed.

(** ** A change scheduled, and one that slipped away *)
Definition change (i status : string) : Change := MkFull (MkChange i status false) "alias" "set" "x" None None.
Definition run_on (es : list event) : panel * list request :=
  match run (exec (fun _ => 0%Z) (Some "t") "d" true) es initial with Some r => r | None => (initial, []) end.
Definition scheduling_ : list event :=
  [Refetch; Listed [change "c1" "draft"; change "c2" "draft"];
   InRow "c1" Row.Toggle; InRow "c1" (Row.PickDate (Some "2024-06-10 12:00:00"));
   Listed [change "c2" "draft"; change "c1" "draft"]; InRow "c1" (Row.Press Schedule)].

Lemma changes_driven_from_screen_witness :
  (run_on scheduling_).2 =
    [q_request (Changes.useConfigChanges (Some "t") (Some "d"));
     m_request (Changes.useScheduleChange (Some "t") "d" "c1" (Some "2024-06-10T12:00:00.000Z"))] /\
  Forall (fun rq => from_button (fun _ => 0%Z) (Some "t") "d" true scheduling_ rq \/
                    from_form (fun _ => 0%Z) (Some "t") "d" true scheduling_ rq \/
                    rq = q_request (Changes.useConfigChanges (Some "t") (Some "d")) \/
                    rq = q_request (Changes.useDriftCheck (Some "t") "d")) (run_on scheduling_).2.
Proof.
  split; [vm_compute; reflexivity|].
  assert (Hr : run (exec (fun _ => 0%Z) (Some "t") "d" true) scheduling_ initial =
               Some ((run_on scheduling_).1, (run_on scheduling_).2)) by (vm_compute; reflexivity).
  exact (proj1 (changes_driven_from_screen ((fun _ => None) : key_cache) (fun _ => 0%Z) (Some "t") "d" true "" ""
                  scheduling_ (run_on scheduling_).1 (run_on scheduling_).2 Hr)).
Defined.

(** A time picked for a change that leaves the draft state in between is gone
    when the change is back, and its popover closed. *)
Lemma time_dropped :
  row_of (run_on [Listed [change "c1" "draft"]; InRow "c1" Row.Toggle;
                  InRow "c1" (Row.PickDate (Some "2024-06-10 12:00:00"));
                  Listed [change "c1" "applying"]; Listed [change "c1" "draft"]]).1 "c1" = Row.initial.
Proof. vm_compute. reflexivity. Qed.

(** A proposal accepted after its dialog was closed and opened again empties
    what was typed since and closes the dialog. *)
Lemma late_accept_drops_typing :
  let es := [Propose; InForm (Alias.SetName "a"); InForm Alias.Submit; CloseProposal; Propose; InForm (Alias.SetName "typed")] in
  Alias.name (alias (run_on es).1) = "typed" /\
  alias (run_on (es ++ [InForm (Alias.Settled true)])).1 = Alias.initial /\
  Panel.proposeOpen (open_ (run_on (es ++ [InForm (Alias.Settled true)])).1) = false.
Proof. vm_compute. done. Qed.

(** Nothing refreshes the drift results: a change just reverted keeps the
    badge of the check made before. *)
Lemma drift_outlives_change :
  let r := Report true [Panel.MkDrift "c1" "drifted" ["name"]] in
  drift_badge (line_of true "" "" (run_on [Listed [change "c1" "applied"]; CheckDrift; Drifted (Some r);
                                           Listed [change "c1" "cancelled"]]).1 (change "c1" "cancelled")) =
  Some ("red", Tr ["config"; "changes"; "driftDrifted"], Some "name").
Proof. vm_compute. reflexivity. Qed.
