(* ===== verification/AdminPages.v ===== *)
(** * Settings of the installation

    [pages/SmtpSettingsPage.tsx] (module [Smtp]),
    [admin/RuntimeSettingsSection.tsx] ([Runtime]) and the live-push switch of
    [pages/SystemSettingsPage.tsx] ([LivePush]). *)
From S2P Require Import Prelude JsString Json Http QueryClient Hooks PlatformHooks Session Machine.
From Stdlib Require Import ZArith Ascii.

(** ** [SmtpSettingsPage] *)
Module Smtp.
Record SmtpSettingsOut := MkOut {
  o_enabled : bool; o_host : string; o_port : Z; o_security : string; o_username : option string;
  o_from_email : string; o_from_name : string; has_password : bool; o_auth_method : option string;
  o_oauth_provider : option string; o_oauth_client_id : option string; o_oauth_tenant_id : option string;
  has_client_secret : bool; has_refresh_token : bool;
}.

(** The write-only fields. *)
Inductive secret := password | oauth_client_secret | oauth_refresh_token.
#[export] Instance secret_eq_dec : EqDecision secret.
Proof. solve_decision. Defined.
Definition secret_name (k : secret) : string :=
  match k with
  | password => "password" | oauth_client_secret => "oauth_client_secret" | oauth_refresh_token => "oauth_refresh_token"
  end.

(** The values of the form; the number input may hold a text, the selectors may
    be cleared. *)
Record values := MkValues {
  enabled : bool;
  host : string;
  port : json;
  security : option string;
  username : string;
  from_email : string;
  from_name : string;
  auth_method : string;
  oauth_provider : option string;
  oauth_client_id : string;
  oauth_tenant_id : string;
  secrets : secret -> string;
}.
Definition no_secrets : secret -> string := fun _ => "".
Definition initialValues : values :=
  MkValues false "" (JNum 587) (Some "starttls") "" "" "" "password" (Some "google") "" "" no_secrets.

Definition seed (d : SmtpSettingsOut) : values :=
  MkValues (o_enabled d) (o_host d) (JNum (o_port d)) (Some (o_security d)) (o_username d orelse "") (o_from_email d)
    (o_from_name d) (o_auth_method d orelse "password") (Some (o_oauth_provider d orelse "google"))
    (o_oauth_client_id d orelse "") (o_oauth_tenant_id d orelse "") no_secrets.

Inductive edit :=
| SetEnabled (b : bool) | SetHost (s : string) | SetPort (v : json) | SetSecurity (v : option string)
| SetUsername (s : string) | SetFromEmail (s : string) | SetFromName (s : string) | SetAuthMethod (s : string)
| SetProvider (v : option string) | SetClientId (s : string) | SetTenantId (s : string)
| SetSecret (k : secret) (s : string).

Definition set_secret (k : secret) (s : string) (f : secret -> string) : secret -> string :=
  fun k' => if decide (k = k') then s else f k'.
Definition with_secrets (f : secret -> string) (v : values) : values :=
  MkValues (enabled v) (host v) (port v) (security v) (username v) (from_email v) (from_name v) (auth_method v)
    (oauth_provider v) (oauth_client_id v) (oauth_tenant_id v) f.

Definition apply_edit (e : edit) (v : values) : values :=
  let '(MkValues en ho po se us fe fn au pr ci te sc) := v in
  match e with
  | SetEnabled b => MkValues b ho po se us fe fn au pr ci te sc
  | SetHost s => MkValues en s po se us fe fn au pr ci te sc
  | SetPort j => MkValues en ho j se us fe fn au pr ci te sc
  | SetSecurity s => MkValues en ho po s us fe fn au pr ci te sc
  | SetUsername s => MkValues en ho po se s fe fn au pr ci te sc
  | SetFromEmail s => MkValues en ho po se us s fn au pr ci te sc
  | SetFromName s => MkValues en ho po se us fe s au pr ci te sc
  | SetAuthMethod s => MkValues en ho po se us fe fn s pr ci te sc
  | SetProvider s => MkValues en ho po se us fe fn au s ci te sc
  | SetClientId s => MkValues en ho po se us fe fn au pr s te sc
  | SetTenantId s => MkValues en ho po se us fe fn au pr ci s sc
  | SetSecret k s => MkValues en ho po se us fe fn au pr ci te (set_secret k s sc)
  end.

Definition isOauth (v : values) : bool := auth_method v === "oauth".
Definition isMicrosoft (v : values) : bool := oauth_provider v === Some "microsoft".

(** Is the control of an edit rendered? *)
Definition offered (e : edit) (v : values) : bool :=
  match e with
  | SetProvider _ | SetClientId _ | SetSecret oauth_client_secret _ | SetSecret oauth_refresh_token _ => isOauth v
  | SetTenantId _ => isOauth v && isMicrosoft v
  | SetUsername _ | SetSecret password _ => negb (isOauth v)
  | SetAuthMethod s => bool_decide (s ∈ ["password"; "oauth"])
  | _ => true
  end.

Definition or_null (s : string) : json := if s === "" then JNull else JStr s.
Definition opt_str (s : option string) : json := match s with Some x => JStr x | None => JNull end.
Definition typed_secret (k : secret) (v : values) : list (string * json) :=
  if secrets v k === "" then [] else [(secret_name k, JStr (secrets v k))].

(** [payload] *)
Definition base (v : values) : list (string * json) :=
  [("enabled", JBool (enabled v)); ("host", JStr (host v)); ("port", port v); ("security", opt_str (security v));
   ("from_email", JStr (from_email v)); ("from_name", JStr (from_name v)); ("auth_method", JStr (auth_method v));
   ("clear_password", JBool false); ("clear_client_secret", JBool false); ("clear_refresh_token", JBool false)].
Definition payload (v : values) : list (string * json) :=
  if isOauth v then
    base v ++
    [("username", JNull); ("oauth_provider", opt_str (oauth_provider v)); ("oauth_client_id", or_null (oauth_client_id v));
     ("oauth_tenant_id", if isMicrosoft v then or_null (oauth_tenant_id v) else JNull)] ++
    typed_secret oauth_client_secret v ++ typed_secret oauth_refresh_token v
  else base v ++ [("username", or_null (username v))] ++ typed_secret password v.

Record page := MkPage {
  form : values;
  initialized : bool;
  stored : option SmtpSettingsOut;      (* [query.data] *)
  testTo : string;
  savePending : bool;
  testPending : bool;
  connectPending : bool;
}.
Definition initial : page := MkPage initialValues false None "" false false false.

Inductive event :=
| Loaded (d : SmtpSettingsOut)          (* the query has data: the effect runs *)
| Edit (e : edit)
| Save
| SaveSettled (ok : bool)
| TypeTo (s : string)
| Test
| TestSettled
| Connect
| ConnectSettled.

Definition save_request (v : values) : request := m_request (Admin.useUpdateSmtpSettings (JObj (payload v))).
Definition test_request (v : values) (to : string) : request :=
  m_request (Admin.useTestSmtp (JObj (payload v ++ [("to", JStr to)]))).

(** The page has neither a loading nor an error state: the form is there from
    the start.  After a successful save the three secret fields are blanked. *)
Definition exec (e : event) (p : page) : option (page * list request) :=
  let '(MkPage v i d to s t c) := p in
  match e with
  | Loaded d' => Some (MkPage (if i then v else seed d') true (Some d') to s t c, [])
  | Edit x => if offered x v then Some (MkPage (apply_edit x v) i d to s t c, []) else None
  | Save => if s then None else Some (MkPage v i d to true t c, [save_request v])
  | SaveSettled ok =>
      if s then Some (MkPage (if ok then with_secrets no_secrets v else v) i d to false t c, []) else None
  | TypeTo x => Some (MkPage v i d x s t c, [])
  | Test => if (to === "") || t then None else Some (MkPage v i d to s true c, [test_request v to])
  | TestSettled => if t then Some (MkPage v i d to s false c, []) else None
  | Connect =>
      (* stored client credentials, but the provider selected in the form *)
      match d with
      | Some d' =>
          if isOauth v && has_client_secret d' && negb ((o_oauth_client_id d' orelse "") === "") && negb c
          then Some (MkPage v i d to s t true,
                     [m_request (Admin.useSmtpOAuthConnect
                        (if isMicrosoft v then Admin.microsoft else Admin.google))])
          else None
      | None => None
      end
  | ConnectSettled => if c then Some (MkPage v i d to s t false, []) else None
  end.

(** The page is for superadmins. *)
Definition SmtpSettingsPage (a : Auth.AuthState) : option page :=
  if Auth.useIsSuperadmin a then Some initial else None.

(** The return from the provider: what is shown, and whether settings are read again. *)
Definition oauth_return (oauth : option string) : option (msg * bool) :=
  if oauth === Some "success" then Some (Tr ["smtp"; "oauthConnected"], true)
  else if oauth === Some "error" then Some (Tr ["smtp"; "oauthConnectFailed"], false)
  else None.
Definition test_note (out : outcome msg (option json)) : string :=
  match out with
  | Returned r => if truthy (r ≫= field "ok") then "Test email sent"
                  else "Test failed: " +:+ match r ≫= field "detail" with Some (JStr s) => s | _ => "undefined" end
  | Threw _ => "Test send failed"
  end.

(** *** Secrets *)

(** The secret typed last in a history (latest event first), since the form
    was seeded or successfully saved. *)
Fixpoint typed (k : secret) (rev_es : list event) : string :=
  match rev_es with
  | [] => ""
  | Edit (SetSecret k' s) :: es => if decide (k' = k) then s else typed k es
  | SaveSettled true :: _ => ""
  | _ :: es => typed k es
  end.

(** Blanks only: what was typed before the settings arrived is gone then. *)
Definition blank_or_typed (es : list event) (p : page) : Prop :=
  forall k, secrets (form p) k = "" \/ (secrets (form p) k = typed k (rev es)).

Lemma apply_edit_secrets e v k :
  secrets (apply_edit e v) k = match e with SetSecret k' s => if decide (k' = k) then s else secrets v k | _ => secrets v k end.
Proof. by destruct v, e. Qed.

Lemma run_secrets es p rs : run exec es initial = Some (p, rs) -> blank_or_typed es p.
Proof.
  intros H. pattern es, p, rs. revert es p rs H. apply run_history; [by left|].
  intros es p rs e p' rs' _ IH He k. specialize (IH k). rewrite rev_app_distr. cbn [rev app].
  destruct p as [v i d to s t c]. destruct e as [d'|x| |[]| | | | |]; cbn [exec typed] in *;
    try (js_cases; simpl in *; auto; fail).
  destruct (offered x v); simplify_eq. cbn [form] in *. rewrite apply_edit_secrets.
  destruct x as [| | | | | | | | | | |k' s']; auto. destruct (decide (k' = k)); auto.
Qed.

(** The secrets of an authentication method. *)
Definition belongs (k : secret) (auth_method : string) : bool :=
  match k with
  | password => negb (auth_method === "oauth")
  | oauth_client_secret | oauth_refresh_token => auth_method === "oauth"
  end.

(** The payload holds the secrets of the method selected that are not blank. *)
Lemma payload_secret_iff k v :
  assoc (secret_name k) (payload v) =
  if belongs k (auth_method v) && negb (secrets v k === "") then Some (JStr (secrets v k)) else None.
Proof.
  unfold payload, base, typed_secret, belongs, isOauth.
  destruct (auth_method v === "oauth"), k; simpl; repeat (case_bool_decide; simpl); try done.
Qed.

Lemma payload_secret k v s :
  assoc (secret_name k) (payload v) = Some s ->
  belongs k (auth_method v) = true /\ s = JStr (secrets v k) /\ secrets v k <> "".
Proof.
  rewrite payload_secret_iff. destruct (belongs k (auth_method v)); [|done]. simpl.
  case_bool_decide; [done|]. by intros [= <-].
Qed.

(** The bodies that leave the page are the payload, for a test with the address. *)
Lemma sent_body e p p' rs rq b :
  exec e p = Some (p', rs) -> rq ∈ rs -> rq_body rq = JsonBody b ->
  (e = Save \/ e = Test) /\ exists l, b = JObj (payload (form p) ++ l) /\
    (forall k, assoc (secret_name k) (payload (form p) ++ l) = assoc (secret_name k) (payload (form p))).
Proof.
  intros He Hr Hb. destruct p as [v i d to s t c].
  assert (Happ : forall l k, assoc (secret_name k) (l ++ [("to", JStr to)]) = assoc (secret_name k) l).
  { intros l k. induction l as [|[n x] l IH]; simpl; [by destruct k|]. by destruct (decide (secret_name k = n)). }
  destruct e as [d'|x| |ok| | | | |]; simpl in He; js_cases; try (by apply not_elem_of_nil in Hr);
    apply list_elem_of_singleton in Hr; subst rq; simpl in Hb; simplify_eq.
  - split; [by left|]. exists []. rewrite app_nil_r. done.
  - split; [by right|]. exists [("to", JStr to)]. split; [done|]. intros k. apply Happ.
Qed.

(** The other way round: a click sends one. *)
Lemma click_sends e p p' rs :
  e = Save \/ e = Test -> exec e p = Some (p', rs) ->
  exists rq b, rs = [rq] /\ rq_body rq = JsonBody b /\
    forall k, field (secret_name k) b = assoc (secret_name k) (payload (form p)).
Proof.
  intros Hor He. assert (Hs : exists rq b, rs = [rq] /\ rq_body rq = JsonBody b).
  { destruct p as [v i d to s t c]. destruct Hor as [-> | ->]; simpl in He; js_cases; by eexists _, _. }
  destruct Hs as (rq & b & -> & Hb). exists rq, b. split; [done|]. split; [done|]. intros k.
  destruct (sent_body _ _ _ _ rq b He ltac:(left) Hb) as (_ & l & -> & Ha). apply Ha.
Qed.



(** Nothing waits for the settings: a save before they arrive, or after they
    failed to, sends the blank form. *)
Lemma save_before_load : snd <$> run exec [Save] initial = Some [save_request initialValues].
Proof. reflexivity. Qed.
End Smtp.

(** ** [RuntimeSettingsSection]

    Values are JSON booleans and numbers; the section only compares them. *)
Module Runtime.
Record RuntimeSettingOut := MkSetting { key : string; value : json; default_ : json; kind : string; group : string }.
Definition GROUP_ORDER : list string :=
  ["firmware"; "distribution"; "maintenance"; "retention"; "security_login"; "security_session"].

Record section_ := MkSection {
  settings : list RuntimeSettingOut;
  draft : gmap string json;
  impacts : list json;
  isPending : bool;
}.

(** [Object.fromEntries]: a later entry wins. *)
Definition effective (l : list RuntimeSettingOut) : gmap string json :=
  foldl (fun m s => <[key s := value s]> m) ∅ l.
Definition valueOf (s : section_) (x : RuntimeSettingOut) : json := (draft s !! key x) orelse value x.
Definition dirty (s : section_) (x : RuntimeSettingOut) : bool :=
  match draft s !! key x with Some v => negb (bool_decide (effective (settings s) !! key x = Some v)) | None => false end.
Definition dirtyKeys (s : section_) : list RuntimeSettingOut := filter (fun x => dirty s x = true) (settings s).

(** What is listed: the settings of the known groups, group by group. *)
Definition groups (l : list RuntimeSettingOut) : list string :=
  filter (fun g => Exists (fun s => group s = g) l) GROUP_ORDER.
Definition listed (l : list RuntimeSettingOut) : list RuntimeSettingOut :=
  concat ((fun g => filter (fun s => group s = g) l) <$> groups l).

(** [key.replace(/_/g, " ")] where the dictionary has no label. *)
Definition labelOf (labels : list (string * string)) (k : string) : string :=
  assoc k labels orelse
  of_chars ((fun c => if c === "_"%char then " "%char else c) <$> chars k).

Inductive event :=
| Loaded (l : list RuntimeSettingOut)              (* the query's data *)
| Switch (k : string) (checked : bool)
| Number_ (k : string) (v : option Z)              (* whole numbers; [None]: the input hands over a text *)
| Save
| Settled (out : option (list RuntimeSettingOut * list json))
| Discard.

Definition values_of (s : section_) : list (string * json) :=
  omap (fun x => (fun v => (key x, v)) <$> (draft s !! key x)) (dirtyKeys s).
Definition save_request (s : section_) : request := m_request (Admin.useUpdateRuntimeSettings (JObj (values_of s))).

Definition has_control (bool_ : bool) (k : string) (l : list RuntimeSettingOut) : bool :=
  bool_decide (Exists (fun s => key s = k /\ bool_decide (kind s = "bool") = bool_) (listed l)).

Definition exec (e : event) (s : section_) : option (section_ * list request) :=
  match e with
  | Loaded l => Some (MkSection l (draft s) (impacts s) (isPending s), [])
  | Switch k b =>
      if has_control true k (settings s)
      then Some (MkSection (settings s) (<[k := JBool b]> (draft s)) (impacts s) (isPending s), []) else None
  | Number_ k v =>
      if has_control false k (settings s)
      then Some (MkSection (settings s) (match v with Some n => <[k := JNum n]> (draft s) | None => draft s end)
                   (impacts s) (isPending s), [])
      else None
  | Save =>
      match dirtyKeys s with
      | [] => None
      | _ => if isPending s then None
             else Some (MkSection (settings s) (draft s) [] true, [save_request s])
      end
  | Settled out =>
      if isPending s
      then Some (match out with
                 | Some (l, imp) => MkSection l ∅ imp false        (* the answer is the query's new data *)
                 | None => MkSection (settings s) (draft s) (impacts s) false
                 end, [])
      else None
  | Discard =>
      match dirtyKeys s with
      | [] => None
      | _ => if isPending s then None else Some (MkSection (settings s) ∅ (impacts s) (isPending s), [])
      end
  end.
Definition initial : section_ := MkSection [] ∅ [] false.

(** *** Dirty settings *)

Lemma effective_skip l k (m : gmap string json) :
  k ∉ key <$> l -> foldl (fun m s => <[key s := value s]> m) m l !! k = m !! k.
Proof.
  revert m. induction l as [|z l IH]; intros m Hk; [done|]. rewrite fmap_cons, not_elem_of_cons in Hk. cbn [foldl].
  destruct Hk as [Hne Hk]. rewrite IH by done. by rewrite lookup_insert_ne.
Qed.

Lemma effective_lookup l x (acc : gmap string json) :
  NoDup (key <$> l) -> x ∈ l -> foldl (fun m s => <[key s := value s]> m) acc l !! key x = Some (value x).
Proof.
  revert acc. induction l as [|y l IH]; intros acc Hn Hx; [by apply not_elem_of_nil in Hx|].
  rewrite fmap_cons in Hn. apply NoDup_cons in Hn as [Hy Hn]. cbn [foldl].
  apply elem_of_cons in Hx as [->|Hx]; [|by apply IH].
  rewrite effective_skip by done. apply lookup_insert_eq.
Qed.

Lemma dirty_iff s x :
  NoDup (key <$> settings s) -> x ∈ settings s -> dirty s x = true <-> valueOf s x <> value x.
Proof.
  intros Hn Hx. unfold dirty, valueOf, effective. destruct (draft s !! key x) as [v|] eqn:Ed; simpl; [|done].
  rewrite (effective_lookup _ _ ∅ Hn Hx), negb_true_iff, bool_decide_eq_false. naive_solver.
Qed.

Lemma values_of_spec s k v :
  NoDup (key <$> settings s) ->
  (k, v) ∈ values_of s <-> exists x, x ∈ settings s /\ key x = k /\ v = valueOf s x /\ v <> value x.
Proof.
  intros Hn. unfold values_of. rewrite list_elem_of_omap. split.
  - intros (x & Hx & Hv). apply list_elem_of_filter in Hx as [Hd Hx].
    destruct (draft s !! key x) as [w|] eqn:Ed; simplify_eq/=. exists x. split_and!; try done.
    + unfold valueOf. by rewrite Ed.
    + apply (dirty_iff s x Hn Hx) in Hd. unfold valueOf in Hd. by rewrite Ed in Hd.
  - intros (x & Hx & <- & -> & Hd). exists x.
    apply (dirty_iff s x Hn Hx) in Hd as Hd'. split; [by apply list_elem_of_filter|].
    unfold dirty in Hd'. unfold valueOf. by destruct (draft s !! key x).
Qed.

(** A setting is listed exactly when its group is known. *)
Lemma listed_spec l x : x ∈ listed l <-> x ∈ l /\ group x ∈ GROUP_ORDER.
Proof.
  unfold listed. rewrite list_elem_of_In, in_concat. split.
  - intros (k & Hk & Hx). apply list_elem_of_In, list_elem_of_fmap in Hk as (g & -> & Hg).
    apply list_elem_of_In, list_elem_of_filter in Hx as [<- Hx]. by apply list_elem_of_filter in Hg as [_ Hg].
  - intros [Hx Hg]. exists (filter (fun s => group s = group x) l). split.
    + apply list_elem_of_In, list_elem_of_fmap. exists (group x). split; [done|].
      apply list_elem_of_filter. split; [|done]. apply list.Exists_exists. eauto.
    + apply list_elem_of_In, list_elem_of_filter. done.
Qed.

(** The save button: enabled, and not busy. *)
Lemma save_enabled s :
  NoDup (key <$> settings s) ->
  is_Some (exec Save s) <-> isPending s = false /\ exists x, x ∈ settings s /\ valueOf s x <> value x.
Proof.
  intros Hn. cbn [exec].
  assert (Hd : dirtyKeys s <> [] <-> exists x, x ∈ settings s /\ valueOf s x <> value x).
  { split.
    - intros Hne. destruct (dirtyKeys s) as [|x l] eqn:E; [done|].
      assert (Hx : x ∈ dirtyKeys s) by (rewrite E; left). apply list_elem_of_filter in Hx as [Hd Hx].
      exists x. split; [done|]. by apply dirty_iff.
    - intros (x & Hx & Hv) E. apply (dirty_iff s x Hn Hx) in Hv.
      assert (Hin : x ∈ dirtyKeys s) by by apply list_elem_of_filter. rewrite E in Hin. by apply not_elem_of_nil in Hin. }
  rewrite <- Hd. destruct (dirtyKeys s); [split; [by intros []|by intros [_ ?]]|].
  destruct (isPending s); (split; [intros Hs; try (by destruct Hs)|intros [? _]; try done]); by eexists.
Qed.



(** What is typed while a save is under way is dropped when it succeeds. *)
Lemma typed_while_saving k n s s1 s2 l imp rs1 rs2 :
  isPending s = true -> exec (Number_ k (Some n)) s = Some (s1, rs1) ->
  exec (Settled (Some (l, imp))) s1 = Some (s2, rs2) -> draft s1 !! k = Some (JNum n) /\ draft s2 !! k = None.
Proof.
  intros Hp H1 H2. cbn [exec] in H1. destruct (has_control false k (settings s)); [|done].
  injection H1 as <- <-. cbn [exec isPending] in H2. rewrite Hp in H2. injection H2 as <- <-. cbn [draft].
  split; [apply lookup_insert_eq|apply lookup_empty].
Qed.
End Runtime.

(** ** The live-push switch *)
Module LivePush.
Inductive view := LoaderView | ErrorView | SwitchView (checked disabled : bool).
Definition SystemSettingsPage (isLoading isError : bool) (enabled : option bool) (isPending : bool) : view :=
  if isLoading then LoaderView else if isError then ErrorView else SwitchView (enabled orelse false) isPending.
Definition handleToggle (v : view) (enabled : bool) : option mutation :=
  match v with SwitchView _ false => Some (Admin.useSetLivePush enabled) | _ => None end.
Definition toggle_note (enabled : bool) (out : outcome msg (option json)) : msg :=
  match out with
  | Returned _ => if enabled then Tr ["system"; "livePush"; "enabled"] else Tr ["system"; "livePush"; "disabled"]
  | Threw _ => Tr ["system"; "livePush"; "updateError"]
  end.
End LivePush.
