(* ===== verification/LibraryPages.v ===== *)
(** * Libraries of templates and profiles

    [pages/TemplateLibraryPage.tsx], [profiles/ProfilesPanel.tsx] and
    [profiles/ProfileFormModal.tsx].  Deletions go through [Confirm.Dialogs];
    the template editor the page opens is [Templates]. *)
From S2P Require Import Prelude Json Http QueryClient Hooks PlatformHooks Session Machine.
From Stdlib Require Import ZArith.

(** ** A list with an editor beside it, as both pages have *)
Section list_page.
Context {T : Type}.
Record list_page := ListPage { modalOpen : bool; editing : option T }.
Definition list_initial : list_page := ListPage false None.
Inductive list_event := New | EditRow (x : T) | CloseEditor.
Definition list_step (e : list_event) (p : list_page) : list_page :=
  match e with
  | New => ListPage true None
  | EditRow x => ListPage true (Some x)
  | CloseEditor => ListPage false (editing p)
  end.
End list_page.
Arguments list_page : clear implicits.

(** The library is for superadmins. *)
Definition TemplateLibraryPage (a : Auth.AuthState) : option (list_page json) :=
  if Auth.useIsSuperadmin a then Some list_initial else None.

(** ** [ProfileFormModal] *)
Module ProfileForm.
Record Profile := MkProfile { id : string; p_name : string; p_description : option string; p_template_ids : option (list string) }.
Record values := MkValues { name : string; description : string; template_ids : list string }.

(** The effect when the modal opens, or another profile is edited. *)
Definition seed (editing : option Profile) : values :=
  match editing with
  | Some p => MkValues (p_name p) (p_description p orelse "") (p_template_ids p orelse [])
  | None => MkValues "" "" []
  end.

Record modal := MkModal { opened : bool; editing : option Profile; form : values; isPending : bool }.
Definition initial : modal := MkModal false None (MkValues "" "" []) false.

Inductive event :=
| Props (o : bool) (e : option Profile)       (* the parent renders: the effect runs when these change *)
| SetName (s : string)
| SetDescription (s : string)
| SetMembers (ids : list string)
| Submit
| Settled (ok : bool).

Definition body (v : values) : json :=
  JObj [("name", JStr (name v)); ("description", JStr (description v));
        ("template_ids", JArr (JStr <$> template_ids v))].
Definition submit_request (m : modal) : request :=
  match editing m with
  | Some p => m_request (Library.useUpdateProfile (id p) (body (form m)))
  | None => m_request (Library.useCreateProfile (body (form m)))
  end.

(** The name is [required]: the browser does not submit without one.  The modal
    closes itself through the parent ([onClose]), an event [Props false _]. *)
Definition exec (e : event) (m : modal) : option (modal * list request) :=
  match e with
  | Props o ed => Some (MkModal o ed (if o then seed ed else form m) (isPending m), [])
  | SetName s => if opened m then Some (MkModal true (editing m) (MkValues s (description (form m)) (template_ids (form m))) (isPending m), []) else None
  | SetDescription s => if opened m then Some (MkModal true (editing m) (MkValues (name (form m)) s (template_ids (form m))) (isPending m), []) else None
  | SetMembers l => if opened m then Some (MkModal true (editing m) (MkValues (name (form m)) (description (form m)) l) (isPending m), []) else None
  | Submit =>
      if opened m && negb (isPending m) && negb (name (form m) === "")
      then Some (MkModal true (editing m) (form m) true, [submit_request m]) else None
  | Settled _ => if isPending m then Some (MkModal (opened m) (editing m) (form m) false, []) else None
  end.

(** The profile the server stores for a body. *)
Definition stored (i : string) (v : values) : Profile := MkProfile i (name v) (Some (description v)) (Some (template_ids v)).

(** Opening a profile and submitting it untouched sends it back as it is, its
    templates in their order; what was submitted opens as it was. *)
Lemma profile_roundtrip m p m1 m2 rs :
  isPending m = false -> p_name p <> "" ->
  exec (Props true (Some p)) m = Some (m1, []) -> exec Submit m1 = Some (m2, rs) ->
  rs = [m_request (Library.useUpdateProfile (id p)
          (JObj [("name", JStr (p_name p)); ("description", JStr (p_description p orelse ""));
                 ("template_ids", JArr (JStr <$> (p_template_ids p orelse [])))]))].
Proof.
  intros Hp Hn H1 H2. cbn [exec] in H1. simplify_eq. unfold exec in H2. simpl in H2. rewrite Hp in H2.
  rewrite bool_decide_false in H2 by done. simpl in H2. by simplify_eq.
Qed.

Lemma stored_opens i v : seed (Some (stored i v)) = v.
Proof. by destruct v. Qed.

(** A submission is for the profile the modal was opened on last. *)
Lemma submits_named es m rs :
  run exec es initial = Some (m, rs) ->
  Forall (fun rq => exists v, name v <> "" /\
    (rq = m_request (Library.useCreateProfile (body v)) \/
     exists p, rq = m_request (Library.useUpdateProfile (id p) (body v)) /\ Props true (Some p) ∈ es)) rs.
Proof.
  intros H. assert (Hall : (opened m = true -> forall p, editing m = Some p -> Props true (Some p) ∈ es) /\
    Forall (fun rq => exists v, name v <> "" /\
      (rq = m_request (Library.useCreateProfile (body v)) \/
       exists p, rq = m_request (Library.useUpdateProfile (id p) (body v)) /\ Props true (Some p) ∈ es)) rs); [|by destruct Hall].
  pattern es, m, rs. revert es m rs H. apply run_history; [split; done|].
  intros es m rs e m' rs' _ [He Hf] Hx.
  assert (Hf' : Forall (fun rq => exists v, name v <> "" /\
      (rq = m_request (Library.useCreateProfile (body v)) \/
       exists p, rq = m_request (Library.useUpdateProfile (id p) (body v)) /\ Props true (Some p) ∈ es ++ [e])) rs).
  { eapply Forall_impl; [exact Hf|]. intros rq (v & Hv & [->|(p & -> & Hp)]); exists v; (split; [done|]); [by left|].
    right. exists p. set_solver. }
  assert (He' : opened m = true -> forall p, editing m = Some p -> Props true (Some p) ∈ es ++ [e]) by set_solver.
  destruct e as [o ed|s|s|l| |ok]; cbn [exec] in Hx; try (js_cases; rewrite app_nil_r; by split; auto).
  - simplify_eq. rewrite app_nil_r. split; [|done]. simpl. intros -> p ->. set_solver.
  - destruct (opened m) eqn:Eo; [|done]. destruct (isPending m); [done|]. case_bool_decide; [done|]. simpl in Hx.
    simplify_eq/=. split; [auto|]. apply Forall_app. split; [done|]. constructor; [|constructor].
    exists (form m). split; [done|]. unfold submit_request. destruct (editing m) as [p|]; [right|by left].
    exists p. split; [done|]. auto.
Qed.
End ProfileForm.
