(* ===== verification/Fleet.v ===== *)
(** * Logs across the fleet: [pages/LogFleetPage.tsx] (module [LogFleetPage])
    and [components/LogForwardingCard.tsx] (module [Forwarding])

    [parse] is the browser's reading of a date text, in milliseconds; [None] is
    an invalid date, whose comparisons are all false. *)
From S2P Require Import Prelude Json Http QueryClient Hooks TenantHooks PlatformHooks Machine Confirm.
From Stdlib Require Import ZArith.

(** ** [LogFleetPage] *)
Module LogFleetPage.
Definition WINDOWS : list string := ["24h"; "7d"; "30d"].
Definition FWD_COLOR (forwarding : string) : string :=
  assoc forwarding [("enabled", "green"); ("disabled", "gray"); ("revoked", "red"); ("none", "gray")] orelse "gray".

Section silent.
Context (parse : string -> option Z).
Definition HOUR : Z := 60 * 60 * 1000.

Definition isSilent (now enabled : Z) (lastLogAt : option string) : bool :=
  if (enabled <=? 0)%Z then false
  else if negb (present lastLogAt) then true
  else match parse (lastLogAt orelse "") with Some t => (HOUR <? now - t)%Z | None => false end.

(** A tenant is silent when it forwards and its last log is over an hour old,
    or there is none; once silent it stays so until a newer log or no device
    forwards. *)
Lemma isSilent_spec now enabled s t :
  parse s = Some t -> s <> "" ->
  isSilent now enabled (Some s) = true <-> (0 < enabled /\ HOUR < now - t)%Z.
Proof using Type.
  intros Hp Hs. unfold isSilent. simpl. rewrite bool_decide_false by done. simpl. rewrite Hp.
  destruct (Z.leb_spec enabled 0); [split; [done|lia]|]. rewrite Z.ltb_lt. lia.
Qed.

Lemma isSilent_monotone now now' enabled last :
  (now <= now')%Z -> isSilent now enabled last = true -> isSilent now' enabled last = true.
Proof using Type.
  unfold isSilent. destruct (enabled <=? 0)%Z; [done|]. destruct (negb (present last)); [done|].
  destruct (parse (last orelse "")) as [t|]; [|done]. rewrite !Z.ltb_lt. lia.
Qed.
End silent.

Record page := MkPage { window : string; drill : option (string * string) }.
Definition initial : page := MkPage "24h" None.
Inductive event := SetWindow (w : string) | OpenTenant (id name : string) | CloseDrill | Export (f : LogFleet.export_format).

(** The queries of the current state, and what an export asks for. *)
Definition fleet_query (p : page) : query := LogFleet.useLogFleet (window p).
Definition devices_query (p : page) : query := LogFleet.useLogFleetDevices (fst <$> drill p) (window p).
Definition exportFleet (p : page) (f : LogFleet.export_format) : mutation := LogFleet.downloadLogFleet (window p) f.
Definition export_note (out : outcome msg (option json)) : option msg :=
  match out with Returned _ => None | Threw _ => Some (Tr ["logFleet"; "exportFailed"]) end.

Definition exec (e : event) (p : page) : option (page * list request) :=
  match e with
  | SetWindow w => if bool_decide (w ∈ WINDOWS) then Some (MkPage w (drill p), []) else None
  | OpenTenant i n => Some (MkPage (window p) (Some (i, n)), [])
  | CloseDrill => match drill p with Some _ => Some (MkPage (window p) None, []) | None => None end
  | Export f => Some (p, [m_request (exportFleet p f)])
  end.

Inductive view := PageLoader | PageError | Table (rows : list json).
Definition fleet_view (isLoading isError : bool) (d : option (list json)) : view :=
  if isLoading then PageLoader else match d with Some l => if isError then PageError else Table l | None => PageError end.
Definition banner (alerts : option (list string)) : option string :=
  match alerts orelse [] with [] => None | l => Some (JsString.join ", " l) end.

(** The page, the drill-down and the exports always speak about one window of
    the list. *)
Lemma one_window es p rs :
  run exec es initial = Some (p, rs) ->
  window p ∈ WINDOWS /\ Forall (fun rq => exists w f, w ∈ WINDOWS /\ rq = m_request (LogFleet.downloadLogFleet w f)) rs.
Proof.
  intros H. assert (H0 : window initial ∈ WINDOWS) by left. split.
  - revert H. apply (run_state exec (fun p => window p ∈ WINDOWS)); [|exact H0].
    intros [w|i n| |f] s s' rs' Hs He; simpl in He; js_cases; try done. by apply bool_decide_eq_true in Heqb.
  - revert H. apply (run_requests exec (fun p => window p ∈ WINDOWS)); [|exact H0].
    intros e s s' rs' Hs He. destruct e as [w|i n| |f]; simpl in He.
    + case_bool_decide; simplify_eq. split; [done|constructor].
    + simplify_eq. split; [done|constructor].
    + destruct (drill s); simplify_eq. split; [done|constructor].
    + simplify_eq. split; [done|]. constructor; [|constructor]. by exists (window s'), f.
Qed.
End LogFleetPage.

(** ** [LogForwardingCard] *)
Module Forwarding.
Local Open Scope Z_scope.

(** A truncated quotient is at most [k] below the next multiple. *)
Lemma quot_le d m k : 0 < m -> 0 <= k -> (Z.quot d m <=? k) = (d <? (k + 1) * m).
Proof.
  intros Hm Hk. apply Bool.eq_iff_eq_true. rewrite Z.leb_le, Z.ltb_lt.
  destruct (Z.leb_spec 0 d) as [Hd|Hd].
  - rewrite Z.quot_div_nonneg by lia. pose proof (Z.div_mod d m ltac:(lia)).
    pose proof (Z.mod_pos_bound d m Hm). split; nia.
  - pose proof (Z.quot_opp_l (- d) m ltac:(lia)) as Ho. rewrite Z.opp_involutive in Ho.
    pose proof (Z.quot_pos (- d) m ltac:(lia) Hm). split; intros; nia.
Qed.

Record Status := MkStatus {
  s_enabled : bool;
  revoked_at : option string;
  last_log_at : option string;
  cert_not_after : option string;
}.
Definition MINUTE : Z := 60 * 1000.
Definition DAY : Z := 24 * 60 * MINUTE.

Section card.
Context (parse : string -> option Z) (now : Z).
(** [zone_shift]: what a change of the local offset between two instants adds
    to their difference in days. *)
Context (zone_shift : Z -> Z -> Z).

(** [dayjs.diff] truncates towards zero. *)
Definition diff_minutes (a b : Z) : Z := Z.quot (a - b) MINUTE.
Definition diff_days (a b : Z) : Z := Z.quot (a - b - zone_shift a b) DAY.

Definition liveness (last : option string) : string * string :=
  if negb (present last) then ("gray", "no logs yet")
  else match parse (last orelse "") with
       | Some t =>
           let mins := diff_minutes now t in
           if mins <=? 15 then ("green", "active") else if mins <=? 60 * 24 then ("yellow", "quiet") else ("gray", "stale")
       | None => ("gray", "stale")
       end.

Definition enabled (s : option Status) : bool := (s_enabled <$> s) orelse false.
Definition revoked (s : option Status) : bool := negb (enabled s) && present (s ≫= revoked_at).
Definition badge (s : option Status) : string * string :=
  if enabled s then ("green", "Enabled") else if revoked s then ("red", "Revoked") else ("gray", "Disabled").

(** An invalid expiry date is neither expired nor soon to be. *)
Definition expiry (s : option Status) : option (option Z) :=
  x ← s ≫= cert_not_after; if present (Some x) then Some (parse x) else None.
Definition expSoon (s : option Status) : bool :=
  match expiry s with Some (Some e) => diff_days e now <=? 30 | _ => false end.
Definition expired (s : option Status) : bool :=
  match expiry s with Some (Some e) => e <? now | _ => false end.
Definition expiry_color (s : option Status) : string :=
  if expired s then "red" else if expSoon s then "yellow" else "dimmed".

Inductive button := Enable | Rotate | Revoke | Disable.
Definition buttons (canWrite : bool) (s : option Status) : list button :=
  if canWrite then (if enabled s then [Rotate; Revoke; Disable] else [Enable]) else [].
Definition asks (b : button) : Dialogs.action :=
  match b with
  | Enable => Dialogs.Forwarding Dialogs.enable
  | Disable => Dialogs.Forwarding Dialogs.disable
  | Rotate => Dialogs.Lifecycle Dialogs.rotate
  | Revoke => Dialogs.Lifecycle Dialogs.revoke
  end.

(** Who may not write gets no button; a certificate is touched only where there
    is one. *)
Lemma buttons_spec canWrite s b :
  b ∈ buttons canWrite s <-> canWrite = true /\ (enabled s = true <-> b <> Enable).
Proof using Type.
  clear zone_shift now parse. unfold buttons. destruct canWrite, (enabled s), b; rewrite ?elem_of_cons, ?elem_of_nil; naive_solver.
Qed.

(** The badge of a log that came [d] milliseconds ago. *)
Lemma liveness_spec last t :
  last <> "" -> parse last = Some t ->
  liveness (Some last) =
    if now - t <? 16 * MINUTE then ("green", "active")
    else if now - t <? 1441 * MINUTE then ("yellow", "quiet") else ("gray", "stale").
Proof using Type.
  intros Hl Hp. unfold liveness. simpl. rewrite bool_decide_false by done. simpl. rewrite Hp.
  unfold diff_minutes, MINUTE. rewrite !quot_le by lia. done.
Qed.
End card.
End Forwarding.
