(* ===== verification/PluginsTab.v ===== *)
(** * Plugins of a device: [plugins/PluginsTab.tsx]

    [lower] is [String.prototype.toLowerCase], [compare] is [localeCompare];
    [Array.prototype.sort] is a stable sort by the comparator it is given. *)
From S2P Require Import Prelude JsString Json Http QueryClient Hooks TenantHooks I18n Machine.
From Stdlib Require Import ZArith Sorting.Permutation Sorting.Sorted.

(** ** Stable sorting by a comparator *)
Section sort.
Context {A : Type} (cmp : A -> A -> Z).      (* not positive: in order *)

Fixpoint insert_sorted (x : A) (l : list A) : list A :=
  match l with
  | [] => [x]
  | y :: l' => if (cmp x y <=? 0)%Z then x :: l else y :: insert_sorted x l'
  end.
Definition sort (l : list A) : list A := foldr insert_sorted [] l.

Lemma insert_permutation x l : Permutation (insert_sorted x l) (x :: l).
Proof using Type.
  induction l as [|y l IH]; simpl; [done|]. destruct (cmp x y <=? 0)%Z; [done|]. rewrite IH. apply perm_swap.
Qed.
Lemma sort_permutation l : Permutation (sort l) l.
Proof using Type. induction l as [|x l IH]; [done|]. simpl. by rewrite insert_permutation, IH. Qed.

Definition ordered (l : list A) : Prop := StronglySorted (fun x y => (cmp x y <= 0)%Z) l.

Context (cmp_total : forall x y, (cmp x y <= 0 \/ cmp y x <= 0)%Z)
        (cmp_trans : forall x y z, (cmp x y <= 0 -> cmp y z <= 0 -> cmp x z <= 0)%Z).

Lemma insert_ordered x l : ordered l -> ordered (insert_sorted x l).
Proof using cmp_total cmp_trans.
  induction 1 as [|y l Hl IH Hy]; simpl; [repeat constructor|].
  destruct (Z.leb_spec (cmp x y) 0) as [Hxy|Hxy].
  - constructor; [by constructor|]. constructor; [done|]. eapply Forall_impl; [exact Hy|]. simpl. intros z. by apply cmp_trans.
  - constructor; [done|]. assert (Hyx : (cmp y x <= 0)%Z) by (destruct (cmp_total x y); [lia|done]).
    rewrite insert_permutation. by constructor.
Qed.
Lemma sort_ordered l : ordered (sort l).
Proof using cmp_total cmp_trans. induction l as [|x l IH]; [constructor|]. by apply insert_ordered. Qed.
End sort.

(** ** The tab *)
Record PluginInfo := MkPlugin { p_name : string; version : string; installed : bool; locked : bool }.
Inductive kind := plugin_install | plugin_remove.
Definition kind_name (k : kind) : string := match k with plugin_install => "plugin_install" | plugin_remove => "plugin_remove" end.

Fixpoint drop_chars (n : nat) (s : string) : string :=
  match n, s with S n, String _ s => drop_chars n s | _, _ => s end.
Definition title (name : string) : string := if String.prefix "os-" name then drop_chars 3 name else name.

Section tab.
Context (lower : string -> string) (compare : string -> string -> Z).

Definition row_cmp (a b : PluginInfo) : Z :=
  if Bool.eqb (installed a) (installed b) then compare (p_name a) (p_name b)
  else if installed a then (-1)%Z else 1%Z.

(** The filter and the order of the rows. *)
Definition matches (search : string) (p : PluginInfo) : bool :=
  let q := lower (trim search) in (q === "") || Locale.contains q (lower (p_name p)).
Definition rows (plugins : option (list PluginInfo)) (search : string) : list PluginInfo :=
  sort row_cmp (filter (fun p => matches search p = true) (plugins orelse [])).

Record tab := MkTab {
  plugins : option (list PluginInfo);
  models : list (string * string);          (* package, model id *)
  search : string;
  confirm : option (kind * string);
  createPending : bool;
  refetching : nat;                         (* handlers that wait for the refetch *)
  configureModel : option string;
}.
Definition initial : tab := MkTab None [] "" None false 0 None.

Inductive event :=
| Loaded (l : list PluginInfo)
| LoadedModels (l : list (string * string))
| Search (s : string)
| Ask (name : string)                       (* the install or remove button of a row *)
| Dismiss
| Ok_
| Created (ok : bool)
| Refetched                                 (* [await plugins.refetch()] returns; then [finally] *)
| Configure (name : string)
| CloseDrawer
| Propose (body : json)
| Proposed (ok : bool).

Section handlers.
Context (canWrite : bool) (activeId : option string) (deviceId : string).

(** The button of a row. *)
Definition row_action (p : PluginInfo) : option kind :=
  if canWrite && negb (locked p) then Some (if installed p then plugin_remove else plugin_install) else None.
Definition row_of (s : tab) (name : string) : option PluginInfo :=
  snd <$> list_find (fun p => p_name p = name) (rows (plugins s) (search s)).
(** [modelByPkg]: a later package wins. *)
Definition modelByPkg (s : tab) (name : string) : option string := assoc name (rev (models s)).

Definition action_request (k : kind) (name : string) : request :=
  m_request (Firmware.useCreateFirmwareAction activeId deviceId
    (JObj [("kind", JStr (kind_name k)); ("target", JStr name)])).

Definition exec (e : event) (s : tab) : option (tab * list request) :=
  let '(MkTab pl mo se co cp re cm) := s in
  match e with
  | Loaded l => Some (MkTab (Some l) mo se co cp re cm, [])
  | LoadedModels l => Some (MkTab pl l se co cp re cm, [])
  | Search q => Some (MkTab pl mo q co cp re cm, [])
  | Ask n => p ← row_of s n; k ← row_action p; Some (MkTab pl mo se (Some (k, n)) cp re cm, [])
  | Dismiss => match co with Some _ => Some (MkTab pl mo se None cp re cm, []) | None => None end
  | Ok_ =>
      match co with
      | Some (k, n) => if cp then None else Some (MkTab pl mo se co true re cm, [action_request k n])
      | None => None
      end
  | Created ok =>
      if cp then Some (if ok then MkTab pl mo se co false (S re) cm else MkTab pl mo se None false re cm, []) else None
  | Refetched => match re with S m => Some (MkTab pl mo se None cp m cm, []) | O => None end
  | Configure n =>
      p ← row_of s n;
      if canWrite && installed p
      then m ← modelByPkg s n; Some (MkTab pl mo se co cp re (Some m), []) else None
  | CloseDrawer => match cm with Some _ => Some (MkTab pl mo se co cp re None, []) | None => None end
  | Propose b =>
      match cm with
      | Some _ => Some (s, [m_request (CatalogApi.useProposeCatalogChange activeId deviceId b)])
      | None => None
      end
  | Proposed ok => Some (MkTab pl mo se co cp re (if ok then None else cm), [])
  end.

(** *** Histories *)

(** The action of an open dialog was offered by a row when it was asked for. *)
Definition asked_for (es : list event) (k : kind) (n : string) : Prop :=
  exists a b s rs p, es = a ++ Ask n :: b /\ run exec a initial = Some (s, rs) /\
    p ∈ rows (plugins s) (search s) /\ p_name p = n /\ canWrite = true /\ locked p = false /\
    k = (if installed p then plugin_remove else plugin_install) /\ Forall (fun e => forall m, e <> Ask m) b.

Lemma asked_for_snoc es k n e : asked_for es k n -> (forall m, e <> Ask m) -> asked_for (es ++ [e]) k n.
Proof using Type.
  intros (a & b & s & rs & p & -> & H) He. exists a, (b ++ [e]), s, rs, p. rewrite <- app_assoc. split; [done|].
  destruct H as (?&?&?&?&?&?&?). split_and!; try done. apply Forall_app. split; [done|]. by constructor.
Qed.

Lemma run_asked es s rs k n : run exec es initial = Some (s, rs) -> confirm s = Some (k, n) -> asked_for es k n.
Proof using Type.
  intros H Hc.
  enough (Hall : forall k n, confirm s = Some (k, n) -> asked_for es k n) by by apply Hall.
  clear k n Hc. pattern es, s, rs. revert es s rs H. apply run_history; [done|].
  intros es s rs e s' rs' Hrun IH He k n Hk.
  destruct s as [pl mo se co cp re cm].
  assert (Hkeep : co = Some (k, n) -> (forall m, e <> Ask m) -> asked_for (es ++ [e]) k n)
    by (intros Hco Hne; apply asked_for_snoc; [by apply IH|done]).
  destruct e as [l|l|q|m| | |ok| |m| |b|ok]; cbn [exec] in He.
  - simplify_eq/=. auto.
  - simplify_eq/=. auto.
  - simplify_eq/=. auto.
  - destruct (row_of _ m) as [p|] eqn:Er; [|done]. simpl in He.
    destruct (row_action p) as [k'|] eqn:Ea; [|done]. simpl in He. simplify_eq/=.
    unfold row_of in Er. destruct (list_find _ _) as [[i x]|] eqn:Ef; [|done]. simplify_eq/=.
    apply list_find_Some in Ef as (Hi & Hn & _). apply list_elem_of_lookup_2 in Hi.
    unfold row_action in Ea. destruct canWrite eqn:Ew, (locked p) eqn:El; simplify_eq/=.
    eexists es, [], _, rs, p. split_and!; try done; by constructor.
  - destruct co; simplify_eq/=.
  - destruct co as [[k' n']|]; [|done]. destruct cp; simplify_eq/=. auto.
  - destruct cp; [|done]. destruct ok; simplify_eq/=. auto.
  - destruct re; simplify_eq/=.
  - destruct (row_of _ m) as [p|]; [|done]. simpl in He. destruct (canWrite && installed p); [|done].
    destruct (modelByPkg _ m); [|done]. simpl in He. simplify_eq/=. auto.
  - destruct cm; simplify_eq/=. auto.
  - destruct cm; simplify_eq/=. auto.
  - simplify_eq/=. auto.
Qed.

Definition is_action (rq : request) : Prop := exists b, rq = m_request (Firmware.useCreateFirmwareAction activeId deviceId b).

Lemma ok_only e s s' rs rq :
  exec e s = Some (s', rs) -> rq ∈ rs -> is_action rq ->
  e = Ok_ /\ exists k n, confirm s = Some (k, n) /\ rq = action_request k n.
Proof using Type.
  intros He Hr [b ->]. destruct s as [pl mo se co cp re cm].
  destruct e as [l|l|q|m| | |ok| |m| |b'|ok]; cbn [exec] in He; js_cases; try (by apply not_elem_of_nil in Hr).
  - destruct (row_of _ m); [|done]. simpl in He. destruct (row_action _); simpl in He; simplify_eq. by apply not_elem_of_nil in Hr.
  - apply list_elem_of_singleton in Hr. eauto.
  - destruct (row_of _ m); [|done]. simpl in He. js_cases.
    destruct (modelByPkg _ m); simpl in He; simplify_eq. by apply not_elem_of_nil in Hr.
  - apply list_elem_of_singleton in Hr. done.
Qed.
End handlers.
End tab.

(** Plugins are installed or removed as their row said.  In every history
    of the tab, each firmware action it sends comes from confirming an open
    dialog, for the plugin whose button was pressed last: a row listed then,
    not locked, for a user who may write, removed if it was installed and
    installed if not, by its full package name.  The rows are exactly the
    plugins that match the search, each once, and, when [localeCompare] is a
    total order, sorted with the installed ones first. *)
Theorem plugin_actions_match_rows lower compare canWrite activeId deviceId es s rs rq :
  run (exec lower compare canWrite activeId deviceId) es initial = Some (s, rs) -> rq ∈ rs -> is_action activeId deviceId rq ->
  (exists es1 es2 k n, es = es1 ++ Ok_ :: es2 /\ asked_for lower compare canWrite activeId deviceId es1 k n /\
    rq = action_request activeId deviceId k n) /\
  (forall l q, Permutation (rows lower compare (Some l) q) (filter (fun p => matches lower q p = true) l)) /\
  ((forall x y, compare x y <= 0 \/ compare y x <= 0)%Z ->
   (forall x y z, compare x y <= 0 -> compare y z <= 0 -> compare x z <= 0)%Z ->
   forall l q, StronglySorted (fun a b => installed b = true -> installed a = true) (rows lower compare (Some l) q) /\
               ordered (row_cmp compare) (rows lower compare (Some l) q)).
Proof.
  intros H Hin Ha. split_and!.
  - destruct (run_request _ _ _ _ _ _ H Hin) as (es1 & e & es2 & s1 & r1 & s2 & r2 & -> & H1 & He & Hr).
    destruct (ok_only _ _ _ _ _ _ _ _ _ _ He Hr Ha) as (-> & k & n & Hc & ->).
    exists es1, es2, k, n. split_and!; [done| |done]. by eapply run_asked.
  - intros l q. apply sort_permutation.
  - intros Ht Htr l q. assert (Ho : ordered (row_cmp compare) (rows lower compare (Some l) q)).
    { apply sort_ordered.
      - intros x y. unfold row_cmp. destruct (installed x), (installed y); simpl; auto; lia.
      - intros x y z. unfold row_cmp. destruct (installed x), (installed y), (installed z); simpl; try lia; apply Htr. }
    split; [|done]. unfold ordered in Ho. induction Ho as [|x k Hk IH Hx]; constructor; [done|].
    eapply Forall_impl; [exact Hx|]. intros y. unfold row_cmp. destruct (installed x), (installed y); simpl; auto; lia.
Qed.

(** The confirm button is free again while the list is read anew, and the
    dialog is still open: a second press sends the action a second time. *)
Example confirmed_twice :
  exists s, run (exec (fun s => s) (fun _ _ => 0%Z) true (Some "t") "d")
    [Loaded [MkPlugin "os-wol" "2.4" true false]; Ask "os-wol"; Ok_; Created true; Ok_] initial
  = Some (s, [action_request (Some "t") "d" plugin_remove "os-wol"; action_request (Some "t") "d" plugin_remove "os-wol"]).
Proof. eexists. vm_compute. reflexivity. Qed.
