(* ===== verification/Charts.v ===== *)
(** * Charts and the attacker map

    [monitoring/MetricChart.tsx] (module [Chart]) and
    [overview/AttackerCountriesMap.tsx], [overview/AttackerCountriesCard.tsx]
    (module [WorldMap]). *)
From S2P Require Import Prelude JsString Json.
From Stdlib Require Import ZArith Ascii.

(** ** [toChartData]: points to rows *)
Module Chart.
Section chart.
Context {V : Type}.                 (* the values plotted *)

Record MetricPoint := Point { time : string; label : string; value : V }.
Inductive cell := TimeCell (s : string) | ValueCell (v : V).

(** A row is an object, a Map is a list of entries: both keep the order of
    first insertion, and a second write stays in place. *)
Definition row := list (string * cell).
Fixpoint put {A} (k : string) (v : A) (l : list (string * A)) : list (string * A) :=
  match l with
  | [] => [(k, v)]
  | (k', w) :: l => if decide (k = k') then (k, v) :: l else (k', w) :: put k v l
  end.

Record ChartData := MkChart { byTime : list (string * row); series : list string }.
Definition empty_chart : ChartData := MkChart [] [].

Context (labelMap : list (string * string)).
Definition column (p : MetricPoint) : string :=
  if label p === "" then "value" else assoc (label p) labelMap orelse label p.

(** One turn of the loop. *)
Definition add_point (c : ChartData) (p : MetricPoint) : ChartData :=
  let k := column p in
  MkChart
    (put (time p) (put k (ValueCell (value p)) (assoc (time p) (byTime c) orelse [("time", TimeCell (time p))])) (byTime c))
    (if bool_decide (k ∈ series c) then series c else series c ++ [k]).
Definition toChartData (points : list MetricPoint) : ChartData := fold_left add_point points empty_chart.
Definition data (c : ChartData) : list row := snd <$> byTime c.

(** *** Entries *)
Lemma assoc_put {A} k k' (v : A) l : assoc k (put k' v l) = if decide (k = k') then Some v else assoc k l.
Proof using Type.
  induction l as [|[k1 w] l IH]; simpl; [done|].
  destruct (decide (k' = k1)) as [->|Hne]; simpl.
  - by destruct (decide (k = k1)).
  - rewrite IH. destruct (decide (k = k1)) as [->|]; [by rewrite decide_False|done].
Qed.

Lemma put_keys {A} k (v : A) l :
  fst <$> put k v l = if bool_decide (k ∈ fst <$> l) then fst <$> l else (fst <$> l) ++ [k].
Proof using Type.
  induction l as [|[k1 w] l IH]; [done|]. cbn [put]. destruct (decide (k = k1)) as [->|Hne]; rewrite !fmap_cons; cbn [fst].
  - by rewrite bool_decide_true by left.
  - rewrite IH. destruct (decide (k ∈ fst <$> l)) as [Hk|Hk].
    + rewrite !bool_decide_true by (done || by right). done.
    + rewrite !bool_decide_false by (done || (by intros [?|?]%elem_of_cons)). done.
Qed.

(** First-seen order without repetition. *)
Definition add_new (l : list string) (k : string) : list string := if bool_decide (k ∈ l) then l else l ++ [k].
Definition first_seen (l : list string) : list string := fold_left add_new l [].

Lemma first_seen_snoc l k : first_seen (l ++ [k]) = add_new (first_seen l) k.
Proof using Type. unfold first_seen. by rewrite fold_left_app. Qed.

Lemma first_seen_spec l : NoDup (first_seen l) /\ (forall k, k ∈ first_seen l <-> k ∈ l).
Proof using Type.
  induction l as [|x l [IHn IHe]] using rev_ind; [split; [constructor|done]|].
  rewrite first_seen_snoc. unfold add_new. split.
  - case_bool_decide as Hx; [done|]. apply NoDup_app. split; [done|]. split; [|apply NoDup_singleton].
    intros y Hy ->%list_elem_of_singleton. done.
  - intros k. rewrite elem_of_app, list_elem_of_singleton, <- IHe. case_bool_decide as Hx; [|set_solver].
    split; [by left|]. intros [?| ->]; done.
Qed.

Lemma first_seen_prefix l1 l2 : first_seen l1 `prefix_of` first_seen (l1 ++ l2).
Proof using Type.
  induction l2 as [|x l2 IH] using rev_ind; [by rewrite app_nil_r|].
  rewrite app_assoc, first_seen_snoc. unfold add_new. case_bool_decide; [done|]. by apply prefix_app_r.
Qed.

(** *** The table in terms of the points *)
Definition cell_at (c : ChartData) (t k : string) : option cell := assoc t (byTime c) ≫= assoc k.

(** The last point of a time and a column. *)
Definition last_point (points : list MetricPoint) (t k : string) : option V :=
  value <$> last (filter (fun p => time p = t /\ column p = k) points).

Lemma last_point_snoc points p t k :
  last_point (points ++ [p]) t k =
  if decide (time p = t /\ column p = k) then Some (value p) else last_point points t k.
Proof using Type.
  unfold last_point. rewrite filter_app. destruct (decide (time p = t /\ column p = k)) as [H|H].
  - rewrite filter_cons_True, filter_nil by done. by rewrite last_snoc.
  - rewrite filter_cons_False, filter_nil by done. by rewrite app_nil_r.
Qed.

Lemma toChartData_snoc points p : toChartData (points ++ [p]) = add_point (toChartData points) p.
Proof using Type. unfold toChartData. by rewrite fold_left_app. Qed.

Lemma times_spec points : fst <$> byTime (toChartData points) = first_seen (time <$> points).
Proof using Type.
  induction points as [|p points IH] using rev_ind; [done|].
  rewrite toChartData_snoc, fmap_app. cbn [fmap list_fmap]. rewrite first_seen_snoc, <- IH.
  unfold add_point. cbn [byTime]. apply put_keys.
Qed.

Lemma series_spec points : series (toChartData points) = first_seen (column <$> points).
Proof using Type.
  induction points as [|p points IH] using rev_ind; [done|].
  rewrite toChartData_snoc, fmap_app. cbn [fmap list_fmap]. by rewrite first_seen_snoc, <- IH.
Qed.

Lemma cells_spec points t k :
  k <> "time" -> cell_at (toChartData points) t k = ValueCell <$> last_point points t k.
Proof using Type.
  intros Hk. induction points as [|p points IH] using rev_ind; [done|].
  rewrite toChartData_snoc, last_point_snoc. unfold cell_at, add_point. cbn [byTime]. rewrite assoc_put.
  destruct (decide (t = time p)) as [->|Ht].
  - cbn [mbind option_bind]. rewrite assoc_put. destruct (decide (k = column p)) as [->|Hc].
    + by rewrite decide_True.
    + rewrite decide_False by naive_solver. rewrite <- IH. unfold cell_at.
      destruct (assoc (time p) (byTime (toChartData points))); [done|]. cbn. by rewrite decide_False.
  - rewrite decide_False by naive_solver. exact IH.
Qed.

Lemma time_cells_spec points t r :
  Forall (fun p => column p <> "time") points ->
  assoc t (byTime (toChartData points)) = Some r -> assoc "time" r = Some (TimeCell t).
Proof using Type.
  revert r. induction points as [|p points IH] using rev_ind; intros r H; [done|].
  apply Forall_app in H as [H Hp]. apply Forall_cons_1 in Hp as [Hp _]. specialize (fun r => IH r H).
  rewrite toChartData_snoc. unfold add_point. cbn [byTime]. rewrite assoc_put.
  destruct (decide (t = time p)) as [->|Ht]; [|apply IH].
  intros [= <-]. rewrite assoc_put, decide_False by (intros Heq; by apply Hp).
  destruct (assoc (time p) (byTime (toChartData points))) as [r|] eqn:E; [by apply IH|done].
Qed.
End chart.

(** The colour of the i-th series, and the legend. *)
Definition PALETTE : list string := ["blue.6"; "teal.6"; "orange.6"; "grape.6"; "red.6"; "cyan.6"].
Definition series_color (i : nat) : string := (PALETTE !! (i mod 6)) orelse "".
Definition withLegend (series : list string) : bool := 1 <? length series.
(** The unit goes into the title unless the values carry their own. *)
Definition chart_title (title : string) (unit : option string) (has_formatter : bool) : string :=
  match unit with
  | Some u => if negb (u === "") && negb has_formatter then title +:+ " (" +:+ u +:+ ")" else title
  | None => title
  end.

(** C37.  The chart shows the points.  For all points and label names: there
    is one row per distinct time and one series per distinct column, each in
    the order first seen; the cell of a time and a column is the value of the
    last point there, and is absent when there is none; each row carries its
    own time as long as no series is named "time"; and points that arrive later
    never rename, reorder or recolour the series there were. *)
Theorem chart_shows_points {V} (labelMap : list (string * string)) (points more : list (@MetricPoint V)) :
  let c := toChartData labelMap points in
  fst <$> byTime c = first_seen (time <$> points) /\
  series c = first_seen (column labelMap <$> points) /\ NoDup (series c) /\ NoDup (fst <$> byTime c) /\
  (forall t k, k <> "time" -> cell_at c t k = ValueCell <$> last_point labelMap points t k) /\
  (Forall (fun p => column labelMap p <> "time") points ->
     forall t r, assoc t (byTime c) = Some r -> assoc "time" r = Some (TimeCell t)) /\
  (forall i s, series c !! i = Some s -> series (toChartData labelMap (points ++ more)) !! i = Some s).
Proof.
  intros c. subst c. rewrite times_spec, series_spec. split_and!; try done; try apply first_seen_spec.
  - intros. by apply cells_spec.
  - intros. by eapply time_cells_spec.
  - intros i s Hi. rewrite series_spec, fmap_app. eapply prefix_lookup_Some; [exact Hi|apply first_seen_prefix].
Qed.

(** A series named "time" takes the place of the timestamps. *)
Example series_named_time :
  data (toChartData [("opt1", "time")] [Point "10:00" "opt1" 5]) = [[("time", ValueCell 5)]].
Proof. reflexivity. Qed.

(** Two labels that carry the same name share a column, and the later point wins. *)
Example labels_merge :
  data (toChartData [("opt1", "WAN"); ("opt2", "WAN")] [Point "10:00" "opt1" 5; Point "10:00" "opt2" 7])
  = [[("time", TimeCell "10:00"); ("WAN", ValueCell 7)]].
Proof. reflexivity. Qed.
End Chart.

(** ** The map of attacker countries

    Shares are integers in a common unit: JavaScript divides them and rounds
    half up, here on exact fractions. *)
Module WorldMap.
Local Open Scope Z_scope.
Definition BASE_COLOR : string := "#243043".
Definition HOT_COLOR : string := "#ff6b6b".

(** *** Base-16 numerals: [parseInt(s, 16)] and [toString(16)] *)
Definition hex_digits : list ascii := chars "0123456789abcdef".
Definition hex_digit (n : Z) : ascii := (hex_digits !! Z.to_nat n) orelse "0"%char.
Definition hex_value (c : ascii) : option Z :=
  (fun x => Z.of_nat x.1) <$> list_find (fun d => d = c) hex_digits.
(** On lower-case digits only, as in the colours of the map. *)
Definition parse_hex (l : list ascii) : option Z :=
  fold_left (fun acc c => a ← acc; v ← hex_value c; Some (16 * a + v)) l (Some 0).
Fixpoint to_hex (fuel : nat) (n : Z) : list ascii :=
  match fuel with
  | O => []
  | S fuel => if n <? 16 then [hex_digit n] else to_hex fuel (n / 16) ++ [hex_digit (n mod 16)]
  end.

Definition hexToRgb (hex : string) : option (Z * Z * Z) :=
  n ← parse_hex (drop 1 (chars hex));
  Some (Z.land (Z.shiftr n 16) 255, Z.land (Z.shiftr n 8) 255, Z.land n 255).

(** A share [num / den] with [0 < den], clamped to [0, 1]; [Math.round] of a
    point between two channels. *)
Definition clamp (num den : Z) : Z := Z.min den (Z.max 0 num).
Definition lerp (a b num den : Z) : Z := (2 * (a * den + (b - a) * clamp num den) + den) / (2 * den).

(** [#${((1 << 24) | (r << 16) | (g << 8) | b).toString(16).slice(1)}] *)
Definition rgb_hex (r g b : Z) : string :=
  of_chars ("#"%char :: drop 1 (to_hex 7 (Z.lor (Z.lor (Z.lor (Z.shiftl 1 24) (Z.shiftl r 16)) (Z.shiftl g 8)) b))).
Definition lerpColor (base hot : string) (num den : Z) : option string :=
  '(r1, g1, b1) ← hexToRgb base; '(r2, g2, b2) ← hexToRgb hot;
  Some (rgb_hex (lerp r1 r2 num den) (lerp g1 g2 num den) (lerp b1 b2 num den)).

(** *** The index of the map *)
Record CountryRow := Row { code : string; count : Z; pct : Z }.
Definition sentinel (c : string) : bool := (c === "PRIVATE") || (c === "UNKNOWN").
Definition index_step (s : gmap string CountryRow * Z) (row : CountryRow) : gmap string CountryRow * Z :=
  if sentinel (code row) then s
  else (<[code row := row]> s.1, if s.2 <? pct row then pct row else s.2).
Definition index (d : list CountryRow) : gmap string CountryRow * Z := fold_left index_step d (∅, 0).

(** The fill of a geography, whose alpha-2 code is looked up by numeric id. *)
Definition fill (numericMap : list (string * string)) (d : list CountryRow) (id : string) : option string :=
  let '(byCode, maxPct) := index d in
  match (assoc id numericMap) ≫= fun a => if a === "" then None else byCode !! a with
  | Some row => if 0 <? maxPct then lerpColor BASE_COLOR HOT_COLOR (pct row) maxPct
                else lerpColor BASE_COLOR HOT_COLOR 0 1
  | None => Some BASE_COLOR
  end.

(** [regionName] and [countryLabel]: [of_] is [Intl.DisplayNames.of], which may throw. *)
Definition regionName (of_ : string -> outcome unit (option string)) (alpha2 : string) : string :=
  match of_ alpha2 with Returned (Some n) => n | _ => alpha2 end.
Definition countryLabel (of_ : string -> outcome unit (option string)) (privateLabel unknownLabel c : string) : string :=
  if c === "PRIVATE" then privateLabel else if c === "UNKNOWN" then unknownLabel
  else match of_ c with Returned (Some n) => n | _ => c end.

(** The box under the pointer. *)
Record HoverState := Hover { h_alpha2 : string; h_count : Z; h_pct : Z; h_x : Z; h_y : Z }.
Inductive mouse := Enter (x y : Z) | Move (x y : Z) | Leave.
Definition on_mouse (row : option (string * CountryRow)) (e : mouse) (h : option HoverState) : option HoverState :=
  match e, row with
  | Enter x y, Some (a, r) => Some (Hover a (count r) (pct r) x y)
  | Move x y, Some _ => (fun h => Hover (h_alpha2 h) (h_count h) (h_pct h) x y) <$> h
  | Leave, _ => None
  | _, None => h
  end.

(** *** Numerals *)
Fixpoint pad16 (k : nat) (n : Z) : list ascii :=
  match k with O => [] | S k => pad16 k (n / 16) ++ [hex_digit (n mod 16)] end.

Lemma digit_cases (P : Z -> Prop) n : 0 <= n < 16 -> Forall P (Z.of_nat <$> seq 0 16) -> P n.
Proof.
  intros Hn H. rewrite list.Forall_forall in H. apply H, list_elem_of_fmap.
  exists (Z.to_nat n). split; [lia|]. apply elem_of_seq. lia.
Qed.

Lemma hex_value_digit n : 0 <= n < 16 -> hex_value (hex_digit n) = Some n.
Proof.
  intros Hn. apply (digit_cases (fun n => hex_value (hex_digit n) = Some n)); [done|].
  apply (bool_decide_unpack _). vm_compute. exact I.
Qed.

Lemma pad16_length k n : length (pad16 k n) = k.
Proof. revert n. induction k as [|k IH]; intros n; [done|]. cbn [pad16]. rewrite length_app, IH. simpl. lia. Qed.

Lemma to_hex_pad k d n :
  1 <= d < 16 -> 0 <= n < 16 ^ Z.of_nat k -> to_hex (S k) (16 ^ Z.of_nat k * d + n) = hex_digit d :: pad16 k n.
Proof.
  intros Hd. revert n. induction k as [|k IH]; intros n Hn.
  - change (16 ^ Z.of_nat 0) with 1 in *. replace (1 * d + n) with d by lia. cbn [to_hex].
    by rewrite (proj2 (Z.ltb_lt _ _)) by lia.
  - assert (Hp : 16 ^ Z.of_nat (S k) = 16 * 16 ^ Z.of_nat k)
      by (rewrite Nat2Z.inj_succ, Z.pow_succ_r by lia; done).
    assert (0 < 16 ^ Z.of_nat k) by (apply Z.pow_pos_nonneg; lia).
    rewrite Hp in *. remember (S k) as k1 eqn:Ek. cbn [to_hex]. rewrite (proj2 (Z.ltb_ge _ _)) by nia.
    replace (16 * 16 ^ Z.of_nat k * d + n) with (n + 16 ^ Z.of_nat k * d * 16) by lia.
    rewrite Z.div_add, Z.mod_add by lia. subst k1.
    replace (n / 16 + 16 ^ Z.of_nat k * d) with (16 ^ Z.of_nat k * d + n / 16) by lia.
    rewrite IH; [done|]. split; [apply Z.div_pos; lia|apply Z.div_lt_upper_bound; lia].
Qed.

Lemma parse_pad k n : 0 <= n < 16 ^ Z.of_nat k -> parse_hex (pad16 k n) = Some n.
Proof.
  revert n. induction k as [|k IH]; intros n Hn.
  - change (16 ^ Z.of_nat 0) with 1 in *. cbn. f_equal. lia.
  - assert (Hp : 16 ^ Z.of_nat (S k) = 16 * 16 ^ Z.of_nat k)
      by (rewrite Nat2Z.inj_succ, Z.pow_succ_r by lia; done).
    cbn [pad16]. unfold parse_hex in *. rewrite fold_left_app, IH
      by (split; [apply Z.div_pos; lia|apply Z.div_lt_upper_bound; lia]).
    cbn [fold_left mbind option_bind]. rewrite hex_value_digit by (apply Z.mod_pos_bound; lia).
    cbn. f_equal. pose proof (Z.div_mod n 16). lia.
Qed.

Lemma lor_add a b n : 0 <= n -> 0 <= b < 2 ^ n -> Z.lor (a * 2 ^ n) b = a * 2 ^ n + b.
Proof.
  intros Hn Hb. rewrite <- Z.add_lor_land.
  assert (Z.land (a * 2 ^ n) b = 0) as ->; [|lia].
  apply Z.bits_inj'. intros i Hi. rewrite Z.land_spec, Z.bits_0.
  destruct (Z.ltb_spec i n) as [Hlt|Hge].
  - by rewrite Z.mul_pow2_bits_low.
  - destruct (decide (b = 0)) as [->|Hb0]; [by rewrite Z.bits_0, andb_false_r|].
    rewrite (Z.bits_above_log2 b i), andb_false_r; [done|lia|].
    enough (Z.log2 b < n) by lia. apply Z.log2_lt_pow2; lia.
Qed.

(** Three channels print as six digits and read back as they were. *)
Lemma rgb_roundtrip r g b :
  0 <= r <= 255 -> 0 <= g <= 255 -> 0 <= b <= 255 ->
  length (chars (rgb_hex r g b)) = 7%nat /\ hexToRgb (rgb_hex r g b) = Some (r, g, b).
Proof.
  intros Hr Hg Hb. unfold rgb_hex, hexToRgb.
  assert (Hn : Z.lor (Z.lor (Z.lor (Z.shiftl 1 24) (Z.shiftl r 16)) (Z.shiftl g 8)) b
               = 16 ^ Z.of_nat 6 * 1 + (r * 65536 + g * 256 + b)).
  { rewrite !Z.shiftl_mul_pow2 by lia.
    rewrite (lor_add 1 (r * 2 ^ 16) 24) by lia.
    replace (1 * 2 ^ 24 + r * 2 ^ 16) with ((256 + r) * 2 ^ 16) by lia.
    rewrite (lor_add (256 + r) (g * 2 ^ 8) 16) by lia.
    replace ((256 + r) * 2 ^ 16 + g * 2 ^ 8) with (((256 + r) * 256 + g) * 2 ^ 8) by lia.
    rewrite (lor_add _ b 8) by lia. lia. }
  rewrite Hn, to_hex_pad by (change (16 ^ Z.of_nat 6) with 16777216; lia). rewrite !chars_of_chars. cbn [drop].
  split; [change (S (length (pad16 6 (r * 65536 + g * 256 + b))) = 7%nat); by rewrite pad16_length|].
  rewrite !drop_0, parse_pad by (change (16 ^ Z.of_nat 6) with 16777216; lia). cbn [mbind option_bind].
  rewrite !Z.shiftr_div_pow2 by lia. change 255 with (Z.ones 8). rewrite !Z.land_ones by lia.
  do 3 f_equal.
  - replace (r * 65536 + g * 256 + b) with (g * 256 + b + r * 2 ^ 16) by lia.
    rewrite Z.div_add, (Z.div_small (g * 256 + b)) by lia. apply Z.mod_small. lia.
  - replace (r * 65536 + g * 256 + b) with (b + (g + r * 256) * 2 ^ 8) by lia.
    rewrite Z.div_add, (Z.div_small b) by lia. replace (0 + (g + r * 256)) with (g + r * 2 ^ 8) by lia.
    rewrite Z.mod_add by lia. apply Z.mod_small. lia.
  - replace (r * 65536 + g * 256 + b) with (b + (r * 256 + g) * 2 ^ 8) by lia.
    rewrite Z.mod_add by lia. apply Z.mod_small. lia.
Qed.

(** *** Interpolation *)
Lemma lerp_between a b num den :
  0 < den -> Z.min a b <= lerp a b num den <= Z.max a b /\
  (num <= 0 -> lerp a b num den = a) /\ (den <= num -> lerp a b num den = b).
Proof.
  intros Hd. unfold lerp, clamp. set (p := Z.min den (Z.max 0 num)). assert (Hp : 0 <= p <= den) by lia.
  split; [split|split].
  - apply Z.div_le_lower_bound; [lia|]. nia.
  - apply Z.lt_succ_r, Z.div_lt_upper_bound; [lia|]. nia.
  - intros Hn. assert (p = 0) as -> by lia.
    replace (2 * (a * den + (b - a) * 0) + den) with (den + a * (2 * den)) by lia.
    rewrite Z.div_add, Z.div_small by lia. lia.
  - intros Hn. assert (p = den) as -> by lia.
    replace (2 * (a * den + (b - a) * den) + den) with (den + b * (2 * den)) by lia.
    rewrite Z.div_add, Z.div_small by lia. lia.
Qed.

Lemma lerp_monotone a b n1 n2 den : 0 < den -> a <= b -> n1 <= n2 -> lerp a b n1 den <= lerp a b n2 den.
Proof. intros Hd Hab Hn. unfold lerp, clamp. apply Z.div_le_mono; [lia|]. nia. Qed.

Lemma base_rgb : hexToRgb BASE_COLOR = Some (36, 48, 67).
Proof. reflexivity. Qed.
Lemma hot_rgb : hexToRgb HOT_COLOR = Some (255, 107, 107).
Proof. reflexivity. Qed.

(** The colour of a share, channel by channel. *)
Lemma ramp num den :
  0 < den ->
  exists c, lerpColor BASE_COLOR HOT_COLOR num den = Some c /\ length (chars c) = 7%nat /\
    hexToRgb c = Some (lerp 36 255 num den, lerp 48 107 num den, lerp 67 107 num den).
Proof.
  intros Hd. unfold lerpColor. rewrite base_rgb, hot_rgb. cbn [mbind option_bind].
  eexists. split; [done|]. apply rgb_roundtrip; pose proof (lerp_between 36 255 num den Hd);
    pose proof (lerp_between 48 107 num den Hd); pose proof (lerp_between 67 107 num den Hd); lia.
Qed.

(** *** The index *)
Definition drawn (d : list CountryRow) : list CountryRow := filter (fun r => sentinel (code r) = false) d.

Lemma index_spec d :
  (forall c r, (index d).1 !! c = Some r -> r ∈ drawn d /\ code r = c) /\
  (forall r, r ∈ drawn d -> is_Some ((index d).1 !! code r)) /\
  0 <= (index d).2 /\ (forall r, r ∈ drawn d -> pct r <= (index d).2) /\
  ((index d).2 = 0 \/ exists r, r ∈ drawn d /\ pct r = (index d).2).
Proof.
  induction d as [|row d IH] using rev_ind.
  - split; [intros c r H; cbn in H; by rewrite lookup_empty in H|].
    split; [intros r H; by apply not_elem_of_nil in H|]. split; [done|].
    split; [intros r H; by apply not_elem_of_nil in H|by left].
  - destruct IH as (H1 & H2 & H3 & H4 & H5). unfold index, drawn in *. rewrite fold_left_app, filter_app.
    cbn [fold_left]. set (s := fold_left index_step d (∅, 0)) in *. unfold index_step.
    destruct (sentinel (code row)) eqn:Es.
    + rewrite filter_cons_False, filter_nil, app_nil_r by (by rewrite Es). done.
    + rewrite filter_cons_True, filter_nil by done. cbn [fst snd]. split_and!.
      * intros c r. destruct (decide (c = code row)) as [->|Hne];
          [rewrite lookup_insert_eq; intros [= <-]; set_solver|rewrite lookup_insert_ne by done].
        intros Hr. destruct (H1 _ _ Hr). set_solver.
      * intros r [Hr|Hr%list_elem_of_singleton]%elem_of_app.
        -- destruct (decide (code r = code row)) as [->|Hne];
             [rewrite lookup_insert_eq; by eexists|rewrite lookup_insert_ne by done; by apply H2].
        -- subst r. rewrite lookup_insert_eq. by eexists.
      * destruct (Z.ltb_spec s.2 (pct row)); lia.
      * intros r [Hr|Hr%list_elem_of_singleton]%elem_of_app.
        -- specialize (H4 _ Hr). destruct (Z.ltb_spec s.2 (pct row)); lia.
        -- subst r. destruct (Z.ltb_spec s.2 (pct row)); lia.
      * destruct (Z.ltb_spec s.2 (pct row)); [right; exists row; set_solver|].
        destruct H5 as [?|(r & ? & ?)]; [by left|]. right. exists r. set_solver.
Qed.

(** The map's colours are well formed and ordered by share.  Every
    country is filled with a colour of seven characters whose channels lie
    between those of the base and the hot colour; a country with a row gets the
    ramp at its share of the largest, so the largest share is exactly the hot
    colour, no share the base colour, and a larger share is never paler; rows
    without a geography (private, unknown) colour nothing and do not stretch
    the scale. *)
Theorem map_colors_ordered numericMap d :
  (forall i, exists c r g b, fill numericMap d i = Some c /\ length (chars c) = 7%nat /\ hexToRgb c = Some (r, g, b) /\
     36 <= r <= 255 /\ 48 <= g <= 107 /\ 67 <= b <= 107) /\
  (forall i a row, assoc i numericMap = Some a -> a <> "" -> (index d).1 !! a = Some row -> 0 < (index d).2 ->
     row ∈ drawn d /\ code row = a /\ pct row <= (index d).2 /\
     fill numericMap d i = lerpColor BASE_COLOR HOT_COLOR (pct row) (index d).2 /\
     (pct row = (index d).2 -> fill numericMap d i = Some HOT_COLOR) /\
     (pct row <= 0 -> fill numericMap d i = Some BASE_COLOR)) /\
  (forall p1 p2 den r1 g1 b1 r2 g2 b2 c1 c2, 0 < den -> p1 <= p2 ->
     lerpColor BASE_COLOR HOT_COLOR p1 den = Some c1 -> lerpColor BASE_COLOR HOT_COLOR p2 den = Some c2 ->
     hexToRgb c1 = Some (r1, g1, b1) -> hexToRgb c2 = Some (r2, g2, b2) -> r1 <= r2 /\ g1 <= g2 /\ b1 <= b2).
Proof.
  assert (Hramp : forall n m, 0 < m -> exists c r g b, lerpColor BASE_COLOR HOT_COLOR n m = Some c /\
            length (chars c) = 7%nat /\ hexToRgb c = Some (r, g, b) /\ 36 <= r <= 255 /\ 48 <= g <= 107 /\ 67 <= b <= 107).
  { intros n m Hm. destruct (ramp n m Hm) as (c & Hc & Hl & Hx). eexists c, _, _, _.
    split; [exact Hc|]. split; [exact Hl|]. split; [exact Hx|].
    pose proof (lerp_between 36 255 n m Hm); pose proof (lerp_between 48 107 n m Hm);
      pose proof (lerp_between 67 107 n m Hm); lia. }
  split_and!.
  - intros i. unfold fill. destruct (index d) as [byCode maxPct].
    destruct (assoc i numericMap ≫= _) as [row|]; [|exists BASE_COLOR, 36, 48, 67; split_and!; (done || lia)].
    destruct (Z.ltb_spec 0 maxPct) as [Hm|Hm]; apply Hramp; lia.
  - intros i a row Ha Hne Hrow Hm. destruct (index_spec d) as (H1 & _ & _ & H4 & _).
    destruct (H1 _ _ Hrow) as [Hin Hcode].
    assert (Hf : fill numericMap d i = lerpColor BASE_COLOR HOT_COLOR (pct row) (index d).2).
    { unfold fill. destruct (index d) as [byCode maxPct]. simpl in *. rewrite Ha. simpl.
      rewrite bool_decide_false by done. rewrite Hrow. by rewrite (proj2 (Z.ltb_lt _ _)). }
    split_and!; [done|done|by apply H4|done| |]; intros Hp; rewrite Hf; unfold lerpColor; rewrite base_rgb, hot_rgb;
      cbn [mbind option_bind]; f_equal.
    + destruct (lerp_between 36 255 (pct row) _ Hm) as (_ & _ & ->); [|lia].
      destruct (lerp_between 48 107 (pct row) _ Hm) as (_ & _ & ->); [|lia].
      destruct (lerp_between 67 107 (pct row) _ Hm) as (_ & _ & ->); [|lia]. reflexivity.
    + destruct (lerp_between 36 255 (pct row) _ Hm) as (_ & -> & _); [|lia].
      destruct (lerp_between 48 107 (pct row) _ Hm) as (_ & -> & _); [|lia].
      destruct (lerp_between 67 107 (pct row) _ Hm) as (_ & -> & _); [|lia]. reflexivity.
  - intros p1 p2 den r1 g1 b1 r2 g2 b2 c1 c2 Hd Hp E1 E2 X1 X2.
    destruct (ramp p1 den Hd) as (c1' & E1' & _ & X1'). destruct (ramp p2 den Hd) as (c2' & E2' & _ & X2').
    simplify_eq. split_and!; by apply lerp_monotone.
Qed.
End WorldMap.
