(* ===== verification/Paging.v ===== *)
(** * Paginated views

    Keyset pagination, for the device timelines ([Timeline]) and the log search
    ([LogsPage]), is the interface [Keyset]: a list of documents, read in pages
    behind opaque cursors.  Offset pagination: [pages/AuditPage.tsx]. *)
From S2P Require Import Prelude JsString Json Http QueryClient Hooks Time Picker TenantHooks PlatformHooks.
From Stdlib Require Import ZArith Ascii.

(** ** The server's contract *)
Class Keyset := {
  cursor : nat -> json;               (* the opaque cursor of a position *)
  position : json -> nat;
  cursor_position n : position (cursor n) = n;
  cursor_truthy n : truthy (Some (cursor n)) = true;
}.

(** A concrete cursor scheme. *)
Definition unary_cursor (n : nat) : json := JStr (of_chars ("c"%char :: replicate n "i"%char)).
Definition unary_position (c : json) : nat := match c with JStr s => length (chars s) - 1 | _ => 0 end.

Lemma unary_cursor_position n : unary_position (unary_cursor n) = n.
Proof. unfold unary_position, unary_cursor. rewrite chars_of_chars. simpl. rewrite length_replicate. lia. Qed.

#[export] Instance unary_keyset : Keyset := {
  cursor := unary_cursor;
  position := unary_position;
  cursor_position := unary_cursor_position;
  cursor_truthy n := eq_refl;
}.

Section keyset.
Context `{Keyset} (docs : list json).

(** The page of [size] documents at a position, and the next cursor: a full
    page comes with one, even when it is the last. *)
Definition next_of (size n : nat) : json :=
  if length (take size (drop n docs)) =? size then cursor (n + size) else JNull.
Definition page_at (items : string) (size n : nat) : fetch_result :=
  FetchResult (Some (JObj [(items, JArr (take size (drop n docs))); ("next_cursor", next_of size n);
                           ("total", JNum (Z.of_nat (length docs)))])) None 200.

Lemma next_of_eq size n : 0 < size -> next_of size n = if n + size <=? length docs then cursor (n + size) else JNull.
Proof using Type.
  intros Hs. unfold next_of. rewrite length_take, length_drop.
  destruct (Nat.eqb_spec (size `min` (length docs - n)) size), (Nat.leb_spec (n + size) (length docs)); (done || lia).
Qed.
End keyset.

(** ** The audit log ([pages/AuditPage.tsx]) *)
Module AuditPage.
Import Audit.
Definition PAGE_SIZE : Z := 50.

Record drafts := Drafts {
  actorEmail : string;
  tenant_ : string;
  action_ : string;
  from_ : option string;
  to_ : option string;
}.
Record page := Page { draft : drafts; applied : AuditFilters; offset_ : Z }.

Definition no_filters : AuditFilters := MkFilters None None None None None None None.
Definition empty_drafts : drafts := Drafts "" "" "" None None.
Definition initial : page := Page empty_drafts no_filters 0.

(** [s.trim() || undefined] *)
Definition trimmed_or (s : string) : option string := if trim s === "" then None else Some (trim s).

(** [{ ...applied, limit: PAGE_SIZE, offset }] *)
Definition filters (p : page) : AuditFilters :=
  MkFilters (actor_email (applied p)) (tenant_id (applied p)) (action (applied p)) (frm (applied p)) (to (applied p))
            (Some PAGE_SIZE) (Some (offset_ p)).

Section page.
Context (zone : Z -> Z).

Definition of_drafts (d : drafts) : AuditFilters :=
  MkFilters (trimmed_or (actorEmail d)) (trimmed_or (tenant_ d)) (trimmed_or (action_ d))
            (audit_toIso zone (from_ d)) (audit_toIso zone (to_ d)) None None.

Inductive event :=
| Edit (d : drafts)
| ApplyFilters
| ResetFilters
| Prev
| Next (total : Z).        (* the total of the page on screen *)

Definition hasPrev (p : page) : bool := (0 <? offset_ p)%Z.
Definition hasNext (total : Z) (p : page) : bool := (offset_ p + PAGE_SIZE <? total)%Z.

Definition exec (e : event) (p : page) : option page :=
  match e with
  | Edit d => Some (Page d (applied p) (offset_ p))
  | ApplyFilters => Some (Page (draft p) (of_drafts (draft p)) 0)
  | ResetFilters => Some (Page empty_drafts no_filters 0)
  | Prev => if hasPrev p then Some (Page (draft p) (applied p) (Z.max 0 (offset_ p - PAGE_SIZE))) else None
  | Next total => if hasNext total p then Some (Page (draft p) (applied p) (offset_ p + PAGE_SIZE)) else None
  end.

Fixpoint run (es : list event) (p : page) : option page :=
  match es with [] => Some p | e :: es => p ← exec e p; run es p end.

(** The filters in force by the history: those of the drafts at the last
    Apply, none after a Reset. *)
Definition in_force (es : list event) : drafts * AuditFilters :=
  fold_left (fun df e => match e with
                         | Edit d => (d, df.2)
                         | ApplyFilters => (df.1, of_drafts df.1)
                         | ResetFilters => (empty_drafts, no_filters)
                         | _ => df
                         end) es (empty_drafts, no_filters).

Definition aligned (p : page) : Prop := (0 <= offset_ p)%Z /\ (offset_ p mod PAGE_SIZE = 0)%Z.

Lemma exec_aligned e p p' : aligned p -> exec e p = Some p' -> aligned p'.
Proof using Type.
  unfold aligned, PAGE_SIZE. intros [Hp Hm] He. destruct e; cbn [exec] in He; simplify_eq/=; try done.
  - unfold hasPrev in He. destruct (Z.ltb_spec 0 (offset_ p)); simplify_eq/=. unfold PAGE_SIZE.
    split; [lia|]. rewrite Z.max_r by (Z.to_euclidean_division_equations; lia).
    rewrite Zminus_mod, Hm. reflexivity.
  - destruct (hasNext total p); simplify_eq/=. unfold PAGE_SIZE. split; [lia|].
    rewrite Z.add_mod, Hm by lia. reflexivity.
Qed.

Lemma audit_run_snoc es e p p' : run (es ++ [e]) p = Some p' -> exists p1, run es p = Some p1 /\ exec e p1 = Some p'.
Proof using Type.
  revert p. induction es as [|e0 es IH]; intros p; simpl.
  - destruct (exec e p) as [p1|] eqn:E; simpl; [|done]. intros [= <-]. by exists p.
  - destruct (exec e0 p); simpl; [|done]. apply IH.
Qed.

Lemma run_page es p :
  run es initial = Some p -> aligned p /\ draft p = (in_force es).1 /\ applied p = (in_force es).2.
Proof using Type.
  revert p. induction es as [|e es IH] using rev_ind; intros p Hr.
  - simpl in Hr. simplify_eq. done.
  - apply audit_run_snoc in Hr as (p1 & Hr & He). destruct (IH p1 Hr) as (Ha & Hd & Hf).
    split; [by eapply exec_aligned|]. unfold in_force. rewrite fold_left_app. fold (in_force es).
    destruct e; cbn [exec] in He; simplify_eq/=; rewrite <- ?Hd; try done.
    + destruct (hasPrev p1); by simplify_eq/=.
    + destruct (hasNext total p1); by simplify_eq/=.
Qed.
End page.

(** Rows the pages show, walking with Next from an offset. *)
Fixpoint walk {A} (fuel : nat) (rows : list A) (o : nat) : list A :=
  match fuel with
  | O => []
  | S fuel => take 50 (drop o rows) ++ (if o + 50 <? length rows then walk fuel rows (o + 50) else [])
  end.

Lemma walk_from {A} fuel (rows : list A) o : length rows - o < fuel -> walk fuel rows o = drop o rows.
Proof.
  revert o. induction fuel as [|fuel IH]; intros o Hf; [lia|]. cbn [walk].
  destruct (Nat.ltb_spec (o + 50) (length rows)) as [Hl|Hl].
  - rewrite IH by lia. rewrite <- (take_drop 50 (drop o rows)) at 2. by rewrite drop_drop.
  - rewrite app_nil_r. apply take_ge. rewrite length_drop. lia.
Qed.

(** The audit view shows the filters in force and all their rows.  In every
    session, the query and the CSV export use the filters committed by the
    last Apply (trimmed, none after a Reset), never the drafts being typed;
    the offset is always the start of a page; and walking with Next from the
    first page, as long as it is enabled, shows every row exactly once. *)
Theorem audit_page_consistent zone es p :
  run zone es initial = Some p ->
  filters p = MkFilters (actor_email (in_force zone es).2) (tenant_id (in_force zone es).2)
                (action (in_force zone es).2) (frm (in_force zone es).2) (to (in_force zone es).2)
                (Some 50%Z) (Some (offset_ p)) /\
  downloadAuditCsv (applied p) = downloadAuditCsv (in_force zone es).2 /\
  (0 <= offset_ p)%Z /\ (offset_ p mod 50 = 0)%Z /\
  (forall (A : Type) (rows : list A), walk (S (length rows)) rows 0 = rows).
Proof.
  intros Hr. destruct (run_page zone es p Hr) as ([Hp Hm] & Hd & Hf).
  unfold filters. rewrite Hf. split; [done|]. split; [done|]. split; [done|]. split; [done|].
  intros A rows. rewrite walk_from by lia. apply drop_0.
Qed.
End AuditPage.
