(* ===== verification/Dict.v ===== *)
(** * Dictionaries of interface texts

    The shape of [i18n/en.ts] and its sibling files: nested objects of texts.
    [t.feature.key] is [lookup_text]; [{name}] marks a parameter that a call
    site fills with [replace]. *)
From S2P Require Import Prelude JsString Json.
From Stdlib Require Import Ascii.

Inductive dict :=
| Text (s : string)
| Group (l : list (string * dict)).

(** [t.a.b.c] *)
Fixpoint lookup_text (path : list string) (d : dict) : option string :=
  match path, d with
  | [], Text s => Some s
  | k :: path, Group l => assoc k l ≫= lookup_text path
  | _, _ => None
  end.

(** All texts with their paths, in order. *)
Fixpoint texts (d : dict) : list (list string * string) :=
  match d with
  | Text s => [([], s)]
  | Group l => concat ((fun kv => (fun ps => (kv.1 :: ps.1, ps.2)) <$> texts kv.2) <$> l)
  end.
