(* ===== verification/Render.v ===== *)
(** * Filling parameters: [String.prototype.replace] and [replaceAll] with texts

    The call sites write [text.replace("{p}", value)].  In the replacement
    JavaScript expands [$$], [$&], [$`] and [$'] ([getSubstitution] below); the
    other [$] sequences stand for themselves when the pattern is a text. *)
From S2P Require Import Prelude JsString Json Dict.
From Stdlib Require Import Ascii.

Definition dollar : ascii := "$"%char.

(** The rest of [s] after the text [p] at its start. *)
Fixpoint after (p s : string) : option string :=
  match p, s with
  | EmptyString, _ => Some s
  | String a p, String b s => if a === b then after p s else None
  | String _ _, EmptyString => None
  end.

(** The replacement [v] for a match of [matched] between [before] and [rest]. *)
Fixpoint getSubstitution (before matched rest v : string) : string :=
  match v with
  | EmptyString => ""
  | String c v' =>
      if c === dollar then
        match v' with
        | String d v'' =>
            if d === dollar then String dollar (getSubstitution before matched rest v'')
            else if d === "&"%char then matched +:+ getSubstitution before matched rest v''
            else if d === "`"%char then before +:+ getSubstitution before matched rest v''
            else if d === "'"%char then rest +:+ getSubstitution before matched rest v''
            else String c (getSubstitution before matched rest v')
        | EmptyString => String c ""
        end
      else String c (getSubstitution before matched rest v')
  end.

(** [all] is [replaceAll], otherwise [replace]; [before] is what was read and
    [skip] the number of characters of the last match still to pass. *)
Fixpoint subst (all : bool) (pat v before : string) (skip : nat) (s : string) : string :=
  match s with
  | EmptyString => ""
  | String c s' =>
      let before' := before +:+ String c "" in
      match skip with
      | S n => subst all pat v before' n s'
      | O => match after pat s with
             | Some rest =>
                 getSubstitution before pat rest v +:+
                 (if all then subst all pat v before' (String.length pat - 1) s' else rest)
             | None => String c (subst all pat v before' 0 s')
             end
      end
  end.
Definition replace (all : bool) (pat v s : string) : string := subst all pat v "" 0 s.

(** [{p}] *)
Definition hole (p : string) : string := String "{"%char (p +:+ String "}"%char "").

(** A chain of replacements, as the call sites write it. *)
Definition render (val : string -> string) (chain : list (bool * string)) (s : string) : string :=
  fold_left (fun s '(all, p) => replace all (hole p) (val p) s) chain s.

(** ** Texts in parts *)
Inductive part := Fixed (s : string) | Hole (p : string).

Definition show (x : part) : string := match x with Fixed s => s | Hole p => hole p end.
Fixpoint print (ps : list part) : string :=
  match ps with [] => "" | x :: ps => show x +:+ print ps end.

Definition without (c : ascii) (s : string) : bool := negb (mem_char c s).
Definition flat (s : string) : bool := without "{"%char s.
Definition name (p : string) : bool := flat p && without "}"%char p.
Definition wf_part (x : part) : bool := match x with Fixed s => flat s | Hole p => name p end.

(** The parts of a text: [lit] and [open_] are what was read since the last
    part and since the last brace. *)
Fixpoint parts_from (lit : string) (open_ : option string) (s : string) : list part :=
  match s, open_ with
  | EmptyString, None => [Fixed lit]
  | EmptyString, Some n => [Fixed lit; Fixed (String "{"%char n)]
  | String c s, None =>
      if c === "{"%char then parts_from lit (Some "") s else parts_from (lit +:+ String c "") None s
  | String c s, Some n =>
      if c === "}"%char then Fixed lit :: Hole n :: parts_from "" None s
      else parts_from lit (Some (n +:+ String c "")) s
  end.
Definition parts (s : string) : list part := parts_from "" None s.

Definition holes (ps : list part) : list string :=
  omap (fun x => match x with Hole p => Some p | Fixed _ => None end) ps.
(** The parameters [{name}] of a text, in order. *)
Definition params (s : string) : list string := holes (parts s).
Definition instantiate (val : string -> string) (x : part) : part :=
  match x with Hole p => Fixed (val p) | Fixed s => Fixed s end.

(** A value that [replace] inserts as it is and that opens no parameter. *)
Definition plain (v : string) : bool := without dollar v && flat v.

Lemma without_cons c a s : without c (String a s) = negb (c === a) && without c s.
Proof.
  unfold without, mem_char. change (chars (String a s)) with (a :: chars s).
  rewrite <- negb_orb. f_equal. apply eq_iff_eq_true.
  rewrite orb_true_iff, !bool_decide_eq_true. apply elem_of_cons.
Qed.

Lemma cons_app a s t : String a s +:+ t = String a (s +:+ t).
Proof. done. Qed.
Lemma string_app_nil s : s +:+ "" = s.
Proof. induction s as [|a s IH]; [done|]. by rewrite cons_app, IH. Qed.
Lemma string_app_assoc r s t : r +:+ (s +:+ t) = (r +:+ s) +:+ t.
Proof. induction r as [|a r IH]; [done|]. by rewrite !cons_app, IH. Qed.
Lemma nil_app t : "" +:+ t = t.
Proof. done. Qed.

Lemma without_app c s t : without c (s +:+ t) = without c s && without c t.
Proof.
  induction s as [|a s IH]; [done|]. by rewrite cons_app, !without_cons, IH, andb_assoc.
Qed.

Lemma getSubstitution_plain before matched rest v :
  without dollar v = true -> getSubstitution before matched rest v = v.
Proof.
  induction v as [|c v IH]; [done|]. rewrite without_cons. intros [Hc Hv]%andb_true_iff.
  cbn [getSubstitution]. apply negb_true_iff, bool_decide_eq_false in Hc.
  rewrite bool_decide_false by congruence. by rewrite IH.
Qed.

Lemma after_app p s : after p (p +:+ s) = Some s.
Proof.
  induction p as [|a p IH]; [done|]. rewrite cons_app. cbn [after]. by rewrite bool_decide_true.
Qed.

(** Two names cannot be confused: each ends at its closing brace. *)
Lemma after_name p q s t :
  without "}"%char p = true -> without "}"%char q = true ->
  after (p +:+ String "}"%char "") (q +:+ String "}"%char s) = Some t -> p = q.
Proof.
  revert q. induction p as [|a p IH]; intros [|b q]; rewrite ?without_cons, ?cons_app, ?nil_app;
    intros Hp Hq; cbn [after].
  - done.
  - apply andb_true_iff in Hq as [Hb _]. apply negb_true_iff in Hb. by rewrite Hb.
  - apply andb_true_iff in Hp as [Ha _]. apply negb_true_iff, bool_decide_eq_false in Ha.
    by rewrite bool_decide_false by congruence.
  - apply andb_true_iff in Hp as [_ Hp], Hq as [_ Hq]. case_bool_decide; [|done].
    intros Ht. f_equal; [done|]. by eapply IH.
Qed.

(** *** One replacement on a text in parts *)
Section one.
Context (all : bool) (p v : string) (Hp : name p = true) (Hv : plain v = true).

Lemma subst_flat l before s :
  flat l = true -> subst all (hole p) v before 0 (l +:+ s) = l +:+ subst all (hole p) v (before +:+ l) 0 s.
Proof using Type.
  revert before. induction l as [|c l IH]; intros before.
  { intros _. by rewrite !nil_app, string_app_nil. }
  unfold flat. rewrite without_cons. intros [Hc Hl]%andb_true_iff.
  rewrite cons_app. cbn [subst].
  replace (after (hole p) (String c (l +:+ s))) with (@None string)
    by (cbn; apply negb_true_iff in Hc; by rewrite Hc).
  rewrite IH by done. rewrite <- string_app_assoc. done.
Qed.

Lemma subst_skip l before s :
  subst all (hole p) v before (String.length l) (l +:+ s) = subst all (hole p) v (before +:+ l) 0 s.
Proof using Type.
  revert before. induction l as [|c l IH]; intros before.
  { by rewrite nil_app, string_app_nil. }
  rewrite cons_app. cbn [subst String.length].
  rewrite IH, <- string_app_assoc. done.
Qed.

Lemma subst_other q before s :
  name q = true -> q <> p ->
  subst all (hole p) v before 0 (hole q +:+ s) = hole q +:+ subst all (hole p) v (before +:+ hole q) 0 s.
Proof using Hp.
  unfold name in *. intros [Hq Hq']%andb_true_iff Hne. pose proof Hp as [_ Hp']%andb_true_iff.
  set (l := q +:+ String "}"%char "").
  change (hole q +:+ s) with (String "{"%char (l +:+ s)). cbn [subst].
  replace (after (hole p) (String "{"%char (l +:+ s))) with (@None string).
  - assert (Hl : flat l = true) by (unfold flat, l; rewrite without_app; by apply andb_true_iff).
    rewrite subst_flat by done. rewrite <- string_app_assoc. done.
  - symmetry. cbn -[l]. unfold l. rewrite <- string_app_assoc.
    destruct (after _ _) as [t|] eqn:E; [|done]. by apply after_name in E.
Qed.

Lemma subst_hole before s :
  subst all (hole p) v before 0 (hole p +:+ s) =
  v +:+ (if all then subst all (hole p) v (before +:+ hole p) 0 s else s).
Proof using Hv.
  set (l := p +:+ String "}"%char "").
  change (hole p +:+ s) with (String "{"%char (l +:+ s)). cbn [subst].
  replace (after (hole p) (String "{"%char (l +:+ s))) with (Some s)
    by (symmetry; apply (after_app (hole p))).
  apply andb_true_iff in Hv as [Hd _]. rewrite getSubstitution_plain by done. f_equal.
  replace (String.length (hole p) - 1) with (String.length l) by (cbn; fold l; lia).
  by rewrite subst_skip, <- string_app_assoc.
Qed.

(** The same replacement on the parts. *)
Fixpoint fill (ps : list part) : list part :=
  match ps with
  | [] => []
  | Hole q :: ps => if q === p then Fixed v :: (if all then fill ps else ps) else Hole q :: fill ps
  | Fixed s :: ps => Fixed s :: fill ps
  end.

Lemma subst_print before ps :
  forallb wf_part ps = true -> subst all (hole p) v before 0 (print ps) = print (fill ps).
Proof using Hp Hv.
  revert before. induction ps as [|[s|q] ps IH]; intros before; cbn [forallb print show fill]; [done| |];
    intros [Hx Hps]%andb_true_iff.
  - rewrite subst_flat by done. by rewrite IH.
  - case_bool_decide as Hq.
    + subst q. rewrite subst_hole. cbn [print show]. f_equal. destruct all; [by apply IH|done].
    + rewrite subst_other by done. cbn [print show]. by rewrite IH.
Qed.

Lemma fill_wf ps : forallb wf_part ps = true -> forallb wf_part (fill ps) = true.
Proof using Hv.
  induction ps as [|[s|q] ps IH]; cbn [forallb fill]; [done| |]; intros [Hx Hps]%andb_true_iff.
  - cbn [forallb]. by rewrite Hx, IH.
  - case_bool_decide; cbn [forallb]; [|by rewrite Hx, IH].
    apply andb_true_iff in Hv as [_ Hf]. cbn [wf_part]. rewrite Hf. destruct all; auto.
Qed.
End one.

(** ** A chain of replacements *)
Definition occurrences (p : string) (ps : list string) : nat := length (filter (fun q => q = p) ps).

(** The chain has a step for every parameter of the text; a single-shot step
    meets at most one occurrence. *)
Definition fills (chain : list (bool * string)) (ps : list string) : bool :=
  forallb (fun p => bool_decide (p ∈ chain.*2)) ps &&
  forallb (fun '(all, p) => name p && (all || (occurrences p ps <=? 1))) chain.

Section chain.
Context (val : string -> string) (Hval : forall p, plain (val p) = true).

(** Replacing every occurrence of [p]. *)
Definition put (p : string) (x : part) : part :=
  match x with Hole q => if q === p then Fixed (val p) else x | Fixed _ => x end.

Lemma occurrences_cons p q l : occurrences p (q :: l) = (if q === p then 1 else 0) + occurrences p l.
Proof using Type. unfold occurrences. rewrite filter_cons. case_decide; [rewrite bool_decide_true|rewrite bool_decide_false]; done. Qed.

Lemma put_absent p ps : occurrences p (holes ps) = 0 -> put p <$> ps = ps.
Proof using Type.
  induction ps as [|[s|q] ps IH]; [done| |]; cbn [fmap list_fmap put].
  - intros H. f_equal. by apply IH.
  - change (holes (Hole q :: ps)) with (q :: holes ps). rewrite occurrences_cons.
    case_bool_decide; [done|]. intros H'. f_equal. by apply IH.
Qed.

Lemma fill_put all p ps :
  all || (occurrences p (holes ps) <=? 1) = true -> fill all p (val p) ps = put p <$> ps.
Proof using Type.
  induction ps as [|[s|q] ps IH]; [done| |]; cbn [fmap list_fmap put fill].
  - intros H. f_equal. by apply IH.
  - change (holes (Hole q :: ps)) with (q :: holes ps). rewrite occurrences_cons.
    case_bool_decide; intros H'; f_equal.
    + destruct all; [by apply IH|]. symmetry. apply put_absent. simpl in H'.
      apply Nat.leb_le in H'. lia.
    + by apply IH.
Qed.

Lemma occurrences_put p q ps : occurrences q (holes (put p <$> ps)) <= occurrences q (holes ps).
Proof using Type.
  induction ps as [|[s|r] ps IH]; [done| |]; cbn [fmap list_fmap put]; [exact IH|].
  case_bool_decide.
  - change (holes (Hole r :: ps)) with (r :: holes ps). rewrite occurrences_cons.
    change (holes (Fixed (val p) :: ?x)) with (holes x). etransitivity; [exact IH|lia].
  - change (holes (Hole r :: ?x)) with (r :: holes x). rewrite !occurrences_cons. apply Nat.add_le_mono_l, IH.
Qed.

Lemma fills_step all p chain ps :
  forallb (fun '(all, p) => name p && (all || (occurrences p (holes ps) <=? 1))) ((all, p) :: chain) = true ->
  name p = true /\ fill all p (val p) ps = put p <$> ps /\
  forallb (fun '(all, p') => name p' && (all || (occurrences p' (holes (put p <$> ps)) <=? 1))) chain = true.
Proof using Type.
  cbn [forallb]. intros [[Hn Ho]%andb_true_iff Hc]%andb_true_iff. split; [done|]. split; [by apply fill_put|].
  rewrite forallb_forall in Hc |- *. intros [a q] Hin. specialize (Hc _ Hin). simpl in Hc.
  apply andb_true_iff in Hc as [-> Hq]. simpl. destruct a; [done|]. simpl in *.
  apply Nat.leb_le in Hq. apply Nat.leb_le. etransitivity; [apply occurrences_put|done].
Qed.

Lemma render_print chain ps :
  forallb wf_part ps = true ->
  forallb (fun '(all, p) => name p && (all || (occurrences p (holes ps) <=? 1))) chain = true ->
  render val chain (print ps) = print (fold_left (fun ps p => put p <$> ps) chain.*2 ps).
Proof using Hval.
  revert ps. induction chain as [|[all p] chain IH]; intros ps Hps Hc; [done|].
  destruct (fills_step _ _ _ _ Hc) as (Hn & Hf & Hc').
  unfold render. cbn [fold_left fmap list_fmap fst snd]. unfold replace.
  rewrite subst_print by auto. rewrite Hf. apply IH; [|done].
  rewrite <- Hf. by apply fill_wf.
Qed.

Lemma puts_instantiate names ps :
  (forall p, p ∈ holes ps -> p ∈ names) ->
  fold_left (fun ps p => put p <$> ps) names ps = instantiate val <$> ps.
Proof using Type.
  assert (Hfix : forall names x, fold_left (fun ps p => put p <$> ps) names [x] =
            [match x with Hole p => if decide (p ∈ names) then Fixed (val p) else x | Fixed _ => x end]).
  { clear names. induction names as [|n names IH]; intros [s|p]; cbn [fold_left fmap list_fmap put]; [done|done|by rewrite IH|].
    case_bool_decide as Hn; rewrite IH.
    - subst n. by rewrite decide_True by left.
    - destruct (decide (p ∈ names)); [by rewrite decide_True by (by right)|].
      by rewrite decide_False by (by intros [?|?]%elem_of_cons). }
  assert (Happ : forall names xs ys, fold_left (fun ps p => put p <$> ps) names (xs ++ ys) =
            fold_left (fun ps p => put p <$> ps) names xs ++ fold_left (fun ps p => put p <$> ps) names ys).
  { clear. induction names as [|n names IH]; intros xs ys; [done|]. cbn [fold_left]. by rewrite fmap_app, IH. }
  induction ps as [|x ps IH]; intros Hin; [clear; by induction names|].
  change (x :: ps) with ([x] ++ ps). rewrite Happ, Hfix, IH, fmap_app.
  - f_equal. cbn [fmap list_fmap instantiate]. destruct x as [s|p]; [done|].
    rewrite decide_True; [done|]. apply Hin. left.
  - intros p Hp. apply Hin. destruct x; [done|by right].
Qed.

(** A chain that [fills] the parameters of a text yields the text with every
    parameter replaced by its value. *)
Lemma render_fills chain ps :
  forallb wf_part ps = true -> fills chain (holes ps) = true ->
  render val chain (print ps) = print (instantiate val <$> ps).
Proof using Hval.
  intros Hw [Hin Hc]%andb_true_iff. rewrite render_print by done. f_equal. apply puts_instantiate.
  rewrite forallb_forall in Hin. intros p Hp%list_elem_of_In%Hin. by apply bool_decide_eq_true in Hp.
Qed.
End chain.

(** JavaScript's substitution patterns reach the values: a tenant whose name
    contains [$&] is shown with the placeholder in it. *)
Lemma dollar_is_special : replace true (hole "tenant") "A$&B" "{tenant}: x" = "A{tenant}B: x".
Proof. reflexivity. Qed.
