(* ===== verification/DictEn.v ===== *)
(** * The English texts ([i18n/en.ts]), one definition per group *)
From S2P Require Import Prelude Dict.

Definition en_common : dict := Group [
  ("appName", Text "OPNGMS");
  ("logout", Text "Log out");
  ("none", Text "—");
  ("language", Text "Language");
  ("cancel", Text "Cancel")].

Definition en_nav : dict := Group [
  ("overview", Text "Overview");
  ("devices", Text "Devices");
  ("alerts", Text "Alerts");
  ("perimeter", Text "Perimeter");
  ("reportSettings", Text "Report settings");
  ("reportSchedule", Text "Report schedule");
  ("reports", Text "Reports");
  ("logs", Text "Logs");
  ("sessions", Text "Active sessions");
  ("mfa", Text "Two-factor auth");
  ("templates", Text "Template library");
  ("smtp", Text "SMTP");
  ("logFleet", Text "Log fleet");
  ("system", Text "System");
  ("groups", Text "Groups");
  ("audit", Text "Audit log")].

Definition en_login : dict := Group [
  ("title", Text "OPNGMS");
  ("email", Text "Email");
  ("password", Text "Password");
  ("passwordToggle", Text "Show/hide");
  ("submit", Text "Sign in");
  ("invalidCredentials", Text "Invalid credentials");
  ("mfa", Group [
    ("title", Text "Two-factor authentication");
    ("codeHint", Text "Enter the 6-digit code from your authenticator app.");
    ("recoveryHint", Text "Enter one of your one-time recovery codes.");
    ("codeLabel", Text "Authentication code");
    ("recoveryLabel", Text "Recovery code");
    ("verify", Text "Verify");
    ("useRecovery", Text "Use a recovery code instead");
    ("useCode", Text "Use an authenticator code instead");
    ("invalidCode", Text "Invalid code");
    ("or", Text "or");
    ("usePasskey", Text "Use a passkey / security key");
    ("passkeyError", Text "Passkey sign-in failed. Please try again.");
    ("passkeyNotSupported", Text "This browser does not support passkeys.");
    ("rememberDevice", Text "Trust this device for {days} days");
    ("rememberDeviceHelp", Text "You won't be asked for a second factor next time you sign in from this device.")])].

Definition en_tenant : dict := Group [
  ("activeLabel", Text "Active tenant");
  ("none", Text "No tenant")].

Definition en_overview : dict := Group [
  ("title", Text "Overview");
  ("activeAlerts", Text "Active alerts");
  ("noActiveAlerts", Text "No active alerts");
  ("healthLoadError", Text "Failed to load fleet health");
  ("alertsLoadError", Text "Failed to load alerts");
  ("attackerCountries", Group [
    ("title", Text "Top attacker countries");
    ("mapTitle", Text "Attack origins");
    ("empty", Text "No attacks recorded in this period.");
    ("private", Text "Private / internal");
    ("unknown", Text "Unknown");
    ("attribution", Text "Country data: DB-IP (CC BY 4.0)")])].

Definition en_alerts : dict := Group [
  ("title", Text "Alerts");
  ("active", Text "Active");
  ("history", Text "History");
  ("loadError", Text "Failed to load alerts");
  ("noAlerts", Text "No alerts");
  ("colType", Text "Type");
  ("colLabel", Text "Label");
  ("colSeverity", Text "Severity");
  ("colOpened", Text "Opened");
  ("colResolved", Text "Resolved");
  ("colDevice", Text "Device")].

Definition en_devices : dict := Group [
  ("title", Text "Devices");
  ("add", Text "Add device");
  ("loadError", Text "Failed to load devices");
  ("colName", Text "Name");
  ("colUrl", Text "URL");
  ("colStatus", Text "Status");
  ("colFirmware", Text "Firmware")].

Definition en_deviceDetail : dict := Group [
  ("url", Text "URL");
  ("status", Text "Status");
  ("firmware", Text "Firmware");
  ("loadError", Text "Failed to load device")].

Definition en_deviceActions : dict := Group [
  ("testConnection", Text "Test connection");
  ("delete", Text "Delete");
  ("testResult", Text "Test result");
  ("testNotification", Text "Test");
  ("testFailed", Text "Connection test failed");
  ("deleteFailed", Text "Delete failed");
  ("openWebGui", Text "Open WebGUI")].

Definition en_firmware : dict := Group [
  ("title", Text "Firmware");
  ("tab", Text "Firmware");
  ("check", Text "Check for updates");
  ("upToDate", Text "Up to date");
  ("updatesAvailable", Text "Updates available");
  ("downloadSize", Text "Download size");
  ("rebootNeeded", Text "Reboot needed");
  ("newMajor", Text "New major release available");
  ("update", Text "Update firmware");
  ("upgrade", Text "Upgrade to new major");
  ("updateConfirm", Text "Apply all pending package updates? The device may reboot.");
  ("upgradeConfirm", Text "Upgrade to the new major release? This runs multiple steps with reboots and can take a while.");
  ("plugins", Text "Plugins");
  ("pluginName", Text "Plugin name");
  ("install", Text "Install");
  ("remove", Text "Remove");
  ("installConfirm", Text "Install this plugin? The device must be on the latest firmware.");
  ("removeConfirm", Text "Remove this plugin?");
  ("runNow", Text "Run now");
  ("scheduleAt", Text "Schedule (leave empty to run now)");
  ("schedule", Text "Schedule");
  ("recentActions", Text "Recent actions");
  ("noActions", Text "No actions yet");
  ("actionQueued", Text "Action queued");
  ("actionFailed", Text "Could not queue the action");
  ("checkFailed", Text "Firmware check failed");
  ("kind", Text "Action");
  ("status", Text "Status");
  ("when", Text "When");
  ("result", Text "Result")].

Definition en_plugins : dict := Group [
  ("tab", Text "Plugins");
  ("title", Text "Plugins");
  ("subtitle", Text "Plugins the firewall reports. Install or remove community plugins; the device must be on the latest firmware to install.");
  ("search", Text "Search plugins…");
  ("name", Text "Plugin");
  ("status", Text "Status");
  ("version", Text "Version");
  ("installed", Text "Installed");
  ("notInstalled", Text "Available");
  ("locked", Text "Locked");
  ("install", Text "Install");
  ("remove", Text "Remove");
  ("installConfirm", Text "Install this plugin?");
  ("removeConfirm", Text "Remove this plugin?");
  ("empty", Text "No plugins reported yet — the device is polled periodically.");
  ("loadFailed", Text "Could not load plugins.");
  ("configure", Text "Configure");
  ("configureTitle", Text "Plugin configuration")].

Definition en_templates : dict := Group [
  ("tab", Text "Templates");
  ("libraryTitle", Text "Template library");
  ("superadminOnly", Text "The template library is managed by platform administrators.");
  ("name", Text "Name");
  ("kind", Text "Kind");
  ("type", Text "Alias type");
  ("content", Text "Content (one entry per line)");
  ("description", Text "Description");
  ("create", Text "New template");
  ("edit", Text "Edit");
  ("save", Text "Save");
  ("delete", Text "Delete");
  ("deleteConfirm", Text "Delete this template? Per-tenant overrides are removed; applied changes keep their history.");
  ("empty", Text "No templates yet.");
  ("created", Text "Template created");
  ("updated", Text "Template updated");
  ("saveFailed", Text "Could not save the template");
  ("apply", Group [
    ("title", Text "Apply a template");
    ("pick", Text "Template");
    ("override", Text "This customer's override (content, one entry per line — leave empty to use the library value)");
    ("saveOverride", Text "Save override");
    ("overrideSaved", Text "Override saved");
    ("preview", Text "Preview");
    ("previewTitle", Text "Effective configuration");
    ("applyConfirm", Text "Apply this template to the device?");
    ("runNow", Text "Apply now");
    ("scheduleAt", Text "Schedule (leave empty to apply now)");
    ("schedule", Text "Schedule");
    ("queued", Text "Apply queued");
    ("failed", Text "Could not apply the template");
    ("none", Text "No templates available.")]);
  ("templatesTab", Text "Templates");
  ("kindLabel", Text "Template type");
  ("kindAlias", Text "Firewall alias");
  ("kindSetting", Text "OPNsense setting");
  ("setting", Group [
    ("endpoint", Text "Setting");
    ("referenceDevice", Text "Reference device (to read the available fields)");
    ("load", Text "Load fields");
    ("loadHint", Text "Pick a setting + a device, then load the fields to configure.");
    ("noDevice", Text "No device available in the active tenant to read fields from.");
    ("loadFailed", Text "Could not read the setting from the device.");
    ("noFields", Text "No configurable fields.");
    ("hardwareNote", Text "Hardware/device-specific fields are intentionally not templatable.")]);
  ("kindFirewallRule", Text "Firewall rule (Rules [new])");
  ("fw", Group [
    ("referenceDevice", Text "Reference device (to read the available rule fields)");
    ("load", Text "Load fields");
    ("loadHint", Text "Pick a device, then load the rule fields to configure.");
    ("noDevice", Text "No device available in the active tenant to read fields from.");
    ("loadFailed", Text "Could not read the rule model from the device.");
    ("descriptionRequired", Text "A description is required (it is the rule identity).");
    ("interface", Text "Interface (chosen at apply time)");
    ("floating", Text "Floating (no interface)");
    ("note", Text "The interface is chosen at apply time; leave it empty for a floating rule.")]);
  ("kindMonitTest", Text "Monit health-check test");
  ("monit", Group [
    ("referenceDevice", Text "Reference device (to read the available test fields)");
    ("load", Text "Load fields");
    ("loadHint", Text "Pick a device, then load the test fields to configure.");
    ("noDevice", Text "No device available in the active tenant to read fields from.");
    ("loadFailed", Text "Could not read the test model from the device.");
    ("nameRequired", Text "A name is required (it is the test identity).");
    ("note", Text "A test takes effect once attached to a Monit service.");
    ("attachSystem", Text "Attach this test to the system service so it takes effect");
    ("attachSystemNote", Text "When enabled, applying also attaches the test to the device's Monit system service.")]);
  ("kindIdsRulesets", Text "Suricata/IDS rulesets");
  ("ids", Group [
    ("referenceDevice", Text "Reference device (to read the available rulesets)");
    ("load", Text "Load rulesets");
    ("loadHint", Text "Pick a device, then load its rulesets to choose which to enable.");
    ("noDevice", Text "No device available in the active tenant to read rulesets from.");
    ("loadFailed", Text "Could not read the rulesets from the device.");
    ("rulesets", Text "Rulesets to enable");
    ("noRulesets", Text "No rulesets found on the device.");
    ("note", Text "Applying enables the selected rulesets (additive — it does not disable others).")]);
  ("kindIdsPolicy", Text "Suricata/IDS policy");
  ("idsPolicy", Group [
    ("description", Text "Description (the policy identity)");
    ("enabled", Text "Enabled");
    ("prio", Text "Priority");
    ("action", Text "Match current action (rules whose action is one of these)");
    ("newAction", Text "New action");
    ("rulesets", Text "Rulesets the policy applies to");
    ("referenceDevice", Text "Reference device (to read the available rulesets)");
    ("load", Text "Load rulesets");
    ("loadHint", Text "Pick a device, then load its enabled rulesets to reference.");
    ("noDevice", Text "No device available in the active tenant to read rulesets from.");
    ("noRulesets", Text "No enabled rulesets found on the device (enable a ruleset first).");
    ("loadFailed", Text "Could not read the rulesets from the device.");
    ("content", Text "Metadata filters (advanced — most policies need none)");
    ("contentKey", Text "Key");
    ("contentValues", Text "Values (comma-separated)");
    ("contentKeyInvalid", Text "Invalid key — use letters, digits, dots, dashes or underscores.");
    ("addContent", Text "Add filter");
    ("descriptionRequired", Text "A description is required (it is the policy identity).");
    ("note", Text "Referenced rulesets must already be enabled on the device. The rulesets/content mapping is verified at runtime on apply.")]);
  ("profiles", Group [
    ("tab", Text "Profiles");
    ("name", Text "Name");
    ("description", Text "Description");
    ("members", Text "Templates (in apply order)");
    ("create", Text "New profile");
    ("edit", Text "Edit");
    ("save", Text "Save");
    ("delete", Text "Delete");
    ("deleteConfirm", Text "Delete this profile? Applied changes keep their history.");
    ("empty", Text "No profiles yet.");
    ("created", Text "Profile created");
    ("updated", Text "Profile updated");
    ("saveFailed", Text "Could not save the profile");
    ("memberCount", Text "templates");
    ("apply", Group [
      ("title", Text "Apply a profile");
      ("pick", Text "Profile");
      ("preview", Text "Preview");
      ("previewTitle", Text "Effective configuration (per template, in order)");
      ("interface", Text "Interface (chosen at apply time)");
      ("floating", Text "Floating (no interface)");
      ("empty", Text "No profiles available.");
      ("applyConfirm", Text "Apply this profile to the device? It applies each member template in order.");
      ("runNow", Text "Apply now");
      ("scheduleAt", Text "Schedule (leave empty to apply now)");
      ("schedule", Text "Schedule");
      ("queued", Text "Profile apply queued");
      ("failed", Text "Could not apply the profile")])])].

Definition en_deviceCreate : dict := Group [
  ("title", Text "Add device");
  ("name", Text "Name");
  ("url", Text "URL (https)");
  ("apiKey", Text "API key");
  ("apiSecret", Text "API secret");
  ("verifyTls", Text "Verify TLS");
  ("tlsWarning", Text "With TLS verification off, nothing authenticates the device's certificate — credentials can be intercepted. Pin the certificate's SHA-256 fingerprint below to restore protection.");
  ("tlsFingerprintLabel", Text "Certificate SHA-256 fingerprint (optional)");
  ("tlsFingerprintPlaceholder", Text "00:42:E2:C4:07:61:06:0D:56:A4:75:2F:FC:32:2B:4E:B3:CE:FF:31:8A:88:F3:22:2B:C1:B1:0D:46:0B:04:2C");
  ("save", Text "Save");
  ("created", Text "Device created");
  ("createFailed", Text "Create failed")].

Definition en_health : dict := Group [
  ("totalDevices", Text "Total devices");
  ("activeAlerts", Text "Active alerts")].

Definition en_logForwarding : dict := Group [
  ("tab", Text "Log forwarding")].

Definition en_catalog : dict := Group [
  ("tab", Text "Editor");
  ("searchModels", Text "Search settings…");
  ("noModels", Text "No catalog for this device version.");
  ("selectModel", Text "Select a setting group on the left to edit it.");
  ("readOnly", Text "Not editable (safety denylist).");
  ("unreachable", Text "Device unreachable — live values are required to edit.");
  ("liveValues", Text "Live values");
  ("propose", Text "Propose change");
  ("preview", Text "Review change");
  ("noChanges", Text "No changes to propose.");
  ("proposed", Text "Draft change created — schedule it from the Config tab.");
  ("proposeFailed", Text "Could not create the change.");
  ("loadFailed", Text "Could not load the model.");
  ("openWebgui", Text "Open in WebGUI");
  ("searchAll", Text "Search settings…");
  ("grid", Group [
    ("add", Text "Add row");
    ("save", Text "Save");
    ("edit", Text "Edit");
    ("delete", Text "Delete");
    ("empty", Text "No rows.")]);
  ("diff", Group [
    ("baseline", Text "Compare with");
    ("noBaseline", Text "No earlier version");
    ("newSince", Text "New since {v}");
    ("changedSince", Text "Changed since {v}");
    ("changes", Text "changes")]);
  ("map", Group [
    ("tabMenu", Text "Menu");
    ("tabMap", Text "Config map");
    ("editInCatalog", Text "Edit in catalog");
    ("readOnly", Text "read-only (no API)");
    ("staleBanner", Text "Stale — device unreachable; showing the last backup from {when}")])].

Definition en_config : dict := Group [
  ("tabInfo", Text "Info");
  ("tabHealth", Text "Health");
  ("tabConfig", Text "Config");
  ("capabilities", Text "Capabilities");
  ("version", Text "OPNsense version");
  ("interfaces", Text "Interfaces");
  ("configuredSections", Text "Configured sections");
  ("available", Text "Available capabilities");
  ("hidden", Text "hidden");
  ("noConfigYet", Text "No configuration captured yet");
  ("nic", Text "NIC");
  ("changes", Group [
    ("title", Text "Pending changes");
    ("propose", Text "Propose alias change");
    ("none", Text "No pending changes");
    ("colKind", Text "Kind");
    ("colOperation", Text "Operation");
    ("colTarget", Text "Target");
    ("colStatus", Text "Status");
    ("colScheduled", Text "Scheduled");
    ("preview", Text "Preview");
    ("schedule", Text "Schedule");
    ("cancel", Text "Cancel");
    ("revert", Text "Revert");
    ("reverts", Text "reverts #");
    ("applyNow", Text "Apply now");
    ("pickTime", Text "Pick date/time");
    ("checkDrift", Text "Check drift");
    ("driftUnreachable", Text "Could not reach the device — drift unknown.");
    ("driftInSync", Text "in sync");
    ("driftDrifted", Text "drift");
    ("driftMissing", Text "missing");
    ("driftUnsupported", Text "n/a");
    ("driftFields", Text "Drifted fields: ");
    ("operation", Text "Operation");
    ("name", Text "Name");
    ("type", Text "Type");
    ("content", Text "Content (one per line)");
    ("create", Text "Create");
    ("add", Text "add");
    ("set", Text "set");
    ("delete", Text "delete")])].

Definition en_deviceHealth : dict := Group [
  ("title", Text "Health");
  ("cpu", Text "CPU");
  ("memory", Text "Memory");
  ("disk", Text "Disk");
  ("trafficIn", Text "Traffic in");
  ("trafficOut", Text "Traffic out");
  ("gatewayRtt", Text "Gateway RTT");
  ("gatewayLoss", Text "Gateway loss");
  ("vpnUp", Text "VPN up")].

Definition en_chart : dict := Group [
  ("noData", Text "No data yet")].

Definition en_reports : dict := Group [
  ("page", Group [
    ("title", Text "Reports");
    ("generate", Text "Generate report");
    ("from", Text "From");
    ("to", Text "To");
    ("period", Text "Period");
    ("kind", Text "Kind");
    ("created", Text "Created");
    ("size", Text "Size");
    ("download", Text "Download");
    ("none", Text "No reports yet.");
    ("generated", Text "Report generated");
    ("kindOnDemand", Text "On demand");
    ("kindScheduled", Text "Scheduled")]);
  ("settings", Group [
    ("pageTitle", Text "Report settings");
    ("title", Text "Report title");
    ("owner", Text "Owner");
    ("timezone", Text "Timezone");
    ("fromEmail", Text "From email (report delivery)");
    ("logo", Text "Logo");
    ("upload", Text "Upload logo");
    ("remove", Text "Remove logo");
    ("language", Text "Report language");
    ("save", Text "Save settings");
    ("adminsOnly", Text "Reporting settings are available to tenant admins only.");
    ("saved", Text "Report settings saved.");
    ("logoUploaded", Text "Logo uploaded.");
    ("logoRemoved", Text "Logo removed.");
    ("hasLogo", Text "Logo uploaded");
    ("noLogo", Text "No logo")]);
  ("sections", Group [
    ("title", Text "Report sections");
    ("description", Text "Choose which sections appear in the PDF report.");
    ("customizeForDevice", Text "Customize sections for this device");
    ("summary", Text "Executive summary");
    ("health", Text "Device health");
    ("alerts_wan", Text "Alerts & connectivity");
    ("attacks", Text "Attacks");
    ("attacker_countries", Text "Attacker countries");
    ("failed_logins", Text "Failed logins");
    ("firewall_blocks", Text "Firewall blocks");
    ("web", Text "Web activity");
    ("data", Text "Data usage");
    ("status", Text "Up/down status");
    ("firmware_config", Text "Firmware & configuration");
    ("applications", Text "Applications");
    ("web_filter", Text "Web filter")])].

Definition en_sessions : dict := Group [
  ("pageTitle", Text "Active sessions");
  ("colLastSeen", Text "Last seen");
  ("colCreated", Text "Created");
  ("colExpires", Text "Expires");
  ("colIp", Text "IP address");
  ("colUserAgent", Text "User agent");
  ("current", Text "Current");
  ("logoutAll", Text "Log out everywhere");
  ("loadError", Text "Failed to load sessions");
  ("logoutAllError", Text "Failed to log out everywhere")].

Definition en_mfa : dict := Group [
  ("pageTitle", Text "Two-factor authentication");
  ("intro", Text "Protect your account with a time-based one-time password (TOTP) from an authenticator app.");
  ("status", Text "Status");
  ("enabled", Text "Enabled");
  ("disabled", Text "Disabled");
  ("recoveryRemaining", Text "Recovery codes remaining");
  ("statusError", Text "Failed to load MFA status");
  ("enroll", Text "Set up two-factor authentication");
  ("enrollStart", Text "Start setup");
  ("password", Text "Current password");
  ("passwordHint", Text "Re-enter your password to change two-factor settings.");
  ("scanHint", Text "Scan this QR code with your authenticator app, or enter the secret manually.");
  ("secretLabel", Text "Secret key");
  ("confirmCodeLabel", Text "Authentication code");
  ("confirmHint", Text "Enter the 6-digit code from your app to finish setup.");
  ("confirm", Text "Confirm and enable");
  ("cancel", Text "Cancel");
  ("setupError", Text "Could not start setup (check your password).");
  ("confirmError", Text "Invalid code. Please try again.");
  ("recoveryTitle", Text "Recovery codes");
  ("recoveryIntro", Text "Save these one-time recovery codes somewhere safe. Each can be used once if you lose your authenticator.");
  ("recoveryWarning", Text "These codes are shown only once.");
  ("copyAll", Text "Copy all");
  ("copied", Text "Copied to clipboard");
  ("download", Text "Download");
  ("done", Text "Done");
  ("regenerate", Text "Regenerate recovery codes");
  ("regenerateError", Text "Could not regenerate recovery codes (check your password).");
  ("disable", Text "Disable two-factor authentication");
  ("disableConfirmTitle", Text "Disable two-factor authentication?");
  ("disableConfirmBody", Text "Your account will no longer require a second factor at login.");
  ("disableError", Text "Could not disable (check your password).");
  ("disabledNotice", Text "Two-factor authentication disabled.");
  ("policyTitle", Text "Organization MFA policy");
  ("policyIntro", Text "Require two-factor authentication across the organization.");
  ("policyOff", Text "Off");
  ("policyAll", Text "All users");
  ("policyPrivileged", Text "Privileged users");
  ("policyLoadError", Text "Failed to load the MFA policy");
  ("policySaveError", Text "Failed to update the MFA policy");
  ("policySaved", Text "MFA policy updated");
  ("usersTitle", Text "User MFA");
  ("colUser", Text "User");
  ("colEmail", Text "Email");
  ("colRole", Text "Role");
  ("superadmin", Text "Superadmin");
  ("member", Text "Member");
  ("reset", Text "Reset MFA");
  ("resetConfirmTitle", Text "Reset this user's MFA?");
  ("resetConfirmBody", Text "This clears their TOTP secret and recovery codes. They will need to re-enroll.");
  ("resetError", Text "Failed to reset the user's MFA");
  ("resetDone", Text "User MFA reset");
  ("usersLoadError", Text "Failed to load users");
  ("gateTitle", Text "Two-factor authentication required");
  ("gateIntro", Text "Your organization requires two-factor authentication. Set it up now to continue.");
  ("passkeys", Group [
    ("title", Text "Passkeys");
    ("intro", Text "Register a passkey or security key to sign in without a code.");
    ("add", Text "Add passkey");
    ("accountPassword", Text "Account password");
    ("name", Text "Name");
    ("namePlaceholder", Text "e.g. Work laptop");
    ("unnamed", Text "Passkey");
    ("colName", Text "Name");
    ("colCreated", Text "Created");
    ("remove", Text "Remove");
    ("removeConfirmTitle", Text "Remove this passkey?");
    ("removeConfirmBody", Text "This passkey will no longer be usable to sign in.");
    ("addedNotice", Text "Passkey added.");
    ("removedNotice", Text "Passkey removed.");
    ("addError", Text "Could not add the passkey. Please try again.");
    ("removeError", Text "Could not remove the passkey.");
    ("listError", Text "Failed to load passkeys");
    ("lastFactorError", Text "You can't remove your last second factor. Add another factor first.");
    ("notConfigured", Text "Passkeys are not configured for your organization.");
    ("notSupported", Text "This browser does not support passkeys.")]);
  ("trustedDeviceToggle", Group [
    ("label", Text "Remember-this-device");
    ("help", Text "Let users skip the second factor on devices they choose to trust.")]);
  ("trustedDevices", Group [
    ("title", Text "Trusted devices");
    ("intro", Text "Devices you've trusted can sign in without a second factor until they expire. Revoke any you no longer recognize.");
    ("colDevice", Text "Device");
    ("colIp", Text "IP address");
    ("colLastUsed", Text "Last used");
    ("colExpires", Text "Expires");
    ("revoke", Text "Revoke");
    ("revokeAll", Text "Revoke all");
    ("confirmTitle", Text "Revoke this device?");
    ("confirmBody", Text "This device will need a second factor again at the next sign-in.");
    ("revokeAllConfirmTitle", Text "Revoke all trusted devices?");
    ("revokeAllConfirmBody", Text "Every trusted device will need a second factor again at the next sign-in.");
    ("empty", Text "No trusted devices.");
    ("loadError", Text "Failed to load trusted devices.");
    ("revokeError", Text "Could not revoke the device.");
    ("unknownDevice", Text "Unknown device")])].

Definition en_groups : dict := Group [
  ("title", Text "Groups");
  ("description", Text "Define groups of users and the tenant access they receive.");
  ("superadminOnly", Text "Groups are managed by platform administrators.");
  ("name", Text "Name");
  ("namePlaceholder", Text "Group name");
  ("descriptionField", Text "Description");
  ("descriptionPlaceholder", Text "Optional description");
  ("members", Text "Members");
  ("membersPlaceholder", Text "Select users");
  ("noMembers", Text "No members yet.");
  ("grants", Text "Access grants");
  ("noGrants", Text "No grants yet.");
  ("addGrant", Text "Add grant");
  ("allTenants", Text "All tenants");
  ("tenant", Text "Tenant");
  ("tenantPlaceholder", Text "Select a tenant");
  ("role", Text "Role");
  ("roleTenantAdmin", Text "Tenant admin");
  ("roleOperator", Text "Operator");
  ("roleReadOnly", Text "Read only");
  ("allTenantsScope", Text "All tenants");
  ("create", Text "New group");
  ("createTitle", Text "Create group");
  ("save", Text "Save");
  ("delete", Text "Delete");
  ("deleteConfirm", Text "Delete this group? Its members lose the access it granted. This cannot be undone.");
  ("removeGrant", Text "Remove grant");
  ("empty", Text "No groups yet.");
  ("created", Text "Group created");
  ("updated", Text "Group updated");
  ("deleted", Text "Group deleted");
  ("membersSaved", Text "Members updated");
  ("grantAdded", Text "Grant added");
  ("grantRemoved", Text "Grant removed");
  ("saveFailed", Text "Could not save the group");
  ("loadError", Text "Failed to load groups")].

Definition en_confirm : dict := Group [
  ("title", Text "Are you sure?");
  ("cancel", Text "Cancel");
  ("confirm", Text "Confirm");
  ("deleteDevice", Text "Delete device");
  ("deleteDeviceBody", Text "This will permanently delete the device and all its data. This action cannot be undone.")].

Definition en_errors : dict := Group [
  ("fleetHealthLoad", Text "Failed to load fleet health");
  ("alertsLoad", Text "Failed to load alerts");
  ("metricsLoad", Text "Failed to load metrics");
  ("configModelLoad", Text "Failed to load configuration");
  ("configCapabilitiesLoad", Text "Failed to load capabilities");
  ("configChangesLoad", Text "Failed to load changes");
  ("configChangeAction", Text "Action failed (you may lack permission)");
  ("reportSettingsLoad", Text "Failed to load report settings");
  ("reportSettingsAction", Text "Report settings action failed");
  ("reportsLoad", Text "Failed to load reports");
  ("reportGenerate", Text "Failed to generate report");
  ("attackerCountriesLoad", Text "Failed to load attacker countries");
  ("perimeterLoad", Text "Failed to load perimeter data");
  ("auditLoad", Text "Failed to load the audit log");
  ("retentionLoad", Text "Failed to load retention settings");
  ("retentionSave", Text "Failed to save retention settings")].

Definition en_system : dict := Group [
  ("title", Text "System");
  ("subtitle", Text "Platform-wide runtime settings.");
  ("livePush", Group [
    ("label", Text "Live config push to devices");
    ("help", Text "When ON, applying a config change writes to the real device. When OFF, changes are dry-run only.");
    ("loadError", Text "Failed to load the live-push setting.");
    ("enabled", Text "Live config push enabled");
    ("disabled", Text "Live config push disabled");
    ("updateError", Text "Failed to update live config push")]);
  ("runtime", Group [
    ("title", Text "Runtime settings");
    ("subtitle", Text "Tunable without a restart; the value here overrides the deploy default from .env.");
    ("loadError", Text "Failed to load runtime settings.");
    ("save", Text "Save");
    ("discard", Text "Discard changes");
    ("saved", Text "Runtime settings saved");
    ("saveError", Text "Failed to save runtime settings");
    ("defaultLabel", Text "default");
    ("impactsTitle", Text "Lowering this retention default affects tenants");
    ("impactItem", Text "{tenant}: a {store} report schedule needs {range} days but {store} is now kept {bound} days.");
    ("groups", Group [
      ("firmware", Text "Firmware");
      ("distribution", Text "Catalog & GeoIP distribution");
      ("maintenance", Text "Maintenance");
      ("retention", Text "Data retention");
      ("security_login", Text "Login protection");
      ("security_session", Text "Sessions")]);
    ("items", Group [
      ("firmware_max_status_polls", Group [
        ("label", Text "Max status polls");
        ("help", Text "Status polls before a firmware action is given up.")]);
      ("firmware_poll_interval_seconds", Group [
        ("label", Text "Poll interval (s)");
        ("help", Text "Delay between firmware status polls.")]);
      ("catalog_auto_fetch", Group [
        ("label", Text "Auto-fetch config catalogs");
        ("help", Text "Fetch versioned catalogs from the release on a cache miss.")]);
      ("geoip_auto_fetch", Group [
        ("label", Text "Auto-fetch GeoIP database");
        ("help", Text "Fetch the GeoIP database from the release on a cache miss.")]);
      ("silent_alert_enabled", Group [
        ("label", Text "Silent-tenant alerts");
        ("help", Text "Alert when a tenant with forwarding stops shipping logs.")]);
      ("silent_alert_after_hours", Group [
        ("label", Text "Silent after (hours)");
        ("help", Text "Hours of silence before a tenant is flagged.")]);
      ("perimeter_retention_days", Group [
        ("label", Text "Perimeter retention (days)");
        ("help", Text "Global default for how long perimeter attacker data is kept.")]);
      ("events_retention_days", Group [
        ("label", Text "Events retention (days)");
        ("help", Text "Global default for how long event data is kept.")]);
      ("metrics_retention_days", Group [
        ("label", Text "Metrics retention (days)");
        ("help", Text "Global default for how long metric data is kept.")]);
      ("log_lake_retention_days", Group [
        ("label", Text "Log lake retention (days)");
        ("help", Text "Global default for how long log lake data is kept.")]);
      ("login_max_attempts", Group [
        ("label", Text "Max login attempts");
        ("help", Text "Failed login attempts allowed before lockout.")]);
      ("login_lockout_window_seconds", Group [
        ("label", Text "Lockout window (s)");
        ("help", Text "Sliding window for the failed-login count.")]);
      ("session_ttl_hours", Group [
        ("label", Text "Session lifetime (hours)");
        ("help", Text "Absolute session lifetime.")]);
      ("session_idle_minutes", Group [
        ("label", Text "Idle timeout (minutes)");
        ("help", Text "Idle time before a session expires.")]);
      ("trusted_device_days", Group [
        ("label", Text "Trusted device lifetime (days)");
        ("help", Text "How long a trusted device may skip the second factor before it must be re-trusted.")])])])].

Definition en_logFleet : dict := Group [
  ("title", Text "Log fleet");
  ("loadError", Text "Failed to load the log fleet.");
  ("exportCsv", Text "Export CSV");
  ("exportPdf", Text "Export PDF");
  ("exportFailed", Text "Export failed.");
  ("silentBadge", Text "silent");
  ("silentAlertsTitle", Text "Silent-tenant alerts");
  ("silentAlertsBody", Text "enabled forwarding but no recent logs.");
  ("volume", Text "Volume");
  ("devicesTitle", Text "Devices");
  ("devicesLoadError", Text "Failed to load devices.");
  ("noDevices", Text "No devices.");
  ("stats", Group [
    ("tenantsForwarding", Text "Tenants forwarding");
    ("enabledDevices", Text "Enabled devices");
    ("silentTenants", Text "Silent tenants")]);
  ("table", Group [
    ("tenant", Text "Tenant");
    ("device", Text "Device");
    ("forwarding", Text "Forwarding");
    ("revoked", Text "Revoked");
    ("lastLog", Text "Last log")])].

Definition en_perimeter : dict := Group [
  ("title", Text "Perimeter");
  ("subtitle", Text "Attacker IPs at the firewall perimeter — failed logins to the box and blocked traffic.");
  ("failedLogins", Text "Failed logins");
  ("firewallBlocks", Text "Firewall blocks");
  ("failedLoginsHelp", Text "Login attempts to the box that were rejected.");
  ("firewallBlocksHelp", Text "Inbound traffic dropped by the firewall.");
  ("ip", Text "Source IP");
  ("country", Text "Country");
  ("user", Text "User");
  ("port", Text "Port");
  ("count", Text "Count");
  ("lastSeen", Text "Last seen");
  ("empty", Text "No activity in this window.");
  ("viewAll", Text "View all");
  ("loadError", Text "Failed to load perimeter data.")].

Definition en_retention : dict := Group [
  ("title", Text "Data retention");
  ("subtitle", Text "Override how long this tenant's data is kept. Leave a field empty to inherit the global default.");
  ("inheritHint", Text "Inherit global");
  ("save", Text "Save retention");
  ("saved", Text "Retention settings saved.");
  ("stores", Group [
    ("perimeter", Text "Perimeter (days)");
    ("events", Text "Events (days)");
    ("metrics", Text "Metrics (days)");
    ("log_lake", Text "Log lake (days)")]);
  ("warningTitle", Text "Report schedules exceed retention");
  ("warningItem", Text "A {frequency} schedule covers {range} days but {store} data is kept {bound} days.")].

Definition en_audit : dict := Group [
  ("title", Text "Audit log");
  ("subtitle", Text "Every mutating action across the platform, by actor and tenant.");
  ("filters", Group [
    ("actor", Text "Actor email");
    ("tenant", Text "Tenant ID");
    ("action", Text "Action");
    ("from", Text "From");
    ("to", Text "To");
    ("apply", Text "Apply");
    ("reset", Text "Reset")]);
  ("columns", Group [
    ("time", Text "Time");
    ("actor", Text "Actor");
    ("tenant", Text "Tenant");
    ("action", Text "Action");
    ("target", Text "Target");
    ("ip", Text "IP");
    ("details", Text "Details")]);
  ("empty", Text "No audit entries match these filters.");
  ("export", Text "Export CSV");
  ("exportFailed", Text "Export failed.");
  ("page", Text "Page {page}");
  ("showingTotal", Text "{total} entries");
  ("prev", Text "Previous");
  ("next", Text "Next")].

Definition en_reliability : dict := Group [
  ("tab", Text "Reliability");
  ("title", Text "Service events (24h)");
  ("subtitle", Text "Reboots, service crashes/restarts and disk warnings from the device system log.");
  ("time", Text "Time");
  ("category", Text "Category");
  ("name", Text "Event");
  ("severity", Text "Severity");
  ("process", Text "Process");
  ("message", Text "Message");
  ("categories", Group [
    ("reboot", Text "Reboot");
    ("service", Text "Service");
    ("disk", Text "Disk")]);
  ("severities", Group [
    ("high", Text "High");
    ("medium", Text "Medium");
    ("low", Text "Low")]);
  ("loadMore", Text "Load more");
  ("empty", Text "No service events in this window.");
  ("loading", Text "Loading service events…");
  ("loadError", Text "Failed to load service events.");
  ("last24h", Text "Last 24 hours")].

Definition en_configAudit : dict := Group [
  ("tab", Text "Config changes");
  ("title", Text "Direct config changes (24h)");
  ("subtitle", Text "Who changed the box config and how — direct on-box (GUI/console) changes are flagged as drift.");
  ("time", Text "Time");
  ("area", Text "Area");
  ("actor", Text "Actor");
  ("ip", Text "IP");
  ("channel", Text "Channel");
  ("change", Text "Change");
  ("direct", Text "Direct");
  ("channels", Group [
    ("api", Text "API");
    ("gui", Text "WebGUI");
    ("system", Text "Console/script");
    ("opngms", Text "OPNGMS");
    ("api_external", Text "External API")]);
  ("loadMore", Text "Load more");
  ("empty", Text "No config changes in this window.");
  ("loading", Text "Loading config changes…");
  ("loadError", Text "Failed to load config changes.");
  ("last24h", Text "Last 24 hours")].

Definition en_smtp : dict := Group [
  ("authMethod", Text "Authentication");
  ("authPassword", Text "Password");
  ("authOauth", Text "OAuth2");
  ("oauthProvider", Text "Provider");
  ("oauthGoogle", Text "Google / Gmail");
  ("oauthMicrosoft", Text "Microsoft 365");
  ("oauthClientId", Text "Client ID");
  ("oauthClientSecret", Text "Client secret");
  ("oauthRefreshToken", Text "Refresh token");
  ("oauthTenantId", Text "Tenant ID");
  ("oauthSecretSaved", Text "saved — leave blank to keep");
  ("oauthConnect", Text "Connect account");
  ("oauthConnectGoogle", Text "Connect with Google");
  ("oauthConnectMicrosoft", Text "Connect with Microsoft 365");
  ("oauthExperimental", Text "Experimental — untested");
  ("oauthExperimentalNote", Text "Browser sign-in for OAuth has not been verified against a live provider. It needs PUBLIC_BASE_URL set and the redirect URI registered in your OAuth app. Pasting a refresh token above remains the supported path.");
  ("oauthConnectNeedsCreds", Text "Save the client ID and secret first, then connect.");
  ("oauthConnected", Text "Account connected.");
  ("oauthConnectFailed", Text "Could not connect the account.")].

Definition en : dict := Group [
  ("common", en_common);
  ("nav", en_nav);
  ("login", en_login);
  ("tenant", en_tenant);
  ("overview", en_overview);
  ("alerts", en_alerts);
  ("devices", en_devices);
  ("deviceDetail", en_deviceDetail);
  ("deviceActions", en_deviceActions);
  ("firmware", en_firmware);
  ("plugins", en_plugins);
  ("templates", en_templates);
  ("deviceCreate", en_deviceCreate);
  ("health", en_health);
  ("logForwarding", en_logForwarding);
  ("catalog", en_catalog);
  ("config", en_config);
  ("deviceHealth", en_deviceHealth);
  ("chart", en_chart);
  ("reports", en_reports);
  ("sessions", en_sessions);
  ("mfa", en_mfa);
  ("groups", en_groups);
  ("confirm", en_confirm);
  ("errors", en_errors);
  ("system", en_system);
  ("logFleet", en_logFleet);
  ("perimeter", en_perimeter);
  ("retention", en_retention);
  ("audit", en_audit);
  ("reliability", en_reliability);
  ("configAudit", en_configAudit);
  ("smtp", en_smtp)].
