(* ===== verification/DictIt.v ===== *)
(** * The Italian texts ([i18n/it.ts]), one definition per group *)
From S2P Require Import Prelude Dict.

Definition it_common : dict := Group [
  ("appName", Text "OPNGMS");
  ("logout", Text "Esci");
  ("none", Text "—");
  ("language", Text "Lingua");
  ("cancel", Text "Annulla")].

Definition it_nav : dict := Group [
  ("overview", Text "Panoramica");
  ("devices", Text "Dispositivi");
  ("alerts", Text "Avvisi");
  ("perimeter", Text "Perimetro");
  ("reportSettings", Text "Impostazioni report");
  ("reportSchedule", Text "Pianificazione report");
  ("reports", Text "Report");
  ("logs", Text "Log");
  ("sessions", Text "Sessioni attive");
  ("mfa", Text "Autenticazione a due fattori");
  ("templates", Text "Libreria template");
  ("smtp", Text "SMTP");
  ("logFleet", Text "Flotta log");
  ("system", Text "Sistema");
  ("groups", Text "Gruppi");
  ("audit", Text "Registro audit")].

Definition it_login : dict := Group [
  ("title", Text "OPNGMS");
  ("email", Text "Email");
  ("password", Text "Password");
  ("passwordToggle", Text "Mostra/nascondi");
  ("submit", Text "Accedi");
  ("invalidCredentials", Text "Credenziali non valide");
  ("mfa", Group [
    ("title", Text "Autenticazione a due fattori");
    ("codeHint", Text "Inserisci il codice a 6 cifre dalla tua app di autenticazione.");
    ("recoveryHint", Text "Inserisci uno dei tuoi codici di recupero monouso.");
    ("codeLabel", Text "Codice di autenticazione");
    ("recoveryLabel", Text "Codice di recupero");
    ("verify", Text "Verifica");
    ("useRecovery", Text "Usa invece un codice di recupero");
    ("useCode", Text "Usa invece un codice dell'app di autenticazione");
    ("invalidCode", Text "Codice non valido");
    ("or", Text "o");
    ("usePasskey", Text "Usa una passkey / chiave di sicurezza");
    ("passkeyError", Text "Accesso con passkey non riuscito. Riprova.");
    ("passkeyNotSupported", Text "Questo browser non supporta le passkey.");
    ("rememberDevice", Text "Ricorda questo dispositivo per {days} giorni");
    ("rememberDeviceHelp", Text "Non ti verrà chiesto un secondo fattore la prossima volta che accedi da questo dispositivo.")])].

Definition it_tenant : dict := Group [
  ("activeLabel", Text "Tenant attivo");
  ("none", Text "Nessun tenant")].

Definition it_overview : dict := Group [
  ("title", Text "Panoramica");
  ("activeAlerts", Text "Avvisi attivi");
  ("noActiveAlerts", Text "Nessun avviso attivo");
  ("healthLoadError", Text "Impossibile caricare lo stato della flotta");
  ("alertsLoadError", Text "Impossibile caricare gli avvisi");
  ("attackerCountries", Group [
    ("title", Text "Principali paesi degli aggressori");
    ("mapTitle", Text "Origini degli attacchi");
    ("empty", Text "Nessun attacco registrato in questo periodo.");
    ("private", Text "Privato / interno");
    ("unknown", Text "Sconosciuto");
    ("attribution", Text "Dati paese: DB-IP (CC BY 4.0)")])].

Definition it_alerts : dict := Group [
  ("title", Text "Avvisi");
  ("active", Text "Attivi");
  ("history", Text "Cronologia");
  ("loadError", Text "Impossibile caricare gli avvisi");
  ("noAlerts", Text "Nessun avviso");
  ("colType", Text "Tipo");
  ("colLabel", Text "Etichetta");
  ("colSeverity", Text "Gravità");
  ("colOpened", Text "Aperto");
  ("colResolved", Text "Risolto");
  ("colDevice", Text "Dispositivo")].

Definition it_devices : dict := Group [
  ("title", Text "Dispositivi");
  ("add", Text "Aggiungi dispositivo");
  ("loadError", Text "Impossibile caricare i dispositivi");
  ("colName", Text "Nome");
  ("colUrl", Text "URL");
  ("colStatus", Text "Stato");
  ("colFirmware", Text "Firmware")].

Definition it_deviceDetail : dict := Group [
  ("url", Text "URL");
  ("status", Text "Stato");
  ("firmware", Text "Firmware");
  ("loadError", Text "Impossibile caricare il dispositivo")].

Definition it_deviceActions : dict := Group [
  ("testConnection", Text "Prova connessione");
  ("delete", Text "Elimina");
  ("testResult", Text "Esito del test");
  ("testNotification", Text "Test");
  ("testFailed", Text "Test di connessione non riuscito");
  ("deleteFailed", Text "Eliminazione non riuscita");
  ("openWebGui", Text "Apri WebGUI")].

Definition it_firmware : dict := Group [
  ("title", Text "Firmware");
  ("tab", Text "Firmware");
  ("check", Text "Controlla aggiornamenti");
  ("upToDate", Text "Aggiornato");
  ("updatesAvailable", Text "Aggiornamenti disponibili");
  ("downloadSize", Text "Dimensione download");
  ("rebootNeeded", Text "Riavvio necessario");
  ("newMajor", Text "Nuova versione principale disponibile");
  ("update", Text "Aggiorna firmware");
  ("upgrade", Text "Esegui l'upgrade alla nuova versione principale");
  ("updateConfirm", Text "Applicare tutti gli aggiornamenti dei pacchetti in sospeso? Il dispositivo potrebbe riavviarsi.");
  ("upgradeConfirm", Text "Eseguire l'upgrade alla nuova versione principale? Comporta più passaggi con riavvii e può richiedere del tempo.");
  ("plugins", Text "Plugin");
  ("pluginName", Text "Nome del plugin");
  ("install", Text "Installa");
  ("remove", Text "Rimuovi");
  ("installConfirm", Text "Installare questo plugin? Il dispositivo deve avere il firmware più recente.");
  ("removeConfirm", Text "Rimuovere questo plugin?");
  ("runNow", Text "Esegui ora");
  ("scheduleAt", Text "Pianifica (lascia vuoto per eseguire ora)");
  ("schedule", Text "Pianifica");
  ("recentActions", Text "Azioni recenti");
  ("noActions", Text "Ancora nessuna azione");
  ("actionQueued", Text "Azione in coda");
  ("actionFailed", Text "Impossibile mettere in coda l'azione");
  ("checkFailed", Text "Controllo del firmware non riuscito");
  ("kind", Text "Azione");
  ("status", Text "Stato");
  ("when", Text "Quando");
  ("result", Text "Esito")].

Definition it_plugins : dict := Group [
  ("tab", Text "Plugin");
  ("title", Text "Plugin");
  ("subtitle", Text "Plugin segnalati dal firewall. Installa o rimuovi plugin della community; per installare il dispositivo deve avere il firmware più recente.");
  ("search", Text "Cerca plugin…");
  ("name", Text "Plugin");
  ("status", Text "Stato");
  ("version", Text "Versione");
  ("installed", Text "Installato");
  ("notInstalled", Text "Disponibile");
  ("locked", Text "Bloccato");
  ("install", Text "Installa");
  ("remove", Text "Rimuovi");
  ("installConfirm", Text "Installare questo plugin?");
  ("removeConfirm", Text "Rimuovere questo plugin?");
  ("empty", Text "Nessun plugin segnalato ancora — il dispositivo viene interrogato periodicamente.");
  ("loadFailed", Text "Impossibile caricare i plugin.");
  ("configure", Text "Configura");
  ("configureTitle", Text "Configurazione del plugin")].

Definition it_templates : dict := Group [
  ("tab", Text "Template");
  ("libraryTitle", Text "Libreria template");
  ("superadminOnly", Text "La libreria template è gestita dagli amministratori della piattaforma.");
  ("name", Text "Nome");
  ("kind", Text "Tipo");
  ("type", Text "Tipo di alias");
  ("content", Text "Contenuto (una voce per riga)");
  ("description", Text "Descrizione");
  ("create", Text "Nuovo template");
  ("edit", Text "Modifica");
  ("save", Text "Salva");
  ("delete", Text "Elimina");
  ("deleteConfirm", Text "Eliminare questo template? Gli override per tenant vengono rimossi; le modifiche applicate mantengono la loro cronologia.");
  ("empty", Text "Ancora nessun template.");
  ("created", Text "Template creato");
  ("updated", Text "Template aggiornato");
  ("saveFailed", Text "Impossibile salvare il template");
  ("apply", Group [
    ("title", Text "Applica un template");
    ("pick", Text "Template");
    ("override", Text "Override di questo cliente (contenuto, una voce per riga — lascia vuoto per usare il valore della libreria)");
    ("saveOverride", Text "Salva override");
    ("overrideSaved", Text "Override salvato");
    ("preview", Text "Anteprima");
    ("previewTitle", Text "Configurazione effettiva");
    ("applyConfirm", Text "Applicare questo template al dispositivo?");
    ("runNow", Text "Applica ora");
    ("scheduleAt", Text "Pianifica (lascia vuoto per applicare ora)");
    ("schedule", Text "Pianifica");
    ("queued", Text "Applicazione in coda");
    ("failed", Text "Impossibile applicare il template");
    ("none", Text "Nessun template disponibile.")]);
  ("templatesTab", Text "Template");
  ("kindLabel", Text "Tipo di template");
  ("kindAlias", Text "Alias firewall");
  ("kindSetting", Text "Impostazione OPNsense");
  ("setting", Group [
    ("endpoint", Text "Impostazione");
    ("referenceDevice", Text "Dispositivo di riferimento (per leggere i campi disponibili)");
    ("load", Text "Carica campi");
    ("loadHint", Text "Scegli un'impostazione e un dispositivo, quindi carica i campi da configurare.");
    ("noDevice", Text "Nessun dispositivo disponibile nel tenant attivo da cui leggere i campi.");
    ("loadFailed", Text "Impossibile leggere l'impostazione dal dispositivo.");
    ("noFields", Text "Nessun campo configurabile.");
    ("hardwareNote", Text "I campi specifici dell'hardware/dispositivo sono volutamente esclusi dai template.")]);
  ("kindFirewallRule", Text "Regola firewall (Rules [nuovo])");
  ("fw", Group [
    ("referenceDevice", Text "Dispositivo di riferimento (per leggere i campi delle regole disponibili)");
    ("load", Text "Carica campi");
    ("loadHint", Text "Scegli un dispositivo, quindi carica i campi della regola da configurare.");
    ("noDevice", Text "Nessun dispositivo disponibile nel tenant attivo da cui leggere i campi.");
    ("loadFailed", Text "Impossibile leggere il modello della regola dal dispositivo.");
    ("descriptionRequired", Text "È richiesta una descrizione (è l'identità della regola).");
    ("interface", Text "Interfaccia (scelta al momento dell'applicazione)");
    ("floating", Text "Flottante (nessuna interfaccia)");
    ("note", Text "L'interfaccia viene scelta al momento dell'applicazione; lasciala vuota per una regola flottante.")]);
  ("kindMonitTest", Text "Test di health-check Monit");
  ("monit", Group [
    ("referenceDevice", Text "Dispositivo di riferimento (per leggere i campi del test disponibili)");
    ("load", Text "Carica campi");
    ("loadHint", Text "Scegli un dispositivo, quindi carica i campi del test da configurare.");
    ("noDevice", Text "Nessun dispositivo disponibile nel tenant attivo da cui leggere i campi.");
    ("loadFailed", Text "Impossibile leggere il modello del test dal dispositivo.");
    ("nameRequired", Text "È richiesto un nome (è l'identità del test).");
    ("note", Text "Un test ha effetto una volta collegato a un servizio Monit.");
    ("attachSystem", Text "Collega questo test al servizio di sistema affinché abbia effetto");
    ("attachSystemNote", Text "Se abilitato, l'applicazione collega anche il test al servizio di sistema Monit del dispositivo.")]);
  ("kindIdsRulesets", Text "Ruleset Suricata/IDS");
  ("ids", Group [
    ("referenceDevice", Text "Dispositivo di riferimento (per leggere i ruleset disponibili)");
    ("load", Text "Carica ruleset");
    ("loadHint", Text "Scegli un dispositivo, quindi carica i suoi ruleset per scegliere quali abilitare.");
    ("noDevice", Text "Nessun dispositivo disponibile nel tenant attivo da cui leggere i ruleset.");
    ("loadFailed", Text "Impossibile leggere i ruleset dal dispositivo.");
    ("rulesets", Text "Ruleset da abilitare");
    ("noRulesets", Text "Nessun ruleset trovato sul dispositivo.");
    ("note", Text "L'applicazione abilita i ruleset selezionati (additiva — non disabilita gli altri).")]);
  ("kindIdsPolicy", Text "Criterio Suricata/IDS");
  ("idsPolicy", Group [
    ("description", Text "Descrizione (l'identità del criterio)");
    ("enabled", Text "Abilitato");
    ("prio", Text "Priorità");
    ("action", Text "Azione corrente da abbinare (regole la cui azione è una di queste)");
    ("newAction", Text "Nuova azione");
    ("rulesets", Text "Ruleset a cui si applica il criterio");
    ("referenceDevice", Text "Dispositivo di riferimento (per leggere i ruleset disponibili)");
    ("load", Text "Carica ruleset");
    ("loadHint", Text "Scegli un dispositivo, quindi carica i suoi ruleset abilitati da referenziare.");
    ("noDevice", Text "Nessun dispositivo disponibile nel tenant attivo da cui leggere i ruleset.");
    ("noRulesets", Text "Nessun ruleset abilitato trovato sul dispositivo (abilita prima un ruleset).");
    ("loadFailed", Text "Impossibile leggere i ruleset dal dispositivo.");
    ("content", Text "Filtri sui metadati (avanzato — la maggior parte dei criteri non ne ha bisogno)");
    ("contentKey", Text "Chiave");
    ("contentValues", Text "Valori (separati da virgola)");
    ("contentKeyInvalid", Text "Chiave non valida — usa lettere, cifre, punti, trattini o underscore.");
    ("addContent", Text "Aggiungi filtro");
    ("descriptionRequired", Text "È richiesta una descrizione (è l'identità del criterio).");
    ("note", Text "I ruleset referenziati devono essere già abilitati sul dispositivo. La mappatura di ruleset/contenuto viene verificata in fase di esecuzione durante l'applicazione.")]);
  ("profiles", Group [
    ("tab", Text "Profili");
    ("name", Text "Nome");
    ("description", Text "Descrizione");
    ("members", Text "Template (in ordine di applicazione)");
    ("create", Text "Nuovo profilo");
    ("edit", Text "Modifica");
    ("save", Text "Salva");
    ("delete", Text "Elimina");
    ("deleteConfirm", Text "Eliminare questo profilo? Le modifiche applicate mantengono la loro cronologia.");
    ("empty", Text "Ancora nessun profilo.");
    ("created", Text "Profilo creato");
    ("updated", Text "Profilo aggiornato");
    ("saveFailed", Text "Impossibile salvare il profilo");
    ("memberCount", Text "template");
    ("apply", Group [
      ("title", Text "Applica un profilo");
      ("pick", Text "Profilo");
      ("preview", Text "Anteprima");
      ("previewTitle", Text "Configurazione effettiva (per template, in ordine)");
      ("interface", Text "Interfaccia (scelta al momento dell'applicazione)");
      ("floating", Text "Flottante (nessuna interfaccia)");
      ("empty", Text "Nessun profilo disponibile.");
      ("applyConfirm", Text "Applicare questo profilo al dispositivo? Applica ogni template membro in ordine.");
      ("runNow", Text "Applica ora");
      ("scheduleAt", Text "Pianifica (lascia vuoto per applicare ora)");
      ("schedule", Text "Pianifica");
      ("queued", Text "Applicazione profilo in coda");
      ("failed", Text "Impossibile applicare il profilo")])])].

Definition it_deviceCreate : dict := Group [
  ("title", Text "Aggiungi dispositivo");
  ("name", Text "Nome");
  ("url", Text "URL (https)");
  ("apiKey", Text "Chiave API");
  ("apiSecret", Text "Segreto API");
  ("verifyTls", Text "Verifica TLS");
  ("tlsWarning", Text "Con la verifica TLS disattivata, nulla autentica il certificato del dispositivo: le credenziali possono essere intercettate. Blocca l'impronta SHA-256 del certificato qui sotto per ripristinare la protezione.");
  ("tlsFingerprintLabel", Text "Impronta SHA-256 del certificato (opzionale)");
  ("tlsFingerprintPlaceholder", Text "00:42:E2:C4:07:61:06:0D:56:A4:75:2F:FC:32:2B:4E:B3:CE:FF:31:8A:88:F3:22:2B:C1:B1:0D:46:0B:04:2C");
  ("save", Text "Salva");
  ("created", Text "Dispositivo creato");
  ("createFailed", Text "Creazione non riuscita")].

Definition it_health : dict := Group [
  ("totalDevices", Text "Dispositivi totali");
  ("activeAlerts", Text "Avvisi attivi")].

Definition it_logForwarding : dict := Group [
  ("tab", Text "Inoltro log")].

Definition it_catalog : dict := Group [
  ("tab", Text "Editor");
  ("searchModels", Text "Cerca impostazioni…");
  ("noModels", Text "Nessun catalogo per questa versione del dispositivo.");
  ("selectModel", Text "Seleziona un gruppo di impostazioni a sinistra per modificarlo.");
  ("readOnly", Text "Non modificabile (denylist di sicurezza).");
  ("unreachable", Text "Dispositivo irraggiungibile — i valori live sono necessari per la modifica.");
  ("liveValues", Text "Valori live");
  ("propose", Text "Proponi modifica");
  ("preview", Text "Rivedi modifica");
  ("noChanges", Text "Nessuna modifica da proporre.");
  ("proposed", Text "Bozza di modifica creata — pianificala dalla scheda Config.");
  ("proposeFailed", Text "Impossibile creare la modifica.");
  ("loadFailed", Text "Impossibile caricare il modello.");
  ("openWebgui", Text "Apri in WebGUI");
  ("searchAll", Text "Cerca impostazioni…");
  ("grid", Group [
    ("add", Text "Aggiungi riga");
    ("save", Text "Salva");
    ("edit", Text "Modifica");
    ("delete", Text "Elimina");
    ("empty", Text "Nessuna riga.")]);
  ("diff", Group [
    ("baseline", Text "Confronta con");
    ("noBaseline", Text "Nessuna versione precedente");
    ("newSince", Text "Nuovo dalla {v}");
    ("changedSince", Text "Modificato dalla {v}");
    ("changes", Text "modifiche")]);
  ("map", Group [
    ("tabMenu", Text "Menu");
    ("tabMap", Text "Mappa config");
    ("editInCatalog", Text "Modifica nel catalogo");
    ("readOnly", Text "sola lettura (nessuna API)");
    ("staleBanner", Text "Obsoleto — dispositivo irraggiungibile; mostro l'ultimo backup del {when}")])].

Definition it_config : dict := Group [
  ("tabInfo", Text "Info");
  ("tabHealth", Text "Stato");
  ("tabConfig", Text "Config");
  ("capabilities", Text "Funzionalità");
  ("version", Text "Versione OPNsense");
  ("interfaces", Text "Interfacce");
  ("configuredSections", Text "Sezioni configurate");
  ("available", Text "Funzionalità disponibili");
  ("hidden", Text "nascoste");
  ("noConfigYet", Text "Nessuna configurazione ancora acquisita");
  ("nic", Text "NIC");
  ("changes", Group [
    ("title", Text "Modifiche in sospeso");
    ("propose", Text "Proponi modifica alias");
    ("none", Text "Nessuna modifica in sospeso");
    ("colKind", Text "Tipo");
    ("colOperation", Text "Operazione");
    ("colTarget", Text "Oggetto");
    ("colStatus", Text "Stato");
    ("colScheduled", Text "Pianificata");
    ("preview", Text "Anteprima");
    ("schedule", Text "Pianifica");
    ("cancel", Text "Annulla");
    ("revert", Text "Ripristina");
    ("reverts", Text "ripristina #");
    ("applyNow", Text "Applica ora");
    ("pickTime", Text "Scegli data/ora");
    ("checkDrift", Text "Verifica scostamento");
    ("driftUnreachable", Text "Impossibile raggiungere il dispositivo — scostamento sconosciuto.");
    ("driftInSync", Text "sincronizzato");
    ("driftDrifted", Text "scostamento");
    ("driftMissing", Text "mancante");
    ("driftUnsupported", Text "n/d");
    ("driftFields", Text "Campi scostati: ");
    ("operation", Text "Operazione");
    ("name", Text "Nome");
    ("type", Text "Tipo");
    ("content", Text "Contenuto (uno per riga)");
    ("create", Text "Crea");
    ("add", Text "aggiungi");
    ("set", Text "imposta");
    ("delete", Text "elimina")])].

Definition it_deviceHealth : dict := Group [
  ("title", Text "Stato");
  ("cpu", Text "CPU");
  ("memory", Text "Memoria");
  ("disk", Text "Disco");
  ("trafficIn", Text "Traffico in entrata");
  ("trafficOut", Text "Traffico in uscita");
  ("gatewayRtt", Text "RTT gateway");
  ("gatewayLoss", Text "Perdita gateway");
  ("vpnUp", Text "VPN attiva")].

Definition it_chart : dict := Group [
  ("noData", Text "Nessun dato")].

Definition it_reports : dict := Group [
  ("page", Group [
    ("title", Text "Report");
    ("generate", Text "Genera report");
    ("from", Text "Da");
    ("to", Text "A");
    ("period", Text "Periodo");
    ("kind", Text "Tipo");
    ("created", Text "Creato");
    ("size", Text "Dimensione");
    ("download", Text "Scarica");
    ("none", Text "Ancora nessun report.");
    ("generated", Text "Report generato");
    ("kindOnDemand", Text "Su richiesta");
    ("kindScheduled", Text "Pianificato")]);
  ("settings", Group [
    ("pageTitle", Text "Impostazioni report");
    ("title", Text "Titolo del report");
    ("owner", Text "Titolare");
    ("timezone", Text "Fuso orario");
    ("fromEmail", Text "Email mittente (consegna report)");
    ("logo", Text "Logo");
    ("upload", Text "Carica logo");
    ("remove", Text "Rimuovi logo");
    ("language", Text "Lingua del report");
    ("save", Text "Salva impostazioni");
    ("adminsOnly", Text "Le impostazioni dei report sono disponibili solo agli amministratori del tenant.");
    ("saved", Text "Impostazioni report salvate.");
    ("logoUploaded", Text "Logo caricato.");
    ("logoRemoved", Text "Logo rimosso.");
    ("hasLogo", Text "Logo caricato");
    ("noLogo", Text "Nessun logo")]);
  ("sections", Group [
    ("title", Text "Sezioni del report");
    ("description", Text "Scegli quali sezioni appaiono nel report PDF.");
    ("customizeForDevice", Text "Personalizza le sezioni per questo dispositivo");
    ("summary", Text "Riepilogo esecutivo");
    ("health", Text "Stato del dispositivo");
    ("alerts_wan", Text "Avvisi e connettività");
    ("attacks", Text "Attacchi");
    ("attacker_countries", Text "Paesi degli aggressori");
    ("failed_logins", Text "Accessi falliti");
    ("firewall_blocks", Text "Blocchi del firewall");
    ("web", Text "Attività web");
    ("data", Text "Utilizzo dati");
    ("status", Text "Stato online/offline");
    ("firmware_config", Text "Firmware e configurazione");
    ("applications", Text "Applicazioni");
    ("web_filter", Text "Filtro web")])].

Definition it_sessions : dict := Group [
  ("pageTitle", Text "Sessioni attive");
  ("colLastSeen", Text "Vista l'ultima volta");
  ("colCreated", Text "Creata");
  ("colExpires", Text "Scade");
  ("colIp", Text "Indirizzo IP");
  ("colUserAgent", Text "User agent");
  ("current", Text "Corrente");
  ("logoutAll", Text "Esci da tutti i dispositivi");
  ("loadError", Text "Impossibile caricare le sessioni");
  ("logoutAllError", Text "Impossibile disconnettere tutti i dispositivi")].

Definition it_mfa : dict := Group [
  ("pageTitle", Text "Autenticazione a due fattori");
  ("intro", Text "Proteggi il tuo account con una password monouso a tempo (TOTP) da un'app di autenticazione.");
  ("status", Text "Stato");
  ("enabled", Text "Abilitata");
  ("disabled", Text "Disabilitata");
  ("recoveryRemaining", Text "Codici di recupero rimanenti");
  ("statusError", Text "Impossibile caricare lo stato MFA");
  ("enroll", Text "Configura l'autenticazione a due fattori");
  ("enrollStart", Text "Avvia configurazione");
  ("password", Text "Password attuale");
  ("passwordHint", Text "Reinserisci la password per modificare le impostazioni a due fattori.");
  ("scanHint", Text "Scansiona questo codice QR con la tua app di autenticazione, oppure inserisci il segreto manualmente.");
  ("secretLabel", Text "Chiave segreta");
  ("confirmCodeLabel", Text "Codice di autenticazione");
  ("confirmHint", Text "Inserisci il codice a 6 cifre dalla tua app per completare la configurazione.");
  ("confirm", Text "Conferma e abilita");
  ("cancel", Text "Annulla");
  ("setupError", Text "Impossibile avviare la configurazione (controlla la password).");
  ("confirmError", Text "Codice non valido. Riprova.");
  ("recoveryTitle", Text "Codici di recupero");
  ("recoveryIntro", Text "Conserva questi codici di recupero monouso in un luogo sicuro. Ciascuno può essere usato una volta se perdi l'app di autenticazione.");
  ("recoveryWarning", Text "Questi codici vengono mostrati una sola volta.");
  ("copyAll", Text "Copia tutto");
  ("copied", Text "Copiato negli appunti");
  ("download", Text "Scarica");
  ("done", Text "Fatto");
  ("regenerate", Text "Rigenera codici di recupero");
  ("regenerateError", Text "Impossibile rigenerare i codici di recupero (controlla la password).");
  ("disable", Text "Disabilita l'autenticazione a due fattori");
  ("disableConfirmTitle", Text "Disabilitare l'autenticazione a due fattori?");
  ("disableConfirmBody", Text "Il tuo account non richiederà più un secondo fattore all'accesso.");
  ("disableError", Text "Impossibile disabilitare (controlla la password).");
  ("disabledNotice", Text "Autenticazione a due fattori disabilitata.");
  ("policyTitle", Text "Criterio MFA dell'organizzazione");
  ("policyIntro", Text "Richiedi l'autenticazione a due fattori in tutta l'organizzazione.");
  ("policyOff", Text "Disattivato");
  ("policyAll", Text "Tutti gli utenti");
  ("policyPrivileged", Text "Utenti privilegiati");
  ("policyLoadError", Text "Impossibile caricare il criterio MFA");
  ("policySaveError", Text "Impossibile aggiornare il criterio MFA");
  ("policySaved", Text "Criterio MFA aggiornato");
  ("usersTitle", Text "MFA utenti");
  ("colUser", Text "Utente");
  ("colEmail", Text "Email");
  ("colRole", Text "Ruolo");
  ("superadmin", Text "Superadmin");
  ("member", Text "Membro");
  ("reset", Text "Reimposta MFA");
  ("resetConfirmTitle", Text "Reimpostare l'MFA di questo utente?");
  ("resetConfirmBody", Text "Questo cancella il suo segreto TOTP e i codici di recupero. Dovrà registrarsi di nuovo.");
  ("resetError", Text "Impossibile reimpostare l'MFA dell'utente");
  ("resetDone", Text "MFA utente reimpostata");
  ("usersLoadError", Text "Impossibile caricare gli utenti");
  ("gateTitle", Text "Autenticazione a due fattori richiesta");
  ("gateIntro", Text "La tua organizzazione richiede l'autenticazione a due fattori. Configurala ora per continuare.");
  ("passkeys", Group [
    ("title", Text "Passkey");
    ("intro", Text "Registra una passkey o una chiave di sicurezza per accedere senza codice.");
    ("add", Text "Aggiungi passkey");
    ("accountPassword", Text "Password dell'account");
    ("name", Text "Nome");
    ("namePlaceholder", Text "es. Laptop di lavoro");
    ("unnamed", Text "Passkey");
    ("colName", Text "Nome");
    ("colCreated", Text "Creata");
    ("remove", Text "Rimuovi");
    ("removeConfirmTitle", Text "Rimuovere questa passkey?");
    ("removeConfirmBody", Text "Questa passkey non potrà più essere usata per accedere.");
    ("addedNotice", Text "Passkey aggiunta.");
    ("removedNotice", Text "Passkey rimossa.");
    ("addError", Text "Impossibile aggiungere la passkey. Riprova.");
    ("removeError", Text "Impossibile rimuovere la passkey.");
    ("listError", Text "Impossibile caricare le passkey");
    ("lastFactorError", Text "Non puoi rimuovere l'ultimo secondo fattore. Aggiungine un altro prima.");
    ("notConfigured", Text "Le passkey non sono configurate per la tua organizzazione.");
    ("notSupported", Text "Questo browser non supporta le passkey.")]);
  ("trustedDeviceToggle", Group [
    ("label", Text "Ricorda questo dispositivo");
    ("help", Text "Consenti agli utenti di saltare il secondo fattore sui dispositivi che scelgono di considerare attendibili.")]);
  ("trustedDevices", Group [
    ("title", Text "Dispositivi attendibili");
    ("intro", Text "I dispositivi che hai contrassegnato come attendibili possono accedere senza un secondo fattore fino alla scadenza. Revoca quelli che non riconosci.");
    ("colDevice", Text "Dispositivo");
    ("colIp", Text "Indirizzo IP");
    ("colLastUsed", Text "Ultimo utilizzo");
    ("colExpires", Text "Scade");
    ("revoke", Text "Revoca");
    ("revokeAll", Text "Revoca tutti");
    ("confirmTitle", Text "Revocare questo dispositivo?");
    ("confirmBody", Text "Questo dispositivo dovrà eseguire un secondo fattore al prossimo accesso.");
    ("revokeAllConfirmTitle", Text "Revocare tutti i dispositivi attendibili?");
    ("revokeAllConfirmBody", Text "Tutti i dispositivi attendibili dovranno eseguire un secondo fattore al prossimo accesso.");
    ("empty", Text "Nessun dispositivo attendibile.");
    ("loadError", Text "Impossibile caricare i dispositivi attendibili.");
    ("revokeError", Text "Impossibile revocare il dispositivo.");
    ("unknownDevice", Text "Dispositivo sconosciuto")])].

Definition it_groups : dict := Group [
  ("title", Text "Gruppi");
  ("description", Text "Definisci gruppi di utenti e l'accesso ai tenant che ricevono.");
  ("superadminOnly", Text "I gruppi sono gestiti dagli amministratori della piattaforma.");
  ("name", Text "Nome");
  ("namePlaceholder", Text "Nome del gruppo");
  ("descriptionField", Text "Descrizione");
  ("descriptionPlaceholder", Text "Descrizione facoltativa");
  ("members", Text "Membri");
  ("membersPlaceholder", Text "Seleziona gli utenti");
  ("noMembers", Text "Ancora nessun membro.");
  ("grants", Text "Concessioni di accesso");
  ("noGrants", Text "Ancora nessuna concessione.");
  ("addGrant", Text "Aggiungi concessione");
  ("allTenants", Text "Tutti i tenant");
  ("tenant", Text "Tenant");
  ("tenantPlaceholder", Text "Seleziona un tenant");
  ("role", Text "Ruolo");
  ("roleTenantAdmin", Text "Amministratore tenant");
  ("roleOperator", Text "Operatore");
  ("roleReadOnly", Text "Sola lettura");
  ("allTenantsScope", Text "Tutti i tenant");
  ("create", Text "Nuovo gruppo");
  ("createTitle", Text "Crea gruppo");
  ("save", Text "Salva");
  ("delete", Text "Elimina");
  ("deleteConfirm", Text "Eliminare questo gruppo? I suoi membri perdono l'accesso concesso. L'azione è irreversibile.");
  ("removeGrant", Text "Rimuovi concessione");
  ("empty", Text "Ancora nessun gruppo.");
  ("created", Text "Gruppo creato");
  ("updated", Text "Gruppo aggiornato");
  ("deleted", Text "Gruppo eliminato");
  ("membersSaved", Text "Membri aggiornati");
  ("grantAdded", Text "Concessione aggiunta");
  ("grantRemoved", Text "Concessione rimossa");
  ("saveFailed", Text "Impossibile salvare il gruppo");
  ("loadError", Text "Impossibile caricare i gruppi")].

Definition it_confirm : dict := Group [
  ("title", Text "Sei sicuro?");
  ("cancel", Text "Annulla");
  ("confirm", Text "Conferma");
  ("deleteDevice", Text "Elimina dispositivo");
  ("deleteDeviceBody", Text "Questa operazione eliminerà definitivamente il dispositivo e tutti i suoi dati. L'azione non può essere annullata.")].

Definition it_errors : dict := Group [
  ("fleetHealthLoad", Text "Impossibile caricare lo stato della flotta");
  ("alertsLoad", Text "Impossibile caricare gli avvisi");
  ("metricsLoad", Text "Impossibile caricare le metriche");
  ("configModelLoad", Text "Impossibile caricare la configurazione");
  ("configCapabilitiesLoad", Text "Impossibile caricare le funzionalità");
  ("configChangesLoad", Text "Impossibile caricare le modifiche");
  ("configChangeAction", Text "Azione non riuscita (potresti non avere i permessi)");
  ("reportSettingsLoad", Text "Impossibile caricare le impostazioni dei report");
  ("reportSettingsAction", Text "Azione delle impostazioni report non riuscita");
  ("reportsLoad", Text "Impossibile caricare i report");
  ("reportGenerate", Text "Impossibile generare il report");
  ("attackerCountriesLoad", Text "Impossibile caricare i paesi degli aggressori");
  ("perimeterLoad", Text "Impossibile caricare i dati del perimetro");
  ("auditLoad", Text "Impossibile caricare il registro audit");
  ("retentionLoad", Text "Impossibile caricare le impostazioni di conservazione");
  ("retentionSave", Text "Impossibile salvare le impostazioni di conservazione")].

Definition it_system : dict := Group [
  ("title", Text "Sistema");
  ("subtitle", Text "Impostazioni di runtime a livello di piattaforma.");
  ("livePush", Group [
    ("label", Text "Push della configurazione ai dispositivi in tempo reale");
    ("help", Text "Se ATTIVO, applicare una modifica scrive sul dispositivo reale. Se DISATTIVO, le modifiche sono solo simulate.");
    ("loadError", Text "Impossibile caricare l'impostazione del push in tempo reale.");
    ("enabled", Text "Push della configurazione in tempo reale abilitato");
    ("disabled", Text "Push della configurazione in tempo reale disabilitato");
    ("updateError", Text "Impossibile aggiornare il push della configurazione in tempo reale")]);
  ("runtime", Group [
    ("title", Text "Impostazioni di runtime");
    ("subtitle", Text "Regolabili senza riavvio; il valore qui ha la precedenza sul default di deploy del file .env.");
    ("loadError", Text "Impossibile caricare le impostazioni di runtime.");
    ("save", Text "Salva");
    ("discard", Text "Annulla modifiche");
    ("saved", Text "Impostazioni di runtime salvate");
    ("saveError", Text "Impossibile salvare le impostazioni di runtime");
    ("defaultLabel", Text "default");
    ("impactsTitle", Text "Abbassare questo valore di conservazione influisce sui tenant");
    ("impactItem", Text "{tenant}: una pianificazione report {store} richiede {range} giorni ma {store} ora viene conservato {bound} giorni.");
    ("groups", Group [
      ("firmware", Text "Firmware");
      ("distribution", Text "Distribuzione catalogo e GeoIP");
      ("maintenance", Text "Manutenzione");
      ("retention", Text "Conservazione dei dati");
      ("security_login", Text "Protezione accessi");
      ("security_session", Text "Sessioni")]);
    ("items", Group [
      ("firmware_max_status_polls", Group [
        ("label", Text "Max controlli di stato");
        ("help", Text "Controlli di stato prima di rinunciare a un'azione firmware.")]);
      ("firmware_poll_interval_seconds", Group [
        ("label", Text "Intervallo di polling (s)");
        ("help", Text "Ritardo tra i controlli di stato del firmware.")]);
      ("catalog_auto_fetch", Group [
        ("label", Text "Recupero automatico cataloghi di configurazione");
        ("help", Text "Recupera i cataloghi versionati dalla release in caso di cache mancante.")]);
      ("geoip_auto_fetch", Group [
        ("label", Text "Recupero automatico database GeoIP");
        ("help", Text "Recupera il database GeoIP dalla release in caso di cache mancante.")]);
      ("silent_alert_enabled", Group [
        ("label", Text "Avvisi tenant silenziosi");
        ("help", Text "Avvisa quando un tenant con inoltro smette di inviare log.")]);
      ("silent_alert_after_hours", Group [
        ("label", Text "Silenzioso dopo (ore)");
        ("help", Text "Ore di silenzio prima che un tenant venga segnalato.")]);
      ("perimeter_retention_days", Group [
        ("label", Text "Conservazione perimetro (giorni)");
        ("help", Text "Default globale per quanto a lungo vengono conservati i dati degli aggressori al perimetro.")]);
      ("events_retention_days", Group [
        ("label", Text "Conservazione eventi (giorni)");
        ("help", Text "Default globale per quanto a lungo vengono conservati i dati degli eventi.")]);
      ("metrics_retention_days", Group [
        ("label", Text "Conservazione metriche (giorni)");
        ("help", Text "Default globale per quanto a lungo vengono conservati i dati delle metriche.")]);
      ("log_lake_retention_days", Group [
        ("label", Text "Conservazione log lake (giorni)");
        ("help", Text "Default globale per quanto a lungo vengono conservati i dati del log lake.")]);
      ("login_max_attempts", Group [
        ("label", Text "Max tentativi di accesso");
        ("help", Text "Tentativi di accesso falliti consentiti prima del blocco.")]);
      ("login_lockout_window_seconds", Group [
        ("label", Text "Finestra di blocco (s)");
        ("help", Text "Finestra mobile per il conteggio degli accessi falliti.")]);
      ("session_ttl_hours", Group [
        ("label", Text "Durata sessione (ore)");
        ("help", Text "Durata assoluta della sessione.")]);
      ("session_idle_minutes", Group [
        ("label", Text "Timeout di inattività (minuti)");
        ("help", Text "Tempo di inattività prima della scadenza di una sessione.")]);
      ("trusted_device_days", Group [
        ("label", Text "Durata dispositivo attendibile (giorni)");
        ("help", Text "Per quanto tempo un dispositivo attendibile può saltare il secondo fattore prima di dover essere ri-verificato.")])])])].

Definition it_logFleet : dict := Group [
  ("title", Text "Flotta log");
  ("loadError", Text "Impossibile caricare la flotta log.");
  ("exportCsv", Text "Esporta CSV");
  ("exportPdf", Text "Esporta PDF");
  ("exportFailed", Text "Esportazione non riuscita.");
  ("silentBadge", Text "silenzioso");
  ("silentAlertsTitle", Text "Avvisi tenant silenziosi");
  ("silentAlertsBody", Text "hanno abilitato l'inoltro ma nessun log recente.");
  ("volume", Text "Volume");
  ("devicesTitle", Text "Dispositivi");
  ("devicesLoadError", Text "Impossibile caricare i dispositivi.");
  ("noDevices", Text "Nessun dispositivo.");
  ("stats", Group [
    ("tenantsForwarding", Text "Tenant con inoltro");
    ("enabledDevices", Text "Dispositivi abilitati");
    ("silentTenants", Text "Tenant silenziosi")]);
  ("table", Group [
    ("tenant", Text "Tenant");
    ("device", Text "Dispositivo");
    ("forwarding", Text "Inoltro");
    ("revoked", Text "Revocato");
    ("lastLog", Text "Ultimo log")])].

Definition it_perimeter : dict := Group [
  ("title", Text "Perimetro");
  ("subtitle", Text "IP degli aggressori al perimetro del firewall — accessi falliti al box e traffico bloccato.");
  ("failedLogins", Text "Accessi falliti");
  ("firewallBlocks", Text "Blocchi del firewall");
  ("failedLoginsHelp", Text "Tentativi di accesso al box che sono stati rifiutati.");
  ("firewallBlocksHelp", Text "Traffico in entrata scartato dal firewall.");
  ("ip", Text "IP di origine");
  ("country", Text "Paese");
  ("user", Text "Utente");
  ("port", Text "Porta");
  ("count", Text "Conteggio");
  ("lastSeen", Text "Visto l'ultima volta");
  ("empty", Text "Nessuna attività in questo periodo.");
  ("viewAll", Text "Vedi tutto");
  ("loadError", Text "Impossibile caricare i dati del perimetro.")].

Definition it_retention : dict := Group [
  ("title", Text "Conservazione dei dati");
  ("subtitle", Text "Sovrascrivi per quanto a lungo vengono conservati i dati di questo tenant. Lascia vuoto un campo per ereditare il default globale.");
  ("inheritHint", Text "Eredita globale");
  ("save", Text "Salva conservazione");
  ("saved", Text "Impostazioni di conservazione salvate.");
  ("stores", Group [
    ("perimeter", Text "Perimetro (giorni)");
    ("events", Text "Eventi (giorni)");
    ("metrics", Text "Metriche (giorni)");
    ("log_lake", Text "Log lake (giorni)")]);
  ("warningTitle", Text "Le pianificazioni dei report superano la conservazione");
  ("warningItem", Text "Una pianificazione {frequency} copre {range} giorni ma i dati {store} sono conservati {bound} giorni.")].

Definition it_audit : dict := Group [
  ("title", Text "Registro audit");
  ("subtitle", Text "Ogni azione di modifica sulla piattaforma, per autore e tenant.");
  ("filters", Group [
    ("actor", Text "Email autore");
    ("tenant", Text "ID tenant");
    ("action", Text "Azione");
    ("from", Text "Da");
    ("to", Text "A");
    ("apply", Text "Applica");
    ("reset", Text "Reimposta")]);
  ("columns", Group [
    ("time", Text "Ora");
    ("actor", Text "Autore");
    ("tenant", Text "Tenant");
    ("action", Text "Azione");
    ("target", Text "Oggetto");
    ("ip", Text "IP");
    ("details", Text "Dettagli")]);
  ("empty", Text "Nessuna voce di audit corrisponde a questi filtri.");
  ("export", Text "Esporta CSV");
  ("exportFailed", Text "Esportazione non riuscita.");
  ("page", Text "Pagina {page}");
  ("showingTotal", Text "{total} voci");
  ("prev", Text "Precedente");
  ("next", Text "Successivo")].

Definition it_reliability : dict := Group [
  ("tab", Text "Affidabilità");
  ("title", Text "Eventi di servizio (24h)");
  ("subtitle", Text "Riavvii, crash/riavvii dei servizi e avvisi sul disco dal log di sistema del dispositivo.");
  ("time", Text "Ora");
  ("category", Text "Categoria");
  ("name", Text "Evento");
  ("severity", Text "Gravità");
  ("process", Text "Processo");
  ("message", Text "Messaggio");
  ("categories", Group [
    ("reboot", Text "Riavvio");
    ("service", Text "Servizio");
    ("disk", Text "Disco")]);
  ("severities", Group [
    ("high", Text "Alta");
    ("medium", Text "Media");
    ("low", Text "Bassa")]);
  ("loadMore", Text "Carica altri");
  ("empty", Text "Nessun evento di servizio in questo periodo.");
  ("loading", Text "Caricamento eventi di servizio…");
  ("loadError", Text "Impossibile caricare gli eventi di servizio.");
  ("last24h", Text "Ultime 24 ore")].

Definition it_configAudit : dict := Group [
  ("tab", Text "Modifiche config");
  ("title", Text "Modifiche dirette alla config (24h)");
  ("subtitle", Text "Chi ha modificato la configurazione del box e come — le modifiche dirette sul box (GUI/console) sono segnalate come drift.");
  ("time", Text "Ora");
  ("area", Text "Area");
  ("actor", Text "Autore");
  ("ip", Text "IP");
  ("channel", Text "Canale");
  ("change", Text "Modifica");
  ("direct", Text "Diretta");
  ("channels", Group [
    ("api", Text "API");
    ("gui", Text "WebGUI");
    ("system", Text "Console/script");
    ("opngms", Text "OPNGMS");
    ("api_external", Text "API esterna")]);
  ("loadMore", Text "Carica altri");
  ("empty", Text "Nessuna modifica alla configurazione in questo periodo.");
  ("loading", Text "Caricamento modifiche alla configurazione…");
  ("loadError", Text "Impossibile caricare le modifiche alla configurazione.");
  ("last24h", Text "Ultime 24 ore")].

Definition it_smtp : dict := Group [
  ("authMethod", Text "Autenticazione");
  ("authPassword", Text "Password");
  ("authOauth", Text "OAuth2");
  ("oauthProvider", Text "Provider");
  ("oauthGoogle", Text "Google / Gmail");
  ("oauthMicrosoft", Text "Microsoft 365");
  ("oauthClientId", Text "Client ID");
  ("oauthClientSecret", Text "Client secret");
  ("oauthRefreshToken", Text "Refresh token");
  ("oauthTenantId", Text "Tenant ID");
  ("oauthSecretSaved", Text "salvato — lascia vuoto per mantenere");
  ("oauthConnect", Text "Collega account");
  ("oauthConnectGoogle", Text "Connetti con Google");
  ("oauthConnectMicrosoft", Text "Connetti con Microsoft 365");
  ("oauthExperimental", Text "Sperimentale — non testato");
  ("oauthExperimentalNote", Text "L'accesso browser per OAuth non è stato verificato con un provider reale. È necessario impostare PUBLIC_BASE_URL e registrare l'URI di reindirizzamento nell'app OAuth. Incollare un token di aggiornamento nel campo precedente rimane il percorso supportato.");
  ("oauthConnectNeedsCreds", Text "Salva prima l'ID client e il segreto, poi connetti.");
  ("oauthConnected", Text "Account collegato.");
  ("oauthConnectFailed", Text "Impossibile collegare l'account.")].

Definition it : dict := Group [
  ("common", it_common);
  ("nav", it_nav);
  ("login", it_login);
  ("tenant", it_tenant);
  ("overview", it_overview);
  ("alerts", it_alerts);
  ("devices", it_devices);
  ("deviceDetail", it_deviceDetail);
  ("deviceActions", it_deviceActions);
  ("firmware", it_firmware);
  ("plugins", it_plugins);
  ("templates", it_templates);
  ("deviceCreate", it_deviceCreate);
  ("health", it_health);
  ("logForwarding", it_logForwarding);
  ("catalog", it_catalog);
  ("config", it_config);
  ("deviceHealth", it_deviceHealth);
  ("chart", it_chart);
  ("reports", it_reports);
  ("sessions", it_sessions);
  ("mfa", it_mfa);
  ("groups", it_groups);
  ("confirm", it_confirm);
  ("errors", it_errors);
  ("system", it_system);
  ("logFleet", it_logFleet);
  ("perimeter", it_perimeter);
  ("retention", it_retention);
  ("audit", it_audit);
  ("reliability", it_reliability);
  ("configAudit", it_configAudit);
  ("smtp", it_smtp)].
