(* ===== verification/DictEs.v ===== *)
(** * The Spanish texts ([i18n/es.ts]), one definition per group *)
From S2P Require Import Prelude Dict.

Definition es_common : dict := Group [
  ("appName", Text "OPNGMS");
  ("logout", Text "Cerrar sesión");
  ("none", Text "—");
  ("language", Text "Idioma");
  ("cancel", Text "Cancelar")].

Definition es_nav : dict := Group [
  ("overview", Text "Resumen");
  ("devices", Text "Dispositivos");
  ("alerts", Text "Alertas");
  ("perimeter", Text "Perímetro");
  ("reportSettings", Text "Ajustes de informes");
  ("reportSchedule", Text "Programación de informes");
  ("reports", Text "Informes");
  ("logs", Text "Registros");
  ("sessions", Text "Sesiones activas");
  ("mfa", Text "Autenticación de dos factores");
  ("templates", Text "Biblioteca de plantillas");
  ("smtp", Text "SMTP");
  ("logFleet", Text "Flota de registros");
  ("system", Text "Sistema");
  ("groups", Text "Grupos");
  ("audit", Text "Registro de auditoría")].

Definition es_login : dict := Group [
  ("title", Text "OPNGMS");
  ("email", Text "Correo electrónico");
  ("password", Text "Contraseña");
  ("passwordToggle", Text "Mostrar/ocultar");
  ("submit", Text "Iniciar sesión");
  ("invalidCredentials", Text "Credenciales no válidas");
  ("mfa", Group [
    ("title", Text "Autenticación de dos factores");
    ("codeHint", Text "Introduzca el código de 6 dígitos de su aplicación de autenticación.");
    ("recoveryHint", Text "Introduzca uno de sus códigos de recuperación de un solo uso.");
    ("codeLabel", Text "Código de autenticación");
    ("recoveryLabel", Text "Código de recuperación");
    ("verify", Text "Verificar");
    ("useRecovery", Text "Usar un código de recuperación en su lugar");
    ("useCode", Text "Usar un código de autenticación en su lugar");
    ("invalidCode", Text "Código no válido");
    ("or", Text "o");
    ("usePasskey", Text "Usar una passkey / llave de seguridad");
    ("passkeyError", Text "Error al iniciar sesión con passkey. Inténtalo de nuevo.");
    ("passkeyNotSupported", Text "Este navegador no admite passkeys.");
    ("rememberDevice", Text "Confiar en este dispositivo durante {days} días");
    ("rememberDeviceHelp", Text "No se te pedirá un segundo factor la próxima vez que inicies sesión desde este dispositivo.")])].

Definition es_tenant : dict := Group [
  ("activeLabel", Text "Cliente activo");
  ("none", Text "Sin cliente")].

Definition es_overview : dict := Group [
  ("title", Text "Resumen");
  ("activeAlerts", Text "Alertas activas");
  ("noActiveAlerts", Text "No hay alertas activas");
  ("healthLoadError", Text "No se pudo cargar el estado de la flota");
  ("alertsLoadError", Text "No se pudieron cargar las alertas");
  ("attackerCountries", Group [
    ("title", Text "Principales países atacantes");
    ("mapTitle", Text "Orígenes de los ataques");
    ("empty", Text "No se registraron ataques en este período.");
    ("private", Text "Privado / interno");
    ("unknown", Text "Desconocido");
    ("attribution", Text "Datos de país: DB-IP (CC BY 4.0)")])].

Definition es_alerts : dict := Group [
  ("title", Text "Alertas");
  ("active", Text "Activas");
  ("history", Text "Historial");
  ("loadError", Text "No se pudieron cargar las alertas");
  ("noAlerts", Text "No hay alertas");
  ("colType", Text "Tipo");
  ("colLabel", Text "Etiqueta");
  ("colSeverity", Text "Gravedad");
  ("colOpened", Text "Abierta");
  ("colResolved", Text "Resuelta");
  ("colDevice", Text "Dispositivo")].

Definition es_devices : dict := Group [
  ("title", Text "Dispositivos");
  ("add", Text "Añadir dispositivo");
  ("loadError", Text "No se pudieron cargar los dispositivos");
  ("colName", Text "Nombre");
  ("colUrl", Text "URL");
  ("colStatus", Text "Estado");
  ("colFirmware", Text "Firmware")].

Definition es_deviceDetail : dict := Group [
  ("url", Text "URL");
  ("status", Text "Estado");
  ("firmware", Text "Firmware");
  ("loadError", Text "No se pudo cargar el dispositivo")].

Definition es_deviceActions : dict := Group [
  ("testConnection", Text "Probar conexión");
  ("delete", Text "Eliminar");
  ("testResult", Text "Resultado de la prueba");
  ("testNotification", Text "Probar");
  ("testFailed", Text "La prueba de conexión falló");
  ("deleteFailed", Text "Error al eliminar");
  ("openWebGui", Text "Abrir WebGUI")].

Definition es_firmware : dict := Group [
  ("title", Text "Firmware");
  ("tab", Text "Firmware");
  ("check", Text "Buscar actualizaciones");
  ("upToDate", Text "Actualizado");
  ("updatesAvailable", Text "Actualizaciones disponibles");
  ("downloadSize", Text "Tamaño de descarga");
  ("rebootNeeded", Text "Requiere reinicio");
  ("newMajor", Text "Nueva versión principal disponible");
  ("update", Text "Actualizar firmware");
  ("upgrade", Text "Actualizar a la nueva versión principal");
  ("updateConfirm", Text "¿Aplicar todas las actualizaciones de paquetes pendientes? El dispositivo puede reiniciarse.");
  ("upgradeConfirm", Text "¿Actualizar a la nueva versión principal? Esto ejecuta varios pasos con reinicios y puede llevar un tiempo.");
  ("plugins", Text "Complementos");
  ("pluginName", Text "Nombre del complemento");
  ("install", Text "Instalar");
  ("remove", Text "Quitar");
  ("installConfirm", Text "¿Instalar este complemento? El dispositivo debe tener el firmware más reciente.");
  ("removeConfirm", Text "¿Quitar este complemento?");
  ("runNow", Text "Ejecutar ahora");
  ("scheduleAt", Text "Programar (dejar vacío para ejecutar ahora)");
  ("schedule", Text "Programar");
  ("recentActions", Text "Acciones recientes");
  ("noActions", Text "Aún no hay acciones");
  ("actionQueued", Text "Acción en cola");
  ("actionFailed", Text "No se pudo poner la acción en cola");
  ("checkFailed", Text "La comprobación de firmware falló");
  ("kind", Text "Acción");
  ("status", Text "Estado");
  ("when", Text "Cuándo");
  ("result", Text "Resultado")].

Definition es_plugins : dict := Group [
  ("tab", Text "Complementos");
  ("title", Text "Complementos");
  ("subtitle", Text "Complementos que informa el firewall. Instala o quita complementos de la comunidad; para instalar, el dispositivo debe tener el firmware más reciente.");
  ("search", Text "Buscar complementos…");
  ("name", Text "Complemento");
  ("status", Text "Estado");
  ("version", Text "Versión");
  ("installed", Text "Instalado");
  ("notInstalled", Text "Disponible");
  ("locked", Text "Bloqueado");
  ("install", Text "Instalar");
  ("remove", Text "Quitar");
  ("installConfirm", Text "¿Instalar este complemento?");
  ("removeConfirm", Text "¿Quitar este complemento?");
  ("empty", Text "Aún no se han informado complementos — el dispositivo se consulta periódicamente.");
  ("loadFailed", Text "No se pudieron cargar los complementos.");
  ("configure", Text "Configurar");
  ("configureTitle", Text "Configuración del complemento")].

Definition es_templates : dict := Group [
  ("tab", Text "Plantillas");
  ("libraryTitle", Text "Biblioteca de plantillas");
  ("superadminOnly", Text "La biblioteca de plantillas la gestionan los administradores de la plataforma.");
  ("name", Text "Nombre");
  ("kind", Text "Tipo");
  ("type", Text "Tipo de alias");
  ("content", Text "Contenido (una entrada por línea)");
  ("description", Text "Descripción");
  ("create", Text "Nueva plantilla");
  ("edit", Text "Editar");
  ("save", Text "Guardar");
  ("delete", Text "Eliminar");
  ("deleteConfirm", Text "¿Eliminar esta plantilla? Se eliminan las anulaciones por cliente; los cambios aplicados conservan su historial.");
  ("empty", Text "Aún no hay plantillas.");
  ("created", Text "Plantilla creada");
  ("updated", Text "Plantilla actualizada");
  ("saveFailed", Text "No se pudo guardar la plantilla");
  ("apply", Group [
    ("title", Text "Aplicar una plantilla");
    ("pick", Text "Plantilla");
    ("override", Text "Anulación de este cliente (contenido, una entrada por línea — dejar vacío para usar el valor de la biblioteca)");
    ("saveOverride", Text "Guardar anulación");
    ("overrideSaved", Text "Anulación guardada");
    ("preview", Text "Vista previa");
    ("previewTitle", Text "Configuración efectiva");
    ("applyConfirm", Text "¿Aplicar esta plantilla al dispositivo?");
    ("runNow", Text "Aplicar ahora");
    ("scheduleAt", Text "Programar (dejar vacío para aplicar ahora)");
    ("schedule", Text "Programar");
    ("queued", Text "Aplicación en cola");
    ("failed", Text "No se pudo aplicar la plantilla");
    ("none", Text "No hay plantillas disponibles.")]);
  ("templatesTab", Text "Plantillas");
  ("kindLabel", Text "Tipo de plantilla");
  ("kindAlias", Text "Alias de firewall");
  ("kindSetting", Text "Ajuste de OPNsense");
  ("setting", Group [
    ("endpoint", Text "Ajuste");
    ("referenceDevice", Text "Dispositivo de referencia (para leer los campos disponibles)");
    ("load", Text "Cargar campos");
    ("loadHint", Text "Elija un ajuste y un dispositivo, luego cargue los campos a configurar.");
    ("noDevice", Text "No hay ningún dispositivo disponible en el cliente activo del que leer los campos.");
    ("loadFailed", Text "No se pudo leer el ajuste del dispositivo.");
    ("noFields", Text "No hay campos configurables.");
    ("hardwareNote", Text "Los campos específicos del hardware/dispositivo no son plantillables de forma intencionada.")]);
  ("kindFirewallRule", Text "Regla de firewall (Reglas [nuevo])");
  ("fw", Group [
    ("referenceDevice", Text "Dispositivo de referencia (para leer los campos de regla disponibles)");
    ("load", Text "Cargar campos");
    ("loadHint", Text "Elija un dispositivo, luego cargue los campos de regla a configurar.");
    ("noDevice", Text "No hay ningún dispositivo disponible en el cliente activo del que leer los campos.");
    ("loadFailed", Text "No se pudo leer el modelo de regla del dispositivo.");
    ("descriptionRequired", Text "Se requiere una descripción (es la identidad de la regla).");
    ("interface", Text "Interfaz (elegida al aplicar)");
    ("floating", Text "Flotante (sin interfaz)");
    ("note", Text "La interfaz se elige al aplicar; déjela vacía para una regla flotante.")]);
  ("kindMonitTest", Text "Prueba de comprobación de Monit");
  ("monit", Group [
    ("referenceDevice", Text "Dispositivo de referencia (para leer los campos de prueba disponibles)");
    ("load", Text "Cargar campos");
    ("loadHint", Text "Elija un dispositivo, luego cargue los campos de prueba a configurar.");
    ("noDevice", Text "No hay ningún dispositivo disponible en el cliente activo del que leer los campos.");
    ("loadFailed", Text "No se pudo leer el modelo de prueba del dispositivo.");
    ("nameRequired", Text "Se requiere un nombre (es la identidad de la prueba).");
    ("note", Text "Una prueba surte efecto una vez asociada a un servicio de Monit.");
    ("attachSystem", Text "Asociar esta prueba al servicio del sistema para que surta efecto");
    ("attachSystemNote", Text "Cuando está activado, al aplicar también se asocia la prueba al servicio del sistema Monit del dispositivo.")]);
  ("kindIdsRulesets", Text "Conjuntos de reglas de Suricata/IDS");
  ("ids", Group [
    ("referenceDevice", Text "Dispositivo de referencia (para leer los conjuntos de reglas disponibles)");
    ("load", Text "Cargar conjuntos de reglas");
    ("loadHint", Text "Elija un dispositivo, luego cargue sus conjuntos de reglas para elegir cuáles activar.");
    ("noDevice", Text "No hay ningún dispositivo disponible en el cliente activo del que leer los conjuntos de reglas.");
    ("loadFailed", Text "No se pudieron leer los conjuntos de reglas del dispositivo.");
    ("rulesets", Text "Conjuntos de reglas a activar");
    ("noRulesets", Text "No se encontraron conjuntos de reglas en el dispositivo.");
    ("note", Text "Al aplicar se activan los conjuntos de reglas seleccionados (aditivo — no desactiva los demás).")]);
  ("kindIdsPolicy", Text "Directiva de Suricata/IDS");
  ("idsPolicy", Group [
    ("description", Text "Descripción (la identidad de la directiva)");
    ("enabled", Text "Activada");
    ("prio", Text "Prioridad");
    ("action", Text "Acción actual a coincidir (reglas cuya acción sea una de estas)");
    ("newAction", Text "Nueva acción");
    ("rulesets", Text "Conjuntos de reglas a los que se aplica la directiva");
    ("referenceDevice", Text "Dispositivo de referencia (para leer los conjuntos de reglas disponibles)");
    ("load", Text "Cargar conjuntos de reglas");
    ("loadHint", Text "Elija un dispositivo, luego cargue sus conjuntos de reglas activados para referenciarlos.");
    ("noDevice", Text "No hay ningún dispositivo disponible en el cliente activo del que leer los conjuntos de reglas.");
    ("noRulesets", Text "No se encontraron conjuntos de reglas activados en el dispositivo (active uno primero).");
    ("loadFailed", Text "No se pudieron leer los conjuntos de reglas del dispositivo.");
    ("content", Text "Filtros de metadatos (avanzado — la mayoría de las directivas no necesitan ninguno)");
    ("contentKey", Text "Clave");
    ("contentValues", Text "Valores (separados por comas)");
    ("contentKeyInvalid", Text "Clave no válida — usa letras, dígitos, puntos, guiones o guiones bajos.");
    ("addContent", Text "Añadir filtro");
    ("descriptionRequired", Text "Se requiere una descripción (es la identidad de la directiva).");
    ("note", Text "Los conjuntos de reglas referenciados ya deben estar activados en el dispositivo. La correspondencia de conjuntos de reglas/contenido se verifica en tiempo de ejecución al aplicar.")]);
  ("profiles", Group [
    ("tab", Text "Perfiles");
    ("name", Text "Nombre");
    ("description", Text "Descripción");
    ("members", Text "Plantillas (en orden de aplicación)");
    ("create", Text "Nuevo perfil");
    ("edit", Text "Editar");
    ("save", Text "Guardar");
    ("delete", Text "Eliminar");
    ("deleteConfirm", Text "¿Eliminar este perfil? Los cambios aplicados conservan su historial.");
    ("empty", Text "Aún no hay perfiles.");
    ("created", Text "Perfil creado");
    ("updated", Text "Perfil actualizado");
    ("saveFailed", Text "No se pudo guardar el perfil");
    ("memberCount", Text "plantillas");
    ("apply", Group [
      ("title", Text "Aplicar un perfil");
      ("pick", Text "Perfil");
      ("preview", Text "Vista previa");
      ("previewTitle", Text "Configuración efectiva (por plantilla, en orden)");
      ("interface", Text "Interfaz (elegida al aplicar)");
      ("floating", Text "Flotante (sin interfaz)");
      ("empty", Text "No hay perfiles disponibles.");
      ("applyConfirm", Text "¿Aplicar este perfil al dispositivo? Aplica cada plantilla miembro en orden.");
      ("runNow", Text "Aplicar ahora");
      ("scheduleAt", Text "Programar (dejar vacío para aplicar ahora)");
      ("schedule", Text "Programar");
      ("queued", Text "Aplicación de perfil en cola");
      ("failed", Text "No se pudo aplicar el perfil")])])].

Definition es_deviceCreate : dict := Group [
  ("title", Text "Añadir dispositivo");
  ("name", Text "Nombre");
  ("url", Text "URL (https)");
  ("apiKey", Text "Clave de API");
  ("apiSecret", Text "Secreto de API");
  ("verifyTls", Text "Verificar TLS");
  ("tlsWarning", Text "Con la verificación TLS desactivada, nada autentica el certificado del dispositivo: las credenciales pueden ser interceptadas. Fija la huella SHA-256 del certificado a continuación para restaurar la protección.");
  ("tlsFingerprintLabel", Text "Huella SHA-256 del certificado (opcional)");
  ("tlsFingerprintPlaceholder", Text "00:42:E2:C4:07:61:06:0D:56:A4:75:2F:FC:32:2B:4E:B3:CE:FF:31:8A:88:F3:22:2B:C1:B1:0D:46:0B:04:2C");
  ("save", Text "Guardar");
  ("created", Text "Dispositivo creado");
  ("createFailed", Text "Error al crear")].

Definition es_health : dict := Group [
  ("totalDevices", Text "Total de dispositivos");
  ("activeAlerts", Text "Alertas activas")].

Definition es_logForwarding : dict := Group [
  ("tab", Text "Reenvío de registros")].

Definition es_catalog : dict := Group [
  ("tab", Text "Editor");
  ("searchModels", Text "Buscar ajustes…");
  ("noModels", Text "No hay catálogo para esta versión del dispositivo.");
  ("selectModel", Text "Seleccione un grupo de ajustes a la izquierda para editarlo.");
  ("readOnly", Text "No editable (lista de denegación de seguridad).");
  ("unreachable", Text "Dispositivo inaccesible — se requieren los valores en vivo para editar.");
  ("liveValues", Text "Valores en vivo");
  ("propose", Text "Proponer cambio");
  ("preview", Text "Revisar cambio");
  ("noChanges", Text "No hay cambios que proponer.");
  ("proposed", Text "Borrador de cambio creado — prográmelo desde la pestaña Configuración.");
  ("proposeFailed", Text "No se pudo crear el cambio.");
  ("loadFailed", Text "No se pudo cargar el modelo.");
  ("openWebgui", Text "Abrir en WebGUI");
  ("searchAll", Text "Buscar ajustes…");
  ("grid", Group [
    ("add", Text "Añadir fila");
    ("save", Text "Guardar");
    ("edit", Text "Editar");
    ("delete", Text "Eliminar");
    ("empty", Text "No hay filas.")]);
  ("diff", Group [
    ("baseline", Text "Comparar con");
    ("noBaseline", Text "Sin versión anterior");
    ("newSince", Text "Nuevo desde {v}");
    ("changedSince", Text "Cambiado desde {v}");
    ("changes", Text "cambios")]);
  ("map", Group [
    ("tabMenu", Text "Menú");
    ("tabMap", Text "Mapa de config");
    ("editInCatalog", Text "Editar en el catálogo");
    ("readOnly", Text "solo lectura (sin API)");
    ("staleBanner", Text "Obsoleto — dispositivo inaccesible; mostrando la última copia de seguridad de {when}")])].

Definition es_config : dict := Group [
  ("tabInfo", Text "Información");
  ("tabHealth", Text "Estado");
  ("tabConfig", Text "Configuración");
  ("capabilities", Text "Capacidades");
  ("version", Text "Versión de OPNsense");
  ("interfaces", Text "Interfaces");
  ("configuredSections", Text "Secciones configuradas");
  ("available", Text "Capacidades disponibles");
  ("hidden", Text "ocultas");
  ("noConfigYet", Text "Aún no se ha capturado ninguna configuración");
  ("nic", Text "NIC");
  ("changes", Group [
    ("title", Text "Cambios pendientes");
    ("propose", Text "Proponer cambio de alias");
    ("none", Text "No hay cambios pendientes");
    ("colKind", Text "Tipo");
    ("colOperation", Text "Operación");
    ("colTarget", Text "Objetivo");
    ("colStatus", Text "Estado");
    ("colScheduled", Text "Programado");
    ("preview", Text "Vista previa");
    ("schedule", Text "Programar");
    ("cancel", Text "Cancelar");
    ("revert", Text "Revertir");
    ("reverts", Text "revierte el n.º");
    ("applyNow", Text "Aplicar ahora");
    ("pickTime", Text "Elegir fecha/hora");
    ("checkDrift", Text "Comprobar desviación");
    ("driftUnreachable", Text "No se pudo contactar con el dispositivo — desviación desconocida.");
    ("driftInSync", Text "sincronizado");
    ("driftDrifted", Text "desviación");
    ("driftMissing", Text "ausente");
    ("driftUnsupported", Text "n/d");
    ("driftFields", Text "Campos desviados: ");
    ("operation", Text "Operación");
    ("name", Text "Nombre");
    ("type", Text "Tipo");
    ("content", Text "Contenido (uno por línea)");
    ("create", Text "Crear");
    ("add", Text "añadir");
    ("set", Text "establecer");
    ("delete", Text "eliminar")])].

Definition es_deviceHealth : dict := Group [
  ("title", Text "Estado");
  ("cpu", Text "CPU");
  ("memory", Text "Memoria");
  ("disk", Text "Disco");
  ("trafficIn", Text "Tráfico de entrada");
  ("trafficOut", Text "Tráfico de salida");
  ("gatewayRtt", Text "RTT de la puerta de enlace");
  ("gatewayLoss", Text "Pérdida de la puerta de enlace");
  ("vpnUp", Text "VPN activa")].

Definition es_chart : dict := Group [
  ("noData", Text "Aún no hay datos")].

Definition es_reports : dict := Group [
  ("page", Group [
    ("title", Text "Informes");
    ("generate", Text "Generar informe");
    ("from", Text "Desde");
    ("to", Text "Hasta");
    ("period", Text "Período");
    ("kind", Text "Tipo");
    ("created", Text "Creado");
    ("size", Text "Tamaño");
    ("download", Text "Descargar");
    ("none", Text "Aún no hay informes.");
    ("generated", Text "Informe generado");
    ("kindOnDemand", Text "Bajo demanda");
    ("kindScheduled", Text "Programado")]);
  ("settings", Group [
    ("pageTitle", Text "Ajustes de informes");
    ("title", Text "Título del informe");
    ("owner", Text "Propietario");
    ("timezone", Text "Zona horaria");
    ("fromEmail", Text "Correo de origen (entrega de informes)");
    ("logo", Text "Logotipo");
    ("upload", Text "Subir logotipo");
    ("remove", Text "Quitar logotipo");
    ("language", Text "Idioma del informe");
    ("save", Text "Guardar ajustes");
    ("adminsOnly", Text "Los ajustes de informes solo están disponibles para los administradores del cliente.");
    ("saved", Text "Ajustes de informes guardados.");
    ("logoUploaded", Text "Logotipo subido.");
    ("logoRemoved", Text "Logotipo eliminado.");
    ("hasLogo", Text "Logotipo subido");
    ("noLogo", Text "Sin logotipo")]);
  ("sections", Group [
    ("title", Text "Secciones del informe");
    ("description", Text "Elija qué secciones aparecen en el informe PDF.");
    ("customizeForDevice", Text "Personalizar las secciones para este dispositivo");
    ("summary", Text "Resumen ejecutivo");
    ("health", Text "Estado del dispositivo");
    ("alerts_wan", Text "Alertas y conectividad");
    ("attacks", Text "Ataques");
    ("attacker_countries", Text "Países atacantes");
    ("failed_logins", Text "Inicios de sesión fallidos");
    ("firewall_blocks", Text "Bloqueos del firewall");
    ("web", Text "Actividad web");
    ("data", Text "Uso de datos");
    ("status", Text "Estado activo/inactivo");
    ("firmware_config", Text "Firmware y configuración");
    ("applications", Text "Aplicaciones");
    ("web_filter", Text "Filtro web")])].

Definition es_sessions : dict := Group [
  ("pageTitle", Text "Sesiones activas");
  ("colLastSeen", Text "Visto por última vez");
  ("colCreated", Text "Creada");
  ("colExpires", Text "Expira");
  ("colIp", Text "Dirección IP");
  ("colUserAgent", Text "Agente de usuario");
  ("current", Text "Actual");
  ("logoutAll", Text "Cerrar sesión en todas partes");
  ("loadError", Text "No se pudieron cargar las sesiones");
  ("logoutAllError", Text "No se pudo cerrar sesión en todas partes")].

Definition es_mfa : dict := Group [
  ("pageTitle", Text "Autenticación de dos factores");
  ("intro", Text "Proteja su cuenta con una contraseña de un solo uso basada en tiempo (TOTP) de una aplicación de autenticación.");
  ("status", Text "Estado");
  ("enabled", Text "Activada");
  ("disabled", Text "Desactivada");
  ("recoveryRemaining", Text "Códigos de recuperación restantes");
  ("statusError", Text "No se pudo cargar el estado de MFA");
  ("enroll", Text "Configurar la autenticación de dos factores");
  ("enrollStart", Text "Iniciar configuración");
  ("password", Text "Contraseña actual");
  ("passwordHint", Text "Vuelva a introducir su contraseña para cambiar los ajustes de dos factores.");
  ("scanHint", Text "Escanee este código QR con su aplicación de autenticación, o introduzca el secreto manualmente.");
  ("secretLabel", Text "Clave secreta");
  ("confirmCodeLabel", Text "Código de autenticación");
  ("confirmHint", Text "Introduzca el código de 6 dígitos de su aplicación para finalizar la configuración.");
  ("confirm", Text "Confirmar y activar");
  ("cancel", Text "Cancelar");
  ("setupError", Text "No se pudo iniciar la configuración (compruebe su contraseña).");
  ("confirmError", Text "Código no válido. Inténtelo de nuevo.");
  ("recoveryTitle", Text "Códigos de recuperación");
  ("recoveryIntro", Text "Guarde estos códigos de recuperación de un solo uso en un lugar seguro. Cada uno puede usarse una vez si pierde su autenticador.");
  ("recoveryWarning", Text "Estos códigos se muestran solo una vez.");
  ("copyAll", Text "Copiar todo");
  ("copied", Text "Copiado al portapapeles");
  ("download", Text "Descargar");
  ("done", Text "Hecho");
  ("regenerate", Text "Regenerar códigos de recuperación");
  ("regenerateError", Text "No se pudieron regenerar los códigos de recuperación (compruebe su contraseña).");
  ("disable", Text "Desactivar la autenticación de dos factores");
  ("disableConfirmTitle", Text "¿Desactivar la autenticación de dos factores?");
  ("disableConfirmBody", Text "Su cuenta dejará de requerir un segundo factor al iniciar sesión.");
  ("disableError", Text "No se pudo desactivar (compruebe su contraseña).");
  ("disabledNotice", Text "Autenticación de dos factores desactivada.");
  ("policyTitle", Text "Política de MFA de la organización");
  ("policyIntro", Text "Exigir la autenticación de dos factores en toda la organización.");
  ("policyOff", Text "Desactivada");
  ("policyAll", Text "Todos los usuarios");
  ("policyPrivileged", Text "Usuarios privilegiados");
  ("policyLoadError", Text "No se pudo cargar la política de MFA");
  ("policySaveError", Text "No se pudo actualizar la política de MFA");
  ("policySaved", Text "Política de MFA actualizada");
  ("usersTitle", Text "MFA de usuarios");
  ("colUser", Text "Usuario");
  ("colEmail", Text "Correo electrónico");
  ("colRole", Text "Rol");
  ("superadmin", Text "Superadministrador");
  ("member", Text "Miembro");
  ("reset", Text "Restablecer MFA");
  ("resetConfirmTitle", Text "¿Restablecer la MFA de este usuario?");
  ("resetConfirmBody", Text "Esto borra su secreto TOTP y sus códigos de recuperación. Tendrá que volver a configurarla.");
  ("resetError", Text "No se pudo restablecer la MFA del usuario");
  ("resetDone", Text "MFA del usuario restablecida");
  ("usersLoadError", Text "No se pudieron cargar los usuarios");
  ("gateTitle", Text "Se requiere autenticación de dos factores");
  ("gateIntro", Text "Su organización requiere autenticación de dos factores. Configúrela ahora para continuar.");
  ("passkeys", Group [
    ("title", Text "Passkeys");
    ("intro", Text "Registra una passkey o llave de seguridad para iniciar sesión sin código.");
    ("add", Text "Añadir passkey");
    ("accountPassword", Text "Contraseña de la cuenta");
    ("name", Text "Nombre");
    ("namePlaceholder", Text "p. ej. Portátil del trabajo");
    ("unnamed", Text "Passkey");
    ("colName", Text "Nombre");
    ("colCreated", Text "Creada");
    ("remove", Text "Eliminar");
    ("removeConfirmTitle", Text "¿Eliminar esta passkey?");
    ("removeConfirmBody", Text "Esta passkey ya no podrá usarse para iniciar sesión.");
    ("addedNotice", Text "Passkey añadida.");
    ("removedNotice", Text "Passkey eliminada.");
    ("addError", Text "No se pudo añadir la passkey. Inténtalo de nuevo.");
    ("removeError", Text "No se pudo eliminar la passkey.");
    ("listError", Text "Error al cargar las passkeys");
    ("lastFactorError", Text "No puedes eliminar tu último segundo factor. Añade otro primero.");
    ("notConfigured", Text "Las passkeys no están configuradas para tu organización.");
    ("notSupported", Text "Este navegador no admite passkeys.")]);
  ("trustedDeviceToggle", Group [
    ("label", Text "Recordar este dispositivo");
    ("help", Text "Permite a los usuarios omitir el segundo factor en los dispositivos que elijan de confianza.")]);
  ("trustedDevices", Group [
    ("title", Text "Dispositivos de confianza");
    ("intro", Text "Los dispositivos de confianza pueden iniciar sesión sin un segundo factor hasta que expiren. Revoca los que ya no reconozcas.");
    ("colDevice", Text "Dispositivo");
    ("colIp", Text "Dirección IP");
    ("colLastUsed", Text "Último uso");
    ("colExpires", Text "Vence");
    ("revoke", Text "Revocar");
    ("revokeAll", Text "Revocar todos");
    ("confirmTitle", Text "¿Revocar este dispositivo?");
    ("confirmBody", Text "Este dispositivo necesitará un segundo factor en el próximo inicio de sesión.");
    ("revokeAllConfirmTitle", Text "¿Revocar todos los dispositivos de confianza?");
    ("revokeAllConfirmBody", Text "Todos los dispositivos de confianza necesitarán un segundo factor en el próximo inicio de sesión.");
    ("empty", Text "Sin dispositivos de confianza.");
    ("loadError", Text "No se pudieron cargar los dispositivos de confianza.");
    ("revokeError", Text "No se pudo revocar el dispositivo.");
    ("unknownDevice", Text "Dispositivo desconocido")])].

Definition es_groups : dict := Group [
  ("title", Text "Grupos");
  ("description", Text "Defina grupos de usuarios y el acceso a los clientes que reciben.");
  ("superadminOnly", Text "Los grupos los gestionan los administradores de la plataforma.");
  ("name", Text "Nombre");
  ("namePlaceholder", Text "Nombre del grupo");
  ("descriptionField", Text "Descripción");
  ("descriptionPlaceholder", Text "Descripción opcional");
  ("members", Text "Miembros");
  ("membersPlaceholder", Text "Seleccione usuarios");
  ("noMembers", Text "Aún no hay miembros.");
  ("grants", Text "Concesiones de acceso");
  ("noGrants", Text "Aún no hay concesiones.");
  ("addGrant", Text "Añadir concesión");
  ("allTenants", Text "Todos los clientes");
  ("tenant", Text "Cliente");
  ("tenantPlaceholder", Text "Seleccione un cliente");
  ("role", Text "Rol");
  ("roleTenantAdmin", Text "Administrador del cliente");
  ("roleOperator", Text "Operador");
  ("roleReadOnly", Text "Solo lectura");
  ("allTenantsScope", Text "Todos los clientes");
  ("create", Text "Nuevo grupo");
  ("createTitle", Text "Crear grupo");
  ("save", Text "Guardar");
  ("delete", Text "Eliminar");
  ("deleteConfirm", Text "¿Eliminar este grupo? Sus miembros perderán el acceso concedido. Esta acción no se puede deshacer.");
  ("removeGrant", Text "Quitar concesión");
  ("empty", Text "Aún no hay grupos.");
  ("created", Text "Grupo creado");
  ("updated", Text "Grupo actualizado");
  ("deleted", Text "Grupo eliminado");
  ("membersSaved", Text "Miembros actualizados");
  ("grantAdded", Text "Concesión añadida");
  ("grantRemoved", Text "Concesión eliminada");
  ("saveFailed", Text "No se pudo guardar el grupo");
  ("loadError", Text "No se pudieron cargar los grupos")].

Definition es_confirm : dict := Group [
  ("title", Text "¿Está seguro?");
  ("cancel", Text "Cancelar");
  ("confirm", Text "Confirmar");
  ("deleteDevice", Text "Eliminar dispositivo");
  ("deleteDeviceBody", Text "Esto eliminará permanentemente el dispositivo y todos sus datos. Esta acción no se puede deshacer.")].

Definition es_errors : dict := Group [
  ("fleetHealthLoad", Text "No se pudo cargar el estado de la flota");
  ("alertsLoad", Text "No se pudieron cargar las alertas");
  ("metricsLoad", Text "No se pudieron cargar las métricas");
  ("configModelLoad", Text "No se pudo cargar la configuración");
  ("configCapabilitiesLoad", Text "No se pudieron cargar las capacidades");
  ("configChangesLoad", Text "No se pudieron cargar los cambios");
  ("configChangeAction", Text "La acción falló (puede que no tenga permiso)");
  ("reportSettingsLoad", Text "No se pudieron cargar los ajustes de informes");
  ("reportSettingsAction", Text "La acción de ajustes de informes falló");
  ("reportsLoad", Text "No se pudieron cargar los informes");
  ("reportGenerate", Text "No se pudo generar el informe");
  ("attackerCountriesLoad", Text "No se pudieron cargar los países atacantes");
  ("perimeterLoad", Text "No se pudieron cargar los datos del perímetro");
  ("auditLoad", Text "No se pudo cargar el registro de auditoría");
  ("retentionLoad", Text "No se pudo cargar la configuración de retención");
  ("retentionSave", Text "No se pudo guardar la configuración de retención")].

Definition es_system : dict := Group [
  ("title", Text "Sistema");
  ("subtitle", Text "Ajustes de ejecución de toda la plataforma.");
  ("livePush", Group [
    ("label", Text "Aplicación de configuración en vivo a los dispositivos");
    ("help", Text "Cuando está activado, aplicar un cambio de configuración se escribe en el dispositivo real. Cuando está desactivado, los cambios son solo una simulación.");
    ("loadError", Text "No se pudo cargar el ajuste de aplicación en vivo.");
    ("enabled", Text "Aplicación de configuración en vivo activada");
    ("disabled", Text "Aplicación de configuración en vivo desactivada");
    ("updateError", Text "No se pudo actualizar la aplicación de configuración en vivo")]);
  ("runtime", Group [
    ("title", Text "Ajustes de ejecución");
    ("subtitle", Text "Ajustable sin reiniciar; el valor configurado aquí anula el valor por defecto del despliegue de .env.");
    ("loadError", Text "No se pudieron cargar los ajustes de ejecución.");
    ("save", Text "Guardar");
    ("discard", Text "Descartar cambios");
    ("saved", Text "Ajustes de ejecución guardados");
    ("saveError", Text "No se pudieron guardar los ajustes de ejecución");
    ("defaultLabel", Text "por defecto");
    ("impactsTitle", Text "Reducir este valor de retención afecta a los clientes");
    ("impactItem", Text "{tenant}: una programación de informe {store} necesita {range} días pero {store} ahora se conserva {bound} días.");
    ("groups", Group [
      ("firmware", Text "Firmware");
      ("distribution", Text "Distribución de catálogo y GeoIP");
      ("maintenance", Text "Mantenimiento");
      ("retention", Text "Retención de datos");
      ("security_login", Text "Protección de inicio de sesión");
      ("security_session", Text "Sesiones")]);
    ("items", Group [
      ("firmware_max_status_polls", Group [
        ("label", Text "Máx. sondeos de estado");
        ("help", Text "Sondeos de estado antes de abandonar una acción de firmware.")]);
      ("firmware_poll_interval_seconds", Group [
        ("label", Text "Intervalo de sondeo (s)");
        ("help", Text "Retardo entre los sondeos de estado del firmware.")]);
      ("catalog_auto_fetch", Group [
        ("label", Text "Obtener catálogos de configuración automáticamente");
        ("help", Text "Obtiene catálogos versionados de la release cuando faltan en la caché.")]);
      ("geoip_auto_fetch", Group [
        ("label", Text "Obtener base de datos GeoIP automáticamente");
        ("help", Text "Obtiene la base de datos GeoIP de la release cuando falta en la caché.")]);
      ("silent_alert_enabled", Group [
        ("label", Text "Alertas de cliente en silencio");
        ("help", Text "Alerta cuando un cliente con reenvío deja de enviar registros.")]);
      ("silent_alert_after_hours", Group [
        ("label", Text "En silencio tras (horas)");
        ("help", Text "Horas de silencio antes de marcar un cliente.")]);
      ("perimeter_retention_days", Group [
        ("label", Text "Retención de perímetro (días)");
        ("help", Text "Valor predeterminado global del tiempo que se conservan los datos de atacantes del perímetro.")]);
      ("events_retention_days", Group [
        ("label", Text "Retención de eventos (días)");
        ("help", Text "Valor predeterminado global del tiempo que se conservan los datos de eventos.")]);
      ("metrics_retention_days", Group [
        ("label", Text "Retención de métricas (días)");
        ("help", Text "Valor predeterminado global del tiempo que se conservan los datos de métricas.")]);
      ("log_lake_retention_days", Group [
        ("label", Text "Retención del lago de registros (días)");
        ("help", Text "Valor predeterminado global del tiempo que se conservan los datos del lago de registros.")]);
      ("login_max_attempts", Group [
        ("label", Text "Máx. intentos de inicio de sesión");
        ("help", Text "Intentos de inicio de sesión fallidos permitidos antes del bloqueo.")]);
      ("login_lockout_window_seconds", Group [
        ("label", Text "Ventana de bloqueo (s)");
        ("help", Text "Ventana deslizante para el recuento de inicios de sesión fallidos.")]);
      ("session_ttl_hours", Group [
        ("label", Text "Duración de la sesión (horas)");
        ("help", Text "Duración absoluta de la sesión.")]);
      ("session_idle_minutes", Group [
        ("label", Text "Tiempo de inactividad (minutos)");
        ("help", Text "Tiempo de inactividad antes de que expire una sesión.")]);
      ("trusted_device_days", Group [
        ("label", Text "Duración del dispositivo de confianza (días)");
        ("help", Text "Cuánto tiempo puede un dispositivo de confianza omitir el segundo factor antes de tener que volver a ser verificado.")])])])].

Definition es_logFleet : dict := Group [
  ("title", Text "Flota de registros");
  ("loadError", Text "No se pudo cargar la flota de registros.");
  ("exportCsv", Text "Exportar CSV");
  ("exportPdf", Text "Exportar PDF");
  ("exportFailed", Text "La exportación falló.");
  ("silentBadge", Text "en silencio");
  ("silentAlertsTitle", Text "Alertas de clientes en silencio");
  ("silentAlertsBody", Text "activaron el reenvío pero no tienen registros recientes.");
  ("volume", Text "Volumen");
  ("devicesTitle", Text "Dispositivos");
  ("devicesLoadError", Text "No se pudieron cargar los dispositivos.");
  ("noDevices", Text "Sin dispositivos.");
  ("stats", Group [
    ("tenantsForwarding", Text "Clientes con reenvío");
    ("enabledDevices", Text "Dispositivos habilitados");
    ("silentTenants", Text "Clientes en silencio")]);
  ("table", Group [
    ("tenant", Text "Cliente");
    ("device", Text "Dispositivo");
    ("forwarding", Text "Reenvío");
    ("revoked", Text "Revocado");
    ("lastLog", Text "Último registro")])].

Definition es_perimeter : dict := Group [
  ("title", Text "Perímetro");
  ("subtitle", Text "IP atacantes en el perímetro del firewall: inicios de sesión fallidos en el equipo y tráfico bloqueado.");
  ("failedLogins", Text "Inicios de sesión fallidos");
  ("firewallBlocks", Text "Bloqueos del firewall");
  ("failedLoginsHelp", Text "Intentos de inicio de sesión en el equipo que fueron rechazados.");
  ("firewallBlocksHelp", Text "Tráfico entrante descartado por el firewall.");
  ("ip", Text "IP de origen");
  ("country", Text "País");
  ("user", Text "Usuario");
  ("port", Text "Puerto");
  ("count", Text "Recuento");
  ("lastSeen", Text "Visto por última vez");
  ("empty", Text "Sin actividad en este período.");
  ("viewAll", Text "Ver todo");
  ("loadError", Text "No se pudieron cargar los datos del perímetro.")].

Definition es_retention : dict := Group [
  ("title", Text "Retención de datos");
  ("subtitle", Text "Anule cuánto tiempo se conservan los datos de este cliente. Deje un campo vacío para heredar el valor predeterminado global.");
  ("inheritHint", Text "Heredar global");
  ("save", Text "Guardar retención");
  ("saved", Text "Configuración de retención guardada.");
  ("stores", Group [
    ("perimeter", Text "Perímetro (días)");
    ("events", Text "Eventos (días)");
    ("metrics", Text "Métricas (días)");
    ("log_lake", Text "Lago de registros (días)")]);
  ("warningTitle", Text "Las programaciones de informes superan la retención");
  ("warningItem", Text "Una programación {frequency} cubre {range} días pero los datos de {store} se conservan {bound} días.")].

Definition es_audit : dict := Group [
  ("title", Text "Registro de auditoría");
  ("subtitle", Text "Todas las acciones que modifican datos en la plataforma, por actor y cliente.");
  ("filters", Group [
    ("actor", Text "Correo del actor");
    ("tenant", Text "ID del cliente");
    ("action", Text "Acción");
    ("from", Text "Desde");
    ("to", Text "Hasta");
    ("apply", Text "Aplicar");
    ("reset", Text "Restablecer")]);
  ("columns", Group [
    ("time", Text "Hora");
    ("actor", Text "Actor");
    ("tenant", Text "Cliente");
    ("action", Text "Acción");
    ("target", Text "Objetivo");
    ("ip", Text "IP");
    ("details", Text "Detalles")]);
  ("empty", Text "Ninguna entrada de auditoría coincide con estos filtros.");
  ("export", Text "Exportar CSV");
  ("exportFailed", Text "La exportación falló.");
  ("page", Text "Página {page}");
  ("showingTotal", Text "{total} entradas");
  ("prev", Text "Anterior");
  ("next", Text "Siguiente")].

Definition es_reliability : dict := Group [
  ("tab", Text "Fiabilidad");
  ("title", Text "Eventos de servicio (24h)");
  ("subtitle", Text "Reinicios, caídas/reinicios de servicios y avisos de disco del registro del sistema del dispositivo.");
  ("time", Text "Hora");
  ("category", Text "Categoría");
  ("name", Text "Evento");
  ("severity", Text "Gravedad");
  ("process", Text "Proceso");
  ("message", Text "Mensaje");
  ("categories", Group [
    ("reboot", Text "Reinicio");
    ("service", Text "Servicio");
    ("disk", Text "Disco")]);
  ("severities", Group [
    ("high", Text "Alta");
    ("medium", Text "Media");
    ("low", Text "Baja")]);
  ("loadMore", Text "Cargar más");
  ("empty", Text "Sin eventos de servicio en este período.");
  ("loading", Text "Cargando eventos de servicio…");
  ("loadError", Text "No se pudieron cargar los eventos de servicio.");
  ("last24h", Text "Últimas 24 horas")].

Definition es_configAudit : dict := Group [
  ("tab", Text "Cambios de config.");
  ("title", Text "Cambios directos de config. (24h)");
  ("subtitle", Text "Quién cambió la configuración del equipo y cómo: los cambios directos en el equipo (GUI/consola) se marcan como deriva.");
  ("time", Text "Hora");
  ("area", Text "Área");
  ("actor", Text "Autor");
  ("ip", Text "IP");
  ("channel", Text "Canal");
  ("change", Text "Cambio");
  ("direct", Text "Directo");
  ("channels", Group [
    ("api", Text "API");
    ("gui", Text "WebGUI");
    ("system", Text "Consola/script");
    ("opngms", Text "OPNGMS");
    ("api_external", Text "API externa")]);
  ("loadMore", Text "Cargar más");
  ("empty", Text "Sin cambios de configuración en este período.");
  ("loading", Text "Cargando cambios de configuración…");
  ("loadError", Text "No se pudieron cargar los cambios de configuración.");
  ("last24h", Text "Últimas 24 horas")].

Definition es_smtp : dict := Group [
  ("authMethod", Text "Autenticación");
  ("authPassword", Text "Contraseña");
  ("authOauth", Text "OAuth2");
  ("oauthProvider", Text "Proveedor");
  ("oauthGoogle", Text "Google / Gmail");
  ("oauthMicrosoft", Text "Microsoft 365");
  ("oauthClientId", Text "Client ID");
  ("oauthClientSecret", Text "Client secret");
  ("oauthRefreshToken", Text "Refresh token");
  ("oauthTenantId", Text "Tenant ID");
  ("oauthSecretSaved", Text "guardado — déjalo en blanco para mantener");
  ("oauthConnect", Text "Conectar cuenta");
  ("oauthConnectGoogle", Text "Conectar con Google");
  ("oauthConnectMicrosoft", Text "Conectar con Microsoft 365");
  ("oauthExperimental", Text "Experimental — no probado");
  ("oauthExperimentalNote", Text "El inicio de sesión en el navegador para OAuth no ha sido verificado con un proveedor real. Requiere que PUBLIC_BASE_URL esté configurado y que el URI de redirección esté registrado en su aplicación OAuth. Pegar un token de actualización arriba sigue siendo la ruta admitida.");
  ("oauthConnectNeedsCreds", Text "Guarde primero el ID de cliente y el secreto, luego conecte.");
  ("oauthConnected", Text "Cuenta conectada.");
  ("oauthConnectFailed", Text "No se pudo conectar la cuenta.")].

Definition es : dict := Group [
  ("common", es_common);
  ("nav", es_nav);
  ("login", es_login);
  ("tenant", es_tenant);
  ("overview", es_overview);
  ("alerts", es_alerts);
  ("devices", es_devices);
  ("deviceDetail", es_deviceDetail);
  ("deviceActions", es_deviceActions);
  ("firmware", es_firmware);
  ("plugins", es_plugins);
  ("templates", es_templates);
  ("deviceCreate", es_deviceCreate);
  ("health", es_health);
  ("logForwarding", es_logForwarding);
  ("catalog", es_catalog);
  ("config", es_config);
  ("deviceHealth", es_deviceHealth);
  ("chart", es_chart);
  ("reports", es_reports);
  ("sessions", es_sessions);
  ("mfa", es_mfa);
  ("groups", es_groups);
  ("confirm", es_confirm);
  ("errors", es_errors);
  ("system", es_system);
  ("logFleet", es_logFleet);
  ("perimeter", es_perimeter);
  ("retention", es_retention);
  ("audit", es_audit);
  ("reliability", es_reliability);
  ("configAudit", es_configAudit);
  ("smtp", es_smtp)].
