(* ===== verification/DictFr.v ===== *)
(** * The French texts ([i18n/fr.ts]), one definition per group *)
From S2P Require Import Prelude Dict.

Definition fr_common : dict := Group [
  ("appName", Text "OPNGMS");
  ("logout", Text "Se déconnecter");
  ("none", Text "—");
  ("language", Text "Langue");
  ("cancel", Text "Annuler")].

Definition fr_nav : dict := Group [
  ("overview", Text "Vue d'ensemble");
  ("devices", Text "Appareils");
  ("alerts", Text "Alertes");
  ("perimeter", Text "Périmètre");
  ("reportSettings", Text "Paramètres des rapports");
  ("reportSchedule", Text "Planification des rapports");
  ("reports", Text "Rapports");
  ("logs", Text "Journaux");
  ("sessions", Text "Sessions actives");
  ("mfa", Text "Authentification à deux facteurs");
  ("templates", Text "Bibliothèque de modèles");
  ("smtp", Text "SMTP");
  ("logFleet", Text "Parc de journaux");
  ("system", Text "Système");
  ("groups", Text "Groupes");
  ("audit", Text "Journal d'audit")].

Definition fr_login : dict := Group [
  ("title", Text "OPNGMS");
  ("email", Text "E-mail");
  ("password", Text "Mot de passe");
  ("passwordToggle", Text "Afficher/masquer");
  ("submit", Text "Se connecter");
  ("invalidCredentials", Text "Identifiants invalides");
  ("mfa", Group [
    ("title", Text "Authentification à deux facteurs");
    ("codeHint", Text "Saisissez le code à 6 chiffres de votre application d'authentification.");
    ("recoveryHint", Text "Saisissez l'un de vos codes de récupération à usage unique.");
    ("codeLabel", Text "Code d'authentification");
    ("recoveryLabel", Text "Code de récupération");
    ("verify", Text "Vérifier");
    ("useRecovery", Text "Utiliser plutôt un code de récupération");
    ("useCode", Text "Utiliser plutôt un code d'authentification");
    ("invalidCode", Text "Code invalide");
    ("or", Text "ou");
    ("usePasskey", Text "Utiliser une passkey / clé de sécurité");
    ("passkeyError", Text "Échec de la connexion par passkey. Veuillez réessayer.");
    ("passkeyNotSupported", Text "Ce navigateur ne prend pas en charge les passkeys.");
    ("rememberDevice", Text "Faire confiance à cet appareil pendant {days} jours");
    ("rememberDeviceHelp", Text "Vous ne serez pas invité à saisir un second facteur la prochaine fois que vous vous connecterez depuis cet appareil.")])].

Definition fr_tenant : dict := Group [
  ("activeLabel", Text "Locataire actif");
  ("none", Text "Aucun locataire")].

Definition fr_overview : dict := Group [
  ("title", Text "Vue d'ensemble");
  ("activeAlerts", Text "Alertes actives");
  ("noActiveAlerts", Text "Aucune alerte active");
  ("healthLoadError", Text "Échec du chargement de l'état du parc");
  ("alertsLoadError", Text "Échec du chargement des alertes");
  ("attackerCountries", Group [
    ("title", Text "Principaux pays attaquants");
    ("mapTitle", Text "Origines des attaques");
    ("empty", Text "Aucune attaque enregistrée sur cette période.");
    ("private", Text "Privé / interne");
    ("unknown", Text "Inconnu");
    ("attribution", Text "Données pays : DB-IP (CC BY 4.0)")])].

Definition fr_alerts : dict := Group [
  ("title", Text "Alertes");
  ("active", Text "Actives");
  ("history", Text "Historique");
  ("loadError", Text "Échec du chargement des alertes");
  ("noAlerts", Text "Aucune alerte");
  ("colType", Text "Type");
  ("colLabel", Text "Libellé");
  ("colSeverity", Text "Gravité");
  ("colOpened", Text "Ouverte");
  ("colResolved", Text "Résolue");
  ("colDevice", Text "Appareil")].

Definition fr_devices : dict := Group [
  ("title", Text "Appareils");
  ("add", Text "Ajouter un appareil");
  ("loadError", Text "Échec du chargement des appareils");
  ("colName", Text "Nom");
  ("colUrl", Text "URL");
  ("colStatus", Text "État");
  ("colFirmware", Text "Micrologiciel")].

Definition fr_deviceDetail : dict := Group [
  ("url", Text "URL");
  ("status", Text "État");
  ("firmware", Text "Micrologiciel");
  ("loadError", Text "Échec du chargement de l'appareil")].

Definition fr_deviceActions : dict := Group [
  ("testConnection", Text "Tester la connexion");
  ("delete", Text "Supprimer");
  ("testResult", Text "Résultat du test");
  ("testNotification", Text "Test");
  ("testFailed", Text "Échec du test de connexion");
  ("deleteFailed", Text "Échec de la suppression");
  ("openWebGui", Text "Ouvrir la WebGUI")].

Definition fr_firmware : dict := Group [
  ("title", Text "Micrologiciel");
  ("tab", Text "Micrologiciel");
  ("check", Text "Rechercher des mises à jour");
  ("upToDate", Text "À jour");
  ("updatesAvailable", Text "Mises à jour disponibles");
  ("downloadSize", Text "Taille du téléchargement");
  ("rebootNeeded", Text "Redémarrage requis");
  ("newMajor", Text "Nouvelle version majeure disponible");
  ("update", Text "Mettre à jour le micrologiciel");
  ("upgrade", Text "Passer à la nouvelle version majeure");
  ("updateConfirm", Text "Appliquer toutes les mises à jour de paquets en attente ? L'appareil peut redémarrer.");
  ("upgradeConfirm", Text "Passer à la nouvelle version majeure ? Cette opération comporte plusieurs étapes avec des redémarrages et peut prendre du temps.");
  ("plugins", Text "Extensions");
  ("pluginName", Text "Nom de l'extension");
  ("install", Text "Installer");
  ("remove", Text "Supprimer");
  ("installConfirm", Text "Installer cette extension ? L'appareil doit disposer du dernier micrologiciel.");
  ("removeConfirm", Text "Supprimer cette extension ?");
  ("runNow", Text "Exécuter maintenant");
  ("scheduleAt", Text "Planifier (laisser vide pour exécuter maintenant)");
  ("schedule", Text "Planifier");
  ("recentActions", Text "Actions récentes");
  ("noActions", Text "Aucune action pour l'instant");
  ("actionQueued", Text "Action mise en file d'attente");
  ("actionFailed", Text "Impossible de mettre l'action en file d'attente");
  ("checkFailed", Text "Échec de la vérification du micrologiciel");
  ("kind", Text "Action");
  ("status", Text "État");
  ("when", Text "Quand");
  ("result", Text "Résultat")].

Definition fr_plugins : dict := Group [
  ("tab", Text "Extensions");
  ("title", Text "Extensions");
  ("subtitle", Text "Extensions signalées par le pare-feu. Installez ou supprimez des extensions communautaires ; pour installer, l'appareil doit disposer du dernier micrologiciel.");
  ("search", Text "Rechercher des extensions…");
  ("name", Text "Extension");
  ("status", Text "État");
  ("version", Text "Version");
  ("installed", Text "Installée");
  ("notInstalled", Text "Disponible");
  ("locked", Text "Verrouillée");
  ("install", Text "Installer");
  ("remove", Text "Supprimer");
  ("installConfirm", Text "Installer cette extension ?");
  ("removeConfirm", Text "Supprimer cette extension ?");
  ("empty", Text "Aucune extension signalée pour l'instant — l'appareil est interrogé périodiquement.");
  ("loadFailed", Text "Impossible de charger les extensions.");
  ("configure", Text "Configurer");
  ("configureTitle", Text "Configuration de l'extension")].

Definition fr_templates : dict := Group [
  ("tab", Text "Modèles");
  ("libraryTitle", Text "Bibliothèque de modèles");
  ("superadminOnly", Text "La bibliothèque de modèles est gérée par les administrateurs de la plateforme.");
  ("name", Text "Nom");
  ("kind", Text "Type");
  ("type", Text "Type d'alias");
  ("content", Text "Contenu (une entrée par ligne)");
  ("description", Text "Description");
  ("create", Text "Nouveau modèle");
  ("edit", Text "Modifier");
  ("save", Text "Enregistrer");
  ("delete", Text "Supprimer");
  ("deleteConfirm", Text "Supprimer ce modèle ? Les remplacements par locataire sont supprimés ; les modifications appliquées conservent leur historique.");
  ("empty", Text "Aucun modèle pour l'instant.");
  ("created", Text "Modèle créé");
  ("updated", Text "Modèle mis à jour");
  ("saveFailed", Text "Impossible d'enregistrer le modèle");
  ("apply", Group [
    ("title", Text "Appliquer un modèle");
    ("pick", Text "Modèle");
    ("override", Text "Remplacement pour ce locataire (contenu, une entrée par ligne — laisser vide pour utiliser la valeur de la bibliothèque)");
    ("saveOverride", Text "Enregistrer le remplacement");
    ("overrideSaved", Text "Remplacement enregistré");
    ("preview", Text "Aperçu");
    ("previewTitle", Text "Configuration effective");
    ("applyConfirm", Text "Appliquer ce modèle à l'appareil ?");
    ("runNow", Text "Appliquer maintenant");
    ("scheduleAt", Text "Planifier (laisser vide pour appliquer maintenant)");
    ("schedule", Text "Planifier");
    ("queued", Text "Application mise en file d'attente");
    ("failed", Text "Impossible d'appliquer le modèle");
    ("none", Text "Aucun modèle disponible.")]);
  ("templatesTab", Text "Modèles");
  ("kindLabel", Text "Type de modèle");
  ("kindAlias", Text "Alias de pare-feu");
  ("kindSetting", Text "Paramètre OPNsense");
  ("setting", Group [
    ("endpoint", Text "Paramètre");
    ("referenceDevice", Text "Appareil de référence (pour lire les champs disponibles)");
    ("load", Text "Charger les champs");
    ("loadHint", Text "Choisissez un paramètre et un appareil, puis chargez les champs à configurer.");
    ("noDevice", Text "Aucun appareil disponible dans le locataire actif pour lire les champs.");
    ("loadFailed", Text "Impossible de lire le paramètre depuis l'appareil.");
    ("noFields", Text "Aucun champ configurable.");
    ("hardwareNote", Text "Les champs spécifiques au matériel ou à l'appareil ne sont volontairement pas modélisables.")]);
  ("kindFirewallRule", Text "Règle de pare-feu (Règles [nouveau])");
  ("fw", Group [
    ("referenceDevice", Text "Appareil de référence (pour lire les champs de règle disponibles)");
    ("load", Text "Charger les champs");
    ("loadHint", Text "Choisissez un appareil, puis chargez les champs de règle à configurer.");
    ("noDevice", Text "Aucun appareil disponible dans le locataire actif pour lire les champs.");
    ("loadFailed", Text "Impossible de lire le modèle de règle depuis l'appareil.");
    ("descriptionRequired", Text "Une description est requise (elle constitue l'identité de la règle).");
    ("interface", Text "Interface (choisie au moment de l'application)");
    ("floating", Text "Flottante (aucune interface)");
    ("note", Text "L'interface est choisie au moment de l'application ; laissez-la vide pour une règle flottante.")]);
  ("kindMonitTest", Text "Test de contrôle Monit");
  ("monit", Group [
    ("referenceDevice", Text "Appareil de référence (pour lire les champs de test disponibles)");
    ("load", Text "Charger les champs");
    ("loadHint", Text "Choisissez un appareil, puis chargez les champs de test à configurer.");
    ("noDevice", Text "Aucun appareil disponible dans le locataire actif pour lire les champs.");
    ("loadFailed", Text "Impossible de lire le modèle de test depuis l'appareil.");
    ("nameRequired", Text "Un nom est requis (il constitue l'identité du test).");
    ("note", Text "Un test prend effet une fois rattaché à un service Monit.");
    ("attachSystem", Text "Rattacher ce test au service système afin qu'il prenne effet");
    ("attachSystemNote", Text "Lorsque cette option est activée, l'application rattache aussi le test au service système Monit de l'appareil.")]);
  ("kindIdsRulesets", Text "Jeux de règles Suricata/IDS");
  ("ids", Group [
    ("referenceDevice", Text "Appareil de référence (pour lire les jeux de règles disponibles)");
    ("load", Text "Charger les jeux de règles");
    ("loadHint", Text "Choisissez un appareil, puis chargez ses jeux de règles pour choisir ceux à activer.");
    ("noDevice", Text "Aucun appareil disponible dans le locataire actif pour lire les jeux de règles.");
    ("loadFailed", Text "Impossible de lire les jeux de règles depuis l'appareil.");
    ("rulesets", Text "Jeux de règles à activer");
    ("noRulesets", Text "Aucun jeu de règles trouvé sur l'appareil.");
    ("note", Text "L'application active les jeux de règles sélectionnés (additif — elle n'en désactive aucun autre).")]);
  ("kindIdsPolicy", Text "Politique Suricata/IDS");
  ("idsPolicy", Group [
    ("description", Text "Description (l'identité de la politique)");
    ("enabled", Text "Activée");
    ("prio", Text "Priorité");
    ("action", Text "Action actuelle à faire correspondre (règles dont l'action est l'une de celles-ci)");
    ("newAction", Text "Nouvelle action");
    ("rulesets", Text "Jeux de règles auxquels s'applique la politique");
    ("referenceDevice", Text "Appareil de référence (pour lire les jeux de règles disponibles)");
    ("load", Text "Charger les jeux de règles");
    ("loadHint", Text "Choisissez un appareil, puis chargez ses jeux de règles activés à référencer.");
    ("noDevice", Text "Aucun appareil disponible dans le locataire actif pour lire les jeux de règles.");
    ("noRulesets", Text "Aucun jeu de règles activé trouvé sur l'appareil (activez d'abord un jeu de règles).");
    ("loadFailed", Text "Impossible de lire les jeux de règles depuis l'appareil.");
    ("content", Text "Filtres de métadonnées (avancé — la plupart des politiques n'en ont pas besoin)");
    ("contentKey", Text "Clé");
    ("contentValues", Text "Valeurs (séparées par des virgules)");
    ("contentKeyInvalid", Text "Clé invalide — utilisez des lettres, chiffres, points, tirets ou underscores.");
    ("addContent", Text "Ajouter un filtre");
    ("descriptionRequired", Text "Une description est requise (elle constitue l'identité de la politique).");
    ("note", Text "Les jeux de règles référencés doivent déjà être activés sur l'appareil. La correspondance jeux de règles/contenu est vérifiée à l'exécution lors de l'application.")]);
  ("profiles", Group [
    ("tab", Text "Profils");
    ("name", Text "Nom");
    ("description", Text "Description");
    ("members", Text "Modèles (dans l'ordre d'application)");
    ("create", Text "Nouveau profil");
    ("edit", Text "Modifier");
    ("save", Text "Enregistrer");
    ("delete", Text "Supprimer");
    ("deleteConfirm", Text "Supprimer ce profil ? Les modifications appliquées conservent leur historique.");
    ("empty", Text "Aucun profil pour l'instant.");
    ("created", Text "Profil créé");
    ("updated", Text "Profil mis à jour");
    ("saveFailed", Text "Impossible d'enregistrer le profil");
    ("memberCount", Text "modèles");
    ("apply", Group [
      ("title", Text "Appliquer un profil");
      ("pick", Text "Profil");
      ("preview", Text "Aperçu");
      ("previewTitle", Text "Configuration effective (par modèle, dans l'ordre)");
      ("interface", Text "Interface (choisie au moment de l'application)");
      ("floating", Text "Flottante (aucune interface)");
      ("empty", Text "Aucun profil disponible.");
      ("applyConfirm", Text "Appliquer ce profil à l'appareil ? Il applique chaque modèle membre dans l'ordre.");
      ("runNow", Text "Appliquer maintenant");
      ("scheduleAt", Text "Planifier (laisser vide pour appliquer maintenant)");
      ("schedule", Text "Planifier");
      ("queued", Text "Application du profil mise en file d'attente");
      ("failed", Text "Impossible d'appliquer le profil")])])].

Definition fr_deviceCreate : dict := Group [
  ("title", Text "Ajouter un appareil");
  ("name", Text "Nom");
  ("url", Text "URL (https)");
  ("apiKey", Text "Clé API");
  ("apiSecret", Text "Secret API");
  ("verifyTls", Text "Vérifier le TLS");
  ("tlsWarning", Text "Sans vérification TLS, rien n'authentifie le certificat de l'appareil : les identifiants peuvent être interceptés. Épinglez l'empreinte SHA-256 du certificat ci-dessous pour rétablir la protection.");
  ("tlsFingerprintLabel", Text "Empreinte SHA-256 du certificat (facultatif)");
  ("tlsFingerprintPlaceholder", Text "00:42:E2:C4:07:61:06:0D:56:A4:75:2F:FC:32:2B:4E:B3:CE:FF:31:8A:88:F3:22:2B:C1:B1:0D:46:0B:04:2C");
  ("save", Text "Enregistrer");
  ("created", Text "Appareil créé");
  ("createFailed", Text "Échec de la création")].

Definition fr_health : dict := Group [
  ("totalDevices", Text "Total des appareils");
  ("activeAlerts", Text "Alertes actives")].

Definition fr_logForwarding : dict := Group [
  ("tab", Text "Transfert des journaux")].

Definition fr_catalog : dict := Group [
  ("tab", Text "Éditeur");
  ("searchModels", Text "Rechercher des paramètres…");
  ("noModels", Text "Aucun catalogue pour cette version d'appareil.");
  ("selectModel", Text "Sélectionnez un groupe de paramètres à gauche pour le modifier.");
  ("readOnly", Text "Non modifiable (liste de blocage de sécurité).");
  ("unreachable", Text "Appareil injoignable — les valeurs en direct sont requises pour modifier.");
  ("liveValues", Text "Valeurs en direct");
  ("propose", Text "Proposer une modification");
  ("preview", Text "Examiner la modification");
  ("noChanges", Text "Aucune modification à proposer.");
  ("proposed", Text "Modification provisoire créée — planifiez-la depuis l'onglet Config.");
  ("proposeFailed", Text "Impossible de créer la modification.");
  ("loadFailed", Text "Impossible de charger le modèle.");
  ("openWebgui", Text "Ouvrir dans la WebGUI");
  ("searchAll", Text "Rechercher des paramètres…");
  ("grid", Group [
    ("add", Text "Ajouter une ligne");
    ("save", Text "Enregistrer");
    ("edit", Text "Modifier");
    ("delete", Text "Supprimer");
    ("empty", Text "Aucune ligne.")]);
  ("diff", Group [
    ("baseline", Text "Comparer avec");
    ("noBaseline", Text "Aucune version antérieure");
    ("newSince", Text "Nouveau depuis {v}");
    ("changedSince", Text "Modifié depuis {v}");
    ("changes", Text "modifications")]);
  ("map", Group [
    ("tabMenu", Text "Menu");
    ("tabMap", Text "Carte de config");
    ("editInCatalog", Text "Modifier dans le catalogue");
    ("readOnly", Text "lecture seule (pas d'API)");
    ("staleBanner", Text "Obsolète — appareil injoignable ; affichage de la dernière sauvegarde du {when}")])].

Definition fr_config : dict := Group [
  ("tabInfo", Text "Infos");
  ("tabHealth", Text "État");
  ("tabConfig", Text "Config");
  ("capabilities", Text "Capacités");
  ("version", Text "Version OPNsense");
  ("interfaces", Text "Interfaces");
  ("configuredSections", Text "Sections configurées");
  ("available", Text "Capacités disponibles");
  ("hidden", Text "masqué");
  ("noConfigYet", Text "Aucune configuration capturée pour l'instant");
  ("nic", Text "NIC");
  ("changes", Group [
    ("title", Text "Modifications en attente");
    ("propose", Text "Proposer une modification d'alias");
    ("none", Text "Aucune modification en attente");
    ("colKind", Text "Type");
    ("colOperation", Text "Opération");
    ("colTarget", Text "Cible");
    ("colStatus", Text "État");
    ("colScheduled", Text "Planifiée");
    ("preview", Text "Aperçu");
    ("schedule", Text "Planifier");
    ("cancel", Text "Annuler");
    ("revert", Text "Annuler la modification");
    ("reverts", Text "annule la n°");
    ("applyNow", Text "Appliquer maintenant");
    ("pickTime", Text "Choisir la date/heure");
    ("checkDrift", Text "Vérifier la dérive");
    ("driftUnreachable", Text "Impossible de joindre l'appareil — dérive inconnue.");
    ("driftInSync", Text "synchronisé");
    ("driftDrifted", Text "dérive");
    ("driftMissing", Text "manquant");
    ("driftUnsupported", Text "n/d");
    ("driftFields", Text "Champs ayant dérivé : ");
    ("operation", Text "Opération");
    ("name", Text "Nom");
    ("type", Text "Type");
    ("content", Text "Contenu (un par ligne)");
    ("create", Text "Créer");
    ("add", Text "ajouter");
    ("set", Text "définir");
    ("delete", Text "supprimer")])].

Definition fr_deviceHealth : dict := Group [
  ("title", Text "État");
  ("cpu", Text "CPU");
  ("memory", Text "Mémoire");
  ("disk", Text "Disque");
  ("trafficIn", Text "Trafic entrant");
  ("trafficOut", Text "Trafic sortant");
  ("gatewayRtt", Text "RTT de la passerelle");
  ("gatewayLoss", Text "Perte vers la passerelle");
  ("vpnUp", Text "VPN actif")].

Definition fr_chart : dict := Group [
  ("noData", Text "Aucune donnée pour l'instant")].

Definition fr_reports : dict := Group [
  ("page", Group [
    ("title", Text "Rapports");
    ("generate", Text "Générer un rapport");
    ("from", Text "Du");
    ("to", Text "Au");
    ("period", Text "Période");
    ("kind", Text "Type");
    ("created", Text "Créé");
    ("size", Text "Taille");
    ("download", Text "Télécharger");
    ("none", Text "Aucun rapport pour l'instant.");
    ("generated", Text "Rapport généré");
    ("kindOnDemand", Text "À la demande");
    ("kindScheduled", Text "Planifié")]);
  ("settings", Group [
    ("pageTitle", Text "Paramètres des rapports");
    ("title", Text "Titre du rapport");
    ("owner", Text "Propriétaire");
    ("timezone", Text "Fuseau horaire");
    ("fromEmail", Text "E-mail d'expédition (envoi des rapports)");
    ("logo", Text "Logo");
    ("upload", Text "Téléverser un logo");
    ("remove", Text "Supprimer le logo");
    ("language", Text "Langue du rapport");
    ("save", Text "Enregistrer les paramètres");
    ("adminsOnly", Text "Les paramètres de rapport ne sont accessibles qu'aux administrateurs du locataire.");
    ("saved", Text "Paramètres des rapports enregistrés.");
    ("logoUploaded", Text "Logo téléversé.");
    ("logoRemoved", Text "Logo supprimé.");
    ("hasLogo", Text "Logo téléversé");
    ("noLogo", Text "Aucun logo")]);
  ("sections", Group [
    ("title", Text "Sections du rapport");
    ("description", Text "Choisissez les sections qui apparaissent dans le rapport PDF.");
    ("customizeForDevice", Text "Personnaliser les sections pour cet appareil");
    ("summary", Text "Résumé exécutif");
    ("health", Text "État de l'appareil");
    ("alerts_wan", Text "Alertes et connectivité");
    ("attacks", Text "Attaques");
    ("attacker_countries", Text "Pays attaquants");
    ("failed_logins", Text "Échecs de connexion");
    ("firewall_blocks", Text "Blocages du pare-feu");
    ("web", Text "Activité web");
    ("data", Text "Utilisation des données");
    ("status", Text "État en ligne/hors ligne");
    ("firmware_config", Text "Micrologiciel et configuration");
    ("applications", Text "Applications");
    ("web_filter", Text "Filtre web")])].

Definition fr_sessions : dict := Group [
  ("pageTitle", Text "Sessions actives");
  ("colLastSeen", Text "Dernière activité");
  ("colCreated", Text "Créée");
  ("colExpires", Text "Expire");
  ("colIp", Text "Adresse IP");
  ("colUserAgent", Text "Agent utilisateur");
  ("current", Text "Actuelle");
  ("logoutAll", Text "Se déconnecter partout");
  ("loadError", Text "Échec du chargement des sessions");
  ("logoutAllError", Text "Échec de la déconnexion partout")].

Definition fr_mfa : dict := Group [
  ("pageTitle", Text "Authentification à deux facteurs");
  ("intro", Text "Protégez votre compte avec un mot de passe à usage unique basé sur le temps (TOTP) depuis une application d'authentification.");
  ("status", Text "État");
  ("enabled", Text "Activée");
  ("disabled", Text "Désactivée");
  ("recoveryRemaining", Text "Codes de récupération restants");
  ("statusError", Text "Échec du chargement de l'état MFA");
  ("enroll", Text "Configurer l'authentification à deux facteurs");
  ("enrollStart", Text "Démarrer la configuration");
  ("password", Text "Mot de passe actuel");
  ("passwordHint", Text "Saisissez à nouveau votre mot de passe pour modifier les paramètres à deux facteurs.");
  ("scanHint", Text "Scannez ce code QR avec votre application d'authentification, ou saisissez le secret manuellement.");
  ("secretLabel", Text "Clé secrète");
  ("confirmCodeLabel", Text "Code d'authentification");
  ("confirmHint", Text "Saisissez le code à 6 chiffres de votre application pour terminer la configuration.");
  ("confirm", Text "Confirmer et activer");
  ("cancel", Text "Annuler");
  ("setupError", Text "Impossible de démarrer la configuration (vérifiez votre mot de passe).");
  ("confirmError", Text "Code invalide. Veuillez réessayer.");
  ("recoveryTitle", Text "Codes de récupération");
  ("recoveryIntro", Text "Conservez ces codes de récupération à usage unique en lieu sûr. Chacun peut être utilisé une fois si vous perdez votre authentificateur.");
  ("recoveryWarning", Text "Ces codes ne sont affichés qu'une seule fois.");
  ("copyAll", Text "Tout copier");
  ("copied", Text "Copié dans le presse-papiers");
  ("download", Text "Télécharger");
  ("done", Text "Terminé");
  ("regenerate", Text "Régénérer les codes de récupération");
  ("regenerateError", Text "Impossible de régénérer les codes de récupération (vérifiez votre mot de passe).");
  ("disable", Text "Désactiver l'authentification à deux facteurs");
  ("disableConfirmTitle", Text "Désactiver l'authentification à deux facteurs ?");
  ("disableConfirmBody", Text "Votre compte ne nécessitera plus de second facteur à la connexion.");
  ("disableError", Text "Impossible de désactiver (vérifiez votre mot de passe).");
  ("disabledNotice", Text "Authentification à deux facteurs désactivée.");
  ("policyTitle", Text "Politique MFA de l'organisation");
  ("policyIntro", Text "Exiger l'authentification à deux facteurs dans toute l'organisation.");
  ("policyOff", Text "Désactivée");
  ("policyAll", Text "Tous les utilisateurs");
  ("policyPrivileged", Text "Utilisateurs privilégiés");
  ("policyLoadError", Text "Échec du chargement de la politique MFA");
  ("policySaveError", Text "Échec de la mise à jour de la politique MFA");
  ("policySaved", Text "Politique MFA mise à jour");
  ("usersTitle", Text "MFA des utilisateurs");
  ("colUser", Text "Utilisateur");
  ("colEmail", Text "E-mail");
  ("colRole", Text "Rôle");
  ("superadmin", Text "Superadministrateur");
  ("member", Text "Membre");
  ("reset", Text "Réinitialiser le MFA");
  ("resetConfirmTitle", Text "Réinitialiser le MFA de cet utilisateur ?");
  ("resetConfirmBody", Text "Cela efface son secret TOTP et ses codes de récupération. Il devra se réinscrire.");
  ("resetError", Text "Échec de la réinitialisation du MFA de l'utilisateur");
  ("resetDone", Text "MFA de l'utilisateur réinitialisé");
  ("usersLoadError", Text "Échec du chargement des utilisateurs");
  ("gateTitle", Text "Authentification à deux facteurs requise");
  ("gateIntro", Text "Votre organisation exige l'authentification à deux facteurs. Configurez-la maintenant pour continuer.");
  ("passkeys", Group [
    ("title", Text "Passkeys");
    ("intro", Text "Enregistrez une passkey ou une clé de sécurité pour vous connecter sans code.");
    ("add", Text "Ajouter une passkey");
    ("accountPassword", Text "Mot de passe du compte");
    ("name", Text "Nom");
    ("namePlaceholder", Text "ex. Ordinateur portable pro");
    ("unnamed", Text "Passkey");
    ("colName", Text "Nom");
    ("colCreated", Text "Créée");
    ("remove", Text "Supprimer");
    ("removeConfirmTitle", Text "Supprimer cette passkey ?");
    ("removeConfirmBody", Text "Cette passkey ne pourra plus être utilisée pour se connecter.");
    ("addedNotice", Text "Passkey ajoutée.");
    ("removedNotice", Text "Passkey supprimée.");
    ("addError", Text "Impossible d'ajouter la passkey. Veuillez réessayer.");
    ("removeError", Text "Impossible de supprimer la passkey.");
    ("listError", Text "Échec du chargement des passkeys");
    ("lastFactorError", Text "Vous ne pouvez pas supprimer votre dernier second facteur. Ajoutez-en un autre d'abord.");
    ("notConfigured", Text "Les passkeys ne sont pas configurées pour votre organisation.");
    ("notSupported", Text "Ce navigateur ne prend pas en charge les passkeys.")]);
  ("trustedDeviceToggle", Group [
    ("label", Text "Mémoriser cet appareil");
    ("help", Text "Permet aux utilisateurs de sauter le second facteur sur les appareils qu'ils choisissent de faire confiance.")]);
  ("trustedDevices", Group [
    ("title", Text "Appareils de confiance");
    ("intro", Text "Les appareils de confiance peuvent se connecter sans second facteur jusqu'à leur expiration. Révoquez ceux que vous ne reconnaissez pas.");
    ("colDevice", Text "Appareil");
    ("colIp", Text "Adresse IP");
    ("colLastUsed", Text "Dernière utilisation");
    ("colExpires", Text "Expire");
    ("revoke", Text "Révoquer");
    ("revokeAll", Text "Tout révoquer");
    ("confirmTitle", Text "Révoquer cet appareil ?");
    ("confirmBody", Text "Cet appareil devra utiliser un second facteur lors de la prochaine connexion.");
    ("revokeAllConfirmTitle", Text "Révoquer tous les appareils de confiance ?");
    ("revokeAllConfirmBody", Text "Tous les appareils de confiance devront utiliser un second facteur lors de la prochaine connexion.");
    ("empty", Text "Aucun appareil de confiance.");
    ("loadError", Text "Impossible de charger les appareils de confiance.");
    ("revokeError", Text "Impossible de révoquer l'appareil.");
    ("unknownDevice", Text "Appareil inconnu")])].

Definition fr_groups : dict := Group [
  ("title", Text "Groupes");
  ("description", Text "Définissez des groupes d'utilisateurs et l'accès aux locataires qu'ils reçoivent.");
  ("superadminOnly", Text "Les groupes sont gérés par les administrateurs de la plateforme.");
  ("name", Text "Nom");
  ("namePlaceholder", Text "Nom du groupe");
  ("descriptionField", Text "Description");
  ("descriptionPlaceholder", Text "Description facultative");
  ("members", Text "Membres");
  ("membersPlaceholder", Text "Sélectionner des utilisateurs");
  ("noMembers", Text "Aucun membre pour l'instant.");
  ("grants", Text "Octrois d'accès");
  ("noGrants", Text "Aucun octroi pour l'instant.");
  ("addGrant", Text "Ajouter un octroi");
  ("allTenants", Text "Tous les locataires");
  ("tenant", Text "Locataire");
  ("tenantPlaceholder", Text "Sélectionner un locataire");
  ("role", Text "Rôle");
  ("roleTenantAdmin", Text "Administrateur du locataire");
  ("roleOperator", Text "Opérateur");
  ("roleReadOnly", Text "Lecture seule");
  ("allTenantsScope", Text "Tous les locataires");
  ("create", Text "Nouveau groupe");
  ("createTitle", Text "Créer un groupe");
  ("save", Text "Enregistrer");
  ("delete", Text "Supprimer");
  ("deleteConfirm", Text "Supprimer ce groupe ? Ses membres perdront l'accès accordé. Cette action est irréversible.");
  ("removeGrant", Text "Retirer l'octroi");
  ("empty", Text "Aucun groupe pour l'instant.");
  ("created", Text "Groupe créé");
  ("updated", Text "Groupe mis à jour");
  ("deleted", Text "Groupe supprimé");
  ("membersSaved", Text "Membres mis à jour");
  ("grantAdded", Text "Octroi ajouté");
  ("grantRemoved", Text "Octroi retiré");
  ("saveFailed", Text "Impossible d'enregistrer le groupe");
  ("loadError", Text "Impossible de charger les groupes")].

Definition fr_confirm : dict := Group [
  ("title", Text "Êtes-vous sûr ?");
  ("cancel", Text "Annuler");
  ("confirm", Text "Confirmer");
  ("deleteDevice", Text "Supprimer l'appareil");
  ("deleteDeviceBody", Text "Cela supprimera définitivement l'appareil et toutes ses données. Cette action est irréversible.")].

Definition fr_errors : dict := Group [
  ("fleetHealthLoad", Text "Échec du chargement de l'état du parc");
  ("alertsLoad", Text "Échec du chargement des alertes");
  ("metricsLoad", Text "Échec du chargement des métriques");
  ("configModelLoad", Text "Échec du chargement de la configuration");
  ("configCapabilitiesLoad", Text "Échec du chargement des capacités");
  ("configChangesLoad", Text "Échec du chargement des modifications");
  ("configChangeAction", Text "Échec de l'action (vous n'avez peut-être pas la permission)");
  ("reportSettingsLoad", Text "Échec du chargement des paramètres des rapports");
  ("reportSettingsAction", Text "Échec de l'action sur les paramètres des rapports");
  ("reportsLoad", Text "Échec du chargement des rapports");
  ("reportGenerate", Text "Échec de la génération du rapport");
  ("attackerCountriesLoad", Text "Échec du chargement des pays attaquants");
  ("perimeterLoad", Text "Échec du chargement des données de périmètre");
  ("auditLoad", Text "Échec du chargement du journal d'audit");
  ("retentionLoad", Text "Échec du chargement des paramètres de rétention");
  ("retentionSave", Text "Échec de l'enregistrement des paramètres de rétention")].

Definition fr_system : dict := Group [
  ("title", Text "Système");
  ("subtitle", Text "Paramètres d'exécution applicables à toute la plateforme.");
  ("livePush", Group [
    ("label", Text "Envoi de configuration en direct vers les appareils");
    ("help", Text "Lorsqu'il est activé, l'application d'une modification de configuration écrit sur l'appareil réel. Lorsqu'il est désactivé, les modifications sont en simulation uniquement.");
    ("loadError", Text "Échec du chargement du paramètre d'envoi en direct.");
    ("enabled", Text "Envoi de configuration en direct activé");
    ("disabled", Text "Envoi de configuration en direct désactivé");
    ("updateError", Text "Échec de la mise à jour de l'envoi de configuration en direct")]);
  ("runtime", Group [
    ("title", Text "Paramètres d'exécution");
    ("subtitle", Text "Ajustables sans redémarrage ; la valeur ici remplace la valeur de déploiement par défaut de .env.");
    ("loadError", Text "Échec du chargement des paramètres d'exécution.");
    ("save", Text "Enregistrer");
    ("discard", Text "Annuler les modifications");
    ("saved", Text "Paramètres d'exécution enregistrés");
    ("saveError", Text "Échec de l'enregistrement des paramètres d'exécution");
    ("defaultLabel", Text "par défaut");
    ("impactsTitle", Text "Réduire cette valeur de conservation affecte des locataires");
    ("impactItem", Text "{tenant} : une planification de rapport {store} nécessite {range} jours mais {store} est désormais conservé {bound} jours.");
    ("groups", Group [
      ("firmware", Text "Micrologiciel");
      ("distribution", Text "Distribution du catalogue et de GeoIP");
      ("maintenance", Text "Maintenance");
      ("retention", Text "Rétention des données");
      ("security_login", Text "Protection de la connexion");
      ("security_session", Text "Sessions")]);
    ("items", Group [
      ("firmware_max_status_polls", Group [
        ("label", Text "Sondages d'état max");
        ("help", Text "Sondages d'état avant l'abandon d'une action sur le micrologiciel.")]);
      ("firmware_poll_interval_seconds", Group [
        ("label", Text "Intervalle de sondage (s)");
        ("help", Text "Délai entre les sondages d'état du micrologiciel.")]);
      ("catalog_auto_fetch", Group [
        ("label", Text "Récupération auto des catalogues de config");
        ("help", Text "Récupère les catalogues versionnés depuis la version en cas d'absence dans le cache.")]);
      ("geoip_auto_fetch", Group [
        ("label", Text "Récupération auto de la base GeoIP");
        ("help", Text "Récupère la base GeoIP depuis la version en cas d'absence dans le cache.")]);
      ("silent_alert_enabled", Group [
        ("label", Text "Alertes de locataire silencieux");
        ("help", Text "Alerte lorsqu'un locataire avec transfert cesse d'envoyer des journaux.")]);
      ("silent_alert_after_hours", Group [
        ("label", Text "Silencieux après (heures)");
        ("help", Text "Heures de silence avant qu'un locataire soit signalé.")]);
      ("perimeter_retention_days", Group [
        ("label", Text "Rétention du périmètre (jours)");
        ("help", Text "Valeur par défaut globale de la durée de conservation des données d'attaquants du périmètre.")]);
      ("events_retention_days", Group [
        ("label", Text "Rétention des événements (jours)");
        ("help", Text "Valeur par défaut globale de la durée de conservation des données d'événements.")]);
      ("metrics_retention_days", Group [
        ("label", Text "Rétention des métriques (jours)");
        ("help", Text "Valeur par défaut globale de la durée de conservation des données de métriques.")]);
      ("log_lake_retention_days", Group [
        ("label", Text "Rétention du lac de journaux (jours)");
        ("help", Text "Valeur par défaut globale de la durée de conservation des données du lac de journaux.")]);
      ("login_max_attempts", Group [
        ("label", Text "Tentatives de connexion max");
        ("help", Text "Tentatives de connexion échouées autorisées avant verrouillage.")]);
      ("login_lockout_window_seconds", Group [
        ("label", Text "Fenêtre de verrouillage (s)");
        ("help", Text "Fenêtre glissante pour le décompte des connexions échouées.")]);
      ("session_ttl_hours", Group [
        ("label", Text "Durée de session (heures)");
        ("help", Text "Durée de vie absolue de la session.")]);
      ("session_idle_minutes", Group [
        ("label", Text "Délai d'inactivité (minutes)");
        ("help", Text "Temps d'inactivité avant l'expiration d'une session.")]);
      ("trusted_device_days", Group [
        ("label", Text "Durée de vie d'un appareil de confiance (jours)");
        ("help", Text "Durée pendant laquelle un appareil de confiance peut ignorer le second facteur avant de devoir être re-vérifié.")])])])].

Definition fr_logFleet : dict := Group [
  ("title", Text "Parc de journaux");
  ("loadError", Text "Échec du chargement du parc de journaux.");
  ("exportCsv", Text "Exporter en CSV");
  ("exportPdf", Text "Exporter en PDF");
  ("exportFailed", Text "Échec de l'export.");
  ("silentBadge", Text "silencieux");
  ("silentAlertsTitle", Text "Alertes de locataires silencieux");
  ("silentAlertsBody", Text "ont activé le transfert mais n'ont aucun journal récent.");
  ("volume", Text "Volume");
  ("devicesTitle", Text "Appareils");
  ("devicesLoadError", Text "Échec du chargement des appareils.");
  ("noDevices", Text "Aucun appareil.");
  ("stats", Group [
    ("tenantsForwarding", Text "Locataires en transfert");
    ("enabledDevices", Text "Appareils activés");
    ("silentTenants", Text "Locataires silencieux")]);
  ("table", Group [
    ("tenant", Text "Locataire");
    ("device", Text "Appareil");
    ("forwarding", Text "Transfert");
    ("revoked", Text "Révoqué");
    ("lastLog", Text "Dernier journal")])].

Definition fr_perimeter : dict := Group [
  ("title", Text "Périmètre");
  ("subtitle", Text "IP attaquantes au périmètre du pare-feu — échecs de connexion au boîtier et trafic bloqué.");
  ("failedLogins", Text "Échecs de connexion");
  ("firewallBlocks", Text "Blocages du pare-feu");
  ("failedLoginsHelp", Text "Tentatives de connexion au boîtier qui ont été rejetées.");
  ("firewallBlocksHelp", Text "Trafic entrant rejeté par le pare-feu.");
  ("ip", Text "IP source");
  ("country", Text "Pays");
  ("user", Text "Utilisateur");
  ("port", Text "Port");
  ("count", Text "Nombre");
  ("lastSeen", Text "Dernière activité");
  ("empty", Text "Aucune activité sur cette période.");
  ("viewAll", Text "Tout afficher");
  ("loadError", Text "Échec du chargement des données de périmètre.")].

Definition fr_retention : dict := Group [
  ("title", Text "Rétention des données");
  ("subtitle", Text "Remplacez la durée de conservation des données de ce locataire. Laissez un champ vide pour hériter de la valeur par défaut globale.");
  ("inheritHint", Text "Hériter du global");
  ("save", Text "Enregistrer la rétention");
  ("saved", Text "Paramètres de rétention enregistrés.");
  ("stores", Group [
    ("perimeter", Text "Périmètre (jours)");
    ("events", Text "Événements (jours)");
    ("metrics", Text "Métriques (jours)");
    ("log_lake", Text "Lac de journaux (jours)")]);
  ("warningTitle", Text "Des planifications de rapports dépassent la rétention");
  ("warningItem", Text "Une planification {frequency} couvre {range} jours mais les données {store} sont conservées {bound} jours.")].

Definition fr_audit : dict := Group [
  ("title", Text "Journal d'audit");
  ("subtitle", Text "Chaque action de modification sur la plateforme, par acteur et par locataire.");
  ("filters", Group [
    ("actor", Text "E-mail de l'acteur");
    ("tenant", Text "ID du locataire");
    ("action", Text "Action");
    ("from", Text "Du");
    ("to", Text "Au");
    ("apply", Text "Appliquer");
    ("reset", Text "Réinitialiser")]);
  ("columns", Group [
    ("time", Text "Heure");
    ("actor", Text "Acteur");
    ("tenant", Text "Locataire");
    ("action", Text "Action");
    ("target", Text "Cible");
    ("ip", Text "IP");
    ("details", Text "Détails")]);
  ("empty", Text "Aucune entrée d'audit ne correspond à ces filtres.");
  ("export", Text "Exporter en CSV");
  ("exportFailed", Text "Échec de l'export.");
  ("page", Text "Page {page}");
  ("showingTotal", Text "{total} entrées");
  ("prev", Text "Précédent");
  ("next", Text "Suivant")].

Definition fr_reliability : dict := Group [
  ("tab", Text "Fiabilité");
  ("title", Text "Événements de service (24 h)");
  ("subtitle", Text "Redémarrages, pannes/redémarrages de services et alertes disque depuis le journal système de l'appareil.");
  ("time", Text "Heure");
  ("category", Text "Catégorie");
  ("name", Text "Événement");
  ("severity", Text "Gravité");
  ("process", Text "Processus");
  ("message", Text "Message");
  ("categories", Group [
    ("reboot", Text "Redémarrage");
    ("service", Text "Service");
    ("disk", Text "Disque")]);
  ("severities", Group [
    ("high", Text "Élevée");
    ("medium", Text "Moyenne");
    ("low", Text "Faible")]);
  ("loadMore", Text "Charger plus");
  ("empty", Text "Aucun événement de service sur cette période.");
  ("loading", Text "Chargement des événements de service…");
  ("loadError", Text "Échec du chargement des événements de service.");
  ("last24h", Text "Dernières 24 heures")].

Definition fr_configAudit : dict := Group [
  ("tab", Text "Modifs config");
  ("title", Text "Modifications directes de la config (24 h)");
  ("subtitle", Text "Qui a modifié la configuration du boîtier et comment — les modifications directes sur le boîtier (interface web/console) sont signalées comme dérive.");
  ("time", Text "Heure");
  ("area", Text "Domaine");
  ("actor", Text "Auteur");
  ("ip", Text "IP");
  ("channel", Text "Canal");
  ("change", Text "Modification");
  ("direct", Text "Directe");
  ("channels", Group [
    ("api", Text "API");
    ("gui", Text "Interface web");
    ("system", Text "Console/script");
    ("opngms", Text "OPNGMS");
    ("api_external", Text "API externe")]);
  ("loadMore", Text "Charger plus");
  ("empty", Text "Aucune modification de configuration sur cette période.");
  ("loading", Text "Chargement des modifications de configuration…");
  ("loadError", Text "Échec du chargement des modifications de configuration.");
  ("last24h", Text "Dernières 24 heures")].

Definition fr_smtp : dict := Group [
  ("authMethod", Text "Authentification");
  ("authPassword", Text "Mot de passe");
  ("authOauth", Text "OAuth2");
  ("oauthProvider", Text "Fournisseur");
  ("oauthGoogle", Text "Google / Gmail");
  ("oauthMicrosoft", Text "Microsoft 365");
  ("oauthClientId", Text "Client ID");
  ("oauthClientSecret", Text "Client secret");
  ("oauthRefreshToken", Text "Refresh token");
  ("oauthTenantId", Text "Tenant ID");
  ("oauthSecretSaved", Text "enregistré — laisser vide pour conserver");
  ("oauthConnect", Text "Connecter le compte");
  ("oauthConnectGoogle", Text "Connecter avec Google");
  ("oauthConnectMicrosoft", Text "Connecter avec Microsoft 365");
  ("oauthExperimental", Text "Expérimental — non testé");
  ("oauthExperimentalNote", Text "La connexion par navigateur pour OAuth n'a pas été vérifiée avec un fournisseur réel. PUBLIC_BASE_URL doit être défini et l'URI de redirection enregistré dans votre application OAuth. Coller un jeton d'actualisation ci-dessus reste la méthode prise en charge.");
  ("oauthConnectNeedsCreds", Text "Enregistrez d'abord l'ID client et le secret, puis connectez.");
  ("oauthConnected", Text "Compte connecté.");
  ("oauthConnectFailed", Text "Impossible de connecter le compte.")].

Definition fr : dict := Group [
  ("common", fr_common);
  ("nav", fr_nav);
  ("login", fr_login);
  ("tenant", fr_tenant);
  ("overview", fr_overview);
  ("alerts", fr_alerts);
  ("devices", fr_devices);
  ("deviceDetail", fr_deviceDetail);
  ("deviceActions", fr_deviceActions);
  ("firmware", fr_firmware);
  ("plugins", fr_plugins);
  ("templates", fr_templates);
  ("deviceCreate", fr_deviceCreate);
  ("health", fr_health);
  ("logForwarding", fr_logForwarding);
  ("catalog", fr_catalog);
  ("config", fr_config);
  ("deviceHealth", fr_deviceHealth);
  ("chart", fr_chart);
  ("reports", fr_reports);
  ("sessions", fr_sessions);
  ("mfa", fr_mfa);
  ("groups", fr_groups);
  ("confirm", fr_confirm);
  ("errors", fr_errors);
  ("system", fr_system);
  ("logFleet", fr_logFleet);
  ("perimeter", fr_perimeter);
  ("retention", fr_retention);
  ("audit", fr_audit);
  ("reliability", fr_reliability);
  ("configAudit", fr_configAudit);
  ("smtp", fr_smtp)].
