(* ===== verification/DictDe.v ===== *)
(** * The German texts ([i18n/de.ts]), one definition per group *)
From S2P Require Import Prelude Dict.

Definition de_common : dict := Group [
  ("appName", Text "OPNGMS");
  ("logout", Text "Abmelden");
  ("none", Text "—");
  ("language", Text "Sprache");
  ("cancel", Text "Abbrechen")].

Definition de_nav : dict := Group [
  ("overview", Text "Übersicht");
  ("devices", Text "Geräte");
  ("alerts", Text "Warnungen");
  ("perimeter", Text "Perimeter");
  ("reportSettings", Text "Berichtseinstellungen");
  ("reportSchedule", Text "Berichtsplan");
  ("reports", Text "Berichte");
  ("logs", Text "Protokolle");
  ("sessions", Text "Aktive Sitzungen");
  ("mfa", Text "Zwei-Faktor-Authentifizierung");
  ("templates", Text "Vorlagenbibliothek");
  ("smtp", Text "SMTP");
  ("logFleet", Text "Protokoll-Flotte");
  ("system", Text "System");
  ("groups", Text "Gruppen");
  ("audit", Text "Audit-Protokoll")].

Definition de_login : dict := Group [
  ("title", Text "OPNGMS");
  ("email", Text "E-Mail");
  ("password", Text "Passwort");
  ("passwordToggle", Text "Anzeigen/Verbergen");
  ("submit", Text "Anmelden");
  ("invalidCredentials", Text "Ungültige Anmeldedaten");
  ("mfa", Group [
    ("title", Text "Zwei-Faktor-Authentifizierung");
    ("codeHint", Text "Geben Sie den 6-stelligen Code aus Ihrer Authenticator-App ein.");
    ("recoveryHint", Text "Geben Sie einen Ihrer einmaligen Wiederherstellungscodes ein.");
    ("codeLabel", Text "Authentifizierungscode");
    ("recoveryLabel", Text "Wiederherstellungscode");
    ("verify", Text "Überprüfen");
    ("useRecovery", Text "Stattdessen einen Wiederherstellungscode verwenden");
    ("useCode", Text "Stattdessen einen Authenticator-Code verwenden");
    ("invalidCode", Text "Ungültiger Code");
    ("or", Text "oder");
    ("usePasskey", Text "Passkey / Sicherheitsschlüssel verwenden");
    ("passkeyError", Text "Anmeldung per Passkey fehlgeschlagen. Bitte erneut versuchen.");
    ("passkeyNotSupported", Text "Dieser Browser unterstützt keine Passkeys.");
    ("rememberDevice", Text "Diesem Gerät für {days} Tage vertrauen");
    ("rememberDeviceHelp", Text "Beim nächsten Anmelden von diesem Gerät wird kein zweiter Faktor abgefragt.")])].

Definition de_tenant : dict := Group [
  ("activeLabel", Text "Aktiver Mandant");
  ("none", Text "Kein Mandant")].

Definition de_overview : dict := Group [
  ("title", Text "Übersicht");
  ("activeAlerts", Text "Aktive Warnungen");
  ("noActiveAlerts", Text "Keine aktiven Warnungen");
  ("healthLoadError", Text "Flottenzustand konnte nicht geladen werden");
  ("alertsLoadError", Text "Warnungen konnten nicht geladen werden");
  ("attackerCountries", Group [
    ("title", Text "Top-Angreiferländer");
    ("mapTitle", Text "Angriffsursprünge");
    ("empty", Text "In diesem Zeitraum wurden keine Angriffe erfasst.");
    ("private", Text "Privat / intern");
    ("unknown", Text "Unbekannt");
    ("attribution", Text "Länderdaten: DB-IP (CC BY 4.0)")])].

Definition de_alerts : dict := Group [
  ("title", Text "Warnungen");
  ("active", Text "Aktiv");
  ("history", Text "Verlauf");
  ("loadError", Text "Warnungen konnten nicht geladen werden");
  ("noAlerts", Text "Keine Warnungen");
  ("colType", Text "Typ");
  ("colLabel", Text "Bezeichnung");
  ("colSeverity", Text "Schweregrad");
  ("colOpened", Text "Geöffnet");
  ("colResolved", Text "Behoben");
  ("colDevice", Text "Gerät")].

Definition de_devices : dict := Group [
  ("title", Text "Geräte");
  ("add", Text "Gerät hinzufügen");
  ("loadError", Text "Geräte konnten nicht geladen werden");
  ("colName", Text "Name");
  ("colUrl", Text "URL");
  ("colStatus", Text "Status");
  ("colFirmware", Text "Firmware")].

Definition de_deviceDetail : dict := Group [
  ("url", Text "URL");
  ("status", Text "Status");
  ("firmware", Text "Firmware");
  ("loadError", Text "Gerät konnte nicht geladen werden")].

Definition de_deviceActions : dict := Group [
  ("testConnection", Text "Verbindung testen");
  ("delete", Text "Löschen");
  ("testResult", Text "Testergebnis");
  ("testNotification", Text "Test");
  ("testFailed", Text "Verbindungstest fehlgeschlagen");
  ("deleteFailed", Text "Löschen fehlgeschlagen");
  ("openWebGui", Text "WebGUI öffnen")].

Definition de_firmware : dict := Group [
  ("title", Text "Firmware");
  ("tab", Text "Firmware");
  ("check", Text "Nach Updates suchen");
  ("upToDate", Text "Aktuell");
  ("updatesAvailable", Text "Updates verfügbar");
  ("downloadSize", Text "Downloadgröße");
  ("rebootNeeded", Text "Neustart erforderlich");
  ("newMajor", Text "Neue Hauptversion verfügbar");
  ("update", Text "Firmware aktualisieren");
  ("upgrade", Text "Auf neue Hauptversion aktualisieren");
  ("updateConfirm", Text "Alle ausstehenden Paket-Updates anwenden? Das Gerät kann neu starten.");
  ("upgradeConfirm", Text "Auf die neue Hauptversion aktualisieren? Dies umfasst mehrere Schritte mit Neustarts und kann eine Weile dauern.");
  ("plugins", Text "Plugins");
  ("pluginName", Text "Plugin-Name");
  ("install", Text "Installieren");
  ("remove", Text "Entfernen");
  ("installConfirm", Text "Dieses Plugin installieren? Das Gerät muss die neueste Firmware haben.");
  ("removeConfirm", Text "Dieses Plugin entfernen?");
  ("runNow", Text "Jetzt ausführen");
  ("scheduleAt", Text "Planen (leer lassen, um jetzt auszuführen)");
  ("schedule", Text "Planen");
  ("recentActions", Text "Letzte Aktionen");
  ("noActions", Text "Noch keine Aktionen");
  ("actionQueued", Text "Aktion eingereiht");
  ("actionFailed", Text "Aktion konnte nicht eingereiht werden");
  ("checkFailed", Text "Firmware-Prüfung fehlgeschlagen");
  ("kind", Text "Aktion");
  ("status", Text "Status");
  ("when", Text "Wann");
  ("result", Text "Ergebnis")].

Definition de_plugins : dict := Group [
  ("tab", Text "Plugins");
  ("title", Text "Plugins");
  ("subtitle", Text "Von der Firewall gemeldete Plugins. Community-Plugins installieren oder entfernen; zum Installieren muss das Gerät die neueste Firmware haben.");
  ("search", Text "Plugins suchen…");
  ("name", Text "Plugin");
  ("status", Text "Status");
  ("version", Text "Version");
  ("installed", Text "Installiert");
  ("notInstalled", Text "Verfügbar");
  ("locked", Text "Gesperrt");
  ("install", Text "Installieren");
  ("remove", Text "Entfernen");
  ("installConfirm", Text "Dieses Plugin installieren?");
  ("removeConfirm", Text "Dieses Plugin entfernen?");
  ("empty", Text "Noch keine Plugins gemeldet — das Gerät wird regelmäßig abgefragt.");
  ("loadFailed", Text "Plugins konnten nicht geladen werden.");
  ("configure", Text "Konfigurieren");
  ("configureTitle", Text "Plugin-Konfiguration")].

Definition de_templates : dict := Group [
  ("tab", Text "Vorlagen");
  ("libraryTitle", Text "Vorlagenbibliothek");
  ("superadminOnly", Text "Die Vorlagenbibliothek wird von Plattformadministratoren verwaltet.");
  ("name", Text "Name");
  ("kind", Text "Art");
  ("type", Text "Alias-Typ");
  ("content", Text "Inhalt (ein Eintrag pro Zeile)");
  ("description", Text "Beschreibung");
  ("create", Text "Neue Vorlage");
  ("edit", Text "Bearbeiten");
  ("save", Text "Speichern");
  ("delete", Text "Löschen");
  ("deleteConfirm", Text "Diese Vorlage löschen? Mandantenspezifische Überschreibungen werden entfernt; angewendete Änderungen behalten ihren Verlauf.");
  ("empty", Text "Noch keine Vorlagen.");
  ("created", Text "Vorlage erstellt");
  ("updated", Text "Vorlage aktualisiert");
  ("saveFailed", Text "Vorlage konnte nicht gespeichert werden");
  ("apply", Group [
    ("title", Text "Vorlage anwenden");
    ("pick", Text "Vorlage");
    ("override", Text "Überschreibung dieses Kunden (Inhalt, ein Eintrag pro Zeile — leer lassen, um den Bibliothekswert zu verwenden)");
    ("saveOverride", Text "Überschreibung speichern");
    ("overrideSaved", Text "Überschreibung gespeichert");
    ("preview", Text "Vorschau");
    ("previewTitle", Text "Effektive Konfiguration");
    ("applyConfirm", Text "Diese Vorlage auf das Gerät anwenden?");
    ("runNow", Text "Jetzt anwenden");
    ("scheduleAt", Text "Planen (leer lassen, um jetzt anzuwenden)");
    ("schedule", Text "Planen");
    ("queued", Text "Anwendung eingereiht");
    ("failed", Text "Vorlage konnte nicht angewendet werden");
    ("none", Text "Keine Vorlagen verfügbar.")]);
  ("templatesTab", Text "Vorlagen");
  ("kindLabel", Text "Vorlagentyp");
  ("kindAlias", Text "Firewall-Alias");
  ("kindSetting", Text "OPNsense-Einstellung");
  ("setting", Group [
    ("endpoint", Text "Einstellung");
    ("referenceDevice", Text "Referenzgerät (zum Auslesen der verfügbaren Felder)");
    ("load", Text "Felder laden");
    ("loadHint", Text "Wählen Sie eine Einstellung + ein Gerät und laden Sie dann die zu konfigurierenden Felder.");
    ("noDevice", Text "Im aktiven Mandanten ist kein Gerät verfügbar, aus dem Felder ausgelesen werden können.");
    ("loadFailed", Text "Die Einstellung konnte nicht vom Gerät ausgelesen werden.");
    ("noFields", Text "Keine konfigurierbaren Felder.");
    ("hardwareNote", Text "Hardware-/gerätespezifische Felder sind bewusst nicht als Vorlage nutzbar.")]);
  ("kindFirewallRule", Text "Firewall-Regel (Regeln [neu])");
  ("fw", Group [
    ("referenceDevice", Text "Referenzgerät (zum Auslesen der verfügbaren Regelfelder)");
    ("load", Text "Felder laden");
    ("loadHint", Text "Wählen Sie ein Gerät und laden Sie dann die zu konfigurierenden Regelfelder.");
    ("noDevice", Text "Im aktiven Mandanten ist kein Gerät verfügbar, aus dem Felder ausgelesen werden können.");
    ("loadFailed", Text "Das Regelmodell konnte nicht vom Gerät ausgelesen werden.");
    ("descriptionRequired", Text "Eine Beschreibung ist erforderlich (sie bildet die Identität der Regel).");
    ("interface", Text "Schnittstelle (wird beim Anwenden gewählt)");
    ("floating", Text "Floating (keine Schnittstelle)");
    ("note", Text "Die Schnittstelle wird beim Anwenden gewählt; leer lassen für eine Floating-Regel.")]);
  ("kindMonitTest", Text "Monit-Health-Check-Test");
  ("monit", Group [
    ("referenceDevice", Text "Referenzgerät (zum Auslesen der verfügbaren Testfelder)");
    ("load", Text "Felder laden");
    ("loadHint", Text "Wählen Sie ein Gerät und laden Sie dann die zu konfigurierenden Testfelder.");
    ("noDevice", Text "Im aktiven Mandanten ist kein Gerät verfügbar, aus dem Felder ausgelesen werden können.");
    ("loadFailed", Text "Das Testmodell konnte nicht vom Gerät ausgelesen werden.");
    ("nameRequired", Text "Ein Name ist erforderlich (er bildet die Identität des Tests).");
    ("note", Text "Ein Test wird wirksam, sobald er an einen Monit-Dienst angehängt ist.");
    ("attachSystem", Text "Diesen Test an den Systemdienst anhängen, damit er wirksam wird");
    ("attachSystemNote", Text "Wenn aktiviert, hängt das Anwenden den Test auch an den Monit-Systemdienst des Geräts an.")]);
  ("kindIdsRulesets", Text "Suricata/IDS-Regelsätze");
  ("ids", Group [
    ("referenceDevice", Text "Referenzgerät (zum Auslesen der verfügbaren Regelsätze)");
    ("load", Text "Regelsätze laden");
    ("loadHint", Text "Wählen Sie ein Gerät und laden Sie dann seine Regelsätze, um auszuwählen, welche aktiviert werden sollen.");
    ("noDevice", Text "Im aktiven Mandanten ist kein Gerät verfügbar, aus dem Regelsätze ausgelesen werden können.");
    ("loadFailed", Text "Die Regelsätze konnten nicht vom Gerät ausgelesen werden.");
    ("rulesets", Text "Zu aktivierende Regelsätze");
    ("noRulesets", Text "Auf dem Gerät wurden keine Regelsätze gefunden.");
    ("note", Text "Das Anwenden aktiviert die ausgewählten Regelsätze (additiv — es deaktiviert keine anderen).")]);
  ("kindIdsPolicy", Text "Suricata/IDS-Richtlinie");
  ("idsPolicy", Group [
    ("description", Text "Beschreibung (die Identität der Richtlinie)");
    ("enabled", Text "Aktiviert");
    ("prio", Text "Priorität");
    ("action", Text "Abzugleichende aktuelle Aktion (Regeln, deren Aktion eine davon ist)");
    ("newAction", Text "Neue Aktion");
    ("rulesets", Text "Regelsätze, auf die die Richtlinie angewendet wird");
    ("referenceDevice", Text "Referenzgerät (zum Auslesen der verfügbaren Regelsätze)");
    ("load", Text "Regelsätze laden");
    ("loadHint", Text "Wählen Sie ein Gerät und laden Sie dann seine aktivierten Regelsätze zum Referenzieren.");
    ("noDevice", Text "Im aktiven Mandanten ist kein Gerät verfügbar, aus dem Regelsätze ausgelesen werden können.");
    ("noRulesets", Text "Auf dem Gerät wurden keine aktivierten Regelsätze gefunden (aktivieren Sie zuerst einen Regelsatz).");
    ("loadFailed", Text "Die Regelsätze konnten nicht vom Gerät ausgelesen werden.");
    ("content", Text "Metadatenfilter (erweitert — die meisten Richtlinien benötigen keine)");
    ("contentKey", Text "Schlüssel");
    ("contentValues", Text "Werte (durch Komma getrennt)");
    ("contentKeyInvalid", Text "Ungültiger Schlüssel – nur Buchstaben, Ziffern, Punkte, Bindestriche oder Unterstriche.");
    ("addContent", Text "Filter hinzufügen");
    ("descriptionRequired", Text "Eine Beschreibung ist erforderlich (sie bildet die Identität der Richtlinie).");
    ("note", Text "Referenzierte Regelsätze müssen auf dem Gerät bereits aktiviert sein. Die Zuordnung von Regelsätzen/Inhalt wird beim Anwenden zur Laufzeit überprüft.")]);
  ("profiles", Group [
    ("tab", Text "Profile");
    ("name", Text "Name");
    ("description", Text "Beschreibung");
    ("members", Text "Vorlagen (in Anwendungsreihenfolge)");
    ("create", Text "Neues Profil");
    ("edit", Text "Bearbeiten");
    ("save", Text "Speichern");
    ("delete", Text "Löschen");
    ("deleteConfirm", Text "Dieses Profil löschen? Angewendete Änderungen behalten ihren Verlauf.");
    ("empty", Text "Noch keine Profile.");
    ("created", Text "Profil erstellt");
    ("updated", Text "Profil aktualisiert");
    ("saveFailed", Text "Profil konnte nicht gespeichert werden");
    ("memberCount", Text "Vorlagen");
    ("apply", Group [
      ("title", Text "Profil anwenden");
      ("pick", Text "Profil");
      ("preview", Text "Vorschau");
      ("previewTitle", Text "Effektive Konfiguration (pro Vorlage, in Reihenfolge)");
      ("interface", Text "Schnittstelle (wird beim Anwenden gewählt)");
      ("floating", Text "Floating (keine Schnittstelle)");
      ("empty", Text "Keine Profile verfügbar.");
      ("applyConfirm", Text "Dieses Profil auf das Gerät anwenden? Es wendet jede zugehörige Vorlage der Reihe nach an.");
      ("runNow", Text "Jetzt anwenden");
      ("scheduleAt", Text "Planen (leer lassen, um jetzt anzuwenden)");
      ("schedule", Text "Planen");
      ("queued", Text "Profilanwendung eingereiht");
      ("failed", Text "Profil konnte nicht angewendet werden")])])].

Definition de_deviceCreate : dict := Group [
  ("title", Text "Gerät hinzufügen");
  ("name", Text "Name");
  ("url", Text "URL (https)");
  ("apiKey", Text "API-Schlüssel");
  ("apiSecret", Text "API-Secret");
  ("verifyTls", Text "TLS überprüfen");
  ("tlsWarning", Text "Ohne TLS-Prüfung authentifiziert nichts das Zertifikat des Geräts – Anmeldedaten können abgefangen werden. Pinnen Sie unten den SHA-256-Fingerabdruck des Zertifikats, um den Schutz wiederherzustellen.");
  ("tlsFingerprintLabel", Text "SHA-256-Fingerabdruck des Zertifikats (optional)");
  ("tlsFingerprintPlaceholder", Text "00:42:E2:C4:07:61:06:0D:56:A4:75:2F:FC:32:2B:4E:B3:CE:FF:31:8A:88:F3:22:2B:C1:B1:0D:46:0B:04:2C");
  ("save", Text "Speichern");
  ("created", Text "Gerät erstellt");
  ("createFailed", Text "Erstellen fehlgeschlagen")].

Definition de_health : dict := Group [
  ("totalDevices", Text "Geräte gesamt");
  ("activeAlerts", Text "Aktive Warnungen")].

Definition de_logForwarding : dict := Group [
  ("tab", Text "Protokollweiterleitung")].

Definition de_catalog : dict := Group [
  ("tab", Text "Editor");
  ("searchModels", Text "Einstellungen suchen…");
  ("noModels", Text "Kein Katalog für diese Geräteversion.");
  ("selectModel", Text "Wählen Sie links eine Einstellungsgruppe, um sie zu bearbeiten.");
  ("readOnly", Text "Nicht bearbeitbar (Sicherheits-Sperrliste).");
  ("unreachable", Text "Gerät nicht erreichbar — zum Bearbeiten sind Live-Werte erforderlich.");
  ("liveValues", Text "Live-Werte");
  ("propose", Text "Änderung vorschlagen");
  ("preview", Text "Änderung prüfen");
  ("noChanges", Text "Keine Änderungen vorzuschlagen.");
  ("proposed", Text "Entwurfsänderung erstellt — planen Sie sie über die Registerkarte „Konfiguration“.");
  ("proposeFailed", Text "Die Änderung konnte nicht erstellt werden.");
  ("loadFailed", Text "Das Modell konnte nicht geladen werden.");
  ("openWebgui", Text "In WebGUI öffnen");
  ("searchAll", Text "Einstellungen suchen…");
  ("grid", Group [
    ("add", Text "Zeile hinzufügen");
    ("save", Text "Speichern");
    ("edit", Text "Bearbeiten");
    ("delete", Text "Löschen");
    ("empty", Text "Keine Zeilen.")]);
  ("diff", Group [
    ("baseline", Text "Vergleichen mit");
    ("noBaseline", Text "Keine frühere Version");
    ("newSince", Text "Neu seit {v}");
    ("changedSince", Text "Geändert seit {v}");
    ("changes", Text "Änderungen")]);
  ("map", Group [
    ("tabMenu", Text "Menü");
    ("tabMap", Text "Konfig-Karte");
    ("editInCatalog", Text "Im Katalog bearbeiten");
    ("readOnly", Text "schreibgeschützt (keine API)");
    ("staleBanner", Text "Veraltet — Gerät nicht erreichbar; zeige das letzte Backup vom {when}")])].

Definition de_config : dict := Group [
  ("tabInfo", Text "Info");
  ("tabHealth", Text "Zustand");
  ("tabConfig", Text "Konfiguration");
  ("capabilities", Text "Funktionen");
  ("version", Text "OPNsense-Version");
  ("interfaces", Text "Schnittstellen");
  ("configuredSections", Text "Konfigurierte Abschnitte");
  ("available", Text "Verfügbare Funktionen");
  ("hidden", Text "ausgeblendet");
  ("noConfigYet", Text "Noch keine Konfiguration erfasst");
  ("nic", Text "NIC");
  ("changes", Group [
    ("title", Text "Ausstehende Änderungen");
    ("propose", Text "Alias-Änderung vorschlagen");
    ("none", Text "Keine ausstehenden Änderungen");
    ("colKind", Text "Art");
    ("colOperation", Text "Vorgang");
    ("colTarget", Text "Ziel");
    ("colStatus", Text "Status");
    ("colScheduled", Text "Geplant");
    ("preview", Text "Vorschau");
    ("schedule", Text "Planen");
    ("cancel", Text "Abbrechen");
    ("revert", Text "Zurücksetzen");
    ("reverts", Text "setzt zurück #");
    ("applyNow", Text "Jetzt anwenden");
    ("pickTime", Text "Datum/Uhrzeit wählen");
    ("checkDrift", Text "Abweichung prüfen");
    ("driftUnreachable", Text "Gerät konnte nicht erreicht werden — Abweichung unbekannt.");
    ("driftInSync", Text "synchron");
    ("driftDrifted", Text "Abweichung");
    ("driftMissing", Text "fehlt");
    ("driftUnsupported", Text "n. v.");
    ("driftFields", Text "Abweichende Felder: ");
    ("operation", Text "Vorgang");
    ("name", Text "Name");
    ("type", Text "Typ");
    ("content", Text "Inhalt (ein Eintrag pro Zeile)");
    ("create", Text "Erstellen");
    ("add", Text "hinzufügen");
    ("set", Text "setzen");
    ("delete", Text "löschen")])].

Definition de_deviceHealth : dict := Group [
  ("title", Text "Zustand");
  ("cpu", Text "CPU");
  ("memory", Text "Arbeitsspeicher");
  ("disk", Text "Festplatte");
  ("trafficIn", Text "Eingehender Datenverkehr");
  ("trafficOut", Text "Ausgehender Datenverkehr");
  ("gatewayRtt", Text "Gateway-RTT");
  ("gatewayLoss", Text "Gateway-Verlust");
  ("vpnUp", Text "VPN aktiv")].

Definition de_chart : dict := Group [
  ("noData", Text "Noch keine Daten")].

Definition de_reports : dict := Group [
  ("page", Group [
    ("title", Text "Berichte");
    ("generate", Text "Bericht erstellen");
    ("from", Text "Von");
    ("to", Text "Bis");
    ("period", Text "Zeitraum");
    ("kind", Text "Art");
    ("created", Text "Erstellt");
    ("size", Text "Größe");
    ("download", Text "Herunterladen");
    ("none", Text "Noch keine Berichte.");
    ("generated", Text "Bericht erstellt");
    ("kindOnDemand", Text "Auf Anfrage");
    ("kindScheduled", Text "Geplant")]);
  ("settings", Group [
    ("pageTitle", Text "Berichtseinstellungen");
    ("title", Text "Berichtstitel");
    ("owner", Text "Eigentümer");
    ("timezone", Text "Zeitzone");
    ("fromEmail", Text "Absender-E-Mail (Berichtsversand)");
    ("logo", Text "Logo");
    ("upload", Text "Logo hochladen");
    ("remove", Text "Logo entfernen");
    ("language", Text "Berichtssprache");
    ("save", Text "Einstellungen speichern");
    ("adminsOnly", Text "Berichtseinstellungen sind nur für Mandantenadministratoren verfügbar.");
    ("saved", Text "Berichtseinstellungen gespeichert.");
    ("logoUploaded", Text "Logo hochgeladen.");
    ("logoRemoved", Text "Logo entfernt.");
    ("hasLogo", Text "Logo hochgeladen");
    ("noLogo", Text "Kein Logo")]);
  ("sections", Group [
    ("title", Text "Berichtsabschnitte");
    ("description", Text "Wählen Sie aus, welche Abschnitte im PDF-Bericht erscheinen.");
    ("customizeForDevice", Text "Abschnitte für dieses Gerät anpassen");
    ("summary", Text "Zusammenfassung");
    ("health", Text "Gerätezustand");
    ("alerts_wan", Text "Warnungen und Konnektivität");
    ("attacks", Text "Angriffe");
    ("attacker_countries", Text "Angreiferländer");
    ("failed_logins", Text "Fehlgeschlagene Anmeldungen");
    ("firewall_blocks", Text "Firewall-Blockierungen");
    ("web", Text "Web-Aktivität");
    ("data", Text "Datennutzung");
    ("status", Text "Online-/Offline-Status");
    ("firmware_config", Text "Firmware und Konfiguration");
    ("applications", Text "Anwendungen");
    ("web_filter", Text "Webfilter")])].

Definition de_sessions : dict := Group [
  ("pageTitle", Text "Aktive Sitzungen");
  ("colLastSeen", Text "Zuletzt gesehen");
  ("colCreated", Text "Erstellt");
  ("colExpires", Text "Läuft ab");
  ("colIp", Text "IP-Adresse");
  ("colUserAgent", Text "User-Agent");
  ("current", Text "Aktuell");
  ("logoutAll", Text "Überall abmelden");
  ("loadError", Text "Sitzungen konnten nicht geladen werden");
  ("logoutAllError", Text "Abmelden überall fehlgeschlagen")].

Definition de_mfa : dict := Group [
  ("pageTitle", Text "Zwei-Faktor-Authentifizierung");
  ("intro", Text "Schützen Sie Ihr Konto mit einem zeitbasierten Einmalpasswort (TOTP) aus einer Authenticator-App.");
  ("status", Text "Status");
  ("enabled", Text "Aktiviert");
  ("disabled", Text "Deaktiviert");
  ("recoveryRemaining", Text "Verbleibende Wiederherstellungscodes");
  ("statusError", Text "MFA-Status konnte nicht geladen werden");
  ("enroll", Text "Zwei-Faktor-Authentifizierung einrichten");
  ("enrollStart", Text "Einrichtung starten");
  ("password", Text "Aktuelles Passwort");
  ("passwordHint", Text "Geben Sie Ihr Passwort erneut ein, um die Zwei-Faktor-Einstellungen zu ändern.");
  ("scanHint", Text "Scannen Sie diesen QR-Code mit Ihrer Authenticator-App oder geben Sie das Secret manuell ein.");
  ("secretLabel", Text "Geheimer Schlüssel");
  ("confirmCodeLabel", Text "Authentifizierungscode");
  ("confirmHint", Text "Geben Sie den 6-stelligen Code aus Ihrer App ein, um die Einrichtung abzuschließen.");
  ("confirm", Text "Bestätigen und aktivieren");
  ("cancel", Text "Abbrechen");
  ("setupError", Text "Einrichtung konnte nicht gestartet werden (prüfen Sie Ihr Passwort).");
  ("confirmError", Text "Ungültiger Code. Bitte versuchen Sie es erneut.");
  ("recoveryTitle", Text "Wiederherstellungscodes");
  ("recoveryIntro", Text "Bewahren Sie diese einmaligen Wiederherstellungscodes an einem sicheren Ort auf. Jeder kann einmal verwendet werden, falls Sie Ihren Authenticator verlieren.");
  ("recoveryWarning", Text "Diese Codes werden nur einmal angezeigt.");
  ("copyAll", Text "Alle kopieren");
  ("copied", Text "In die Zwischenablage kopiert");
  ("download", Text "Herunterladen");
  ("done", Text "Fertig");
  ("regenerate", Text "Wiederherstellungscodes neu generieren");
  ("regenerateError", Text "Wiederherstellungscodes konnten nicht neu generiert werden (prüfen Sie Ihr Passwort).");
  ("disable", Text "Zwei-Faktor-Authentifizierung deaktivieren");
  ("disableConfirmTitle", Text "Zwei-Faktor-Authentifizierung deaktivieren?");
  ("disableConfirmBody", Text "Ihr Konto erfordert beim Anmelden keinen zweiten Faktor mehr.");
  ("disableError", Text "Deaktivieren fehlgeschlagen (prüfen Sie Ihr Passwort).");
  ("disabledNotice", Text "Zwei-Faktor-Authentifizierung deaktiviert.");
  ("policyTitle", Text "MFA-Richtlinie der Organisation");
  ("policyIntro", Text "Zwei-Faktor-Authentifizierung in der gesamten Organisation verlangen.");
  ("policyOff", Text "Aus");
  ("policyAll", Text "Alle Benutzer");
  ("policyPrivileged", Text "Privilegierte Benutzer");
  ("policyLoadError", Text "MFA-Richtlinie konnte nicht geladen werden");
  ("policySaveError", Text "MFA-Richtlinie konnte nicht aktualisiert werden");
  ("policySaved", Text "MFA-Richtlinie aktualisiert");
  ("usersTitle", Text "Benutzer-MFA");
  ("colUser", Text "Benutzer");
  ("colEmail", Text "E-Mail");
  ("colRole", Text "Rolle");
  ("superadmin", Text "Superadministrator");
  ("member", Text "Mitglied");
  ("reset", Text "MFA zurücksetzen");
  ("resetConfirmTitle", Text "MFA dieses Benutzers zurücksetzen?");
  ("resetConfirmBody", Text "Dadurch werden sein TOTP-Secret und seine Wiederherstellungscodes gelöscht. Er muss die Zwei-Faktor-Authentifizierung neu einrichten.");
  ("resetError", Text "MFA des Benutzers konnte nicht zurückgesetzt werden");
  ("resetDone", Text "Benutzer-MFA zurückgesetzt");
  ("usersLoadError", Text "Benutzer konnten nicht geladen werden");
  ("gateTitle", Text "Zwei-Faktor-Authentifizierung erforderlich");
  ("gateIntro", Text "Ihre Organisation verlangt Zwei-Faktor-Authentifizierung. Richten Sie sie jetzt ein, um fortzufahren.");
  ("passkeys", Group [
    ("title", Text "Passkeys");
    ("intro", Text "Registrieren Sie einen Passkey oder Sicherheitsschlüssel, um sich ohne Code anzumelden.");
    ("add", Text "Passkey hinzufügen");
    ("accountPassword", Text "Kontopasswort");
    ("name", Text "Name");
    ("namePlaceholder", Text "z. B. Arbeitslaptop");
    ("unnamed", Text "Passkey");
    ("colName", Text "Name");
    ("colCreated", Text "Erstellt");
    ("remove", Text "Entfernen");
    ("removeConfirmTitle", Text "Diesen Passkey entfernen?");
    ("removeConfirmBody", Text "Dieser Passkey kann nicht mehr zur Anmeldung verwendet werden.");
    ("addedNotice", Text "Passkey hinzugefügt.");
    ("removedNotice", Text "Passkey entfernt.");
    ("addError", Text "Passkey konnte nicht hinzugefügt werden. Bitte erneut versuchen.");
    ("removeError", Text "Passkey konnte nicht entfernt werden.");
    ("listError", Text "Passkeys konnten nicht geladen werden");
    ("lastFactorError", Text "Sie können Ihren letzten zweiten Faktor nicht entfernen. Fügen Sie zuerst einen weiteren hinzu.");
    ("notConfigured", Text "Passkeys sind für Ihre Organisation nicht konfiguriert.");
    ("notSupported", Text "Dieser Browser unterstützt keine Passkeys.")]);
  ("trustedDeviceToggle", Group [
    ("label", Text "Dieses Gerät merken");
    ("help", Text "Ermöglicht Benutzern, den zweiten Faktor auf Geräten zu überspringen, denen sie vertrauen.")]);
  ("trustedDevices", Group [
    ("title", Text "Vertrauenswürdige Geräte");
    ("intro", Text "Vertrauenswürdige Geräte können sich bis zum Ablauf ohne zweiten Faktor anmelden. Widerrufen Sie Geräte, die Sie nicht erkennen.");
    ("colDevice", Text "Gerät");
    ("colIp", Text "IP-Adresse");
    ("colLastUsed", Text "Zuletzt verwendet");
    ("colExpires", Text "Läuft ab");
    ("revoke", Text "Widerrufen");
    ("revokeAll", Text "Alle widerrufen");
    ("confirmTitle", Text "Dieses Gerät widerrufen?");
    ("confirmBody", Text "Dieses Gerät benötigt beim nächsten Anmelden wieder einen zweiten Faktor.");
    ("revokeAllConfirmTitle", Text "Alle vertrauenswürdigen Geräte widerrufen?");
    ("revokeAllConfirmBody", Text "Alle vertrauenswürdigen Geräte benötigen beim nächsten Anmelden wieder einen zweiten Faktor.");
    ("empty", Text "Keine vertrauenswürdigen Geräte.");
    ("loadError", Text "Vertrauenswürdige Geräte konnten nicht geladen werden.");
    ("revokeError", Text "Das Gerät konnte nicht widerrufen werden.");
    ("unknownDevice", Text "Unbekanntes Gerät")])].

Definition de_groups : dict := Group [
  ("title", Text "Gruppen");
  ("description", Text "Definieren Sie Benutzergruppen und den Mandantenzugriff, den sie erhalten.");
  ("superadminOnly", Text "Gruppen werden von den Plattformadministratoren verwaltet.");
  ("name", Text "Name");
  ("namePlaceholder", Text "Gruppenname");
  ("descriptionField", Text "Beschreibung");
  ("descriptionPlaceholder", Text "Optionale Beschreibung");
  ("members", Text "Mitglieder");
  ("membersPlaceholder", Text "Benutzer auswählen");
  ("noMembers", Text "Noch keine Mitglieder.");
  ("grants", Text "Zugriffsberechtigungen");
  ("noGrants", Text "Noch keine Berechtigungen.");
  ("addGrant", Text "Berechtigung hinzufügen");
  ("allTenants", Text "Alle Mandanten");
  ("tenant", Text "Mandant");
  ("tenantPlaceholder", Text "Mandant auswählen");
  ("role", Text "Rolle");
  ("roleTenantAdmin", Text "Mandantenadministrator");
  ("roleOperator", Text "Operator");
  ("roleReadOnly", Text "Nur Lesen");
  ("allTenantsScope", Text "Alle Mandanten");
  ("create", Text "Neue Gruppe");
  ("createTitle", Text "Gruppe erstellen");
  ("save", Text "Speichern");
  ("delete", Text "Löschen");
  ("deleteConfirm", Text "Diese Gruppe löschen? Ihre Mitglieder verlieren den gewährten Zugriff. Dies kann nicht rückgängig gemacht werden.");
  ("removeGrant", Text "Berechtigung entfernen");
  ("empty", Text "Noch keine Gruppen.");
  ("created", Text "Gruppe erstellt");
  ("updated", Text "Gruppe aktualisiert");
  ("deleted", Text "Gruppe gelöscht");
  ("membersSaved", Text "Mitglieder aktualisiert");
  ("grantAdded", Text "Berechtigung hinzugefügt");
  ("grantRemoved", Text "Berechtigung entfernt");
  ("saveFailed", Text "Gruppe konnte nicht gespeichert werden");
  ("loadError", Text "Gruppen konnten nicht geladen werden")].

Definition de_confirm : dict := Group [
  ("title", Text "Sind Sie sicher?");
  ("cancel", Text "Abbrechen");
  ("confirm", Text "Bestätigen");
  ("deleteDevice", Text "Gerät löschen");
  ("deleteDeviceBody", Text "Dadurch werden das Gerät und alle seine Daten dauerhaft gelöscht. Diese Aktion kann nicht rückgängig gemacht werden.")].

Definition de_errors : dict := Group [
  ("fleetHealthLoad", Text "Flottenzustand konnte nicht geladen werden");
  ("alertsLoad", Text "Warnungen konnten nicht geladen werden");
  ("metricsLoad", Text "Metriken konnten nicht geladen werden");
  ("configModelLoad", Text "Konfiguration konnte nicht geladen werden");
  ("configCapabilitiesLoad", Text "Funktionen konnten nicht geladen werden");
  ("configChangesLoad", Text "Änderungen konnten nicht geladen werden");
  ("configChangeAction", Text "Aktion fehlgeschlagen (möglicherweise fehlt Ihnen die Berechtigung)");
  ("reportSettingsLoad", Text "Berichtseinstellungen konnten nicht geladen werden");
  ("reportSettingsAction", Text "Aktion für Berichtseinstellungen fehlgeschlagen");
  ("reportsLoad", Text "Berichte konnten nicht geladen werden");
  ("reportGenerate", Text "Bericht konnte nicht erstellt werden");
  ("attackerCountriesLoad", Text "Angreiferländer konnten nicht geladen werden");
  ("perimeterLoad", Text "Perimeterdaten konnten nicht geladen werden");
  ("auditLoad", Text "Audit-Protokoll konnte nicht geladen werden");
  ("retentionLoad", Text "Aufbewahrungseinstellungen konnten nicht geladen werden");
  ("retentionSave", Text "Aufbewahrungseinstellungen konnten nicht gespeichert werden")].

Definition de_system : dict := Group [
  ("title", Text "System");
  ("subtitle", Text "Plattformweite Laufzeiteinstellungen.");
  ("livePush", Group [
    ("label", Text "Live-Konfigurations-Push an Geräte");
    ("help", Text "Wenn AN, wird eine Konfigurationsänderung beim Anwenden auf das echte Gerät geschrieben. Wenn AUS, sind Änderungen nur ein Probelauf.");
    ("loadError", Text "Live-Push-Einstellung konnte nicht geladen werden.");
    ("enabled", Text "Live-Konfigurations-Push aktiviert");
    ("disabled", Text "Live-Konfigurations-Push deaktiviert");
    ("updateError", Text "Live-Konfigurations-Push konnte nicht aktualisiert werden")]);
  ("runtime", Group [
    ("title", Text "Laufzeiteinstellungen");
    ("subtitle", Text "Ohne Neustart anpassbar; der Wert hier überschreibt den Deploy-Standard aus .env.");
    ("loadError", Text "Laufzeiteinstellungen konnten nicht geladen werden.");
    ("save", Text "Speichern");
    ("discard", Text "Änderungen verwerfen");
    ("saved", Text "Laufzeiteinstellungen gespeichert");
    ("saveError", Text "Laufzeiteinstellungen konnten nicht gespeichert werden");
    ("defaultLabel", Text "Standard");
    ("impactsTitle", Text "Das Senken dieses Aufbewahrungswerts betrifft Mandanten");
    ("impactItem", Text "{tenant}: Ein {store}-Berichtszeitplan benötigt {range} Tage, aber {store} wird jetzt {bound} Tage aufbewahrt.");
    ("groups", Group [
      ("firmware", Text "Firmware");
      ("distribution", Text "Katalog- & GeoIP-Verteilung");
      ("maintenance", Text "Wartung");
      ("retention", Text "Datenaufbewahrung");
      ("security_login", Text "Anmeldeschutz");
      ("security_session", Text "Sitzungen")]);
    ("items", Group [
      ("firmware_max_status_polls", Group [
        ("label", Text "Max. Status-Abfragen");
        ("help", Text "Status-Abfragen, bevor eine Firmware-Aktion abgebrochen wird.")]);
      ("firmware_poll_interval_seconds", Group [
        ("label", Text "Abfrageintervall (s)");
        ("help", Text "Verzögerung zwischen Firmware-Status-Abfragen.")]);
      ("catalog_auto_fetch", Group [
        ("label", Text "Konfigurationskataloge automatisch abrufen");
        ("help", Text "Versionierte Kataloge bei einem Cache-Miss vom Release abrufen.")]);
      ("geoip_auto_fetch", Group [
        ("label", Text "GeoIP-Datenbank automatisch abrufen");
        ("help", Text "Die GeoIP-Datenbank bei einem Cache-Miss vom Release abrufen.")]);
      ("silent_alert_enabled", Group [
        ("label", Text "Warnungen für stille Mandanten");
        ("help", Text "Warnen, wenn ein Mandant mit Weiterleitung keine Logs mehr sendet.")]);
      ("silent_alert_after_hours", Group [
        ("label", Text "Still nach (Stunden)");
        ("help", Text "Stunden der Stille, bevor ein Mandant markiert wird.")]);
      ("perimeter_retention_days", Group [
        ("label", Text "Perimeter-Aufbewahrung (Tage)");
        ("help", Text "Globaler Standard für die Aufbewahrungsdauer von Perimeter-Angreiferdaten.")]);
      ("events_retention_days", Group [
        ("label", Text "Ereignis-Aufbewahrung (Tage)");
        ("help", Text "Globaler Standard für die Aufbewahrungsdauer von Ereignisdaten.")]);
      ("metrics_retention_days", Group [
        ("label", Text "Metrik-Aufbewahrung (Tage)");
        ("help", Text "Globaler Standard für die Aufbewahrungsdauer von Metrikdaten.")]);
      ("log_lake_retention_days", Group [
        ("label", Text "Log-Lake-Aufbewahrung (Tage)");
        ("help", Text "Globaler Standard für die Aufbewahrungsdauer von Log-Lake-Daten.")]);
      ("login_max_attempts", Group [
        ("label", Text "Max. Anmeldeversuche");
        ("help", Text "Erlaubte fehlgeschlagene Anmeldeversuche vor der Sperrung.")]);
      ("login_lockout_window_seconds", Group [
        ("label", Text "Sperrfenster (s)");
        ("help", Text "Gleitendes Fenster für die Zählung fehlgeschlagener Anmeldungen.")]);
      ("session_ttl_hours", Group [
        ("label", Text "Sitzungsdauer (Stunden)");
        ("help", Text "Absolute Sitzungsdauer.")]);
      ("session_idle_minutes", Group [
        ("label", Text "Leerlauf-Timeout (Minuten)");
        ("help", Text "Leerlaufzeit, bevor eine Sitzung abläuft.")]);
      ("trusted_device_days", Group [
        ("label", Text "Vertrauenswürdige Gerätelebensdauer (Tage)");
        ("help", Text "Wie lange ein vertrauenswürdiges Gerät den zweiten Faktor überspringen kann, bevor es erneut bestätigt werden muss.")])])])].

Definition de_logFleet : dict := Group [
  ("title", Text "Protokoll-Flotte");
  ("loadError", Text "Die Protokoll-Flotte konnte nicht geladen werden.");
  ("exportCsv", Text "CSV exportieren");
  ("exportPdf", Text "PDF exportieren");
  ("exportFailed", Text "Export fehlgeschlagen.");
  ("silentBadge", Text "still");
  ("silentAlertsTitle", Text "Warnungen für stille Mandanten");
  ("silentAlertsBody", Text "haben die Weiterleitung aktiviert, aber keine aktuellen Logs.");
  ("volume", Text "Volumen");
  ("devicesTitle", Text "Geräte");
  ("devicesLoadError", Text "Geräte konnten nicht geladen werden.");
  ("noDevices", Text "Keine Geräte.");
  ("stats", Group [
    ("tenantsForwarding", Text "Mandanten mit Weiterleitung");
    ("enabledDevices", Text "Aktivierte Geräte");
    ("silentTenants", Text "Stille Mandanten")]);
  ("table", Group [
    ("tenant", Text "Mandant");
    ("device", Text "Gerät");
    ("forwarding", Text "Weiterleitung");
    ("revoked", Text "Widerrufen");
    ("lastLog", Text "Letztes Log")])].

Definition de_perimeter : dict := Group [
  ("title", Text "Perimeter");
  ("subtitle", Text "Angreifer-IPs am Firewall-Perimeter — fehlgeschlagene Anmeldungen an der Box und blockierter Datenverkehr.");
  ("failedLogins", Text "Fehlgeschlagene Anmeldungen");
  ("firewallBlocks", Text "Firewall-Blockierungen");
  ("failedLoginsHelp", Text "Abgelehnte Anmeldeversuche an der Box.");
  ("firewallBlocksHelp", Text "Eingehender Datenverkehr, der von der Firewall verworfen wurde.");
  ("ip", Text "Quell-IP");
  ("country", Text "Land");
  ("user", Text "Benutzer");
  ("port", Text "Port");
  ("count", Text "Anzahl");
  ("lastSeen", Text "Zuletzt gesehen");
  ("empty", Text "Keine Aktivität in diesem Zeitraum.");
  ("viewAll", Text "Alle anzeigen");
  ("loadError", Text "Perimeterdaten konnten nicht geladen werden.")].

Definition de_retention : dict := Group [
  ("title", Text "Datenaufbewahrung");
  ("subtitle", Text "Überschreiben Sie, wie lange die Daten dieses Mandanten aufbewahrt werden. Lassen Sie ein Feld leer, um den globalen Standard zu übernehmen.");
  ("inheritHint", Text "Global übernehmen");
  ("save", Text "Aufbewahrung speichern");
  ("saved", Text "Aufbewahrungseinstellungen gespeichert.");
  ("stores", Group [
    ("perimeter", Text "Perimeter (Tage)");
    ("events", Text "Ereignisse (Tage)");
    ("metrics", Text "Metriken (Tage)");
    ("log_lake", Text "Log-Lake (Tage)")]);
  ("warningTitle", Text "Berichtszeitpläne überschreiten die Aufbewahrung");
  ("warningItem", Text "Ein {frequency}-Zeitplan umfasst {range} Tage, aber {store}-Daten werden {bound} Tage aufbewahrt.")].

Definition de_audit : dict := Group [
  ("title", Text "Audit-Protokoll");
  ("subtitle", Text "Jede verändernde Aktion auf der gesamten Plattform, nach Akteur und Mandant.");
  ("filters", Group [
    ("actor", Text "Akteur-E-Mail");
    ("tenant", Text "Mandanten-ID");
    ("action", Text "Aktion");
    ("from", Text "Von");
    ("to", Text "Bis");
    ("apply", Text "Anwenden");
    ("reset", Text "Zurücksetzen")]);
  ("columns", Group [
    ("time", Text "Zeit");
    ("actor", Text "Akteur");
    ("tenant", Text "Mandant");
    ("action", Text "Aktion");
    ("target", Text "Ziel");
    ("ip", Text "IP");
    ("details", Text "Details")]);
  ("empty", Text "Keine Audit-Einträge entsprechen diesen Filtern.");
  ("export", Text "CSV exportieren");
  ("exportFailed", Text "Export fehlgeschlagen.");
  ("page", Text "Seite {page}");
  ("showingTotal", Text "{total} Einträge");
  ("prev", Text "Zurück");
  ("next", Text "Weiter")].

Definition de_reliability : dict := Group [
  ("tab", Text "Zuverlässigkeit");
  ("title", Text "Dienstereignisse (24 Std.)");
  ("subtitle", Text "Neustarts, Dienstabstürze/-neustarts und Festplattenwarnungen aus dem Systemprotokoll des Geräts.");
  ("time", Text "Zeit");
  ("category", Text "Kategorie");
  ("name", Text "Ereignis");
  ("severity", Text "Schweregrad");
  ("process", Text "Prozess");
  ("message", Text "Meldung");
  ("categories", Group [
    ("reboot", Text "Neustart");
    ("service", Text "Dienst");
    ("disk", Text "Festplatte")]);
  ("severities", Group [
    ("high", Text "Hoch");
    ("medium", Text "Mittel");
    ("low", Text "Niedrig")]);
  ("loadMore", Text "Mehr laden");
  ("empty", Text "Keine Dienstereignisse in diesem Zeitraum.");
  ("loading", Text "Dienstereignisse werden geladen…");
  ("loadError", Text "Dienstereignisse konnten nicht geladen werden.");
  ("last24h", Text "Letzte 24 Stunden")].

Definition de_configAudit : dict := Group [
  ("tab", Text "Konfig.-Änderungen");
  ("title", Text "Direkte Konfig.-Änderungen (24 Std.)");
  ("subtitle", Text "Wer die Box-Konfiguration geändert hat und wie — direkte Änderungen an der Box (WebGUI/Konsole) werden als Drift markiert.");
  ("time", Text "Zeit");
  ("area", Text "Bereich");
  ("actor", Text "Akteur");
  ("ip", Text "IP");
  ("channel", Text "Kanal");
  ("change", Text "Änderung");
  ("direct", Text "Direkt");
  ("channels", Group [
    ("api", Text "API");
    ("gui", Text "WebGUI");
    ("system", Text "Konsole/Skript");
    ("opngms", Text "OPNGMS");
    ("api_external", Text "Externe API")]);
  ("loadMore", Text "Mehr laden");
  ("empty", Text "Keine Konfigurationsänderungen in diesem Zeitraum.");
  ("loading", Text "Konfigurationsänderungen werden geladen…");
  ("loadError", Text "Konfigurationsänderungen konnten nicht geladen werden.");
  ("last24h", Text "Letzte 24 Stunden")].

Definition de_smtp : dict := Group [
  ("authMethod", Text "Authentifizierung");
  ("authPassword", Text "Passwort");
  ("authOauth", Text "OAuth2");
  ("oauthProvider", Text "Anbieter");
  ("oauthGoogle", Text "Google / Gmail");
  ("oauthMicrosoft", Text "Microsoft 365");
  ("oauthClientId", Text "Client ID");
  ("oauthClientSecret", Text "Client Secret");
  ("oauthRefreshToken", Text "Refresh Token");
  ("oauthTenantId", Text "Tenant ID");
  ("oauthSecretSaved", Text "gespeichert — leer lassen zum Beibehalten");
  ("oauthConnect", Text "Konto verbinden");
  ("oauthConnectGoogle", Text "Mit Google verbinden");
  ("oauthConnectMicrosoft", Text "Mit Microsoft 365 verbinden");
  ("oauthExperimental", Text "Experimentell — nicht getestet");
  ("oauthExperimentalNote", Text "Die Browser-Anmeldung für OAuth wurde nicht mit einem echten Anbieter überprüft. PUBLIC_BASE_URL muss gesetzt und der Umleitungs-URI in Ihrer OAuth-App registriert sein. Das Einfügen eines Aktualisierungstokens oben bleibt der unterstützte Weg.");
  ("oauthConnectNeedsCreds", Text "Speichern Sie zuerst die Client-ID und das Geheimnis, dann verbinden Sie sich.");
  ("oauthConnected", Text "Konto verbunden.");
  ("oauthConnectFailed", Text "Das Konto konnte nicht verbunden werden.")].

Definition de : dict := Group [
  ("common", de_common);
  ("nav", de_nav);
  ("login", de_login);
  ("tenant", de_tenant);
  ("overview", de_overview);
  ("alerts", de_alerts);
  ("devices", de_devices);
  ("deviceDetail", de_deviceDetail);
  ("deviceActions", de_deviceActions);
  ("firmware", de_firmware);
  ("plugins", de_plugins);
  ("templates", de_templates);
  ("deviceCreate", de_deviceCreate);
  ("health", de_health);
  ("logForwarding", de_logForwarding);
  ("catalog", de_catalog);
  ("config", de_config);
  ("deviceHealth", de_deviceHealth);
  ("chart", de_chart);
  ("reports", de_reports);
  ("sessions", de_sessions);
  ("mfa", de_mfa);
  ("groups", de_groups);
  ("confirm", de_confirm);
  ("errors", de_errors);
  ("system", de_system);
  ("logFleet", de_logFleet);
  ("perimeter", de_perimeter);
  ("retention", de_retention);
  ("audit", de_audit);
  ("reliability", de_reliability);
  ("configAudit", de_configAudit);
  ("smtp", de_smtp)].
