(* ===== verification/DictPt.v ===== *)
(** * The Portuguese texts ([i18n/pt.ts]), one definition per group *)
From S2P Require Import Prelude Dict.

Definition pt_common : dict := Group [
  ("appName", Text "OPNGMS");
  ("logout", Text "Terminar sessão");
  ("none", Text "—");
  ("language", Text "Idioma");
  ("cancel", Text "Cancelar")].

Definition pt_nav : dict := Group [
  ("overview", Text "Visão geral");
  ("devices", Text "Dispositivos");
  ("alerts", Text "Alertas");
  ("perimeter", Text "Perímetro");
  ("reportSettings", Text "Definições de relatório");
  ("reportSchedule", Text "Agenda de relatórios");
  ("reports", Text "Relatórios");
  ("logs", Text "Registos");
  ("sessions", Text "Sessões ativas");
  ("mfa", Text "Autenticação de dois fatores");
  ("templates", Text "Biblioteca de modelos");
  ("smtp", Text "SMTP");
  ("logFleet", Text "Frota de registos");
  ("system", Text "Sistema");
  ("groups", Text "Grupos");
  ("audit", Text "Registo de auditoria")].

Definition pt_login : dict := Group [
  ("title", Text "OPNGMS");
  ("email", Text "Email");
  ("password", Text "Palavra-passe");
  ("passwordToggle", Text "Mostrar/ocultar");
  ("submit", Text "Iniciar sessão");
  ("invalidCredentials", Text "Credenciais inválidas");
  ("mfa", Group [
    ("title", Text "Autenticação de dois fatores");
    ("codeHint", Text "Introduza o código de 6 dígitos da sua aplicação de autenticação.");
    ("recoveryHint", Text "Introduza um dos seus códigos de recuperação de utilização única.");
    ("codeLabel", Text "Código de autenticação");
    ("recoveryLabel", Text "Código de recuperação");
    ("verify", Text "Verificar");
    ("useRecovery", Text "Utilizar antes um código de recuperação");
    ("useCode", Text "Utilizar antes um código de autenticação");
    ("invalidCode", Text "Código inválido");
    ("or", Text "ou");
    ("usePasskey", Text "Usar uma passkey / chave de segurança");
    ("passkeyError", Text "Falha ao entrar com passkey. Tente novamente.");
    ("passkeyNotSupported", Text "Este navegador não suporta passkeys.");
    ("rememberDevice", Text "Confiar neste dispositivo durante {days} dias");
    ("rememberDeviceHelp", Text "Não será pedido um segundo fator da próxima vez que iniciar sessão a partir deste dispositivo.")])].

Definition pt_tenant : dict := Group [
  ("activeLabel", Text "Inquilino ativo");
  ("none", Text "Sem inquilino")].

Definition pt_overview : dict := Group [
  ("title", Text "Visão geral");
  ("activeAlerts", Text "Alertas ativos");
  ("noActiveAlerts", Text "Sem alertas ativos");
  ("healthLoadError", Text "Falha ao carregar o estado da frota");
  ("alertsLoadError", Text "Falha ao carregar os alertas");
  ("attackerCountries", Group [
    ("title", Text "Principais países atacantes");
    ("mapTitle", Text "Origens dos ataques");
    ("empty", Text "Nenhum ataque registado neste período.");
    ("private", Text "Privado / interno");
    ("unknown", Text "Desconhecido");
    ("attribution", Text "Dados de país: DB-IP (CC BY 4.0)")])].

Definition pt_alerts : dict := Group [
  ("title", Text "Alertas");
  ("active", Text "Ativos");
  ("history", Text "Histórico");
  ("loadError", Text "Falha ao carregar os alertas");
  ("noAlerts", Text "Sem alertas");
  ("colType", Text "Tipo");
  ("colLabel", Text "Etiqueta");
  ("colSeverity", Text "Gravidade");
  ("colOpened", Text "Aberto");
  ("colResolved", Text "Resolvido");
  ("colDevice", Text "Dispositivo")].

Definition pt_devices : dict := Group [
  ("title", Text "Dispositivos");
  ("add", Text "Adicionar dispositivo");
  ("loadError", Text "Falha ao carregar os dispositivos");
  ("colName", Text "Nome");
  ("colUrl", Text "URL");
  ("colStatus", Text "Estado");
  ("colFirmware", Text "Firmware")].

Definition pt_deviceDetail : dict := Group [
  ("url", Text "URL");
  ("status", Text "Estado");
  ("firmware", Text "Firmware");
  ("loadError", Text "Falha ao carregar o dispositivo")].

Definition pt_deviceActions : dict := Group [
  ("testConnection", Text "Testar ligação");
  ("delete", Text "Eliminar");
  ("testResult", Text "Resultado do teste");
  ("testNotification", Text "Testar");
  ("testFailed", Text "Falha no teste de ligação");
  ("deleteFailed", Text "Falha ao eliminar");
  ("openWebGui", Text "Abrir WebGUI")].

Definition pt_firmware : dict := Group [
  ("title", Text "Firmware");
  ("tab", Text "Firmware");
  ("check", Text "Procurar atualizações");
  ("upToDate", Text "Atualizado");
  ("updatesAvailable", Text "Atualizações disponíveis");
  ("downloadSize", Text "Tamanho da transferência");
  ("rebootNeeded", Text "É necessário reiniciar");
  ("newMajor", Text "Nova versão principal disponível");
  ("update", Text "Atualizar firmware");
  ("upgrade", Text "Atualizar para a nova versão principal");
  ("updateConfirm", Text "Aplicar todas as atualizações de pacotes pendentes? O dispositivo poderá reiniciar.");
  ("upgradeConfirm", Text "Atualizar para a nova versão principal? Este processo executa vários passos com reinícios e pode demorar algum tempo.");
  ("plugins", Text "Plugins");
  ("pluginName", Text "Nome do plugin");
  ("install", Text "Instalar");
  ("remove", Text "Remover");
  ("installConfirm", Text "Instalar este plugin? O dispositivo deve estar com o firmware mais recente.");
  ("removeConfirm", Text "Remover este plugin?");
  ("runNow", Text "Executar agora");
  ("scheduleAt", Text "Agendar (deixe vazio para executar agora)");
  ("schedule", Text "Agendar");
  ("recentActions", Text "Ações recentes");
  ("noActions", Text "Ainda sem ações");
  ("actionQueued", Text "Ação em fila");
  ("actionFailed", Text "Não foi possível colocar a ação em fila");
  ("checkFailed", Text "Falha na verificação do firmware");
  ("kind", Text "Ação");
  ("status", Text "Estado");
  ("when", Text "Quando");
  ("result", Text "Resultado")].

Definition pt_plugins : dict := Group [
  ("tab", Text "Plugins");
  ("title", Text "Plugins");
  ("subtitle", Text "Plugins reportados pela firewall. Instale ou remova plugins da comunidade; para instalar, o dispositivo deve ter o firmware mais recente.");
  ("search", Text "Pesquisar plugins…");
  ("name", Text "Plugin");
  ("status", Text "Estado");
  ("version", Text "Versão");
  ("installed", Text "Instalado");
  ("notInstalled", Text "Disponível");
  ("locked", Text "Bloqueado");
  ("install", Text "Instalar");
  ("remove", Text "Remover");
  ("installConfirm", Text "Instalar este plugin?");
  ("removeConfirm", Text "Remover este plugin?");
  ("empty", Text "Ainda não foram reportados plugins — o dispositivo é consultado periodicamente.");
  ("loadFailed", Text "Não foi possível carregar os plugins.");
  ("configure", Text "Configurar");
  ("configureTitle", Text "Configuração do plugin")].

Definition pt_templates : dict := Group [
  ("tab", Text "Modelos");
  ("libraryTitle", Text "Biblioteca de modelos");
  ("superadminOnly", Text "A biblioteca de modelos é gerida pelos administradores da plataforma.");
  ("name", Text "Nome");
  ("kind", Text "Tipo");
  ("type", Text "Tipo de alias");
  ("content", Text "Conteúdo (uma entrada por linha)");
  ("description", Text "Descrição");
  ("create", Text "Novo modelo");
  ("edit", Text "Editar");
  ("save", Text "Guardar");
  ("delete", Text "Eliminar");
  ("deleteConfirm", Text "Eliminar este modelo? As substituições por inquilino são removidas; as alterações aplicadas mantêm o seu histórico.");
  ("empty", Text "Ainda sem modelos.");
  ("created", Text "Modelo criado");
  ("updated", Text "Modelo atualizado");
  ("saveFailed", Text "Não foi possível guardar o modelo");
  ("apply", Group [
    ("title", Text "Aplicar um modelo");
    ("pick", Text "Modelo");
    ("override", Text "Substituição deste cliente (conteúdo, uma entrada por linha — deixe vazio para usar o valor da biblioteca)");
    ("saveOverride", Text "Guardar substituição");
    ("overrideSaved", Text "Substituição guardada");
    ("preview", Text "Pré-visualizar");
    ("previewTitle", Text "Configuração efetiva");
    ("applyConfirm", Text "Aplicar este modelo ao dispositivo?");
    ("runNow", Text "Aplicar agora");
    ("scheduleAt", Text "Agendar (deixe vazio para aplicar agora)");
    ("schedule", Text "Agendar");
    ("queued", Text "Aplicação em fila");
    ("failed", Text "Não foi possível aplicar o modelo");
    ("none", Text "Sem modelos disponíveis.")]);
  ("templatesTab", Text "Modelos");
  ("kindLabel", Text "Tipo de modelo");
  ("kindAlias", Text "Alias de firewall");
  ("kindSetting", Text "Definição do OPNsense");
  ("setting", Group [
    ("endpoint", Text "Definição");
    ("referenceDevice", Text "Dispositivo de referência (para ler os campos disponíveis)");
    ("load", Text "Carregar campos");
    ("loadHint", Text "Escolha uma definição + um dispositivo e, em seguida, carregue os campos a configurar.");
    ("noDevice", Text "Não há nenhum dispositivo disponível no inquilino ativo para ler os campos.");
    ("loadFailed", Text "Não foi possível ler a definição a partir do dispositivo.");
    ("noFields", Text "Sem campos configuráveis.");
    ("hardwareNote", Text "Os campos específicos de hardware/dispositivo são deliberadamente excluídos dos modelos.")]);
  ("kindFirewallRule", Text "Regra de firewall (Rules [novo])");
  ("fw", Group [
    ("referenceDevice", Text "Dispositivo de referência (para ler os campos de regra disponíveis)");
    ("load", Text "Carregar campos");
    ("loadHint", Text "Escolha um dispositivo e, em seguida, carregue os campos de regra a configurar.");
    ("noDevice", Text "Não há nenhum dispositivo disponível no inquilino ativo para ler os campos.");
    ("loadFailed", Text "Não foi possível ler o modelo de regra a partir do dispositivo.");
    ("descriptionRequired", Text "É necessária uma descrição (é a identidade da regra).");
    ("interface", Text "Interface (escolhida no momento da aplicação)");
    ("floating", Text "Flutuante (sem interface)");
    ("note", Text "A interface é escolhida no momento da aplicação; deixe vazio para uma regra flutuante.")]);
  ("kindMonitTest", Text "Teste de verificação de estado Monit");
  ("monit", Group [
    ("referenceDevice", Text "Dispositivo de referência (para ler os campos de teste disponíveis)");
    ("load", Text "Carregar campos");
    ("loadHint", Text "Escolha um dispositivo e, em seguida, carregue os campos de teste a configurar.");
    ("noDevice", Text "Não há nenhum dispositivo disponível no inquilino ativo para ler os campos.");
    ("loadFailed", Text "Não foi possível ler o modelo de teste a partir do dispositivo.");
    ("nameRequired", Text "É necessário um nome (é a identidade do teste).");
    ("note", Text "Um teste entra em vigor assim que for associado a um serviço Monit.");
    ("attachSystem", Text "Associar este teste ao serviço de sistema para que entre em vigor");
    ("attachSystemNote", Text "Quando ativado, a aplicação também associa o teste ao serviço de sistema Monit do dispositivo.")]);
  ("kindIdsRulesets", Text "Conjuntos de regras Suricata/IDS");
  ("ids", Group [
    ("referenceDevice", Text "Dispositivo de referência (para ler os conjuntos de regras disponíveis)");
    ("load", Text "Carregar conjuntos de regras");
    ("loadHint", Text "Escolha um dispositivo e, em seguida, carregue os seus conjuntos de regras para escolher quais ativar.");
    ("noDevice", Text "Não há nenhum dispositivo disponível no inquilino ativo para ler os conjuntos de regras.");
    ("loadFailed", Text "Não foi possível ler os conjuntos de regras a partir do dispositivo.");
    ("rulesets", Text "Conjuntos de regras a ativar");
    ("noRulesets", Text "Não foram encontrados conjuntos de regras no dispositivo.");
    ("note", Text "A aplicação ativa os conjuntos de regras selecionados (aditivo — não desativa os outros).")]);
  ("kindIdsPolicy", Text "Política Suricata/IDS");
  ("idsPolicy", Group [
    ("description", Text "Descrição (a identidade da política)");
    ("enabled", Text "Ativada");
    ("prio", Text "Prioridade");
    ("action", Text "Ação atual a corresponder (regras cuja ação seja uma destas)");
    ("newAction", Text "Nova ação");
    ("rulesets", Text "Conjuntos de regras a que a política se aplica");
    ("referenceDevice", Text "Dispositivo de referência (para ler os conjuntos de regras disponíveis)");
    ("load", Text "Carregar conjuntos de regras");
    ("loadHint", Text "Escolha um dispositivo e, em seguida, carregue os seus conjuntos de regras ativados para referenciar.");
    ("noDevice", Text "Não há nenhum dispositivo disponível no inquilino ativo para ler os conjuntos de regras.");
    ("noRulesets", Text "Não foram encontrados conjuntos de regras ativados no dispositivo (ative primeiro um conjunto de regras).");
    ("loadFailed", Text "Não foi possível ler os conjuntos de regras a partir do dispositivo.");
    ("content", Text "Filtros de metadados (avançado — a maioria das políticas não precisa de nenhum)");
    ("contentKey", Text "Chave");
    ("contentValues", Text "Valores (separados por vírgula)");
    ("contentKeyInvalid", Text "Chave inválida — use letras, dígitos, pontos, hífens ou sublinhados.");
    ("addContent", Text "Adicionar filtro");
    ("descriptionRequired", Text "É necessária uma descrição (é a identidade da política).");
    ("note", Text "Os conjuntos de regras referenciados já devem estar ativados no dispositivo. O mapeamento de conjuntos de regras/conteúdo é verificado em tempo de execução ao aplicar.")]);
  ("profiles", Group [
    ("tab", Text "Perfis");
    ("name", Text "Nome");
    ("description", Text "Descrição");
    ("members", Text "Modelos (por ordem de aplicação)");
    ("create", Text "Novo perfil");
    ("edit", Text "Editar");
    ("save", Text "Guardar");
    ("delete", Text "Eliminar");
    ("deleteConfirm", Text "Eliminar este perfil? As alterações aplicadas mantêm o seu histórico.");
    ("empty", Text "Ainda sem perfis.");
    ("created", Text "Perfil criado");
    ("updated", Text "Perfil atualizado");
    ("saveFailed", Text "Não foi possível guardar o perfil");
    ("memberCount", Text "modelos");
    ("apply", Group [
      ("title", Text "Aplicar um perfil");
      ("pick", Text "Perfil");
      ("preview", Text "Pré-visualizar");
      ("previewTitle", Text "Configuração efetiva (por modelo, por ordem)");
      ("interface", Text "Interface (escolhida no momento da aplicação)");
      ("floating", Text "Flutuante (sem interface)");
      ("empty", Text "Sem perfis disponíveis.");
      ("applyConfirm", Text "Aplicar este perfil ao dispositivo? Aplica cada modelo membro por ordem.");
      ("runNow", Text "Aplicar agora");
      ("scheduleAt", Text "Agendar (deixe vazio para aplicar agora)");
      ("schedule", Text "Agendar");
      ("queued", Text "Aplicação do perfil em fila");
      ("failed", Text "Não foi possível aplicar o perfil")])])].

Definition pt_deviceCreate : dict := Group [
  ("title", Text "Adicionar dispositivo");
  ("name", Text "Nome");
  ("url", Text "URL (https)");
  ("apiKey", Text "Chave de API");
  ("apiSecret", Text "Segredo de API");
  ("verifyTls", Text "Verificar TLS");
  ("tlsWarning", Text "Com a verificação TLS desativada, nada autentica o certificado do dispositivo — as credenciais podem ser intercetadas. Fixe a impressão digital SHA-256 do certificado abaixo para restaurar a proteção.");
  ("tlsFingerprintLabel", Text "Impressão digital SHA-256 do certificado (opcional)");
  ("tlsFingerprintPlaceholder", Text "00:42:E2:C4:07:61:06:0D:56:A4:75:2F:FC:32:2B:4E:B3:CE:FF:31:8A:88:F3:22:2B:C1:B1:0D:46:0B:04:2C");
  ("save", Text "Guardar");
  ("created", Text "Dispositivo criado");
  ("createFailed", Text "Falha ao criar")].

Definition pt_health : dict := Group [
  ("totalDevices", Text "Total de dispositivos");
  ("activeAlerts", Text "Alertas ativos")].

Definition pt_logForwarding : dict := Group [
  ("tab", Text "Reencaminhamento de registos")].

Definition pt_catalog : dict := Group [
  ("tab", Text "Editor");
  ("searchModels", Text "Procurar definições…");
  ("noModels", Text "Sem catálogo para esta versão do dispositivo.");
  ("selectModel", Text "Selecione um grupo de definições à esquerda para o editar.");
  ("readOnly", Text "Não editável (lista de bloqueio de segurança).");
  ("unreachable", Text "Dispositivo inacessível — são necessários valores em direto para editar.");
  ("liveValues", Text "Valores em direto");
  ("propose", Text "Propor alteração");
  ("preview", Text "Rever alteração");
  ("noChanges", Text "Sem alterações a propor.");
  ("proposed", Text "Rascunho de alteração criado — agende-o no separador Config.");
  ("proposeFailed", Text "Não foi possível criar a alteração.");
  ("loadFailed", Text "Não foi possível carregar o modelo.");
  ("openWebgui", Text "Abrir no WebGUI");
  ("searchAll", Text "Procurar definições…");
  ("grid", Group [
    ("add", Text "Adicionar linha");
    ("save", Text "Guardar");
    ("edit", Text "Editar");
    ("delete", Text "Eliminar");
    ("empty", Text "Sem linhas.")]);
  ("diff", Group [
    ("baseline", Text "Comparar com");
    ("noBaseline", Text "Sem versão anterior");
    ("newSince", Text "Novo desde {v}");
    ("changedSince", Text "Alterado desde {v}");
    ("changes", Text "alterações")]);
  ("map", Group [
    ("tabMenu", Text "Menu");
    ("tabMap", Text "Mapa de config");
    ("editInCatalog", Text "Editar no catálogo");
    ("readOnly", Text "apenas leitura (sem API)");
    ("staleBanner", Text "Desatualizado — dispositivo inacessível; a mostrar a última cópia de segurança de {when}")])].

Definition pt_config : dict := Group [
  ("tabInfo", Text "Informações");
  ("tabHealth", Text "Estado");
  ("tabConfig", Text "Config");
  ("capabilities", Text "Capacidades");
  ("version", Text "Versão do OPNsense");
  ("interfaces", Text "Interfaces");
  ("configuredSections", Text "Secções configuradas");
  ("available", Text "Capacidades disponíveis");
  ("hidden", Text "ocultas");
  ("noConfigYet", Text "Ainda nenhuma configuração capturada");
  ("nic", Text "NIC");
  ("changes", Group [
    ("title", Text "Alterações pendentes");
    ("propose", Text "Propor alteração de alias");
    ("none", Text "Sem alterações pendentes");
    ("colKind", Text "Tipo");
    ("colOperation", Text "Operação");
    ("colTarget", Text "Alvo");
    ("colStatus", Text "Estado");
    ("colScheduled", Text "Agendada");
    ("preview", Text "Pré-visualizar");
    ("schedule", Text "Agendar");
    ("cancel", Text "Cancelar");
    ("revert", Text "Reverter");
    ("reverts", Text "reverte #");
    ("applyNow", Text "Aplicar agora");
    ("pickTime", Text "Escolher data/hora");
    ("checkDrift", Text "Verificar desvio");
    ("driftUnreachable", Text "Não foi possível aceder ao dispositivo — desvio desconhecido.");
    ("driftInSync", Text "sincronizado");
    ("driftDrifted", Text "desvio");
    ("driftMissing", Text "em falta");
    ("driftUnsupported", Text "n/d");
    ("driftFields", Text "Campos com desvio: ");
    ("operation", Text "Operação");
    ("name", Text "Nome");
    ("type", Text "Tipo");
    ("content", Text "Conteúdo (um por linha)");
    ("create", Text "Criar");
    ("add", Text "adicionar");
    ("set", Text "definir");
    ("delete", Text "eliminar")])].

Definition pt_deviceHealth : dict := Group [
  ("title", Text "Estado");
  ("cpu", Text "CPU");
  ("memory", Text "Memória");
  ("disk", Text "Disco");
  ("trafficIn", Text "Tráfego de entrada");
  ("trafficOut", Text "Tráfego de saída");
  ("gatewayRtt", Text "RTT do gateway");
  ("gatewayLoss", Text "Perda do gateway");
  ("vpnUp", Text "VPN ativa")].

Definition pt_chart : dict := Group [
  ("noData", Text "Ainda sem dados")].

Definition pt_reports : dict := Group [
  ("page", Group [
    ("title", Text "Relatórios");
    ("generate", Text "Gerar relatório");
    ("from", Text "De");
    ("to", Text "Até");
    ("period", Text "Período");
    ("kind", Text "Tipo");
    ("created", Text "Criado");
    ("size", Text "Tamanho");
    ("download", Text "Transferir");
    ("none", Text "Ainda sem relatórios.");
    ("generated", Text "Relatório gerado");
    ("kindOnDemand", Text "A pedido");
    ("kindScheduled", Text "Agendado")]);
  ("settings", Group [
    ("pageTitle", Text "Definições de relatório");
    ("title", Text "Título do relatório");
    ("owner", Text "Proprietário");
    ("timezone", Text "Fuso horário");
    ("fromEmail", Text "Email de remetente (entrega de relatórios)");
    ("logo", Text "Logótipo");
    ("upload", Text "Carregar logótipo");
    ("remove", Text "Remover logótipo");
    ("language", Text "Idioma do relatório");
    ("save", Text "Guardar definições");
    ("adminsOnly", Text "As definições de relatório estão disponíveis apenas para administradores do inquilino.");
    ("saved", Text "Definições de relatório guardadas.");
    ("logoUploaded", Text "Logótipo carregado.");
    ("logoRemoved", Text "Logótipo removido.");
    ("hasLogo", Text "Logótipo carregado");
    ("noLogo", Text "Sem logótipo")]);
  ("sections", Group [
    ("title", Text "Secções do relatório");
    ("description", Text "Escolha que secções aparecem no relatório PDF.");
    ("customizeForDevice", Text "Personalizar as secções para este dispositivo");
    ("summary", Text "Resumo executivo");
    ("health", Text "Estado do dispositivo");
    ("alerts_wan", Text "Alertas e conectividade");
    ("attacks", Text "Ataques");
    ("attacker_countries", Text "Países atacantes");
    ("failed_logins", Text "Inícios de sessão falhados");
    ("firewall_blocks", Text "Bloqueios da firewall");
    ("web", Text "Atividade web");
    ("data", Text "Utilização de dados");
    ("status", Text "Estado online/offline");
    ("firmware_config", Text "Firmware e configuração");
    ("applications", Text "Aplicações");
    ("web_filter", Text "Filtro web")])].

Definition pt_sessions : dict := Group [
  ("pageTitle", Text "Sessões ativas");
  ("colLastSeen", Text "Visto pela última vez");
  ("colCreated", Text "Criada");
  ("colExpires", Text "Expira");
  ("colIp", Text "Endereço IP");
  ("colUserAgent", Text "Agente de utilizador");
  ("current", Text "Atual");
  ("logoutAll", Text "Terminar sessão em todo o lado");
  ("loadError", Text "Falha ao carregar as sessões");
  ("logoutAllError", Text "Falha ao terminar sessão em todo o lado")].

Definition pt_mfa : dict := Group [
  ("pageTitle", Text "Autenticação de dois fatores");
  ("intro", Text "Proteja a sua conta com uma palavra-passe de utilização única baseada em tempo (TOTP) a partir de uma aplicação de autenticação.");
  ("status", Text "Estado");
  ("enabled", Text "Ativada");
  ("disabled", Text "Desativada");
  ("recoveryRemaining", Text "Códigos de recuperação restantes");
  ("statusError", Text "Falha ao carregar o estado da MFA");
  ("enroll", Text "Configurar a autenticação de dois fatores");
  ("enrollStart", Text "Iniciar configuração");
  ("password", Text "Palavra-passe atual");
  ("passwordHint", Text "Volte a introduzir a sua palavra-passe para alterar as definições de dois fatores.");
  ("scanHint", Text "Leia este código QR com a sua aplicação de autenticação, ou introduza o segredo manualmente.");
  ("secretLabel", Text "Chave secreta");
  ("confirmCodeLabel", Text "Código de autenticação");
  ("confirmHint", Text "Introduza o código de 6 dígitos da sua aplicação para concluir a configuração.");
  ("confirm", Text "Confirmar e ativar");
  ("cancel", Text "Cancelar");
  ("setupError", Text "Não foi possível iniciar a configuração (verifique a sua palavra-passe).");
  ("confirmError", Text "Código inválido. Tente novamente.");
  ("recoveryTitle", Text "Códigos de recuperação");
  ("recoveryIntro", Text "Guarde estes códigos de recuperação de utilização única num local seguro. Cada um pode ser usado uma vez caso perca o seu autenticador.");
  ("recoveryWarning", Text "Estes códigos são mostrados apenas uma vez.");
  ("copyAll", Text "Copiar tudo");
  ("copied", Text "Copiado para a área de transferência");
  ("download", Text "Transferir");
  ("done", Text "Concluído");
  ("regenerate", Text "Regenerar códigos de recuperação");
  ("regenerateError", Text "Não foi possível regenerar os códigos de recuperação (verifique a sua palavra-passe).");
  ("disable", Text "Desativar a autenticação de dois fatores");
  ("disableConfirmTitle", Text "Desativar a autenticação de dois fatores?");
  ("disableConfirmBody", Text "A sua conta deixará de exigir um segundo fator ao iniciar sessão.");
  ("disableError", Text "Não foi possível desativar (verifique a sua palavra-passe).");
  ("disabledNotice", Text "Autenticação de dois fatores desativada.");
  ("policyTitle", Text "Política de MFA da organização");
  ("policyIntro", Text "Exigir a autenticação de dois fatores em toda a organização.");
  ("policyOff", Text "Desligada");
  ("policyAll", Text "Todos os utilizadores");
  ("policyPrivileged", Text "Utilizadores privilegiados");
  ("policyLoadError", Text "Falha ao carregar a política de MFA");
  ("policySaveError", Text "Falha ao atualizar a política de MFA");
  ("policySaved", Text "Política de MFA atualizada");
  ("usersTitle", Text "MFA de utilizadores");
  ("colUser", Text "Utilizador");
  ("colEmail", Text "Email");
  ("colRole", Text "Função");
  ("superadmin", Text "Superadministrador");
  ("member", Text "Membro");
  ("reset", Text "Repor MFA");
  ("resetConfirmTitle", Text "Repor a MFA deste utilizador?");
  ("resetConfirmBody", Text "Isto apaga o seu segredo TOTP e os códigos de recuperação. Terá de voltar a inscrever-se.");
  ("resetError", Text "Falha ao repor a MFA do utilizador");
  ("resetDone", Text "MFA do utilizador reposta");
  ("usersLoadError", Text "Falha ao carregar os utilizadores");
  ("gateTitle", Text "É necessária a autenticação de dois fatores");
  ("gateIntro", Text "A sua organização exige a autenticação de dois fatores. Configure-a agora para continuar.");
  ("passkeys", Group [
    ("title", Text "Passkeys");
    ("intro", Text "Registe uma passkey ou chave de segurança para iniciar sessão sem código.");
    ("add", Text "Adicionar passkey");
    ("accountPassword", Text "Palavra-passe da conta");
    ("name", Text "Nome");
    ("namePlaceholder", Text "ex. Portátil de trabalho");
    ("unnamed", Text "Passkey");
    ("colName", Text "Nome");
    ("colCreated", Text "Criada");
    ("remove", Text "Remover");
    ("removeConfirmTitle", Text "Remover esta passkey?");
    ("removeConfirmBody", Text "Esta passkey deixará de poder ser usada para iniciar sessão.");
    ("addedNotice", Text "Passkey adicionada.");
    ("removedNotice", Text "Passkey removida.");
    ("addError", Text "Não foi possível adicionar a passkey. Tente novamente.");
    ("removeError", Text "Não foi possível remover a passkey.");
    ("listError", Text "Falha ao carregar as passkeys");
    ("lastFactorError", Text "Não pode remover o seu último segundo fator. Adicione outro primeiro.");
    ("notConfigured", Text "As passkeys não estão configuradas para a sua organização.");
    ("notSupported", Text "Este navegador não suporta passkeys.")]);
  ("trustedDeviceToggle", Group [
    ("label", Text "Lembrar este dispositivo");
    ("help", Text "Permite que os utilizadores ignorem o segundo fator nos dispositivos em que escolhem confiar.")]);
  ("trustedDevices", Group [
    ("title", Text "Dispositivos confiáveis");
    ("intro", Text "Os dispositivos confiáveis podem fazer login sem um segundo fator até expirarem. Revogue os que você não reconhecer.");
    ("colDevice", Text "Dispositivo");
    ("colIp", Text "Endereço IP");
    ("colLastUsed", Text "Último uso");
    ("colExpires", Text "Expira");
    ("revoke", Text "Revogar");
    ("revokeAll", Text "Revogar todos");
    ("confirmTitle", Text "Revogar este dispositivo?");
    ("confirmBody", Text "Este dispositivo precisará de um segundo fator no próximo login.");
    ("revokeAllConfirmTitle", Text "Revogar todos os dispositivos confiáveis?");
    ("revokeAllConfirmBody", Text "Todos os dispositivos confiáveis precisarão de um segundo fator no próximo login.");
    ("empty", Text "Nenhum dispositivo confiável.");
    ("loadError", Text "Falha ao carregar os dispositivos confiáveis.");
    ("revokeError", Text "Não foi possível revogar o dispositivo.");
    ("unknownDevice", Text "Dispositivo desconhecido")])].

Definition pt_groups : dict := Group [
  ("title", Text "Grupos");
  ("description", Text "Defina grupos de utilizadores e o acesso aos inquilinos que recebem.");
  ("superadminOnly", Text "Os grupos são geridos pelos administradores da plataforma.");
  ("name", Text "Nome");
  ("namePlaceholder", Text "Nome do grupo");
  ("descriptionField", Text "Descrição");
  ("descriptionPlaceholder", Text "Descrição opcional");
  ("members", Text "Membros");
  ("membersPlaceholder", Text "Selecionar utilizadores");
  ("noMembers", Text "Ainda não há membros.");
  ("grants", Text "Concessões de acesso");
  ("noGrants", Text "Ainda não há concessões.");
  ("addGrant", Text "Adicionar concessão");
  ("allTenants", Text "Todos os inquilinos");
  ("tenant", Text "Inquilino");
  ("tenantPlaceholder", Text "Selecionar um inquilino");
  ("role", Text "Função");
  ("roleTenantAdmin", Text "Administrador do inquilino");
  ("roleOperator", Text "Operador");
  ("roleReadOnly", Text "Apenas leitura");
  ("allTenantsScope", Text "Todos os inquilinos");
  ("create", Text "Novo grupo");
  ("createTitle", Text "Criar grupo");
  ("save", Text "Guardar");
  ("delete", Text "Eliminar");
  ("deleteConfirm", Text "Eliminar este grupo? Os seus membros perdem o acesso concedido. Esta ação não pode ser anulada.");
  ("removeGrant", Text "Remover concessão");
  ("empty", Text "Ainda não há grupos.");
  ("created", Text "Grupo criado");
  ("updated", Text "Grupo atualizado");
  ("deleted", Text "Grupo eliminado");
  ("membersSaved", Text "Membros atualizados");
  ("grantAdded", Text "Concessão adicionada");
  ("grantRemoved", Text "Concessão removida");
  ("saveFailed", Text "Não foi possível guardar o grupo");
  ("loadError", Text "Não foi possível carregar os grupos")].

Definition pt_confirm : dict := Group [
  ("title", Text "Tem a certeza?");
  ("cancel", Text "Cancelar");
  ("confirm", Text "Confirmar");
  ("deleteDevice", Text "Eliminar dispositivo");
  ("deleteDeviceBody", Text "Isto elimina permanentemente o dispositivo e todos os seus dados. Esta ação não pode ser anulada.")].

Definition pt_errors : dict := Group [
  ("fleetHealthLoad", Text "Falha ao carregar o estado da frota");
  ("alertsLoad", Text "Falha ao carregar os alertas");
  ("metricsLoad", Text "Falha ao carregar as métricas");
  ("configModelLoad", Text "Falha ao carregar a configuração");
  ("configCapabilitiesLoad", Text "Falha ao carregar as capacidades");
  ("configChangesLoad", Text "Falha ao carregar as alterações");
  ("configChangeAction", Text "Falha na ação (poderá não ter permissão)");
  ("reportSettingsLoad", Text "Falha ao carregar as definições de relatório");
  ("reportSettingsAction", Text "Falha na ação das definições de relatório");
  ("reportsLoad", Text "Falha ao carregar os relatórios");
  ("reportGenerate", Text "Falha ao gerar o relatório");
  ("attackerCountriesLoad", Text "Falha ao carregar os países atacantes");
  ("perimeterLoad", Text "Falha ao carregar os dados do perímetro");
  ("auditLoad", Text "Falha ao carregar o registo de auditoria");
  ("retentionLoad", Text "Falha ao carregar as definições de retenção");
  ("retentionSave", Text "Falha ao guardar as definições de retenção")].

Definition pt_system : dict := Group [
  ("title", Text "Sistema");
  ("subtitle", Text "Definições de runtime de toda a plataforma.");
  ("livePush", Group [
    ("label", Text "Envio de configuração em direto para os dispositivos");
    ("help", Text "Quando ativado, aplicar uma alteração de configuração escreve no dispositivo real. Quando desativado, as alterações são apenas em modo de simulação.");
    ("loadError", Text "Falha ao carregar a definição de envio em direto.");
    ("enabled", Text "Envio de configuração em direto ativado");
    ("disabled", Text "Envio de configuração em direto desativado");
    ("updateError", Text "Falha ao atualizar o envio de configuração em direto")]);
  ("runtime", Group [
    ("title", Text "Definições de runtime");
    ("subtitle", Text "Ajustáveis sem reiniciar; o valor aqui substitui a predefinição de implementação do .env.");
    ("loadError", Text "Falha ao carregar as definições de runtime.");
    ("save", Text "Guardar");
    ("discard", Text "Descartar alterações");
    ("saved", Text "Definições de runtime guardadas");
    ("saveError", Text "Falha ao guardar as definições de runtime");
    ("defaultLabel", Text "predefinição");
    ("impactsTitle", Text "Reduzir este valor de retenção afeta inquilinos");
    ("impactItem", Text "{tenant}: um agendamento de relatório {store} precisa de {range} dias mas {store} agora é mantido {bound} dias.");
    ("groups", Group [
      ("firmware", Text "Firmware");
      ("distribution", Text "Distribuição de catálogo e GeoIP");
      ("maintenance", Text "Manutenção");
      ("retention", Text "Retenção de dados");
      ("security_login", Text "Proteção de início de sessão");
      ("security_session", Text "Sessões")]);
    ("items", Group [
      ("firmware_max_status_polls", Group [
        ("label", Text "Máx. de sondagens de estado");
        ("help", Text "Sondagens de estado antes de uma ação de firmware ser abandonada.")]);
      ("firmware_poll_interval_seconds", Group [
        ("label", Text "Intervalo de sondagem (s)");
        ("help", Text "Atraso entre sondagens de estado do firmware.")]);
      ("catalog_auto_fetch", Group [
        ("label", Text "Obter catálogos de configuração automaticamente");
        ("help", Text "Obter catálogos versionados a partir da versão em caso de falha de cache.")]);
      ("geoip_auto_fetch", Group [
        ("label", Text "Obter base de dados GeoIP automaticamente");
        ("help", Text "Obter a base de dados GeoIP a partir da versão em caso de falha de cache.")]);
      ("silent_alert_enabled", Group [
        ("label", Text "Alertas de inquilino silencioso");
        ("help", Text "Alertar quando um inquilino com reencaminhamento deixa de enviar registos.")]);
      ("silent_alert_after_hours", Group [
        ("label", Text "Silencioso após (horas)");
        ("help", Text "Horas de silêncio antes de um inquilino ser sinalizado.")]);
      ("perimeter_retention_days", Group [
        ("label", Text "Retenção do perímetro (dias)");
        ("help", Text "Predefinição global para quanto tempo os dados de atacantes do perímetro são mantidos.")]);
      ("events_retention_days", Group [
        ("label", Text "Retenção de eventos (dias)");
        ("help", Text "Predefinição global para quanto tempo os dados de eventos são mantidos.")]);
      ("metrics_retention_days", Group [
        ("label", Text "Retenção de métricas (dias)");
        ("help", Text "Predefinição global para quanto tempo os dados de métricas são mantidos.")]);
      ("log_lake_retention_days", Group [
        ("label", Text "Retenção do lago de logs (dias)");
        ("help", Text "Predefinição global para quanto tempo os dados do lago de logs são mantidos.")]);
      ("login_max_attempts", Group [
        ("label", Text "Máx. de tentativas de início de sessão");
        ("help", Text "Tentativas de início de sessão falhadas permitidas antes do bloqueio.")]);
      ("login_lockout_window_seconds", Group [
        ("label", Text "Janela de bloqueio (s)");
        ("help", Text "Janela deslizante para a contagem de inícios de sessão falhados.")]);
      ("session_ttl_hours", Group [
        ("label", Text "Duração da sessão (horas)");
        ("help", Text "Duração absoluta da sessão.")]);
      ("session_idle_minutes", Group [
        ("label", Text "Tempo limite de inatividade (minutos)");
        ("help", Text "Tempo de inatividade antes de uma sessão expirar.")]);
      ("trusted_device_days", Group [
        ("label", Text "Tempo de vida do dispositivo confiável (dias)");
        ("help", Text "Por quanto tempo um dispositivo confiável pode ignorar o segundo fator antes de precisar ser re-verificado.")])])])].

Definition pt_logFleet : dict := Group [
  ("title", Text "Frota de registos");
  ("loadError", Text "Falha ao carregar a frota de registos.");
  ("exportCsv", Text "Exportar CSV");
  ("exportPdf", Text "Exportar PDF");
  ("exportFailed", Text "Falha na exportação.");
  ("silentBadge", Text "silencioso");
  ("silentAlertsTitle", Text "Alertas de inquilino silencioso");
  ("silentAlertsBody", Text "ativou o reencaminhamento, mas não tem registos recentes.");
  ("volume", Text "Volume");
  ("devicesTitle", Text "Dispositivos");
  ("devicesLoadError", Text "Falha ao carregar os dispositivos.");
  ("noDevices", Text "Sem dispositivos.");
  ("stats", Group [
    ("tenantsForwarding", Text "Inquilinos a reencaminhar");
    ("enabledDevices", Text "Dispositivos ativados");
    ("silentTenants", Text "Inquilinos silenciosos")]);
  ("table", Group [
    ("tenant", Text "Inquilino");
    ("device", Text "Dispositivo");
    ("forwarding", Text "Reencaminhamento");
    ("revoked", Text "Revogado");
    ("lastLog", Text "Último registo")])].

Definition pt_perimeter : dict := Group [
  ("title", Text "Perímetro");
  ("subtitle", Text "IPs de atacantes no perímetro da firewall — inícios de sessão falhados na firewall e tráfego bloqueado.");
  ("failedLogins", Text "Inícios de sessão falhados");
  ("firewallBlocks", Text "Bloqueios da firewall");
  ("failedLoginsHelp", Text "Tentativas de início de sessão na firewall que foram rejeitadas.");
  ("firewallBlocksHelp", Text "Tráfego de entrada descartado pela firewall.");
  ("ip", Text "IP de origem");
  ("country", Text "País");
  ("user", Text "Utilizador");
  ("port", Text "Porta");
  ("count", Text "Contagem");
  ("lastSeen", Text "Visto pela última vez");
  ("empty", Text "Sem atividade neste período.");
  ("viewAll", Text "Ver tudo");
  ("loadError", Text "Falha ao carregar os dados do perímetro.")].

Definition pt_retention : dict := Group [
  ("title", Text "Retenção de dados");
  ("subtitle", Text "Substitua quanto tempo os dados deste inquilino são mantidos. Deixe um campo vazio para herdar a predefinição global.");
  ("inheritHint", Text "Herdar global");
  ("save", Text "Guardar retenção");
  ("saved", Text "Definições de retenção guardadas.");
  ("stores", Group [
    ("perimeter", Text "Perímetro (dias)");
    ("events", Text "Eventos (dias)");
    ("metrics", Text "Métricas (dias)");
    ("log_lake", Text "Lago de logs (dias)")]);
  ("warningTitle", Text "Os agendamentos de relatórios excedem a retenção");
  ("warningItem", Text "Um agendamento {frequency} cobre {range} dias mas os dados de {store} são mantidos {bound} dias.")].

Definition pt_audit : dict := Group [
  ("title", Text "Registo de auditoria");
  ("subtitle", Text "Todas as ações de modificação na plataforma, por autor e por inquilino.");
  ("filters", Group [
    ("actor", Text "Email do autor");
    ("tenant", Text "ID do inquilino");
    ("action", Text "Ação");
    ("from", Text "De");
    ("to", Text "Até");
    ("apply", Text "Aplicar");
    ("reset", Text "Repor")]);
  ("columns", Group [
    ("time", Text "Hora");
    ("actor", Text "Autor");
    ("tenant", Text "Inquilino");
    ("action", Text "Ação");
    ("target", Text "Alvo");
    ("ip", Text "IP");
    ("details", Text "Detalhes")]);
  ("empty", Text "Nenhuma entrada de auditoria corresponde a estes filtros.");
  ("export", Text "Exportar CSV");
  ("exportFailed", Text "Falha na exportação.");
  ("page", Text "Página {page}");
  ("showingTotal", Text "{total} entradas");
  ("prev", Text "Anterior");
  ("next", Text "Seguinte")].

Definition pt_reliability : dict := Group [
  ("tab", Text "Fiabilidade");
  ("title", Text "Eventos de serviço (24h)");
  ("subtitle", Text "Reinícios, falhas/reinícios de serviços e avisos de disco a partir do registo de sistema do dispositivo.");
  ("time", Text "Hora");
  ("category", Text "Categoria");
  ("name", Text "Evento");
  ("severity", Text "Gravidade");
  ("process", Text "Processo");
  ("message", Text "Mensagem");
  ("categories", Group [
    ("reboot", Text "Reinício");
    ("service", Text "Serviço");
    ("disk", Text "Disco")]);
  ("severities", Group [
    ("high", Text "Alta");
    ("medium", Text "Média");
    ("low", Text "Baixa")]);
  ("loadMore", Text "Carregar mais");
  ("empty", Text "Sem eventos de serviço neste período.");
  ("loading", Text "A carregar eventos de serviço…");
  ("loadError", Text "Falha ao carregar os eventos de serviço.");
  ("last24h", Text "Últimas 24 horas")].

Definition pt_configAudit : dict := Group [
  ("tab", Text "Alterações de config.");
  ("title", Text "Alterações diretas de config. (24h)");
  ("subtitle", Text "Quem alterou a configuração do equipamento e como — as alterações diretas no equipamento (GUI/consola) são assinaladas como desvio.");
  ("time", Text "Hora");
  ("area", Text "Área");
  ("actor", Text "Autor");
  ("ip", Text "IP");
  ("channel", Text "Canal");
  ("change", Text "Alteração");
  ("direct", Text "Direta");
  ("channels", Group [
    ("api", Text "API");
    ("gui", Text "WebGUI");
    ("system", Text "Consola/script");
    ("opngms", Text "OPNGMS");
    ("api_external", Text "API externa")]);
  ("loadMore", Text "Carregar mais");
  ("empty", Text "Sem alterações de configuração neste período.");
  ("loading", Text "A carregar alterações de configuração…");
  ("loadError", Text "Falha ao carregar as alterações de configuração.");
  ("last24h", Text "Últimas 24 horas")].

Definition pt_smtp : dict := Group [
  ("authMethod", Text "Autenticação");
  ("authPassword", Text "Senha");
  ("authOauth", Text "OAuth2");
  ("oauthProvider", Text "Provedor");
  ("oauthGoogle", Text "Google / Gmail");
  ("oauthMicrosoft", Text "Microsoft 365");
  ("oauthClientId", Text "Client ID");
  ("oauthClientSecret", Text "Client secret");
  ("oauthRefreshToken", Text "Refresh token");
  ("oauthTenantId", Text "Tenant ID");
  ("oauthSecretSaved", Text "salvo — deixe em branco para manter");
  ("oauthConnect", Text "Conectar conta");
  ("oauthConnectGoogle", Text "Conectar com Google");
  ("oauthConnectMicrosoft", Text "Conectar com Microsoft 365");
  ("oauthExperimental", Text "Experimental — não testado");
  ("oauthExperimentalNote", Text "O login no navegador para OAuth não foi verificado com um provedor real. É necessário definir PUBLIC_BASE_URL e registrar o URI de redirecionamento no seu aplicativo OAuth. Colar um token de atualização acima continua sendo o caminho suportado.");
  ("oauthConnectNeedsCreds", Text "Salve o ID do cliente e o segredo primeiro, depois conecte.");
  ("oauthConnected", Text "Conta conectada.");
  ("oauthConnectFailed", Text "Não foi possível conectar a conta.")].

Definition pt : dict := Group [
  ("common", pt_common);
  ("nav", pt_nav);
  ("login", pt_login);
  ("tenant", pt_tenant);
  ("overview", pt_overview);
  ("alerts", pt_alerts);
  ("devices", pt_devices);
  ("deviceDetail", pt_deviceDetail);
  ("deviceActions", pt_deviceActions);
  ("firmware", pt_firmware);
  ("plugins", pt_plugins);
  ("templates", pt_templates);
  ("deviceCreate", pt_deviceCreate);
  ("health", pt_health);
  ("logForwarding", pt_logForwarding);
  ("catalog", pt_catalog);
  ("config", pt_config);
  ("deviceHealth", pt_deviceHealth);
  ("chart", pt_chart);
  ("reports", pt_reports);
  ("sessions", pt_sessions);
  ("mfa", pt_mfa);
  ("groups", pt_groups);
  ("confirm", pt_confirm);
  ("errors", pt_errors);
  ("system", pt_system);
  ("logFleet", pt_logFleet);
  ("perimeter", pt_perimeter);
  ("retention", pt_retention);
  ("audit", pt_audit);
  ("reliability", pt_reliability);
  ("configAudit", pt_configAudit);
  ("smtp", pt_smtp)].
