(* ===== verification/DictNl.v ===== *)
(** * The Dutch texts ([i18n/nl.ts]), one definition per group *)
From S2P Require Import Prelude Dict.

Definition nl_common : dict := Group [
  ("appName", Text "OPNGMS");
  ("logout", Text "Afmelden");
  ("none", Text "—");
  ("language", Text "Taal");
  ("cancel", Text "Annuleren")].

Definition nl_nav : dict := Group [
  ("overview", Text "Overzicht");
  ("devices", Text "Apparaten");
  ("alerts", Text "Waarschuwingen");
  ("perimeter", Text "Perimeter");
  ("reportSettings", Text "Rapportinstellingen");
  ("reportSchedule", Text "Rapportplanning");
  ("reports", Text "Rapporten");
  ("logs", Text "Logboeken");
  ("sessions", Text "Actieve sessies");
  ("mfa", Text "Tweefactorauthenticatie");
  ("templates", Text "Sjabloonbibliotheek");
  ("smtp", Text "SMTP");
  ("logFleet", Text "Logvloot");
  ("system", Text "Systeem");
  ("groups", Text "Groepen");
  ("audit", Text "Auditlogboek")].

Definition nl_login : dict := Group [
  ("title", Text "OPNGMS");
  ("email", Text "E-mail");
  ("password", Text "Wachtwoord");
  ("passwordToggle", Text "Tonen/verbergen");
  ("submit", Text "Aanmelden");
  ("invalidCredentials", Text "Ongeldige inloggegevens");
  ("mfa", Group [
    ("title", Text "Tweefactorauthenticatie");
    ("codeHint", Text "Voer de 6-cijferige code uit uw authenticator-app in.");
    ("recoveryHint", Text "Voer een van uw eenmalige herstelcodes in.");
    ("codeLabel", Text "Authenticatiecode");
    ("recoveryLabel", Text "Herstelcode");
    ("verify", Text "Verifiëren");
    ("useRecovery", Text "Gebruik in plaats daarvan een herstelcode");
    ("useCode", Text "Gebruik in plaats daarvan een authenticatorcode");
    ("invalidCode", Text "Ongeldige code");
    ("or", Text "of");
    ("usePasskey", Text "Gebruik een passkey / beveiligingssleutel");
    ("passkeyError", Text "Aanmelden met passkey is mislukt. Probeer het opnieuw.");
    ("passkeyNotSupported", Text "Deze browser ondersteunt geen passkeys.");
    ("rememberDevice", Text "Dit apparaat {days} dagen vertrouwen");
    ("rememberDeviceHelp", Text "De volgende keer dat u zich aanmeldt vanaf dit apparaat, wordt u niet gevraagd om een tweede factor.")])].

Definition nl_tenant : dict := Group [
  ("activeLabel", Text "Actieve tenant");
  ("none", Text "Geen tenant")].

Definition nl_overview : dict := Group [
  ("title", Text "Overzicht");
  ("activeAlerts", Text "Actieve waarschuwingen");
  ("noActiveAlerts", Text "Geen actieve waarschuwingen");
  ("healthLoadError", Text "Laden van vlootstatus mislukt");
  ("alertsLoadError", Text "Laden van waarschuwingen mislukt");
  ("attackerCountries", Group [
    ("title", Text "Belangrijkste aanvallerslanden");
    ("mapTitle", Text "Herkomst van aanvallen");
    ("empty", Text "Geen aanvallen geregistreerd in deze periode.");
    ("private", Text "Privé / intern");
    ("unknown", Text "Onbekend");
    ("attribution", Text "Landgegevens: DB-IP (CC BY 4.0)")])].

Definition nl_alerts : dict := Group [
  ("title", Text "Waarschuwingen");
  ("active", Text "Actief");
  ("history", Text "Geschiedenis");
  ("loadError", Text "Laden van waarschuwingen mislukt");
  ("noAlerts", Text "Geen waarschuwingen");
  ("colType", Text "Type");
  ("colLabel", Text "Label");
  ("colSeverity", Text "Ernst");
  ("colOpened", Text "Geopend");
  ("colResolved", Text "Opgelost");
  ("colDevice", Text "Apparaat")].

Definition nl_devices : dict := Group [
  ("title", Text "Apparaten");
  ("add", Text "Apparaat toevoegen");
  ("loadError", Text "Laden van apparaten mislukt");
  ("colName", Text "Naam");
  ("colUrl", Text "URL");
  ("colStatus", Text "Status");
  ("colFirmware", Text "Firmware")].

Definition nl_deviceDetail : dict := Group [
  ("url", Text "URL");
  ("status", Text "Status");
  ("firmware", Text "Firmware");
  ("loadError", Text "Laden van apparaat mislukt")].

Definition nl_deviceActions : dict := Group [
  ("testConnection", Text "Verbinding testen");
  ("delete", Text "Verwijderen");
  ("testResult", Text "Testresultaat");
  ("testNotification", Text "Testen");
  ("testFailed", Text "Verbindingstest mislukt");
  ("deleteFailed", Text "Verwijderen mislukt");
  ("openWebGui", Text "WebGUI openen")].

Definition nl_firmware : dict := Group [
  ("title", Text "Firmware");
  ("tab", Text "Firmware");
  ("check", Text "Controleren op updates");
  ("upToDate", Text "Up-to-date");
  ("updatesAvailable", Text "Updates beschikbaar");
  ("downloadSize", Text "Downloadgrootte");
  ("rebootNeeded", Text "Herstart nodig");
  ("newMajor", Text "Nieuwe hoofdversie beschikbaar");
  ("update", Text "Firmware bijwerken");
  ("upgrade", Text "Upgraden naar nieuwe hoofdversie");
  ("updateConfirm", Text "Alle openstaande pakketupdates toepassen? Het apparaat kan opnieuw opstarten.");
  ("upgradeConfirm", Text "Upgraden naar de nieuwe hoofdversie? Dit verloopt in meerdere stappen met herstarts en kan even duren.");
  ("plugins", Text "Plug-ins");
  ("pluginName", Text "Plug-innaam");
  ("install", Text "Installeren");
  ("remove", Text "Verwijderen");
  ("installConfirm", Text "Deze plug-in installeren? Het apparaat moet de nieuwste firmware hebben.");
  ("removeConfirm", Text "Deze plug-in verwijderen?");
  ("runNow", Text "Nu uitvoeren");
  ("scheduleAt", Text "Plannen (leeg laten om nu uit te voeren)");
  ("schedule", Text "Plannen");
  ("recentActions", Text "Recente acties");
  ("noActions", Text "Nog geen acties");
  ("actionQueued", Text "Actie in de wachtrij geplaatst");
  ("actionFailed", Text "Kon de actie niet in de wachtrij plaatsen");
  ("checkFailed", Text "Firmwarecontrole mislukt");
  ("kind", Text "Actie");
  ("status", Text "Status");
  ("when", Text "Wanneer");
  ("result", Text "Resultaat")].

Definition nl_plugins : dict := Group [
  ("tab", Text "Plug-ins");
  ("title", Text "Plug-ins");
  ("subtitle", Text "Plug-ins die de firewall rapporteert. Installeer of verwijder community-plug-ins; om te installeren moet het apparaat de nieuwste firmware hebben.");
  ("search", Text "Plug-ins zoeken…");
  ("name", Text "Plug-in");
  ("status", Text "Status");
  ("version", Text "Versie");
  ("installed", Text "Geïnstalleerd");
  ("notInstalled", Text "Beschikbaar");
  ("locked", Text "Vergrendeld");
  ("install", Text "Installeren");
  ("remove", Text "Verwijderen");
  ("installConfirm", Text "Deze plug-in installeren?");
  ("removeConfirm", Text "Deze plug-in verwijderen?");
  ("empty", Text "Nog geen plug-ins gerapporteerd — het apparaat wordt periodiek opgevraagd.");
  ("loadFailed", Text "Kon de plug-ins niet laden.");
  ("configure", Text "Configureren");
  ("configureTitle", Text "Plug-inconfiguratie")].

Definition nl_templates : dict := Group [
  ("tab", Text "Sjablonen");
  ("libraryTitle", Text "Sjabloonbibliotheek");
  ("superadminOnly", Text "De sjabloonbibliotheek wordt beheerd door platformbeheerders.");
  ("name", Text "Naam");
  ("kind", Text "Soort");
  ("type", Text "Aliastype");
  ("content", Text "Inhoud (één item per regel)");
  ("description", Text "Beschrijving");
  ("create", Text "Nieuw sjabloon");
  ("edit", Text "Bewerken");
  ("save", Text "Opslaan");
  ("delete", Text "Verwijderen");
  ("deleteConfirm", Text "Dit sjabloon verwijderen? Per-tenant-overschrijvingen worden verwijderd; toegepaste wijzigingen behouden hun geschiedenis.");
  ("empty", Text "Nog geen sjablonen.");
  ("created", Text "Sjabloon aangemaakt");
  ("updated", Text "Sjabloon bijgewerkt");
  ("saveFailed", Text "Kon het sjabloon niet opslaan");
  ("apply", Group [
    ("title", Text "Een sjabloon toepassen");
    ("pick", Text "Sjabloon");
    ("override", Text "Overschrijving van deze klant (inhoud, één item per regel — leeg laten om de bibliotheekwaarde te gebruiken)");
    ("saveOverride", Text "Overschrijving opslaan");
    ("overrideSaved", Text "Overschrijving opgeslagen");
    ("preview", Text "Voorbeeld");
    ("previewTitle", Text "Effectieve configuratie");
    ("applyConfirm", Text "Dit sjabloon op het apparaat toepassen?");
    ("runNow", Text "Nu toepassen");
    ("scheduleAt", Text "Plannen (leeg laten om nu toe te passen)");
    ("schedule", Text "Plannen");
    ("queued", Text "Toepassen in de wachtrij geplaatst");
    ("failed", Text "Kon het sjabloon niet toepassen");
    ("none", Text "Geen sjablonen beschikbaar.")]);
  ("templatesTab", Text "Sjablonen");
  ("kindLabel", Text "Sjabloontype");
  ("kindAlias", Text "Firewall-alias");
  ("kindSetting", Text "OPNsense-instelling");
  ("setting", Group [
    ("endpoint", Text "Instelling");
    ("referenceDevice", Text "Referentieapparaat (om de beschikbare velden te lezen)");
    ("load", Text "Velden laden");
    ("loadHint", Text "Kies een instelling + een apparaat en laad vervolgens de velden om te configureren.");
    ("noDevice", Text "Geen apparaat beschikbaar in de actieve tenant om velden uit te lezen.");
    ("loadFailed", Text "Kon de instelling niet van het apparaat lezen.");
    ("noFields", Text "Geen configureerbare velden.");
    ("hardwareNote", Text "Hardware-/apparaatspecifieke velden zijn bewust niet via sjablonen instelbaar.")]);
  ("kindFirewallRule", Text "Firewallregel (Rules [nieuw])");
  ("fw", Group [
    ("referenceDevice", Text "Referentieapparaat (om de beschikbare regelvelden te lezen)");
    ("load", Text "Velden laden");
    ("loadHint", Text "Kies een apparaat en laad vervolgens de regelvelden om te configureren.");
    ("noDevice", Text "Geen apparaat beschikbaar in de actieve tenant om velden uit te lezen.");
    ("loadFailed", Text "Kon het regelmodel niet van het apparaat lezen.");
    ("descriptionRequired", Text "Een beschrijving is verplicht (het is de identiteit van de regel).");
    ("interface", Text "Interface (gekozen bij toepassen)");
    ("floating", Text "Zwevend (geen interface)");
    ("note", Text "De interface wordt gekozen bij het toepassen; laat dit leeg voor een zwevende regel.")]);
  ("kindMonitTest", Text "Monit-gezondheidscontroletest");
  ("monit", Group [
    ("referenceDevice", Text "Referentieapparaat (om de beschikbare testvelden te lezen)");
    ("load", Text "Velden laden");
    ("loadHint", Text "Kies een apparaat en laad vervolgens de testvelden om te configureren.");
    ("noDevice", Text "Geen apparaat beschikbaar in de actieve tenant om velden uit te lezen.");
    ("loadFailed", Text "Kon het testmodel niet van het apparaat lezen.");
    ("nameRequired", Text "Een naam is verplicht (het is de identiteit van de test).");
    ("note", Text "Een test wordt actief zodra hij aan een Monit-service is gekoppeld.");
    ("attachSystem", Text "Koppel deze test aan de systeemservice zodat hij actief wordt");
    ("attachSystemNote", Text "Indien ingeschakeld, koppelt het toepassen de test ook aan de Monit-systeemservice van het apparaat.")]);
  ("kindIdsRulesets", Text "Suricata/IDS-rulesets");
  ("ids", Group [
    ("referenceDevice", Text "Referentieapparaat (om de beschikbare rulesets te lezen)");
    ("load", Text "Rulesets laden");
    ("loadHint", Text "Kies een apparaat en laad vervolgens de rulesets om te kiezen welke u inschakelt.");
    ("noDevice", Text "Geen apparaat beschikbaar in de actieve tenant om rulesets uit te lezen.");
    ("loadFailed", Text "Kon de rulesets niet van het apparaat lezen.");
    ("rulesets", Text "In te schakelen rulesets");
    ("noRulesets", Text "Geen rulesets op het apparaat gevonden.");
    ("note", Text "Toepassen schakelt de geselecteerde rulesets in (aanvullend — andere worden niet uitgeschakeld).")]);
  ("kindIdsPolicy", Text "Suricata/IDS-beleid");
  ("idsPolicy", Group [
    ("description", Text "Beschrijving (de identiteit van het beleid)");
    ("enabled", Text "Ingeschakeld");
    ("prio", Text "Prioriteit");
    ("action", Text "Huidige actie om op te matchen (regels waarvan de actie een van deze is)");
    ("newAction", Text "Nieuwe actie");
    ("rulesets", Text "Rulesets waarop het beleid van toepassing is");
    ("referenceDevice", Text "Referentieapparaat (om de beschikbare rulesets te lezen)");
    ("load", Text "Rulesets laden");
    ("loadHint", Text "Kies een apparaat en laad vervolgens de ingeschakelde rulesets om naar te verwijzen.");
    ("noDevice", Text "Geen apparaat beschikbaar in de actieve tenant om rulesets uit te lezen.");
    ("noRulesets", Text "Geen ingeschakelde rulesets op het apparaat gevonden (schakel eerst een ruleset in).");
    ("loadFailed", Text "Kon de rulesets niet van het apparaat lezen.");
    ("content", Text "Metadatafilters (geavanceerd — de meeste beleidsregels hebben er geen nodig)");
    ("contentKey", Text "Sleutel");
    ("contentValues", Text "Waarden (door komma's gescheiden)");
    ("contentKeyInvalid", Text "Ongeldige sleutel — gebruik letters, cijfers, punten, streepjes of underscores.");
    ("addContent", Text "Filter toevoegen");
    ("descriptionRequired", Text "Een beschrijving is verplicht (het is de identiteit van het beleid).");
    ("note", Text "Verwezen rulesets moeten al op het apparaat zijn ingeschakeld. De toewijzing van rulesets/inhoud wordt bij het toepassen tijdens runtime geverifieerd.")]);
  ("profiles", Group [
    ("tab", Text "Profielen");
    ("name", Text "Naam");
    ("description", Text "Beschrijving");
    ("members", Text "Sjablonen (in toepassingsvolgorde)");
    ("create", Text "Nieuw profiel");
    ("edit", Text "Bewerken");
    ("save", Text "Opslaan");
    ("delete", Text "Verwijderen");
    ("deleteConfirm", Text "Dit profiel verwijderen? Toegepaste wijzigingen behouden hun geschiedenis.");
    ("empty", Text "Nog geen profielen.");
    ("created", Text "Profiel aangemaakt");
    ("updated", Text "Profiel bijgewerkt");
    ("saveFailed", Text "Kon het profiel niet opslaan");
    ("memberCount", Text "sjablonen");
    ("apply", Group [
      ("title", Text "Een profiel toepassen");
      ("pick", Text "Profiel");
      ("preview", Text "Voorbeeld");
      ("previewTitle", Text "Effectieve configuratie (per sjabloon, op volgorde)");
      ("interface", Text "Interface (gekozen bij toepassen)");
      ("floating", Text "Zwevend (geen interface)");
      ("empty", Text "Geen profielen beschikbaar.");
      ("applyConfirm", Text "Dit profiel op het apparaat toepassen? Elk lidsjabloon wordt op volgorde toegepast.");
      ("runNow", Text "Nu toepassen");
      ("scheduleAt", Text "Plannen (leeg laten om nu toe te passen)");
      ("schedule", Text "Plannen");
      ("queued", Text "Profiel toepassen in de wachtrij geplaatst");
      ("failed", Text "Kon het profiel niet toepassen")])])].

Definition nl_deviceCreate : dict := Group [
  ("title", Text "Apparaat toevoegen");
  ("name", Text "Naam");
  ("url", Text "URL (https)");
  ("apiKey", Text "API-sleutel");
  ("apiSecret", Text "API-geheim");
  ("verifyTls", Text "TLS verifiëren");
  ("tlsWarning", Text "Als TLS-verificatie is uitgeschakeld, authenticeert niets het certificaat van het apparaat — inloggegevens kunnen worden onderschept. Pin hieronder de SHA-256-vingerafdruk van het certificaat om de bescherming te herstellen.");
  ("tlsFingerprintLabel", Text "SHA-256-vingerafdruk van certificaat (optioneel)");
  ("tlsFingerprintPlaceholder", Text "00:42:E2:C4:07:61:06:0D:56:A4:75:2F:FC:32:2B:4E:B3:CE:FF:31:8A:88:F3:22:2B:C1:B1:0D:46:0B:04:2C");
  ("save", Text "Opslaan");
  ("created", Text "Apparaat aangemaakt");
  ("createFailed", Text "Aanmaken mislukt")].

Definition nl_health : dict := Group [
  ("totalDevices", Text "Totaal aantal apparaten");
  ("activeAlerts", Text "Actieve waarschuwingen")].

Definition nl_logForwarding : dict := Group [
  ("tab", Text "Logdoorsturing")].

Definition nl_catalog : dict := Group [
  ("tab", Text "Editor");
  ("searchModels", Text "Instellingen zoeken…");
  ("noModels", Text "Geen catalogus voor deze apparaatversie.");
  ("selectModel", Text "Selecteer links een instellingengroep om die te bewerken.");
  ("readOnly", Text "Niet bewerkbaar (veiligheidsblokkeerlijst).");
  ("unreachable", Text "Apparaat onbereikbaar — live waarden zijn vereist om te bewerken.");
  ("liveValues", Text "Live waarden");
  ("propose", Text "Wijziging voorstellen");
  ("preview", Text "Wijziging beoordelen");
  ("noChanges", Text "Geen wijzigingen om voor te stellen.");
  ("proposed", Text "Conceptwijziging aangemaakt — plan deze vanuit het tabblad Config.");
  ("proposeFailed", Text "Kon de wijziging niet aanmaken.");
  ("loadFailed", Text "Kon het model niet laden.");
  ("openWebgui", Text "Openen in WebGUI");
  ("searchAll", Text "Instellingen zoeken…");
  ("grid", Group [
    ("add", Text "Rij toevoegen");
    ("save", Text "Opslaan");
    ("edit", Text "Bewerken");
    ("delete", Text "Verwijderen");
    ("empty", Text "Geen rijen.")]);
  ("diff", Group [
    ("baseline", Text "Vergelijken met");
    ("noBaseline", Text "Geen eerdere versie");
    ("newSince", Text "Nieuw sinds {v}");
    ("changedSince", Text "Gewijzigd sinds {v}");
    ("changes", Text "wijzigingen")]);
  ("map", Group [
    ("tabMenu", Text "Menu");
    ("tabMap", Text "Config-kaart");
    ("editInCatalog", Text "Bewerken in catalogus");
    ("readOnly", Text "alleen-lezen (geen API)");
    ("staleBanner", Text "Verouderd — apparaat onbereikbaar; laatste back-up van {when} wordt getoond")])].

Definition nl_config : dict := Group [
  ("tabInfo", Text "Info");
  ("tabHealth", Text "Status");
  ("tabConfig", Text "Config");
  ("capabilities", Text "Mogelijkheden");
  ("version", Text "OPNsense-versie");
  ("interfaces", Text "Interfaces");
  ("configuredSections", Text "Geconfigureerde secties");
  ("available", Text "Beschikbare mogelijkheden");
  ("hidden", Text "verborgen");
  ("noConfigYet", Text "Nog geen configuratie vastgelegd");
  ("nic", Text "NIC");
  ("changes", Group [
    ("title", Text "Openstaande wijzigingen");
    ("propose", Text "Aliaswijziging voorstellen");
    ("none", Text "Geen openstaande wijzigingen");
    ("colKind", Text "Soort");
    ("colOperation", Text "Bewerking");
    ("colTarget", Text "Doel");
    ("colStatus", Text "Status");
    ("colScheduled", Text "Gepland");
    ("preview", Text "Voorbeeld");
    ("schedule", Text "Plannen");
    ("cancel", Text "Annuleren");
    ("revert", Text "Terugdraaien");
    ("reverts", Text "draait terug #");
    ("applyNow", Text "Nu toepassen");
    ("pickTime", Text "Datum/tijd kiezen");
    ("checkDrift", Text "Drift controleren");
    ("driftUnreachable", Text "Kon het apparaat niet bereiken — drift onbekend.");
    ("driftInSync", Text "in sync");
    ("driftDrifted", Text "drift");
    ("driftMissing", Text "ontbreekt");
    ("driftUnsupported", Text "n.v.t.");
    ("driftFields", Text "Afgeweken velden: ");
    ("operation", Text "Bewerking");
    ("name", Text "Naam");
    ("type", Text "Type");
    ("content", Text "Inhoud (één per regel)");
    ("create", Text "Aanmaken");
    ("add", Text "toevoegen");
    ("set", Text "instellen");
    ("delete", Text "verwijderen")])].

Definition nl_deviceHealth : dict := Group [
  ("title", Text "Status");
  ("cpu", Text "CPU");
  ("memory", Text "Geheugen");
  ("disk", Text "Schijf");
  ("trafficIn", Text "Inkomend verkeer");
  ("trafficOut", Text "Uitgaand verkeer");
  ("gatewayRtt", Text "Gateway-RTT");
  ("gatewayLoss", Text "Gatewayverlies");
  ("vpnUp", Text "VPN actief")].

Definition nl_chart : dict := Group [
  ("noData", Text "Nog geen gegevens")].

Definition nl_reports : dict := Group [
  ("page", Group [
    ("title", Text "Rapporten");
    ("generate", Text "Rapport genereren");
    ("from", Text "Van");
    ("to", Text "Tot");
    ("period", Text "Periode");
    ("kind", Text "Soort");
    ("created", Text "Aangemaakt");
    ("size", Text "Grootte");
    ("download", Text "Downloaden");
    ("none", Text "Nog geen rapporten.");
    ("generated", Text "Rapport gegenereerd");
    ("kindOnDemand", Text "Op aanvraag");
    ("kindScheduled", Text "Gepland")]);
  ("settings", Group [
    ("pageTitle", Text "Rapportinstellingen");
    ("title", Text "Rapporttitel");
    ("owner", Text "Eigenaar");
    ("timezone", Text "Tijdzone");
    ("fromEmail", Text "Afzender-e-mail (rapportbezorging)");
    ("logo", Text "Logo");
    ("upload", Text "Logo uploaden");
    ("remove", Text "Logo verwijderen");
    ("language", Text "Rapporttaal");
    ("save", Text "Instellingen opslaan");
    ("adminsOnly", Text "Rapportage-instellingen zijn alleen beschikbaar voor tenantbeheerders.");
    ("saved", Text "Rapportinstellingen opgeslagen.");
    ("logoUploaded", Text "Logo geüpload.");
    ("logoRemoved", Text "Logo verwijderd.");
    ("hasLogo", Text "Logo geüpload");
    ("noLogo", Text "Geen logo")]);
  ("sections", Group [
    ("title", Text "Rapportsecties");
    ("description", Text "Kies welke secties in het PDF-rapport verschijnen.");
    ("customizeForDevice", Text "Secties voor dit apparaat aanpassen");
    ("summary", Text "Managementsamenvatting");
    ("health", Text "Apparaatstatus");
    ("alerts_wan", Text "Waarschuwingen en connectiviteit");
    ("attacks", Text "Aanvallen");
    ("attacker_countries", Text "Aanvallerslanden");
    ("failed_logins", Text "Mislukte aanmeldingen");
    ("firewall_blocks", Text "Firewall-blokkeringen");
    ("web", Text "Webactiviteit");
    ("data", Text "Datagebruik");
    ("status", Text "Online-/offlinestatus");
    ("firmware_config", Text "Firmware en configuratie");
    ("applications", Text "Toepassingen");
    ("web_filter", Text "Webfilter")])].

Definition nl_sessions : dict := Group [
  ("pageTitle", Text "Actieve sessies");
  ("colLastSeen", Text "Laatst gezien");
  ("colCreated", Text "Aangemaakt");
  ("colExpires", Text "Verloopt");
  ("colIp", Text "IP-adres");
  ("colUserAgent", Text "User-agent");
  ("current", Text "Huidige");
  ("logoutAll", Text "Overal afmelden");
  ("loadError", Text "Laden van sessies mislukt");
  ("logoutAllError", Text "Overal afmelden mislukt")].

Definition nl_mfa : dict := Group [
  ("pageTitle", Text "Tweefactorauthenticatie");
  ("intro", Text "Beveilig uw account met een tijdgebaseerd eenmalig wachtwoord (TOTP) uit een authenticator-app.");
  ("status", Text "Status");
  ("enabled", Text "Ingeschakeld");
  ("disabled", Text "Uitgeschakeld");
  ("recoveryRemaining", Text "Resterende herstelcodes");
  ("statusError", Text "Laden van MFA-status mislukt");
  ("enroll", Text "Tweefactorauthenticatie instellen");
  ("enrollStart", Text "Instellen starten");
  ("password", Text "Huidig wachtwoord");
  ("passwordHint", Text "Voer uw wachtwoord opnieuw in om tweefactorinstellingen te wijzigen.");
  ("scanHint", Text "Scan deze QR-code met uw authenticator-app of voer het geheim handmatig in.");
  ("secretLabel", Text "Geheime sleutel");
  ("confirmCodeLabel", Text "Authenticatiecode");
  ("confirmHint", Text "Voer de 6-cijferige code uit uw app in om het instellen te voltooien.");
  ("confirm", Text "Bevestigen en inschakelen");
  ("cancel", Text "Annuleren");
  ("setupError", Text "Kon het instellen niet starten (controleer uw wachtwoord).");
  ("confirmError", Text "Ongeldige code. Probeer het opnieuw.");
  ("recoveryTitle", Text "Herstelcodes");
  ("recoveryIntro", Text "Bewaar deze eenmalige herstelcodes op een veilige plek. Elke code kan eenmaal worden gebruikt als u uw authenticator verliest.");
  ("recoveryWarning", Text "Deze codes worden slechts eenmaal getoond.");
  ("copyAll", Text "Alles kopiëren");
  ("copied", Text "Gekopieerd naar klembord");
  ("download", Text "Downloaden");
  ("done", Text "Klaar");
  ("regenerate", Text "Herstelcodes opnieuw genereren");
  ("regenerateError", Text "Kon herstelcodes niet opnieuw genereren (controleer uw wachtwoord).");
  ("disable", Text "Tweefactorauthenticatie uitschakelen");
  ("disableConfirmTitle", Text "Tweefactorauthenticatie uitschakelen?");
  ("disableConfirmBody", Text "Uw account vereist bij het aanmelden geen tweede factor meer.");
  ("disableError", Text "Kon niet uitschakelen (controleer uw wachtwoord).");
  ("disabledNotice", Text "Tweefactorauthenticatie uitgeschakeld.");
  ("policyTitle", Text "MFA-beleid van de organisatie");
  ("policyIntro", Text "Vereis tweefactorauthenticatie binnen de hele organisatie.");
  ("policyOff", Text "Uit");
  ("policyAll", Text "Alle gebruikers");
  ("policyPrivileged", Text "Bevoorrechte gebruikers");
  ("policyLoadError", Text "Laden van het MFA-beleid mislukt");
  ("policySaveError", Text "Bijwerken van het MFA-beleid mislukt");
  ("policySaved", Text "MFA-beleid bijgewerkt");
  ("usersTitle", Text "Gebruikers-MFA");
  ("colUser", Text "Gebruiker");
  ("colEmail", Text "E-mail");
  ("colRole", Text "Rol");
  ("superadmin", Text "Superbeheerder");
  ("member", Text "Lid");
  ("reset", Text "MFA opnieuw instellen");
  ("resetConfirmTitle", Text "MFA van deze gebruiker opnieuw instellen?");
  ("resetConfirmBody", Text "Dit wist het TOTP-geheim en de herstelcodes van de gebruiker. Hij moet zich opnieuw inschrijven.");
  ("resetError", Text "Opnieuw instellen van de MFA van de gebruiker mislukt");
  ("resetDone", Text "Gebruikers-MFA opnieuw ingesteld");
  ("usersLoadError", Text "Laden van gebruikers mislukt");
  ("gateTitle", Text "Tweefactorauthenticatie vereist");
  ("gateIntro", Text "Uw organisatie vereist tweefactorauthenticatie. Stel deze nu in om door te gaan.");
  ("passkeys", Group [
    ("title", Text "Passkeys");
    ("intro", Text "Registreer een passkey of beveiligingssleutel om zonder code in te loggen.");
    ("add", Text "Passkey toevoegen");
    ("accountPassword", Text "Accountwachtwoord");
    ("name", Text "Naam");
    ("namePlaceholder", Text "bijv. Werklaptop");
    ("unnamed", Text "Passkey");
    ("colName", Text "Naam");
    ("colCreated", Text "Aangemaakt");
    ("remove", Text "Verwijderen");
    ("removeConfirmTitle", Text "Deze passkey verwijderen?");
    ("removeConfirmBody", Text "Deze passkey kan niet meer worden gebruikt om in te loggen.");
    ("addedNotice", Text "Passkey toegevoegd.");
    ("removedNotice", Text "Passkey verwijderd.");
    ("addError", Text "Kan de passkey niet toevoegen. Probeer het opnieuw.");
    ("removeError", Text "Kan de passkey niet verwijderen.");
    ("listError", Text "Passkeys laden mislukt");
    ("lastFactorError", Text "Je kunt je laatste tweede factor niet verwijderen. Voeg eerst een andere toe.");
    ("notConfigured", Text "Passkeys zijn niet geconfigureerd voor je organisatie.");
    ("notSupported", Text "Deze browser ondersteunt geen passkeys.")]);
  ("trustedDeviceToggle", Group [
    ("label", Text "Dit apparaat onthouden");
    ("help", Text "Laat gebruikers de tweede factor overslaan op apparaten die ze kiezen te vertrouwen.")]);
  ("trustedDevices", Group [
    ("title", Text "Vertrouwde apparaten");
    ("intro", Text "Vertrouwde apparaten kunnen inloggen zonder tweede factor totdat ze verlopen. Trek de apparaten in die je niet herkent.");
    ("colDevice", Text "Apparaat");
    ("colIp", Text "IP-adres");
    ("colLastUsed", Text "Laatst gebruikt");
    ("colExpires", Text "Verloopt");
    ("revoke", Text "Intrekken");
    ("revokeAll", Text "Alles intrekken");
    ("confirmTitle", Text "Dit apparaat intrekken?");
    ("confirmBody", Text "Dit apparaat heeft bij de volgende aanmelding opnieuw een tweede factor nodig.");
    ("revokeAllConfirmTitle", Text "Alle vertrouwde apparaten intrekken?");
    ("revokeAllConfirmBody", Text "Alle vertrouwde apparaten hebben bij de volgende aanmelding opnieuw een tweede factor nodig.");
    ("empty", Text "Geen vertrouwde apparaten.");
    ("loadError", Text "Kan vertrouwde apparaten niet laden.");
    ("revokeError", Text "Kan het apparaat niet intrekken.");
    ("unknownDevice", Text "Onbekend apparaat")])].

Definition nl_groups : dict := Group [
  ("title", Text "Groepen");
  ("description", Text "Definieer gebruikersgroepen en de tenanttoegang die zij ontvangen.");
  ("superadminOnly", Text "Groepen worden beheerd door de platformbeheerders.");
  ("name", Text "Naam");
  ("namePlaceholder", Text "Groepsnaam");
  ("descriptionField", Text "Beschrijving");
  ("descriptionPlaceholder", Text "Optionele beschrijving");
  ("members", Text "Leden");
  ("membersPlaceholder", Text "Gebruikers selecteren");
  ("noMembers", Text "Nog geen leden.");
  ("grants", Text "Toegangsrechten");
  ("noGrants", Text "Nog geen rechten.");
  ("addGrant", Text "Recht toevoegen");
  ("allTenants", Text "Alle tenants");
  ("tenant", Text "Tenant");
  ("tenantPlaceholder", Text "Selecteer een tenant");
  ("role", Text "Rol");
  ("roleTenantAdmin", Text "Tenantbeheerder");
  ("roleOperator", Text "Operator");
  ("roleReadOnly", Text "Alleen-lezen");
  ("allTenantsScope", Text "Alle tenants");
  ("create", Text "Nieuwe groep");
  ("createTitle", Text "Groep maken");
  ("save", Text "Opslaan");
  ("delete", Text "Verwijderen");
  ("deleteConfirm", Text "Deze groep verwijderen? De leden verliezen de verleende toegang. Dit kan niet ongedaan worden gemaakt.");
  ("removeGrant", Text "Recht verwijderen");
  ("empty", Text "Nog geen groepen.");
  ("created", Text "Groep aangemaakt");
  ("updated", Text "Groep bijgewerkt");
  ("deleted", Text "Groep verwijderd");
  ("membersSaved", Text "Leden bijgewerkt");
  ("grantAdded", Text "Recht toegevoegd");
  ("grantRemoved", Text "Recht verwijderd");
  ("saveFailed", Text "Kon de groep niet opslaan");
  ("loadError", Text "Kon de groepen niet laden")].

Definition nl_confirm : dict := Group [
  ("title", Text "Weet u het zeker?");
  ("cancel", Text "Annuleren");
  ("confirm", Text "Bevestigen");
  ("deleteDevice", Text "Apparaat verwijderen");
  ("deleteDeviceBody", Text "Hiermee worden het apparaat en al zijn gegevens permanent verwijderd. Deze actie kan niet ongedaan worden gemaakt.")].

Definition nl_errors : dict := Group [
  ("fleetHealthLoad", Text "Laden van vlootstatus mislukt");
  ("alertsLoad", Text "Laden van waarschuwingen mislukt");
  ("metricsLoad", Text "Laden van metrieken mislukt");
  ("configModelLoad", Text "Laden van configuratie mislukt");
  ("configCapabilitiesLoad", Text "Laden van mogelijkheden mislukt");
  ("configChangesLoad", Text "Laden van wijzigingen mislukt");
  ("configChangeAction", Text "Actie mislukt (u heeft mogelijk geen toestemming)");
  ("reportSettingsLoad", Text "Laden van rapportinstellingen mislukt");
  ("reportSettingsAction", Text "Actie voor rapportinstellingen mislukt");
  ("reportsLoad", Text "Laden van rapporten mislukt");
  ("reportGenerate", Text "Genereren van rapport mislukt");
  ("attackerCountriesLoad", Text "Laden van aanvallerslanden mislukt");
  ("perimeterLoad", Text "Laden van perimetergegevens mislukt");
  ("auditLoad", Text "Laden van het auditlogboek mislukt");
  ("retentionLoad", Text "Laden van bewaarinstellingen mislukt");
  ("retentionSave", Text "Opslaan van bewaarinstellingen mislukt")].

Definition nl_system : dict := Group [
  ("title", Text "Systeem");
  ("subtitle", Text "Platformbrede runtime-instellingen.");
  ("livePush", Group [
    ("label", Text "Live config-push naar apparaten");
    ("help", Text "Indien AAN wordt een configuratiewijziging bij het toepassen naar het echte apparaat geschreven. Indien UIT zijn wijzigingen alleen een proefrun.");
    ("loadError", Text "Laden van de live-push-instelling mislukt.");
    ("enabled", Text "Live config-push ingeschakeld");
    ("disabled", Text "Live config-push uitgeschakeld");
    ("updateError", Text "Bijwerken van live config-push mislukt")]);
  ("runtime", Group [
    ("title", Text "Runtime-instellingen");
    ("subtitle", Text "Aanpasbaar zonder herstart; de waarde hier overschrijft de deploy-standaard uit .env.");
    ("loadError", Text "Laden van runtime-instellingen mislukt.");
    ("save", Text "Opslaan");
    ("discard", Text "Wijzigingen verwerpen");
    ("saved", Text "Runtime-instellingen opgeslagen");
    ("saveError", Text "Opslaan van runtime-instellingen mislukt");
    ("defaultLabel", Text "standaard");
    ("impactsTitle", Text "Het verlagen van deze bewaarwaarde raakt tenants");
    ("impactItem", Text "{tenant}: een {store}-rapportplanning heeft {range} dagen nodig maar {store} wordt nu {bound} dagen bewaard.");
    ("groups", Group [
      ("firmware", Text "Firmware");
      ("distribution", Text "Catalogus- en GeoIP-distributie");
      ("maintenance", Text "Onderhoud");
      ("retention", Text "Gegevensbewaring");
      ("security_login", Text "Aanmeldbeveiliging");
      ("security_session", Text "Sessies")]);
    ("items", Group [
      ("firmware_max_status_polls", Group [
        ("label", Text "Max. statuspolls");
        ("help", Text "Statuspolls voordat een firmware-actie wordt opgegeven.")]);
      ("firmware_poll_interval_seconds", Group [
        ("label", Text "Pollinterval (s)");
        ("help", Text "Vertraging tussen firmware-statuspolls.")]);
      ("catalog_auto_fetch", Group [
        ("label", Text "Config-catalogi automatisch ophalen");
        ("help", Text "Haal geversioneerde catalogi op uit de release bij een cache-misser.")]);
      ("geoip_auto_fetch", Group [
        ("label", Text "GeoIP-database automatisch ophalen");
        ("help", Text "Haal de GeoIP-database op uit de release bij een cache-misser.")]);
      ("silent_alert_enabled", Group [
        ("label", Text "Waarschuwingen stille tenant");
        ("help", Text "Waarschuw wanneer een tenant met doorsturing geen logs meer verzendt.")]);
      ("silent_alert_after_hours", Group [
        ("label", Text "Stil na (uren)");
        ("help", Text "Uren stilte voordat een tenant wordt gemarkeerd.")]);
      ("perimeter_retention_days", Group [
        ("label", Text "Perimeterbewaring (dagen)");
        ("help", Text "Globale standaard voor hoe lang perimeter-aanvallergegevens worden bewaard.")]);
      ("events_retention_days", Group [
        ("label", Text "Gebeurtenisbewaring (dagen)");
        ("help", Text "Globale standaard voor hoe lang gebeurtenisgegevens worden bewaard.")]);
      ("metrics_retention_days", Group [
        ("label", Text "Metriekbewaring (dagen)");
        ("help", Text "Globale standaard voor hoe lang metriekgegevens worden bewaard.")]);
      ("log_lake_retention_days", Group [
        ("label", Text "Log lake-bewaring (dagen)");
        ("help", Text "Globale standaard voor hoe lang log lake-gegevens worden bewaard.")]);
      ("login_max_attempts", Group [
        ("label", Text "Max. aanmeldpogingen");
        ("help", Text "Toegestane mislukte aanmeldpogingen vóór blokkering.")]);
      ("login_lockout_window_seconds", Group [
        ("label", Text "Blokkeervenster (s)");
        ("help", Text "Schuivend venster voor de telling van mislukte aanmeldingen.")]);
      ("session_ttl_hours", Group [
        ("label", Text "Sessieduur (uren)");
        ("help", Text "Absolute sessieduur.")]);
      ("session_idle_minutes", Group [
        ("label", Text "Time-out bij inactiviteit (minuten)");
        ("help", Text "Inactieve tijd voordat een sessie verloopt.")]);
      ("trusted_device_days", Group [
        ("label", Text "Levensduur vertrouwd apparaat (dagen)");
        ("help", Text "Hoe lang een vertrouwd apparaat de tweede factor kan overslaan voordat het opnieuw vertrouwd moet worden.")])])])].

Definition nl_logFleet : dict := Group [
  ("title", Text "Logvloot");
  ("loadError", Text "Laden van de logvloot mislukt.");
  ("exportCsv", Text "CSV exporteren");
  ("exportPdf", Text "PDF exporteren");
  ("exportFailed", Text "Exporteren mislukt.");
  ("silentBadge", Text "stil");
  ("silentAlertsTitle", Text "Waarschuwingen stille tenant");
  ("silentAlertsBody", Text "heeft doorsturing ingeschakeld, maar geen recente logs.");
  ("volume", Text "Volume");
  ("devicesTitle", Text "Apparaten");
  ("devicesLoadError", Text "Laden van apparaten mislukt.");
  ("noDevices", Text "Geen apparaten.");
  ("stats", Group [
    ("tenantsForwarding", Text "Tenants met doorsturing");
    ("enabledDevices", Text "Ingeschakelde apparaten");
    ("silentTenants", Text "Stille tenants")]);
  ("table", Group [
    ("tenant", Text "Tenant");
    ("device", Text "Apparaat");
    ("forwarding", Text "Doorsturing");
    ("revoked", Text "Ingetrokken");
    ("lastLog", Text "Laatste log")])].

Definition nl_perimeter : dict := Group [
  ("title", Text "Perimeter");
  ("subtitle", Text "Aanvaller-IP's aan de perimeter van de firewall — mislukte aanmeldingen op de box en geblokkeerd verkeer.");
  ("failedLogins", Text "Mislukte aanmeldingen");
  ("firewallBlocks", Text "Firewall-blokkeringen");
  ("failedLoginsHelp", Text "Aanmeldpogingen op de box die zijn geweigerd.");
  ("firewallBlocksHelp", Text "Inkomend verkeer dat door de firewall is geblokkeerd.");
  ("ip", Text "Bron-IP");
  ("country", Text "Land");
  ("user", Text "Gebruiker");
  ("port", Text "Poort");
  ("count", Text "Aantal");
  ("lastSeen", Text "Laatst gezien");
  ("empty", Text "Geen activiteit in dit venster.");
  ("viewAll", Text "Alles weergeven");
  ("loadError", Text "Laden van perimetergegevens mislukt.")].

Definition nl_retention : dict := Group [
  ("title", Text "Gegevensbewaring");
  ("subtitle", Text "Overschrijf hoe lang de gegevens van deze tenant worden bewaard. Laat een veld leeg om de globale standaard over te nemen.");
  ("inheritHint", Text "Globaal overnemen");
  ("save", Text "Bewaring opslaan");
  ("saved", Text "Bewaarinstellingen opgeslagen.");
  ("stores", Group [
    ("perimeter", Text "Perimeter (dagen)");
    ("events", Text "Gebeurtenissen (dagen)");
    ("metrics", Text "Metrieken (dagen)");
    ("log_lake", Text "Log lake (dagen)")]);
  ("warningTitle", Text "Rapportschema's overschrijden de bewaartermijn");
  ("warningItem", Text "Een {frequency}-schema beslaat {range} dagen maar {store}-gegevens worden {bound} dagen bewaard.")].

Definition nl_audit : dict := Group [
  ("title", Text "Auditlogboek");
  ("subtitle", Text "Elke wijzigende actie op het platform, per actor en tenant.");
  ("filters", Group [
    ("actor", Text "E-mail van actor");
    ("tenant", Text "Tenant-ID");
    ("action", Text "Actie");
    ("from", Text "Van");
    ("to", Text "Tot");
    ("apply", Text "Toepassen");
    ("reset", Text "Opnieuw instellen")]);
  ("columns", Group [
    ("time", Text "Tijd");
    ("actor", Text "Actor");
    ("tenant", Text "Tenant");
    ("action", Text "Actie");
    ("target", Text "Doel");
    ("ip", Text "IP");
    ("details", Text "Details")]);
  ("empty", Text "Geen auditvermeldingen komen overeen met deze filters.");
  ("export", Text "CSV exporteren");
  ("exportFailed", Text "Exporteren mislukt.");
  ("page", Text "Pagina {page}");
  ("showingTotal", Text "{total} vermeldingen");
  ("prev", Text "Vorige");
  ("next", Text "Volgende")].

Definition nl_reliability : dict := Group [
  ("tab", Text "Betrouwbaarheid");
  ("title", Text "Service-gebeurtenissen (24 u)");
  ("subtitle", Text "Herstarts, service-crashes/-herstarts en schijfwaarschuwingen uit het systeemlogboek van het apparaat.");
  ("time", Text "Tijd");
  ("category", Text "Categorie");
  ("name", Text "Gebeurtenis");
  ("severity", Text "Ernst");
  ("process", Text "Proces");
  ("message", Text "Bericht");
  ("categories", Group [
    ("reboot", Text "Herstart");
    ("service", Text "Service");
    ("disk", Text "Schijf")]);
  ("severities", Group [
    ("high", Text "Hoog");
    ("medium", Text "Gemiddeld");
    ("low", Text "Laag")]);
  ("loadMore", Text "Meer laden");
  ("empty", Text "Geen service-gebeurtenissen in dit venster.");
  ("loading", Text "Service-gebeurtenissen laden…");
  ("loadError", Text "Laden van service-gebeurtenissen mislukt.");
  ("last24h", Text "Laatste 24 uur")].

Definition nl_configAudit : dict := Group [
  ("tab", Text "Configwijzigingen");
  ("title", Text "Directe configwijzigingen (24 u)");
  ("subtitle", Text "Wie de configuratie van het apparaat heeft gewijzigd en hoe — directe wijzigingen op het apparaat (WebGUI/console) worden als drift gemarkeerd.");
  ("time", Text "Tijd");
  ("area", Text "Gebied");
  ("actor", Text "Actor");
  ("ip", Text "IP");
  ("channel", Text "Kanaal");
  ("change", Text "Wijziging");
  ("direct", Text "Direct");
  ("channels", Group [
    ("api", Text "API");
    ("gui", Text "WebGUI");
    ("system", Text "Console/script");
    ("opngms", Text "OPNGMS");
    ("api_external", Text "Externe API")]);
  ("loadMore", Text "Meer laden");
  ("empty", Text "Geen configuratiewijzigingen in dit venster.");
  ("loading", Text "Configuratiewijzigingen laden…");
  ("loadError", Text "Laden van configuratiewijzigingen mislukt.");
  ("last24h", Text "Laatste 24 uur")].

Definition nl_smtp : dict := Group [
  ("authMethod", Text "Authenticatie");
  ("authPassword", Text "Wachtwoord");
  ("authOauth", Text "OAuth2");
  ("oauthProvider", Text "Provider");
  ("oauthGoogle", Text "Google / Gmail");
  ("oauthMicrosoft", Text "Microsoft 365");
  ("oauthClientId", Text "Client ID");
  ("oauthClientSecret", Text "Client secret");
  ("oauthRefreshToken", Text "Refresh token");
  ("oauthTenantId", Text "Tenant ID");
  ("oauthSecretSaved", Text "opgeslagen — laat leeg om te behouden");
  ("oauthConnect", Text "Account verbinden");
  ("oauthConnectGoogle", Text "Verbinden met Google");
  ("oauthConnectMicrosoft", Text "Verbinden met Microsoft 365");
  ("oauthExperimental", Text "Experimenteel — niet getest");
  ("oauthExperimentalNote", Text "Browseraanmelding voor OAuth is niet geverifieerd met een echte provider. PUBLIC_BASE_URL moet ingesteld zijn en de omleidings-URI moet geregistreerd zijn in uw OAuth-app. Een vernieuwingstoken hierboven plakken blijft de ondersteunde methode.");
  ("oauthConnectNeedsCreds", Text "Sla eerst de client-ID en het geheim op en maak dan verbinding.");
  ("oauthConnected", Text "Account verbonden.");
  ("oauthConnectFailed", Text "Kon het account niet verbinden.")].

Definition nl : dict := Group [
  ("common", nl_common);
  ("nav", nl_nav);
  ("login", nl_login);
  ("tenant", nl_tenant);
  ("overview", nl_overview);
  ("alerts", nl_alerts);
  ("devices", nl_devices);
  ("deviceDetail", nl_deviceDetail);
  ("deviceActions", nl_deviceActions);
  ("firmware", nl_firmware);
  ("plugins", nl_plugins);
  ("templates", nl_templates);
  ("deviceCreate", nl_deviceCreate);
  ("health", nl_health);
  ("logForwarding", nl_logForwarding);
  ("catalog", nl_catalog);
  ("config", nl_config);
  ("deviceHealth", nl_deviceHealth);
  ("chart", nl_chart);
  ("reports", nl_reports);
  ("sessions", nl_sessions);
  ("mfa", nl_mfa);
  ("groups", nl_groups);
  ("confirm", nl_confirm);
  ("errors", nl_errors);
  ("system", nl_system);
  ("logFleet", nl_logFleet);
  ("perimeter", nl_perimeter);
  ("retention", nl_retention);
  ("audit", nl_audit);
  ("reliability", nl_reliability);
  ("configAudit", nl_configAudit);
  ("smtp", nl_smtp)].
