(* ===== verification/DictRu.v ===== *)
(** * The Russian texts ([i18n/ru.ts]), one definition per group *)
From S2P Require Import Prelude Dict.

Definition ru_common : dict := Group [
  ("appName", Text "OPNGMS");
  ("logout", Text "Выйти");
  ("none", Text "—");
  ("language", Text "Язык");
  ("cancel", Text "Отмена")].

Definition ru_nav : dict := Group [
  ("overview", Text "Обзор");
  ("devices", Text "Устройства");
  ("alerts", Text "Оповещения");
  ("perimeter", Text "Периметр");
  ("reportSettings", Text "Настройки отчётов");
  ("reportSchedule", Text "Расписание отчётов");
  ("reports", Text "Отчёты");
  ("logs", Text "Журналы");
  ("sessions", Text "Активные сеансы");
  ("mfa", Text "Двухфакторная аутентификация");
  ("templates", Text "Библиотека шаблонов");
  ("smtp", Text "SMTP");
  ("logFleet", Text "Парк журналов");
  ("system", Text "Система");
  ("groups", Text "Группы");
  ("audit", Text "Журнал аудита")].

Definition ru_login : dict := Group [
  ("title", Text "OPNGMS");
  ("email", Text "Эл. почта");
  ("password", Text "Пароль");
  ("passwordToggle", Text "Показать/скрыть");
  ("submit", Text "Войти");
  ("invalidCredentials", Text "Неверные учётные данные");
  ("mfa", Group [
    ("title", Text "Двухфакторная аутентификация");
    ("codeHint", Text "Введите 6-значный код из приложения-аутентификатора.");
    ("recoveryHint", Text "Введите один из одноразовых кодов восстановления.");
    ("codeLabel", Text "Код аутентификации");
    ("recoveryLabel", Text "Код восстановления");
    ("verify", Text "Проверить");
    ("useRecovery", Text "Использовать код восстановления");
    ("useCode", Text "Использовать код аутентификатора");
    ("invalidCode", Text "Неверный код");
    ("or", Text "или");
    ("usePasskey", Text "Использовать passkey / ключ безопасности");
    ("passkeyError", Text "Не удалось войти с помощью passkey. Попробуйте снова.");
    ("passkeyNotSupported", Text "Этот браузер не поддерживает passkey.");
    ("rememberDevice", Text "Доверять этому устройству {days} дней");
    ("rememberDeviceHelp", Text "При следующем входе с этого устройства второй фактор не будет запрошен.")])].

Definition ru_tenant : dict := Group [
  ("activeLabel", Text "Активный арендатор");
  ("none", Text "Нет арендатора")].

Definition ru_overview : dict := Group [
  ("title", Text "Обзор");
  ("activeAlerts", Text "Активные оповещения");
  ("noActiveAlerts", Text "Нет активных оповещений");
  ("healthLoadError", Text "Не удалось загрузить состояние парка");
  ("alertsLoadError", Text "Не удалось загрузить оповещения");
  ("attackerCountries", Group [
    ("title", Text "Топ стран-источников атак");
    ("mapTitle", Text "Источники атак");
    ("empty", Text "За этот период атак не зафиксировано.");
    ("private", Text "Частный / внутренний");
    ("unknown", Text "Неизвестно");
    ("attribution", Text "Данные о странах: DB-IP (CC BY 4.0)")])].

Definition ru_alerts : dict := Group [
  ("title", Text "Оповещения");
  ("active", Text "Активные");
  ("history", Text "История");
  ("loadError", Text "Не удалось загрузить оповещения");
  ("noAlerts", Text "Нет оповещений");
  ("colType", Text "Тип");
  ("colLabel", Text "Метка");
  ("colSeverity", Text "Важность");
  ("colOpened", Text "Открыто");
  ("colResolved", Text "Решено");
  ("colDevice", Text "Устройство")].

Definition ru_devices : dict := Group [
  ("title", Text "Устройства");
  ("add", Text "Добавить устройство");
  ("loadError", Text "Не удалось загрузить устройства");
  ("colName", Text "Имя");
  ("colUrl", Text "URL");
  ("colStatus", Text "Статус");
  ("colFirmware", Text "Прошивка")].

Definition ru_deviceDetail : dict := Group [
  ("url", Text "URL");
  ("status", Text "Статус");
  ("firmware", Text "Прошивка");
  ("loadError", Text "Не удалось загрузить устройство")].

Definition ru_deviceActions : dict := Group [
  ("testConnection", Text "Проверить соединение");
  ("delete", Text "Удалить");
  ("testResult", Text "Результат проверки");
  ("testNotification", Text "Проверить");
  ("testFailed", Text "Проверка соединения не удалась");
  ("deleteFailed", Text "Не удалось удалить");
  ("openWebGui", Text "Открыть WebGUI")].

Definition ru_firmware : dict := Group [
  ("title", Text "Прошивка");
  ("tab", Text "Прошивка");
  ("check", Text "Проверить обновления");
  ("upToDate", Text "Актуально");
  ("updatesAvailable", Text "Доступны обновления");
  ("downloadSize", Text "Размер загрузки");
  ("rebootNeeded", Text "Требуется перезагрузка");
  ("newMajor", Text "Доступен новый крупный выпуск");
  ("update", Text "Обновить прошивку");
  ("upgrade", Text "Перейти на новый крупный выпуск");
  ("updateConfirm", Text "Применить все ожидающие обновления пакетов? Устройство может перезагрузиться.");
  ("upgradeConfirm", Text "Перейти на новый крупный выпуск? Будет выполнено несколько шагов с перезагрузками, это может занять время.");
  ("plugins", Text "Плагины");
  ("pluginName", Text "Имя плагина");
  ("install", Text "Установить");
  ("remove", Text "Удалить");
  ("installConfirm", Text "Установить этот плагин? Устройство должно работать на новейшей прошивке.");
  ("removeConfirm", Text "Удалить этот плагин?");
  ("runNow", Text "Запустить сейчас");
  ("scheduleAt", Text "Расписание (оставьте пустым для запуска сейчас)");
  ("schedule", Text "Запланировать");
  ("recentActions", Text "Недавние действия");
  ("noActions", Text "Пока нет действий");
  ("actionQueued", Text "Действие поставлено в очередь");
  ("actionFailed", Text "Не удалось поставить действие в очередь");
  ("checkFailed", Text "Проверка прошивки не удалась");
  ("kind", Text "Действие");
  ("status", Text "Статус");
  ("when", Text "Когда");
  ("result", Text "Результат")].

Definition ru_plugins : dict := Group [
  ("tab", Text "Плагины");
  ("title", Text "Плагины");
  ("subtitle", Text "Плагины, о которых сообщает межсетевой экран. Устанавливайте или удаляйте плагины сообщества; для установки на устройстве должна быть новейшая прошивка.");
  ("search", Text "Поиск плагинов…");
  ("name", Text "Плагин");
  ("status", Text "Статус");
  ("version", Text "Версия");
  ("installed", Text "Установлен");
  ("notInstalled", Text "Доступен");
  ("locked", Text "Заблокирован");
  ("install", Text "Установить");
  ("remove", Text "Удалить");
  ("installConfirm", Text "Установить этот плагин?");
  ("removeConfirm", Text "Удалить этот плагин?");
  ("empty", Text "Устройство пока не сообщило ни одного плагина — оно опрашивается периодически.");
  ("loadFailed", Text "Не удалось загрузить плагины.");
  ("configure", Text "Настроить");
  ("configureTitle", Text "Конфигурация плагина")].

Definition ru_templates : dict := Group [
  ("tab", Text "Шаблоны");
  ("libraryTitle", Text "Библиотека шаблонов");
  ("superadminOnly", Text "Библиотекой шаблонов управляют администраторы платформы.");
  ("name", Text "Имя");
  ("kind", Text "Вид");
  ("type", Text "Тип псевдонима");
  ("content", Text "Содержимое (по одной записи на строку)");
  ("description", Text "Описание");
  ("create", Text "Новый шаблон");
  ("edit", Text "Изменить");
  ("save", Text "Сохранить");
  ("delete", Text "Удалить");
  ("deleteConfirm", Text "Удалить этот шаблон? Переопределения для арендаторов удаляются; применённые изменения сохраняют свою историю.");
  ("empty", Text "Пока нет шаблонов.");
  ("created", Text "Шаблон создан");
  ("updated", Text "Шаблон обновлён");
  ("saveFailed", Text "Не удалось сохранить шаблон");
  ("apply", Group [
    ("title", Text "Применить шаблон");
    ("pick", Text "Шаблон");
    ("override", Text "Переопределение этого клиента (содержимое, по одной записи на строку — оставьте пустым для значения из библиотеки)");
    ("saveOverride", Text "Сохранить переопределение");
    ("overrideSaved", Text "Переопределение сохранено");
    ("preview", Text "Предпросмотр");
    ("previewTitle", Text "Действующая конфигурация");
    ("applyConfirm", Text "Применить этот шаблон к устройству?");
    ("runNow", Text "Применить сейчас");
    ("scheduleAt", Text "Расписание (оставьте пустым для применения сейчас)");
    ("schedule", Text "Запланировать");
    ("queued", Text "Применение поставлено в очередь");
    ("failed", Text "Не удалось применить шаблон");
    ("none", Text "Нет доступных шаблонов.")]);
  ("templatesTab", Text "Шаблоны");
  ("kindLabel", Text "Тип шаблона");
  ("kindAlias", Text "Псевдоним межсетевого экрана");
  ("kindSetting", Text "Параметр OPNsense");
  ("setting", Group [
    ("endpoint", Text "Параметр");
    ("referenceDevice", Text "Эталонное устройство (для чтения доступных полей)");
    ("load", Text "Загрузить поля");
    ("loadHint", Text "Выберите параметр и устройство, затем загрузите поля для настройки.");
    ("noDevice", Text "В активном арендаторе нет устройства для чтения полей.");
    ("loadFailed", Text "Не удалось прочитать параметр с устройства.");
    ("noFields", Text "Нет настраиваемых полей.");
    ("hardwareNote", Text "Поля, специфичные для оборудования/устройства, намеренно не шаблонизируются.")]);
  ("kindFirewallRule", Text "Правило межсетевого экрана (Rules [new])");
  ("fw", Group [
    ("referenceDevice", Text "Эталонное устройство (для чтения доступных полей правила)");
    ("load", Text "Загрузить поля");
    ("loadHint", Text "Выберите устройство, затем загрузите поля правила для настройки.");
    ("noDevice", Text "В активном арендаторе нет устройства для чтения полей.");
    ("loadFailed", Text "Не удалось прочитать модель правила с устройства.");
    ("descriptionRequired", Text "Требуется описание (оно является идентификатором правила).");
    ("interface", Text "Интерфейс (выбирается при применении)");
    ("floating", Text "Плавающее (без интерфейса)");
    ("note", Text "Интерфейс выбирается при применении; оставьте пустым для плавающего правила.")]);
  ("kindMonitTest", Text "Тест проверки состояния Monit");
  ("monit", Group [
    ("referenceDevice", Text "Эталонное устройство (для чтения доступных полей теста)");
    ("load", Text "Загрузить поля");
    ("loadHint", Text "Выберите устройство, затем загрузите поля теста для настройки.");
    ("noDevice", Text "В активном арендаторе нет устройства для чтения полей.");
    ("loadFailed", Text "Не удалось прочитать модель теста с устройства.");
    ("nameRequired", Text "Требуется имя (оно является идентификатором теста).");
    ("note", Text "Тест вступает в силу после привязки к службе Monit.");
    ("attachSystem", Text "Привязать этот тест к системной службе, чтобы он вступил в силу");
    ("attachSystemNote", Text "Если включено, применение также привязывает тест к системной службе Monit устройства.")]);
  ("kindIdsRulesets", Text "Наборы правил Suricata/IDS");
  ("ids", Group [
    ("referenceDevice", Text "Эталонное устройство (для чтения доступных наборов правил)");
    ("load", Text "Загрузить наборы правил");
    ("loadHint", Text "Выберите устройство, затем загрузите его наборы правил, чтобы выбрать включаемые.");
    ("noDevice", Text "В активном арендаторе нет устройства для чтения наборов правил.");
    ("loadFailed", Text "Не удалось прочитать наборы правил с устройства.");
    ("rulesets", Text "Наборы правил для включения");
    ("noRulesets", Text "На устройстве не найдено наборов правил.");
    ("note", Text "Применение включает выбранные наборы правил (только добавляет — другие не отключаются).")]);
  ("kindIdsPolicy", Text "Политика Suricata/IDS");
  ("idsPolicy", Group [
    ("description", Text "Описание (идентификатор политики)");
    ("enabled", Text "Включена");
    ("prio", Text "Приоритет");
    ("action", Text "Сопоставляемое текущее действие (правила, действие которых — одно из этих)");
    ("newAction", Text "Новое действие");
    ("rulesets", Text "Наборы правил, к которым применяется политика");
    ("referenceDevice", Text "Эталонное устройство (для чтения доступных наборов правил)");
    ("load", Text "Загрузить наборы правил");
    ("loadHint", Text "Выберите устройство, затем загрузите его включённые наборы правил для ссылки.");
    ("noDevice", Text "В активном арендаторе нет устройства для чтения наборов правил.");
    ("noRulesets", Text "На устройстве не найдено включённых наборов правил (сначала включите набор правил).");
    ("loadFailed", Text "Не удалось прочитать наборы правил с устройства.");
    ("content", Text "Фильтры по метаданным (для опытных — большинству политик они не нужны)");
    ("contentKey", Text "Ключ");
    ("contentValues", Text "Значения (через запятую)");
    ("contentKeyInvalid", Text "Недопустимый ключ — используйте буквы, цифры, точки, дефисы или подчёркивания.");
    ("addContent", Text "Добавить фильтр");
    ("descriptionRequired", Text "Требуется описание (оно является идентификатором политики).");
    ("note", Text "Указанные наборы правил должны быть уже включены на устройстве. Сопоставление наборов правил/содержимого проверяется во время выполнения при применении.")]);
  ("profiles", Group [
    ("tab", Text "Профили");
    ("name", Text "Имя");
    ("description", Text "Описание");
    ("members", Text "Шаблоны (в порядке применения)");
    ("create", Text "Новый профиль");
    ("edit", Text "Изменить");
    ("save", Text "Сохранить");
    ("delete", Text "Удалить");
    ("deleteConfirm", Text "Удалить этот профиль? Применённые изменения сохраняют свою историю.");
    ("empty", Text "Пока нет профилей.");
    ("created", Text "Профиль создан");
    ("updated", Text "Профиль обновлён");
    ("saveFailed", Text "Не удалось сохранить профиль");
    ("memberCount", Text "шаблонов");
    ("apply", Group [
      ("title", Text "Применить профиль");
      ("pick", Text "Профиль");
      ("preview", Text "Предпросмотр");
      ("previewTitle", Text "Действующая конфигурация (по шаблонам, по порядку)");
      ("interface", Text "Интерфейс (выбирается при применении)");
      ("floating", Text "Плавающее (без интерфейса)");
      ("empty", Text "Нет доступных профилей.");
      ("applyConfirm", Text "Применить этот профиль к устройству? Каждый входящий шаблон применяется по порядку.");
      ("runNow", Text "Применить сейчас");
      ("scheduleAt", Text "Расписание (оставьте пустым для применения сейчас)");
      ("schedule", Text "Запланировать");
      ("queued", Text "Применение профиля поставлено в очередь");
      ("failed", Text "Не удалось применить профиль")])])].

Definition ru_deviceCreate : dict := Group [
  ("title", Text "Добавить устройство");
  ("name", Text "Имя");
  ("url", Text "URL (https)");
  ("apiKey", Text "Ключ API");
  ("apiSecret", Text "Секрет API");
  ("verifyTls", Text "Проверять TLS");
  ("tlsWarning", Text "При отключённой проверке TLS ничто не подтверждает подлинность сертификата устройства — учётные данные могут быть перехвачены. Закрепите ниже SHA-256-отпечаток сертификата, чтобы восстановить защиту.");
  ("tlsFingerprintLabel", Text "SHA-256-отпечаток сертификата (необязательно)");
  ("tlsFingerprintPlaceholder", Text "00:42:E2:C4:07:61:06:0D:56:A4:75:2F:FC:32:2B:4E:B3:CE:FF:31:8A:88:F3:22:2B:C1:B1:0D:46:0B:04:2C");
  ("save", Text "Сохранить");
  ("created", Text "Устройство создано");
  ("createFailed", Text "Не удалось создать")].

Definition ru_health : dict := Group [
  ("totalDevices", Text "Всего устройств");
  ("activeAlerts", Text "Активные оповещения")].

Definition ru_logForwarding : dict := Group [
  ("tab", Text "Пересылка журналов")].

Definition ru_catalog : dict := Group [
  ("tab", Text "Редактор");
  ("searchModels", Text "Поиск параметров…");
  ("noModels", Text "Нет каталога для этой версии устройства.");
  ("selectModel", Text "Выберите группу параметров слева для редактирования.");
  ("readOnly", Text "Недоступно для редактирования (запрещающий список безопасности).");
  ("unreachable", Text "Устройство недоступно — для редактирования требуются актуальные значения.");
  ("liveValues", Text "Актуальные значения");
  ("propose", Text "Предложить изменение");
  ("preview", Text "Просмотреть изменение");
  ("noChanges", Text "Нет изменений для предложения.");
  ("proposed", Text "Черновик изменения создан — запланируйте его на вкладке «Конфигурация».");
  ("proposeFailed", Text "Не удалось создать изменение.");
  ("loadFailed", Text "Не удалось загрузить модель.");
  ("openWebgui", Text "Открыть в WebGUI");
  ("searchAll", Text "Поиск параметров…");
  ("grid", Group [
    ("add", Text "Добавить строку");
    ("save", Text "Сохранить");
    ("edit", Text "Изменить");
    ("delete", Text "Удалить");
    ("empty", Text "Нет строк.")]);
  ("diff", Group [
    ("baseline", Text "Сравнить с");
    ("noBaseline", Text "Нет предыдущей версии");
    ("newSince", Text "Новое с {v}");
    ("changedSince", Text "Изменено с {v}");
    ("changes", Text "изменения")]);
  ("map", Group [
    ("tabMenu", Text "Меню");
    ("tabMap", Text "Карта конфигурации");
    ("editInCatalog", Text "Изменить в каталоге");
    ("readOnly", Text "только чтение (нет API)");
    ("staleBanner", Text "Устарело — устройство недоступно; показана последняя резервная копия от {when}")])].

Definition ru_config : dict := Group [
  ("tabInfo", Text "Сведения");
  ("tabHealth", Text "Состояние");
  ("tabConfig", Text "Конфигурация");
  ("capabilities", Text "Возможности");
  ("version", Text "Версия OPNsense");
  ("interfaces", Text "Интерфейсы");
  ("configuredSections", Text "Настроенные разделы");
  ("available", Text "Доступные возможности");
  ("hidden", Text "скрыто");
  ("noConfigYet", Text "Конфигурация ещё не зафиксирована");
  ("nic", Text "NIC");
  ("changes", Group [
    ("title", Text "Ожидающие изменения");
    ("propose", Text "Предложить изменение псевдонима");
    ("none", Text "Нет ожидающих изменений");
    ("colKind", Text "Вид");
    ("colOperation", Text "Операция");
    ("colTarget", Text "Цель");
    ("colStatus", Text "Статус");
    ("colScheduled", Text "Запланировано");
    ("preview", Text "Предпросмотр");
    ("schedule", Text "Запланировать");
    ("cancel", Text "Отменить");
    ("revert", Text "Откатить");
    ("reverts", Text "откатывает №");
    ("applyNow", Text "Применить сейчас");
    ("pickTime", Text "Выберите дату/время");
    ("checkDrift", Text "Проверить расхождение");
    ("driftUnreachable", Text "Не удалось связаться с устройством — расхождение неизвестно.");
    ("driftInSync", Text "синхронизировано");
    ("driftDrifted", Text "расхождение");
    ("driftMissing", Text "отсутствует");
    ("driftUnsupported", Text "н/д");
    ("driftFields", Text "Разошедшиеся поля: ");
    ("operation", Text "Операция");
    ("name", Text "Имя");
    ("type", Text "Тип");
    ("content", Text "Содержимое (по одному на строку)");
    ("create", Text "Создать");
    ("add", Text "добавить");
    ("set", Text "задать");
    ("delete", Text "удалить")])].

Definition ru_deviceHealth : dict := Group [
  ("title", Text "Состояние");
  ("cpu", Text "CPU");
  ("memory", Text "Память");
  ("disk", Text "Диск");
  ("trafficIn", Text "Входящий трафик");
  ("trafficOut", Text "Исходящий трафик");
  ("gatewayRtt", Text "RTT шлюза");
  ("gatewayLoss", Text "Потери шлюза");
  ("vpnUp", Text "VPN активен")].

Definition ru_chart : dict := Group [
  ("noData", Text "Пока нет данных")].

Definition ru_reports : dict := Group [
  ("page", Group [
    ("title", Text "Отчёты");
    ("generate", Text "Сформировать отчёт");
    ("from", Text "С");
    ("to", Text "По");
    ("period", Text "Период");
    ("kind", Text "Вид");
    ("created", Text "Создано");
    ("size", Text "Размер");
    ("download", Text "Скачать");
    ("none", Text "Пока нет отчётов.");
    ("generated", Text "Отчёт сформирован");
    ("kindOnDemand", Text "По запросу");
    ("kindScheduled", Text "По расписанию")]);
  ("settings", Group [
    ("pageTitle", Text "Настройки отчётов");
    ("title", Text "Заголовок отчёта");
    ("owner", Text "Владелец");
    ("timezone", Text "Часовой пояс");
    ("fromEmail", Text "Адрес отправителя (доставка отчётов)");
    ("logo", Text "Логотип");
    ("upload", Text "Загрузить логотип");
    ("remove", Text "Удалить логотип");
    ("language", Text "Язык отчёта");
    ("save", Text "Сохранить настройки");
    ("adminsOnly", Text "Настройки отчётности доступны только администраторам арендатора.");
    ("saved", Text "Настройки отчётов сохранены.");
    ("logoUploaded", Text "Логотип загружен.");
    ("logoRemoved", Text "Логотип удалён.");
    ("hasLogo", Text "Логотип загружен");
    ("noLogo", Text "Нет логотипа")]);
  ("sections", Group [
    ("title", Text "Разделы отчёта");
    ("description", Text "Выберите, какие разделы будут включены в PDF-отчёт.");
    ("customizeForDevice", Text "Настроить разделы для этого устройства");
    ("summary", Text "Сводка для руководства");
    ("health", Text "Состояние устройства");
    ("alerts_wan", Text "Оповещения и подключение");
    ("attacks", Text "Атаки");
    ("attacker_countries", Text "Страны-источники атак");
    ("failed_logins", Text "Неудачные входы");
    ("firewall_blocks", Text "Блокировки межсетевого экрана");
    ("web", Text "Веб-активность");
    ("data", Text "Использование данных");
    ("status", Text "Статус доступности");
    ("firmware_config", Text "Прошивка и конфигурация");
    ("applications", Text "Приложения");
    ("web_filter", Text "Веб-фильтр")])].

Definition ru_sessions : dict := Group [
  ("pageTitle", Text "Активные сеансы");
  ("colLastSeen", Text "Последняя активность");
  ("colCreated", Text "Создано");
  ("colExpires", Text "Истекает");
  ("colIp", Text "IP-адрес");
  ("colUserAgent", Text "Агент пользователя");
  ("current", Text "Текущий");
  ("logoutAll", Text "Выйти везде");
  ("loadError", Text "Не удалось загрузить сеансы");
  ("logoutAllError", Text "Не удалось выйти везде")].

Definition ru_mfa : dict := Group [
  ("pageTitle", Text "Двухфакторная аутентификация");
  ("intro", Text "Защитите свою учётную запись одноразовым паролем на основе времени (TOTP) из приложения-аутентификатора.");
  ("status", Text "Статус");
  ("enabled", Text "Включена");
  ("disabled", Text "Отключена");
  ("recoveryRemaining", Text "Осталось кодов восстановления");
  ("statusError", Text "Не удалось загрузить статус MFA");
  ("enroll", Text "Настроить двухфакторную аутентификацию");
  ("enrollStart", Text "Начать настройку");
  ("password", Text "Текущий пароль");
  ("passwordHint", Text "Введите пароль повторно для изменения настроек двухфакторной аутентификации.");
  ("scanHint", Text "Отсканируйте этот QR-код приложением-аутентификатором или введите секрет вручную.");
  ("secretLabel", Text "Секретный ключ");
  ("confirmCodeLabel", Text "Код аутентификации");
  ("confirmHint", Text "Введите 6-значный код из приложения для завершения настройки.");
  ("confirm", Text "Подтвердить и включить");
  ("cancel", Text "Отменить");
  ("setupError", Text "Не удалось начать настройку (проверьте пароль).");
  ("confirmError", Text "Неверный код. Попробуйте ещё раз.");
  ("recoveryTitle", Text "Коды восстановления");
  ("recoveryIntro", Text "Сохраните эти одноразовые коды восстановления в надёжном месте. Каждый можно использовать один раз, если вы потеряете аутентификатор.");
  ("recoveryWarning", Text "Эти коды показываются только один раз.");
  ("copyAll", Text "Копировать все");
  ("copied", Text "Скопировано в буфер обмена");
  ("download", Text "Скачать");
  ("done", Text "Готово");
  ("regenerate", Text "Перегенерировать коды восстановления");
  ("regenerateError", Text "Не удалось перегенерировать коды восстановления (проверьте пароль).");
  ("disable", Text "Отключить двухфакторную аутентификацию");
  ("disableConfirmTitle", Text "Отключить двухфакторную аутентификацию?");
  ("disableConfirmBody", Text "Ваша учётная запись больше не будет требовать второй фактор при входе.");
  ("disableError", Text "Не удалось отключить (проверьте пароль).");
  ("disabledNotice", Text "Двухфакторная аутентификация отключена.");
  ("policyTitle", Text "Политика MFA организации");
  ("policyIntro", Text "Требовать двухфакторную аутентификацию во всей организации.");
  ("policyOff", Text "Выкл");
  ("policyAll", Text "Все пользователи");
  ("policyPrivileged", Text "Привилегированные пользователи");
  ("policyLoadError", Text "Не удалось загрузить политику MFA");
  ("policySaveError", Text "Не удалось обновить политику MFA");
  ("policySaved", Text "Политика MFA обновлена");
  ("usersTitle", Text "MFA пользователей");
  ("colUser", Text "Пользователь");
  ("colEmail", Text "Эл. почта");
  ("colRole", Text "Роль");
  ("superadmin", Text "Суперадминистратор");
  ("member", Text "Участник");
  ("reset", Text "Сбросить MFA");
  ("resetConfirmTitle", Text "Сбросить MFA этого пользователя?");
  ("resetConfirmBody", Text "Это очищает его секрет TOTP и коды восстановления. Ему потребуется пройти настройку заново.");
  ("resetError", Text "Не удалось сбросить MFA пользователя");
  ("resetDone", Text "MFA пользователя сброшена");
  ("usersLoadError", Text "Не удалось загрузить пользователей");
  ("gateTitle", Text "Требуется двухфакторная аутентификация");
  ("gateIntro", Text "Ваша организация требует двухфакторную аутентификацию. Настройте её сейчас, чтобы продолжить.");
  ("passkeys", Group [
    ("title", Text "Passkeys");
    ("intro", Text "Зарегистрируйте passkey или ключ безопасности, чтобы входить без кода.");
    ("add", Text "Добавить passkey");
    ("accountPassword", Text "Пароль учётной записи");
    ("name", Text "Название");
    ("namePlaceholder", Text "напр. Рабочий ноутбук");
    ("unnamed", Text "Passkey");
    ("colName", Text "Название");
    ("colCreated", Text "Создан");
    ("remove", Text "Удалить");
    ("removeConfirmTitle", Text "Удалить этот passkey?");
    ("removeConfirmBody", Text "Этот passkey больше нельзя будет использовать для входа.");
    ("addedNotice", Text "Passkey добавлен.");
    ("removedNotice", Text "Passkey удалён.");
    ("addError", Text "Не удалось добавить passkey. Попробуйте снова.");
    ("removeError", Text "Не удалось удалить passkey.");
    ("listError", Text "Не удалось загрузить passkeys");
    ("lastFactorError", Text "Нельзя удалить последний второй фактор. Сначала добавьте другой.");
    ("notConfigured", Text "Passkeys не настроены для вашей организации.");
    ("notSupported", Text "Этот браузер не поддерживает passkeys.")]);
  ("trustedDeviceToggle", Group [
    ("label", Text "Запомнить это устройство");
    ("help", Text "Позволяет пользователям пропускать второй фактор на устройствах, которым они доверяют.")]);
  ("trustedDevices", Group [
    ("title", Text "Доверенные устройства");
    ("intro", Text "Доверенные устройства могут входить без второго фактора до истечения срока действия. Отзовите те, которые не узнаёте.");
    ("colDevice", Text "Устройство");
    ("colIp", Text "IP-адрес");
    ("colLastUsed", Text "Последнее использование");
    ("colExpires", Text "Истекает");
    ("revoke", Text "Отозвать");
    ("revokeAll", Text "Отозвать все");
    ("confirmTitle", Text "Отозвать это устройство?");
    ("confirmBody", Text "При следующем входе этому устройству снова потребуется второй фактор.");
    ("revokeAllConfirmTitle", Text "Отозвать все доверенные устройства?");
    ("revokeAllConfirmBody", Text "Все доверенные устройства при следующем входе снова потребуют второй фактор.");
    ("empty", Text "Нет доверенных устройств.");
    ("loadError", Text "Не удалось загрузить доверенные устройства.");
    ("revokeError", Text "Не удалось отозвать устройство.");
    ("unknownDevice", Text "Неизвестное устройство")])].

Definition ru_groups : dict := Group [
  ("title", Text "Группы");
  ("description", Text "Определяйте группы пользователей и доступ к арендаторам, который они получают.");
  ("superadminOnly", Text "Группами управляют администраторы платформы.");
  ("name", Text "Название");
  ("namePlaceholder", Text "Название группы");
  ("descriptionField", Text "Описание");
  ("descriptionPlaceholder", Text "Необязательное описание");
  ("members", Text "Участники");
  ("membersPlaceholder", Text "Выберите пользователей");
  ("noMembers", Text "Пока нет участников.");
  ("grants", Text "Права доступа");
  ("noGrants", Text "Пока нет прав.");
  ("addGrant", Text "Добавить право");
  ("allTenants", Text "Все арендаторы");
  ("tenant", Text "Арендатор");
  ("tenantPlaceholder", Text "Выберите арендатора");
  ("role", Text "Роль");
  ("roleTenantAdmin", Text "Администратор арендатора");
  ("roleOperator", Text "Оператор");
  ("roleReadOnly", Text "Только чтение");
  ("allTenantsScope", Text "Все арендаторы");
  ("create", Text "Новая группа");
  ("createTitle", Text "Создать группу");
  ("save", Text "Сохранить");
  ("delete", Text "Удалить");
  ("deleteConfirm", Text "Удалить эту группу? Её участники потеряют предоставленный доступ. Это действие необратимо.");
  ("removeGrant", Text "Удалить право");
  ("empty", Text "Пока нет групп.");
  ("created", Text "Группа создана");
  ("updated", Text "Группа обновлена");
  ("deleted", Text "Группа удалена");
  ("membersSaved", Text "Участники обновлены");
  ("grantAdded", Text "Право добавлено");
  ("grantRemoved", Text "Право удалено");
  ("saveFailed", Text "Не удалось сохранить группу");
  ("loadError", Text "Не удалось загрузить группы")].

Definition ru_confirm : dict := Group [
  ("title", Text "Вы уверены?");
  ("cancel", Text "Отменить");
  ("confirm", Text "Подтвердить");
  ("deleteDevice", Text "Удалить устройство");
  ("deleteDeviceBody", Text "Это навсегда удалит устройство и все его данные. Это действие нельзя отменить.")].

Definition ru_errors : dict := Group [
  ("fleetHealthLoad", Text "Не удалось загрузить состояние парка");
  ("alertsLoad", Text "Не удалось загрузить оповещения");
  ("metricsLoad", Text "Не удалось загрузить метрики");
  ("configModelLoad", Text "Не удалось загрузить конфигурацию");
  ("configCapabilitiesLoad", Text "Не удалось загрузить возможности");
  ("configChangesLoad", Text "Не удалось загрузить изменения");
  ("configChangeAction", Text "Действие не удалось (возможно, у вас нет прав)");
  ("reportSettingsLoad", Text "Не удалось загрузить настройки отчётов");
  ("reportSettingsAction", Text "Действие с настройками отчётов не удалось");
  ("reportsLoad", Text "Не удалось загрузить отчёты");
  ("reportGenerate", Text "Не удалось сформировать отчёт");
  ("attackerCountriesLoad", Text "Не удалось загрузить страны-источники атак");
  ("perimeterLoad", Text "Не удалось загрузить данные периметра");
  ("auditLoad", Text "Не удалось загрузить журнал аудита");
  ("retentionLoad", Text "Не удалось загрузить настройки хранения");
  ("retentionSave", Text "Не удалось сохранить настройки хранения")].

Definition ru_system : dict := Group [
  ("title", Text "Система");
  ("subtitle", Text "Общесистемные параметры времени выполнения.");
  ("livePush", Group [
    ("label", Text "Отправка конфигурации на устройства вживую");
    ("help", Text "Когда ВКЛ, применение изменения конфигурации записывается на реальное устройство. Когда ВЫКЛ, изменения выполняются только в режиме пробного прогона.");
    ("loadError", Text "Не удалось загрузить настройку отправки вживую.");
    ("enabled", Text "Отправка конфигурации вживую включена");
    ("disabled", Text "Отправка конфигурации вживую отключена");
    ("updateError", Text "Не удалось обновить отправку конфигурации вживую")]);
  ("runtime", Group [
    ("title", Text "Параметры времени выполнения");
    ("subtitle", Text "Настраиваются без перезапуска; значение здесь переопределяет значение по умолчанию из .env.");
    ("loadError", Text "Не удалось загрузить параметры времени выполнения.");
    ("save", Text "Сохранить");
    ("discard", Text "Отменить изменения");
    ("saved", Text "Параметры времени выполнения сохранены");
    ("saveError", Text "Не удалось сохранить параметры времени выполнения");
    ("defaultLabel", Text "по умолчанию");
    ("impactsTitle", Text "Снижение этого значения хранения затрагивает арендаторов");
    ("impactItem", Text "{tenant}: расписание отчёта {store} требует {range} дн., но {store} теперь хранится {bound} дн.");
    ("groups", Group [
      ("firmware", Text "Прошивка");
      ("distribution", Text "Распространение каталогов и GeoIP");
      ("maintenance", Text "Обслуживание");
      ("retention", Text "Хранение данных");
      ("security_login", Text "Защита входа");
      ("security_session", Text "Сеансы")]);
    ("items", Group [
      ("firmware_max_status_polls", Group [
        ("label", Text "Макс. опросов статуса");
        ("help", Text "Количество опросов статуса до отказа от действия с прошивкой.")]);
      ("firmware_poll_interval_seconds", Group [
        ("label", Text "Интервал опроса (с)");
        ("help", Text "Задержка между опросами статуса прошивки.")]);
      ("catalog_auto_fetch", Group [
        ("label", Text "Автозагрузка каталогов конфигурации");
        ("help", Text "Загружать версионированные каталоги из релиза при промахе кэша.")]);
      ("geoip_auto_fetch", Group [
        ("label", Text "Автозагрузка базы GeoIP");
        ("help", Text "Загружать базу GeoIP из релиза при промахе кэша.")]);
      ("silent_alert_enabled", Group [
        ("label", Text "Оповещения о «молчащих» арендаторах");
        ("help", Text "Оповещать, когда арендатор с пересылкой перестаёт отправлять журналы.")]);
      ("silent_alert_after_hours", Group [
        ("label", Text "Молчание после (часы)");
        ("help", Text "Часов тишины до пометки арендатора.")]);
      ("perimeter_retention_days", Group [
        ("label", Text "Хранение периметра (дни)");
        ("help", Text "Глобальное значение по умолчанию для срока хранения данных об атакующих на периметре.")]);
      ("events_retention_days", Group [
        ("label", Text "Хранение событий (дни)");
        ("help", Text "Глобальное значение по умолчанию для срока хранения данных о событиях.")]);
      ("metrics_retention_days", Group [
        ("label", Text "Хранение метрик (дни)");
        ("help", Text "Глобальное значение по умолчанию для срока хранения данных метрик.")]);
      ("log_lake_retention_days", Group [
        ("label", Text "Хранение озера журналов (дни)");
        ("help", Text "Глобальное значение по умолчанию для срока хранения данных озера журналов.")]);
      ("login_max_attempts", Group [
        ("label", Text "Макс. попыток входа");
        ("help", Text "Число неудачных попыток входа до блокировки.")]);
      ("login_lockout_window_seconds", Group [
        ("label", Text "Окно блокировки (с)");
        ("help", Text "Скользящее окно для подсчёта неудачных входов.")]);
      ("session_ttl_hours", Group [
        ("label", Text "Время жизни сеанса (часы)");
        ("help", Text "Абсолютное время жизни сеанса.")]);
      ("session_idle_minutes", Group [
        ("label", Text "Тайм-аут простоя (минуты)");
        ("help", Text "Время простоя до истечения сеанса.")]);
      ("trusted_device_days", Group [
        ("label", Text "Срок действия доверенного устройства (дни)");
        ("help", Text "Как долго доверенное устройство может пропускать второй фактор, прежде чем потребуется повторное подтверждение.")])])])].

Definition ru_logFleet : dict := Group [
  ("title", Text "Парк журналов");
  ("loadError", Text "Не удалось загрузить парк журналов.");
  ("exportCsv", Text "Экспорт CSV");
  ("exportPdf", Text "Экспорт PDF");
  ("exportFailed", Text "Не удалось выполнить экспорт.");
  ("silentBadge", Text "молчит");
  ("silentAlertsTitle", Text "Оповещения о молчащих арендаторах");
  ("silentAlertsBody", Text "включили пересылку, но недавних журналов нет.");
  ("volume", Text "Объём");
  ("devicesTitle", Text "Устройства");
  ("devicesLoadError", Text "Не удалось загрузить устройства.");
  ("noDevices", Text "Нет устройств.");
  ("stats", Group [
    ("tenantsForwarding", Text "Арендаторы с пересылкой");
    ("enabledDevices", Text "Устройства с пересылкой");
    ("silentTenants", Text "Молчащие арендаторы")]);
  ("table", Group [
    ("tenant", Text "Арендатор");
    ("device", Text "Устройство");
    ("forwarding", Text "Пересылка");
    ("revoked", Text "Отозвано");
    ("lastLog", Text "Последний журнал")])].

Definition ru_perimeter : dict := Group [
  ("title", Text "Периметр");
  ("subtitle", Text "IP-адреса атакующих на периметре межсетевого экрана — неудачные входы на устройство и заблокированный трафик.");
  ("failedLogins", Text "Неудачные входы");
  ("firewallBlocks", Text "Блокировки межсетевого экрана");
  ("failedLoginsHelp", Text "Отклонённые попытки входа на устройство.");
  ("firewallBlocksHelp", Text "Входящий трафик, отброшенный межсетевым экраном.");
  ("ip", Text "IP-адрес источника");
  ("country", Text "Страна");
  ("user", Text "Пользователь");
  ("port", Text "Порт");
  ("count", Text "Количество");
  ("lastSeen", Text "Последняя активность");
  ("empty", Text "Нет активности за этот период.");
  ("viewAll", Text "Показать все");
  ("loadError", Text "Не удалось загрузить данные периметра.")].

Definition ru_retention : dict := Group [
  ("title", Text "Хранение данных");
  ("subtitle", Text "Переопределите срок хранения данных этого арендатора. Оставьте поле пустым, чтобы унаследовать глобальное значение по умолчанию.");
  ("inheritHint", Text "Наследовать глобальное");
  ("save", Text "Сохранить настройки");
  ("saved", Text "Настройки хранения сохранены.");
  ("stores", Group [
    ("perimeter", Text "Периметр (дни)");
    ("events", Text "События (дни)");
    ("metrics", Text "Метрики (дни)");
    ("log_lake", Text "Озеро журналов (дни)")]);
  ("warningTitle", Text "Расписания отчётов превышают срок хранения");
  ("warningItem", Text "Расписание «{frequency}» охватывает {range} дн., но данные «{store}» хранятся {bound} дн.")].

Definition ru_audit : dict := Group [
  ("title", Text "Журнал аудита");
  ("subtitle", Text "Все изменяющие действия на платформе с указанием инициатора и арендатора.");
  ("filters", Group [
    ("actor", Text "Эл. почта инициатора");
    ("tenant", Text "ID арендатора");
    ("action", Text "Действие");
    ("from", Text "С");
    ("to", Text "По");
    ("apply", Text "Применить");
    ("reset", Text "Сбросить")]);
  ("columns", Group [
    ("time", Text "Время");
    ("actor", Text "Инициатор");
    ("tenant", Text "Арендатор");
    ("action", Text "Действие");
    ("target", Text "Объект");
    ("ip", Text "IP");
    ("details", Text "Подробности")]);
  ("empty", Text "Нет записей аудита, соответствующих этим фильтрам.");
  ("export", Text "Экспорт CSV");
  ("exportFailed", Text "Не удалось выполнить экспорт.");
  ("page", Text "Страница {page}");
  ("showingTotal", Text "{total} записей");
  ("prev", Text "Назад");
  ("next", Text "Далее")].

Definition ru_reliability : dict := Group [
  ("tab", Text "Надёжность");
  ("title", Text "Служебные события (24 ч)");
  ("subtitle", Text "Перезагрузки, сбои/перезапуски служб и предупреждения о диске из системного журнала устройства.");
  ("time", Text "Время");
  ("category", Text "Категория");
  ("name", Text "Событие");
  ("severity", Text "Серьёзность");
  ("process", Text "Процесс");
  ("message", Text "Сообщение");
  ("categories", Group [
    ("reboot", Text "Перезагрузка");
    ("service", Text "Служба");
    ("disk", Text "Диск")]);
  ("severities", Group [
    ("high", Text "Высокая");
    ("medium", Text "Средняя");
    ("low", Text "Низкая")]);
  ("loadMore", Text "Загрузить ещё");
  ("empty", Text "Нет служебных событий за этот период.");
  ("loading", Text "Загрузка служебных событий…");
  ("loadError", Text "Не удалось загрузить служебные события.");
  ("last24h", Text "Последние 24 часа")].

Definition ru_configAudit : dict := Group [
  ("tab", Text "Изменения конфиг.");
  ("title", Text "Прямые изменения конфигурации (24 ч)");
  ("subtitle", Text "Кто и как менял конфигурацию устройства — прямые изменения на устройстве (веб-интерфейс/консоль) отмечаются как дрейф.");
  ("time", Text "Время");
  ("area", Text "Раздел");
  ("actor", Text "Автор");
  ("ip", Text "IP");
  ("channel", Text "Канал");
  ("change", Text "Изменение");
  ("direct", Text "Прямое");
  ("channels", Group [
    ("api", Text "API");
    ("gui", Text "Веб-интерфейс");
    ("system", Text "Консоль/скрипт");
    ("opngms", Text "OPNGMS");
    ("api_external", Text "Внешний API")]);
  ("loadMore", Text "Загрузить ещё");
  ("empty", Text "Нет изменений конфигурации за этот период.");
  ("loading", Text "Загрузка изменений конфигурации…");
  ("loadError", Text "Не удалось загрузить изменения конфигурации.");
  ("last24h", Text "Последние 24 часа")].

Definition ru_smtp : dict := Group [
  ("authMethod", Text "Аутентификация");
  ("authPassword", Text "Пароль");
  ("authOauth", Text "OAuth2");
  ("oauthProvider", Text "Провайдер");
  ("oauthGoogle", Text "Google / Gmail");
  ("oauthMicrosoft", Text "Microsoft 365");
  ("oauthClientId", Text "Client ID");
  ("oauthClientSecret", Text "Client secret");
  ("oauthRefreshToken", Text "Refresh token");
  ("oauthTenantId", Text "Tenant ID");
  ("oauthSecretSaved", Text "сохранено — оставьте пустым, чтобы сохранить");
  ("oauthConnect", Text "Подключить аккаунт");
  ("oauthConnectGoogle", Text "Подключить через Google");
  ("oauthConnectMicrosoft", Text "Подключить через Microsoft 365");
  ("oauthExperimental", Text "Экспериментально — не протестировано");
  ("oauthExperimentalNote", Text "Вход через браузер для OAuth не был проверен с реальным провайдером. Необходимо установить PUBLIC_BASE_URL и зарегистрировать URI перенаправления в вашем приложении OAuth. Вставка токена обновления выше остаётся поддерживаемым способом.");
  ("oauthConnectNeedsCreds", Text "Сначала сохраните идентификатор клиента и секрет, затем подключитесь.");
  ("oauthConnected", Text "Аккаунт подключён.");
  ("oauthConnectFailed", Text "Не удалось подключить аккаунт.")].

Definition ru : dict := Group [
  ("common", ru_common);
  ("nav", ru_nav);
  ("login", ru_login);
  ("tenant", ru_tenant);
  ("overview", ru_overview);
  ("alerts", ru_alerts);
  ("devices", ru_devices);
  ("deviceDetail", ru_deviceDetail);
  ("deviceActions", ru_deviceActions);
  ("firmware", ru_firmware);
  ("plugins", ru_plugins);
  ("templates", ru_templates);
  ("deviceCreate", ru_deviceCreate);
  ("health", ru_health);
  ("logForwarding", ru_logForwarding);
  ("catalog", ru_catalog);
  ("config", ru_config);
  ("deviceHealth", ru_deviceHealth);
  ("chart", ru_chart);
  ("reports", ru_reports);
  ("sessions", ru_sessions);
  ("mfa", ru_mfa);
  ("groups", ru_groups);
  ("confirm", ru_confirm);
  ("errors", ru_errors);
  ("system", ru_system);
  ("logFleet", ru_logFleet);
  ("perimeter", ru_perimeter);
  ("retention", ru_retention);
  ("audit", ru_audit);
  ("reliability", ru_reliability);
  ("configAudit", ru_configAudit);
  ("smtp", ru_smtp)].
