(* ===== verification/DictAr.v ===== *)
(** * The Arabic texts ([i18n/ar.ts]), one definition per group *)
From S2P Require Import Prelude Dict.

Definition ar_common : dict := Group [
  ("appName", Text "OPNGMS");
  ("logout", Text "تسجيل الخروج");
  ("none", Text "—");
  ("language", Text "اللغة");
  ("cancel", Text "إلغاء")].

Definition ar_nav : dict := Group [
  ("overview", Text "نظرة عامة");
  ("devices", Text "الأجهزة");
  ("alerts", Text "التنبيهات");
  ("perimeter", Text "المحيط");
  ("reportSettings", Text "إعدادات التقارير");
  ("reportSchedule", Text "جدولة التقارير");
  ("reports", Text "التقارير");
  ("logs", Text "السجلات");
  ("sessions", Text "الجلسات النشطة");
  ("mfa", Text "المصادقة الثنائية");
  ("templates", Text "مكتبة القوالب");
  ("smtp", Text "SMTP");
  ("logFleet", Text "أسطول السجلات");
  ("system", Text "النظام");
  ("groups", Text "المجموعات");
  ("audit", Text "سجل التدقيق")].

Definition ar_login : dict := Group [
  ("title", Text "OPNGMS");
  ("email", Text "البريد الإلكتروني");
  ("password", Text "كلمة المرور");
  ("passwordToggle", Text "إظهار/إخفاء");
  ("submit", Text "تسجيل الدخول");
  ("invalidCredentials", Text "بيانات اعتماد غير صالحة");
  ("mfa", Group [
    ("title", Text "المصادقة الثنائية");
    ("codeHint", Text "أدخل الرمز المكوّن من 6 أرقام من تطبيق المصادقة.");
    ("recoveryHint", Text "أدخل أحد رموز الاسترداد لمرة واحدة.");
    ("codeLabel", Text "رمز المصادقة");
    ("recoveryLabel", Text "رمز الاسترداد");
    ("verify", Text "تحقّق");
    ("useRecovery", Text "استخدم رمز استرداد بدلاً من ذلك");
    ("useCode", Text "استخدم رمز المصادقة بدلاً من ذلك");
    ("invalidCode", Text "رمز غير صالح");
    ("or", Text "أو");
    ("usePasskey", Text "استخدام مفتاح مرور / مفتاح أمان");
    ("passkeyError", Text "فشل تسجيل الدخول بمفتاح المرور. حاول مرة أخرى.");
    ("passkeyNotSupported", Text "هذا المتصفح لا يدعم مفاتيح المرور.");
    ("rememberDevice", Text "الوثوق بهذا الجهاز لمدة {days} يومًا");
    ("rememberDeviceHelp", Text "لن يُطلب منك عامل ثانٍ في المرة القادمة التي تسجّل فيها الدخول من هذا الجهاز.")])].

Definition ar_tenant : dict := Group [
  ("activeLabel", Text "المستأجر النشط");
  ("none", Text "لا يوجد مستأجر")].

Definition ar_overview : dict := Group [
  ("title", Text "نظرة عامة");
  ("activeAlerts", Text "التنبيهات النشطة");
  ("noActiveAlerts", Text "لا توجد تنبيهات نشطة");
  ("healthLoadError", Text "فشل تحميل صحة الأسطول");
  ("alertsLoadError", Text "فشل تحميل التنبيهات");
  ("attackerCountries", Group [
    ("title", Text "أبرز الدول المهاجمة");
    ("mapTitle", Text "مصادر الهجمات");
    ("empty", Text "لم تُسجَّل أي هجمات في هذه الفترة.");
    ("private", Text "خاص / داخلي");
    ("unknown", Text "غير معروف");
    ("attribution", Text "بيانات الدول: DB-IP (CC BY 4.0)")])].

Definition ar_alerts : dict := Group [
  ("title", Text "التنبيهات");
  ("active", Text "نشط");
  ("history", Text "السجل");
  ("loadError", Text "فشل تحميل التنبيهات");
  ("noAlerts", Text "لا توجد تنبيهات");
  ("colType", Text "النوع");
  ("colLabel", Text "التسمية");
  ("colSeverity", Text "الخطورة");
  ("colOpened", Text "تاريخ الفتح");
  ("colResolved", Text "تاريخ الحل");
  ("colDevice", Text "الجهاز")].

Definition ar_devices : dict := Group [
  ("title", Text "الأجهزة");
  ("add", Text "إضافة جهاز");
  ("loadError", Text "فشل تحميل الأجهزة");
  ("colName", Text "الاسم");
  ("colUrl", Text "URL");
  ("colStatus", Text "الحالة");
  ("colFirmware", Text "البرنامج الثابت")].

Definition ar_deviceDetail : dict := Group [
  ("url", Text "URL");
  ("status", Text "الحالة");
  ("firmware", Text "البرنامج الثابت");
  ("loadError", Text "فشل تحميل الجهاز")].

Definition ar_deviceActions : dict := Group [
  ("testConnection", Text "اختبار الاتصال");
  ("delete", Text "حذف");
  ("testResult", Text "نتيجة الاختبار");
  ("testNotification", Text "اختبار");
  ("testFailed", Text "فشل اختبار الاتصال");
  ("deleteFailed", Text "فشل الحذف");
  ("openWebGui", Text "فتح WebGUI")].

Definition ar_firmware : dict := Group [
  ("title", Text "البرنامج الثابت");
  ("tab", Text "البرنامج الثابت");
  ("check", Text "البحث عن تحديثات");
  ("upToDate", Text "محدّث");
  ("updatesAvailable", Text "تتوفر تحديثات");
  ("downloadSize", Text "حجم التنزيل");
  ("rebootNeeded", Text "إعادة التشغيل مطلوبة");
  ("newMajor", Text "إصدار رئيسي جديد متاح");
  ("update", Text "تحديث البرنامج الثابت");
  ("upgrade", Text "الترقية إلى الإصدار الرئيسي الجديد");
  ("updateConfirm", Text "تطبيق جميع تحديثات الحزم المعلّقة؟ قد يُعاد تشغيل الجهاز.");
  ("upgradeConfirm", Text "الترقية إلى الإصدار الرئيسي الجديد؟ تُنفّذ هذه العملية عدة خطوات مع إعادة تشغيل وقد تستغرق بعض الوقت.");
  ("plugins", Text "الإضافات");
  ("pluginName", Text "اسم الإضافة");
  ("install", Text "تثبيت");
  ("remove", Text "إزالة");
  ("installConfirm", Text "تثبيت هذه الإضافة؟ يجب أن يكون الجهاز على أحدث برنامج ثابت.");
  ("removeConfirm", Text "إزالة هذه الإضافة؟");
  ("runNow", Text "تشغيل الآن");
  ("scheduleAt", Text "الجدولة (اتركه فارغاً للتشغيل الآن)");
  ("schedule", Text "جدولة");
  ("recentActions", Text "الإجراءات الأخيرة");
  ("noActions", Text "لا توجد إجراءات بعد");
  ("actionQueued", Text "تمت إضافة الإجراء إلى قائمة الانتظار");
  ("actionFailed", Text "تعذّر إضافة الإجراء إلى قائمة الانتظار");
  ("checkFailed", Text "فشل فحص البرنامج الثابت");
  ("kind", Text "الإجراء");
  ("status", Text "الحالة");
  ("when", Text "متى");
  ("result", Text "النتيجة")].

Definition ar_plugins : dict := Group [
  ("tab", Text "الإضافات");
  ("title", Text "الإضافات");
  ("subtitle", Text "الإضافات التي يبلّغ عنها الجدار الناري. ثبّت أو أزل إضافات المجتمع؛ للتثبيت يجب أن يكون الجهاز على أحدث برنامج ثابت.");
  ("search", Text "البحث في الإضافات…");
  ("name", Text "الإضافة");
  ("status", Text "الحالة");
  ("version", Text "الإصدار");
  ("installed", Text "مثبّتة");
  ("notInstalled", Text "متاحة");
  ("locked", Text "مقفلة");
  ("install", Text "تثبيت");
  ("remove", Text "إزالة");
  ("installConfirm", Text "تثبيت هذه الإضافة؟");
  ("removeConfirm", Text "إزالة هذه الإضافة؟");
  ("empty", Text "لم يتم الإبلاغ عن أي إضافات بعد — يتم استطلاع الجهاز دوريًا.");
  ("loadFailed", Text "تعذّر تحميل الإضافات.");
  ("configure", Text "تهيئة");
  ("configureTitle", Text "إعدادات الإضافة")].

Definition ar_templates : dict := Group [
  ("tab", Text "القوالب");
  ("libraryTitle", Text "مكتبة القوالب");
  ("superadminOnly", Text "تتم إدارة مكتبة القوالب بواسطة مسؤولي المنصة.");
  ("name", Text "الاسم");
  ("kind", Text "النوع");
  ("type", Text "نوع الاسم المستعار");
  ("content", Text "المحتوى (إدخال واحد لكل سطر)");
  ("description", Text "الوصف");
  ("create", Text "قالب جديد");
  ("edit", Text "تعديل");
  ("save", Text "حفظ");
  ("delete", Text "حذف");
  ("deleteConfirm", Text "حذف هذا القالب؟ تتم إزالة التجاوزات الخاصة بكل مستأجر؛ وتحتفظ التغييرات المطبّقة بسجلها.");
  ("empty", Text "لا توجد قوالب بعد.");
  ("created", Text "تم إنشاء القالب");
  ("updated", Text "تم تحديث القالب");
  ("saveFailed", Text "تعذّر حفظ القالب");
  ("apply", Group [
    ("title", Text "تطبيق قالب");
    ("pick", Text "القالب");
    ("override", Text "تجاوز هذا العميل (المحتوى، إدخال واحد لكل سطر — اتركه فارغاً لاستخدام قيمة المكتبة)");
    ("saveOverride", Text "حفظ التجاوز");
    ("overrideSaved", Text "تم حفظ التجاوز");
    ("preview", Text "معاينة");
    ("previewTitle", Text "التكوين الفعلي");
    ("applyConfirm", Text "تطبيق هذا القالب على الجهاز؟");
    ("runNow", Text "تطبيق الآن");
    ("scheduleAt", Text "الجدولة (اتركه فارغاً للتطبيق الآن)");
    ("schedule", Text "جدولة");
    ("queued", Text "تمت إضافة التطبيق إلى قائمة الانتظار");
    ("failed", Text "تعذّر تطبيق القالب");
    ("none", Text "لا توجد قوالب متاحة.")]);
  ("templatesTab", Text "القوالب");
  ("kindLabel", Text "نوع القالب");
  ("kindAlias", Text "اسم مستعار لجدار الحماية");
  ("kindSetting", Text "إعداد OPNsense");
  ("setting", Group [
    ("endpoint", Text "الإعداد");
    ("referenceDevice", Text "الجهاز المرجعي (لقراءة الحقول المتاحة)");
    ("load", Text "تحميل الحقول");
    ("loadHint", Text "اختر إعداداً وجهازاً، ثم حمّل الحقول لتكوينها.");
    ("noDevice", Text "لا يوجد جهاز متاح في المستأجر النشط لقراءة الحقول منه.");
    ("loadFailed", Text "تعذّر قراءة الإعداد من الجهاز.");
    ("noFields", Text "لا توجد حقول قابلة للتكوين.");
    ("hardwareNote", Text "الحقول الخاصة بالعتاد/الجهاز غير قابلة للتحويل إلى قالب عمداً.")]);
  ("kindFirewallRule", Text "قاعدة جدار الحماية (القواعد [جديد])");
  ("fw", Group [
    ("referenceDevice", Text "الجهاز المرجعي (لقراءة حقول القاعدة المتاحة)");
    ("load", Text "تحميل الحقول");
    ("loadHint", Text "اختر جهازاً، ثم حمّل حقول القاعدة لتكوينها.");
    ("noDevice", Text "لا يوجد جهاز متاح في المستأجر النشط لقراءة الحقول منه.");
    ("loadFailed", Text "تعذّر قراءة نموذج القاعدة من الجهاز.");
    ("descriptionRequired", Text "الوصف مطلوب (فهو هوية القاعدة).");
    ("interface", Text "الواجهة (تُختار عند التطبيق)");
    ("floating", Text "عائمة (بدون واجهة)");
    ("note", Text "تُختار الواجهة عند التطبيق؛ اتركها فارغة لقاعدة عائمة.")]);
  ("kindMonitTest", Text "اختبار فحص الصحة Monit");
  ("monit", Group [
    ("referenceDevice", Text "الجهاز المرجعي (لقراءة حقول الاختبار المتاحة)");
    ("load", Text "تحميل الحقول");
    ("loadHint", Text "اختر جهازاً، ثم حمّل حقول الاختبار لتكوينها.");
    ("noDevice", Text "لا يوجد جهاز متاح في المستأجر النشط لقراءة الحقول منه.");
    ("loadFailed", Text "تعذّر قراءة نموذج الاختبار من الجهاز.");
    ("nameRequired", Text "الاسم مطلوب (فهو هوية الاختبار).");
    ("note", Text "يصبح الاختبار سارياً بمجرد ربطه بخدمة Monit.");
    ("attachSystem", Text "اربط هذا الاختبار بخدمة النظام ليصبح سارياً");
    ("attachSystemNote", Text "عند التفعيل، يقوم التطبيق أيضاً بربط الاختبار بخدمة نظام Monit الخاصة بالجهاز.")]);
  ("kindIdsRulesets", Text "مجموعات قواعد Suricata/IDS");
  ("ids", Group [
    ("referenceDevice", Text "الجهاز المرجعي (لقراءة مجموعات القواعد المتاحة)");
    ("load", Text "تحميل مجموعات القواعد");
    ("loadHint", Text "اختر جهازاً، ثم حمّل مجموعات قواعده لاختيار ما تريد تفعيله.");
    ("noDevice", Text "لا يوجد جهاز متاح في المستأجر النشط لقراءة مجموعات القواعد منه.");
    ("loadFailed", Text "تعذّر قراءة مجموعات القواعد من الجهاز.");
    ("rulesets", Text "مجموعات القواعد المراد تفعيلها");
    ("noRulesets", Text "لم يتم العثور على مجموعات قواعد على الجهاز.");
    ("note", Text "يقوم التطبيق بتفعيل مجموعات القواعد المحددة (إضافي — لا يعطّل الأخرى).")]);
  ("kindIdsPolicy", Text "سياسة Suricata/IDS");
  ("idsPolicy", Group [
    ("description", Text "الوصف (هوية السياسة)");
    ("enabled", Text "مُفعّلة");
    ("prio", Text "الأولوية");
    ("action", Text "الإجراء الحالي المطابق (القواعد التي يكون إجراؤها أحد هذه الإجراءات)");
    ("newAction", Text "الإجراء الجديد");
    ("rulesets", Text "مجموعات القواعد التي تنطبق عليها السياسة");
    ("referenceDevice", Text "الجهاز المرجعي (لقراءة مجموعات القواعد المتاحة)");
    ("load", Text "تحميل مجموعات القواعد");
    ("loadHint", Text "اختر جهازاً، ثم حمّل مجموعات قواعده المُفعّلة للإشارة إليها.");
    ("noDevice", Text "لا يوجد جهاز متاح في المستأجر النشط لقراءة مجموعات القواعد منه.");
    ("noRulesets", Text "لم يتم العثور على مجموعات قواعد مُفعّلة على الجهاز (فعّل مجموعة قواعد أولاً).");
    ("loadFailed", Text "تعذّر قراءة مجموعات القواعد من الجهاز.");
    ("content", Text "عوامل تصفية البيانات الوصفية (متقدم — معظم السياسات لا تحتاج إليها)");
    ("contentKey", Text "المفتاح");
    ("contentValues", Text "القيم (مفصولة بفواصل)");
    ("contentKeyInvalid", Text "مفتاح غير صالح — استخدم أحرفًا أو أرقامًا أو نقاطًا أو شرطات أو شرطات سفلية.");
    ("addContent", Text "إضافة عامل تصفية");
    ("descriptionRequired", Text "الوصف مطلوب (فهو هوية السياسة).");
    ("note", Text "يجب أن تكون مجموعات القواعد المُشار إليها مُفعّلة مسبقاً على الجهاز. يتم التحقق من ربط مجموعات القواعد/المحتوى في وقت التشغيل عند التطبيق.")]);
  ("profiles", Group [
    ("tab", Text "الملفات الشخصية");
    ("name", Text "الاسم");
    ("description", Text "الوصف");
    ("members", Text "القوالب (بترتيب التطبيق)");
    ("create", Text "ملف شخصي جديد");
    ("edit", Text "تعديل");
    ("save", Text "حفظ");
    ("delete", Text "حذف");
    ("deleteConfirm", Text "حذف هذا الملف الشخصي؟ تحتفظ التغييرات المطبّقة بسجلها.");
    ("empty", Text "لا توجد ملفات شخصية بعد.");
    ("created", Text "تم إنشاء الملف الشخصي");
    ("updated", Text "تم تحديث الملف الشخصي");
    ("saveFailed", Text "تعذّر حفظ الملف الشخصي");
    ("memberCount", Text "قوالب");
    ("apply", Group [
      ("title", Text "تطبيق ملف شخصي");
      ("pick", Text "الملف الشخصي");
      ("preview", Text "معاينة");
      ("previewTitle", Text "التكوين الفعلي (لكل قالب، بالترتيب)");
      ("interface", Text "الواجهة (تُختار عند التطبيق)");
      ("floating", Text "عائمة (بدون واجهة)");
      ("empty", Text "لا توجد ملفات شخصية متاحة.");
      ("applyConfirm", Text "تطبيق هذا الملف الشخصي على الجهاز؟ يطبّق كل قالب عضو بالترتيب.");
      ("runNow", Text "تطبيق الآن");
      ("scheduleAt", Text "الجدولة (اتركه فارغاً للتطبيق الآن)");
      ("schedule", Text "جدولة");
      ("queued", Text "تمت إضافة تطبيق الملف الشخصي إلى قائمة الانتظار");
      ("failed", Text "تعذّر تطبيق الملف الشخصي")])])].

Definition ar_deviceCreate : dict := Group [
  ("title", Text "إضافة جهاز");
  ("name", Text "الاسم");
  ("url", Text "URL (https)");
  ("apiKey", Text "مفتاح API");
  ("apiSecret", Text "سر API");
  ("verifyTls", Text "التحقق من TLS");
  ("tlsWarning", Text "عند إيقاف التحقق من TLS، لا يوجد ما يُصادق على شهادة الجهاز — يمكن اعتراض بيانات الاعتماد. ثبّت بصمة SHA-256 الخاصة بالشهادة أدناه لاستعادة الحماية.");
  ("tlsFingerprintLabel", Text "بصمة SHA-256 للشهادة (اختياري)");
  ("tlsFingerprintPlaceholder", Text "00:42:E2:C4:07:61:06:0D:56:A4:75:2F:FC:32:2B:4E:B3:CE:FF:31:8A:88:F3:22:2B:C1:B1:0D:46:0B:04:2C");
  ("save", Text "حفظ");
  ("created", Text "تم إنشاء الجهاز");
  ("createFailed", Text "فشل الإنشاء")].

Definition ar_health : dict := Group [
  ("totalDevices", Text "إجمالي الأجهزة");
  ("activeAlerts", Text "التنبيهات النشطة")].

Definition ar_logForwarding : dict := Group [
  ("tab", Text "إعادة توجيه السجلات")].

Definition ar_catalog : dict := Group [
  ("tab", Text "المحرّر");
  ("searchModels", Text "البحث في الإعدادات…");
  ("noModels", Text "لا يوجد كتالوج لإصدار هذا الجهاز.");
  ("selectModel", Text "حدد مجموعة إعدادات على اليسار لتعديلها.");
  ("readOnly", Text "غير قابل للتعديل (قائمة حظر للسلامة).");
  ("unreachable", Text "الجهاز غير قابل للوصول — القيم المباشرة مطلوبة للتعديل.");
  ("liveValues", Text "القيم المباشرة");
  ("propose", Text "اقتراح تغيير");
  ("preview", Text "مراجعة التغيير");
  ("noChanges", Text "لا توجد تغييرات لاقتراحها.");
  ("proposed", Text "تم إنشاء مسودة تغيير — جدوِلها من علامة تبويب التكوين.");
  ("proposeFailed", Text "تعذّر إنشاء التغيير.");
  ("loadFailed", Text "تعذّر تحميل النموذج.");
  ("openWebgui", Text "فتح في WebGUI");
  ("searchAll", Text "البحث في الإعدادات…");
  ("grid", Group [
    ("add", Text "إضافة صف");
    ("save", Text "حفظ");
    ("edit", Text "تعديل");
    ("delete", Text "حذف");
    ("empty", Text "لا توجد صفوف.")]);
  ("diff", Group [
    ("baseline", Text "قارن مع");
    ("noBaseline", Text "لا توجد نسخة أقدم");
    ("newSince", Text "جديد منذ {v}");
    ("changedSince", Text "تغيّر منذ {v}");
    ("changes", Text "تغييرات")]);
  ("map", Group [
    ("tabMenu", Text "القائمة");
    ("tabMap", Text "خريطة الإعدادات");
    ("editInCatalog", Text "تعديل في الكتالوج");
    ("readOnly", Text "للقراءة فقط (لا توجد واجهة برمجية)");
    ("staleBanner", Text "قديم — الجهاز غير قابل للوصول؛ يتم عرض آخر نسخة احتياطية من {when}")])].

Definition ar_config : dict := Group [
  ("tabInfo", Text "معلومات");
  ("tabHealth", Text "الصحة");
  ("tabConfig", Text "التكوين");
  ("capabilities", Text "القدرات");
  ("version", Text "إصدار OPNsense");
  ("interfaces", Text "الواجهات");
  ("configuredSections", Text "الأقسام المكوّنة");
  ("available", Text "القدرات المتاحة");
  ("hidden", Text "مخفي");
  ("noConfigYet", Text "لم يتم التقاط أي تكوين بعد");
  ("nic", Text "NIC");
  ("changes", Group [
    ("title", Text "التغييرات المعلّقة");
    ("propose", Text "اقتراح تغيير الاسم المستعار");
    ("none", Text "لا توجد تغييرات معلّقة");
    ("colKind", Text "النوع");
    ("colOperation", Text "العملية");
    ("colTarget", Text "الهدف");
    ("colStatus", Text "الحالة");
    ("colScheduled", Text "مجدول");
    ("preview", Text "معاينة");
    ("schedule", Text "جدولة");
    ("cancel", Text "إلغاء");
    ("revert", Text "تراجع");
    ("reverts", Text "يتراجع عن #");
    ("applyNow", Text "تطبيق الآن");
    ("pickTime", Text "اختر التاريخ/الوقت");
    ("checkDrift", Text "فحص الانحراف");
    ("driftUnreachable", Text "تعذّر الوصول إلى الجهاز — الانحراف غير معروف.");
    ("driftInSync", Text "متزامن");
    ("driftDrifted", Text "انحراف");
    ("driftMissing", Text "مفقود");
    ("driftUnsupported", Text "غير متاح");
    ("driftFields", Text "الحقول المنحرفة: ");
    ("operation", Text "العملية");
    ("name", Text "الاسم");
    ("type", Text "النوع");
    ("content", Text "المحتوى (واحد لكل سطر)");
    ("create", Text "إنشاء");
    ("add", Text "إضافة");
    ("set", Text "تعيين");
    ("delete", Text "حذف")])].

Definition ar_deviceHealth : dict := Group [
  ("title", Text "الصحة");
  ("cpu", Text "CPU");
  ("memory", Text "الذاكرة");
  ("disk", Text "القرص");
  ("trafficIn", Text "حركة المرور الواردة");
  ("trafficOut", Text "حركة المرور الصادرة");
  ("gatewayRtt", Text "RTT للبوابة");
  ("gatewayLoss", Text "فقدان البوابة");
  ("vpnUp", Text "VPN يعمل")].

Definition ar_chart : dict := Group [
  ("noData", Text "لا توجد بيانات بعد")].

Definition ar_reports : dict := Group [
  ("page", Group [
    ("title", Text "التقارير");
    ("generate", Text "إنشاء تقرير");
    ("from", Text "من");
    ("to", Text "إلى");
    ("period", Text "الفترة");
    ("kind", Text "النوع");
    ("created", Text "تاريخ الإنشاء");
    ("size", Text "الحجم");
    ("download", Text "تنزيل");
    ("none", Text "لا توجد تقارير بعد.");
    ("generated", Text "تم إنشاء التقرير");
    ("kindOnDemand", Text "عند الطلب");
    ("kindScheduled", Text "مجدول")]);
  ("settings", Group [
    ("pageTitle", Text "إعدادات التقارير");
    ("title", Text "عنوان التقرير");
    ("owner", Text "المالك");
    ("timezone", Text "المنطقة الزمنية");
    ("fromEmail", Text "البريد المُرسِل (تسليم التقارير)");
    ("logo", Text "الشعار");
    ("upload", Text "تحميل الشعار");
    ("remove", Text "إزالة الشعار");
    ("language", Text "لغة التقرير");
    ("save", Text "حفظ الإعدادات");
    ("adminsOnly", Text "إعدادات التقارير متاحة لمسؤولي المستأجر فقط.");
    ("saved", Text "تم حفظ إعدادات التقارير.");
    ("logoUploaded", Text "تم تحميل الشعار.");
    ("logoRemoved", Text "تمت إزالة الشعار.");
    ("hasLogo", Text "تم تحميل الشعار");
    ("noLogo", Text "لا يوجد شعار")]);
  ("sections", Group [
    ("title", Text "أقسام التقرير");
    ("description", Text "اختر الأقسام التي تظهر في تقرير PDF.");
    ("customizeForDevice", Text "تخصيص الأقسام لهذا الجهاز");
    ("summary", Text "الملخص التنفيذي");
    ("health", Text "حالة الجهاز");
    ("alerts_wan", Text "التنبيهات والاتصال");
    ("attacks", Text "الهجمات");
    ("attacker_countries", Text "الدول المهاجمة");
    ("failed_logins", Text "محاولات تسجيل دخول فاشلة");
    ("firewall_blocks", Text "حظر الجدار الناري");
    ("web", Text "نشاط الويب");
    ("data", Text "استخدام البيانات");
    ("status", Text "حالة التشغيل/الإيقاف");
    ("firmware_config", Text "البرنامج الثابت والإعدادات");
    ("applications", Text "التطبيقات");
    ("web_filter", Text "مرشح الويب")])].

Definition ar_sessions : dict := Group [
  ("pageTitle", Text "الجلسات النشطة");
  ("colLastSeen", Text "آخر ظهور");
  ("colCreated", Text "تاريخ الإنشاء");
  ("colExpires", Text "تاريخ الانتهاء");
  ("colIp", Text "عنوان IP");
  ("colUserAgent", Text "وكيل المستخدم");
  ("current", Text "الحالية");
  ("logoutAll", Text "تسجيل الخروج من كل مكان");
  ("loadError", Text "فشل تحميل الجلسات");
  ("logoutAllError", Text "فشل تسجيل الخروج من كل مكان")].

Definition ar_mfa : dict := Group [
  ("pageTitle", Text "المصادقة الثنائية");
  ("intro", Text "احمِ حسابك بكلمة مرور لمرة واحدة قائمة على الوقت (TOTP) من تطبيق مصادقة.");
  ("status", Text "الحالة");
  ("enabled", Text "مُفعّلة");
  ("disabled", Text "مُعطّلة");
  ("recoveryRemaining", Text "رموز الاسترداد المتبقية");
  ("statusError", Text "فشل تحميل حالة MFA");
  ("enroll", Text "إعداد المصادقة الثنائية");
  ("enrollStart", Text "بدء الإعداد");
  ("password", Text "كلمة المرور الحالية");
  ("passwordHint", Text "أعد إدخال كلمة المرور لتغيير إعدادات المصادقة الثنائية.");
  ("scanHint", Text "امسح رمز QR هذا بتطبيق المصادقة، أو أدخل السر يدوياً.");
  ("secretLabel", Text "المفتاح السري");
  ("confirmCodeLabel", Text "رمز المصادقة");
  ("confirmHint", Text "أدخل الرمز المكوّن من 6 أرقام من تطبيقك لإنهاء الإعداد.");
  ("confirm", Text "تأكيد وتفعيل");
  ("cancel", Text "إلغاء");
  ("setupError", Text "تعذّر بدء الإعداد (تحقق من كلمة المرور).");
  ("confirmError", Text "رمز غير صالح. يرجى المحاولة مرة أخرى.");
  ("recoveryTitle", Text "رموز الاسترداد");
  ("recoveryIntro", Text "احفظ رموز الاسترداد هذه لمرة واحدة في مكان آمن. يمكن استخدام كل منها مرة واحدة إذا فقدت تطبيق المصادقة.");
  ("recoveryWarning", Text "تُعرض هذه الرموز مرة واحدة فقط.");
  ("copyAll", Text "نسخ الكل");
  ("copied", Text "تم النسخ إلى الحافظة");
  ("download", Text "تنزيل");
  ("done", Text "تم");
  ("regenerate", Text "إعادة إنشاء رموز الاسترداد");
  ("regenerateError", Text "تعذّر إعادة إنشاء رموز الاسترداد (تحقق من كلمة المرور).");
  ("disable", Text "تعطيل المصادقة الثنائية");
  ("disableConfirmTitle", Text "تعطيل المصادقة الثنائية؟");
  ("disableConfirmBody", Text "لن يتطلب حسابك عاملاً ثانياً عند تسجيل الدخول.");
  ("disableError", Text "تعذّر التعطيل (تحقق من كلمة المرور).");
  ("disabledNotice", Text "تم تعطيل المصادقة الثنائية.");
  ("policyTitle", Text "سياسة MFA للمؤسسة");
  ("policyIntro", Text "اشترط المصادقة الثنائية على مستوى المؤسسة.");
  ("policyOff", Text "إيقاف");
  ("policyAll", Text "جميع المستخدمين");
  ("policyPrivileged", Text "المستخدمون المميّزون");
  ("policyLoadError", Text "فشل تحميل سياسة MFA");
  ("policySaveError", Text "فشل تحديث سياسة MFA");
  ("policySaved", Text "تم تحديث سياسة MFA");
  ("usersTitle", Text "MFA للمستخدمين");
  ("colUser", Text "المستخدم");
  ("colEmail", Text "البريد الإلكتروني");
  ("colRole", Text "الدور");
  ("superadmin", Text "مسؤول عام");
  ("member", Text "عضو");
  ("reset", Text "إعادة تعيين MFA");
  ("resetConfirmTitle", Text "إعادة تعيين MFA لهذا المستخدم؟");
  ("resetConfirmBody", Text "يؤدي هذا إلى مسح سر TOTP ورموز الاسترداد الخاصة به. سيحتاج إلى إعادة التسجيل.");
  ("resetError", Text "فشل إعادة تعيين MFA للمستخدم");
  ("resetDone", Text "تمت إعادة تعيين MFA للمستخدم");
  ("usersLoadError", Text "فشل تحميل المستخدمين");
  ("gateTitle", Text "المصادقة الثنائية مطلوبة");
  ("gateIntro", Text "تتطلب مؤسستك المصادقة الثنائية. أعدّها الآن للمتابعة.");
  ("passkeys", Group [
    ("title", Text "مفاتيح المرور");
    ("intro", Text "سجّل مفتاح مرور أو مفتاح أمان لتسجيل الدخول دون رمز.");
    ("add", Text "إضافة مفتاح مرور");
    ("accountPassword", Text "كلمة مرور الحساب");
    ("name", Text "الاسم");
    ("namePlaceholder", Text "مثال: حاسوب العمل");
    ("unnamed", Text "مفتاح مرور");
    ("colName", Text "الاسم");
    ("colCreated", Text "تاريخ الإنشاء");
    ("remove", Text "إزالة");
    ("removeConfirmTitle", Text "إزالة مفتاح المرور هذا؟");
    ("removeConfirmBody", Text "لن يعود بالإمكان استخدام مفتاح المرور هذا لتسجيل الدخول.");
    ("addedNotice", Text "تمت إضافة مفتاح المرور.");
    ("removedNotice", Text "تمت إزالة مفتاح المرور.");
    ("addError", Text "تعذّر إضافة مفتاح المرور. حاول مرة أخرى.");
    ("removeError", Text "تعذّر إزالة مفتاح المرور.");
    ("listError", Text "تعذّر تحميل مفاتيح المرور");
    ("lastFactorError", Text "لا يمكنك إزالة آخر عامل ثانٍ لديك. أضف عاملاً آخر أولاً.");
    ("notConfigured", Text "مفاتيح المرور غير مهيّأة لمؤسستك.");
    ("notSupported", Text "هذا المتصفح لا يدعم مفاتيح المرور.")]);
  ("trustedDeviceToggle", Group [
    ("label", Text "تذكّر هذا الجهاز");
    ("help", Text "السماح للمستخدمين بتخطي العامل الثاني على الأجهزة التي يختارون الوثوق بها.")]);
  ("trustedDevices", Group [
    ("title", Text "الأجهزة الموثوقة");
    ("intro", Text "يمكن للأجهزة الموثوقة تسجيل الدخول دون عامل ثانٍ حتى انتهاء صلاحيتها. ألغِ أي جهاز لا تتعرف عليه.");
    ("colDevice", Text "الجهاز");
    ("colIp", Text "عنوان IP");
    ("colLastUsed", Text "آخر استخدام");
    ("colExpires", Text "تنتهي الصلاحية");
    ("revoke", Text "إلغاء");
    ("revokeAll", Text "إلغاء الكل");
    ("confirmTitle", Text "إلغاء هذا الجهاز؟");
    ("confirmBody", Text "سيحتاج هذا الجهاز إلى عامل ثانٍ عند تسجيل الدخول التالي.");
    ("revokeAllConfirmTitle", Text "إلغاء جميع الأجهزة الموثوقة؟");
    ("revokeAllConfirmBody", Text "ستحتاج جميع الأجهزة الموثوقة إلى عامل ثانٍ عند تسجيل الدخول التالي.");
    ("empty", Text "لا توجد أجهزة موثوقة.");
    ("loadError", Text "فشل تحميل الأجهزة الموثوقة.");
    ("revokeError", Text "تعذّر إلغاء الجهاز.");
    ("unknownDevice", Text "جهاز غير معروف")])].

Definition ar_groups : dict := Group [
  ("title", Text "المجموعات");
  ("description", Text "حدّد مجموعات المستخدمين وصلاحيات الوصول إلى المستأجرين التي يحصلون عليها.");
  ("superadminOnly", Text "تتم إدارة المجموعات بواسطة مسؤولي المنصة.");
  ("name", Text "الاسم");
  ("namePlaceholder", Text "اسم المجموعة");
  ("descriptionField", Text "الوصف");
  ("descriptionPlaceholder", Text "وصف اختياري");
  ("members", Text "الأعضاء");
  ("membersPlaceholder", Text "اختر المستخدمين");
  ("noMembers", Text "لا يوجد أعضاء بعد.");
  ("grants", Text "صلاحيات الوصول");
  ("noGrants", Text "لا توجد صلاحيات بعد.");
  ("addGrant", Text "إضافة صلاحية");
  ("allTenants", Text "جميع المستأجرين");
  ("tenant", Text "المستأجر");
  ("tenantPlaceholder", Text "اختر مستأجرًا");
  ("role", Text "الدور");
  ("roleTenantAdmin", Text "مسؤول المستأجر");
  ("roleOperator", Text "مشغّل");
  ("roleReadOnly", Text "قراءة فقط");
  ("allTenantsScope", Text "جميع المستأجرين");
  ("create", Text "مجموعة جديدة");
  ("createTitle", Text "إنشاء مجموعة");
  ("save", Text "حفظ");
  ("delete", Text "حذف");
  ("deleteConfirm", Text "حذف هذه المجموعة؟ سيفقد أعضاؤها الوصول الممنوح. لا يمكن التراجع عن هذا الإجراء.");
  ("removeGrant", Text "إزالة الصلاحية");
  ("empty", Text "لا توجد مجموعات بعد.");
  ("created", Text "تم إنشاء المجموعة");
  ("updated", Text "تم تحديث المجموعة");
  ("deleted", Text "تم حذف المجموعة");
  ("membersSaved", Text "تم تحديث الأعضاء");
  ("grantAdded", Text "تمت إضافة الصلاحية");
  ("grantRemoved", Text "تمت إزالة الصلاحية");
  ("saveFailed", Text "تعذّر حفظ المجموعة");
  ("loadError", Text "تعذّر تحميل المجموعات")].

Definition ar_confirm : dict := Group [
  ("title", Text "هل أنت متأكد؟");
  ("cancel", Text "إلغاء");
  ("confirm", Text "تأكيد");
  ("deleteDevice", Text "حذف الجهاز");
  ("deleteDeviceBody", Text "سيؤدي هذا إلى حذف الجهاز وجميع بياناته نهائياً. لا يمكن التراجع عن هذا الإجراء.")].

Definition ar_errors : dict := Group [
  ("fleetHealthLoad", Text "فشل تحميل صحة الأسطول");
  ("alertsLoad", Text "فشل تحميل التنبيهات");
  ("metricsLoad", Text "فشل تحميل المقاييس");
  ("configModelLoad", Text "فشل تحميل التكوين");
  ("configCapabilitiesLoad", Text "فشل تحميل القدرات");
  ("configChangesLoad", Text "فشل تحميل التغييرات");
  ("configChangeAction", Text "فشل الإجراء (قد لا تملك الصلاحية)");
  ("reportSettingsLoad", Text "فشل تحميل إعدادات التقارير");
  ("reportSettingsAction", Text "فشل إجراء إعدادات التقارير");
  ("reportsLoad", Text "فشل تحميل التقارير");
  ("reportGenerate", Text "فشل إنشاء التقرير");
  ("attackerCountriesLoad", Text "فشل تحميل الدول المهاجمة");
  ("perimeterLoad", Text "فشل تحميل بيانات المحيط");
  ("auditLoad", Text "فشل تحميل سجل التدقيق");
  ("retentionLoad", Text "فشل تحميل إعدادات الاحتفاظ");
  ("retentionSave", Text "فشل حفظ إعدادات الاحتفاظ")].

Definition ar_system : dict := Group [
  ("title", Text "النظام");
  ("subtitle", Text "إعدادات التشغيل على مستوى المنصة.");
  ("livePush", Group [
    ("label", Text "الدفع المباشر للتكوين إلى الأجهزة");
    ("help", Text "عند التفعيل، يؤدي تطبيق تغيير في التكوين إلى الكتابة على الجهاز الفعلي. عند الإيقاف، تكون التغييرات تجريبية فقط.");
    ("loadError", Text "فشل تحميل إعداد الدفع المباشر.");
    ("enabled", Text "تم تفعيل الدفع المباشر للتكوين");
    ("disabled", Text "تم إيقاف الدفع المباشر للتكوين");
    ("updateError", Text "فشل تحديث الدفع المباشر للتكوين")]);
  ("runtime", Group [
    ("title", Text "إعدادات التشغيل");
    ("subtitle", Text "قابلة للضبط دون إعادة تشغيل؛ القيمة هنا تتجاوز القيمة الافتراضية للنشر من ملف ‎.env.");
    ("loadError", Text "فشل تحميل إعدادات التشغيل.");
    ("save", Text "حفظ");
    ("discard", Text "تجاهل التغييرات");
    ("saved", Text "تم حفظ إعدادات التشغيل");
    ("saveError", Text "فشل حفظ إعدادات التشغيل");
    ("defaultLabel", Text "افتراضي");
    ("impactsTitle", Text "خفض قيمة الاحتفاظ هذه يؤثر على المستأجرين");
    ("impactItem", Text "{tenant}: يحتاج جدول تقرير {store} إلى {range} يومًا لكن يتم الآن الاحتفاظ بـ {store} لمدة {bound} يومًا.");
    ("groups", Group [
      ("firmware", Text "البرنامج الثابت");
      ("distribution", Text "توزيع الكتالوج و GeoIP");
      ("maintenance", Text "الصيانة");
      ("retention", Text "الاحتفاظ بالبيانات");
      ("security_login", Text "حماية تسجيل الدخول");
      ("security_session", Text "الجلسات")]);
    ("items", Group [
      ("firmware_max_status_polls", Group [
        ("label", Text "أقصى عدد لاستطلاعات الحالة");
        ("help", Text "عدد استطلاعات الحالة قبل التخلي عن إجراء البرنامج الثابت.")]);
      ("firmware_poll_interval_seconds", Group [
        ("label", Text "فترة الاستطلاع (ث)");
        ("help", Text "التأخير بين استطلاعات حالة البرنامج الثابت.")]);
      ("catalog_auto_fetch", Group [
        ("label", Text "الجلب التلقائي لكتالوجات التكوين");
        ("help", Text "جلب الكتالوجات المُصدّرة من الإصدار عند فقدانها في ذاكرة التخزين المؤقت.")]);
      ("geoip_auto_fetch", Group [
        ("label", Text "الجلب التلقائي لقاعدة بيانات GeoIP");
        ("help", Text "جلب قاعدة بيانات GeoIP من الإصدار عند فقدانها في ذاكرة التخزين المؤقت.")]);
      ("silent_alert_enabled", Group [
        ("label", Text "تنبيهات المستأجر الصامت");
        ("help", Text "التنبيه عند توقف مستأجر مُفعّل لديه التوجيه عن إرسال السجلات.")]);
      ("silent_alert_after_hours", Group [
        ("label", Text "صامت بعد (ساعات)");
        ("help", Text "ساعات الصمت قبل الإبلاغ عن المستأجر.")]);
      ("perimeter_retention_days", Group [
        ("label", Text "الاحتفاظ بالمحيط (أيام)");
        ("help", Text "الإعداد الافتراضي العام لمدة الاحتفاظ ببيانات المهاجمين على المحيط.")]);
      ("events_retention_days", Group [
        ("label", Text "الاحتفاظ بالأحداث (أيام)");
        ("help", Text "الإعداد الافتراضي العام لمدة الاحتفاظ ببيانات الأحداث.")]);
      ("metrics_retention_days", Group [
        ("label", Text "الاحتفاظ بالمقاييس (أيام)");
        ("help", Text "الإعداد الافتراضي العام لمدة الاحتفاظ ببيانات المقاييس.")]);
      ("log_lake_retention_days", Group [
        ("label", Text "الاحتفاظ ببحيرة السجلات (أيام)");
        ("help", Text "الإعداد الافتراضي العام لمدة الاحتفاظ ببيانات بحيرة السجلات.")]);
      ("login_max_attempts", Group [
        ("label", Text "أقصى عدد لمحاولات تسجيل الدخول");
        ("help", Text "عدد محاولات تسجيل الدخول الفاشلة المسموح بها قبل القفل.")]);
      ("login_lockout_window_seconds", Group [
        ("label", Text "نافذة القفل (ث)");
        ("help", Text "النافذة المنزلقة لعدّ محاولات تسجيل الدخول الفاشلة.")]);
      ("session_ttl_hours", Group [
        ("label", Text "مدة الجلسة (ساعات)");
        ("help", Text "المدة المطلقة للجلسة.")]);
      ("session_idle_minutes", Group [
        ("label", Text "مهلة الخمول (دقائق)");
        ("help", Text "مدة الخمول قبل انتهاء صلاحية الجلسة.")]);
      ("trusted_device_days", Group [
        ("label", Text "عمر الجهاز الموثوق (أيام)");
        ("help", Text "المدة التي يمكن فيها للجهاز الموثوق تخطي العامل الثاني قبل الحاجة إلى إعادة التحقق منه.")])])])].

Definition ar_logFleet : dict := Group [
  ("title", Text "أسطول السجلات");
  ("loadError", Text "تعذّر تحميل أسطول السجلات.");
  ("exportCsv", Text "تصدير CSV");
  ("exportPdf", Text "تصدير PDF");
  ("exportFailed", Text "فشل التصدير.");
  ("silentBadge", Text "صامت");
  ("silentAlertsTitle", Text "تنبيهات المستأجرين الصامتين");
  ("silentAlertsBody", Text "فعّلوا التوجيه لكن لا توجد سجلات حديثة.");
  ("volume", Text "الحجم");
  ("devicesTitle", Text "الأجهزة");
  ("devicesLoadError", Text "تعذّر تحميل الأجهزة.");
  ("noDevices", Text "لا توجد أجهزة.");
  ("stats", Group [
    ("tenantsForwarding", Text "المستأجرون الذين يوجّهون");
    ("enabledDevices", Text "الأجهزة المُفعّلة");
    ("silentTenants", Text "المستأجرون الصامتون")]);
  ("table", Group [
    ("tenant", Text "المستأجر");
    ("device", Text "الجهاز");
    ("forwarding", Text "التوجيه");
    ("revoked", Text "مُلغى");
    ("lastLog", Text "آخر سجل")])].

Definition ar_perimeter : dict := Group [
  ("title", Text "المحيط");
  ("subtitle", Text "عناوين IP المهاجِمة عند محيط الجدار الناري — محاولات تسجيل الدخول الفاشلة إلى الجهاز وحركة المرور المحظورة.");
  ("failedLogins", Text "محاولات تسجيل دخول فاشلة");
  ("firewallBlocks", Text "حظر الجدار الناري");
  ("failedLoginsHelp", Text "محاولات تسجيل الدخول إلى الجهاز التي تم رفضها.");
  ("firewallBlocksHelp", Text "حركة المرور الواردة التي أسقطها الجدار الناري.");
  ("ip", Text "عنوان IP المصدر");
  ("country", Text "الدولة");
  ("user", Text "المستخدم");
  ("port", Text "المنفذ");
  ("count", Text "العدد");
  ("lastSeen", Text "آخر ظهور");
  ("empty", Text "لا يوجد نشاط في هذه الفترة.");
  ("viewAll", Text "عرض الكل");
  ("loadError", Text "فشل تحميل بيانات المحيط.")].

Definition ar_retention : dict := Group [
  ("title", Text "الاحتفاظ بالبيانات");
  ("subtitle", Text "تجاوز مدة الاحتفاظ ببيانات هذا المستأجر. اترك الحقل فارغًا لوراثة الإعداد الافتراضي العام.");
  ("inheritHint", Text "وراثة العام");
  ("save", Text "حفظ الاحتفاظ");
  ("saved", Text "تم حفظ إعدادات الاحتفاظ.");
  ("stores", Group [
    ("perimeter", Text "المحيط (أيام)");
    ("events", Text "الأحداث (أيام)");
    ("metrics", Text "المقاييس (أيام)");
    ("log_lake", Text "بحيرة السجلات (أيام)")]);
  ("warningTitle", Text "جداول التقارير تتجاوز مدة الاحتفاظ");
  ("warningItem", Text "يغطي جدول {frequency} مدة {range} يومًا لكن بيانات {store} يُحتفظ بها {bound} يومًا.")].

Definition ar_audit : dict := Group [
  ("title", Text "سجل التدقيق");
  ("subtitle", Text "كل إجراء معدِّل عبر المنصة، حسب المنفِّذ والمستأجر.");
  ("filters", Group [
    ("actor", Text "بريد المنفِّذ الإلكتروني");
    ("tenant", Text "معرّف المستأجر");
    ("action", Text "الإجراء");
    ("from", Text "من");
    ("to", Text "إلى");
    ("apply", Text "تطبيق");
    ("reset", Text "إعادة تعيين")]);
  ("columns", Group [
    ("time", Text "الوقت");
    ("actor", Text "المنفِّذ");
    ("tenant", Text "المستأجر");
    ("action", Text "الإجراء");
    ("target", Text "الهدف");
    ("ip", Text "IP");
    ("details", Text "التفاصيل")]);
  ("empty", Text "لا توجد إدخالات تدقيق مطابقة لهذه المرشحات.");
  ("export", Text "تصدير CSV");
  ("exportFailed", Text "فشل التصدير.");
  ("page", Text "الصفحة {page}");
  ("showingTotal", Text "{total} إدخال");
  ("prev", Text "السابق");
  ("next", Text "التالي")].

Definition ar_reliability : dict := Group [
  ("tab", Text "الموثوقية");
  ("title", Text "أحداث الخدمة (24 ساعة)");
  ("subtitle", Text "عمليات إعادة التشغيل وتعطّل/إعادة تشغيل الخدمات وتحذيرات القرص من سجل نظام الجهاز.");
  ("time", Text "الوقت");
  ("category", Text "الفئة");
  ("name", Text "الحدث");
  ("severity", Text "الخطورة");
  ("process", Text "العملية");
  ("message", Text "الرسالة");
  ("categories", Group [
    ("reboot", Text "إعادة تشغيل");
    ("service", Text "خدمة");
    ("disk", Text "قرص")]);
  ("severities", Group [
    ("high", Text "عالية");
    ("medium", Text "متوسطة");
    ("low", Text "منخفضة")]);
  ("loadMore", Text "تحميل المزيد");
  ("empty", Text "لا توجد أحداث خدمة في هذه الفترة.");
  ("loading", Text "جارٍ تحميل أحداث الخدمة…");
  ("loadError", Text "فشل تحميل أحداث الخدمة.");
  ("last24h", Text "آخر 24 ساعة")].

Definition ar_configAudit : dict := Group [
  ("tab", Text "تغييرات الإعدادات");
  ("title", Text "تغييرات مباشرة على الإعدادات (24 ساعة)");
  ("subtitle", Text "مَن غيّر إعدادات الجهاز وكيف — التغييرات المباشرة على الجهاز (واجهة الويب/وحدة التحكم) تُعلَّم كانحراف.");
  ("time", Text "الوقت");
  ("area", Text "المجال");
  ("actor", Text "المنفِّذ");
  ("ip", Text "IP");
  ("channel", Text "القناة");
  ("change", Text "التغيير");
  ("direct", Text "مباشر");
  ("channels", Group [
    ("api", Text "API");
    ("gui", Text "واجهة الويب");
    ("system", Text "وحدة تحكم/سكربت");
    ("opngms", Text "OPNGMS");
    ("api_external", Text "API خارجي")]);
  ("loadMore", Text "تحميل المزيد");
  ("empty", Text "لا توجد تغييرات في الإعدادات في هذه الفترة.");
  ("loading", Text "جارٍ تحميل تغييرات الإعدادات…");
  ("loadError", Text "فشل تحميل تغييرات الإعدادات.");
  ("last24h", Text "آخر 24 ساعة")].

Definition ar_smtp : dict := Group [
  ("authMethod", Text "المصادقة");
  ("authPassword", Text "كلمة المرور");
  ("authOauth", Text "OAuth2");
  ("oauthProvider", Text "المزوّد");
  ("oauthGoogle", Text "Google / Gmail");
  ("oauthMicrosoft", Text "Microsoft 365");
  ("oauthClientId", Text "Client ID");
  ("oauthClientSecret", Text "Client secret");
  ("oauthRefreshToken", Text "Refresh token");
  ("oauthTenantId", Text "Tenant ID");
  ("oauthSecretSaved", Text "محفوظ — اتركه فارغًا للإبقاء");
  ("oauthConnect", Text "ربط الحساب");
  ("oauthConnectGoogle", Text "الربط مع Google");
  ("oauthConnectMicrosoft", Text "الربط مع Microsoft 365");
  ("oauthExperimental", Text "تجريبي — غير مختبر");
  ("oauthExperimentalNote", Text "لم يتم التحقق من تسجيل الدخول عبر المتصفح لـ OAuth مع مزود حقيقي. يتطلب تعيين PUBLIC_BASE_URL وتسجيل عنوان URI لإعادة التوجيه في تطبيق OAuth الخاص بك. لا يزال لصق رمز التحديث أعلاه هو الطريق المدعوم.");
  ("oauthConnectNeedsCreds", Text "احفظ معرّف العميل والسر أولاً، ثم اربط.");
  ("oauthConnected", Text "تم ربط الحساب.");
  ("oauthConnectFailed", Text "تعذّر ربط الحساب.")].

Definition ar : dict := Group [
  ("common", ar_common);
  ("nav", ar_nav);
  ("login", ar_login);
  ("tenant", ar_tenant);
  ("overview", ar_overview);
  ("alerts", ar_alerts);
  ("devices", ar_devices);
  ("deviceDetail", ar_deviceDetail);
  ("deviceActions", ar_deviceActions);
  ("firmware", ar_firmware);
  ("plugins", ar_plugins);
  ("templates", ar_templates);
  ("deviceCreate", ar_deviceCreate);
  ("health", ar_health);
  ("logForwarding", ar_logForwarding);
  ("catalog", ar_catalog);
  ("config", ar_config);
  ("deviceHealth", ar_deviceHealth);
  ("chart", ar_chart);
  ("reports", ar_reports);
  ("sessions", ar_sessions);
  ("mfa", ar_mfa);
  ("groups", ar_groups);
  ("confirm", ar_confirm);
  ("errors", ar_errors);
  ("system", ar_system);
  ("logFleet", ar_logFleet);
  ("perimeter", ar_perimeter);
  ("retention", ar_retention);
  ("audit", ar_audit);
  ("reliability", ar_reliability);
  ("configAudit", ar_configAudit);
  ("smtp", ar_smtp)].
