(* ===== verification/DictZh.v ===== *)
(** * The Simplified Chinese texts ([i18n/zh.ts]), one definition per group *)
From S2P Require Import Prelude Dict.

Definition zh_common : dict := Group [
  ("appName", Text "OPNGMS");
  ("logout", Text "退出登录");
  ("none", Text "—");
  ("language", Text "语言");
  ("cancel", Text "取消")].

Definition zh_nav : dict := Group [
  ("overview", Text "概览");
  ("devices", Text "设备");
  ("alerts", Text "告警");
  ("perimeter", Text "边界");
  ("reportSettings", Text "报告设置");
  ("reportSchedule", Text "报告计划");
  ("reports", Text "报告");
  ("logs", Text "日志");
  ("sessions", Text "活动会话");
  ("mfa", Text "双因素认证");
  ("templates", Text "模板库");
  ("smtp", Text "SMTP");
  ("logFleet", Text "日志机群");
  ("system", Text "系统");
  ("groups", Text "组");
  ("audit", Text "审计日志")].

Definition zh_login : dict := Group [
  ("title", Text "OPNGMS");
  ("email", Text "邮箱");
  ("password", Text "密码");
  ("passwordToggle", Text "显示/隐藏");
  ("submit", Text "登录");
  ("invalidCredentials", Text "凭据无效");
  ("mfa", Group [
    ("title", Text "双因素认证");
    ("codeHint", Text "请输入身份验证器应用中的 6 位验证码。");
    ("recoveryHint", Text "请输入一个一次性恢复码。");
    ("codeLabel", Text "验证码");
    ("recoveryLabel", Text "恢复码");
    ("verify", Text "验证");
    ("useRecovery", Text "改用恢复码");
    ("useCode", Text "改用验证器验证码");
    ("invalidCode", Text "验证码无效");
    ("or", Text "或");
    ("usePasskey", Text "使用通行密钥 / 安全密钥");
    ("passkeyError", Text "通行密钥登录失败，请重试。");
    ("passkeyNotSupported", Text "此浏览器不支持通行密钥。");
    ("rememberDevice", Text "信任此设备 {days} 天");
    ("rememberDeviceHelp", Text "下次从此设备登录时，将不再要求输入第二因素。")])].

Definition zh_tenant : dict := Group [
  ("activeLabel", Text "当前租户");
  ("none", Text "无租户")].

Definition zh_overview : dict := Group [
  ("title", Text "概览");
  ("activeAlerts", Text "活动告警");
  ("noActiveAlerts", Text "无活动告警");
  ("healthLoadError", Text "加载机群健康状态失败");
  ("alertsLoadError", Text "加载告警失败");
  ("attackerCountries", Group [
    ("title", Text "主要攻击来源国家/地区");
    ("mapTitle", Text "攻击来源");
    ("empty", Text "此期间未记录任何攻击。");
    ("private", Text "私有 / 内部");
    ("unknown", Text "未知");
    ("attribution", Text "国家/地区数据：DB-IP (CC BY 4.0)")])].

Definition zh_alerts : dict := Group [
  ("title", Text "告警");
  ("active", Text "活动");
  ("history", Text "历史");
  ("loadError", Text "加载告警失败");
  ("noAlerts", Text "无告警");
  ("colType", Text "类型");
  ("colLabel", Text "标签");
  ("colSeverity", Text "严重程度");
  ("colOpened", Text "触发时间");
  ("colResolved", Text "解决时间");
  ("colDevice", Text "设备")].

Definition zh_devices : dict := Group [
  ("title", Text "设备");
  ("add", Text "添加设备");
  ("loadError", Text "加载设备失败");
  ("colName", Text "名称");
  ("colUrl", Text "URL");
  ("colStatus", Text "状态");
  ("colFirmware", Text "固件")].

Definition zh_deviceDetail : dict := Group [
  ("url", Text "URL");
  ("status", Text "状态");
  ("firmware", Text "固件");
  ("loadError", Text "加载设备失败")].

Definition zh_deviceActions : dict := Group [
  ("testConnection", Text "测试连接");
  ("delete", Text "删除");
  ("testResult", Text "测试结果");
  ("testNotification", Text "测试");
  ("testFailed", Text "连接测试失败");
  ("deleteFailed", Text "删除失败");
  ("openWebGui", Text "打开 WebGUI")].

Definition zh_firmware : dict := Group [
  ("title", Text "固件");
  ("tab", Text "固件");
  ("check", Text "检查更新");
  ("upToDate", Text "已是最新");
  ("updatesAvailable", Text "有可用更新");
  ("downloadSize", Text "下载大小");
  ("rebootNeeded", Text "需要重启");
  ("newMajor", Text "有新的主版本可用");
  ("update", Text "更新固件");
  ("upgrade", Text "升级到新主版本");
  ("updateConfirm", Text "应用所有待处理的软件包更新？设备可能会重启。");
  ("upgradeConfirm", Text "升级到新主版本？该过程包含多个步骤并伴随重启，可能需要较长时间。");
  ("plugins", Text "插件");
  ("pluginName", Text "插件名称");
  ("install", Text "安装");
  ("remove", Text "移除");
  ("installConfirm", Text "安装该插件？设备必须处于最新固件版本。");
  ("removeConfirm", Text "移除该插件？");
  ("runNow", Text "立即运行");
  ("scheduleAt", Text "计划时间（留空则立即运行）");
  ("schedule", Text "计划");
  ("recentActions", Text "近期操作");
  ("noActions", Text "暂无操作");
  ("actionQueued", Text "操作已加入队列");
  ("actionFailed", Text "无法将操作加入队列");
  ("checkFailed", Text "固件检查失败");
  ("kind", Text "操作");
  ("status", Text "状态");
  ("when", Text "时间");
  ("result", Text "结果")].

Definition zh_plugins : dict := Group [
  ("tab", Text "插件");
  ("title", Text "插件");
  ("subtitle", Text "防火墙报告的插件。安装或移除社区插件；安装时设备必须处于最新固件版本。");
  ("search", Text "搜索插件…");
  ("name", Text "插件");
  ("status", Text "状态");
  ("version", Text "版本");
  ("installed", Text "已安装");
  ("notInstalled", Text "可用");
  ("locked", Text "已锁定");
  ("install", Text "安装");
  ("remove", Text "移除");
  ("installConfirm", Text "安装该插件？");
  ("removeConfirm", Text "移除该插件？");
  ("empty", Text "尚未报告任何插件——设备会定期轮询。");
  ("loadFailed", Text "无法加载插件。");
  ("configure", Text "配置");
  ("configureTitle", Text "插件配置")].

Definition zh_templates : dict := Group [
  ("tab", Text "模板");
  ("libraryTitle", Text "模板库");
  ("superadminOnly", Text "模板库由平台管理员管理。");
  ("name", Text "名称");
  ("kind", Text "类别");
  ("type", Text "别名类型");
  ("content", Text "内容（每行一个条目）");
  ("description", Text "描述");
  ("create", Text "新建模板");
  ("edit", Text "编辑");
  ("save", Text "保存");
  ("delete", Text "删除");
  ("deleteConfirm", Text "删除该模板？将移除各租户的覆盖配置；已应用的更改保留其历史记录。");
  ("empty", Text "暂无模板。");
  ("created", Text "模板已创建");
  ("updated", Text "模板已更新");
  ("saveFailed", Text "无法保存模板");
  ("apply", Group [
    ("title", Text "应用模板");
    ("pick", Text "模板");
    ("override", Text "该客户的覆盖配置（内容，每行一个条目 — 留空则使用模板库的值）");
    ("saveOverride", Text "保存覆盖配置");
    ("overrideSaved", Text "覆盖配置已保存");
    ("preview", Text "预览");
    ("previewTitle", Text "实际生效的配置");
    ("applyConfirm", Text "将该模板应用到设备？");
    ("runNow", Text "立即应用");
    ("scheduleAt", Text "计划时间（留空则立即应用）");
    ("schedule", Text "计划");
    ("queued", Text "应用已加入队列");
    ("failed", Text "无法应用模板");
    ("none", Text "无可用模板。")]);
  ("templatesTab", Text "模板");
  ("kindLabel", Text "模板类型");
  ("kindAlias", Text "防火墙别名");
  ("kindSetting", Text "OPNsense 设置");
  ("setting", Group [
    ("endpoint", Text "设置");
    ("referenceDevice", Text "参考设备（用于读取可用字段）");
    ("load", Text "加载字段");
    ("loadHint", Text "选择一个设置和一台设备，然后加载要配置的字段。");
    ("noDevice", Text "当前租户中没有可用于读取字段的设备。");
    ("loadFailed", Text "无法从设备读取该设置。");
    ("noFields", Text "没有可配置的字段。");
    ("hardwareNote", Text "硬件/设备特定字段有意不可模板化。")]);
  ("kindFirewallRule", Text "防火墙规则（Rules [新]）");
  ("fw", Group [
    ("referenceDevice", Text "参考设备（用于读取可用的规则字段）");
    ("load", Text "加载字段");
    ("loadHint", Text "选择一台设备，然后加载要配置的规则字段。");
    ("noDevice", Text "当前租户中没有可用于读取字段的设备。");
    ("loadFailed", Text "无法从设备读取规则模型。");
    ("descriptionRequired", Text "必须填写描述（它是规则的标识）。");
    ("interface", Text "接口（在应用时选择）");
    ("floating", Text "浮动（无接口）");
    ("note", Text "接口在应用时选择；浮动规则请留空。")]);
  ("kindMonitTest", Text "Monit 健康检查测试");
  ("monit", Group [
    ("referenceDevice", Text "参考设备（用于读取可用的测试字段）");
    ("load", Text "加载字段");
    ("loadHint", Text "选择一台设备，然后加载要配置的测试字段。");
    ("noDevice", Text "当前租户中没有可用于读取字段的设备。");
    ("loadFailed", Text "无法从设备读取测试模型。");
    ("nameRequired", Text "必须填写名称（它是测试的标识）。");
    ("note", Text "测试在附加到 Monit 服务后生效。");
    ("attachSystem", Text "将该测试附加到系统服务以使其生效");
    ("attachSystemNote", Text "启用后，应用时还会将该测试附加到设备的 Monit 系统服务。")]);
  ("kindIdsRulesets", Text "Suricata/IDS 规则集");
  ("ids", Group [
    ("referenceDevice", Text "参考设备（用于读取可用的规则集）");
    ("load", Text "加载规则集");
    ("loadHint", Text "选择一台设备，然后加载其规则集以选择要启用的项。");
    ("noDevice", Text "当前租户中没有可用于读取规则集的设备。");
    ("loadFailed", Text "无法从设备读取规则集。");
    ("rulesets", Text "要启用的规则集");
    ("noRulesets", Text "在设备上未找到规则集。");
    ("note", Text "应用将启用所选规则集（增量式 — 不会禁用其他规则集）。")]);
  ("kindIdsPolicy", Text "Suricata/IDS 策略");
  ("idsPolicy", Group [
    ("description", Text "描述（策略的标识）");
    ("enabled", Text "已启用");
    ("prio", Text "优先级");
    ("action", Text "要匹配的当前动作（动作为其中之一的规则）");
    ("newAction", Text "新动作");
    ("rulesets", Text "策略适用的规则集");
    ("referenceDevice", Text "参考设备（用于读取可用的规则集）");
    ("load", Text "加载规则集");
    ("loadHint", Text "选择一台设备，然后加载其已启用的规则集以供引用。");
    ("noDevice", Text "当前租户中没有可用于读取规则集的设备。");
    ("noRulesets", Text "在设备上未找到已启用的规则集（请先启用一个规则集）。");
    ("loadFailed", Text "无法从设备读取规则集。");
    ("content", Text "元数据过滤器（高级 — 大多数策略无需设置）");
    ("contentKey", Text "键");
    ("contentValues", Text "值（以逗号分隔）");
    ("contentKeyInvalid", Text "键无效——请使用字母、数字、点、连字符或下划线。");
    ("addContent", Text "添加过滤器");
    ("descriptionRequired", Text "必须填写描述（它是策略的标识）。");
    ("note", Text "引用的规则集必须已在设备上启用。规则集/内容的映射会在应用时于运行时进行验证。")]);
  ("profiles", Group [
    ("tab", Text "配置文件");
    ("name", Text "名称");
    ("description", Text "描述");
    ("members", Text "模板（按应用顺序）");
    ("create", Text "新建配置文件");
    ("edit", Text "编辑");
    ("save", Text "保存");
    ("delete", Text "删除");
    ("deleteConfirm", Text "删除该配置文件？已应用的更改保留其历史记录。");
    ("empty", Text "暂无配置文件。");
    ("created", Text "配置文件已创建");
    ("updated", Text "配置文件已更新");
    ("saveFailed", Text "无法保存配置文件");
    ("memberCount", Text "个模板");
    ("apply", Group [
      ("title", Text "应用配置文件");
      ("pick", Text "配置文件");
      ("preview", Text "预览");
      ("previewTitle", Text "实际生效的配置（按顺序逐个模板）");
      ("interface", Text "接口（在应用时选择）");
      ("floating", Text "浮动（无接口）");
      ("empty", Text "无可用配置文件。");
      ("applyConfirm", Text "将该配置文件应用到设备？将按顺序应用每个成员模板。");
      ("runNow", Text "立即应用");
      ("scheduleAt", Text "计划时间（留空则立即应用）");
      ("schedule", Text "计划");
      ("queued", Text "配置文件应用已加入队列");
      ("failed", Text "无法应用配置文件")])])].

Definition zh_deviceCreate : dict := Group [
  ("title", Text "添加设备");
  ("name", Text "名称");
  ("url", Text "URL（https）");
  ("apiKey", Text "API 密钥");
  ("apiSecret", Text "API 密钥口令");
  ("verifyTls", Text "验证 TLS");
  ("tlsWarning", Text "关闭 TLS 验证后，将没有任何机制对设备的证书进行身份验证——凭据可能被截获。请在下方固定证书的 SHA-256 指纹以恢复保护。");
  ("tlsFingerprintLabel", Text "证书 SHA-256 指纹（可选）");
  ("tlsFingerprintPlaceholder", Text "00:42:E2:C4:07:61:06:0D:56:A4:75:2F:FC:32:2B:4E:B3:CE:FF:31:8A:88:F3:22:2B:C1:B1:0D:46:0B:04:2C");
  ("save", Text "保存");
  ("created", Text "设备已创建");
  ("createFailed", Text "创建失败")].

Definition zh_health : dict := Group [
  ("totalDevices", Text "设备总数");
  ("activeAlerts", Text "活动告警")].

Definition zh_logForwarding : dict := Group [
  ("tab", Text "日志转发")].

Definition zh_catalog : dict := Group [
  ("tab", Text "编辑器");
  ("searchModels", Text "搜索设置…");
  ("noModels", Text "该设备版本没有可用目录。");
  ("selectModel", Text "在左侧选择一个设置组进行编辑。");
  ("readOnly", Text "不可编辑（安全黑名单）。");
  ("unreachable", Text "设备无法访问 — 编辑需要实时值。");
  ("liveValues", Text "实时值");
  ("propose", Text "提议更改");
  ("preview", Text "查看更改");
  ("noChanges", Text "没有可提议的更改。");
  ("proposed", Text "草稿更改已创建 — 请在配置选项卡中计划应用。");
  ("proposeFailed", Text "无法创建更改。");
  ("loadFailed", Text "无法加载模型。");
  ("openWebgui", Text "在 WebGUI 中打开");
  ("searchAll", Text "搜索设置…");
  ("grid", Group [
    ("add", Text "添加行");
    ("save", Text "保存");
    ("edit", Text "编辑");
    ("delete", Text "删除");
    ("empty", Text "无行。")]);
  ("diff", Group [
    ("baseline", Text "对比版本");
    ("noBaseline", Text "没有更早的版本");
    ("newSince", Text "自 {v} 起新增");
    ("changedSince", Text "自 {v} 起更改");
    ("changes", Text "更改")]);
  ("map", Group [
    ("tabMenu", Text "菜单");
    ("tabMap", Text "配置映射");
    ("editInCatalog", Text "在目录中编辑");
    ("readOnly", Text "只读（无 API）");
    ("staleBanner", Text "已过期 — 设备无法访问；显示 {when} 的最近备份")])].

Definition zh_config : dict := Group [
  ("tabInfo", Text "信息");
  ("tabHealth", Text "健康");
  ("tabConfig", Text "配置");
  ("capabilities", Text "功能");
  ("version", Text "OPNsense 版本");
  ("interfaces", Text "接口");
  ("configuredSections", Text "已配置的部分");
  ("available", Text "可用功能");
  ("hidden", Text "隐藏");
  ("noConfigYet", Text "尚未捕获任何配置");
  ("nic", Text "NIC");
  ("changes", Group [
    ("title", Text "待处理的更改");
    ("propose", Text "提议别名更改");
    ("none", Text "无待处理的更改");
    ("colKind", Text "类别");
    ("colOperation", Text "操作");
    ("colTarget", Text "目标");
    ("colStatus", Text "状态");
    ("colScheduled", Text "计划时间");
    ("preview", Text "预览");
    ("schedule", Text "计划");
    ("cancel", Text "取消");
    ("revert", Text "回退");
    ("reverts", Text "回退 #");
    ("applyNow", Text "立即应用");
    ("pickTime", Text "选择日期/时间");
    ("checkDrift", Text "检查偏移");
    ("driftUnreachable", Text "无法连接设备 — 偏移未知。");
    ("driftInSync", Text "已同步");
    ("driftDrifted", Text "偏移");
    ("driftMissing", Text "缺失");
    ("driftUnsupported", Text "不适用");
    ("driftFields", Text "偏移的字段： ");
    ("operation", Text "操作");
    ("name", Text "名称");
    ("type", Text "类型");
    ("content", Text "内容（每行一个）");
    ("create", Text "创建");
    ("add", Text "添加");
    ("set", Text "设置");
    ("delete", Text "删除")])].

Definition zh_deviceHealth : dict := Group [
  ("title", Text "健康");
  ("cpu", Text "CPU");
  ("memory", Text "内存");
  ("disk", Text "磁盘");
  ("trafficIn", Text "入站流量");
  ("trafficOut", Text "出站流量");
  ("gatewayRtt", Text "网关 RTT");
  ("gatewayLoss", Text "网关丢包");
  ("vpnUp", Text "VPN 已连接")].

Definition zh_chart : dict := Group [
  ("noData", Text "暂无数据")].

Definition zh_reports : dict := Group [
  ("page", Group [
    ("title", Text "报告");
    ("generate", Text "生成报告");
    ("from", Text "起始");
    ("to", Text "结束");
    ("period", Text "周期");
    ("kind", Text "类别");
    ("created", Text "创建时间");
    ("size", Text "大小");
    ("download", Text "下载");
    ("none", Text "暂无报告。");
    ("generated", Text "报告已生成");
    ("kindOnDemand", Text "按需");
    ("kindScheduled", Text "计划")]);
  ("settings", Group [
    ("pageTitle", Text "报告设置");
    ("title", Text "报告标题");
    ("owner", Text "所有者");
    ("timezone", Text "时区");
    ("fromEmail", Text "发件邮箱（报告投递）");
    ("logo", Text "徽标");
    ("upload", Text "上传徽标");
    ("remove", Text "移除徽标");
    ("language", Text "报告语言");
    ("save", Text "保存设置");
    ("adminsOnly", Text "报告设置仅对租户管理员可用。");
    ("saved", Text "报告设置已保存。");
    ("logoUploaded", Text "徽标已上传。");
    ("logoRemoved", Text "徽标已移除。");
    ("hasLogo", Text "已上传徽标");
    ("noLogo", Text "无徽标")]);
  ("sections", Group [
    ("title", Text "报告章节");
    ("description", Text "选择 PDF 报告中显示哪些章节。");
    ("customizeForDevice", Text "为此设备自定义章节");
    ("summary", Text "执行摘要");
    ("health", Text "设备健康状况");
    ("alerts_wan", Text "告警与连接");
    ("attacks", Text "攻击");
    ("attacker_countries", Text "攻击来源国家/地区");
    ("failed_logins", Text "失败登录");
    ("firewall_blocks", Text "防火墙拦截");
    ("web", Text "网络活动");
    ("data", Text "数据用量");
    ("status", Text "在线/离线状态");
    ("firmware_config", Text "固件与配置");
    ("applications", Text "应用程序");
    ("web_filter", Text "网页过滤")])].

Definition zh_sessions : dict := Group [
  ("pageTitle", Text "活动会话");
  ("colLastSeen", Text "最后活动");
  ("colCreated", Text "创建时间");
  ("colExpires", Text "过期时间");
  ("colIp", Text "IP 地址");
  ("colUserAgent", Text "用户代理");
  ("current", Text "当前");
  ("logoutAll", Text "在所有设备上退出登录");
  ("loadError", Text "加载会话失败");
  ("logoutAllError", Text "在所有设备上退出登录失败")].

Definition zh_mfa : dict := Group [
  ("pageTitle", Text "双因素认证");
  ("intro", Text "使用身份验证器应用中的基于时间的一次性密码（TOTP）保护您的账户。");
  ("status", Text "状态");
  ("enabled", Text "已启用");
  ("disabled", Text "已禁用");
  ("recoveryRemaining", Text "剩余恢复码");
  ("statusError", Text "加载 MFA 状态失败");
  ("enroll", Text "设置双因素认证");
  ("enrollStart", Text "开始设置");
  ("password", Text "当前密码");
  ("passwordHint", Text "重新输入您的密码以更改双因素认证设置。");
  ("scanHint", Text "使用您的身份验证器应用扫描此 QR 码，或手动输入密钥。");
  ("secretLabel", Text "密钥");
  ("confirmCodeLabel", Text "验证码");
  ("confirmHint", Text "输入应用中的 6 位验证码以完成设置。");
  ("confirm", Text "确认并启用");
  ("cancel", Text "取消");
  ("setupError", Text "无法开始设置（请检查您的密码）。");
  ("confirmError", Text "验证码无效。请重试。");
  ("recoveryTitle", Text "恢复码");
  ("recoveryIntro", Text "请将这些一次性恢复码保存在安全的地方。如果丢失身份验证器，每个恢复码可使用一次。");
  ("recoveryWarning", Text "这些恢复码仅显示一次。");
  ("copyAll", Text "全部复制");
  ("copied", Text "已复制到剪贴板");
  ("download", Text "下载");
  ("done", Text "完成");
  ("regenerate", Text "重新生成恢复码");
  ("regenerateError", Text "无法重新生成恢复码（请检查您的密码）。");
  ("disable", Text "禁用双因素认证");
  ("disableConfirmTitle", Text "禁用双因素认证？");
  ("disableConfirmBody", Text "您的账户在登录时将不再需要第二验证因素。");
  ("disableError", Text "无法禁用（请检查您的密码）。");
  ("disabledNotice", Text "双因素认证已禁用。");
  ("policyTitle", Text "组织 MFA 策略");
  ("policyIntro", Text "在整个组织范围内强制要求双因素认证。");
  ("policyOff", Text "关闭");
  ("policyAll", Text "所有用户");
  ("policyPrivileged", Text "特权用户");
  ("policyLoadError", Text "加载 MFA 策略失败");
  ("policySaveError", Text "更新 MFA 策略失败");
  ("policySaved", Text "MFA 策略已更新");
  ("usersTitle", Text "用户 MFA");
  ("colUser", Text "用户");
  ("colEmail", Text "邮箱");
  ("colRole", Text "角色");
  ("superadmin", Text "超级管理员");
  ("member", Text "成员");
  ("reset", Text "重置 MFA");
  ("resetConfirmTitle", Text "重置该用户的 MFA？");
  ("resetConfirmBody", Text "这将清除其 TOTP 密钥和恢复码。他们需要重新注册。");
  ("resetError", Text "重置用户的 MFA 失败");
  ("resetDone", Text "用户 MFA 已重置");
  ("usersLoadError", Text "加载用户失败");
  ("gateTitle", Text "需要双因素认证");
  ("gateIntro", Text "您的组织要求启用双因素认证。请立即设置以继续。");
  ("passkeys", Group [
    ("title", Text "通行密钥");
    ("intro", Text "注册通行密钥或安全密钥，无需验证码即可登录。");
    ("add", Text "添加通行密钥");
    ("accountPassword", Text "账户密码");
    ("name", Text "名称");
    ("namePlaceholder", Text "例如：工作笔记本");
    ("unnamed", Text "通行密钥");
    ("colName", Text "名称");
    ("colCreated", Text "创建时间");
    ("remove", Text "移除");
    ("removeConfirmTitle", Text "移除此通行密钥？");
    ("removeConfirmBody", Text "此通行密钥将无法再用于登录。");
    ("addedNotice", Text "已添加通行密钥。");
    ("removedNotice", Text "已移除通行密钥。");
    ("addError", Text "无法添加通行密钥，请重试。");
    ("removeError", Text "无法移除通行密钥。");
    ("listError", Text "加载通行密钥失败");
    ("lastFactorError", Text "无法移除最后一个第二因素。请先添加另一个。");
    ("notConfigured", Text "您的组织尚未配置通行密钥。");
    ("notSupported", Text "此浏览器不支持通行密钥。")]);
  ("trustedDeviceToggle", Group [
    ("label", Text "记住此设备");
    ("help", Text "允许用户在其选择信任的设备上跳过第二因素。")]);
  ("trustedDevices", Group [
    ("title", Text "受信任的设备");
    ("intro", Text "受信任的设备可以在到期前无需第二因素登录。撤销您不认识的设备。");
    ("colDevice", Text "设备");
    ("colIp", Text "IP 地址");
    ("colLastUsed", Text "上次使用");
    ("colExpires", Text "到期");
    ("revoke", Text "撤销");
    ("revokeAll", Text "全部撤销");
    ("confirmTitle", Text "撤销此设备？");
    ("confirmBody", Text "此设备下次登录时将需要第二因素。");
    ("revokeAllConfirmTitle", Text "撤销所有受信任的设备？");
    ("revokeAllConfirmBody", Text "所有受信任的设备在下次登录时都将需要第二因素。");
    ("empty", Text "没有受信任的设备。");
    ("loadError", Text "无法加载受信任的设备。");
    ("revokeError", Text "无法撤销该设备。");
    ("unknownDevice", Text "未知设备")])].

Definition zh_groups : dict := Group [
  ("title", Text "组");
  ("description", Text "定义用户组及其获得的租户访问权限。");
  ("superadminOnly", Text "组由平台管理员管理。");
  ("name", Text "名称");
  ("namePlaceholder", Text "组名称");
  ("descriptionField", Text "描述");
  ("descriptionPlaceholder", Text "可选描述");
  ("members", Text "成员");
  ("membersPlaceholder", Text "选择用户");
  ("noMembers", Text "暂无成员。");
  ("grants", Text "访问授权");
  ("noGrants", Text "暂无授权。");
  ("addGrant", Text "添加授权");
  ("allTenants", Text "所有租户");
  ("tenant", Text "租户");
  ("tenantPlaceholder", Text "选择租户");
  ("role", Text "角色");
  ("roleTenantAdmin", Text "租户管理员");
  ("roleOperator", Text "操作员");
  ("roleReadOnly", Text "只读");
  ("allTenantsScope", Text "所有租户");
  ("create", Text "新建组");
  ("createTitle", Text "创建组");
  ("save", Text "保存");
  ("delete", Text "删除");
  ("deleteConfirm", Text "删除此组？其成员将失去所授予的访问权限。此操作无法撤消。");
  ("removeGrant", Text "移除授权");
  ("empty", Text "暂无组。");
  ("created", Text "组已创建");
  ("updated", Text "组已更新");
  ("deleted", Text "组已删除");
  ("membersSaved", Text "成员已更新");
  ("grantAdded", Text "授权已添加");
  ("grantRemoved", Text "授权已移除");
  ("saveFailed", Text "无法保存组");
  ("loadError", Text "无法加载组")].

Definition zh_confirm : dict := Group [
  ("title", Text "确定吗？");
  ("cancel", Text "取消");
  ("confirm", Text "确认");
  ("deleteDevice", Text "删除设备");
  ("deleteDeviceBody", Text "这将永久删除该设备及其所有数据。此操作无法撤销。")].

Definition zh_errors : dict := Group [
  ("fleetHealthLoad", Text "加载机群健康状态失败");
  ("alertsLoad", Text "加载告警失败");
  ("metricsLoad", Text "加载指标失败");
  ("configModelLoad", Text "加载配置失败");
  ("configCapabilitiesLoad", Text "加载功能失败");
  ("configChangesLoad", Text "加载更改失败");
  ("configChangeAction", Text "操作失败（您可能缺少权限）");
  ("reportSettingsLoad", Text "加载报告设置失败");
  ("reportSettingsAction", Text "报告设置操作失败");
  ("reportsLoad", Text "加载报告失败");
  ("reportGenerate", Text "生成报告失败");
  ("attackerCountriesLoad", Text "加载攻击来源国家/地区失败");
  ("perimeterLoad", Text "加载边界数据失败");
  ("auditLoad", Text "加载审计日志失败");
  ("retentionLoad", Text "加载保留设置失败");
  ("retentionSave", Text "保存保留设置失败")].

Definition zh_system : dict := Group [
  ("title", Text "系统");
  ("subtitle", Text "平台级运行时设置。");
  ("livePush", Group [
    ("label", Text "向设备实时推送配置");
    ("help", Text "开启时，应用配置更改会写入真实设备。关闭时，更改仅为试运行。");
    ("loadError", Text "加载实时推送设置失败。");
    ("enabled", Text "已启用实时配置推送");
    ("disabled", Text "已禁用实时配置推送");
    ("updateError", Text "更新实时配置推送失败")]);
  ("runtime", Group [
    ("title", Text "运行时设置");
    ("subtitle", Text "无需重启即可调整；此处的值会覆盖来自 .env 的部署默认值。");
    ("loadError", Text "加载运行时设置失败。");
    ("save", Text "保存");
    ("discard", Text "放弃更改");
    ("saved", Text "运行时设置已保存");
    ("saveError", Text "保存运行时设置失败");
    ("defaultLabel", Text "默认");
    ("impactsTitle", Text "降低此保留默认值会影响租户");
    ("impactItem", Text "{tenant}：一个 {store} 报告计划需要 {range} 天，但 {store} 现在仅保留 {bound} 天。");
    ("groups", Group [
      ("firmware", Text "固件");
      ("distribution", Text "目录与 GeoIP 分发");
      ("maintenance", Text "维护");
      ("retention", Text "数据保留");
      ("security_login", Text "登录保护");
      ("security_session", Text "会话")]);
    ("items", Group [
      ("firmware_max_status_polls", Group [
        ("label", Text "最大状态轮询次数");
        ("help", Text "放弃固件操作前的状态轮询次数。")]);
      ("firmware_poll_interval_seconds", Group [
        ("label", Text "轮询间隔（秒）");
        ("help", Text "固件状态轮询之间的延迟。")]);
      ("catalog_auto_fetch", Group [
        ("label", Text "自动获取配置目录");
        ("help", Text "缓存未命中时从发行版获取版本化目录。")]);
      ("geoip_auto_fetch", Group [
        ("label", Text "自动获取 GeoIP 数据库");
        ("help", Text "缓存未命中时从发行版获取 GeoIP 数据库。")]);
      ("silent_alert_enabled", Group [
        ("label", Text "静默租户告警");
        ("help", Text "当启用转发的租户停止发送日志时告警。")]);
      ("silent_alert_after_hours", Group [
        ("label", Text "静默超时（小时）");
        ("help", Text "标记租户前的静默小时数。")]);
      ("perimeter_retention_days", Group [
        ("label", Text "边界保留期（天）");
        ("help", Text "边界攻击者数据保留时长的全局默认值。")]);
      ("events_retention_days", Group [
        ("label", Text "事件保留期（天）");
        ("help", Text "事件数据保留时长的全局默认值。")]);
      ("metrics_retention_days", Group [
        ("label", Text "指标保留期（天）");
        ("help", Text "指标数据保留时长的全局默认值。")]);
      ("log_lake_retention_days", Group [
        ("label", Text "日志湖保留期（天）");
        ("help", Text "日志湖数据保留时长的全局默认值。")]);
      ("login_max_attempts", Group [
        ("label", Text "最大登录尝试次数");
        ("help", Text "锁定前允许的失败登录尝试次数。")]);
      ("login_lockout_window_seconds", Group [
        ("label", Text "锁定窗口（秒）");
        ("help", Text "失败登录计数的滑动窗口。")]);
      ("session_ttl_hours", Group [
        ("label", Text "会话有效期（小时）");
        ("help", Text "会话的绝对有效期。")]);
      ("session_idle_minutes", Group [
        ("label", Text "空闲超时（分钟）");
        ("help", Text "会话过期前的空闲时间。")]);
      ("trusted_device_days", Group [
        ("label", Text "可信设备有效期（天）");
        ("help", Text "可信设备可跳过第二因素的时长，超时后需重新验证。")])])])].

Definition zh_logFleet : dict := Group [
  ("title", Text "日志机群");
  ("loadError", Text "加载日志机群失败。");
  ("exportCsv", Text "导出 CSV");
  ("exportPdf", Text "导出 PDF");
  ("exportFailed", Text "导出失败。");
  ("silentBadge", Text "静默");
  ("silentAlertsTitle", Text "静默租户告警");
  ("silentAlertsBody", Text "已启用转发但近期无日志。");
  ("volume", Text "日志量");
  ("devicesTitle", Text "设备");
  ("devicesLoadError", Text "加载设备失败。");
  ("noDevices", Text "暂无设备。");
  ("stats", Group [
    ("tenantsForwarding", Text "转发中的租户");
    ("enabledDevices", Text "已启用设备");
    ("silentTenants", Text "静默租户")]);
  ("table", Group [
    ("tenant", Text "租户");
    ("device", Text "设备");
    ("forwarding", Text "转发");
    ("revoked", Text "已吊销");
    ("lastLog", Text "最近日志")])].

Definition zh_perimeter : dict := Group [
  ("title", Text "边界");
  ("subtitle", Text "防火墙边界处的攻击者 IP——对设备的失败登录以及被拦截的流量。");
  ("failedLogins", Text "失败登录");
  ("firewallBlocks", Text "防火墙拦截");
  ("failedLoginsHelp", Text "对设备的被拒绝登录尝试。");
  ("firewallBlocksHelp", Text "被防火墙丢弃的入站流量。");
  ("ip", Text "源 IP");
  ("country", Text "国家/地区");
  ("user", Text "用户");
  ("port", Text "端口");
  ("count", Text "次数");
  ("lastSeen", Text "最近出现");
  ("empty", Text "此时间窗口内无活动。");
  ("viewAll", Text "查看全部");
  ("loadError", Text "加载边界数据失败。")].

Definition zh_retention : dict := Group [
  ("title", Text "数据保留");
  ("subtitle", Text "覆盖此租户数据的保留时长。留空字段以继承全局默认值。");
  ("inheritHint", Text "继承全局");
  ("save", Text "保存保留设置");
  ("saved", Text "保留设置已保存。");
  ("stores", Group [
    ("perimeter", Text "边界（天）");
    ("events", Text "事件（天）");
    ("metrics", Text "指标（天）");
    ("log_lake", Text "日志湖（天）")]);
  ("warningTitle", Text "报告计划超出保留期限");
  ("warningItem", Text "{frequency} 计划覆盖 {range} 天，但 {store} 数据仅保留 {bound} 天。")].

Definition zh_audit : dict := Group [
  ("title", Text "审计日志");
  ("subtitle", Text "平台上的所有变更操作，按操作者和租户列出。");
  ("filters", Group [
    ("actor", Text "操作者邮箱");
    ("tenant", Text "租户 ID");
    ("action", Text "操作");
    ("from", Text "起始");
    ("to", Text "结束");
    ("apply", Text "应用");
    ("reset", Text "重置")]);
  ("columns", Group [
    ("time", Text "时间");
    ("actor", Text "操作者");
    ("tenant", Text "租户");
    ("action", Text "操作");
    ("target", Text "目标");
    ("ip", Text "IP");
    ("details", Text "详情")]);
  ("empty", Text "没有符合这些筛选条件的审计记录。");
  ("export", Text "导出 CSV");
  ("exportFailed", Text "导出失败。");
  ("page", Text "第 {page} 页");
  ("showingTotal", Text "{total} 条记录");
  ("prev", Text "上一页");
  ("next", Text "下一页")].

Definition zh_reliability : dict := Group [
  ("tab", Text "可靠性");
  ("title", Text "服务事件（24小时）");
  ("subtitle", Text "来自设备系统日志的重启、服务崩溃/重启以及磁盘警告。");
  ("time", Text "时间");
  ("category", Text "类别");
  ("name", Text "事件");
  ("severity", Text "严重程度");
  ("process", Text "进程");
  ("message", Text "消息");
  ("categories", Group [
    ("reboot", Text "重启");
    ("service", Text "服务");
    ("disk", Text "磁盘")]);
  ("severities", Group [
    ("high", Text "高");
    ("medium", Text "中");
    ("low", Text "低")]);
  ("loadMore", Text "加载更多");
  ("empty", Text "此时间窗口内无服务事件。");
  ("loading", Text "正在加载服务事件…");
  ("loadError", Text "加载服务事件失败。");
  ("last24h", Text "过去24小时")].

Definition zh_configAudit : dict := Group [
  ("tab", Text "配置变更");
  ("title", Text "直接配置变更（24小时）");
  ("subtitle", Text "谁以何种方式更改了设备配置——在设备上的直接更改（WebGUI/控制台）会被标记为漂移。");
  ("time", Text "时间");
  ("area", Text "区域");
  ("actor", Text "操作者");
  ("ip", Text "IP");
  ("channel", Text "通道");
  ("change", Text "变更");
  ("direct", Text "直接");
  ("channels", Group [
    ("api", Text "API");
    ("gui", Text "WebGUI");
    ("system", Text "控制台/脚本");
    ("opngms", Text "OPNGMS");
    ("api_external", Text "外部 API")]);
  ("loadMore", Text "加载更多");
  ("empty", Text "此时间窗口内无配置变更。");
  ("loading", Text "正在加载配置变更…");
  ("loadError", Text "加载配置变更失败。");
  ("last24h", Text "过去24小时")].

Definition zh_smtp : dict := Group [
  ("authMethod", Text "身份验证");
  ("authPassword", Text "密码");
  ("authOauth", Text "OAuth2");
  ("oauthProvider", Text "提供商");
  ("oauthGoogle", Text "Google / Gmail");
  ("oauthMicrosoft", Text "Microsoft 365");
  ("oauthClientId", Text "Client ID");
  ("oauthClientSecret", Text "Client secret");
  ("oauthRefreshToken", Text "Refresh token");
  ("oauthTenantId", Text "Tenant ID");
  ("oauthSecretSaved", Text "已保存 — 留空以保留");
  ("oauthConnect", Text "连接账户");
  ("oauthConnectGoogle", Text "使用 Google 连接");
  ("oauthConnectMicrosoft", Text "使用 Microsoft 365 连接");
  ("oauthExperimental", Text "实验性 — 未经测试");
  ("oauthExperimentalNote", Text "OAuth 的浏览器登录尚未针对真实提供商进行验证。需要设置 PUBLIC_BASE_URL 并在您的 OAuth 应用中注册重定向 URI。在上方粘贴刷新令牌仍是受支持的方法。");
  ("oauthConnectNeedsCreds", Text "请先保存客户端 ID 和密钥，然后连接。");
  ("oauthConnected", Text "账户已连接。");
  ("oauthConnectFailed", Text "无法连接账户。")].

Definition zh : dict := Group [
  ("common", zh_common);
  ("nav", zh_nav);
  ("login", zh_login);
  ("tenant", zh_tenant);
  ("overview", zh_overview);
  ("alerts", zh_alerts);
  ("devices", zh_devices);
  ("deviceDetail", zh_deviceDetail);
  ("deviceActions", zh_deviceActions);
  ("firmware", zh_firmware);
  ("plugins", zh_plugins);
  ("templates", zh_templates);
  ("deviceCreate", zh_deviceCreate);
  ("health", zh_health);
  ("logForwarding", zh_logForwarding);
  ("catalog", zh_catalog);
  ("config", zh_config);
  ("deviceHealth", zh_deviceHealth);
  ("chart", zh_chart);
  ("reports", zh_reports);
  ("sessions", zh_sessions);
  ("mfa", zh_mfa);
  ("groups", zh_groups);
  ("confirm", zh_confirm);
  ("errors", zh_errors);
  ("system", zh_system);
  ("logFleet", zh_logFleet);
  ("perimeter", zh_perimeter);
  ("retention", zh_retention);
  ("audit", zh_audit);
  ("reliability", zh_reliability);
  ("configAudit", zh_configAudit);
  ("smtp", zh_smtp)].
