(* ===== verification/DictZhTW.v ===== *)
(** * The Traditional Chinese texts ([i18n/zhTW.ts]), one definition per group *)
From S2P Require Import Prelude Dict.

Definition zhTW_common : dict := Group [
  ("appName", Text "OPNGMS");
  ("logout", Text "登出");
  ("none", Text "—");
  ("language", Text "語言");
  ("cancel", Text "取消")].

Definition zhTW_nav : dict := Group [
  ("overview", Text "總覽");
  ("devices", Text "裝置");
  ("alerts", Text "警示");
  ("perimeter", Text "邊界");
  ("reportSettings", Text "報表設定");
  ("reportSchedule", Text "報表排程");
  ("reports", Text "報表");
  ("logs", Text "日誌");
  ("sessions", Text "使用中的工作階段");
  ("mfa", Text "雙因素驗證");
  ("templates", Text "範本庫");
  ("smtp", Text "SMTP");
  ("logFleet", Text "日誌機群");
  ("system", Text "系統");
  ("groups", Text "群組");
  ("audit", Text "稽核日誌")].

Definition zhTW_login : dict := Group [
  ("title", Text "OPNGMS");
  ("email", Text "電子郵件");
  ("password", Text "密碼");
  ("passwordToggle", Text "顯示/隱藏");
  ("submit", Text "登入");
  ("invalidCredentials", Text "認證資訊無效");
  ("mfa", Group [
    ("title", Text "雙因素驗證");
    ("codeHint", Text "請輸入驗證器應用程式產生的 6 位數代碼。");
    ("recoveryHint", Text "請輸入您的其中一組一次性復原碼。");
    ("codeLabel", Text "驗證代碼");
    ("recoveryLabel", Text "復原碼");
    ("verify", Text "驗證");
    ("useRecovery", Text "改用復原碼");
    ("useCode", Text "改用驗證器代碼");
    ("invalidCode", Text "代碼無效");
    ("or", Text "或");
    ("usePasskey", Text "使用通行金鑰 / 安全金鑰");
    ("passkeyError", Text "通行金鑰登入失敗，請重試。");
    ("passkeyNotSupported", Text "此瀏覽器不支援通行金鑰。");
    ("rememberDevice", Text "信任此裝置 {days} 天");
    ("rememberDeviceHelp", Text "下次從此裝置登入時，將不再要求輸入第二驗證因素。")])].

Definition zhTW_tenant : dict := Group [
  ("activeLabel", Text "目前租戶");
  ("none", Text "無租戶")].

Definition zhTW_overview : dict := Group [
  ("title", Text "總覽");
  ("activeAlerts", Text "進行中的警示");
  ("noActiveAlerts", Text "沒有進行中的警示");
  ("healthLoadError", Text "無法載入機群健康狀態");
  ("alertsLoadError", Text "無法載入警示");
  ("attackerCountries", Group [
    ("title", Text "主要攻擊來源國家/地區");
    ("mapTitle", Text "攻擊來源");
    ("empty", Text "此期間未記錄任何攻擊。");
    ("private", Text "私有 / 內部");
    ("unknown", Text "未知");
    ("attribution", Text "國家/地區資料：DB-IP (CC BY 4.0)")])].

Definition zhTW_alerts : dict := Group [
  ("title", Text "警示");
  ("active", Text "進行中");
  ("history", Text "歷史紀錄");
  ("loadError", Text "無法載入警示");
  ("noAlerts", Text "沒有警示");
  ("colType", Text "類型");
  ("colLabel", Text "標籤");
  ("colSeverity", Text "嚴重程度");
  ("colOpened", Text "開啟時間");
  ("colResolved", Text "解決時間");
  ("colDevice", Text "裝置")].

Definition zhTW_devices : dict := Group [
  ("title", Text "裝置");
  ("add", Text "新增裝置");
  ("loadError", Text "無法載入裝置");
  ("colName", Text "名稱");
  ("colUrl", Text "URL");
  ("colStatus", Text "狀態");
  ("colFirmware", Text "韌體")].

Definition zhTW_deviceDetail : dict := Group [
  ("url", Text "URL");
  ("status", Text "狀態");
  ("firmware", Text "韌體");
  ("loadError", Text "無法載入裝置")].

Definition zhTW_deviceActions : dict := Group [
  ("testConnection", Text "測試連線");
  ("delete", Text "刪除");
  ("testResult", Text "測試結果");
  ("testNotification", Text "測試");
  ("testFailed", Text "連線測試失敗");
  ("deleteFailed", Text "刪除失敗");
  ("openWebGui", Text "開啟 WebGUI")].

Definition zhTW_firmware : dict := Group [
  ("title", Text "韌體");
  ("tab", Text "韌體");
  ("check", Text "檢查更新");
  ("upToDate", Text "已是最新版本");
  ("updatesAvailable", Text "有可用更新");
  ("downloadSize", Text "下載大小");
  ("rebootNeeded", Text "需要重新開機");
  ("newMajor", Text "有新的主要版本可用");
  ("update", Text "更新韌體");
  ("upgrade", Text "升級至新主要版本");
  ("updateConfirm", Text "套用所有待處理的套件更新嗎？裝置可能會重新開機。");
  ("upgradeConfirm", Text "升級至新的主要版本嗎？此程序會執行多個步驟並重新開機，可能需要一段時間。");
  ("plugins", Text "外掛程式");
  ("pluginName", Text "外掛程式名稱");
  ("install", Text "安裝");
  ("remove", Text "移除");
  ("installConfirm", Text "安裝此外掛程式嗎？裝置必須使用最新韌體。");
  ("removeConfirm", Text "移除此外掛程式嗎？");
  ("runNow", Text "立即執行");
  ("scheduleAt", Text "排程（留空則立即執行）");
  ("schedule", Text "排程");
  ("recentActions", Text "最近的動作");
  ("noActions", Text "尚無動作");
  ("actionQueued", Text "動作已排入佇列");
  ("actionFailed", Text "無法將動作排入佇列");
  ("checkFailed", Text "韌體檢查失敗");
  ("kind", Text "動作");
  ("status", Text "狀態");
  ("when", Text "時間");
  ("result", Text "結果")].

Definition zhTW_plugins : dict := Group [
  ("tab", Text "外掛程式");
  ("title", Text "外掛程式");
  ("subtitle", Text "防火牆回報的外掛程式。安裝或移除社群外掛程式；安裝時裝置必須使用最新韌體。");
  ("search", Text "搜尋外掛程式…");
  ("name", Text "外掛程式");
  ("status", Text "狀態");
  ("version", Text "版本");
  ("installed", Text "已安裝");
  ("notInstalled", Text "可用");
  ("locked", Text "已鎖定");
  ("install", Text "安裝");
  ("remove", Text "移除");
  ("installConfirm", Text "安裝此外掛程式嗎？");
  ("removeConfirm", Text "移除此外掛程式嗎？");
  ("empty", Text "尚未回報任何外掛程式——裝置會定期輪詢。");
  ("loadFailed", Text "無法載入外掛程式。");
  ("configure", Text "設定");
  ("configureTitle", Text "外掛程式設定")].

Definition zhTW_templates : dict := Group [
  ("tab", Text "範本");
  ("libraryTitle", Text "範本庫");
  ("superadminOnly", Text "範本庫由平台管理員管理。");
  ("name", Text "名稱");
  ("kind", Text "種類");
  ("type", Text "別名類型");
  ("content", Text "內容（每行一筆項目）");
  ("description", Text "說明");
  ("create", Text "新增範本");
  ("edit", Text "編輯");
  ("save", Text "儲存");
  ("delete", Text "刪除");
  ("deleteConfirm", Text "刪除此範本嗎？各租戶的覆寫設定將被移除；已套用的變更會保留其歷史紀錄。");
  ("empty", Text "尚無範本。");
  ("created", Text "範本已建立");
  ("updated", Text "範本已更新");
  ("saveFailed", Text "無法儲存範本");
  ("apply", Group [
    ("title", Text "套用範本");
    ("pick", Text "範本");
    ("override", Text "此客戶的覆寫設定（內容，每行一筆項目 — 留空則使用範本庫的值）");
    ("saveOverride", Text "儲存覆寫設定");
    ("overrideSaved", Text "覆寫設定已儲存");
    ("preview", Text "預覽");
    ("previewTitle", Text "生效的組態");
    ("applyConfirm", Text "將此範本套用至裝置嗎？");
    ("runNow", Text "立即套用");
    ("scheduleAt", Text "排程（留空則立即套用）");
    ("schedule", Text "排程");
    ("queued", Text "套用已排入佇列");
    ("failed", Text "無法套用範本");
    ("none", Text "沒有可用的範本。")]);
  ("templatesTab", Text "範本");
  ("kindLabel", Text "範本類型");
  ("kindAlias", Text "防火牆別名");
  ("kindSetting", Text "OPNsense 設定");
  ("setting", Group [
    ("endpoint", Text "設定");
    ("referenceDevice", Text "參考裝置（用於讀取可用欄位）");
    ("load", Text "載入欄位");
    ("loadHint", Text "選擇一項設定與一部裝置，然後載入要設定的欄位。");
    ("noDevice", Text "目前租戶中沒有可用的裝置可供讀取欄位。");
    ("loadFailed", Text "無法從裝置讀取設定。");
    ("noFields", Text "沒有可設定的欄位。");
    ("hardwareNote", Text "硬體／裝置特定的欄位刻意不開放製作範本。")]);
  ("kindFirewallRule", Text "防火牆規則（Rules [新]）");
  ("fw", Group [
    ("referenceDevice", Text "參考裝置（用於讀取可用的規則欄位）");
    ("load", Text "載入欄位");
    ("loadHint", Text "選擇一部裝置，然後載入要設定的規則欄位。");
    ("noDevice", Text "目前租戶中沒有可用的裝置可供讀取欄位。");
    ("loadFailed", Text "無法從裝置讀取規則模型。");
    ("descriptionRequired", Text "必須填寫說明（它是規則的識別依據）。");
    ("interface", Text "介面（於套用時選擇）");
    ("floating", Text "浮動（無介面）");
    ("note", Text "介面於套用時選擇；若為浮動規則請留空。")]);
  ("kindMonitTest", Text "Monit 健康檢查測試");
  ("monit", Group [
    ("referenceDevice", Text "參考裝置（用於讀取可用的測試欄位）");
    ("load", Text "載入欄位");
    ("loadHint", Text "選擇一部裝置，然後載入要設定的測試欄位。");
    ("noDevice", Text "目前租戶中沒有可用的裝置可供讀取欄位。");
    ("loadFailed", Text "無法從裝置讀取測試模型。");
    ("nameRequired", Text "必須填寫名稱（它是測試的識別依據）。");
    ("note", Text "測試一旦掛載至某個 Monit 服務即會生效。");
    ("attachSystem", Text "將此測試掛載至系統服務以使其生效");
    ("attachSystemNote", Text "啟用後，套用時也會將測試掛載至裝置的 Monit 系統服務。")]);
  ("kindIdsRulesets", Text "Suricata/IDS 規則集");
  ("ids", Group [
    ("referenceDevice", Text "參考裝置（用於讀取可用的規則集）");
    ("load", Text "載入規則集");
    ("loadHint", Text "選擇一部裝置，然後載入其規則集以選擇要啟用哪些。");
    ("noDevice", Text "目前租戶中沒有可用的裝置可供讀取規則集。");
    ("loadFailed", Text "無法從裝置讀取規則集。");
    ("rulesets", Text "要啟用的規則集");
    ("noRulesets", Text "在裝置上找不到規則集。");
    ("note", Text "套用會啟用所選的規則集（累加式 — 不會停用其他規則集）。")]);
  ("kindIdsPolicy", Text "Suricata/IDS 原則");
  ("idsPolicy", Group [
    ("description", Text "說明（原則的識別依據）");
    ("enabled", Text "已啟用");
    ("prio", Text "優先順序");
    ("action", Text "要比對的目前動作（動作為其中之一的規則）");
    ("newAction", Text "新動作");
    ("rulesets", Text "原則套用的規則集");
    ("referenceDevice", Text "參考裝置（用於讀取可用的規則集）");
    ("load", Text "載入規則集");
    ("loadHint", Text "選擇一部裝置，然後載入其已啟用的規則集以供參照。");
    ("noDevice", Text "目前租戶中沒有可用的裝置可供讀取規則集。");
    ("noRulesets", Text "在裝置上找不到已啟用的規則集（請先啟用一個規則集）。");
    ("loadFailed", Text "無法從裝置讀取規則集。");
    ("content", Text "中繼資料篩選器（進階 — 大多數原則不需要）");
    ("contentKey", Text "鍵");
    ("contentValues", Text "值（以逗號分隔）");
    ("contentKeyInvalid", Text "鍵無效——請使用字母、數字、點、連字號或底線。");
    ("addContent", Text "新增篩選器");
    ("descriptionRequired", Text "必須填寫說明（它是原則的識別依據）。");
    ("note", Text "所參照的規則集必須已在裝置上啟用。規則集/內容的對應會在套用時於執行階段進行驗證。")]);
  ("profiles", Group [
    ("tab", Text "設定檔");
    ("name", Text "名稱");
    ("description", Text "說明");
    ("members", Text "範本（依套用順序）");
    ("create", Text "新增設定檔");
    ("edit", Text "編輯");
    ("save", Text "儲存");
    ("delete", Text "刪除");
    ("deleteConfirm", Text "刪除此設定檔嗎？已套用的變更會保留其歷史紀錄。");
    ("empty", Text "尚無設定檔。");
    ("created", Text "設定檔已建立");
    ("updated", Text "設定檔已更新");
    ("saveFailed", Text "無法儲存設定檔");
    ("memberCount", Text "個範本");
    ("apply", Group [
      ("title", Text "套用設定檔");
      ("pick", Text "設定檔");
      ("preview", Text "預覽");
      ("previewTitle", Text "生效的組態（依序列出各範本）");
      ("interface", Text "介面（於套用時選擇）");
      ("floating", Text "浮動（無介面）");
      ("empty", Text "沒有可用的設定檔。");
      ("applyConfirm", Text "將此設定檔套用至裝置嗎？它會依序套用每個成員範本。");
      ("runNow", Text "立即套用");
      ("scheduleAt", Text "排程（留空則立即套用）");
      ("schedule", Text "排程");
      ("queued", Text "設定檔套用已排入佇列");
      ("failed", Text "無法套用設定檔")])])].

Definition zhTW_deviceCreate : dict := Group [
  ("title", Text "新增裝置");
  ("name", Text "名稱");
  ("url", Text "URL（https）");
  ("apiKey", Text "API 金鑰");
  ("apiSecret", Text "API 密鑰");
  ("verifyTls", Text "驗證 TLS");
  ("tlsWarning", Text "關閉 TLS 驗證後，將沒有任何機制驗證裝置的憑證——驗證資料可能遭攔截。請在下方釘選憑證的 SHA-256 指紋以恢復保護。");
  ("tlsFingerprintLabel", Text "憑證 SHA-256 指紋（選填）");
  ("tlsFingerprintPlaceholder", Text "00:42:E2:C4:07:61:06:0D:56:A4:75:2F:FC:32:2B:4E:B3:CE:FF:31:8A:88:F3:22:2B:C1:B1:0D:46:0B:04:2C");
  ("save", Text "儲存");
  ("created", Text "裝置已建立");
  ("createFailed", Text "建立失敗")].

Definition zhTW_health : dict := Group [
  ("totalDevices", Text "裝置總數");
  ("activeAlerts", Text "進行中的警示")].

Definition zhTW_logForwarding : dict := Group [
  ("tab", Text "日誌轉送")].

Definition zhTW_catalog : dict := Group [
  ("tab", Text "編輯器");
  ("searchModels", Text "搜尋設定…");
  ("noModels", Text "此裝置版本沒有可用的目錄。");
  ("selectModel", Text "在左側選擇一個設定群組以進行編輯。");
  ("readOnly", Text "無法編輯（安全封鎖清單）。");
  ("unreachable", Text "裝置無法連線 — 編輯需要即時值。");
  ("liveValues", Text "即時值");
  ("propose", Text "提議變更");
  ("preview", Text "檢視變更");
  ("noChanges", Text "沒有可提議的變更。");
  ("proposed", Text "草稿變更已建立 — 請從「組態」分頁進行排程。");
  ("proposeFailed", Text "無法建立變更。");
  ("loadFailed", Text "無法載入模型。");
  ("openWebgui", Text "在 WebGUI 中開啟");
  ("searchAll", Text "搜尋設定…");
  ("grid", Group [
    ("add", Text "新增列");
    ("save", Text "儲存");
    ("edit", Text "編輯");
    ("delete", Text "刪除");
    ("empty", Text "沒有資料列。")]);
  ("diff", Group [
    ("baseline", Text "比較版本");
    ("noBaseline", Text "沒有更早的版本");
    ("newSince", Text "自 {v} 起新增");
    ("changedSince", Text "自 {v} 起變更");
    ("changes", Text "變更")]);
  ("map", Group [
    ("tabMenu", Text "選單");
    ("tabMap", Text "設定對應");
    ("editInCatalog", Text "在目錄中編輯");
    ("readOnly", Text "唯讀（無 API）");
    ("staleBanner", Text "已過期 — 裝置無法連線；顯示 {when} 的最近備份")])].

Definition zhTW_config : dict := Group [
  ("tabInfo", Text "資訊");
  ("tabHealth", Text "健康狀態");
  ("tabConfig", Text "組態");
  ("capabilities", Text "功能");
  ("version", Text "OPNsense 版本");
  ("interfaces", Text "介面");
  ("configuredSections", Text "已設定的區段");
  ("available", Text "可用的功能");
  ("hidden", Text "已隱藏");
  ("noConfigYet", Text "尚未擷取任何組態");
  ("nic", Text "NIC");
  ("changes", Group [
    ("title", Text "待處理的變更");
    ("propose", Text "提議別名變更");
    ("none", Text "沒有待處理的變更");
    ("colKind", Text "種類");
    ("colOperation", Text "操作");
    ("colTarget", Text "目標");
    ("colStatus", Text "狀態");
    ("colScheduled", Text "已排程");
    ("preview", Text "預覽");
    ("schedule", Text "排程");
    ("cancel", Text "取消");
    ("revert", Text "還原");
    ("reverts", Text "還原 #");
    ("applyNow", Text "立即套用");
    ("pickTime", Text "選擇日期/時間");
    ("checkDrift", Text "檢查偏移");
    ("driftUnreachable", Text "無法連線至裝置 — 偏移狀態未知。");
    ("driftInSync", Text "已同步");
    ("driftDrifted", Text "偏移");
    ("driftMissing", Text "遺失");
    ("driftUnsupported", Text "不適用");
    ("driftFields", Text "偏移的欄位： ");
    ("operation", Text "操作");
    ("name", Text "名稱");
    ("type", Text "類型");
    ("content", Text "內容（每行一筆）");
    ("create", Text "建立");
    ("add", Text "新增");
    ("set", Text "設定");
    ("delete", Text "刪除")])].

Definition zhTW_deviceHealth : dict := Group [
  ("title", Text "健康狀態");
  ("cpu", Text "CPU");
  ("memory", Text "記憶體");
  ("disk", Text "磁碟");
  ("trafficIn", Text "流入流量");
  ("trafficOut", Text "流出流量");
  ("gatewayRtt", Text "閘道 RTT");
  ("gatewayLoss", Text "閘道遺失率");
  ("vpnUp", Text "VPN 已連線")].

Definition zhTW_chart : dict := Group [
  ("noData", Text "尚無資料")].

Definition zhTW_reports : dict := Group [
  ("page", Group [
    ("title", Text "報表");
    ("generate", Text "產生報表");
    ("from", Text "起始");
    ("to", Text "結束");
    ("period", Text "期間");
    ("kind", Text "種類");
    ("created", Text "建立時間");
    ("size", Text "大小");
    ("download", Text "下載");
    ("none", Text "尚無報表。");
    ("generated", Text "報表已產生");
    ("kindOnDemand", Text "隨選");
    ("kindScheduled", Text "已排程")]);
  ("settings", Group [
    ("pageTitle", Text "報表設定");
    ("title", Text "報表標題");
    ("owner", Text "擁有者");
    ("timezone", Text "時區");
    ("fromEmail", Text "寄件者電子郵件（報表寄送）");
    ("logo", Text "標誌");
    ("upload", Text "上傳標誌");
    ("remove", Text "移除標誌");
    ("language", Text "報表語言");
    ("save", Text "儲存設定");
    ("adminsOnly", Text "報表設定僅供租戶管理員使用。");
    ("saved", Text "報表設定已儲存。");
    ("logoUploaded", Text "標誌已上傳。");
    ("logoRemoved", Text "標誌已移除。");
    ("hasLogo", Text "標誌已上傳");
    ("noLogo", Text "無標誌")]);
  ("sections", Group [
    ("title", Text "報表章節");
    ("description", Text "選擇 PDF 報表中顯示哪些章節。");
    ("customizeForDevice", Text "為此裝置自訂章節");
    ("summary", Text "執行摘要");
    ("health", Text "裝置健康狀況");
    ("alerts_wan", Text "警示與連線");
    ("attacks", Text "攻擊");
    ("attacker_countries", Text "攻擊來源國家/地區");
    ("failed_logins", Text "登入失敗");
    ("firewall_blocks", Text "防火牆封鎖");
    ("web", Text "網頁活動");
    ("data", Text "資料用量");
    ("status", Text "上線/離線狀態");
    ("firmware_config", Text "韌體與設定");
    ("applications", Text "應用程式");
    ("web_filter", Text "網頁過濾")])].

Definition zhTW_sessions : dict := Group [
  ("pageTitle", Text "使用中的工作階段");
  ("colLastSeen", Text "最後上線");
  ("colCreated", Text "建立時間");
  ("colExpires", Text "到期時間");
  ("colIp", Text "IP 位址");
  ("colUserAgent", Text "使用者代理程式");
  ("current", Text "目前");
  ("logoutAll", Text "登出所有裝置");
  ("loadError", Text "無法載入工作階段");
  ("logoutAllError", Text "無法在所有裝置上登出")].

Definition zhTW_mfa : dict := Group [
  ("pageTitle", Text "雙因素驗證");
  ("intro", Text "使用驗證器應用程式產生的限時一次性密碼（TOTP）保護您的帳戶。");
  ("status", Text "狀態");
  ("enabled", Text "已啟用");
  ("disabled", Text "已停用");
  ("recoveryRemaining", Text "剩餘的復原碼");
  ("statusError", Text "無法載入 MFA 狀態");
  ("enroll", Text "設定雙因素驗證");
  ("enrollStart", Text "開始設定");
  ("password", Text "目前的密碼");
  ("passwordHint", Text "請重新輸入密碼以變更雙因素設定。");
  ("scanHint", Text "使用您的驗證器應用程式掃描此 QR 碼，或手動輸入密鑰。");
  ("secretLabel", Text "密鑰");
  ("confirmCodeLabel", Text "驗證代碼");
  ("confirmHint", Text "請輸入應用程式中的 6 位數代碼以完成設定。");
  ("confirm", Text "確認並啟用");
  ("cancel", Text "取消");
  ("setupError", Text "無法開始設定（請檢查您的密碼）。");
  ("confirmError", Text "代碼無效。請再試一次。");
  ("recoveryTitle", Text "復原碼");
  ("recoveryIntro", Text "請將這些一次性復原碼妥善保存在安全的地方。若遺失驗證器，每組代碼可使用一次。");
  ("recoveryWarning", Text "這些代碼僅顯示一次。");
  ("copyAll", Text "全部複製");
  ("copied", Text "已複製到剪貼簿");
  ("download", Text "下載");
  ("done", Text "完成");
  ("regenerate", Text "重新產生復原碼");
  ("regenerateError", Text "無法重新產生復原碼（請檢查您的密碼）。");
  ("disable", Text "停用雙因素驗證");
  ("disableConfirmTitle", Text "停用雙因素驗證嗎？");
  ("disableConfirmBody", Text "您的帳戶在登入時將不再需要第二因素。");
  ("disableError", Text "無法停用（請檢查您的密碼）。");
  ("disabledNotice", Text "雙因素驗證已停用。");
  ("policyTitle", Text "組織 MFA 政策");
  ("policyIntro", Text "要求整個組織使用雙因素驗證。");
  ("policyOff", Text "關閉");
  ("policyAll", Text "所有使用者");
  ("policyPrivileged", Text "具特權的使用者");
  ("policyLoadError", Text "無法載入 MFA 政策");
  ("policySaveError", Text "無法更新 MFA 政策");
  ("policySaved", Text "MFA 政策已更新");
  ("usersTitle", Text "使用者 MFA");
  ("colUser", Text "使用者");
  ("colEmail", Text "電子郵件");
  ("colRole", Text "角色");
  ("superadmin", Text "超級管理員");
  ("member", Text "成員");
  ("reset", Text "重設 MFA");
  ("resetConfirmTitle", Text "重設此使用者的 MFA 嗎？");
  ("resetConfirmBody", Text "這會清除其 TOTP 密鑰與復原碼。他們將需要重新設定。");
  ("resetError", Text "無法重設使用者的 MFA");
  ("resetDone", Text "使用者 MFA 已重設");
  ("usersLoadError", Text "無法載入使用者");
  ("gateTitle", Text "需要雙因素驗證");
  ("gateIntro", Text "您的組織要求使用雙因素驗證。請立即設定以繼續。");
  ("passkeys", Group [
    ("title", Text "通行金鑰");
    ("intro", Text "註冊通行金鑰或安全金鑰，無需驗證碼即可登入。");
    ("add", Text "新增通行金鑰");
    ("accountPassword", Text "帳戶密碼");
    ("name", Text "名稱");
    ("namePlaceholder", Text "例如：工作筆電");
    ("unnamed", Text "通行金鑰");
    ("colName", Text "名稱");
    ("colCreated", Text "建立時間");
    ("remove", Text "移除");
    ("removeConfirmTitle", Text "移除此通行金鑰？");
    ("removeConfirmBody", Text "此通行金鑰將無法再用於登入。");
    ("addedNotice", Text "已新增通行金鑰。");
    ("removedNotice", Text "已移除通行金鑰。");
    ("addError", Text "無法新增通行金鑰，請重試。");
    ("removeError", Text "無法移除通行金鑰。");
    ("listError", Text "載入通行金鑰失敗");
    ("lastFactorError", Text "無法移除最後一個第二因素。請先新增另一個。");
    ("notConfigured", Text "您的組織尚未設定通行金鑰。");
    ("notSupported", Text "此瀏覽器不支援通行金鑰。")]);
  ("trustedDeviceToggle", Group [
    ("label", Text "記住此裝置");
    ("help", Text "允許使用者在其選擇信任的裝置上略過第二因素。")]);
  ("trustedDevices", Group [
    ("title", Text "受信任的裝置");
    ("intro", Text "受信任的裝置可在到期前無需第二因素登入。撤銷您不認識的裝置。");
    ("colDevice", Text "裝置");
    ("colIp", Text "IP 位址");
    ("colLastUsed", Text "上次使用");
    ("colExpires", Text "到期");
    ("revoke", Text "撤銷");
    ("revokeAll", Text "全部撤銷");
    ("confirmTitle", Text "撤銷此裝置？");
    ("confirmBody", Text "此裝置下次登入時將需要第二因素。");
    ("revokeAllConfirmTitle", Text "撤銷所有受信任的裝置？");
    ("revokeAllConfirmBody", Text "所有受信任的裝置在下次登入時都將需要第二因素。");
    ("empty", Text "沒有受信任的裝置。");
    ("loadError", Text "無法載入受信任的裝置。");
    ("revokeError", Text "無法撤銷該裝置。");
    ("unknownDevice", Text "未知裝置")])].

Definition zhTW_groups : dict := Group [
  ("title", Text "群組");
  ("description", Text "定義使用者群組及其獲得的租戶存取權限。");
  ("superadminOnly", Text "群組由平台管理員管理。");
  ("name", Text "名稱");
  ("namePlaceholder", Text "群組名稱");
  ("descriptionField", Text "描述");
  ("descriptionPlaceholder", Text "選填描述");
  ("members", Text "成員");
  ("membersPlaceholder", Text "選擇使用者");
  ("noMembers", Text "尚無成員。");
  ("grants", Text "存取授權");
  ("noGrants", Text "尚無授權。");
  ("addGrant", Text "新增授權");
  ("allTenants", Text "所有租戶");
  ("tenant", Text "租戶");
  ("tenantPlaceholder", Text "選擇租戶");
  ("role", Text "角色");
  ("roleTenantAdmin", Text "租戶管理員");
  ("roleOperator", Text "操作員");
  ("roleReadOnly", Text "唯讀");
  ("allTenantsScope", Text "所有租戶");
  ("create", Text "新增群組");
  ("createTitle", Text "建立群組");
  ("save", Text "儲存");
  ("delete", Text "刪除");
  ("deleteConfirm", Text "刪除此群組？其成員將失去所授予的存取權限。此操作無法復原。");
  ("removeGrant", Text "移除授權");
  ("empty", Text "尚無群組。");
  ("created", Text "群組已建立");
  ("updated", Text "群組已更新");
  ("deleted", Text "群組已刪除");
  ("membersSaved", Text "成員已更新");
  ("grantAdded", Text "授權已新增");
  ("grantRemoved", Text "授權已移除");
  ("saveFailed", Text "無法儲存群組");
  ("loadError", Text "無法載入群組")].

Definition zhTW_confirm : dict := Group [
  ("title", Text "您確定嗎？");
  ("cancel", Text "取消");
  ("confirm", Text "確認");
  ("deleteDevice", Text "刪除裝置");
  ("deleteDeviceBody", Text "這將永久刪除該裝置及其所有資料。此動作無法復原。")].

Definition zhTW_errors : dict := Group [
  ("fleetHealthLoad", Text "無法載入機群健康狀態");
  ("alertsLoad", Text "無法載入警示");
  ("metricsLoad", Text "無法載入指標");
  ("configModelLoad", Text "無法載入組態");
  ("configCapabilitiesLoad", Text "無法載入功能");
  ("configChangesLoad", Text "無法載入變更");
  ("configChangeAction", Text "動作失敗（您可能沒有權限）");
  ("reportSettingsLoad", Text "無法載入報表設定");
  ("reportSettingsAction", Text "報表設定動作失敗");
  ("reportsLoad", Text "無法載入報表");
  ("reportGenerate", Text "無法產生報表");
  ("attackerCountriesLoad", Text "無法載入攻擊來源國家/地區");
  ("perimeterLoad", Text "無法載入邊界資料");
  ("auditLoad", Text "無法載入稽核日誌");
  ("retentionLoad", Text "無法載入保留設定");
  ("retentionSave", Text "無法儲存保留設定")].

Definition zhTW_system : dict := Group [
  ("title", Text "系統");
  ("subtitle", Text "平台層級的執行階段設定。");
  ("livePush", Group [
    ("label", Text "即時組態推送至裝置");
    ("help", Text "開啟時，套用組態變更會寫入實際裝置。關閉時，變更僅為試運行。");
    ("loadError", Text "無法載入即時推送設定。");
    ("enabled", Text "已啟用即時組態推送");
    ("disabled", Text "已停用即時組態推送");
    ("updateError", Text "無法更新即時組態推送")]);
  ("runtime", Group [
    ("title", Text "執行階段設定");
    ("subtitle", Text "無需重新啟動即可調整；此處的值會覆寫 .env 的部署預設值。");
    ("loadError", Text "無法載入執行階段設定。");
    ("save", Text "儲存");
    ("discard", Text "捨棄變更");
    ("saved", Text "已儲存執行階段設定");
    ("saveError", Text "無法儲存執行階段設定");
    ("defaultLabel", Text "預設值");
    ("impactsTitle", Text "降低此保留預設值會影響租戶");
    ("impactItem", Text "{tenant}：一個 {store} 報表排程需要 {range} 天，但 {store} 現在僅保留 {bound} 天。");
    ("groups", Group [
      ("firmware", Text "韌體");
      ("distribution", Text "目錄與 GeoIP 散佈");
      ("maintenance", Text "維護");
      ("retention", Text "資料保留");
      ("security_login", Text "登入保護");
      ("security_session", Text "工作階段")]);
    ("items", Group [
      ("firmware_max_status_polls", Group [
        ("label", Text "狀態輪詢次數上限");
        ("help", Text "放棄韌體動作前的狀態輪詢次數。")]);
      ("firmware_poll_interval_seconds", Group [
        ("label", Text "輪詢間隔（秒）");
        ("help", Text "韌體狀態輪詢之間的延遲。")]);
      ("catalog_auto_fetch", Group [
        ("label", Text "自動擷取組態目錄");
        ("help", Text "快取未命中時，從發行版擷取版本化目錄。")]);
      ("geoip_auto_fetch", Group [
        ("label", Text "自動擷取 GeoIP 資料庫");
        ("help", Text "快取未命中時，從發行版擷取 GeoIP 資料庫。")]);
      ("silent_alert_enabled", Group [
        ("label", Text "租戶無訊息警示");
        ("help", Text "當已設定轉送的租戶停止傳送日誌時發出警示。")]);
      ("silent_alert_after_hours", Group [
        ("label", Text "無訊息逾時（小時）");
        ("help", Text "租戶被標記前的無訊息時數。")]);
      ("perimeter_retention_days", Group [
        ("label", Text "邊界保留期（天）");
        ("help", Text "邊界攻擊者資料保留時長的全域預設值。")]);
      ("events_retention_days", Group [
        ("label", Text "事件保留期（天）");
        ("help", Text "事件資料保留時長的全域預設值。")]);
      ("metrics_retention_days", Group [
        ("label", Text "指標保留期（天）");
        ("help", Text "指標資料保留時長的全域預設值。")]);
      ("log_lake_retention_days", Group [
        ("label", Text "日誌湖保留期（天）");
        ("help", Text "日誌湖資料保留時長的全域預設值。")]);
      ("login_max_attempts", Group [
        ("label", Text "登入嘗試次數上限");
        ("help", Text "鎖定前允許的登入失敗次數。")]);
      ("login_lockout_window_seconds", Group [
        ("label", Text "鎖定時間窗（秒）");
        ("help", Text "登入失敗次數的滑動時間窗。")]);
      ("session_ttl_hours", Group [
        ("label", Text "工作階段存留時間（小時）");
        ("help", Text "工作階段的絕對存留時間。")]);
      ("session_idle_minutes", Group [
        ("label", Text "閒置逾時（分鐘）");
        ("help", Text "工作階段過期前的閒置時間。")]);
      ("trusted_device_days", Group [
        ("label", Text "受信任裝置有效期（天）");
        ("help", Text "受信任裝置可略過第二因素的時長，逾時後需重新驗證。")])])])].

Definition zhTW_logFleet : dict := Group [
  ("title", Text "日誌機群");
  ("loadError", Text "無法載入日誌機群。");
  ("exportCsv", Text "匯出 CSV");
  ("exportPdf", Text "匯出 PDF");
  ("exportFailed", Text "匯出失敗。");
  ("silentBadge", Text "無訊息");
  ("silentAlertsTitle", Text "租戶無訊息警示");
  ("silentAlertsBody", Text "已啟用轉送，但近期沒有日誌。");
  ("volume", Text "日誌量");
  ("devicesTitle", Text "裝置");
  ("devicesLoadError", Text "無法載入裝置。");
  ("noDevices", Text "沒有裝置。");
  ("stats", Group [
    ("tenantsForwarding", Text "轉送中的租戶");
    ("enabledDevices", Text "已啟用的裝置");
    ("silentTenants", Text "無訊息的租戶")]);
  ("table", Group [
    ("tenant", Text "租戶");
    ("device", Text "裝置");
    ("forwarding", Text "轉送");
    ("revoked", Text "已撤銷");
    ("lastLog", Text "最後日誌")])].

Definition zhTW_perimeter : dict := Group [
  ("title", Text "邊界");
  ("subtitle", Text "防火牆邊界上的攻擊者 IP — 對防火牆的登入失敗與遭封鎖的流量。");
  ("failedLogins", Text "登入失敗");
  ("firewallBlocks", Text "防火牆封鎖");
  ("failedLoginsHelp", Text "遭拒絕的防火牆登入嘗試。");
  ("firewallBlocksHelp", Text "由防火牆丟棄的入站流量。");
  ("ip", Text "來源 IP");
  ("country", Text "國家/地區");
  ("user", Text "使用者");
  ("port", Text "連接埠");
  ("count", Text "次數");
  ("lastSeen", Text "最後出現");
  ("empty", Text "此期間沒有任何活動。");
  ("viewAll", Text "檢視全部");
  ("loadError", Text "無法載入邊界資料。")].

Definition zhTW_retention : dict := Group [
  ("title", Text "資料保留");
  ("subtitle", Text "覆寫此租戶資料的保留時長。將欄位留空以繼承全域預設值。");
  ("inheritHint", Text "繼承全域");
  ("save", Text "儲存保留設定");
  ("saved", Text "保留設定已儲存。");
  ("stores", Group [
    ("perimeter", Text "邊界（天）");
    ("events", Text "事件（天）");
    ("metrics", Text "指標（天）");
    ("log_lake", Text "日誌湖（天）")]);
  ("warningTitle", Text "報表排程超出保留期限");
  ("warningItem", Text "{frequency} 排程涵蓋 {range} 天，但 {store} 資料僅保留 {bound} 天。")].

Definition zhTW_audit : dict := Group [
  ("title", Text "稽核日誌");
  ("subtitle", Text "平台上每一項變更操作，依操作者與租戶顯示。");
  ("filters", Group [
    ("actor", Text "操作者電子郵件");
    ("tenant", Text "租戶 ID");
    ("action", Text "動作");
    ("from", Text "起始");
    ("to", Text "結束");
    ("apply", Text "套用");
    ("reset", Text "重設")]);
  ("columns", Group [
    ("time", Text "時間");
    ("actor", Text "操作者");
    ("tenant", Text "租戶");
    ("action", Text "動作");
    ("target", Text "目標");
    ("ip", Text "IP");
    ("details", Text "詳細資料")]);
  ("empty", Text "沒有符合這些篩選條件的稽核項目。");
  ("export", Text "匯出 CSV");
  ("exportFailed", Text "匯出失敗。");
  ("page", Text "第 {page} 頁");
  ("showingTotal", Text "{total} 個項目");
  ("prev", Text "上一頁");
  ("next", Text "下一頁")].

Definition zhTW_reliability : dict := Group [
  ("tab", Text "可靠性");
  ("title", Text "服務事件（24 小時）");
  ("subtitle", Text "來自裝置系統記錄的重新開機、服務崩潰/重新啟動以及磁碟警告。");
  ("time", Text "時間");
  ("category", Text "類別");
  ("name", Text "事件");
  ("severity", Text "嚴重程度");
  ("process", Text "處理程序");
  ("message", Text "訊息");
  ("categories", Group [
    ("reboot", Text "重新開機");
    ("service", Text "服務");
    ("disk", Text "磁碟")]);
  ("severities", Group [
    ("high", Text "高");
    ("medium", Text "中");
    ("low", Text "低")]);
  ("loadMore", Text "載入更多");
  ("empty", Text "此期間沒有任何服務事件。");
  ("loading", Text "正在載入服務事件…");
  ("loadError", Text "無法載入服務事件。");
  ("last24h", Text "過去 24 小時")].

Definition zhTW_configAudit : dict := Group [
  ("tab", Text "設定變更");
  ("title", Text "直接設定變更（24 小時）");
  ("subtitle", Text "誰以何種方式變更了裝置設定——在裝置上的直接變更（WebGUI/主控台）會標記為偏移。");
  ("time", Text "時間");
  ("area", Text "區域");
  ("actor", Text "操作者");
  ("ip", Text "IP");
  ("channel", Text "通道");
  ("change", Text "變更");
  ("direct", Text "直接");
  ("channels", Group [
    ("api", Text "API");
    ("gui", Text "WebGUI");
    ("system", Text "主控台/指令碼");
    ("opngms", Text "OPNGMS");
    ("api_external", Text "外部 API")]);
  ("loadMore", Text "載入更多");
  ("empty", Text "此期間沒有任何設定變更。");
  ("loading", Text "正在載入設定變更…");
  ("loadError", Text "無法載入設定變更。");
  ("last24h", Text "過去 24 小時")].

Definition zhTW_smtp : dict := Group [
  ("authMethod", Text "身分驗證");
  ("authPassword", Text "密碼");
  ("authOauth", Text "OAuth2");
  ("oauthProvider", Text "提供者");
  ("oauthGoogle", Text "Google / Gmail");
  ("oauthMicrosoft", Text "Microsoft 365");
  ("oauthClientId", Text "Client ID");
  ("oauthClientSecret", Text "Client secret");
  ("oauthRefreshToken", Text "Refresh token");
  ("oauthTenantId", Text "Tenant ID");
  ("oauthSecretSaved", Text "已儲存 — 留空以保留");
  ("oauthConnect", Text "連結帳戶");
  ("oauthConnectGoogle", Text "使用 Google 連結");
  ("oauthConnectMicrosoft", Text "使用 Microsoft 365 連結");
  ("oauthExperimental", Text "實驗性 — 未經測試");
  ("oauthExperimentalNote", Text "OAuth 的瀏覽器登入尚未針對真實提供者進行驗證。需要設定 PUBLIC_BASE_URL 並在您的 OAuth 應用程式中註冊重新導向 URI。在上方貼上重新整理權杖仍是受支援的方法。");
  ("oauthConnectNeedsCreds", Text "請先儲存用戶端 ID 和密鑰，然後連結。");
  ("oauthConnected", Text "帳戶已連結。");
  ("oauthConnectFailed", Text "無法連結帳戶。")].

Definition zhTW : dict := Group [
  ("common", zhTW_common);
  ("nav", zhTW_nav);
  ("login", zhTW_login);
  ("tenant", zhTW_tenant);
  ("overview", zhTW_overview);
  ("alerts", zhTW_alerts);
  ("devices", zhTW_devices);
  ("deviceDetail", zhTW_deviceDetail);
  ("deviceActions", zhTW_deviceActions);
  ("firmware", zhTW_firmware);
  ("plugins", zhTW_plugins);
  ("templates", zhTW_templates);
  ("deviceCreate", zhTW_deviceCreate);
  ("health", zhTW_health);
  ("logForwarding", zhTW_logForwarding);
  ("catalog", zhTW_catalog);
  ("config", zhTW_config);
  ("deviceHealth", zhTW_deviceHealth);
  ("chart", zhTW_chart);
  ("reports", zhTW_reports);
  ("sessions", zhTW_sessions);
  ("mfa", zhTW_mfa);
  ("groups", zhTW_groups);
  ("confirm", zhTW_confirm);
  ("errors", zhTW_errors);
  ("system", zhTW_system);
  ("logFleet", zhTW_logFleet);
  ("perimeter", zhTW_perimeter);
  ("retention", zhTW_retention);
  ("audit", zhTW_audit);
  ("reliability", zhTW_reliability);
  ("configAudit", zhTW_configAudit);
  ("smtp", zhTW_smtp)].
