(* ===== verification/DictJa.v ===== *)
(** * The Japanese texts ([i18n/ja.ts]), one definition per group *)
From S2P Require Import Prelude Dict.

Definition ja_common : dict := Group [
  ("appName", Text "OPNGMS");
  ("logout", Text "ログアウト");
  ("none", Text "—");
  ("language", Text "言語");
  ("cancel", Text "キャンセル")].

Definition ja_nav : dict := Group [
  ("overview", Text "概要");
  ("devices", Text "デバイス");
  ("alerts", Text "アラート");
  ("perimeter", Text "境界");
  ("reportSettings", Text "レポート設定");
  ("reportSchedule", Text "レポートスケジュール");
  ("reports", Text "レポート");
  ("logs", Text "ログ");
  ("sessions", Text "アクティブセッション");
  ("mfa", Text "二要素認証");
  ("templates", Text "テンプレートライブラリ");
  ("smtp", Text "SMTP");
  ("logFleet", Text "ログフリート");
  ("system", Text "システム");
  ("groups", Text "グループ");
  ("audit", Text "監査ログ")].

Definition ja_login : dict := Group [
  ("title", Text "OPNGMS");
  ("email", Text "メールアドレス");
  ("password", Text "パスワード");
  ("passwordToggle", Text "表示/非表示");
  ("submit", Text "サインイン");
  ("invalidCredentials", Text "認証情報が正しくありません");
  ("mfa", Group [
    ("title", Text "二要素認証");
    ("codeHint", Text "認証アプリの6桁のコードを入力してください。");
    ("recoveryHint", Text "ワンタイムリカバリーコードのいずれかを入力してください。");
    ("codeLabel", Text "認証コード");
    ("recoveryLabel", Text "リカバリーコード");
    ("verify", Text "確認");
    ("useRecovery", Text "代わりにリカバリーコードを使用");
    ("useCode", Text "代わりに認証コードを使用");
    ("invalidCode", Text "コードが正しくありません");
    ("or", Text "または");
    ("usePasskey", Text "パスキー / セキュリティキーを使う");
    ("passkeyError", Text "パスキーでのサインインに失敗しました。もう一度お試しください。");
    ("passkeyNotSupported", Text "このブラウザはパスキーに対応していません。");
    ("rememberDevice", Text "このデバイスを {days} 日間信頼する");
    ("rememberDeviceHelp", Text "次回このデバイスからサインインするときは、第2要素の入力を求められません。")])].

Definition ja_tenant : dict := Group [
  ("activeLabel", Text "アクティブなテナント");
  ("none", Text "テナントなし")].

Definition ja_overview : dict := Group [
  ("title", Text "概要");
  ("activeAlerts", Text "アクティブなアラート");
  ("noActiveAlerts", Text "アクティブなアラートはありません");
  ("healthLoadError", Text "フリートの稼働状況の読み込みに失敗しました");
  ("alertsLoadError", Text "アラートの読み込みに失敗しました");
  ("attackerCountries", Group [
    ("title", Text "攻撃元の上位国");
    ("mapTitle", Text "攻撃元");
    ("empty", Text "この期間に記録された攻撃はありません。");
    ("private", Text "プライベート / 内部");
    ("unknown", Text "不明");
    ("attribution", Text "国データ: DB-IP (CC BY 4.0)")])].

Definition ja_alerts : dict := Group [
  ("title", Text "アラート");
  ("active", Text "アクティブ");
  ("history", Text "履歴");
  ("loadError", Text "アラートの読み込みに失敗しました");
  ("noAlerts", Text "アラートはありません");
  ("colType", Text "種類");
  ("colLabel", Text "ラベル");
  ("colSeverity", Text "重大度");
  ("colOpened", Text "発生日時");
  ("colResolved", Text "解決日時");
  ("colDevice", Text "デバイス")].

Definition ja_devices : dict := Group [
  ("title", Text "デバイス");
  ("add", Text "デバイスを追加");
  ("loadError", Text "デバイスの読み込みに失敗しました");
  ("colName", Text "名前");
  ("colUrl", Text "URL");
  ("colStatus", Text "ステータス");
  ("colFirmware", Text "ファームウェア")].

Definition ja_deviceDetail : dict := Group [
  ("url", Text "URL");
  ("status", Text "ステータス");
  ("firmware", Text "ファームウェア");
  ("loadError", Text "デバイスの読み込みに失敗しました")].

Definition ja_deviceActions : dict := Group [
  ("testConnection", Text "接続テスト");
  ("delete", Text "削除");
  ("testResult", Text "テスト結果");
  ("testNotification", Text "テスト");
  ("testFailed", Text "接続テストに失敗しました");
  ("deleteFailed", Text "削除に失敗しました");
  ("openWebGui", Text "WebGUIを開く")].

Definition ja_firmware : dict := Group [
  ("title", Text "ファームウェア");
  ("tab", Text "ファームウェア");
  ("check", Text "更新を確認");
  ("upToDate", Text "最新です");
  ("updatesAvailable", Text "利用可能な更新があります");
  ("downloadSize", Text "ダウンロードサイズ");
  ("rebootNeeded", Text "再起動が必要");
  ("newMajor", Text "新しいメジャーリリースが利用可能です");
  ("update", Text "ファームウェアを更新");
  ("upgrade", Text "新しいメジャーへアップグレード");
  ("updateConfirm", Text "保留中のすべてのパッケージ更新を適用しますか？デバイスが再起動する場合があります。");
  ("upgradeConfirm", Text "新しいメジャーリリースへアップグレードしますか？再起動を伴う複数のステップが実行され、時間がかかる場合があります。");
  ("plugins", Text "プラグイン");
  ("pluginName", Text "プラグイン名");
  ("install", Text "インストール");
  ("remove", Text "削除");
  ("installConfirm", Text "このプラグインをインストールしますか？デバイスは最新のファームウェアである必要があります。");
  ("removeConfirm", Text "このプラグインを削除しますか？");
  ("runNow", Text "今すぐ実行");
  ("scheduleAt", Text "スケジュール（空欄の場合は今すぐ実行）");
  ("schedule", Text "スケジュール");
  ("recentActions", Text "最近のアクション");
  ("noActions", Text "アクションはまだありません");
  ("actionQueued", Text "アクションをキューに追加しました");
  ("actionFailed", Text "アクションをキューに追加できませんでした");
  ("checkFailed", Text "ファームウェアの確認に失敗しました");
  ("kind", Text "アクション");
  ("status", Text "ステータス");
  ("when", Text "日時");
  ("result", Text "結果")].

Definition ja_plugins : dict := Group [
  ("tab", Text "プラグイン");
  ("title", Text "プラグイン");
  ("subtitle", Text "ファイアウォールが報告するプラグイン。コミュニティプラグインをインストールまたは削除します。インストールするにはデバイスが最新のファームウェアである必要があります。");
  ("search", Text "プラグインを検索…");
  ("name", Text "プラグイン");
  ("status", Text "ステータス");
  ("version", Text "バージョン");
  ("installed", Text "インストール済み");
  ("notInstalled", Text "利用可能");
  ("locked", Text "ロック中");
  ("install", Text "インストール");
  ("remove", Text "削除");
  ("installConfirm", Text "このプラグインをインストールしますか？");
  ("removeConfirm", Text "このプラグインを削除しますか？");
  ("empty", Text "報告されたプラグインはまだありません — デバイスは定期的にポーリングされます。");
  ("loadFailed", Text "プラグインを読み込めませんでした。");
  ("configure", Text "設定");
  ("configureTitle", Text "プラグインの設定")].

Definition ja_templates : dict := Group [
  ("tab", Text "テンプレート");
  ("libraryTitle", Text "テンプレートライブラリ");
  ("superadminOnly", Text "テンプレートライブラリはプラットフォーム管理者が管理します。");
  ("name", Text "名前");
  ("kind", Text "種類");
  ("type", Text "エイリアスの種類");
  ("content", Text "内容（1行に1エントリ）");
  ("description", Text "説明");
  ("create", Text "新規テンプレート");
  ("edit", Text "編集");
  ("save", Text "保存");
  ("delete", Text "削除");
  ("deleteConfirm", Text "このテンプレートを削除しますか？テナントごとのオーバーライドは削除されますが、適用済みの変更は履歴を保持します。");
  ("empty", Text "テンプレートはまだありません。");
  ("created", Text "テンプレートを作成しました");
  ("updated", Text "テンプレートを更新しました");
  ("saveFailed", Text "テンプレートを保存できませんでした");
  ("apply", Group [
    ("title", Text "テンプレートを適用");
    ("pick", Text "テンプレート");
    ("override", Text "この顧客のオーバーライド（内容、1行に1エントリ — 空欄の場合はライブラリの値を使用）");
    ("saveOverride", Text "オーバーライドを保存");
    ("overrideSaved", Text "オーバーライドを保存しました");
    ("preview", Text "プレビュー");
    ("previewTitle", Text "有効な構成");
    ("applyConfirm", Text "このテンプレートをデバイスに適用しますか？");
    ("runNow", Text "今すぐ適用");
    ("scheduleAt", Text "スケジュール（空欄の場合は今すぐ適用）");
    ("schedule", Text "スケジュール");
    ("queued", Text "適用をキューに追加しました");
    ("failed", Text "テンプレートを適用できませんでした");
    ("none", Text "利用可能なテンプレートはありません。")]);
  ("templatesTab", Text "テンプレート");
  ("kindLabel", Text "テンプレートの種類");
  ("kindAlias", Text "ファイアウォールエイリアス");
  ("kindSetting", Text "OPNsense設定");
  ("setting", Group [
    ("endpoint", Text "設定");
    ("referenceDevice", Text "リファレンスデバイス（利用可能なフィールドを読み込む）");
    ("load", Text "フィールドを読み込む");
    ("loadHint", Text "設定とデバイスを選択してから、設定するフィールドを読み込んでください。");
    ("noDevice", Text "アクティブなテナントにフィールドを読み込めるデバイスがありません。");
    ("loadFailed", Text "デバイスから設定を読み込めませんでした。");
    ("noFields", Text "設定可能なフィールドはありません。");
    ("hardwareNote", Text "ハードウェア/デバイス固有のフィールドは意図的にテンプレート化できません。")]);
  ("kindFirewallRule", Text "ファイアウォールルール（Rules [new]）");
  ("fw", Group [
    ("referenceDevice", Text "リファレンスデバイス（利用可能なルールフィールドを読み込む）");
    ("load", Text "フィールドを読み込む");
    ("loadHint", Text "デバイスを選択してから、設定するルールフィールドを読み込んでください。");
    ("noDevice", Text "アクティブなテナントにフィールドを読み込めるデバイスがありません。");
    ("loadFailed", Text "デバイスからルールモデルを読み込めませんでした。");
    ("descriptionRequired", Text "説明は必須です（ルールの識別子になります）。");
    ("interface", Text "インターフェース（適用時に選択）");
    ("floating", Text "フローティング（インターフェースなし）");
    ("note", Text "インターフェースは適用時に選択されます。フローティングルールの場合は空欄のままにしてください。")]);
  ("kindMonitTest", Text "Monitヘルスチェックテスト");
  ("monit", Group [
    ("referenceDevice", Text "リファレンスデバイス（利用可能なテストフィールドを読み込む）");
    ("load", Text "フィールドを読み込む");
    ("loadHint", Text "デバイスを選択してから、設定するテストフィールドを読み込んでください。");
    ("noDevice", Text "アクティブなテナントにフィールドを読み込めるデバイスがありません。");
    ("loadFailed", Text "デバイスからテストモデルを読み込めませんでした。");
    ("nameRequired", Text "名前は必須です（テストの識別子になります）。");
    ("note", Text "テストはMonitサービスに割り当てられると有効になります。");
    ("attachSystem", Text "このテストをシステムサービスに割り当てて有効にする");
    ("attachSystemNote", Text "有効にすると、適用時にこのテストもデバイスのMonitシステムサービスに割り当てられます。")]);
  ("kindIdsRulesets", Text "Suricata/IDSルールセット");
  ("ids", Group [
    ("referenceDevice", Text "リファレンスデバイス（利用可能なルールセットを読み込む）");
    ("load", Text "ルールセットを読み込む");
    ("loadHint", Text "デバイスを選択してからルールセットを読み込み、有効にするものを選んでください。");
    ("noDevice", Text "アクティブなテナントにルールセットを読み込めるデバイスがありません。");
    ("loadFailed", Text "デバイスからルールセットを読み込めませんでした。");
    ("rulesets", Text "有効にするルールセット");
    ("noRulesets", Text "デバイスにルールセットが見つかりませんでした。");
    ("note", Text "適用すると選択したルールセットが有効になります（追加方式 — 他のルールセットは無効化しません）。")]);
  ("kindIdsPolicy", Text "Suricata/IDSポリシー");
  ("idsPolicy", Group [
    ("description", Text "説明（ポリシーの識別子）");
    ("enabled", Text "有効");
    ("prio", Text "優先度");
    ("action", Text "一致させる現在のアクション（アクションがいずれかであるルール）");
    ("newAction", Text "新しいアクション");
    ("rulesets", Text "ポリシーを適用するルールセット");
    ("referenceDevice", Text "リファレンスデバイス（利用可能なルールセットを読み込む）");
    ("load", Text "ルールセットを読み込む");
    ("loadHint", Text "デバイスを選択してから、参照する有効なルールセットを読み込んでください。");
    ("noDevice", Text "アクティブなテナントにルールセットを読み込めるデバイスがありません。");
    ("noRulesets", Text "デバイスに有効なルールセットが見つかりませんでした（先にルールセットを有効にしてください）。");
    ("loadFailed", Text "デバイスからルールセットを読み込めませんでした。");
    ("content", Text "メタデータフィルター（詳細設定 — ほとんどのポリシーでは不要です）");
    ("contentKey", Text "キー");
    ("contentValues", Text "値（カンマ区切り）");
    ("contentKeyInvalid", Text "キーが無効です — 英数字、ピリオド、ハイフン、アンダースコアを使用してください。");
    ("addContent", Text "フィルターを追加");
    ("descriptionRequired", Text "説明は必須です（ポリシーの識別子になります）。");
    ("note", Text "参照するルールセットは、デバイス上で事前に有効になっている必要があります。ルールセット/コンテンツのマッピングは適用時に実行時に検証されます。")]);
  ("profiles", Group [
    ("tab", Text "プロファイル");
    ("name", Text "名前");
    ("description", Text "説明");
    ("members", Text "テンプレート（適用順）");
    ("create", Text "新規プロファイル");
    ("edit", Text "編集");
    ("save", Text "保存");
    ("delete", Text "削除");
    ("deleteConfirm", Text "このプロファイルを削除しますか？適用済みの変更は履歴を保持します。");
    ("empty", Text "プロファイルはまだありません。");
    ("created", Text "プロファイルを作成しました");
    ("updated", Text "プロファイルを更新しました");
    ("saveFailed", Text "プロファイルを保存できませんでした");
    ("memberCount", Text "テンプレート");
    ("apply", Group [
      ("title", Text "プロファイルを適用");
      ("pick", Text "プロファイル");
      ("preview", Text "プレビュー");
      ("previewTitle", Text "有効な構成（テンプレートごと、順番に）");
      ("interface", Text "インターフェース（適用時に選択）");
      ("floating", Text "フローティング（インターフェースなし）");
      ("empty", Text "利用可能なプロファイルはありません。");
      ("applyConfirm", Text "このプロファイルをデバイスに適用しますか？各メンバーテンプレートが順番に適用されます。");
      ("runNow", Text "今すぐ適用");
      ("scheduleAt", Text "スケジュール（空欄の場合は今すぐ適用）");
      ("schedule", Text "スケジュール");
      ("queued", Text "プロファイルの適用をキューに追加しました");
      ("failed", Text "プロファイルを適用できませんでした")])])].

Definition ja_deviceCreate : dict := Group [
  ("title", Text "デバイスを追加");
  ("name", Text "名前");
  ("url", Text "URL（https）");
  ("apiKey", Text "APIキー");
  ("apiSecret", Text "APIシークレット");
  ("verifyTls", Text "TLSを検証");
  ("tlsWarning", Text "TLS検証を無効にすると、デバイスの証明書を認証する手段がなくなり、認証情報が傍受される可能性があります。以下で証明書のSHA-256フィンガープリントをピン留めして保護を復元してください。");
  ("tlsFingerprintLabel", Text "証明書のSHA-256フィンガープリント（任意）");
  ("tlsFingerprintPlaceholder", Text "00:42:E2:C4:07:61:06:0D:56:A4:75:2F:FC:32:2B:4E:B3:CE:FF:31:8A:88:F3:22:2B:C1:B1:0D:46:0B:04:2C");
  ("save", Text "保存");
  ("created", Text "デバイスを作成しました");
  ("createFailed", Text "作成に失敗しました")].

Definition ja_health : dict := Group [
  ("totalDevices", Text "デバイス総数");
  ("activeAlerts", Text "アクティブなアラート")].

Definition ja_logForwarding : dict := Group [
  ("tab", Text "ログ転送")].

Definition ja_catalog : dict := Group [
  ("tab", Text "エディター");
  ("searchModels", Text "設定を検索…");
  ("noModels", Text "このデバイスバージョンのカタログはありません。");
  ("selectModel", Text "左側で設定グループを選択して編集してください。");
  ("readOnly", Text "編集不可（安全のための拒否リスト）。");
  ("unreachable", Text "デバイスに到達できません — 編集にはライブ値が必要です。");
  ("liveValues", Text "ライブ値");
  ("propose", Text "変更を提案");
  ("preview", Text "変更を確認");
  ("noChanges", Text "提案する変更はありません。");
  ("proposed", Text "ドラフト変更を作成しました — Configタブからスケジュールしてください。");
  ("proposeFailed", Text "変更を作成できませんでした。");
  ("loadFailed", Text "モデルを読み込めませんでした。");
  ("openWebgui", Text "WebGUIで開く");
  ("searchAll", Text "設定を検索…");
  ("grid", Group [
    ("add", Text "行を追加");
    ("save", Text "保存");
    ("edit", Text "編集");
    ("delete", Text "削除");
    ("empty", Text "行はありません。")]);
  ("diff", Group [
    ("baseline", Text "比較対象");
    ("noBaseline", Text "以前のバージョンなし");
    ("newSince", Text "{v} 以降の新規");
    ("changedSince", Text "{v} 以降の変更");
    ("changes", Text "変更")]);
  ("map", Group [
    ("tabMenu", Text "メニュー");
    ("tabMap", Text "設定マップ");
    ("editInCatalog", Text "カタログで編集");
    ("readOnly", Text "読み取り専用（API なし）");
    ("staleBanner", Text "古い情報 — デバイスに到達できません。{when} の最新バックアップを表示しています")])].

Definition ja_config : dict := Group [
  ("tabInfo", Text "情報");
  ("tabHealth", Text "稼働状況");
  ("tabConfig", Text "構成");
  ("capabilities", Text "機能");
  ("version", Text "OPNsenseバージョン");
  ("interfaces", Text "インターフェース");
  ("configuredSections", Text "構成済みのセクション");
  ("available", Text "利用可能な機能");
  ("hidden", Text "非表示");
  ("noConfigYet", Text "まだ構成が取得されていません");
  ("nic", Text "NIC");
  ("changes", Group [
    ("title", Text "保留中の変更");
    ("propose", Text "エイリアスの変更を提案");
    ("none", Text "保留中の変更はありません");
    ("colKind", Text "種類");
    ("colOperation", Text "操作");
    ("colTarget", Text "対象");
    ("colStatus", Text "ステータス");
    ("colScheduled", Text "スケジュール済み");
    ("preview", Text "プレビュー");
    ("schedule", Text "スケジュール");
    ("cancel", Text "キャンセル");
    ("revert", Text "元に戻す");
    ("reverts", Text "元に戻す #");
    ("applyNow", Text "今すぐ適用");
    ("pickTime", Text "日時を選択");
    ("checkDrift", Text "ドリフトを確認");
    ("driftUnreachable", Text "デバイスに到達できませんでした — ドリフト不明。");
    ("driftInSync", Text "同期済み");
    ("driftDrifted", Text "ドリフト");
    ("driftMissing", Text "なし");
    ("driftUnsupported", Text "対象外");
    ("driftFields", Text "ドリフトしたフィールド: ");
    ("operation", Text "操作");
    ("name", Text "名前");
    ("type", Text "種類");
    ("content", Text "内容（1行に1つ）");
    ("create", Text "作成");
    ("add", Text "追加");
    ("set", Text "設定");
    ("delete", Text "削除")])].

Definition ja_deviceHealth : dict := Group [
  ("title", Text "稼働状況");
  ("cpu", Text "CPU");
  ("memory", Text "メモリ");
  ("disk", Text "ディスク");
  ("trafficIn", Text "受信トラフィック");
  ("trafficOut", Text "送信トラフィック");
  ("gatewayRtt", Text "ゲートウェイRTT");
  ("gatewayLoss", Text "ゲートウェイ損失");
  ("vpnUp", Text "VPN稼働")].

Definition ja_chart : dict := Group [
  ("noData", Text "まだデータがありません")].

Definition ja_reports : dict := Group [
  ("page", Group [
    ("title", Text "レポート");
    ("generate", Text "レポートを生成");
    ("from", Text "開始");
    ("to", Text "終了");
    ("period", Text "期間");
    ("kind", Text "種類");
    ("created", Text "作成日時");
    ("size", Text "サイズ");
    ("download", Text "ダウンロード");
    ("none", Text "レポートはまだありません。");
    ("generated", Text "レポートを生成しました");
    ("kindOnDemand", Text "オンデマンド");
    ("kindScheduled", Text "スケジュール済み")]);
  ("settings", Group [
    ("pageTitle", Text "レポート設定");
    ("title", Text "レポートタイトル");
    ("owner", Text "オーナー");
    ("timezone", Text "タイムゾーン");
    ("fromEmail", Text "送信元メール（レポート配信）");
    ("logo", Text "ロゴ");
    ("upload", Text "ロゴをアップロード");
    ("remove", Text "ロゴを削除");
    ("language", Text "レポート言語");
    ("save", Text "設定を保存");
    ("adminsOnly", Text "レポート設定はテナント管理者のみが利用できます。");
    ("saved", Text "レポート設定を保存しました。");
    ("logoUploaded", Text "ロゴをアップロードしました。");
    ("logoRemoved", Text "ロゴを削除しました。");
    ("hasLogo", Text "ロゴをアップロード済み");
    ("noLogo", Text "ロゴなし")]);
  ("sections", Group [
    ("title", Text "レポートのセクション");
    ("description", Text "PDF レポートに表示するセクションを選択します。");
    ("customizeForDevice", Text "このデバイス用にセクションをカスタマイズ");
    ("summary", Text "エグゼクティブサマリー");
    ("health", Text "デバイスの状態");
    ("alerts_wan", Text "アラートと接続性");
    ("attacks", Text "攻撃");
    ("attacker_countries", Text "攻撃元の国");
    ("failed_logins", Text "ログイン失敗");
    ("firewall_blocks", Text "ファイアウォールブロック");
    ("web", Text "Web アクティビティ");
    ("data", Text "データ使用量");
    ("status", Text "オンライン/オフライン状態");
    ("firmware_config", Text "ファームウェアと構成");
    ("applications", Text "アプリケーション");
    ("web_filter", Text "Web フィルター")])].

Definition ja_sessions : dict := Group [
  ("pageTitle", Text "アクティブセッション");
  ("colLastSeen", Text "最終アクセス");
  ("colCreated", Text "作成日時");
  ("colExpires", Text "有効期限");
  ("colIp", Text "IPアドレス");
  ("colUserAgent", Text "ユーザーエージェント");
  ("current", Text "現在");
  ("logoutAll", Text "すべての端末からログアウト");
  ("loadError", Text "セッションの読み込みに失敗しました");
  ("logoutAllError", Text "すべての端末からのログアウトに失敗しました")].

Definition ja_mfa : dict := Group [
  ("pageTitle", Text "二要素認証");
  ("intro", Text "認証アプリの時間ベースのワンタイムパスワード（TOTP）でアカウントを保護します。");
  ("status", Text "ステータス");
  ("enabled", Text "有効");
  ("disabled", Text "無効");
  ("recoveryRemaining", Text "残りのリカバリーコード");
  ("statusError", Text "MFAステータスの読み込みに失敗しました");
  ("enroll", Text "二要素認証を設定");
  ("enrollStart", Text "設定を開始");
  ("password", Text "現在のパスワード");
  ("passwordHint", Text "二要素設定を変更するにはパスワードを再入力してください。");
  ("scanHint", Text "このQRコードを認証アプリでスキャンするか、シークレットを手動で入力してください。");
  ("secretLabel", Text "シークレットキー");
  ("confirmCodeLabel", Text "認証コード");
  ("confirmHint", Text "設定を完了するには、アプリの6桁のコードを入力してください。");
  ("confirm", Text "確認して有効化");
  ("cancel", Text "キャンセル");
  ("setupError", Text "設定を開始できませんでした（パスワードを確認してください）。");
  ("confirmError", Text "コードが正しくありません。もう一度お試しください。");
  ("recoveryTitle", Text "リカバリーコード");
  ("recoveryIntro", Text "これらのワンタイムリカバリーコードを安全な場所に保存してください。認証アプリを紛失した場合に各コードを1回ずつ使用できます。");
  ("recoveryWarning", Text "これらのコードは一度だけ表示されます。");
  ("copyAll", Text "すべてコピー");
  ("copied", Text "クリップボードにコピーしました");
  ("download", Text "ダウンロード");
  ("done", Text "完了");
  ("regenerate", Text "リカバリーコードを再生成");
  ("regenerateError", Text "リカバリーコードを再生成できませんでした（パスワードを確認してください）。");
  ("disable", Text "二要素認証を無効化");
  ("disableConfirmTitle", Text "二要素認証を無効化しますか？");
  ("disableConfirmBody", Text "アカウントのログイン時に第二要素が不要になります。");
  ("disableError", Text "無効化できませんでした（パスワードを確認してください）。");
  ("disabledNotice", Text "二要素認証を無効化しました。");
  ("policyTitle", Text "組織のMFAポリシー");
  ("policyIntro", Text "組織全体で二要素認証を必須にします。");
  ("policyOff", Text "オフ");
  ("policyAll", Text "すべてのユーザー");
  ("policyPrivileged", Text "特権ユーザー");
  ("policyLoadError", Text "MFAポリシーの読み込みに失敗しました");
  ("policySaveError", Text "MFAポリシーの更新に失敗しました");
  ("policySaved", Text "MFAポリシーを更新しました");
  ("usersTitle", Text "ユーザーMFA");
  ("colUser", Text "ユーザー");
  ("colEmail", Text "メールアドレス");
  ("colRole", Text "ロール");
  ("superadmin", Text "スーパー管理者");
  ("member", Text "メンバー");
  ("reset", Text "MFAをリセット");
  ("resetConfirmTitle", Text "このユーザーのMFAをリセットしますか？");
  ("resetConfirmBody", Text "TOTPシークレットとリカバリーコードがクリアされます。再登録が必要になります。");
  ("resetError", Text "ユーザーのMFAのリセットに失敗しました");
  ("resetDone", Text "ユーザーMFAをリセットしました");
  ("usersLoadError", Text "ユーザーの読み込みに失敗しました");
  ("gateTitle", Text "二要素認証が必要です");
  ("gateIntro", Text "組織では二要素認証が必須です。続行するには今すぐ設定してください。");
  ("passkeys", Group [
    ("title", Text "パスキー");
    ("intro", Text "パスキーまたはセキュリティキーを登録すると、コードなしでサインインできます。");
    ("add", Text "パスキーを追加");
    ("accountPassword", Text "アカウントのパスワード");
    ("name", Text "名前");
    ("namePlaceholder", Text "例：仕事用ノートPC");
    ("unnamed", Text "パスキー");
    ("colName", Text "名前");
    ("colCreated", Text "作成日");
    ("remove", Text "削除");
    ("removeConfirmTitle", Text "このパスキーを削除しますか？");
    ("removeConfirmBody", Text "このパスキーはサインインに使用できなくなります。");
    ("addedNotice", Text "パスキーを追加しました。");
    ("removedNotice", Text "パスキーを削除しました。");
    ("addError", Text "パスキーを追加できませんでした。もう一度お試しください。");
    ("removeError", Text "パスキーを削除できませんでした。");
    ("listError", Text "パスキーの読み込みに失敗しました");
    ("lastFactorError", Text "最後の第二要素は削除できません。先に別の要素を追加してください。");
    ("notConfigured", Text "お使いの組織ではパスキーが構成されていません。");
    ("notSupported", Text "このブラウザはパスキーに対応していません。")]);
  ("trustedDeviceToggle", Group [
    ("label", Text "このデバイスを記憶する");
    ("help", Text "ユーザーが信頼を選んだデバイスで第2因子をスキップできるようにします。")]);
  ("trustedDevices", Group [
    ("title", Text "信頼済みデバイス");
    ("intro", Text "信頼済みデバイスは有効期限が切れるまで第2因子なしでサインインできます。心当たりのないデバイスは無効化してください。");
    ("colDevice", Text "デバイス");
    ("colIp", Text "IPアドレス");
    ("colLastUsed", Text "最終使用");
    ("colExpires", Text "有効期限");
    ("revoke", Text "無効化");
    ("revokeAll", Text "すべて無効化");
    ("confirmTitle", Text "このデバイスを無効化しますか？");
    ("confirmBody", Text "このデバイスは次回サインイン時に再び第2因子が必要になります。");
    ("revokeAllConfirmTitle", Text "すべての信頼済みデバイスを無効化しますか？");
    ("revokeAllConfirmBody", Text "すべての信頼済みデバイスは次回サインイン時に再び第2因子が必要になります。");
    ("empty", Text "信頼済みデバイスはありません。");
    ("loadError", Text "信頼済みデバイスを読み込めませんでした。");
    ("revokeError", Text "デバイスを無効化できませんでした。");
    ("unknownDevice", Text "不明なデバイス")])].

Definition ja_groups : dict := Group [
  ("title", Text "グループ");
  ("description", Text "ユーザーのグループと、付与するテナントアクセスを定義します。");
  ("superadminOnly", Text "グループはプラットフォーム管理者が管理します。");
  ("name", Text "名前");
  ("namePlaceholder", Text "グループ名");
  ("descriptionField", Text "説明");
  ("descriptionPlaceholder", Text "任意の説明");
  ("members", Text "メンバー");
  ("membersPlaceholder", Text "ユーザーを選択");
  ("noMembers", Text "メンバーはまだいません。");
  ("grants", Text "アクセス権");
  ("noGrants", Text "権限はまだありません。");
  ("addGrant", Text "権限を追加");
  ("allTenants", Text "すべてのテナント");
  ("tenant", Text "テナント");
  ("tenantPlaceholder", Text "テナントを選択");
  ("role", Text "ロール");
  ("roleTenantAdmin", Text "テナント管理者");
  ("roleOperator", Text "オペレーター");
  ("roleReadOnly", Text "読み取り専用");
  ("allTenantsScope", Text "すべてのテナント");
  ("create", Text "新しいグループ");
  ("createTitle", Text "グループを作成");
  ("save", Text "保存");
  ("delete", Text "削除");
  ("deleteConfirm", Text "このグループを削除しますか？メンバーは付与されたアクセス権を失います。この操作は元に戻せません。");
  ("removeGrant", Text "権限を削除");
  ("empty", Text "グループはまだありません。");
  ("created", Text "グループを作成しました");
  ("updated", Text "グループを更新しました");
  ("deleted", Text "グループを削除しました");
  ("membersSaved", Text "メンバーを更新しました");
  ("grantAdded", Text "権限を追加しました");
  ("grantRemoved", Text "権限を削除しました");
  ("saveFailed", Text "グループを保存できませんでした");
  ("loadError", Text "グループを読み込めませんでした")].

Definition ja_confirm : dict := Group [
  ("title", Text "よろしいですか？");
  ("cancel", Text "キャンセル");
  ("confirm", Text "確認");
  ("deleteDevice", Text "デバイスを削除");
  ("deleteDeviceBody", Text "デバイスとそのすべてのデータが完全に削除されます。この操作は元に戻せません。")].

Definition ja_errors : dict := Group [
  ("fleetHealthLoad", Text "フリートの稼働状況の読み込みに失敗しました");
  ("alertsLoad", Text "アラートの読み込みに失敗しました");
  ("metricsLoad", Text "メトリクスの読み込みに失敗しました");
  ("configModelLoad", Text "構成の読み込みに失敗しました");
  ("configCapabilitiesLoad", Text "機能の読み込みに失敗しました");
  ("configChangesLoad", Text "変更の読み込みに失敗しました");
  ("configChangeAction", Text "アクションに失敗しました（権限がない可能性があります）");
  ("reportSettingsLoad", Text "レポート設定の読み込みに失敗しました");
  ("reportSettingsAction", Text "レポート設定のアクションに失敗しました");
  ("reportsLoad", Text "レポートの読み込みに失敗しました");
  ("reportGenerate", Text "レポートの生成に失敗しました");
  ("attackerCountriesLoad", Text "攻撃元の国の読み込みに失敗しました");
  ("perimeterLoad", Text "境界データの読み込みに失敗しました");
  ("auditLoad", Text "監査ログの読み込みに失敗しました");
  ("retentionLoad", Text "保持設定の読み込みに失敗しました");
  ("retentionSave", Text "保持設定の保存に失敗しました")].

Definition ja_system : dict := Group [
  ("title", Text "システム");
  ("subtitle", Text "プラットフォーム全体のランタイム設定。");
  ("livePush", Group [
    ("label", Text "デバイスへの構成のライブ反映");
    ("help", Text "オンの場合、構成変更を実機に書き込みます。オフの場合、変更はドライランのみです。");
    ("loadError", Text "ライブ反映設定の読み込みに失敗しました。");
    ("enabled", Text "構成のライブ反映を有効化しました");
    ("disabled", Text "構成のライブ反映を無効化しました");
    ("updateError", Text "構成のライブ反映の更新に失敗しました")]);
  ("runtime", Group [
    ("title", Text "ランタイム設定");
    ("subtitle", Text "再起動なしで調整可能です。ここの値は .env のデプロイ既定値を上書きします。");
    ("loadError", Text "ランタイム設定の読み込みに失敗しました。");
    ("save", Text "保存");
    ("discard", Text "変更を破棄");
    ("saved", Text "ランタイム設定を保存しました");
    ("saveError", Text "ランタイム設定の保存に失敗しました");
    ("defaultLabel", Text "既定値");
    ("impactsTitle", Text "この保持期間の既定値を下げるとテナントに影響します");
    ("impactItem", Text "{tenant}: {store} のレポートスケジュールには {range} 日が必要ですが、{store} は現在 {bound} 日しか保持されません。");
    ("groups", Group [
      ("firmware", Text "ファームウェア");
      ("distribution", Text "カタログと GeoIP の配信");
      ("maintenance", Text "メンテナンス");
      ("retention", Text "データ保持");
      ("security_login", Text "ログイン保護");
      ("security_session", Text "セッション")]);
    ("items", Group [
      ("firmware_max_status_polls", Group [
        ("label", Text "最大ステータスポーリング回数");
        ("help", Text "ファームウェア操作を断念するまでのステータスポーリング回数。")]);
      ("firmware_poll_interval_seconds", Group [
        ("label", Text "ポーリング間隔（秒）");
        ("help", Text "ファームウェアのステータスポーリングの間隔。")]);
      ("catalog_auto_fetch", Group [
        ("label", Text "構成カタログの自動取得");
        ("help", Text "キャッシュミス時にリリースからバージョン別カタログを取得します。")]);
      ("geoip_auto_fetch", Group [
        ("label", Text "GeoIP データベースの自動取得");
        ("help", Text "キャッシュミス時にリリースから GeoIP データベースを取得します。")]);
      ("silent_alert_enabled", Group [
        ("label", Text "無通信テナントのアラート");
        ("help", Text "転送設定済みのテナントがログ送信を停止した際にアラートを通知します。")]);
      ("silent_alert_after_hours", Group [
        ("label", Text "無通信判定時間（時間）");
        ("help", Text "テナントを無通信と判定するまでの無通信時間。")]);
      ("perimeter_retention_days", Group [
        ("label", Text "境界保持期間（日）");
        ("help", Text "境界の攻撃者データを保持する期間のグローバル既定値。")]);
      ("events_retention_days", Group [
        ("label", Text "イベント保持期間（日）");
        ("help", Text "イベントデータを保持する期間のグローバル既定値。")]);
      ("metrics_retention_days", Group [
        ("label", Text "メトリクス保持期間（日）");
        ("help", Text "メトリクスデータを保持する期間のグローバル既定値。")]);
      ("log_lake_retention_days", Group [
        ("label", Text "ログレイク保持期間（日）");
        ("help", Text "ログレイクデータを保持する期間のグローバル既定値。")]);
      ("login_max_attempts", Group [
        ("label", Text "最大ログイン試行回数");
        ("help", Text "ロックアウトまでに許容される失敗したログイン試行回数。")]);
      ("login_lockout_window_seconds", Group [
        ("label", Text "ロックアウト期間（秒）");
        ("help", Text "失敗したログイン回数のスライディングウィンドウ。")]);
      ("session_ttl_hours", Group [
        ("label", Text "セッション有効期間（時間）");
        ("help", Text "セッションの絶対的な有効期間。")]);
      ("session_idle_minutes", Group [
        ("label", Text "アイドルタイムアウト（分）");
        ("help", Text "セッションが期限切れになるまでのアイドル時間。")]);
      ("trusted_device_days", Group [
        ("label", Text "信頼済みデバイスの有効期間（日）");
        ("help", Text "信頼済みデバイスが第2因証をスキップできる期間。期間終了後は再確認が必要です。")])])])].

Definition ja_logFleet : dict := Group [
  ("title", Text "ログフリート");
  ("loadError", Text "ログフリートの読み込みに失敗しました。");
  ("exportCsv", Text "CSVをエクスポート");
  ("exportPdf", Text "PDFをエクスポート");
  ("exportFailed", Text "エクスポートに失敗しました。");
  ("silentBadge", Text "無通信");
  ("silentAlertsTitle", Text "無通信テナントのアラート");
  ("silentAlertsBody", Text "転送は有効ですが、最近のログがありません。");
  ("volume", Text "ボリューム");
  ("devicesTitle", Text "デバイス");
  ("devicesLoadError", Text "デバイスの読み込みに失敗しました。");
  ("noDevices", Text "デバイスはありません。");
  ("stats", Group [
    ("tenantsForwarding", Text "転送中のテナント");
    ("enabledDevices", Text "有効なデバイス");
    ("silentTenants", Text "無通信のテナント")]);
  ("table", Group [
    ("tenant", Text "テナント");
    ("device", Text "デバイス");
    ("forwarding", Text "転送");
    ("revoked", Text "取り消し済み");
    ("lastLog", Text "最終ログ")])].

Definition ja_perimeter : dict := Group [
  ("title", Text "境界");
  ("subtitle", Text "ファイアウォール境界における攻撃元IP — ファイアウォール本体へのログイン失敗とブロックされたトラフィック。");
  ("failedLogins", Text "ログイン失敗");
  ("firewallBlocks", Text "ファイアウォールブロック");
  ("failedLoginsHelp", Text "拒否されたファイアウォール本体へのログイン試行。");
  ("firewallBlocksHelp", Text "ファイアウォールによって破棄された受信トラフィック。");
  ("ip", Text "送信元IP");
  ("country", Text "国");
  ("user", Text "ユーザー");
  ("port", Text "ポート");
  ("count", Text "件数");
  ("lastSeen", Text "最終確認");
  ("empty", Text "この期間にアクティビティはありません。");
  ("viewAll", Text "すべて表示");
  ("loadError", Text "境界データの読み込みに失敗しました。")].

Definition ja_retention : dict := Group [
  ("title", Text "データ保持");
  ("subtitle", Text "このテナントのデータを保持する期間を上書きします。フィールドを空のままにすると、グローバル既定値を継承します。");
  ("inheritHint", Text "グローバルを継承");
  ("save", Text "保持設定を保存");
  ("saved", Text "保持設定を保存しました。");
  ("stores", Group [
    ("perimeter", Text "境界（日）");
    ("events", Text "イベント（日）");
    ("metrics", Text "メトリクス（日）");
    ("log_lake", Text "ログレイク（日）")]);
  ("warningTitle", Text "レポートのスケジュールが保持期間を超えています");
  ("warningItem", Text "{frequency} のスケジュールは {range} 日間を対象としますが、{store} データの保持期間は {bound} 日です。")].

Definition ja_audit : dict := Group [
  ("title", Text "監査ログ");
  ("subtitle", Text "プラットフォーム全体の変更操作を、実行者とテナント別に記録します。");
  ("filters", Group [
    ("actor", Text "実行者のメールアドレス");
    ("tenant", Text "テナントID");
    ("action", Text "操作");
    ("from", Text "開始");
    ("to", Text "終了");
    ("apply", Text "適用");
    ("reset", Text "リセット")]);
  ("columns", Group [
    ("time", Text "日時");
    ("actor", Text "実行者");
    ("tenant", Text "テナント");
    ("action", Text "操作");
    ("target", Text "対象");
    ("ip", Text "IP");
    ("details", Text "詳細")]);
  ("empty", Text "これらのフィルターに一致する監査エントリはありません。");
  ("export", Text "CSVをエクスポート");
  ("exportFailed", Text "エクスポートに失敗しました。");
  ("page", Text "{page} ページ");
  ("showingTotal", Text "{total} 件");
  ("prev", Text "前へ");
  ("next", Text "次へ")].

Definition ja_reliability : dict := Group [
  ("tab", Text "信頼性");
  ("title", Text "サービスイベント（24時間）");
  ("subtitle", Text "デバイスのシステムログから取得した再起動、サービスのクラッシュ/再起動、ディスク警告。");
  ("time", Text "時刻");
  ("category", Text "カテゴリ");
  ("name", Text "イベント");
  ("severity", Text "重大度");
  ("process", Text "プロセス");
  ("message", Text "メッセージ");
  ("categories", Group [
    ("reboot", Text "再起動");
    ("service", Text "サービス");
    ("disk", Text "ディスク")]);
  ("severities", Group [
    ("high", Text "高");
    ("medium", Text "中");
    ("low", Text "低")]);
  ("loadMore", Text "さらに読み込む");
  ("empty", Text "この期間にサービスイベントはありません。");
  ("loading", Text "サービスイベントを読み込み中…");
  ("loadError", Text "サービスイベントの読み込みに失敗しました。");
  ("last24h", Text "過去24時間")].

Definition ja_configAudit : dict := Group [
  ("tab", Text "設定変更");
  ("title", Text "直接的な設定変更（24時間）");
  ("subtitle", Text "誰がどのようにボックスの設定を変更したか — ボックス上での直接変更（WebGUI/コンソール）はドリフトとしてフラグ付けされます。");
  ("time", Text "時刻");
  ("area", Text "領域");
  ("actor", Text "実行者");
  ("ip", Text "IP");
  ("channel", Text "チャネル");
  ("change", Text "変更");
  ("direct", Text "直接");
  ("channels", Group [
    ("api", Text "API");
    ("gui", Text "WebGUI");
    ("system", Text "コンソール/スクリプト");
    ("opngms", Text "OPNGMS");
    ("api_external", Text "外部 API")]);
  ("loadMore", Text "さらに読み込む");
  ("empty", Text "この期間に設定変更はありません。");
  ("loading", Text "設定変更を読み込み中…");
  ("loadError", Text "設定変更の読み込みに失敗しました。");
  ("last24h", Text "過去24時間")].

Definition ja_smtp : dict := Group [
  ("authMethod", Text "認証");
  ("authPassword", Text "パスワード");
  ("authOauth", Text "OAuth2");
  ("oauthProvider", Text "プロバイダー");
  ("oauthGoogle", Text "Google / Gmail");
  ("oauthMicrosoft", Text "Microsoft 365");
  ("oauthClientId", Text "Client ID");
  ("oauthClientSecret", Text "Client secret");
  ("oauthRefreshToken", Text "Refresh token");
  ("oauthTenantId", Text "Tenant ID");
  ("oauthSecretSaved", Text "保存済み — 空欄で維持");
  ("oauthConnect", Text "アカウントを接続");
  ("oauthConnectGoogle", Text "Google で接続");
  ("oauthConnectMicrosoft", Text "Microsoft 365 で接続");
  ("oauthExperimental", Text "実験的 — 未テスト");
  ("oauthExperimentalNote", Text "OAuth のブラウザサインインは実際のプロバイダーで確認されていません。PUBLIC_BASE_URL を設定し、リダイレクト URI を OAuth アプリに登録する必要があります。上のリフレッシュトークンを貼り付ける方法が引き続きサポートされた方法です。");
  ("oauthConnectNeedsCreds", Text "まずクライアント ID とシークレットを保存してから接続してください。");
  ("oauthConnected", Text "アカウントが接続されました。");
  ("oauthConnectFailed", Text "アカウントを接続できませんでした。")].

Definition ja : dict := Group [
  ("common", ja_common);
  ("nav", ja_nav);
  ("login", ja_login);
  ("tenant", ja_tenant);
  ("overview", ja_overview);
  ("alerts", ja_alerts);
  ("devices", ja_devices);
  ("deviceDetail", ja_deviceDetail);
  ("deviceActions", ja_deviceActions);
  ("firmware", ja_firmware);
  ("plugins", ja_plugins);
  ("templates", ja_templates);
  ("deviceCreate", ja_deviceCreate);
  ("health", ja_health);
  ("logForwarding", ja_logForwarding);
  ("catalog", ja_catalog);
  ("config", ja_config);
  ("deviceHealth", ja_deviceHealth);
  ("chart", ja_chart);
  ("reports", ja_reports);
  ("sessions", ja_sessions);
  ("mfa", ja_mfa);
  ("groups", ja_groups);
  ("confirm", ja_confirm);
  ("errors", ja_errors);
  ("system", ja_system);
  ("logFleet", ja_logFleet);
  ("perimeter", ja_perimeter);
  ("retention", ja_retention);
  ("audit", ja_audit);
  ("reliability", ja_reliability);
  ("configAudit", ja_configAudit);
  ("smtp", ja_smtp)].
