(* ===== verification/Messages.v ===== *)
(** * Texts of the interface, over all locales

    The dictionaries are complete with respect to each other, to the errors
    the hooks throw, and to the call sites that fill parameters in. *)
From S2P Require Import Prelude JsString Json Http QueryClient Hooks Time I18n Dict Render.
From S2P Require Import DictEn DictIt DictEs DictFr DictDe DictPt DictNl DictRu DictAr DictZh DictZhTW DictJa.
From S2P Require Import TenantHooks PlatformHooks HookFamily Login.
From Stdlib Require Import ZArith.
Import Locale.

(** [{ en }] and the table of loaders of [i18n/index.ts] *)
Definition loaders : list (string * dict) :=
  [("en", en); ("it", it); ("es", es); ("fr", fr); ("de", de); ("pt", pt); ("nl", nl); ("ru", ru);
   ("ar", ar); ("zh", zh); ("zh-TW", zhTW); ("ja", ja)].

(** ** Completeness *)
Definition same_keys (d : dict) : bool := bool_decide ((texts d).*1 = (texts en).*1).
Definition same_params (d : dict) : bool :=
  bool_decide ((fun ps => params ps.2) <$> texts d = (fun ps => params ps.2) <$> texts en).
Definition no_blank (d : dict) : bool := forallb (fun ps => negb (trim ps.2 === "")) (texts d).
Definition parallel (d : dict) : bool := same_keys d && same_params d && no_blank d.

Lemma loaders_parallel : forallb (fun kd => parallel kd.2) loaders = true.
Proof. vm_compute. reflexivity. Qed.

Lemma loaders_supported : loaders.*1 = SUPPORTED_LOCALES.
Proof. vm_compute. reflexivity. Qed.

Lemma loader_of l : l ∈ SUPPORTED_LOCALES -> exists d, assoc l loaders = Some d /\ parallel d = true.
Proof.
  rewrite <- loaders_supported. pose proof loaders_parallel as H. revert H. generalize loaders as m.
  induction m as [|[k d] m IH]; [by intros _ ?%not_elem_of_nil|].
  cbn [forallb]. intros [Hd Hm]%andb_true_iff. rewrite fmap_cons. cbn [assoc].
  intros [-> |Hl]%elem_of_cons.
  - exists d. by rewrite decide_True.
  - case_decide; [by exists d|]. by apply IH.
Qed.

(** C40.  Every supported locale has a dictionary with exactly the keys of the
    English one, in which no text is blank and every text has the parameters
    of its English counterpart; so switching the language never loses a text
    or a parameter. *)
Theorem locales_complete l :
  l ∈ SUPPORTED_LOCALES ->
  exists d, assoc l loaders = Some d /\
    (texts d).*1 = (texts en).*1 /\
    (fun ps => params ps.2) <$> texts d = (fun ps => params ps.2) <$> texts en /\
    Forall (fun ps => trim ps.2 <> "") (texts d).
Proof.
  intros (d & Hd & Hp)%loader_of. exists d. split; [done|].
  unfold parallel in Hp. apply andb_true_iff in Hp as [[Hk Hs]%andb_true_iff Hb].
  apply bool_decide_eq_true in Hk, Hs. split; [done|]. split; [done|].
  apply list.Forall_forall. intros ps Hin. unfold no_blank in Hb. rewrite forallb_forall in Hb.
  specialize (Hb ps). rewrite <- list_elem_of_In in Hb. apply Hb, negb_true_iff in Hin.
  by apply bool_decide_eq_false in Hin.
Qed.

Lemma locales_complete_witness :
  exists d, assoc "zh-TW" loaders = Some d /\ length (texts d).*1 = 734.
Proof.
  destruct (locales_complete "zh-TW") as (d & Hd & Hk & _).
  - apply (bool_decide_unpack _). vm_compute. exact I.
  - exists d. split; [exact Hd|]. rewrite Hk. vm_compute. reflexivity.
Defined.

(** ** Texts of errors *)

(** The text exists: in the English dictionary for [en.x.y], in every
    dictionary for [t.x.y]. *)
Fixpoint resolves (m : msg) : bool :=
  match m with
  | En p => bool_decide (is_Some (lookup_text p en))
  | Tr p => forallb (fun kd => bool_decide (is_Some (lookup_text p kd.2))) loaders
  | Lit s => negb (s === "")
  | Class_ _ m => resolves m
  end.

Definition throws_resolved (o : outcome msg (option json)) : Prop :=
  match o with Threw e => resolves e = true | Returned _ => True end.

Section idioms.
Context (m : msg) (Hm : resolves m = true).
Lemma data_or_throw_resolved r : throws_resolved (data_or_throw m r).
Proof using Hm. unfold data_or_throw. by destruct (_ || _). Qed.
Lemma unless_error_resolved r : throws_resolved (unless_error m r).
Proof using Hm. unfold unless_error. by destruct (truthy _). Qed.
Lemma unless_error_or_resolved d r : throws_resolved (unless_error_or m d r).
Proof using Hm. unfold unless_error_or. by destruct (truthy _). Qed.
Lemma void_unless_error_resolved r : throws_resolved (void_unless_error m r).
Proof using Hm. unfold void_unless_error. by destruct (truthy _). Qed.
Lemma event_page_resolved r : throws_resolved (Windows.event_page m r).
Proof using Hm. unfold Windows.event_page. by destruct (truthy _). Qed.
End idioms.

Ltac resolve :=
  first [ apply data_or_throw_resolved | apply unless_error_resolved | apply unless_error_or_resolved
        | apply void_unless_error_resolved | apply event_page_resolved ];
  vm_compute; reflexivity.

(** Whatever the server answers, every error a data hook throws has a
    text: [en.x.y] exists in the English dictionary, [t.x.y] exists in the
    dictionary of every locale, and no literal is empty; so no failure is
    shown as a blank or "undefined" message. *)
Theorem hook_errors_have_texts now token :
  (forall q r, throws_resolved (q_fn (query_of now q) r)) /\
  (forall m r, throws_resolved (m_fn (mutation_of token m) r)).
Proof.
  split.
  - intros q r. destruct q; cbn [query_of]; unfold Windows.usePerimeterAttackers, Windows.useAttackerCountries;
      cbn -[data_or_throw unless_error unless_error_or void_unless_error Windows.event_page truthy json_or];
      try resolve; try exact I;
      try (destruct (status r =? _)%Z; [exact I|]; first [exact I|resolve]);
      try (destruct (truthy (Http.error r)); exact I); try (destruct (_ || _); exact I).
    unfold data_or_throw. by destruct (_ || _).
  - intros m r. destruct m; cbn [mutation_of];
      cbn -[data_or_throw unless_error unless_error_or void_unless_error truthy response_ok];
      try resolve; try exact I; try (destruct (response_ok r); [exact I|vm_compute; reflexivity]).
    + unfold data_or_throw. destruct (_ || _); [vm_compute; reflexivity|].
      cbn -[field]. destruct (data r ≫= field "authorize_url") as [[]|]; try (vm_compute; reflexivity).
      by destruct (bool_decide _).
    + destruct (truthy (Http.error r)); [|exact I]. destruct (status r =? 409)%Z; vm_compute; reflexivity.
    + unfold data_or_throw. by destruct (_ || _).
Qed.

(** The texts of the login page. *)
Lemma login_texts_resolve :
  Forall (fun m => resolves m = true) [invalidCredentials; invalidCode; passkeyError; passkeyNotSupported].
Proof. repeat constructor; vm_compute; reflexivity. Qed.

(** ** Call sites that fill parameters in

    A call site is the path of its text and its chain of replacements: [true]
    is [replaceAll], [false] is [replace], which fills one occurrence only. *)
Definition call_site : Type := list string * list (bool * string).

Definition LoginPage_sites : list call_site := [(["login"; "mfa"; "rememberDevice"], [(false, "days")])].
Definition CatalogModelForm_sites : list call_site :=
  [(["catalog"; "diff"; "newSince"], [(false, "v")]); (["catalog"; "diff"; "changedSince"], [(false, "v")])].
Definition CatalogEditorTab_sites : list call_site := [(["catalog"; "map"; "staleBanner"], [(false, "when")])].
Definition RuntimeSettingsSection_sites : list call_site :=
  [(["system"; "runtime"; "impactItem"], [(true, "tenant"); (true, "store"); (false, "range"); (false, "bound")])].
Definition RetentionCard_sites : list call_site :=
  [(["retention"; "warningItem"], [(false, "frequency"); (false, "range"); (false, "store"); (false, "bound")])].
Definition AuditPage_sites : list call_site :=
  [(["audit"; "showingTotal"], [(false, "total")]); (["audit"; "page"], [(false, "page")])].

Definition call_sites : list call_site :=
  LoginPage_sites ++ CatalogModelForm_sites ++ CatalogEditorTab_sites ++ RuntimeSettingsSection_sites ++
  RetentionCard_sites ++ AuditPage_sites.

(** The text of the site is well formed and its chain fills it. *)
Definition site_filled (d : dict) (site : call_site) : bool :=
  match lookup_text site.1 d with
  | Some s => (print (parts s) === s) && forallb wf_part (parts s) && fills site.2 (params s)
  | None => false
  end.

(** Texts with a brace occur at call sites only. *)
Definition only_sites (d : dict) : bool :=
  forallb (fun ps => flat ps.2 || bool_decide (ps.1 ∈ call_sites.*1)) (texts d).

(** C39.  No raw placeholder reaches the screen.  In every locale, at every
    call site, running the site's chain of [replace] and [replaceAll] on the
    locale's text yields that text with every parameter replaced by its value,
    for all values without [$] and braces; and the texts that contain a brace
    at all are those of the call sites. *)
Theorem parameters_filled l d val :
  assoc l loaders = Some d -> (forall p, plain (val p) = true) ->
  Forall (fun site => exists ps, lookup_text site.1 d = Some (print ps) /\ forallb wf_part ps = true /\
            render val site.2 (print ps) = print (instantiate val <$> ps)) call_sites /\
  Forall (fun ps => flat ps.2 = false -> ps.1 ∈ call_sites.*1) (texts d).
Proof.
  intros Hd%assoc_elem Hval.
  assert (H : forallb (fun kd => forallb (site_filled kd.2) call_sites && only_sites kd.2) loaders = true)
    by (vm_compute; reflexivity).
  rewrite forallb_forall in H. specialize (H (l, d)). rewrite <- list_elem_of_In in H.
  apply H, andb_true_iff in Hd as [Hs Ho]. clear H. rewrite forallb_forall in Hs.
  unfold only_sites in Ho. rewrite forallb_forall in Ho. split; apply list.Forall_forall.
  - intros site Hin%list_elem_of_In. apply Hs in Hin. unfold site_filled in Hin.
    destruct (lookup_text _ _) as [s|]; [|done]. apply andb_true_iff in Hin as [[Hp Hw]%andb_true_iff Hf].
    apply bool_decide_eq_true in Hp. exists (parts s). rewrite Hp at 1. split_and!; [done|done|].
    by apply render_fills.
  - intros ps Hin%list_elem_of_In Hne. apply Ho, orb_true_iff in Hin as [Hin|Hin]; [congruence|].
    by apply bool_decide_eq_true in Hin.
Qed.

Lemma parameters_filled_witness :
  lookup_text ["audit"; "page"] en = Some "Page {page}" /\
  exists ps, lookup_text ["audit"; "page"] en = Some (print ps) /\
    render (fun _ => "7") [(false, "page")] (print ps) = print (instantiate (fun _ => "7") <$> ps) /\
    Forall (fun ps => flat ps.2 = false -> ps.1 ∈ call_sites.*1) (texts en).
Proof.
  split; [vm_compute; reflexivity|].
  destruct (parameters_filled "en" en (fun _ => "7") eq_refl (fun _ => eq_refl)) as [Hs Ho].
  rewrite list.Forall_forall in Hs. destruct (Hs (["audit"; "page"], [(false, "page")])) as (ps & Hl & _ & Hr).
  - apply (bool_decide_unpack _). vm_compute. exact I.
  - exists ps. split; [exact Hl|]. split; [exact Hr|exact Ho].
Defined.
