(* ===== verification/Formats.v ===== *)
(** * Small formats: [reports/sections.ts], [utils/bytes.ts], [perimeter/countryLabel.ts] *)
From S2P Require Import Prelude Json Dict DictEn.
From stdpp Require Import pretty.
From Stdlib Require Import ZArith.

(** ** [reports/sections.ts] *)
Module Sections.
Definition REPORT_SECTION_KEYS : list string :=
  ["summary"; "health"; "alerts_wan"; "attacks"; "attacker_countries"; "failed_logins"; "firewall_blocks";
   "web"; "data"; "status"; "firmware_config"; "applications"; "web_filter"].

(** [t.reports.sections[key]] *)
Definition sectionLabel (t : dict) (key : string) : option string := lookup_text ["reports"; "sections"; key] t.

(** An absent key shows as on. *)
Definition seedSectionState (sections : option (gmap string bool)) : gmap string bool :=
  let map := sections orelse ∅ in
  foldl (fun acc key => <[key := (map !! key) orelse true]> acc) ∅ REPORT_SECTION_KEYS.

(** [state] is a total record of the keys. *)
Definition buildSectionsMap (state : gmap string bool) : list (string * option bool) :=
  (fun key => (key, state !! key)) <$> REPORT_SECTION_KEYS.

Lemma foldl_insert_lookup (f : string -> bool) keys (acc : gmap string bool) k :
  foldl (fun acc key => <[key := f key]> acc) acc keys !! k =
  if decide (k ∈ keys) then Some (f k) else acc !! k.
Proof.
  revert acc. induction keys as [|key keys IH]; intros acc; cbn [foldl].
  - by rewrite decide_False by apply not_elem_of_nil.
  - rewrite IH. destruct (decide (k ∈ keys)) as [Hk|Hk]; [by rewrite decide_True by (by right)|].
    destruct (decide (k = key)) as [->|Hne].
    + rewrite lookup_insert_eq, decide_True by left. done.
    + rewrite lookup_insert_ne, decide_False by (done || (by intros [?|?]%elem_of_cons)). done.
Qed.

(** Loading stored settings and saving them unchanged sends the stored value
    of every section, and "on" for the sections the server left out. *)
Lemma sections_roundtrip stored k v :
  (k, v) ∈ buildSectionsMap (seedSectionState (Some stored)) -> v = Some ((stored !! k) orelse true).
Proof.
  unfold buildSectionsMap. intros (k' & [= -> ->] & Hk)%list_elem_of_fmap.
  unfold seedSectionState. by rewrite foldl_insert_lookup, decide_True.
Qed.

(** Every key has a label. *)
Lemma sections_labelled : Forall (fun k => is_Some (sectionLabel en k)) REPORT_SECTION_KEYS.
Proof. apply (bool_decide_unpack _). vm_compute. exact I. Qed.

(** The comment of the source counts eleven keys. *)
Lemma section_count : length REPORT_SECTION_KEYS = 13.
Proof. reflexivity. Qed.
End Sections.

(** ** [utils/bytes.ts]

    On integers below 2^53 the divisions by 1024 are exact in double precision,
    so the value is the rational [n / 1024^i]; [toFixed] rounds it to the
    nearest tenth, ties up. *)
Module Bytes.
Local Open Scope Z_scope.
Definition UNITS : list string := ["B"; "KB"; "MB"; "GB"; "TB"; "PB"].

(** The loop: [v >= 1024 && i < UNITS.length - 1]. *)
Fixpoint scale (fuel : nat) (a : Z) (i : nat) : nat :=
  match fuel with
  | O => i
  | S fuel => if (1024 ^ (Z.of_nat i + 1) <=? a) && (i <? 5)%nat then scale fuel a (S i) else i
  end.
Definition unit_index (a : Z) : nat := scale 6 a 0.

(** [toFixed(1)] of [a / 1024^i], in tenths. *)
Definition tenths (a : Z) (i : nat) : Z := (20 * a + 1024 ^ Z.of_nat i) / (2 * 1024 ^ Z.of_nat i).

Definition humanBytes (n : Z) : string :=
  let sign := if n <? 0 then "-" else "" in
  let a := Z.abs n in
  let i := unit_index a in
  let text := if (i =? 0)%nat then pretty a
              else pretty (tenths a i / 10) +:+ "." +:+ pretty (tenths a i mod 10) in
  sign +:+ text +:+ " " +:+ ((UNITS !! i) orelse "").

Lemma scale_bounds fuel a i :
  (i + fuel = 6)%nat -> (i <= 5)%nat -> 1024 ^ Z.of_nat i <= a \/ i = 0%nat ->
  let j := scale fuel a i in
  (j <= 5)%nat /\ (1024 ^ Z.of_nat j <= a \/ j = 0%nat) /\ (a < 1024 ^ (Z.of_nat j + 1) \/ j = 5%nat).
Proof.
  revert i. induction fuel as [|fuel IH]; intros i Hi H5 Ha; cbn [scale]; [lia|].
  destruct (Z.leb_spec (1024 ^ (Z.of_nat i + 1)) a) as [Hle|Hlt]; cbn [andb].
  - destruct (Nat.ltb_spec i 5) as [Hi5|Hi5].
    + apply IH; [lia|lia|]. left. by replace (Z.of_nat (S i)) with (Z.of_nat i + 1) by lia.
    + cbn zeta. split; [lia|]. split; [done|]. right. lia.
  - cbn zeta. split; [lia|]. split; [done|]. by left.
Qed.

(** The tenths printed are within half a tenth of the count in its unit, and
    between 1.0 and 1024.0 of it. *)
Lemma tenths_accurate a :
  0 <= a ->
  let i := unit_index a in
  let u := 1024 ^ Z.of_nat i in
  (i <= 5)%nat /\ 2 * Z.abs (tenths a i * u - 10 * a) <= u /\
  ((0 < i)%nat -> 10 <= tenths a i) /\ ((i < 5)%nat -> tenths a i <= 10240).
Proof.
  intros Ha i u. destruct (scale_bounds 6 a 0 eq_refl ltac:(lia) ltac:(by right)) as (H5 & Hlo & Hhi).
  fold (unit_index a) in H5, Hlo, Hhi. fold i in H5, Hlo, Hhi. fold u in Hlo.
  assert (Hu : 0 < u) by (apply Z.pow_pos_nonneg; lia).
  assert (Hd : 2 * u * tenths a i <= 20 * a + u < 2 * u * tenths a i + 2 * u).
  { unfold tenths. fold u. pose proof (Z.div_mod (20 * a + u) (2 * u) ltac:(lia)).
    pose proof (Z.mod_pos_bound (20 * a + u) (2 * u) ltac:(lia)). lia. }
  split; [done|]. split; [lia|]. split.
  - intros Hi. destruct Hlo as [Hlo|Hlo]; [|lia].
    destruct (Z.le_gt_cases 10 (tenths a i)) as [?|Hlt]; [done|]. nia.
  - intros Hi. destruct Hhi as [Hhi|Hhi]; [|lia].
    rewrite Z.pow_add_r in Hhi by lia. fold u in Hhi. change (1024 ^ 1) with 1024 in Hhi.
    destruct (Z.le_gt_cases (tenths a i) 10240) as [?|Hgt]; [done|]. nia.
Qed.

(** Byte counts are shown accurately: for every integer a double holds
    exactly, the text is the sign, a number and one of the six units; below
    1024 the number is the count itself, and otherwise it has one decimal, is
    within half a tenth of the exact quotient, and is between 1.0 and 1024.0
    units (in petabytes at least 1.0), so the unit fits the size. *)
Theorem humanBytes_accurate n :
  Z.abs n < 2 ^ 53 ->
  exists i u T, (UNITS !! i) = Some u /\
    humanBytes n = (if n <? 0 then "-" else "") +:+
                   (if (i =? 0)%nat then pretty (Z.abs n)
                    else pretty (T / 10) +:+ "." +:+ pretty (T mod 10)) +:+ " " +:+ u /\
    (i = 0%nat -> Z.abs n < 1024) /\
    2 * Z.abs (T * 1024 ^ Z.of_nat i - 10 * Z.abs n) <= 1024 ^ Z.of_nat i /\
    ((0 < i)%nat -> 10 <= T) /\ ((i < 5)%nat -> T <= 10240).
Proof.
  intros _. pose proof (tenths_accurate (Z.abs n) ltac:(lia)) as (H5 & Ha & Hlo & Hhi).
  destruct (scale_bounds 6 (Z.abs n) 0 eq_refl ltac:(lia) ltac:(by right)) as (_ & _ & Hb).
  fold (unit_index (Z.abs n)) in Hb.
  assert (Hu : exists u, UNITS !! unit_index (Z.abs n) = Some u).
  { apply lookup_lt_is_Some_2. unfold UNITS. cbn [length]. lia. }
  destruct Hu as [u Hu]. exists (unit_index (Z.abs n)), u, (tenths (Z.abs n) (unit_index (Z.abs n))).
  split; [done|]. split; [unfold humanBytes; by rewrite Hu|]. split; [|done].
  intros H0. rewrite H0 in Hb. destruct Hb as [Hb|Hb]; [exact Hb|lia].
Qed.

(** Rounding can carry to 1024.0 of a unit instead of 1.0 of the next. *)
Lemma humanBytes_carry : humanBytes 1048575 = "1024.0 KB" /\ humanBytes 1536 = "1.5 KB".
Proof. split; reflexivity. Qed.
End Bytes.

(** ** [perimeter/countryLabel.ts]: [display] is [Intl.DisplayNames(...).of] *)
Module Country.
Definition countryLabel (display : string -> string -> outcome unit (option string))
    (code locale privateLabel unknownLabel : string) : string :=
  if code === "PRIVATE" then privateLabel
  else if code === "UNKNOWN" then unknownLabel
  else try_catch (let! name := display locale code in Returned (name orelse code)) code.
End Country.
