(* ===== verification/ReportSettings.v ===== *)
(** * Report settings and retention of a tenant

    [pages/ReportSettingsPage.tsx] (modules [Settings] and [Logo]) and
    [retention/RetentionCard.tsx] (module [RetentionCard]): two forms of
    [Seeded] on the same page, which both stay mounted when the tenant is
    switched.  They differ in the guard of the seeding effect. *)
From S2P Require Import Prelude JsString Json Http QueryClient Hooks TenantHooks Session Machine Seeded Formats Render.
From stdpp Require Import pretty.
From Stdlib Require Import ZArith.

(** ** [ReportSettingsForm] *)
Module Settings.
Record ReportSettingsOut := MkOut {
  o_title : string;
  o_owner : string;
  o_timezone : string;
  o_language : option string;
  o_from_email : option string;
  o_sections : option (gmap string bool);
  has_logo : bool;
}.
Record form_values := MkValues {
  title : string;
  owner : string;
  timezone : string;
  language : option string;       (* the selector may be cleared *)
  from_email : string;
  sections : gmap string bool;
}.
Definition initialValues : form_values :=
  MkValues "" "" "UTC" (Some "en") "" (Sections.seedSectionState None).
Definition seed (d : ReportSettingsOut) : form_values :=
  MkValues (o_title d) (o_owner d) (o_timezone d) (Some (o_language d orelse "en")) (o_from_email d orelse "")
    (Sections.seedSectionState (o_sections d)).

Inductive edit :=
| SetTitle (s : string) | SetOwner (s : string) | SetTimezone (s : string) | SetFromEmail (s : string)
| SetLanguage (v : option string)
| Toggle (key : string) (b : bool).
Definition apply_edit (e : edit) (v : form_values) : form_values :=
  let '(MkValues ti ow tz la fe se) := v in
  match e with
  | SetTitle s => MkValues s ow tz la fe se
  | SetOwner s => MkValues ti s tz la fe se
  | SetTimezone s => MkValues ti ow s la fe se
  | SetFromEmail s => MkValues ti ow tz la s se
  | SetLanguage l => MkValues ti ow tz l fe se
  | Toggle k b => MkValues ti ow tz la fe (<[k := b]> se)
  end.

Definition sections_json (m : gmap string bool) : json :=
  JObj (omap (fun '(k, b) => (fun b => (k, JBool b)) <$> b) (Sections.buildSectionsMap m)).
Definition body (v : form_values) : json :=
  JObj [("title", JStr (title v)); ("owner", JStr (owner v)); ("timezone", JStr (timezone v));
        ("language", match language v with Some l => JStr l | None => JNull end);
        ("from_email", JStr (from_email v)); ("sections", sections_json (sections v))].
Definition save_request (activeId : option string) (v : form_values) : request :=
  m_request (Reports.useUpdateReportSettings activeId (body v)).

Definition settings_props := props ReportSettingsOut.
Definition settings_event := event ReportSettingsOut edit.
Definition settings_form := form ReportSettingsOut form_values bool.
Definition settings_exec : settings_event -> settings_form -> option (settings_form * list request) :=
  exec seed apply_edit (fun v => v) once_stale once_mark save_request.
Definition mount (p : settings_props) : settings_form := initial initialValues seed false once_stale once_mark p.

(** The page around it: the form is for tenant administrators. *)
Definition ReportSettingsPage (perms : Permissions.Permissions) (p : settings_props) : option settings_form :=
  if Permissions.isTenantAdmin perms then Some (mount p) else None.

Definition renders (p : settings_props) (es : list settings_event) : list settings_props :=
  p :: omap (fun e => match e with Render p => Some p | _ => None end) es.

Lemma render_in p0 es1 es2 a p b :
  Render p0 :: es1 = a ++ Render p :: b -> p ∈ renders p0 (es1 ++ es2).
Proof.
  intros H. assert (Hin : Render p ∈ Render p0 :: es1) by (rewrite H; set_solver).
  apply elem_of_cons in Hin as [[= ->]|Hin]; [left|right].
  apply list_elem_of_omap. exists (Render p). split; [|done]. apply elem_of_app. by left.
Qed.

Lemma last_render_in p0 es1 es2 : last_render p0 es1 ∈ renders p0 (es1 ++ es2).
Proof.
  revert p0. induction es1 as [|e es1 IH]; intros p0; [left|].
  destruct e as [q|x| |ok]; cbn [last_render app]; try apply (IH p0).
  unfold renders. simpl. right. apply (IH q).
Qed.

(** The form is seeded by the first render that has data, and by no other. *)
Lemma seeded_first p0 es f rs :
  run settings_exec es (mount p0) = Some (f, rs) ->
  (ref f = false /\ forall q, Render q ∈ Render p0 :: es -> data_ q = None) \/
  (ref f = true /\ exists a p d b, Render p0 :: es = a ++ Render p :: b /\ data_ p = Some d /\
     (forall q, Render q ∈ a -> data_ q = None) /\ values f = replay apply_edit (fun v => v) b (seed d)).
Proof.
  intros H. pattern es, f, rs. revert es f rs H. apply run_history.
  - unfold mount, initial, effect_. cbn [ref]. destruct (data_ p0) as [d|] eqn:Ed; cbn [once_stale negb ref values].
    + right. split; [done|]. exists [], p0, d, []. split_and!; try done. by intros q ?%not_elem_of_nil.
    + left. split; [done|]. intros q Hq. apply list_elem_of_singleton in Hq. by injection Hq as ->.
  - intros es f rs e f' rs' _ IH He. change (Render p0 :: es ++ [e]) with ((Render p0 :: es) ++ [e]).
    assert (Hkeep : (forall q, e = Render q -> ref f = true \/ data_ q = None) ->
              ref f' = ref f -> values f' = replay1 apply_edit (fun v => v) (values f) e ->
              (ref f' = false /\ forall q, Render q ∈ (Render p0 :: es) ++ [e] -> data_ q = None) \/
              (ref f' = true /\ exists a p d b, (Render p0 :: es) ++ [e] = a ++ Render p :: b /\ data_ p = Some d /\
                 (forall q, Render q ∈ a -> data_ q = None) /\ values f' = replay apply_edit (fun v => v) b (seed d))).
    { intros Hq Hr Hv. destruct IH as [[Hf Hn]|(Hf & a & p & d & b & Es & Hd & Hn & Hw)]; rewrite Hr; [left|right].
      - split; [done|]. intros q [Hin|Hin]%elem_of_app; [by apply Hn|].
        apply list_elem_of_singleton in Hin. destruct (Hq q (eq_sym Hin)); [congruence|done].
      - split; [done|]. exists a, p, d, (b ++ [e]). rewrite Es, <- app_assoc. split_and!; try done.
        rewrite Hv, Hw. symmetry. apply (replay_snoc apply_edit (fun v => v)). }
    destruct e as [q|x| |ok]; cbn [settings_exec exec] in He.
    + injection He as <- <-. unfold effect_ in *. destruct (data_ q) as [d|] eqn:Ed.
      * destruct (ref f) eqn:Er; cbn [once_stale negb] in *.
        { apply Hkeep; cbn [ref values]; try done. intros q' [= ->]. by left. }
        right. split; [done|]. exists (Render p0 :: es), q, d, []. split_and!; try done.
        by destruct IH as [[_ Hn]|[? _]].
      * apply Hkeep; try done. intros q' [= ->]. by right.
    + destruct (rendered (shown f)); [|done]. injection He as <- <-. by apply Hkeep.
    + destruct (rendered (shown f) && negb (pending f)); [|done]. injection He as <- <-. by apply Hkeep.
    + destruct (pending f); [|done]. injection He as <- <-. by apply Hkeep; destruct ok.
Qed.

(** C17.  The report settings form saves what it shows, but it is seeded once.
    In every history in which the query behaves ([coherent]: a settled query
    of a tenant has data), each save to a tenant sends the settings of the
    first render that had any, with exactly the edits made since that render
    and up to the save.  When the page only ever saw one tenant, these are
    that tenant's own settings.  The form stays mounted when the tenant is
    switched and is not seeded again: after a switch, saving writes the first
    tenant's title, owner, language, sender address and sections, with what
    was typed there, to the second. *)
Theorem settings_follow_first_tenant p0 es f rs rq :
  Forall coherent (renders p0 es) -> run settings_exec es (mount p0) = Some (f, rs) -> rq ∈ rs ->
  (exists es1 es2 t v, es = es1 ++ Save :: es2 /\ t = activeId (last_render p0 es1) /\ rq = save_request t v /\
    (present t = true ->
     exists a p d b, Render p0 :: es1 = a ++ Render p :: b /\ data_ p = Some d /\
       (forall q, Render q ∈ a -> data_ q = None) /\ v = replay apply_edit (fun v => v) b (seed d) /\
       ((forall q q', q ∈ renders p0 es -> q' ∈ renders p0 es -> activeId q = activeId q') -> activeId p = t))) /\
  (forall a b da db xs, a <> b ->
    let A := Props (Some a) false false (Some da) in
    let B := Props (Some b) false false (Some db) in
    snd <$> run settings_exec ((Edit <$> xs) ++ [Render B; Save]) (mount A) =
    Some [save_request (Some b) (fold_left (fun v x => apply_edit x v) xs (seed da))]).
Proof.
  intros Hco H Hin. split.
  - destruct (saves_sound initialValues seed apply_edit (fun v => v) false once_stale once_mark save_request
                once_fresh p0 es f rs rq Hco H Hin) as (es1 & es2 & f1 & r1 & -> & H1 & -> & Hp); [done|].
    exists es1, es2, (activeId (last_render p0 es1)), (values f1). do 3 (split; [done|]).
    intros Ht. destruct (seeded_first _ _ _ _ H1) as [[_ Hn]|(_ & a & p & d & b & Es & Hd & Hn & Hv)].
    + destruct (Hp Ht) as (a & p & d & b & Ha & Hd & _ & _). rewrite (Hn p) in Hd; [done|]. rewrite Ha. set_solver.
    + exists a, p, d, b. split_and!; try done.
      intros Hone. apply Hone; [by eapply render_in|apply last_render_in].
  - intros a b da db xs _. cbn zeta.
    change (mount (Props (Some a) false false (Some da))) with (Form (Props (Some a) false false (Some da)) (seed da) true false).
    generalize (seed da). induction xs as [|x xs IH]; intros v; [done|]. rewrite fmap_cons. cbn [app fold_left].
    rewrite <- (IH (apply_edit x v)). cbn [Machine.run mbind option_bind].
    change (settings_exec (Edit x) ?f) with (Some (Form (shown f) (apply_edit x (values f)) (ref f) (pending f), @nil request)).
    cbn [mbind option_bind shown values ref pending].
    match goal with |- snd <$> (?x ≫= ?g) = _ => change (snd <$> (x ≫= g) = snd <$> x); by destruct x as [[? ?]|] end.
Qed.

Lemma settings_follow_first_tenant_witness :
  let d := MkOut "Weekly" "SOC" "UTC" (Some "it") None None false in
  let p := Props (Some "t1") false false (Some d) in
  let es := [Edit (SetOwner "NOC"); Save] in
  exists f rq, run settings_exec es (mount p) = Some (f, [rq]) /\
    exists es1 es2 t v, es = es1 ++ Save :: es2 /\ t = activeId (last_render p es1) /\ rq = save_request t v.
Proof.
  intros d p es. eexists _, _. split; [reflexivity|].
  destruct (proj1 (settings_follow_first_tenant p es _ _ (save_request (Some "t1") (apply_edit (SetOwner "NOC") (seed d)))
    ltac:(constructor; [split; [by eexists|done]|constructor]) eq_refl ltac:(left))) as (es1 & es2 & t & v & H1 & H2 & H3 & _).
  exists es1, es2, t, v. exact (conj H1 (conj H2 H3)).
Defined.
End Settings.

(** ** The logo on the same page *)
Module Logo.
Record logo := MkLogo { logoFile : option string; logoCacheBust : nat; uploadPending : bool; deletePending : bool }.
Definition initial : logo := MkLogo None 0 false false.

Inductive event := PickFile (f : option string) | Upload | UploadSettled (ok : bool) | Delete | DeleteSettled (ok : bool).

Section logo.
Context (base : string) (activeId : option string) (token : string).

Definition exec (hasLogo : bool) (e : event) (s : logo) : option (logo * list request) :=
  let '(MkLogo f n up de) := s in
  match e with
  | PickFile f' => Some (MkLogo f' n up de, [])
  | Upload =>
      match f with
      | Some x => if up then None else Some (MkLogo f n true de, [m_request (Reports.useUploadLogo base activeId token x)])
      | None => None
      end
  | UploadSettled ok =>
      if up then Some (if ok then MkLogo None (S n) false de else MkLogo f n false de, []) else None
  | Delete => if hasLogo && negb de then Some (MkLogo f n up true, [m_request (Reports.useDeleteLogo activeId)]) else None
  | DeleteSettled ok => if de then Some (MkLogo f (if ok then S n else n) up false, []) else None
  end.

(** [logoPreviewUrl] *)
Definition logoPreviewUrl (hasLogo : bool) (s : logo) : option string :=
  if hasLogo && present activeId
  then Some (base +:+ "/api/tenants/" +:+ (activeId orelse "") +:+ "/reports/settings/logo?cb=" +:+ pretty (logoCacheBust s))
  else None.

(** A picture that changed has a new URL: the browser does not show the old one. *)
Lemma preview_renewed hasLogo e s s' rs u u' :
  exec hasLogo e s = Some (s', rs) -> e = UploadSettled true \/ e = DeleteSettled true ->
  logoPreviewUrl hasLogo s = Some u -> logoPreviewUrl hasLogo s' = Some u' -> u <> u'.
Proof using Type.
  intros He Hor Hu Hu'. unfold logoPreviewUrl in *. destruct (hasLogo && present activeId); [|done].
  simplify_eq. assert (logoCacheBust s' = S (logoCacheBust s)) as ->.
  { destruct s as [f n up de], Hor as [-> | ->]; simpl in He; js_cases; done. }
  intros H. repeat apply (inj (String.app _)) in H. apply (inj pretty) in H. lia.
Qed.
End logo.
End Logo.

(** ** [RetentionCard] *)
Module Retention.
Definition STORES : list string := ["perimeter"; "events"; "metrics"; "log_lake"].

Record RetentionOut := MkRetention { overrides : gmap string Z; defaults : gmap string Z }.

(** A draft maps every store to a number or the empty input. *)
Definition draft := gmap string (option Z).
Definition emptyDraft : draft := list_to_map ((fun s => (s, None)) <$> STORES).
Definition seed_store (d : RetentionOut) (next : gmap string (option Z)) (store : string) : gmap string (option Z) :=
  match overrides d !! store with Some n => <[store := Some n]> next | None => next end.
Definition seed (d : RetentionOut) : draft := foldl (seed_store d) emptyDraft STORES.

(** An input's [onChange]: a number, or anything else as empty. *)
Definition edit : Type := string * option Z.
Definition apply_edit (e : edit) (d : draft) : draft := if decide (e.1 ∈ STORES) then <[e.1 := e.2]> d else d.

(** [handleSave]: an empty input is [null]. *)
Definition save_values (d : draft) : json :=
  JObj ((fun store => (store, match d !! store with Some (Some n) => JNum n | _ => JNull end)) <$> STORES).
Definition save_request (activeId : option string) (d : draft) : request :=
  m_request (TenantHooks.Retention.useUpdateRetention activeId (save_values d)).

Definition retention_event := event RetentionOut edit.
Definition retention_exec : retention_event -> form RetentionOut draft (option string) ->
    option (form RetentionOut draft (option string) * list request) :=
  exec seed apply_edit (fun d => d) per_tenant_stale per_tenant_mark save_request.
Definition mount (p : props RetentionOut) : form RetentionOut draft (option string) :=
  initial emptyDraft seed None per_tenant_stale per_tenant_mark p.

(** The hint of an input, and a warning. *)
Definition hint (inheritHint : string) (d : option RetentionOut) (store : string) : option string :=
  (fun n => inheritHint +:+ ": " +:+ pretty n) <$> (d ≫= fun d => defaults d !! store).
Record warning := MkWarning { frequency : string; range_days : Z; limiting_store : string; bound : Z }.

(** What the server is asked to store is the draft, store by store. *)
Definition retention_of (d : draft) (store : string) : option Z := d !! store ≫= id.

Lemma seed_stores d store l acc :
  NoDup l ->
  foldl (seed_store d) acc l !! store =
    if decide (store ∈ l)
    then match overrides d !! store with Some n => Some (Some n) | None => acc !! store end
    else acc !! store.
Proof.
  revert acc. induction l as [|s l IH]; intros acc Hn; [done|]. apply NoDup_cons in Hn as [Hs Hn]. cbn [foldl].
  rewrite IH by done. unfold seed_store. destruct (decide (store = s)) as [->|Hne].
  - rewrite decide_False, decide_True by (done || by left). destruct (overrides d !! s); [|done].
    by rewrite lookup_insert_eq.
  - destruct (decide (store ∈ l)) as [Hl|Hl]; [rewrite decide_True by (by right)|
      rewrite decide_False by (by intros [?|?]%elem_of_cons)];
      destruct (overrides d !! s); rewrite ?lookup_insert_ne by done; done.
Qed.

Lemma seed_lookup d store : store ∈ STORES -> seed d !! store = Some (overrides d !! store).
Proof.
  intros H. unfold seed.
  rewrite seed_stores by (apply (bool_decide_unpack _); vm_compute; exact I). rewrite decide_True by done.
  destruct (overrides d !! store); [done|]. unfold STORES in H.
  repeat (apply elem_of_cons in H as [->|H]; [reflexivity|]). by apply not_elem_of_nil in H.
Qed.

Definition renders (p : props RetentionOut) (es : list retention_event) : list (props RetentionOut) :=
  p :: omap (fun e => match e with Render p => Some p | _ => None end) es.

(** C18.  The retention card never mixes tenants.  In every history of renders
    (tenants switched at any time, answers still under way), edits and saves in
    which the query behaves, each save to a tenant sends that tenant's own
    overrides, as one of its renders had them, with the edits made since; and
    loading overrides and saving them untouched sends exactly those overrides,
    with [null] for each store that inherits. *)
Theorem retention_own_tenant p0 es f rs rq :
  Forall coherent (renders p0 es) -> run retention_exec es (mount p0) = Some (f, rs) -> rq ∈ rs ->
  (exists es1 es2 t v, es = es1 ++ Save :: es2 /\ t = activeId (last_render p0 es1) /\ rq = save_request t v /\
    (present t = true ->
     exists a p d b, Render p0 :: es1 = a ++ Render p :: b /\ activeId p = t /\ data_ p = Some d /\
       v = replay apply_edit (fun d => d) b (seed d))) /\
  (forall d store, store ∈ STORES -> retention_of (seed d) store = overrides d !! store).
Proof.
  intros Hco H Hin. split.
  - destruct (saves_sound emptyDraft seed apply_edit (fun d => d) None per_tenant_stale per_tenant_mark save_request
                per_tenant_fresh p0 es f rs rq Hco H Hin) as (es1 & es2 & f1 & r1 & -> & _ & -> & Hp); [done|].
    exists es1, es2, (activeId (last_render p0 es1)), (values f1). do 3 (split; [done|]).
    intros Ht. destruct (Hp Ht) as (a & p & d & b & Ha & Hd & Hst & Hv). exists a, p, d, b.
    split_and!; try done. by apply per_tenant_same.
  - intros d store Hs. unfold retention_of. by rewrite seed_lookup.
Qed.

Lemma retention_own_tenant_witness :
  let dA := MkRetention {["events" := 30%Z]} ∅ in let dB := MkRetention {["metrics" := 7%Z]} ∅ in
  let pA := Props (Some "A") false false (Some dA) in let pB := Props (Some "B") false false (Some dB) in
  let es := [Edit ("events", Some 60%Z); Render (Props (Some "B") true false None); Render pB;
             Edit ("perimeter", Some 5%Z); Save] in
  exists f rq, run retention_exec es (mount pA) = Some (f, [rq]) /\
    rq = m_request (TenantHooks.Retention.useUpdateRetention (Some "B")
           (JObj [("perimeter", JNum 5); ("events", JNull); ("metrics", JNum 7); ("log_lake", JNull)])) /\
    exists es1 es2 t v, es = es1 ++ Save :: es2 /\ t = activeId (last_render pA es1) /\ rq = save_request t v /\
    (present t = true ->
     exists a p d (b : list retention_event), Render pA :: es1 = a ++ Render p :: b /\ activeId p = t /\ data_ p = Some d /\
       v = replay apply_edit (fun d => d) b (seed d)).
Proof.
  intros dA dB pA pB es. eexists _, _. split; [reflexivity|]. split; [vm_compute; reflexivity|].
  refine (proj1 (retention_own_tenant pA es _ [_] _ _ _ _)); [|reflexivity|left].
  repeat constructor; simpl; try done; by eexists.
Defined.
End Retention.
