(* ===== verification/Schedules.v ===== *)
(** * Report schedules and the list of reports

    [pages/ReportSchedulePage.tsx]: the status badge, the editor of one
    schedule, the backend's endpoint that stores it
    ([backend/app/api/report_schedules.py]) and the page that mounts an editor
    for the fleet and one per device; [pages/ReportsPage.tsx]: generation and
    download. *)
From S2P Require Import Prelude JsString Json Http QueryClient Hooks TenantHooks Session Machine Formats Time Picker.
From stdpp Require Import pretty.
From Stdlib Require Import ZArith Ascii.
From S2P Require Import JsString.
Abbreviation newline := (ascii_of_nat 10).

(** [String(n)] and, on decimal digits and the empty text, [Number(s)];
    [None] is [NaN]. *)
Definition String_ (n : Z) : string := pretty n.
Definition Number (s : string) : option Z :=
  if s === "" then Some 0%Z
  else match Iso.read_digits (length (chars s)) 0 (chars s) with Some (n, []) => Some n | _ => None end.
Definition padStart2 (s : string) : string := if length (chars s) <? 2 then "0" +:+ s else s.

Record ScheduleOut := MkSchedule {
  id : string;
  device_id : option string;
  s_enabled : bool;
  s_frequency : string;
  s_weekday : option Z;
  s_hour : Z;
  s_recipients : list string;
  s_sections : option (gmap string bool);
}.
Record ScheduleIn := MkBody {
  b_device_id : option string;
  b_enabled : bool;
  b_frequency : string;
  b_weekday : option Z;
  b_hour : option Z;                       (* [NaN] is sent as [null] *)
  b_recipients : list string;
  b_sections : option (list (string * option bool));
}.

Definition null_or {A} (f : A -> json) (v : option A) : json := match v with Some x => f x | None => JNull end.
Definition body_json (b : ScheduleIn) : json :=
  JObj [("device_id", null_or JStr (b_device_id b)); ("enabled", JBool (b_enabled b));
        ("frequency", JStr (b_frequency b)); ("weekday", null_or JNum (b_weekday b));
        ("hour", null_or JNum (b_hour b)); ("recipients", JArr (JStr <$> b_recipients b));
        ("sections", null_or (fun l => JObj (omap (fun '(k, v) => (fun v => (k, JBool v)) <$> v) l)) (b_sections b))].

(** ** [ScheduleStatus] *)
Module Status.
Definition WEEKDAY_SHORT : list string := ["Mon"; "Tue"; "Wed"; "Thu"; "Fri"; "Sat"; "Sun"].
Definition suffix (n : nat) : string :=
  if 0 <? n then " · " +:+ pretty n +:+ " recipient" +:+ (if n =? 1 then "" else "s") else "".
Definition summary (s : ScheduleOut) : string :=
  let hh := padStart2 (String_ (s_hour s)) in
  if s_frequency s === "weekly" then
    let w := s_weekday s orelse 0%Z in
    let day := (if (w <? 0)%Z then None else WEEKDAY_SHORT !! Z.to_nat w) orelse "Mon" in
    "Weekly · " +:+ day +:+ " " +:+ hh +:+ ":00"
  else if s_frequency s === "monthly" then "Monthly · " +:+ hh +:+ ":00"
  else "On demand".
(** Colour and text. *)
Definition badge (existing : option ScheduleOut) : string * string :=
  match existing with
  | None => ("dimmed", "Not scheduled")
  | Some s => if s_enabled s then ("teal", summary s +:+ suffix (length (s_recipients s))) else ("gray", "Disabled")
  end.
End Status.

(** ** [ScheduleEditor] *)
Module Editor.
Definition WEEKDAYS : list string := ["0"; "1"; "2"; "3"; "4"; "5"; "6"].
Definition FREQUENCIES : list string := ["weekly"; "monthly"; "on_demand"].

Record editor := MkEditor {
  enabled : bool;
  frequency : string;
  weekday : option string;
  hour : option Z;
  recipients : string;
  customizeSections : bool;
  sections : gmap string bool;
}.

(** The initial state, from the schedule there is. *)
Definition open (deviceId : option string) (existing : option ScheduleOut) : editor :=
  MkEditor
    ((s_enabled <$> existing) orelse bool_decide (deviceId = None))
    ((s_frequency <$> existing) orelse "weekly")
    (Some ((String_ <$> (existing ≫= s_weekday)) orelse "0"))
    (Some ((s_hour <$> existing) orelse 4%Z))
    (join (String newline "") ((s_recipients <$> existing) orelse []))
    (match existing ≫= s_sections with Some _ => true | None => false end)
    (Sections.seedSectionState (existing ≫= s_sections)).

(** What the number input hands over: a number or a text. *)
Inductive numeric := HNum (n : Z) | HText (s : string).
Inductive edit :=
| SetEnabled (b : bool)
| SetFrequency (v : option string)
| SetWeekday (v : option string)
| SetHour (v : numeric)
| SetRecipients (s : string)
| SetCustomize (b : bool)
| Toggle (key : string) (b : bool).

(** An edit is there when its control is. *)
Definition offered (deviceId : option string) (e : edit) (s : editor) : bool :=
  match e with
  | SetEnabled _ | SetRecipients _ => true
  | SetFrequency v => match v with Some f => bool_decide (f ∈ FREQUENCIES) | None => true end
  | SetWeekday v => bool_decide (frequency s = "weekly") && match v with Some w => bool_decide (w ∈ WEEKDAYS) | None => true end
  | SetHour _ => bool_decide (frequency s <> "on_demand")
  | SetCustomize _ => bool_decide (deviceId <> None)
  | Toggle k _ => bool_decide (deviceId <> None) && customizeSections s && bool_decide (k ∈ Sections.REPORT_SECTION_KEYS)
  end.
Definition apply_edit (e : edit) (s : editor) : editor :=
  let '(MkEditor en fr wd ho re cu se) := s in
  match e with
  | SetEnabled b => MkEditor b fr wd ho re cu se
  | SetFrequency v => MkEditor en (v orelse "weekly") wd ho re cu se
  | SetWeekday v => MkEditor en fr v ho re cu se
  | SetHour v => MkEditor en fr wd (match v with HNum n => Some n | HText t => Number t end) re cu se
  | SetRecipients t => MkEditor en fr wd ho t cu se
  | SetCustomize b => MkEditor en fr wd ho re b se
  | Toggle k b => MkEditor en fr wd ho re cu (<[k := b]> se)
  end.

(** [recipients.split(/[\n,]/).map((r) => r.trim()).filter(Boolean)] *)
Definition split_lines_commas (s : string) : list string := concat (split ","%char <$> split newline s).
Definition recipient_list (s : string) : list string := filter (fun w => w <> "") (trim <$> split_lines_commas s).

(** The body of [save]. *)
Definition save_body (deviceId : option string) (s : editor) : ScheduleIn :=
  MkBody deviceId (enabled s) (frequency s)
    (if frequency s === "weekly" then Number (weekday s orelse "0") else None)
    (hour s) (recipient_list (recipients s))
    (if bool_decide (deviceId <> None) && customizeSections s then Some (Sections.buildSectionsMap (sections s)) else None).

Section requests.
Context (activeId : option string) (deviceId : option string) (existing : option ScheduleOut).
Definition save (s : editor) : request := m_request (Reports.useUpsertReportSchedule activeId (body_json (save_body deviceId s))).
Definition triggerNow : option request :=
  (fun s => m_request (Reports.useSendScheduleNow activeId (id s))) <$> existing.
End requests.

(** *** Recipients *)
Definition recipient (w : string) : Prop := entry newline w /\ mem_char ","%char w = false.

Lemma split_lines_commas_atoms s :
  Forall (fun w => mem_char newline w = false /\ mem_char ","%char w = false) (split_lines_commas s).
Proof.
  unfold split_lines_commas. apply list.Forall_forall. intros w Hw.
  apply list_elem_of_In, in_concat in Hw as (l & Hl & Hw).
  apply list_elem_of_In, list_elem_of_fmap in Hl as (line & -> & Hline). apply list_elem_of_In in Hw.
  pose proof (split_atoms newline s) as Hn. rewrite list.Forall_forall in Hn. specialize (Hn _ Hline).
  pose proof (split_atoms ","%char line) as Hc. rewrite list.Forall_forall in Hc. split; [|by apply Hc].
  rewrite <- (join_split ","%char line) in Hn. revert Hn Hw. generalize (split ","%char line). clear.
  intros l Hj Hw. induction l as [|v l IH]; [by apply not_elem_of_nil in Hw|].
  destruct l as [|v' l].
  - apply list_elem_of_singleton in Hw as ->. exact Hj.
  - rewrite join_cons in Hj by done. rewrite !mem_char_app, !orb_false_iff in Hj.
    destruct Hj as (Hv & _ & Hj). apply elem_of_cons in Hw as [->|Hw]; auto.
Qed.

Lemma recipient_list_ok s : Forall recipient (recipient_list s).
Proof.
  apply list.Forall_forall. intros w [Hne Hw]%list_elem_of_filter.
  apply list_elem_of_fmap in Hw as (v & -> & Hv).
  pose proof (split_lines_commas_atoms s) as Hs. rewrite list.Forall_forall in Hs.
  destruct (Hs _ Hv) as [H1 H2]. split; [split; [done|]; split; [apply trim_idemp|]|]; by apply trim_mem.
Qed.

Lemma recipient_list_join l : Forall recipient l -> recipient_list (join (String newline "") l) = l.
Proof.
  intros Hl. destruct l as [|w l]; [reflexivity|]. unfold recipient_list, split_lines_commas.
  rewrite split_join; [|done|eapply Forall_impl; [exact Hl|]; by intros ? [(?&?&?) ?]].
  assert (Hc : concat (split ","%char <$> w :: l) = w :: l).
  { clear - Hl. induction Hl as [|v k [_ Hv] Hk IH]; [done|]. rewrite fmap_cons. cbn [concat].
    by rewrite split_atom, IH. }
  rewrite Hc, fmap_fixed, filter_all; [done|..];
    (eapply Forall_impl; [exact Hl|]); by intros ? [(?&?&?) ?].
Qed.
(** *** Well-formed editors *)

Definition well_formed (s : editor) : Prop :=
  frequency s ∈ FREQUENCIES /\ (forall w, weekday s = Some w -> w ∈ WEEKDAYS) /\
  (forall k, k ∈ Sections.REPORT_SECTION_KEYS -> is_Some (sections s !! k)).

Lemma seed_total m k : k ∈ Sections.REPORT_SECTION_KEYS -> is_Some (Sections.seedSectionState m !! k).
Proof. intros H. unfold Sections.seedSectionState. rewrite Sections.foldl_insert_lookup, decide_True by done. by eexists. Qed.

Lemma weekday_string n : (0 <= n <= 6)%Z -> String_ n ∈ WEEKDAYS /\ Number (String_ n) = Some n.
Proof.
  intros Hn. assert (n = 0 \/ n = 1 \/ n = 2 \/ n = 3 \/ n = 4 \/ n = 5 \/ n = 6)%Z as H by lia.
  destruct H as [-> | [-> | [-> | [-> | [-> | [-> | ->]]]]]];
    (split; [apply (bool_decide_unpack _); vm_compute; exact I|vm_compute; reflexivity]).
Qed.

Lemma weekday_number w : w ∈ WEEKDAYS -> exists n, (0 <= n <= 6)%Z /\ Number w = Some n.
Proof.
  unfold WEEKDAYS. intros H.
  repeat (apply elem_of_cons in H as [->|H]; [eexists; split; [|vm_compute; reflexivity]; lia|]).
  by apply not_elem_of_nil in H.
Qed.

(** A frequency of the backend, with a weekday from 0 to 6 exactly when weekly. *)
Definition valid (x : ScheduleOut) : Prop :=
  s_frequency x ∈ FREQUENCIES /\ (s_frequency x = "weekly" <-> is_Some (s_weekday x)) /\
  (forall n, s_weekday x = Some n -> (0 <= n <= 6)%Z).

Lemma open_well_formed d existing : (forall x, existing = Some x -> valid x) -> well_formed (open d existing).
Proof.
  intros Hv. split_and!; [| |intros; by apply seed_total].
  - destruct existing as [x|]; simpl; [by apply Hv|left].
  - intros w Hw. destruct existing as [x|]; simpl in Hw; [|injection Hw as <-; left].
    destruct (s_weekday x) as [n|] eqn:E; simpl in Hw; injection Hw as <-; [|left].
    apply weekday_string, (Hv x eq_refl), E.
Qed.

Lemma edit_well_formed d e s : offered d e s = true -> well_formed s -> well_formed (apply_edit e s).
Proof.
  intros Ho (Hf & Hw & Hs). destruct s as [en fr wd ho re cu se], e as [b|v|v|v|t|b|k b]; simpl in *;
    split_and!; simpl; try done.
  - destruct v as [f|]; simpl; [by apply bool_decide_eq_true in Ho|left].
  - intros w ->. apply andb_true_iff in Ho as [_ Ho]. by apply bool_decide_eq_true in Ho.
  - intros k' Hk'. destruct (decide (k = k')) as [->|Hne];
      [rewrite lookup_insert_eq; by eexists|rewrite lookup_insert_ne by done; by apply Hs].
Qed.

(** The editor after a history of edits whose controls were there. *)
Fixpoint edits (d : option string) (es : list edit) (s : editor) : option editor :=
  match es with
  | [] => Some s
  | e :: es => if offered d e s then edits d es (apply_edit e s) else None
  end.

Lemma edits_well_formed d es s s' : edits d es s = Some s' -> well_formed s -> well_formed s'.
Proof.
  revert s. induction es as [|e es IH]; intros s; simpl; [by intros [= <-]|].
  destruct (offered d e s) eqn:Ho; [|done]. intros H Hs. apply (IH _ H). by eapply edit_well_formed.
Qed.

(** *** The backend ([backend/app/api/report_schedules.py],
    [backend/app/services/report_schedule.py], [backend/app/schemas/report_schedule.py]) *)
Definition MAX_RECIPIENTS : nat := 50.
Definition SECTION_KEYS : list string :=
  ["summary"; "health"; "alerts_wan"; "firmware_config"; "attacks"; "attacker_countries"; "failed_logins";
   "firewall_blocks"; "reliability"; "config_changes"; "web"; "data"; "status"; "applications"; "web_filter"].

(** The map of a section list as it arrives: an [undefined] value is not sent.
    Unknown keys are dropped. *)
Definition stored_sections (l : list (string * option bool)) : gmap string bool :=
  foldr (fun '(k, v) m => match v with Some b => <[k := b]> m | None => m end) ∅ l.
Definition known_sections (m : gmap string bool) : gmap string bool := filter (fun kv => kv.1 ∈ SECTION_KEYS) m.

Section backend.
(** [strip] is Python's; [short] tells the entries of at most 320 characters;
    [validate] is the normalised address of [email_validator], in lower case; [permits] the checks on the device and on the retention,
    which see the device, the frequency and the sections; [i] the id of the row. *)
Context (strip : string -> string) (short : string -> bool) (validate : string -> option string).
Context (permits : option string -> string -> option (gmap string bool) -> bool) (i : string).

Fixpoint normalize_from (seen raw : list string) : option (list string) :=
  match raw with
  | [] => Some seen
  | entry :: raw =>
      let candidate := strip entry in
      if candidate === "" then normalize_from seen raw
      else n ← validate candidate; normalize_from (if bool_decide (n ∈ seen) then seen else seen ++ [n]) raw
  end.
Definition normalize_recipients (raw : list string) : option (list string) :=
  seen ← normalize_from [] raw; if length seen <=? MAX_RECIPIENTS then Some seen else None.

(** [None] is an error status. *)
Definition upsert_schedule (b : ScheduleIn) : option ScheduleOut :=
  let sections := known_sections <$> (stored_sections <$> b_sections b) in
  h ← b_hour b;
  if negb ((0 <=? h)%Z && (h <=? 23)%Z) then None
  else if negb (from_option (fun n => (0 <=? n)%Z && (n <=? 6)%Z) true (b_weekday b)) then None
  else if negb ((length (b_recipients b) <=? MAX_RECIPIENTS) && forallb short (b_recipients b)) then None
  else if negb (bool_decide (b_frequency b ∈ FREQUENCIES)) then None
  else if (b_frequency b === "weekly") && bool_decide (b_weekday b = None) then None
  else if negb (b_frequency b === "weekly") && negb (bool_decide (b_weekday b = None)) then None
  else if negb (permits (b_device_id b) (b_frequency b) sections) then None
  else r ← normalize_recipients (b_recipients b);
       Some (MkSchedule i (b_device_id b) (b_enabled b) (b_frequency b) (b_weekday b) h r sections).
End backend.

Lemma stored_lookup (m : gmap string bool) k v :
  k ∈ Sections.REPORT_SECTION_KEYS -> m !! k = Some v -> stored_sections (Sections.buildSectionsMap m) !! k = Some v.
Proof.
  intros Hk Hv. unfold Sections.buildSectionsMap. revert Hk. generalize Sections.REPORT_SECTION_KEYS. intros l.
  induction l as [|k' l IH]; intros Hk; [by apply not_elem_of_nil in Hk|].
  rewrite fmap_cons. unfold stored_sections. cbn [foldr].
  fold (stored_sections ((fun key => (key, m !! key)) <$> l)).
  destruct (decide (k = k')) as [->|Hne]; [rewrite Hv; apply lookup_insert_eq|].
  apply elem_of_cons in Hk as [?|Hk]; [done|].
  destruct (m !! k'); [rewrite lookup_insert_ne by done|]; by apply IH.
Qed.

Lemma sections_again (m : gmap string bool) :
  (forall k, k ∈ Sections.REPORT_SECTION_KEYS -> is_Some (m !! k)) ->
  Sections.buildSectionsMap (Sections.seedSectionState (Some (stored_sections (Sections.buildSectionsMap m)))) =
  Sections.buildSectionsMap m.
Proof.
  intros Ht. unfold Sections.buildSectionsMap at 1 3.
  apply list_fmap_ext. intros i k Hk. apply list_elem_of_lookup_2 in Hk. f_equal.
  unfold Sections.seedSectionState. rewrite Sections.foldl_insert_lookup, decide_True by done.
  destruct (Ht k Hk) as [v Hv]. cbn [from_option Datatypes.id]. by rewrite (stored_lookup m k v Hk Hv), Hv.
Qed.

(** The sections of a stored schedule as the editor sends them back: every
    key of the console, ticked where nothing is stored. *)
Definition completed (m : gmap string bool) : list (string * option bool) :=
  (fun k => (k, Some ((m !! k) orelse true))) <$> Sections.REPORT_SECTION_KEYS.

Lemma completed_again (m : gmap string bool) : Sections.buildSectionsMap (Sections.seedSectionState (Some m)) = completed m.
Proof.
  unfold Sections.buildSectionsMap, completed. apply list_fmap_ext. intros j k Hk. f_equal.
  apply list_elem_of_lookup_2 in Hk. unfold Sections.seedSectionState.
  by rewrite Sections.foldl_insert_lookup, decide_True.
Qed.

Lemma console_keys_known k : k ∈ Sections.REPORT_SECTION_KEYS -> k ∈ SECTION_KEYS.
Proof. revert k. apply list.Forall_forall. apply (bool_decide_unpack _). vm_compute. exact I. Qed.

Lemma stored_sections_dom (m : gmap string bool) k v :
  stored_sections (Sections.buildSectionsMap m) !! k = Some v -> k ∈ Sections.REPORT_SECTION_KEYS.
Proof.
  unfold Sections.buildSectionsMap. generalize Sections.REPORT_SECTION_KEYS. intros l.
  induction l as [|k' l IH]; [done|]. rewrite fmap_cons. unfold stored_sections. cbn [foldr].
  fold (stored_sections ((fun key => (key, m !! key)) <$> l)).
  destruct (m !! k'); [|intros H; right; by apply IH].
  destruct (decide (k = k')) as [->|Hne]; [left|]. rewrite lookup_insert_ne by done. intros H. right. by apply IH.
Qed.

(** The backend knows every section the console sends. *)
Lemma known_stored (m : gmap string bool) :
  known_sections (stored_sections (Sections.buildSectionsMap m)) = stored_sections (Sections.buildSectionsMap m).
Proof.
  apply map_filter_id. intros k v Hk. by eapply console_keys_known, stored_sections_dom.
Qed.

Section roundtrip.
Context (strip : string -> string) (short : string -> bool) (validate : string -> option string).
Context (permits : option string -> string -> option (gmap string bool) -> bool) (i : string).

(** An address in normal form: clean, short, and its own normal form. *)
Definition normal (n : string) : Prop := recipient n /\ short n = true /\ strip n = n /\ validate n = Some n.
(** What [email_validator] documents of its answer. *)
Hypothesis validate_normal : forall w n, validate w = Some n -> normal n.

Local Notation normalize_recipients := (normalize_recipients strip validate).
Local Notation upsert_schedule := (upsert_schedule strip short validate permits i).

Lemma normalize_from_ok seen raw l :
  normalize_from strip validate seen raw = Some l -> NoDup seen -> Forall normal seen -> NoDup l /\ Forall normal l.
Proof using validate_normal.
  revert seen. induction raw as [|w raw IH]; intros seen H Hn Hs; cbn [normalize_from] in H; [by simplify_eq|].
  case_bool_decide; [by apply (IH seen)|]. destruct (validate (strip w)) as [n|] eqn:Ev; [|done]. simpl in H.
  case_bool_decide as Hin; [by apply (IH seen)|]. apply (IH _ H).
  - apply NoDup_app. split_and!; [done|set_solver|]. by apply NoDup_singleton.
  - apply Forall_app. split; [done|]. apply Forall_singleton. by eapply validate_normal.
Qed.

Lemma normalize_from_id seen l :
  Forall normal l -> NoDup (seen ++ l) -> normalize_from strip validate seen l = Some (seen ++ l).
Proof using Type.
  intros Hl. revert seen. induction Hl as [|n l (Hr & _ & Hst & Hv) Hl IH]; intros seen Hnd; cbn [normalize_from].
  - by rewrite app_nil_r.
  - rewrite Hst, bool_decide_false, Hv by apply Hr. simpl.
    assert (Hin : n ∉ seen) by (apply NoDup_app in Hnd as (_ & Hd & _); intros Hin; apply (Hd n Hin); left).
    rewrite bool_decide_false by done. change (n :: l) with ([n] ++ l) in *. rewrite app_assoc in *. by apply IH.
Qed.

Lemma normalize_ok raw l :
  normalize_recipients raw = Some l -> NoDup l /\ Forall normal l /\ length l <= MAX_RECIPIENTS.
Proof using validate_normal.
  unfold Editor.normalize_recipients. destruct (normalize_from strip validate [] raw) as [seen|] eqn:E; [|done].
  simpl. destruct (Nat.leb_spec (length seen) MAX_RECIPIENTS); [|done]. intros [= <-].
  destruct (normalize_from_ok [] raw seen E); [constructor..|]. done.
Qed.

Lemma normalize_id l :
  NoDup l -> Forall normal l -> length l <= MAX_RECIPIENTS -> normalize_recipients l = Some l.
Proof using Type.
  intros Hn Hl Hlen. unfold Editor.normalize_recipients. rewrite normalize_from_id by done. simpl.
  by rewrite (proj2 (Nat.leb_le _ _) Hlen).
Qed.

(** What the backend makes of a body whose frequency and weekday fit. *)
Lemma upsert_fits b :
  b_frequency b ∈ FREQUENCIES ->
  match b_weekday b with Some n => b_frequency b = "weekly" /\ (0 <= n <= 6)%Z | None => b_frequency b <> "weekly" end ->
  upsert_schedule b =
  let sections := known_sections <$> (stored_sections <$> b_sections b) in
  h ← b_hour b;
  if ((0 <=? h)%Z && (h <=? 23)%Z) && ((length (b_recipients b) <=? MAX_RECIPIENTS) && forallb short (b_recipients b))
     && permits (b_device_id b) (b_frequency b) sections
  then r ← normalize_recipients (b_recipients b);
       Some (MkSchedule i (b_device_id b) (b_enabled b) (b_frequency b) (b_weekday b) h r sections)
  else None.
Proof using Type.
  intros Hf Hw. unfold Editor.upsert_schedule. cbn zeta. destruct (b_hour b) as [h|]; [|done]. simpl.
  destruct ((0 <=? h)%Z && (h <=? 23)%Z); [|done]. rewrite (bool_decide_true (_ ∈ FREQUENCIES)) by done.
  destruct (b_weekday b) as [n|]; simpl.
  - destruct Hw as [-> Hn]. rewrite (proj2 (Z.leb_le 0 n)), (proj2 (Z.leb_le n 6)) by lia. simpl.
    destruct ((length (b_recipients b) <=? MAX_RECIPIENTS) && _); [|done]. simpl. by destruct (permits _ _ _).
  - rewrite bool_decide_false by done. simpl.
    destruct ((length (b_recipients b) <=? MAX_RECIPIENTS) && _); [|done]. simpl. by destruct (permits _ _ _).
Qed.

(** When it stores one. *)
Lemma upsert_stores b :
  b_frequency b ∈ FREQUENCIES ->
  match b_weekday b with Some n => b_frequency b = "weekly" /\ (0 <= n <= 6)%Z | None => b_frequency b <> "weekly" end ->
  is_Some (upsert_schedule b) <->
  (exists h, b_hour b = Some h /\ (0 <= h <= 23)%Z) /\ length (b_recipients b) <= MAX_RECIPIENTS /\
  forallb short (b_recipients b) = true /\ is_Some (normalize_recipients (b_recipients b)) /\
  permits (b_device_id b) (b_frequency b) (known_sections <$> (stored_sections <$> b_sections b)) = true.
Proof using Type.
  intros Hf Hw. rewrite upsert_fits by done. cbn zeta. destruct (b_hour b) as [h|]; cbn [mbind option_bind];
    [|split; [by intros []|by intros [(? & ? & _) _]]].
  split.
  - intros Hs. destruct (Z.leb_spec 0 h) as [H0|]; [|by destruct Hs]. destruct (Z.leb_spec h 23) as [H1|]; [|by destruct Hs].
    destruct (Nat.leb_spec (length (b_recipients b)) MAX_RECIPIENTS) as [Hl|]; [|by destruct Hs].
    destruct (forallb short _); [|by destruct Hs]. cbn [andb] in Hs. destruct (permits _ _ _); [|by destruct Hs]. destruct (normalize_recipients _); [|by destruct Hs].
    split; [by exists h|]. split; [done|]. split; [done|]. split; [by eexists|done].
  - intros ((h' & [= <-] & Hh) & Hl & Hsh & [r Hr] & Hp). rewrite (proj2 (Z.leb_le 0 h)), (proj2 (Z.leb_le h 23)) by lia.
    rewrite (proj2 (Nat.leb_le _ _) Hl), Hsh, Hp, Hr. by eexists.
Qed.

(** Schedules the backend hands out. *)
Definition held (x : ScheduleOut) : Prop :=
  valid x /\ (0 <= s_hour x <= 23)%Z /\
  NoDup (s_recipients x) /\ Forall normal (s_recipients x) /\ length (s_recipients x) <= MAX_RECIPIENTS.

(** The editor on a schedule with clean recipients sends it back. *)
Lemma untouched d x :
  valid x -> Forall recipient (s_recipients x) ->
  save_body d (open d (Some x)) =
  MkBody d (s_enabled x) (s_frequency x) (s_weekday x) (Some (s_hour x)) (s_recipients x)
    (if bool_decide (d <> None) then completed <$> s_sections x else None).
Proof using Type.
  intros (_ & Hw & Hr) Hrec. unfold save_body, open. cbn [frequency weekday hour recipients customizeSections sections enabled fmap option_fmap option_map from_option Datatypes.id mbind option_bind].
  rewrite recipient_list_join by done. f_equal.
  - destruct (s_weekday x) as [n|] eqn:E; cbn.
    + rewrite bool_decide_true by (apply Hw; by eexists). apply weekday_string. by apply Hr.
    + rewrite bool_decide_false; [done|]. intros Hk. by destruct (proj1 Hw Hk).
  - destruct (bool_decide (d <> None)); [|done]. destruct (s_sections x) as [m|]; [|done]. exact (f_equal Some (completed_again m)).
Qed.

Lemma completed_stored (m : gmap string bool) :
  (forall k, k ∈ Sections.REPORT_SECTION_KEYS -> is_Some (m !! k)) ->
  completed (stored_sections (Sections.buildSectionsMap m)) = Sections.buildSectionsMap m.
Proof using Type. intros Hm. by rewrite <- completed_again, sections_again. Qed.

(** What the editor saves fits the backend's frequencies and weekdays. *)
Lemma saved_fits d s :
  well_formed s ->
  b_frequency (save_body d s) ∈ FREQUENCIES /\
  match b_weekday (save_body d s) with
  | Some n => b_frequency (save_body d s) = "weekly" /\ (0 <= n <= 6)%Z
  | None => b_frequency (save_body d s) <> "weekly"
  end.
Proof using Type.
  intros (Hf & Hw & _). split; [exact Hf|]. cbn.
  assert (Hwd : exists n, (0 <= n <= 6)%Z /\ Number (weekday s orelse "0") = Some n).
  { destruct (weekday s) as [w|] eqn:Ew; [by apply weekday_number, Hw|]. exists 0%Z. split; [lia|reflexivity]. }
  destruct Hwd as (n & Hn & En). case_bool_decide as Hk; [by rewrite En|done].
Qed.

(** What is stored of a saved editor, and what the editor on it saves. *)
Lemma stored_again d s x :
  well_formed s -> upsert_schedule (save_body d s) = Some x ->
  held x /\ normalize_recipients (b_recipients (save_body d s)) = Some (s_recipients x) /\
  let b := save_body d s in
  let b' := save_body d (open d (Some x)) in
  b' = MkBody d (b_enabled b) (b_frequency b) (b_weekday b) (b_hour b) (s_recipients x) (b_sections b) /\
  upsert_schedule b' = Some x.
Proof using validate_normal.
  intros Hwf H. destruct (saved_fits d s Hwf) as [Hf Hw]. rewrite upsert_fits in H by done. cbn zeta in H.
  set (b := save_body d s) in *. destruct (b_hour b) as [h|] eqn:Hh; [|done]. cbn [mbind option_bind] in H.
  destruct ((0 <=? h)%Z && (h <=? 23)%Z) eqn:Eh; [|done]. apply andb_prop in Eh as [E1 E2].
  apply Z.leb_le in E1, E2. destruct ((length (b_recipients b) <=? MAX_RECIPIENTS) && _); [|done].
  destruct (permits _ _ _) eqn:Hp; [|done]. cbn [andb] in H.
  destruct (normalize_recipients (b_recipients b)) as [r|] eqn:Er; [|done].
  cbn [mbind option_bind] in H. apply (inj Some) in H as <-.
  destruct (normalize_ok _ _ Er) as (Hnd & Hno & Hlen). cbn [s_recipients].
  assert (Hv : valid (MkSchedule i (b_device_id b) (b_enabled b) (b_frequency b) (b_weekday b) h r
                        (known_sections <$> (stored_sections <$> b_sections b)))).
  { split_and!; cbn [s_frequency s_weekday]; [exact Hf| |].
    - destruct (b_weekday b); [split; [intros _; by eexists|intros _; exact (proj1 Hw)]|split; [intros Hk; by destruct (Hw Hk)|by intros []]].
    - intros n Hn. rewrite Hn in Hw. by apply Hw. }
  assert (Hrec : Forall recipient r) by (eapply Forall_impl; [exact Hno|]; by intros ? [? _]).
  assert (Hsh : forallb short r = true).
  { apply forallb_forall. intros n Hn. apply list_elem_of_In in Hn. rewrite list.Forall_forall in Hno. by apply Hno. }
  assert (Hd : b_device_id b = d) by done.
  assert (Hsec : (if bool_decide (d <> None) then completed <$> (known_sections <$> (stored_sections <$> b_sections b)) else None)
                 = b_sections b).
  { subst b. unfold save_body. cbn [b_sections]. destruct (bool_decide (d <> None)); [|done]. cbn [andb].
    destruct (customizeSections s); [|done]. refine (f_equal Some _).
    rewrite known_stored. apply completed_stored, Hwf. }
  clearbody b. split; [exact (conj Hv (conj (conj E1 E2) (conj Hnd (conj Hno Hlen))))|]. split; [done|]. cbn zeta. rewrite untouched by done.
  cbn [s_enabled s_frequency s_weekday s_hour s_recipients s_sections]. rewrite Hsec, <- Hh. split; [done|].
  rewrite upsert_fits by done. cbn [b_hour b_device_id b_frequency b_sections b_recipients b_weekday b_enabled].
  rewrite Hh. cbn [mbind option_bind].
  rewrite (proj2 (Z.leb_le 0 h)), (proj2 (Z.leb_le h 23)), (proj2 (Nat.leb_le _ _) Hlen), Hsh, <- Hd, Hp by done.
  cbn [andb]. by rewrite normalize_id.
Qed.
End roundtrip.


(** Two addresses that differ in case are one recipient. *)
Definition demo_validate (w : string) : option string :=
  if bool_decide (w ∈ ["A@x.io"; "a@x.io"]) then Some "a@x.io" else if w === "b@x.io" then Some "b@x.io" else None.


(** Clearing the hour stores midnight, not the hour there was. *)
Lemma cleared_hour s : frequency s <> "on_demand" -> hour (apply_edit (SetHour (HText "")) s) = Some 0%Z.
Proof. by destruct s. Qed.
End Editor.

(** ** [ReportSchedulePage] *)
Module Page.
(** The React key under which an editor is mounted: a new key means a new editor. *)
Definition editor_key (deviceId : option string) (existing : option ScheduleOut) : string :=
  match existing with
  | Some x => id x
  | None => match deviceId with None => "fleet-new" | Some d => "device-" +:+ d +:+ "-new" end
  end.
Definition fleet (schedules : list ScheduleOut) : option ScheduleOut :=
  snd <$> list_find (fun s => device_id s = None) schedules.
Definition existing_for (schedules : list ScheduleOut) (d : string) : option ScheduleOut :=
  snd <$> list_find (fun s => device_id s = Some d) schedules.

(** Nothing for others than tenant administrators; editors only once the
    schedules are there. *)
Definition ReportSchedulePage (isTenantAdmin : bool) (schedules : option (list ScheduleOut)) (devices : list string) :
    option (list (string * option string * option ScheduleOut)) :=
  if isTenantAdmin then
    Some (match schedules with
          | Some l => (editor_key None (fleet l), None, fleet l) ::
                      ((fun d => (editor_key (Some d) (existing_for l d), Some d, existing_for l d)) <$> devices)
          | None => []
          end)
  else None.

(** Each editor edits the schedule of its own device. *)
Lemma editors_own isTenantAdmin schedules devices l k d x :
  ReportSchedulePage isTenantAdmin schedules devices = Some l -> (k, d, Some x) ∈ l -> device_id x = d /\ k = id x.
Proof.
  unfold ReportSchedulePage. destruct isTenantAdmin; [|done]. intros [= <-] Hin.
  destruct schedules as [ss|]; [|by apply not_elem_of_nil in Hin].
  assert (Hf : forall P `{!forall x, Decision (P x)}, snd <$> list_find P ss = Some x -> P x).
  { intros P HP Hfind. destruct (list_find P ss) as [[i y]|] eqn:E; simplify_eq/=. by apply list_find_Some in E as (_ & ? & _). }
  apply elem_of_cons in Hin as [[= -> -> Hx]|Hin].
  - symmetry in Hx. split; [exact (Hf _ _ Hx)|by rewrite Hx].
  - apply list_elem_of_fmap in Hin as (d' & [= -> -> Hx] & _). symmetry in Hx. split; [exact (Hf _ _ Hx)|by rewrite Hx].
Qed.

(** Two tenants without a fleet schedule share the editor of a new one. *)
Lemma fleet_new_shared sA sB : fleet sA = None -> fleet sB = None -> editor_key None (fleet sA) = editor_key None (fleet sB).
Proof. by intros -> ->. Qed.
End Page.

(** ** [pages/ReportsPage.tsx] *)
Module ReportsPage.
Section reports.
Context (offset : Z -> Z) (base : string) (activeId : option string) (token : string).

(** [handleGenerate]: both instants are converted before anything is sent; an
    invalid text throws inside the [try] and shows the error. *)
Definition handleGenerate (from to : option string) : option (outcome msg request) :=
  if negb (present from) || negb (present to) then None
  else match picker_iso offset (from orelse ""), picker_iso offset (to orelse "") with
       | Some f, Some t => Some (Returned (m_request (Reports.useGenerateReport base activeId token f t)))
       | _, _ => Some (Threw (Tr ["errors"; "reportGenerate"]))
       end.
Definition handleDownload (reportId : string) : request := m_request (Reports.useDownloadReport base activeId reportId).
End reports.

(** The spinner of a row. *)
Definition downloading (isPending : bool) (pendingDownloadId : option string) (rowId : string) : bool :=
  isPending && bool_decide (pendingDownloadId = Some rowId).
Definition kind_badge (kind : string) : string * msg :=
  if kind === "on_demand" then ("blue", Tr ["reports"; "page"; "kindOnDemand"])
  else ("green", Tr ["reports"; "page"; "kindScheduled"]).

Inductive view := PageLoader | PageError | NoReports | Table (rows : list json).
Definition reports_view (isLoading isError : bool) (d : option (list json)) : view :=
  if isLoading then PageLoader else if isError then PageError
  else match d orelse [] with [] => NoReports | l => Table l end.
(** The card that generates is for operators. *)
Definition generate_card (perms : Permissions.Permissions) : bool := Permissions.isOperator perms.

(** A report that is asked for covers the two instants picked. *)
Lemma generate_sends offset base activeId token from to rq :
  handleGenerate offset base activeId token from to = Some (Returned rq) ->
  exists f t iso_f iso_t, from = Some f /\ to = Some t /\
    picker_iso offset f = Some iso_f /\ picker_iso offset t = Some iso_t /\
    rq_body rq = JsonBody (JObj [("from", JStr iso_f); ("to", JStr iso_t)]).
Proof.
  unfold handleGenerate. destruct from as [f|], to as [t|]; try done; simpl;
    try (by destruct (negb (bool_decide _))).
  destruct (negb (negb (bool_decide (f = ""))) || _); [done|].
  destruct (picker_iso offset f) as [x|] eqn:Ef, (picker_iso offset t) as [y|] eqn:Et; try done.
  intros [= <-]. exists f, t, x, y. done.
Qed.
End ReportsPage.
