(* ===== verification/Views.v ===== *)
(** * Pages and cards that show queries

    [pages/AlertsPage.tsx], [pages/DevicesPage.tsx], [pages/OverviewPage.tsx],
    [pages/DeviceDetailPage.tsx], [pages/PerimeterPage.tsx],
    [perimeter/PerimeterCard.tsx], [reliability/*.tsx], [configaudit/*.tsx],
    [monitoring/HealthSummaryCards.tsx], [monitoring/DeviceHealthSection.tsx],
    [config/ConfigTab.tsx], [config/CapabilitiesPanel.tsx],
    [overview/AttackerCountriesCard.tsx], [components/DirectionSync.tsx] and
    [components/LanguageSwitcher.tsx]: what they show of the queries they hold,
    block by block and cell by cell.  A text of the dictionary is named by its
    path; [fmt] is the browser's [toLocaleString] of a date. *)
From stdpp Require Import pretty.
From S2P Require Import Prelude JsString Json Http QueryClient Hooks TenantHooks Storage Time I18n Formats.
From Stdlib Require Import ZArith Ascii.

(** ** What [useQuery] returns to a component *)
Module Remote.
(** [Failed] keeps the data of an earlier success, as react-query does. *)
Inductive remote (A : Type) :=
| Disabled
| Fetching
| Loaded (a : A)
| Failed (stale : option A).
Arguments Disabled {A}.
Arguments Fetching {A}.
Arguments Loaded {A} a.
Arguments Failed {A} stale.

Definition isLoading {A} (r : remote A) : bool := match r with Fetching => true | _ => false end.
Definition isError {A} (r : remote A) : bool := match r with Failed _ => true | _ => false end.
Definition result {A} (r : remote A) : option A :=
  match r with Loaded a => Some a | Failed s => s | _ => None end.

(** The same query, its answer seen through [f]. *)
Definition seen_as {A B} (f : A -> B) (r : remote A) : remote B :=
  match r with
  | Disabled => Disabled | Fetching => Fetching
  | Loaded a => Loaded (f a) | Failed s => Failed (f <$> s)
  end.

Definition path := list string.
Inductive block (A : Type) :=
| Loader
| ErrorText (t : path)
| EmptyText (t : path)
| Rows (l : list A).
Arguments Loader {A}.
Arguments ErrorText {A} t.
Arguments EmptyText {A} t.
Arguments Rows {A} l.

(** The idiom [isLoading && ...], [error && ...], [data && data.length === 0 &&
    ...], [data && data.length > 0 && ...]. *)
Definition listing {A} (failed empty : path) (r : remote (list A)) : list (block A) :=
  (if isLoading r then [Loader] else []) ++
  (if isError r then [ErrorText failed] else []) ++
  match result r with Some [] => [EmptyText empty] | Some l => [Rows l] | None => [] end.

(** A query that runs always shows something; its rows are shown exactly when
    there are some, its error whenever there is one, and the text for an empty
    list never stands in for a failure that left no data. *)
Lemma listing_shows {A} failed empty (r : remote (list A)) :
  (r <> Disabled -> listing failed empty r <> []) /\
  (forall l, Rows l ∈ listing failed empty r <-> result r = Some l /\ l <> []) /\
  (ErrorText failed ∈ listing failed empty r <-> isError r = true) /\
  (EmptyText empty ∈ listing failed empty r <-> result r = Some []).
Proof.
  unfold listing. destruct r as [| |[|a l]|[[|a l]|]]; cbn [app isLoading isError result];
    repeat setoid_rewrite elem_of_cons; repeat setoid_rewrite elem_of_nil; split_and!; naive_solver.
Qed.
End Remote.

(** ** [monitoring/HealthSummaryCards.tsx] *)
Module Health.
Import Locale.
Record FleetHealth := MkHealth {
  total_devices : Z; by_status : list (string * Z); active_alerts : Z }.

Definition statusColor (status : string) : string :=
  let s := toLowerCase status in
  if contains "reach" s && negb (contains "un" s) then "signal"
  else if contains "unreach" s || contains "error" s || contains "auth" s then "red"
  else if contains "unverified" s || contains "pending" s then "amber"
  else "gray".

Record chip := Chip { text : string; color : string }.
Inductive card :=
| Tile (label : Remote.path) (value : Z) (accent : option string) (chips : list chip)
| FleetCard (lines : list string).

Definition alertAccent (h : FleetHealth) : string := if (0 <? active_alerts h)%Z then "red" else "signal".
Definition HealthSummaryCards (h : FleetHealth) : list card :=
  [ Tile ["health"; "totalDevices"] (total_devices h) None
      ((fun sc => Chip (sc.1 +:+ " · " +:+ pretty sc.2) (statusColor sc.1)) <$> by_status h);
    Tile ["health"; "activeAlerts"] (active_alerts h) (Some (alertAccent h))
      [Chip (if (0 <? active_alerts h)%Z then "attention" else "all clear") (alertAccent h)];
    FleetCard [ pretty (total_devices h) +:+ " device" +:+
                  (if (total_devices h =? 1)%Z then "" else "s") +:+ " under management";
                pretty (Z.of_nat (length (by_status h))) +:+ " distinct states" ] ].

(** The statuses the backend stores, and those its errors suggest. *)
Example status_colors :
  statusColor <$> ["reachable"; "Reachable"; "unreachable"; "unverified"; "auth_error"; "pending"; "retired"] =
  ["signal"; "signal"; "red"; "amber"; "red"; "amber"; "gray"].
Proof. reflexivity. Qed.

(** The alert tile is green exactly without active alerts. *)
Lemma alert_tile h : alertAccent h = "signal" <-> (active_alerts h <= 0)%Z.
Proof. unfold alertAccent. destruct (Z.ltb_spec 0 (active_alerts h)); split; intros; (done || lia). Qed.
End Health.

(** ** [monitoring/DeviceHealthSection.tsx] *)
Module DeviceHealth.
Inductive scale := Unit (u : string) | Bytes | Plain.   (* [unit], [valueFormatter={humanBytes}] *)
Record chart := Chart { metric : string; title : Remote.path; scale_ : scale; labelled : bool }.
Definition charts : list chart :=
  let t k := ["deviceHealth"; k] in
  [ Chart "cpu.pct" (t "cpu") (Unit "%") false;
    Chart "mem.pct" (t "memory") (Unit "%") false;
    Chart "disk.pct" (t "disk") (Unit "%") false;
    Chart "iface.bytes_in" (t "trafficIn") Bytes true;
    Chart "iface.bytes_out" (t "trafficOut") Bytes true;
    Chart "gateway.rtt_ms" (t "gatewayRtt") (Unit "ms") true;
    Chart "gateway.loss_pct" (t "gatewayLoss") (Unit "%") true;
    Chart "vpn.up" (t "vpnUp") Plain true ].

(** Its state is the range, ["24h"] at first. *)
Definition initial : Range.range := Range.R24h.
Definition ranges : list Range.range := [Range.R1h; Range.R24h; Range.R7d].
Definition setRange (r : Range.range) (_ : Range.range) : Range.range := r.
Definition chart_query (activeId deviceId : option string) (r : Range.range) (now : Z) (c : chart) : query :=
  Monitoring.useDeviceMetrics activeId deviceId (metric c) r now.
(** [(q.data?.points ?? [])] *)
Definition points (d : option json) : list json :=
  match d ≫= field "points" with Some (JArr l) => l | _ => [] end.
(** [useMetricLabels(deviceId).data ?? {}], given to the labelled charts only. *)
Definition labelMap (d : option json) (c : chart) : option json :=
  if labelled c then Some (json_or d (JObj [])) else None.

(** Eight charts, eight cache entries, whatever ranges were shown before: no
    chart draws another's points, and none those of another range. *)
Lemma charts_apart t d r r' now now' c c' :
  c ∈ charts -> c' ∈ charts ->
  q_key (chart_query t d r now c) = q_key (chart_query t d r' now' c') -> c = c' /\ r = r'.
Proof.
  intros Hc Hc' [= Hm Hr].
  split; [|by destruct r, r'].
  clear Hr. unfold charts in Hc, Hc'.
  repeat (apply elem_of_cons in Hc as [-> |Hc]); try (by apply not_elem_of_nil in Hc);
    repeat (apply elem_of_cons in Hc' as [-> |Hc']); try (by apply not_elem_of_nil in Hc'); try done;
    discriminate Hm.
Qed.
End DeviceHealth.

(** ** [reliability/ReliabilityTab.tsx], [configaudit/ConfigAuditTab.tsx] and their cards *)
Module Events.
Import Remote.
Record EventOut := MkEvent {
  time : string; device_id : string; category : string; name : string;
  severity : string; action : string; src_ip : string; attributes : option json }.
Record TopRow := MkTop { value : string; count : Z }.

Definition severityColor (s : string) : string :=
  if s === "high" then "red" else if s === "medium" then "yellow" else "gray".
(** [labels] is the group [tr.severities], [tr.categories] of the dictionary. *)
Definition severityLabel (s : string) (labels : list (string * string)) : string := assoc s labels orelse s.
Definition categoryLabel (c : string) (labels : list (string * string)) : string := assoc c labels orelse c.
Definition attr (e : EventOut) (key : string) : string :=
  match attributes e ≫= field key with Some (JStr s) => s | _ => "" end.

Section events.
Context (fmt : string -> string).

Inductive cell := Cell (s : string) | Badge (color label : string).
Definition reliability_row (severities categories : list (string * string)) (e : EventOut) : list cell :=
  [ Cell (fmt (time e)); Cell (categoryLabel (category e) categories); Cell (name e);
    Badge (severityColor (severity e)) (severityLabel (severity e) severities);
    Cell (attr e "process"); Cell (attr e "message") ].

Definition channel_cells (direct : string) (channels : list (string * string)) (c : string) : list cell :=
  Cell (Windows.channelLabel c channels) :: (if Windows.isDirectChannel c then [Badge "yellow" direct] else []).
Definition config_audit_row (direct : string) (channels : list (string * string)) (e : EventOut) : list cell :=
  [Cell (fmt (time e)); Cell (category e); Cell (name e); Cell (src_ip e)] ++
  channel_cells direct channels (action e) ++ [Cell (attr e "change_ref")].
End events.

(** The tabs: [rows] are those of all pages; the empty text needs data. *)
Definition timeline {A} (failed empty : path) (pages : remote (list (list A))) : list (block A) :=
  let rows := concat (result pages orelse []) in
  (if isLoading pages then [Loader] else []) ++
  (if isError pages then [ErrorText failed] else []) ++
  match result pages, rows with
  | None, _ => []
  | Some _, [] => [EmptyText empty]
  | Some _, rows => [Rows rows]
  end.
Definition ReliabilityTab {A} := timeline (A := A) ["reliability"; "loadError"] ["reliability"; "empty"].
Definition ConfigAuditTab {A} := timeline (A := A) ["configAudit"; "loadError"] ["configAudit"; "empty"].

(** The cards of the overview. *)
Definition ReliabilityCard (r : remote (list TopRow)) : list (block (list cell * Z)) :=
  listing ["reliability"; "loadError"] ["reliability"; "empty"]
    (seen_as (fmap (fun x => ([Cell (value x)], count x))) r).
Definition ConfigAuditCard (direct : string) (channels : list (string * string)) (r : remote (list TopRow)) :
    list (block (list cell * Z)) :=
  listing ["configAudit"; "loadError"] ["configAudit"; "empty"]
    (seen_as (fmap (fun x => (channel_cells direct channels (value x), count x))) r).

(** A timeline is a listing of the rows of its pages. *)
Lemma timeline_listing {A} failed empty (ps : list (list A)) :
  timeline failed empty (Loaded ps) = listing failed empty (Loaded (concat ps)) /\
  timeline failed empty (Failed (Some ps)) = listing failed empty (Failed (Some (concat ps))).
Proof. unfold timeline, listing. simpl. by destruct (concat ps). Qed.

(** Every change made outside OPNGMS is flagged, whatever its label, and only
    those: the badge stands in the row exactly for a direct channel. *)
Lemma direct_flagged fmt direct channels e :
  Badge "yellow" direct ∈ config_audit_row fmt direct channels e <-> Windows.isDirectChannel (action e) = true.
Proof.
  unfold config_audit_row, channel_cells. destruct (Windows.isDirectChannel (action e)); simpl; set_solver.
Qed.
End Events.

(** ** [perimeter/PerimeterCard.tsx], [pages/PerimeterPage.tsx] *)
Module Perimeter.
Import Remote Windows.
Record Attacker := MkAttacker {
  src_ip : string; country : string; label : string; count : Z; last_seen : string }.

Definition WINDOWS : list (string * Z) := [("24h", 1); ("7d", 7); ("30d", 30)]%Z.
Definition initial : string := "7d".
Definition setWin (w : string) (_ : string) : string := w.
Definition windowDays (win : string) : Z := assoc win WINDOWS orelse 7%Z.

Definition title (k : PerimeterKind) : path :=
  match k with login_failed => ["perimeter"; "failedLogins"] | firewall_block => ["perimeter"; "firewallBlocks"] end.
Definition help (k : PerimeterKind) : path :=
  match k with login_failed => ["perimeter"; "failedLoginsHelp"] | firewall_block => ["perimeter"; "firewallBlocksHelp"] end.
Definition labelCol (k : PerimeterKind) : path :=
  match k with login_failed => ["perimeter"; "user"] | firewall_block => ["perimeter"; "port"] end.

Section perimeter.
Context (tr : path -> string) (display : string -> string -> outcome unit (option string)) (locale : string)
  (fmt : string -> string).
Definition country_of (a : Attacker) : string :=
  Country.countryLabel display (country a) locale
    (tr ["overview"; "attackerCountries"; "private"]) (tr ["overview"; "attackerCountries"; "unknown"]).

(** A row of the card: address, country and label, count. *)
Definition card_row (k : PerimeterKind) (a : Attacker) : list string :=
  [ src_ip a;
    country_of a +:+ (if label a === "" then "" else " · " +:+ tr (labelCol k) +:+ " " +:+ label a);
    pretty (count a) ].
Definition PerimeterCard (k : PerimeterKind) (r : remote (list Attacker)) : list (block Attacker) :=
  listing ["perimeter"; "loadError"] ["perimeter"; "empty"] r.
Definition card_query (activeId : option string) (k : PerimeterKind) (mounted : Z) : query :=
  usePerimeterAttackers activeId k None (Some 5%Z) mounted.

Definition table_row (a : Attacker) : list string :=
  [ src_ip a; country_of a; (if label a === "" then "—" else label a); pretty (count a); fmt (last_seen a) ].
Definition table_query (activeId : option string) (k : PerimeterKind) (win : string) (mounted : Z) : query :=
  usePerimeterAttackers activeId k (Some (windowDays win)) (Some 100%Z) mounted.
(** The page: one table per kind, over the same window. *)
Definition PerimeterPage (activeId : option string) (win : string) (mounted : Z) : list query :=
  [table_query activeId login_failed win mounted; table_query activeId firewall_block win mounted].
End perimeter.

(** Both tables of the page ask for the window its control shows, with an end
    that is now; no table asks for the card's shorter list, and every choice of
    the control is a known window. *)
Lemma perimeter_windows t win days mounted :
  (win, days) ∈ WINDOWS ->
  windowDays win = days /\
  Forall (fun q => assoc "frm" (rq_query (q_request q)) = Some (ku (rangeFrom days mounted).1) /\
                   assoc "to" (rq_query (q_request q)) = Some (ku (rangeFrom days mounted).2) /\
                   assoc "limit" (rq_query (q_request q)) = Some (Some (JNum 100)))
    (PerimeterPage t win mounted).
Proof.
  intros H. assert (Hd : windowDays win = days).
  { unfold WINDOWS in H. repeat (apply elem_of_cons in H as [[= -> ->]|H]; [reflexivity|]). by apply not_elem_of_nil in H. }
  split; [done|]. unfold PerimeterPage, table_query, usePerimeterAttackers. rewrite Hd. cbn [from_option Datatypes.id].
  destruct (rangeFrom days mounted) as [f t'] eqn:E. apply list.Forall_forall. intros q Hq.
  repeat (apply elem_of_cons in Hq as [-> |Hq]; [done|]). by apply not_elem_of_nil in Hq.
Qed.
End Perimeter.

(** ** [overview/AttackerCountriesCard.tsx]: the card around the map of [Charts.WorldMap] *)
Module Attackers.
Import Remote.
Inductive part := CardLoader | CardAlert (t : path) | Map_ | Country (name counts : string) | Attribution.
(** [pct] is the text of the rounded share of a row. *)
Definition AttackerCountriesCard {Row} (name counts pct : Row -> string) (r : remote (list Row)) : list part :=
  (if isLoading r then [CardLoader] else []) ++
  (if isError r then [CardAlert ["overview"; "attackerCountries"; "title"]] else []) ++
  match result r with
  | Some rows => Map_ :: ((fun x => Country (name x) (counts x +:+ " · " +:+ pct x +:+ "%")) <$> rows)
  | None => []
  end ++ [Attribution].

(** The alert of a failed load reads like the card's title: no text of the card
    says that anything failed. *)
Lemma failed_card_says_title {Row} (name counts pct : Row -> string) :
  AttackerCountriesCard name counts pct (Failed None) =
  [CardAlert ["overview"; "attackerCountries"; "title"]; Attribution].
Proof. reflexivity. Qed.
End Attackers.

(** ** [pages/AlertsPage.tsx], [pages/OverviewPage.tsx] *)
Module Alerts.
Import Remote.
Record AlertOut := MkAlert {
  type_ : string; label : string; severity : string; opened_at : string;
  resolved_at : option string; device_id : string }.

(** The state is the mode; ["active"] at first. *)
Inductive mode := active | history.
Definition initial : mode := active.
Definition setMode (m : mode) (_ : mode) : mode := m.
Definition alerts_query (activeId : option string) (m : mode) : query :=
  Monitoring.useAlerts activeId (match m with active => true | history => false end).
Definition AlertsPage (r : remote (list AlertOut)) : list (block AlertOut) :=
  listing ["alerts"; "loadError"] ["alerts"; "noAlerts"] r.

Definition severity_color (s : string) : string := if s === "critical" then "red" else "yellow".
(** The link of a row and its text, [a.device_id.slice(0, 8)]. *)
Definition device_link (a : AlertOut) : string * string :=
  ("/devices/" +:+ device_id a, String.substring 0 8 (device_id a)).

Section rows.
Context (none : string) (fmt : string -> string).
(** The texts of a row and the colour of its severity badge. *)
Definition alert_row (a : AlertOut) : list string :=
  [ type_ a; (if label a === "" then none else label a); severity a; severity_color (severity a);
    fmt (opened_at a);
    match resolved_at a with Some r => if r === "" then none else fmt r | None => none end ].
Definition overview_row (a : AlertOut) : list string :=
  [ type_ a; (if label a === "" then none else label a); severity a; severity_color (severity a); fmt (opened_at a) ].
End rows.

(** The two lists are two cache entries: switching never shows one for the other. *)
Lemma modes_apart t m m' : q_key (alerts_query t m) = q_key (alerts_query t m') -> m = m'.
Proof. by destruct m, m'. Qed.
End Alerts.

Module Overview.
Import Remote.
Inductive section :=
| HealthLoader | HealthError (t : path) | HealthCards (l : list Health.card)
| AttackerCountries
| Attackers (k : Windows.PerimeterKind)
| ReliabilitySummary | ConfigAuditSummary
| AlertBlock (b : block Alerts.AlertOut).

Definition OverviewPage (health : remote Health.FleetHealth) (alerts : remote (list Alerts.AlertOut)) : list section :=
  (if isLoading health then [HealthLoader] else []) ++
  (if isError health then [HealthError ["overview"; "healthLoadError"]] else []) ++
  match result health with Some h => [HealthCards (Health.HealthSummaryCards h)] | None => [] end ++
  [AttackerCountries; Attackers Windows.login_failed; Attackers Windows.firewall_block;
   ReliabilitySummary; ConfigAuditSummary] ++
  (AlertBlock <$> listing ["overview"; "alertsLoadError"] ["overview"; "noActiveAlerts"] alerts).
(** It shares the cache entry of the alerts page's first view. *)
Definition overview_alerts (activeId : option string) : query := Monitoring.useAlerts activeId true.
End Overview.

(** ** [pages/DevicesPage.tsx] *)
Module DevicesView.
Import Remote.
Record Device := MkDevice {
  id : string; name : string; base_url : string; status : string; firmware_version : option string }.
Definition STATUS_COLOR : list (string * string) :=
  [("reachable", "green"); ("unverified", "yellow"); ("unreachable", "red")].
Definition color_of (s : string) : string := assoc s STATUS_COLOR orelse "gray".
Definition device_row (none : string) (d : Device) : list string :=
  [name d; base_url d; status d; color_of (status d); firmware_version d orelse none].
(** What a click on a row opens. *)
Definition row_target (d : Device) : string := "/devices/" +:+ id d.

Record view := View {
  loader : bool; error_text : bool; rows : list Device;
  addEnabled : bool; modalMounted : bool }.
Definition DevicesPage (activeId : option string) (r : remote (list Device)) : view :=
  View (isLoading r) (isError r) (result r orelse []) (present activeId) (present activeId).

(** The colours of the fleet card and of the table agree on the statuses the
    backend stores. *)
Example colors_agree :
  (fun s => (color_of s, Health.statusColor s)) <$> ["reachable"; "unverified"; "unreachable"] =
  [("green", "signal"); ("yellow", "amber"); ("red", "red")].
Proof. reflexivity. Qed.
End DevicesView.

(** ** [pages/DeviceDetailPage.tsx] *)
Module DeviceDetail.
Import Remote.
Inductive panel :=
| Info (actions : option (string * string * string))    (* tenant, device, address *)
| HealthPanel (d : string) | ReliabilityPanel (d : string) | ConfigAuditPanel (d : string)
| ConfigPanel (d : string) | FirmwarePanel (d : string) | ForwardingPanel (d : string)
| PluginsPanel (d : string) | TemplatesPanel (d : string) | EditorPanel (d base_url : string)
| Blank.
Inductive view := DetailLoader | DetailError | Nothing | Page (title : string) (panels : list (string * panel)).

Definition tabs : list (string * path) :=
  [ ("info", ["config"; "tabInfo"]); ("health", ["config"; "tabHealth"]); ("reliability", ["reliability"; "tab"]);
    ("config-audit", ["configAudit"; "tab"]); ("config", ["config"; "tabConfig"]); ("firmware", ["firmware"; "tab"]);
    ("forwarding", ["logForwarding"; "tab"]); ("plugins", ["plugins"; "tab"]);
    ("templates", ["templates"; "tab"]); ("editor", ["catalog"; "tab"]) ].
Definition defaultValue : string := "info".

Definition with_device (deviceId : option string) (f : string -> panel) : panel :=
  if present deviceId then f (deviceId orelse "") else Blank.
Definition panels (activeId deviceId : option string) (base_url : string) : list (string * panel) :=
  let w := with_device deviceId in
  [ ("info", Info (if present activeId && present deviceId
                   then Some (activeId orelse "", deviceId orelse "", base_url) else None));
    ("health", w HealthPanel); ("reliability", w ReliabilityPanel); ("config-audit", w ConfigAuditPanel);
    ("config", w ConfigPanel); ("firmware", w FirmwarePanel); ("forwarding", w ForwardingPanel);
    ("plugins", w PluginsPanel); ("templates", w TemplatesPanel);
    ("editor", w (fun d => EditorPanel d base_url)) ].

(** [Loaded None]: the query function drops the error of a refused request. *)
Definition DeviceDetailPage (activeId deviceId : option string) (r : remote (option DevicesView.Device)) : view :=
  if isLoading r then DetailLoader
  else if isError r then DetailError
  else match result r with
       | Some (Some d) => Page (DevicesView.name d) (panels activeId deviceId (DevicesView.base_url d))
       | _ => Nothing
       end.

(** Every tab has its panel, in order, and the first one shown is among them;
    each panel is about the device of the address. *)
Definition panel_device (p : panel) : option string :=
  match p with
  | Info a => (fun x => x.1.2) <$> a
  | HealthPanel d | ReliabilityPanel d | ConfigAuditPanel d | ConfigPanel d | FirmwarePanel d
  | ForwardingPanel d | PluginsPanel d | TemplatesPanel d | EditorPanel d _ => Some d
  | Blank => None
  end.
Lemma panels_of_device t d url :
  (panels t d url).*1 = tabs.*1 /\ defaultValue ∈ tabs.*1 /\
  Forall (fun kp => panel_device kp.2 = None \/ panel_device kp.2 = d) (panels t d url) /\
  (present t = true -> present d = true -> Forall (fun kp => panel_device kp.2 = d) (panels t d url)).
Proof.
  unfold panels, with_device. split; [done|]. split; [left|].
  destruct (present d) eqn:Ed; [destruct d as [d|]; [|done]|rewrite andb_false_r].
  - destruct (present t); cbn [andb]; (split; [|try done; intros _ _]);
      repeat (apply Forall_cons_2; [first [by left|by right|done]|]); apply Forall_nil_2.
  - split; [|done]. repeat (apply Forall_cons_2; [by left|]). apply Forall_nil_2.
Qed.
End DeviceDetail.

(** ** [config/ConfigTab.tsx], [config/CapabilitiesPanel.tsx] *)
Module ConfigView.
Import Remote.
Record CapabilityInventory := MkInventory {
  opnsense_version : string;
  interfaces : list (string * string * string);       (* name, nic, description *)
  configured_sections : list string;
  available_capabilities : list (string * string) }.  (* id, label *)
Inductive part := Capabilities (inv : CapabilityInventory) | Tree (root : json) | Changes.
Inductive view := TabLoader | TabAlert (t : path) | NoSnapshot (t : path) | Parts (l : list part).

(** [None] is the [null] a query answers for a 404; [truthy] as in [model.data &&]. *)
Definition ConfigTab (model : remote (option json)) (caps : remote (option CapabilityInventory)) : view :=
  if isLoading model || isLoading caps then TabLoader
  else if isError model || isError caps then TabAlert ["config"; "noConfigYet"]
  else match result model with
       | Some None => NoSnapshot ["config"; "noConfigYet"]
       | m => Parts
           (match result caps with Some (Some inv) => [Capabilities inv] | _ => [] end ++
            match m with Some (Some root) => if truthy (Some root) then [Tree root] else [] | _ => [] end ++
            [Changes])
       end.

Definition or_dash (s : string) : string := if s === "" then "—" else s.
Definition interface_row (i : string * string * string) : list string := [i.1.1; or_dash i.1.2; i.2].
Definition CapabilitiesPanel (inv : CapabilityInventory) : string * list (list string) * list string * list string :=
  (or_dash (opnsense_version inv), interface_row <$> interfaces inv, configured_sections inv,
   (available_capabilities inv).*2).

(** A failure to load is announced with the words for a device that has no
    snapshot yet: the operator cannot tell one from the other by the text. *)
Lemma failure_reads_as_no_snapshot stale caps :
  isLoading caps = false ->
  ConfigTab (Failed stale) caps = TabAlert ["config"; "noConfigYet"] /\
  (isError caps = false -> ConfigTab (Loaded None) caps = NoSnapshot ["config"; "noConfigYet"]).
Proof. unfold ConfigTab. intros ->. split; [done|]. intros ->. done. Qed.
End ConfigView.

(** ** [components/DirectionSync.tsx], [components/LanguageSwitcher.tsx], [main.tsx] *)
Module Direction.
Import Locale Provider.
Section direction.
Context {Dict : Type} (dictionary : string -> Dict).
Definition dir_of (locale : string) : string := if isRtl locale then "rtl" else "ltr".

(** The provider, Mantine's direction and the [dir] attribute of the document,
    with the [dir] of the last run of the effect. *)
Record page := MkPage { provider : state (Dict := Dict); direction : string; html_dir : string; synced : option string }.

(** [main.tsx] sets the attribute before the first paint. *)
Definition boot (d : storage) (nav : option navigator) : page :=
  let l := detectInitialLocale d nav in
  MkPage (mount dictionary d nav) (dir_of l) (dir_of l) None.
(** The effect of [DirectionSync], which runs when [dir] changed. *)
Definition effect (p : page) : page :=
  let dir := dir_of (locale (provider p)) in
  if synced p === Some dir then p else MkPage (provider p) dir dir (Some dir).
(** [onChange={(v) => v && setLocale(v)}] *)
Definition LanguageSwitcher_onChange (v : option string) (s : state (Dict := Dict)) : state (Dict := Dict) :=
  if present v then setLocale dictionary (v orelse "") s else s.

Inductive step : page -> page -> Prop :=
| step_switch v p : step p (effect (MkPage (LanguageSwitcher_onChange v (provider p)) (direction p) (html_dir p) (synced p)))
| step_import i s' p :
    resolve dictionary i (provider p) = Some s' ->
    step p (effect (MkPage s' (direction p) (html_dir p) (synced p)))
| step_failed i s' p :
    reject i (provider p) = Some s' ->
    step p (effect (MkPage s' (direction p) (html_dir p) (synced p))).

Definition in_sync (p : page) : Prop :=
  direction p = dir_of (locale (provider p)) /\ html_dir p = direction p /\
  (forall d, synced p = Some d -> d = direction p).

Lemma in_sync_effect s d h y :
  h = d -> (forall x, y = Some x -> x = d) -> in_sync (effect (MkPage s d h y)).
Proof using Type.
  intros -> Hy. unfold in_sync, effect. cbn [synced provider direction html_dir].
  case_bool_decide as E; cbn [synced provider direction html_dir]; split_and!; try done.
  - symmetry. by apply Hy.
  - by intros x [= ->].
Qed.

(** The layout is mirrored exactly for the right-to-left locales, from before
    the first paint on and through every switch of the language: Mantine's
    direction and the document's attribute always agree with the locale. *)
Lemma direction_follows_locale d nav p :
  steps step (boot d nav) p ->
  direction p = dir_of (locale (provider p)) /\ html_dir p = direction p.
Proof using Type.
  intros Hs. assert (H : in_sync p); [|by destruct H as (? & ? & _)].
  eapply (steps_invariant step in_sync); [|exact Hs|].
  - intros p1 p2 (H1 & H2 & H3) Hp. destruct Hp; by apply in_sync_effect.
  - unfold boot, in_sync. split_and!; try done.
Qed.
End direction.
End Direction.
