(* ===== verification/CatalogTab.v ===== *)
(** * The catalog tab: [catalog/CatalogEditorTab.tsx]

    The tab holds the selection, the pane, the search text and the baseline,
    and mounts the form of the selected model ([Catalog.Form]) with the model's
    id as its key.  Queries answer, and answer again, at any moment; the form
    keeps its working copy as long as it stays mounted.  One mount of the tab is
    for one device. *)
From S2P Require Import Prelude JsString Json Http QueryClient Hooks TenantHooks Catalog CatalogTrees Views Machine.
Import Remote.

(** ** State *)
Inductive pane_ := menu | map.
#[export] Instance pane_eq_dec : EqDecision pane_.
Proof. solve_decision. Defined.

Inductive source_ := live_source | snapshot.
Record ConfigMapResponse := MkMap { m_source : source_; taken_at : option string; tree : Trees.ConfigNode }.

(** The queries' results: the catalog's menu, the model answers, the diffs by
    baseline, the configuration map. *)
Record answers := Answers {
  catalog : remote (list Menu.MenuNode);
  models : gmap string (remote CatalogModelLive);
  diffs : gmap (option string) Editor.CatalogDiff;
  configMap : remote ConfigMapResponse;
}.

Record tab := Tab {
  selected : option string;
  search : string;
  pane : pane_;
  baseline : option string;
  data : answers;
  mounted : option (string * Form.form);     (* the form, under its key *)
}.
Definition initial : tab := Tab None "" menu None (Answers Fetching ∅ ∅ Disabled) None.

(** [selected && model.data]: an empty id selects nothing. *)
Definition model_query (s : tab) : remote CatalogModelLive :=
  match selected s with
  | Some m => if m === "" then Disabled else (models (data s) !! m) orelse Fetching
  | None => Disabled
  end.
Definition menu_of (s : tab) : list Menu.MenuNode :=
  if isLoading (catalog (data s)) then [] else (result (catalog (data s))) orelse [].
Definition shown_live (s : tab) : option CatalogModelLive :=
  if menu_of s is [] then None else result (model_query s).
Definition diff_ (s : tab) : option Editor.CatalogDiff := diffs (data s) !! baseline s.
Definition activeFrom (s : tab) : option string := Editor.activeFrom (baseline s) (diff_ s).

(** The queries the tab holds: the map's only runs while its pane is shown. *)
Section queries.
Context (activeId : option string) (deviceId : string).
Definition queries (s : tab) : list query :=
  [CatalogApi.useDeviceCatalog activeId deviceId; CatalogApi.useCatalogModel activeId deviceId (selected s);
   CatalogApi.useCatalogDiff activeId deviceId (baseline s);
   CatalogApi.useConfigMap activeId (if pane s === map then deviceId else "")].
End queries.

(** ** Mounting *)

(** The form under its key.  The tables of grids the answer no longer has, or
    that a read-only answer hides, are unmounted; the form's copy of their
    operations stays. *)
Definition prune (live : CatalogModelLive) (f : Form.form) : Form.form :=
  Form.MkForm (Form.work f)
    (if read_only live then ∅ else filter (fun kt => kt.1 ∈ g_path <$> grids (model live)) (Form.tables f))
    (Form.gridOps f).
Definition mount_form (live : option CatalogModelLive) (o : option (string * Form.form)) : option (string * Form.form) :=
  match live with
  | None => None
  | Some l =>
      match o with
      | Some (k, f) => if k === id (model l) then Some (k, prune l f) else Some (id (model l), Form.open_ l)
      | None => Some (id (model l), Form.open_ l)
      end
  end.
Definition with_mounted (o : option (string * Form.form)) (s : tab) : tab :=
  Tab (selected s) (search s) (pane s) (baseline s) (data s) o.
Definition reconcile (s : tab) : tab := with_mounted (mount_form (shown_live s) (mounted s)) s.

(** ** Events *)
#[export] Instance CatalogField_eq_dec : EqDecision CatalogField.
Proof. solve_decision. Defined.
#[export] Instance CatalogGrid_eq_dec : EqDecision CatalogGrid.
Proof. solve_decision. Defined.
#[export] Instance GridRow_eq_dec : EqDecision GridRow.
Proof. solve_decision. Defined.

(** The inputs on the form's pages: the paths of [fieldByPath]. *)
Definition known_paths (m : CatalogModel) : list string :=
  (Catalog.path <$> fields m) ++ concat ((fun g => (fun f => g_path g +:+ "." +:+ Catalog.path f) <$> g_fields g) <$> grids m).
Definition inputs (m : CatalogModel) : list string :=
  filter (fun p => p ∈ known_paths m) (concat (pages m).*2).

Definition modal_open (f : Form.form) (g : CatalogGrid) : bool :=
  if Form.editing (Form.table_of f (g_path g)) is Some _ then true else false.
Definition grid_shown (l : CatalogModelLive) (g : CatalogGrid) : bool :=
  negb (read_only l) && bool_decide (g ∈ grids (model l)).

(** What the controls offer: inputs and buttons are disabled on a device that
    does not answer; an open modal works on. *)
Definition offered (l : CatalogModelLive) (f : Form.form) (e : Form.event) : bool :=
  match e with
  | Form.EditField p _ => Form.editable l && bool_decide (p ∈ inputs (model l))
  | Form.OpenAdd g => Form.editable l && grid_shown l g
  | Form.OpenEdit g row | Form.Delete g row =>
      Form.editable l && grid_shown l g && bool_decide (row ∈ (rows l !! g_path g) orelse [])
  | Form.EditCell g p _ => grid_shown l g && modal_open f g && bool_decide (p ∈ Catalog.path <$> g_fields g)
  | Form.Save g | Form.Close g => grid_shown l g && modal_open f g
  end.

Inductive event :=
| QCatalog (r : remote (list Menu.MenuNode))
| QModel (m : string) (answer : option CatalogModelLive)
| QDiff (from : option string) (d : Editor.CatalogDiff)
| QMap (r : remote ConfigMapResponse)
| Forget (m : string)                         (* an unused answer leaves the cache *)
| Select (m : string)
| EditInCatalog (m : string)
| SetPane (p : pane_)
| SetSearch (q : string)
| SetBaseline (b : option string)
| Edit (e : Form.event)
| Propose (answer : fetch_result).

Definition with_data (d : answers) (s : tab) : tab := Tab (selected s) (search s) (pane s) (baseline s) d (mounted s).
Definition answered (m : string) (a : option CatalogModelLive) (d : answers) : answers :=
  let r := match a with Some l => Loaded l | None => Failed (models d !! m ≫= result) end in
  Answers (catalog d) (<[m := r]> (models d)) (diffs d) (configMap d).

(** The models the menu's leaves open. *)
Definition menu_models (l : list Menu.MenuNode) : list string :=
  omap (fun n => let 'Menu.Node _ _ _ mid _ := n in mid) (concat (Menu.leaves <$> l)).
Definition baselines (s : tab) : list string := from_option Editor.available_baselines [] (diff_ s).
Definition tab_shown (s : tab) : bool := negb (length (menu_of s) =? 0).

Section tab.
Context (activeId : option string) (deviceId : string).

Definition step (e : event) (s : tab) : option (tab * list (option request * Editor.note)) :=
  let d := data s in
  match e with
  | QCatalog r => Some (with_data (Answers r (models d) (diffs d) (configMap d)) s, [])
  | QModel m a => Some (with_data (answered m a d) s, [])
  | QDiff b x => Some (with_data (Answers (catalog d) (models d) (<[b := x]> (diffs d)) (configMap d)) s, [])
  | QMap r => Some (with_data (Answers (catalog d) (models d) (diffs d) r) s, [])
  | Forget m =>
      if selected s === Some m then None
      else Some (with_data (Answers (catalog d) (delete m (models d)) (diffs d) (configMap d)) s, [])
  | Select m =>
      if tab_shown s && (pane s === menu) && negb (m === "") && bool_decide (m ∈ menu_models (menu_of s))
      then Some (Tab (Some m) (search s) (pane s) (baseline s) d (mounted s), []) else None
  | EditInCatalog m =>
      if tab_shown s && (pane s === map)
         && bool_decide (m ∈ from_option (fun c => Trees.editable_models (tree c)) [] (result (configMap d)))
      then Some (Tab (Some m) (search s) menu (baseline s) d (mounted s), []) else None
  | SetPane p => if tab_shown s then Some (Tab (selected s) (search s) p (baseline s) d (mounted s), []) else None
  | SetSearch q =>
      if tab_shown s && (pane s === menu) then Some (Tab (selected s) q (pane s) (baseline s) d (mounted s), []) else None
  | SetBaseline b =>
      if tab_shown s && (pane s === menu) && (0 <? length (baselines s))
         && from_option (fun b => bool_decide (b ∈ baselines s)) true b
      then Some (Tab (selected s) (search s) (pane s) b d (mounted s), []) else None
  | Edit ev =>
      l ← shown_live s; '(k, f) ← mounted s;
      if offered l f ev then Some (with_mounted (Some (k, Form.exec ev f)) s, []) else None
  | Propose a =>
      l ← shown_live s; '(k, f) ← mounted s;
      if Form.editable l then Some (s, [Editor.onPropose activeId deviceId (Form.build l f) a]) else None
  end.

(** Every change is followed by a render. *)
Definition exec (e : event) (s : tab) : option (tab * list (option request * Editor.note)) :=
  '(s1, out) ← step e s; Some (reconcile s1, out).
Definition run := Machine.run exec.
End tab.

(** ** What is on screen *)
Section view.
Context (lower : string -> string) (baseUrl : string).
Context (expanded : list string -> bool) (toggled : string -> bool).

Inductive left_ :=
| MenuPane (search : string) (picker : option (list string * option string)) (items : list Menu.item)
| MapPane (loading : bool) (stale : option string) (tree : option Trees.view).
Inductive right_ :=
| SelectModel
| ModelLoading
| ModelForm (key : string)
| EmptyCard.
Inductive page_ := PageLoader | NoModels | Page (l : left_) (r : right_).

(** The baseline picker appears with the baselines of the current diff; the
    menu's badges need a comparison. *)
Definition left_pane (s : tab) : left_ :=
  match pane s with
  | menu =>
      MenuPane (search s) (if 0 <? length (baselines s) then Some (baselines s, activeFrom s) else None)
        (Menu.CatalogMenuTree lower baseUrl (selected s)
           (if present (activeFrom s) then Editor.diff <$> diff_ s else None)
           expanded (search s) (menu_of s))
  | map =>
      let c := configMap (data s) in
      MapPane (isLoading c)
        (match result c with
         | Some (MkMap snapshot t _) => Some (t orelse "")
         | _ => None
         end)
        (Trees.ConfigMapTree toggled <$> (tree <$> result c))
  end.
Definition right_pane (s : tab) : right_ :=
  match selected s with
  | None => SelectModel
  | Some m =>
      if m === "" then SelectModel
      else if isLoading (model_query s) then ModelLoading
      else match result (model_query s) with Some l => ModelForm (id (model l)) | None => EmptyCard end
  end.
Definition CatalogEditorTab (s : tab) : page_ :=
  if isLoading (catalog (data s)) then PageLoader
  else if tab_shown s then Page (left_pane s) (right_pane s) else NoModels.

(** The badges of a form's field, under the tab's comparison. *)
Definition badge_of (s : tab) (modelId p : string) : option Editor.badge :=
  Editor.fieldBadge (diff_ s) (activeFrom s) modelId p.

(** A model whose load failed leaves the card empty: no text says so. *)
Lemma failed_model_shows_nothing s m :
  selected s = Some m -> m <> "" -> models (data s) !! m = Some (Failed None) -> right_pane s = EmptyCard.
Proof using Type.
  intros Hs Hm Hd. unfold right_pane, model_query. rewrite Hs, bool_decide_false by done. by rewrite Hd.
Qed.

(** The form on screen is the mounted one. *)
Lemma form_shown s k :
  (exists l, CatalogEditorTab (reconcile s) = Page l (ModelForm k)) <-> (exists f, mounted (reconcile s) = Some (k, f)).
Proof using Type.
  unfold CatalogEditorTab, tab_shown, right_pane, reconcile, with_mounted, mount_form, shown_live.
  cbn [selected data mounted]. change (menu_of (Tab _ _ _ _ _ _)) with (menu_of s).
  change (model_query (Tab _ _ _ _ _ _)) with (model_query s).
  destruct (isLoading (catalog (data s))) eqn:Hc.
  { assert (menu_of s = []) as -> by (unfold menu_of; by rewrite Hc). naive_solver. }
  destruct (menu_of s) as [|n l]; [naive_solver|]. cbn [length Nat.eqb negb]. unfold model_query.
  destruct (selected s) as [m|]; [|naive_solver]. case_bool_decide; [naive_solver|].
  destruct ((models (data s) !! m) orelse Fetching) as [| |x|[x|]]; cbn [isLoading result]; try naive_solver;
    destruct (mounted s) as [[k' f']|]; try case_bool_decide; naive_solver.
Qed.
End view.

(** ** The sessions of the form

    A session is the form's key, the answer it was opened on and what happened
    in it since. *)
Record session := Session { s_key : string; s_opened : CatalogModelLive; s_events : list Form.event }.
Definition follow (live : option CatalogModelLive) (o : option session) : option session :=
  match live with
  | None => None
  | Some l =>
      match o with
      | Some x => if s_key x === id (model l) then Some x else Some (Session (id (model l)) l [])
      | None => Some (Session (id (model l)) l [])
      end
  end.
Definition record_edit (e : event) (o : option session) : option session :=
  match e, o with
  | Edit ev, Some x => Some (Session (s_key x) (s_opened x) (s_events x ++ [ev]))
  | _, _ => o
  end.

Section sessions.
Context (activeId : option string) (deviceId : string).

Fixpoint session_after (es : list event) (s : tab) (o : option session) : option session :=
  match es with
  | [] => o
  | e :: es =>
      match exec activeId deviceId e s with
      | Some (s1, _) => session_after es s1 (follow (shown_live s1) (record_edit e o))
      | None => o
      end
  end.

(** The backend gives a model one set of grids and one access mode: [shape]. *)
Context (shape : string -> list CatalogGrid * bool).
Definition shaped_live (l : CatalogModelLive) : Prop :=
  shape (id (model l)) = (grids (model l), read_only l).
Definition shaped (e : event) : Prop :=
  match e with QModel _ (Some l) => shaped_live l | _ => True end.
Definition all_shaped (s : tab) : Prop := forall m r l, models (data s) !! m = Some r -> result r = Some l -> shaped_live l.

(** The tables are those of grids the form shows. *)
Definition tables_ok (k : string) (f : Form.form) : Prop :=
  ((shape k).2 = true -> Form.tables f = ∅) /\
  (forall g t, Form.tables f !! g = Some t -> g ∈ g_path <$> (shape k).1).

Definition matches (o : option (string * Form.form)) (x : option session) : Prop :=
  match o, x with
  | Some (k, f), Some x =>
      k = s_key x /\ f = Form.run (s_opened x) (s_events x) /\ id (model (s_opened x)) = k /\ tables_ok k f
  | None, None => True
  | _, _ => False
  end.

Lemma shown_shaped s l : all_shaped s -> shown_live s = Some l -> shaped_live l.
Proof using Type.
  unfold shown_live, model_query. intros Ha H. destruct (menu_of s) as [|n l']; [done|].
  destruct (selected s) as [m|]; [|done]. case_bool_decide; [done|].
  destruct (models (data s) !! m) as [r|] eqn:E; [|done]. by apply (Ha m r).
Qed.

Lemma prune_id l f : shaped_live l -> tables_ok (id (model l)) f -> prune l f = f.
Proof using Type.
  unfold shaped_live, tables_ok, prune. intros -> [Hr Hg]. destruct f as [w t o]. cbn [fst snd] in *. simpl in *. f_equal.
  destruct (read_only l); [by rewrite Hr|]. apply map_filter_id. intros i x Hi. by apply (Hg i x).
Qed.

Lemma mount_matches live o x :
  (forall l, live = Some l -> shaped_live l) -> matches o x -> matches (mount_form live o) (follow live x).
Proof using Type.
  intros Hs Hm. destruct live as [l|]; [|done]. specialize (Hs l eq_refl). unfold mount_form, follow.
  assert (Hn : matches (Some (id (model l), Form.open_ l)) (Some (Session (id (model l)) l []))).
  { by split_and!. }
  destruct o as [[k f]|], x as [x|]; try done. destruct Hm as (-> & Hf & Hi & Ht).
  case_bool_decide as Hk; [|done]. rewrite Hk in *. rewrite (prune_id l f Hs Ht).
  by split_and!.
Qed.
End sessions.

Lemma run_snoc_event l evs e : Form.run l (evs ++ [e]) = Form.exec e (Form.run l evs).
Proof. unfold Form.run. by rewrite fold_left_app. Qed.

(** An event touches the table of its own grid only. *)
Definition grid_of (e : Form.event) : option string :=
  match e with
  | Form.EditField _ _ => None
  | Form.OpenAdd g | Form.OpenEdit g _ | Form.EditCell g _ _ | Form.Save g | Form.Close g | Form.Delete g _ => Some (g_path g)
  end.
Lemma exec_tables e f g : grid_of e <> Some g -> Form.tables (Form.exec e f) !! g = Form.tables f !! g.
Proof.
  intros Hg. destruct e; cbn [grid_of Form.exec] in *; try (destruct (Form.editing _)); try done; simpl;
    rewrite lookup_insert_ne; congruence.
Qed.

Lemma offered_grid l f e g :
  offered l f e = true -> grid_of e = Some g -> read_only l = false /\ g ∈ g_path <$> grids (model l).
Proof.
  assert (Hs : forall x, grid_shown l x = true -> read_only l = false /\ g_path x ∈ g_path <$> grids (model l)).
  { intros x [Hr Hx]%andb_prop. apply bool_decide_eq_true in Hx. split; [by destruct (read_only l)|].
    by apply list_elem_of_fmap_2. }
  destruct e; cbn [offered grid_of]; rewrite ?andb_true_iff; naive_solver.
Qed.

Lemma onPropose_request activeId deviceId b a :
  ((Editor.onPropose activeId deviceId b a).1 = None <-> scalars b = ∅ /\ grid_ops b = []) /\
  (forall r, (Editor.onPropose activeId deviceId b a).1 = Some r ->
     r = m_request (CatalogApi.useProposeCatalogChange activeId deviceId (Editor.body_json b))).
Proof.
  unfold Editor.onPropose. split.
  - rewrite <- map_size_empty_iff, <- length_zero_iff_nil. repeat case_bool_decide; cbn [andb fst]; naive_solver.
  - intros r. destruct (_ && _); simpl; congruence.
Qed.

Section tab_claims.
Context (activeId : option string) (deviceId : string) (shape : string -> list CatalogGrid * bool).
Local Notation exec := (exec activeId deviceId).
Local Notation run := (run activeId deviceId).
Local Notation session_after := (session_after activeId deviceId).

Lemma tables_ok_exec k f e l :
  shaped_live shape l -> id (model l) = k -> offered l f e = true -> tables_ok shape k f ->
  tables_ok shape k (Form.exec e f).
Proof using Type.
  intros Hs <- Ho [Hr Hg]. unfold tables_ok, shaped_live in *. rewrite Hs in *. cbn [fst snd] in *.
  assert (Hlk : forall g, grid_of e <> Some g -> Form.tables (Form.exec e f) !! g = Form.tables f !! g)
    by (intros g; apply exec_tables).
  destruct (grid_of e) as [g0|] eqn:Hge.
  - destruct (offered_grid l f e g0 Ho Hge) as [Hro Hin]. split; [by rewrite Hro|].
    intros g t Ht. destruct (decide (g0 = g)) as [<-|Hne]; [done|]. apply (Hg g t).
    rewrite <- Hlk; [done|congruence].
  - assert (Form.tables (Form.exec e f) = Form.tables f) as -> by (apply map_eq; intros g; by apply Hlk). done.
Qed.

(** What a step does to the form, before the render. *)
Lemma step_matches e s s1 out x :
  step activeId deviceId e s = Some (s1, out) -> all_shaped shape s -> shaped shape e -> matches shape (mounted s) x ->
  (forall l, shown_live s = Some l -> forall k f, mounted s = Some (k, f) -> k = id (model l)) ->
  all_shaped shape s1 /\ matches shape (mounted s1) (record_edit e x).
Proof using Type.
  intros H Ha He Hm Hk. destruct e as [r|m a|b d|r|m|m|m|p|q|b|ev|a]; cbn [step record_edit] in *.
  2: { simplify_eq. split; [|done]. intros m' r l. cbn [data models answered with_data].
       destruct (decide (m = m')) as [<-|Hne]; [rewrite lookup_insert_eq|rewrite lookup_insert_ne by done; apply Ha].
       intros [= <-] Hl. destruct a as [l'|]; simpl in Hl; [by simplify_eq|].
       destruct (models (data s) !! m) as [r|] eqn:E; [|done]. by apply (Ha m r). }
  all: try (destruct (_ && _) in H; [|done]); try (destruct (tab_shown s) in H; [|done]); try (simplify_eq; by split).
  - destruct (selected s === Some m); [done|]. simplify_eq. split; [|done]. intros m' r l.
    cbn [data models with_data]. intros [_ Hr]%lookup_delete_Some. by apply Ha with m'.
  - destruct (shown_live s) as [l|] eqn:El; [|done]. destruct (mounted s) as [[k f]|]; [|done]. simpl in H.
    destruct (offered l f ev) eqn:Ho; [|done]. simplify_eq. split; [done|]. destruct x as [x|]; [|done].
    destruct Hm as (Hkx & Hf & Hi & Ht). cbn [mounted with_mounted matches s_key s_opened s_events].
    rewrite run_snoc_event, <- Hf. split_and!; try done.
    apply tables_ok_exec with l; [by apply shown_shaped with s|symmetry; by apply (Hk l eq_refl k f)|done..].
  - destruct (shown_live s) as [l|]; [|done]. destruct (mounted s) as [[k f]|] eqn:Em; [|done]. simpl in H.
    destruct (Form.editable l); [|done]. simplify_eq. split; [done|]. by rewrite Em.
Qed.

(** After every event the mounted form is its session's form, under the id of
    the answer on screen. *)
Definition in_session (s : tab) (x : option session) : Prop :=
  all_shaped shape s /\ matches shape (mounted s) x /\
  (forall l, shown_live s = Some l -> exists f, mounted s = Some (id (model l), f)).

Lemma exec_in_session e s s1 out x :
  exec e s = Some (s1, out) -> shaped shape e -> in_session s x ->
  in_session s1 (follow (shown_live s1) (record_edit e x)).
Proof using Type.
  intros H He (Ha & Hm & Hk). unfold CatalogTab.exec in H.
  destruct (step _ _ e s) as [[s0 o]|] eqn:Hs; [|done]. simpl in H. simplify_eq.
  destruct (step_matches _ _ _ _ _ Hs Ha He Hm) as [Ha' Hm'].
  { intros l Hl k f Hf. destruct (Hk l Hl) as [f' Hf']. congruence. }
  assert (Hl : shown_live (reconcile s0) = shown_live s0) by done.
  split_and!; [done| |].
  - rewrite Hl. apply mount_matches; [|done]. intros l. by apply shown_shaped.
  - rewrite Hl. intros l El. unfold reconcile. cbn [mounted with_mounted]. rewrite El. unfold mount_form.
    destruct (mounted s0) as [[k f]|]; [case_bool_decide|]; naive_solver.
Qed.

Lemma run_in_session es s s1 out x :
  run es s = Some (s1, out) -> Forall (shaped shape) es -> in_session s x -> in_session s1 (session_after es s x).
Proof using Type.
  revert s x out. induction es as [|e es IH]; intros s x out H Hs Hi.
  - simpl in H. by simplify_eq.
  - apply Machine.run_cons in H as (s2 & o1 & o2 & He & Hr & ->). apply Forall_cons in Hs as [Hse Hs].
    cbn [CatalogTab.session_after]. rewrite He. eapply IH; [done..|]. by eapply exec_in_session.
Qed.

Lemma only_proposals e s s1 out o : exec e s = Some (s1, out) -> o ∈ out -> exists a, e = Propose a.
Proof using Type.
  unfold CatalogTab.exec. destruct (step _ _ e s) as [[s0 o0]|] eqn:Hs; [|done]. simpl. intros [= <- <-] Ho.
  destruct e; eauto; cbn [step] in Hs; exfalso; apply (not_elem_of_nil o);
    repeat first [progress simplify_option_eq | case_match]; done.
Qed.

(** C29.  What the tab sends.  For a backend that gives a model the same grids
    and access mode in every answer ([shaped]), in every history of the tab:
    each click that proposes comes from a form of an editable answer, mounted
    under the model's id since its session began, and what is sent is the
    change of that model of this device.  As long as the latest answer has the
    values the session began with, its scalars are exactly the last values
    typed in this session that differ from it; after a refetch with other
    values, also the values the session began with of fields nobody touched,
    where they differ from the new answer.  The grid operations are those of
    this session, grid by grid; and nothing is sent exactly when there is no
    such difference and no operation. *)
Theorem proposals_are_edits es s out o :
  run es initial = Some (s, out) -> Forall (shaped shape) es -> o ∈ out ->
  exists es1 a es2 s1 r1 x live,
    es = es1 ++ Propose a :: es2 /\ run es1 initial = Some (s1, r1) /\ session_after es1 initial None = Some x /\
    shown_live s1 = Some live /\ Form.editable live = true /\ s_key x = id (model live) /\
    let body := Form.build live (Form.run (s_opened x) (s_events x)) in
    o = Editor.onPropose activeId deviceId body a /\ model_id body = s_key x /\
    (forall p v, scalars body !! p = Some v <->
       match Form.last_edit p (s_events x) with Some w => Some w | None => Form.seeded (s_opened x) !! p end = Some v /\
       Form.seeded live !! p <> Some v) /\
    (Form.seeded live = Form.seeded (s_opened x) -> forall p v, scalars body !! p = Some v <->
       Form.last_edit p (s_events x) = Some v /\ Form.seeded live !! p <> Some v) /\
    (forall g, Form.of_grid g (grid_ops body) = Form.of_grid g (Form.emitted (s_opened x) (s_events x))) /\
    (o.1 = None <-> scalars body = ∅ /\ grid_ops body = []) /\
    (forall r, o.1 = Some r -> r = m_request (CatalogApi.useProposeCatalogChange activeId deviceId (Editor.body_json body))).
Proof using Type.
  intros H Hs Ho. destruct (Machine.run_request _ _ _ _ _ _ H Ho) as (es1 & e & es2 & s1 & r1 & s2 & r2 & -> & H1 & He & Hr).
  destruct (only_proposals _ _ _ _ _ He Hr) as [a ->]. apply Forall_app in Hs as [Hs _].
  destruct (run_in_session es1 initial s1 r1 None H1 Hs) as (_ & Hm & Hk); [by split_and!|].
  unfold CatalogTab.exec in He. cbn [step] in He.
  destruct (shown_live s1) as [live|] eqn:El; [|done]. destruct (Hk live eq_refl) as [f Hf]. rewrite Hf in He, Hm.
  simpl in He. destruct (Form.editable live) eqn:Hed; [|done]. simpl in He. simplify_eq.
  destruct (session_after es1 initial None) as [x|] eqn:Ex; [|done]. destruct Hm as (Hx & -> & _ & _).
  apply list_elem_of_singleton in Hr as ->.
  destruct (onPropose_request activeId deviceId (Form.build live (Form.run (s_opened x) (s_events x))) a) as [Hn Hreq].
  exists es1, a, es2, s1, r1, x, live. cbn zeta. split_and!; try done.
  - intros p v. apply Form.session_scalars.
  - intros E p v. rewrite Form.session_scalars, E. destruct (Form.last_edit _ _); naive_solver.
  - intros g. apply (Form.build_of_grid (s_opened x)).
Qed.
End tab_claims.

Definition demo_model : CatalogModel := MkModel "m" "M" [MkField "mtu" string_ None None None] [] [("p", ["mtu"])].
Definition demo_live : CatalogModelLive := MkLive demo_model {["mtu" := One "1"]} ∅ ∅ true false.
Definition demo_menu : list Menu.MenuNode := [Menu.Node "n" "N" None (Some "m") []].
Definition demo (a : fetch_result) : list event :=
  [QCatalog (Loaded demo_menu); Select "m"; QModel "m" (Some demo_live); Edit (Form.EditField "mtu" "2"); Propose a].
Definition demo_body : CatalogChangeBody := MkBody "m" {["mtu" := "2"]} [].
Definition demo_end : tab :=
  Tab (Some "m") "" menu None (Answers (Loaded demo_menu) {["m" := Loaded demo_live]} ∅ Disabled)
    (Some ("m", Form.MkForm {["mtu" := "2"]} ∅ [])).

Lemma demo_run a : run None "d" (demo a) initial = Some (demo_end, [Editor.onPropose None "d" demo_body a]).
Proof. reflexivity. Qed.

Lemma proposals_are_edits_witness :
  let a := FetchResult (Some (JObj [])) None 201%Z in
  exists es1 a' es2 x live,
    demo a = es1 ++ Propose a' :: es2 /\ session_after None "d" es1 initial None = Some x /\ s_key x = id (model live) /\
    Editor.onPropose None "d" demo_body a =
    Editor.onPropose None "d" (Form.build live (Form.run (s_opened x) (s_events x))) a'.
Proof.
  intros a.
  destruct (proposals_are_edits None "d" (fun _ => ([], false)) (demo a) demo_end _ (Editor.onPropose None "d" demo_body a)
    (demo_run a)) as (es1 & a' & es2 & s1 & r1 & x & live & E & _ & Hx & _ & _ & Hk & Ho & _).
  - repeat apply Forall_cons_2; try exact I; [reflexivity|apply Forall_nil_2].
  - left.
  - exists es1, a', es2, x, live. exact (conj E (conj Hx (conj Hk Ho))).
Defined.

(** A proposal leaves the form as it is: a second click sends the same change
    again, so that rows are added twice. *)
Definition grid_model : CatalogModel := MkModel "m" "M" [] [MkGrid "g" []] [].
Definition grid_live : CatalogModelLive := MkLive grid_model ∅ ∅ ∅ true false.
Lemma proposed_twice a b :
  snd <$> run None "d"
    [QCatalog (Loaded demo_menu); Select "m"; QModel "m" (Some grid_live); Edit (Form.OpenAdd (MkGrid "g" []));
     Edit (Form.Save (MkGrid "g" [])); Propose a; Propose b] initial
  = Some [Editor.onPropose None "d" (MkBody "m" ∅ [OpAdd "g" ∅]) a;
          Editor.onPropose None "d" (MkBody "m" ∅ [OpAdd "g" ∅]) b].
Proof. reflexivity. Qed.
