(* ===== verification/LogsPage.v ===== *)
(** * The log search: [pages/LogsPage.tsx]

    The page as a machine: filters that can be edited at any time, the search
    and "load more", whose answers land later, the document on display, and
    what the page shows in each state.  The server is that of [Paging]: for
    every search a list of documents behind opaque cursors. *)
From S2P Require Import Prelude Machine JsString Json Stringify Http QueryClient Hooks TenantHooks Picker Paging Views.
From Stdlib Require Import ZArith.

(** ** State *)
Record search := Search { query : string; deviceId : option string; frm : option string; to : option string }.

#[export] Instance search_eq_dec : EqDecision search.
Proof. solve_decision. Defined.

Record page := Page {
  filters : search;
  hits : list json;
  cursor_ : option json;
  total : option json;
  searched : bool;
  flight : option (search * option json);   (* what the request under way was sent with *)
  isError : bool;                           (* [search.isError] *)
  raw : option json;
}.
Definition initial (frm to : string) : page :=
  Page (Search "" None (Some frm) (Some to)) [] None None false None false None.
(** A day up to now, on the browser's clock. *)
Definition mount (clock : Z -> Z) (now : Z) : page :=
  initial (mantineDaysAgo clock 1 now) (mantineDaysAgo clock 0 now).

Inductive event :=
| TypeQuery (s : string)
| PickDevice (d : option string)
| PickFrom (v : option string)
| PickTo (v : option string)
| Run
| LoadMore
| Answered (r : fetch_result)
| OpenRaw (h : json)
| CloseRaw.

(** The control for "load more" is there. *)
Definition offers_more (p : page) : bool := searched p && truthy (cursor_ p).

Section page.
Context (offset : Z -> Z) (activeId : option string).

(** The body of the request of [fetchPage c]; [None]: no bounds, or an invalid
    one, which throws inside the [try]. *)
Definition search_body (c : option json) (f : search) : option json :=
  if negb (present (frm f)) || negb (present (to f)) then None
  else a ← logs_toIso offset (frm f orelse ""); b ← logs_toIso offset (to f orelse "");
       Some (JObj ([("query", JStr (query f)); ("device_id", Apply.nullable (deviceId f)); ("frm", JStr a);
                    ("to", JStr b); ("size", JNum 100)] ++
                   (if truthy c then [("cursor", c orelse JNull)] else []))).

Definition fetchPage (c : option json) (p : page) : page * list request :=
  match search_body c (filters p) with
  | None => (p, [])
  | Some b => (Page (filters p) (hits p) (cursor_ p) (total p) (searched p) (Some (filters p, c)) false (raw p),
               [m_request (Logs.useLogSearch activeId b)])
  end.

Definition with_filters (f : search) (p : page) : page :=
  Page f (hits p) (cursor_ p) (total p) (searched p) (flight p) (isError p) (raw p).

(** The rows and the cursor of an answer. *)
Definition hits_of (res : option json) : list json :=
  match res ≫= field "hits" with Some (JArr l) => l | _ => [] end.
Definition next_cursor_of (res : option json) : option json :=
  let next := res ≫= field "next_cursor" in if nullish next then None else next.

Definition exec (e : event) (p : page) : option (page * list request) :=
  let f := filters p in
  match e with
  | TypeQuery s => Some (with_filters (Search s (deviceId f) (frm f) (to f)) p, [])
  | PickDevice d => Some (with_filters (Search (query f) d (frm f) (to f)) p, [])
  | PickFrom v => Some (with_filters (Search (query f) (deviceId f) v (to f)) p, [])
  | PickTo v => Some (with_filters (Search (query f) (deviceId f) (frm f) v) p, [])
  | Run =>
      match flight p with
      | Some _ => None
      | None => Some (fetchPage None (Page f [] None None (searched p) None (isError p) (raw p)))
      end
  | LoadMore =>
      match flight p with
      | Some _ => None
      | None => if offers_more p then Some (fetchPage (cursor_ p) p) else None
      end
  | Answered r =>
      '(_, c) ← flight p;
      Some (match m_fn (Logs.useLogSearch activeId JNull) r with
            | Threw _ => Page f (hits p) (cursor_ p) (total p) (searched p) None true (raw p)
            | Returned res =>
                Page f (if truthy c then hits p ++ hits_of res else hits_of res) (next_cursor_of res)
                  (res ≫= field "total") true None false (raw p)
            end, [])
  | OpenRaw h => if searched p && bool_decide (h ∈ hits p)
                 then Some (Page f (hits p) (cursor_ p) (total p) (searched p) (flight p) (isError p) (field "source" h), [])
                 else None
  | CloseRaw => Some (Page f (hits p) (cursor_ p) (total p) (searched p) (flight p) (isError p) None, [])
  end.
End page.

(** ** View *)
Inductive piece :=
| Forbidden
| Filters (f : search)
| SearchButton (busy : bool)
| Count (showing : nat) (total : json)
| SearchFailed
| Table (rows : list (list string))
| MoreButton (busy : bool)
| Raw (text : string).

Definition text (o : option json) : string := match o with Some (JStr s) => s | _ => "" end.
(** [deviceName]: the name of a listed device, or the identifier. *)
Definition deviceName (devices : list (string * string)) (i : string) : string := assoc i devices orelse i.
Definition row (devices : list (string * string)) (h : json) : list string :=
  [text (field "timestamp" h); deviceName devices (text (field "device_id" h)); text (field "program" h);
   text (field "message" h)].

Definition LogsPage (isOperator : bool) (devices : list (string * string)) (p : page) : list piece :=
  if negb isOperator then [Forbidden] else
  let busy := match flight p with Some _ => true | None => false end in
  [Filters (filters p); SearchButton busy] ++
  match total p with Some JNull | None => [] | Some n => [Count (length (hits p)) n] end ++
  (if isError p then [SearchFailed] else []) ++
  (if searched p
   then [Table (row devices <$> hits p)] ++ (if truthy (cursor_ p) then [MoreButton busy] else []) else []) ++
  match raw p with Some d => [Raw (stringify "" d)] | None => [] end.

(** ** Searches that page through the documents *)

(** From the history: the filters now, those of the last search, and whether
    every "load more" since was sent with them. *)
Record told := Told { now_ : search; last_ : option search; steady : bool }.
Definition tell (t : told) (e : event) : told :=
  let f := now_ t in
  match e with
  | TypeQuery s => Told (Search s (deviceId f) (frm f) (to f)) (last_ t) (steady t)
  | PickDevice d => Told (Search (query f) d (frm f) (to f)) (last_ t) (steady t)
  | PickFrom v => Told (Search (query f) (deviceId f) v (to f)) (last_ t) (steady t)
  | PickTo v => Told (Search (query f) (deviceId f) (frm f) v) (last_ t) (steady t)
  | Run => Told f (Some f) true
  | LoadMore => Told f (last_ t) (steady t && bool_decide (last_ t = Some f))
  | _ => t
  end.
Definition story (p : page) (es : list event) : told := fold_left tell es (Told (filters p) None true).

Section claims.
Context `{Keyset} (docs : search -> list json) (offset : Z -> Z) (activeId : option string).
Local Notation exec := (exec offset activeId).
Local Notation run := (run exec).

(** The server's answer to a search, and histories in which every answer is
    that, or a failure. *)
Definition reply (f : search) (c : option json) : fetch_result :=
  page_at (docs f) "hits" 100 (match c with Some v => position v | None => 0 end).
Definition fails (r : fetch_result) : Prop := exists m, m_fn (Logs.useLogSearch activeId JNull) r = Threw m.
Definition serves (p0 : page) (es : list event) : Prop :=
  forall es1 r es2 p rs f c, es = es1 ++ Answered r :: es2 -> run es1 p0 = Some (p, rs) ->
    flight p = Some (f, c) -> r = reply f c \/ fails r.

(** [k] pages of the search [f] are shown. *)
Definition shows (f : search) (k : nat) (p : page) : Prop :=
  hits p = take (k * 100) (docs f) /\
  cursor_ p = (if (k =? 0) || (length (docs f) <? k * 100) then None else Some (cursor (k * 100))) /\
  total p = (if k =? 0 then None else Some (JNum (Z.of_nat (length (docs f))))) /\
  (0 < k -> searched p = true).
(** The request under way is for the next page. *)
Definition next_page (f : search) (k : nat) (p : page) : Prop :=
  forall f' c, flight p = Some (f', c) ->
    f' = f /\ (if k =? 0 then c = None else c = Some (cursor (k * 100)) /\ k * 100 <= length (docs f)).
Definition good (t : told) (p : page) : Prop :=
  filters p = now_ t /\
  (steady t = true ->
   match last_ t with
   | Some f => exists k, shows f k p /\ next_page f k p
   | None => hits p = [] /\ cursor_ p = None /\ flight p = None
   end).

Lemma reply_read f c :
  m_fn (Logs.useLogSearch activeId JNull) (reply f c) = Returned (data (reply f c)).
Proof using Type. reflexivity. Qed.
Lemma reply_hits f c :
  hits_of (data (reply f c)) = take 100 (drop (match c with Some v => position v | None => 0 end) (docs f)).
Proof using Type. reflexivity. Qed.
Lemma reply_next f c :
  let n := match c with Some v => position v | None => 0 end in
  next_cursor_of (data (reply f c)) = if n + 100 <=? length (docs f) then Some (cursor (n + 100)) else None.
Proof using Type.
  cbn zeta. set (n := match c with Some v => position v | None => 0 end). unfold next_cursor_of.
  change (data (reply f c) ≫= field "next_cursor") with (Some (next_of (docs f) 100 n)). rewrite next_of_eq by lia.
  destruct (n + 100 <=? length (docs f)); [|done].
  pose proof (cursor_truthy (n + 100)) as Hc. apply truthy_not_nullish in Hc. cbn zeta. by rewrite Hc.
Qed.

(** The answer for the next page shows one more. *)
Lemma land_shows f k p c p' rs :
  shows f k p -> next_page f k p -> flight p = Some (f, c) ->
  exec (Answered (reply f c)) p = Some (p', rs) -> shows f (S k) p' /\ flight p' = None.
Proof using Type.
  intros (Hh & _ & _ & _) Hn Hf He. destruct (Hn _ _ Hf) as [_ Hc]. cbn [LogsPage.exec] in He.
  rewrite Hf in He. cbn [mbind option_bind] in He. rewrite reply_read, reply_hits, reply_next in He.
  injection He as <- _. split; [|done]. unfold shows. cbn [hits cursor_ total searched].
  assert (Hs : (S k =? 0) = false) by done. rewrite Hs. cbn [orb].
  assert (Hp : (if truthy c then hits p else []) = take (k * 100) (docs f) /\
               match c with Some v => position v | None => 0 end = k * 100).
  { destruct (Nat.eqb_spec k 0) as [->|]; [by subst c|]. destruct Hc as [-> _].
    by rewrite cursor_truthy, cursor_position. }
  destruct Hp as [Hp ->]. split_and!; try done.
  - replace (S k * 100) with (k * 100 + 100) by lia. rewrite <- take_take_drop, <- Hp. by destruct (truthy c).
  - replace (k * 100 + 100) with (S k * 100) by lia.
    destruct (Nat.leb_spec (S k * 100) (length (docs f))), (Nat.ltb_spec (length (docs f)) (S k * 100)); (done || lia).
Qed.

(** A failed answer changes nothing of what is shown. *)
Lemma failed_shows p p' rs r f k c :
  fails r -> flight p = Some (f, c) -> exec (Answered r) p = Some (p', rs) ->
  filters p' = filters p /\ flight p' = None /\ isError p' = true /\ (shows f k p -> shows f k p').
Proof using Type.
  intros [m Hm] Hf He. cbn [LogsPage.exec] in He. rewrite Hf in He. cbn [mbind option_bind] in He.
  rewrite Hm in He. by injection He as <- _.
Qed.

(** Sending a page: the request is under way, or nothing changed. *)
Lemma fetchPage_flight c p p' rs :
  fetchPage offset activeId c p = (p', rs) ->
  filters p' = filters p /\ hits p' = hits p /\ cursor_ p' = cursor_ p /\ total p' = total p /\
  searched p' = searched p /\ (flight p' = flight p \/ flight p' = Some (filters p, c)).
Proof using Type. unfold fetchPage. destruct (search_body offset c (filters p)); intros [= <- <-]; naive_solver. Qed.

Lemma exec_good es p0 p rs e p' rs' :
  run es p0 = Some (p, rs) -> serves p0 (es ++ [e]) -> good (story p0 es) p -> exec e p = Some (p', rs') ->
  good (story p0 (es ++ [e])) p'.
Proof using Type.
  intros Hr Hsv [Hf Hg] He. unfold story. rewrite fold_left_app. cbn [fold_left]. fold (story p0 es).
  destruct e as [s|d|v|v| | |r|h| ]; cbn [LogsPage.exec] in He.
  1-4: injection He as <- _; (split; [cbn [tell now_ with_filters filters]; by rewrite <- Hf|exact Hg]).
  - destruct (flight p) eqn:Efl; [done|]. injection He as He.
    apply fetchPage_flight in He as (H1 & H2 & H3 & H4 & H5 & H6). cbn [filters flight hits cursor_ total searched] in *.
    split; [cbn [tell now_]; congruence|]. intros _. cbn [tell last_]. exists 0. split.
    + unfold shows. cbn. rewrite H2, H3, H4. split_and!; (done || lia).
    + intros f' c Hfl. rewrite Hfl in H6. destruct H6 as [|[= -> ->]]; [done|]. done.
  - destruct (flight p) eqn:Efl; [done|]. destruct (offers_more p) eqn:Eo; [|done]. injection He as He.
    apply fetchPage_flight in He as (H1 & H2 & H3 & H4 & H5 & H6).
    split; [cbn [tell now_]; congruence|]. cbn [tell steady last_]. intros [Hst Hl%bool_decide_eq_true]%andb_prop.
    specialize (Hg Hst). rewrite Hl in Hg |- *. destruct Hg as (k & (S1 & S2 & S3 & S4) & _). exists k. split.
    + unfold shows. by rewrite H2, H3, H4, H5.
    + intros f' c Hfl. rewrite Hfl, Efl in H6. destruct H6 as [|[= -> ->]]; [done|]. split; [done|].
      apply andb_prop in Eo as [_ Eo]. rewrite S2 in Eo |- *. destruct (Nat.eqb_spec k 0); [done|]. cbn [orb] in *.
      destruct (Nat.ltb_spec (length (docs (now_ (story p0 es)))) (k * 100)); [done|]. done.
  - destruct (flight p) as [[f c]|] eqn:Efl; [|done].
    assert (Hx : exec (Answered r) p = Some (p', rs')) by (cbn [LogsPage.exec]; rewrite Efl; exact He).
    assert (Hfp : filters p' = filters p) by (cbn [mbind option_bind] in He; case_match; simplify_eq; done).
    split; [cbn [tell]; congruence|]. cbn [tell]. intros Hst. specialize (Hg Hst).
    destruct (last_ (story p0 es)) as [fl|]; [|naive_solver].
    destruct Hg as (k & Hs & Hn). destruct (Hn _ _ Efl) as [-> _].
    destruct (Hsv es r [] p rs fl c eq_refl Hr Efl) as [-> | Hfail].
    + destruct (land_shows _ _ _ _ _ _ Hs Hn Efl Hx) as [Hs' Hf']. exists (S k). split; [done|].
      intros f' c'. by rewrite Hf'.
    + destruct (failed_shows _ _ _ _ _ k _ Hfail Efl Hx) as (_ & Hf' & _ & Hs'). exists k. split; [auto|].
      intros f' c'. by rewrite Hf'.
  - destruct (searched p && _); [|done]. injection He as <- _. split; [exact Hf|exact Hg].
  - injection He as <- _. split; [exact Hf|exact Hg].
Qed.

Lemma run_good es p0 p rs :
  hits p0 = [] -> cursor_ p0 = None -> flight p0 = None -> run es p0 = Some (p, rs) -> serves p0 es ->
  good (story p0 es) p.
Proof using Type.
  intros H1 H2 H3. revert p rs. induction es as [|e es IH] using rev_ind; intros p rs Hr Hs.
  - simpl in Hr. simplify_eq. by split.
  - apply run_snoc in Hr as (p1 & r1 & r2 & Hr1 & He & ->).
    eapply exec_good; [exact Hr1|exact Hs| |exact He]. apply (IH _ _ Hr1).
    intros es1 r es2 q rq f c -> Hq Hf. apply (Hs es1 r (es2 ++ [e]) q rq f c); [by rewrite <- app_assoc|done|done].
Qed.
End claims.

(** C35.  The log search pages through everything once.  In every history of
    the page against a server that answers each search from its documents, or
    fails: as long as the filters of the last search are those of every "load
    more" since, whole pages of that search are shown, from the first document
    on, none missing, repeated or reordered, whatever was searched, edited or
    failed before; "showing" and "of" count them and all; "load more" is
    offered exactly while the last page is full, so as long as documents are
    missing, and when it is not all are shown; each answer shows the next page;
    and a failure loses nothing. *)
Theorem log_search_complete `{Keyset} docs offset activeId a b es p rs f :
  run (exec offset activeId) es (initial a b) = Some (p, rs) -> serves docs offset activeId (initial a b) es ->
  last_ (story (initial a b) es) = Some f -> steady (story (initial a b) es) = true ->
  exists k,
    hits p = take (k * 100) (docs f) /\
    total p = (if k =? 0 then None else Some (JNum (Z.of_nat (length (docs f))))) /\
    (offers_more p = true <-> 0 < k /\ length (hits p) = k * 100) /\
    (0 < k -> length (hits p) < length (docs f) -> offers_more p = true) /\
    (0 < k -> offers_more p = false -> hits p = docs f) /\
    (forall f' c r p' rs', flight p = Some (f', c) -> exec offset activeId (Answered r) p = Some (p', rs') ->
       f' = f /\ (r = reply docs f c -> hits p' = take (S k * 100) (docs f)) /\
       (fails activeId r -> hits p' = hits p /\ cursor_ p' = cursor_ p /\ isError p' = true)).
Proof.
  intros Hr Hs Hl Hst.
  destruct (run_good docs offset activeId es (initial a b) p rs eq_refl eq_refl eq_refl Hr Hs) as [_ Hg].
  specialize (Hg Hst). rewrite Hl in Hg. destruct Hg as (k & Hsh & Hn). exists k.
  pose proof Hsh as (Hh & Hc & Ht & Hse).
  assert (Ho : offers_more p = true <-> 0 < k /\ k * 100 <= length (docs f)).
  { unfold offers_more. rewrite andb_true_iff, Hc. destruct (Nat.eqb_spec k 0) as [->|]; cbn [orb].
    - split; [by intros [_ ?]|lia].
    - destruct (Nat.ltb_spec (length (docs f)) (k * 100)); [split; [by intros [_ ?]|lia]|].
      rewrite cursor_truthy. split; [lia|]. intros. split; [apply Hse; lia|done]. }
  split_and!; [done|done| | | |].
  - rewrite Ho, Hh, length_take. lia.
  - rewrite Ho, Hh, length_take. lia.
  - intros Hk Hf. rewrite Hh. apply take_ge. destruct (decide (k * 100 <= length (docs f))); [|lia].
    rewrite (proj2 Ho) in Hf by done. done.
  - intros f' c r p' rs' Hfl He. destruct (Hn _ _ Hfl) as [-> _]. split; [done|]. split.
    + intros ->. by destruct (land_shows _ _ _ _ _ _ _ _ _ Hsh Hn Hfl He) as [(-> & _) _].
    + intros [m Hm]. cbn [exec] in He. rewrite Hfl in He. cbn [mbind option_bind] in He.
      rewrite Hm in He. by injection He as <- _.
Qed.

(** ** On a server with 150 documents per query *)
Definition logs (f : search) : list json := replicate 150 (JStr (query f)).
Definition from_ : string := "2024-06-09 00:00:00".
Definition until : string := "2024-06-10 00:00:00".
Definition state_after (es : list event) : page * list request :=
  match run (exec (fun _ => 0%Z) (Some "t")) es (initial from_ until) with Some r => r | None => (initial from_ until, []) end.
Definition of_ (q : string) : search := Search q None (Some from_) (Some until).
Definition searching : list event :=
  [TypeQuery "a"; Run; Answered (reply logs (of_ "a") None); LoadMore; Answered (reply logs (of_ "a") (Some (cursor 100)))].

Lemma searching_served : serves logs (fun _ => 0%Z) (Some "t") (initial from_ until) searching.
Proof.
  intros es1 r es2 p rs f c He Hr Hf. left.
  do 5 (destruct es1 as [|? es1]; [try discriminate He; injection He as <- <-; vm_compute in Hr; injection Hr as <- <-;
          injection Hf as <- <-; reflexivity|injection He as <- He]).
  by destruct es1.
Qed.

Lemma log_search_complete_witness : hits (state_after searching).1 = replicate 150 (JStr "a").
Proof.
  destruct (log_search_complete logs (fun _ => 0%Z) (Some "t") from_ until searching (state_after searching).1
              (state_after searching).2 (of_ "a") eq_refl searching_served eq_refl eq_refl)
    as (k & Hh & Ht & Ho & _ & Hall & _).
  refine (Hall _ eq_refl). destruct k as [|k]; [discriminate Ht|]. exact (Nat.lt_0_succ k).
Defined.

(** Loading more after the query was edited appends documents of the new query
    to those of the old one. *)
Lemma edited_search_mixes :
  hits (state_after [TypeQuery "a"; Run; Answered (reply logs (of_ "a") None); TypeQuery "b"; LoadMore;
                     Answered (reply logs (of_ "b") (Some (cursor 100)))]).1 =
  replicate 100 (JStr "a") ++ replicate 50 (JStr "b").
Proof. vm_compute. reflexivity. Qed.

(** As many documents as fill their last page: the page shows them all, offers
    more, and the page that loads is empty. *)
Lemma full_page_offers_more :
  let docs := fun f => replicate 100 (JStr (query f)) in
  let es := [TypeQuery "a"; Run; Answered (reply docs (of_ "a") None)] in
  let after := es ++ [LoadMore; Answered (reply docs (of_ "a") (Some (cursor 100)))] in
  hits (state_after es).1 = replicate 100 (JStr "a") /\ offers_more (state_after es).1 = true /\
  hits (state_after after).1 = replicate 100 (JStr "a") /\ offers_more (state_after after).1 = false.
Proof. vm_compute. done. Qed.

(** A search that fails leaves an empty table under its error. *)
Lemma failed_search_shows_no_rows devices :
  LogsPage true devices (state_after (searching ++ [Run; Answered (FetchResult None (Some (JStr "down")) 500)])).1 =
  [Filters (of_ "a"); SearchButton false; SearchFailed; Table []].
Proof. vm_compute. reflexivity. Qed.
