(* ===== verification/Timeline.v ===== *)
(** * The device timelines: [reliability/ReliabilityTab.tsx], [configaudit/ConfigAuditTab.tsx]

    A timeline as a machine beside its server: the pages fetched so far, the
    fetch under way (the next page, or all pages again), answers and failures
    that land later, and a server whose list of events keeps growing at the
    front.  [useInfiniteQuery] is library code; what is used of it is its
    documented behaviour: one fetch at a time, a refetch takes the pages one
    after the other from the first, and asking for the next page gives up a
    refetch under way. *)
From S2P Require Import Prelude Machine JsString Json Http QueryClient Hooks TenantHooks Paging Views.
From Stdlib Require Import ZArith.

(** ** The events endpoint *)

(** String cursors: the type the events API declares. *)
Class StringKeyset `{Keyset} := cursor_string n : exists s, cursor n = JStr s.
#[export] Instance unary_string : StringKeyset.
Proof. intros n. eexists. reflexivity. Qed.

Section server.
Context `{Keyset}.

(** Newest events first ([EventRepository.list_page]); a cursor stands for the
    events older than the last of its page, however many newer ones arrive,
    and comes with every full page. *)
Definition next_cursor (docs : list json) (size n : nat) : json :=
  if length (take size (drop n docs)) =? size then cursor (length docs - (n + size)) else JNull.
Definition events_server (docs : list json) (rq : request) : fetch_result :=
  let size := match assoc "limit" (rq_query rq) with Some (Some (JNum n)) => Z.to_nat n | _ => 0 end in
  let n := match assoc "after" (rq_query rq) with Some (Some c) => length docs - position c | _ => 0 end in
  FetchResult (Some (JObj [("items", JArr (take size (drop n docs))); ("next_cursor", next_cursor docs size n)]))
    None 200.

(** What a hook makes of the page at a position, and the first pages. *)
Definition event_page_at (docs : list json) (n : nat) : json :=
  JObj [("items", JArr (take 50 (drop n docs))); ("next_cursor", next_cursor docs 50 n)].
Definition first_pages (docs : list json) (k : nat) : list json :=
  (fun i => event_page_at docs (i * 50)) <$> seq 0 k.
End server.

(** ** State *)
Inductive timeline_hook := Reliability | ConfigAudit.
Definition hook_of (h : timeline_hook) (t : option string) (d : string) : option string -> query :=
  match h with
  | Reliability => Windows.useReliabilityEvents t d
  | ConfigAudit => Windows.useConfigAuditEvents t d
  end.

(** A fetch: of the next page, or of all pages again: those it has, how many
    follow the one it waits for, and the parameter of that one. *)
Inductive ask :=
| NextPage (c : string)
| Again (got : list json) (left : nat) (c : option string).
Definition pageParam (a : ask) : option string := match a with NextPage c => Some c | Again _ _ c => c end.

Record tab := Tab { shown : option (list json); failed : bool; flight : option ask }.
Record world := World { docs : list json; page : tab; wire : option fetch_result }.
Definition start (docs : list json) : world := World docs (Tab None false None) None.

Inductive event :=
| Grow (new : list json)       (* new events on the server *)
| Refetch                      (* the tab mounts, or its window gets the focus *)
| More                         (* "load more" *)
| Read                         (* the server answers *)
| Land                         (* the answer arrives *)
| Fail (r : fetch_result).     (* an error arrives *)

Definition hasNextPage (pages : list json) : option json := last pages ≫= Windows.getNextPageParam.
(** [data?.pages.flatMap((p) => p.items) ?? []] *)
Definition items (p : json) : list json := match field "items" p with Some (JArr l) => l | _ => [] end.
Definition rows (pages : list json) : list json := concat (items <$> pages).
(** The cursor "load more" would send. *)
Definition more (s : tab) : option string :=
  match shown s ≫= hasNextPage with Some (JStr c) => Some c | _ => None end.
Definition loading_more (s : tab) : bool := match flight s with Some (NextPage _) => true | _ => false end.

Section timeline.
Context `{Keyset} (h : timeline_hook) (t : option string) (d : string).
Local Notation hook := (hook_of h t d).

Definition sends (a : ask) : list request := [q_request (hook (pageParam a))].

(** A page, or an error, arrives for a fetch. *)
Definition receive (a : ask) (r : fetch_result) (s : tab) : tab * list request :=
  match q_fn (hook (pageParam a)) r with
  | Returned (Some p) =>
      match a with
      | NextPage _ => (Tab (Some ((shown s orelse []) ++ [p])) false None, [])
      | Again got n _ =>
          match n, Windows.getNextPageParam p with
          | S rest, Some (JStr c) =>
              let a := Again (got ++ [p]) rest (Some c) in (Tab (shown s) (failed s) (Some a), sends a)
          | _, _ => (Tab (Some (got ++ [p])) false None, [])
          end
      end
  | _ => (Tab (shown s) true None, [])
  end.

Definition exec (e : event) (w : world) : option (world * list request) :=
  let s := page w in
  match e with
  | Grow new => Some (World (new ++ docs w) s (wire w), [])
  | Refetch =>
      if negb (q_enabled (hook None)) then None
      else match flight s with
           | Some _ => Some (w, [])
           | None =>
               let a := Again [] (length (shown s orelse []) - 1) None in
               Some (World (docs w) (Tab (shown s) (failed s && bool_decide (is_Some (shown s))) (Some a)) None, sends a)
           end
  | More =>
      c ← more s;
      if loading_more s then None
      else Some (World (docs w) (Tab (shown s) (failed s) (Some (NextPage c))) None, sends (NextPage c))
  | Read =>
      a ← flight s;
      match wire w with
      | Some _ => None
      | None => Some (World (docs w) s (Some (events_server (docs w) (q_request (hook (pageParam a))))), [])
      end
  | Land =>
      a ← flight s; r ← wire w;
      let '(s', rs) := receive a r s in Some (World (docs w) s' None, rs)
  | Fail r =>
      a ← flight s;
      match q_fn (hook (pageParam a)) r with
      | Threw _ => let '(s', rs) := receive a r s in Some (World (docs w) s' None, rs)
      | Returned _ => None
      end
  end.
End timeline.

(** ** View *)
Import Remote.
Inductive piece := Listing (b : block json) | LoadMore (busy : bool).

(** The state of the query, as its reader sees it. *)
Definition query_of (s : tab) : remote (list (list json)) :=
  let data := (fun ps : list json => items <$> ps) <$> shown s in
  match data with
  | Some ps => if failed s then Failed (Some ps) else Loaded ps
  | None => if failed s then Failed None else match flight s with Some _ => Fetching | None => Disabled end
  end.
Definition TimelineTab (h : timeline_hook) (s : tab) : list piece :=
  (Listing <$> match h with
               | Reliability => Events.ReliabilityTab (query_of s)
               | ConfigAudit => Events.ConfigAuditTab (query_of s)
               end) ++
  match more s with Some _ => [LoadMore (loading_more s)] | None => [] end.

(** ** The pages fetched are those of one reading of the server *)
Section claims.
Context `{StringKeyset} (h : timeline_hook) (t : option string) (d : string).
Local Notation hook := (hook_of h t d).
Local Notation exec := (exec h t d).
Local Notation run := (run exec).

Lemma next_cursor_eq D n : next_cursor D 50 n = if n + 50 <=? length D then cursor (length D - (n + 50)) else JNull.
Proof using Type.
  unfold next_cursor. rewrite length_take, length_drop.
  destruct (Nat.eqb_spec (50 `min` (length D - n)) 50), (Nat.leb_spec (n + 50) (length D)); (done || lia).
Qed.

Lemma next_page D n :
  Windows.getNextPageParam (event_page_at D n) = if n + 50 <=? length D then Some (cursor (length D - (n + 50))) else None.
Proof using Type.
  unfold Windows.getNextPageParam.
  change (field "next_cursor" (event_page_at D n)) with (Some (next_cursor D 50 n)). rewrite next_cursor_eq.
  destruct (n + 50 <=? length D); [|done].
  pose proof (cursor_truthy (length D - (n + 50))) as Hc. apply truthy_not_nullish in Hc. by rewrite Hc.
Qed.

Lemma first_pages_S D k : first_pages D (S k) = first_pages D k ++ [event_page_at D (k * 50)].
Proof using Type. unfold first_pages. by rewrite seq_S, fmap_app. Qed.

Lemma hasNextPage_first D k :
  hasNextPage (first_pages D (S k)) = if S k * 50 <=? length D then Some (cursor (length D - S k * 50)) else None.
Proof using Type.
  unfold hasNextPage. rewrite first_pages_S, last_snoc. cbn [mbind option_bind]. rewrite next_page.
  by replace (k * 50 + 50) with (S k * 50) by lia.
Qed.

Lemma rows_first D k : rows (first_pages D k) = take (k * 50) D.
Proof using Type.
  induction k as [|k IH]; [done|]. rewrite first_pages_S. unfold rows in *. rewrite fmap_app, concat_app, IH.
  cbn [fmap list_fmap concat]. rewrite app_nil_r.
  change (items (event_page_at D (k * 50))) with (take 50 (drop (k * 50) D)). rewrite take_take_drop. f_equal. lia.
Qed.

Lemma cursor_or D n : json_or (Some (next_cursor D 50 n)) JNull = next_cursor D 50 n.
Proof using Type. by destruct (next_cursor D 50 n). Qed.

(** What the hooks ask, and what they make of the answer. *)
Lemma reads_first D : q_fn (hook None) (events_server D (q_request (hook None))) = Returned (Some (event_page_at D 0)).
Proof using Type.
  unfold event_page_at. rewrite <- cursor_or. by destruct h.
Qed.

Lemma same_page D D' n n' :
  drop n D = drop n' D' -> length D - n = length D' - n' -> event_page_at D n = event_page_at D' n'.
Proof using Type.
  intros Hd Hl. unfold event_page_at, next_cursor. rewrite Hd.
  by replace (length D - (n + 50)) with (length D' - (n' + 50)) by lia.
Qed.

(** However the server has grown: the page after a cursor is the page that
    followed when the cursor was given. *)
Lemma reads_next D0 D n c :
  D `suffix_of` D0 -> n <= length D -> JStr c = cursor (length D - n) ->
  q_fn (hook (Some c)) (events_server D0 (q_request (hook (Some c)))) = Returned (Some (event_page_at D n)).
Proof using Type.
  intros [new ->] Hn Hc.
  rewrite <- (same_page (new ++ D) D (length (new ++ D) - position (JStr c)) n).
  - unfold event_page_at. rewrite <- cursor_or. by destruct h.
  - rewrite Hc, cursor_position, length_app.
    replace (length new + length D - (length D - n)) with (length new + n) by lia. apply drop_app_add.
  - rewrite Hc, cursor_position, length_app. lia.
Qed.

Context (w0 : world).
Definition read_at (es : list event) (D : list json) : Prop :=
  exists es1 es2 w rs, es = es1 ++ Read :: es2 /\ run es1 w0 = Some (w, rs) /\ docs w = D.
(** [k] pages of a list of events the server had when it was read. *)
Definition snap (es : list event) (w : world) (D : list json) (k : nat) : Prop :=
  0 < k /\ (k - 1) * 50 <= length D /\ D `suffix_of` docs w /\ read_at es D.
(** What is on its way for a fetch is this page, or an error. *)
Definition brings (w : world) (a : ask) (p : json) : Prop :=
  forall r, wire w = Some r -> q_fn (hook (pageParam a)) r = Returned (Some p).
Definition pending (es : list event) (w : world) (a : ask) : Prop :=
  match a with
  | NextPage c =>
      exists D k, shown (page w) = Some (first_pages D k) /\ snap es w D k /\ k * 50 <= length D /\
        JStr c = cursor (length D - k * 50) /\ brings w a (event_page_at D (k * 50))
  | Again got _ None =>
      got = [] /\
      forall r, wire w = Some r -> exists D, D `suffix_of` docs w /\ read_at es D /\
        q_fn (hook None) r = Returned (Some (event_page_at D 0))
  | Again got _ (Some c) =>
      exists D k, got = first_pages D k /\ snap es w D k /\ k * 50 <= length D /\
        JStr c = cursor (length D - k * 50) /\ brings w a (event_page_at D (k * 50))
  end.
Definition good (es : list event) (w : world) : Prop :=
  (forall ps, shown (page w) = Some ps -> exists D k, snap es w D k /\ ps = first_pages D k) /\
  match flight (page w) with Some a => pending es w a | None => wire w = None end.

Lemma read_at_snoc es e D : read_at es D -> read_at (es ++ [e]) D.
Proof using Type.
  intros (es1 & es2 & w & rs & -> & Hr & Hd). exists es1, (es2 ++ [e]), w, rs. by rewrite <- app_assoc.
Qed.
Lemma snap_step es w e w' D k : snap es w D k -> docs w `suffix_of` docs w' -> snap (es ++ [e]) w' D k.
Proof using Type.
  intros (H1 & H2 & H3 & H4) Hs. split_and!; [done|done|by transitivity (docs w)|by apply read_at_snoc].
Qed.
Lemma snap_more es e w D k : snap es w D k -> k * 50 <= length D -> snap (es ++ [e]) w D (S k).
Proof using Type.
  intros (H1 & H2 & H3 & H4) Hk. split_and!; [lia|lia|done|by apply read_at_snoc].
Qed.

(** Pages that are kept stay pages of a reading. *)
Lemma shown_step es w e w' :
  (forall ps, shown (page w) = Some ps -> exists D k, snap es w D k /\ ps = first_pages D k) ->
  docs w `suffix_of` docs w' -> shown (page w') = shown (page w) ->
  forall ps, shown (page w') = Some ps -> exists D k, snap (es ++ [e]) w' D k /\ ps = first_pages D k.
Proof using Type.
  intros Hg Hs -> ps Hps. destruct (Hg ps Hps) as (D & k & H1 & H2). exists D, k. split; [by eapply snap_step|done].
Qed.

(** A fetch stays pending while the server grows, and when it is read. *)
Lemma pending_step es w e w' a :
  pending es w a -> docs w `suffix_of` docs w' -> shown (page w') = shown (page w) -> wire w' = wire w ->
  pending (es ++ [e]) w' a.
Proof using Type.
  intros Hp Hs Hsh Hw. destruct a as [c|got n [c|]]; cbn [pending] in *.
  - destruct Hp as (D & k & H1 & H2 & H3 & H4 & H5). exists D, k. rewrite Hsh. split_and!; try done.
    + by eapply snap_step.
    + intros r. rewrite Hw. apply H5.
  - destruct Hp as (D & k & H1 & H2 & H3 & H4 & H5). exists D, k. split_and!; try done.
    + by eapply snap_step.
    + intros r. rewrite Hw. apply H5.
  - destruct Hp as [-> Hr]. split; [done|]. intros r. rewrite Hw. intros Hr'. destruct (Hr r Hr') as (D & H1 & H2 & H3).
    exists D. split_and!; [by transitivity (docs w)|by apply read_at_snoc|done].
Qed.

Lemma pending_read es w rs a :
  run es w0 = Some (w, rs) -> pending es w a -> flight (page w) = Some a ->
  pending (es ++ [Read]) (World (docs w) (page w) (Some (events_server (docs w) (q_request (hook (pageParam a)))))) a.
Proof using Type.
  intros Hrun Hp Hf. destruct a as [c|got n [c|]]; cbn [pending pageParam docs page wire] in *.
  - destruct Hp as (D & k & H1 & H2 & H3 & H4 & H5). exists D, k. split_and!; try done.
    + eapply snap_step; [done|]. done.
    + intros r [= <-]. apply reads_next; [by destruct H2 as (_ & _ & ? & _)|done|done].
  - destruct Hp as (D & k & H1 & H2 & H3 & H4 & H5). exists D, k. split_and!; try done.
    + eapply snap_step; [done|]. done.
    + intros r [= <-]. apply reads_next; [by destruct H2 as (_ & _ & ? & _)|done|done].
  - destruct Hp as [-> _]. split; [done|]. intros r [= <-]. exists (docs w). split_and!; [done| |apply reads_first].
    exists es, [], w, rs. done.
Qed.

(** The page after the last of a reading, and whether one follows it. *)
Lemma received_again es w e D k got n c r s' rs :
  got = first_pages D k -> q_fn (hook c) r = Returned (Some (event_page_at D (k * 50))) ->
  (k * 50 <= length D /\ D `suffix_of` docs w /\ read_at es D) -> good es w ->
  receive h t d (Again got n c) r (page w) = (s', rs) -> good (es ++ [e]) (World (docs w) s' None).
Proof using All.
  intros -> Hq (Hk & Hs & Hr) [Hg _]. unfold receive. cbn [pageParam]. rewrite Hq.
  assert (Hsnap : snap (es ++ [e]) (World (docs w) s' None) D (S k)).
  { split_and!; [lia|lia|done|by apply read_at_snoc]. }
  rewrite next_page, <- first_pages_S. replace (k * 50 + 50) with (S k * 50) by lia.
  assert (Hdone : good (es ++ [e]) (World (docs w) (Tab (Some (first_pages D (S k))) false None) None)).
  { split; [|done]. intros ps [= <-]. by exists D, (S k). }
  destruct n as [|n]; [by intros [= <- <-]|].
  destruct (Nat.leb_spec (S k * 50) (length D)) as [Hl|]; [|by intros [= <- <-]].
  destruct (cursor_string (length D - S k * 50)) as [s Hc]. rewrite Hc. intros [= <- <-]. split.
  - eapply shown_step; [exact Hg|done|done].
  - cbn [pending page flight]. exists D, (S k). by split_and!.
Qed.

Lemma landed_good es w a r s' rs e :
  good es w -> flight (page w) = Some a -> wire w = Some r -> receive h t d a r (page w) = (s', rs) ->
  good (es ++ [e]) (World (docs w) s' None).
Proof using All.
  intros Hgood Hf Hw He. destruct (Hgood) as [_ Hp]. rewrite Hf in Hp. destruct a as [c|got n [c|]]; cbn [pending] in Hp.
  - destruct Hp as (D & k & H1 & H2 & H3 & H4 & H5). unfold receive in He. rewrite (H5 r Hw) in He. injection He as <- <-.
    split; [|done]. intros ps [= <-]. exists D, (S k). rewrite H1. unfold id. rewrite first_pages_S.
    split; [by apply snap_more|done].
  - destruct Hp as (D & k & -> & (_ & _ & H2 & H2') & H3 & H4 & H5).
    eapply received_again; [done|apply (H5 r Hw)|done|done|exact He].
  - destruct Hp as [-> Hr]. destruct (Hr r Hw) as (D & H1 & H2 & H3).
    eapply (received_again _ _ _ D 0); [done|exact H3|split_and!; [lia|done|done]|done|exact He].
Qed.

(** A failure keeps the pages. *)
Lemma receive_threw a r s m :
  q_fn (hook (pageParam a)) r = Threw m -> receive h t d a r s = (Tab (shown s) true None, []).
Proof using Type. intros Hq. unfold receive. by rewrite Hq. Qed.

Lemma more_spec s c D k :
  more s = Some c -> shown s = Some (first_pages D k) -> 0 < k ->
  k * 50 <= length D /\ JStr c = cursor (length D - k * 50).
Proof using All.
  unfold more. intros Hm Hs Hk. rewrite Hs in Hm. cbn [mbind option_bind] in Hm.
  destruct k as [|k]; [lia|]. rewrite hasNextPage_first in Hm.
  destruct (Nat.leb_spec (S k * 50) (length D)); [|done]. split; [done|].
  destruct (cursor (length D - S k * 50)); by simplify_eq/=.
Qed.

Lemma keeps_good es w rs e w' rs' :
  run es w0 = Some (w, rs) -> good es w -> exec e w = Some (w', rs') -> good (es ++ [e]) w'.
Proof using All.
  intros Hrun Hgood He. pose proof Hgood as [Hg Hp]. destruct e as [new| | | | |r]; cbn [Timeline.exec] in He.
  - injection He as <- _. split; [eapply shown_step; [exact Hg|by exists new|done]|]. cbn [page docs wire].
    destruct (flight (page w)); [|done]. eapply pending_step; [exact Hp|by exists new|done|done].
  - destruct (negb _); [done|]. destruct (flight (page w)) as [a|] eqn:Ef; injection He as <- _.
    + split; [by eapply shown_step|]. rewrite Ef. by eapply pending_step.
    + split; [by eapply shown_step|]. by cbn.
  - destruct (more (page w)) as [c|] eqn:Em; [|done]. cbn [mbind option_bind] in He.
    destruct (loading_more (page w)); [done|]. injection He as <- _. split; [by eapply shown_step|].
    cbn [page flight pending]. unfold more in Em. destruct (shown (page w)) as [ps|] eqn:Es; [|done].
    destruct (Hg ps eq_refl) as (D & k & Hsn & ->). exists D, k.
    destruct (more_spec (page w) c D k) as [H1 H2]; [by unfold more; rewrite Es|done|by destruct Hsn|].
    split_and!; [by cbn|by eapply snap_step|done|done|done].
  - destruct (flight (page w)) as [a|] eqn:Ef; [|done]. cbn [mbind option_bind] in He.
    destruct (wire w); [done|]. injection He as <- _. split; [by eapply shown_step|]. cbn [page]. rewrite Ef.
    by eapply pending_read.
  - destruct (flight (page w)) as [a|] eqn:Ef; [|done]. cbn [mbind option_bind] in He.
    destruct (wire w) as [r|] eqn:Ew; [|done]. destruct (receive h t d a r (page w)) as [s' q] eqn:Er. cbn [mbind option_bind] in He. rewrite Er in He. injection He as <- _.
    by eapply landed_good.
  - destruct (flight (page w)) as [a|] eqn:Ef; [|done]. cbn [mbind option_bind] in He.
    destruct (q_fn _ r) eqn:Eq; [done|]. rewrite (receive_threw _ _ _ _ Eq) in He. injection He as <- _.
    split; [by eapply shown_step|done].
Qed.

Lemma history_good es w rs : shown (page w0) = None -> flight (page w0) = None -> wire w0 = None ->
  run es w0 = Some (w, rs) -> good es w.
Proof using All.
  intros H1 H2 H3. apply (run_history exec (fun es w _ => good es w)).
  - split; [by rewrite H1|by rewrite H2].
  - intros; by eapply keeps_good.
Qed.

(** The next page under way continues the reading on screen. *)
Lemma reading es w ps : good es w -> shown (page w) = Some ps ->
  exists D k, snap es w D k /\ ps = first_pages D k /\
    (forall w' rs, loading_more (page w) = true -> exec Land w = Some (w', rs) ->
       page w' = Tab (Some (first_pages D (S k))) false None).
Proof using Type.
  intros [Hg Hp] Hps. unfold loading_more. destruct (flight (page w)) as [[c|]|] eqn:Ef.
  - cbn [pending] in Hp. destruct Hp as (D & k & H1 & H2 & H3 & H4 & H5). exists D, k.
    rewrite Hps in H1. injection H1 as ->. split_and!; try done.
    intros w' rs _ He. cbn [Timeline.exec] in He. rewrite Ef in He. cbn [mbind option_bind] in He.
    destruct (wire w) as [r|] eqn:Ew; [|done]. cbn [mbind option_bind] in He.
    unfold receive in He. rewrite (H5 r Ew) in He. injection He as <- _. cbn [page].
    rewrite Hps. cbn [default]. unfold id. by rewrite <- first_pages_S.
  - destruct (Hg ps Hps) as (D & k & H1 & H2). by exists D, k.
  - destruct (Hg ps Hps) as (D & k & H1 & H2). by exists D, k.
Qed.

(** A failure is an error over the same pages. *)
Lemma fail_keeps r w w' rs : exec (Fail r) w = Some (w', rs) -> page w' = Tab (shown (page w)) true None.
Proof using Type.
  cbn [Timeline.exec]. destruct (flight (page w)) as [a|]; [|done]. cbn [mbind option_bind].
  destruct (q_fn (hook (pageParam a)) r) eqn:E; [done|]. rewrite (receive_threw _ _ _ _ E). by intros [= <- _].
Qed.

(** ** From any quiet state all events can be brought on screen *)
Definition asked (D : list json) (k : nat) (c : option string) : Prop :=
  match c with
  | None => k = 0
  | Some c => k * 50 <= length D /\ JStr c = cursor (length D - k * 50)
  end.
Definition quiet (D : list json) (k : nat) : world := World D (Tab (Some (first_pages D k)) false None) None.

Lemma reads_asked D k c : asked D k c ->
  q_fn (hook c) (events_server D (q_request (hook c))) = Returned (Some (event_page_at D (k * 50))).
Proof using Type. destruct c as [c|]; [|intros ->; apply reads_first]. intros [H1 H2]. by apply reads_next. Qed.

Lemma run_read_land a s D s' rs :
  flight s = Some a -> receive h t d a (events_server D (q_request (hook (pageParam a)))) s = (s', rs) ->
  run [Read; Land] (World D s None) = Some (World D s' None, rs).
Proof using Type.
  intros Hf Hr. cbn [Machine.run Timeline.exec page wire docs]. rewrite Hf. cbn [mbind option_bind Timeline.exec page wire docs].
  rewrite Hf. cbn [mbind option_bind]. rewrite Hr. cbn. by rewrite app_nil_r.
Qed.

Lemma refetch_ends n : forall D k c sh f,
  asked D k c ->
  exists es rs k', run es (World D (Tab sh f (Some (Again (first_pages D k) n c))) None) = Some (quiet D (S k'), rs).
Proof using H0.
  induction n as [|n IH]; intros D k c sh f Hc.
  - exists [Read; Land], [], k. eapply run_read_land; [done|]. unfold receive. cbn [pageParam].
    by rewrite (reads_asked _ _ _ Hc), <- first_pages_S.
  - destruct (decide (S k * 50 <= length D)) as [Hk|Hk].
    + destruct (cursor_string (length D - S k * 50)) as [s Hs].
      destruct (IH D (S k) (Some s) sh f) as (es & rs & k' & Hr); [by split|].
      exists ([Read; Land] ++ es). eexists _, k'. apply run_app. eexists _, _, rs. split; [|split; [exact Hr|done]].
      eapply run_read_land; [done|]. unfold receive. cbn [pageParam].
      rewrite (reads_asked _ _ _ Hc), <- first_pages_S, next_page.
      replace (k * 50 + 50) with (S k * 50) by lia. by rewrite (proj2 (Nat.leb_le _ _) Hk), Hs.
    + exists [Read; Land], [], k. eapply run_read_land; [done|]. unfold receive. cbn [pageParam].
      rewrite (reads_asked _ _ _ Hc), <- first_pages_S, next_page.
      replace (k * 50 + 50) with (S k * 50) by lia. by rewrite (proj2 (Nat.leb_gt _ _)) by lia.
Qed.

Lemma more_quiet D k :
  more (page (quiet D (S k))) =
    if S k * 50 <=? length D then match cursor (length D - S k * 50) with JStr c => Some c | _ => None end else None.
Proof using Type.
  unfold more, quiet. cbn [page shown mbind option_bind]. rewrite hasNextPage_first. by destruct (_ <=? _).
Qed.

Lemma load_all m : forall D k, length D < (S k + m) * 50 ->
  exists es rs k', run es (quiet D (S k)) = Some (quiet D (S k'), rs) /\ length D < S k' * 50.
Proof using H0.
  induction m as [|m IH]; intros D k Hm; [exists [], [], k; split; [done|lia]|].
  destruct (decide (S k * 50 <= length D)) as [Hk|Hk]; [|exists [], [], k; split; [done|lia]].
  destruct (cursor_string (length D - S k * 50)) as [s Hs].
  destruct (IH D (S k)) as (es & rs & k' & Hr & Hl); [lia|].
  exists ([More; Read; Land] ++ es). eexists _, k'. split; [|done]. apply run_app. eexists _, _, rs.
  split; [|split; [exact Hr|done]]. apply run_cons. eexists _, _, _. split; [|split; [|reflexivity]].
  - cbn [Timeline.exec]. rewrite more_quiet, (proj2 (Nat.leb_le _ _) Hk), Hs. done.
  - cbn [quiet docs page shown failed]. eapply run_read_land; [done|]. unfold receive. cbn [pageParam].
    rewrite (reads_asked D (S k) (Some s)) by done. cbn [shown from_option default id]. by rewrite <- first_pages_S.
Qed.

Lemma all_shown D s : q_enabled (hook None) = true -> flight s = None ->
  exists es rs k, run es (World D s None) = Some (quiet D (S k), rs) /\ rows (first_pages D (S k)) = D.
Proof using H0.
  intros He Hf.
  destruct (refetch_ends (length (shown s orelse []) - 1) D 0 None (shown s)
              (failed s && bool_decide (is_Some (shown s))) eq_refl) as (es1 & rs1 & k & Hr1).
  destruct (load_all (length D) D k) as (es2 & rs2 & k' & Hr2 & Hl); [lia|].
  exists ([Refetch] ++ es1 ++ es2). eexists _, k'. split; [|rewrite rows_first; by apply take_ge, Nat.lt_le_incl].
  apply run_app. eexists _, _, _. split; [|split; [|reflexivity]]; [|apply run_app; eauto 10].
  cbn [Machine.run Timeline.exec page docs]. rewrite He, Hf. reflexivity.
Qed.

(** The end of a reading: no cursor, and nothing left. *)
Lemma more_first s D k : shown s = Some (first_pages D k) -> 0 < k -> (more s = None <-> length D < k * 50).
Proof using H0.
  intros Hs Hk. destruct k as [|k]; [lia|]. unfold more. rewrite Hs. cbn [mbind option_bind]. rewrite hasNextPage_first.
  destruct (Nat.leb_spec (S k * 50) (length D)) as [Hl|Hl].
  - destruct (cursor_string (length D - S k * 50)) as [c ->]. split; [done|lia].
  - done.
Qed.
End claims.

(** What the tab shows of a state: a listing of its rows, and "load more". *)
Definition group (h : timeline_hook) : string :=
  match h with Reliability => "reliability" | ConfigAudit => "configAudit" end.
Definition body (h : timeline_hook) (s : tab) : list (block json) :=
  listing [group h; "loadError"] [group h; "empty"] (seen_as (@concat json) (query_of s)).

Lemma tab_listing h s :
  TimelineTab h s = (Listing <$> body h s) ++ match more s with Some _ => [LoadMore (loading_more s)] | None => [] end.
Proof.
  unfold TimelineTab, body, query_of, Events.ReliabilityTab, Events.ConfigAuditTab.
  destruct h, (shown s) as [ps|], (failed s), (flight s); cbn [fmap option_fmap option_map group];
    rewrite ?(proj1 (Events.timeline_listing _ _ _)), ?(proj2 (Events.timeline_listing _ _ _)); reflexivity.
Qed.

Lemma result_rows s : result (seen_as (@concat json) (query_of s)) = rows <$> shown s.
Proof. unfold query_of. by destruct (shown s), (failed s), (flight s). Qed.
Lemma isError_failed s : isError (seen_as (@concat json) (query_of s)) = failed s.
Proof. unfold query_of. by destruct (shown s), (failed s), (flight s). Qed.

Lemma listing_in h s b : Listing b ∈ TimelineTab h s <-> b ∈ body h s.
Proof.
  rewrite tab_listing, elem_of_app, list_elem_of_fmap. destruct (more s); set_solver.
Qed.

Lemma tab_shows h s :
  (forall l, Listing (Rows l) ∈ TimelineTab h s <-> rows <$> shown s = Some l /\ l <> []) /\
  (Listing (ErrorText [group h; "loadError"]) ∈ TimelineTab h s <-> failed s = true) /\
  (forall b, LoadMore b ∈ TimelineTab h s <-> is_Some (more s) /\ b = loading_more s).
Proof.
  destruct (listing_shows [group h; "loadError"] [group h; "empty"] (seen_as (@concat json) (query_of s)))
    as (_ & Hrows & Herr & _). split_and!.
  - intros l. rewrite listing_in, <- result_rows. apply Hrows.
  - rewrite listing_in, <- isError_failed. apply Herr.
  - intros b. rewrite tab_listing, elem_of_app, list_elem_of_fmap. destruct (more s).
    + rewrite list_elem_of_singleton. naive_solver.
    + split; [intros [(? & ? & ?)|Hb]; [done|by apply not_elem_of_nil in Hb]|intros [[? ?] _]; done].
Qed.

(** C34.  The timelines are complete.  In every history of a device timeline
    (first load, focus refetches, clicks on "load more", answers, failures)
    against a server whose events keep growing: the rows on screen are whole
    pages of the events the server had at one reading, newest first, none
    missing, repeated or reordered; the next page continues that same reading;
    when "load more" is no longer offered all its events are shown; a failure
    loses no row, and is told; the table, the error and the button are on
    screen exactly then; and from any state at rest all events the server has
    can be brought on screen. *)
Theorem timeline_complete `{StringKeyset} h t d D0 es w rs :
  run (exec h t d) es (start D0) = Some (w, rs) ->
  (forall ps, shown (page w) = Some ps -> exists D k,
     read_at h t d (start D0) es D /\ D `suffix_of` docs w /\ 0 < k /\ rows ps = take (k * 50) D /\
     (more (page w) = None -> rows ps = D) /\
     (forall w' rs', loading_more (page w) = true -> exec h t d Land w = Some (w', rs') ->
        rows <$> shown (page w') = Some (take (S k * 50) D) /\ failed (page w') = false)) /\
  (forall r w' rs', exec h t d (Fail r) w = Some (w', rs') ->
     shown (page w') = shown (page w) /\ Listing (ErrorText [group h; "loadError"]) ∈ TimelineTab h (page w')) /\
  (forall l, Listing (Rows l) ∈ TimelineTab h (page w) <-> rows <$> shown (page w) = Some l /\ l <> []) /\
  (Listing (ErrorText [group h; "loadError"]) ∈ TimelineTab h (page w) <-> failed (page w) = true) /\
  (forall b, LoadMore b ∈ TimelineTab h (page w) <-> is_Some (more (page w)) /\ b = loading_more (page w)) /\
  (q_enabled (hook_of h t d None) = true -> flight (page w) = None ->
     exists es' w' rs', run (exec h t d) es' w = Some (w', rs') /\ docs w' = docs w /\
       rows <$> shown (page w') = Some (docs w) /\ failed (page w') = false).
Proof.
  intros Hr. pose proof (history_good h t d (start D0) es w rs eq_refl eq_refl eq_refl Hr) as Hgood.
  destruct (tab_shows h (page w)) as (V1 & V2 & V3). split_and!; [| |exact V1|exact V2|exact V3|].
  - intros ps Hps. destruct (reading h t d (start D0) es w ps Hgood Hps) as (D & k & (Hk & Hl & Hs & Hrd) & -> & Hn).
    exists D, k. rewrite rows_first. split_and!; try done.
    + intros Hm. apply (more_first (page w) D k Hps Hk) in Hm. by apply take_ge, Nat.lt_le_incl.
    + intros w' rs' Hlm Hland. rewrite (Hn w' rs' Hlm Hland). cbn [shown failed fmap option_fmap option_map].
      by rewrite rows_first.
  - intros r w' rs' Hf. apply fail_keeps in Hf. destruct (tab_shows h (page w')) as (_ & -> & _). by rewrite Hf.
  - intros He Hfl. destruct Hgood as [_ Hw]. rewrite Hfl in Hw.
    destruct (all_shown h t d (docs w) (page w) He Hfl) as (es' & rs' & k & Hr' & Hall).
    exists es', (quiet (docs w) (S k)), rs'. split; [by destruct w; simpl in *; subst|].
    cbn [quiet page docs shown failed fmap option_fmap option_map]. by rewrite Hall.
Qed.

(** ** On a server whose events grow *)
Definition numbered (a n : nat) : list json := (fun i => JNum (Z.of_nat i)) <$> reverse (seq a n).
Definition run_on (es : list event) : world * list request :=
  match run (exec ConfigAudit (Some "t") "d") es (start (numbered 0 120)) with Some r => r | None => (start [], []) end.
Definition state_after (es : list event) : world := (run_on es).1.
(** Thirty events arrive between the second page and the third. *)
Definition growing : list event :=
  [Refetch; Read; Land; More; Read; Grow (numbered 120 30); Land; More; Read; Land].

Lemma timeline_complete_witness : exists D, D `suffix_of` docs (state_after growing) /\
  rows <$> shown (page (state_after growing)) = Some D.
Proof.
  assert (Hr : run (exec ConfigAudit (Some "t") "d") growing (start (numbered 0 120)) =
               Some (state_after growing, (run_on growing).2)) by (vm_compute; reflexivity).
  destruct (timeline_complete ConfigAudit (Some "t") "d" (numbered 0 120) growing (state_after growing)
              (run_on growing).2 Hr) as [H _].
  destruct (H (shown (page (state_after growing)) orelse []) eq_refl) as (D & k & _ & Hs & _ & _ & Hd & _).
  exists D. split; [exact Hs|]. rewrite <- (Hd eq_refl). reflexivity.
Defined.

(** The new events come with the next refetch. *)
Lemma refetch_catches_up :
  rows <$> shown (page (state_after growing)) = Some (numbered 0 120) /\
  rows <$> shown (page (state_after (growing ++ [Refetch; Read; Land; Read; Land; Read; Land]))) = Some (numbered 0 150).
Proof. vm_compute. done. Qed.

(** A number of events that fills its last page: "load more" is still offered,
    and the page it loads is empty. *)
Lemma full_last_page :
  let w0 := start (numbered 0 50) in
  exists w w' rs rs', run (exec Reliability (Some "t") "d") [Refetch; Read; Land] w0 = Some (w, rs) /\
    rows <$> shown (page w) = Some (numbered 0 50) /\ LoadMore false ∈ TimelineTab Reliability (page w) /\
    run (exec Reliability (Some "t") "d") [More; Read; Land] w = Some (w', rs') /\
    rows <$> shown (page w') = Some (numbered 0 50) /\ more (page w') = None.
Proof.
  do 4 eexists. split; [vm_compute; reflexivity|]. split; [vm_compute; reflexivity|].
  split; [apply tab_shows; split; [eexists|]; vm_compute; reflexivity|].
  split; [vm_compute; reflexivity|]. split; vm_compute; reflexivity.
Qed.
