(* ===== verification/Screens.v ===== *)
(** * What the pages with their own machines show

    The pages whose state and handlers are modelled elsewhere, as they are drawn
    in each state: [pages/LoginPage.tsx] ([Login]) and [pages/AuditPage.tsx]
    ([Paging.AuditPage]).  A text of the dictionary is named by its path.  The
    lemmas relate what is drawn to what the machine accepts. *)
From stdpp Require Import pretty.
From S2P Require Import Prelude JsString Json Stringify Http Hooks PlatformHooks Login Paging Views.
From Stdlib Require Import ZArith Ascii.

(** [seen H] reads off which piece of a list a membership is, [shows] finds one. *)
Ltac seen H :=
  repeat match type of H with ex _ => destruct H as [? H] end;
  try (apply list_elem_of_In in H; simpl in H; repeat (destruct H as [H|H])); simplify_eq; try done.
Ltac shows := repeat eexists; try done; rewrite ?list_elem_of_In; simpl; eauto 12.

(** ** [pages/LoginPage.tsx] *)
Module LoginView.
Definition path := list string.
Inductive piece :=
| Title (t : path)
| Hint (t : path)
| EmailField (v : string)
| PasswordField (v : string)
| CodeField (label : path) (numeric : bool) (v : string)
| Submit (t : path)
| RecoveryLink (t : path)
| Or_                                   (* the divider between the two factors *)
| PasskeyButton (filled busy : bool)
| RememberBox (days : Z) (checked : bool)
| ErrorText (m : msg).

Definition l (k : string) : path := ["login"; k].
Definition m (k : string) : path := ["login"; "mfa"; k].
Definition alert_ (p : page) : list piece := match error p with Some e => [ErrorText e] | None => [] end.

Definition LoginPage (p : page) : list piece :=
  match step_ p with
  | password_ =>
      [Title (l "title"); EmailField (email_ p); PasswordField (secret p)] ++ alert_ p ++ [Submit (l "submit")]
  | mfa =>
      [Title (m "title"); Hint (if useRecovery p then m "recoveryHint" else m "codeHint")] ++
      (if hasTotp p then
         [CodeField (if useRecovery p then m "recoveryLabel" else m "codeLabel") (negb (useRecovery p)) (code p);
          Submit (m "verify"); RecoveryLink (if useRecovery p then m "useCode" else m "useRecovery")]
       else []) ++
      (if hasWebauthn p then
         (if hasTotp p then [Or_] else []) ++ [PasskeyButton (negb (hasTotp p)) (passkeyBusy p)] else []) ++
      match remember p with
      | Some r => if enabled r then [RememberBox (days r) (rememberDevice p)] else []
      | None => []
      end ++ alert_ p
  end.

(** [useEffect]: a signed-in user is sent to the start page. *)
Definition effect_ (m : machine) : option string := match me m with Some _ => Some "/" | None => None end.

(** The controls drawn are those the machine accepts; a text of an error is
    drawn in either step. *)
Lemma controls_drawn p :
  (offers_code p = true <-> exists t b v, CodeField t b v ∈ LoginPage p) /\
  (offers_passkey p = true <-> exists b, PasskeyButton b false ∈ LoginPage p) /\
  (offers_remember p = true <-> exists d, RememberBox d (rememberDevice p) ∈ LoginPage p) /\
  (forall e, ErrorText e ∈ LoginPage p <-> error p = Some e).
Proof.
  unfold offers_code, offers_passkey, offers_remember, remember_enabled, LoginPage, alert_.
  destruct p as [[er|] [] rc ms busy rd [[en dy]|] em se co];
    cbn [step_ error useRecovery methods passkeyBusy rememberDevice remember email_ secret code];
    try rewrite (bool_decide_eq_true_2 (mfa = mfa)) by done;
    try rewrite (bool_decide_eq_false_2 (password_ = mfa)) by done; cbn [andb];
    try destruct (hasTotp _); try destruct (hasWebauthn _); try destruct busy; try destruct en;
    cbn [andb negb app fmap option_fmap option_map default enabled]; split_and!; try intros e;
    (split; intros H; simplify_eq; try seen H; shows).
Qed.

(** The second step offers a factor unless the server names only others. *)
Lemma some_factor p :
  step_ p = mfa ->
  (offers_code p = true \/ (exists f b, PasskeyButton f b ∈ LoginPage p)) <->
  (methods p = [] \/ "totp" ∈ methods p \/ "webauthn" ∈ methods p).
Proof.
  intros Hs.
  assert (Ha : hasTotp p = true <-> methods p = [] \/ "totp" ∈ methods p)
    by (unfold hasTotp; by rewrite orb_true_iff, !bool_decide_eq_true).
  assert (Hb : hasWebauthn p = true <-> "webauthn" ∈ methods p) by apply bool_decide_eq_true.
  transitivity (hasTotp p = true \/ hasWebauthn p = true); [clear Ha Hb|tauto]. unfold offers_code, LoginPage, alert_. rewrite Hs. cbn [andb].
  rewrite (bool_decide_eq_true_2 (mfa = mfa)) by done. cbn [andb].
  destruct (hasTotp p), (hasWebauthn p); cbn [app].
  - split; [auto|]. by left.
  - split; [auto|]. by left.
  - split; [auto|]. intros _. right. shows.
  - split; [|intros [H|H]; done]. intros [H|H]; [done|]. exfalso.
    destruct H as (f & b & H). destruct (remember p) as [[[] ?]|], (error p); seen H.
Qed.

(** An account with passkeys only is asked for a code and has no field for one,
    nor one for a recovery code. *)
Lemma passkey_only_asks_for_code :
  LoginPage (Page None mfa false ["webauthn"] false false None "" "" "") =
  [Title (m "title"); Hint (m "codeHint"); PasskeyButton true false].
Proof. reflexivity. Qed.
End LoginView.

(** ** [pages/AuditPage.tsx] *)
Module AuditView.
Import AuditPage Remote.
Record AuditEntryOut := MkEntry {
  e_id : string; ts : string; actor_email_ : option string; actor_user_id : option string;
  tenant_name : option string; e_action : string; target_type : option string; target_id : option string;
  ip : option string; details : option json }.
Record AuditListOut := MkList { items : list AuditEntryOut; total : Z }.

(** The length of [Object.keys(details ?? {})]. *)
Definition keys (d : option json) : nat :=
  match d with
  | Some (JObj l) => length l | Some (JArr l) => length l | Some (JStr s) => String.length s
  | _ => 0
  end.
Inductive cell := Text (s : string) | Code (s : string) | Dash.
Definition DetailsCell (d : option json) : cell :=
  if keys d =? 0 then Dash else Code (stringify "" (d orelse JNull)).
Definition or_dash (s : option string) : cell := match s with Some s => Text s | None => Dash end.
Definition target (e : AuditEntryOut) : cell :=
  if present (target_type e)
  then Text (target_type e orelse "" +:+ (if present (target_id e) then ":" +:+ (target_id e orelse "") else ""))
  else Dash.
Definition row (e : AuditEntryOut) : list cell :=
  [Text (ts e);
   match actor_email_ e with Some a => Text a | None => or_dash (actor_user_id e) end;
   or_dash (tenant_name e); Code (e_action e); target e; or_dash (ip e); DetailsCell (details e)].

Inductive piece :=
| Loading
| LoadFailed
| Empty
| Rows_ (l : list (list cell))
| Pager (total : Z) (prev_disabled : bool) (page_ : Z) (next_disabled : bool).

Definition page_number (p : page) : Z := (offset_ p / PAGE_SIZE + 1)%Z.
Definition AuditPage (p : page) (q : remote AuditListOut) : list piece :=
  (if isLoading q then [Loading] else []) ++
  (if isError q then [LoadFailed] else []) ++
  match result q with
  | Some d =>
      (if length (items d) =? 0 then [Empty] else [Rows_ (row <$> items d)]) ++
      (if (0 <? total d)%Z
       then [Pager (total d) (negb (hasPrev p)) (page_number p) (negb (hasNext (total d) p))] else [])
  | None => []
  end.

(** In every session the pager counts the pages: page [n] shows the rows from
    [50 (n - 1)] on, one can go back exactly from the second page on and forward
    exactly while rows are left, and both buttons move by one page. *)
Lemma pager_counts zone es p q n t a b :
  AuditPage.run zone es initial = Some p -> Pager t a n b ∈ AuditPage p q ->
  offset_ p = (PAGE_SIZE * (n - 1))%Z /\
  (a = false <-> (1 < n)%Z) /\ (b = false <-> (PAGE_SIZE * n < t)%Z) /\
  (forall p', exec zone Prev p = Some p' -> page_number p' = (n - 1)%Z) /\
  (forall p', exec zone (Next t) p = Some p' -> page_number p' = (n + 1)%Z).
Proof.
  intros Hr Hin. destruct (run_page zone es p Hr) as ([Hp Hm] & _).
  assert (Hq : n = page_number p /\ a = negb (hasPrev p) /\ b = negb (hasNext t p)).
  { unfold AuditPage in Hin. destruct (isLoading q), (isError q), (result q) as [d|]; cbn [app] in Hin;
      repeat case_match; seen Hin. }
  destruct Hq as (-> & -> & ->). clear Hin Hr.
  unfold page_number, hasPrev, hasNext, exec, PAGE_SIZE in *.
  rewrite !negb_false_iff, !Z.ltb_lt. unfold hasPrev, hasNext, PAGE_SIZE.
  split_and!; try (Z.to_euclidean_division_equations; lia).
  - intros p'. destruct (Z.ltb_spec 0 (offset_ p)); [|done]. intros [= <-]. cbn [offset_].
    Z.to_euclidean_division_equations; lia.
  - intros p'. destruct (Z.ltb_spec (offset_ p + 50) t); [|done]. intros [= <-]. cbn [offset_].
    Z.to_euclidean_division_equations; lia.
Qed.

(** A target is shown only with its type; an identifier alone is not. *)
Lemma target_needs_type e : present (target_type e) = false -> target e = Dash.
Proof. unfold target. by intros ->. Qed.
End AuditView.
