(* ===== verification/Panels.v ===== *)
(** * What cards and panels show

    [overview/AttackerCountriesMap.tsx] with the box under the pointer, the
    passkeys and trusted devices of [security/*], [pages/GroupsPage.tsx],
    [pages/ReportSettingsPage.tsx], [retention/RetentionCard.tsx], the
    drill-down of [pages/LogFleetPage.tsx], [templates/IdsPolicyForm.tsx], the
    previews of [config/ChangesPanel.tsx], and the frame of
    [components/AppShell.tsx] with [components/TenantSwitcher.tsx] and
    [components/LanguageSwitcher.tsx].  State and handlers are those of the
    files they are modelled in; texts of the dictionary are named by path. *)
From stdpp Require Import pretty.
From S2P Require Import Prelude Machine JsString Json Stringify Http QueryClient Hooks TenantHooks PlatformHooks I18n Session GroupsPage SecondFactor Formats ReportSettings Schedules Fleet Catalog Templates Charts Views Screens.
From Stdlib Require Import ZArith Ascii.

Definition path := list string.

(** ** [overview/AttackerCountriesMap.tsx] *)
Module MapView.
Import WorldMap.
Section map.
(** The vendored table of country codes, and the geographies of the map. *)
Context (numericMap : list (string * string)) (geographies : list string).

(** The row a geography is coloured and labelled by. *)
Definition row_of (d : list CountryRow) (geo : string) : option (string * CountryRow) :=
  a ← assoc geo numericMap; if a === "" then None else r ← (index d).1 !! a; Some (a, r).

Record shape := Shape { id_ : string; fill_ : option string; pointer : bool }.
Definition shapes (d : list CountryRow) : list shape :=
  (fun g => Shape g (fill numericMap d g) (match row_of d g with Some _ => true | None => false end)) <$> geographies.

(** The data of the query, and the box. *)
Record map_ := Map { data_ : list CountryRow; hover : option HoverState }.
Inductive event := Refetched (d : list CountryRow) | Mouse (geo : string) (e : mouse).
Definition step (e : event) (m : map_) : map_ :=
  match e with
  | Refetched d => Map d (hover m)
  | Mouse g e => Map (data_ m) (on_mouse (row_of (data_ m) g) e (hover m))
  end.

Inductive piece := Empty | Shapes (l : list shape) | Box (x y : Z) (text : string).
Definition AttackerCountriesMap (of_ : string -> outcome unit (option string)) (m : map_) : list piece :=
  if length (data_ m) =? 0 then [Empty] else
  [Shapes (shapes (data_ m))] ++
  match hover m with
  | Some h => [Box (h_x h + 12) (h_y h + 12)
                 (regionName of_ (h_alpha2 h) +:+ " · " +:+ pretty (h_count h) +:+ " · " +:+ pretty (h_pct h) +:+ "%")]
  | None => []
  end.

(** The box shows a row of the data. *)
Definition current (m : map_) : Prop :=
  forall h, hover m = Some h ->
    exists g r, row_of (data_ m) g = Some (h_alpha2 h, r) /\ h_count h = count r /\ h_pct h = pct r.

(** Whatever the mouse does, the box shows the count and share of a country of
    the data, not of a country without a row. *)
Lemma box_shows_row d es :
  current (fold_left (fun m e => step e m) ((fun ge => Mouse ge.1 ge.2) <$> es) (Map d None)).
Proof using Type.
  assert (H : forall m, current m -> data_ m = d ->
    current (fold_left (fun m e => step e m) ((fun ge => Mouse ge.1 ge.2) <$> es) m)); [|by apply H].
  induction es as [|[g e] es IH]; intros m Hm Hd; [done|]. cbn [fmap list_fmap fold_left fst snd].
  apply IH; [|done]. unfold current in *. cbn [step data_ hover]. intros h. unfold on_mouse.
  destruct e as [x y|x y|]; destruct (row_of (data_ m) g) as [[a r]|] eqn:E; try done; try apply Hm.
  - intros [= <-]. exists g, r. done.
  - destruct (hover m) as [h0|] eqn:E0; [|done]. intros [= <-]. by apply (Hm h0).
Qed.
End map.

(** New data leave the box as it was: it then shows a count the map has not. *)
Lemma box_outlives_data :
  let m := step [("250", "FR")] (Refetched [Row "FR" 9 100])
             (step [("250", "FR")] (Mouse "250" (Enter 1 1)) (Map [Row "FR" 5 100] None)) in
  h_count <$> hover m = Some 5%Z /\ ~ current [("250", "FR")] m.
Proof.
  split; [reflexivity|]. intros H. destruct (H _ eq_refl) as (g & r & Hr & Hc & _). unfold row_of in Hr. simpl in Hr.
  destruct (decide (g = "250")) as [->|]; [|done]. vm_compute in Hr. injection Hr as <-. discriminate Hc.
Qed.
End MapView.

(** ** [security/MfaPanel.tsx]: [PasskeysSection], and [TrustedDevicesSection] *)
Module PasskeysView.
Import Passkeys.
Record WebAuthnCredential := Credential { c_id : string; c_name : string; created_at : string }.

Inductive piece :=
| NotSupported
| RemoveFailed (m : msg)
| Table (rows : list (list string))
| AddForm (password name : string)
| AddFailed (m : msg)
| AddButton (busy disabled : bool)
| Dialog (busy : bool).

Definition row (unnamed : string) (fmt_date : string -> string) (c : WebAuthnCredential) : list string :=
  [row_name (c_name c) unnamed; fmt_date (created_at c)].
Definition PasskeysSection (supported : bool) (unnamed : string) (fmt_date : string -> string)
    (creds : option (list WebAuthnCredential)) (target : option WebAuthnCredential) (removing : bool)
    (s : section_) : list piece :=
  (if supported then [] else [NotSupported]) ++
  match removeError s with Some m => [RemoveFailed m] | None => [] end ++
  match creds orelse [] with [] => [] | l => [Table (row unnamed fmt_date <$> l)] end ++
  [AddForm (password s) (pk_name s)] ++
  match shown_addError s with Some m => [AddFailed m] | None => [] end ++
  [AddButton (addPending s) (negb supported)] ++
  match target with Some _ => [Dialog removing] | None => [] end.

(** The button is enabled exactly when the section takes the click, and a
    browser without passkeys is told so. *)
Lemma add_offered supported unnamed fmt creds target removing s :
  (AddButton false false ∈ PasskeysSection supported unnamed fmt creds target removing s <->
   is_Some (add_click supported s)) /\
  (NotSupported ∈ PasskeysSection supported unnamed fmt creds target removing s <-> supported = false).
Proof.
  unfold PasskeysSection, add_click. destruct supported, (addPending s); cbn [negb orb];
    destruct (removeError s), (creds orelse []) as [|c l], (shown_addError s), target; cbn [app];
    (split; split; intros H; [seen H; by eexists|destruct H; try done; shows|seen H|try done; shows]).
Qed.
End PasskeysView.

Module DevicesView.
Import SecondFactor.Devices.
Record TrustedDevice := Device { d_id : string; user_agent : option string; d_ip : option string; last_used : string; expires : string }.
Inductive piece :=
| LoadFailed
| RevokeFailed (m : msg)
| Empty
| Table (rows : list (list string))
| RevokeAll (busy : bool)
| Dialog (all busy : bool).

Definition row (unknown : string) (fmt : string -> string) (d : TrustedDevice) : list string :=
  [user_agent d orelse unknown; d_ip d orelse "—"; fmt (last_used d); fmt (expires d)].
Definition TrustedDevicesSection (unknown : string) (fmt : string -> string) (devices : list TrustedDevice)
    (load_error : bool) (revoke_error : option msg) (target : option TrustedDevice) (all_open revoking revoking_all : bool)
    : list piece :=
  (if load_error then [LoadFailed] else []) ++
  match revoke_error with Some m => [RevokeFailed m] | None => [] end ++
  [if (length devices =? 0) && negb load_error then Empty else Table (row unknown fmt <$> devices)] ++
  (if 0 <? length devices then [RevokeAll revoking_all] else []) ++
  match target with Some _ => [Dialog false revoking] | None => [] end ++
  (if all_open then [Dialog true revoking_all] else []).

(** A failure to load is never shown as "no devices", and every device has its row. *)
Lemma devices_shown unknown fmt ds le re tg ao r1 r2 :
  (Empty ∈ TrustedDevicesSection unknown fmt ds le re tg ao r1 r2 <-> ds = [] /\ le = false) /\
  (ds <> [] -> Table (row unknown fmt <$> ds) ∈ TrustedDevicesSection unknown fmt ds le re tg ao r1 r2) /\
  (LoadFailed ∈ TrustedDevicesSection unknown fmt ds le re tg ao r1 r2 <-> le = true).
Proof.
  unfold TrustedDevicesSection. destruct ds as [|d ds], le, re, tg, ao; cbn [length app Nat.eqb andb negb Nat.ltb Nat.leb];
    (split_and!; [split; intros H; [seen H|destruct H; try done; shows]|intros H; try done; shows|
                  split; intros H; [seen H|try done; shows]]).
Qed.
End DevicesView.

(** ** [pages/GroupsPage.tsx] *)
Module GroupsView.
Import Card.
Inductive piece :=
| SuperadminOnly
| CreateForm (name description : string) (busy disabled : bool)
| LoadFailed
| Empty
| GroupCard (g : GroupOut) (users tenants : list (string * string)) (tenantNames : list (string * string))
| DeleteDialog (busy : bool).

(** [Object.fromEntries]: the last tenant of an identifier names it. *)
Definition tenantNames (tenants : list (string * string)) : list (string * string) := rev tenants.

Definition GroupsPage (isSuper : bool) (f : Create.form) (groups : option (list GroupOut)) (isError : bool)
    (users tenants : list (string * string)) (toDelete : option GroupOut) (deleting : bool) : list piece :=
  if negb isSuper then [SuperadminOnly] else
  [CreateForm (Create.newName f) (Create.newDescription f) (Create.isPending f) (trim (Create.newName f) === "")] ++
  (if isError then [LoadFailed] else []) ++
  match groups with
  | Some [] => [Empty]
  | Some l => (fun g => GroupCard g users tenants (tenantNames tenants)) <$> l
  | None => []
  end ++
  match toDelete with Some _ => [DeleteDialog deleting] | None => [] end.

(** One card per group, for superadmins only; and the create button is enabled
    exactly when the form takes the click. *)
Lemma groups_shown isSuper f gs err users tenants td del :
  let view := GroupsPage isSuper f gs err users tenants td del in
  (forall g, (exists u t n, GroupCard g u t n ∈ view) <-> isSuper = true /\ exists l, gs = Some l /\ g ∈ l) /\
  ((exists n d, CreateForm n d false false ∈ view) <-> is_Some (Create.exec isSuper Create.Click f)).
Proof.
  cbn zeta. unfold GroupsPage. destruct isSuper; cbn [negb]; [|split].
  2:{ intros g. split; [intros H; seen H|by intros [? _]]. }
  2:{ split; [intros H; seen H|by intros [? ?]]. }
  split.
  - intros g. split.
    + intros (u & t & n & H). split; [done|]. rewrite !elem_of_app in H.
      destruct H as [H|[H|[H|H]]]; [seen H|destruct err; seen H| |destruct td; seen H].
      destruct gs as [[|g0 l]|]; [seen H| |seen H]. exists (g0 :: l). split; [done|].
      apply list_elem_of_fmap in H as (g' & [= -> _ _ _] & Hg). done.
    + intros (_ & l & -> & Hg). exists users, tenants, (tenantNames tenants). rewrite !elem_of_app. right. right. left.
      destruct l as [|g0 l]; [by apply not_elem_of_nil in Hg|]. apply list_elem_of_fmap. by exists g.
  - unfold Create.exec. cbn [negb]. destruct (Create.isPending f), (trim (Create.newName f) === "") eqn:E; cbn [orb].
    1-3: split; [intros (n & d & H)|by intros [? ?]]; rewrite !elem_of_app in H;
      destruct H as [H|[H|[H|H]]]; [seen H|destruct err; seen H| |destruct td; seen H];
      destruct gs as [[|g0 l]|]; [seen H|apply list_elem_of_fmap in H as (? & ? & _); done|seen H].
    split; [by eexists|]. intros _. eexists _, _. by left.
Qed.
End GroupsView.

(** ** [pages/ReportSettingsPage.tsx] *)
Module SettingsView.
Import Settings.
Inductive piece :=
| AdminsOnly
| TextField (name value : string)
| LanguageSelect (options : list (string * string)) (value : option string)
| SectionSwitch (key : string) (checked : bool)
| SaveButton (busy : bool)
| HasLogo (b : bool)
| Preview (url : string)
| FileInput (file : option string)
| UploadButton (busy disabled : bool)
| RemoveButton (busy : bool)
| RetentionCard.

Definition fields (v : form_values) : list piece :=
  [TextField "title" (title v); TextField "owner" (owner v); TextField "timezone" (timezone v);
   TextField "from_email" (from_email v)].
Definition switches (v : form_values) : list piece :=
  (fun k => SectionSwitch k ((sections v !! k) orelse false)) <$> Sections.REPORT_SECTION_KEYS.
Definition ReportSettingsForm (base : string) (activeId : option string) (languages : list (string * string))
    (d : option ReportSettingsOut) (v : form_values) (saving : bool) (logo : Logo.logo) : list piece :=
  let hasLogo := match d with Some o => has_logo o | None => false end in
  fields v ++ [LanguageSelect languages (language v)] ++ switches v ++
  [SaveButton saving; HasLogo hasLogo] ++
  match Logo.logoPreviewUrl base activeId hasLogo logo with Some u => [Preview u] | None => [] end ++
  [FileInput (Logo.logoFile logo);
   UploadButton (Logo.uploadPending logo) (match Logo.logoFile logo with None => true | Some _ => false end)] ++
  (if hasLogo then [RemoveButton (Logo.deletePending logo)] else []) ++ [RetentionCard].
Definition ReportSettingsPage (isTenantAdmin : bool) (form : list piece) : list piece :=
  if isTenantAdmin then form else [AdminsOnly].

(** A switch per section, in the order of the list, as the draft says; toggling
    one shows on that switch and on no other. *)
Lemma toggle_shows k b v :
  switches (apply_edit (Toggle k b) v) =
  (fun key => SectionSwitch key (if decide (key = k) then b else (sections v !! key) orelse false)) <$> Sections.REPORT_SECTION_KEYS.
Proof.
  destruct v as [ti ow tz la fe se]. unfold switches. cbn [apply_edit sections]. apply list_fmap_ext.
  intros i key _. destruct (decide (key = k)) as [->|]; [by rewrite lookup_insert_eq|by rewrite lookup_insert_ne].
Qed.
End SettingsView.

(** ** [retention/RetentionCard.tsx] *)
Module RetentionView.
Import Retention.
Inductive piece :=
| Loading
| LoadFailed
| Warnings (l : list string)
| NumberField (store : string) (hint : option string) (value : option Z) (min max : Z)
| SaveButton (busy : bool).

Definition hint (inherit_hint : string) (d : option RetentionOut) (store : string) : option string :=
  (fun n => inherit_hint +:+ ": " +:+ pretty n) <$> (d ≫= fun o => defaults o !! store).
Definition RetentionCard (inherit_hint : string) (isLoading is_error : bool) (d : option RetentionOut)
    (warnings : list string) (dr : draft) (saving : bool) : list piece :=
  if isLoading then [Loading] else if is_error then [LoadFailed] else
  match warnings with [] => [] | _ => [Warnings warnings] end ++
  ((fun s => NumberField s (hint inherit_hint d s) ((dr !! s) orelse None) 1 3650) <$> STORES) ++ [SaveButton saving].

(** An input per store; an empty one shows the default it inherits, where there is one. *)
Lemma one_input_per_store h d w dr saving s :
  s ∈ STORES ->
  NumberField s (hint h d s) ((dr !! s) orelse None) 1 3650 ∈ RetentionCard h false false d w dr saving.
Proof.
  intros Hs. unfold RetentionCard. rewrite !elem_of_app. right. left. apply list_elem_of_fmap. by exists s.
Qed.
End RetentionView.

(** ** [pages/LogFleetPage.tsx]: the devices of a tenant *)
Module FleetView.
Import LogFleetPage.
Record DeviceOut := Device { device_id : string; name : string; is_silent : bool; forwarding : string; last_log_at : option string; volume : option Z }.
Inductive cell := Named (name : string) (silent : bool) | Badge (text color : string) | Text (s : string).
Inductive piece := Loader | Failed | NoDevices | Table (window : string) (rows : list (list cell)).

Definition row (d : DeviceOut) : list cell :=
  [Named (name d) (is_silent d); Badge (forwarding d) (FWD_COLOR (forwarding d)); Text (last_log_at d orelse "—");
   Text (match volume d with Some n => pretty n | None => "—" end)].
(** [None]: the dialog is closed. *)
Definition TenantDevicesModal (devices_title : string) (tenant : option (string * string)) (isLoading isError : bool)
    (answer : option (string * list DeviceOut)) : option (string * list piece) :=
  '(_, tenant_name) ← tenant;
  Some (devices_title +:+ " — " +:+ tenant_name,
    (if isLoading then [Loader] else []) ++ (if isError then [Failed] else []) ++
    match answer with
    | Some (w, []) => [NoDevices]
    | Some (w, l) => [Table w (row <$> l)]
    | None => []
    end).
Definition StatCard (label : path) (value : Z) : path * Z := (label, value).

(** The dialog is open exactly while a tenant is picked, and the query it shows
    is that of this tenant. *)
Lemma drill_open p t ld er a :
  is_Some (TenantDevicesModal t (drill p) ld er a) <->
  exists i n, drill p = Some (i, n) /\ devices_query p = PlatformHooks.LogFleet.useLogFleetDevices (Some i) (window p).
Proof.
  unfold TenantDevicesModal, devices_query. destruct (drill p) as [[i n]|]; cbn [mbind option_bind fmap option_fmap option_map].
  - split; [by exists i, n|by eexists].
  - split; [by intros [? ?]|]. by intros (i & n & ? & _).
Qed.
End FleetView.

(** ** [templates/IdsPolicyForm.tsx] *)
Module PolicyView.
Import Modal Policy.
Inductive piece :=
| Description (v : string)
| Enabled (checked : bool)
| Priority (v : Z)
| Actions (options value : list string)
| NewAction (options : list string) (value : string)
| NoDevice
| DevicePicker (options : list (string * string)) (value : option string)
| LoadButton (busy disabled : bool)
| LoadHint
| NoRulesets
| Rulesets (options : list option_) (value : list string)
| ContentLine (text : string) (key : string)
| ContentDraft (key values : string) (add_disabled : bool)
| Note.

Definition ACTIONS : list string := ["disable"; "alert"; "drop"].
Definition NEW_ACTIONS : list string := ["default"; "alert"; "drop"; "disable"].
(** [Number(value.prio) || 0], of an integer *)
Definition prio_value (s : string) : Z :=
  match s with
  | String "-"%char d => if d === "" then 0%Z else Z.opp (Schedules.Number d orelse 0%Z)
  | _ => Schedules.Number s orelse 0%Z
  end.
Definition content_line (kv : string * list string) : piece :=
  ContentLine (kv.1 +:+ ": " +:+ JsString.join ", " kv.2) kv.1.

(** [order] lists the entries of the content as they were inserted. *)
Definition IdsPolicyForm (devices : list (string * string)) (deviceId : string) (rows : list RulesetRow)
    (loaded loading : bool) (order : list (string * list string)) (e : editor) : list piece :=
  let p := pol e in
  [Description (p_description p); Enabled (Modal.enabled p === "1"); Priority (prio_value (prio p));
   Actions ACTIONS (action p); NewAction NEW_ACTIONS (new_action p)] ++
  match devices with
  | [] => [NoDevice]
  | _ => [DevicePicker devices (if deviceId === "" then None else Some deviceId);
          LoadButton loading (deviceId === "")]
  end ++
  [if negb loaded then LoadHint
   else match rulesetData rows (rulesets p) with
        | [] => NoRulesets
        | opts => Rulesets opts (rulesets p)
        end] ++
  (content_line <$> order) ++
  [ContentDraft (contentKey e) (contentValues e) (trim (contentKey e) === ""); Note].

(** The picker of rulesets always has an option for what is selected, and the
    hint that there are none is shown only where nothing is. *)
Lemma selected_have_options devices i rows loaded busy order e opts sel :
  let view := IdsPolicyForm devices i rows loaded busy order e in
  (Rulesets opts sel ∈ view -> sel = rulesets (pol e) /\ Forall (fun n => n ∈ Catalog.value <$> opts) sel) /\
  (NoRulesets ∈ view -> rulesets (pol e) = []).
Proof.
  cbn zeta. unfold IdsPolicyForm. pose proof (rulesetData_values rows (rulesets (pol e))) as Hv.
  assert (Hc : forall o s, Rulesets o s ∉ content_line <$> order /\ NoRulesets ∉ content_line <$> order).
  { intros o s. split; intros (kv & ? & _)%list_elem_of_fmap; done. }
  split; intros H; rewrite !elem_of_app in H; destruct H as [H|[H|[H|[H|H]]]];
    try (seen H; fail); try (destruct devices; seen H; fail); try (by apply (Hc opts sel) in H);
    destruct loaded; cbn [negb] in H; destruct (rulesetData rows (rulesets (pol e))) as [|o l] eqn:E; seen H.
  - split; [done|]. apply list.Forall_forall. intros n Hn. apply Hv. by left.
  - destruct (rulesets (pol e)) as [|n l]; [done|]. exfalso.
    apply (not_elem_of_nil (A:=string) n). apply (Hv n). left. by left.
Qed.
End PolicyView.

(** ** [config/ChangesPanel.tsx]: the preview of a change *)
Module PreviewView.
Inductive piece := Loader | Failed | Code (text : string).
(** [preview.data != null] *)
Definition PreviewModal (previewId : option string) (isLoading isError : bool) (d : option json) : option (list piece) :=
  if present previewId
  then Some ((if isLoading then [Loader] else []) ++ (if isError then [Failed] else []) ++
             (if nullish d then [] else [Code (stringify "" (d orelse JNull))]))
  else None.
(** [RevertButton]: the button of a row, and what a failure announces. *)
Definition revert_click (activeId : option string) (deviceId : string) (pending : bool) (i : string) : option request :=
  if pending then None else Some (m_request (Changes.useRevertChange activeId deviceId i)).
Definition revert_note (out : outcome msg (option json)) : option msg :=
  match out with Returned _ => None | Threw _ => Some (Tr ["errors"; "configChangeAction"]) end.
End PreviewView.

(** ** [components/AppShell.tsx] *)
Module ShellView.
Import Auth Permissions Shell.
Record item := Item { to : list string; label : path }.
Definition nav_label (p : list string) : path :=
  match p with
  | [] => ["nav"; "overview"]
  | ["reports"; "settings"] => ["nav"; "reportSettings"]
  | ["reports"; "schedule"] => ["nav"; "reportSchedule"]
  | ["admin"; "log-fleet"] => ["nav"; "logFleet"]
  | [_; x] => ["nav"; x]
  | x :: _ => ["nav"; x]
  end.
Definition nav (a : AuthState) (perms : Permissions) : list item :=
  (fun p => Item p (nav_label p)) <$> AppShellNav a perms.

(** A link is lit where the address is its path or below; the start page's only
    there ([end]). *)
Definition lit (address : list string) (i : item) : bool :=
  match to i with [] => address === [] | p => bool_decide (folded p = take (length p) (folded address)) end.

Inductive switcher := NoTenant | TenantSelect (options : list (string * string)) (value : option string).
Definition TenantSwitcher (tenants : list (string * string)) (activeId : option string) : switcher :=
  match tenants with [] => NoTenant | _ => TenantSelect tenants activeId end.
(** [useLocale().locales] *)
Definition locales : list (string * string) :=
  (fun l => (l, assoc l Locale.LOCALE_LABELS orelse "")) <$> Locale.SUPPORTED_LOCALES.

Record frame := Frame { tenant_ : switcher; email : option string; languages : list (string * string) * string; links : list item; main : screen }.
Definition AppShell (a : AuthState) (perms : Permissions) (email : option string) (tenants : list (string * string))
    (activeId : option string) (locale : string) (address : list string) : frame :=
  Frame (TenantSwitcher tenants activeId) email (locales, locale) (nav a perms) (Shell.AppShell a perms address).

(** Every link of the side bar leads to a page that is shown, and is lit there. *)
Lemma links_lead a perms i :
  i ∈ nav a perms -> lit (to i) i = true /\ exists p, Shell.AppShell a perms (to i) = Content p.
Proof.
  intros Hi. unfold nav in Hi. apply list_elem_of_fmap in Hi as (p & -> & Hp). cbn [to]. split.
  { unfold lit. cbn [to]. destruct p as [|x p]; [done|]. apply bool_decide_eq_true. rewrite take_ge; [done|]. unfold folded. by rewrite length_fmap. }
  destruct (nav_routes _ _ _ Hp) as (su & q & _ & Hr & Hq). exists q.
  unfold Shell.AppShell, reachable, RequireSuperadmin, render_page in *. rewrite Hr.
  apply andb_prop in Hq as [Hs ->]. destruct su; [simpl in Hs; by rewrite Hs|done].
Qed.

(** The languages offered are the twelve with a dictionary, each with a name. *)
Lemma locales_named : Forall (fun l => l.2 <> "") locales /\ length locales = 12.
Proof. split; [|reflexivity]. apply (bool_decide_unpack _). vm_compute. exact I. Qed.

(** On the report pages below "Reports" two links are lit. *)
Lemma two_links_lit a perms :
  isTenantAdmin perms = true ->
  {[ ["reports"]; ["reports"; "settings"] ]} ⊆ (list_to_set (to <$> filter (fun i => lit ["reports"; "settings"] i = true) (nav a perms)) : gset (list string)).
Proof.
  intros Hp p Hin. apply elem_of_list_to_set, list_elem_of_fmap. exists (Item p (nav_label p)). split; [done|].
  apply list_elem_of_filter. unfold nav, AppShellNav. rewrite Hp.
  apply elem_of_union in Hin as [->%elem_of_singleton | ->%elem_of_singleton];
    (split; [reflexivity|]; apply list_elem_of_fmap; eexists; split; [reflexivity|]).
  - rewrite !elem_of_app. left. do 4 right. by left.
  - rewrite !elem_of_app. right. right. left. by left.
Qed.
End ShellView.
