(* ===== verification/Composites.v ===== *)
(** * Components put together

    [profiles/ProfilesPanel.tsx] with the form of [profiles/ProfileFormModal.tsx]
    and its confirmation dialog, [pages/TemplateLibraryPage.tsx] around it,
    [components/DeviceActions.tsx] with its connection test and its dialog, and
    what [admin/RuntimeSettingsSection.tsx] shows.  The parts are the machines
    of [LibraryPages], [Confirm] and [AdminPages]; here they share one state. *)
From stdpp Require Import pretty.
From S2P Require Import Prelude Machine JsString Json Http QueryClient Hooks TenantHooks PlatformHooks Session CatalogTrees Confirm LibraryPages AdminPages Views Screens.
From Stdlib Require Import ZArith.

Definition path := list string.

(** ** [profiles/ProfilesPanel.tsx] *)
Module Profiles.
Import ProfileForm.

#[export] Instance Profile_eq_dec : EqDecision Profile.
Proof. solve_decision. Defined.

Record panel := Panel { page_ : list_page Profile; form_ : modal; removal : dialog Profile }.
Definition initial : panel := Panel list_initial ProfileForm.initial closed.

Inductive event :=
| Row (e : @list_event Profile)                     (* "new", "edit", the close button of the modal *)
| Typed (e : ProfileForm.event)            (* inside the modal *)
| Removal (e : Confirm.event Profile).     (* "delete" and its dialog *)

(** The modal is given the state of the panel; its effect runs when that
    changes. *)
Definition render (p p' : list_page Profile) (m : modal) : modal :=
  if bool_decide (modalOpen p = modalOpen p' /\ LibraryPages.editing p = LibraryPages.editing p') then m
  else match ProfileForm.exec (Props (modalOpen p') (LibraryPages.editing p')) m with Some (m, _) => m | None => m end.
Definition move (e : @list_event Profile) (m : modal) (s : panel) : panel :=
  let p' := list_step e (page_ s) in Panel p' (render (page_ s) p' m) (removal s).

Definition remove_request (p : Profile) : request := m_request (Library.useDeleteProfile (id p)).

Definition exec (e : event) (s : panel) : option (panel * list request) :=
  match e with
  | Row e => Some (move e (form_ s) s, [])
  | Typed (Props _ _) => None
  | Typed e =>
      '(m, rs) ← ProfileForm.exec e (form_ s);
      Some (match e with
            | Settled true => move CloseEditor m s          (* [onClose()] *)
            | _ => Panel (page_ s) m (removal s)
            end, rs)
  | Removal e =>
      '(d, rs) ← Confirm.exec CloseFirst true remove_request e (removal s);
      Some (Panel (page_ s) (form_ s) d, rs)
  end.

(** *** View *)
Inductive piece :=
| NewButton
| Table (rows : list (list string))
| Empty
| Form (title : path) (v : values) (options : list (string * string)) (busy : bool)
| Dialog (busy : bool).

(** [p.template_ids.length]: a profile without the list throws. *)
Definition row (members : string) (p : Profile) : option (list string) :=
  ids ← p_template_ids p;
  Some [p_name p; p_description p orelse ""; pretty (Z.of_nat (length ids)) +:+ " " +:+ members].

Definition ProfileFormModal (templates : option (list (string * string))) (m : modal) : list piece :=
  if opened m
  then [Form ["templates"; "profiles"; match editing m with Some _ => "edit" | None => "create" end] (form m)
          (templates orelse []) (isPending m)]
  else [].

Definition ProfilesPanel (members : string) (profiles : option (list Profile)) (templates : option (list (string * string)))
    (s : panel) : option (list piece) :=
  table ← match profiles with
          | Some ((_ :: _) as l) => rows ← mapM (row members) l; Some (Table rows)
          | _ => Some Empty
          end;
  Some ([NewButton; table] ++ ProfileFormModal templates (form_ s) ++
        match target (removal s) with Some _ => [Dialog (pending (removal s))] | None => [] end).

(** *** What is open is what is sent *)

(** The last row chosen for the editor. *)
Definition chosen (es : list event) : option Profile :=
  fold_left (fun c e => match e with Row New => None | Row (EditRow p) => Some p | _ => c end) es None.

(** The form belongs to the row chosen last, and is open when the panel says so. *)
Definition coherent (es : list event) (s : panel) : Prop :=
  LibraryPages.editing (page_ s) = chosen es /\ opened (form_ s) = modalOpen (page_ s) /\
  editing (form_ s) = LibraryPages.editing (page_ s).

Lemma render_follows p p' m :
  opened m = modalOpen p -> editing m = LibraryPages.editing p ->
  opened (render p p' m) = modalOpen p' /\ editing (render p p' m) = LibraryPages.editing p' /\
  isPending (render p p' m) = isPending m.
Proof. intros H1 H2. unfold render. case_bool_decide as H; [destruct H; split_and!; congruence|done]. Qed.

Lemma typed_keeps e m m' rs :
  ProfileForm.exec e m = Some (m', rs) -> (forall o ed, e <> Props o ed) ->
  opened m' = opened m /\ editing m' = editing m.
Proof.
  intros H Hp. destruct e as [o ed|s|s|l| |ok]; [by destruct (Hp o ed)|..]; cbn [ProfileForm.exec] in H;
    destruct (opened m) eqn:Eo; repeat case_match; simplify_eq/=; done.
Qed.

Lemma exec_coherent es s e s' rs : coherent es s -> exec e s = Some (s', rs) -> coherent (es ++ [e]) s'.
Proof.
  intros (H1 & H2 & H3) He. unfold coherent, chosen. rewrite fold_left_app. fold (chosen es). cbn [fold_left].
  destruct e as [e|e|e]; cbn [exec] in He.
  - injection He as <- _. unfold move. cbn [page_ form_].
    destruct (render_follows (page_ s) (list_step e (page_ s)) (form_ s) H2 H3) as (R1 & R2 & _).
    split_and!; [|exact R1|exact R2]. destruct e; simpl; congruence.
  - assert (Hne : forall o ed, e <> Props o ed) by (intros o ed ->; done).
    assert (Hx : exists m r, ProfileForm.exec e (form_ s) = Some (m, r) /\
              (s' = move CloseEditor m s \/ s' = Panel (page_ s) m (removal s))).
    { destruct e; [done|..]; (destruct (ProfileForm.exec _ (form_ s)) as [[m r]|]; [|done]); cbn in He; injection He as <- _;
        exists m, r; (split; [done|]); try (by right); destruct ok; [by left|by right]. }
    destruct Hx as (m & r & Hm & Hs). destruct (typed_keeps _ _ _ _ Hm Hne) as [K1 K2].
    destruct Hs as [->| ->]; unfold move; cbn [page_ form_]; [|split_and!; congruence].
    destruct (render_follows (page_ s) (list_step CloseEditor (page_ s)) m) as (R1 & R2 & _); [congruence|congruence|].
    split_and!; [exact H1|exact R1|exact R2].
  - destruct (Confirm.exec _ _ _ e (removal s)) as [[d r]|]; [|done]. cbn in He. by injection He as <- _.
Qed.

(** In every history of the panel, the form on screen is titled by the row
    chosen last, and its submission is for that row: an update of the profile
    edited, or a new profile; with the values in the fields. *)
Lemma submits_chosen members profiles templates es s rs s' rs' pieces :
  run exec es initial = Some (s, rs) -> exec (Typed Submit) s = Some (s', rs') ->
  ProfilesPanel members profiles templates s = Some pieces ->
  exists v options, Form ["templates"; "profiles"; match chosen es with Some _ => "edit" | None => "create" end] v options false ∈ pieces /\
    rs' = [m_request (match chosen es with
                      | Some p => Library.useUpdateProfile (id p) (body v)
                      | None => Library.useCreateProfile (body v) end)].
Proof.
  intros Hr He Hv. assert (Hc : coherent es s).
  { revert s rs Hr He Hv. intros s rs Hr _ _. revert es s rs Hr.
    apply (run_history exec (fun es s _ => coherent es s)); [done|]. intros; by eapply exec_coherent. }
  destruct Hc as (H1 & H2 & H3). cbn [exec] in He.
  destruct (ProfileForm.exec Submit (form_ s)) as [[m r]|] eqn:Em; [|done]. cbn in He. injection He as <- <-.
  cbn [ProfileForm.exec] in Em. destruct (opened (form_ s)) eqn:Eo; [|done].
    destruct (isPending (form_ s)) eqn:Ep; [done|]. cbn [negb andb] in Em. destruct (negb _); [|done]. injection Em as <- <-.
  exists (form (form_ s)), (templates orelse []). split.
  - unfold ProfilesPanel in Hv. destruct (match profiles with Some _ => _ | None => _ end) as [tb|]; [|done].
    cbn in Hv. injection Hv as <-. unfold ProfileFormModal. rewrite Eo, Ep, H3, H1. set_solver.
  - unfold submit_request. rewrite H3, H1. by destruct (chosen es).
Qed.

(** A save that lands after the modal was closed on it closes the editor opened
    on another profile since. *)
Lemma late_save_closes_editor :
  let p i := MkProfile i i None (Some []) in
  let es := [Row (EditRow (p "a")); Typed Submit; Row CloseEditor; Row (EditRow (p "b")); Typed (SetName "typed")] in
  exists s rs s', run exec es initial = Some (s, rs) /\ modalOpen (page_ s) = true /\
    exec (Typed (Settled true)) s = Some (s', []) /\ modalOpen (page_ s') = false.
Proof. do 3 eexists. split; [vm_compute; reflexivity|]. split; [reflexivity|]. split; vm_compute; reflexivity. Qed.
End Profiles.

(** ** [components/DeviceActions.tsx] *)
Module DeviceActionsPanel.
Record actions := Actions {
  removal_ : dialog unit;
  testing : bool;
  result_ : option string;      (* [test.data.status] *)
  toasts : list (string * path);
}.
Definition initial : actions := Actions closed false None [].

Inductive event :=
| Test
| Tested (r : fetch_result)
| Removal (e : Confirm.event unit)
| RemoveFailed.

Section actions.
Context (tenantId deviceId : string).

Definition status (o : option json) : string := match o ≫= field "status" with Some (JStr s) => s | _ => "" end.
Definition exec (e : event) (s : actions) : option (actions * list request) :=
  match e with
  | Test => if testing s then None
            else Some (Actions (removal_ s) true None (toasts s),
                       [m_request (Devices.DeviceActions_test tenantId deviceId)])
  | Tested r =>
      if testing s
      then Some (match m_fn (Devices.DeviceActions_test tenantId deviceId) r with
                 | Returned d => Actions (removal_ s) false (Some (status d))
                                   (toasts s ++ [(status d, ["deviceActions"; "testNotification"])])
                 | Threw _ => Actions (removal_ s) false None (toasts s ++ [("", ["deviceActions"; "testFailed"])])
                 end, [])
      else None
  | Removal e =>
      '(d, rs) ← Confirm.exec CloseFirst true (fun _ => m_request (Devices.DeviceActions_remove tenantId deviceId)) e (removal_ s);
      Some (Actions d (testing s) (result_ s) (toasts s), rs)
  | RemoveFailed =>
      if pending (removal_ s)
      then Some (Actions (Confirm.Dialog (target (removal_ s)) false) (testing s) (result_ s)
                   (toasts s ++ [("", ["deviceActions"; "deleteFailed"])]), [])
      else None
  end.

Inductive piece :=
| WebGui (href : string)
| TestButton (busy : bool)
| DeleteButton
| Dialog (busy : bool)
| TestResult (status : string).

Definition DeviceActions (baseUrl : option string) (s : actions) : list piece :=
  match Link.safeWebGui baseUrl with Some h => [WebGui h] | None => [] end ++
  [TestButton (testing s); DeleteButton] ++
  match target (removal_ s) with Some _ => [Dialog (pending (removal_ s))] | None => [] end ++
  match result_ s with Some r => [TestResult r] | None => [] end.

(** The result on screen is the status of the last answer, and not while a
    newer test is under way. *)
Definition last_answer (es : list event) : option string :=
  fold_left (fun c e => match e with
                        | Test => None
                        | Tested r => match m_fn (Devices.DeviceActions_test tenantId deviceId) r with
                                      | Returned d => Some (status d) | Threw _ => None end
                        | _ => c
                        end) es None.

Lemma result_is_last es s rs baseUrl :
  run exec es initial = Some (s, rs) ->
  (forall r, TestResult r ∈ DeviceActions baseUrl s <-> last_answer es = Some r) /\
  (testing s = true -> last_answer es = None).
Proof using Type.
  intros Hr. assert (H : result_ s = last_answer es /\ (testing s = true -> result_ s = None)).
  { revert es s rs Hr. apply (run_history exec (fun es s _ => result_ s = last_answer es /\ (testing s = true -> result_ s = None)));
      [done|]. intros es s rs e s' rs' _ [H1 H2] He. unfold last_answer. rewrite fold_left_app.
    fold (last_answer es). cbn [fold_left]. destruct e as [|r|e|]; cbn [exec] in He.
    - destruct (testing s); [done|]. by injection He as <- _.
    - destruct (testing s); [|done]. injection He as <- _. cbn [m_fn Devices.DeviceActions_test]. by destruct (data_or_throw _ r).
    - destruct (Confirm.exec _ _ _ e _) as [[d q]|]; [|done]. cbn in He. by injection He as <- _.
    - destruct (pending _); [|done]. by injection He as <- _. }
  destruct H as [H1 H2]. rewrite <- H1. split; [|exact H2]. intros r. unfold DeviceActions.
  destruct (Link.safeWebGui baseUrl), (target (removal_ s)), (result_ s); split; intros H; simplify_eq; try seen H; shows.
Qed.
End actions.
End DeviceActionsPanel.

(** ** [pages/TemplateLibraryPage.tsx] *)
Module Library_.
Record Template := MkTemplate { t_id : string; t_name : string; t_kind : string; t_description : option string }.
Inductive piece :=
| SuperadminOnly
| NewButton
| Table (rows : list (list string))
| Empty
| FormModal (opened : bool) (editing : option Template)
| Dialog (busy : bool)
| ProfilesTab.

Definition row (p : Template) : list string := [t_name p; t_kind p; t_description p orelse ""].
Definition TemplateLibraryPage (isSuper : bool) (templates : option (list Template)) (p : list_page Template)
    (d : dialog Template) : list piece :=
  if negb isSuper then [SuperadminOnly] else
  [NewButton; match templates with Some ((_ :: _) as l) => Table (row <$> l) | _ => Empty end;
   FormModal (modalOpen p) (LibraryPages.editing p)] ++
  match target d with Some _ => [Dialog (pending d)] | None => [] end ++ [ProfilesTab].

(** The library is for superadmins: others see no template and no control. *)
Lemma library_gated isSuper templates p d x :
  x ∈ TemplateLibraryPage isSuper templates p d -> x <> SuperadminOnly -> isSuper = true.
Proof. destruct isSuper; [done|]. unfold TemplateLibraryPage. simpl. intros ->%list_elem_of_singleton. done. Qed.
End Library_.

(** ** [admin/RuntimeSettingsSection.tsx] *)
Module RuntimeView.
Import Runtime.
Inductive query_state := Loading | Error | Data.
Inductive control :=
| Switch_ (checked : bool)
| NumberInput (default_ : json) (value_ : option Z) (minimum maximum : option Z) (decimal : bool).
Record line := Line { k_ : string; label_ : string; help : option string; control_ : control }.
Inductive piece :=
| Loader
| LoadError
| Group_ (title : string) (lines : list line)
| SaveButton (busy disabled : bool)
| DiscardButton (disabled : bool)
| Impacts (l : list json).

Section view.
(** The bounds of a setting, and the texts of the dictionary. *)
Context (minimum maximum : RuntimeSettingOut -> option Z).
Context (groupLabels labels helps : list (string * string)).

(** [typeof v === "number" ? v : Number(v)], for the values the draft and the
    server have: numbers and booleans. *)
Definition number_of (v : json) : option Z :=
  match v with JNum n => Some n | JBool b => Some (Z.b2z b) | _ => None end.

Definition control_of (s : section_) (x : RuntimeSettingOut) : control :=
  if kind x === "bool" then Switch_ (bool_decide (valueOf s x = JBool true))
  else NumberInput (default_ x) (number_of (valueOf s x)) (minimum x) (maximum x) (kind x === "float").
Definition line_of (s : section_) (x : RuntimeSettingOut) : line :=
  Line (key x) (labelOf labels (key x)) (assoc (key x) helps) (control_of s x).
Definition groups_of (s : section_) : list piece :=
  (fun g => Group_ (assoc g groupLabels orelse g) (line_of s <$> filter (fun x => group x = g) (settings s))) <$>
  groups (settings s).
Definition is_dirty (s : section_) : bool := match dirtyKeys s with [] => false | _ => true end.

Definition RuntimeSettingsSection (q : query_state) (s : section_) : list piece :=
  match q with
  | Loading => [Loader]
  | Error => [LoadError]
  | Data =>
      groups_of s ++ [SaveButton (isPending s) (negb (is_dirty s))] ++
      (if is_dirty s then [DiscardButton (isPending s)] else []) ++
      match impacts s with [] => [] | l => [Impacts l] end
  end.

(** Saving is offered exactly when something on screen differs from what is
    stored, and the request then holds exactly the differing values. *)
Lemma save_offered s :
  NoDup (key <$> settings s) ->
  (SaveButton (isPending s) false ∈ RuntimeSettingsSection Data s <->
   exists x, x ∈ settings s /\ valueOf s x <> value x) /\
  (exec Save s <> None <-> is_dirty s = true /\ isPending s = false).
Proof using Type.
  intros Hn. split.
  - assert (Hd : is_dirty s = true <-> exists x, x ∈ settings s /\ valueOf s x <> value x).
    { unfold is_dirty. destruct (dirtyKeys s) as [|y l] eqn:E; (split; [try done|]).
      - intros (x & Hx & Hv). assert (x ∈ dirtyKeys s) as Hin; [|rewrite E in Hin; by apply not_elem_of_nil in Hin].
        apply list_elem_of_filter. split; [by apply dirty_iff|done].
      - intros _. exists y. assert (y ∈ dirtyKeys s) as Hin by (rewrite E; left).
        apply list_elem_of_filter in Hin as [Hy Hin]. split; [done|]. by apply dirty_iff.
      - done. }
    rewrite <- Hd. cbn [RuntimeSettingsSection]. rewrite elem_of_app. split.
    + intros [H|H].
      * apply list_elem_of_fmap in H as (g & ? & _). done.
      * destruct (is_dirty s), (impacts s); seen H.
    + intros ->. right. left.
  - cbn [exec]. unfold is_dirty. destruct (dirtyKeys s); [split; [done|by intros [? _]]|].
    destruct (isPending s); split; try done; by intros [_ ?].
Qed.

(** Every setting of a known group has its line, under its group and with its
    value, and the control that edits it; the lines come from settings only. *)
Lemma every_setting_listed s x :
  x ∈ settings s -> group x ∈ GROUP_ORDER ->
  exists ls, Group_ (assoc (group x) groupLabels orelse group x) ls ∈ RuntimeSettingsSection Data s /\ line_of s x ∈ ls.
Proof using Type.
  intros Hx Hg. exists (line_of s <$> filter (fun y => group y = group x) (settings s)). split.
  - cbn [RuntimeSettingsSection]. apply elem_of_app. left. apply list_elem_of_fmap. exists (group x). split; [done|].
    apply list_elem_of_filter. split; [|done]. apply list.Exists_exists. by exists x.
  - apply list_elem_of_fmap_2, list_elem_of_filter. done.
Qed.
End view.
End RuntimeView.
