(* ===== verification/Drawn.v ===== *)
(** * What forms, charts and device cards show

    [templates/OpnsenseSettingForm.tsx], [templates/FirewallRuleForm.tsx],
    [templates/MonitTestForm.tsx] and [templates/IdsRulesetForm.tsx] over the
    states of [TemplateEditor]; [monitoring/MetricChart.tsx] over [Charts];
    [components/LogForwardingCard.tsx] over [Fleet]; [plugins/PluginsTab.tsx];
    [pages/SmtpSettingsPage.tsx] over [AdminPages]; the filters of
    [pages/AuditPage.tsx]; and [security/RecoveryCodes.tsx] with its
    clipboard. *)
From S2P Require Import Prelude Machine JsString Json Http QueryClient Hooks TenantHooks PlatformHooks I18n Session SecondFactor Confirm Catalog Templates TemplateEditor AdminPages Fleet PluginsTab Charts Paging Views Screens.
From Stdlib Require Import ZArith.

Definition path := list string.

(** ** The forms of a template that read a device *)
Module PayloadForms.
Import Modal.

Inductive piece :=
| EndpointPicker (options : list (string * string)) (value : option string)
| NoDevice
| DevicePicker (options : list (string * string)) (value : option string)
| LoadButton (busy disabled : bool)
| LoadHint
| NothingFound                                   (* no fields, no rulesets *)
| Fields (controls : list (string * Field.control))
| Rulesets (options : list option_) (value : list string)
| AttachSystem_ (checked : bool)
| Note.

Definition or_none (s : string) : option string := if s === "" then None else Some s.

(** The device and the load button, or the text that there is no device. *)
Definition device_part (disabled : bool) (devices : list (string * string)) (c : child) : list piece :=
  match devices with
  | [] => [NoDevice]
  | _ => [DevicePicker devices (or_none (deviceId c)); LoadButton (loading c) disabled]
  end.
Definition AutoFormFields (p : gmap string string) (fs : list Payload.SettingField) : piece :=
  Fields ((fun f => (Payload.path f, Payload.AutoFormField p f)) <$> fs).

Definition OpnsenseSettingForm (endpoints devices : list (string * string)) (c : child) (m : modal) : list piece :=
  [EndpointPicker endpoints (or_none (endpoint_of m))] ++
  device_part ((endpoint_of m === "") || (deviceId c === "")) devices c ++
  [if negb (loaded c) then LoadHint
   else match fields c with [] => NothingFound | fs => AutoFormFields (payload_of FSetting m) fs end; Note].
Definition FirewallRuleForm (devices : list (string * string)) (c : child) (m : modal) : list piece :=
  device_part (deviceId c === "") devices c ++
  [if negb (loaded c) then LoadHint else AutoFormFields (payload_of FRule m) (fields c); Note].
Definition MonitTestForm (devices : list (string * string)) (c : child) (m : modal) : list piece :=
  device_part (deviceId c === "") devices c ++
  [if negb (loaded c) then LoadHint else AutoFormFields (payload_of FMonit m) (fields c);
   AttachSystem_ (bool_decide (payload_of FMonit m !! "attach_to_system" = Some "1")); Note].
Definition IdsRulesetForm (devices : list (string * string)) (c : child) (m : modal) : list piece :=
  device_part (deviceId c === "") devices c ++
  [if negb (loaded c) then LoadHint
   else match TemplateEditor.rows c with [] => NothingFound | rs => Rulesets (Policy.ids_rulesetData rs) (idsBody m) end; Note].

Definition view (f : pform) (endpoints devices : list (string * string)) (c : child) (m : modal) : list piece :=
  match f with
  | FSetting => OpnsenseSettingForm endpoints devices c m
  | FRule => FirewallRuleForm devices c m
  | FMonit => MonitTestForm devices c m
  | FIds => IdsRulesetForm devices c m
  | FPolicy => []
  end.

(** The load button takes a click exactly when the editor takes it: with a
    device, an endpoint where one is needed, and no load under way. *)
Lemma load_offered f endpoints devices c m :
  f <> FPolicy -> devices <> [] ->
  LoadButton false false ∈ view f endpoints devices c m <-> can_load f c m = true.
Proof.
  intros Hf Hd. destruct devices as [|dv devices]; [done|]. unfold can_load.
  assert (H : forall b d, LoadButton false false ∈
            [DevicePicker (dv :: devices) (or_none (deviceId c)); LoadButton b d] <-> b = false /\ d = false).
  { intros b d. rewrite !elem_of_cons, elem_of_nil. naive_solver. }
  destruct f; [| | | |done]; cbn [view]; unfold OpnsenseSettingForm, FirewallRuleForm, MonitTestForm, IdsRulesetForm, device_part;
    rewrite ?elem_of_app, ?H; rewrite ?elem_of_cons, ?elem_of_nil, ?andb_true_iff, ?negb_true_iff, ?orb_false_iff;
    destruct (loaded c), (fields c), (TemplateEditor.rows c); cbn [negb]; unfold AutoFormFields; naive_solver.
Qed.

(** Each field on screen shows the payload the editor would save. *)
Lemma fields_show_payload f endpoints devices c m cs p k v :
  Fields cs ∈ view f endpoints devices c m -> (p, k) ∈ cs -> payload_of f m !! p = Some v ->
  exists x, x ∈ fields c /\ Payload.path x = p /\ k = Payload.control_showing x v.
Proof.
  intros Hin Hk Hv.
  assert (H : cs = (fun x => (Payload.path x, Payload.AutoFormField (payload_of f m) x)) <$> fields c).
  { destruct f; cbn [view] in Hin; unfold OpnsenseSettingForm, FirewallRuleForm, MonitTestForm, IdsRulesetForm, device_part, AutoFormFields in Hin;
      destruct devices, (loaded c), (fields c), (TemplateEditor.rows c); seen Hin. }
  subst cs. apply list_elem_of_fmap in Hk as (x & [= -> ->] & Hx). exists x. split; [done|]. split; [done|].
  by apply Payload.AutoFormField_shows.
Qed.
End PayloadForms.

(** ** [monitoring/MetricChart.tsx] *)
Module ChartView.
Import Chart.
Definition PALETTE : list string := ["blue.6"; "teal.6"; "orange.6"; "grape.6"; "red.6"; "cyan.6"].
(** [PALETTE[i % PALETTE.length]] *)
Definition color_of (i : nat) : string := PALETTE !! (i mod 6) orelse "".

Section chart.
Context {V : Type}.
Inductive piece :=
| Title (t : string)
| NoData
| LineChart (data : list (row (V := V))) (series : list (string * string)) (legend formatted : bool).

Definition title_text (title : string) (unit_ : option string) (formatter : bool) : string :=
  title +:+ (if present unit_ && negb formatter then " (" +:+ (unit_ orelse "") +:+ ")" else "").
Definition MetricChart (title : string) (points : list MetricPoint) (unit_ : option string) (formatter : bool)
    (labelMap : list (string * string)) : list piece :=
  let c := toChartData labelMap points in
  [Title (title_text title unit_ formatter);
   match data c with
   | [] => NoData
   | rows => LineChart rows (imap (fun i n => (n, color_of i)) (series c)) (1 <? length (series c)) formatter
   end].

Lemma color_of_palette i : color_of i ∈ PALETTE.
Proof using Type.
  unfold color_of. assert (H : i mod 6 < 6) by (apply Nat.mod_upper_bound; lia).
  destruct (i mod 6) as [|[|[|[|[|[|n]]]]]]; try lia; cbn; set_solver.
Qed.

(** Up to six lines have six colours; there is a legend exactly when there are
    lines to tell apart; and no line is drawn without a colour. *)
Lemma lines_told_apart title points u b m rows ss lg fm :
  LineChart rows ss lg fm ∈ MetricChart title points u b m ->
  (lg = true <-> 1 < length ss) /\
  Forall (fun s => s.2 ∈ PALETTE) ss /\
  (forall i j s s', ss !! i = Some s -> ss !! j = Some s' -> i < 6 -> j < 6 -> s.2 = s'.2 -> i = j).
Proof using Type.
  intros Hin. unfold MetricChart in Hin. destruct (data _) as [|r rs]; seen Hin. rewrite length_imap.
  split_and!.
  - apply Nat.ltb_lt.
  - apply Forall_lookup_2. intros i [n c] Hi. rewrite list_lookup_imap in Hi.
    destruct (series _ !! i); simplify_eq/=. apply color_of_palette.
  - intros i j [n c] [n' c'] Hi Hj Hi6 Hj6 Hc. rewrite list_lookup_imap in Hi, Hj.
    apply fmap_Some in Hi as (n1 & _ & [= -> ->]). apply fmap_Some in Hj as (n2 & _ & [= -> ->]).
    cbn [snd] in Hc. unfold color_of in Hc. rewrite !Nat.mod_small in Hc by lia.
    do 6 (destruct i as [|i]; [do 6 (destruct j as [|j]; [done || discriminate Hc|]); lia|]). lia.
Qed.
End chart.
End ChartView.

(** ** [components/LogForwardingCard.tsx] *)
Module ForwardingView.
Import Forwarding.
Inductive piece :=
| Loader
| StatusBadge (color label : string)
| CertText (fingerprint : string)
| Expiry (color verb : string) (date : option Z)      (* [None]: an invalid date *)
| Liveness (color label : string)
| Rejected
| Button_ (b : button) (busy : bool)
| Dialog (a : Dialogs.action).

Section card.
Context (parse : string -> option Z) (now : Z) (zone_shift : Z -> Z -> Z).

(** [pending] says which of the four mutations are under way, [failed] whether
    the last run of one of them failed. *)
Definition LogForwardingCard (isLoading canWrite : bool) (s : option Status) (fingerprint : option string)
    (failed : bool) (pending : button -> bool) (confirm lifecycle : option Dialogs.action) : list piece :=
  if isLoading then [Loader] else
  [StatusBadge (badge s).1 (badge s).2] ++
  (if enabled s
   then [CertText ("Cert " +:+ match fingerprint with Some f => String.substring 0 12 f | None => "" end +:+ "…")] ++
        match expiry parse s with
        | Some e => [Expiry (expiry_color parse now zone_shift s) (if expired parse now s then "expired" else "expires") e]
        | None => []
        end ++
        [let l := liveness parse now (s ≫= last_log_at) in Liveness l.1 l.2]
   else []) ++
  (if failed then [Rejected] else []) ++
  ((fun b => Button_ b (pending b)) <$> buttons canWrite s) ++
  match confirm with Some a => [Dialog a] | None => [] end ++
  match lifecycle with Some a => [Dialog a] | None => [] end.

(** Every button on screen may be used by whoever sees it, and fits the state
    the badge names; nothing about a certificate is shown without one. *)
Lemma card_fits_state ld cw s fp fl pe cf lc :
  let view := LogForwardingCard ld cw s fp fl pe cf lc in
  (forall b busy, Button_ b busy ∈ view -> cw = true /\ (StatusBadge "green" "Enabled" ∈ view <-> b <> Enable)) /\
  (forall t, CertText t ∈ view -> StatusBadge "green" "Enabled" ∈ view).
Proof using Type.
  cbn zeta. unfold LogForwardingCard. destruct ld; [split; [intros b busy H|intros t H]; seen H|].
  assert (Hb : forall x, StatusBadge "green" "Enabled" ∈
     [StatusBadge (badge s).1 (badge s).2] ++ x <-> enabled s = true \/ StatusBadge "green" "Enabled" ∈ x).
  { intros x. rewrite elem_of_app, list_elem_of_singleton. unfold badge, revoked.
    destruct (enabled s); cbn [negb andb]; [naive_solver|]. destruct (present _); naive_solver. }
  assert (Hn : forall x y z w v, StatusBadge "green" "Enabled" ∈
     (if enabled s then [CertText x] ++ match expiry parse s with Some e => [Expiry y z e] | None => [] end ++ [Liveness w v] else []) ++
     (if fl then [Rejected] else []) ++ ((fun b => Button_ b (pe b)) <$> buttons cw s) ++
     match cf with Some a => [Dialog a] | None => [] end ++ match lc with Some a => [Dialog a] | None => [] end -> False).
  { intros x y z w v. rewrite !elem_of_app, list_elem_of_fmap.
    destruct (enabled s), (expiry parse s), fl, cf, lc; set_solver. }
  split.
  - intros b busy Hin. rewrite Hb. assert (Hx : b ∈ buttons cw s).
    { rewrite !elem_of_app, list_elem_of_fmap in Hin.
      destruct (enabled s), (expiry parse s), fl, cf, lc; set_solver. }
    apply buttons_spec in Hx as [Hc He]. split; [done|]. rewrite <- He. split; [|auto].
    intros [H|H]; [done|]. by apply Hn in H.
  - intros t Hin. rewrite Hb. left. rewrite !elem_of_app, list_elem_of_fmap in Hin.
    destruct (enabled s), fl, cf, lc; set_solver.
Qed.

(** A status that could not be loaded is drawn like a device without log
    forwarding, with the button that enables it. *)
Lemma failed_status_reads_disabled fp :
  LogForwardingCard false true None fp false (fun _ => false) None None =
  [StatusBadge "gray" "Disabled"; Button_ Enable false].
Proof using Type. reflexivity. Qed.
End card.
End ForwardingView.

(** ** [security/RecoveryCodes.tsx] *)
Module CodesView.
Import Codes.
Inductive piece := Warning | Code_ (c : string) | CopyButton | DownloadButton | DoneButton.
Definition RecoveryCodes (codes : list string) (onDone : bool) : list piece :=
  [Warning] ++ (Code_ <$> codes) ++ [CopyButton; DownloadButton] ++ (if onDone then [DoneButton] else []).

(** [navigator.clipboard?.writeText(text)]: a browser without a clipboard
    ([None]), or one whose clipboard accepts or refuses the text. *)
Definition copy (clipboard : option (string -> bool)) (codes : list string) : option string * option path :=
  match clipboard with
  | None => (None, Some ["mfa"; "copied"])
  | Some writeText =>
      if writeText (copyAll codes) then (Some (copyAll codes), Some ["mfa"; "copied"]) else (None, None)
  end.

(** With a clipboard, "copied" is shown exactly when the codes are in it. *)
Lemma copied_told writeText codes :
  (copy (Some writeText) codes).2 = Some ["mfa"; "copied"] <-> (copy (Some writeText) codes).1 = Some (copyAll codes).
Proof. unfold copy. by destruct (writeText _). Qed.

(** Without one (a page not served over TLS) it is shown though nothing was
    copied: the optional call yields [undefined], which does not throw. *)
Lemma copied_without_clipboard codes : copy None codes = (None, Some ["mfa"; "copied"]).
Proof. reflexivity. Qed.
End CodesView.

(** ** [plugins/PluginsTab.tsx] *)
Module PluginsView.
Import PluginsTab.
Inductive action := Install | Remove_ | Configure_.
Record line := Line { name_ : string; full_name : string; installed_ : bool; locked_ : bool; version_ : string; actions : list action }.
Inductive piece :=
| Loader
| LoadFailed
| SearchField (s : string)
| Table (l : list line)
| Empty
| ConfirmDialog (k : kind) (name : string) (busy : bool)
| Drawer (loading : bool) (model : option json).

Section view.
Context (lower : string -> string) (compare : string -> string -> Z) (canWrite : bool).

Definition action_of (k : kind) : action := match k with plugin_install => Install | plugin_remove => Remove_ end.
Definition actions_of (s : tab) (p : PluginInfo) : list action :=
  match row_action canWrite p with Some k => [action_of k] | None => [] end ++
  (if canWrite && installed p && bool_decide (is_Some (modelByPkg s (p_name p))) then [Configure_] else []).
Definition line_of (s : tab) (p : PluginInfo) : line :=
  Line (title (p_name p)) (p_name p) (installed p) (locked p) (if version p === "" then "—" else version p) (actions_of s p).

(** [live]: whether the model of the drawer loads, and its data. *)
Definition PluginsTab (isLoading isError : bool) (live : bool * option json) (s : tab) : list piece :=
  if isLoading then [Loader] else if isError then [LoadFailed] else
  let shown := rows lower compare (plugins s) (search s) in
  [SearchField (search s); Table (line_of s <$> shown)] ++
  (match shown with [] => [Empty] | _ => [] end) ++
  match confirm s with Some (k, n) => [ConfirmDialog k (title n) (createPending s)] | None => [] end ++
  match configureModel s with Some _ => [Drawer live.1 live.2] | None => [] end.

(** The buttons of a line are those the tab takes: an action exactly where
    asking opens its dialog, "configure" exactly where it opens the drawer. *)
Lemma buttons_taken activeId deviceId s p :
  row_of lower compare s (p_name p) = Some p ->
  (forall k, action_of k ∈ actions_of s p <->
     exists s', exec lower compare canWrite activeId deviceId (Ask (p_name p)) s = Some (s', []) /\
                confirm s' = Some (k, p_name p)) /\
  (Configure_ ∈ actions_of s p <->
     exists s', exec lower compare canWrite activeId deviceId (Configure (p_name p)) s = Some (s', []) /\
                configureModel s' = modelByPkg s (p_name p) /\ is_Some (modelByPkg s (p_name p))).
Proof using Type.
  intros Hp. destruct s as [pl mo se co cp re cm]. cbn [exec]. rewrite Hp. cbn [mbind option_bind].
  unfold actions_of. set (s := MkTab pl mo se co cp re cm). split.
  - intros k. destruct (row_action canWrite p) as [k'|]; cbn [app mbind option_bind].
    + rewrite elem_of_cons. split.
      * intros [Hk|Hk]; [|destruct (canWrite && _ && _); [|by apply not_elem_of_nil in Hk];
          apply list_elem_of_singleton in Hk; by destruct k].
        eexists. split; [reflexivity|]. cbn [confirm]. by destruct k, k'.
      * intros (s' & [= <-] & Hc). cbn [confirm] in Hc. injection Hc as ->. by left.
    + split; [|by intros (? & ? & _)]. intros Hk.
      destruct (canWrite && _ && _); [|by apply not_elem_of_nil in Hk]. apply list_elem_of_singleton in Hk. by destruct k.
  - destruct (canWrite && installed p) eqn:Ec; cbn [andb].
    + destruct (modelByPkg s (p_name p)) as [i|] eqn:Em; cbn [mbind option_bind].
      * rewrite bool_decide_true by done. split; [|intros _; apply elem_of_app; right; left].
        intros _. eexists. split; [reflexivity|]. done.
      * rewrite bool_decide_false by (by intros [? ?]). rewrite app_nil_r.
        split; [|by intros (? & ? & _)]. intros Hk.
        destruct (row_action canWrite p) as [[]|]; cbn in Hk; [apply list_elem_of_singleton in Hk|apply list_elem_of_singleton in Hk|apply not_elem_of_nil in Hk]; done.
    + rewrite app_nil_r. split; [|by intros (? & ? & _)]. intros Hk.
      destruct (row_action canWrite p) as [[]|]; cbn in Hk; [apply list_elem_of_singleton in Hk|apply list_elem_of_singleton in Hk|apply not_elem_of_nil in Hk]; done.
Qed.
End view.
End PluginsView.

(** ** [pages/SmtpSettingsPage.tsx] *)
Module SmtpView.
Import Smtp.
Inductive piece :=
| SuperadminOnly
| Enabled_ (b : bool)
| HostField (s : string)
| PortField (v : json)
| SecuritySelect (options : list string) (v : option string)
| AuthMethod (v : string)
| ProviderSelect (v : option string)
| ClientId (s : string)
| SecretField (k : secret) (kept : bool) (typed : string)     (* [kept]: a stored one, never shown *)
| TenantId (s : string)
| ConnectButton (microsoft busy : bool)
| NeedsCredentials
| Username (s : string)
| FromEmail (s : string)
| FromName (s : string)
| SaveButton (busy : bool)
| Recipient (s : string)
| TestButton (busy disabled : bool).

Definition stored_secret (d : option SmtpSettingsOut) (k : secret) : bool :=
  match d with
  | Some o => match k with
              | password => has_password o | oauth_client_secret => has_client_secret o
              | oauth_refresh_token => has_refresh_token o
              end
  | None => false
  end.
(** Client credentials are stored. *)
Definition can_connect (d : option SmtpSettingsOut) : bool :=
  match d with Some o => has_client_secret o && negb ((o_oauth_client_id o orelse "") === "") | None => false end.

Definition secret_field (p : page) (k : secret) : piece := SecretField k (stored_secret (stored p) k) (secrets (form p) k).
Definition oauth_part (p : page) : list piece :=
  let v := form p in
  [ProviderSelect (oauth_provider v); ClientId (oauth_client_id v);
   secret_field p oauth_client_secret; secret_field p oauth_refresh_token] ++
  (if isMicrosoft v then [TenantId (oauth_tenant_id v)] else []) ++
  (if can_connect (stored p) then [ConnectButton (isMicrosoft v) (connectPending p)] else [NeedsCredentials]).
Definition SmtpSettingsPage (isSuper : bool) (p : page) : list piece :=
  if negb isSuper then [SuperadminOnly] else
  let v := form p in
  [Enabled_ (enabled v); HostField (host v); PortField (port v);
   SecuritySelect ["starttls"; "tls"; "none"] (security v); AuthMethod (auth_method v)] ++
  (if isOauth v then oauth_part p else [Username (username v); secret_field p password]) ++
  [FromEmail (from_email v); FromName (from_name v); SaveButton (savePending p); Recipient (testTo p);
   TestButton (testPending p) (testTo p === "")].

(** The button that connects to the provider is there, and free, exactly when
    the page takes the click. *)
Lemma connect_offered p m :
  m = isMicrosoft (form p) ->
  ConnectButton m false ∈ SmtpSettingsPage true p <-> exists r, exec Connect p = Some r.
Proof.
  intros ->. destruct p as [v i d to s t c]. cbn [SmtpSettingsPage negb exec form]. unfold oauth_part, can_connect.
  cbn [stored connectPending form]. destruct (isOauth v), (isMicrosoft v), d as [o|]; cbn [andb];
    try (destruct (has_client_secret o), (negb ((o_oauth_client_id o orelse "") === "")), c; cbn [andb negb]);
    (split; [intros H; seen H; by eexists|intros [r Hr]; try done; shows]).
Qed.

(** A stored secret is never on screen: a field holds what was typed into it. *)
Lemma secrets_not_shown p k kept s : SecretField k kept s ∈ SmtpSettingsPage true p -> s = secrets (form p) k.
Proof.
  destruct p as [v i d to sv t c]. cbn [SmtpSettingsPage negb form]. unfold oauth_part, secret_field. cbn [form stored connectPending].
  intros H. destruct (isOauth v), (isMicrosoft v), (can_connect d); seen H.
Qed.

(** The fields of the method that is not selected are hidden, and with them
    what was typed into their secrets. *)
Lemma method_fields p k kept s :
  SecretField k kept s ∈ SmtpSettingsPage true p -> isOauth (form p) = bool_decide (k <> password).
Proof.
  destruct p as [v i d to sv t c]. cbn [SmtpSettingsPage negb form]. unfold oauth_part, secret_field. cbn [form stored connectPending].
  intros H. destruct (isOauth v), (isMicrosoft v), (can_connect d); seen H.
Qed.
End SmtpView.

(** ** The filters of [pages/AuditPage.tsx] *)
Module AuditFilters.
Import AuditPage.
Inductive piece :=
| ExportButton
| TextFilter (label : path) (value : string)
| DateFilter (label : path) (value : option string)
| ApplyButton
| ResetButton.
Definition l (k : string) : path := ["audit"; "filters"; k].
Definition filter_bar (d : drafts) : list piece :=
  [ExportButton; TextFilter (l "actor") (actorEmail d); TextFilter (l "tenant") (tenant_ d);
   TextFilter (l "action") (action_ d); DateFilter (l "from") (from_ d); DateFilter (l "to") (to_ d);
   ApplyButton; ResetButton].

(** The bar shows the drafts of the history: two drafts that look the same are
    the same, and after a reset it is the bar of a fresh page. *)
Lemma bar_shows_drafts d d' : filter_bar d = filter_bar d' -> d = d'.
Proof. destruct d, d'. intros H. by injection H as -> -> -> -> ->. Qed.
Lemma reset_clears_bar zone p p' :
  exec zone ResetFilters p = Some p' -> filter_bar (draft p') = filter_bar (draft initial).
Proof. cbn [exec]. by intros [= <-]. Qed.
End AuditFilters.
